(* ===== verification/_CoqProject ===== *)
-Q . S2P
Prelude.v
Memory.v
StringLib.v
Misc.v
Vsprintf.v
Heap.v
OsLoader.v
Elf.v
Net.v
Lacp.v
Nic.v
Tftp.v
Bootp.v
Tcp.v
Slam.v
Dns.v
Main.v
Basemem.v
Nbi.v
Pci.v
Http.v
Disk.v
Nfs.v
Fsp.v
Tftm.v
Boot.v
PxeStack.v
PxeApi.v
PxeTftp.v
Loaders.v
Ports.v
IdePio.v
Console.v
Rtl8139.v
Pic.v
Isapnp.v
