(* ===== verification/Prelude.v ===== *)
(** * Etherboot: a verification library

    Etherboot is a boot loader.  Placed in the ROM of a network card, or on a disk, it finds a device, configures itself over
    the network, fetches an image and starts it.  This library is a model of its core, [src/src/core] with the i386 parts that the core
    depends on, and theorems about it.  This file is the root: it describes the whole, and holds what all files share.

    ** The program and its model

    The program is one thread.  [main] runs a restart loop: it asks what to boot, finds the next device of the type chosen
    ([probe]), configures it ([eth_load_configuration]), loads the image ([eth_load], [disk_load]) and starts it; a failure or
    a key jumps back to the loop with [longjmp].  A network load goes through [loadkernel], which picks a download protocol from the URL.
    The protocols send with [ip_transmit] and wait with [await_reply], which polls the card and serves ARP, IGMP and LACP
    meanwhile.  What they receive goes block by block to [load_block], which hands it to the image format that claimed the first block.

    - [Prelude]: machine integers (a w-bit integer is a [Z], each truncation of the source written out), tactics, hints.
    - [Memory]: memory as a function from addresses to bytes, loads and stores of every width, C strings, bounded loops.
    - [StringLib]: [string.c] and the character macros of [string.h].
    - [Misc]: [misc.c]: checksums, random numbers, numbers and addresses as text, guarded regions, interruptions.
    - [Vsprintf]: [vsprintf.c].
    - [Heap]: [heap.c], and the address that [relocate.c] picks.
    - [OsLoader]: [osloader.c]: segments, the choice of a format, the stream of blocks.  [Elf]: [elf_loader.c], both classes.  [Nbi]:
      [arch/i386/core/tagged_loader.c].
    - [Net]: the state of [nic.c] ([world]), the hardware ([Env]), the monad [M], packets and their checks, retransmission intervals.
      [Lacp]: [proto_eth_slow.c].  [Nic]: [ip_transmit], IGMP and [await_reply] of [nic.c].
    - [Tftp], [Bootp] (with DHCP and RARP), [Tcp]: the rest of [nic.c].
    - [Slam], [Dns], [Http], [Nfs], [Fsp], [Tftm]: [proto_slam.c], [dns_resolver.c], [proto_http.c] (over [Tcp]), [nfs.c], [proto_fsp.c] and
      [proto_tftm.c].
    - [Boot]: [loadkernel] of [main.c] with its seven protocols, [eth_load] and [eth_load_configuration] of [nic.c].
    - [Main]: the restart loop of [main.c], for any boot order of the build.
    - [Pci]: [config.c], [pci.c], [pci_probe.c], [isa_probe.c].
    - [Disk]: [disk.c], and the read functions of [drivers/disk/ide_disk.c] and [pc_floppy.c].  [IdePio] (over [Ports]): the transfers of
      [ide_disk.c].
    - [Basemem]: [basemem.c] and [memsizes.c] of [arch/i386/firmware/pcbios].
    - [PxeStack]: the stack that a booted program may call, [pxe_callbacks.c] and [hidemem.c], with its states and the interrupt
      vectors; [PxeApi]: its calls, [pxe_export.c]; [PxeTftp]: what the calls that transfer files deliver.
    - [Loaders]: of [arch/i386/core], [multiboot_loader.c], [aout_loader.c], [pxe_loader.c] and the parameter block of [elf.c].
    - [Ports]: programs that reach the hardware through ports, the timer of [i386_timer.c] and [timer.c], the configuration space of
      [arch/i386/core/pci_io.c] and the rest of [pci.c].  [Console]: [pc_kbd.c] and [serial.c].  [Rtl8139]: [drivers/net/rtl8139.c].
      [Pic]: [arch/i386/core/pic8259.c].  [Isapnp]: [isapnp.c].

    Definitions have the names of the C functions; the parts of a long function (a loop, a branch that is used again) are
    definitions of their own.  Variables whose address is taken, or that a callback shares, lie in memory, at addresses that the
    model chooses; the others are parameters, or members of a record.  The types are those of i386: [long] has 32 bits, [char] is
    signed, words are little endian.  The build is one with DHCP, DNS, the download protocols above, multicast, LACP and
    [CONGESTED]; its boot devices are members of [Services].

    Functions of the network are in the monad [M]: state passing over [world], with an option for running out of fuel and two outcomes,
    a value or a [longjmp].  The card, the clock and the keyboard are the class [Env]: what each poll and reading gives, with
    the one assumption that the driver never delivers more than a maximum frame.  Frames sent are logged, and the theorems say
    which they are.  Interfaces between components are classes and records too: the image formats behind [probe_image], the services that the
    main loop calls ([Services]), the drives behind [disk_read] ([Drive], of which the IDE and the floppy driver are instances),
    the configuration space and the drivers behind [probe], the callbacks of [tcp_transaction].  A callback of TFTP is described by
    what it does with each block ([block_consumer]); the transfer theorem is about any such callback.

    The PXE calls run in a monad of their own ([PX]) over a machine ([psys]) that has the network, base memory, the heap, the
    card and its probing, and the state of the stack; what the build and the BIOS decide is the class [Platform], what the
    drivers do to the card [Attaches], and what is around the stack [Surroundings].

    Code that drives a device runs in the monad [io] over its variables, the memory and the hardware; a [Bus] says what each access to a port does, which
    may be to change the memory.  What is known of a device is a class over its bus: [Bridge] (the PCI host bridge), [Controller] (the interrupt controllers), [Answers] (a read port of Plug and Play),
    [Kbd.Keyboard], [Serial.Uart], [Ata] (an IDE drive), and for the RTL8139 [Receiver] and [Transmitter].

    ** What the theorems show

    - Downloads: against a server that behaves, each client fetches the whole file, byte for byte, and sends exactly the packets that
      its protocol asks for ([tftp_transfers], [slam_receives], [tftm_receives], [http_fetches], [nfs_fetches], [fsp_fetches], [dns_resolves], and
      [boot_over_tftp], from the boot file name of the reply to the last block).  TCP delivers each byte of a stream once and in order,
      whatever segments it comes in, and keeps its invariant in every reachable state.
    - Loading: a stream cut into blocks in any way leaves every segment of an ELF or NBI image in its place, and the search for a
      Multiboot header finds what a search of the whole image finds; a.out needs blocks that divide a page; segments
      that are accepted lie in RAM, clear of Etherboot and the heap; a disk is searched for images as the abstract search says, and read
      correctly through either driver, down to the ports for IDE.
    - The network engine: datagrams that are built are accepted, routed and resolved; waiting ends; the intervals are bounded;
      ARP and LACP answer as they must.
    - Options, names, acknowledgements: the decoders and encoders refine definitions of what the packets mean, or are inverse to
      each other.
    - Memory: heap and base memory blocks are disjoint and can be given back; the memory map is what the BIOS gave less what is taken.
    - Control: the restart loop tries the devices in order for ever and never calls a missing one, unless a user asks
      for a disk in a build without one; probing finds each device once (but for one place on the bus).
    - PXE: every call refines a step of an abstract machine of three states, so that in any session the card is never up
      without Etherboot hidden from the memory map; hooking and unhooking restores them; the tables are well formed; a file that is read is in the caller's buffer.
    - Devices: polling the RTL8139 removes the first packet of a queue, sending gives it one frame, and both end; the serial line is set up as asked; the
      keyboard gives the characters of the codes that were typed; the size of a PCI region is found and its register restored;
      the interrupt handler is installed and removed without a trace; the isolation of Plug and
      Play cards accepts exactly the serial numbers whose checksum is right.
    - Errors: where the code does not do what it means to, a theorem states what it does.

    A theorem that has hypotheses is followed by a witness, an instance of it on concrete data.

    ** Fuel

    A loop that is not structural takes a number of rounds, and running out of it is a result of its own ([None]), never a value of
    the program.  Theorems that promise a result give the fuel: one round for each packet or block expected, or more, and the length of the
    longest string that is scanned.  Where the code itself may loop for ever (a pointer to itself
    in a DNS name, an unknown option of a multicast server, an unaligned search of a disk), a theorem says that no fuel is enough.

    ** What is not modelled

    The drivers of network cards but the RTL8139, port I/O of the floppy and PCMCIA controllers and the search for IDE controllers, the BIOS32 service and the clock of
    CONFIG_TSC_CURRTICKS: the core sees these devices only through the interfaces above.  Text written to the console.  Assembler and real-mode calls, and starting the image: the code that is copied
    for the PXE stack is a list of bytes, and the program that is started a parameter.  WinCE images, and the symbols of a
    FreeBSD kernel.  The FILO file systems and other architectures. *)

From Stdlib Require Export ZArith Lia Bool List Zbitwise.
From Stdlib Require Export Setoid Morphisms.
Export ListNotations.
Set Default Goal Selector "!".

Declare Scope etherboot_scope.
Delimit Scope etherboot_scope with eb.
Open Scope Z_scope.

(** ** Machine integers *)

(** Truncation to an unsigned type of 8, 16, 32 and 64 bits. *)
Definition u8 (x : Z) : Z := x mod 256.
Definition u16 (x : Z) : Z := x mod 65536.
Definition u32 (x : Z) : Z := x mod 4294967296.
Definition u64 (x : Z) : Z := x mod 18446744073709551616.

(** Conversion to a signed type ([signed char], [short], [int], [long]). *)
Definition s8 (x : Z) : Z := if u8 x <? 128 then u8 x else u8 x - 256.
Definition s16 (x : Z) : Z := if u16 x <? 32768 then u16 x else u16 x - 65536.
Definition s32 (x : Z) : Z := if u32 x <? 2147483648 then u32 x else u32 x - 4294967296.

(** [~x] on a 16 or 32 bit operand. *)
Definition not16 (x : Z) : Z := 65535 - u16 x.
Definition not32 (x : Z) : Z := 4294967295 - u32 x.

(** [x & ~(2^k-1)] for an unsigned [x]: clear the low [k] bits. *)
Definition align_down (x a : Z) : Z := x - x mod a.

Definition ULONG_MAX : Z := 4294967295.

(** A C condition: nonzero is true. *)
Definition istrue (x : Z) : bool := negb (x =? 0).
Definition b2z (b : bool) : Z := if b then 1 else 0.

(** The development's arithmetic tactics: unfold the truncations and let [lia] reason
    about quotients and remainders. *)
Ltac unfold_ints := unfold u8, u16, u32, u64, not16, not32, align_down, ULONG_MAX in *.
Ltac pow_consts :=
  repeat match goal with
    | |- context [2 ^ Zpos ?n] => let v := eval vm_compute in (2 ^ Zpos n) in
                                  change (2 ^ Zpos n) with v
    | H : context [2 ^ Zpos ?n] |- _ => let v := eval vm_compute in (2 ^ Zpos n) in
                                  change (2 ^ Zpos n) with v in H
    end.
Ltac zmod := unfold_ints; pow_consts; Z.div_mod_to_equations; lia.
Ltac znl := unfold_ints; pow_consts; Z.div_mod_to_equations; nia.

(** Case analysis on the boolean tests of the code, as facts on integers. *)
Ltac case_test :=
  match goal with
  | |- context [?a =? ?b] => destruct (Z.eqb_spec a b)
  | |- context [?a <? ?b] => destruct (Z.ltb_spec a b)
  | |- context [?a <=? ?b] => destruct (Z.leb_spec a b)
  | |- context [?a >? ?b] => rewrite (Z.gtb_ltb a b)
  | |- context [?a >=? ?b] => rewrite (Z.geb_leb a b)
  end.
Ltac case_test_in H :=
  match type of H with
  | context [?a =? ?b] => destruct (Z.eqb_spec a b)
  | context [?a <? ?b] => destruct (Z.ltb_spec a b)
  | context [?a <=? ?b] => destruct (Z.leb_spec a b)
  | context [?a >? ?b] => rewrite (Z.gtb_ltb a b) in H
  | context [?a >=? ?b] => rewrite (Z.geb_leb a b) in H
  end.
Ltac case_tests := repeat (case_test; cbn [andb orb negb] in *).

Create HintDb ebdb.

(** Sequencing of computations that may run out of fuel or fail. *)
Definition obind {A B} (c : option A) (k : A -> option B) : option B :=
  match c with
  | Some a => k a
  | None => None
  end.
Notation "'let*' x ':=' c 'in' k" := (obind c (fun x => k))
  (at level 10, x name, c at level 200, k at level 200) : etherboot_scope.
Notation "'let*' ' x ':=' c 'in' k" := (obind c (fun x => k))
  (at level 10, x strict pattern, c at level 200, k at level 200)
  : etherboot_scope.
Lemma obind_Some {A B} (c : option A) (k : A -> option B) b :
  obind c k = Some b <-> exists a, c = Some a /\ k a = Some b.
Proof.
  destruct c as [a|]; cbn; split; [eauto | now intros (a' & [= ->] & H) | discriminate |].
  now intros (a' & H & _).
Qed.

Lemma u8_range x : 0 <= u8 x < 256.
Proof. zmod. Qed.
Lemma u16_range x : 0 <= u16 x < 65536.
Proof. zmod. Qed.
Lemma u32_range x : 0 <= u32 x < 4294967296.
Proof. zmod. Qed.
Lemma u8_small x : 0 <= x < 256 -> u8 x = x.
Proof. apply Z.mod_small. Qed.
Lemma u16_small x : 0 <= x < 65536 -> u16 x = x.
Proof. apply Z.mod_small. Qed.
Lemma u32_small x : 0 <= x < 4294967296 -> u32 x = x.
Proof. apply Z.mod_small. Qed.
Lemma u64_small x : 0 <= x < 18446744073709551616 -> u64 x = x.
Proof. apply Z.mod_small. Qed.
Lemma u32_odd x : Z.odd (u32 x) = Z.odd x.
Proof.
  unfold u32. rewrite Z.mod_eq, Z.odd_sub, Z.odd_mul by lia. now rewrite xorb_false_r.
Qed.
Lemma u8_u8 x : u8 (u8 x) = u8 x.
Proof. apply u8_small, u8_range. Qed.
Lemma s8_range x : -128 <= s8 x < 128.
Proof. unfold s8. pose proof (u8_range x). case_tests; lia. Qed.
Lemma s8_u8 x : s8 (u8 x) = s8 x.
Proof. unfold s8. now rewrite u8_u8. Qed.
#[export] Hint Resolve u8_range u16_range u32_range s8_range : ebdb.

(** The signed difference of two distinct characters never truncates to zero. *)
Lemma s8_inj x y : s8 x = s8 y -> u8 x = u8 y.
Proof. unfold s8. pose proof (u8_range x). pose proof (u8_range y). case_tests; lia. Qed.
Lemma s8_sub_zero x y : s8 (s8 x - s8 y) = 0 <-> u8 x = u8 y.
Proof.
  unfold s8. pose proof (u8_range x). pose proof (u8_range y).
  split; [|intros ->; now rewrite Z.sub_diag].
  case_tests; zmod.
Qed.

(** *** Masks and shifts as arithmetic *)

Lemma land_ones_mod x n : 0 <= n -> Z.land x (2 ^ n - 1) = x mod 2 ^ n.
Proof. intros. rewrite <- Z.land_ones, Z.ones_equiv by lia. now rewrite Z.sub_1_r. Qed.
Lemma land_ff x : Z.land x 0xff = x mod 256.
Proof. apply (land_ones_mod x 8); lia. Qed.
Lemma land_ffff x : Z.land x 0xffff = x mod 65536.
Proof. apply (land_ones_mod x 16); lia. Qed.
Lemma land_1 x : Z.land x 1 = x mod 2.
Proof. apply (land_ones_mod x 1); lia. Qed.
Lemma land_7 x : Z.land x 7 = x mod 8.
Proof. apply (land_ones_mod x 3); lia. Qed.
Lemma land_f x : Z.land x 0xf = x mod 16.
Proof. apply (land_ones_mod x 4); lia. Qed.
Lemma land_1f x : Z.land x 0x1f = x mod 32.
Proof. apply (land_ones_mod x 5); lia. Qed.
Lemma shiftr_div x n : 0 <= n -> Z.shiftr x n = x / 2 ^ n.
Proof. apply Z.shiftr_div_pow2. Qed.
Lemma shiftl_mul x n : 0 <= n -> Z.shiftl x n = x * 2 ^ n.
Proof. apply Z.shiftl_mul_pow2. Qed.
Lemma lnot_add x : Z.lnot x = - x - 1.
Proof. unfold Z.lnot. lia. Qed.

(** Selecting one byte in place. *)
Lemma land_byte_mask x k :
  0 <= k -> Z.land x (Z.shiftl 0xff k) = (x / 2 ^ k mod 256) * 2 ^ k.
Proof.
  intros Hk. rewrite <- land_ff, <- shiftr_div, <- shiftl_mul by lia.
  apply Z.bits_inj'. intros i Hi. rewrite Z.land_spec, !Z.shiftl_spec by lia.
  destruct (Z.lt_ge_cases i k).
  - now rewrite !(Z.testbit_neg_r _ (i - k)), andb_false_r by lia.
  - rewrite Z.land_spec, Z.shiftr_spec by lia. now rewrite Z.sub_add.
Qed.

(** Disjoint bit ranges: [hi * 2^n | lo] is [hi * 2^n + lo]. *)
Lemma lor_disjoint hi lo n :
  0 <= n -> 0 <= lo < 2 ^ n -> Z.lor (hi * 2 ^ n) lo = hi * 2 ^ n + lo.
Proof.
  intros Hn Hlo. rewrite <- Z.lxor_lor, Z.add_nocarry_lxor; [reflexivity| |];
    (apply Z.bits_inj'; intros i Hi; rewrite Z.land_spec, Z.bits_0;
     destruct (Z.lt_ge_cases i n) as [Hin|Hin];
     [ rewrite Z.mul_pow2_bits_low by lia; reflexivity
     | rewrite <- (Z.mod_small lo (2 ^ n)) by lia;
       rewrite Z.mod_pow2_bits_high by lia; apply andb_false_r ]).
Qed.
(** The same with the power of two written out. *)
Lemma lor_add n b hi lo :
  0 <= n -> b = 2 ^ n -> 0 <= lo < b -> Z.lor (hi * b) lo = hi * b + lo.
Proof. intros Hn -> H. now apply lor_disjoint. Qed.

Lemma Some_triple_inj {A B C} (a a' : A) (b b' : B) (c c' : C) :
  Some (a, b, c) = Some (a', b', c') -> a = a' /\ b = b' /\ c = c'.
Proof. intros H. repeat split; congruence. Qed.

(** ** Lists *)

Lemma Forall_firstn {A} (P : A -> Prop) n l : Forall P l -> Forall P (firstn n l).
Proof. intros H. rewrite <- (firstn_skipn n l) in H. now apply Forall_app in H. Qed.
Lemma Forall_skipn {A} (P : A -> Prop) n l : Forall P l -> Forall P (skipn n l).
Proof. intros H. rewrite <- (firstn_skipn n l) in H. now apply Forall_app in H. Qed.

Lemma s32_range x : -2147483648 <= s32 x < 2147483648.
Proof. unfold s32. pose proof (u32_range x). destruct (Z.ltb_spec (u32 x) 2147483648); lia. Qed.
Lemma s32_small x : -2147483648 <= x < 2147483648 -> s32 x = x.
Proof.
  intros H. unfold s32, u32. destruct (Z.ltb_spec (x mod 4294967296) 2147483648);
    Z.div_mod_to_equations; lia.
Qed.

Lemma s32_ext x y : x mod 4294967296 = y mod 4294967296 -> s32 x = s32 y.
Proof. unfold s32, u32. now intros ->. Qed.
Lemma s32_mod x : (x - s32 x) mod 4294967296 = 0.
Proof. unfold s32, u32. destruct (_ <? _); Z.div_mod_to_equations; lia. Qed.

Lemma firstn_add_split {A} n k (l : list A) : firstn (n + k) l = firstn n l ++ firstn k (skipn n l).
Proof. revert l. induction n as [|n IH]; intros l; [reflexivity|]. destruct l as [|x l]; [now destruct k|]. cbn. now rewrite IH. Qed.
Lemma app_split_length {A} (a c b d : list A) :
  length a = length c -> a ++ b = c ++ d -> a = c /\ b = d.
Proof.
  revert c. induction a as [|x a IH]; intros [|y c]; cbn; try discriminate; [auto|].
  intros [= Hl] [= -> H]. destruct (IH c Hl H) as [-> ->]. auto.
Qed.

(** A decidable property of a byte is checked on the 256 values. *)
Definition all_below (n : nat) (P : Z -> bool) : bool := forallb (fun i => P (Z.of_nat i)) (seq 0 n).
Lemma all_below_spec n P : all_below n P = true -> forall c, 0 <= c < Z.of_nat n -> P c = true.
Proof.
  unfold all_below. rewrite forallb_forall. intros H c Hc.
  rewrite <- (Z2Nat.id c) by lia. apply H, in_seq. lia.
Qed.
