(* ===== verification/Memory.v ===== *)
(** Byte-addressed memory, C strings and bounded loops: the vocabulary in which every component
    is written.  A memory is a total function from addresses to cells; a load truncates the cell
    to a byte, so theorems quantify over every content, including that of memory the program
    never wrote.  Addresses are integers; an object of the program is a range of them. *)

From S2P Require Import Prelude.

Definition mem : Type := Z -> Z.

Definition ld8 (m : mem) (a : Z) : Z := u8 (m a).
Definition st8 (m : mem) (a v : Z) : mem := fun x => if x =? a then u8 v else m x.

(** Little-endian halfwords and words, as the i386 target loads and stores them. *)
Definition ld16 (m : mem) (a : Z) : Z := ld8 m a + 256 * ld8 m (a + 1).
Definition ld32 (m : mem) (a : Z) : Z := ld16 m a + 65536 * ld16 m (a + 2).
Definition st16 (m : mem) (a v : Z) : mem := st8 (st8 m a v) (a + 1) (v / 256).
Definition st32 (m : mem) (a v : Z) : mem := st16 (st16 m a v) (a + 2) (v / 65536).

(** The bytes of a range, and storing a list of bytes. *)
Fixpoint ldn (m : mem) (a : Z) (n : nat) : list Z :=
  match n with
  | O => []
  | S n' => ld8 m a :: ldn m (a + 1) n'
  end.
Fixpoint stn (m : mem) (a : Z) (bs : list Z) : mem :=
  match bs with
  | [] => m
  | b :: bs' => stn (st8 m a b) (a + 1) bs'
  end.

(** Two memories are equivalent when they hold the same bytes. *)
Definition mem_eq (m1 m2 : mem) : Prop := forall a, ld8 m1 a = ld8 m2 a.
Infix "≡m" := mem_eq (at level 70, no associativity) : etherboot_scope.
Open Scope etherboot_scope.

#[export] Instance mem_eq_equiv : Equivalence mem_eq.
Proof.
  split; [now intros m a | now intros m1 m2 H a | intros m1 m2 m3 H1 H2 a].
  now rewrite H1.
Qed.

#[export] Instance ld8_proper : Proper (mem_eq ==> eq ==> eq) ld8.
Proof. intros m1 m2 H a ? <-. apply H. Qed.

Lemma ld8_st8_eq m a v : ld8 (st8 m a v) a = u8 v.
Proof. unfold ld8, st8. rewrite Z.eqb_refl. apply u8_u8. Qed.
Lemma ld8_st8_ne m a b v : a <> b -> ld8 (st8 m a v) b = ld8 m b.
Proof. intros H. unfold ld8, st8. destruct (Z.eqb_spec b a); congruence. Qed.
Lemma ld8_st8 m a b v : ld8 (st8 m a v) b = if b =? a then u8 v else ld8 m b.
Proof.
  destruct (Z.eqb_spec b a) as [->|H]; [apply ld8_st8_eq|]. apply ld8_st8_ne. congruence.
Qed.
Lemma ld8_range m a : 0 <= ld8 m a < 256.
Proof. apply u8_range. Qed.
Lemma u8_ld8 m a : u8 (ld8 m a) = ld8 m a.
Proof. apply u8_u8. Qed.
Lemma ld16_range m a : 0 <= ld16 m a < 65536.
Proof. unfold ld16. pose proof (ld8_range m a). pose proof (ld8_range m (a + 1)). lia. Qed.
Lemma ld32_range m a : 0 <= ld32 m a < 4294967296.
Proof. unfold ld32. pose proof (ld16_range m a). pose proof (ld16_range m (a + 2)). lia. Qed.
Lemma ld16_ext m1 m2 a :
  (forall x, a <= x < a + 2 -> ld8 m1 x = ld8 m2 x) -> ld16 m1 a = ld16 m2 a.
Proof. intros H. unfold ld16. now rewrite !H by lia. Qed.
Lemma ld32_ext m1 m2 a :
  (forall x, a <= x < a + 4 -> ld8 m1 x = ld8 m2 x) -> ld32 m1 a = ld32 m2 a.
Proof. intros H. unfold ld32. now rewrite !(ld16_ext m1 m2) by (intros; apply H; lia). Qed.
#[export] Hint Resolve ld8_range ld16_range ld32_range : ebdb.

#[export] Instance st8_proper : Proper (mem_eq ==> eq ==> eq ==> mem_eq) st8.
Proof. intros m1 m2 H a ? <- v ? <- x. rewrite !ld8_st8. now destruct (x =? a). Qed.
#[export] Instance ld16_proper : Proper (mem_eq ==> eq ==> eq) ld16.
Proof. intros m1 m2 H a ? <-. unfold ld16. now rewrite H. Qed.
#[export] Instance ld32_proper : Proper (mem_eq ==> eq ==> eq) ld32.
Proof. intros m1 m2 H a ? <-. unfold ld32. now rewrite H. Qed.
#[export] Instance ldn_proper : Proper (mem_eq ==> eq ==> eq ==> eq) ldn.
Proof.
  intros m1 m2 H a ? <- n ? <-. revert a. induction n as [|n IH]; intros a; cbn; [reflexivity|].
  now rewrite H, IH.
Qed.

(** Resolve loads over stores by deciding the addresses with [lia]. *)
Ltac mem_simp :=
  repeat first
    [ rewrite ld8_st8_eq
    | rewrite ld8_st8_ne by lia
    | match goal with |- context [ld8 (st8 _ ?a _) ?b] =>
        replace b with a by lia; rewrite ld8_st8_eq end ].

Lemma ld16_st16_eq m a v : ld16 (st16 m a v) a = u16 v.
Proof. unfold ld16, st16. mem_simp. zmod. Qed.
Lemma ld16_st16_ne m a b v : a + 1 < b \/ b + 1 < a -> ld16 (st16 m a v) b = ld16 m b.
Proof. intros H. unfold ld16, st16. mem_simp. reflexivity. Qed.
Lemma ld8_st16_ne m a b v : b < a \/ a + 1 < b -> ld8 (st16 m a v) b = ld8 m b.
Proof. intros H. unfold st16. mem_simp. reflexivity. Qed.
Lemma ld32_st32_eq m a v : ld32 (st32 m a v) a = u32 v.
Proof.
  unfold ld32, st32. rewrite ld16_st16_eq, ld16_st16_ne, ld16_st16_eq by lia. zmod.
Qed.
Lemma ld8_st32_ne m a b v : b < a \/ a + 3 < b -> ld8 (st32 m a v) b = ld8 m b.
Proof. intros H. unfold st32. rewrite !ld8_st16_ne by lia. reflexivity. Qed.
Lemma ld16_st32_ne m a b v : b + 1 < a \/ a + 3 < b -> ld16 (st32 m a v) b = ld16 m b.
Proof. intros H. unfold ld16. rewrite !ld8_st32_ne by lia. reflexivity. Qed.
Lemma ld32_st16_ne m a b v : b + 3 < a \/ a + 1 < b -> ld32 (st16 m a v) b = ld32 m b.
Proof. intros H. unfold ld32. rewrite !ld16_st16_ne by lia. reflexivity. Qed.
Lemma ld32_st32_ne m a b v : b + 3 < a \/ a + 3 < b -> ld32 (st32 m a v) b = ld32 m b.
Proof. intros H. unfold ld32. rewrite !ld16_st32_ne by lia. reflexivity. Qed.
Lemma ld16_st8_ne m a b v : b + 1 < a \/ a < b -> ld16 (st8 m a v) b = ld16 m b.
Proof. intros H. unfold ld16. mem_simp. reflexivity. Qed.
Lemma ld32_st8_ne m a b v : b + 3 < a \/ a < b -> ld32 (st8 m a v) b = ld32 m b.
Proof. intros H. unfold ld32. rewrite !ld16_st8_ne by lia. reflexivity. Qed.

(** The same for loads and stores of any width. *)
Ltac ld_simp :=
  repeat first
    [ rewrite ld8_st8_eq | rewrite ld16_st16_eq | rewrite ld32_st32_eq
    | rewrite ld8_st8_ne by lia | rewrite ld8_st16_ne by lia | rewrite ld8_st32_ne by lia
    | rewrite ld16_st8_ne by lia | rewrite ld16_st16_ne by lia | rewrite ld16_st32_ne by lia
    | rewrite ld32_st8_ne by lia | rewrite ld32_st16_ne by lia | rewrite ld32_st32_ne by lia ].

Lemma length_ldn m a n : length (ldn m a n) = n.
Proof. revert a. induction n as [|n IH]; intros a; cbn; [reflexivity | now rewrite IH]. Qed.
Lemma ldn_app m a n k : ldn m a (n + k) = ldn m a n ++ ldn m (a + Z.of_nat n) k.
Proof.
  revert a. induction n as [|n IH]; intros a; cbn [Nat.add ldn app].
  - now rewrite Z.add_0_r.
  - rewrite IH. do 3 f_equal. lia.
Qed.
Lemma nth_ldn m a n i d : (i < n)%nat -> nth i (ldn m a n) d = ld8 m (a + Z.of_nat i).
Proof.
  revert a i. induction n as [|n IH]; intros a i H; [lia|]. destruct i as [|i]; cbn [ldn nth].
  - f_equal. lia.
  - rewrite IH by lia. f_equal. lia.
Qed.
Lemma Forall_ldn m a n : Forall (fun b => 0 <= b < 256) (ldn m a n).
Proof.
  revert a. induction n as [|n IH]; intros a; cbn; constructor; [apply ld8_range | apply IH].
Qed.
Lemma ldn_ext m1 m2 a n :
  (forall x, a <= x < a + Z.of_nat n -> ld8 m1 x = ld8 m2 x) -> ldn m1 a n = ldn m2 a n.
Proof.
  revert a. induction n as [|n IH]; intros a H; cbn; [reflexivity|].
  rewrite H by lia. f_equal. apply IH. intros x Hx. apply H. lia.
Qed.

Lemma ld8_stn_out m a bs x :
  x < a \/ a + Z.of_nat (length bs) <= x -> ld8 (stn m a bs) x = ld8 m x.
Proof.
  revert m a. induction bs as [|b bs IH]; intros m a H; cbn [stn length] in *; [reflexivity|].
  rewrite IH by lia. apply ld8_st8_ne. lia.
Qed.
Lemma ld8_stn_in m a bs i d :
  (i < length bs)%nat -> ld8 (stn m a bs) (a + Z.of_nat i) = u8 (nth i bs d).
Proof.
  revert m a i. induction bs as [|b bs IH]; intros m a i H; cbn [stn length nth] in *; [lia|].
  destruct i as [|i].
  - rewrite ld8_stn_out by lia. replace (a + Z.of_nat 0) with a by lia. apply ld8_st8_eq.
  - replace (a + Z.of_nat (S i)) with (a + 1 + Z.of_nat i) by lia. apply IH. lia.
Qed.
Lemma ldn_stn m a bs : ldn (stn m a bs) a (length bs) = map u8 bs.
Proof.
  revert m a. induction bs as [|b bs IH]; intros m a; cbn [stn ldn length map]; [reflexivity|].
  rewrite ld8_stn_out by lia. rewrite ld8_st8_eq. now rewrite IH.
Qed.

Lemma stn_app a b : forall m p, stn m p (a ++ b) = stn (stn m p a) (p + Z.of_nat (length a)) b.
Proof.
  induction a as [|x a IH]; intros m p; cbn [app stn length]; [now rewrite Z.add_0_r|].
  rewrite IH. f_equal. lia.
Qed.

(** Two ranges, perhaps in different memories, with the same bytes. *)
Definition same_bytes (m1 : mem) (a1 : Z) (m2 : mem) (a2 n : Z) : Prop :=
  forall i, 0 <= i < n -> ld8 m1 (a1 + i) = ld8 m2 (a2 + i).
Section same_bytes.
Context (m1 : mem) (a1 : Z) (m2 : mem) (a2 n : Z) (S : same_bytes m1 a1 m2 a2 n).
Lemma same_ld8 i : 0 <= i < n -> ld8 m1 (a1 + i) = ld8 m2 (a2 + i).
Proof. apply S. Qed.
Lemma same_ld16 i : 0 <= i -> i + 2 <= n -> ld16 m1 (a1 + i) = ld16 m2 (a2 + i).
Proof. intros H1 H2. unfold ld16. rewrite <- !Z.add_assoc, !same_ld8 by lia. reflexivity. Qed.
Lemma same_ld32 i : 0 <= i -> i + 4 <= n -> ld32 m1 (a1 + i) = ld32 m2 (a2 + i).
Proof. intros H1 H2. unfold ld32. rewrite <- !Z.add_assoc, !same_ld16 by lia. reflexivity. Qed.
Lemma same_ldn i k : 0 <= i -> i + Z.of_nat k <= n -> ldn m1 (a1 + i) k = ldn m2 (a2 + i) k.
Proof.
  revert i. induction k as [|k IH]; intros i H1 H2; cbn [ldn]; [reflexivity|].
  rewrite same_ld8, <- !Z.add_assoc, IH by lia. reflexivity.
Qed.
End same_bytes.
Lemma same_bytes_ldn m1 a1 m2 a2 n :
  ldn m1 a1 n = ldn m2 a2 n -> same_bytes m1 a1 m2 a2 (Z.of_nat n).
Proof.
  intros H i Hi. rewrite <- (Z2Nat.id i) by lia.
  rewrite <- (nth_ldn m1 a1 n (Z.to_nat i) 0), <- (nth_ldn m2 a2 n (Z.to_nat i) 0) by lia.
  now rewrite H.
Qed.

(** An [int] in memory. *)
Definition geti (m : mem) (a : Z) : Z := s32 (ld32 m a).
Lemma geti_st32 m a v : -2147483648 <= v < 2147483648 -> geti (st32 m a v) a = v.
Proof. intros H. unfold geti. rewrite ld32_st32_eq. unfold s32, u32. Z.div_mod_to_equations. case_tests; lia. Qed.
Lemma geti_ext m m' a : (forall x, a <= x < a + 4 -> ld8 m' x = ld8 m x) -> geti m' a = geti m a.
Proof. intros H. unfold geti. now rewrite (ld32_ext m' m) by exact H. Qed.
Lemma geti_st32_ne m a b v : a + 4 <= b \/ b + 4 <= a -> geti (st32 m a v) b = geti m b.
Proof. intros H. apply geti_ext. intros x Hx. apply ld8_st32_ne. lia. Qed.

(** ** C strings: [cstr m p s] when the bytes [s], none of them NUL, stand at [p] and are followed
    by a NUL. *)
Fixpoint cstr (m : mem) (p : Z) (s : list Z) : Prop :=
  match s with
  | [] => ld8 m p = 0
  | c :: s' => ld8 m p = c /\ c <> 0 /\ cstr m (p + 1) s'
  end.

(** A C string as the characters that [sprintf] copies. *)
Fixpoint read_cstr (fuel : nat) (m : mem) (p : Z) : option (list Z) :=
  match fuel with
  | O => None
  | S n => if ld8 m p =? 0 then Some [] else let* s := read_cstr n m (p + 1) in Some (ld8 m p :: s)
  end.
Lemma read_cstr_spec m s : forall p fuel, cstr m p s -> (length s < fuel)%nat -> read_cstr fuel m p = Some s.
Proof.
  induction s as [|c s IH]; intros p fuel Hc Hf; (destruct fuel as [|fuel]; [lia|]); cbn [read_cstr cstr length] in *.
  - now rewrite Hc.
  - destruct Hc as (-> & Hz & Hc). apply Z.eqb_neq in Hz. rewrite Hz, (IH _ fuel Hc) by lia. reflexivity.
Qed.

(** Its decidable form, for concrete inputs. *)
Fixpoint cstrb (m : mem) (p : Z) (s : list Z) : bool :=
  match s with
  | [] => ld8 m p =? 0
  | c :: s' => (ld8 m p =? c) && negb (c =? 0) && cstrb m (p + 1) s'
  end.
Lemma firstn_ldn m a k n : (k <= n)%nat -> firstn k (ldn m a n) = ldn m a k.
Proof.
  intros Hk. replace n with (k + (n - k))%nat by lia. rewrite ldn_app, firstn_app, length_ldn, Nat.sub_diag, firstn_O, app_nil_r. apply firstn_all2. now rewrite length_ldn.
Qed.
Lemma data_split m p a b : ldn m p (length (a ++ b)) = a ++ b -> ldn m p (length a) = a /\ ldn m (p + Z.of_nat (length a)) (length b) = b.
Proof. intros E. rewrite length_app, ldn_app in E. apply app_split_length in E; [exact E|apply length_ldn]. Qed.
Lemma cstr_full m p t : cstr m p t -> ldn m p (length t) = t.
Proof. revert p. induction t as [|c t IH]; intros p; cbn [cstr ldn length]; [reflexivity|]. intros (E & _ & H). f_equal; [exact E|now apply IH]. Qed.
Lemma cstrb_cstr m p s : cstrb m p s = true -> cstr m p s.
Proof.
  revert p. induction s as [|c s IH]; intros p; cbn.
  - apply Z.eqb_eq.
  - rewrite !andb_true_iff, negb_true_iff, Z.eqb_eq, Z.eqb_neq. intros [[H1 H2] H3]. auto.
Qed.

Lemma cstr_nul m p s : cstr m p s -> ld8 m (p + Z.of_nat (length s)) = 0.
Proof.
  revert p. induction s as [|c s IH]; intros p; cbn [cstr length].
  - now rewrite Z.add_0_r.
  - intros (_ & _ & H). rewrite <- (IH _ H). f_equal. lia.
Qed.
Lemma cstr_nth m p s i d :
  cstr m p s -> (i < length s)%nat -> ld8 m (p + Z.of_nat i) = nth i s d /\ nth i s d <> 0.
Proof.
  revert p i. induction s as [|c s IH]; intros p i; cbn [cstr length nth]; [lia|].
  intros (H1 & H2 & H) Hi. destruct i as [|i].
  - rewrite Z.add_0_r. auto.
  - rewrite <- (proj1 (IH _ i H ltac:(lia))) in *. split; [f_equal; lia|].
    rewrite (proj1 (IH _ i H ltac:(lia))). apply (IH _ i H). lia.
Qed.
Lemma cstr_nonzero m p s : cstr m p s -> Forall (fun c => c <> 0) s.
Proof. revert p. induction s as [|c s IH]; intros p; cbn; intros; constructor; firstorder. Qed.
Lemma cstr_bytes m p s : cstr m p s -> Forall (fun c => 0 <= c < 256) s.
Proof.
  revert p. induction s as [|c s IH]; intros p; cbn; intros H; constructor.
  - destruct H as (<- & _). apply ld8_range.
  - eapply IH, H.
Qed.
Lemma cstr_inj m p s t : cstr m p s -> cstr m p t -> s = t.
Proof.
  revert p t. induction s as [|c s IH]; intros p [|d t]; cbn; try reflexivity.
  - intros H (H1 & H2 & _). congruence.
  - intros (H1 & H2 & _) H. congruence.
  - intros (H1 & H2 & H3) (H4 & H5 & H6). f_equal; [congruence | eauto].
Qed.
Lemma cstr_app m p s t : cstr m p (s ++ t) -> cstr m (p + Z.of_nat (length s)) t.
Proof.
  revert p. induction s as [|c s IH]; intros p; cbn [app cstr length].
  - now rewrite Z.add_0_r.
  - intros (_ & _ & H). replace (p + Z.of_nat (S (length s))) with (p + 1 + Z.of_nat (length s)) by lia.
    now apply IH.
Qed.
Lemma cstr_ext m1 m2 p s :
  (forall x, p <= x <= p + Z.of_nat (length s) -> ld8 m1 x = ld8 m2 x) ->
  cstr m1 p s -> cstr m2 p s.
Proof.
  revert p. induction s as [|c s IH]; intros p E; cbn [cstr length] in *.
  - rewrite E by lia. auto.
  - rewrite E by lia. intros (H1 & H2 & H). repeat split; auto. apply IH; [|exact H].
    intros x Hx. apply E. lia.
Qed.
#[export] Instance cstr_proper : Proper (mem_eq ==> eq ==> eq ==> iff) cstr.
Proof.
  intros m1 m2 H p ? <- s ? <-. split; apply cstr_ext; intros x _; [|symmetry]; apply H.
Qed.
Lemma cstr_stn m p s :
  Forall (fun c => 0 < c < 256) s -> cstr (stn m p (s ++ [0])) p s.
Proof.
  revert m p. induction s as [|c s IH]; intros m p H; cbn [app stn cstr].
  - apply ld8_st8_eq.
  - inversion_clear H as [|? ? Hc Hs]. repeat split; [|lia|now apply IH].
    rewrite ld8_stn_out by lia. rewrite ld8_st8_eq. apply u8_small. lia.
Qed.

(** ** Loops.  A [while] or [do] loop is iterated with a bound on the number of rounds; [None]
    means the bound was reached. *)
Fixpoint loop {St R : Type} (fuel : nat) (body : St -> St + R) (s : St) : option R :=
  match fuel with
  | O => None
  | S n => match body s with
           | inl s' => loop n body s'
           | inr r => Some r
           end
  end.

(** Total correctness: an invariant and a decreasing measure give a result, with any fuel above
    the measure. *)
Lemma loop_total {St R} (body : St -> St + R) (Inv : St -> Prop) (Post : R -> Prop)
    (mu : St -> nat) :
  (forall s, Inv s ->
     match body s with
     | inl s' => Inv s' /\ (mu s' < mu s)%nat
     | inr r => Post r
     end) ->
  forall fuel s, Inv s -> (mu s < fuel)%nat ->
  exists r, loop fuel body s = Some r /\ Post r.
Proof.
  intros Hb. induction fuel as [|n IH]; intros s Hi Hf; [lia|]. cbn.
  specialize (Hb s Hi). destruct (body s) as [s'|r]; [|eauto].
  destruct Hb as [Hi' Hm]. apply IH; [exact Hi' | lia].
Qed.
Lemma loop_mono {St R} (body : St -> St + R) n k s r :
  loop n body s = Some r -> (n <= k)%nat -> loop k body s = Some r.
Proof.
  revert k s. induction n as [|n IH]; intros k s; cbn; [discriminate|].
  destruct k as [|k]; [lia|]. cbn. destruct (body s) as [s'|r']; [|auto].
  intros H Hk. apply IH; [exact H | lia].
Qed.
(** Partial correctness of the same loop. *)
Lemma loop_inv {St R} (body : St -> St + R) (Inv : St -> Prop) (Post : R -> Prop) :
  (forall s, Inv s -> match body s with inl s' => Inv s' | inr r => Post r end) ->
  forall fuel s r, Inv s -> loop fuel body s = Some r -> Post r.
Proof.
  intros Hb. induction fuel as [|n IH]; intros s r Hi; cbn; [discriminate|].
  specialize (Hb s Hi). destruct (body s) as [s'|r']; [eauto|]. now intros [= <-].
Qed.
