(* ===== verification/StringLib.v ===== *)
(** The string library of [src/src/core/string.c] (and the character macros of
    [src/src/include/string.h]) on the byte memory of [Memory]: one definition per C function, with
    the pointer arguments as addresses, [NULL] as [None] and a store for every assignment through a
    pointer.  A function that runs until it meets a NUL takes a bound on its rounds.  The lemmas
    give the behaviour on C strings; the properties are at the end. *)

From S2P Require Import Prelude Memory.

(** ** Characters ([include/string.h]) *)

Definition isupper (c : Z) : bool := negb (Z.land c 0x01 =? 0).
Definition islower (c : Z) : bool := negb (Z.land c 0x02 =? 0).
Definition tolower (c : Z) : Z := if isupper c then u8 (c - (65 - 97)) else c.
Definition toupper (c : Z) : Z := if islower c then u8 (c - (97 - 65)) else c.

(** ** Comparison *)

(** [do { ... } while (--len)]: the characters last read decide the result. *)
Fixpoint strnicmp_loop (m : mem) (s1 s2 : Z) (len : nat) : Z * Z :=
  let c1 := ld8 m s1 in
  let c2 := ld8 m s2 in
  if c1 =? 0 then (c1, c2)
  else if c2 =? 0 then (c1, c2)
  else
    let again :=
      match len with
      | S (S _ as len') => strnicmp_loop m (s1 + 1) (s2 + 1) len'
      | _ => (c1, c2)
      end in
    if c1 =? c2 then again
    else
      let c1' := tolower c1 in
      let c2' := tolower c2 in
      if negb (c1' =? c2') then (c1', c2')
      else match len with
           | S (S _ as len') => strnicmp_loop m (s1 + 1) (s2 + 1) len'
           | _ => (c1', c2')
           end.
Definition strnicmp (m : mem) (s1 s2 : Z) (len : nat) : Z :=
  match len with
  | O => 0
  | _ => let '(c1, c2) := strnicmp_loop m s1 s2 len in c1 - c2
  end.

Fixpoint strcmp (fuel : nat) (m : mem) (cs ct : Z) : option Z :=
  match fuel with
  | O => None
  | S n =>
      let res := s8 (s8 (ld8 m cs) - s8 (ld8 m ct)) in
      if negb (res =? 0) || (ld8 m cs =? 0) then Some res else strcmp n m (cs + 1) (ct + 1)
  end.

Fixpoint strncmp_loop (m : mem) (cs ct : Z) (count : nat) (res0 : Z) : Z :=
  match count with
  | O => res0
  | S n =>
      let res := s8 (s8 (ld8 m cs) - s8 (ld8 m ct)) in
      if negb (res =? 0) || (ld8 m cs =? 0) then res else strncmp_loop m (cs + 1) (ct + 1) n res
  end.
Definition strncmp (m : mem) (cs ct : Z) (count : nat) : Z := strncmp_loop m cs ct count 0.

Fixpoint memcmp (m : mem) (cs ct : Z) (count : nat) : Z :=
  match count with
  | O => 0
  | S n =>
      let res := ld8 m cs - ld8 m ct in
      if negb (res =? 0) then res else memcmp m (cs + 1) (ct + 1) n
  end.

(** ** Lengths and searches *)

Fixpoint strlen_loop (fuel : nat) (m : mem) (s sc : Z) : option Z :=
  match fuel with
  | O => None
  | S n => if negb (ld8 m sc =? 0) then strlen_loop n m s (sc + 1) else Some (sc - s)
  end.
Definition strlen (fuel : nat) (m : mem) (s : Z) : option Z := strlen_loop fuel m s s.

Fixpoint strnlen_loop (m : mem) (s sc : Z) (count : nat) : Z :=
  match count with
  | O => sc - s
  | S n => if negb (ld8 m sc =? 0) then strnlen_loop m s (sc + 1) n else sc - s
  end.
Definition strnlen (m : mem) (s : Z) (count : nat) : Z := strnlen_loop m s s count.

(** The result is [Some None] for [NULL]. *)
Fixpoint strchr (fuel : nat) (m : mem) (s c : Z) : option (option Z) :=
  match fuel with
  | O => None
  | S n =>
      if negb (ld8 m s =? u8 c)
      then if ld8 m s =? 0 then Some None else strchr n m (s + 1) c
      else Some (Some s)
  end.

(** [do ... while (--p >= s)] from the terminator at [s + k] down to [s]. *)
Fixpoint strrchr_loop (m : mem) (s c : Z) (k : nat) : option Z :=
  if ld8 m (s + Z.of_nat k) =? u8 c then Some (s + Z.of_nat k)
  else match k with
       | O => None
       | S k' => strrchr_loop m s c k'
       end.
Definition strrchr (fuel : nat) (m : mem) (s c : Z) : option (option Z) :=
  let* l := strlen fuel m s in
  Some (strrchr_loop m s c (Z.to_nat l)).

(** The inner loop of [strspn] and [strpbrk]: does the set at [a] hold the character [c]? *)
Fixpoint set_has (fuel : nat) (m : mem) (c a : Z) : option bool :=
  match fuel with
  | O => None
  | S n =>
      if ld8 m a =? 0 then Some false
      else if c =? ld8 m a then Some true
      else set_has n m c (a + 1)
  end.

Fixpoint strspn_loop (fuel inner : nat) (m : mem) (p accept count : Z) : option Z :=
  match fuel with
  | O => None
  | S n =>
      if ld8 m p =? 0 then Some count
      else
        let* found := set_has inner m (ld8 m p) accept in
        if negb found then Some count else strspn_loop n inner m (p + 1) accept (count + 1)
  end.
Definition strspn (fuel : nat) (m : mem) (s accept : Z) : option Z :=
  strspn_loop fuel fuel m s accept 0.

Fixpoint strpbrk_loop (fuel inner : nat) (m : mem) (sc1 ct : Z) : option (option Z) :=
  match fuel with
  | O => None
  | S n =>
      if ld8 m sc1 =? 0 then Some None
      else
        let* found := set_has inner m (ld8 m sc1) ct in
        if found then Some (Some sc1) else strpbrk_loop n inner m (sc1 + 1) ct
  end.
Definition strpbrk (fuel : nat) (m : mem) (cs ct : Z) : option (option Z) :=
  strpbrk_loop fuel fuel m cs ct.

Fixpoint memscan (m : mem) (p c : Z) (size : nat) : Z :=
  match size with
  | O => p
  | S n => if ld8 m p =? c then p else memscan m (p + 1) c n
  end.

Fixpoint memchr (m : mem) (p c : Z) (n : nat) : option Z :=
  match n with
  | O => None
  | S n' => if u8 c =? ld8 m p then Some p else memchr m (p + 1) c n'
  end.

(** [while (l1 >= l2) { l1--; ... s1++; }]: [k] is the number of rounds left, [l1 - l2 + 1]. *)
Fixpoint strstr_loop (m : mem) (s1 s2 : Z) (l2 : nat) (k : nat) : option Z :=
  match k with
  | O => None
  | S k' => if memcmp m s1 s2 l2 =? 0 then Some s1 else strstr_loop m (s1 + 1) s2 l2 k'
  end.
Definition strstr (fuel : nat) (m : mem) (s1 s2 : Z) : option (option Z) :=
  let* l2 := strlen fuel m s2 in
  if l2 =? 0 then Some (Some s1)
  else
    let* l1 := strlen fuel m s1 in
    Some (strstr_loop m s1 s2 (Z.to_nat l2) (Z.to_nat (l1 - l2 + 1))).

(** ** Copying and concatenation *)

Fixpoint strcpy_loop (fuel : nat) (m : mem) (dest src : Z) : option mem :=
  match fuel with
  | O => None
  | S n =>
      let c := ld8 m src in
      let m' := st8 m dest c in
      if negb (c =? 0) then strcpy_loop n m' (dest + 1) (src + 1) else Some m'
  end.
Definition strcpy (fuel : nat) (m : mem) (dest src : Z) : option (mem * Z) :=
  let* m' := strcpy_loop fuel m dest src in Some (m', dest).

Fixpoint strncpy_loop (m : mem) (dest src : Z) (count : nat) : mem :=
  match count with
  | O => m
  | S n =>
      let c := ld8 m src in
      let m' := st8 m dest c in
      if negb (c =? 0) then strncpy_loop m' (dest + 1) (src + 1) n else m'
  end.
Definition strncpy (m : mem) (dest src : Z) (count : nat) : mem * Z :=
  (strncpy_loop m dest src count, dest).

Definition strcat (fuel : nat) (m : mem) (dest src : Z) : option (mem * Z) :=
  let* l := strlen fuel m dest in
  let* m' := strcpy_loop fuel m (dest + l) src in
  Some (m', dest).

Fixpoint strncat_loop (m : mem) (dest src : Z) (count : nat) : mem :=
  match count with
  | O => m
  | S n =>
      let c := ld8 m src in
      let m' := st8 m dest c in
      if c =? 0 then m'
      else match n with
           | O => st8 m' (dest + 1) 0
           | S _ => strncat_loop m' (dest + 1) (src + 1) n
           end
  end.
Definition strncat (fuel : nat) (m : mem) (dest src : Z) (count : nat) : option (mem * Z) :=
  match count with
  | O => Some (m, dest)
  | S _ =>
      let* l := strlen fuel m dest in
      Some (strncat_loop m (dest + l) src count, dest)
  end.

Fixpoint memset (m : mem) (s c : Z) (count : nat) : mem :=
  match count with
  | O => m
  | S n => memset (st8 m s c) (s + 1) c n
  end.

(** [while (count--) *tmp++ = *s++;] *)
Fixpoint memcpy (m : mem) (dest src : Z) (count : nat) : mem :=
  match count with
  | O => m
  | S n => memcpy (st8 m dest (ld8 m src)) (dest + 1) (src + 1) n
  end.

(** [while (count--) *--tmp = *--s;] with [tmp] and [s] just past the two areas. *)
Fixpoint memcpy_down (m : mem) (tmp s : Z) (count : nat) : mem :=
  match count with
  | O => m
  | S n => memcpy_down (st8 m (tmp - 1) (ld8 m (s - 1))) (tmp - 1) (s - 1) n
  end.
Definition memmove (m : mem) (dest src : Z) (count : nat) : mem :=
  if dest <=? src then memcpy m dest src count
  else memcpy_down m (dest + Z.of_nat count) (src + Z.of_nat count) count.

(** [bcopy] counts down an [int]: a negative count runs into signed overflow ([None]). *)
Definition bcopy (m : mem) (src dest count : Z) : option (mem * Z) :=
  if count <? 0 then None else Some (memcpy m dest src (Z.to_nat count), dest).

(** ** Tokens *)

(** [strtok]: the first component of the state is the memory, the second [___strtok]. *)
Definition strtok (fuel : nat) (st : mem * option Z) (s : option Z) (ct : Z)
    : option ((mem * option Z) * option Z) :=
  let '(m, tok) := st in
  match (match s with Some p => Some p | None => tok end) with
  | None => Some (st, None)
  | Some sbegin =>
      let* n := strspn fuel m sbegin ct in
      let sbegin := sbegin + n in
      if ld8 m sbegin =? 0 then Some ((m, None), None)
      else
        let* send := strpbrk fuel m sbegin ct in
        match send with
        | Some e =>
            if negb (ld8 m e =? 0) then Some ((st8 m e 0, Some (e + 1)), Some sbegin)
            else Some ((m, Some e), Some sbegin)
        | None => Some ((m, None), Some sbegin)
        end
  end.

(** [strsep]: the memory and [*s]. *)
Definition strsep (fuel : nat) (m : mem) (s : option Z) (ct : Z)
    : option ((mem * option Z) * option Z) :=
  match s with
  | None => Some ((m, None), None)
  | Some sbegin =>
      let* e := strpbrk fuel m sbegin ct in
      match e with
      | Some e => Some ((st8 m e 0, Some (e + 1)), Some sbegin)
      | None => Some ((m, None), Some sbegin)
      end
  end.

(** ** Lemmas *)

Section StrLen.
Context (m : mem).

Lemma strlen_loop_spec s p sc fuel :
cstr m sc s -> (length s < fuel)%nat ->
strlen_loop fuel m p sc = Some (sc - p + Z.of_nat (length s)).
Proof.
revert sc fuel. induction s as [|c s IH]; intros sc fuel Hs Hf;
  (destruct fuel as [|fuel]; [cbn in Hf; lia|]); cbn [strlen_loop cstr length] in *.
- rewrite Hs. cbn. f_equal. lia.
- destruct Hs as (-> & Hc & Hs). case_tests; [lia|]. rewrite IH by (auto; lia). f_equal. lia.
Qed.

Lemma strlen_spec s p fuel :
cstr m p s -> (length s < fuel)%nat -> strlen fuel m p = Some (Z.of_nat (length s)).
Proof. intros H Hf. unfold strlen. erewrite strlen_loop_spec by eauto. f_equal. lia. Qed.

Lemma strnlen_loop_spec s p sc count :
cstr m sc s ->
strnlen_loop m p sc count = sc - p + Z.of_nat (Nat.min count (length s)).
Proof.
revert sc count. induction s as [|c s IH]; intros sc count Hs; destruct count as [|k];
  cbn [strnlen_loop cstr length] in *; try lia.
- rewrite Hs. cbn. lia.
- destruct Hs as (-> & Hc & Hs). case_tests; [lia|]. rewrite IH by auto. lia.
Qed.

Lemma set_has_spec set a c fuel :
cstr m a set -> (length set < fuel)%nat ->
set_has fuel m c a = Some (existsb (Z.eqb c) set).
Proof.
revert a fuel. induction set as [|d set IH]; intros a fuel Hs Hf;
  (destruct fuel as [|fuel]; [cbn in Hf; lia|]); cbn [set_has cstr length existsb] in *.
- rewrite Hs. reflexivity.
- destruct Hs as (-> & Hd & Hs). destruct (Z.eqb_spec d 0) as [|_]; [lia|].
  destruct (c =? d); [reflexivity|]. apply IH; [auto | lia].
Qed.
End StrLen.

(** The longest prefix of characters of a set, as [strspn] counts it. *)
Fixpoint span_len (f : Z -> bool) (s : list Z) : nat :=
  match s with
  | [] => 0
  | c :: s' => if f c then S (span_len f s') else 0
  end.
Lemma span_len_le f s : (span_len f s <= length s)%nat.
Proof. induction s as [|c s IH]; cbn; [lia|]. destruct (f c); lia. Qed.

(** The position of the first character that satisfies [f]. *)
Fixpoint find_idx (f : Z -> bool) (s : list Z) : option nat :=
  match s with
  | [] => None
  | c :: s' => if f c then Some O else option_map S (find_idx f s')
  end.
Lemma find_idx_Some f s i :
  find_idx f s = Some i ->
  (i < length s)%nat /\ f (nth i s 0) = true /\ Forall (fun c => f c = false) (firstn i s).
Proof.
  revert i. induction s as [|c s IH]; intros i; cbn; [discriminate|].
  destruct (f c) eqn:E.
  - intros [= <-]. cbn. repeat split; [lia | auto | constructor].
  - destruct (find_idx f s) as [j|]; cbn; [|discriminate]. intros [= <-].
    destruct (IH j eq_refl) as (H1 & H2 & H3). cbn. repeat split; [lia | auto |].
    now constructor.
Qed.
Lemma find_idx_None f s : find_idx f s = None -> Forall (fun c => f c = false) s.
Proof.
  induction s as [|c s IH]; cbn; [constructor|]. destruct (f c) eqn:E; [discriminate|].
  destruct (find_idx f s); [discriminate|]. auto.
Qed.

Definition in_set (set : list Z) (c : Z) : bool := existsb (Z.eqb c) set.

Section Tokens.
Context (m : mem) (ct : Z) (set : list Z).
Context (Hset : cstr m ct set).

Lemma strspn_spec s p fuel :
cstr m p s -> (length s < fuel)%nat -> (length set < fuel)%nat ->
strspn fuel m p ct = Some (Z.of_nat (span_len (in_set set) s)).
Proof.
intros Hs Hf Hf2. unfold strspn.
assert (G : forall s p n k, cstr m p s -> (length s < n)%nat ->
  strspn_loop n fuel m p ct k = Some (k + Z.of_nat (span_len (in_set set) s))).
{ clear s p Hs Hf. intros s. induction s as [|c s IH]; intros p n k Hs Hn;
    (destruct n as [|n]; [cbn in Hn; lia|]); cbn [strspn_loop cstr length span_len] in *.
  - rewrite Hs. cbn. f_equal. lia.
  - destruct Hs as (-> & Hc & Hs). destruct (Z.eqb_spec c 0) as [|_]; [lia|].
    erewrite set_has_spec by eauto. cbn [obind].
    fold (in_set set c). destruct (in_set set c); cbn [negb].
    + rewrite IH by (auto; lia). f_equal. lia.
    + f_equal. lia. }
rewrite G with (s := s) by auto. reflexivity.
Qed.

Lemma strpbrk_spec s p fuel :
cstr m p s -> (length s < fuel)%nat -> (length set < fuel)%nat ->
strpbrk fuel m p ct = Some (option_map (fun i => p + Z.of_nat i) (find_idx (in_set set) s)).
Proof.
intros Hs Hf Hf2. unfold strpbrk.
assert (G : forall s p n, cstr m p s -> (length s < n)%nat ->
  strpbrk_loop n fuel m p ct
  = Some (option_map (fun i => p + Z.of_nat i) (find_idx (in_set set) s))).
{ clear s p Hs Hf. intros s. induction s as [|c s IH]; intros p n Hs Hn;
    (destruct n as [|n]; [cbn in Hn; lia|]); cbn [strpbrk_loop cstr length find_idx] in *.
  - rewrite Hs. reflexivity.
  - destruct Hs as (-> & Hc & Hs). destruct (Z.eqb_spec c 0) as [|_]; [lia|].
    erewrite set_has_spec by eauto. cbn [obind].
    fold (in_set set c). destruct (in_set set c); cbn [option_map].
    + do 2 f_equal. lia.
    + rewrite IH by (auto; lia). destruct (find_idx (in_set set) s); cbn; [|reflexivity].
      do 2 f_equal. lia. }
now apply G.
Qed.
End Tokens.

(** *** Block copies *)

(** An ascending copy is right when the destination does not start inside the source. *)
Lemma ld8_memcpy m dest src n x :
  dest <= src \/ src + Z.of_nat n <= dest ->
  ld8 (memcpy m dest src n) x
  = if (dest <=? x) && (x <? dest + Z.of_nat n) then ld8 m (src + (x - dest)) else ld8 m x.
Proof.
  revert m dest src. induction n as [|n IH]; intros m dest src H; cbn [memcpy].
  - case_tests; try lia; reflexivity.
  - rewrite IH by lia. rewrite !ld8_st8, u8_ld8. case_tests; try lia; f_equal; lia.
Qed.

Lemma ld8_memcpy_out m dest src n x :
  dest <= src \/ src + Z.of_nat n <= dest -> x < dest \/ dest + Z.of_nat n <= x ->
  ld8 (memcpy m dest src n) x = ld8 m x.
Proof. intros H Hx. rewrite ld8_memcpy by exact H. case_tests; (lia || reflexivity). Qed.
Lemma ldn_memcpy m dest src n :
  dest <= src \/ src + Z.of_nat n <= dest -> ldn (memcpy m dest src n) dest n = ldn m src n.
Proof.
  intros H. rewrite <- (Z.add_0_r dest) at 2. rewrite <- (Z.add_0_r src) at 2.
  apply (same_ldn _ _ _ _ (Z.of_nat n)); [|lia|lia].
  intros i Hi. rewrite ld8_memcpy by exact H. case_tests; try lia. f_equal. lia.
Qed.
Lemma ld8_memcpy_down m dest src n x :
  src <= dest ->
  ld8 (memcpy_down m (dest + Z.of_nat n) (src + Z.of_nat n) n) x
  = if (dest <=? x) && (x <? dest + Z.of_nat n) then ld8 m (src + (x - dest)) else ld8 m x.
Proof.
  intros H. revert m. induction n as [|n IH]; intros m; cbn [memcpy_down].
  - case_tests; try lia; reflexivity.
  - replace (dest + Z.of_nat (S n) - 1) with (dest + Z.of_nat n) by lia.
    replace (src + Z.of_nat (S n) - 1) with (src + Z.of_nat n) by lia.
    rewrite IH, !ld8_st8, u8_ld8. case_tests; try lia; f_equal; lia.
Qed.

Lemma ld8_memset m s c n x :
  ld8 (memset m s c n) x = if (s <=? x) && (x <? s + Z.of_nat n) then u8 c else ld8 m x.
Proof.
  revert m s. induction n as [|n IH]; intros m s; cbn [memset].
  - case_tests; try lia; reflexivity.
  - rewrite IH. case_tests; try lia; mem_simp; reflexivity.
Qed.

#[export] Instance memcpy_proper : Proper (mem_eq ==> eq ==> eq ==> eq ==> mem_eq) memcpy.
Proof.
  intros m1 m2 H d ? <- s ? <- n ? <-. revert m1 m2 d s H.
  induction n as [|n IH]; intros m1 m2 d s H; cbn; [exact H|]. apply IH. now rewrite H.
Qed.

Lemma memcmp_zero m cs ct n : memcmp m cs ct n = 0 <-> ldn m cs n = ldn m ct n.
Proof.
  revert cs ct. induction n as [|n IH]; intros cs ct; cbn [memcmp ldn]; [tauto|].
  case_tests.
  - rewrite IH. split; [intros ->; f_equal; lia | now intros [= _ ->]].
  - split; [lia|]. intros [= E _]. lia.
Qed.

(** *** String copies *)

Lemma strcpy_loop_spec s m dest src fuel :
  cstr m src s -> (length s < fuel)%nat ->
  dest <= src \/ src + Z.of_nat (length s) < dest ->
  exists m', strcpy_loop fuel m dest src = Some m' /\ m' ≡m memcpy m dest src (S (length s)).
Proof.
  revert m dest src fuel. induction s as [|c s IH]; intros m dest src fuel Hs Hf Hd;
    (destruct fuel as [|fuel]; [cbn in Hf; lia|]); cbn [strcpy_loop cstr length memcpy] in *.
  - rewrite Hs. cbn. eexists. split; reflexivity.
  - destruct Hs as (-> & Hc & Hs). destruct (Z.eqb_spec c 0) as [|_]; [lia|]. cbn [negb].
    apply IH; [|lia|lia]. eapply cstr_ext; [|exact Hs].
    intros x Hx. rewrite ld8_st8_ne by lia. reflexivity.
Qed.

Lemma strlen_cstr m p t fuel : cstr m p t -> (length t < fuel)%nat -> strlen fuel m p = Some (Z.of_nat (length t)).
Proof. intros Hc Hf. now apply strlen_spec. Qed.
Lemma cstr_memcpy m dest src s :
  cstr m src s -> dest <= src \/ src + Z.of_nat (length s) < dest ->
  cstr (memcpy m dest src (S (length s))) dest s.
Proof.
  intros Hs Hd.
  assert (G : forall t k, cstr m (src + Z.of_nat k) t -> (k + length t = length s)%nat ->
    cstr (memcpy m dest src (S (length s))) (dest + Z.of_nat k) t).
  { intros t. induction t as [|c t IH]; intros k Ht Hk; cbn [cstr length] in *.
    - rewrite ld8_memcpy by lia. case_tests; try lia. rewrite <- Ht. f_equal. lia.
    - destruct Ht as (H1 & H2 & H3). split; [|split; [exact H2|]].
      + rewrite ld8_memcpy by lia. case_tests; try lia. rewrite <- H1. f_equal. lia.
      + replace (dest + Z.of_nat k + 1) with (dest + Z.of_nat (S k)) by lia.
        apply IH; [|lia]. replace (src + Z.of_nat (S k)) with (src + Z.of_nat k + 1) by lia.
        exact H3. }
  specialize (G s 0%nat). rewrite !Z.add_0_r in G. now apply G.
Qed.

Lemma cstr_ldn m p s n : cstr m p s -> (n <= length s)%nat -> ldn m p n = firstn n s.
Proof.
  revert p n. induction s as [|c s IH]; intros p n Hs Hn; (destruct n as [|n]; [reflexivity|]);
    cbn [length firstn ldn cstr] in *; [lia|].
  destruct Hs as (-> & _ & Hs). f_equal. apply IH; [auto | lia].
Qed.
Lemma ldn_keep m m' p s n :
  cstr m p s -> (n <= length s)%nat ->
  (forall x, p <= x < p + Z.of_nat n -> ld8 m' x = ld8 m x) -> ldn m' p n = firstn n s.
Proof. intros Hs Hn E. rewrite <- (cstr_ldn m p s n) by auto. now apply ldn_ext. Qed.
Lemma cstr_skipn m p s i : cstr m p s -> (i <= length s)%nat -> cstr m (p + Z.of_nat i) (skipn i s).
Proof.
  intros Hs Hi. rewrite <- (firstn_skipn i s) in Hs. apply cstr_app in Hs.
  now rewrite length_firstn, Nat.min_l in Hs by lia.
Qed.

(** The loop of [strncat] appends at the terminator. *)
Lemma strncat_loop_spec count : forall m dest src s,
  cstr m src s -> (0 < count)%nat ->
  dest + Z.of_nat (Nat.min count (length s)) < src \/ src + Z.of_nat (length s) < dest ->
  let m' := strncat_loop m dest src count in
  cstr m' dest (firstn count s) /\
  (forall x, x < dest \/ dest + Z.of_nat (Nat.min count (length s)) < x -> ld8 m' x = ld8 m x).
Proof.
  induction count as [|n IH]; intros m dest src s Hs Hc Hd; [lia|].
  destruct s as [|c s]; cbn [cstr] in Hs; cbn [strncat_loop firstn length Nat.min] in *.
  - rewrite Hs. cbn. split; [apply ld8_st8_eq | intros x Hx; now rewrite ld8_st8_ne by lia].
  - destruct Hs as (Ec & Hc0 & Hs). pose proof (ld8_range m src). rewrite Ec in *.
    destruct (Z.eqb_spec c 0) as [|_]; [lia|].
    destruct n as [|n].
    + cbn [firstn cstr]. split.
      * repeat split; [|exact Hc0|apply ld8_st8_eq].
        rewrite ld8_st8_ne, ld8_st8_eq by lia. now apply u8_small.
      * intros x Hx. now rewrite !ld8_st8_ne by lia.
    + edestruct (IH (st8 m dest c) (dest + 1) (src + 1) s) as [IH1 IH2].
      * eapply cstr_ext; [|exact Hs]. intros x Hx. rewrite ld8_st8_ne by lia. reflexivity.
      * lia.
      * lia.
      * cbn [cstr]. split.
        -- repeat split; [|exact Hc0|exact IH1]. rewrite IH2, ld8_st8_eq by lia. now apply u8_small.
        -- intros x Hx. rewrite IH2 by lia. now rewrite ld8_st8_ne by lia.
Qed.

Lemma cstr_concat m p s t :
  Forall (fun c => c <> 0) s -> ldn m p (length s) = s -> cstr m (p + Z.of_nat (length s)) t ->
  cstr m p (s ++ t).
Proof.
  revert p. induction s as [|c s IH]; intros p Hs E Ht; cbn [length ldn app cstr] in *.
  - now rewrite Z.add_0_r in Ht.
  - inversion_clear Hs. injection E as E1 E2. repeat split; auto. apply IH; auto.
    replace (p + 1 + Z.of_nat (length s)) with (p + Z.of_nat (S (length s))) by lia. exact Ht.
Qed.

(** [tolower] and [toupper] test bits of the character itself, and are injective on bytes. *)
Lemma tolower_inj c d :
  0 <= c < 256 -> 0 <= d < 256 -> tolower c = tolower d -> c = d.
Proof.
  intros Hc Hd. unfold tolower, isupper. rewrite !land_1. case_tests; zmod.
Qed.

Lemma strnicmp_loop_eq m s1 s2 n :
  strnicmp_loop m s1 s2 (S n) =
  let c1 := ld8 m s1 in
  let c2 := ld8 m s2 in
  let next d := match n with S _ => strnicmp_loop m (s1 + 1) (s2 + 1) n | O => d end in
  if c1 =? 0 then (c1, c2)
  else if c2 =? 0 then (c1, c2)
  else if c1 =? c2 then next (c1, c2)
  else if negb (tolower c1 =? tolower c2) then (tolower c1, tolower c2)
  else next (tolower c1, tolower c2).
Proof. destruct n; reflexivity. Qed.

Lemma strnicmp_loop_zero n : forall m s1 s2 s t,
  cstr m s1 s -> cstr m s2 t ->
  let '(c1, c2) := strnicmp_loop m s1 s2 (S n) in c1 = c2 <-> firstn (S n) s = firstn (S n) t.
Proof.
  induction n as [|n IH]; intros m s1 s2 s t Hs Ht; rewrite strnicmp_loop_eq; cbv zeta.
  all: pose proof (ld8_range m s1) as R1; pose proof (ld8_range m s2) as R2.
  all: destruct s as [|c s]; cbn [cstr] in Hs;
    [rewrite Hs; cbn [Z.eqb]; destruct t as [|d t]; cbn [cstr] in Ht;
     [rewrite Ht; cbn; tauto | cbn; split; [lia | discriminate]]|].
  all: destruct Hs as (Ec & Hc0 & Hs); rewrite Ec in *; destruct (Z.eqb_spec c 0); [lia|].
  all: destruct t as [|d t]; cbn [cstr] in Ht;
    [rewrite Ht; cbn; split; [lia | discriminate]|].
  all: destruct Ht as (Ed & Hd0 & Ht); rewrite Ed in *; destruct (Z.eqb_spec d 0); [lia|].
  all: destruct (Z.eqb_spec c d) as [->|Hne].
  - cbn. tauto.
  - destruct (Z.eqb_spec (tolower c) (tolower d)) as [E|E]; cbn [negb].
    + now apply tolower_inj in E.
    + split; [tauto | cbn; congruence].
  - specialize (IH m (s1 + 1) (s2 + 1) s t Hs Ht).
    destruct (strnicmp_loop m (s1 + 1) (s2 + 1) (S n)) as [x y]. rewrite IH.
    rewrite !(firstn_cons (S n)). generalize (firstn (S n) s), (firstn (S n) t).
    intros. split; congruence.
  - destruct (Z.eqb_spec (tolower c) (tolower d)) as [E|E]; cbn [negb].
    + now apply tolower_inj in E.
    + split; [tauto | rewrite !(firstn_cons (S n)); congruence].
Qed.

(** Lexicographic order on strings. *)
Fixpoint lex_ltb (s t : list Z) : bool :=
  match s, t with
  | [], [] => false
  | [], _ :: _ => true
  | _ :: _, [] => false
  | a :: s', b :: t' => (a <? b) || (a =? b) && lex_ltb s' t'
  end.

Lemma s8_sub_ascii a b : 0 <= a < 128 -> 0 <= b < 128 -> s8 (s8 a - s8 b) = a - b.
Proof. intros Ha Hb. unfold s8. rewrite !(u8_small a), !(u8_small b) by lia. case_tests; zmod. Qed.

Lemma strcmp_correct s : forall t m cs ct fuel,
  cstr m cs s -> cstr m ct t -> (length s < fuel)%nat ->
  exists r, strcmp fuel m cs ct = Some r /\ (r = 0 <-> s = t) /\
    (Forall (fun c => c < 128) s -> Forall (fun c => c < 128) t -> (r < 0 <-> lex_ltb s t = true)).
Proof.
  induction s as [|c s IH]; intros t m cs ct fuel Hs Ht Hf;
    (destruct fuel as [|fuel]; [cbn in Hf; lia|]); cbn [strcmp cstr length] in *.
  all: pose proof (ld8_range m cs) as R1; pose proof (ld8_range m ct) as R2.
  - rewrite Hs, orb_true_r. eexists. split; [reflexivity|].
    destruct t as [|d t]; cbn [cstr lex_ltb] in *.
    + rewrite Ht. cbn. split; [tauto | intros; split; [lia | discriminate]].
    + destruct Ht as (Ed & Hd & _). rewrite Ed in *. split.
      * rewrite s8_sub_zero. rewrite !u8_small by lia. split; [lia | discriminate].
      * intros _ Hb. inversion_clear Hb. rewrite s8_sub_ascii by lia. split; [auto | lia].
  - destruct Hs as (Ec & Hc & Hs). rewrite Ec in *.
    assert (Hz : (c =? 0) = false) by (apply Z.eqb_neq; lia). rewrite Hz, orb_false_r.
    destruct (Z.eqb_spec (s8 (s8 c - s8 (ld8 m ct))) 0) as [E|E].
    + rewrite s8_sub_zero, !u8_small in E by lia. destruct t as [|d t]; cbn [cstr] in Ht; [lia|].
      destruct Ht as (Ed & Hd & Ht). assert (c = d) as -> by lia.
      destruct (IH t m (cs + 1) (ct + 1) fuel Hs Ht ltac:(lia)) as (r & Hr & H0 & Hlt).
      exists r. cbn [negb]. split; [exact Hr|]. split.
      * rewrite H0. split; [now intros -> | now intros [= ->]].
      * intros Ha Hb. inversion_clear Ha. inversion_clear Hb. cbn [lex_ltb].
        rewrite Hlt, Z.ltb_irrefl, Z.eqb_refl by auto. reflexivity.
    + cbn [negb]. eexists. split; [reflexivity|]. rewrite s8_sub_zero, !u8_small in E by lia.
      split.
      * rewrite s8_sub_zero, !u8_small by lia. split; [tauto|]. intros <-. cbn in Ht. lia.
      * intros Ha Hb. inversion_clear Ha.
        assert (ld8 m ct < 128) by (destruct t; cbn in Ht; [lia | inversion_clear Hb; lia]).
        rewrite s8_sub_ascii by lia. destruct t as [|d t]; cbn [cstr lex_ltb] in *.
        -- rewrite Ht in *. split; [lia | discriminate].
        -- destruct Ht as (Ed & _). rewrite Ed in *. case_tests; split; auto; try lia; discriminate.
Qed.

(** ** Properties *)

(** [memmove] copies the [count] bytes that stood at [src] to [dest] and changes nothing else,
    whatever the overlap of the two areas. *)
Theorem memmove_correct m dest src n x :
  ld8 (memmove m dest src n) x
  = if (dest <=? x) && (x <? dest + Z.of_nat n) then ld8 m (src + (x - dest)) else ld8 m x.
Proof.
  unfold memmove. destruct (Z.leb_spec dest src).
  - apply ld8_memcpy. lia.
  - apply ld8_memcpy_down. lia.
Qed.

(** On two C strings [strcmp] returns, its result is zero exactly when the strings are equal,
    and on 7-bit characters it is negative exactly when the first string is lexicographically
    smaller (the difference is truncated to [signed char], so the sign is not the order of 8-bit
    characters). *)
Theorem strcmp_spec m cs ct s t fuel :
  cstr m cs s -> cstr m ct t -> (length s < fuel)%nat ->
  exists r, strcmp fuel m cs ct = Some r /\ (r = 0 <-> s = t) /\
    (Forall (fun c => c < 128) s -> Forall (fun c => c < 128) t -> (r < 0 <-> lex_ltb s t = true)).
Proof. apply strcmp_correct. Qed.

(** A concrete memory with given strings. *)
Definition mem_with (l : list (Z * list Z)) : mem :=
  fold_left (fun m e => stn m (fst e) (snd e ++ [0])) l (fun _ => 0).

Lemma strcmp_spec_witness :
  let m := mem_with [(100, [101; 98]); (200, [101; 99])] in
  exists r, strcmp 10 m 100 200 = Some r /\ (r = 0 <-> [101; 98] = [101; 99]) /\
    (Forall (fun c => c < 128) [101; 98] -> Forall (fun c => c < 128) [101; 99] ->
     (r < 0 <-> lex_ltb [101; 98] [101; 99] = true)).
Proof.
  intros m. apply (strcmp_spec m 100 200 [101; 98] [101; 99] 10).
  - apply cstrb_cstr. reflexivity.
  - apply cstrb_cstr. reflexivity.
  - cbn. lia.
Defined.

(** [strnicmp] is documented as a case-insensitive comparison, but [tolower] tests bit 0 of
    the character itself and is injective, so the result is zero only for equal prefixes: strings
    that differ in the case of a letter compare unequal. *)
Theorem strnicmp_case_sensitive m s1 s2 s t len :
  cstr m s1 s -> cstr m s2 t ->
  (strnicmp m s1 s2 len = 0 <-> firstn len s = firstn len t).
Proof.
  intros Hs Ht. destruct len as [|n]; [cbn; tauto|].
  pose proof (strnicmp_loop_zero n m s1 s2 s t Hs Ht) as H. unfold strnicmp.
  destruct (strnicmp_loop m s1 s2 (S n)) as [c1 c2]. rewrite <- H. lia.
Qed.

Lemma strnicmp_case_sensitive_witness :
  let m := mem_with [(100, [65]); (200, [97])] in
  strnicmp m 100 200 1 = 0 <-> [65] = [97].
Proof.
  intros m. apply (strnicmp_case_sensitive m 100 200 [65] [97] 1).
  - apply cstrb_cstr. reflexivity.
  - apply cstrb_cstr. reflexivity.
Defined.

(** [strncat] appends at most [count] characters of [src] to the string at [dest], always
    terminates the result, writes nothing outside the appended range and returns [dest]. *)
Theorem strncat_spec m dest src d s count fuel :
  cstr m dest d -> cstr m src s -> (length d < fuel)%nat ->
  dest + Z.of_nat (length d) + Z.of_nat (Nat.min count (length s)) < src
  \/ src + Z.of_nat (length s) < dest ->
  exists m', strncat fuel m dest src count = Some (m', dest) /\
    cstr m' dest (d ++ firstn count s) /\
    (forall x, x < dest + Z.of_nat (length d)
       \/ dest + Z.of_nat (length d) + Z.of_nat (Nat.min count (length s)) < x ->
     ld8 m' x = ld8 m x).
Proof.
  intros Hd Hs Hf Hov. unfold strncat. destruct count as [|n].
  { exists m. rewrite app_nil_r. auto. }
  erewrite strlen_spec by eauto. cbn [obind].
  edestruct (strncat_loop_spec (S n) m (dest + Z.of_nat (length d)) src s) as [H1 H2];
    [exact Hs | lia | lia |].
  eexists. split; [reflexivity|]. split; [|exact H2].
  apply cstr_concat; [eapply cstr_nonzero, Hd | | exact H1].
  etransitivity; [|apply firstn_all]. apply (ldn_keep m); [exact Hd | lia |].
  intros x Hx. apply H2. lia.
Qed.

Lemma strncat_spec_witness :
  let m := mem_with [(100, [97; 98]); (200, [99; 100; 101])] in
  exists m', strncat 10 m 100 200 2 = Some (m', 100) /\ cstr m' 100 ([97; 98] ++ [99; 100]) /\
    (forall x, x < 102 \/ 104 < x -> ld8 m' x = ld8 m x).
Proof.
  intros m. apply (strncat_spec m 100 200 [97; 98] [99; 100; 101] 2 10).
  - apply cstrb_cstr. reflexivity.
  - apply cstrb_cstr. reflexivity.
  - cbn. lia.
  - cbn. lia.
Defined.

(** [b] stands at position [i] of [a]. *)
Definition occurs_at (a b : list Z) (i : nat) : Prop :=
  (i + length b <= length a)%nat /\ firstn (length b) (skipn i a) = b.

Lemma strstr_loop_spec m s1 s2 a b k i :
  cstr m s1 a -> cstr m s2 b -> (i + k + length b = S (length a))%nat ->
  match strstr_loop m (s1 + Z.of_nat i) s2 (length b) k with
  | Some p => exists j, p = s1 + Z.of_nat j /\ (i <= j)%nat /\ occurs_at a b j /\
                        forall j', (i <= j' < j)%nat -> ~ occurs_at a b j'
  | None => forall j, (i <= j)%nat -> ~ occurs_at a b j
  end.
Proof.
  intros Ha Hb. revert i. induction k as [|k IH]; intros i Hk; cbn [strstr_loop].
  - intros j Hj [H _]. lia.
  - assert (E : memcmp m (s1 + Z.of_nat i) s2 (length b) = 0 <-> occurs_at a b i).
    { rewrite memcmp_zero. unfold occurs_at.
      rewrite (cstr_ldn m s2 b), firstn_all by auto.
      rewrite (cstr_ldn m (s1 + Z.of_nat i) (skipn i a));
        [|apply cstr_skipn; [auto | lia] | rewrite length_skipn; lia].
      split; [intros ->; split; [lia | reflexivity] | tauto]. }
    destruct (Z.eqb_spec (memcmp m (s1 + Z.of_nat i) s2 (length b)) 0) as [Ez|Ez].
    + exists i. split; [reflexivity|]. split; [lia|]. split; [now apply E|]. intros j' H. lia.
    + specialize (IH (S i) ltac:(lia)).
      replace (s1 + Z.of_nat i + 1) with (s1 + Z.of_nat (S i)) by lia.
      destruct (strstr_loop m (s1 + Z.of_nat (S i)) s2 (length b) k) as [p|].
      * destruct IH as (j & -> & H1 & H2 & H3). exists j. split; [reflexivity|].
        split; [lia|]. split; [exact H2|]. intros j' Hj'.
        destruct (Nat.eq_dec j' i) as [->|]; [rewrite <- E; auto | apply H3; lia].
      * intros j Hj. destruct (Nat.eq_dec j i) as [->|]; [rewrite <- E; auto | apply IH; lia].
Qed.

(** [strstr] returns the first occurrence of the second string in the first, and [NULL]
    exactly when there is none; the empty string occurs at the start. *)
Theorem strstr_first m s1 s2 a b fuel :
  cstr m s1 a -> cstr m s2 b -> (length a < fuel)%nat -> (length b < fuel)%nat ->
  exists r, strstr fuel m s1 s2 = Some r /\
  match r with
  | Some p => exists j, p = s1 + Z.of_nat j /\ occurs_at a b j /\
                        forall j', (j' < j)%nat -> ~ occurs_at a b j'
  | None => forall j, ~ occurs_at a b j
  end.
Proof.
  intros Ha Hb Hfa Hfb. unfold strstr.
  erewrite (strlen_spec m b s2), (strlen_spec m a s1) by eauto. cbn [obind].
  destruct (Z.eqb_spec (Z.of_nat (length b)) 0) as [E|E].
  { exists (Some s1). split; [reflexivity|]. exists 0%nat. destruct b; cbn in E; [|lia].
    repeat split; cbn; lia. }
  eexists. split; [reflexivity|]. rewrite Nat2Z.id.
  destruct (Nat.le_gt_cases (length b) (length a)) as [Hl|Hl].
  - pose proof (strstr_loop_spec m s1 s2 a b
      (Z.to_nat (Z.of_nat (length a) - Z.of_nat (length b) + 1)) 0 Ha Hb ltac:(lia)) as H.
    rewrite Z.add_0_r in H. destruct (strstr_loop _ _ _ _ _) as [p|].
    + destruct H as (j & -> & _ & H2 & H3). exists j. repeat split; try apply H2.
      intros j' Hj'. apply H3. lia.
    + intros j. apply H. lia.
  - replace (Z.to_nat _) with 0%nat by lia. cbn. intros j [H _]. lia.
Qed.

Lemma strstr_first_witness :
  let m := mem_with [(100, [97; 98; 97; 98]); (200, [98])] in
  exists r, strstr 10 m 100 200 = Some r /\
  match r with
  | Some p => exists j, p = 100 + Z.of_nat j /\ occurs_at [97; 98; 97; 98] [98] j /\
                        forall j', (j' < j)%nat -> ~ occurs_at [97; 98; 97; 98] [98] j'
  | None => forall j, ~ occurs_at [97; 98; 97; 98] [98] j
  end.
Proof.
  intros m. apply (strstr_first m 100 200 [97; 98; 97; 98] [98] 10).
  - apply cstrb_cstr. reflexivity.
  - apply cstrb_cstr. reflexivity.
  - cbn. lia.
  - cbn. lia.
Defined.

(** [strsep] cuts the string at its first delimiter: the token returned is the text before it,
    [*s] is left at the text after it, the only byte written is the delimiter, and when there is
    no delimiter the token is the whole string and [*s] becomes [NULL]. *)
Theorem strsep_spec m p ct s set fuel :
  cstr m p s -> cstr m ct set -> (length s < fuel)%nat -> (length set < fuel)%nat ->
  match find_idx (in_set set) s with
  | Some i =>
      exists m', strsep fuel m (Some p) ct
                 = Some ((m', Some (p + Z.of_nat (S i))), Some p) /\
        cstr m' p (firstn i s) /\ cstr m' (p + Z.of_nat (S i)) (skipn (S i) s) /\
        in_set set (nth i s 0) = true /\ Forall (fun c => in_set set c = false) (firstn i s) /\
        (forall x, x <> p + Z.of_nat i -> ld8 m' x = ld8 m x)
  | None => strsep fuel m (Some p) ct = Some ((m, None), Some p) /\
            Forall (fun c => in_set set c = false) s
  end.
Proof.
  intros Hs Hset Hf Hf2. unfold strsep. erewrite strpbrk_spec by eauto. cbn [obind].
  destruct (find_idx (in_set set) s) as [i|] eqn:E; cbn [option_map].
  - destruct (find_idx_Some _ _ _ E) as (Hi & Hin & Hfn).
    exists (st8 m (p + Z.of_nat i) 0). split; [now rewrite Nat2Z.inj_succ, <- Z.add_1_r, Z.add_assoc|].
    assert (Hx : forall x, x <> p + Z.of_nat i -> ld8 (st8 m (p + Z.of_nat i) 0) x = ld8 m x)
      by (intros x Hne; now rewrite ld8_st8_ne by lia).
    repeat split; auto.
    + rewrite <- (app_nil_r (firstn i s)). apply cstr_concat.
      * apply Forall_firstn. eapply cstr_nonzero, Hs.
      * rewrite length_firstn, Nat.min_l by lia. apply (ldn_keep m); [exact Hs | lia |].
        intros x Hr. apply Hx. lia.
      * rewrite length_firstn, Nat.min_l by lia. cbn. apply ld8_st8_eq.
    + apply (cstr_ext m); [|apply cstr_skipn; [exact Hs | lia]].
      intros x Hr. symmetry. apply Hx. lia.
  - split; [reflexivity|]. now apply find_idx_None.
Qed.

Lemma strsep_spec_witness :
  let m := mem_with [(100, [97; 47; 98]); (200, [58; 47])] in
  exists m', strsep 10 m (Some 100) 200 = Some ((m', Some (100 + 2)), Some 100) /\
    cstr m' 100 [97] /\ cstr m' (100 + 2) [98] /\
    in_set [58; 47] 47 = true /\ Forall (fun c => in_set [58; 47] c = false) [97] /\
    (forall x, x <> 100 + 1 -> ld8 m' x = ld8 m x).
Proof.
  intros m. apply (strsep_spec m 100 200 [97; 47; 98] [58; 47] 10).
  - apply cstrb_cstr. reflexivity.
  - apply cstrb_cstr. reflexivity.
  - cbn. lia.
  - cbn. lia.
Defined.
