(* ===== verification/Misc.v ===== *)
(** The support routines of [src/src/core/misc.c]: the Internet checksum and its composition, the
    random generator, the console, waiting, number and address parsing, and the guarded memory
    regions of the debugging build. *)

From S2P Require Import Prelude Memory StringLib.

(** ** Byte order ([bits/byteswap.h], [little_bswap.h] on i386) *)

Definition bswap_16 (x : Z) : Z :=
  Z.lor (Z.shiftl (Z.land x 0xff) 8) (Z.shiftr (Z.land x 0xff00) 8).
Definition bswap_32 (x : Z) : Z :=
  Z.lor (Z.lor (Z.shiftl (Z.land x 0xff) 24) (Z.shiftl (Z.land x 0xff00) 8))
        (Z.lor (Z.shiftr (Z.land x 0xff0000) 8) (Z.shiftr (Z.land x 0xff000000) 24)).
Definition htons (x : Z) : Z := bswap_16 (u16 x).
Definition ntohs (x : Z) : Z := bswap_16 (u16 x).
Definition htonl (x : Z) : Z := bswap_32 (u32 x).
Definition ntohl (x : Z) : Z := bswap_32 (u32 x).
Definition cpu_to_le16 (x : Z) : Z := x.

(** ** Checksums *)

Fixpoint ipchksum_loop (m : mem) (ptr i : Z) (n : nat) (sum : Z) : Z :=
  match n with
  | O => sum
  | S n' =>
      let value := ld8 m (ptr + i) in
      let value := if istrue (Z.land i 1) then u32 (Z.shiftl value 8) else value in
      let sum := u32 (sum + value) in
      let sum := if sum >? 0xFFFF then Z.land (u32 (sum + Z.shiftr sum 16)) 0xFFFF else sum in
      ipchksum_loop m ptr (i + 1) n' sum
  end.
Definition ipchksum (m : mem) (data : Z) (length : nat) : Z :=
  Z.land (Z.lnot (cpu_to_le16 (ipchksum_loop m data 0 length 0))) 0xFFFF.

Definition add_ipchksums (offset sum new : Z) : Z :=
  let sum := Z.land (Z.lnot sum) 0xFFFF in
  let new := Z.land (Z.lnot new) 0xFFFF in
  let new := if istrue (Z.land offset 1) then bswap_16 new else new in
  let checksum := u32 (sum + new) in
  let checksum := if checksum >? 0xFFFF then u32 (checksum - 0xFFFF) else checksum in
  Z.land (Z.lnot checksum) 0xFFFF.

(** ** RANDOM *)

(** The first call seeds the generator from the clock and the client's node address at [node]. *)
Definition random_seed (ticks : Z) (m : mem) (node : Z) : Z :=
  s32 (ticks + ld32 m node + s16 (ld16 m (node + 4))).
Definition random_next (seed : Z) : Z :=
  let q := Z.quot seed 53668 in
  let seed := 40014 * (seed - 53668 * q) - 12211 * q in
  if seed <? 0 then seed + 2147483563 else seed.
(** [random()]: the new value of the static [seed], which is also the result.  [init] is the value
    of the seeding expression, used only when [seed] is zero. *)
Definition random (init seed : Z) : Z :=
  random_next (if seed =? 0 then init else seed).

(** ** Console and waiting *)

Definition K_ESC : Z := 27.
Definition K_EOF : Z := 4.
Definition K_INTR : Z := 3.
Definition TICKS_PER_SEC : Z := 18.

(** [poll_interruptions]: [Some state] when it takes the [longjmp]; [key] is the key waiting. *)
Definition poll_interruptions (as_main_program : bool) (key : option Z) : option Z :=
  if negb as_main_program then None
  else match key with
       | None => None
       | Some ch =>
           if (ch =? K_ESC) || (ch =? K_EOF) || (ch =? K_INTR)
           then Some (if negb (ch =? K_INTR) then -1 else -3)
           else None
       end.

(** [sleep]: [ticks] are the successive readings of the clock in the loop, [keys] the key waiting
    at each poll.  [Some None] when the time has passed, [Some (Some state)] on a [longjmp]. *)
Fixpoint sleep_loop (as_main : bool) (tmo : Z) (env : list (Z * option Z)) : option (option Z) :=
  match env with
  | [] => None
  | (now, key) :: env' =>
      if now <? tmo
      then match poll_interruptions as_main key with
           | Some st => Some (Some st)
           | None => sleep_loop as_main tmo env'
           end
      else Some None
  end.
Definition sleep (as_main : bool) (now secs : Z) (env : list (Z * option Z)) : option (option Z) :=
  sleep_loop as_main (u32 (now + secs * TICKS_PER_SEC)) env.

(** [twiddle] with [BAR_PROGRESS]: the static [count] and [lastticks]; the characters printed. *)
Definition tiddles (i : Z) : Z := nth (Z.to_nat i) [45; 92; 124; 47] 0.
Definition twiddle (as_main : bool) (ticks : Z) (st : Z * Z) : (Z * Z) * list Z :=
  let '(count, lastticks) := st in
  if negb as_main then (st, [])
  else if u32 (lastticks + TICKS_PER_SEC / 18) >? ticks then (st, [])
  else ((s32 (count + 1), ticks), [tiddles (Z.land count 3); 8]).

(** [putchar]: the characters sent to every console, and [last_putchar]. *)
Definition putchar (c : Z) : list Z * Z :=
  let c := Z.land c 0xff in
  if c =? 10 then ([13; c], 13) else ([c], c).

(** [getchar]: each round offers the characters waiting on the firmware console, the serial line
    and the keyboard; a later device overrides an earlier one. *)
Definition pick (o : option Z) (c : Z) : Z := match o with Some d => d | None => c end.
Fixpoint getchar (rounds : list (option Z * option Z * option Z)) : option Z :=
  match rounds with
  | [] => None
  | (con, ser, kbd) :: rounds' =>
      let c := pick kbd (pick ser (pick con 256)) in
      if c =? 256 then getchar rounds'
      else Some (if c =? 13 then 10 else c)
  end.
Definition iskey (con ser kbd : bool) : bool := con || ser || kbd.

(** ** Text *)

(** [*a & ~0x20] on a (signed) [char]. *)
Definition upcase (c : Z) : Z := Z.land (s8 c) (Z.lnot 0x20).

Fixpoint strcasecmp (fuel : nat) (m : mem) (a b : Z) : option Z :=
  match fuel with
  | O => None
  | S n =>
      if istrue (ld8 m a) && istrue (ld8 m b) && (upcase (ld8 m a) =? upcase (ld8 m b))
      then strcasecmp n m (a + 1) (b + 1)
      else Some (upcase (ld8 m a) - upcase (ld8 m b))
  end.

(** [strtoul]: the value and the end pointer stored in [*endp], [None] when it is left alone. *)
Fixpoint strtoul_loop (fuel : nat) (m : mem) (p ret : Z) : option (Z * Z) :=
  match fuel with
  | O => None
  | S n =>
      if (s8 (ld8 m p) >=? 48) && (s8 (ld8 m p) <=? 57)
      then strtoul_loop n m (p + 1) (u32 (ret * 10 + (s8 (ld8 m p) - 48)))
      else Some (ret, p)
  end.
Definition strtoul (fuel : nat) (m : mem) (p base : Z) : option (Z * option Z) :=
  if negb (base =? 10) then Some (0, None)
  else let* '(ret, e) := strtoul_loop fuel m p 0 in Some (ret, Some e).

(** [inet_aton]: the number of characters read and the address stored in [*i], [None] for a
    syntax error (the C function returns 0). *)
Fixpoint inet_aton_loop (fuel : nat) (m : mem) (j : nat) (p ip : Z) : option (option (Z * Z)) :=
  let* '(val, e) := strtoul_loop fuel m p 0 in
  if (e =? p) || (val >? 255) then Some None
  else match j with
       | O => Some (Some (e, u32 (Z.lor (Z.shiftl ip 8) val)))
       | S j' =>
           if negb (ld8 m e =? 46) then Some None
           else inet_aton_loop fuel m j' (e + 1) (u32 (Z.lor (Z.shiftl ip 8) val))
       end.
Definition inet_aton (fuel : nat) (m : mem) (start : Z) : option (Z * option Z) :=
  let* r := inet_aton_loop fuel m 3 start 0 in
  match r with
  | Some (p, ip) => Some (p - start, Some (htonl ip))
  | None => Some (0, None)
  end.

(** ** Guarded regions *)

Definition GUARD_SYMBOL : Z :=
  Z.lor (Z.lor (Z.shiftl 77 24) (Z.shiftl 73 16)) (Z.lor (Z.shiftl 78 8) 69).

(** [k] words are left from [offset] on. *)
Fixpoint guard_loop (m : mem) (region offset : Z) (k : nat) : mem :=
  match k with
  | O => m
  | S k' => guard_loop (st32 m (region + offset) GUARD_SYMBOL) region (offset + 4) k'
  end.
Definition guard_region (m : mem) (region len : Z) : mem :=
  let len := align_down len 4 in
  guard_loop m region 0 (Z.to_nat (len / 4)).

(** [check_region]: [test = *((uint32_t * )(region + offset)) = GUARD_SYMBOL;] stores before it
    reads.  The state is the memory, [corrupted] and [in_corruption]. *)
Fixpoint check_loop (m : mem) (region offset : Z) (k : nat) (corrupted in_corruption : Z)
    : mem * Z :=
  match k with
  | O => (m, corrupted)
  | S k' =>
      let m := st32 m (region + offset) GUARD_SYMBOL in
      let test := u32 GUARD_SYMBOL in
      if (in_corruption =? 0) && negb (test =? GUARD_SYMBOL)
      then check_loop m region (offset + 4) k' (if corrupted =? 0 then 1 else corrupted) 1
      else if negb (in_corruption =? 0) && (test =? GUARD_SYMBOL)
      then check_loop m region (offset + 4) k' corrupted 0
      else check_loop m region (offset + 4) k' corrupted in_corruption
  end.
Definition check_region (m : mem) (region len : Z) : mem * Z :=
  let len := align_down len 4 in
  check_loop m region 0 (Z.to_nat (len / 4)) 0 0.

(** ** Lemmas: byte order *)

Lemma bswap_16_alt x : 0 <= x < 65536 -> bswap_16 x = 256 * (x mod 256) + x / 256.
Proof.
  intros H. unfold bswap_16.
  assert (E : Z.shiftr (Z.land x 0xff00) 8 = x / 256).
  { rewrite Z.shiftr_land. change (Z.shiftr 0xff00 8) with 0xff.
    rewrite land_ff, shiftr_div by lia. zmod. }
  rewrite E, land_ff, shiftl_mul by lia. rewrite lor_disjoint by zmod. lia.
Qed.
Lemma bswap_16_range x : 0 <= x < 65536 -> 0 <= bswap_16 x < 65536.
Proof. intros H. rewrite bswap_16_alt by lia. zmod. Qed.
Lemma bswap_16_invol x : 0 <= x < 65536 -> bswap_16 (bswap_16 x) = x.
Proof. intros H. rewrite !bswap_16_alt by (rewrite ?bswap_16_alt; zmod). zmod. Qed.

Lemma bswap_32_alt x : 0 <= x < 4294967296 ->
  bswap_32 x = 16777216 * (x mod 256) + 65536 * (x / 256 mod 256) + 256 * (x / 65536 mod 256)
               + x / 16777216.
Proof.
  intros H. unfold bswap_32.
  rewrite land_ff. change 0xff00 with (Z.shiftl 0xff 8). change 0xff0000 with (Z.shiftl 0xff 16).
  change 0xff000000 with (Z.shiftl 0xff 24). rewrite (land_byte_mask x 8), (land_byte_mask x 16), (land_byte_mask x 24) by lia.
  rewrite !shiftr_div, !shiftl_mul by lia. pow_consts.
  rewrite (Z.div_mul _ 16777216), (Z.mod_small (x / 16777216)) by zmod.
  replace ((x / 65536 mod 256) * 65536 / 256) with ((x / 65536 mod 256) * 256) by zmod.
  replace ((x / 256 mod 256) * 256 * 256) with ((x / 256 mod 256) * 65536) by lia.
  rewrite (lor_add 8 256), (lor_add 24 16777216) by first [reflexivity | zmod].
  replace (x mod 256 * 16777216 + x / 256 mod 256 * 65536)
    with ((x mod 256 * 256 + x / 256 mod 256) * 65536) by lia.
  rewrite (lor_add 16 65536) by first [reflexivity | zmod]. lia.
Qed.
Lemma bswap_32_range x : 0 <= x < 4294967296 -> 0 <= bswap_32 x < 4294967296.
Proof. intros H. rewrite bswap_32_alt by lia. zmod. Qed.
Lemma bswap_32_bytes a b c d :
  0 <= a < 256 -> 0 <= b < 256 -> 0 <= c < 256 -> 0 <= d < 256 ->
  bswap_32 (a + 256 * b + 65536 * c + 16777216 * d)
  = d + 256 * c + 65536 * b + 16777216 * a.
Proof.
  intros Ha Hb Hc Hd. rewrite bswap_32_alt by lia.
  set (x := a + 256 * b + 65536 * c + 16777216 * d).
  assert (E0 : x mod 256 = a) by (subst x; zmod).
  assert (E1 : x / 256 mod 256 = b)
    by (replace (x / 256) with (b + 256 * c + 65536 * d); subst x; zmod).
  assert (E2 : x / 65536 mod 256 = c)
    by (replace (x / 65536) with (c + 256 * d); subst x; zmod).
  assert (E3 : x / 16777216 = d) by (subst x; zmod).
  rewrite E0, E1, E2, E3. lia.
Qed.
Lemma bytes_of_32 x : 0 <= x < 4294967296 -> exists a b c d,
  x = a + 256 * b + 65536 * c + 16777216 * d /\
  0 <= a < 256 /\ 0 <= b < 256 /\ 0 <= c < 256 /\ 0 <= d < 256.
Proof.
  intros H. exists (x mod 256), (x / 256 mod 256), (x / 65536 mod 256), (x / 16777216).
  replace (x / 16777216) with (x / 65536 / 256) by (now rewrite Z.div_div by lia).
  replace (x / 65536) with (x / 256 / 256) by (now rewrite Z.div_div by lia).
  repeat split; zmod.
Qed.
Lemma bswap_32_invol x : 0 <= x < 4294967296 -> bswap_32 (bswap_32 x) = x.
Proof.
  intros H. destruct (bytes_of_32 x H) as (a & b & c & d & -> & Ha & Hb & Hc & Hd).
  rewrite !bswap_32_bytes by lia. lia.
Qed.

(** A stored network-order halfword or word reads back as its big-endian bytes. *)
Lemma ntohs_htons x : ntohs (htons x) = u16 x.
Proof.
  unfold ntohs, htons. rewrite (u16_small (bswap_16 _)) by (apply bswap_16_range, u16_range).
  apply bswap_16_invol, u16_range.
Qed.
Lemma ntohl_htonl x : ntohl (htonl x) = u32 x.
Proof.
  unfold ntohl, htonl. rewrite (u32_small (bswap_32 _)) by (apply bswap_32_range, u32_range).
  apply bswap_32_invol, u32_range.
Qed.
Lemma htons_range x : 0 <= htons x < 65536.
Proof. apply bswap_16_range, u16_range. Qed.
Lemma htonl_range x : 0 <= htonl x < 4294967296.
Proof. apply bswap_32_range, u32_range. Qed.
Lemma ntohs_be m a : ntohs (ld16 m a) = 256 * ld8 m a + ld8 m (a + 1).
Proof.
  unfold ntohs. rewrite u16_small by apply ld16_range. rewrite bswap_16_alt by apply ld16_range.
  unfold ld16. pose proof (ld8_range m a). pose proof (ld8_range m (a + 1)). zmod.
Qed.
#[export] Hint Resolve htons_range htonl_range : ebdb.

(** ** Lemmas: the one's complement sum *)

(** The sum of the bytes of a list, those at odd positions weighted by 256 ([odd] tells whether the
    list starts at an odd position). *)
Fixpoint wsum (odd : bool) (bs : list Z) : Z :=
  match bs with
  | [] => 0
  | b :: bs' => (if odd then 256 * b else b) + wsum (negb odd) bs'
  end.

(** End-around carry: the representative of a sum in one's complement 16 bit arithmetic, where
    only the sum of nothing but zeros is represented by 0. *)
Definition fold16 (t : Z) : Z := if t =? 0 then 0 else (t - 1) mod 65535 + 1.

Lemma wsum_nonneg odd bs : Forall (fun b => 0 <= b < 256) bs -> 0 <= wsum odd bs.
Proof.
  intros H. revert odd. induction H as [|b bs Hb _ IH]; intros odd; cbn [wsum]; [lia|].
  specialize (IH (negb odd)). destruct odd; lia.
Qed.
Lemma fold16_range t : 0 <= t -> 0 <= fold16 t <= 65535.
Proof. intros H. unfold fold16. case_tests; zmod. Qed.
Lemma fold16_id t : 0 <= t <= 65535 -> fold16 t = t.
Proof. intros H. unfold fold16. case_tests; zmod. Qed.
Lemma fold16_unique t f k : 0 < t -> 1 <= f <= 65535 -> t = f + 65535 * k -> fold16 t = f.
Proof. intros Ht Hf ->. unfold fold16. case_tests; zmod. Qed.
Lemma fold16_decomp t : 0 < t -> exists k, t = fold16 t + 65535 * k /\ 1 <= fold16 t <= 65535.
Proof. intros Ht. exists ((t - 1) / 65535). unfold fold16. case_tests; zmod. Qed.
Lemma fold16_0 : fold16 0 = 0.
Proof. reflexivity. Qed.
Lemma fold16_add a b : 0 <= a -> 0 <= b -> fold16 (fold16 a + b) = fold16 (a + b).
Proof.
  intros Ha Hb. destruct (Z.eqb_spec a 0) as [->|]; [reflexivity|].
  destruct (fold16_decomp a) as (k & E & R); [lia|].
  destruct (fold16_decomp (fold16 a + b)) as (j & E' & R'); [lia|].
  symmetry. apply (fold16_unique _ _ (j + k)); lia.
Qed.
(** One conditional subtraction is enough for a sum of two representatives. *)
Lemma fold16_step s : 0 <= s <= 131070 -> (if s >? 65535 then s - 65535 else s) = fold16 s.
Proof. intros H. unfold fold16. case_tests; zmod. Qed.

Lemma istrue_parity i : istrue (Z.land i 1) = Z.odd i.
Proof. unfold istrue. rewrite land_1, Zmod_odd. now destruct (Z.odd i). Qed.

Lemma wsum_app odd a b :
  wsum odd (a ++ b) = wsum odd a + wsum (xorb odd (Nat.odd (length a))) b.
Proof.
  revert odd. induction a as [|x a IH]; intros odd; cbn [app wsum length].
  - cbn. now rewrite xorb_false_r.
  - rewrite IH, Nat.odd_succ, <- Nat.negb_odd. rewrite <- Z.add_assoc. do 3 f_equal.
    now destruct odd, (Nat.odd (length a)).
Qed.

Lemma ipchksum_loop_spec m ptr n : forall i sum,
  0 <= sum <= 65535 ->
  ipchksum_loop m ptr i n sum = fold16 (sum + wsum (Z.odd i) (ldn m (ptr + i) n)).
Proof.
  induction n as [|n IH]; intros i sum Hs; cbn [ipchksum_loop ldn wsum].
  - rewrite fold16_id; lia.
  - pose proof (ld8_range m (ptr + i)) as Hb.
    rewrite istrue_parity. set (v := if Z.odd i then _ else _).
    assert (Ev : v = if Z.odd i then 256 * ld8 m (ptr + i) else ld8 m (ptr + i)).
    { subst v. rewrite shiftl_mul by lia. destruct (Z.odd i); zmod. }
    assert (Hv : 0 <= v <= 65280) by (rewrite Ev; destruct (Z.odd i); lia).
    rewrite (u32_small (sum + v)) by lia.
    assert (Es : (if sum + v >? 0xFFFF
                  then Z.land (u32 (sum + v + Z.shiftr (sum + v) 16)) 0xFFFF else sum + v)
                 = fold16 (sum + v)).
    { rewrite <- fold16_step by lia. rewrite land_ffff, shiftr_div by lia. case_tests; zmod. }
    rewrite Es, IH by (apply fold16_range; lia).
    replace (ptr + (i + 1)) with (ptr + i + 1) by lia.
    assert (Ho : Z.odd (i + 1) = negb (Z.odd i)).
    { rewrite Z.add_1_r, Z.odd_succ. apply eq_sym, Z.negb_odd. }
    rewrite Ho, fold16_add, <- Ev; [f_equal; lia | lia |].
    apply wsum_nonneg, Forall_ldn.
Qed.

(** The checksum is the complement of the folded sum of the bytes. *)
Lemma ipchksum_spec m p n : ipchksum m p n = 65535 - fold16 (wsum false (ldn m p n)).
Proof.
  unfold ipchksum, cpu_to_le16. rewrite ipchksum_loop_spec by lia.
  rewrite Z.add_0_l, Z.add_0_r. cbn [Z.odd].
  pose proof (fold16_range _ (wsum_nonneg false _ (Forall_ldn m p n))).
  rewrite land_ffff, lnot_add. zmod.
Qed.
Lemma ipchksum_range m p n : 0 <= ipchksum m p n < 65536.
Proof.
  rewrite ipchksum_spec. pose proof (fold16_range _ (wsum_nonneg false _ (Forall_ldn m p n))). lia.
Qed.
#[export] Hint Resolve ipchksum_range : ebdb.
#[export] Instance ipchksum_proper : Proper (mem_eq ==> eq ==> eq ==> eq) ipchksum.
Proof. intros m1 m2 H p ? <- n ? <-. rewrite !ipchksum_spec. now rewrite H. Qed.
Lemma ipchksum_ext m1 m2 p n :
  (forall x, p <= x < p + Z.of_nat n -> ld8 m1 x = ld8 m2 x) -> ipchksum m1 p n = ipchksum m2 p n.
Proof. intros H. rewrite !ipchksum_spec. now rewrite (ldn_ext _ _ _ _ H). Qed.

(** Starting one byte later multiplies the sum by 256 modulo 65535, which a byte swap undoes. *)
Lemma wsum_shift bs :
  Forall (fun b => 0 <= b < 256) bs -> forall odd,
  exists k, wsum (negb odd) bs = 256 * wsum odd bs - 65535 * k /\
            (wsum odd bs = 0 <-> wsum (negb odd) bs = 0).
Proof.
  induction 1 as [|b bs Hb Hbs IH]; intros odd; cbn [wsum].
  - exists 0. lia.
  - destruct (IH (negb odd)) as (k & E & Ez).
    pose proof (wsum_nonneg odd _ Hbs). pose proof (wsum_nonneg (negb odd) _ Hbs).
    rewrite negb_involutive in *. destruct odd; cbn [negb] in *.
    + exists (b + k). lia.
    + exists k. lia.
Qed.

Lemma fold16_bswap bs :
  Forall (fun b => 0 <= b < 256) bs ->
  bswap_16 (fold16 (wsum false bs)) = fold16 (wsum true bs).
Proof.
  intros H. destruct (wsum_shift bs H false) as (k & E & Ez). cbn [negb] in *.
  pose proof (wsum_nonneg true _ H). pose proof (wsum_nonneg false _ H) as Hf.
  pose proof (fold16_range _ Hf). rewrite bswap_16_alt by lia.
  destruct (Z.eqb_spec (wsum false bs) 0) as [E0|].
  { rewrite E0 in *. replace (wsum true bs) with 0 by lia. reflexivity. }
  destruct (fold16_decomp (wsum false bs)) as (j & Ej & R); [lia|]. symmetry.
  set (f := fold16 (wsum false bs)) in *.
  apply (fold16_unique _ _ (f / 256 + 256 * j - k)); zmod.
Qed.

(** The checksum of a list of bytes, and its composition. *)
Definition cksum (bs : list Z) : Z := 65535 - fold16 (wsum false bs).

Lemma ipchksum_cksum m p n : ipchksum m p n = cksum (ldn m p n).
Proof. apply ipchksum_spec. Qed.
Lemma Z_odd_of_nat n : Z.odd (Z.of_nat n) = Nat.odd n.
Proof.
  destruct (Nat.Even_or_Odd n) as [[q ->]|[q ->]].
  - rewrite Nat2Z.inj_mul, Z.odd_mul, Nat.odd_mul. reflexivity.
  - rewrite Nat2Z.inj_add, Nat2Z.inj_mul, Z.odd_add, Z.odd_mul, Nat.odd_add, Nat.odd_mul.
    reflexivity.
Qed.
(** Only the parity of the offset matters. *)
Lemma add_ipchksums_app offset a b :
  Forall (fun b => 0 <= b < 256) a -> Forall (fun b => 0 <= b < 256) b ->
  Z.odd offset = Nat.odd (length a) ->
  add_ipchksums offset (cksum a) (cksum b) = cksum (a ++ b).
Proof.
  intros Fa Fb Ez. unfold cksum, add_ipchksums. rewrite istrue_parity, wsum_app, xorb_false_l.
  set (n := length a) in *.
  pose proof (wsum_nonneg false a Fa) as Pa.
  pose proof (wsum_nonneg false b Fb) as Pb. pose proof (wsum_nonneg true b Fb) as Pb'.
  pose proof (fold16_range _ Pa). pose proof (fold16_range _ Pb). pose proof (fold16_range _ Pb').
  rewrite Ez, !land_ffff, !lnot_add.
  replace ((- (65535 - fold16 (wsum false a)) - 1) mod 65536) with (fold16 (wsum false a)) by zmod.
  replace ((- (65535 - fold16 (wsum false b)) - 1) mod 65536) with (fold16 (wsum false b)) by zmod.
  rewrite fold16_bswap by exact Fb.
  set (w := if Nat.odd n then fold16 (wsum true b) else fold16 (wsum false b)).
  assert (Ew : w = fold16 (wsum (Nat.odd n) b)) by (subst w; now destruct (Nat.odd n)).
  assert (Hw : 0 <= w <= 65535) by (rewrite Ew; destruct (Nat.odd n); lia).
  rewrite (u32_small (_ + w)) by lia.
  replace (if fold16 (wsum false a) + w >? 65535 then u32 (fold16 (wsum false a) + w - 65535)
           else fold16 (wsum false a) + w) with (fold16 (fold16 (wsum false a) + w)).
  2:{ rewrite <- fold16_step by lia. case_tests; [rewrite u32_small; lia | reflexivity]. }
  assert (0 <= wsum (Nat.odd n) b) by (destruct (Nat.odd n); lia).
  rewrite fold16_add, Ew, (Z.add_comm _ (fold16 _)), fold16_add, (Z.add_comm (wsum (Nat.odd n) b))
    by lia.
  pose proof (fold16_range (wsum false a + wsum (Nat.odd n) b) ltac:(lia)). zmod.
Qed.

(** Filling in a 16 bit field that was zero, at an even offset, adds its value to the sum. *)
Lemma wsum_st16 m p n o c :
  0 <= o -> o mod 2 = 0 -> o + 2 <= Z.of_nat n -> ld16 m (p + o) = 0 -> 0 <= c < 65536 ->
  wsum false (ldn (st16 m (p + o) c) p n) = wsum false (ldn m p n) + c.
Proof.
  intros Ho Hp Hn Hz Rc.
  assert (Hb : ld8 m (p + o) = 0 /\ ld8 m (p + o + 1) = 0).
  { unfold ld16 in Hz. pose proof (ld8_range m (p + o)). pose proof (ld8_range m (p + o + 1)). lia. }
  destruct Hb as [Hb0 Hb1].
  assert (En : n = (Z.to_nat o + (2 + (n - Z.to_nat o - 2)))%nat) by lia.
  assert (Eo : Nat.odd (Z.to_nat o) = false).
  { rewrite <- Nat.negb_even. apply negb_false_iff, Nat.even_spec.
    exists (Z.to_nat (o / 2)). zmod. }
  rewrite En, !ldn_app, !wsum_app, !length_ldn, Eo, !Z2Nat.id by lia.
  cbn [ldn wsum negb xorb length Nat.odd].
  rewrite Hb0, Hb1. rewrite (ldn_ext (st16 _ _ _) m p), (ldn_ext (st16 _ _ _) m (_ + 2));
    [| intros x Hx; rewrite ld8_st16_ne by lia; reflexivity ..].
  replace (ld8 (st16 m (p + o) c) (p + o)) with (c mod 256)
    by (unfold st16; rewrite ld8_st8_ne, ld8_st8_eq by lia; reflexivity).
  replace (ld8 (st16 m (p + o) c) (p + o + 1)) with (c / 256)
    by (unfold st16; rewrite ld8_st8_eq; zmod).
  change (Z.of_nat 2) with 2. zmod.
Qed.
Lemma fold16_complement t : 0 <= t -> fold16 (t + (65535 - fold16 t)) = 65535.
Proof.
  intros Ht. destruct (Z.eqb_spec t 0) as [->|]; [reflexivity|].
  destruct (fold16_decomp t) as (k & E & R); [lia|]. apply (fold16_unique _ _ k); lia.
Qed.

(** ** Lemmas: numbers *)

Definition isdigit10 (c : Z) : bool := (48 <=? c) && (c <=? 57).
Definition dec_val (acc : Z) (ds : list Z) : Z := fold_left (fun a c => a * 10 + (c - 48)) ds acc.

Lemma s8_digit m p : (s8 (ld8 m p) >=? 48) && (s8 (ld8 m p) <=? 57) = isdigit10 (ld8 m p).
Proof.
  unfold isdigit10, s8. rewrite u8_ld8. pose proof (ld8_range m p). case_tests; lia.
Qed.

Lemma strtoul_loop_spec ds : forall m p acc fuel,
  ldn m p (length ds) = ds -> forallb isdigit10 ds = true ->
  isdigit10 (ld8 m (p + Z.of_nat (length ds))) = false -> (length ds < fuel)%nat ->
  strtoul_loop fuel m p (u32 acc) = Some (u32 (dec_val acc ds), p + Z.of_nat (length ds)).
Proof.
  induction ds as [|c ds IH]; intros m p acc fuel E Hd Hn Hf;
    (destruct fuel as [|fuel]; [cbn in Hf; lia|]); cbn [strtoul_loop length ldn] in *;
    rewrite s8_digit.
  - rewrite Z.add_0_r in *. rewrite Hn. reflexivity.
  - injection E as Ec E. cbn [forallb] in Hd. apply andb_true_iff in Hd as [Hc Hd].
    rewrite Ec, Hc. replace (s8 c) with c.
    + replace (u32 (u32 acc * 10 + (c - 48))) with (u32 (acc * 10 + (c - 48))).
      * replace (p + Z.of_nat (S (length ds))) with (p + 1 + Z.of_nat (length ds)) in * by lia.
        apply IH; auto; lia.
      * unfold u32. rewrite !(Zplus_mod (_ * 10)), (Zmult_mod acc), (Zmult_mod (acc mod _)).
        now rewrite Z.mod_mod by lia.
    + unfold isdigit10 in Hc. unfold s8. rewrite andb_true_iff, !Z.leb_le in Hc.
      rewrite u8_small by lia. case_tests; lia.
Qed.

Lemma dec_val_nonneg ds acc : 0 <= acc -> forallb isdigit10 ds = true -> 0 <= dec_val acc ds.
Proof.
  revert acc. induction ds as [|c ds IH]; intros acc Ha; cbn [forallb dec_val fold_left]; [lia|].
  rewrite andb_true_iff. intros [Hc Hd]. apply IH; [|exact Hd].
  unfold isdigit10 in Hc. rewrite andb_true_iff, !Z.leb_le in Hc. lia.
Qed.

(** Case folding sends to zero the terminator and the space, and nothing else. *)
Lemma upcase_zero c : 0 <= c < 256 -> (upcase c = 0 <-> c = 0 \/ c = 32).
Proof.
  intros H. pose proof (all_below_spec 256
    (fun c => Bool.eqb (upcase c =? 0) ((c =? 0) || (c =? 32))) eq_refl c H) as E. cbv beta in E.
  apply eqb_prop in E. rewrite <- Z.eqb_eq, E, orb_true_iff, !Z.eqb_eq. reflexivity.
Qed.

Lemma strcasecmp_correct s : forall t m a b fuel,
  cstr m a s -> cstr m b t -> (length s < fuel)%nat -> ~ In 32 s -> ~ In 32 t ->
  exists r, strcasecmp fuel m a b = Some r /\ (r = 0 <-> map upcase s = map upcase t).
Proof.
  induction s as [|c s IH]; intros t m a b fuel Hs Ht Hf Ns Nt;
    (destruct fuel as [|fuel]; [cbn in Hf; lia|]); cbn [strcasecmp cstr length map] in *;
    pose proof (ld8_range m a); pose proof (ld8_range m b).
  - rewrite Hs. cbn [istrue Z.eqb negb andb]. eexists. split; [reflexivity|].
    change (upcase 0) with 0. destruct t as [|d t]; cbn [cstr map In] in *.
    + rewrite Ht. cbn. tauto.
    + destruct Ht as (Ed & Hd & _). rewrite Ed in *.
      pose proof (upcase_zero d ltac:(lia)). split; [lia | discriminate].
  - destruct Hs as (Ec & Hc & Hs). rewrite Ec in *. unfold istrue.
    destruct (Z.eqb_spec c 0) as [|_]; [lia|].
    destruct t as [|d t]; cbn [cstr map In] in *.
    + rewrite Ht. cbn. eexists. split; [reflexivity|]. change (upcase 0) with 0.
      pose proof (upcase_zero c ltac:(lia)). split; [lia | discriminate].
    + destruct Ht as (Ed & Hd & Ht). rewrite Ed in *.
      destruct (Z.eqb_spec d 0) as [|_]; [lia|]. cbn [negb andb].
      destruct (Z.eqb_spec (upcase c) (upcase d)) as [E|E].
      * edestruct (IH t m (a + 1) (b + 1) fuel) as (r & Hr & Hz); eauto; try tauto; [lia|].
        exists r. split; [exact Hr|]. rewrite Hz, E. split; congruence.
      * eexists. split; [reflexivity|]. split; [lia | congruence].
Qed.

(** ** Properties *)

(** The Internet checksum composes.  [add_ipchksums] applied to the checksums of two adjacent
    areas gives the checksum of the whole, for any lengths; the byte swap is what an odd offset
    needs.  ([ipchksum] and [add_ipchksums] are used this way for the UDP and TCP pseudo headers
    and for the checksum of a loaded image.) *)
Theorem ipchksum_append m p n k :
  ipchksum m p (n + k)
  = add_ipchksums (Z.of_nat n) (ipchksum m p n) (ipchksum m (p + Z.of_nat n) k).
Proof.
  rewrite !ipchksum_cksum, ldn_app, add_ipchksums_app; [reflexivity | apply Forall_ldn .. |].
  now rewrite length_ldn, Z_odd_of_nat.
Qed.

(** A header whose checksum field was zero while [ipchksum] ran verifies: after the result is
    stored in the field (at an even offset), the checksum of the same bytes is 0, which is what
    [await_reply] tests on reception. *)
Theorem ipchksum_verifies m p n o :
  0 <= o -> o mod 2 = 0 -> o + 2 <= Z.of_nat n -> ld16 m (p + o) = 0 ->
  ipchksum (st16 m (p + o) (ipchksum m p n)) p n = 0.
Proof.
  intros Ho Hp Hn Hz. pose proof (ipchksum_range m p n) as Rc.
  rewrite ipchksum_cksum. unfold cksum. rewrite wsum_st16 by assumption.
  rewrite (ipchksum_spec m p n), fold16_complement; [reflexivity|].
  apply wsum_nonneg, Forall_ldn.
Qed.

Lemma ipchksum_verifies_witness :
  let m := stn (fun _ => 0) 0 [0x45; 0; 0; 40; 0; 0; 0; 0; 60; 17; 0; 0; 10; 0; 0; 1; 10; 0; 0; 2] in
  ipchksum (st16 m (0 + 10) (ipchksum m 0 20)) 0 20 = 0.
Proof. intros m. apply (ipchksum_verifies m 0 20 10); try reflexivity; cbn; lia. Defined.

(** [strcasecmp] decides equality of two strings without spaces up to bit 5 of their characters;
    it terminates within the length of the first. *)
Theorem strcasecmp_spec m a b s t fuel :
  cstr m a s -> cstr m b t -> (length s < fuel)%nat -> ~ In 32 s -> ~ In 32 t ->
  exists r, strcasecmp fuel m a b = Some r /\ (r = 0 <-> map upcase s = map upcase t).
Proof. apply strcasecmp_correct. Qed.

Lemma strcasecmp_spec_witness :
  let m := mem_with [(100, [78; 102; 83; 0]); (200, [110; 70; 115; 0])] in
  exists r, strcasecmp 4 m 100 200 = Some r /\ (r = 0 <-> map upcase [78; 102; 83] = map upcase [110; 70; 115]).
Proof.
  intros m. apply (strcasecmp_spec m 100 200 [78; 102; 83] [110; 70; 115] 4);
    first [apply cstrb_cstr; reflexivity | cbn; lia | cbn; intuition lia].
Defined.

(** The constants of the generator: 2147483563 = 40014 * 53668 + 12211. *)
Lemma random_next_schrage s :
  - 2147483648 <= s <= 2147483647 ->
  let r := 40014 * (Z.rem s 53668) - 12211 * Z.quot s 53668 in
  random_next s = (if r <? 0 then r + 2147483563 else r) /\
  r = 40014 * s - 2147483563 * Z.quot s 53668 /\ -2147483563 < r < 2147483563.
Proof.
  intros H r. subst r. unfold random_next.
  pose proof (Z.quot_rem' s 53668) as E.
  assert (R : Z.abs (Z.rem s 53668) < 53668) by (pose proof (Z.rem_bound_abs s 53668); lia).
  replace (s - 53668 * Z.quot s 53668) with (Z.rem s 53668) by lia. split; [reflexivity|].
  split; [lia|].
  assert (S : 0 <= s -> 0 <= Z.quot s 53668 /\ 0 <= Z.rem s 53668)
    by (intros; split; [apply Z.quot_pos | apply Z.rem_nonneg]; lia).
  assert (S' : s <= 0 -> Z.quot s 53668 <= 0 /\ Z.rem s 53668 <= 0).
  { intros. split; [|apply Z.rem_nonpos; lia].
    rewrite <- (Z.opp_involutive s), Z.quot_opp_l by lia.
    pose proof (Z.quot_pos (- s) 53668 ltac:(lia) ltac:(lia)). lia. }
  assert (Q : -40014 <= Z.quot s 53668 <= 40014) by lia. lia.
Qed.

(** The random generator stays in range and computes the linear congruential sequence without
    overflowing 32 bits.  Whatever the seed, every value returned is between 0 and 2147483562 (the
    second bound the source asks about), and from a seed in range the next one is exactly
    [40014 * seed mod 2147483563], never zero: the generator never falls back to seeding. *)
Theorem random_lcg init seed :
  -2147483648 <= init <= 2147483647 -> -2147483648 <= seed <= 2147483647 ->
  0 <= random init seed <= 2147483562 /\
  (0 < seed < 2147483563 ->
   random init seed = (40014 * seed) mod 2147483563 /\ random init seed <> 0).
Proof.
  intros Hi Hs. unfold random. split.
  - destruct (random_next_schrage (if seed =? 0 then init else seed)) as (-> & E & B);
      case_tests; lia.
  - intros Hp. destruct (Z.eqb_spec seed 0); [lia|].
    destruct (random_next_schrage seed) as (-> & E & B); [lia|]. set (r := 40014 * _ - _) in *.
    assert (Em : (if r <? 0 then r + 2147483563 else r) = (40014 * seed) mod 2147483563).
    { apply Z.mod_unique_pos with (q := Z.quot seed 53668 - (if r <? 0 then 1 else 0)); case_tests; lia. }
    rewrite Em. split; [reflexivity|]. intros E0.
    apply Z.mod_divide in E0; [|lia]. apply Z.gauss in E0; [|reflexivity].
    apply Z.divide_pos_le in E0; lia.
Qed.

Lemma random_lcg_witness :
  0 <= random 77 1 <= 2147483562 /\
  (0 < 1 < 2147483563 -> random 77 1 = (40014 * 1) mod 2147483563 /\ random 77 1 <> 0).
Proof. apply (random_lcg 77 1); lia. Defined.

(** One field of a dotted quad is read by [strtoul]. *)
Lemma strtoul_field m p d fuel :
  ldn m p (length d) = d -> forallb isdigit10 d = true -> dec_val 0 d <= 255 ->
  isdigit10 (ld8 m (p + Z.of_nat (length d))) = false -> (length d < fuel)%nat ->
  strtoul_loop fuel m p 0 = Some (dec_val 0 d, p + Z.of_nat (length d)).
Proof.
  intros E Hd Hv Hn Hf. change 0 with (u32 0) at 1. rewrite (strtoul_loop_spec d) by auto.
  pose proof (dec_val_nonneg d 0 ltac:(lia) Hd). now rewrite u32_small by lia.
Qed.
(** The last field ends the loop; a field before it must be followed by a dot. *)
Lemma inet_aton_step m p d fuel j ip :
  ldn m p (length d) = d -> d <> [] -> forallb isdigit10 d = true -> dec_val 0 d <= 255 ->
  isdigit10 (ld8 m (p + Z.of_nat (length d))) = false -> (length d < fuel)%nat ->
  0 <= ip < 16777216 ->
  let e := p + Z.of_nat (length d) in
  inet_aton_loop fuel m j p ip
  = match j with
    | O => Some (Some (e, ip * 256 + dec_val 0 d))
    | S j' => if ld8 m e =? 46 then inet_aton_loop fuel m j' (e + 1) (ip * 256 + dec_val 0 d)
              else Some None
    end.
Proof.
  intros E Hne Hd Hv Hn Hf Hip e. pose proof (dec_val_nonneg d 0 ltac:(lia) Hd) as Hp.
  assert (Hl : (0 < length d)%nat) by (destruct d; [congruence | cbn; lia]).
  destruct j as [|j]; cbn [inet_aton_loop]; rewrite (strtoul_field m p d fuel) by auto;
    cbn [obind]; (destruct (Z.eqb_spec (p + Z.of_nat (length d)) p); [lia|]);
    rewrite Z.gtb_ltb; (destruct (Z.ltb_spec 255 (dec_val 0 d)); [lia|]); cbn [orb];
    rewrite shiftl_mul, (lor_disjoint ip (dec_val 0 d) 8), u32_small by (pow_consts; lia);
    [reflexivity|].
  subst e. now destruct (ld8 m _ =? 46).
Qed.

Lemma ldn_split m p a b :
  ldn m p (length (a ++ b)) = a ++ b ->
  ldn m p (length a) = a /\ ldn m (p + Z.of_nat (length a)) (length b) = b.
Proof.
  rewrite length_app, ldn_app. apply app_split_length, length_ldn.
Qed.

(** A dotted quad is read digit by digit: on four decimal fields below 256 separated by dots
    and followed by a character that is no digit, [inet_aton] stores the address in network order
    and returns the number of characters read. *)
Lemma inet_aton_fields m p d1 d2 d3 d4 fuel :
  let fields := [d1; d2; d3; d4] in
  let text := d1 ++ [46] ++ d2 ++ [46] ++ d3 ++ [46] ++ d4 in
  ldn m p (length text) = text ->
  Forall (fun d => d <> [] /\ forallb isdigit10 d = true /\ dec_val 0 d <= 255) fields ->
  isdigit10 (ld8 m (p + Z.of_nat (length text))) = false ->
  (length text < fuel)%nat ->
  inet_aton fuel m p
  = Some (Z.of_nat (length text),
          Some (htonl (fold_left (fun a d => a * 256 + dec_val 0 d) fields 0))).
Proof.
  intros fields text E F Hn Hf. subst fields text. unfold inet_aton.
  apply ldn_split in E as [E1 E]. apply ldn_split in E as [P1 E].
  apply ldn_split in E as [E2 E]. apply ldn_split in E as [P2 E].
  apply ldn_split in E as [E3 E]. apply ldn_split in E as [P3 E4].
  cbn [length ldn Z.of_nat] in P1, P2, P3. injection P1 as P1. injection P2 as P2.
  injection P3 as P3. cbn [length Z.of_nat Pos.of_succ_nat] in E1, E2, E3, E4, P1, P2, P3.
  rewrite !Forall_cons_iff in F.
  destruct F as ((N1 & D1 & V1) & (N2 & D2 & V2) & (N3 & D3 & V3) & (N4 & D4 & V4) & _).
  pose proof (dec_val_nonneg d1 0 ltac:(lia) D1). pose proof (dec_val_nonneg d2 0 ltac:(lia) D2).
  pose proof (dec_val_nonneg d3 0 ltac:(lia) D3).
  rewrite !length_app in *. cbn [length] in *.
  assert (Hn4 : isdigit10 (ld8 m (p + Z.of_nat (length d1) + 1 + Z.of_nat (length d2) + 1
                 + Z.of_nat (length d3) + 1 + Z.of_nat (length d4))) = false)
    by (rewrite <- Hn; do 2 f_equal; lia).
  rewrite (inet_aton_step m p d1) by (rewrite ?P1; auto; lia). rewrite P1, Z.eqb_refl.
  rewrite (inet_aton_step m _ d2) by (rewrite ?P2; auto; lia). rewrite P2, Z.eqb_refl.
  rewrite (inet_aton_step m _ d3) by (rewrite ?P3; auto; lia). rewrite P3, Z.eqb_refl.
  rewrite (inet_aton_step m _ d4) by (auto; lia). cbn [obind fold_left]. do 2 f_equal. lia.
Qed.

(** [guard_region] writes the pattern on every whole word of the region and nothing else. *)
Lemma guard_loop_out m region k x : forall offset,
  x < region + offset \/ region + offset + 4 * Z.of_nat k <= x ->
  ld8 (guard_loop m region offset k) x = ld8 m x.
Proof.
  revert m. induction k as [|k IH]; intros m offset H; cbn [guard_loop]; [reflexivity|].
  rewrite IH by lia. rewrite ld8_st32_ne by lia. reflexivity.
Qed.
Lemma guard_loop_in m region k : forall offset i,
  0 <= i < Z.of_nat k ->
  ld32 (guard_loop m region offset k) (region + offset + 4 * i) = GUARD_SYMBOL.
Proof.
  revert m. induction k as [|k IH]; intros m offset i H; cbn [guard_loop]; [lia|].
  destruct (Z.eqb_spec i 0) as [->|].
  - transitivity (ld32 (st32 m (region + offset) GUARD_SYMBOL) (region + offset));
      [|apply ld32_st32_eq].
    unfold ld32, ld16. rewrite !guard_loop_out by lia. now rewrite Z.add_0_r.
  - replace (region + offset + 4 * i) with (region + (offset + 4) + 4 * (i - 1)) by lia.
    apply IH. lia.
Qed.
Lemma check_loop_blind m region k c : forall offset,
  snd (check_loop m region offset k c 0) = c /\
  fst (check_loop m region offset k c 0) = guard_loop m region offset k.
Proof.
  revert m. induction k as [|k IH]; intros m offset; cbn [check_loop guard_loop]; [auto|].
  change (u32 GUARD_SYMBOL =? GUARD_SYMBOL) with true. cbn [Z.eqb negb andb]. apply IH.
Qed.

(** [guard_region] fills every whole word of the region with the guard pattern and touches
    nothing outside it, but [check_region] cannot detect any corruption of it: its
    [test = *p = GUARD_SYMBOL] stores the pattern before it compares, so for any memory whatever
    it answers 0 and overwrites what it was to inspect, exactly as [guard_region] would. *)
Theorem check_region_blind m region len :
  0 <= len ->
  (forall i, 0 <= i < len / 4 -> ld32 (guard_region m region len) (region + 4 * i) = GUARD_SYMBOL) /\
  (forall x, x < region \/ region + 4 * (len / 4) <= x ->
     ld8 (guard_region m region len) x = ld8 m x) /\
  check_region m region len = (guard_region m region len, 0).
Proof.
  intros Hl. unfold guard_region, check_region.
  assert (E : align_down len 4 / 4 = len / 4) by zmod. rewrite E.
  assert (0 <= len / 4) by zmod. split; [|split].
  - intros i Hi. replace (region + 4 * i) with (region + 0 + 4 * i) by lia.
    apply guard_loop_in. lia.
  - intros x Hx. apply guard_loop_out. lia.
  - rewrite (surjective_pairing (check_loop _ _ _ _ _ _)).
    now destruct (check_loop_blind m region (Z.to_nat (len / 4)) 0 0) as [-> ->].
Qed.

Lemma check_region_blind_witness :
  check_region (fun _ => 7) 4096 18 = (guard_region (fun _ => 7) 4096 18, 0).
Proof. apply (check_region_blind (fun _ => 7) 4096 18). lia. Defined.
