(* ===== verification/Vsprintf.v ===== *)
(** The formatted output of [src/src/core/vsprintf.c].

    A format is the list of its characters, without the terminator; an argument is an integer or the
    bytes a pointer leads to.  [None] stands for what the C function does not survive: running past
    the end of the format (a trailing percent sign) or an argument that is not there.  What is
    printed is a list of characters; [sprintf] stores it. *)

From Stdlib Require String Ascii.
From S2P Require Import Prelude Memory StringLib Misc.
Import String.StringSyntax.
Delimit Scope string_scope with string.

Inductive arg :=
| AInt (i : Z)
| AStr (s : list Z).

Definition ETH_ALEN_nat : nat := 6.
Definition INT_SHIFT : Z := 28.
Definition SHRT_SHIFT : Z := 12.
Definition CHAR_SHIFT : Z := 4.

Definition isdig (c : Z) : bool := (48 <=? c) && (c <=? 57).
Fixpoint skip_digits (fmt : list Z) : list Z :=
  match fmt with
  | c :: fmt' => if isdig c then skip_digits fmt' else fmt
  | [] => []
  end.
Definition skip_width (fmt : list Z) : list Z :=
  let fmt := skip_digits fmt in
  let fmt := match fmt with 46 :: fmt' => fmt' | _ => fmt end in
  skip_digits fmt.

(** *** Numbers *)

Definition hexdigits : list Z :=
  [48; 49; 50; 51; 52; 53; 54; 55; 56; 57; 65; 66; 67; 68; 69; 70].
(** [for ( ; shift >= 0; shift -= 4)], with [k] digits to come. *)
Fixpoint fmt_x (k : nat) (h shift ncase : Z) : list Z :=
  match k with
  | O => []
  | S k' => Z.lor (nth (Z.to_nat (Z.land (Z.shiftr h shift) 0xF)) hexdigits 0) ncase
            :: fmt_x k' h (shift - 4) ncase
  end.

(** The digits, least significant first: [do { } while (i)]. *)
Fixpoint digits (fuel : nat) (i : Z) : list Z :=
  match fuel with
  | O => []
  | S n => u8 (48 + Z.rem i 10) ::
           (let i := Z.quot i 10 in if i =? 0 then [] else digits n i)
  end.
(** The reversal in place between the indices [p] and [r] (exclusive). *)
Definition swap (l : list Z) (p r : nat) : list Z :=
  let i := nth r l 0 in
  let j := nth p l 0 in
  firstn p l ++ [i] ++ firstn (r - S p) (skipn (S p) l) ++ [j] ++ skipn (S r) l.
Fixpoint reverse (fuel : nat) (l : list Z) (p r : nat) : list Z :=
  match fuel with
  | O => l
  | S n => if (p <? Nat.pred r)%nat then reverse n (swap l p (Nat.pred r)) (S p) (Nat.pred r) else l
  end.
Definition fmt_d (i : Z) : list Z :=
  let '(sign, i) := if i <? 0 then ([45], s32 (- i)) else ([], i) in
  let ds := digits 11 i in
  sign ++ reverse (length ds) ds 0 (length ds).

(** [%@]: each byte followed by a dot, less the last dot; [%!] likewise. *)
Definition fmt_at (l : Z) : list Z :=
  removelast (flat_map (fun r => fmt_d r ++ [46])
    [u8 l; u8 (Z.shiftr l 8); u8 (Z.shiftr l 16); u8 (Z.shiftr l 24)]).
Definition fmt_eth (p : list Z) : list Z :=
  removelast (flat_map (fun r => fmt_x 2 (u32 (s8 r)) CHAR_SHIFT 0 ++ [58]) (firstn ETH_ALEN_nat p)).

(** One conversion: the characters left in [tmp], and the arguments that remain. *)
Definition fmt_item (alt : bool) (shift c : Z) (args : list arg) : option (list Z * list arg) :=
  if Z.lor c 0x20 =? 120 then
    match args with
    | AInt i :: args' =>
        let ncase := Z.land c 0x20 in
        Some ((if alt then [48; Z.lor 88 ncase] else [])
              ++ fmt_x (Z.to_nat (shift / 4 + 1)) (u32 i) shift ncase, args')
    | _ => None
    end
  else if c =? 100 then
    match args with AInt i :: args' => Some (fmt_d (s32 i), args') | _ => None end
  else if c =? 64 then
    match args with AInt i :: args' => Some (fmt_at (u32 i), args') | _ => None end
  else if c =? 33 then
    match args with
    | AStr p :: args' => if (length p <? ETH_ALEN_nat)%nat then None else Some (fmt_eth p, args')
    | _ => None
    end
  else if c =? 99 then
    match args with AInt i :: args' => Some ([u8 i], args') | _ => None end
  else Some ([c], args).

(** The flags before the conversion. *)
Definition fmt_alt (fmt : list Z) : bool * list Z :=
  match fmt with 35 :: fmt' => (true, fmt') | _ => (false, fmt) end.
Definition fmt_shift (fmt : list Z) : Z * list Z :=
  match fmt with
  | 108 :: fmt' => (INT_SHIFT, fmt')
  | 104 :: 104 :: fmt' => (CHAR_SHIFT, fmt')
  | 104 :: fmt' => (SHRT_SHIFT, fmt')
  | _ => (INT_SHIFT, fmt)
  end.

Fixpoint vsprintf_loop (fuel : nat) (fmt : list Z) (args : list arg) : option (list Z) :=
  match fuel with
  | O => None
  | S n =>
      match fmt with
      | [] => Some []
      | c :: fmt =>
          if negb (c =? 37) then
            let* out := vsprintf_loop n fmt args in Some (c :: out)
          else
            match skip_width fmt with
            | 115 :: fmt =>
                match args with
                | AStr p :: args => let* out := vsprintf_loop n fmt args in Some (p ++ out)
                | _ => None
                end
            | fmt =>
                let '(alt, fmt) := fmt_alt fmt in
                let '(shift, fmt) := fmt_shift fmt in
                match fmt with
                | [] => None
                | c :: fmt =>
                    let* '(item, args) := fmt_item alt shift c args in
                    let* out := vsprintf_loop n fmt args in Some (item ++ out)
                end
            end
      end
  end.
Definition vsprintf (fmt : list Z) (args : list arg) : option (list Z) :=
  vsprintf_loop (S (length fmt)) fmt args.
(** [sprintf]: the memory and the count returned. *)
Definition sprintf (m : mem) (buf : Z) (fmt : list Z) (args : list arg) : option (mem * Z) :=
  let* out := vsprintf fmt args in
  Some (stn m buf (out ++ [0]), Z.of_nat (length out)).
(** [printf]: the characters given to [putchar]; it returns 0, since [s] stays null. *)
Definition printf (fmt : list Z) (args : list arg) : option (list Z * Z) :=
  let* out := vsprintf fmt args in Some (flat_map (fun c => fst (putchar c)) out, 0).

Definition txt (s : String.string) : list Z :=
  map (fun c => Z.of_nat (Ascii.nat_of_ascii c)) (String.list_ascii_of_string s).
Example vs1 : vsprintf (txt "a=%#hX %d%c %@.%hhx|%5.3s!"%string)
    [AInt 0xBEEF; AInt (-1207); AInt 33; AInt 0x0100000a; AInt 0xA5; AStr (txt "xy"%string)]
  = Some (txt "a=0XBEEF -1207! 10.0.0.1.a5|xy!"%string).
Proof. vm_compute. reflexivity. Qed.

(** ** Lemmas *)

Lemma swap_ends a x mid y b :
  swap (a ++ x :: mid ++ y :: b) (length a) (length a + S (length mid)) = a ++ y :: mid ++ x :: b.
Proof.
  set (l := a ++ x :: mid ++ y :: b).
  assert (El : l = (a ++ x :: mid) ++ y :: b) by (subst l; now rewrite <- app_assoc).
  assert (Lr : (length a + S (length mid))%nat = length (a ++ x :: mid)) by now rewrite length_app.
  assert (Np : nth (length a) l 0 = x) by apply nth_middle.
  assert (Nr : nth (length a + S (length mid)) l 0 = y) by (rewrite Lr, El; apply nth_middle).
  assert (F : firstn (length a) l = a) by (subst l; now rewrite firstn_app, firstn_all, Nat.sub_diag, app_nil_r).
  assert (Sp : skipn (S (length a)) l = mid ++ y :: b).
  { subst l. rewrite skipn_app, skipn_all2 by lia. now replace (S (length a) - length a)%nat with 1%nat by lia. }
  assert (Sr : skipn (S (length a + S (length mid))) l = b).
  { rewrite Lr, El, skipn_app, skipn_all2 by lia.
    now replace (S (length (a ++ x :: mid)) - length (a ++ x :: mid))%nat with 1%nat by lia. }
  unfold swap. rewrite Np, Nr, F, Sp, Sr.
  replace (length a + S (length mid) - S (length a))%nat with (length mid) by lia.
  now rewrite firstn_app, firstn_all, Nat.sub_diag, app_nil_r.
Qed.

(** The loop over the two ends reverses what is between them. *)
Lemma reverse_between n : forall a d b,
  (length d <= n)%nat -> reverse n (a ++ d ++ b) (length a) (length a + length d) = a ++ rev d ++ b.
Proof.
  induction n as [|n IH]; intros a d b Hn; [destruct d; [reflexivity | cbn in Hn; lia]|].
  cbn [reverse]. destruct d as [|x d]; [cbn [length rev app]; rewrite Nat.add_0_r|].
  { destruct (Nat.ltb_spec (length a) (Nat.pred (length a))); [lia|reflexivity]. }
  destruct d as [|y mid _] using rev_ind.
  { cbn [length]. destruct (Nat.ltb_spec (length a) (Nat.pred (length a + 1))); [lia|reflexivity]. }
  rewrite length_cons, length_app in *. cbn [length] in *.
  destruct (Nat.ltb_spec (length a) (Nat.pred (length a + S (length mid + 1)))); [|lia].
  replace (Nat.pred (length a + S (length mid + 1))) with (length a + S (length mid))%nat by lia.
  rewrite <- app_comm_cons, <- app_assoc. cbn [app]. rewrite swap_ends.
  specialize (IH (a ++ [y]) mid (x :: b)). rewrite length_app, <- !app_assoc in IH. cbn [length app] in IH.
  replace (length a + S (length mid))%nat with (length a + 1 + length mid)%nat by lia.
  replace (S (length a)) with (length a + 1)%nat by lia.
  rewrite IH by lia. cbn [rev]. rewrite rev_app_distr. cbn [rev app].
  now rewrite <- app_assoc.
Qed.
Lemma reverse_rev l : reverse (length l) l 0 (length l) = rev l.
Proof.
  pose proof (reverse_between (length l) [] l [] (le_n _)) as H.
  cbn [app length Nat.add] in H. now rewrite !app_nil_r in H.
Qed.

(** The digits of a non-negative number, read back, give the number. *)
Lemma digits_spec n : forall i,
  0 <= i < 10 ^ Z.of_nat n -> (0 < n)%nat ->
  forallb isdigit10 (digits n i) = true /\ dec_val 0 (rev (digits n i)) = i /\
  digits n i <> [] /\ (length (digits n i) <= n)%nat.
Proof.
  induction n as [|n IH]; intros i Hi Hn; [lia|]. cbn [digits].
  rewrite Z.rem_mod_nonneg, Z.quot_div_nonneg by lia.
  assert (Hm : 0 <= i mod 10 < 10) by (apply Z.mod_pos_bound; lia).
  pose proof (Z.div_mod i 10 ltac:(lia)) as Ed.
  rewrite u8_small by lia.
  assert (Dg : isdigit10 (48 + i mod 10) = true)
    by (unfold isdigit10; rewrite andb_true_iff, !Z.leb_le; lia).
  destruct (Z.eqb_spec (i / 10) 0) as [E|E].
  - cbn [forallb rev app length]. rewrite Dg. repeat split; [|congruence|lia].
    cbn [dec_val fold_left]. lia.
  - assert (Hq : 0 <= i / 10 < 10 ^ Z.of_nat n).
    { rewrite Nat2Z.inj_succ, Z.pow_succ_r in Hi by lia. split; [apply Z.div_pos; lia|].
      apply Z.div_lt_upper_bound; lia. }
    assert (Hn' : (0 < n)%nat) by (destruct n; [cbn in Hq; lia | lia]).
    destruct (IH (i / 10) Hq Hn') as (I1 & I2 & I3 & I4).
    cbn [forallb rev length]. rewrite Dg, I1. repeat split; [|congruence|lia].
    unfold dec_val in *. rewrite fold_left_app, I2. cbn [fold_left]. lia.
Qed.
Lemma forallb_rev {A} (f : A -> bool) l : forallb f (rev l) = forallb f l.
Proof.
  induction l as [|x l IH]; cbn; [reflexivity|].
  rewrite forallb_app, IH. cbn. now rewrite andb_true_r, andb_comm.
Qed.

(** A non-negative [int] is printed as its decimal digits. *)
Lemma fmt_d_spec i :
  0 <= i < 2147483648 ->
  fmt_d i <> [] /\ forallb isdigit10 (fmt_d i) = true /\ dec_val 0 (fmt_d i) = i /\
  (length (fmt_d i) <= 11)%nat.
Proof.
  intros Hi. unfold fmt_d. destruct (Z.ltb_spec i 0); [lia|]. cbn [app]. rewrite reverse_rev.
  destruct (digits_spec 11 i) as (D1 & D2 & D3 & D4); [cbn; lia | lia |].
  rewrite forallb_rev, length_rev. repeat split; [|exact D1|exact D2|exact D4].
  intros E. apply D3. rewrite <- (rev_involutive (digits 11 i)), E. reflexivity.
Qed.

Lemma isdigit10_byte c : isdigit10 c = true -> 0 <= c < 256.
Proof. unfold isdigit10. rewrite andb_true_iff, !Z.leb_le. lia. Qed.
Lemma digits_u8 d : forallb isdigit10 d = true -> map u8 d = d.
Proof.
  induction d as [|c d IH]; cbn [forallb map]; [reflexivity|]. rewrite andb_true_iff. intros [Hc Hd].
  rewrite IH by exact Hd. now rewrite u8_small by (apply isdigit10_byte, Hc).
Qed.

(** What [sprintf] leaves in memory, for a text of bytes. *)
Lemma sprintf_stored m buf out :
  map u8 out = out ->
  let m' := stn m buf (out ++ [0]) in
  ldn m' buf (length out) = out /\ ld8 m' (buf + Z.of_nat (length out)) = 0.
Proof.
  intros Hb m'. pose proof (ldn_stn m buf (out ++ [0])) as E. fold m' in E.
  rewrite length_app, ldn_app, map_app, Hb in E.
  apply app_split_length in E as [E1 E2]; [|apply length_ldn]. split; [exact E1|].
  cbn [ldn length map] in E2. now injection E2.
Qed.

Lemma fmt_at_fields ip :
  fmt_at ip = fmt_d (u8 ip) ++ [46] ++ fmt_d (u8 (Z.shiftr ip 8)) ++ [46]
              ++ fmt_d (u8 (Z.shiftr ip 16)) ++ [46] ++ fmt_d (u8 (Z.shiftr ip 24)).
Proof.
  unfold fmt_at. cbn [flat_map]. rewrite app_nil_r, !app_assoc, removelast_last. reflexivity.
Qed.

Lemma htonl_quad ip :
  0 <= ip < 4294967296 ->
  htonl ((((0 * 256 + u8 ip) * 256 + u8 (Z.shiftr ip 8)) * 256 + u8 (Z.shiftr ip 16)) * 256
         + u8 (Z.shiftr ip 24)) = ip.
Proof.
  intros Hip. pose proof (u8_range ip). pose proof (u8_range (Z.shiftr ip 8)).
  pose proof (u8_range (Z.shiftr ip 16)). pose proof (u8_range (Z.shiftr ip 24)).
  unfold htonl. rewrite u32_small by lia.
  replace (_ * 256 + u8 (Z.shiftr ip 24)) with
    (u8 (Z.shiftr ip 24) + 256 * u8 (Z.shiftr ip 16) + 65536 * u8 (Z.shiftr ip 8) + 16777216 * u8 ip) by lia.
  rewrite bswap_32_bytes by lia. unfold u8. rewrite !Z.shiftr_div_pow2 by lia.
  change (2 ^ 8) with 256. change (2 ^ 16) with 65536. change (2 ^ 24) with 16777216.
  Z.div_mod_to_equations. lia.
Qed.

(** ** Properties *)

(** What [%@] writes is read back. *)
Lemma sprintf_ip_reads m buf ip fuel :
  0 <= ip < 4294967296 -> (64 < fuel)%nat ->
  exists m' n, sprintf m buf (txt "%@"%string) [AInt ip] = Some (m', n) /\
               inet_aton fuel m' buf = Some (n, Some ip).
Proof.
  intros Hip Hf. unfold sprintf, vsprintf. change (txt "%@"%string) with [37; 64].
  cbn [vsprintf_loop length Z.eqb Pos.eqb negb skip_width skip_digits isdig Z.leb Z.compare Pos.compare
       Pos.compare_cont andb fmt_alt fmt_shift fmt_item Z.lor Pos.lor obind].
  rewrite app_nil_r, u32_small by lia.
  set (b1 := u8 ip). set (b2 := u8 (Z.shiftr ip 8)). set (b3 := u8 (Z.shiftr ip 16)).
  set (b4 := u8 (Z.shiftr ip 24)).
  assert (R : forall b, 0 <= b < 256 -> fmt_d b <> [] /\ forallb isdigit10 (fmt_d b) = true /\
                dec_val 0 (fmt_d b) = b /\ (length (fmt_d b) <= 11)%nat)
    by (intros b Hb; apply fmt_d_spec; lia).
  destruct (R b1 (u8_range _)) as (N1 & D1 & V1 & L1). destruct (R b2 (u8_range _)) as (N2 & D2 & V2 & L2).
  destruct (R b3 (u8_range _)) as (N3 & D3 & V3 & L3). destruct (R b4 (u8_range _)) as (N4 & D4 & V4 & L4).
  do 2 eexists. split; [reflexivity|].
  rewrite fmt_at_fields. fold b1 b2 b3 b4.
  set (text := fmt_d b1 ++ _).
  destruct (sprintf_stored m buf text) as (S1 & S2).
  { subst text. repeat rewrite map_app. cbn [map]. rewrite !digits_u8 by assumption. reflexivity. }
  rewrite (inet_aton_fields _ _ (fmt_d b1) (fmt_d b2) (fmt_d b3) (fmt_d b4)).
  - cbn [fold_left]. rewrite V1, V2, V3, V4. do 3 f_equal. apply htonl_quad, Hip.
  - exact S1.
  - pose proof (u8_range ip). pose proof (u8_range (Z.shiftr ip 8)).
    pose proof (u8_range (Z.shiftr ip 16)). pose proof (u8_range (Z.shiftr ip 24)).
    repeat constructor; try assumption; subst b1 b2 b3 b4; lia.
  - fold text. rewrite S2. reflexivity.
  - rewrite !length_app. cbn [length]. lia.
Qed.

(** Printing and parsing an Internet address agree: what [sprintf] writes for [%@], [inet_aton]
    reads back, to the last character, as the same address. *)
Theorem ip_print_parse m buf ip fuel :
  0 <= ip < 4294967296 -> (64 < fuel)%nat ->
  exists m' n, sprintf m buf (txt "%@"%string) [AInt ip] = Some (m', n) /\
               inet_aton fuel m' buf = Some (n, Some ip).
Proof. apply sprintf_ip_reads. Qed.

Lemma ip_print_parse_witness :
  exists m' n, sprintf (fun _ => 7) 64 (txt "%@"%string) [AInt 0x0100000a] = Some (m', n) /\
               inet_aton 65 m' 64 = Some (n, Some 0x0100000a).
Proof. apply (ip_print_parse (fun _ => 7) 64 0x0100000a 65); lia. Defined.

(** The value of a string of hexadecimal digits, in either case. *)
Definition hex_val (c : Z) : Z :=
  if (48 <=? c) && (c <=? 57) then c - 48
  else if (65 <=? c) && (c <=? 70) then c - 55
  else if (97 <=? c) && (c <=? 102) then c - 87 else -1.
Definition hex_num (ds : list Z) : Z := fold_left (fun a c => 16 * a + hex_val c) ds 0.

Lemma hex_digit_val v ncase :
  0 <= v < 16 -> ncase = 0 \/ ncase = 32 ->
  hex_val (Z.lor (nth (Z.to_nat v) hexdigits 0) ncase) = v.
Proof.
  intros Hv Hc.
  assert (A : all_below 16 (fun v => (hex_val (Z.lor (nth (Z.to_nat v) hexdigits 0) 0) =? v) &&
                                     (hex_val (Z.lor (nth (Z.to_nat v) hexdigits 0) 32) =? v)) = true)
    by reflexivity.
  pose proof (all_below_spec _ _ A v Hv) as A'. clear A. rename A' into A. cbv beta in A.
  rewrite andb_true_iff, !Z.eqb_eq in A.
  destruct A, Hc as [-> | ->]; assumption.
Qed.
Lemma fmt_x_spec k : forall h ncase acc,
  0 <= h -> ncase = 0 \/ ncase = 32 ->
  length (fmt_x k h (4 * Z.of_nat k - 4) ncase) = k /\
  fold_left (fun a c => 16 * a + hex_val c) (fmt_x k h (4 * Z.of_nat k - 4) ncase) acc
  = acc * 16 ^ Z.of_nat k + h mod 16 ^ Z.of_nat k.
Proof.
  induction k as [|k IH]; intros h ncase acc Hh Hc.
  - cbn. rewrite Z.mod_1_r. lia.
  - cbn [fmt_x length fold_left].
    replace (4 * Z.of_nat (S k) - 4 - 4) with (4 * Z.of_nat k - 4) by lia.
    replace (4 * Z.of_nat (S k) - 4) with (4 * Z.of_nat k) by lia.
    change 0xF with (Z.ones 4). rewrite Z.land_ones, Z.shiftr_div_pow2 by lia.
    rewrite hex_digit_val by (exact Hc || apply Z.mod_pos_bound; lia).
    destruct (IH h ncase (16 * acc + h / 2 ^ (4 * Z.of_nat k) mod 2 ^ 4) Hh Hc) as (L & V).
    rewrite L. split; [reflexivity|]. rewrite V. rewrite Z.pow_mul_r by lia. change (2 ^ 4) with 16.
    rewrite Nat2Z.inj_succ, Z.pow_succ_r by lia.
    set (q := 16 ^ Z.of_nat k). assert (0 < q) by (apply Z.pow_pos_nonneg; lia).
    rewrite (Z.mul_comm 16 q), (Z.rem_mul_r h q 16) by lia. lia.
Qed.

Lemma fmt_d_length i : -2147483648 <= i <= 2147483647 -> (length (fmt_d i) <= 12)%nat.
Proof.
  intros Hi. unfold fmt_d.
  assert (D : forall j, (length (digits 11 j) <= 11)%nat).
  { intros j. generalize 11%nat. intros n. revert j.
    induction n as [|n IH]; intros j; cbn [digits length]; [lia|].
    destruct (Z.quot j 10 =? 0); cbn [length]; [lia|]. specialize (IH (Z.quot j 10)). lia. }
  destruct (i <? 0); rewrite length_app, reverse_rev, length_rev; cbn [length];
    [specialize (D (s32 (- i))) | specialize (D i)]; lia.
Qed.
Lemma fmt_d_byte_length b : 0 <= b < 256 -> (length (fmt_d b) <= 3)%nat.
Proof.
  intros Hb.
  assert (A : all_below 256 (fun b => (length (fmt_d b) <=? 3)%nat) = true) by (vm_compute; reflexivity).
  apply Nat.leb_le. exact (all_below_spec _ _ A b Hb).
Qed.

(** Numbers are printed exactly.  Each of the hexadecimal conversions prints a fixed number of
    digits, 8, 8, 4 or 2, whose value is the argument modulo the width of its type, in the case of
    the conversion; [%d] prints a number that is not negative as decimal digits that [strtoul] reads
    back as that number, ending where the text ends. *)
Theorem numbers_print_exactly m buf i fuel :
  0 <= i < 4294967296 -> (12 < fuel)%nat ->
  (forall shift n c, In (shift, n) [(INT_SHIFT, 8%nat); (SHRT_SHIFT, 4%nat); (CHAR_SHIFT, 2%nat)] ->
     c = 120 \/ c = 88 ->
     exists ds, fmt_item false shift c [AInt i] = Some (ds, []) /\
       length ds = n /\ hex_num ds = i mod 16 ^ Z.of_nat n) /\
  (i < 2147483648 ->
     exists m' n, sprintf m buf (txt "%d"%string) [AInt i] = Some (m', n) /\
       strtoul fuel m' buf 10 = Some (i, Some (buf + n))).
Proof.
  intros Hi Hf. split.
  - intros shift n c Hs Hc.
    assert (E : (Z.lor c 0x20 =? 120) = true) by (destruct Hc as [-> | ->]; reflexivity).
    assert (N : Z.land c 0x20 = 0 \/ Z.land c 0x20 = 32) by (destruct Hc as [-> | ->]; auto).
    unfold fmt_item. rewrite E. eexists. split; [reflexivity|]. cbn [app]. rewrite u32_small by lia.
    assert (K : Z.to_nat (shift / 4 + 1) = n /\ shift = 4 * Z.of_nat n - 4)
      by (cbn [In] in Hs; destruct Hs as [[= <- <-]|[[= <- <-]|[[= <- <-]|[]]]]; split; reflexivity).
    destruct K as [-> ->]. destruct (fmt_x_spec n i (Z.land c 0x20) 0 ltac:(lia) N) as (L & V).
    split; [exact L|]. unfold hex_num. rewrite V. lia.
  - intros Hi'. unfold sprintf, vsprintf. change (txt "%d"%string) with [37; 100].
    cbn [vsprintf_loop length Z.eqb Pos.eqb negb skip_width skip_digits isdig Z.leb Z.compare Pos.compare
         Pos.compare_cont andb fmt_alt fmt_shift fmt_item Z.lor Pos.lor obind].
    rewrite app_nil_r. replace (s32 i) with i by (symmetry; apply s32_small; lia).
    destruct (fmt_d_spec i ltac:(lia)) as (N & D & V & L).
    destruct (sprintf_stored m buf (fmt_d i) (digits_u8 _ D)) as (S1 & S2).
    do 2 eexists. split; [reflexivity|]. unfold strtoul. cbn [Z.eqb negb Pos.eqb].
    change 0 with (u32 0) at 2. rewrite (strtoul_loop_spec (fmt_d i)); [|exact S1|exact D| |lia].
    + rewrite V, u32_small by lia. reflexivity.
    + rewrite S2. reflexivity.
Qed.

Lemma numbers_print_exactly_witness :
  exists m' n, sprintf (fun _ => 0) 64 (txt "%d"%string) [AInt 1432] = Some (m', n) /\
    strtoul 13 m' 64 10 = Some (1432, Some (64 + n)).
Proof. apply (numbers_print_exactly (fun _ => 0) 64 1432 13); lia. Defined.

(** The scratch buffer never overflows: every conversion leaves at most 18 characters in the
    40 bytes of [tmp], whatever the argument, so that there is also room for the terminators that
    the nested calls of [sprintf] write behind them. *)
Theorem item_fits_tmp alt fmt shift rest c args item args' :
  fmt_shift fmt = (shift, rest) -> fmt_item alt shift c args = Some (item, args') ->
  (length item <= 18)%nat.
Proof.
  intros Hs. assert (K : (Z.to_nat (shift / 4 + 1) <= 8)%nat).
  { unfold fmt_shift in Hs.
    repeat match type of Hs with context [match ?x with _ => _ end] => destruct x end;
      injection Hs as <- _; vm_compute; lia. }
  assert (X : forall k h sh nc, length (fmt_x k h sh nc) = k)
    by (induction k; intros; cbn [fmt_x length]; [reflexivity | now rewrite IHk]).
  assert (B : forall x, 0 <= u8 x < 256) by apply u8_range.
  unfold fmt_item.
  repeat match goal with
         | |- (if ?b then _ else _) = _ -> _ => destruct b
         | |- match ?x with _ => _ end = _ -> _ => destruct x
         end; try discriminate; intros [= <- _]; cbn [length]; try lia.
  - rewrite length_app, X. destruct alt; cbn [length]; lia.
  - pose proof (fmt_d_length (s32 i) ltac:(pose proof (s32_range i); lia)). lia.
  - rewrite fmt_at_fields, !length_app. cbn [length].
    pose proof (fmt_d_byte_length _ (B (u32 i))). pose proof (fmt_d_byte_length _ (B (Z.shiftr (u32 i) 8))).
    pose proof (fmt_d_byte_length _ (B (Z.shiftr (u32 i) 16))).
    pose proof (fmt_d_byte_length _ (B (Z.shiftr (u32 i) 24))). lia.
  - unfold fmt_eth, ETH_ALEN_nat.
    destruct s as [|a [|b [|d [|e [|f [|g s]]]]]]; cbn; try lia.
Qed.

Lemma item_fits_tmp_witness :
  exists item, fmt_item false INT_SHIFT 64 [AInt 0xFFFFFFFF] = Some (item, []) /\ (length item <= 18)%nat.
Proof.
  eexists. split; [reflexivity|].
  apply (item_fits_tmp false [64] INT_SHIFT [64] 64 [AInt 0xFFFFFFFF] _ []); reflexivity.
Defined.
