(* ===== verification/Heap.v ===== *)
(** The memory map, the heap of [src/src/core/heap.c] (a stack that grows downwards from
    [heap_bot] to [heap_top]) and the choice of a relocation address of [src/src/core/relocate.c].
    A pointer of the program is a virtual address; [virt_to_phys] and [phys_to_virt] of
    [arch/i386/include/io.h] shift it by [virt_offset]. *)

From S2P Require Import Prelude Memory.

Section virt.
Context (virt_offset : Z).
Definition virt_to_phys (a : Z) : Z := u32 (a + virt_offset).
Definition phys_to_virt (a : Z) : Z := u32 (a - virt_offset).
Lemma virt_phys a : 0 <= a < 4294967296 -> virt_to_phys (phys_to_virt a) = a.
Proof. intros H. unfold virt_to_phys, phys_to_virt. zmod. Qed.
End virt.

(** ** The memory map *)

Record e820entry := { e_addr : Z; e_size : Z; e_type : Z }.
Definition E820_RAM : Z := 1.
Definition wf_entry (e : e820entry) : Prop :=
  0 <= e_addr e < 18446744073709551616 /\ 0 <= e_size e < 18446744073709551616.

(** ** heap.c *)

Record heap := { heap_ptr : Z; heap_top : Z; heap_bot : Z }.

(** The part of one entry that [init_heap] considers; [None] is a [continue]. *)
Definition init_heap_piece (start end_ : Z) (e : e820entry) : option (Z * Z) :=
  if negb (e_type e =? E820_RAM) then None
  else if e_addr e >? ULONG_MAX then None
  else if e_size e >? ULONG_MAX then None
  else
    let r_start := u32 (e_addr e) in
    let r_end := u32 (r_start + e_size e) in
    let r_end := if r_end <? r_start then ULONG_MAX else r_end in
    if (end_ >? r_start) && (start <? r_end) then
      if (start <=? r_start) && (end_ >=? r_end) then None
      else if (start >? r_start) && (end_ <? r_end) then
        if u32 (r_end - end_) >=? u32 (r_start - start) then Some (end_, r_end)
        else Some (r_start, start)
      else if end_ >=? r_end then Some (r_start, start)
      else if start <=? r_start then Some (end_, r_end)
      else Some (r_start, r_end)
    else Some (r_start, r_end).

(** The loop over the map; the state is [size], [heap_top] and [heap_bot]. *)
Fixpoint init_heap_loop (start end_ : Z) (map : list e820entry) (st : Z * Z * Z) : Z * Z * Z :=
  match map with
  | [] => st
  | e :: map' =>
      let '(size, top, bot) := st in
      init_heap_loop start end_ map'
        (match init_heap_piece start end_ e with
         | None => st
         | Some (r_start, r_end) =>
             if (u32 (r_end - r_start) >? size)
                || ((u32 (r_end - r_start) =? size) && (r_start >? top))
             then (u32 (r_end - r_start), r_start, r_end)
             else st
         end)
  end.
(** [None] is [exit(1)]. *)
Definition init_heap (start end_ : Z) (map : list e820entry) (h : heap) : option heap :=
  let '(size, top, bot) := init_heap_loop start end_ map (0, heap_top h, heap_bot h) in
  if size =? 0 then None
  else Some {| heap_ptr := bot; heap_top := top; heap_bot := bot |}.

Section heap_ops.
Context (virt_offset : Z).

Definition allot (m : mem) (h : heap) (size : Z) : mem * heap * Z :=
  let addr := align_down (u32 (heap_ptr h - u32 (size + 4))) 16 in
  if addr <? heap_top h then (m, h, 0)
  else (st32 m (phys_to_virt virt_offset addr) size,
        {| heap_ptr := addr; heap_top := heap_top h; heap_bot := heap_bot h |},
        phys_to_virt virt_offset (u32 (addr + 4))).

Definition allot2 (m : mem) (h : heap) (size mask : Z) : mem * heap * Z :=
  let addr := u32 (Z.land (u32 (heap_ptr h - size)) (not32 mask) - 4 - 4) in
  if addr <? heap_top h then (m, h, 0)
  else (st32 (st32 m (phys_to_virt virt_offset addr) size)
             (phys_to_virt virt_offset (u32 (addr + 4))) mask,
        {| heap_ptr := addr; heap_top := heap_top h; heap_bot := heap_bot h |},
        phys_to_virt virt_offset (u32 (addr + 4 + 4))).

Definition forget (m : mem) (h : heap) (ptr : Z) : heap :=
  if ptr =? 0 then h
  else
    let addr := virt_to_phys virt_offset ptr in
    let size := ld32 m (phys_to_virt virt_offset (u32 (addr - 4))) in
    let addr := u32 (addr + align_down (u32 (size + 15)) 16) in
    let addr := if addr >? heap_bot h then heap_bot h else addr in
    {| heap_ptr := addr; heap_top := heap_top h; heap_bot := heap_bot h |}.

Definition forget2 (m : mem) (h : heap) (ptr : Z) : heap :=
  if ptr =? 0 then h
  else
    let addr := virt_to_phys virt_offset ptr in
    let size := ld32 m (phys_to_virt virt_offset (u32 (addr - 4 - 4))) in
    let mask := ld32 m (phys_to_virt virt_offset (u32 (addr - 4))) in
    let addr := u32 (addr + Z.land (u32 (size + mask)) (not32 mask)) in
    let addr := if addr >? heap_bot h then heap_bot h else addr in
    {| heap_ptr := addr; heap_top := heap_top h; heap_bot := heap_bot h |}.

(** A client that allots a list of sizes; the blocks it got, newest first, as physical ranges
    that include the size mark. *)
Fixpoint allots (m : mem) (h : heap) (sizes : list Z) (got : list (Z * Z))
    : mem * heap * list (Z * Z) :=
  match sizes with
  | [] => (m, h, got)
  | size :: sizes' =>
      let '(m', h', ptr) := allot m h size in
      allots m' h' sizes'
        (if ptr =? 0 then got
         else (u32 (virt_to_phys virt_offset ptr - 4),
               virt_to_phys virt_offset ptr + size) :: got)
  end.
End heap_ops.

(** ** relocate.c: the address [relocate] moves Etherboot to, and its new end; when the address
    is the old one nothing is moved. *)

Definition MAX_ADDR : Z := 0xfff00000.

Definition relocate_step (size : Z) (e : e820entry) (st : Z * Z) : Z * Z :=
  let '(addr, eaddr) := st in
  if negb (e_type e =? E820_RAM) then st
  else if e_addr e >? MAX_ADDR then st
  else if e_size e >? MAX_ADDR then st
  else
    let r_start := u32 (e_addr e) in
    let r_end := u32 (r_start + e_size e) in
    let r_start := align_down (u32 (r_start + 15)) 16 in
    let r_end := align_down r_end 16 in
    let r_end := if r_end <? r_start then MAX_ADDR else r_end in
    if r_end <? size then st
    else
      let r_end :=
        if istrue (Z.land r_end 0x100000) then align_down r_end 0x100000
        else if istrue (Z.land (u32 (r_end - size)) 0x100000)
        then align_down (u32 (r_end - 0x100000)) 0x100000
        else r_end in
      if r_end <? r_start then st
      else if eaddr <? u32 (r_end - size) then (u32 (r_end - size), r_end)
      else st.
Definition relocate_size (addr eaddr : Z) : Z := align_down (u32 (eaddr - addr + 0xf)) 16.
Definition relocate (text end_ : Z) (map : list e820entry) : Z * Z :=
  fold_left (fun st e => relocate_step (relocate_size text end_) e st) map
            (text, if end_ >? MAX_ADDR then 0 else end_).

(** ** Lemmas *)

Section init_heap.
Context (start end_ : Z) (Hse : 0 <= start < end_) (Hend : end_ < 4294967296).

Lemma init_heap_piece_spec e a b :
  wf_entry e -> init_heap_piece start end_ e = Some (a, b) ->
  e_type e = E820_RAM /\ e_addr e <= a <= b /\ b <= e_addr e + e_size e /\ b <= ULONG_MAX /\
  (b <= start \/ end_ <= a).
Proof.
  intros [Ha Hs]. unfold init_heap_piece.
  destruct (Z.eqb_spec (e_type e) E820_RAM) as [Ht|]; cbn [negb]; [|discriminate].
  rewrite !Z.gtb_ltb, !Z.geb_leb.
  destruct (Z.ltb_spec ULONG_MAX (e_addr e)); [discriminate|].
  destruct (Z.ltb_spec ULONG_MAX (e_size e)); [discriminate|].
  unfold ULONG_MAX in *. rewrite (u32_small (e_addr e)) by lia.
  set (r := if u32 _ <? _ then _ else _).
  assert (Hr : e_addr e <= r <= e_addr e + e_size e /\ r <= 4294967295)
    by (subst r; case_tests; zmod).
  clearbody r. case_tests; try discriminate; intros [= <- <-]; lia.
Qed.

Definition piece_of (map : list e820entry) (a b : Z) : Prop :=
  exists e, In e map /\ init_heap_piece start end_ e = Some (a, b).

Lemma init_heap_loop_spec map : forall size top bot,
  Forall wf_entry map -> 0 <= size ->
  let '(size', top', bot') := init_heap_loop start end_ map (size, top, bot) in
  size <= size' /\
  (forall a b, piece_of map a b -> b - a <= size') /\
  (size' = size /\ top' = top /\ bot' = bot \/ piece_of map top' bot' /\ bot' - top' = size').
Proof.
  unfold piece_of. induction map as [|e map IH]; intros size top bot Hw Hs; cbn [init_heap_loop].
  { split; [lia|]. split; [intros a b (e & [] & _)|]. left. auto. }
  inversion_clear Hw as [|? ? He Hm].
  set (st := match init_heap_piece start end_ e with Some _ => _ | None => _ end).
  assert (Hst : let '(s1, t1, b1) := st in
            size <= s1 /\ (forall a b, init_heap_piece start end_ e = Some (a, b) -> b - a <= s1) /\
            (s1 = size /\ t1 = top /\ b1 = bot \/
             init_heap_piece start end_ e = Some (t1, b1) /\ b1 - t1 = s1)).
  { subst st. destruct (init_heap_piece start end_ e) as [[a b]|] eqn:E.
    2:{ split; [lia|]. split; [discriminate | auto]. }
    pose proof (init_heap_piece_spec e a b He E) as S. unfold ULONG_MAX in S. pose proof (proj1 He).
    rewrite u32_small, Z.gtb_ltb by lia. rewrite Z.gtb_ltb.
    destruct (Z.ltb_spec size (b - a)); cbn [orb].
    { split; [lia|]. split; [intros ? ? [= <- <-]; lia | auto]. }
    destruct (Z.eqb_spec (b - a) size), (Z.ltb_spec top a); cbn [andb];
      (split; [lia|]; split; [intros ? ? [= <- <-]; lia | auto]). }
  destruct st as [[s1 t1] b1]. destruct Hst as (H1 & H2 & H3).
  specialize (IH s1 t1 b1 Hm ltac:(lia)).
  destruct (init_heap_loop start end_ map (s1, t1, b1)) as [[s2 t2] b2].
  destruct IH as (I1 & I2 & I3). split; [lia|]. split.
  - intros a b (e' & [->|Hin] & E); [apply H2 in E; lia|]. apply I2. eauto.
  - assert (M : forall a b, (exists e', In e' map /\ init_heap_piece start end_ e' = Some (a, b)) ->
              exists e', In e' (e :: map) /\ init_heap_piece start end_ e' = Some (a, b))
      by (intros a b (e' & ? & ?); exists e'; cbn; auto).
    destruct I3 as [(-> & -> & ->)|(I3 & I4)]; [|right; auto].
    destruct H3 as [(-> & -> & ->)|(H3 & H4)]; [left; auto|]. right. split; [|auto].
    exists e. cbn. auto.
Qed.
End init_heap.

(** *** Heap blocks *)

Lemma land_not32 x k :
  0 <= x < 4294967296 -> 0 <= k <= 32 -> Z.land x (not32 (2 ^ k - 1)) = align_down x (2 ^ k).
Proof.
  intros Hx Hk. assert (2 ^ k <= 2 ^ 32) by (apply Z.pow_le_mono_r; lia). pow_consts.
  assert (0 < 2 ^ k) by (apply Z.pow_pos_nonneg; lia).
  assert (E : not32 (2 ^ k - 1) = Z.land (Z.lnot (2 ^ k - 1)) (2 ^ 32 - 1)).
  { rewrite land_ones_mod, lnot_add by lia. unfold not32. rewrite u32_small by lia. zmod. }
  assert (E2 : Z.land x (2 ^ 32 - 1) = x) by (rewrite land_ones_mod by lia; apply Z.mod_small; lia).
  rewrite E, (Z.land_comm (Z.lnot _)), Z.land_assoc, E2.
  replace (2 ^ k - 1) with (Z.ones k) by (rewrite Z.ones_equiv; lia).
  rewrite <- Z.ldiff_land, Z.ldiff_ones_r by lia.
  rewrite shiftr_div, shiftl_mul by lia. unfold align_down.
  pose proof (Z.div_mod x (2 ^ k)). lia.
Qed.

(** Going down by [size] to a multiple of [a] and up by [size] rounded up comes back. *)
Lemma align_down_up x size a :
  0 < a -> x mod a = 0 -> align_down (x - size) a + align_down (size + (a - 1)) a = x.
Proof.
  intros Ha Hx. unfold align_down.
  assert (Eq : (x - size) mod a = (- size) mod a).
  { rewrite <- (Z.sub_0_l size), <- Hx, Zminus_mod_idemp_l. reflexivity. }
  assert (Eq2 : (size + (a - 1)) mod a = (size - 1) mod a)
    by (replace (size + (a - 1)) with (size - 1 + 1 * a) by lia; apply Z.mod_add; lia).
  rewrite Eq, Eq2. pose proof (Z.div_mod (size - 1) a ltac:(lia)).
  pose proof (Z.mod_pos_bound (size - 1) a Ha).
  assert (Em : (- size) mod a = a - 1 - (size - 1) mod a).
  { symmetry. apply Z.mod_unique_pos with (q := - ((size - 1) / a) - 1); lia. }
  lia.
Qed.

(** The heap is well formed, and the virtual address 0 is not inside it: [init_heap] starts the
    area it avoids at [_virt_start] for that. *)
Definition heap_ok (virt_offset : Z) (h : heap) : Prop :=
  0 <= heap_top h <= heap_ptr h /\ heap_ptr h <= heap_bot h < 4294967296 /\
  (u32 virt_offset < heap_top h \/ heap_bot h < u32 virt_offset).

(** Blocks from [lo] up to [hi], lowest first, each 16 byte aligned, none overlapping the next. *)
Fixpoint stacked (lo hi : Z) (bs : list (Z * Z)) : Prop :=
  match bs with
  | [] => lo <= hi
  | (a, b) :: bs' => lo <= a /\ a mod 16 = 0 /\ a + 4 <= b /\ stacked b hi bs'
  end.
(** The size stored in front of a block. *)
Definition marked (virt_offset : Z) (m : mem) (blk : Z * Z) : Prop :=
  ld32 m (phys_to_virt virt_offset (fst blk)) = snd blk - fst blk - 4.

Lemma stacked_weaken lo lo' hi bs : stacked lo hi bs -> lo' <= lo -> stacked lo' hi bs.
Proof. destruct bs as [|[a b] bs]; cbn; intuition lia. Qed.
Lemma stacked_above lo hi bs a b : stacked lo hi bs -> In (a, b) bs -> lo <= a /\ a + 4 <= b <= hi.
Proof.
  revert lo. induction bs as [|[a' b'] bs IH]; intros lo; cbn; [tauto|].
  assert (H : forall x, stacked x hi bs -> x <= hi).
  { clear. induction bs as [|[a b] bs IH]; cbn; intros x; [lia|]. intros (? & ? & ? & H). apply IH in H. lia. }
  intros (H1 & H2 & H3 & H4) [[= -> ->]|Hin].
  - apply H in H4. lia.
  - destruct (IH _ H4 Hin). lia.
Qed.

Section heap_lemmas.
Context (virt_offset : Z).

Lemma phys_to_virt_ok h a : heap_ok virt_offset h -> heap_top h <= a <= heap_bot h ->
  phys_to_virt virt_offset a
  = a - u32 virt_offset + (if a <? u32 virt_offset then 4294967296 else 0) /\
  phys_to_virt virt_offset a <> 0.
Proof.
  intros (H1 & H2 & H3) Ha. unfold phys_to_virt.
  assert (E : phys_to_virt virt_offset a = u32 (a - u32 virt_offset))
    by (unfold phys_to_virt; zmod).
  unfold phys_to_virt in E. rewrite E. pose proof (u32_range virt_offset).
  case_tests; zmod.
Qed.

(** What [allot] does, when the size fits below [heap_ptr] at all. *)
Lemma allot_cases m h size :
  heap_ok virt_offset h -> 0 <= size -> size + 4 <= heap_ptr h ->
  let addr := align_down (heap_ptr h - (size + 4)) 16 in
  addr < heap_top h /\ allot virt_offset m h size = (m, h, 0) \/
  heap_top h <= addr /\
  allot virt_offset m h size
  = (st32 m (phys_to_virt virt_offset addr) size,
     {| heap_ptr := addr; heap_top := heap_top h; heap_bot := heap_bot h |},
     phys_to_virt virt_offset (addr + 4)).
Proof.
  intros (H1 & H2 & H3) Hs Hf addr. unfold allot.
  rewrite (u32_small (size + 4)), (u32_small (heap_ptr h - _)) by lia. fold addr.
  assert (0 <= addr <= heap_ptr h - (size + 4)) by (subst addr; zmod).
  destruct (Z.ltb_spec addr (heap_top h)); [left; auto|]. right. split; [lia|].
  now rewrite u32_small by lia.
Qed.

Lemma allots_ok sizes : forall m h got m' h' got' hi,
  heap_ok virt_offset h -> Forall (fun s => 0 <= s /\ s + 4 <= heap_top h) sizes ->
  stacked (heap_ptr h) hi got -> hi <= heap_bot h -> Forall (marked virt_offset m) got ->
  allots virt_offset m h sizes got = (m', h', got') ->
  heap_ok virt_offset h' /\ heap_top h' = heap_top h /\ heap_bot h' = heap_bot h /\
  stacked (heap_ptr h') hi got' /\ Forall (marked virt_offset m') got'.
Proof.
  induction sizes as [|size sizes IH]; intros m h got m' h' got' hi Hok Hf Hst Hhi Hm; cbn [allots].
  { intros [= <- <- <-]. auto. }
  inversion_clear Hf as [|? ? [Hs Hs4] Hf'].
  pose proof Hok as (H1 & H2 & H3).
  destruct (allot_cases m h size Hok Hs ltac:(lia)) as [(_ & E)|(Ht & E)];
    rewrite E; clear E.
  { cbn [Z.eqb]. apply IH; auto. }
  set (addr := align_down (heap_ptr h - (size + 4)) 16) in *.
  assert (Ha : addr <= heap_ptr h - (size + 4)) by (subst addr; zmod).
  assert (Hal : addr mod 16 = 0) by (subst addr; zmod).
  destruct (phys_to_virt_ok h (addr + 4) Hok ltac:(lia)) as [_ Hnz].
  destruct (Z.eqb_spec (phys_to_virt virt_offset (addr + 4)) 0); [congruence|].
  rewrite virt_phys by lia. rewrite u32_small by lia.
  replace (addr + 4 - 4) with addr by lia.
  set (h1 := {| heap_ptr := addr; heap_top := heap_top h; heap_bot := heap_bot h |}).
  assert (Hok1 : heap_ok virt_offset h1) by (unfold heap_ok; cbn; lia).
  apply (IH _ h1); auto; cbn.
  - repeat split; try lia. apply (stacked_weaken (heap_ptr h)); [exact Hst | lia].
  - constructor.
    + unfold marked. cbn. rewrite ld32_st32_eq, u32_small; lia.
    + rewrite Forall_forall in *. intros [a b] Hin. specialize (Hm _ Hin).
      destruct (stacked_above _ _ _ a b Hst Hin) as (Ba & Bb).
      unfold marked in *. cbn in *. rewrite <- Hm. apply ld32_st32_ne.
      destruct (phys_to_virt_ok h a Hok ltac:(lia)) as [-> _].
      destruct (phys_to_virt_ok h addr Hok ltac:(lia)) as [-> _].
      case_tests; lia.
Qed.
End heap_lemmas.

(** ** Properties *)

(** C35: [init_heap] finds a safe heap.  The area it picks lies inside one RAM region of the map,
    below 4 GB, is not empty, is disjoint from Etherboot, and is at least as large as the area it
    would take from any other region; it exits only when no region leaves any room. *)
Theorem init_heap_spec start end_ map h0 :
  0 <= start < end_ -> end_ < 4294967296 -> Forall wf_entry map ->
  match init_heap start end_ map h0 with
  | Some h =>
      heap_ptr h = heap_bot h /\ heap_top h < heap_bot h <= ULONG_MAX /\
      (heap_bot h <= start \/ end_ <= heap_top h) /\
      (exists e, In e map /\ e_type e = E820_RAM /\
                 e_addr e <= heap_top h /\ heap_bot h <= e_addr e + e_size e) /\
      forall e a b, In e map -> init_heap_piece start end_ e = Some (a, b) ->
        b - a <= heap_bot h - heap_top h
  | None => forall e a b, In e map -> init_heap_piece start end_ e = Some (a, b) -> b <= a
  end.
Proof.
  intros Hse He Hw. unfold init_heap.
  pose proof (init_heap_loop_spec start end_ Hse He map 0 (heap_top h0) (heap_bot h0) Hw ltac:(lia)) as L.
  destruct (init_heap_loop _ _ _ _) as [[size top] bot]. destruct L as (L0 & L1 & L2).
  destruct (Z.eqb_spec size 0) as [->|Hne].
  - intros e a b Hin E. specialize (L1 a b). unfold piece_of in L1.
    assert (b - a <= 0) by eauto. lia.
  - destruct L2 as [(-> & _)|(( e & Hin & E) & Hsz)]; [lia|]. cbn.
    assert (We : wf_entry e) by (rewrite Forall_forall in Hw; auto).
    destruct (init_heap_piece_spec start end_ Hse e top bot We E) as (T & A & B & C & D).
    repeat split; try lia; [now exists e|].
    intros e' a b Hin' E'. specialize (L1 a b). rewrite Hsz. apply L1. now exists e'.
Qed.

Lemma init_heap_spec_witness :
  let map := [{| e_addr := 0x600; e_size := 0x9f000; e_type := 1 |};
              {| e_addr := 0x100000; e_size := 0x7f00000; e_type := 1 |}] in
  exists h,
    init_heap 0x100000 0x110000 map {| heap_ptr := 0; heap_top := 0; heap_bot := 0 |} = Some h /\
    heap_top h = 0x110000 /\ heap_bot h = 0x8000000 /\
    (heap_bot h <= 0x100000 \/ 0x110000 <= heap_top h).
Proof.
  intros map.
  pose proof (init_heap_spec 0x100000 0x110000 map {| heap_ptr := 0; heap_top := 0; heap_bot := 0 |}
                ltac:(lia) ltac:(lia) ltac:(repeat constructor; cbn; lia)) as P.
  assert (E : init_heap 0x100000 0x110000 map {| heap_ptr := 0; heap_top := 0; heap_bot := 0 |}
              = Some {| heap_ptr := 0x8000000; heap_top := 0x110000; heap_bot := 0x8000000 |})
    by (vm_compute; reflexivity).
  rewrite E in P. eexists. split; [exact E|]. do 2 (split; [reflexivity|]). apply P.
Defined.

(** When Etherboot lies strictly inside a RAM region, [init_heap] keeps the piece BELOW it
    whatever the sizes: [r_start - start] is negative and wraps, so the comparison meant to keep
    the larger piece never holds. *)
Theorem init_heap_keeps_lower start end_ e :
  0 <= start < end_ -> 0 <= e_addr e < start -> end_ < e_addr e + e_size e <= ULONG_MAX ->
  e_type e = E820_RAM ->
  init_heap_piece start end_ e = Some (e_addr e, start).
Proof.
  intros Hs Ha He Ht. unfold init_heap_piece. rewrite Ht, Z.eqb_refl. cbn [negb].
  unfold ULONG_MAX in *. rewrite (u32_small (e_addr e)), (u32_small (_ + e_size e)) by lia.
  destruct (Z.ltb_spec (e_addr e + e_size e) (e_addr e)); [lia|].
  assert (E : (u32 (e_addr e + e_size e - end_) >=? u32 (e_addr e - start)) = false)
    by (rewrite Z.geb_leb; apply Z.leb_gt; zmod).
  rewrite E. case_tests; (reflexivity || lia).
Qed.

Lemma init_heap_keeps_lower_witness :
  init_heap_piece 0x100000 0x120000 {| e_addr := 0xf0000; e_size := 0x7f10000; e_type := 1 |}
  = Some (0xf0000, 0x100000).
Proof.
  apply (init_heap_keeps_lower 0x100000 0x120000
           {| e_addr := 0xf0000; e_size := 0x7f10000; e_type := 1 |}); cbn; unfold ULONG_MAX; first [lia | reflexivity].
Defined.

(** C33: Any sequence of allocations of sizes that, with their size mark, are not larger than the
    address [heap_top] of the lower end of the heap (so that no subtraction from [heap_ptr] wraps) yields pairwise disjoint, 16 byte
    aligned blocks between the new [heap_ptr] and the heap's bottom, above [heap_top], and the size
    stored in front of each block survives all later allocations.  A request that does not fit
    changes nothing. *)
Theorem allots_disjoint virt_offset sizes m h m' h' got :
  heap_ok virt_offset h -> Forall (fun s => 0 <= s /\ s + 4 <= heap_top h) sizes ->
  allots virt_offset m h sizes [] = (m', h', got) ->
  heap_ok virt_offset h' /\ heap_top h' = heap_top h /\ heap_bot h' = heap_bot h /\
  stacked (heap_ptr h') (heap_ptr h) got /\ Forall (marked virt_offset m') got.
Proof.
  intros Hok Hf E. pose proof Hok as (H1 & H2 & _).
  eapply (allots_ok virt_offset); eauto; [cbn; lia | lia].
Qed.

Lemma allots_disjoint_witness :
  let h := {| heap_ptr := 0x200000; heap_top := 0x100000; heap_bot := 0x200000 |} in
  let '(m', h', got) := allots 0x9000 (fun _ => 0) h [100; 0x200; 0xfff80; 7] [] in
  got = [(0x1ffd70, 0x1ffd7b); (0x1ffd80, 0x1fff84); (0x1fff90, 0x1ffff8)] /\
  stacked (heap_ptr h') 0x200000 got.
Proof.
  intros h. destruct (allots 0x9000 (fun _ => 0) h [100; 0x200; 0xfff80; 7] []) as [[m' h'] got] eqn:E.
  split.
  - vm_compute in E. congruence.
  - apply (allots_disjoint 0x9000 [100; 0x200; 0xfff80; 7] (fun _ => 0) h m' h' got) in E;
      [apply E | unfold heap_ok; cbn; unfold u32; lia | repeat constructor; cbn; lia].
Defined.

(** [forget] does not undo [allot].  With [heap_ptr] 16 byte aligned (as [allot] leaves it),
    allotting and forgetting a block leaves [heap_ptr] 12 bytes low when the size is 0, 13, 14 or
    15 modulo 16, and 4 bytes HIGH otherwise (unless the heap ends there): then the first word of
    the block allotted before, which holds its size, is free again, and the next empty block is
    placed exactly on it. *)
Theorem forget_allot virt_offset m h size :
  heap_ok virt_offset h -> 0 <= size -> size + 4 <= heap_ptr h -> heap_ptr h mod 16 = 0 ->
  heap_top h <= align_down (heap_ptr h - (size + 4)) 16 -> heap_bot h + 4 < 4294967296 ->
  let '(m1, h1, ptr) := allot virt_offset m h size in
  let h2 := forget virt_offset m1 h1 ptr in
  heap_ptr h2 = (if (1 <=? size mod 16) && (size mod 16 <=? 12)
                 then Z.min (heap_ptr h + 4) (heap_bot h) else heap_ptr h - 12) /\
  (1 <= size mod 16 <= 12 -> heap_ptr h + 4 <= heap_bot h ->
   fst (fst (allot virt_offset m1 h2 0)) = st32 m1 (phys_to_virt virt_offset (heap_ptr h)) 0).
Proof.
  intros Hok Hs Hf Hal Hfit Hb. pose proof Hok as (H1 & H2 & H3).
  destruct (allot_cases virt_offset m h size Hok Hs Hf) as [(Hn & _)|(_ & E)]; [lia|]. rewrite E.
  set (addr := align_down _ 16) in *.
  assert (Ha : addr <= heap_ptr h - (size + 4)) by (subst addr; zmod).
  destruct (phys_to_virt_ok virt_offset h (addr + 4) Hok ltac:(lia)) as [_ Hnz].
  unfold forget. destruct (Z.eqb_spec (phys_to_virt virt_offset (addr + 4)) 0); [congruence|].
  rewrite virt_phys by lia. rewrite (u32_small (addr + 4 - 4)) by lia.
  replace (addr + 4 - 4) with addr by lia. rewrite ld32_st32_eq, (u32_small size) by lia.
  cbn [heap_ptr heap_top heap_bot].
  assert (Er : u32 (addr + 4 + align_down (u32 (size + 15)) 16)
               = if (1 <=? size mod 16) && (size mod 16 <=? 12)
                 then heap_ptr h + 4 else heap_ptr h - 12)
    by (subst addr; case_tests; zmod).
  rewrite Er. split.
  - rewrite Z.gtb_ltb. case_tests; lia.
  - intros Hr Hb'. destruct (Z.leb_spec 1 (size mod 16)); [|lia].
    destruct (Z.leb_spec (size mod 16) 12); [|lia]. cbn [andb].
    rewrite Z.gtb_ltb. destruct (Z.ltb_spec (heap_bot h) (heap_ptr h + 4)); [lia|].
    unfold allot. cbn [heap_ptr heap_top heap_bot].
    replace (align_down (u32 (heap_ptr h + 4 - u32 (0 + 4))) 16) with (heap_ptr h) by zmod.
    destruct (Z.ltb_spec (heap_ptr h) (heap_top h)); [lia | reflexivity].
Qed.

Lemma forget_allot_witness :
  let h := {| heap_ptr := 0x1fff00; heap_top := 0x100000; heap_bot := 0x200000 |} in
  let '(m1, h1, ptr) := allot 0 (fun _ => 0) h 12 in
  heap_ptr (forget 0 m1 h1 ptr) = heap_ptr h + 4.
Proof.
  intros h. pose proof (forget_allot 0 (fun _ => 0) h 12) as P.
  destruct (allot 0 (fun _ => 0) h 12) as [[m1 h1] ptr].
  apply P; unfold heap_ok, h; cbn; unfold u32; lia.
Defined.

(** [forget2] undoes [allot2] when [heap_ptr] has the alignment asked for: the mask and the
    size stored in front of the block give back the old [heap_ptr]; and the block is aligned. *)
Theorem forget2_allot2 virt_offset m h size k :
  heap_ok virt_offset h -> 0 <= k <= 31 -> 0 < size -> size + 2 ^ k + 8 <= heap_top h ->
  heap_ptr h mod 2 ^ k = 0 -> size + 2 ^ k < 4294967296 ->
  let '(m1, h1, ptr) := allot2 virt_offset m h size (2 ^ k - 1) in
  if ptr =? 0 then m1 = m /\ h1 = h
  else virt_to_phys virt_offset ptr mod 2 ^ k = 0 /\
       virt_to_phys virt_offset ptr + size <= heap_ptr h /\
       forget2 virt_offset m1 h1 ptr = h.
Proof.
  intros Hok Hk Hs Hf Hal Hsz. pose proof Hok as (H1 & H2 & H3).
  assert (Hp : 0 < 2 ^ k) by (apply Z.pow_pos_nonneg; lia).
  unfold allot2. rewrite (u32_small (heap_ptr h - size)), land_not32 by lia.
  set (p := align_down (heap_ptr h - size) (2 ^ k)).
  assert (Hmod : 0 <= (heap_ptr h - size) mod 2 ^ k < 2 ^ k) by (apply Z.mod_pos_bound; lia).
  assert (Hpr : heap_ptr h - size - 2 ^ k < p <= heap_ptr h - size) by (subst p; unfold align_down; lia).
  assert (Hpal : p mod 2 ^ k = 0).
  { subst p. unfold align_down. rewrite Zminus_mod_idemp_r, Z.sub_diag. apply Z.mod_0_l. lia. }
  replace (u32 (p - 4 - 4)) with (p - 8) by (rewrite u32_small; lia).
  destruct (Z.ltb_spec (p - 8) (heap_top h)); [cbn; auto|].
  rewrite !(u32_small (p - 8 + _)), !(u32_small (p - 8 + _ + _)) by lia.
  replace (p - 8 + 4 + 4) with p by lia. replace (p - 8 + 4) with (p - 4) by lia.
  destruct (phys_to_virt_ok virt_offset h p Hok ltac:(lia)) as [Ep Hnz].
  destruct (Z.eqb_spec (phys_to_virt virt_offset p) 0); [congruence|].
  rewrite virt_phys by lia. split; [exact Hpal|]. split; [lia|].
  unfold forget2. destruct (Z.eqb_spec (phys_to_virt virt_offset p) 0); [congruence|].
  rewrite virt_phys by lia. rewrite (u32_small (p - 4)), (u32_small (p - 4 - 4)) by lia.
  replace (p - 4 - 4) with (p - 8) by lia.
  destruct (phys_to_virt_ok virt_offset h (p - 4) Hok ltac:(lia)) as [E4 _].
  destruct (phys_to_virt_ok virt_offset h (p - 8) Hok ltac:(lia)) as [E8 _].
  assert (Hk32 : 2 ^ k <= 2 ^ 31) by (apply Z.pow_le_mono_r; lia). pow_consts.
  rewrite ld32_st32_eq, ld32_st32_ne, ld32_st32_eq by (rewrite E4, E8; case_tests; lia).
  rewrite !(u32_small size), !(u32_small (2 ^ k - 1)) by lia.
  rewrite (u32_small (size + _)), land_not32 by lia.
  pose proof (align_down_up (heap_ptr h) size (2 ^ k) Hp Hal) as Er. fold p in Er.
  rewrite Er, Z.gtb_ltb, u32_small by lia. cbn [heap_ptr heap_top heap_bot].
  destruct (Z.ltb_spec (heap_bot h) (heap_ptr h)); [lia|]. now destruct h.
Qed.

Lemma forget2_allot2_witness :
  let h := {| heap_ptr := 0x1fff00; heap_top := 0x100000; heap_bot := 0x200000 |} in
  let '(m1, h1, ptr) := allot2 0 (fun _ => 0) h 100 255 in
  ptr = 0x1ffe00 /\ forget2 0 m1 h1 ptr = h.
Proof.
  intros h. pose proof (forget2_allot2 0 (fun _ => 0) h 100 8) as P.
  change (2 ^ 8 - 1) with 255 in P.
  assert (E : snd (allot2 0 (fun _ => 0) h 100 255) = 0x1ffe00) by reflexivity.
  destruct (allot2 0 (fun _ => 0) h 100 255) as [[m1 h1] ptr]. cbn [snd] in E. subst ptr.
  split; [reflexivity|]. apply P; unfold heap_ok, h; cbn; unfold u32; lia.
Defined.

(** *** Relocation *)

Lemma bit20 x : 0 <= x -> istrue (Z.land x 0x100000) = ((x / 1048576) mod 2 =? 1).
Proof.
  intros Hx. replace ((x / 1048576) mod 2 =? 1) with (Z.testbit x 20).
  2:{ rewrite Z.testbit_odd, shiftr_div by lia. pow_consts.
      rewrite (Zmod_odd (x / 1048576)). now destruct (Z.odd (x / 1048576)). }
  unfold istrue. change 0x100000 with (2 ^ 20). destruct (Z.testbit x 20) eqn:E.
  - destruct (Z.eqb_spec (Z.land x (2 ^ 20)) 0) as [E0|]; [|reflexivity].
    apply (f_equal (fun z => Z.testbit z 20)) in E0.
    rewrite Z.land_spec, E, Z.bits_0 in E0. discriminate.
  - replace (Z.land x (2 ^ 20)) with 0; [reflexivity|].
    apply Z.bits_inj'. intros i Hi. rewrite Z.bits_0, Z.land_spec.
    destruct (Z.eqb_spec i 20) as [->|]; [now rewrite E|].
    now rewrite Z.pow2_bits_false, andb_false_r by lia.
Qed.

(** A placement: 16 byte aligned, of the right size, ending inside a RAM region, with address
    line 20 low throughout. *)
Definition placed (map : list e820entry) (size addr eaddr : Z) : Prop :=
  addr mod 16 = 0 /\ 0 <= addr /\ eaddr = addr + size /\
  (exists e, In e map /\ e_type e = E820_RAM /\ e_addr e <= eaddr) /\
  forall x, addr <= x < eaddr -> Z.land x 0x100000 = 0.

Lemma istrue_false x : istrue x = false <-> x = 0.
Proof. unfold istrue. rewrite negb_false_iff. apply Z.eqb_eq. Qed.

(** Etherboot of at most 1 MB placed below [r_end] once it is rounded: no wrap-around, and
    address line 20 stays low. *)
Lemma even_megabyte size r_end :
  0 < size <= 0x100000 -> size mod 16 = 0 -> 0 <= r_end < 4294967296 -> r_end mod 16 = 0 ->
  size <= r_end ->
  let r := if istrue (Z.land r_end 0x100000) then align_down r_end 0x100000
           else if istrue (Z.land (u32 (r_end - size)) 0x100000)
           then align_down (u32 (r_end - 0x100000)) 0x100000
           else r_end in
  size <= r <= r_end /\ r mod 16 = 0 /\
  forall x, r - size <= x < r -> Z.land x 0x100000 = 0.
Proof.
  intros Hs Hal Hr Hral Hle. cbv zeta. rewrite (u32_small (r_end - size)), !bit20 by lia.
  assert (Hx : forall x, 0 <= x -> (x / 1048576) mod 2 = 0 -> Z.land x 0x100000 = 0).
  { intros x H0 Hm. apply istrue_false. rewrite bit20 by lia. apply Z.eqb_neq. lia. }
  case_tests.
  - split; [zmod|]. split; [zmod|]. intros x B. apply Hx; zmod.
  - assert (2097152 <= r_end) by zmod. rewrite u32_small by lia.
    split; [zmod|]. split; [zmod|]. intros x B. apply Hx; zmod.
  - split; [lia|]. split; [exact Hral|]. intros x B. apply Hx; zmod.
Qed.

Lemma relocate_step_spec size e map addr eaddr addr' eaddr' :
  0 < size <= 0x100000 -> size mod 16 = 0 -> wf_entry e -> In e map ->
  relocate_step size e (addr, eaddr) = (addr', eaddr') ->
  addr' = addr /\ eaddr' = eaddr \/ eaddr < addr' /\ placed map size addr' eaddr'.
Proof.
  intros Hs Hal [Ha He] Hin. unfold relocate_step.
  destruct (Z.eqb_spec (e_type e) E820_RAM) as [Ht|]; cbn [negb]; [|intros [= <- <-]; auto].
  rewrite !Z.gtb_ltb. unfold MAX_ADDR.
  destruct (Z.ltb_spec 0xfff00000 (e_addr e)); [intros [= <- <-]; auto|].
  destruct (Z.ltb_spec 0xfff00000 (e_size e)); [intros [= <- <-]; auto|].
  set (r_start := align_down (u32 (u32 (e_addr e) + 15)) 16).
  assert (Hrs : e_addr e <= r_start) by (subst r_start; zmod).
  set (r_end := if _ <? r_start then _ else _).
  assert (Hre : 0 <= r_end < 4294967296 /\ r_end mod 16 = 0)
    by (subst r_end; case_tests; zmod).
  destruct (Z.ltb_spec r_end size); [intros [= <- <-]; auto|].
  pose proof (even_megabyte size r_end Hs Hal (proj1 Hre) (proj2 Hre) ltac:(lia)) as E.
  cbv zeta in E. set (r := if istrue _ then _ else _) in *.
  destruct E as (E1 & E2 & E3).
  destruct (Z.ltb_spec r r_start); [intros [= <- <-]; auto|]. rewrite u32_small by lia.
  destruct (Z.ltb_spec eaddr (r - size)); [|intros [= <- <-]; auto].
  intros [= <- <-]. right. split; [lia|]. unfold placed.
  split; [zmod|]. split; [lia|]. split; [lia|]. split; [exists e; repeat split; auto; lia | exact E3].
Qed.

(** Where [relocate] moves Etherboot (of at most 1 MB).  Either it stays, or its new range is
    16 byte aligned, as long as the image, above the old end (or above 0 when that end is too
    high), ends inside a RAM region, and every address in it has address line 20 low, so that it
    stays visible with the A20 gate closed. *)
Theorem relocate_spec text end_ map addr eaddr :
  0 <= text < end_ -> end_ < 4294967296 -> end_ - text <= 0x100000 -> Forall wf_entry map ->
  relocate text end_ map = (addr, eaddr) ->
  addr = text \/
  (if end_ >? MAX_ADDR then 0 else end_) < addr /\ placed map (relocate_size text end_) addr eaddr.
Proof.
  intros Ht He Hsz Hw. unfold relocate. set (size := relocate_size text end_).
  assert (Hs : 0 < size <= 0x100000 /\ size mod 16 = 0) by (subst size; unfold relocate_size; zmod).
  set (e0 := if end_ >? MAX_ADDR then 0 else end_). clearbody e0 size.
  assert (G : forall l a0 a e, incl l map -> 
    fold_left (fun st e => relocate_step size e st) l (a0, a) = (addr, e) ->
    addr = a0 /\ e = a \/ a < addr /\ placed map size addr e).
  { intros l. induction l as [|x l IH]; intros a0 a e Hi; cbn [fold_left].
    - intros [= -> ->]. auto.
    - destruct (relocate_step size x (a0, a)) as [a1 a2] eqn:E. intros F.
      apply incl_cons_inv in Hi as [Hx Hl].
      rewrite Forall_forall in Hw.
      apply (relocate_step_spec size x map) in E; try tauto; [|auto].
      apply IH in F; [|exact Hl].
      destruct E as [[-> ->]|[E1 E2]]; [exact F|]. right.
      destruct F as [[-> ->]|[F1 F2]]; [auto|]. split; [|exact F2].
      destruct E2 as (_ & _ & -> & _). lia. }
  intros F. apply G in F; [|apply incl_refl]. tauto.
Qed.

Lemma relocate_spec_witness :
  let map := [{| e_addr := 0x600; e_size := 0x9f000; e_type := 1 |};
              {| e_addr := 0x100000; e_size := 0x7f00000; e_type := 1 |}] in
  relocate 0x94000 0x9e123 map = (0x7ef5ed0, 0x7f00000) /\
  (0x7ef5ed0 = 0x94000 \/
   0x9e123 < 0x7ef5ed0 /\ placed map (relocate_size 0x94000 0x9e123) 0x7ef5ed0 0x7f00000).
Proof.
  intros map. assert (E : relocate 0x94000 0x9e123 map = (0x7ef5ed0, 0x7f00000))
    by (vm_compute; reflexivity).
  split; [exact E|].
  apply (relocate_spec 0x94000 0x9e123 map 0x7ef5ed0 0x7f00000);
    [lia | lia | lia | repeat constructor; cbn; lia | exact E].
Defined.

(** [relocate] never checks that Etherboot fits in the region it picks.  With a single RAM
    region smaller than the image, at the same even megabyte, the image is placed so that it
    STARTS BELOW that region, in addresses the memory map does not declare usable. *)
Theorem relocate_ignores_fit text end_ e :
  0 <= text < end_ -> end_ <= MAX_ADDR -> e_type e = E820_RAM ->
  e_addr e mod 16 = 0 -> e_size e mod 16 = 0 -> 0 <= e_size e < relocate_size text end_ ->
  let size := relocate_size text end_ in
  end_ + size < e_addr e -> e_addr e + e_size e < MAX_ADDR ->
  (e_addr e + e_size e) / 0x100000 mod 2 = 0 ->
  (e_addr e + e_size e - size) / 0x100000 mod 2 = 0 ->
  relocate text end_ [e] = (e_addr e + e_size e - size, e_addr e + e_size e) /\
  e_addr e + e_size e - size < e_addr e.
Proof.
  intros Ht He Hty Ha Hs Hsz size Hend Hmax Hev1 Hev2. unfold relocate. cbn [fold_left].
  fold size. fold size in Hsz. assert (0 < size < 4294967296) 
    by (subst size; unfold relocate_size, MAX_ADDR in *; zmod).
  clearbody size. unfold MAX_ADDR in *. split; [|lia]. rewrite Z.gtb_ltb.
  destruct (Z.ltb_spec 0xfff00000 end_); [lia|].
  unfold relocate_step, MAX_ADDR. rewrite Hty, Z.eqb_refl. cbn [negb]. rewrite !Z.gtb_ltb.
  destruct (Z.ltb_spec 0xfff00000 (e_addr e)); [lia|].
  destruct (Z.ltb_spec 0xfff00000 (e_size e)); [lia|].
  rewrite (u32_small (e_addr e)), (u32_small (e_addr e + e_size e)), (u32_small (e_addr e + 15)) by lia.
  replace (align_down (e_addr e + 15) 16) with (e_addr e) by zmod.
  replace (align_down (e_addr e + e_size e) 16) with (e_addr e + e_size e) by zmod.
  destruct (Z.ltb_spec (e_addr e + e_size e) (e_addr e)); [lia|].
  destruct (Z.ltb_spec (e_addr e + e_size e) size); [lia|].
  rewrite (u32_small (_ - size)), !bit20, Hev1, Hev2 by lia.
  change (0 =? 1) with false. cbv iota. rewrite !(u32_small (_ - size)) by lia. case_tests; (reflexivity || lia).
Qed.

Lemma relocate_ignores_fit_witness :
  relocate 0x94000 0xa4000 [{| e_addr := 0x8080000; e_size := 0x1000; e_type := 1 |}]
  = (0x8071000, 0x8081000).
Proof.
  apply (relocate_ignores_fit 0x94000 0xa4000
           {| e_addr := 0x8080000; e_size := 0x1000; e_type := 1 |}); vm_compute; intuition congruence.
Defined.
