(* ===== verification/OsLoader.v ===== *)
(** The operating system loader of [src/src/core/osloader.c]: checking and clearing the memory of
    a segment, finding room for a relocatable image, trying the image formats in order and
    streaming the blocks of the file to the format that claimed it.  The format's own functions
    are reached through an interface: a probe that may claim the first block, and a download
    function that takes the blocks from then on. *)

From S2P Require Import Prelude Memory StringLib Heap.

(** How a download function ends: it returns the number of 512 byte sectors it does not need, or
    it leaves by [longjmp], or it starts the loaded program. *)
Inductive dl_outcome :=
| DlReturn (skip_sectors : Z)
| DlLongjmp (state : Z)
| DlBoot (machine entry : Z).

(** Where Etherboot itself lies, and how virtual addresses are shifted. *)
Record layout := { virt_offset : Z; text_phys : Z; end_phys : Z }.

(** ** Segments *)

Definition fits (start end_ : Z) (e : e820entry) : bool :=
  (e_type e =? E820_RAM) && (start >=? e_addr e) && (end_ <=? u64 (e_addr e + e_size e)).

(** [prep_segment]: the memory after it, and whether it returned 1. *)
Definition prep_segment (ly : layout) (map : list e820entry) (h : heap) (m : mem)
    (start mid end_ istart iend : Z) : mem * bool :=
  if mid >? end_ then (m, false)
  else if (end_ >? text_phys ly) && (start <? end_phys ly) then (m, false)
  else if (end_ >? heap_ptr h) && (start <? heap_bot h) then (m, false)
  else if negb (existsb (fits start end_) map) then (m, false)
  else (if end_ >? mid
        then memset m (phys_to_virt (virt_offset ly) mid) 0 (Z.to_nat (end_ - mid)) else m, true).

(** The range [find_segment] keeps of one entry; [None] is a [continue]. *)
Definition find_segment_range (ly : layout) (h : heap) (e : e820entry) : option (Z * Z) :=
  if negb (e_type e =? E820_RAM) then None
  else if u64 (e_addr e + e_size e) >? ULONG_MAX then None
  else
    let r_start := u32 (e_addr e) in
    let r_end := u32 (r_start + e_size e) in
    let r_end := if (r_end >? text_phys ly) && (r_start <? text_phys ly)
                 then text_phys ly else r_end in
    let r_start := if (r_start >? text_phys ly) && (r_start <? end_phys ly)
                   then end_phys ly else r_start in
    let r_end := if (r_end >? heap_ptr h) && (r_start <? heap_ptr h)
                 then heap_ptr h else r_end in
    let r_start := if (r_start >? heap_ptr h) && (r_start <? heap_bot h)
                   then heap_ptr h else r_start in
    Some (r_start, r_end).
Fixpoint find_segment_loop (ly : layout) (h : heap) (size align : Z) (map : list e820entry) : Z :=
  match map with
  | [] => ULONG_MAX
  | e :: map' =>
      match find_segment_range ly h e with
      | None => find_segment_loop ly h size align map'
      | Some (r_start, r_end) =>
          let r_start := Z.land (u32 (r_start + align - 1)) (not32 (align - 1)) in
          if (r_end >=? r_start) && (u32 (r_end - r_start) >=? size) then r_start
          else find_segment_loop ly h size align map'
      end
  end.
Definition find_segment (ly : layout) (h : heap) (map : list e820entry) (size align : Z) : Z :=
  if istrue (Z.land align (u32 (align - 1))) then ULONG_MAX
  else find_segment_loop ly h size align map.

(** ** Image formats *)

Section formats.
(** The state the formats work on: memory and their own static variables. *)
Context {St : Type}.

Definition os_download_t : Type := Z -> Z -> bool -> St -> dl_outcome * St.
Definition probe_t : Type := Z -> Z -> St -> option os_download_t * St.

(** [dead_download]: restart when the image was recognised but cannot be loaded. *)
Definition dead_download : os_download_t := fun _ _ _ st => (DlLongjmp (-2), st).

(** [probe_image] tries the configured formats in order. *)
Fixpoint probe_image (formats : list probe_t) (data len : Z) (st : St)
    : option os_download_t * St :=
  match formats with
  | [] => (None, st)
  | probe :: formats' =>
      match probe data len st with
      | (Some d, st') => (Some d, st')
      | (None, st') => probe_image formats' data len st'
      end
  end.

(** The static variables of [load_block]. *)
Record lb_state := {
  os_download : option os_download_t;
  skip_sectors : Z;
  skip_bytes : Z;
}.
(** [LbCrash]: the call of [os_download] goes through a null pointer. *)
Inductive lb_outcome :=
| LbReturn (ok : bool)
| LbExit (o : dl_outcome)
| LbCrash.

(** The part of [load_block] after the first block has been probed. *)
Definition load_block_data (data len : Z) (eof : bool) (s : lb_state) (st : St)
    : lb_outcome * lb_state * St :=
  if negb eof && ((skip_sectors s >? Z.shiftr len 9) ||
                  ((skip_sectors s =? Z.shiftr len 9) && (skip_bytes s >=? Z.land len 0x1ff)))
  then
    let borrow := u32 (len - skip_bytes s + 511) in
    let s1 := if skip_bytes s <? len
              then (u64 (skip_sectors s - Z.shiftr borrow 9),
                    u32 (skip_bytes s + align_down borrow 512))
              else (skip_sectors s, skip_bytes s) in
    (LbReturn true,
     {| os_download := os_download s; skip_sectors := fst s1; skip_bytes := u32 (snd s1 - len) |},
     st)
  else
    let skip := u64 (Z.shiftl (skip_sectors s) 9 + skip_bytes s) in
    match os_download s with
    | None => (LbCrash, s, st)
    | Some d =>
        match d (data + skip) (u32 (len - skip)) eof st with
        | (DlReturn n, st') =>
            (LbReturn true, {| os_download := os_download s; skip_sectors := n; skip_bytes := 0 |},
             st')
        | (o, st') => (LbExit o, s, st')
        end
    end.

Definition load_block (formats : list probe_t) (data block len : Z) (eof : bool)
    (s : lb_state) (st : St) : lb_outcome * lb_state * St :=
  if block =? 1 then
    match probe_image formats data len st with
    | (None, st') =>
        (LbReturn false, {| os_download := None; skip_sectors := 0; skip_bytes := 0 |}, st')
    | (Some d, st') =>
        load_block_data data len eof
          {| os_download := Some d; skip_sectors := 0; skip_bytes := 0 |} st'
    end
  else load_block_data data len eof s st.
End formats.
Arguments os_download_t : clear implicits.
Arguments probe_t : clear implicits.
Arguments lb_state : clear implicits.

(** ** Lemmas *)

Lemma prep_segment_cases ly map h m start mid end_ istart iend m' ok :
  let z := phys_to_virt (virt_offset ly) mid in
  let overlaps lo hi := end_ > lo /\ start < hi in
  prep_segment ly map h m start mid end_ istart iend = (m', ok) ->
  if ok then
    mid <= end_ /\ ~ overlaps (text_phys ly) (end_phys ly) /\ ~ overlaps (heap_ptr h) (heap_bot h) /\
    (exists e, In e map /\ e_type e = E820_RAM /\ e_addr e <= start /\ end_ <= u64 (e_addr e + e_size e)) /\
    (forall x, z <= x < z + (end_ - mid) -> ld8 m' x = 0) /\
    (forall x, ~ (z <= x < z + (end_ - mid)) -> ld8 m' x = ld8 m x)
  else
    m' = m /\
    (end_ < mid \/ overlaps (text_phys ly) (end_phys ly) \/ overlaps (heap_ptr h) (heap_bot h) \/
     forall e, In e map -> e_type e = E820_RAM -> start < e_addr e \/ u64 (e_addr e + e_size e) < end_).
Proof.
  intros z overlaps. unfold prep_segment, overlaps. rewrite !Z.gtb_ltb.
  destruct (Z.ltb_spec end_ mid); [intros [= <- <-]; auto|].
  destruct (Z.ltb_spec (text_phys ly) end_), (Z.ltb_spec start (end_phys ly)); cbn [andb];
    try (intros [= <- <-]; split; [reflexivity | lia]);
  (destruct (Z.ltb_spec (heap_ptr h) end_), (Z.ltb_spec start (heap_bot h)); cbn [andb];
    try (intros [= <- <-]; split; [reflexivity | lia]));
  (destruct (existsb (fits start end_) map) eqn:F; cbn [negb];
   [ apply existsb_exists in F as (e & Hin & Fe); unfold fits in Fe;
     rewrite !andb_true_iff, Z.eqb_eq, Z.geb_leb, !Z.leb_le in Fe; destruct Fe as [[Ft Fa] Fb];
     intros [= <- <-]; split; [lia|]; split; [lia|]; split; [lia|];
     split; [exists e; repeat split; auto|]; fold z;
     destruct (Z.ltb_spec mid end_);
     split; intros x Hx; rewrite ?ld8_memset; case_tests; (reflexivity || lia)
   | intros [= <- <-]; split; [reflexivity|]; do 3 right; intros e Hin Ht;
     assert (Fe : fits start end_ e = false)
       by (destruct (fits start end_ e) eqn:Fe; [|reflexivity];
           rewrite <- F; symmetry; apply existsb_exists; eauto);
     unfold fits in Fe; rewrite Ht, Z.eqb_refl, Z.geb_leb in Fe; cbn [andb] in Fe;
     apply andb_false_iff in Fe; rewrite !Z.leb_gt in Fe; lia ]).
Qed.

(** ** Properties *)

(** C36: what [prep_segment] promises the image loaders.  When it accepts a segment, the segment
    lies in one RAM region, overlaps neither Etherboot nor the heap in use, its part beyond the
    file contents is zero and no other byte of memory has changed; when it refuses, memory is
    untouched and one of those conditions fails. *)
Theorem prep_segment_spec ly map h m start mid end_ istart iend m' ok :
  let z := phys_to_virt (virt_offset ly) mid in
  let overlaps lo hi := end_ > lo /\ start < hi in
  prep_segment ly map h m start mid end_ istart iend = (m', ok) ->
  if ok then
    mid <= end_ /\ ~ overlaps (text_phys ly) (end_phys ly) /\ ~ overlaps (heap_ptr h) (heap_bot h) /\
    (exists e, In e map /\ e_type e = E820_RAM /\ e_addr e <= start /\ end_ <= u64 (e_addr e + e_size e)) /\
    (forall x, z <= x < z + (end_ - mid) -> ld8 m' x = 0) /\
    (forall x, ~ (z <= x < z + (end_ - mid)) -> ld8 m' x = ld8 m x)
  else
    m' = m /\
    (end_ < mid \/ overlaps (text_phys ly) (end_phys ly) \/ overlaps (heap_ptr h) (heap_bot h) \/
     forall e, In e map -> e_type e = E820_RAM -> start < e_addr e \/ u64 (e_addr e + e_size e) < end_).
Proof. apply prep_segment_cases. Qed.

(** A machine for the examples: Etherboot at [0x94000, 0xa0000), the heap in use at the top of
    128 MB, and the usual two RAM regions. *)
Definition ly0 : layout := {| virt_offset := 0; text_phys := 0x94000; end_phys := 0xa0000 |}.
Definition heap0 : heap :=
  {| heap_ptr := 0x7ff0000; heap_top := 0x100000; heap_bot := 0x8000000 |}.
Definition map0 : list e820entry :=
  [{| e_addr := 0x600; e_size := 0x9fa00; e_type := 1 |};
   {| e_addr := 0xf0000; e_size := 0x10000; e_type := 2 |};
   {| e_addr := 0x100000; e_size := 0x7f00000; e_type := 1 |}].

Lemma prep_segment_spec_witness :
  let r := prep_segment ly0 map0 heap0 (fun _ => 33) 0x100000 0x100002 0x100004 0 2 in
  snd r = true /\ ld8 (fst r) 0x100001 = 33 /\ ld8 (fst r) 0x100003 = 0.
Proof.
  intros r. assert (E : r = (fst r, true)) by (vm_compute; reflexivity).
  pose proof (prep_segment_spec ly0 map0 heap0 (fun _ => 33) 0x100000 0x100002 0x100004 0 2
                (fst r) true E) as P. cbv zeta in P. destruct P as (_ & _ & _ & _ & Z & K).
  change (phys_to_virt (virt_offset ly0) 0x100002) with 0x100002 in Z, K.
  split; [reflexivity|]. split; [rewrite K by lia; reflexivity | apply Z; lia].
Defined.

(** Rounding up to a power of two, as [find_segment] does it. *)
Lemma round_up_pow2 x k :
  0 <= x -> 0 <= k < 32 -> x + 2 ^ k <= 4294967296 ->
  let r := Z.land (u32 (x + 2 ^ k - 1)) (not32 (2 ^ k - 1)) in
  x <= r < x + 2 ^ k /\ r mod 2 ^ k = 0.
Proof.
  intros Hx Hk Hb. assert (0 < 2 ^ k) by (apply Z.pow_pos_nonneg; lia). cbv zeta.
  rewrite u32_small, land_not32 by lia. unfold align_down.
  pose proof (Z.mod_pos_bound (x + 2 ^ k - 1) (2 ^ k) ltac:(lia)). split; [lia|].
  now rewrite Zminus_mod_idemp_r, Z.sub_diag, Z.mod_0_l by lia.
Qed.
Lemma pow2_land_pred k : 0 <= k < 32 -> istrue (Z.land (2 ^ k) (u32 (2 ^ k - 1))) = false.
Proof.
  intros Hk. assert (0 < 2 ^ k) by (apply Z.pow_pos_nonneg; lia).
  assert (2 ^ k <= 2 ^ 31) by (apply Z.pow_le_mono_r; lia). pow_consts.
  rewrite u32_small, land_ones_mod, Z.mod_same by lia. reflexivity.
Qed.

Lemma find_segment_range_spec ly h e rs re :
  0 <= text_phys ly < end_phys ly -> 0 <= heap_ptr h <= heap_bot h ->
  wf_entry e -> e_addr e + e_size e < 18446744073709551616 ->
  (e_type e = E820_RAM -> ~ (text_phys ly <= e_addr e < end_phys ly)) ->
  (e_type e = E820_RAM -> ~ (heap_ptr h <= e_addr e < heap_bot h)) ->
  find_segment_range ly h e = Some (rs, re) ->
  e_type e = E820_RAM /\ rs = e_addr e /\ 0 <= re <= e_addr e + e_size e /\
  re <= 4294967295 /\
  (re <= text_phys ly \/ end_phys ly <= rs) /\ (re <= heap_ptr h \/ heap_bot h <= rs).
Proof.
  intros Ht Hh [Wa Ws] Wo R2 R3. unfold find_segment_range.
  destruct (Z.eqb_spec (e_type e) E820_RAM) as [Hty|]; cbn [negb]; [|discriminate].
  specialize (R2 Hty). specialize (R3 Hty). rewrite !Z.gtb_ltb, (u64_small (_ + _)) by lia.
  destruct (Z.ltb_spec ULONG_MAX (e_addr e + e_size e)) as [|Hmax]; [discriminate|].
  unfold ULONG_MAX in Hmax.
  rewrite (u32_small (e_addr e)), (u32_small (e_addr e + e_size e)) by lia.
  replace ((text_phys ly <? e_addr e) && (e_addr e <? end_phys ly)) with false
    by (symmetry; case_tests; lia). cbv iota.
  replace ((heap_ptr h <? e_addr e) && (e_addr e <? heap_bot h)) with false
    by (symmetry; case_tests; lia).
  set (r1 := if (text_phys ly <? e_addr e + e_size e) && (e_addr e <? text_phys ly)
             then text_phys ly else e_addr e + e_size e).
  assert (0 <= r1 <= e_addr e + e_size e /\ (r1 <= text_phys ly \/ end_phys ly <= e_addr e))
    by (subst r1; case_tests; lia).
  clearbody r1. case_tests; intros [= <- <-]; (split; [exact Hty|]; lia).
Qed.

(** A range found by [find_segment] is usable: aligned as asked, inside a RAM region, and
    clear of Etherboot and of the heap in use, provided no RAM region starts inside either. *)
Theorem find_segment_sound ly h map size k r :
  0 <= text_phys ly < end_phys ly -> 0 <= heap_ptr h <= heap_bot h ->
  0 <= k < 32 -> 0 < size ->
  Forall (fun e => wf_entry e /\ e_addr e + e_size e < 18446744073709551616 /\
                   (e_type e = E820_RAM ->
                    e_addr e + 2 ^ k <= 4294967296 /\
                    ~ (text_phys ly <= e_addr e < end_phys ly) /\
                    ~ (heap_ptr h <= e_addr e < heap_bot h))) map ->
  find_segment ly h map size (2 ^ k) = r -> r <> ULONG_MAX ->
  r mod 2 ^ k = 0 /\
  (exists e, In e map /\ e_type e = E820_RAM /\ e_addr e <= r /\ r + size <= e_addr e + e_size e) /\
  (r + size <= text_phys ly \/ end_phys ly <= r) /\
  (r + size <= heap_ptr h \/ heap_bot h <= r).
Proof.
  intros Ht Hh Hk Hs Hw. unfold find_segment. rewrite pow2_land_pred by exact Hk.
  induction map as [|e map IH]; cbn [find_segment_loop]; [congruence|].
  apply Forall_cons_iff in Hw as [(We & Wo & Wr) Hw]. specialize (IH Hw).
  assert (IH' : find_segment_loop ly h size (2 ^ k) map = r -> r <> ULONG_MAX ->
    r mod 2 ^ k = 0 /\
    (exists e', In e' (e :: map) /\ e_type e' = E820_RAM /\ e_addr e' <= r /\
                r + size <= e_addr e' + e_size e') /\
    (r + size <= text_phys ly \/ end_phys ly <= r) /\
    (r + size <= heap_ptr h \/ heap_bot h <= r)).
  { intros E N. destruct (IH E N) as (A & (e' & B & C) & D). split; [exact A|].
    split; [exists e'; cbn; auto | exact D]. }
  destruct (find_segment_range ly h e) as [[rs re]|] eqn:E; [|exact IH'].
  destruct (find_segment_range_spec ly h e rs re Ht Hh We Wo) as (Ty & -> & B1 & B2 & B3 & B4);
    [intros T; apply (Wr T) | intros T; apply (Wr T) | exact E |].
  destruct (Wr Ty) as (R1 & _). destruct We as [Wa _].
  destruct (round_up_pow2 (e_addr e) k ltac:(lia) Hk R1) as [P1 P2].
  set (q := Z.land _ _) in *. clearbody q. rewrite !Z.geb_leb.
  destruct (Z.leb_spec q re); cbn [andb]; [|exact IH'].
  rewrite u32_small by lia. destruct (Z.leb_spec size (re - q)); [|exact IH'].
  intros <- _. split; [exact P2|]. split; [exists e; cbn; repeat split; auto; lia | lia].
Qed.

Lemma find_segment_sound_witness :
  find_segment ly0 heap0 map0 0x200000 (2 ^ 12) = 0x100000 /\
  (0x100000 + 0x200000 <= heap_ptr heap0 \/ heap_bot heap0 <= 0x100000).
Proof.
  assert (E : find_segment ly0 heap0 map0 0x200000 (2 ^ 12) = 0x100000) by (vm_compute; reflexivity).
  split; [exact E|].
  apply (find_segment_sound ly0 heap0 map0 0x200000 12 0x100000);
    [cbn; lia | cbn; lia | lia | lia | | exact E | discriminate].
  repeat constructor; cbn; lia.
Defined.

(** [find_segment] sets [r_start] to [heap_ptr] where it means to move past the heap: for a
    RAM region that begins inside the heap in use (beside no other), the range it returns starts
    at the bottom of the used heap, below the region, and overlaps the heap. *)
Theorem find_segment_overlaps_heap ly h e size :
  0 <= text_phys ly < end_phys ly -> end_phys ly <= heap_ptr h ->
  e_type e = E820_RAM -> heap_ptr h < e_addr e < heap_bot h ->
  heap_bot h <= e_addr e + e_size e <= ULONG_MAX -> 0 <= e_size e ->
  0 < size <= heap_bot h - heap_ptr h ->
  find_segment ly h [e] size 1 = heap_ptr h /\
  heap_ptr h < e_addr e /\ heap_ptr h < heap_bot h.
Proof.
  intros Ht Hh Hty He Hb Hs Hsz. split; [|lia]. unfold ULONG_MAX in *.
  unfold find_segment. cbn [find_segment_loop].
  change (istrue (Z.land 1 (u32 (1 - 1)))) with false. cbv iota.
  unfold find_segment_range. rewrite Hty, Z.eqb_refl, !Z.gtb_ltb. cbn [negb].
  rewrite (u64_small (_ + _)), (u32_small (e_addr e)), (u32_small (e_addr e + e_size e)) by lia.
  unfold ULONG_MAX. destruct (Z.ltb_spec 4294967295 (e_addr e + e_size e)); [lia|].
  destruct (Z.ltb_spec (e_addr e) (text_phys ly)); [lia|].
  destruct (Z.ltb_spec (e_addr e) (end_phys ly)); [lia|]. rewrite !andb_false_r.
  destruct (Z.ltb_spec (e_addr e) (heap_ptr h)); [lia|]. rewrite !andb_false_r.
  destruct (Z.ltb_spec (heap_ptr h) (e_addr e)); [|lia].
  destruct (Z.ltb_spec (e_addr e) (heap_bot h)); [|lia]. cbn [andb].
  replace (Z.land (u32 (heap_ptr h + 1 - 1)) (not32 (1 - 1))) with (heap_ptr h).
  2:{ change (1 - 1) with (2 ^ 0 - 1). rewrite land_not32 by (unfold u32; zmod). zmod. }
  rewrite (u32_small (_ - heap_ptr h)) by lia. case_tests; (reflexivity || lia).
Qed.

Lemma find_segment_overlaps_heap_witness :
  find_segment ly0 heap0 [{| e_addr := 0x7ff8000; e_size := 0x1000000; e_type := 1 |}] 0x4000 1
  = 0x7ff0000.
Proof.
  apply (find_segment_overlaps_heap ly0 heap0
           {| e_addr := 0x7ff8000; e_size := 0x1000000; e_type := 1 |} 0x4000);
    cbn; unfold ULONG_MAX; first [lia | reflexivity].
Defined.

(** ** Streaming *)

Section stream.
Context {St : Type}.

(** [want] is the offset in the file of the next byte the format has not declined; the block
    at hand starts at offset [pos]. *)
Definition wants (s : lb_state St) (pos want : Z) : Prop :=
  0 <= skip_sectors s < 9007199254740992 /\ 0 <= skip_bytes s < 512 /\
  want = pos + 512 * skip_sectors s + skip_bytes s.

(** The specification of the stream: a block that ends before [want] is dropped; otherwise the
    format gets the file from [want] to the end of the block, and then wants what follows the
    sectors it declines. *)
Definition spec_block (d : os_download_t St) (data pos len : Z) (eof : bool) (want : Z) (st : St)
    : lb_outcome * Z * St :=
  if negb eof && (pos + len <=? want) then (LbReturn true, want, st)
  else match d (data + (want - pos)) (pos + len - want) eof st with
       | (DlReturn n, st') => (LbReturn true, pos + len + 512 * n, st')
       | (o, st') => (LbExit o, want, st')
       end.

(** The comparison of sectors and bytes is the comparison of offsets. *)
Lemma skip_test ss sb len :
  0 <= ss -> 0 <= sb < 512 -> 0 <= len < 4294967296 ->
  (ss >? Z.shiftr len 9) || ((ss =? Z.shiftr len 9) && (sb >=? Z.land len 0x1ff))
  = (len <=? 512 * ss + sb).
Proof.
  intros H1 H2 H3. rewrite shiftr_div by lia. change 0x1ff with (2 ^ 9 - 1).
  rewrite land_ones_mod by lia. pow_consts. case_tests; zmod.
Qed.
End stream.

(** C4: [load_block] implements the stream.  With the number of bytes still to be skipped kept in
    sectors and bytes, every later block is dropped, or handed to the format from exactly the
    offset it wants, as [spec_block] says, and the bookkeeping again describes what it wants next
    (the borrow between bytes and sectors never underflows).  The last block must not end before
    the wanted offset. *)
Theorem load_block_refines {St} (d : os_download_t St) formats data block pos len eof s st want :
  block <> 1 -> os_download s = Some d -> wants s pos want -> 0 <= len < 4294966784 ->
  (eof = true -> want <= pos + len) ->
  (forall a l e x n, fst (d a l e x) = DlReturn n -> 0 <= n < 9007199254740992) ->
  let '(o, s', st') := load_block formats data block len eof s st in
  let '(o1, want', st1) := spec_block d data pos len eof want st in
  o = o1 /\ st' = st1 /\ os_download s' = Some d /\
  (o = LbReturn true -> wants s' (pos + len) want').
Proof.
  intros Hb Hd (W1 & W2 & ->) Hl He Hn. unfold load_block, spec_block.
  destruct (Z.eqb_spec block 1); [congruence|]. unfold load_block_data.
  rewrite skip_test by lia.
  replace (pos + len <=? pos + 512 * skip_sectors s + skip_bytes s)
    with (len <=? 512 * skip_sectors s + skip_bytes s) by (case_tests; lia).
  replace (pos + 512 * skip_sectors s + skip_bytes s - pos)
    with (512 * skip_sectors s + skip_bytes s) by lia.
  destruct (negb eof && (len <=? 512 * skip_sectors s + skip_bytes s)) eqn:T.
  - apply andb_true_iff in T as [_ T]. apply Z.leb_le in T. cbn [os_download skip_sectors skip_bytes].
    do 3 (split; [auto|]). intros _. unfold wants. cbn [skip_sectors skip_bytes].
    rewrite shiftr_div by lia. destruct (Z.ltb_spec (skip_bytes s) len); cbn [fst snd].
    + rewrite (u32_small (len - skip_bytes s + 511)) by zmod. zmod.
    + zmod.
  - assert (Hsk : 512 * skip_sectors s + skip_bytes s <= len).
    { apply andb_false_iff in T as [T|T]; [|apply Z.leb_gt in T; lia].
      apply negb_false_iff in T. specialize (He T). lia. }
    rewrite Hd, shiftl_mul by lia. pow_consts.
    rewrite (u64_small (_ * 512 + _)), (u32_small (len - _)) by lia.
    replace (skip_sectors s * 512 + skip_bytes s) with (512 * skip_sectors s + skip_bytes s) by lia.
    replace (pos + len - (pos + 512 * skip_sectors s + skip_bytes s))
      with (len - (512 * skip_sectors s + skip_bytes s)) by lia.
    pose proof (Hn (data + (512 * skip_sectors s + skip_bytes s))
                  (len - (512 * skip_sectors s + skip_bytes s)) eof st) as Hn'.
    destruct (d _ _ eof st) as [[n'|x|x y] st'] eqn:Ed; cbn [os_download];
      (do 3 (split; [auto|])); try discriminate. intros _. unfold wants. cbn.
    specialize (Hn' n' eq_refl). lia.
Qed.

(** A format for the example: it declines 3 sectors after each piece it gets. *)
Definition decline3 : os_download_t (list (Z * Z)) :=
  fun data len _ st => (DlReturn 3, (data, len) :: st).

Lemma load_block_refines_witness :
  let s := {| os_download := Some decline3; skip_sectors := 3; skip_bytes := 0 |} in
  let '(o, s', st') := load_block [] 5000 2 1024 false s [] in
  o = LbReturn true /\ st' = [] /\ wants s' (1024 + 1024) (1024 + 512 * 3).
Proof.
  intros s.
  pose proof (load_block_refines decline3 [] 5000 2 1024 1024 false s [] (1024 + 512 * 3 + 0)) as P.
  destruct (load_block [] 5000 2 1024 false s []) as [[o s'] st'].
  change (spec_block decline3 5000 1024 1024 false (1024 + 512 * 3 + 0) [])
    with (@LbReturn true, 1024 + 512 * 3, @nil (Z * Z)) in P.
  destruct P as (-> & -> & _ & W);
    [lia | reflexivity | unfold wants; cbn; lia | lia | discriminate
    | intros a l e x n [= <-]; lia |].
  auto.
Defined.

(** A file that ends inside the sectors a format declined is not an error: [len] underflows,
    and the format is called with a pointer beyond the block and a length of nearly 4 GB. *)
Theorem load_block_short_eof {St} (d : os_download_t St) formats data block len s st :
  block <> 1 -> os_download s = Some d ->
  0 <= skip_sectors s < 4294967296 -> 0 <= skip_bytes s < 512 -> 0 <= len ->
  let skip := 512 * skip_sectors s + skip_bytes s in
  len < skip -> skip < 4294967296 ->
  fst (fst (load_block formats data block len true s st))
  = match fst (d (data + skip) (4294967296 + len - skip) true st) with
    | DlReturn _ => LbReturn true
    | o => LbExit o
    end.
Proof.
  intros Hb Hd H1 H2 Hl skip Hs Hlt. subst skip. unfold load_block.
  destruct (Z.eqb_spec block 1); [congruence|]. unfold load_block_data. cbn [negb andb].
  rewrite Hd, shiftl_mul by lia. pow_consts. rewrite u64_small by lia.
  replace (skip_sectors s * 512 + skip_bytes s) with (512 * skip_sectors s + skip_bytes s) by lia.
  replace (u32 (len - (512 * skip_sectors s + skip_bytes s)))
    with (4294967296 + len - (512 * skip_sectors s + skip_bytes s)) by zmod.
  destruct (d _ _ true st) as [[n'|x|x y] st']; reflexivity.
Qed.

Lemma load_block_short_eof_witness :
  let s := {| os_download := Some decline3; skip_sectors := 3; skip_bytes := 0 |} in
  snd (load_block [] 5000 2 512 true s []) = [(6536, 4294966272)] /\
  fst (fst (load_block [] 5000 2 512 true s [])) = LbReturn true.
Proof.
  intros s. split; [reflexivity|].
  apply (load_block_short_eof decline3 [] 5000 2 512 s []); cbn; first [lia | reflexivity].
Defined.
