(* ===== verification/Elf.v ===== *)
(** The ELF loaders of [src/src/core/elf_loader.c].  The 32 bit and the 64 bit loader are the same
    code up to the layout of the headers and a few range checks, so the definitions take the class
    as a parameter.  [estate.e] and [estate.p] (the headers copied from the image) live in memory,
    at the addresses [ee] and [pp]; the other members of [estate] are the record [elf_state]. *)

From S2P Require Import Prelude Memory StringLib Misc Heap OsLoader.

Inductive elf_class := ELF32 | ELF64.

Definition ld64 (m : mem) (a : Z) : Z := ld32 m a + 4294967296 * ld32 m (a + 4).
Definition st64 (m : mem) (a v : Z) : mem := st32 (st32 m a v) (a + 4) (v / 4294967296).
(** An [Addr], [Off] or [Size] field of the class. *)
Definition ldw (k : elf_class) (m : mem) (a : Z) : Z :=
  match k with ELF32 => ld32 m a | ELF64 => ld64 m a end.
Definition stw (k : elf_class) (m : mem) (a v : Z) : mem :=
  match k with ELF32 => st32 m a v | ELF64 => st64 m a v end.
Definition uw (k : elf_class) (v : Z) : Z :=
  match k with ELF32 => u32 v | ELF64 => u64 v end.
Definition by_class {A} (k : elf_class) (x32 x64 : A) : A :=
  match k with ELF32 => x32 | ELF64 => x64 end.

Definition sizeof_Ehdr (k : elf_class) : Z := by_class k 52 64.
Definition sizeof_Phdr (k : elf_class) : Z := by_class k 32 56.

(** *** [Elf32_Ehdr], [Elf64_Ehdr] *)
Definition e_ident (m : mem) (ee i : Z) : Z := ld8 m (ee + i).
Definition eh_type (m : mem) (ee : Z) : Z := ld16 m (ee + 16).
Definition eh_machine (m : mem) (ee : Z) : Z := ld16 m (ee + 18).
Definition eh_version (m : mem) (ee : Z) : Z := ld32 m (ee + 20).
Definition eh_entry (k : elf_class) (m : mem) (ee : Z) : Z := ldw k m (ee + 24).
Definition eh_phoff (k : elf_class) (m : mem) (ee : Z) : Z := ldw k m (ee + by_class k 28 32).
Definition eh_ehsize (k : elf_class) (m : mem) (ee : Z) : Z := ld16 m (ee + by_class k 40 52).
Definition eh_phentsize (k : elf_class) (m : mem) (ee : Z) : Z := ld16 m (ee + by_class k 42 54).
Definition eh_phnum (k : elf_class) (m : mem) (ee : Z) : Z := ld16 m (ee + by_class k 44 56).

(** *** [Elf32_Phdr], [Elf64_Phdr] *)
Record phdr := {
  p_type : Z; p_offset : Z; p_paddr : Z; p_filesz : Z; p_memsz : Z; p_align : Z }.
Definition phdr_addr (k : elf_class) (pp : Z) (i : nat) : Z := pp + Z.of_nat i * sizeof_Phdr k.
Definition phdr_at (k : elf_class) (m : mem) (pp : Z) (i : nat) : phdr :=
  let a := phdr_addr k pp i in
  {| p_type := ld32 m a;
     p_offset := ldw k m (a + by_class k 4 8);
     p_paddr := ldw k m (a + by_class k 12 24);
     p_filesz := ldw k m (a + by_class k 16 32);
     p_memsz := ldw k m (a + by_class k 20 40);
     p_align := ldw k m (a + by_class k 28 48) |}.
(** The program headers [estate.p.phdr[0 .. e_phnum)]. *)
Definition phdrs (k : elf_class) (m : mem) (ee pp : Z) : list phdr :=
  map (phdr_at k m pp) (seq 0 (Z.to_nat (eh_phnum k m ee))).

Definition PT_LOAD : Z := 1.
Definition PT_NOTE : Z := 4.
Definition ET_EXEC : Z := 2.
Definition ET_DYN : Z := 3.
Definition EM_386 : Z := 3.
Definition EM_486 : Z := 6.
Definition EV_CURRENT : Z := 1.

(** The members of [estate] other than the two headers. *)
Record elf_state := {
  curaddr : Z;
  segment : Z;
  loc : Z;
  skip : Z;
  toread : Z;
  check_ip_checksum : bool;
  ip_checksum : Z;
  ip_checksum_offset : Z;
}.

(** Memory, with the two headers in it, and the rest of [estate]. *)
Definition estate_t : Type := mem * elf_state.

(** *** Notes *)

Definition bytes_eqb (a b : list Z) : bool := if list_eq_dec Z.eq_dec a b then true else false.
(** ["ELFBoot"] with its terminator. *)
Definition ELF_NOTE_BOOT : list Z := [69; 76; 70; 66; 111; 111; 116; 0].
Definition EIN_PROGRAM_CHECKSUM : Z := 3.

(** One note at [note]: [inr] when the loop breaks or is over, [inl] with the next note.  (The
    program name and version are only printed.)  Pointers are 32 bit. *)
Definition note_step (m : mem) (header end_ : Z) (st : Z * elf_state) : (Z * elf_state) + elf_state :=
  let '(note, es) := st in
  if negb (note <? end_) then inr es
  else
    let n_namesz := ld32 m note in
    let n_descsz := ld32 m (note + 4) in
    let n_type := ld32 m (note + 8) in
    let n_name := u32 (note + 12) in
    let n_desc := u32 (n_name + align_down (u32 (n_namesz + 3)) 4) in
    let next := u32 (n_desc + align_down (u32 (n_descsz + 3)) 4) in
    if next >? end_ then inr es
    else if (n_namesz =? 8) && bytes_eqb (ldn m n_name 8) ELF_NOTE_BOOT
            && (n_type =? EIN_PROGRAM_CHECKSUM)
    then inl (next, {| curaddr := curaddr es; segment := segment es; loc := loc es; skip := skip es;
                       toread := toread es; check_ip_checksum := true;
                       ip_checksum := ld16 m n_desc; ip_checksum_offset := u32 (n_desc - header) |})
    else inl (next, es).
Definition set_check (b : bool) (es : elf_state) : elf_state :=
  {| curaddr := curaddr es; segment := segment es; loc := loc es; skip := skip es;
     toread := toread es; check_ip_checksum := b;
     ip_checksum := ip_checksum es; ip_checksum_offset := ip_checksum_offset es |}.
Definition process_elf_notes (fuel : nat) (m : mem) (header offset length : Z) (es : elf_state)
    : option elf_state :=
  let note := u32 (header + offset) in
  loop fuel (note_step m header (u32 (note + length))) (note, set_check false es).

(** [elf_prep_segment]: the checksum note lies in a loaded segment. *)
Definition elf_prep_segment (istart iend : Z) (es : elf_state) : elf_state :=
  if check_ip_checksum es && (istart <=? ip_checksum_offset es) && (iend >? ip_checksum_offset es)
  then {| curaddr := curaddr es; segment := segment es; loc := loc es; skip := skip es;
          toread := toread es; check_ip_checksum := check_ip_checksum es;
          ip_checksum := 0; ip_checksum_offset := ip_checksum_offset es |}
  else es.

Section elf.
Context (k : elf_class) (ee pp : Z).
(** The machine: where Etherboot and its heap are, and the memory map. *)
Context (ly : layout) (h : heap) (mmap : list e820entry).

(** *** Probing *)

Definition elf_header_ok (m : mem) : bool :=
  (e_ident m ee 0 =? 0x7f) && (e_ident m ee 1 =? 69) && (e_ident m ee 2 =? 76)
  && (e_ident m ee 3 =? 70) && (e_ident m ee 4 =? by_class k 1 2) && (e_ident m ee 5 =? 1)
  && (e_ident m ee 6 =? EV_CURRENT)
  && ((eh_type m ee =? ET_EXEC) || (eh_type m ee =? ET_DYN))
  && (eh_version m ee =? EV_CURRENT)
  && (eh_ehsize k m ee =? sizeof_Ehdr k) && (eh_phentsize k m ee =? sizeof_Phdr k)
  && (((eh_machine m ee =? EM_386) || (eh_machine m ee =? EM_486))
      && (eh_entry k m ee <=? 0xffffffff)).

(** The extent and the alignment of a relocatable image. *)
Definition dyn_extent (ps : list phdr) : Z * Z * Z :=
  fold_left (fun '(min, max, align) p =>
    if negb (p_type p =? PT_LOAD) then (min, max, align)
    else
      let val := p_paddr p in
      let min := if val <? min then val else min in
      let val := uw k (val + p_memsz p) in
      let max := if val >? max then val else max in
      let align := if p_align p >? align then p_align p else align in
      (min, max, align)) ps (uw k (-1), 0, 1).
(** Add [delta] to the physical address of the program headers [i .. i+n). *)
Fixpoint move_phdrs (m : mem) (delta : Z) (i n : nat) : mem :=
  match n with
  | O => m
  | S n' =>
      let a := phdr_addr k pp i + by_class k 12 24 in
      move_phdrs (stw k m a (uw k (ldw k m a + delta))) delta (S i) n'
  end.
(** Place a relocatable image; [None] when there is no room for it. *)
Definition elf_place_dyn (m : mem) : option mem :=
  let '(min, max, align) := dyn_extent (phdrs k m ee pp) in
  let size := uw k (max - min) in
  if by_class k false (align >? ULONG_MAX) then None
  else if istrue (Z.land align (uw k (align - 1))) then None
  else if by_class k false (size >? ULONG_MAX) then None
  else
    let base_addr := find_segment ly h mmap size align in
    if base_addr =? ULONG_MAX then None
    else
      let delta := uw k (base_addr - min) in
      let m := move_phdrs m delta 0 (Z.to_nat (eh_phnum k m ee)) in
      Some (stw k m (ee + 24) (uw k (eh_entry k m ee + delta))).

(** The notes inside the first block. *)
Fixpoint elf_notes (fuel : nat) (m : mem) (data len : Z) (ps : list phdr) (es : elf_state)
    : option elf_state :=
  match ps with
  | [] => Some es
  | p :: ps' =>
      if negb (p_type p =? PT_NOTE) then elf_notes fuel m data len ps' es
      else if uw k (p_offset p + p_filesz p) >? len then elf_notes fuel m data len ps' es
      else
        let* es := process_elf_notes fuel m data (u32 (p_offset p)) (u32 (p_filesz p)) es in
        elf_notes fuel m data len ps' es
  end.

(** Check and clear every loadable segment; [false] when one is refused. *)
Fixpoint elf_prep_segments (m : mem) (ps : list phdr) (es : elf_state) : estate_t * bool :=
  match ps with
  | [] => ((m, es), true)
  | p :: ps' =>
      if negb (p_type p =? PT_LOAD) then elf_prep_segments m ps' es
      else if by_class k false
                ((p_paddr p >? ULONG_MAX) || (u64 (p_paddr p + p_filesz p) >? ULONG_MAX)
                 || (u64 (p_paddr p + p_memsz p) >? ULONG_MAX))
      then ((m, es), false)
      else
        let start := u32 (p_paddr p) in
        let mid := u32 (start + p_filesz p) in
        let end_ := u32 (start + p_memsz p) in
        let '(istart, iend) :=
          by_class k (p_offset p, u32 (p_offset p + p_filesz p))
            (if (p_offset p <? ULONG_MAX) && (u64 (p_offset p + p_filesz p) <? ULONG_MAX)
             then (p_offset p, u32 (p_offset p + p_filesz p)) else (ULONG_MAX, ULONG_MAX)) in
        let '(m', ok) := prep_segment ly mmap h m start mid end_ istart iend in
        if negb ok then ((m', es), false)
        else elf_prep_segments m' ps' (elf_prep_segment istart iend es)
  end.

Definition start_state (es : elf_state) : elf_state :=
  {| curaddr := curaddr es; segment := -1; loc := 0; skip := 0; toread := 0;
     check_ip_checksum := check_ip_checksum es; ip_checksum := ip_checksum es;
     ip_checksum_offset := ip_checksum_offset es |}.

(** *** Downloading *)

Definition no_phdr : phdr :=
  {| p_type := 0; p_offset := 0; p_paddr := 0; p_filesz := 0; p_memsz := 0; p_align := 0 |}.

(** The next segment in file order that starts at or after the offset [at_]; [i] counts the
    headers, [seg] is [estate.segment]. *)
Fixpoint next_segment_loop (all ps : list phdr) (at_ i seg : Z) : Z :=
  match ps with
  | [] => seg
  | p :: ps' =>
      next_segment_loop all ps' at_ (i + 1)
        (if negb (p_type p =? PT_LOAD) then seg
         else if p_filesz p =? 0 then seg
         else if p_offset p <? at_ then seg
         else if negb (seg =? -1) && (p_offset p >=? p_offset (nth (Z.to_nat seg) all no_phdr))
         then seg
         else i)
  end.
Definition next_segment (ps : list phdr) (at_ : Z) : Z := next_segment_loop ps ps at_ 0 (-1).

(** How the loop of the download function ends. *)
Inductive dl_end := EndBlock (st : estate_t) | StartKernel (st : estate_t).

(** Consume the padding before the segment: the new offset, or [None] on [break]. *)
Definition dl_skip (len offset : Z) (es : elf_state) : elf_state * option Z :=
  if istrue (skip es) then
    if skip es >=? u32 (len - offset)
    then ({| curaddr := curaddr es; segment := segment es; loc := loc es;
             skip := u64 (skip es - u32 (len - offset)); toread := toread es;
             check_ip_checksum := check_ip_checksum es; ip_checksum := ip_checksum es;
             ip_checksum_offset := ip_checksum_offset es |}, None)
    else ({| curaddr := curaddr es; segment := segment es; loc := loc es; skip := 0;
             toread := toread es; check_ip_checksum := check_ip_checksum es;
             ip_checksum := ip_checksum es; ip_checksum_offset := ip_checksum_offset es |},
          Some (u32 (offset + skip es)))
  else (es, Some offset).

(** Copy what the block holds of the segment: the new offset, or [None] on [break]. *)
Definition dl_copy (data len offset : Z) (m : mem) (es : elf_state) : estate_t * option Z :=
  if istrue (toread es) then
    let cplen := u32 (len - offset) in
    let cplen := if cplen >=? toread es then toread es else cplen in
    let m := memcpy m (phys_to_virt (virt_offset ly) (curaddr es)) (data + offset)
                    (Z.to_nat cplen) in
    let es := {| curaddr := u32 (curaddr es + cplen); segment := segment es; loc := loc es;
                 skip := skip es; toread := u32 (toread es - cplen);
                 check_ip_checksum := check_ip_checksum es; ip_checksum := ip_checksum es;
                 ip_checksum_offset := ip_checksum_offset es |} in
    ((m, es), if istrue (toread es) then None else Some (u32 (offset + cplen)))
  else ((m, es), Some offset).

(** Look for the next segment. *)
Definition dl_select (len offset : Z) (m : mem) (es : elf_state) : (Z * estate_t) + dl_end :=
  let ps := phdrs k m ee pp in
  let seg := next_segment ps (u64 (loc es + offset)) in
  let p := nth (Z.to_nat seg) ps no_phdr in
  if seg =? -1
  then inr (StartKernel (m, {| curaddr := curaddr es; segment := -1; loc := loc es; skip := skip es;
                               toread := toread es; check_ip_checksum := check_ip_checksum es;
                               ip_checksum := ip_checksum es;
                               ip_checksum_offset := ip_checksum_offset es |}))
  else
    let st := (m, {| curaddr := u32 (p_paddr p); segment := seg; loc := loc es;
                     skip := u64 (p_offset p - u64 (loc es + offset)); toread := u32 (p_filesz p);
                     check_ip_checksum := check_ip_checksum es; ip_checksum := ip_checksum es;
                     ip_checksum_offset := ip_checksum_offset es |}) in
    if offset <? len then inl (offset, st) else inr (EndBlock st).

(** One round of the [do] loop. *)
Definition dl_step (data len : Z) (s : Z * estate_t) : (Z * estate_t) + dl_end :=
  let '(offset, (m, es)) := s in
  if segment es =? -1 then dl_select len offset m es
  else
    match dl_skip len offset es with
    | (es, None) => inr (EndBlock (m, es))
    | (es, Some offset) =>
        match dl_copy data len offset m es with
        | (st, None) => inr (EndBlock st)
        | ((m, es), Some offset) => dl_select len offset m es
        end
    end.

(** The checksum of the image as loaded: headers, program headers and segments. *)
Definition elf_image_checksum (m : mem) : Z :=
  let sum := ipchksum m ee (Z.to_nat (sizeof_Ehdr k)) in
  let bytes := sizeof_Ehdr k in
  let psize := sizeof_Phdr k * eh_phnum k m ee in
  let sum := add_ipchksums bytes sum (ipchksum m pp (Z.to_nat psize)) in
  let bytes := u32 (bytes + psize) in
  fst (fold_left (fun '(sum, bytes) p =>
         if negb (p_type p =? PT_LOAD) then (sum, bytes)
         else
           let new_sum := ipchksum m (phys_to_virt (virt_offset ly) (u32 (p_paddr p)))
                                   (Z.to_nat (u32 (p_memsz p))) in
           (add_ipchksums bytes sum new_sum, u32 (bytes + p_memsz p)))
       (phdrs k m ee pp) (sum, bytes)).

(** From [elf_startkernel]: verify the checksum if there is one, and boot. *)
Definition elf_startkernel (st : estate_t) : dl_outcome * estate_t :=
  let '(m, es) := st in
  let entry := u32 (eh_entry k m ee) in
  let machine := eh_machine m ee in
  if check_ip_checksum es && negb (ip_checksum es =? elf_image_checksum m)
  then (DlLongjmp (-2), st)
  else (DlBoot machine entry, (stw k m (ee + by_class k 28 32) (u32 (pp - ee)), es)).

(** The download function.  The bound on the rounds of the loop is never reached
    ([dl_loop_total] below). *)
Definition elf_download : os_download_t estate_t := fun data len eof st =>
  match loop (Z.to_nat (2 * len) + 3) (dl_step data len) (0, st) with
  | None => (DlReturn 0, st)
  | Some (StartKernel st) => elf_startkernel st
  | Some (EndBlock (m, es)) =>
      let skip_sectors := u32 (Z.shiftr (skip es) 9) in
      let es := {| curaddr := curaddr es; segment := segment es;
                   loc := u64 (loc es + (len + align_down (skip es) 512));
                   skip := Z.land (skip es) 0x1ff; toread := toread es;
                   check_ip_checksum := check_ip_checksum es; ip_checksum := ip_checksum es;
                   ip_checksum_offset := ip_checksum_offset es |} in
      if eof then elf_startkernel (m, es) else (DlReturn skip_sectors, (m, es))
  end.

(** The probe of the class: [Some dead_download] when the image is recognised but cannot be
    loaded.  [fuel] bounds the rounds of each note section. *)
Definition elf_probe (fuel : nat) (data len : Z) (st : estate_t)
    : option (option (os_download_t estate_t) * estate_t) :=
  let '(m, es) := st in
  if len <? sizeof_Ehdr k then Some (None, st)
  else
    let m := memcpy m ee data (Z.to_nat (sizeof_Ehdr k)) in
    if negb (elf_header_ok m) then Some (None, (m, es))
    else
      let phdr_size := eh_phnum k m ee * eh_phentsize k m ee in
      if uw k (eh_phoff k m ee + phdr_size) >? len then Some (Some dead_download, (m, es))
      else if phdr_size >? 1024 then Some (Some dead_download, (m, es))
      else if by_class k false (eh_entry k m ee >? ULONG_MAX)
      then Some (Some dead_download, (m, es))
      else
        let m := memcpy m pp (data + eh_phoff k m ee) (Z.to_nat phdr_size) in
        match (if eh_type m ee =? ET_DYN then elf_place_dyn m else Some m) with
        | None => Some (Some dead_download, (m, es))
        | Some m =>
            let* es := elf_notes fuel m data len (phdrs k m ee pp) (set_check false es) in
            let '((m, es), ok) := elf_prep_segments m (phdrs k m ee pp) es in
            if negb ok then Some (Some dead_download, (m, es))
            else Some (Some elf_download, (m, start_state es))
        end.
End elf.

Definition elf32_download := elf_download ELF32.
Definition elf64_download := elf_download ELF64.
Definition elf32_probe := elf_probe ELF32.
Definition elf64_probe := elf_probe ELF64.

(** ** Lemmas *)

(** *** The headers depend on their own bytes only *)

Lemma ldw_ext k m1 m2 a :
  (forall x, a <= x < a + 8 -> ld8 m1 x = ld8 m2 x) -> ldw k m1 a = ldw k m2 a.
Proof.
  intros H. destruct k; cbn [ldw]; [apply ld32_ext; intros; apply H; lia|].
  unfold ld64. now rewrite !(ld32_ext m1 m2) by (intros; apply H; lia).
Qed.
Lemma ldw32_ext m1 m2 a :
  (forall x, a <= x < a + 4 -> ld8 m1 x = ld8 m2 x) -> ldw ELF32 m1 a = ldw ELF32 m2 a.
Proof. apply ld32_ext. Qed.

Lemma phdr_at_ext k m1 m2 pp i :
  (forall x, phdr_addr k pp i <= x < phdr_addr k pp i + sizeof_Phdr k -> ld8 m1 x = ld8 m2 x) ->
  phdr_at k m1 pp i = phdr_at k m2 pp i.
Proof.
  unfold phdr_at. set (a := phdr_addr k pp i). intros H.
  destruct k; cbn [by_class sizeof_Phdr] in *; rewrite (ld32_ext m1 m2 a) by (intros; apply H; lia);
    f_equal; first [apply ldw32_ext | apply ldw_ext]; intros; apply H; lia.
Qed.
Lemma phdrs_ext k m1 m2 ee pp :
  (forall x, ee <= x < ee + sizeof_Ehdr k -> ld8 m1 x = ld8 m2 x) ->
  (forall x, pp <= x < pp + Z.of_nat (length (phdrs k m1 ee pp)) * sizeof_Phdr k ->
     ld8 m1 x = ld8 m2 x) ->
  phdrs k m1 ee pp = phdrs k m2 ee pp.
Proof.
  intros He Hp. unfold phdrs in *. rewrite length_map, length_seq in Hp.
  assert (En : eh_phnum k m1 ee = eh_phnum k m2 ee).
  { unfold eh_phnum. apply ld16_ext. intros x Hx. apply He. destruct k; cbn in *; lia. }
  rewrite <- En. apply map_ext_in. intros i Hi. apply in_seq in Hi.
  apply phdr_at_ext. intros x Hx. apply Hp. unfold phdr_addr in Hx.
  assert (0 < sizeof_Phdr k) by (destruct k; cbn; lia). nia.
Qed.

(** *** Choosing the next segment *)

Definition loads (p : phdr) : Prop := p_type p = PT_LOAD /\ p_filesz p <> 0.
Definition candidate (at_ : Z) (p : phdr) : Prop := loads p /\ at_ <= p_offset p.

(** [seg] is the first of the minima among the candidates of a list. *)
Definition best (all seen : list phdr) (at_ seg : Z) : Prop :=
  (seg = -1 /\ forall q, In q seen -> ~ candidate at_ q) \/
  (0 <= seg /\ exists p, nth_error all (Z.to_nat seg) = Some p /\ candidate at_ p /\
     forall q, In q seen -> candidate at_ q -> p_offset p <= p_offset q).

Lemma next_segment_loop_best ps : forall all seen at_ seg,
  all = seen ++ ps -> best all seen at_ seg ->
  best all all at_ (next_segment_loop all ps at_ (Z.of_nat (length seen)) seg).
Proof.
  induction ps as [|p ps IH]; intros all seen at_ seg E B; cbn [next_segment_loop].
  { now rewrite app_nil_r in E; subst. }
  replace (Z.of_nat (length seen) + 1) with (Z.of_nat (length (seen ++ [p])))
    by (rewrite length_app; cbn; lia).
  apply IH; [now rewrite <- app_assoc|].
  assert (Hp : nth_error all (length seen) = Some p)
    by (rewrite E, nth_error_app2, Nat.sub_diag by lia; reflexivity).
  assert (In_app : forall q, In q (seen ++ [p]) -> In q seen \/ q = p)
    by (intros q Hq; apply in_app_iff in Hq; cbn in Hq; intuition).
  assert (Keep : ~ candidate at_ p -> best all (seen ++ [p]) at_ seg).
  { intros N. destruct B as [[-> B]|(H0 & q & Hq & Cq & B)]; [left; split; [reflexivity|] | right].
    - intros q Hq. destruct (In_app q Hq) as [Hq'| ->]; auto.
    - split; [exact H0|]. exists q. repeat split; try apply Cq; auto.
      intros q' Hq'. destruct (In_app q' Hq') as [| ->]; [auto | tauto]. }
  unfold candidate, loads in Keep. 
  destruct (Z.eqb_spec (p_type p) PT_LOAD) as [Ht|]; cbn [negb]; [|apply Keep; tauto].
  destruct (Z.eqb_spec (p_filesz p) 0) as [|Hf]; [apply Keep; tauto|].
  destruct (Z.ltb_spec (p_offset p) at_) as [|Ho]; [apply Keep; lia|].
  assert (Cp : candidate at_ p) by (repeat split; auto).
  destruct B as [[-> B]|(H0 & q & Hq & Cq & B)].
  - change (-1 =? -1) with true. cbn [negb andb]. right. split; [lia|]. exists p. rewrite Nat2Z.id. split; [exact Hp|].
    split; [exact Cp|]. intros q Hq. destruct (In_app q Hq) as [Hq'| ->]; [|lia].
    intros C. now apply B in C.
  - destruct (Z.eqb_spec seg (-1)); [lia|]. cbn [negb andb].
    rewrite (nth_error_nth all (Z.to_nat seg) no_phdr Hq), Z.geb_leb.
    destruct (Z.leb_spec (p_offset q) (p_offset p)).
    + right. split; [exact H0|]. exists q. split; [exact Hq|]. split; [exact Cq|].
      intros q' Hq'. destruct (In_app q' Hq') as [| ->]; [auto | lia].
    + right. split; [lia|]. exists p. rewrite Nat2Z.id. split; [exact Hp|]. split; [exact Cp|].
      intros q' Hq' C. destruct (In_app q' Hq') as [Hi| ->]; [|lia]. specialize (B q' Hi C). lia.
Qed.
Lemma next_segment_best ps at_ : best ps ps at_ (next_segment ps at_).
Proof. apply (next_segment_loop_best ps ps [] at_); [reflexivity|]. left. split; [reflexivity|]. intros q []. Qed.

(** *** The stream invariant *)

Section elf_stream.
Context (k : elf_class) (ee pp : Z) (ly : layout) (ps : list phdr).
(** The image file, as the byte at each offset. *)
Context (F : Z -> Z).

Definition vaddr (p : phdr) : Z := phys_to_virt (virt_offset ly) (p_paddr p).

(** An image the loader can stream: the contents of distinct segments do not overlap in the file
    nor in memory, and they overlap neither the copied headers nor the end of the address
    space. *)
Record image_ok : Prop := {
  ok_range : forall p, In p ps -> loads p ->
    0 <= p_offset p < 1099511627776 /\ 0 < p_filesz p /\ 0 <= p_paddr p /\
    p_paddr p + p_filesz p < 4294967296 /\ vaddr p + p_filesz p < 4294967296;
  ok_headers : forall p x, In p ps -> loads p -> vaddr p <= x < vaddr p + p_filesz p ->
    ~ (ee <= x < ee + sizeof_Ehdr k) /\
    ~ (pp <= x < pp + Z.of_nat (length ps) * sizeof_Phdr k);
  ok_disjoint : forall p q, In p ps -> In q ps -> loads p -> loads q -> p = q \/
    (p_offset p + p_filesz p <= p_offset q \/ p_offset q + p_filesz q <= p_offset p) /\
    (vaddr p + p_filesz p <= vaddr q \/ vaddr q + p_filesz q <= vaddr p);
}.

(** The first [n] bytes of the contents of [p] are in place. *)
Definition loaded (m : mem) (p : phdr) (n : Z) : Prop :=
  forall j, 0 <= j < n -> ld8 m (vaddr p + j) = F (p_offset p + j).
Definition loaded_below (m : mem) (at_ : Z) : Prop :=
  forall q, In q ps -> loads q -> p_offset q < at_ -> loaded m q (p_filesz q).
Definition all_loaded (m : mem) : Prop := forall q, In q ps -> loads q -> loaded m q (p_filesz q).

(** The current segment is [p], and [c] of its bytes are in place. *)
Definition reading (m : mem) (es : elf_state) (p : phdr) (c : Z) : Prop :=
  0 <= segment es /\ nth_error ps (Z.to_nat (segment es)) = Some p /\ loads p /\
  0 <= c < p_filesz p /\ toread es = p_filesz p - c /\ curaddr es = p_paddr p + c /\
  loaded m p c /\ loaded_below m (p_offset p).

(** The state when the next byte of the stream is at offset [at_] of the file. *)
Definition elf_inv (st : estate_t) (at_ : Z) : Prop :=
  let '(m, es) := st in
  phdrs k m ee pp = ps /\ 0 <= at_ < 4398046511104 /\
  ((segment es = -1 /\ skip es = 0 /\ loaded_below m at_) \/
   (0 <= skip es /\ exists p c, reading m es p c /\ at_ + skip es = p_offset p + c)).

(** The block: [len] bytes at [data], which are the file from offset [l] on, clear of every
    segment. *)
Definition block_ok (m : mem) (data len l : Z) : Prop :=
  (forall j, 0 <= j < len -> ld8 m (data + j) = F (l + j)) /\
  (forall p, In p ps -> loads p ->
     data + len <= vaddr p \/ vaddr p + p_filesz p <= data).

(** The copied ELF header is left alone. *)
Definition header_kept (m m' : mem) : Prop := forall x, ee <= x < ee + sizeof_Ehdr k -> ld8 m' x = ld8 m x.
Lemma header_kept_trans a b c : header_kept a b -> header_kept b c -> header_kept a c.
Proof. intros H1 H2 x Hx. now rewrite H2, H1. Qed.
Lemma header_kept_fields m m' : header_kept m m' -> eh_machine m' ee = eh_machine m ee /\ eh_entry k m' ee = eh_entry k m ee.
Proof.
  unfold header_kept. intros H. split; [apply ld16_ext; intros x Hx; apply H; destruct k; cbn; lia|]. unfold eh_entry.
  destruct k; [apply ldw32_ext|apply ldw_ext]; intros x Hx; apply H; cbn; lia.
Qed.

(** *** Copying into a segment *)

Context (IM : image_ok).

Lemma phys_to_virt_add p c :
  In p ps -> loads p -> 0 <= c <= p_filesz p ->
  phys_to_virt (virt_offset ly) (p_paddr p + c) = vaddr p + c.
Proof.
  intros Hp Hl Hc. destruct (ok_range IM p Hp Hl) as (_ & _ & A & B & C).
  unfold vaddr, phys_to_virt in *. zmod.
Qed.

Section copy.
Context (m : mem) (p : phdr) (src c n : Z).
Context (Hp : In p ps) (Hl : loads p) (Hc : 0 <= c) (Hn : 0 <= n) (Hcn : c + n <= p_filesz p).
Context (Hs : src + n <= vaddr p \/ vaddr p + p_filesz p <= src).
Let m' := memcpy m (vaddr p + c) src (Z.to_nat n).

Lemma copy_out x : ~ (vaddr p + c <= x < vaddr p + c + n) -> ld8 m' x = ld8 m x.
Proof. intros Hx. subst m'. rewrite ld8_memcpy by lia. case_tests; (reflexivity || lia). Qed.
Lemma copy_in j : 0 <= j < n -> ld8 m' (vaddr p + c + j) = ld8 m (src + j).
Proof.
  intros Hj. subst m'. rewrite ld8_memcpy by lia. case_tests; try lia. f_equal. lia.
Qed.
Lemma copy_header : header_kept m m'.
Proof. intros x Hx. apply copy_out. intros Hin. destruct (ok_headers IM p x Hp Hl ltac:(lia)) as [N _]. lia. Qed.
Lemma copy_phdrs : phdrs k m ee pp = ps -> phdrs k m' ee pp = ps.
Proof.
  intros E. rewrite <- E. symmetry. apply phdrs_ext; intros x Hx; symmetry; apply copy_out;
    intros Hin; destruct (ok_headers IM p x Hp Hl ltac:(lia)) as [N1 N2];
    [lia | rewrite E in Hx; lia].
Qed.
Lemma copy_loaded :
  loaded m p c -> (forall j, 0 <= j < n -> ld8 m (src + j) = F (p_offset p + c + j)) ->
  loaded m' p (c + n).
Proof.
  intros L D j Hj. destruct (Z.lt_ge_cases j c) as [|Hge].
  - rewrite copy_out by lia. apply L. lia.
  - replace (vaddr p + j) with (vaddr p + c + (j - c)) by lia.
    rewrite copy_in, D by lia. f_equal. lia.
Qed.
Lemma copy_other q : In q ps -> loads q -> p_offset q < p_offset p ->
  loaded m q (p_filesz q) -> loaded m' q (p_filesz q).
Proof.
  intros Hq Hlq Ho L j Hj. destruct (ok_disjoint IM p q Hp Hq Hl Hlq) as [->|[_ D]]; [lia|].
  rewrite copy_out by lia. apply L. exact Hj.
Qed.
Lemma copy_below : loaded_below m (p_offset p) -> loaded_below m' (p_offset p).
Proof. intros L q Hq Hlq Ho. apply copy_other; auto. Qed.
Lemma copy_block data len l :
  0 <= len -> block_ok m data len l -> block_ok m' data len l.
Proof.
  intros Hlen [B1 B2]. split; [|exact B2]. intros j Hj. rewrite <- B1 by exact Hj.
  apply copy_out. specialize (B2 p Hp Hl). lia.
Qed.
End copy.

(** Once a segment is complete, everything that starts before its end is loaded. *)
Lemma segment_complete m p :
  In p ps -> loads p -> loaded m p (p_filesz p) -> loaded_below m (p_offset p) ->
  loaded_below m (p_offset p + p_filesz p).
Proof.
  intros Hp Hl L B q Hq Hlq Ho. destruct (ok_disjoint IM p q Hp Hq Hl Hlq) as [<-|[D _]]; [exact L|].
  destruct (ok_range IM p Hp Hl) as (_ & ? & _). destruct (ok_range IM q Hq Hlq) as (_ & ? & _).
  apply B; auto. lia.
Qed.

(** *** The loop *)

(** What the loop keeps of [estate] besides the position. *)
Definition same_notes (es es' : elf_state) : Prop :=
  loc es' = loc es /\ check_ip_checksum es' = check_ip_checksum es /\
  ip_checksum es' = ip_checksum es.

Lemma same_notes_trans a b c : same_notes a b -> same_notes b c -> same_notes a c.
Proof. unfold same_notes. intuition congruence. Qed.

Lemma dl_select_spec len offset m es :
  phdrs k m ee pp = ps -> 0 <= loc es < 4398046511104 -> 0 <= offset <= len ->
  len < 4294967296 -> loaded_below m (loc es + offset) ->
  match dl_select k ee pp len offset m es with
  | inl (o, (m', es')) =>
      o = offset /\ offset < len /\ m' = m /\ same_notes es es' /\ segment es' <> -1 /\
      elf_inv (m', es') (loc es + offset)
  | inr (EndBlock (m', es')) =>
      m' = m /\ same_notes es es' /\ segment es' <> -1 /\ elf_inv (m', es') (loc es + len)
  | inr (StartKernel (m', es')) => m' = m /\ same_notes es es' /\ all_loaded m
  end.
Proof.
  intros E Hloc Ho Hlen L. unfold dl_select. rewrite E, (u64_small (loc es + offset)) by lia.
  destruct (next_segment_best ps (loc es + offset)) as [[-> B]|(H0 & p & Hp & (Hl & Hat) & B)].
  { cbn. repeat split. intros q Hq Hlq. apply L; auto.
    destruct (Z.lt_ge_cases (p_offset q) (loc es + offset)) as [|Hge]; [assumption|].
    exfalso. apply (B q Hq). split; auto. }
  destruct (Z.eqb_spec (next_segment ps (loc es + offset)) (-1)); [lia|].
  rewrite (nth_error_nth ps _ no_phdr Hp).
  assert (Hin : In p ps) by (eapply nth_error_In, Hp).
  destruct (ok_range IM p Hin Hl) as (R1 & R2 & R3 & R4 & R5).
  rewrite (u32_small (p_paddr p)), (u32_small (p_filesz p)), (u64_small (p_offset p - _)) by lia.
  set (es' := {| curaddr := p_paddr p; segment := _; loc := _; skip := _; toread := _;
                 check_ip_checksum := _; ip_checksum := _; ip_checksum_offset := _ |}).
  assert (Hinv : elf_inv (m, es') (loc es + offset)).
  { split; [exact E|]. split; [lia|]. right. cbn. split; [lia|].
    exists p, 0. split; [|lia]. unfold reading. cbn. split; [exact H0|]. split; [exact Hp|].
    split; [exact Hl|]. repeat (split; [lia|]). split; [intros j Hj; lia|]. intros q Hq Hlq Hoq.
    apply L; auto. destruct (Z.lt_ge_cases (p_offset q) (loc es + offset)) as [|Hge]; [assumption|].
    specialize (B q Hq (conj Hlq Hge)). lia. }
  destruct (Z.ltb_spec offset len).
  - split; [reflexivity|]. split; [lia|]. split; [reflexivity|]. split; [repeat split|].
    split; [cbn; lia | exact Hinv].
  - replace len with offset by lia. split; [reflexivity|]. split; [repeat split|]. split; [cbn; lia | exact Hinv].
Qed.

Definition dl_mu (len : Z) (s : Z * estate_t) : nat :=
  Z.to_nat (2 * (len - fst s)) + (if segment (snd (snd s)) =? -1 then 1 else 0).

Lemma dl_skip_spec len offset m es p c :
  reading m es p c -> 0 <= skip es -> loc es + offset + skip es = p_offset p + c ->
  0 <= loc es < 4398046511104 -> 0 <= offset <= len -> (offset < len \/ offset = 0) ->
  len < 4294967296 -> p_offset p + c < 4398046511104 ->
  match dl_skip len offset es with
  | (es1, None) =>
      same_notes es es1 /\ reading m es1 p c /\ 0 <= skip es1 /\
      loc es + len + skip es1 = p_offset p + c
  | (es1, Some o) =>
      same_notes es es1 /\ reading m es1 p c /\ skip es1 = 0 /\ offset <= o <= len /\
      (o < len \/ o = 0) /\ loc es + o = p_offset p + c
  end.
Proof.
  intros R Hs Hpos Hloc Ho Hprog Hlen Hb. unfold dl_skip, istrue. rewrite Z.geb_leb.
  destruct (Z.eqb_spec (skip es) 0) as [E|]; cbn [negb].
  { repeat (split; [auto; repeat split; lia|]). lia. }
  rewrite (u32_small (len - offset)) by lia.
  destruct (Z.leb_spec (len - offset) (skip es)).
  - split; [repeat split|]. split; [exact R|]. cbn [skip]. rewrite u64_small by lia. lia.
  - split; [repeat split|]. split; [exact R|]. cbn [skip]. rewrite u32_small by lia. lia.
Qed.

Lemma dl_copy_spec data len offset m es p c :
  phdrs k m ee pp = ps -> reading m es p c -> skip es = 0 -> loc es + offset = p_offset p + c ->
  0 <= loc es < 4398046511104 -> 0 <= offset <= len -> (offset < len \/ offset = 0) ->
  len < 4294967296 -> block_ok m data len (loc es) ->
  match dl_copy ly data len offset m es with
  | ((m', es'), None) => same_notes es es' /\ header_kept m m' /\ segment es' <> -1 /\ elf_inv (m', es') (loc es + len)
  | ((m', es'), Some o) =>
      same_notes es es' /\ header_kept m m' /\ offset < o <= len /\ phdrs k m' ee pp = ps /\
      loaded_below m' (loc es + o) /\ block_ok m' data len (loc es)
  end.
Proof.
  intros E (S0 & Hp & Hl & Hc & Hto & Hcur & L & LB) Hs Hpos Hloc Ho Hprog Hlen HB.
  assert (Hin : In p ps) by (eapply nth_error_In, Hp).
  destruct (ok_range IM p Hin Hl) as (R1 & R2 & R3 & R4 & R5).
  unfold dl_copy. rewrite Hto, Z.geb_leb, (u32_small (len - offset)) by lia. unfold istrue at 1.
  destruct (Z.eqb_spec (p_filesz p - c) 0) as [|_]; [lia|]. cbn [negb].
  set (n := if p_filesz p - c <=? len - offset then p_filesz p - c else len - offset).
  assert (Hn : 0 <= n <= len - offset /\ n <= p_filesz p - c /\ (n = p_filesz p - c \/ n = len - offset))
    by (subst n; case_tests; lia).
  clearbody n. rewrite Hcur, phys_to_virt_add by (auto; lia).
  set (m' := memcpy _ _ _ _).
  destruct HB as [B1 B2].
  assert (Hsrc : data + offset + n <= vaddr p \/ vaddr p + p_filesz p <= data + offset)
    by (specialize (B2 p Hin Hl); lia).
  assert (E' : phdrs k m' ee pp = ps) by (apply copy_phdrs; auto; lia).
  assert (K' : header_kept m m') by (apply copy_header; auto; lia).
  assert (L' : loaded m' p (c + n)).
  { apply copy_loaded; auto; try lia. intros j Hj. rewrite <- Z.add_assoc, B1 by lia. f_equal. lia. }
  assert (LB' : loaded_below m' (p_offset p)) by (apply copy_below; auto; lia).
  assert (HB' : block_ok m' data len (loc es)) by (apply copy_block; auto; try lia; split; auto).
  cbn [toread]. rewrite (u32_small (p_filesz p - c - n)) by lia. unfold istrue.
  destruct (Z.eqb_spec (p_filesz p - c - n) 0); cbn [negb].
  - split; [repeat split|]. split; [exact K'|]. rewrite u32_small by lia. split; [lia|]. split; [exact E'|].
    split; [|exact HB']. replace (loc es + (offset + n)) with (p_offset p + p_filesz p) by lia.
    apply segment_complete; auto. now replace (p_filesz p) with (c + n) by lia.
  - split; [repeat split|]. split; [exact K'|]. split; [cbn; lia|]. split; [exact E'|]. split; [lia|]. right. cbn [skip]. split; [lia|].
    exists p, (c + n). split; [|lia]. unfold reading. cbn [segment toread curaddr].
    rewrite u32_small by lia. repeat (split; [auto; lia|]). auto.
Qed.

Lemma dl_step_spec data len offset m es :
  elf_inv (m, es) (loc es + offset) -> 0 <= loc es < 4398046511104 -> 0 <= offset <= len ->
  len < 4294967296 -> (offset < len \/ offset = 0) -> block_ok m data len (loc es) ->
  match dl_step k ee pp ly data len (offset, (m, es)) with
  | inl (o, (m', es')) =>
      0 <= o < len /\ same_notes es es' /\ header_kept m m' /\ block_ok m' data len (loc es) /\
      elf_inv (m', es') (loc es + o) /\
      (dl_mu len (o, (m', es')) < dl_mu len (offset, (m, es)))%nat
  | inr (EndBlock (m', es')) => same_notes es es' /\ header_kept m m' /\ segment es' <> -1 /\ elf_inv (m', es') (loc es + len)
  | inr (StartKernel (m', es')) => same_notes es es' /\ header_kept m m' /\ phdrs k m' ee pp = ps /\ all_loaded m'
  end.
Proof.
  intros Hinv Hloc Ho Hlen Hprog HB. unfold dl_step. assert (K0 : header_kept m m) by (intros x _; reflexivity).
  destruct Hinv as (E & Hat & [(Hseg & Hskip & L)|(Hskip & p & c & R & Hpos)]).
  { rewrite Hseg, Z.eqb_refl. pose proof (dl_select_spec len offset m es E Hloc Ho Hlen L) as S.
    destruct (dl_select k ee pp len offset m es) as [[o [m' es']]|[[m' es']|[m' es']]].
    - destruct S as (-> & Hlt & -> & Hsn & Hns & Hi). split; [lia|]. split; [exact Hsn|]. split; [exact K0|].
      split; [exact HB|]. split; [exact Hi|].
      unfold dl_mu. cbn [fst snd]. rewrite Hseg, Z.eqb_refl.
      destruct (Z.eqb_spec (segment es') (-1)); [congruence | lia].
    - destruct S as (-> & Hsn & Hns & Hi). auto.
    - destruct S as (-> & Hsn & Hi). auto. }
  pose proof R as (S0 & Hp & Hl & Hc & _). destruct (Z.eqb_spec (segment es) (-1)); [lia|].
  assert (Hin : In p ps) by (eapply nth_error_In, Hp).
  destruct (ok_range IM p Hin Hl) as (R1 & _ & R3 & R4 & _).
  pose proof (dl_skip_spec len offset m es p c R Hskip Hpos Hloc Ho Hprog Hlen ltac:(lia)) as S.
  destruct (dl_skip len offset es) as [es1 [o1|]].
  2:{ destruct S as (Hsn & R' & Hs' & Hpos'). split; [exact Hsn|]. split; [exact K0|].
      split; [destruct R' as (? & _); lia|]. split; [exact E|]. split; [lia|]. right. eauto. }
  destruct S as (Hsn1 & R' & Hs' & Ho1 & Hpr1 & Hpos').
  pose proof Hsn1 as (El & _). rewrite <- El in *.
  pose proof (dl_copy_spec data len o1 m es1 p c E R' Hs' Hpos' Hloc ltac:(lia) Hpr1 Hlen HB) as S.
  destruct (dl_copy ly data len o1 m es1) as [[m2 es2] [o2|]].
  2:{ destruct S as (Hsn2 & Hi). split; [eapply same_notes_trans; eauto | exact Hi]. }
  destruct S as (Hsn2 & K2 & Ho2 & E2 & L2 & HB2).
  pose proof Hsn2 as (El2 & _). rewrite <- El2 in *.
  pose proof (dl_select_spec len o2 m2 es2 E2 Hloc ltac:(lia) Hlen L2) as S.
  assert (Hsn : same_notes es es2) by (eapply same_notes_trans; eauto).
  destruct (dl_select k ee pp len o2 m2 es2) as [[o [m' es']]|[[m' es']|[m' es']]].
  - destruct S as (-> & Hlt & -> & Hsn3 & Hns & Hi). split; [lia|].
    split; [eapply same_notes_trans; eauto|]. split; [exact K2|]. split; [exact HB2|]. split; [exact Hi|].
    unfold dl_mu. cbn [fst snd]. destruct (Z.eqb_spec (segment es') (-1)); [congruence|].
    destruct (Z.eqb_spec (segment es) (-1)); lia.
  - destruct S as (-> & Hsn3 & Hi). split; [eapply same_notes_trans; eauto | auto].
  - destruct S as (-> & Hsn3 & Hi). split; [eapply same_notes_trans; eauto | auto].
Qed.

(** The bound on the rounds of the loop is enough, and the loop keeps the invariant. *)
Lemma dl_loop_total data len m es fuel :
  elf_inv (m, es) (loc es) -> 0 <= loc es < 4398046511104 -> 0 <= len < 4294967296 ->
  block_ok m data len (loc es) -> (Z.to_nat (2 * len) + 1 < fuel)%nat ->
  exists r, loop fuel (dl_step k ee pp ly data len) (0, (m, es)) = Some r /\
    match r with
    | EndBlock (m', es') => same_notes es es' /\ header_kept m m' /\ segment es' <> -1 /\ elf_inv (m', es') (loc es + len)
    | StartKernel (m', es') => same_notes es es' /\ header_kept m m' /\ phdrs k m' ee pp = ps /\ all_loaded m'
    end.
Proof.
  intros Hi Hloc Hlen HB Hf.
  apply (loop_total _ (fun '(o, (m1, es1)) =>
            0 <= o <= len /\ (o < len \/ o = 0) /\ same_notes es es1 /\ header_kept m m1 /\
            elf_inv (m1, es1) (loc es + o) /\ block_ok m1 data len (loc es)) _ (dl_mu len)).
  - intros [o [m1 es1]] (Ho & Hp & Hsn & K1 & Hi1 & HB1). pose proof Hsn as (El & _).
    rewrite <- El in *.
    pose proof (dl_step_spec data len o m1 es1 Hi1 Hloc Ho ltac:(lia) Hp HB1) as S.
    destruct (dl_step k ee pp ly data len (o, (m1, es1))) as [[o' [m' es']]|[[m' es']|[m' es']]];
      destruct S as (S1 & S2 & S3).
    + destruct S1, S3 as (S3 & S4 & S6 & S5). split; [|exact S5]. split; [lia|]. split; [lia|].
      split; [eapply same_notes_trans; eauto|]. split; [eapply header_kept_trans; eauto | auto].
    + split; [eapply same_notes_trans; eauto|]. split; [eapply header_kept_trans; eauto | auto].
    + split; [eapply same_notes_trans; eauto|]. split; [eapply header_kept_trans; eauto | auto].
  - split; [lia|]. split; [lia|]. split; [repeat split|]. split; [intros x _; reflexivity|]. rewrite Z.add_0_r. auto.
  - unfold dl_mu. cbn [fst snd]. rewrite Z.sub_0_r. destruct (segment es =? -1); lia.
Qed.

(** A store into the copied ELF header leaves the segments alone. *)
Lemma all_loaded_header m a v :
  ee <= a -> a + by_class k 4 8 <= ee + sizeof_Ehdr k -> all_loaded m -> all_loaded (stw k m a v).
Proof.
  intros H1 H2 L q Hq Hl j Hj. rewrite <- (L q Hq Hl j Hj).
  destruct (ok_headers IM q (vaddr q + j) Hq Hl ltac:(lia)) as [N _].
  destruct k; cbn [stw by_class] in *; [apply ld8_st32_ne; lia|].
  unfold st64. rewrite !ld8_st32_ne by lia. reflexivity.
Qed.
End elf_stream.

(** ** Properties *)


(** An image of 16 bytes with one segment of 4 bytes at offset 8, to be loaded at 1 MB. *)
Definition demo_mem : mem :=
  mem_with [(0x1000, [0x7f; 69; 76; 70; 1; 1; 1; 0; 0; 0; 0; 0; 0; 0; 0; 0; 2; 0; 3; 0; 1; 0; 0; 0;
                      0; 0; 16; 0; 52; 0; 0; 0; 0; 0; 0; 0; 0; 0; 0; 0; 52; 0; 32; 0; 1; 0; 0; 0]);
            (0x1040, [1; 0; 0; 0; 8; 0; 0; 0; 0; 0; 0; 0; 0; 0; 16; 0; 4; 0; 0; 0; 4; 0; 0; 0]);
            (0x2000, [1; 2; 3; 4; 5; 6; 7; 8; 9; 10; 11; 12; 13; 14; 15; 16])].
Definition demo_phdr : phdr :=
  {| p_type := 1; p_offset := 8; p_paddr := 0x100000; p_filesz := 4; p_memsz := 4; p_align := 0 |}.
Definition demo_state : elf_state :=
  {| curaddr := 0; segment := -1; loc := 0; skip := 0; toread := 0; check_ip_checksum := false;
     ip_checksum := 0; ip_checksum_offset := 0 |}.


(** The checksum the loader compares is the Internet checksum of the image as it lies in
    memory: the ELF header, the program headers and then the whole memory of each loadable
    segment, in header order, as one string of bytes, whatever the parity of the pieces. *)
Theorem elf_image_checksum_spec k ee pp ly m :
  elf_image_checksum k ee pp ly m
  = cksum (ldn m ee (Z.to_nat (sizeof_Ehdr k)) ++
           ldn m pp (Z.to_nat (sizeof_Phdr k * eh_phnum k m ee)) ++
           flat_map (fun p => ldn m (phys_to_virt (virt_offset ly) (u32 (p_paddr p)))
                                  (Z.to_nat (u32 (p_memsz p))))
                    (filter (fun p => p_type p =? PT_LOAD) (phdrs k m ee pp))).
Proof.
  unfold elf_image_checksum. set (psize := sizeof_Phdr k * eh_phnum k m ee).
  assert (Hps : 0 <= psize).
  { subst psize. unfold eh_phnum. pose proof (ld16_range m (ee + by_class k 44 56)).
    destruct k; unfold sizeof_Phdr, by_class in *; lia. }
  assert (G : forall ps acc bytes, Forall (fun b => 0 <= b < 256) acc ->
    Z.odd bytes = Nat.odd (length acc) ->
    fst (fold_left (fun '(sum, bytes) p =>
           if negb (p_type p =? PT_LOAD) then (sum, bytes)
           else (add_ipchksums bytes sum (ipchksum m (phys_to_virt (virt_offset ly) (u32 (p_paddr p)))
                                            (Z.to_nat (u32 (p_memsz p)))), u32 (bytes + p_memsz p)))
         ps (cksum acc, bytes))
    = cksum (acc ++ flat_map (fun p => ldn m (phys_to_virt (virt_offset ly) (u32 (p_paddr p)))
                                           (Z.to_nat (u32 (p_memsz p))))
                             (filter (fun p => p_type p =? PT_LOAD) ps))).
  { intros ps. induction ps as [|p ps IH]; intros acc bytes Fa Hodd; cbn [fold_left filter flat_map].
    - now rewrite app_nil_r.
    - destruct (p_type p =? PT_LOAD); cbn [negb flat_map]; [|apply IH; auto].
      rewrite ipchksum_cksum, add_ipchksums_app by (auto; apply Forall_ldn).
      rewrite IH, app_assoc; [reflexivity | apply Forall_app; split; [exact Fa | apply Forall_ldn] |].
      rewrite length_app, length_ldn, Nat.odd_add, <- Hodd, u32_odd, Z.odd_add.
      rewrite <- Z_odd_of_nat, Z2Nat.id, u32_odd by apply u32_range. reflexivity. }
  rewrite !ipchksum_cksum, add_ipchksums_app by (try apply Forall_ldn; destruct k; reflexivity).
  rewrite G, app_assoc; [reflexivity | apply Forall_app; split; apply Forall_ldn |].
  rewrite u32_odd, Z.odd_add, length_app, !length_ldn, Nat.odd_add, <- !Z_odd_of_nat.
  rewrite !Z2Nat.id; [reflexivity | exact Hps | destruct k; cbn; lia].
Qed.

(** A note whose descriptor size is [-12]: the next note is the note itself. *)
Lemma note_step_stuck m header end_ note es :
  0 <= note < end_ -> end_ < 4294967296 - 12 -> ld32 m note = 0 -> ld32 m (note + 4) = 4294967284 ->
  note_step m header end_ (note, es) = inl (note, es).
Proof.
  intros Hn He Hns Hds. unfold note_step. rewrite Hns, Hds.
  destruct (Z.ltb_spec note end_); [|lia]. cbn [negb].
  change (align_down (u32 (0 + 3)) 4) with 0.
  change (align_down (u32 (4294967284 + 3)) 4) with 4294967284.
  replace (u32 (u32 (u32 (note + 12) + 0) + 4294967284)) with note by zmod.
  rewrite Z.gtb_ltb. destruct (Z.ltb_spec end_ note); [lia | reflexivity].
Qed.

(** The pointer arithmetic on notes wraps, and nothing requires a note to be followed by a
    later one: an image with a note of descriptor size 0xfffffff4 makes [process_elf_notes] loop
    for ever, however long it is left to run. *)
Theorem process_elf_notes_hangs fuel m header offset length es :
  0 <= header -> 0 <= offset -> 0 < length -> header + offset + length < 4294967296 - 12 ->
  ld32 m (header + offset) = 0 -> ld32 m (header + offset + 4) = 0xfffffff4 ->
  process_elf_notes fuel m header offset length es = None.
Proof.
  intros Hh Ho Hl Hb Hns Hds. unfold process_elf_notes.
  rewrite (u32_small (header + offset)), (u32_small (header + offset + length)) by lia.
  generalize (set_check false es) as es1. intros es1.
  induction fuel as [|fuel IH]; cbn [loop]; [reflexivity|].
  now rewrite note_step_stuck by (auto; lia).
Qed.

Lemma process_elf_notes_hangs_witness :
  process_elf_notes 50 (mem_with [(0x3000, [0; 0; 0; 0; 0xf4; 0xff; 0xff; 0xff; 3; 0; 0; 0])])
                    0x2000 0x1000 12 demo_state = None.
Proof. apply process_elf_notes_hangs; first [lia | vm_compute; reflexivity]. Defined.

(** Every segment the ELF probe accepts went through [prep_segment]: in memory it lies in a RAM
    region and clear of Etherboot and of the heap in use, its file contents are not longer than
    its memory, and the 64 bit loader accepts none beyond the 32 bit address space.  Whatever the
    outcome, memory outside the accepted segments' cleared parts is unchanged. *)
Theorem elf_prep_segments_safe k ly h mmap ps m es m' es' :
  elf_prep_segments k ly h mmap m ps es = ((m', es'), true) ->
  (forall p, In p ps -> p_type p = PT_LOAD ->
     let start := u32 (p_paddr p) in
     let mid := u32 (start + p_filesz p) in
     let end_ := u32 (start + p_memsz p) in
     mid <= end_ /\ ~ (end_ > text_phys ly /\ start < end_phys ly) /\
     ~ (end_ > heap_ptr h /\ start < heap_bot h) /\
     (exists e, In e mmap /\ e_type e = E820_RAM /\ e_addr e <= start /\
                end_ <= u64 (e_addr e + e_size e)) /\
     (k = ELF64 -> p_paddr p <= ULONG_MAX)) /\
  (forall x, (forall p, In p ps -> p_type p = PT_LOAD ->
                let mid := u32 (u32 (p_paddr p) + p_filesz p) in
                let end_ := u32 (u32 (p_paddr p) + p_memsz p) in
                let z := phys_to_virt (virt_offset ly) mid in ~ (z <= x < z + (end_ - mid))) ->
     ld8 m' x = ld8 m x).
Proof.
  revert m es. induction ps as [|p ps IH]; intros m es; cbn [elf_prep_segments].
  { intros [= <- <-]. split; [intros p [] | reflexivity]. }
  destruct (Z.eqb_spec (p_type p) PT_LOAD) as [Ht|Hn]; cbn [negb].
  2:{ intros E. destruct (IH m es E) as [A B]. split; [|intros x Hx; apply B; intros q Hq; apply Hx; cbn; auto].
      intros q [<-|Hq]; [congruence | auto]. }
  destruct (by_class k false _) eqn:R; [discriminate|].
  destruct (by_class k (p_offset p, _) _) as [istart iend].
  destruct (prep_segment _ _ _ _ _ _ _ _ _) as [m1 ok] eqn:P.
  apply prep_segment_cases in P. destruct ok; cbn [negb]; [|discriminate].
  destruct P as (P1 & P2 & P3 & P4 & P5 & P6). intros E. apply IH in E as [A B]. split.
  - intros q [<-|Hq]; [|auto]. intros _. repeat (split; [assumption|]). intros ->. cbn [by_class] in R.
    rewrite !orb_false_iff, Z.gtb_ltb, Z.ltb_ge in R. apply R.
  - intros x Hx. rewrite B by (intros q Hq; apply Hx; cbn; auto). apply P6.
    apply (Hx p); cbn; auto.
Qed.

Lemma elf_prep_segments_safe_witness :
  let r := elf_prep_segments ELF32 ly0 heap0 map0 demo_mem [demo_phdr] demo_state in
  snd r = true /\ ld8 (fst (fst r)) 0x100000 = ld8 demo_mem 0x100000.
Proof.
  intros r. assert (E : r = ((fst (fst r), snd (fst r)), true)) by (vm_compute; reflexivity).
  split; [rewrite E; reflexivity|].
  apply (elf_prep_segments_safe ELF32 ly0 heap0 map0 [demo_phdr] demo_mem demo_state
           (fst (fst r)) (snd (fst r)) E).
  intros p [<-|[]] _. cbv zeta. intros [H _]. apply H. vm_compute. reflexivity.
Defined.
