(* ===== verification/Net.v ===== *)
(** The network layer's machine: the state of [src/src/core/nic.c], the hardware it polls, and the
    monad its functions are written in.

    The network card, the clock and the keyboard are an environment, [Env]: what each successive
    poll, reading or key test gives.  Frames sent are logged, newest first.  The model is that of a
    build with DHCP, PXE export, DNS, HTTP, multicast, LACP and [CONGESTED] with
    [BACKOFF_LIMIT=7], without [PXE_DHCP_STRICT].  Console output is not modelled. *)

From S2P Require Import Prelude Memory StringLib Misc.

(** ** The environment *)

Class Env := {
  (** the clock at each reading of [currticks] *)
  clock : nat -> Z;
  (** what each [nic.poll] retrieves *)
  rx : nat -> option (list Z);
  (** the key waiting at each test of the keyboard *)
  kbd : nat -> option Z;
  (** a driver never delivers more than a maximum frame *)
  rx_len : forall n bs, rx n = Some bs -> (length bs <= 1514)%nat;
}.

(** ** The state *)

Definition ETH_ALEN : Z := 6.
Definition ETH_HLEN : Z := 14.
Definition ETH_MAX_MTU : Z := 1500.
Definition ETH_P_IP : Z := 0x0800.
Definition ETH_P_ARP : Z := 0x0806.
Definition ETH_P_SLOW : Z := 0x8809.
Definition IP_UDP : Z := 17.
Definition IP_TCP : Z := 6.
Definition IP_IGMP : Z := 2.
Definition IP_BROADCAST : Z := 0xFFFFFFFF.

Definition ARP_CLIENT : nat := 0.
Definition ARP_SERVER : nat := 1.
Definition ARP_GATEWAY : nat := 2.
Definition ARP_NAMESERVER : nat := 3.
Definition ARP_PROXYDHCP : nat := 4.
Definition MAX_ARP : nat := 5.

(** The [ipaddr] is the number the CPU loads, that is, the address in network order. *)
Record arp_entry := { ipaddr : Z; node : list Z }.
Record igmp_entry := { group : Z; time : Z }.
Record frame := { f_dst : list Z; f_type : Z; f_data : list Z }.

(** Where [nic.packet] and the statically allocated buffers lie. *)
Definition nic_packet : Z := 0x20000.
Definition ip_ptr : Z := nic_packet + ETH_HLEN.

Record world := {
  mm : mem;
  arptable : list arp_entry;
  netmask : Z;
  sport : Z;
  xid : Z;
  packetlen : Z;
  igmptable : list igmp_entry;
  last_igmpv1 : Z;
  current_while_timer : Z;
  periodic_timer : Z;
  seed : Z;
  cnt_clock : nat;
  cnt_rx : nat;
  cnt_kbd : nat;
  sent : list frame;
}.

Definition set_mm (v : mem) (w : world) : world :=
  {| mm := v; arptable := arptable w; netmask := netmask w; sport := sport w;
     xid := xid w; packetlen := packetlen w; igmptable := igmptable w;
     last_igmpv1 := last_igmpv1 w; current_while_timer := current_while_timer w;
     periodic_timer := periodic_timer w; seed := seed w; cnt_clock := cnt_clock w;
     cnt_rx := cnt_rx w; cnt_kbd := cnt_kbd w; sent := sent w |}.
Definition set_arptable (v : list arp_entry) (w : world) : world :=
  {| mm := mm w; arptable := v; netmask := netmask w; sport := sport w; xid := xid w;
     packetlen := packetlen w; igmptable := igmptable w; last_igmpv1 := last_igmpv1 w;
     current_while_timer := current_while_timer w; periodic_timer := periodic_timer w;
     seed := seed w; cnt_clock := cnt_clock w; cnt_rx := cnt_rx w; cnt_kbd := cnt_kbd w;
     sent := sent w |}.
Definition set_netmask (v : Z) (w : world) : world :=
  {| mm := mm w; arptable := arptable w; netmask := v; sport := sport w; xid := xid w;
     packetlen := packetlen w; igmptable := igmptable w; last_igmpv1 := last_igmpv1 w;
     current_while_timer := current_while_timer w; periodic_timer := periodic_timer w;
     seed := seed w; cnt_clock := cnt_clock w; cnt_rx := cnt_rx w; cnt_kbd := cnt_kbd w;
     sent := sent w |}.
Definition set_sport (v : Z) (w : world) : world :=
  {| mm := mm w; arptable := arptable w; netmask := netmask w; sport := v; xid := xid w;
     packetlen := packetlen w; igmptable := igmptable w; last_igmpv1 := last_igmpv1 w;
     current_while_timer := current_while_timer w; periodic_timer := periodic_timer w;
     seed := seed w; cnt_clock := cnt_clock w; cnt_rx := cnt_rx w; cnt_kbd := cnt_kbd w;
     sent := sent w |}.
Definition set_xid (v : Z) (w : world) : world :=
  {| mm := mm w; arptable := arptable w; netmask := netmask w; sport := sport w; xid := v;
     packetlen := packetlen w; igmptable := igmptable w; last_igmpv1 := last_igmpv1 w;
     current_while_timer := current_while_timer w; periodic_timer := periodic_timer w;
     seed := seed w; cnt_clock := cnt_clock w; cnt_rx := cnt_rx w; cnt_kbd := cnt_kbd w;
     sent := sent w |}.
Definition set_packetlen (v : Z) (w : world) : world :=
  {| mm := mm w; arptable := arptable w; netmask := netmask w; sport := sport w;
     xid := xid w; packetlen := v; igmptable := igmptable w; last_igmpv1 := last_igmpv1 w;
     current_while_timer := current_while_timer w; periodic_timer := periodic_timer w;
     seed := seed w; cnt_clock := cnt_clock w; cnt_rx := cnt_rx w; cnt_kbd := cnt_kbd w;
     sent := sent w |}.
Definition set_igmptable (v : list igmp_entry) (w : world) : world :=
  {| mm := mm w; arptable := arptable w; netmask := netmask w; sport := sport w;
     xid := xid w; packetlen := packetlen w; igmptable := v; last_igmpv1 := last_igmpv1 w;
     current_while_timer := current_while_timer w; periodic_timer := periodic_timer w;
     seed := seed w; cnt_clock := cnt_clock w; cnt_rx := cnt_rx w; cnt_kbd := cnt_kbd w;
     sent := sent w |}.
Definition set_last_igmpv1 (v : Z) (w : world) : world :=
  {| mm := mm w; arptable := arptable w; netmask := netmask w; sport := sport w;
     xid := xid w; packetlen := packetlen w; igmptable := igmptable w; last_igmpv1 := v;
     current_while_timer := current_while_timer w; periodic_timer := periodic_timer w;
     seed := seed w; cnt_clock := cnt_clock w; cnt_rx := cnt_rx w; cnt_kbd := cnt_kbd w;
     sent := sent w |}.
Definition set_current_while_timer (v : Z) (w : world) : world :=
  {| mm := mm w; arptable := arptable w; netmask := netmask w; sport := sport w;
     xid := xid w; packetlen := packetlen w; igmptable := igmptable w;
     last_igmpv1 := last_igmpv1 w; current_while_timer := v;
     periodic_timer := periodic_timer w; seed := seed w; cnt_clock := cnt_clock w;
     cnt_rx := cnt_rx w; cnt_kbd := cnt_kbd w; sent := sent w |}.
Definition set_periodic_timer (v : Z) (w : world) : world :=
  {| mm := mm w; arptable := arptable w; netmask := netmask w; sport := sport w;
     xid := xid w; packetlen := packetlen w; igmptable := igmptable w;
     last_igmpv1 := last_igmpv1 w; current_while_timer := current_while_timer w;
     periodic_timer := v; seed := seed w; cnt_clock := cnt_clock w; cnt_rx := cnt_rx w;
     cnt_kbd := cnt_kbd w; sent := sent w |}.
Definition set_seed (v : Z) (w : world) : world :=
  {| mm := mm w; arptable := arptable w; netmask := netmask w; sport := sport w;
     xid := xid w; packetlen := packetlen w; igmptable := igmptable w;
     last_igmpv1 := last_igmpv1 w; current_while_timer := current_while_timer w;
     periodic_timer := periodic_timer w; seed := v; cnt_clock := cnt_clock w;
     cnt_rx := cnt_rx w; cnt_kbd := cnt_kbd w; sent := sent w |}.
Definition set_cnt_clock (v : nat) (w : world) : world :=
  {| mm := mm w; arptable := arptable w; netmask := netmask w; sport := sport w;
     xid := xid w; packetlen := packetlen w; igmptable := igmptable w;
     last_igmpv1 := last_igmpv1 w; current_while_timer := current_while_timer w;
     periodic_timer := periodic_timer w; seed := seed w; cnt_clock := v;
     cnt_rx := cnt_rx w; cnt_kbd := cnt_kbd w; sent := sent w |}.
Definition set_cnt_rx (v : nat) (w : world) : world :=
  {| mm := mm w; arptable := arptable w; netmask := netmask w; sport := sport w;
     xid := xid w; packetlen := packetlen w; igmptable := igmptable w;
     last_igmpv1 := last_igmpv1 w; current_while_timer := current_while_timer w;
     periodic_timer := periodic_timer w; seed := seed w; cnt_clock := cnt_clock w;
     cnt_rx := v; cnt_kbd := cnt_kbd w; sent := sent w |}.
Definition set_cnt_kbd (v : nat) (w : world) : world :=
  {| mm := mm w; arptable := arptable w; netmask := netmask w; sport := sport w;
     xid := xid w; packetlen := packetlen w; igmptable := igmptable w;
     last_igmpv1 := last_igmpv1 w; current_while_timer := current_while_timer w;
     periodic_timer := periodic_timer w; seed := seed w; cnt_clock := cnt_clock w;
     cnt_rx := cnt_rx w; cnt_kbd := v; sent := sent w |}.
Definition set_sent (v : list frame) (w : world) : world :=
  {| mm := mm w; arptable := arptable w; netmask := netmask w; sport := sport w;
     xid := xid w; packetlen := packetlen w; igmptable := igmptable w;
     last_igmpv1 := last_igmpv1 w; current_while_timer := current_while_timer w;
     periodic_timer := periodic_timer w; seed := seed w; cnt_clock := cnt_clock w;
     cnt_rx := cnt_rx w; cnt_kbd := cnt_kbd w; sent := v |}.

(** ** The monad *)

Inductive res (A : Type) :=
| Ret (a : A)
| Jmp (state : Z).
Arguments Ret {A} a.
Arguments Jmp {A} state.

(** [None] when a bound on the number of rounds of a loop was reached. *)
Definition M (A : Type) : Type := world -> option (res A * world).
Definition ret {A} (a : A) : M A := fun w => Some (Ret a, w).
Definition longjmp {A} (state : Z) : M A := fun w => Some (Jmp state, w).
Definition bind {A B} (c : M A) (k : A -> M B) : M B := fun w =>
  match c w with
  | None => None
  | Some (Ret a, w') => k a w'
  | Some (Jmp s, w') => Some (Jmp s, w')
  end.
Definition oof {A} : M A := fun _ => None.
Definition get : M world := fun w => Some (Ret w, w).
Definition gets {A} (f : world -> A) : M A := fun w => Some (Ret (f w), w).
Definition modify (f : world -> world) : M unit := fun w => Some (Ret tt, f w).
Notation "x <- c ;; k" := (bind c (fun x => k)) (at level 61, c at next level, right associativity)
  : etherboot_scope.
Notation "c ;;; k" := (bind c (fun _ => k)) (at level 61, right associativity) : etherboot_scope.
Open Scope etherboot_scope.

Definition set_mem (f : mem -> mem) : M unit := modify (fun w => set_mm (f (mm w)) w).
Definition store8 (a v : Z) : M unit := set_mem (fun m => st8 m a v).
Definition store16 (a v : Z) : M unit := set_mem (fun m => st16 m a v).
(** A loop that ran out of its bound. *)
Definition of_fuel {A} (c : option A) : M A := match c with Some a => ret a | None => oof end.
Definition store32 (a v : Z) : M unit := set_mem (fun m => st32 m a v).
Definition load8 (a : Z) : M Z := gets (fun w => ld8 (mm w) a).
Definition load16 (a : Z) : M Z := gets (fun w => ld16 (mm w) a).
Definition load32 (a : Z) : M Z := gets (fun w => ld32 (mm w) a).

(** The state at start, for examples: client 10.0.0.1, server 10.0.0.2. *)
Definition world0 : world :=
  {| mm := fun _ => 0;
     arptable := [{| ipaddr := 0x0100000a; node := [2; 0; 0; 0; 0; 1] |};
                  {| ipaddr := 0x0200000a; node := [0; 0; 0; 0; 0; 0] |};
                  {| ipaddr := 0; node := [0; 0; 0; 0; 0; 0] |};
                  {| ipaddr := 0; node := [0; 0; 0; 0; 0; 0] |};
                  {| ipaddr := 0; node := [0; 0; 0; 0; 0; 0] |}];
     netmask := 0x00ffffff; sport := 0; xid := 0; packetlen := 0;
     igmptable := [{| group := 0; time := 0 |}]; last_igmpv1 := 0;
     current_while_timer := 0; periodic_timer := 0; seed := 1;
     cnt_clock := 0; cnt_rx := 0; cnt_kbd := 0; sent := [] |}.

(** ** Hardware *)

Definition currticks `{Env} : M Z := fun w =>
  Some (Ret (u32 (clock (cnt_clock w))), set_cnt_clock (S (cnt_clock w)) w).
(** [iskey] and [getchar] of the interruption test. *)
Definition net_poll_interruptions `{Env} : M unit := fun w =>
  let w' := set_cnt_kbd (S (cnt_kbd w)) w in
  match poll_interruptions true (kbd (cnt_kbd w)) with
  | Some state => Some (Jmp state, w')
  | None => Some (Ret tt, w')
  end.
(** [eth_poll(1)]: the driver copies a frame to [nic.packet]. *)
Definition eth_poll `{Env} : M Z := fun w =>
  let w' := set_cnt_rx (S (cnt_rx w)) w in
  match rx (cnt_rx w) with
  | None => Some (Ret 0, w')
  | Some bs => Some (Ret 1, set_packetlen (Z.of_nat (length bs))
                              (set_mm (stn (mm w') nic_packet bs) w'))
  end.
(** [eth_transmit]: a frame of [s] bytes at [p]. *)
Definition eth_transmit (d : list Z) (t s p : Z) : M unit :=
  modify (fun w => set_sent ({| f_dst := d; f_type := t; f_data := ldn (mm w) p (Z.to_nat s) |}
                             :: sent w) w).

(** ** The ARP table *)

Definition no_node : list Z := [0; 0; 0; 0; 0; 0].
Definition arp (w : world) (i : nat) : arp_entry := nth i (arptable w) {| ipaddr := 0; node := no_node |}.
Fixpoint list_set {A} (l : list A) (i : nat) (v : A) : list A :=
  match l, i with
  | [], _ => []
  | _ :: l', O => v :: l'
  | x :: l', S i' => x :: list_set l' i' v
  end.
Definition set_arp (i : nat) (e : arp_entry) : M unit :=
  modify (fun w => set_arptable (list_set (arptable w) i e) w).
Definition client_ip (w : world) : Z := ipaddr (arp w ARP_CLIENT).

Lemma bind_step {A B} (c : M A) (k : A -> M B) w a w' : c w = Some (Ret a, w') -> bind c k w = k a w'.
Proof. intros Hc. unfold bind. now rewrite Hc. Qed.

(** ** Random intervals *)

Definition net_random `{Env} : M Z :=
  w <- get ;;
  init <- (if seed w =? 0
           then t <- currticks ;; ret (random_seed t (stn (fun _ => 0) 0 (node (arp w ARP_CLIENT))) 0)
           else ret 0) ;;
  let r := random init (seed w) in
  modify (set_seed r) ;;;
  ret r.

Definition RAND_MAX : Z := 2147483647.
Definition TIMEOUT : Z := 10 * TICKS_PER_SEC.
Definition BOOTP_TIMEOUT : Z := 2 * TICKS_PER_SEC.
Definition TFTP_REXMT : Z := 3 * TICKS_PER_SEC.
Definition BACKOFF_LIMIT : Z := 7.
Definition TWO_SECOND_DIVISOR : Z := RAND_MAX / TICKS_PER_SEC.

Definition rfc2131_sleep_interval `{Env} (base exp : Z) : M Z :=
  let exp := if exp >? BACKOFF_LIMIT then BACKOFF_LIMIT else exp in
  r <- net_random ;;
  ret (s32 (u32 (Z.shiftl base exp + (TICKS_PER_SEC - Z.quot r TWO_SECOND_DIVISOR)))).
Definition rfc1112_sleep_interval `{Env} (base exp : Z) : M Z :=
  let exp := if exp >? BACKOFF_LIMIT then BACKOFF_LIMIT else exp in
  let divisor := Z.quot RAND_MAX (Z.shiftl base exp) in
  r <- net_random ;;
  ret (s32 (Z.quot r divisor)).

Definition default_netmask (client : Z) : Z :=
  let net := Z.shiftr (ntohl client) 24 in
  if net <=? 127 then htonl 0xff000000
  else if net <? 192 then htonl 0xffff0000
  else htonl 0xffffff00.

(** ** Headers *)

(** [build_ip_hdr] on the buffer at [buf]; [client] is our address. *)
Definition build_ip_hdr (client destip ttl protocol option_len len buf : Z) (m : mem) : mem :=
  let m := st8 m buf 0x45 in
  let m := st8 m buf (ld8 m buf + Z.quot option_len 4) in
  let m := st8 m (buf + 1) 0 in
  let m := st16 m (buf + 2) (htons len) in
  let m := st16 m (buf + 4) 0 in
  let m := st16 m (buf + 6) 0 in
  let m := st8 m (buf + 8) ttl in
  let m := st8 m (buf + 9) protocol in
  let m := st16 m (buf + 10) 0 in
  let m := st32 m (buf + 12) client in
  let m := st32 m (buf + 16) destip in
  st16 m (buf + 10) (ipchksum m buf (Z.to_nat (20 + option_len))).

(** [tcpudpchksum]: the checksum of the pseudo header (a local object) and of what follows the IP
    header at [ip]. *)
Definition pseudo_hdr (m : mem) (ip : Z) : mem :=
  let p := st32 (fun _ => 0) 0 (ld32 m (ip + 12)) in
  let p := st32 p 4 (ld32 m (ip + 16)) in
  let p := st8 p 8 0 in
  let p := st8 p 9 (ld8 m (ip + 9)) in
  st16 p 10 (htons (ntohs (ld16 m (ip + 2)) - 20)).
Definition tcpudpchksum (m : mem) (ip : Z) : Z :=
  let checksum := ipchksum (pseudo_hdr m ip) 0 12 in
  add_ipchksums 12 checksum (ipchksum m (ip + 20) (Z.to_nat (u32 (ntohs (ld16 m (ip + 2)) - 20)))).

Definition build_udp_hdr (client destip srcsock destsock ttl len buf : Z) (m : mem) : mem :=
  let m := build_ip_hdr client destip ttl IP_UDP 0 len buf m in
  let udp := buf + 20 in
  let m := st16 m udp (htons srcsock) in
  let m := st16 m (udp + 2) (htons destsock) in
  let m := st16 m (udp + 4) (htons (len - 20)) in
  let m := st16 m (udp + 6) 0 in
  let c := tcpudpchksum m buf in
  st16 m (udp + 6) (if c =? 0 then 0xffff else c).

Definition build_tcp_hdr (client destip srcsock destsock send_seq recv_seq window flags ttl len buf : Z)
    (m : mem) : mem :=
  let m := build_ip_hdr client destip ttl IP_TCP 0 len buf m in
  let tcp := buf + 20 in
  let m := st16 m tcp (htons srcsock) in
  let m := st16 m (tcp + 2) (htons destsock) in
  let m := st32 m (tcp + 4) (htonl send_seq) in
  let m := st32 m (tcp + 8) (htonl recv_seq) in
  let m := st16 m (tcp + 12) (htons (flags + Z.shiftl 5 12)) in
  let m := st16 m (tcp + 14) (htons window) in
  let m := st16 m (tcp + 16) 0 in
  let c := tcpudpchksum m buf in
  st16 m (tcp + 16) (if c =? 0 then 0xffff else c).

(** ** The packet filter of [await_reply]: the checks a received frame passes before the reply
    function sees it *)

Definition frame_type (m : mem) : Z :=
  Z.lor (Z.shiftl (ld8 m (nic_packet + 12)) 8) (ld8 m (nic_packet + 13)).
(** The IP header: the memory with the options removed, the new [packetlen], and [iplen]. *)
Definition ip_filter (m : mem) (plen : Z) : option (mem * Z * Z) :=
  let ip := ip_ptr in
  let verhdrlen := ld8 m ip in
  if (verhdrlen <? 0x45) || (verhdrlen >? 0x4F) then None
  else
    let iplen := Z.land verhdrlen 0xf * 4 in
    if negb (ipchksum m ip (Z.to_nat iplen) =? 0) then None
    else if istrue (Z.land (ld16 m (ip + 6)) (htons 0x3FFF)) then None
    else if ntohs (ld16 m (ip + 2)) >? ETH_MAX_MTU then None
    else
      let ipoptlen := iplen - 20 in
      if istrue ipoptlen
      then Some (memmove m (nic_packet + ETH_HLEN + 20) (nic_packet + ETH_HLEN + iplen)
                         (Z.to_nat (u32 (plen - ipoptlen))),
                 u32 (plen - ipoptlen), iplen)
      else Some (m, plen, iplen).
(** UDP: [None] drops the frame, otherwise whether [udp] is set. *)
Definition udp_filter (m : mem) (plen : Z) (ip : bool) (iplen : Z) : option bool :=
  if ip && (ld8 m (ip_ptr + 9) =? IP_UDP) && (plen >=? ETH_HLEN + 20 + 8)
  then
    if ntohs (ld16 m (ip_ptr + 24)) >? u32 (ntohs (ld16 m (ip_ptr + 2)) - iplen) then None
    else if istrue (ld16 m (ip_ptr + 26)) && istrue (tcpudpchksum m ip_ptr) then None
    else Some true
  else Some false.
Definition tcp_filter (m : mem) (plen : Z) (ip : bool) (iplen : Z) : option bool :=
  if ip && (ld8 m (ip_ptr + 9) =? IP_TCP) && (plen >=? ETH_HLEN + 20 + 20)
  then
    if Z.land (Z.shiftr (ntohs (ld16 m (ip_ptr + 32))) 10) 0x3C
       >? ntohs (ld16 m (ip_ptr + 2)) - iplen then None
    else if istrue (tcpudpchksum m ip_ptr) then None
    else Some true
  else Some false.

(** What the reply function is told about a frame. *)
Record rx_info := { ptype : Z; has_ip : bool; has_udp : bool; has_tcp : bool }.
(** The memory and [packetlen] after the checks, and [None] on a [continue]. *)
Definition rx_filter (m : mem) (plen : Z) : mem * Z * option rx_info :=
  if plen <? ETH_HLEN then (m, plen, None)
  else
    let ptype := frame_type m in
    let is_ip := (ptype =? ETH_P_IP) && (plen >=? ETH_HLEN + 20) in
    match (if is_ip then ip_filter m plen else Some (m, plen, 0)) with
    | None => (m, plen, None)
    | Some (m, plen, iplen) =>
        (m, plen,
         let* udp := udp_filter m plen is_ip iplen in
         let* tcp := tcp_filter m plen is_ip iplen in
         Some {| ptype := ptype; has_ip := is_ip; has_udp := udp; has_tcp := tcp |})
    end.

(** ** Lemmas: headers *)

Lemma ntohs_htons_small x : 0 <= x < 65536 -> ntohs (u16 (htons x)) = x.
Proof. intros H. pose proof (htons_range x). rewrite u16_small by lia.
  rewrite ntohs_htons. now apply u16_small. Qed.

Lemma ntohs_htons_id x : 0 <= x < 65536 -> ntohs (htons x) = x.
Proof. intros H. rewrite ntohs_htons. now apply u16_small. Qed.

Lemma build_ip_hdr_out client destip ttl protocol ol len buf m x :
  x < buf \/ buf + 20 <= x ->
  ld8 (build_ip_hdr client destip ttl protocol ol len buf m) x = ld8 m x.
Proof. intros H. unfold build_ip_hdr. cbv zeta. ld_simp. reflexivity. Qed.
Lemma build_ip_hdr_fields client destip ttl protocol len buf m :
  let m' := build_ip_hdr client destip ttl protocol 0 len buf m in
  ld8 m' buf = 0x45 /\ ld16 m' (buf + 2) = htons len /\ ld16 m' (buf + 6) = 0 /\
  ld8 m' (buf + 9) = u8 protocol /\ ld32 m' (buf + 12) = u32 client /\
  ld32 m' (buf + 16) = u32 destip /\ ipchksum m' buf 20 = 0.
Proof.
  unfold build_ip_hdr. cbv zeta. change (Z.to_nat (20 + 0)) with 20%nat.
  set (m1 := st32 _ (buf + 16) destip).
  assert (E : ld8 m1 buf = 0x45 /\ ld16 m1 (buf + 2) = htons len /\ ld16 m1 (buf + 6) = 0 /\
              ld8 m1 (buf + 9) = u8 protocol /\ ld32 m1 (buf + 12) = u32 client /\
              ld32 m1 (buf + 16) = u32 destip /\ ld16 m1 (buf + 10) = 0).
  { subst m1. pose proof (htons_range len). repeat split; ld_simp; try reflexivity.
    apply u16_small. lia. }
  clearbody m1. destruct E as (E1 & E2 & E3 & E4 & E5 & E6 & E7). ld_simp.
  repeat (split; [assumption|]).
  rewrite ipchksum_cksum. unfold cksum.
  rewrite wsum_st16 by first [lia | reflexivity | assumption | apply ipchksum_range].
  rewrite (ipchksum_spec m1 buf 20), fold16_complement; [reflexivity|].
  apply wsum_nonneg, Forall_ldn.
Qed.

Lemma tcpudpchksum_cksum m ip :
  tcpudpchksum m ip
  = cksum (ldn (pseudo_hdr m ip) 0 12 ++
           ldn m (ip + 20) (Z.to_nat (u32 (ntohs (ld16 m (ip + 2)) - 20)))).
Proof.
  unfold tcpudpchksum. rewrite !ipchksum_cksum.
  apply add_ipchksums_app; [apply Forall_ldn | apply Forall_ldn | reflexivity].
Qed.
Lemma pseudo_hdr_ext m1 m2 a1 a2 :
  same_bytes m1 a1 m2 a2 20 -> pseudo_hdr m1 a1 = pseudo_hdr m2 a2.
Proof.
  intros S. unfold pseudo_hdr. now rewrite (same_ld8 _ _ _ _ _ S), (same_ld16 _ _ _ _ _ S),
    !(same_ld32 _ _ _ _ _ S) by lia.
Qed.
(** The checksum of a segment depends on the bytes of the datagram only. *)
Lemma tcpudpchksum_ext m1 m2 a1 a2 len :
  20 <= len -> ntohs (ld16 m2 (a2 + 2)) = len -> same_bytes m1 a1 m2 a2 len ->
  tcpudpchksum m1 a1 = tcpudpchksum m2 a2.
Proof.
  intros Hl E S. rewrite !tcpudpchksum_cksum.
  rewrite (pseudo_hdr_ext m1 m2 a1 a2) by (intros i Hi; apply S; lia).
  rewrite (same_ld16 _ _ _ _ _ S) by lia. rewrite E.
  assert (len < 65536) by (rewrite <- E; apply bswap_16_range, u16_range).
  rewrite u32_small by lia. f_equal. f_equal. apply (same_ldn _ _ _ _ _ S); lia.
Qed.

(** Filling in the checksum of a TCP or UDP header, zero replaced by 0xffff, makes it verify. *)
Lemma l4_checksum_verifies m buf o len :
  ntohs (ld16 m (buf + 2)) = len -> 0 <= o -> o mod 2 = 0 -> 20 + o + 2 <= len ->
  ld16 m (buf + 20 + o) = 0 ->
  let c := tcpudpchksum m buf in
  let c' := if c =? 0 then 0xffff else c in
  tcpudpchksum (st16 m (buf + 20 + o) c') buf = 0 /\ 0 < c' < 65536.
Proof.
  intros El Ho Hp Hl Hz c c'.
  assert (Hlen : len < 65536) by (rewrite <- El; apply bswap_16_range, u16_range).
  set (t := wsum false (ldn (pseudo_hdr m buf) 0 12 ++ ldn m (buf + 20) (Z.to_nat (len - 20)))).
  assert (Ht : 0 <= t) by (apply wsum_nonneg, Forall_app; split; apply Forall_ldn).
  pose proof (fold16_range t Ht) as Rt.
  assert (Ec : c = 65535 - fold16 t).
  { subst c t. now rewrite tcpudpchksum_cksum, El, u32_small by lia. }
  assert (Rc : 0 < c' < 65536) by (subst c'; case_tests; lia).
  split; [|exact Rc]. rewrite tcpudpchksum_cksum.
  rewrite (pseudo_hdr_ext _ m buf buf) by (intros i Hi; ld_simp; reflexivity).
  rewrite ld16_st16_ne, El, u32_small by lia. unfold cksum. rewrite wsum_app.
  rewrite length_ldn. cbn [Nat.odd Nat.even negb xorb].
  rewrite wsum_st16 by (auto; lia).
  assert (Et : t = wsum false (ldn (pseudo_hdr m buf) 0 12)
                   + wsum false (ldn m (buf + 20) (Z.to_nat (len - 20))))
    by (subst t; now rewrite wsum_app, length_ldn).
  rewrite Z.add_assoc, <- Et.
  assert (F : fold16 (t + c') = 65535); [|lia].
  subst c'. destruct (Z.eqb_spec c 0) as [E0|].
  - destruct (Z.eqb_spec t 0) as [->|]; [reflexivity|].
    destruct (fold16_decomp t) as (q & E & R); [lia|]. apply (fold16_unique _ _ (q + 1)); lia.
  - rewrite Ec. now apply fold16_complement.
Qed.

(** A frame that holds a datagram with a plain header passes the IP checks unchanged. *)
Lemma ip_filter_plain mr plen :
  ld8 mr ip_ptr = 0x45 -> ipchksum mr ip_ptr 20 = 0 -> ld16 mr (ip_ptr + 6) = 0 ->
  ntohs (ld16 mr (ip_ptr + 2)) <= 1500 -> ip_filter mr plen = Some (mr, plen, 20).
Proof.
  intros E1 E2 E3 E4. unfold ip_filter. rewrite E1.
  change (0x45 <? 0x45) with false. change (0x45 >? 0x4F) with false. cbn [orb].
  change (Z.land 0x45 0xf * 4) with 20. change (Z.to_nat 20) with 20%nat. rewrite E2, E3.
  unfold ETH_MAX_MTU. rewrite Z.gtb_ltb. cbn [Z.eqb negb Z.land istrue].
  destruct (Z.ltb_spec 1500 (ntohs (ld16 mr (ip_ptr + 2)))); [lia | reflexivity].
Qed.

Section udp_built.
Context (client destip srcsock destsock ttl len buf : Z) (m : mem).
Context (Hlen : 28 <= len < 65536).
Let m3 := build_udp_hdr client destip srcsock destsock ttl len buf m.

Lemma build_udp_hdr_spec :
  ld8 m3 buf = 0x45 /\ ld16 m3 (buf + 2) = htons len /\ ld16 m3 (buf + 6) = 0 /\
  ld8 m3 (buf + 9) = IP_UDP /\ ipchksum m3 buf 20 = 0 /\
  ld16 m3 (buf + 20) = htons srcsock /\ ld16 m3 (buf + 22) = htons destsock /\
  ld16 m3 (buf + 24) = htons (len - 20) /\ ld16 m3 (buf + 26) <> 0 /\
  tcpudpchksum m3 buf = 0 /\
  (forall i, 28 <= i -> ld8 m3 (buf + i) = ld8 m (buf + i)).
Proof.
  subst m3. unfold build_udp_hdr. cbv zeta.
  replace (buf + 20 + 2) with (buf + 22) by lia. replace (buf + 20 + 4) with (buf + 24) by lia.
  replace (buf + 20 + 6) with (buf + 26) by lia.
  destruct (build_ip_hdr_fields client destip ttl IP_UDP len buf m)
    as (E1 & E2 & E3 & E4 & E5 & E6 & E7).
  pose proof (build_ip_hdr_out client destip ttl IP_UDP 0 len buf m) as Out.
  set (m1 := build_ip_hdr _ _ _ _ _ _ _ _) in *.
  set (m2 := st16 (st16 (st16 (st16 m1 _ _) _ _) _ _) _ 0).
  assert (Ef : ld16 m2 (buf + 2) = htons len) by (subst m2; ld_simp; exact E2).
  destruct (l4_checksum_verifies m2 buf 6 len) as [V R];
    [ rewrite Ef; apply ntohs_htons_id; lia | lia | reflexivity | lia
    | replace (buf + 20 + 6) with (buf + 26) by lia; subst m2; ld_simp; reflexivity |].
  cbv zeta in V, R. replace (buf + 20 + 6) with (buf + 26) in * by lia.
  set (c' := if tcpudpchksum m2 buf =? 0 then _ else _) in *.
  pose proof (htons_range srcsock). pose proof (htons_range destsock).
  pose proof (htons_range (len - 20)).
  assert (Eip : ipchksum (st16 m2 (buf + 26) c') buf 20 = 0).
  { rewrite <- E7. apply ipchksum_ext. intros x Hx. subst m2. ld_simp. reflexivity. }
  split; [ld_simp; subst m2; ld_simp; exact E1|].
  split; [ld_simp; exact Ef|].
  split; [ld_simp; subst m2; ld_simp; exact E3|].
  split; [ld_simp; subst m2; ld_simp; exact E4|].
  split; [exact Eip|].
  split; [ld_simp; subst m2; ld_simp; apply u16_small; lia|].
  split; [ld_simp; subst m2; ld_simp; apply u16_small; lia|].
  split; [ld_simp; subst m2; ld_simp; apply u16_small; lia|].
  split; [ld_simp; rewrite u16_small; lia|].
  split; [exact V|]. intros i Hi. ld_simp. subst m2. ld_simp. apply Out. lia.
Qed.
End udp_built.

Lemma build_udp_hdr_dest client destip srcsock destsock ttl len buf m :
  ld32 (build_udp_hdr client destip srcsock destsock ttl len buf m) (buf + 16) = u32 destip /\
  ld32 (build_udp_hdr client destip srcsock destsock ttl len buf m) (buf + 12) = u32 client.
Proof.
  unfold build_udp_hdr. cbv zeta.
  destruct (build_ip_hdr_fields client destip ttl IP_UDP len buf m) as (_ & _ & _ & _ & E5 & E6 & _).
  split; ld_simp; assumption.
Qed.
Lemma build_udp_hdr_out client destip srcsock destsock ttl len buf m x :
  x < buf \/ buf + 28 <= x ->
  ld8 (build_udp_hdr client destip srcsock destsock ttl len buf m) x = ld8 m x.
Proof.
  intros H. unfold build_udp_hdr. cbv zeta. ld_simp. apply build_ip_hdr_out. lia.
Qed.

(** A datagram made by [build_udp_hdr] passes the checks of the receive path. *)
Lemma udp_built_accepted client destip srcsock destsock ttl len buf m mr plen :
  28 <= len <= 1500 -> 14 + len <= plen -> frame_type mr = ETH_P_IP ->
  same_bytes mr ip_ptr (build_udp_hdr client destip srcsock destsock ttl len buf m) buf len ->
  rx_filter mr plen
  = (mr, plen, Some {| ptype := ETH_P_IP; has_ip := true; has_udp := true; has_tcp := false |}) /\
  ntohs (ld16 mr (ip_ptr + 20)) = u16 srcsock /\ ntohs (ld16 mr (ip_ptr + 22)) = u16 destsock /\
  forall i, 28 <= i < len -> ld8 mr (ip_ptr + i) = ld8 m (buf + i).
Proof.
  intros Hl Hp Ht S.
  destruct (build_udp_hdr_spec client destip srcsock destsock ttl len buf m ltac:(lia))
    as (E1 & E2 & E3 & E4 & E5 & E6 & E7 & E8 & E9 & E10 & E11).
  set (m3 := build_udp_hdr _ _ _ _ _ _ _ _) in *.
  pose proof (same_ld8 _ _ _ _ _ S 0 ltac:(lia)) as S0. rewrite !Z.add_0_r, E1 in S0.
  pose proof (same_ld16 _ _ _ _ _ S 2 ltac:(lia) ltac:(lia)) as S2. rewrite E2 in S2.
  pose proof (same_ld16 _ _ _ _ _ S 6 ltac:(lia) ltac:(lia)) as S6. rewrite E3 in S6.
  pose proof (same_ld8 _ _ _ _ _ S 9 ltac:(lia)) as S9. rewrite E4 in S9.
  pose proof (same_ld16 _ _ _ _ _ S 20 ltac:(lia) ltac:(lia)) as S20. rewrite E6 in S20.
  pose proof (same_ld16 _ _ _ _ _ S 22 ltac:(lia) ltac:(lia)) as S22. rewrite E7 in S22.
  pose proof (same_ld16 _ _ _ _ _ S 24 ltac:(lia) ltac:(lia)) as S24. rewrite E8 in S24.
  assert (Sc : ipchksum mr ip_ptr 20 = 0).
  { rewrite <- E5, !ipchksum_cksum. rewrite <- (Z.add_0_r ip_ptr), <- (Z.add_0_r buf).
    now rewrite (same_ldn _ _ _ _ _ S) by lia. }
  assert (Sl : tcpudpchksum mr ip_ptr = 0).
  { rewrite <- E10. apply (tcpudpchksum_ext _ _ _ _ len); [lia | | exact S].
    rewrite E2. apply ntohs_htons_id. lia. }
  split.
  - unfold rx_filter, ETH_HLEN. destruct (Z.ltb_spec plen 14); [lia|]. rewrite Ht, Z.eqb_refl, Z.geb_leb.
    destruct (Z.leb_spec (14 + 20) plen); [|lia]. cbn [andb].
    rewrite ip_filter_plain by (auto; rewrite S2, ntohs_htons_id by lia; lia).
    unfold udp_filter. rewrite S9, S24, S2, !ntohs_htons_id, Sl, Z.eqb_refl, Z.geb_leb by lia.
    unfold ETH_HLEN. destruct (Z.leb_spec (14 + 20 + 8) plen); [|lia]. cbn [andb].
    rewrite Z.gtb_ltb, u32_small by lia. destruct (Z.ltb_spec (len - 20) (len - 20)); [lia|].
    change (istrue 0) with false. rewrite andb_false_r. cbn [obind].
    unfold tcp_filter. rewrite S9. reflexivity.
  - rewrite S20, S22, !ntohs_htons. split; [reflexivity|]. split; [reflexivity|].
    intros i Hi. rewrite (same_ld8 _ _ _ _ _ S) by lia. apply E11. lia.
Qed.

(** ** Properties *)

(** C6: what [build_udp_hdr] builds, the receive path of [await_reply] accepts.  A datagram of at
    most 1500 bytes, arriving in an IP frame, passes every check (version, header checksum,
    fragment bits, lengths, UDP checksum) and reaches the reply function as UDP, byte for byte as
    sent, with the ports and the payload of the sender. *)
Theorem udp_datagram_accepted client destip srcsock destsock ttl len buf m mr plen :
  28 <= len <= 1500 -> 14 + len <= plen -> frame_type mr = ETH_P_IP ->
  same_bytes mr ip_ptr (build_udp_hdr client destip srcsock destsock ttl len buf m) buf len ->
  rx_filter mr plen
  = (mr, plen, Some {| ptype := ETH_P_IP; has_ip := true; has_udp := true; has_tcp := false |}) /\
  ntohs (ld16 mr (ip_ptr + 20)) = u16 srcsock /\ ntohs (ld16 mr (ip_ptr + 22)) = u16 destsock /\
  forall i, 28 <= i < len -> ld8 mr (ip_ptr + i) = ld8 m (buf + i).
Proof. apply udp_built_accepted. Qed.

(** A frame made of the datagram that [build_udp_hdr] leaves in a buffer at 0x8000. *)
Definition demo_dgram : mem := build_udp_hdr 0x0100000a 0x0200000a 2000 69 60 40 0x8000 (fun x => x).
Definition demo_rx : mem :=
  stn (stn (fun _ => 0) (nic_packet + 12) [8; 0]) ip_ptr (ldn demo_dgram 0x8000 40).

Lemma udp_datagram_accepted_witness :
  rx_filter demo_rx 60
  = (demo_rx, 60, Some {| ptype := ETH_P_IP; has_ip := true; has_udp := true; has_tcp := false |}).
Proof.
  apply (udp_datagram_accepted 0x0100000a 0x0200000a 2000 69 60 40 0x8000 (fun x => x));
    [lia | lia | vm_compute; reflexivity |].
  intros i Hi. apply Z.eqb_eq.
  apply (all_below_spec 40 (fun i => ld8 demo_rx (ip_ptr + i) =? ld8 demo_dgram (0x8000 + i)));
    [vm_compute; reflexivity | lia].
Defined.

(** Removing IP options writes past the frame.  The length given to [memmove] is that of the
    whole frame less the options, not of what follows the header, so when a header with options
    is accepted the 34 - [ipoptlen] bytes after the end of the frame are overwritten too; a
    maximum frame fills the packet buffer, and then they are not part of it. *)
Theorem ip_options_overrun m plen m' plen' iplen :
  0 <= plen < 4294967296 -> ip_filter m plen = Some (m', plen', iplen) -> 20 < iplen -> iplen - 20 <= plen ->
  plen' = plen - (iplen - 20) /\
  forall x, ld8 m' x =
    if (nic_packet + 34 <=? x) && (x <? nic_packet + plen + 34 - (iplen - 20))
    then ld8 m (x + (iplen - 20)) else ld8 m x.
Proof.
  intros Hp. unfold ip_filter.
  destruct ((ld8 m ip_ptr <? 0x45) || (ld8 m ip_ptr >? 0x4F)); [discriminate|].
  destruct (negb _); [discriminate|]. destruct (istrue (Z.land _ (htons 0x3FFF))); [discriminate|].
  destruct (_ >? ETH_MAX_MTU); [discriminate|].
  set (il := Z.land (ld8 m ip_ptr) 0xf * 4). unfold istrue.
  destruct (Z.eqb_spec (il - 20) 0); cbn [negb]; intros E H1 H2;
    apply Some_triple_inj in E as (<- & <- & <-); [lia|].
  rewrite u32_small by lia. split; [reflexivity|]. intros x. unfold memmove.
  unfold ETH_HLEN. destruct (Z.leb_spec (nic_packet + 14 + 20) (nic_packet + 14 + il)); [|lia].
  rewrite ld8_memcpy by lia. rewrite Z2Nat.id by lia.
  replace (nic_packet + 14 + 20) with (nic_packet + 34) by lia.
  replace (nic_packet + 34 + (plen - (il - 20))) with (nic_packet + plen + 34 - (il - 20)) by lia.
  destruct (_ && _); [|reflexivity]. f_equal. lia.
Qed.

(** A frame of 100 bytes whose IP header carries 4 bytes of options. *)
Definition demo_opts : mem := build_ip_hdr 1 2 60 17 4 80 ip_ptr (fun x => x).

Lemma ip_options_overrun_witness :
  exists m', ip_filter demo_opts 100 = Some (m', 96, 24) /\
    ld8 m' (nic_packet + 110) = ld8 demo_opts (nic_packet + 114).
Proof.
  assert (H : option_map (fun r => (snd (fst r), snd r)) (ip_filter demo_opts 100) = Some (96, 24))
    by (vm_compute; reflexivity).
  destruct (ip_filter demo_opts 100) as [[[m' p'] i']|] eqn:E; [|discriminate].
  cbn [option_map fst snd] in H. assert (p' = 96 /\ i' = 24) as [-> ->] by (split; congruence).
  exists m'. split; [reflexivity|].
  destruct (ip_options_overrun demo_opts 100 m' 96 24) as [_ K];
    [lia | exact E | lia | lia |].
  rewrite K. reflexivity.
Defined.

(** The generator of [net_random] from any state: the value is in range, and is the new seed. *)
Lemma net_random_range `{Env} w : -2147483648 <= seed w <= 2147483647 ->
  exists r w', net_random w = Some (Ret r, w') /\ 0 <= r <= 2147483562 /\ seed w' = r.
Proof.
  intros Hs. unfold net_random, currticks, bind, get, ret, modify. destruct (Z.eqb_spec (seed w) 0) as [E|E].
  - eexists _, _. split; [reflexivity|]. split; [|reflexivity]. apply random_lcg; [|lia]. unfold random_seed. pose proof s32_range as R. match goal with |- _ <= s32 ?x <= _ => specialize (R x) end. lia.
  - eexists _, _. split; [reflexivity|]. split; [|reflexivity]. apply random_lcg; lia.
Qed.

(** The longest interval, [base << exp] with the exponent cut at its limit. *)
Definition backoff (base exp : Z) : Z := base * 2 ^ Z.min exp BACKOFF_LIMIT.
Lemma shiftl_backoff base exp : 0 <= exp ->
  Z.shiftl base (if exp >? BACKOFF_LIMIT then BACKOFF_LIMIT else exp) = backoff base exp.
Proof.
  intros H. unfold backoff. rewrite Z.gtb_ltb. unfold BACKOFF_LIMIT. destruct (Z.ltb_spec 7 exp).
  - rewrite Z.min_r, Z.shiftl_mul_pow2 by lia. reflexivity.
  - rewrite Z.min_l, Z.shiftl_mul_pow2 by lia. reflexivity.
Qed.

(** C38: the bounds of the retransmission intervals.  From any state of the generator and for every number of retries,
    the interval of [rfc2131_sleep_interval] is at least [base << exp], with the exponent cut at
    [BACKOFF_LIMIT], and at most one second longer; that of [rfc1112_sleep_interval] lies between 0 and
    [base << exp].  No step leaves the range of its type, and the generator is left in range. *)
Theorem backoff_bounds `{Env} base exp w :
  0 < base -> 0 <= exp -> backoff base exp <= 46340 -> -2147483648 <= seed w <= 2147483647 ->
  (exists t w', rfc2131_sleep_interval base exp w = Some (Ret t, w') /\
     backoff base exp <= t <= backoff base exp + TICKS_PER_SEC /\ 0 <= seed w' <= 2147483562) /\
  (exists t w', rfc1112_sleep_interval base exp w = Some (Ret t, w') /\
     0 <= t <= backoff base exp /\ 0 <= seed w' <= 2147483562).
Proof.
  intros Hb He Hm Hs. destruct (net_random_range w Hs) as (r & w' & E & Hr & Hw).
  assert (Hp : 0 < backoff base exp) by (unfold backoff; apply Z.mul_pos_pos; [lia|]; apply Z.pow_pos_nonneg; unfold BACKOFF_LIMIT; lia).
  split.
  - unfold rfc2131_sleep_interval. unfold bind at 1. rewrite E. unfold ret. eexists _, w'. split; [reflexivity|]. rewrite Hw. split; [|exact Hr].
    rewrite shiftl_backoff by exact He. change TWO_SECOND_DIVISOR with 119304647. change TICKS_PER_SEC with 18. rewrite Z.quot_div_nonneg by lia.
    assert (0 <= r / 119304647 <= 18) by (Z.div_mod_to_equations; lia).
    rewrite u32_small, s32_small by lia. lia.
  - unfold rfc1112_sleep_interval. unfold bind at 1. rewrite E. unfold ret. eexists _, w'. split; [reflexivity|]. rewrite Hw. split; [|exact Hr].
    rewrite shiftl_backoff by exact He. set (b := backoff base exp) in *. rewrite (Z.quot_div_nonneg RAND_MAX) by (unfold RAND_MAX; lia).
    assert (Hd : b <= RAND_MAX / b) by (apply Z.div_le_lower_bound; [lia|]; unfold RAND_MAX; nia).
    rewrite Z.quot_div_nonneg by lia. assert (Hq : 0 <= r / (RAND_MAX / b) < b + 1).
    { split; [apply Z.div_pos; lia|]. apply Z.div_lt_upper_bound; [lia|]. pose proof (Z.div_mod RAND_MAX b ltac:(lia)) as Ed.
      pose proof (Z.mod_pos_bound RAND_MAX b ltac:(lia)). unfold RAND_MAX in *. lia. }
    rewrite s32_small by lia. lia.
Qed.

(** No frame is received, and no key is pressed. *)
Definition still_env : Env.
Proof. refine {| clock n := Z.of_nat n; rx _ := None; kbd _ := None |}. discriminate. Defined.
(** The third retry of a TFTP request,. *)
Lemma backoff_bounds_witness :
  exists t w', @rfc2131_sleep_interval still_env TFTP_REXMT 3 world0 = Some (Ret t, w') /\ 432 <= t <= 450.
Proof.
  destruct (@backoff_bounds still_env TFTP_REXMT 3 world0) as ((t & w' & E & B & _) & _).
  - reflexivity.
  - lia.
  - vm_compute. discriminate.
  - cbn. lia.
  - exists t, w'. split; [exact E|exact B].
Defined.
