(* ===== verification/Lacp.v ===== *)
(** Ethernet slow protocols of [src/src/core/proto_eth_slow.c]: the link aggregation control
    protocol (a single port that is never really aggregated) and the marker responder.  The PDU
    [lacp.pkt] is kept in memory at [lacp_pkt], byte for byte as it is sent; the two timers are
    fields of the state. *)

From S2P Require Import Prelude Memory StringLib Misc Net.

Definition lacp_pkt : Z := 0x30000.
(** [sizeof(struct slow_lacp)] and [sizeof(struct slow_marker)]. *)
Definition SLOW_LEN : Z := 110.
(** Offsets in [struct slow_lacp]. *)
Definition ACTOR : Z := 4.
Definition PARTNER : Z := 24.
(** Offsets in [struct lacp_info]. *)
Definition SYSTEM : Z := 2.
Definition STATE : Z := 14.

Definition slow_dest : list Z := [0x01; 0x80; 0xc2; 0x00; 0x00; 0x02].
Definition FAST_PERIODIC_TIME : Z := 1 * TICKS_PER_SEC.
Definition SLOW_PERIODIC_TIME : Z := 30 * TICKS_PER_SEC.
Definition SHORT_TIMEOUT_TIME : Z := 3 * FAST_PERIODIC_TIME.
Definition LONG_TIMEOUT_TIME : Z := 3 * SLOW_PERIODIC_TIME.
Definition LACP_ACTIVITY : Z := 1.
Definition LACP_TIMEOUT : Z := 2.
Definition LACP_AGGREGATION : Z := 4.
Definition LACP_SYNCHRONIZATION : Z := 8.
Definition LACP_COLLECTING : Z := 16.
Definition LACP_DISTRIBUTING : Z := 32.
Definition LACP_DEFAULTED : Z := 64.
Definition LACP_EXPIRED : Z := 128.
Definition LACP_NTT_MASK : Z :=
  Z.lor (Z.lor (Z.lor LACP_ACTIVITY LACP_TIMEOUT) LACP_SYNCHRONIZATION) LACP_AGGREGATION.
Definition LACP_CMP_LEN : nat := 14.
Definition LACP_CP_LEN : nat := 15.

Definition actor_state (w : world) : Z := ld8 (mm w) (lacp_pkt + ACTOR + STATE).
Definition partner_state (w : world) : Z := ld8 (mm w) (lacp_pkt + PARTNER + STATE).
Definition with_mem (f : mem -> mem) (w : world) : world := set_mm (f (mm w)) w.
Definition set_actor_state (v : Z) : world -> world :=
  with_mem (fun m => st8 m (lacp_pkt + ACTOR + STATE) v).
Definition set_partner_state (v : Z) : world -> world :=
  with_mem (fun m => st8 m (lacp_pkt + PARTNER + STATE) v).

(** The [system_priority], [system], [key], [port_priority], [port] and [state] of one side. *)
Definition lacp_side (m : mem) (a : Z) (mac : option (list Z)) (state : Z) : mem :=
  let m := st16 m a (htons 1) in
  let m := match mac with Some bs => stn m (a + SYSTEM) (firstn 6 bs) | None => m end in
  let m := st16 m (a + 8) (htons 1) in
  let m := st16 m (a + 12) (htons 1) in
  let m := st16 m (a + 10) (htons 1) in
  st8 m (a + STATE) state.

Definition lacp_init_state (mac : list Z) (w : world) : world :=
  let m := memset (mm w) lacp_pkt 0 (Z.to_nat SLOW_LEN) in
  let m := st8 m lacp_pkt 1 in
  let m := st8 m (lacp_pkt + 1) 1 in
  let m := st8 m (lacp_pkt + 2) 1 in
  let m := st8 m (lacp_pkt + 3) 0x14 in
  let m := lacp_side m (lacp_pkt + ACTOR) (Some mac)
             (Z.lor (Z.lor (Z.lor LACP_SYNCHRONIZATION LACP_COLLECTING) LACP_DISTRIBUTING)
                    LACP_DEFAULTED) in
  let m := st8 m (lacp_pkt + 22) 2 in
  let m := st8 m (lacp_pkt + 23) 0x14 in
  let m := lacp_side m (lacp_pkt + PARTNER) None
             (Z.lor (Z.lor (Z.lor (Z.lor LACP_ACTIVITY LACP_SYNCHRONIZATION) LACP_COLLECTING)
                           LACP_DISTRIBUTING) LACP_DEFAULTED) in
  let m := st8 m (lacp_pkt + 42) 3 in
  let m := st8 m (lacp_pkt + 43) 0x10 in
  let m := st16 m (lacp_pkt + 44) (htons 0x8000) in
  let m := st8 m (lacp_pkt + 58) 0 in
  let m := st8 m (lacp_pkt + 59) 0 in
  set_periodic_timer 0 (set_current_while_timer 0 (set_mm m w)).

(** [lacp_update_ntt]: does the PDU at [pkt] disagree with what I am? *)
Definition lacp_update_ntt (pkt : Z) (w : world) : bool :=
  negb (memcmp (mm w) (pkt + PARTNER) (lacp_pkt + ACTOR) LACP_CMP_LEN =? 0) ||
  negb (Z.land (ld8 (mm w) (pkt + PARTNER + STATE)) LACP_NTT_MASK
        =? Z.land (actor_state w) LACP_NTT_MASK).

Definition lacp_record_pdu (pkt : Z) (w : world) : world :=
  let w := with_mem (fun m => memcpy m (lacp_pkt + PARTNER) (pkt + ACTOR) LACP_CP_LEN) w in
  let w := set_actor_state (Z.land (actor_state w) (Z.lnot LACP_DEFAULTED)) w in
  let w := set_partner_state (Z.land (partner_state w) (Z.lnot LACP_SYNCHRONIZATION)) w in
  let w := if (memcmp (mm w) (pkt + PARTNER) (lacp_pkt + ACTOR) LACP_CMP_LEN =? 0)
              && (Z.land (ld8 (mm w) (pkt + PARTNER + STATE)) LACP_AGGREGATION
                  =? Z.land (actor_state w) LACP_AGGREGATION)
           then set_partner_state (Z.lor (partner_state w) LACP_SYNCHRONIZATION) w else w in
  if negb (istrue (Z.land (ld8 (mm w) (pkt + ACTOR + STATE)) LACP_AGGREGATION))
  then set_partner_state (Z.lor (partner_state w) LACP_SYNCHRONIZATION) w else w.

Definition lacp_timer_expired (now when : Z) : bool := istrue when && (now >? when).

Definition lacp_start_periodic_timer (now : Z) (w : world) : world :=
  if istrue (Z.land (partner_state w) LACP_ACTIVITY) || istrue (Z.land (actor_state w) LACP_ACTIVITY)
  then set_periodic_timer
         (u32 (now + (if istrue (Z.land (partner_state w) LACP_TIMEOUT)
                      then FAST_PERIODIC_TIME else SLOW_PERIODIC_TIME))) w
  else w.

Definition lacp_start_current_while_timer (now : Z) (w : world) : world :=
  let w := set_current_while_timer
             (u32 (now + (if istrue (Z.land (actor_state w) LACP_TIMEOUT)
                          then SHORT_TIMEOUT_TIME else LONG_TIMEOUT_TIME))) w in
  set_actor_state (Z.land (actor_state w) (Z.lnot LACP_EXPIRED)) w.

(** [eth_transmit] of the PDU. *)
Definition send_pdu (t p n : Z) (w : world) : world :=
  set_sent ({| f_dst := slow_dest; f_type := t; f_data := ldn (mm w) p (Z.to_nat n) |} :: sent w) w.

(** [memcmp(nic.node_addr, lacp.pkt.actor.system, ETH_ALEN) != 0] *)
Definition node_changed (w : world) : bool :=
  if list_eq_dec Z.eq_dec (firstn 6 (node (arp w ARP_CLIENT)))
                          (ldn (mm w) (lacp_pkt + ACTOR + SYSTEM) 6)
  then false else true.
Definition lacp_sync_node (w : world) : world :=
  if node_changed w then lacp_init_state (node (arp w ARP_CLIENT)) w else w.

(** What [send_lacp_reports] does when the partner's information has expired. *)
Definition lacp_expire (now : Z) (ntt : bool) (w : world) : bool * world :=
  if lacp_timer_expired now (current_while_timer w) then
    if negb (istrue (Z.land (actor_state w) LACP_EXPIRED)) then
      let w := set_partner_state (Z.land (partner_state w) (Z.lnot LACP_SYNCHRONIZATION)) w in
      let w := set_partner_state (Z.lor (partner_state w) LACP_TIMEOUT) w in
      let w := set_actor_state (Z.lor (actor_state w) LACP_EXPIRED) w in
      (true, set_current_while_timer (u32 (now + SHORT_TIMEOUT_TIME)) w)
    else (ntt, lacp_init_state (node (arp w ARP_CLIENT)) w)
  else (ntt, w).
Definition send_lacp_reports (now : Z) (ntt : bool) (w : world) : world :=
  let w := lacp_sync_node w in
  let '(ntt, w) := lacp_expire now ntt w in
  let ntt := if lacp_timer_expired now (periodic_timer w) then true else ntt in
  if ntt then lacp_start_periodic_timer now (send_pdu ETH_P_SLOW lacp_pkt SLOW_LEN w) else w.

Definition send_eth_slow_reports (now : Z) : world -> world := send_lacp_reports now false.

Definition process_eth_slow (ptype now : Z) (w : world) : world :=
  if negb (ptype =? ETH_P_SLOW) || (packetlen w <? ETH_HLEN + 1) then w
  else
    let pkt := nic_packet + ETH_HLEN in
    let subtype := ld8 (mm w) pkt in
    if (subtype =? 1) && (packetlen w >=? ETH_HLEN + SLOW_LEN) then
      let w := lacp_sync_node w in
      let ntt := lacp_update_ntt pkt w in
      let w := lacp_record_pdu pkt w in
      let w := lacp_start_current_while_timer now w in
      send_lacp_reports now ntt w
    else if (subtype =? 2) && (packetlen w >=? ETH_HLEN + SLOW_LEN)
            && (ld8 (mm w) (pkt + 2) =? 1) && (ld8 (mm w) (pkt + 3) =? 0x16) then
      let w := with_mem (fun m => st8 m (pkt + 2) 2) w in
      send_pdu ETH_P_SLOW pkt SLOW_LEN w
    else w.

(** ** Lemmas *)

Lemma mm_set_mm m w : mm (set_mm m w) = m.
Proof. reflexivity. Qed.

(** Our node address is six bytes. *)
Definition node_ok (w : world) : Prop :=
  length (node (arp w ARP_CLIENT)) = 6%nat /\
  Forall (fun b => 0 <= b < 256) (node (arp w ARP_CLIENT)).

Lemma map_u8_bytes bs : Forall (fun b => 0 <= b < 256) bs -> map u8 bs = bs.
Proof.
  induction 1 as [|b bs Hb _ IH]; cbn; [reflexivity|]. now rewrite IH, u8_small.
Qed.

(** The state after [lacp_init_state]: the node address is in place, the flags are the defaults
    and no timer runs. *)
Lemma lacp_init_state_spec mac w :
  length mac = 6%nat -> Forall (fun b => 0 <= b < 256) mac ->
  let w' := lacp_init_state mac w in
  actor_state w' = 120 /\ partner_state w' = 121 /\
  ldn (mm w') (lacp_pkt + ACTOR + SYSTEM) 6 = mac /\
  current_while_timer w' = 0 /\ periodic_timer w' = 0 /\
  (forall x, x < lacp_pkt \/ lacp_pkt + SLOW_LEN <= x -> ld8 (mm w') x = ld8 (mm w) x) /\
  arptable w' = arptable w /\ sent w' = sent w.
Proof.
  intros Hl Hb w'. subst w'. unfold lacp_init_state. cbv zeta.
  unfold actor_state, partner_state.
  cbn [mm current_while_timer periodic_timer set_periodic_timer set_current_while_timer set_mm
       arptable sent].
  unfold lacp_side, lacp_pkt, ACTOR, PARTNER, STATE, SYSTEM.
  assert (Hf : firstn 6 mac = mac) by (apply firstn_all2; lia). rewrite Hf.
  split; [ld_simp; reflexivity|]. split; [ld_simp; reflexivity|].
  split.
  { rewrite <- Hl. etransitivity; [apply ldn_ext; intros x Hx; ld_simp; reflexivity|].
    rewrite ldn_stn. now apply map_u8_bytes. }
  repeat (split; [reflexivity|]). split; [|split; reflexivity].
  intros x Hx. unfold SLOW_LEN in Hx. ld_simp.
  assert (Hout : forall m, ld8 (stn m (0x30000 + 4 + 2) mac) x = ld8 m x)
    by (intros; apply ld8_stn_out; lia).
  rewrite Hout. ld_simp. rewrite ld8_memset. change (Z.of_nat (Z.to_nat SLOW_LEN)) with 110. case_tests; (reflexivity || lia).
Qed.

(** The PDU of a port with the address [mac] that knows of no partner, byte by byte as IEEE 802.3ad (43.4.2.2) lays it out:
    the actor, the partner (none), the collector, the terminator and the padding. *)
Definition default_pdu (mac : list Z) : list Z :=
  [1; 1] ++ [1; 20; 0; 1] ++ mac ++ [0; 1; 0; 1; 0; 1; 0x78; 0; 0; 0] ++
  [2; 20; 0; 1] ++ [0; 0; 0; 0; 0; 0] ++ [0; 1; 0; 1; 0; 1; 0x79; 0; 0; 0] ++
  [3; 16; 0x80; 0] ++ repeat 0 12 ++ [0; 0] ++ repeat 0 50.
Lemma lacp_init_state_pdu mac w :
  length mac = 6%nat -> Forall (fun b => 0 <= b < 256) mac -> ldn (mm (lacp_init_state mac w)) lacp_pkt 110 = default_pdu mac.
Proof.
  intros Hl Hb. unfold default_pdu. change 110%nat with (6 + (6 + 98))%nat. rewrite !ldn_app.
  change (lacp_pkt + Z.of_nat 6) with (lacp_pkt + ACTOR + SYSTEM).
  destruct (lacp_init_state_spec mac w Hl Hb) as (_ & _ & -> & _).
  destruct mac as [|a [|b [|c [|d [|e [|f [|]]]]]]]; try discriminate. rewrite (app_assoc [1; 1]).
  apply (f_equal2 (@app Z)); [vm_compute; reflexivity|]. apply (f_equal2 (@app Z)); [reflexivity|]. vm_compute. reflexivity.
Qed.

(** ** Properties *)

(** A marker information PDU is answered: the same 110 bytes go back to the slow protocols
    multicast address with only the TLV type changed to a response, and nothing else in the
    state changes. *)
Theorem marker_response now w :
  let pkt := nic_packet + ETH_HLEN in
  ETH_HLEN + SLOW_LEN <= packetlen w -> ld8 (mm w) pkt = 2 ->
  ld8 (mm w) (pkt + 2) = 1 -> ld8 (mm w) (pkt + 3) = 0x16 ->
  let w' := process_eth_slow ETH_P_SLOW now w in
  exists bs, sent w' = {| f_dst := slow_dest; f_type := ETH_P_SLOW; f_data := bs |} :: sent w /\
    length bs = 110%nat /\ nth 2 bs 0 = 2 /\
    (forall i, (i < 110)%nat -> i <> 2%nat -> nth i bs 0 = ld8 (mm w) (pkt + Z.of_nat i)) /\
    w' = set_sent (sent w') (set_mm (st8 (mm w) (pkt + 2) 2) w).
Proof.
  intros pkt Hlen Hs Ht Hm w'. unfold process_eth_slow in w'. fold pkt in w'.
  change (ETH_P_SLOW =? ETH_P_SLOW) with true in w'.
  subst w'. rewrite Hs, Ht, Hm, Z.geb_leb.
  assert (E1 : (packetlen w <? ETH_HLEN + 1) = false)
    by (apply Z.ltb_ge; unfold ETH_HLEN, SLOW_LEN in *; lia).
  assert (E2 : (ETH_HLEN + SLOW_LEN <=? packetlen w) = true) by (apply Z.leb_le; lia).
  rewrite E1, E2. cbn [negb orb andb Z.eqb Pos.eqb].
  exists (ldn (st8 (mm w) (pkt + 2) 2) pkt 110).
  split; [reflexivity|]. split; [apply length_ldn|]. 
  split; [rewrite nth_ldn by lia; apply ld8_st8_eq|].
  split; [|reflexivity]. intros i Hi Hn. rewrite nth_ldn by lia. apply ld8_st8_ne. lia.
Qed.

(** *** Receiving a PDU that agrees with us *)

(** What the byte at [x] is after recording such a PDU. *)
Definition agreed_byte (m : mem) (pkt x : Z) : Z :=
  if x =? lacp_pkt + PARTNER + STATE then Z.lor (ld8 m (pkt + ACTOR + STATE)) LACP_SYNCHRONIZATION
  else if x =? lacp_pkt + ACTOR + STATE
  then Z.land (ld8 m (lacp_pkt + ACTOR + STATE)) (Z.lnot LACP_DEFAULTED)
  else if (lacp_pkt + PARTNER <=? x) && (x <? lacp_pkt + PARTNER + STATE)
  then ld8 m (pkt + ACTOR + (x - (lacp_pkt + PARTNER)))
  else ld8 m x.

Lemma sync_bits v : 0 <= v < 256 ->
  u8 (Z.land v (Z.lnot LACP_SYNCHRONIZATION)) = Z.land v (Z.lnot LACP_SYNCHRONIZATION) /\
  Z.lor (Z.land v (Z.lnot LACP_SYNCHRONIZATION)) LACP_SYNCHRONIZATION
  = Z.lor v LACP_SYNCHRONIZATION /\
  u8 (Z.lor v LACP_SYNCHRONIZATION) = Z.lor v LACP_SYNCHRONIZATION /\
  Z.lor (Z.lor v LACP_SYNCHRONIZATION) LACP_SYNCHRONIZATION = Z.lor v LACP_SYNCHRONIZATION /\
  u8 (Z.land v (Z.lnot LACP_DEFAULTED)) = Z.land v (Z.lnot LACP_DEFAULTED) /\
  Z.land (Z.land v (Z.lnot LACP_DEFAULTED)) LACP_AGGREGATION = Z.land v LACP_AGGREGATION /\
  Z.land (Z.land v LACP_NTT_MASK) LACP_AGGREGATION = Z.land v LACP_AGGREGATION.
Proof.
  intros H.
  pose proof (all_below_spec 256 (fun v =>
    (u8 (Z.land v (Z.lnot LACP_SYNCHRONIZATION)) =? Z.land v (Z.lnot LACP_SYNCHRONIZATION)) &&
    (Z.lor (Z.land v (Z.lnot LACP_SYNCHRONIZATION)) LACP_SYNCHRONIZATION
     =? Z.lor v LACP_SYNCHRONIZATION) &&
    (u8 (Z.lor v LACP_SYNCHRONIZATION) =? Z.lor v LACP_SYNCHRONIZATION) &&
    (Z.lor (Z.lor v LACP_SYNCHRONIZATION) LACP_SYNCHRONIZATION =? Z.lor v LACP_SYNCHRONIZATION) &&
    (u8 (Z.land v (Z.lnot LACP_DEFAULTED)) =? Z.land v (Z.lnot LACP_DEFAULTED)) &&
    (Z.land (Z.land v (Z.lnot LACP_DEFAULTED)) LACP_AGGREGATION =? Z.land v LACP_AGGREGATION) &&
    (Z.land (Z.land v LACP_NTT_MASK) LACP_AGGREGATION =? Z.land v LACP_AGGREGATION))
    ltac:(vm_compute; reflexivity) v H) as E.
  cbv beta in E. rewrite !andb_true_iff, !Z.eqb_eq in E. tauto.
Qed.

(** The packet buffer and the PDU do not overlap. *)
Lemma lacp_apart : nic_packet + 2000 < lacp_pkt.
Proof. reflexivity. Qed.

Section agree.
Context (w : world).
Let pkt := nic_packet + ETH_HLEN.
Context (Hcmp : ldn (mm w) (pkt + PARTNER) LACP_CMP_LEN = ldn (mm w) (lacp_pkt + ACTOR) LACP_CMP_LEN).
Context (Hbits : Z.land (ld8 (mm w) (pkt + PARTNER + STATE)) LACP_NTT_MASK
                 = Z.land (actor_state w) LACP_NTT_MASK).

Lemma agree_ntt : lacp_update_ntt pkt w = false.
Proof.
  unfold lacp_update_ntt. apply memcmp_zero in Hcmp. rewrite Hcmp, Hbits, !Z.eqb_refl. reflexivity.
Qed.

Lemma agree_record :
  exists m', lacp_record_pdu pkt w = set_mm m' w /\ forall x, ld8 m' x = agreed_byte (mm w) pkt x.
Proof.
  pose proof lacp_apart as Ap. unfold lacp_record_pdu. cbv zeta.
  unfold with_mem, actor_state, partner_state, set_actor_state, set_partner_state, with_mem.
  cbn [mm set_mm].
  set (m1 := memcpy (mm w) (lacp_pkt + PARTNER) (pkt + ACTOR) LACP_CP_LEN).
  assert (E1 : forall x, ld8 m1 x =
    if (lacp_pkt + PARTNER <=? x) && (x <? lacp_pkt + PARTNER + 15)
    then ld8 (mm w) (pkt + ACTOR + (x - (lacp_pkt + PARTNER))) else ld8 (mm w) x).
  { intros x. subst m1. rewrite ld8_memcpy; [reflexivity|].
    right. subst pkt. unfold ACTOR, PARTNER, ETH_HLEN in *. cbn [Z.of_nat LACP_CP_LEN]. lia. }
  set (a := ld8 m1 (lacp_pkt + ACTOR + STATE)).
  set (m2 := st8 m1 (lacp_pkt + ACTOR + STATE) _).
  set (s := ld8 m2 (lacp_pkt + PARTNER + STATE)).
  set (m3 := st8 m2 (lacp_pkt + PARTNER + STATE) _).
  assert (Ea : a = ld8 (mm w) (lacp_pkt + ACTOR + STATE)).
  { subst a. rewrite E1. unfold ACTOR, PARTNER, STATE. case_tests; (reflexivity || lia). }
  assert (Es : s = ld8 (mm w) (pkt + ACTOR + STATE)).
  { subst s m2. unfold ACTOR, PARTNER, STATE. ld_simp. rewrite E1. unfold ACTOR, PARTNER.
    case_tests; try lia. f_equal. }
  destruct (sync_bits a) as (_ & _ & _ & _ & A1 & A2 & A3); [apply ld8_range|].
  destruct (sync_bits s) as (S1 & S2 & S3 & S4 & _); [apply ld8_range|].
  assert (E3 : forall x, x <> lacp_pkt + PARTNER + STATE -> ld8 m3 x =
    if x =? lacp_pkt + ACTOR + STATE then Z.land a (Z.lnot LACP_DEFAULTED) else ld8 m1 x).
  { intros x Hx. subst m3 m2. rewrite ld8_st8_ne, ld8_st8 by congruence.
    destruct (x =? lacp_pkt + ACTOR + STATE); [exact A1 | reflexivity]. }
  assert (Same : forall x, x < lacp_pkt \/ lacp_pkt + ACTOR <= x < lacp_pkt + ACTOR + STATE ->
            ld8 m3 x = ld8 (mm w) x).
  { intros x Hx. rewrite E3, E1 by (unfold ACTOR, PARTNER, STATE in *; lia).
    unfold ACTOR, PARTNER, STATE in *. case_tests; (reflexivity || lia). }
  assert (C1 : memcmp m3 (pkt + PARTNER) (lacp_pkt + ACTOR) LACP_CMP_LEN = 0).
  { apply memcmp_zero. rewrite (ldn_ext m3 (mm w) (pkt + PARTNER)), (ldn_ext m3 (mm w) (lacp_pkt + ACTOR)), Hcmp;
      [reflexivity | |]; intros x Hx; apply Same; subst pkt;
      unfold ACTOR, PARTNER, STATE, ETH_HLEN in *; cbn [LACP_CMP_LEN Z.of_nat] in Hx; lia. }
  assert (C2 : Z.land (ld8 m3 (pkt + PARTNER + STATE)) LACP_AGGREGATION
               = Z.land (ld8 m3 (lacp_pkt + ACTOR + STATE)) LACP_AGGREGATION).
  { rewrite (Same (pkt + PARTNER + STATE)), E3, Z.eqb_refl, A2, <- A3
      by (subst pkt; unfold ACTOR, PARTNER, STATE, ETH_HLEN in *; lia).
    rewrite Ea. unfold actor_state in Hbits. rewrite <- Hbits.
    symmetry. apply sync_bits, ld8_range. }
  rewrite C1, C2, !Z.eqb_refl. cbn [andb mm set_mm].
  set (m4 := st8 m3 (lacp_pkt + PARTNER + STATE) _).
  assert (E4 : forall x, ld8 m4 x = agreed_byte (mm w) pkt x).
  { intros x. subst m4. rewrite ld8_st8. unfold agreed_byte.
    destruct (Z.eqb_spec x (lacp_pkt + PARTNER + STATE)) as [->|Hx].
    - subst m3. rewrite ld8_st8_eq, S1, S2, S3, Es. reflexivity.
    - rewrite E3, Ea by exact Hx. destruct (x =? lacp_pkt + ACTOR + STATE); [reflexivity|].
      rewrite E1. unfold PARTNER, STATE in *. case_tests; (reflexivity || lia). }
  destruct (negb (istrue _)); [|exists m4; auto].
  exists (st8 m4 (lacp_pkt + PARTNER + STATE)
            (Z.lor (ld8 m4 (lacp_pkt + PARTNER + STATE)) LACP_SYNCHRONIZATION)).
  split; [reflexivity|]. intros x. rewrite ld8_st8, !E4.
  unfold agreed_byte at 1. destruct (Z.eqb_spec x (lacp_pkt + PARTNER + STATE)) as [->|]; [|reflexivity].
  unfold agreed_byte. rewrite !Z.eqb_refl, <- Es, S4, S3. reflexivity.
Qed.
End agree.

Lemma expire_bits v : 0 <= v < 256 ->
  Z.land (Z.land v (Z.lnot LACP_DEFAULTED)) LACP_TIMEOUT = Z.land v LACP_TIMEOUT /\
  u8 (Z.land (Z.land v (Z.lnot LACP_DEFAULTED)) (Z.lnot LACP_EXPIRED))
  = Z.land (Z.land v (Z.lnot LACP_DEFAULTED)) (Z.lnot LACP_EXPIRED).
Proof.
  intros H. pose proof (all_below_spec 256 (fun v =>
    (Z.land (Z.land v (Z.lnot LACP_DEFAULTED)) LACP_TIMEOUT =? Z.land v LACP_TIMEOUT) &&
    (u8 (Z.land (Z.land v (Z.lnot LACP_DEFAULTED)) (Z.lnot LACP_EXPIRED))
     =? Z.land (Z.land v (Z.lnot LACP_DEFAULTED)) (Z.lnot LACP_EXPIRED)))
    ltac:(vm_compute; reflexivity) v H) as E.
  cbv beta in E. rewrite andb_true_iff, !Z.eqb_eq in E. exact E.
Qed.
Lemma node_changed_ext w w' :
  arptable w' = arptable w ->
  (forall x, lacp_pkt + ACTOR + SYSTEM <= x < lacp_pkt + ACTOR + SYSTEM + 6 ->
     ld8 (mm w') x = ld8 (mm w) x) ->
  node_changed w' = node_changed w.
Proof.
  intros Ha Hm. unfold node_changed, arp. rewrite Ha, (ldn_ext (mm w') (mm w)); [reflexivity|].
  intros x Hx. apply Hm. lia.
Qed.
(** With fresh timers and nothing to say, [send_lacp_reports] does nothing. *)
Lemma agree_send now w :
  node_changed w = false -> lacp_timer_expired now (periodic_timer w) = false ->
  0 < now < 4294960000 ->
  send_lacp_reports now false (lacp_start_current_while_timer now w)
  = lacp_start_current_while_timer now w.
Proof.
  intros Hn Hp Hnow. unfold send_lacp_reports. set (w1 := lacp_start_current_while_timer now w).
  assert (Hn1 : node_changed w1 = false).
  { rewrite <- Hn. apply node_changed_ext; [reflexivity|]. intros x Hx.
    unfold w1, lacp_start_current_while_timer, set_actor_state, with_mem. cbn [mm set_mm set_current_while_timer].
    unfold ACTOR, SYSTEM, STATE in *. ld_simp. reflexivity. }
  unfold lacp_sync_node. rewrite Hn1.
  assert (He : lacp_timer_expired now (current_while_timer w1) = false).
  { unfold w1, lacp_start_current_while_timer, lacp_timer_expired, set_actor_state, with_mem.
    cbn [current_while_timer set_mm set_current_while_timer].
    unfold SHORT_TIMEOUT_TIME, LONG_TIMEOUT_TIME, FAST_PERIODIC_TIME, SLOW_PERIODIC_TIME, TICKS_PER_SEC.
    rewrite Z.gtb_ltb. destruct (istrue (Z.land _ _)); rewrite u32_small by lia;
      (case_test; [lia | apply andb_false_r]). }
  unfold lacp_expire. rewrite He.
  assert (Hp1 : periodic_timer w1 = periodic_timer w) by reflexivity. rewrite Hp1, Hp. reflexivity.
Qed.

(** Two parties that agree fall silent.  When a LACP PDU arrives whose partner information
    describes this port exactly, and no timer is due, no PDU is sent in answer; the sender's
    information is recorded as the partner's, in synchronization; the port is no longer defaulted
    nor expired, and the information is good for another 3 or 90 seconds. *)
Theorem lacp_agreement_quiet now w :
  let pkt := nic_packet + ETH_HLEN in
  node_changed w = false -> ETH_HLEN + SLOW_LEN <= packetlen w -> ld8 (mm w) pkt = 1 ->
  ldn (mm w) (pkt + PARTNER) LACP_CMP_LEN = ldn (mm w) (lacp_pkt + ACTOR) LACP_CMP_LEN ->
  Z.land (ld8 (mm w) (pkt + PARTNER + STATE)) LACP_NTT_MASK = Z.land (actor_state w) LACP_NTT_MASK ->
  lacp_timer_expired now (periodic_timer w) = false -> 0 < now < 4294960000 ->
  let w' := process_eth_slow ETH_P_SLOW now w in
  sent w' = sent w /\
  (forall i, 0 <= i < STATE -> ld8 (mm w') (lacp_pkt + PARTNER + i) = ld8 (mm w) (pkt + ACTOR + i)) /\
  partner_state w' = Z.lor (ld8 (mm w) (pkt + ACTOR + STATE)) LACP_SYNCHRONIZATION /\
  actor_state w' = Z.land (Z.land (actor_state w) (Z.lnot LACP_DEFAULTED)) (Z.lnot LACP_EXPIRED) /\
  current_while_timer w'
  = now + (if istrue (Z.land (actor_state w) LACP_TIMEOUT) then SHORT_TIMEOUT_TIME else LONG_TIMEOUT_TIME).
Proof.
  intros pkt Hnode Hlen Hsub Hcmp Hbits Hper Hnow w'.
  assert (Ew : w' = lacp_start_current_while_timer now (lacp_record_pdu pkt w)).
  { subst w'. unfold process_eth_slow. fold pkt. rewrite Hsub, Z.geb_leb, Z.eqb_refl.
    assert (E1 : (packetlen w <? ETH_HLEN + 1) = false)
      by (apply Z.ltb_ge; unfold ETH_HLEN, SLOW_LEN in *; lia).
    assert (E2 : (ETH_HLEN + SLOW_LEN <=? packetlen w) = true) by (apply Z.leb_le; lia).
    rewrite E1, E2. cbn [negb orb andb]. change (1 =? 1) with true. cbv iota.
    assert (Hs : lacp_sync_node w = w) by (unfold lacp_sync_node; now rewrite Hnode).
    rewrite Hs. pose proof (agree_ntt w Hcmp Hbits) as Hntt. fold pkt in Hntt. rewrite Hntt.
    destruct (agree_record w Hcmp Hbits) as (m' & Er & Em). fold pkt in Er. rewrite Er.
    apply agree_send; auto. rewrite <- Hnode. apply node_changed_ext; [reflexivity|].
    intros x Hx. rewrite Em. unfold agreed_byte, ACTOR, PARTNER, STATE, SYSTEM in *.
    case_tests; (reflexivity || lia). }
  rewrite Ew. destruct (agree_record w Hcmp Hbits) as (m' & Er & Em). fold pkt in Er. rewrite Er.
  pose proof (ld8_range (mm w) (lacp_pkt + ACTOR + STATE)) as Ra.
  assert (Ea : ld8 m' (lacp_pkt + ACTOR + STATE) = Z.land (actor_state w) (Z.lnot LACP_DEFAULTED))
    by (rewrite Em; reflexivity).
  destruct (expire_bits (actor_state w) Ra) as (B1 & B2).
  unfold lacp_start_current_while_timer, set_actor_state, with_mem, actor_state, partner_state.
  cbn [mm set_mm sent set_current_while_timer current_while_timer]. rewrite Ea, B1.
  split; [reflexivity|]. split; [|split; [|split]].
  - intros i Hi. unfold ACTOR, PARTNER, STATE in *. ld_simp. rewrite Em.
    unfold agreed_byte, ACTOR, PARTNER, STATE. case_tests; try lia. f_equal. lia.
  - unfold ACTOR, PARTNER, STATE. ld_simp. rewrite Em. reflexivity.
  - rewrite ld8_st8_eq. exact B2.
  - unfold actor_state. rewrite u32_small; [reflexivity|].
    unfold SHORT_TIMEOUT_TIME, LONG_TIMEOUT_TIME, FAST_PERIODIC_TIME, SLOW_PERIODIC_TIME, TICKS_PER_SEC.
    destruct (istrue _); lia.
Qed.

Ltac w_simp :=
  cbn [mm set_periodic_timer send_pdu set_sent set_current_while_timer set_mm arptable sent
       current_while_timer periodic_timer].

Lemma lost_bits v : 0 <= v < 256 ->
  u8 (Z.lor v LACP_EXPIRED) = Z.lor v LACP_EXPIRED /\
  istrue (Z.land (Z.lor v LACP_EXPIRED) LACP_EXPIRED) = true /\
  let p := Z.lor (u8 (Z.land v (Z.lnot LACP_SYNCHRONIZATION))) LACP_TIMEOUT in
  u8 p = p /\ Z.land p LACP_SYNCHRONIZATION = 0 /\ Z.land p LACP_TIMEOUT = LACP_TIMEOUT.
Proof.
  intros H. pose proof (all_below_spec 256 (fun v =>
    let p := Z.lor (u8 (Z.land v (Z.lnot LACP_SYNCHRONIZATION))) LACP_TIMEOUT in
    (u8 (Z.lor v LACP_EXPIRED) =? Z.lor v LACP_EXPIRED) &&
    istrue (Z.land (Z.lor v LACP_EXPIRED) LACP_EXPIRED) && (u8 p =? p) &&
    (Z.land p LACP_SYNCHRONIZATION =? 0) && (Z.land p LACP_TIMEOUT =? LACP_TIMEOUT))
    ltac:(vm_compute; reflexivity) v H) as E.
  cbv beta zeta in E. rewrite !andb_true_iff, !Z.eqb_eq in E. cbv zeta. tauto.
Qed.

(** The PDU with the two state bytes changed. *)
Lemma lost_pdu m u v :
  u8 u = u -> 0 <= ld8 m (lacp_pkt + PARTNER + STATE) < 256 ->
  u8 (Z.lor (u8 (Z.land v (Z.lnot LACP_SYNCHRONIZATION))) LACP_TIMEOUT) = Z.lor (u8 (Z.land v (Z.lnot LACP_SYNCHRONIZATION))) LACP_TIMEOUT ->
  ldn (st8 (st8 (st8 m (lacp_pkt + PARTNER + STATE) (Z.land v (Z.lnot LACP_SYNCHRONIZATION))) (lacp_pkt + PARTNER + STATE)
         (Z.lor (u8 (Z.land v (Z.lnot LACP_SYNCHRONIZATION))) LACP_TIMEOUT)) (lacp_pkt + ACTOR + STATE) u) lacp_pkt 110
  = ldn m lacp_pkt 18 ++ [u] ++ ldn m (lacp_pkt + 19) 19 ++ [Z.lor (Z.land v 0xf7) 2] ++ ldn m (lacp_pkt + 39) 71.
Proof.
  intros Hu Hv Hp. change 110%nat with (18 + (1 + (19 + (1 + 71))))%nat. rewrite !ldn_app. unfold ACTOR, PARTNER, STATE in *.
  assert (Hs : u8 (Z.land v (Z.lnot LACP_SYNCHRONIZATION)) = Z.land v 0xf7).
  { unfold u8. change 256 with (2 ^ 8). rewrite <- Z.land_ones, <- Z.land_assoc by lia. reflexivity. }
  rewrite Hs in *. set (m' := st8 _ _ _).
  assert (O : forall x, x <> lacp_pkt + 18 -> x <> lacp_pkt + 38 -> ld8 m' x = ld8 m x) by (intros x N1 N2; subst m'; ld_simp; reflexivity).
  apply (f_equal2 (@app Z)); [apply ldn_ext; intros x Hx; apply O; lia|].
  apply (f_equal2 (@app Z)); [cbn [ldn]; f_equal; etransitivity; [apply ld8_st8_eq|exact Hu]|].
  apply (f_equal2 (@app Z)); [apply ldn_ext; intros x Hx; apply O; lia|].
  apply (f_equal2 (@app Z)); [cbn [ldn]; f_equal; subst m'; ld_simp; exact Hp|].
  apply ldn_ext; intros x Hx; apply O; lia.
Qed.

(** C39: Losing the partner.  When its information has expired the first time, the port tells so at
    once: one slow protocols frame, whose LACP PDU is the one the port holds with the actor marked
    expired and, for the partner, the synchronization bit cleared and the short timeout asked for,
    and which leaves every other byte as it was.  The port gives the partner 3 more seconds; when
    those pass in silence it falls back to the PDU of a port without a partner, with both timers
    stopped, and sends nothing. *)
Theorem lacp_partner_lost now now2 w :
  node_ok w -> node_changed w = false -> lacp_timer_expired now (current_while_timer w) = true ->
  Z.land (actor_state w) 128 = 0 -> 0 <= now < 4294960000 -> now + SHORT_TIMEOUT_TIME < now2 ->
  let w1 := send_lacp_reports now false w in
  let pdu := ldn (mm w) lacp_pkt 18 ++ [Z.lor (actor_state w) 128] ++ ldn (mm w) (lacp_pkt + 19) 19 ++
             [Z.lor (Z.land (partner_state w) 0xf7) 2] ++ ldn (mm w) (lacp_pkt + 39) 71 in
  sent w1 = {| f_dst := [0x01; 0x80; 0xc2; 0; 0; 2]; f_type := 0x8809; f_data := pdu |} :: sent w /\
  ldn (mm w1) lacp_pkt 110 = pdu /\ current_while_timer w1 = now + SHORT_TIMEOUT_TIME /\
  let w2 := send_lacp_reports now2 false w1 in
  sent w2 = sent w1 /\ ldn (mm w2) lacp_pkt 110 = default_pdu (node (arp w ARP_CLIENT)) /\
  current_while_timer w2 = 0 /\ periodic_timer w2 = 0.
Proof.
  intros [Nl Nb] Hn Hexp Hne Hnow Hnow2 w1 pdu. change 128 with LACP_EXPIRED in Hne.
  assert (E1 : exists m' p', w1 = set_periodic_timer p' (send_pdu ETH_P_SLOW lacp_pkt SLOW_LEN
            (set_current_while_timer (now + SHORT_TIMEOUT_TIME) (set_mm m' w))) /\
          m' = st8 (st8 (st8 (mm w) (lacp_pkt + PARTNER + STATE)
                   (Z.land (partner_state w) (Z.lnot LACP_SYNCHRONIZATION)))
                 (lacp_pkt + PARTNER + STATE)
                 (Z.lor (u8 (Z.land (partner_state w) (Z.lnot LACP_SYNCHRONIZATION))) LACP_TIMEOUT))
              (lacp_pkt + ACTOR + STATE) (Z.lor (actor_state w) LACP_EXPIRED)).
  { subst w1. unfold send_lacp_reports, lacp_sync_node. rewrite Hn. unfold lacp_expire.
    rewrite Hexp, Hne. change (negb (istrue 0)) with true. cbv iota.
    match goal with |- context [if ?b then true else true] =>
      replace (if b then true else true) with true by (destruct b; reflexivity) end.
    rewrite (u32_small (now + _))
      by (unfold SHORT_TIMEOUT_TIME, FAST_PERIODIC_TIME, TICKS_PER_SEC; lia).
    unfold lacp_start_periodic_timer. 
    destruct (istrue _ || istrue _); eexists _, _; (split; [reflexivity|]);
      unfold set_actor_state, set_partner_state, actor_state, partner_state, with_mem;
      cbn [mm set_mm]; unfold ACTOR, PARTNER, STATE; ld_simp; reflexivity. }
  destruct E1 as (m' & p' & E1 & Em).
  pose proof (ld8_range (mm w) (lacp_pkt + ACTOR + STATE)) as Ra.
  pose proof (ld8_range (mm w) (lacp_pkt + PARTNER + STATE)) as Rp.
  destruct (lost_bits (actor_state w) Ra) as (A1 & A2 & _).
  destruct (lost_bits (partner_state w) Rp) as (_ & _ & P1 & P2 & P3).
  assert (Ea : actor_state w1 = Z.lor (actor_state w) LACP_EXPIRED)
    by (rewrite E1; unfold actor_state at 1; w_simp; rewrite Em, ld8_st8_eq; exact A1).
  assert (Em' : ldn m' lacp_pkt 110 = pdu).
  { subst pdu. rewrite Em. apply lost_pdu; [exact A1 | exact Rp | exact P1]. }
  split; [rewrite E1; w_simp; change (Z.to_nat SLOW_LEN) with 110%nat; rewrite Em'; reflexivity|].
  split; [rewrite E1; exact Em'|]. split; [rewrite E1; reflexivity|]. cbv zeta.
  assert (Hn1 : node_changed w1 = false).
  { rewrite <- Hn. apply node_changed_ext; [rewrite E1; reflexivity|]. intros x Hx.
    rewrite E1. w_simp. rewrite Em. unfold ACTOR, PARTNER, SYSTEM, STATE in *. ld_simp. reflexivity. }
  assert (Ec : lacp_timer_expired now2 (current_while_timer w1) = true).
  { rewrite E1. cbn [current_while_timer set_periodic_timer send_pdu set_sent set_current_while_timer].
    unfold lacp_timer_expired, istrue. rewrite Z.gtb_ltb.
    unfold SHORT_TIMEOUT_TIME, FAST_PERIODIC_TIME, TICKS_PER_SEC in *. case_tests; (reflexivity || lia). }
  assert (Enode : node (arp w1 ARP_CLIENT) = node (arp w ARP_CLIENT)) by (rewrite E1; reflexivity).
  unfold send_lacp_reports at 1 2 3 4. unfold lacp_sync_node. rewrite Hn1.
  unfold lacp_expire. rewrite Ec, Ea, A2, Enode. cbn [negb].
  destruct (lacp_init_state_spec (node (arp w ARP_CLIENT)) w1 Nl Nb)
    as (_ & _ & _ & I4 & I5 & _ & _ & I8).
  rewrite I5. change (lacp_timer_expired now2 0) with false. cbv iota. split; [exact I8|].
  split; [exact (lacp_init_state_pdu _ w1 Nl Nb) | auto].
Qed.

(** A port in its default state, and the same with a PDU received that mirrors it. *)
Definition lacp0 : world := lacp_init_state [2; 0; 0; 0; 0; 1] world0.
Definition lacp_mirror : world :=
  let m := stn (mm lacp0) (nic_packet + ETH_HLEN) [1; 1] in
  let m := stn m (nic_packet + ETH_HLEN + PARTNER) (ldn (mm lacp0) (lacp_pkt + ACTOR) 15) in
  set_packetlen 124 (set_mm m lacp0).
Definition lacp_marker : world :=
  set_packetlen 124 (set_mm (stn (mm lacp0) (nic_packet + ETH_HLEN) [2; 1; 1; 0x16; 7; 7]) lacp0).

Lemma marker_response_witness :
  exists bs, sent (process_eth_slow ETH_P_SLOW 5 lacp_marker)
             = [{| f_dst := slow_dest; f_type := ETH_P_SLOW; f_data := bs |}] /\ nth 4 bs 0 = 7.
Proof.
  destruct (marker_response 5 lacp_marker) as (bs & S & _ & _ & B & _);
    [vm_compute; discriminate | reflexivity | reflexivity | reflexivity |].
  exists bs. split; [exact S|]. rewrite B by lia. reflexivity.
Defined.

Lemma lacp_agreement_quiet_witness :
  sent (process_eth_slow ETH_P_SLOW 1000 lacp_mirror) = [] /\
  current_while_timer (process_eth_slow ETH_P_SLOW 1000 lacp_mirror) = 1000 + LONG_TIMEOUT_TIME.
Proof.
  destruct (lacp_agreement_quiet 1000 lacp_mirror) as (S & _ & _ & _ & T);
    [vm_compute; reflexivity | vm_compute; discriminate | reflexivity | vm_compute; reflexivity
    | vm_compute; reflexivity | reflexivity | lia |].
  split; [exact S | exact T].
Defined.

Lemma lacp_partner_lost_witness :
  let w := set_current_while_timer 100 lacp0 in
  map (fun f => nth 18 (f_data f) 0) (sent (send_lacp_reports 200 false w)) = [0xf8] /\
  ldn (mm (send_lacp_reports 300 false (send_lacp_reports 200 false w))) lacp_pkt 110 = default_pdu [2; 0; 0; 0; 0; 1].
Proof.
  intros w. destruct (lacp_partner_lost 200 300 w) as (L & _ & _ & _ & A & _);
    [ split; [reflexivity | repeat constructor; lia] | vm_compute; reflexivity | reflexivity
    | vm_compute; reflexivity | lia
    | unfold SHORT_TIMEOUT_TIME, FAST_PERIODIC_TIME, TICKS_PER_SEC; lia |].
  split; [rewrite L; vm_compute; reflexivity | exact A].
Defined.
