(* ===== verification/Nic.v ===== *)
(** The protocol engine of [src/src/core/nic.c]: sending IP datagrams with address resolution,
    multicast group membership, and [await_reply], the loop in which Etherboot waits for every
    answer it gets and meanwhile serves ARP, IGMP and the slow protocols. *)

From S2P Require Import Prelude Memory StringLib Misc Net Lacp.

Definition broadcast : list Z := [0xFF; 0xFF; 0xFF; 0xFF; 0xFF; 0xFF].
Definition MULTICAST_MASK : Z := 0xF0000000.
Definition MULTICAST_NETWORK : Z := 0xE0000000.
Definition MAX_ARP_RETRIES : nat := 20.
Definition GROUP_ALL_HOSTS : Z := 0xe0000001.
Definition IGMP_QUERY : Z := 0x11.
Definition IGMPv1_REPORT : Z := 0x12.
Definition IGMPv2_REPORT : Z := 0x16.
Definition IGMP_LEAVE : Z := 0x17.
Definition IGMP_INTERVAL : Z := 10 * TICKS_PER_SEC.
Definition IGMPv1_ROUTER_PRESENT_TIMEOUT : Z := 400 * TICKS_PER_SEC.

(** Objects on the stack: [arpreq] of [ip_transmit], [igmp] of the multicast routines, [buf] of
    [tcp_reset]. *)
Definition arpreq : Z := 0x32000.
Definition igmp_buf : Z := 0x33000.
Definition tcp_reset_buf : Z := 0x34000.

(** What a caller of [await_reply] passes: called with what is known of the frame, it answers 0
    when the frame is not the one it waits for. *)
Definition reply_t : Type := rx_info -> M Z.

Definition is_multicast (ip : Z) : bool :=
  Z.land ip (htonl MULTICAST_MASK) =? htonl MULTICAST_NETWORK.
Definition multicast_node (destip : Z) : list Z :=
  let hdestip := ntohl destip in
  [0x01; 0x00; 0x5e; Z.land (Z.shiftr hdestip 16) 0x7; Z.land (Z.shiftr hdestip 8) 0xff;
   Z.land hdestip 0xff].

(** [await_arp] for the entry [ival]; [want] is the address at [ptr]. *)
Definition await_arp (ival : nat) (want : Z) : reply_t := fun info =>
  if negb (ptype info =? ETH_P_ARP) then ret 0
  else
    w <- get ;;
    let p := nic_packet + ETH_HLEN in
    if packetlen w <? ETH_HLEN + 28 then ret 0
    else if negb (ld16 (mm w) (p + 6) =? htons 2) then ret 0
    else if negb (ld32 (mm w) (p + 14) =? want) then ret 0
    else
      set_arp ival {| ipaddr := ipaddr (arp w ival); node := ldn (mm w) (p + 8) 6 |} ;;;
      ret 1.

(** The entry of [arptable] that holds an address. *)
Fixpoint find_arp (l : list arp_entry) (ip : Z) (i : nat) : option nat :=
  match l with
  | [] => None
  | e :: l' => if ipaddr e =? ip then Some i else find_arp l' ip (S i)
  end.
Definition next_hop (w : world) (destip : Z) : Z :=
  if negb (Z.land destip (netmask w) =? Z.land (client_ip w) (netmask w))
     && istrue (ipaddr (arp w ARP_GATEWAY))
  then ipaddr (arp w ARP_GATEWAY) else destip.

Definition build_arpreq (w : world) (destip : Z) (m : mem) : mem :=
  let m := st16 m arpreq (htons 1) in
  let m := st16 m (arpreq + 2) (htons ETH_P_IP) in
  let m := st8 m (arpreq + 4) ETH_ALEN in
  let m := st8 m (arpreq + 5) 4 in
  let m := st16 m (arpreq + 6) (htons 1) in
  let m := stn m (arpreq + 8) (firstn 6 (node (arp w ARP_CLIENT))) in
  let m := st32 m (arpreq + 14) (client_ip w) in
  let m := memset m (arpreq + 18) 0 6 in
  st32 m (arpreq + 24) destip.

Section nic.
Context `{E : Env}.

(** The retry loop of the address resolution: whether an answer came. *)
Fixpoint arp_retry (await : reply_t -> Z -> M Z) (entry : nat) (destip retry : Z) (k : nat) : M bool :=
  match k with
  | O => ret false
  | S k' =>
      eth_transmit broadcast ETH_P_ARP 28 arpreq ;;;
      timeout <- rfc2131_sleep_interval TIMEOUT retry ;;
      r <- await (await_arp entry destip) timeout ;;
      if istrue r then ret true else arp_retry await entry destip (retry + 1) k'
  end.

(** [ip_transmit], over the [await_reply] it calls. *)
Definition ip_transmit_with (await : reply_t -> Z -> M Z) (len buf : Z) : M Z :=
  w <- get ;;
  let destip := ld32 (mm w) (buf + 16) in
  if destip =? IP_BROADCAST then eth_transmit broadcast ETH_P_IP len buf ;;; ret 1
  else if is_multicast destip
  then eth_transmit (multicast_node destip) ETH_P_IP len buf ;;; ret 1
  else
    let destip := next_hop w destip in
    match find_arp (arptable w) destip 0 with
    | None => ret 0
    | Some arpentry =>
        found <- (if forallb (Z.eqb 0) (node (arp w arpentry))
                  then set_mem (build_arpreq w destip) ;;;
                       arp_retry await arpentry destip 1 MAX_ARP_RETRIES
                  else ret true) ;;
        if found then
          w <- get ;;
          eth_transmit (node (arp w arpentry)) ETH_P_IP len buf ;;;
          ret 1
        else ret 0
    end.

(** *** Multicast *)

Definition set_igmp (i : nat) (e : igmp_entry) : M unit :=
  modify (fun w => set_igmptable (list_set (igmptable w) i e) w).
Definition igmp_at (w : world) (i : nat) : igmp_entry := nth i (igmptable w) {| group := 0; time := 0 |}.

(** The IP header with the router alert option, common to reports and leaves. *)
Definition build_igmp_ip (w : world) (dest : Z) (m : mem) : mem :=
  let m := st8 m (igmp_buf + 20) 0x94 in
  let m := st8 m (igmp_buf + 21) 0x04 in
  let m := st8 m (igmp_buf + 22) 0 in
  let m := st8 m (igmp_buf + 23) 0 in
  build_ip_hdr (client_ip w) dest 1 IP_IGMP 4 32 igmp_buf m.
(** The IGMP message; [sumlen] is the length given to [ipchksum]. *)
Definition build_igmp (type grp : Z) (sumlen : nat) (m : mem) : mem :=
  let m := st8 m (igmp_buf + 24) type in
  let m := st8 m (igmp_buf + 25) 0 in
  let m := st16 m (igmp_buf + 26) 0 in
  let m := st32 m (igmp_buf + 28) grp in
  st16 m (igmp_buf + 26) (ipchksum m (igmp_buf + 24) sumlen).

Fixpoint send_igmp_loop (tx : Z -> Z -> M Z) (now : Z) (i k : nat) : M unit :=
  match k with
  | O => ret tt
  | S k' =>
      w <- get ;;
      let e := igmp_at w i in
      (if istrue (time e) && (now >=? time e) then
         set_mem (fun m =>
           build_igmp (if istrue (last_igmpv1 w)
                          && (now <? u32 (last_igmpv1 w + IGMPv1_ROUTER_PRESENT_TIMEOUT))
                       then IGMPv1_REPORT else IGMPv2_REPORT)
                      (group e) 8 (build_igmp_ip w (group e) m)) ;;;
         tx 32 igmp_buf ;;;
         set_igmp i {| group := group (igmp_at w i); time := 0 |}
       else ret tt) ;;;
      send_igmp_loop tx now (S i) k'
  end.
Definition send_igmp_reports (tx : Z -> Z -> M Z) (now : Z) : M unit :=
  w <- get ;; send_igmp_loop tx now 0 (length (igmptable w)).

Fixpoint igmp_query_loop (grp interval : Z) (i k : nat) : M unit :=
  match k with
  | O => ret tt
  | S k' =>
      w <- get ;;
      let e := igmp_at w i in
      (if (group e =? 0) || (group e =? grp) then
         t <- currticks ;;
         s <- rfc1112_sleep_interval interval 0 ;;
         let time' := u32 (t + s) in
         if time' <? time e then set_igmp i {| group := group e; time := time' |} else ret tt
       else ret tt) ;;;
      igmp_query_loop grp interval (S i) k'
  end.
Definition igmp_heard (grp : Z) (e : igmp_entry) : igmp_entry :=
  if (group e =? grp) && negb (time e =? 0) then {| group := group e; time := 0 |} else e.

Definition process_igmp (has_ip : bool) (now : Z) : M unit :=
  w <- get ;;
  let m := mm w in
  if negb has_ip || (ld8 m (ip_ptr + 9) =? IP_IGMP) || (packetlen w <? 20 + 8) then ret tt
  else
    let iplen := Z.land (ld8 m ip_ptr) 0xf * 4 in
    let igmp := nic_packet + 20 in
    if negb (ipchksum m igmp (Z.to_nat (u32 (ntohs (ld16 m (ip_ptr + 2)) - iplen))) =? 0) then ret tt
    else
      let type := ld8 m igmp in
      let grp := ld32 m (igmp + 4) in
      (if (type =? IGMP_QUERY) && (ld32 m (ip_ptr + 16) =? htonl GROUP_ALL_HOSTS) then
         let response_time := ld8 m (igmp + 1) in
         (if response_time =? 0 then modify (set_last_igmpv1 now) else ret tt) ;;;
         igmp_query_loop grp
           (if response_time =? 0 then IGMP_INTERVAL else Z.quot (response_time * TICKS_PER_SEC) 10)
           0 (length (igmptable w))
       else ret tt) ;;;
      (if ((type =? IGMPv1_REPORT) || (type =? IGMPv2_REPORT)) && (ld32 m (ip_ptr + 16) =? grp)
       then modify (fun w => set_igmptable (map (igmp_heard grp) (igmptable w)) w)
       else ret tt).

Definition leave_group (tx : Z -> Z -> M Z) (slot : nat) : M unit :=
  w <- get ;;
  let g := group (igmp_at w slot) in
  (if istrue g then
     set_mem (fun m => build_igmp IGMP_LEAVE g 32 (build_igmp_ip w (htonl GROUP_ALL_HOSTS) m)) ;;;
     tx 32 igmp_buf ;;; ret tt
   else ret tt) ;;;
  set_igmp slot {| group := 0; time := 0 |}.
Definition join_group (tx : Z -> Z -> M Z) (slot : nat) (grp : Z) : M unit :=
  w <- get ;;
  if group (igmp_at w slot) =? grp then ret tt
  else
    (if istrue (group (igmp_at w slot)) then leave_group tx slot else ret tt) ;;;
    (if is_multicast grp then
       t <- currticks ;; set_igmp slot {| group := grp; time := t |}
     else ret tt).

(** *** [await_reply] *)

(** The default action on an ARP request for our address: turn it into the reply in place. *)
Definition arp_reply (w : world) (m : mem) : mem :=
  let p := nic_packet + ETH_HLEN in
  let m := st16 m (p + 6) (htons 2) in
  let m := memcpy m (p + 24) (p + 14) 4 in
  let m := memcpy m (p + 18) (p + 8) 6 in
  let m := st32 m (p + 14) (client_ip w) in
  stn m (p + 8) (firstn 6 (node (arp w ARP_CLIENT))).
Definition arp_default (info : rx_info) : M unit :=
  w <- get ;;
  let p := nic_packet + ETH_HLEN in
  if (ptype info =? ETH_P_ARP) && (packetlen w >=? ETH_HLEN + 28)
     && (ld16 (mm w) (p + 6) =? htons 1) && (ld32 (mm w) (p + 24) =? client_ip w)
  then
    set_mem (arp_reply w) ;;;
    w <- get ;;
    eth_transmit (ldn (mm w) (p + 18) 6) ETH_P_ARP 28 p
  else ret tt.

(** The loop; [fuel] bounds its rounds, those of nested calls included. *)
Fixpoint await_loop (fuel : nat) (reply : reply_t) (time timeout : Z) {struct fuel} : M Z :=
  match fuel with
  | O => oof
  | S n =>
      let tx := ip_transmit_with (fun rp tmo =>
                  t <- currticks ;; await_loop n rp (u32 (tmo + t)) tmo) in
      now <- currticks ;;
      modify (send_eth_slow_reports now) ;;;
      send_igmp_reports tx now ;;;
      result <- eth_poll ;;
      if result =? 0 then
        net_poll_interruptions ;;;
        if timeout =? 0 then ret 0
        else
          t <- currticks ;;
          if t >? time then ret 0 else await_loop n reply time timeout
      else
        w <- get ;;
        let '(m, plen, info) := rx_filter (mm w) (packetlen w) in
        modify (fun w => set_packetlen plen (set_mm m w)) ;;;
        match info with
        | None => await_loop n reply time timeout
        | Some info =>
            result <- reply info ;;
            if result >? 0 then ret result
            else
              arp_default info ;;;
              modify (process_eth_slow (ptype info) now) ;;;
              process_igmp (has_ip info) now ;;;
              await_loop n reply time timeout
        end
  end.
Definition await_reply (fuel : nat) (reply : reply_t) (timeout : Z) : M Z :=
  t <- currticks ;; await_loop fuel reply (u32 (timeout + t)) timeout.
Definition ip_transmit (fuel : nat) : Z -> Z -> M Z := ip_transmit_with (await_reply fuel).

Definition udp_transmit (fuel : nat) (destip srcsock destsock len buf : Z) : M Z :=
  modify (set_sport (u16 srcsock)) ;;;
  modify (fun w => set_mm (build_udp_hdr (client_ip w) destip srcsock destsock 60 len buf (mm w)) w) ;;;
  ip_transmit fuel len buf.
Definition tcp_transmit (fuel : nat)
    (destip srcsock destsock send_seq recv_seq window flags len buf : Z) : M Z :=
  modify (fun w => set_mm (build_tcp_hdr (client_ip w) destip srcsock destsock send_seq recv_seq
                             window flags 60 len buf (mm w)) w) ;;;
  ip_transmit fuel len buf.

Definition FIN : Z := 1.
Definition SYN : Z := 2.
Definition RST : Z := 4.
Definition PSH : Z := 8.
Definition ACK : Z := 16.
Definition TCP_MAX_WINDOW : Z := 65535 - 84.
(** [tcp_reset] on the segment in the packet buffer. *)
Definition tcp_reset (fuel : nat) : M Z :=
  w <- get ;;
  let m := mm w in
  let tcp := ip_ptr + 20 in
  let ctrl := ld16 m (tcp + 12) in
  if istrue (Z.land ctrl (htons RST)) then ret 1
  else
    let seq := ntohl (ld32 m (tcp + 4)) + ntohs (ld16 m (ip_ptr + 2)) - 20
               - Z.land (Z.shiftr (ntohs ctrl) 10) 0x3C in
    let seq := if istrue (Z.land ctrl (htons (SYN + FIN))) then seq + 1 else seq in
    tcp_transmit fuel (ntohl (ld32 m (ip_ptr + 12))) (ntohs (ld16 m (tcp + 2))) (ntohs (ld16 m tcp))
      (if istrue (Z.land ctrl (htons ACK)) then ntohl (ld32 m (tcp + 8)) else 0)
      seq TCP_MAX_WINDOW RST 40 tcp_reset_buf.

Definition await_qdrain : reply_t := fun _ => ret 0.
Definition rx_qdrain (fuel : nat) : M unit := await_reply fuel await_qdrain 0 ;;; ret tt.
End nic.

(** ** Lemmas *)

(** Run a sequence of primitive operations. *)
Ltac run :=
  unfold set_mem, eth_transmit, set_arp, set_igmp, bind, ret, get, gets, modify, longjmp; cbv beta iota.

(** Addresses as bytes. *)
Definition ip_bytes (ip : Z) : list Z :=
  [ip mod 256; ip / 256 mod 256; ip / 65536 mod 256; ip / 16777216 mod 256].
Lemma ldn_st32 m a v : ldn (st32 m a v) a 4 = ip_bytes v.
Proof.
  unfold st32, st16. cbn [ldn]. replace (a + 1 + 1) with (a + 2) by lia.
  replace (a + 2 + 1 + 0) with (a + 2 + 1) by lia. mem_simp. unfold ip_bytes, u8.
  replace (v / 65536 / 256) with (v / 16777216) by (now rewrite Z.div_div by lia). reflexivity.
Qed.
Lemma ip_bytes_ld32 m a : ip_bytes (ld32 m a) = ldn m a 4.
Proof.
  unfold ip_bytes, ld32, ld16. cbn [ldn]. replace (a + 1 + 1) with (a + 2) by lia.
  pose proof (ld8_range m a). pose proof (ld8_range m (a + 1)).
  pose proof (ld8_range m (a + 2)). pose proof (ld8_range m (a + 2 + 1)).
  repeat (f_equal; [zmod|]). f_equal. zmod.
Qed.

(** The search of the ARP table finds the first entry that holds the address. *)
Lemma find_arp_first l ip i e k :
  nth_error l i = Some e ->
  (forall j e', (j < i)%nat -> nth_error l j = Some e' -> ipaddr e' <> ip) ->
  ipaddr e = ip -> find_arp l ip k = Some (i + k)%nat.
Proof.
  revert i k. induction l as [|x l IH]; intros [|i] k Hi Hj He; cbn in *; try discriminate.
  - injection Hi as ->. now rewrite He, Z.eqb_refl.
  - pose proof (Hj 0%nat x ltac:(lia) eq_refl) as Hx. apply Z.eqb_neq in Hx. rewrite Hx.
    rewrite (IH i (S k) Hi); [f_equal; lia | | exact He].
    intros j e' Hlt Hn. apply (Hj (S j) e'); [lia | exact Hn].
Qed.
Lemma find_arp_none l ip k : (forall e, In e l -> ipaddr e <> ip) -> find_arp l ip k = None.
Proof.
  revert k. induction l as [|x l IH]; intros k Hn; cbn; [reflexivity|].
  pose proof (Hn x (or_introl eq_refl)) as Hx. apply Z.eqb_neq in Hx. rewrite Hx.
  apply IH. intros e He. apply Hn. now right.
Qed.

Lemma nth_list_set {A} (l : list A) i v d : (i < length l)%nat -> nth i (list_set l i v) d = v.
Proof.
  revert i. induction l as [|x l IH]; intros [|i] Hi; cbn in *; try lia; [reflexivity|]. apply IH. lia.
Qed.

(** *** Waiting in silence *)

(** No report of a slow protocol or of IGMP is due, now or later. *)
Definition quiet (w : world) : Prop :=
  node_changed w = false /\ current_while_timer w = 0 /\ periodic_timer w = 0 /\
  Forall (fun e => time e = 0) (igmptable w).

Lemma quiet_slow now w : quiet w -> send_eth_slow_reports now w = w.
Proof.
  intros (Hn & Hc & Hp & _). unfold send_eth_slow_reports, send_lacp_reports, lacp_sync_node, lacp_expire.
  rewrite Hn, Hc. cbn [lacp_timer_expired istrue Z.eqb negb andb]. rewrite Hp. reflexivity.
Qed.
Lemma quiet_igmp tx now w : quiet w -> send_igmp_reports tx now w = Some (Ret tt, w).
Proof.
  intros (_ & _ & _ & Ht). unfold send_igmp_reports. run.
  generalize 0%nat. induction (length (igmptable w)) as [|k IH]; intros i; [reflexivity|].
  cbn [send_igmp_loop]. run.
  assert (T : time (igmp_at w i) = 0).
  { unfold igmp_at. destruct (nth_in_or_default i (igmptable w) {| group := 0; time := 0 |}) as [I|I].
    - rewrite Forall_forall in Ht. now apply Ht.
    - now rewrite I. }
  rewrite T. cbn [istrue Z.eqb negb andb]. cbv beta iota. apply IH.
Qed.

(** The state after [k] rounds in which nothing came. *)
Definition advance (k : nat) (w : world) : world :=
  set_cnt_kbd (cnt_kbd w + k) (set_cnt_rx (cnt_rx w + k) (set_cnt_clock (cnt_clock w + 2 * k) w)).
Lemma quiet_advance k w : quiet w -> quiet (advance k w).
Proof. exact id. Qed.
Lemma advance_0 w : advance 0 w = w.
Proof. unfold advance. cbn [Nat.mul]. rewrite !Nat.add_0_r. now destruct w. Qed.
Lemma advance_S k w : advance (S k) w = advance k (advance 1 w).
Proof.
  unfold advance, set_cnt_kbd, set_cnt_rx, set_cnt_clock. cbn [cnt_kbd cnt_rx cnt_clock mm arptable
    netmask sport xid packetlen igmptable last_igmpv1 current_while_timer periodic_timer seed sent].
  f_equal; lia.
Qed.

Lemma advance_1 k w : advance 1 (advance k w) = advance (S k) w.
Proof.
  unfold advance, set_cnt_kbd, set_cnt_rx, set_cnt_clock. cbn [cnt_kbd cnt_rx cnt_clock mm arptable
    netmask sport xid packetlen igmptable last_igmpv1 current_while_timer periodic_timer seed sent].
  f_equal; lia.
Qed.

(** Nothing arrives and no key is pressed in the next [k] rounds, and [time] has not passed at
    their ends. *)
Definition silent `{Env} (k : nat) (time : Z) (w : world) : Prop :=
  forall i, (i < k)%nat ->
    rx (cnt_rx w + i) = None /\ kbd (cnt_kbd w + i) = None /\
    u32 (clock (cnt_clock w + 2 * i + 1)) <= time.

Lemma await_round `{Env} n reply time timeout w :
  quiet w -> timeout <> 0 -> rx (cnt_rx w) = None -> kbd (cnt_kbd w) = None ->
  await_loop (S n) reply time timeout w =
  if u32 (clock (cnt_clock w + 1)) >? time then Some (Ret 0, advance 1 w)
  else await_loop n reply time timeout (advance 1 w).
Proof.
  intros Q Ht Hr Hk. cbn [await_loop]. unfold currticks at 1. run.
  rewrite quiet_slow, quiet_igmp by exact Q.
  unfold eth_poll. cbn [cnt_rx set_cnt_clock]. rewrite Hr. cbn [Z.eqb].
  unfold net_poll_interruptions. cbn [cnt_kbd set_cnt_rx set_cnt_clock]. rewrite Hk.
  change (poll_interruptions true None) with (@None Z). cbv beta iota.
  apply Z.eqb_neq in Ht. rewrite Ht. unfold currticks. cbv beta iota.
  cbn [cnt_clock set_cnt_kbd set_cnt_rx set_cnt_clock].
  replace (S (cnt_clock w)) with (cnt_clock w + 1)%nat by lia.
  unfold advance. cbn [Nat.mul Nat.add].
  replace (S (cnt_clock w + 1)) with (cnt_clock w + 2)%nat by lia.
  rewrite (Nat.add_1_r (cnt_rx w)), (Nat.add_1_r (cnt_kbd w)). destruct (_ >? _); reflexivity.
Qed.

Lemma await_silent `{Env} k n reply time timeout w :
  quiet w -> timeout <> 0 -> silent k time w ->
  await_loop (k + n) reply time timeout w = await_loop n reply time timeout (advance k w).
Proof.
  intros Q Ht. revert w Q. induction k as [|k IH]; intros w Q S; [now rewrite advance_0|].
  cbn [Nat.add]. destruct (S 0%nat ltac:(lia)) as (R & K & C).
  rewrite Nat.mul_0_r in C. rewrite Nat.add_0_r in R, K, C.
  rewrite await_round by assumption.
  destruct (Z.gtb_spec (u32 (clock (cnt_clock w + 1))) time); [lia|].
  rewrite (advance_S k). apply IH; [exact Q|].
  intros i Hi. destruct (S (Datatypes.S i) ltac:(lia)) as (R' & K' & C').
  cbn [advance cnt_rx cnt_kbd cnt_clock set_cnt_kbd set_cnt_rx set_cnt_clock].
  replace (cnt_rx w + 1 + i)%nat with (cnt_rx w + Datatypes.S i)%nat by lia.
  replace (cnt_kbd w + 1 + i)%nat with (cnt_kbd w + Datatypes.S i)%nat by lia.
  replace (cnt_clock w + 2 * 1 + 2 * i + 1)%nat with (cnt_clock w + 2 * Datatypes.S i + 1)%nat by lia.
  auto.
Qed.

(** The back-off changes only the seed and the clock's counter. *)
Lemma rfc2131_total `{Env} base exp w :
  exists t s c, rfc2131_sleep_interval base exp w = Some (Ret t, set_seed s (set_cnt_clock c w)).
Proof.
  unfold rfc2131_sleep_interval, net_random, currticks. run.
  destruct (seed w =? 0); do 3 eexists; [reflexivity|].
  replace (set_cnt_clock (cnt_clock w) w) with w by now destruct w. reflexivity.
Qed.

(** A frame that passes the checks and that the reply function takes ends the wait. *)
Lemma await_frame `{Env} n reply time timeout w bs w' info r :
  quiet w -> rx (cnt_rx w) = Some bs ->
  let w1 := set_packetlen (Z.of_nat (length bs))
              (set_mm (stn (mm w) nic_packet bs)
                 (set_cnt_rx (S (cnt_rx w)) (set_cnt_clock (S (cnt_clock w)) w))) in
  rx_filter (mm w1) (packetlen w1) = (mm w1, packetlen w1, Some info) ->
  reply info w1 = Some (Ret r, w') -> 0 < r ->
  await_loop (S n) reply time timeout w = Some (Ret r, w').
Proof.
  intros Q Hr w1 Hf Hp Hpos. cbn [await_loop]. unfold currticks at 1. run.
  rewrite quiet_slow, quiet_igmp by exact Q. unfold eth_poll.
  cbn [cnt_rx set_cnt_clock]. rewrite Hr. cbn [mm set_cnt_rx set_cnt_clock Z.eqb]. cbv beta iota.
  fold w1. rewrite Hf. cbv beta iota.
  replace (set_packetlen (packetlen w1) (set_mm (mm w1) w1)) with w1 by now destruct w1.
  rewrite Hp. destruct (Z.gtb_spec r 0); [reflexivity|lia].
Qed.

(** A field of a received frame. *)
Lemma ldn_stn_field m a l1 l2 l3 :
  ldn (stn m a (l1 ++ l2 ++ l3)) (a + Z.of_nat (length l1)) (length l2) = map u8 l2.
Proof.
  pose proof (ldn_stn m a (l1 ++ l2 ++ l3)) as E. rewrite !length_app, !ldn_app, !map_app in E.
  apply app_split_length in E as [_ E]; [|now rewrite length_ldn, length_map].
  now apply app_split_length in E as [E _]; [|rewrite length_ldn, length_map].
Qed.
Lemma ld16_ldn m a x y : ldn m a 2 = [x; y] -> ld16 m a = x + 256 * y.
Proof. cbn [ldn]. intros [= <- <-]. reflexivity. Qed.
Lemma ld32_ldn m a v : 0 <= v < 4294967296 -> ldn m a 4 = ip_bytes v -> ld32 m a = v.
Proof.
  intros Hv. rewrite <- ip_bytes_ld32. pose proof (ld32_range m a) as Hr. revert Hr.
  generalize (ld32 m a). unfold ip_bytes. intros z Hz [= E0 E1 E2 E3].
  clear m a. Z.div_mod_to_equations. lia.
Qed.

Lemma ld8_memset_out m s c n x : x < s \/ s + Z.of_nat n <= x -> ld8 (memset m s c n) x = ld8 m x.
Proof. intros H. rewrite ld8_memset. case_tests; (lia || reflexivity). Qed.
Lemma ld8_memset_in m s c n x : s <= x < s + Z.of_nat n -> ld8 (memset m s c n) x = u8 c.
Proof. intros H. rewrite ld8_memset. case_tests; (lia || reflexivity). Qed.
(** The request, as it goes on the wire. *)
Lemma build_arpreq_bytes w dest m :
  node_ok w ->
  ldn (build_arpreq w dest m) arpreq 28 =
  [0; 1; 8; 0; 6; 4; 0; 1] ++ node (arp w ARP_CLIENT) ++ ip_bytes (client_ip w) ++
  [0; 0; 0; 0; 0; 0] ++ ip_bytes dest.
Proof.
  intros [Nl Nb]. unfold build_arpreq. cbv zeta. rewrite firstn_all2 by lia.
  set (nd := node (arp w ARP_CLIENT)) in *.
  set (m1 := st16 _ (arpreq + 6) _). set (m2 := stn m1 _ nd). set (m3 := st32 m2 _ _).
  set (m4 := memset m3 _ _ _).
  change 28%nat with (8 + (6 + (4 + (6 + 4))))%nat. rewrite !ldn_app.
  change (Z.of_nat 8) with 8. change (Z.of_nat 6) with 6. change (Z.of_nat 4) with 4.
  replace (arpreq + 8 + 6) with (arpreq + 14) by lia. replace (arpreq + 14 + 4) with (arpreq + 18) by lia.
  replace (arpreq + 18 + 6) with (arpreq + 24) by lia.
  assert (L4 : forall x, x < arpreq + 18 -> ld8 m4 x = ld8 m3 x).
  { intros x Hx. subst m4. apply ld8_memset_out. lia. }
  apply f_equal2; [|apply f_equal2; [|apply f_equal2; [|apply f_equal2]]].
  - rewrite (ldn_ext _ m1).
    + subst m1. cbn [ldn]. ld_simp. reflexivity.
    + intros x Hx. rewrite ld8_st32_ne, L4 by lia. subst m3 m2.
      rewrite ld8_st32_ne, ld8_stn_out by lia. reflexivity.
  - rewrite (ldn_ext _ m2).
    + subst m2. rewrite <- Nl, ldn_stn. now apply map_u8_bytes.
    + intros x Hx. rewrite ld8_st32_ne, L4 by lia. subst m3. apply ld8_st32_ne. lia.
  - rewrite (ldn_ext _ m3); [apply ldn_st32|]. intros x Hx. rewrite ld8_st32_ne, L4 by lia. reflexivity.
  - rewrite (ldn_ext _ m4); [|intros x Hx; apply ld8_st32_ne; lia].
    subst m4. cbn [ldn]. rewrite !ld8_memset_in by lia. reflexivity.
  - apply ldn_st32.
Qed.
Lemma build_arpreq_out w dest m x :
  length (node (arp w ARP_CLIENT)) = 6%nat -> x < arpreq \/ arpreq + 28 <= x ->
  ld8 (build_arpreq w dest m) x = ld8 m x.
Proof.
  intros Nl Hx. unfold build_arpreq. cbv zeta. rewrite firstn_all2 by lia.
  rewrite ld8_st32_ne, ld8_memset_out, ld8_st32_ne, ld8_stn_out by lia. ld_simp. reflexivity.
Qed.

(** An ARP reply, as received. *)
Definition arp_reply_frame (hd ah mac : list Z) (ip : Z) (rest : list Z) : list Z :=
  hd ++ [8; 6] ++ ah ++ [0; 2] ++ mac ++ ip_bytes ip ++ rest.

Lemma arp_reply_frame_fields m hd ah mac ip rest :
  length hd = 12%nat -> length ah = 6%nat -> length mac = 6%nat -> 0 <= ip < 4294967296 ->
  Forall (fun b => 0 <= b < 256) mac ->
  let m' := stn m nic_packet (arp_reply_frame hd ah mac ip rest) in
  let p := nic_packet + ETH_HLEN in
  frame_type m' = ETH_P_ARP /\ ld16 m' (p + 6) = htons 2 /\ ld32 m' (p + 14) = ip /\
  ldn m' (p + 8) 6 = mac.
Proof.
  intros Hh Ha Hm Hip Nb m' p. subst m' p. unfold arp_reply_frame.
  set (m' := stn _ _ _). unfold ETH_HLEN.
  assert (F1 : ldn m' (nic_packet + 12) 2 = [8; 6]).
  { pose proof (ldn_stn_field m nic_packet hd [8; 6] (ah ++ [0; 2] ++ mac ++ ip_bytes ip ++ rest)) as E.
    rewrite Hh in E. exact E. }
  assert (F2 : ldn m' (nic_packet + 20) 2 = [0; 2]).
  { pose proof (ldn_stn_field m nic_packet (hd ++ [8; 6] ++ ah) [0; 2] (mac ++ ip_bytes ip ++ rest)) as E.
    rewrite !length_app, Hh, Ha, <- !app_assoc in E. exact E. }
  assert (F3 : ldn m' (nic_packet + 22) 6 = mac).
  { pose proof (ldn_stn_field m nic_packet (hd ++ [8; 6] ++ ah ++ [0; 2]) mac (ip_bytes ip ++ rest)) as E.
    rewrite !length_app, Hh, Ha, Hm, <- !app_assoc, map_u8_bytes in E by exact Nb. exact E. }
  assert (F4 : ldn m' (nic_packet + 28) 4 = ip_bytes ip).
  { pose proof (ldn_stn_field m nic_packet (hd ++ [8; 6] ++ ah ++ [0; 2] ++ mac) (ip_bytes ip) rest) as E.
    rewrite !length_app, Hh, Ha, Hm, <- !app_assoc in E. etransitivity; [exact E|].
    apply map_u8_bytes. unfold ip_bytes. repeat (constructor; [apply Z.mod_pos_bound; lia|]). constructor. }
  split; [|split; [|split]].
  - pose proof (f_equal (fun l => nth 0 l 0) F1) as E1. change (ld8 m' (nic_packet + 12) = 8) in E1.
    pose proof (f_equal (fun l => nth 1 l 0) F1) as E2. change (ld8 m' (nic_packet + 13) = 6) in E2.
    unfold frame_type. now rewrite E1, E2.
  - now apply ld16_ldn in F2.
  - apply ld32_ldn; [exact Hip|]. exact F4.
  - exact F3.
Qed.

Lemma rx_filter_arp m plen :
  ETH_HLEN <= plen -> frame_type m = ETH_P_ARP ->
  rx_filter m plen = (m, plen, Some {| ptype := ETH_P_ARP; has_ip := false; has_udp := false;
                                       has_tcp := false |}).
Proof.
  intros Hl Hf. unfold rx_filter. destruct (Z.ltb_spec plen ETH_HLEN); [lia|]. now rewrite Hf.
Qed.

Lemma Some_ret_inj {A} (a b : A) (w1 w2 : world) : Some (Ret a, w1) = Some (Ret b, w2) -> a = b /\ w1 = w2.
Proof. intros H. split; congruence. Qed.
(** The back-off does not look at the memory or at what was sent. *)
Lemma rfc2131_frame `{Env} base exp w t wr :
  rfc2131_sleep_interval base exp w = Some (Ret t, wr) ->
  exists sd, wr = set_seed sd (set_cnt_clock (cnt_clock wr) w) /\
    forall s m, rfc2131_sleep_interval base exp (set_sent s (set_mm m w)) =
                Some (Ret t, set_sent s (set_mm m wr)).
Proof.
  unfold rfc2131_sleep_interval, net_random, currticks. run.
  cbn [seed set_sent set_mm]. destruct (seed w =? 0); intros E; apply Some_ret_inj in E as [<- <-];
    eexists; (split; [|reflexivity]); [reflexivity|]. now destruct w.
Qed.

(** The answer ends the wait for it. *)
Lemma await_reply_arp `{Env} k n i w t hd ah mac hop rest :
  quiet w -> t <> 0 -> 0 <= hop < 4294967296 ->
  silent k (u32 (t + u32 (clock (cnt_clock w)))) (set_cnt_clock (S (cnt_clock w)) w) ->
  rx (cnt_rx w + k) = Some (arp_reply_frame hd ah mac hop rest) ->
  length hd = 12%nat -> length ah = 6%nat -> length mac = 6%nat -> (10 <= length rest)%nat ->
  Forall (fun b => 0 <= b < 256) mac ->
  exists w', await_reply (k + S n) (await_arp i hop) t w = Some (Ret 1, w') /\
    arptable w' = list_set (arptable w) i {| ipaddr := ipaddr (arp w i); node := mac |} /\
    sent w' = sent w /\
    forall x, nic_packet + 1514 <= x -> ld8 (mm w') x = ld8 (mm w) x.
Proof.
  intros Q Ht Hhop Sil Hrx Hh Ha Hmac Hrest Nb.
  unfold await_reply, currticks. run. set (w1 := set_cnt_clock _ w) in *.
  rewrite await_silent by (exact Q || assumption).
  destruct (arp_reply_frame_fields (mm w) hd ah mac hop rest Hh Ha Hmac Hhop Nb) as (F1 & F2 & F3 & F4).
  pose proof (rx_len _ _ Hrx) as RL.
  assert (Lf : (42 <= length (arp_reply_frame hd ah mac hop rest))%nat).
  { unfold arp_reply_frame. rewrite !length_app, Hh, Ha, Hmac. cbn [length ip_bytes]. lia. }
  set (fr := arp_reply_frame hd ah mac hop rest) in *.
  eexists. split.
  - eapply await_frame; [exact Q | exact Hrx | | | ].
    + apply rx_filter_arp; [|exact F1]. cbn [packetlen set_packetlen]. unfold ETH_HLEN. lia.
    + unfold await_arp. cbn [ptype]. rewrite Z.eqb_refl. cbn [negb]. run.
      cbn [mm packetlen set_packetlen set_mm]. change (mm (advance k w1)) with (mm w).
      destruct (Z.ltb_spec (Z.of_nat (length fr)) (ETH_HLEN + 28)); [unfold ETH_HLEN in *; lia|].
      rewrite F2, F3, !Z.eqb_refl. cbn [negb]. run. reflexivity.
    + lia.
  - cbn [arptable sent mm set_arptable set_packetlen set_mm].
    change (mm (advance k w1)) with (mm w). rewrite F4. split; [reflexivity|]. split; [reflexivity|].
    intros x Hx. apply ld8_stn_out. lia.
Qed.

(** *** Sending to a host whose hardware address is known *)

Definition reachable (w : world) (dst : Z) (mac : list Z) : Prop :=
  0 <= dst < 4294967296 /\ dst <> IP_BROADCAST /\ is_multicast dst = false /\
  exists i, find_arp (arptable w) (next_hop w dst) 0 = Some i /\ node (arp w i) = mac /\
            forallb (Z.eqb 0) mac = false.

Lemma udp_transmit_reachable `{Env} fuel dst mac s d len buf w :
  reachable w dst mac ->
  let m := build_udp_hdr (client_ip w) dst s d 60 len buf (mm w) in
  udp_transmit fuel dst s d len buf w =
  Some (Ret 1, set_sent ({| f_dst := mac; f_type := ETH_P_IP; f_data := ldn m buf (Z.to_nat len) |} :: sent w)
                 (set_mm m (set_sport (u16 s) w))).
Proof.
  intros (Hd & Hb & Hm & i & Hf & Hn & Hz) m. unfold udp_transmit, ip_transmit, ip_transmit_with. run.
  change (client_ip (set_sport (u16 s) w)) with (client_ip w).
  cbn [mm set_mm set_sport]. fold m.
  assert (D : ld32 m (buf + 16) = dst).
  { subst m. rewrite (proj1 (build_udp_hdr_dest _ _ _ _ _ _ _ _)). now apply u32_small. }
  rewrite D. apply Z.eqb_neq in Hb. rewrite Hb, Hm. cbn [arptable set_mm set_sport].
  change (next_hop (set_mm m (set_sport (u16 s) w)) dst) with (next_hop w dst). rewrite Hf.
  change (arp (set_mm m (set_sport (u16 s) w)) i) with (arp w i). rewrite Hn, Hz. cbv beta iota.
  change (arp (set_mm m (set_sport (u16 s) w)) i) with (arp w i). rewrite Hn. reflexivity.
Qed.

(** ** What a peer sends *)

Lemma build_udp_hdr_len client destip s d ttl len buf m :
  28 <= len < 65536 -> ld16 (build_udp_hdr client destip s d ttl len buf m) (buf + 24) = htons (len - 20).
Proof. intros H. apply build_udp_hdr_spec, H. Qed.
Lemma ntohs_pair v : 0 <= v < 65536 -> ntohs (v / 256 + 256 * (v mod 256)) = v.
Proof.
  intros H. unfold ntohs. rewrite u16_small, bswap_16_alt by (Z.div_mod_to_equations; lia).
  Z.div_mod_to_equations. lia.
Qed.

(** The frame of a datagram: [hd] is the Ethernet header less the type, and the datagram is made as
    [build_udp_hdr] makes one, at some place in the peer's memory. *)
Definition peer_buf : Z := 0x8000.
Definition udp_frame (hd : list Z) (src dst sp dp : Z) (body : list Z) : list Z :=
  let n := (28 + length body)%nat in
  hd ++ [8; 0] ++
  ldn (build_udp_hdr src dst sp dp 60 (Z.of_nat n) peer_buf
         (stn (fun _ => 0) (peer_buf + 28) body)) peer_buf n.
Lemma udp_frame_length hd src dst sp dp body :
  length hd = 12%nat -> length (udp_frame hd src dst sp dp body) = (42 + length body)%nat.
Proof. intros Hh. unfold udp_frame. rewrite !length_app, length_ldn, Hh. cbn [length]. lia. Qed.

(** What is found in the packet buffer. *)
Lemma udp_frame_received m0 hd body src dst sp dp :
  length hd = 12%nat -> (length body <= 1472)%nat -> Forall (fun b => 0 <= b < 256) body ->
  0 <= dst < 4294967296 ->
  let fr := udp_frame hd src dst sp dp body in
  let m := stn m0 nic_packet fr in
  rx_filter m (Z.of_nat (length fr))
  = (m, Z.of_nat (length fr),
     Some {| ptype := ETH_P_IP; has_ip := true; has_udp := true; has_tcp := false |}) /\
  ld32 m (ip_ptr + 16) = dst /\ ntohs (ld16 m (ip_ptr + 20)) = u16 sp /\
  ntohs (ld16 m (ip_ptr + 22)) = u16 dp /\
  ntohs (ld16 m (ip_ptr + 24)) = 8 + Z.of_nat (length body) /\
  ldn m (ip_ptr + 28) (length body) = body.
Proof.
  intros Hh Hl Hb Hd fr m. set (n := (28 + length body)%nat).
  set (mb := stn (fun _ => 0) (peer_buf + 28) body).
  set (mu := build_udp_hdr src dst sp dp 60 (Z.of_nat n) peer_buf mb).
  assert (S : same_bytes m ip_ptr mu peer_buf (Z.of_nat n)).
  { apply same_bytes_ldn.
    pose proof (ldn_stn_field m0 nic_packet (hd ++ [8; 0]) (ldn mu peer_buf n) []) as F.
    rewrite app_nil_r, <- app_assoc, length_app, length_ldn, Hh in F.
    rewrite map_u8_bytes in F by apply Forall_ldn. exact F. }
  assert (T : frame_type m = ETH_P_IP).
  { pose proof (ldn_stn_field m0 nic_packet hd [8; 0] (ldn mu peer_buf n)) as F. rewrite Hh in F.
    change (stn m0 nic_packet (hd ++ [8; 0] ++ ldn mu peer_buf n)) with m in F.
    pose proof (f_equal (fun l => nth 0 l 0) F) as E1. pose proof (f_equal (fun l => nth 1 l 0) F) as E2.
    change (ld8 m (nic_packet + 12) = 8) in E1. change (ld8 m (nic_packet + 13) = 0) in E2.
    unfold frame_type. now rewrite E1, E2. }
  assert (Lf : 14 + Z.of_nat n <= Z.of_nat (length fr))
    by (subst fr; rewrite udp_frame_length by exact Hh; subst n; lia).
  assert (L28 : 28 <= Z.of_nat n <= 1500) by (subst n; lia). assert (L64 : 28 <= Z.of_nat n < 65536) by lia.
  pose proof (udp_built_accepted src dst sp dp 60 (Z.of_nat n) peer_buf mb m (Z.of_nat (length fr))
                L28 Lf T S) as (R1 & R2 & R3 & _).
  pose proof (build_udp_hdr_len src dst sp dp 60 (Z.of_nat n) peer_buf mb L64) as U8.
  pose proof (proj1 (build_udp_hdr_dest src dst sp dp 60 (Z.of_nat n) peer_buf mb)) as U16.
  split; [exact R1|]. fold mu in U8, U16.
  split; [rewrite (same_ld32 _ _ _ _ _ S 16), U16 by lia; now apply u32_small|].
  split; [exact R2|]. split; [exact R3|]. split.
  - rewrite (same_ld16 _ _ _ _ _ S 24), U8, ntohs_htons_id by lia. subst n. lia.
  - transitivity (ldn mb (peer_buf + 28) (length body)).
    + rewrite (same_ldn _ _ _ _ _ S) by (subst n; lia).
      apply ldn_ext. intros x Hx. apply build_udp_hdr_out. lia.
    + subst mb. rewrite ldn_stn. now apply map_u8_bytes.
Qed.

(** The part of it that the waits depend on. *)
Definition same_tabs (w w' : world) : Prop :=
  arptable w' = arptable w /\ netmask w' = netmask w /\ igmptable w' = igmptable w /\
  current_while_timer w' = current_while_timer w /\ periodic_timer w' = periodic_timer w /\
  forall x, lacp_pkt <= x < lacp_pkt + 0x1000 -> ld8 (mm w') x = ld8 (mm w) x.
Lemma same_tabs_quiet w w' : same_tabs w w' -> quiet w -> quiet w'.
Proof.
  intros (A & _ & C & D & F & G) (Q1 & Q2 & Q3 & Q4).
  split; [|rewrite D, F, C; auto]. rewrite <- Q1. unfold node_changed, arp. rewrite A.
  rewrite (ldn_ext (mm w') (mm w)); [reflexivity|].
  intros x Hx. apply G. unfold ACTOR, SYSTEM in *. lia.
Qed.
Lemma same_tabs_reachable w w' dst mac : same_tabs w w' -> reachable w dst mac -> reachable w' dst mac.
Proof.
  intros (A & B & _) (R1 & R2 & R3 & i & R4 & R5). repeat (split; [assumption|]). exists i.
  unfold next_hop, client_ip, arp in *. now rewrite A, B.
Qed.

(** The client can talk to the server: nothing else is due, and both addresses are known. *)
Definition ready (w : world) (cli srv : Z) (mac : list Z) : Prop :=
  quiet w /\ client_ip w = cli /\ 0 <= cli < 4294967296 /\ ipaddr (arp w ARP_SERVER) = srv /\
  reachable w srv mac.
Lemma ready_same w w' cli srv mac : same_tabs w w' -> ready w cli srv mac -> ready w' cli srv mac.
Proof.
  intros S (Q & C & Rc & A & R). split; [now apply (same_tabs_quiet w)|].
  unfold client_ip, arp in *. rewrite (proj1 S). repeat (split; [assumption|]).
  now apply (same_tabs_reachable w).
Qed.

Lemma skipn_ldn k n m a : skipn k (ldn m a (k + n)) = ldn m (a + Z.of_nat k) n.
Proof.
  rewrite ldn_app, skipn_app, length_ldn, Nat.sub_diag. rewrite skipn_all2 by (rewrite length_ldn; lia).
  reflexivity.
Qed.
Lemma htons_bytes m a v : 0 <= v < 65536 -> ldn (st16 m a (htons v)) a 2 = [v / 256; v mod 256].
Proof.
  intros Hv. unfold htons. rewrite u16_small, bswap_16_alt by lia.
  unfold st16. cbn [ldn]. mem_simp. unfold u8. f_equal; [|f_equal]; Z.div_mod_to_equations; lia.
Qed.

(** A frame that the filter passes unchanged and that the reply function takes ends the wait. *)
Lemma await_reply_frame `{Env} n reply t w bs info r (g : world -> world) :
  let m := stn (mm w) nic_packet bs in
  quiet w -> rx (cnt_rx w) = Some bs ->
  rx_filter m (Z.of_nat (length bs)) = (m, Z.of_nat (length bs), Some info) -> 0 < r ->
  (forall w1, mm w1 = m -> packetlen w1 = Z.of_nat (length bs) -> arptable w1 = arptable w ->
     reply info w1 = Some (Ret r, g w1)) ->
  exists c, await_reply (S n) reply t w
    = Some (Ret r, g (set_packetlen (Z.of_nat (length bs)) (set_mm m (set_cnt_rx (S (cnt_rx w)) (set_cnt_clock c w))))).
Proof.
  intros m Q Hrx Hf Hr Hp. unfold await_reply, currticks. run. eexists.
  eapply await_frame; [exact Q | exact Hrx | exact Hf | | exact Hr].
  rewrite Hp by reflexivity. reflexivity.
Qed.

(** Draining a queue in which nothing waits. *)
Lemma rx_qdrain_exact `{Env} n w : quiet w -> rx (cnt_rx w) = None -> kbd (cnt_kbd w) = None ->
  exists c, rx_qdrain (S n) w = Some (Ret tt, set_cnt_kbd (S (cnt_kbd w)) (set_cnt_rx (S (cnt_rx w)) (set_cnt_clock c w))).
Proof.
  intros Q Hr Hk. unfold rx_qdrain, await_reply. cbn [await_loop]. unfold currticks. run. rewrite quiet_slow, quiet_igmp by exact Q.
  unfold eth_poll. cbn [cnt_rx set_cnt_clock]. rewrite Hr. cbn [Z.eqb]. unfold net_poll_interruptions. cbn [cnt_kbd set_cnt_rx set_cnt_clock]. rewrite Hk.
  change (poll_interruptions true None) with (@None Z). cbv beta iota. eexists. reflexivity.
Qed.
Lemma rx_qdrain_idle `{Env} n w :
  quiet w -> rx (cnt_rx w) = None -> kbd (cnt_kbd w) = None ->
  exists w', rx_qdrain (S n) w = Some (Ret tt, w') /\ same_tabs w w' /\ cnt_rx w' = S (cnt_rx w) /\
    sent w' = sent w /\ mm w' = mm w.
Proof. intros Q Hr Hk. destruct (rx_qdrain_exact n w Q Hr Hk) as (c & ->). eexists. split; [reflexivity|]. now repeat split. Qed.

(** Words of 32 bits in network order. *)
Definition be32 (v : Z) : list Z := [v / 16777216 mod 256; v / 65536 mod 256; v / 256 mod 256; v mod 256].
Lemma quad_div a b c d k : 0 <= a < 256 -> 0 <= b < 256 -> 0 <= c < 256 -> 0 <= d < 256 ->
  let x := 4294967296 * k + (a + 256 * b + 65536 * c + 16777216 * d) in
  x mod 256 = a /\ x / 256 mod 256 = b /\ x / 65536 mod 256 = c /\ x / 16777216 mod 256 = d.
Proof.
  intros Ha Hb Hc Hd x.
  assert (D1 : x / 256 = 16777216 * k + (b + 256 * c + 65536 * d)) by (symmetry; apply Z.div_unique_pos with (r := a); lia).
  assert (D2 : x / 65536 = 65536 * k + (c + 256 * d)) by (symmetry; apply Z.div_unique_pos with (r := a + 256 * b); lia).
  assert (D3 : x / 16777216 = 256 * k + d) by (symmetry; apply Z.div_unique_pos with (r := a + 256 * b + 65536 * c); lia).
  rewrite D1, D2, D3. repeat split; symmetry.
  - apply Z.mod_unique_pos with (q := 16777216 * k + (b + 256 * c + 65536 * d)); lia.
  - apply Z.mod_unique_pos with (q := 65536 * k + (c + 256 * d)); lia.
  - apply Z.mod_unique_pos with (q := 256 * k + d); lia.
  - apply Z.mod_unique_pos with (q := k); lia.
Qed.
Lemma be32_htonl v : be32 v = ip_bytes (htonl v).
Proof.
  unfold be32, ip_bytes, htonl. destruct (bytes_of_32 (u32 v) (u32_range v)) as (a & b & c & d & E & Ha & Hb & Hc & Hd).
  rewrite E, bswap_32_bytes by assumption.
  pose proof (quad_div d c b a 0 Hd Hc Hb Ha) as (E1 & E2 & E3 & E4). rewrite Z.mul_0_r, Z.add_0_l in *. rewrite E1, E2, E3, E4.
  assert (Ev : v = 4294967296 * (v / 4294967296) + (a + 256 * b + 65536 * c + 16777216 * d)) by (rewrite <- E; apply Z.div_mod; lia).
  pose proof (quad_div a b c d (v / 4294967296) Ha Hb Hc Hd) as (F1 & F2 & F3 & F4). rewrite <- Ev in *. now rewrite F1, F2, F3, F4.
Qed.
Lemma ldn_htonl m p v : ldn (st32 m p (htonl v)) p 4 = be32 v.
Proof. rewrite be32_htonl. apply ldn_st32. Qed.
Lemma ntohl_be32 m p v : 0 <= v < 4294967296 -> ldn m p 4 = be32 v -> ntohl (ld32 m p) = v.
Proof. intros Hv E. rewrite be32_htonl in E. apply ld32_ldn in E; [|apply htonl_range]. rewrite E, ntohl_htonl. now apply u32_small. Qed.
Lemma be32_bytes v : Forall (fun b => 0 <= b < 256) (be32 v).
Proof. unfold be32. repeat (constructor; [apply Z.mod_pos_bound; lia|]). constructor. Qed.

(** A datagram as it is sent from one port to another. *)
Lemma ldn_ld16 m a v : 0 <= v < 65536 -> ld16 m a = htons v -> ldn m a 2 = [v / 256; v mod 256].
Proof.
  intros Hv E. unfold htons in E. rewrite u16_small, bswap_16_alt in E by lia. unfold ld16 in E. cbn [ldn].
  pose proof (ld8_range m a). pose proof (ld8_range m (a + 1)). f_equal; [|f_equal]; Z.div_mod_to_equations; lia.
Qed.
Definition is_call (mac : list Z) (sport port : Z) (text : list Z) (f : frame) : Prop :=
  f_dst f = mac /\ f_type f = ETH_P_IP /\ firstn 4 (skipn 20 (f_data f)) = [sport / 256; sport mod 256; port / 256; port mod 256] /\
  skipn 28 (f_data f) = text.
Lemma udp_call `{Env} fuel sport port len buf w dst mac text :
  reachable w dst mac -> 0 <= sport < 65536 -> 0 <= port < 65536 -> len = 28 + Z.of_nat (length text) -> len < 65536 -> ldn (mm w) (buf + 28) (length text) = text ->
  exists m f, udp_transmit fuel dst sport port len buf w = Some (Ret 1, set_sent (f :: sent w) (set_mm m (set_sport (u16 sport) w))) /\
    is_call mac sport port text f /\ (forall x, x < buf \/ buf + 28 <= x -> ld8 m x = ld8 (mm w) x).
Proof.
  intros R Hs Hp Hl Hl2 Ht. rewrite (udp_transmit_reachable _ _ mac) by exact R. set (m := build_udp_hdr _ _ _ _ _ _ _ _).
  assert (O : forall x, x < buf \/ buf + 28 <= x -> ld8 m x = ld8 (mm w) x) by (intros x Hx; apply build_udp_hdr_out; lia).
  destruct (build_udp_hdr_spec (client_ip w) dst sport port 60 len buf (mm w) ltac:(lia)) as (_ & _ & _ & _ & _ & P1 & P2 & _). fold m in P1, P2.
  do 2 eexists. split; [reflexivity|]. split; [|exact O]. split; [reflexivity|]. split; [reflexivity|]. cbn [f_data]. split.
  - replace (Z.to_nat len) with (20 + (4 + Z.to_nat (len - 24)))%nat by lia. rewrite skipn_ldn, ldn_app, firstn_app, length_ldn, Nat.sub_diag, firstn_O, app_nil_r.
    rewrite firstn_all2 by (rewrite length_ldn; lia). rewrite (ldn_app m _ 2 2).
    rewrite (ldn_ld16 m (buf + Z.of_nat 20) sport Hs P1). replace (buf + Z.of_nat 20 + Z.of_nat 2) with (buf + 22) by lia. rewrite (ldn_ld16 m (buf + 22) port Hp P2). reflexivity.
  - replace (Z.to_nat len) with (28 + length text)%nat by lia. rewrite skipn_ldn. etransitivity; [|exact Ht]. apply ldn_ext. intros x Hx. apply O. lia.
Qed.

(** ** Properties *)

(** An ARP request for our address is answered.  The frame goes to the requester's hardware
    address; it is an ARP reply of 28 bytes whose sender is this client (hardware and protocol
    address) and whose target is the requester, the other fields unchanged. *)
Theorem arp_request_answered w info :
  let p := nic_packet + ETH_HLEN in
  ptype info = ETH_P_ARP -> ETH_HLEN + 28 <= packetlen w -> ld16 (mm w) (p + 6) = htons 1 ->
  ld32 (mm w) (p + 24) = client_ip w -> node_ok w -> 0 <= client_ip w < 4294967296 ->
  exists w', arp_default info w = Some (Ret tt, w') /\
    sent w' = {| f_dst := ldn (mm w) (p + 8) 6;
                 f_type := ETH_P_ARP;
                 f_data := ldn (mm w) p 6 ++ [0; 2] ++
                           node (arp w ARP_CLIENT) ++ ip_bytes (client_ip w) ++
                           ldn (mm w) (p + 8) 6 ++ ldn (mm w) (p + 14) 4 |} :: sent w.
Proof.
  intros p Ht Hl Ho Hip [Nl Nb] Hc. unfold arp_default. run. fold p.
  rewrite Ht, Ho, Hip, !Z.eqb_refl, Z.geb_leb.
  destruct (Z.leb_spec (ETH_HLEN + 28) (packetlen w)); [|lia]. cbn [andb].
  eexists. split; [reflexivity|]. cbn [sent set_sent set_mm mm]. f_equal.
  unfold arp_reply. fold p. rewrite firstn_all2 by lia.
  set (nd := node (arp w ARP_CLIENT)) in *.
  set (m1 := st16 (mm w) (p + 6) (htons 2)).
  set (m2 := memcpy m1 (p + 24) (p + 14) 4). set (m3 := memcpy m2 (p + 18) (p + 8) 6).
  set (m4 := st32 m3 (p + 14) (client_ip w)). set (m5 := stn m4 (p + 8) nd).
  assert (L2 : forall x, ld8 m2 x = if (p + 24 <=? x) && (x <? p + 28) then ld8 m1 (x - 10) else ld8 m1 x).
  { intros x. subst m2. rewrite ld8_memcpy by (cbn; lia). change (Z.of_nat 4) with 4.
    replace (p + 24 + 4) with (p + 28) by lia.
    destruct (_ && _); [f_equal; lia | reflexivity]. }
  assert (L3 : forall x, ld8 m3 x = if (p + 18 <=? x) && (x <? p + 24) then ld8 m2 (x - 10) else ld8 m2 x).
  { intros x. subst m3. rewrite ld8_memcpy by (cbn; lia). change (Z.of_nat 6) with 6.
    replace (p + 18 + 6) with (p + 24) by lia.
    destruct (_ && _); [f_equal; lia | reflexivity]. }
  assert (Lo : forall x, x < p + 8 -> ld8 m5 x = ld8 m1 x).
  { intros x Hx. subst m5 m4. rewrite ld8_stn_out, ld8_st32_ne by lia. rewrite L3, !L2.
    case_tests; (reflexivity || lia). }
  assert (Hi : forall x, p + 18 <= x < p + 28 -> ld8 m5 x = ld8 (mm w) (x - 10)).
  { intros x Hx. subst m5 m4. rewrite ld8_stn_out, ld8_st32_ne by lia. rewrite L3, !L2.
    subst m1. case_tests; try lia; rewrite ld8_st16_ne by lia; reflexivity. }
  assert (D18 : ldn m5 (p + 18) 6 = ldn (mm w) (p + 8) 6).
  { replace (ldn m5 (p + 18) 6) with (ldn m5 (p + 18 + 0) 6) by (now rewrite Z.add_0_r).
    rewrite (same_ldn m5 (p + 18) (mm w) (p + 8) 6); [f_equal; lia | | lia | cbn; lia].
    intros i Hi'. rewrite Hi by lia. f_equal. lia. }
  assert (D24 : ldn m5 (p + 24) 4 = ldn (mm w) (p + 14) 4).
  { replace (ldn m5 (p + 24) 4) with (ldn m5 (p + 24 + 0) 4) by (now rewrite Z.add_0_r).
    rewrite (same_ldn m5 (p + 24) (mm w) (p + 14) 4); [f_equal; lia | | lia | cbn; lia].
    intros i Hi'. rewrite Hi by lia. f_equal. lia. }
  f_equal; [exact D18|].
  change (Z.to_nat 28) with (6 + (2 + (6 + (4 + (6 + 4)))))%nat.
  rewrite !ldn_app. cbn [Z.of_nat Pos.of_succ_nat Pos.succ].
  replace (p + 6 + 2) with (p + 8) by lia. replace (p + 8 + 6) with (p + 14) by lia.
  replace (p + 14 + 4) with (p + 18) by lia. replace (p + 18 + 6) with (p + 24) by lia.
  rewrite D18, D24. f_equal; [|f_equal; [|f_equal; [|f_equal]]].
  - apply ldn_ext. intros x Hx. rewrite Lo by lia. subst m1. apply ld8_st16_ne. lia.
  - cbn [ldn]. rewrite !Lo by lia. subst m1. unfold st16. mem_simp. reflexivity.
  - subst m5. rewrite <- Nl, ldn_stn. apply map_u8_bytes, Nb.
  - rewrite (ldn_ext m5 m4); [apply ldn_st32|]. intros x Hx. subst m5. apply ld8_stn_out. lia.
Qed.

(** *** Routing *)

(** Where a datagram goes, without any resolution.  A broadcast goes to the broadcast address
    and a multicast to its group's address, whatever the ARP table holds.  A host on the local
    network, or any host when there is no gateway, is reached at the address of its own entry, and
    any other host at that of the gateway; the datagram is sent once, unchanged.  A next hop that
    has no entry in the ARP table is an error, and nothing is sent. *)
Theorem ip_transmit_routes `{Env} fuel len buf w :
  let dest := ld32 (mm w) (buf + 16) in
  let send mac := Some (Ret 1, set_sent ({| f_dst := mac; f_type := ETH_P_IP;
                                            f_data := ldn (mm w) buf (Z.to_nat len) |} :: sent w) w) in
  let local := Z.land dest (netmask w) =? Z.land (client_ip w) (netmask w) in
  let gw := arp w ARP_GATEWAY in
  let hop := if local || (ipaddr gw =? 0) then dest else ipaddr gw in
  (dest = IP_BROADCAST -> ip_transmit fuel len buf w = send broadcast) /\
  (dest <> IP_BROADCAST -> is_multicast dest = true ->
     ip_transmit fuel len buf w = send (multicast_node dest)) /\
  (dest <> IP_BROADCAST -> is_multicast dest = false ->
     (forall i e, nth_error (arptable w) i = Some e ->
        (forall j e', (j < i)%nat -> nth_error (arptable w) j = Some e' -> ipaddr e' <> hop) ->
        ipaddr e = hop -> (exists b, In b (node e) /\ b <> 0) ->
        ip_transmit fuel len buf w = send (node e)) /\
     ((forall e, In e (arptable w) -> ipaddr e <> hop) -> ip_transmit fuel len buf w = Some (Ret 0, w))).
Proof.
  intros dest send local gw hop. unfold ip_transmit, ip_transmit_with. run. fold dest.
  assert (Hh : next_hop w dest = hop).
  { subst hop local. unfold next_hop. fold gw. unfold istrue.
    destruct (_ =? _), (_ =? _); reflexivity. }
  split; [|split]; intros Hb.
  - rewrite Hb, Z.eqb_refl. reflexivity.
  - intros Hm. apply Z.eqb_neq in Hb. rewrite Hb, Hm. reflexivity.
  - intros Hm. apply Z.eqb_neq in Hb. rewrite Hb, Hm, Hh. split.
    + intros i e Hi Hj He (b & Hin & Hnz).
      rewrite (find_arp_first (arptable w) hop i e 0 Hi Hj He), Nat.add_0_r.
      assert (Ha : arp w i = e) by (unfold arp; now apply nth_error_nth).
      rewrite Ha.
      destruct (forallb (Z.eqb 0) (node e)) eqn:F.
      { rewrite forallb_forall in F. specialize (F b Hin). apply Z.eqb_eq in F. lia. }
      cbv beta iota. rewrite Ha. reflexivity.
    + intros Hn. rewrite find_arp_none by exact Hn. reflexivity.
Qed.

(** C37: a wait ends.  When nothing is received, no key is pressed and no report is due, and the
    clock passes the time of the deadline in the [k]-th round, [await_reply] returns 0 after [k]
    rounds: nothing is sent, and nothing changes but the counts of what was polled. *)
Theorem await_reply_times_out `{Env} k n reply timeout w :
  let time := u32 (timeout + u32 (clock (cnt_clock w))) in
  let w1 := set_cnt_clock (S (cnt_clock w)) w in
  quiet w -> timeout <> 0 -> silent k time w1 ->
  rx (cnt_rx w + k) = None -> kbd (cnt_kbd w + k) = None ->
  time < u32 (clock (S (cnt_clock w) + 2 * k + 1)) ->
  await_reply (k + S n) reply timeout w = Some (Ret 0, advance (S k) w1).
Proof.
  intros time w1 Q Ht S R K C. unfold await_reply, currticks. run. fold w1. fold time.
  rewrite await_silent by assumption.
  rewrite await_round; [|now apply quiet_advance | exact Ht | exact R | exact K].
  destruct (Z.gtb_spec (u32 (clock (cnt_clock (advance k w1) + 1))) time) as [|G].
  - now rewrite advance_1.
  - cbn [advance w1 cnt_clock set_cnt_kbd set_cnt_rx set_cnt_clock] in G. lia.
Qed.

(** C5: address resolution works end to end.  To reach a next hop whose hardware address is not
    known, [ip_transmit] broadcasts one ARP request naming this client and asking for the hop; when
    the answer comes within the wait, after any number [k] of empty rounds, its sender's hardware
    address is stored in the table and the datagram, unchanged, goes there. *)
Theorem ip_transmit_resolves `{Env} k n len buf w i e hd ah mac rest t wr :
  let dest := ld32 (mm w) (buf + 16) in
  let hop := next_hop w dest in
  dest <> IP_BROADCAST -> is_multicast dest = false ->
  nth_error (arptable w) i = Some e -> ipaddr e = hop -> node e = no_node ->
  (forall j e', (j < i)%nat -> nth_error (arptable w) j = Some e' -> ipaddr e' <> hop) ->
  node_ok w -> quiet w -> 0 <= hop < 4294967296 ->
  rfc2131_sleep_interval TIMEOUT 1 w = Some (Ret t, wr) -> t <> 0 ->
  silent k (u32 (t + u32 (clock (cnt_clock wr)))) (set_cnt_clock (S (cnt_clock wr)) w) ->
  rx (cnt_rx w + k) = Some (arp_reply_frame hd ah mac hop rest) ->
  length hd = 12%nat -> length ah = 6%nat -> length mac = 6%nat -> (10 <= length rest)%nat ->
  Forall (fun b => 0 <= b < 256) mac ->
  arpreq + 28 <= buf -> 0 <= len ->
  exists w', ip_transmit (k + S n) len buf w = Some (Ret 1, w') /\
    arptable w' = list_set (arptable w) i {| ipaddr := hop; node := mac |} /\
    sent w' =
      {| f_dst := mac; f_type := ETH_P_IP; f_data := ldn (mm w) buf (Z.to_nat len) |} ::
      {| f_dst := broadcast; f_type := ETH_P_ARP;
         f_data := [0; 1; 8; 0; 6; 4; 0; 1] ++ node (arp w ARP_CLIENT) ++ ip_bytes (client_ip w) ++
                   [0; 0; 0; 0; 0; 0] ++ ip_bytes hop |} :: sent w.
Proof.
  intros dest hop Hb Hm Hi He Hz Hj Nok Q Hhop Hs Ht Sil Hrx Hh Ha Hmac Hrest Nb Hbuf Hlen.
  unfold ip_transmit, ip_transmit_with. run. fold dest. apply Z.eqb_neq in Hb. rewrite Hb, Hm.
  fold hop. rewrite (find_arp_first (arptable w) hop i e 0 Hi Hj He), Nat.add_0_r.
  assert (Hae : arp w i = e) by (unfold arp; now apply nth_error_nth).
  assert (Hlt : (i < length (arptable w))%nat) by (apply nth_error_Some; congruence).
  rewrite Hae, Hz. cbn [forallb no_node Z.eqb andb]. change MAX_ARP_RETRIES with (S 19).
  generalize 19%nat. intros K. cbn [arp_retry].
  run. destruct (rfc2131_frame TIMEOUT 1 w t wr Hs) as (sd & Hwr & Hfr).
  cbn [mm sent set_mm set_sent]. change (Z.to_nat 28) with 28%nat.
  rewrite build_arpreq_bytes by exact Nok. rewrite Hfr. set (m1 := build_arpreq w hop (mm w)).
  set (fr := {| f_dst := broadcast; f_type := ETH_P_ARP; f_data := _ ++ _ |}).
  set (w1 := set_sent (fr :: sent w) (set_mm m1 wr)).
  assert (O1 : forall x, x < arpreq \/ arpreq + 28 <= x -> ld8 m1 x = ld8 (mm w) x)
    by (intros x Hx; apply build_arpreq_out; [exact (proj1 Nok) | exact Hx]).
  assert (Q1 : quiet w1).
  { destruct Q as (Qn & Qr). subst w1. rewrite Hwr. split; [|exact Qr]. rewrite <- Qn.
    unfold node_changed. cbn [mm arp arptable set_sent set_mm set_seed set_cnt_clock].
    rewrite (ldn_ext m1 (mm w)); [reflexivity|]. intros x Hx. apply O1. left.
    unfold lacp_pkt, arpreq, ACTOR, SYSTEM in *. lia. }
  destruct (await_reply_arp k n i w1 t hd ah mac hop rest) as (w2 & E & A2 & S2 & M2); try assumption.
  { subst w1. rewrite Hwr in Sil |- *. exact Sil. }
  { subst w1. rewrite Hwr. exact Hrx. }
  rewrite E. cbn [istrue Z.eqb negb]. cbv beta iota. eexists. split; [reflexivity|].
  cbn [arptable sent set_sent]. rewrite A2, S2.
  assert (A1 : arptable w1 = arptable w) by (subst w1; now rewrite Hwr).
  assert (Ai : arp w2 i = {| ipaddr := hop; node := mac |}).
  { unfold arp. rewrite A2, A1. rewrite nth_list_set by exact Hlt. unfold arp. rewrite A1.
    change (nth i (arptable w) _) with (arp w i). now rewrite Hae, He. }
  rewrite Ai, A1. unfold arp. rewrite A1. change (nth i (arptable w) _) with (arp w i).
  rewrite Hae, He. split; [reflexivity|]. cbn [node]. f_equal. f_equal.
  apply ldn_ext. intros x Hx. rewrite M2 by (unfold arpreq, nic_packet in *; lia).
  subst w1. cbn [mm set_sent set_mm]. apply O1. lia.
Qed.

(** *** Multicast addresses *)

(** The mapping of RFC 1112: the low 23 bits of the group address. *)
Definition rfc1112_node (group : Z) : list Z :=
  let low := group mod 8388608 in
  [0x01; 0x00; 0x5e; low / 65536; low / 256 mod 256; low mod 256].

(** The hardware address a multicast datagram is sent to is the one of RFC 1112 exactly for the
    groups whose address has bits 19 to 22 clear.  The mask 0x7 keeps 19 of the 23 bits, so that a
    datagram for any other group is sent to an address on which no member listens. *)
Theorem multicast_node_partial ip :
  0 <= ip < 4294967296 ->
  multicast_node ip = rfc1112_node (ntohl ip) <-> ntohl ip / 524288 mod 16 = 0.
Proof.
  intros Hip. unfold multicast_node, rfc1112_node. cbv zeta.
  rewrite !Z.shiftr_div_pow2 by lia. change 0x7 with (Z.ones 3). change 0xff with (Z.ones 8).
  rewrite !Z.land_ones by lia. change (2 ^ 16) with 65536. change (2 ^ 8) with 256. change (2 ^ 3) with 8.
  generalize (ntohl ip). intros g. split.
  - intros [= H _ _]. Z.div_mod_to_equations. lia.
  - intros H.
    assert (E3 : g / 65536 mod 8 = g mod 8388608 / 65536) by (Z.div_mod_to_equations; lia).
    assert (E2 : g / 256 mod 256 = g mod 8388608 / 256 mod 256) by (Z.div_mod_to_equations; lia).
    assert (E1 : g mod 256 = g mod 8388608 mod 256) by (Z.div_mod_to_equations; lia).
    now rewrite E1, E2, E3.
Qed.

(** *** Witnesses *)

(** A network on which nothing happens, with a clock that advances by 50 ticks a reading, and one
    on which 10.0.0.2 answers an ARP request in the third round. *)
#[local] Instance silent_env : Env :=
  {| clock n := Z.of_nat n * 50; rx _ := None; kbd _ := None; rx_len n bs H := ltac:(discriminate H) |}.
Definition reply1 : list Z :=
  arp_reply_frame [2; 0; 0; 0; 0; 1; 2; 0; 0; 0; 0; 2] [0; 1; 8; 0; 6; 4] [2; 0; 0; 0; 0; 2] 0x0200000a
    [2; 0; 0; 0; 0; 1; 10; 0; 0; 1].
Definition arp_env : Env.
Proof.
  refine {| clock n := Z.of_nat n * 50; rx n := if Nat.eqb n 2 then Some reply1 else None; kbd _ := None |}.
  intros n bs. destruct (Nat.eqb n 2); [|discriminate]. intros [= <-]. vm_compute. lia.
Defined.
(** [world0] with an initialised LACP state and a datagram for 10.0.0.2 at [0x40000]. *)
Definition world1 : world :=
  let w := lacp_init_state [2; 0; 0; 0; 0; 1] world0 in
  set_mm (build_udp_hdr 0x0100000a 0x0200000a 2000 69 60 30 0x40000 (mm w)) w.

Lemma await_reply_times_out_witness :
  exists w', await_reply (3 + S 7) await_qdrain 360 world1 = Some (Ret 0, w') /\ sent w' = [].
Proof.
  eexists. split.
  - apply (await_reply_times_out 3 7 await_qdrain 360 world1).
    + split; [vm_compute; reflexivity|]. split; [reflexivity|]. split; [reflexivity|]. repeat constructor.
    + lia.
    + intros i Hi. split; [reflexivity|]. split; [reflexivity|].
      destruct i as [|[|[|i]]]; [vm_compute; discriminate .. | lia].
    + reflexivity.
    + reflexivity.
    + vm_compute. reflexivity.
  - reflexivity.
Defined.

Lemma ip_transmit_resolves_witness :
  exists w' dg rq, @ip_transmit arp_env (2 + S 7) 30 0x40000 world1 = Some (Ret 1, w') /\
    sent w' = [{| f_dst := [2; 0; 0; 0; 0; 2]; f_type := ETH_P_IP; f_data := dg |};
               {| f_dst := broadcast; f_type := ETH_P_ARP; f_data := rq |}] /\
    length dg = 30%nat.
Proof.
  destruct (@ip_transmit_resolves arp_env 2 7 30 0x40000 world1 1
              {| ipaddr := 0x0200000a; node := no_node |}
              [2; 0; 0; 0; 0; 1; 2; 0; 0; 0; 0; 2] [0; 1; 8; 0; 6; 4] [2; 0; 0; 0; 0; 2]
              [2; 0; 0; 0; 0; 1; 10; 0; 0; 1] 378
              (set_seed 40014 world1)) as (w' & E & _ & S).
  - vm_compute. discriminate.
  - vm_compute. reflexivity.
  - reflexivity.
  - vm_compute. reflexivity.
  - reflexivity.
  - intros [|j] e' Hj; [|lia]. intros [= <-]. vm_compute. discriminate.
  - split; [reflexivity | repeat constructor; lia].
  - split; [vm_compute; reflexivity|]. split; [reflexivity|]. split; [reflexivity|]. repeat constructor.
  - vm_compute. split; [discriminate|reflexivity].
  - reflexivity.
  - lia.
  - intros i Hi. split; [|split; [reflexivity|]];
      (destruct i as [|[|i]]; [vm_compute; (reflexivity || discriminate) .. | lia]).
  - vm_compute. reflexivity.
  - reflexivity.
  - reflexivity.
  - reflexivity.
  - cbn. lia.
  - repeat constructor; lia.
  - vm_compute. discriminate.
  - lia.
  - exists w'. do 2 eexists. split; [exact E|]. split; [exact S|]. rewrite length_ldn. reflexivity.
Defined.

Lemma ip_transmit_routes_witness :
  let w := set_mm (st32 (mm world0) 0x40010 0xFFFFFFFF) world0 in
  ip_transmit 0 30 0x40000 w =
  Some (Ret 1, set_sent [{| f_dst := broadcast; f_type := ETH_P_IP; f_data := ldn (mm w) 0x40000 30 |}] w).
Proof.
  intros w. destruct (ip_transmit_routes 0 30 0x40000 w) as (B & _). apply B. vm_compute. reflexivity.
Defined.

Lemma multicast_node_partial_witness :
  multicast_node (htonl 0xe0010203) = rfc1112_node (ntohl (htonl 0xe0010203)) /\
  multicast_node (htonl 0xe0480001) <> rfc1112_node (ntohl (htonl 0xe0480001)).
Proof.
  split.
  - apply (multicast_node_partial (htonl 0xe0010203)); vm_compute; [split; [discriminate|]|]; reflexivity.
  - vm_compute. discriminate.
Defined.

Lemma arp_request_answered_witness :
  let p := nic_packet + ETH_HLEN in
  let w := set_packetlen 60
             (set_mm (st32 (stn (st16 (mm world0) (p + 6) (htons 1)) (p + 8) [2; 0; 0; 0; 0; 9; 10; 0; 0; 9])
                        (p + 24) 0x0100000a) world0) in
  exists w' bs, arp_default {| ptype := ETH_P_ARP; has_ip := false; has_udp := false; has_tcp := false |} w
                = Some (Ret tt, w') /\
    sent w' = [{| f_dst := [2; 0; 0; 0; 0; 9]; f_type := ETH_P_ARP; f_data := bs |}].
Proof.
  intros p w.
  destruct (arp_request_answered w {| ptype := ETH_P_ARP; has_ip := false; has_udp := false;
                                      has_tcp := false |}) as (w' & E & S);
    [reflexivity | vm_compute; discriminate | reflexivity | vm_compute; reflexivity
    | split; [reflexivity | repeat constructor; lia] | vm_compute; split; [discriminate|reflexivity] |].
  exists w'. eexists. split; [exact E|]. rewrite S. reflexivity.
Defined.
