(* ===== verification/Tftp.v ===== *)
(** The TFTP client of [src/src/core/nic.c]: [await_tftp], [tftp_block] and [tftp].

    The static variables of [tftp_block] are a record that is passed along; its static packet
    buffer [xmit] and the received packet lie in memory.  A [longjmp] out of a wait abandons the
    transfer, and the next request resets the record, so the record is not kept across one. *)

From S2P Require Import Prelude Memory StringLib Misc Vsprintf Net Lacp Nic.
Import String.StringSyntax.

Definition TFTP_PORT : Z := 69.
Definition TFTP_DEFAULTSIZE_PACKET : Z := 512.
Definition TFTP_MAX_PACKET : Z := 1432.
Definition TFTP_RRQ : Z := 1.
Definition TFTP_DATA : Z := 3.
Definition TFTP_ACK : Z := 4.
Definition TFTP_ERROR : Z := 5.
Definition TFTP_OACK : Z := 6.
Definition TFTP_MIN_PACKET : Z := 32.
Definition MAX_TFTP_RETRIES : Z := 20.

(** [xmit], and the literal [blksize]. *)
Definition xmit : Z := 0x35000.
Definition lit_blksize : Z := 0x36000.
(** [rcvd] *)
Definition rcvd : Z := nic_packet + ETH_HLEN.

Record tftpreq_info := { rq_name : list Z; rq_port : Z; rq_blksize : Z }.
Record tftpblk_info := { blk_data : Z; blk_block : Z; blk_len : Z; blk_eof : bool }.
Record tftp_state := { lport : Z; rport : Z; xmitlen : Z; blockidx : Z; retry : Z; blksize : Z }.
Definition tftp_init : tftp_state :=
  {| lport := 2000; rport := TFTP_PORT; xmitlen := 0; blockidx := 0; retry := 0; blksize := 0 |}.
Definition no_block : tftpblk_info := {| blk_data := 0; blk_block := 0; blk_len := 0; blk_eof := false |}.

Definition await_tftp (ival : Z) : reply_t := fun info =>
  if negb (has_udp info) then ret 0
  else
    w <- get ;;
    if negb (client_ip w =? ld32 (mm w) (ip_ptr + 16)) then ret 0
    else if negb (ntohs (ld16 (mm w) (ip_ptr + 22)) =? ival) then ret 0
    else ret 1.

(** The text of a request. *)
Definition rrq_text (name : list Z) (blk : Z) : list Z :=
  match vsprintf (txt "%s%coctet%cblksize%c%d"%string) [AStr name; AInt 0; AInt 0; AInt 0; AInt blk] with
  | Some out => out
  | None => []
  end.
Definition build_rrq (text : list Z) (m : mem) : mem :=
  stn (st16 m (xmit + 28) (htons TFTP_RRQ)) (xmit + 30) (text ++ [0]).
Definition build_ack (idx : Z) (m : mem) : mem :=
  st16 (st16 m (xmit + 28) (htons TFTP_ACK)) (xmit + 30) (htons idx).
Definition oack_error_text : list Z := txt "RFC1782 error"%string.
Definition build_oack_error (m : mem) : mem :=
  stn (st16 (st16 m (xmit + 28) (htons TFTP_ERROR)) (xmit + 30) 8) (xmit + 32) (oack_error_text ++ [0]).

(** [while ( *(p++) ) {};] *)
Fixpoint skip_string (fuel : nat) (m : mem) (p : Z) : option Z :=
  match fuel with
  | O => None
  | S n => if ld8 m p =? 0 then Some (p + 1) else skip_string n m (p + 1)
  end.
(** The options of an OACK between [p] and [e]: the block size found. *)
Fixpoint oack_loop (fuel : nat) (m : mem) (p e blk : Z) : option Z :=
  match fuel with
  | O => None
  | S n =>
      if p <? e then
        let* c := strcasecmp fuel (stn m lit_blksize (txt "blksize"%string ++ [0])) lit_blksize p in
        let* '(blk, p) :=
          (if (c =? 0) && (ld8 m (p + 7) =? 0) then
             let* '(v, q) := strtoul_loop fuel m (p + 8) 0 in Some (s32 v, q + 1)
           else Some (blk, p)) in
        let* p := skip_string fuel m p in
        oack_loop n m p e blk
      else Some blk
  end.

(** What the [switch] decides about a packet. *)
Inductive verdict :=
| VReturn (rc : Z)
| VOackError
| VBlock (b : tftpblk_info)
| VAck.

Definition recvlen (m : mem) : Z := u16 (ntohs (ld16 m (rcvd + 24)) - 8 - 2).

(** [case TFTP_DATA] *)
Definition on_data (m : mem) (st : tftp_state) : verdict * tftp_state :=
  if negb (ntohs (ld16 m (rcvd + 30)) =? u16 (blockidx st + 1)) then (VAck, st)
  else if recvlen m >? u32 (blksize st + 2) then (VAck, st)
  else
    let idx := u16 (blockidx st + 1) in
    let len := u32 (recvlen m - 2) in
    let eof := u16 len <? blksize st in
    (VBlock {| blk_data := rcvd + 32; blk_block := idx; blk_len := len; blk_eof := eof |},
     {| lport := lport st; rport := rport st; xmitlen := xmitlen st; blockidx := idx;
        retry := retry st; blksize := if eof then 0 else blksize st |}).
(** [case TFTP_OACK] *)
Definition on_oack (fuel : nat) (req : option tftpreq_info) (m : mem) (st : tftp_state)
    : option (verdict * mem * tftp_state) :=
  let p := rcvd + 30 in
  let e := p + recvlen m - 10 in
  let rl := recvlen m in
  let m := st8 m (p + rl - 1) 0 in
  match req with
  | None => Some (VAck, m, st)
  | Some r =>
      if istrue (blockidx st) then Some (VAck, m, st)
      else
        let* blk := (if rl <=? TFTP_MAX_PACKET then oack_loop fuel m p e (blksize st)
                     else Some (blksize st)) in
        let st := {| lport := lport st; rport := rport st; xmitlen := xmitlen st;
                     blockidx := blockidx st; retry := retry st; blksize := blk |} in
        if (blk <? TFTP_DEFAULTSIZE_PACKET) || (blk >? rq_blksize r)
        then Some (VOackError, m, st) else Some (VAck, m, st)
  end.
Definition on_packet (fuel : nat) (req : option tftpreq_info) (m : mem) (st : tftp_state)
    : option (verdict * mem * tftp_state) :=
  let st := {| lport := lport st; rport := ntohs (ld16 m (rcvd + 20)); xmitlen := xmitlen st;
               blockidx := blockidx st; retry := 0; blksize := blksize st |} in
  let op := htons (ld16 m (rcvd + 28)) in
  if op =? TFTP_ERROR then Some (VReturn (- ntohs (ld16 m (rcvd + 30))), m, st)
  else if op =? TFTP_OACK then on_oack fuel req m st
  else if op =? TFTP_DATA then let '(v, st) := on_data m st in Some (v, m, st)
  else Some (VAck, m, st).

Section tftp.
Context `{E : Env}.

Definition set_xmitlen (n : Z) (st : tftp_state) : tftp_state :=
  {| lport := lport st; rport := rport st; xmitlen := u16 n; blockidx := blockidx st;
     retry := retry st; blksize := blksize st |}.
Definition tftp_send (fuel : nat) (st : tftp_state) : M Z :=
  w <- get ;;
  udp_transmit fuel (ipaddr (arp w ARP_SERVER)) (lport st) (rport st) (xmitlen st) xmit.

(** What a call gives back: the result, the block, the request with the block size granted, and
    the static variables. *)
Definition tftp_result : Type := Z * tftpblk_info * option tftpreq_info * tftp_state.
Definition grant (req : option tftpreq_info) (st : tftp_state) : option tftpreq_info :=
  match req with
  | None => None
  | Some r => Some (if istrue (blksize st)
                    then {| rq_name := rq_name r; rq_port := rq_port r; rq_blksize := u16 (blksize st) |}
                    else r)
  end.

(** The loop that waits for a packet of interest. *)
Fixpoint tftp_wait (fuel : nat) (req : option tftpreq_info) (st : tftp_state) {struct fuel}
    : M tftp_result :=
  match fuel with
  | O => oof
  | S n =>
      timeout <- rfc2131_sleep_interval (if istrue (blockidx st) then TFTP_REXMT else TIMEOUT) (retry st) ;;
      got <- await_reply n (await_tftp (lport st)) timeout ;;
      if got =? 0 then
        let over := retry st >? MAX_TFTP_RETRIES in
        let st := {| lport := if istrue (blockidx st) || over then lport st else u16 (lport st + 1);
                     rport := rport st; xmitlen := xmitlen st; blockidx := blockidx st;
                     retry := u16 (retry st + 1); blksize := blksize st |} in
        if over then ret (0, no_block, grant req st, st)
        else
          ok <- tftp_send n st ;;
          if ok =? 0 then ret (0, no_block, req, st) else tftp_wait n req st
      else
        w <- get ;;
        match on_packet n req (mm w) st with
        | None => oof
        | Some (v, m, st) =>
            modify (set_mm m) ;;;
            match v with
            | VReturn rc => ret (rc, no_block, req, st)
            | VOackError =>
                set_mem build_oack_error ;;;
                let st := set_xmitlen (32 + Z.of_nat (length oack_error_text) + 1) st in
                tftp_send n st ;;;
                ret (0, no_block, req, st)
            | VBlock b =>
                set_mem (build_ack (blockidx st)) ;;;
                let st := set_xmitlen TFTP_MIN_PACKET st in
                tftp_send n st ;;;
                ret (1, b, grant req st, st)
            | VAck =>
                set_mem (build_ack (blockidx st)) ;;;
                let st := set_xmitlen TFTP_MIN_PACKET st in
                tftp_send n st ;;;
                tftp_wait n req st
            end
        end
  end.

Definition tftp_block (fuel : nat) (req : option tftpreq_info) (st : tftp_state) : M tftp_result :=
  match req with
  | None =>
      if blksize st =? 0 then ret (0, no_block, req, st) else tftp_wait fuel req st
  | Some r =>
      rx_qdrain fuel ;;;
      let text := rrq_text (rq_name r) (rq_blksize r) in
      set_mem (build_rrq text) ;;;
      let st := {| lport := u16 (lport st + 1); rport := rq_port r;
                   xmitlen := u16 (30 + Z.of_nat (length text) + 1); blockidx := 0; retry := 0;
                   blksize := TFTP_DEFAULTSIZE_PACKET |} in
      ok <- tftp_send fuel st ;;
      if ok =? 0 then ret (0, no_block, req, st) else tftp_wait fuel req st
  end.

(** [tftp]: [fnc] is given the address of the data, the block number, the length and the end flag. *)
Fixpoint tftp_loop (fuel : nat) (fnc : Z -> Z -> Z -> bool -> M Z) (req : option tftpreq_info)
    (st : tftp_state) {struct fuel} : M (Z * tftp_state) :=
  match fuel with
  | O => oof
  | S n =>
      r <- tftp_block n req st ;;
      let '(rc, b, _, st) := r in
      if rc >? 0 then
        rc <- fnc (blk_data b) (blk_block b) (blk_len b) (blk_eof b) ;;
        if rc <=? 0 then ret (rc, st)
        else if blk_eof b then ret (rc, st)
        else tftp_loop n fnc None st
      else ret (rc, st)
  end.
Definition tftp (fuel : nat) (name : list Z) (fnc : Z -> Z -> Z -> bool -> M Z) (st : tftp_state)
    : M (Z * tftp_state) :=
  tftp_loop fuel fnc
    (Some {| rq_name := name; rq_port := TFTP_PORT; rq_blksize := TFTP_MAX_PACKET |}) st.
End tftp.

(** ** A server's packets *)

(** The frame in which a server sends block [idx]. *)
Definition data_frame (hd : list Z) (srv cli sp dp idx : Z) (payload : list Z) : list Z :=
  udp_frame hd srv cli sp dp ([0; 3; idx / 256; idx mod 256] ++ payload).

(** What the client finds in the packet buffer. *)
Section received.
Context (m0 : mem) (hd payload : list Z) (srv cli sp dp idx : Z).
Context (Hh : length hd = 12%nat) (Hl : (length payload <= 1468)%nat).
Context (Hp : Forall (fun b => 0 <= b < 256) payload).
Context (Hi : 0 <= idx < 65536) (Hc : 0 <= cli < 4294967296) (Hd : 0 <= dp < 65536).
Let fr := data_frame hd srv cli sp dp idx payload.
Let m := stn m0 nic_packet fr.

Lemma data_frame_length : length fr = (46 + length payload)%nat.
Proof using Hh.
  subst fr. unfold data_frame. rewrite udp_frame_length by exact Hh. rewrite length_app. reflexivity.
Qed.

Lemma data_frame_received :
  rx_filter m (Z.of_nat (length fr))
  = (m, Z.of_nat (length fr),
     Some {| ptype := ETH_P_IP; has_ip := true; has_udp := true; has_tcp := false |}) /\
  ld32 m (ip_ptr + 16) = cli /\ ntohs (ld16 m (ip_ptr + 20)) = u16 sp /\
  ntohs (ld16 m (ip_ptr + 22)) = dp /\
  htons (ld16 m (rcvd + 28)) = TFTP_DATA /\ ntohs (ld16 m (rcvd + 30)) = idx /\
  recvlen m = Z.of_nat (length payload) + 2 /\ ldn m (rcvd + 32) (length payload) = payload.
Proof.
  change rcvd with ip_ptr. unfold recvlen. change rcvd with ip_ptr.
  set (body := [0; 3; idx / 256; idx mod 256] ++ payload).
  assert (Bb : Forall (fun b => 0 <= b < 256) body).
  { apply Forall_app. split; [|exact Hp]. repeat (constructor; [Z.div_mod_to_equations; lia|]). constructor. }
  destruct (udp_frame_received m0 hd body srv cli sp dp Hh) as (R1 & R2 & R3 & R4 & R5 & B);
    [subst body; rewrite length_app; cbn [length]; lia | exact Bb | exact Hc |].
  change (udp_frame hd srv cli sp dp body) with fr in *. fold m in R1, R2, R3, R4, R5, B. split; [exact R1|]. split; [exact R2|]. split; [exact R3|].
  split; [rewrite R4; now apply u16_small|].
  unfold body in B. rewrite length_app, ldn_app in B. apply app_split_length in B as [B1 B2]; [|apply length_ldn].
  change (ldn m (ip_ptr + 28) (2 + 2) = [0; 3] ++ [idx / 256; idx mod 256]) in B1.
  rewrite ldn_app in B1. apply app_split_length in B1 as [O1 O2]; [|reflexivity].
  apply ld16_ldn in O1. change (ip_ptr + 28 + Z.of_nat 2) with (ip_ptr + 30) in O2.
  apply ld16_ldn in O2.
  split; [now rewrite O1|].
  split; [rewrite O2; now apply ntohs_pair|]. split; [|exact B2].
  rewrite R5. subst body. rewrite length_app, u16_small; cbn [length]; lia.
Qed.
End received.

(** ** Steps of the client *)

(** What a step leaves alone: the tables and timers, and the memory outside the packet buffer and
    [xmit]. *)
Definition same_net (w w' : world) : Prop :=
  arptable w' = arptable w /\ netmask w' = netmask w /\ igmptable w' = igmptable w /\
  current_while_timer w' = current_while_timer w /\ periodic_timer w' = periodic_timer w /\
  forall x, x < nic_packet \/ nic_packet + 1514 <= x -> x < xmit \/ xmit + 600 <= x ->
    ld8 (mm w') x = ld8 (mm w) x.

Lemma same_net_trans w1 w2 w3 : same_net w1 w2 -> same_net w2 w3 -> same_net w1 w3.
Proof.
  intros (A & B & C & D & F & G) (A' & B' & C' & D' & F' & G').
  repeat (split; [congruence|]). intros x H1 H2. now rewrite G', G.
Qed.
Lemma same_net_tabs w w' : same_net w w' -> same_tabs w w'.
Proof.
  intros (A & B & C & D & F & G). repeat (split; [assumption|]).
  intros x Hx. apply G; unfold lacp_pkt, nic_packet, xmit in *; lia.
Qed.
Lemma same_tabs_trans w1 w2 w3 : same_tabs w1 w2 -> same_tabs w2 w3 -> same_tabs w1 w3.
Proof.
  intros (A & B & C & D & F & G) (A' & B' & C' & D' & F' & G'). repeat (split; [congruence|]). intros x Hx. now rewrite G', G.
Qed.
(** Sending what is in [xmit], from the client's port to the server's. *)
Lemma tftp_send_reachable `{Env} fuel st w srv mac text :
  ipaddr (arp w ARP_SERVER) = srv -> reachable w srv mac -> 0 <= lport st < 65536 -> 0 <= rport st < 65536 ->
  xmitlen st = 28 + Z.of_nat (length text) -> xmitlen st <= 600 -> ldn (mm w) (xmit + 28) (length text) = text ->
  exists w' fr, tftp_send fuel st w = Some (Ret 1, w') /\ same_net w w' /\ cnt_rx w' = cnt_rx w /\
    sent w' = fr :: sent w /\ is_call mac (lport st) (rport st) text fr /\ cnt_kbd w' = cnt_kbd w /\
    (forall x, x < xmit \/ xmit + 28 <= x -> ld8 (mm w') x = ld8 (mm w) x).
Proof.
  intros Hs Hr Hl Hp Hx Hx2 Ht. unfold tftp_send. run. rewrite Hs.
  destruct (udp_call fuel (lport st) (rport st) (xmitlen st) xmit w srv mac text Hr Hl Hp Hx ltac:(lia) Ht)
    as (m & fr & -> & F & O).
  do 2 eexists. split; [reflexivity|]. split; [|split; [reflexivity|split; [reflexivity|split; [exact F|split; [reflexivity|exact O]]]]].
  repeat (split; [reflexivity|]). intros x _ H2. apply O. lia.
Qed.

(** A frame that the filter passes unchanged and that is for the port ends the wait. *)
Lemma await_tftp_frame `{Env} n lp t w bs info :
  let m := stn (mm w) nic_packet bs in
  quiet w -> rx (cnt_rx w) = Some bs ->
  rx_filter m (Z.of_nat (length bs)) = (m, Z.of_nat (length bs), Some info) -> has_udp info = true ->
  ld32 m (ip_ptr + 16) = client_ip w -> ntohs (ld16 m (ip_ptr + 22)) = lp ->
  exists w', await_reply (S n) (await_tftp lp) t w = Some (Ret 1, w') /\ mm w' = m /\
    same_net w w' /\ cnt_rx w' = S (cnt_rx w) /\ sent w' = sent w /\ cnt_kbd w' = cnt_kbd w.
Proof.
  intros m Q Hrx Hf Hu Hc Hp.
  destruct (await_reply_frame n (await_tftp lp) t w bs info 1 (fun w => w) Q Hrx Hf) as (c & E); [lia| |].
  { intros w1 Hm _ Ha. unfold await_tftp. rewrite Hu. cbn [negb]. run. unfold client_ip, arp in *.
    rewrite Hm, Ha. fold m. rewrite Hc, Hp, !Z.eqb_refl. reflexivity. }
  eexists. split; [exact E|]. split; [reflexivity|]. split; [|now repeat split].
  repeat (split; [reflexivity|]). intros x Hx _. apply ld8_stn_out. pose proof (rx_len _ _ Hrx). lia.
Qed.

(** The acknowledgement of block [idx], from the client's port [lp] to the port [sp] the server sends from. *)
Definition ack_of (mac : list Z) (lp sp idx : Z) (f : frame) : Prop := is_call mac lp sp [0; 4; idx / 256; idx mod 256] f.
(** The request for a file: opcode 1, the name, the mode and the block size option. *)
Definition rrq_of (mac : list Z) (lp : Z) (name : list Z) (f : frame) : Prop :=
  is_call mac lp 69 ([0; 1] ++ name ++ [0] ++ txt "octet"%string ++ [0] ++ txt "blksize"%string ++ [0] ++ txt "1432"%string ++ [0]) f.

(** The states after a block and its acknowledgement. *)
Definition after_block (st : tftp_state) (sp idx len : Z) : tftp_state :=
  {| lport := lport st; rport := u16 sp; xmitlen := TFTP_MIN_PACKET; blockidx := idx; retry := 0;
     blksize := if len <? blksize st then 0 else blksize st |}.

Lemma tftp_wait_data `{Env} n req st w srv mac hd s sp idx payload :
  let cli := client_ip w in
  let len := Z.of_nat (length payload) in
  quiet w -> ipaddr (arp w ARP_SERVER) = srv -> reachable w srv mac -> 0 <= cli < 4294967296 ->
  rx (cnt_rx w) = Some (data_frame hd s cli sp (lport st) idx payload) ->
  length hd = 12%nat -> Forall (fun b => 0 <= b < 256) payload ->
  idx = u16 (blockidx st + 1) -> len <= blksize st <= 1432 -> 0 <= lport st < 65536 ->
  exists w' ack,
    tftp_wait (S (S n)) req st w =
      Some (Ret (1, {| blk_data := rcvd + 32; blk_block := idx; blk_len := len; blk_eof := len <? blksize st |},
                 grant req (after_block st sp idx len), after_block st sp idx len), w') /\
    ldn (mm w') (rcvd + 32) (length payload) = payload /\ same_net w w' /\
    cnt_rx w' = S (cnt_rx w) /\ sent w' = ack :: sent w /\ ack_of mac (lport st) (u16 sp) idx ack.
Proof.
  intros cli len Q Hsrv Hr Hcli Hrx Hh Hp Hidx Hb Hlp.
  assert (Ri : 0 <= idx < 65536) by (subst idx; apply u16_range).
  assert (Ll : (length payload <= 1468)%nat) by (subst len; lia).
  remember (S n) as k eqn:Ek. cbn [tftp_wait]. run.
  destruct (rfc2131_total (if istrue (blockidx st) then TFTP_REXMT else TIMEOUT) (retry st) w)
    as (t & sd & c & ->).
  set (w1 := set_seed sd (set_cnt_clock c w)).
  destruct (data_frame_received (mm w) hd payload s cli sp (lport st) idx Hh Ll Hp Ri Hcli Hlp)
    as (F1 & F2 & F3 & F4 & F5 & F6 & F7 & F8).
  subst k.
  destruct (await_tftp_frame n (lport st) t w1 _ _ Q Hrx F1 eq_refl F2 F4)
    as (w2 & -> & M2 & N2 & C2 & S2 & _).
  set (m := stn (mm w) nic_packet _) in *. change (stn (mm w1) nic_packet _) with m in M2.
  cbn [Z.eqb]. run. unfold on_packet. rewrite M2, F5.
  cbn [Z.eqb Pos.eqb TFTP_ERROR TFTP_OACK TFTP_DATA]. unfold on_data. cbn [blockidx blksize].
  change rcvd with ip_ptr in *.
  rewrite F6, F7, <- Hidx, Z.eqb_refl, Z.gtb_ltb. cbn [negb]. fold len.
  rewrite (u32_small (blksize st + 2)) by lia.
  destruct (Z.ltb_spec (blksize st + 2) (len + 2)); [lia|].
  replace (len + 2 - 2) with len by lia.
  rewrite (u32_small len), (u16_small len) by lia. rewrite F3. cbn [lport rport xmitlen retry blockidx blksize].
  set (st' := set_xmitlen _ _).
  assert (Est : st' = after_block st sp idx len) by reflexivity. clearbody st'. subst st'.
  set (w3 := set_mm (build_ack idx (mm (set_mm m w2))) (set_mm m w2)).
  assert (A3 : forall x, x < xmit + 28 \/ xmit + 32 <= x -> ld8 (mm w3) x = ld8 m x).
  { intros x Hx. subst w3. cbn [mm set_mm]. unfold build_ack. ld_simp. reflexivity. }
  assert (N3 : same_net w w3).
  { apply (same_net_trans w w2); [exact N2|]. repeat (split; [reflexivity|]).
    intros x _ H2. rewrite A3, M2 by lia. reflexivity. }
  assert (Hs3 : ipaddr (arp w3 ARP_SERVER) = srv).
  { unfold arp. rewrite (proj1 N3). exact Hsrv. }
  assert (Tx : ldn (mm w3) (xmit + 28) 4 = [0; 4; idx / 256; idx mod 256]).
  { subst w3. cbn [mm set_mm]. rewrite (ldn_app _ _ 2 2). unfold build_ack.
    change (xmit + 28 + Z.of_nat 2) with (xmit + 30). rewrite htons_bytes by lia.
    rewrite (ldn_ext _ (st16 m (xmit + 28) (htons TFTP_ACK))) by (intros x Hx; apply ld8_st16_ne; lia).
    rewrite htons_bytes by (unfold TFTP_ACK; lia). reflexivity. }
  destruct (tftp_send_reachable (S n) (after_block st sp idx len) w3 srv mac [0; 4; idx / 256; idx mod 256] Hs3
              (same_tabs_reachable _ _ _ _ (same_net_tabs _ _ N3) Hr)) as (w4 & ack & -> & N4 & C4 & S4 & F4' & _ & O4);
    [exact Hlp | apply u16_range | reflexivity | cbn [xmitlen after_block]; unfold TFTP_MIN_PACKET; lia | exact Tx |].
  run. exists w4, ack. split; [reflexivity|].
  split; [|split; [now apply (same_net_trans w w3)|split; [|split; [|exact F4']]]].
  - etransitivity; [|exact F8]. apply ldn_ext. intros x Hx. subst len.
    rewrite O4, A3 by (unfold ip_ptr, nic_packet, ETH_HLEN, xmit in *; lia). reflexivity.
  - rewrite C4. change (cnt_rx w3) with (cnt_rx w2). rewrite C2. reflexivity.
  - rewrite S4. change (sent w3) with (sent w2). now rewrite S2.
Qed.

(** *** A whole transfer *)

(** A consumer that puts each block of [bsz] bytes in its place. *)
Definition store_block (dest bsz : Z) : Z -> Z -> Z -> bool -> M Z := fun data block len _ =>
  set_mem (fun m => memcpy m (dest + (block - 1) * bsz) data (Z.to_nat len)) ;;; ret 1.

(** The blocks of a file: all full but the last. *)
Fixpoint file_blocks (bsz : Z) (blocks : list (list Z)) : Prop :=
  match blocks with
  | [] => False
  | [b] => Z.of_nat (length b) < bsz /\ Forall (fun x => 0 <= x < 256) b
  | b :: bs => Z.of_nat (length b) = bsz /\ Forall (fun x => 0 <= x < 256) b /\ file_blocks bsz bs
  end.

(** What a consumer [fnc] has to do with the blocks of [file]: take each of them, keeping [I] (of the blocks taken so far), and leave
    the tables of the network alone; what it gives for the last block is [fin].  Receiving does not disturb [I]. *)
Record block_consumer (fnc : Z -> Z -> Z -> bool -> M Z) (fin : Z) (file : list (list Z)) (I : list (list Z) -> world -> Prop) : Prop := {
  cs_takes : forall done b rest eof w, file = done ++ b :: rest -> I done w -> ldn (mm w) (rcvd + 32) (length b) = b ->
    exists w', fnc (rcvd + 32) (1 + Z.of_nat (length done)) (Z.of_nat (length b)) eof w = Some (Ret (if eof then fin else 1), w') /\
      same_tabs w w' /\ cnt_rx w' = cnt_rx w /\ sent w' = sent w /\ I (done ++ [b]) w';
  cs_stable : forall done w w', same_net w w' -> I done w -> I done w';
}.

(** One round of the loop: the block is consumed and acknowledged. *)
Lemma tftp_round `{Env} fnc fin file I k done b rest req st0 w0 st w cli srv mac hd s sp :
  let len := Z.of_nat (length b) in
  let idx := 1 + Z.of_nat (length done) in
  block_consumer fnc fin file I -> file = done ++ b :: rest -> I done w ->
  tftp_block (S (S k)) req st0 w0 = tftp_wait (S (S k)) req st w -> ready w cli srv mac ->
  rx (cnt_rx w) = Some (data_frame hd s cli sp (lport st) idx b) ->
  length hd = 12%nat -> Forall (fun x => 0 <= x < 256) b ->
  idx = u16 (blockidx st + 1) -> len <= blksize st <= 1432 -> 0 <= lport st < 65536 ->
  exists w' ack,
    tftp_loop (S (S (S k))) fnc req st0 w0 =
      (if len <? blksize st then Some (Ret (fin, after_block st sp idx len), w')
       else tftp_loop (S (S k)) fnc None (after_block st sp idx len) w') /\
    same_tabs w w' /\ cnt_rx w' = S (cnt_rx w) /\ sent w' = ack :: sent w /\ ack_of mac (lport st) (u16 sp) idx ack /\ I (done ++ [b]) w'.
Proof.
  intros len idx Cs Hfile Hi Eb (Q & C & Rc & A & R) Hrx Hh Hb Hidx Hlen Hlp.
  subst cli. pose proof (tftp_wait_data k req st w srv mac hd s sp idx b Q A R Rc Hrx Hh Hb Hidx Hlen Hlp)
    as (w1 & ack & E & P & N & Cx & S1 & K).
  destruct (cs_takes _ _ _ _ Cs done b rest (len <? blksize st) w1 Hfile (cs_stable _ _ _ _ Cs _ _ _ N Hi) P)
    as (w2 & E2 & T2 & C2 & S2 & I2). fold len idx in E2.
  set (k2 := S (S k)) in *. cbn [tftp_loop]. run. rewrite Eb, E. cbn [Z.gtb Z.compare blk_data blk_block blk_len blk_eof].
  fold len. rewrite E2. exists w2, ack. split; [|split; [|split; [congruence|split; [congruence|split; [exact K|exact I2]]]]].
  - destruct (len <? blksize st); [destruct (fin <=? 0); reflexivity|reflexivity].
  - destruct (same_net_tabs _ _ N) as (N1 & N2 & N3 & N4 & N5 & N6), T2 as (T1 & T3 & T4 & T5 & T6 & T7).
    repeat (split; [congruence|]). intros x Hx. now rewrite T7, N6.
Qed.

(** The rest of a transfer, once a block size is agreed. *)
Lemma tftp_loop_blocks `{Env} fnc fin file I n bs : block_consumer fnc fin file I -> forall done bsz req st0 w0 st w cli srv mac hd s sp,
  file = done ++ bs -> I done w ->
  tftp_block (length bs + S n) req st0 w0 = tftp_wait (length bs + S n) req st w ->
  ready w cli srv mac -> length hd = 12%nat ->
  blockidx st = Z.of_nat (length done) -> blksize st = bsz -> 0 < bsz <= 1432 -> 0 <= lport st < 65536 ->
  Z.of_nat (length file) < 65536 -> file_blocks bsz bs ->
  (forall j b, nth_error bs j = Some b ->
     rx (cnt_rx w + j) = Some (data_frame hd s cli sp (lport st) (1 + Z.of_nat (length done + j)) b)) ->
  exists w' st' acks,
    tftp_loop (S (length bs + S n)) fnc req st0 w0 = Some (Ret (fin, st'), w') /\ I file w' /\
    sent w' = acks ++ sent w /\
    Forall2 (ack_of mac (lport st) (u16 sp)) (rev (map (fun j => 1 + Z.of_nat j) (seq (length done) (length bs)))) acks /\ same_tabs w w'.
Proof.
  intros Cs. induction bs as [|b bs IH]; intros done bsz req st0 w0 st w cli srv mac hd s sp Hfile HI Eb Hr Hh Hi Hbs Hbr Hlp
    Hl Hf Hrx; [destruct Hf|].
  assert (Hb : Forall (fun x => 0 <= x < 256) b /\ Z.of_nat (length b) <= bsz)
    by (cbn [file_blocks] in Hf; destruct bs; destruct Hf as (? & Hf); [|destruct Hf]; split; auto; lia).
  assert (Hd : Z.of_nat (length done) < 65535) by (rewrite Hfile, length_app in Hl; cbn [length] in Hl; lia).
  pose proof (Hrx 0%nat b eq_refl) as R0. rewrite !Nat.add_0_r in R0.
  cbn [length] in *. replace (S (length bs) + S n)%nat with (S (S (length bs + n))) in * by lia.
  destruct (tftp_round fnc fin file I (length bs + n) done b bs req st0 w0 st w cli srv mac hd s sp)
    as (w1 & ack & E & T1 & C1 & S1 & K1 & I1);
    [exact Cs | exact Hfile | exact HI | exact Eb | exact Hr | exact R0 | exact Hh | apply Hb
    | rewrite Hi, u16_small by lia; lia | rewrite Hbs; lia | exact Hlp |].
  rewrite Hbs in E. set (idx := 1 + Z.of_nat (length done)) in *. destruct bs as [|b2 bs].
  - cbn [file_blocks] in Hf. destruct Hf as [Hf _]. destruct (Z.ltb_spec (Z.of_nat (length b)) bsz); [|lia].
    exists w1. eexists. exists [ack]. split; [exact E|]. rewrite Hfile. split; [exact I1|]. split; [exact S1|].
    split; [constructor; [exact K1|constructor]|exact T1].
  - destruct Hf as (Hf1 & _ & Hf). destruct (Z.ltb_spec (Z.of_nat (length b)) bsz); [lia|].
    set (st1 := after_block st sp idx (Z.of_nat (length b))) in *.
    assert (B1 : blksize st1 = bsz) by (cbn [st1 after_block blksize]; rewrite Hbs; destruct (Z.ltb_spec (Z.of_nat (length b)) bsz); lia).
    assert (L1 : length (done ++ [b]) = S (length done)) by (rewrite length_app; cbn [length]; lia).
    destruct (IH (done ++ [b]) bsz None st1 w1 st1 w1 cli srv mac hd s sp) as (w2 & st2 & acks & E2 & I2 & S2 & K2 & T2).
    { now rewrite Hfile, <- app_assoc. } { exact I1. }
    { unfold tftp_block. rewrite B1. destruct (Z.eqb_spec bsz 0); [lia|reflexivity]. }
    { now apply (ready_same w). } { exact Hh. } { cbn [st1 after_block blockidx]. unfold idx. lia. } { exact B1. } { exact Hbr. }
    { exact Hlp. } { exact Hl. } { exact Hf. }
    { intros j b' Hj. pose proof (Hrx (S j) b' Hj) as X. rewrite C1.
      replace (S (cnt_rx w) + j)%nat with (cnt_rx w + S j)%nat by lia. rewrite X.
      replace (length (done ++ [b]) + j)%nat with (length done + S j)%nat by lia. reflexivity. }
    exists w2, st2, (acks ++ [ack]). split; [rewrite Nat.add_succ_r in E2; exact (eq_trans E E2)|].
    split; [exact I2|]. split; [rewrite S2, S1, <- app_assoc; reflexivity|].
    cbn [length seq map rev] in K2 |- *. rewrite L1 in K2. split; [apply Forall2_app; [exact K2|now constructor]|now apply (same_tabs_trans w w1)].
Qed.

(** Two ranges with the same bytes. *)
Lemma ldn_same m1 m2 a1 a2 n : (forall i, 0 <= i < Z.of_nat n -> ld8 m1 (a1 + i) = ld8 m2 (a2 + i)) -> ldn m1 a1 n = ldn m2 a2 n.
Proof. intros Hm. rewrite <- (Z.add_0_r a1), <- (Z.add_0_r a2). apply (same_ldn _ _ _ _ (Z.of_nat n)); [exact Hm|lia|lia]. Qed.

(** Storing the blocks of a file is such a consumer. *)
Definition stored (dest : Z) (done : list (list Z)) (w : world) : Prop := ldn (mm w) dest (length (concat done)) = concat done.
Lemma file_blocks_prefix bsz bs : forall done b rest, file_blocks bsz bs -> bs = done ++ b :: rest ->
  Z.of_nat (length (concat done)) = Z.of_nat (length done) * bsz.
Proof.
  induction bs as [|c bs IH]; intros [|d done] b rest Hf E; try easy. injection E as <- E. cbn [file_blocks] in Hf.
  destruct bs as [|c2 bs]; [now destruct done|]. destruct Hf as (Hf1 & _ & Hf). cbn [concat length]. rewrite length_app.
  specialize (IH done b rest Hf E). lia.
Qed.
Lemma file_blocks_le bsz bs : file_blocks bsz bs -> forall b, In b bs -> Z.of_nat (length b) <= bsz.
Proof.
  induction bs as [|c bs IH]; intros Hf b Hb; [easy|]. cbn [file_blocks] in Hf.
  destruct bs as [|c2 bs]; [destruct Hb as [<-|[]]; lia|]. destruct Hf as (Hf1 & _ & Hf). destruct Hb as [<-|Hb]; [lia|now apply IH].
Qed.
Lemma store_block_consumer bsz dest file : 0x40000 <= dest -> 0 <= bsz <= 1432 -> file_blocks bsz file ->
  block_consumer (store_block dest bsz) 1 file (stored dest).
Proof.
  intros Hd Hz Hf. split.
  - intros done b rest eof w Hfile Hi P. pose proof (file_blocks_prefix bsz file done b rest Hf Hfile) as Hp.
    assert (Hb : Z.of_nat (length b) <= bsz) by (apply (file_blocks_le bsz file Hf); rewrite Hfile; apply in_elt).
    set (a := dest + (1 + Z.of_nat (length done) - 1) * bsz). assert (Ha : a = dest + Z.of_nat (length (concat done))) by lia.
    assert (Ho : forall x, ld8 (memcpy (mm w) a (rcvd + 32) (length b)) x =
      if (a <=? x) && (x <? a + Z.of_nat (length b)) then ld8 (mm w) (rcvd + 32 + (x - a)) else ld8 (mm w) x)
      by (intros x; apply ld8_memcpy; unfold rcvd, nic_packet, ETH_HLEN; lia).
    exists (set_mm (memcpy (mm w) a (rcvd + 32) (length b)) w). split; [unfold store_block; run; fold a; rewrite Nat2Z.id; now destruct eof|].
    split; [|split; [reflexivity|split; [reflexivity|]]].
    + repeat (split; [reflexivity|]). intros x Hx. cbn [mm set_mm]. rewrite Ho. unfold lacp_pkt in *.
      destruct (Z.leb_spec a x); [lia|reflexivity].
    + unfold stored in *. cbn [mm set_mm]. rewrite concat_app, length_app, ldn_app. cbn [concat]. rewrite app_nil_r, <- Ha. f_equal.
      * rewrite <- Hi at 2. apply ldn_ext. intros x Hx. rewrite Ho. destruct (Z.leb_spec a x); [lia|reflexivity].
      * etransitivity; [|exact P]. apply ldn_same. intros i Hr. rewrite Ho.
        destruct (Z.leb_spec a (a + i)); [|lia]. destruct (Z.ltb_spec (a + i) (a + Z.of_nat (length b))); [|lia]. cbn [andb]. f_equal. lia.
  - intros done w w' N Hi. unfold stored in *. rewrite <- Hi at 2. apply ldn_ext. intros x Hx. apply N; unfold nic_packet, xmit; lia.
Qed.

Lemma rx_qdrain_silent `{Env} n w :
  quiet w -> rx (cnt_rx w) = None -> kbd (cnt_kbd w) = None ->
  exists w', rx_qdrain (S n) w = Some (Ret tt, w') /\ same_net w w' /\ cnt_rx w' = S (cnt_rx w) /\
    sent w' = sent w /\ mm w' = mm w.
Proof.
  intros Q Hr Hk. destruct (rx_qdrain_idle n w Q Hr Hk) as (w' & E & (A & B & C & D & F & _) & Hc & Hs & Hm).
  exists w'. split; [exact E|]. split; [|now repeat split]. repeat (split; [assumption|]). now rewrite Hm.
Qed.

Lemma txt_bytes s : Forall (fun b => 0 <= b < 256) (txt s).
Proof.
  unfold txt. apply Forall_forall. intros b Hb. apply in_map_iff in Hb as (c & <- & _).
  pose proof (Ascii.nat_ascii_bounded c). lia.
Qed.
(** The request for a name, as sent. *)
Lemma rrq_text_spec name :
  rrq_text name TFTP_MAX_PACKET = name ++ [0] ++ txt "octet"%string ++ [0] ++ txt "blksize"%string ++ [0]
                                  ++ txt "1432"%string.
Proof. unfold rrq_text. vm_compute. now destruct name. Qed.

(** The whole transfer, from the request on, into any consumer. *)
Lemma tftp_consumes `{Env} fnc fin I n bs name st w cli srv mac hd s sp :
  block_consumer fnc fin bs I -> I [] w -> ready w cli srv mac -> length hd = 12%nat -> 0 <= lport st < 65536 ->
  (length name <= 256)%nat -> Forall (fun b => 0 <= b < 256) name ->
  Z.of_nat (length bs) < 65535 -> file_blocks 512 bs ->
  rx (cnt_rx w) = None -> kbd (cnt_kbd w) = None ->
  (forall j b, nth_error bs j = Some b ->
     rx (cnt_rx w + 1 + j) = Some (data_frame hd s cli sp (u16 (lport st + 1)) (1 + Z.of_nat j) b)) ->
  exists w' st' acks rrq,
    tftp (S (length bs + S n)) name fnc st w = Some (Ret (fin, st'), w') /\ I bs w' /\
    sent w' = acks ++ rrq :: sent w /\ rrq_of mac (u16 (lport st + 1)) name rrq /\
    Forall2 (ack_of mac (u16 (lport st + 1)) (u16 sp)) (rev (map (fun j => 1 + Z.of_nat j) (seq 0 (length bs)))) acks /\ same_tabs w w'.
Proof.
  intros Cs Hi Hr Hh Hlp Hn Hnb Hl Hf Hrx Hkb Hsrv. unfold tftp.
  set (rq := {| rq_name := name; rq_port := TFTP_PORT; rq_blksize := TFTP_MAX_PACKET |}).
  destruct (rx_qdrain_silent (length bs + n) w (proj1 Hr) Hrx Hkb) as (w1 & E1 & N1 & C1 & S1 & M1).
  set (text := rrq_text name TFTP_MAX_PACKET).
  assert (Lt : (length text = length name + 19)%nat)
    by (subst text; rewrite rrq_text_spec, !length_app; cbn [length txt map String.list_ascii_of_string]; lia).
  set (st1 := {| lport := u16 (lport st + 1); rport := TFTP_PORT;
                 xmitlen := u16 (30 + Z.of_nat (length text) + 1); blockidx := 0; retry := 0;
                 blksize := TFTP_DEFAULTSIZE_PACKET |}).
  set (w2 := set_mm (build_rrq text (mm w1)) w1).
  assert (N2 : same_net w w2).
  { apply (same_net_trans w w1); [exact N1|]. repeat (split; [reflexivity|]). intros x _ H2.
    subst w2. cbn [mm set_mm]. unfold build_rrq. rewrite ld8_stn_out, ld8_st16_ne; [reflexivity|lia|].
    rewrite length_app. cbn [length]. lia. }
  pose proof (ready_same _ _ _ _ _ (same_net_tabs _ _ N2) Hr) as R2.
  assert (X : xmitlen st1 = 31 + Z.of_nat (length text))
    by (cbn [st1 xmitlen]; rewrite u16_small; lia).
  assert (Tx : ldn (mm w2) (xmit + 28) (length ([0; 1] ++ text ++ [0])) = [0; 1] ++ text ++ [0]).
  { rewrite (length_app [0; 1]), ldn_app. change (xmit + 28 + Z.of_nat (length [0; 1])) with (xmit + 30).
    subst w2. cbn [mm set_mm]. unfold build_rrq. rewrite ldn_stn. f_equal.
    - rewrite (ldn_ext _ (st16 (mm w1) (xmit + 28) (htons TFTP_RRQ)));
        [|intros x Hx; apply ld8_stn_out; cbn [length] in Hx; lia].
      cbn [length]. rewrite htons_bytes by (unfold TFTP_RRQ; lia). reflexivity.
    - apply map_u8_bytes. subst text. rewrite rrq_text_spec.
      assert (Z0 : Forall (fun b => 0 <= b < 256) [0]) by (constructor; [lia|constructor]).
      rewrite !Forall_app. repeat split; first [exact Hnb | exact Z0 | apply txt_bytes]. }
  destruct (tftp_send_reachable (length bs + S n) st1 w2 srv mac ([0; 1] ++ text ++ [0])) as
    (w3 & rrq & E3 & N3 & C3 & S3 & P3 & _);
    [apply R2 | apply R2 | apply u16_range | cbn; unfold TFTP_PORT; lia | rewrite X, !length_app; cbn [length]; lia | lia | exact Tx |].
  destruct (tftp_loop_blocks fnc fin bs I n bs Cs [] 512 (Some rq) st w st1 w3 cli srv mac hd s sp)
    as (w4 & st4 & acks & E4 & I4 & S4 & K4 & T4); try assumption; try reflexivity; try lia.
  { apply (cs_stable _ _ _ _ Cs _ w); [now apply (same_net_trans w w2)|exact Hi]. }
  { unfold tftp_block, bind, set_mem, modify. rewrite Nat.add_succ_r in *. rewrite E1.
    change (rq_name rq) with name. change (rq_blksize rq) with TFTP_MAX_PACKET.
    change (rq_port rq) with TFTP_PORT. fold text. fold w2. fold st1. rewrite E3. reflexivity. }
  { apply (ready_same w2); [now apply same_net_tabs | exact R2]. }
  { apply u16_range. }
  { intros j b Hj. rewrite C3. change (cnt_rx w2) with (cnt_rx w1). rewrite C1.
    replace (S (cnt_rx w) + j)%nat with (cnt_rx w + 1 + j)%nat by lia. apply Hsrv, Hj. }
  exists w4, st4, acks, rrq. split; [exact E4|]. split; [exact I4|].
  split; [rewrite S4, S3; change (sent w2) with (sent w1); now rewrite S1|]. split; [|split; [exact K4|]].
  2:{ apply (same_tabs_trans w w3); [|exact T4]. apply (same_tabs_trans w w2); now apply same_net_tabs. }
  subst text. rewrite rrq_text_spec, <- !app_assoc in P3. exact P3.
Qed.

(** And into one that stores it. *)
Lemma tftp_ok `{Env} n bs name dest st w cli srv mac hd s sp :
  ready w cli srv mac -> 0x40000 <= dest -> length hd = 12%nat -> 0 <= lport st < 65536 ->
  (length name <= 256)%nat -> Forall (fun b => 0 <= b < 256) name ->
  Z.of_nat (length bs) < 65535 -> file_blocks 512 bs ->
  rx (cnt_rx w) = None -> kbd (cnt_kbd w) = None ->
  (forall j b, nth_error bs j = Some b ->
     rx (cnt_rx w + 1 + j) = Some (data_frame hd s cli sp (u16 (lport st + 1)) (1 + Z.of_nat j) b)) ->
  exists w' st' acks rrq,
    tftp (S (length bs + S n)) name (store_block dest 512) st w = Some (Ret (1, st'), w') /\
    ldn (mm w') dest (length (concat bs)) = concat bs /\
    sent w' = acks ++ rrq :: sent w /\ rrq_of mac (u16 (lport st + 1)) name rrq /\
    Forall2 (ack_of mac (u16 (lport st + 1)) (u16 sp)) (rev (map (fun j => 1 + Z.of_nat j) (seq 0 (length bs)))) acks /\ same_tabs w w'.
Proof.
  intros Hr Hd Hh Hlp Hn Hnb Hl Hf Hrx Hkb Hs.
  apply (tftp_consumes _ _ (stored dest) n bs name st w cli srv mac hd s sp); auto; [|reflexivity].
  apply store_block_consumer; [exact Hd|lia|exact Hf].
Qed.

(** ** Properties *)

(** C1: TFTP downloads a file.  Against a server that answers the request with block 1 and each
    acknowledgement with the next block, of 512 bytes and at the end of fewer, [tftp] ends
    successfully.  The request goes from a new port of the client to port 69 and names the file, the
    mode octet and the block size option; every block is acknowledged exactly once, in order, to the
    port [sp] from which the server sends; and the blocks handed to the consumer, each stored at its
    place, are together the file.  The file may have up to 65534 blocks. *)
Theorem tftp_transfers `{Env} n bs name dest st w cli srv mac hd s sp :
  ready w cli srv mac -> 0x40000 <= dest -> length hd = 12%nat -> 0 <= lport st < 65536 ->
  (length name <= 256)%nat -> Forall (fun b => 0 <= b < 256) name ->
  Z.of_nat (length bs) < 65535 -> file_blocks 512 bs ->
  rx (cnt_rx w) = None -> kbd (cnt_kbd w) = None ->
  (forall j b, nth_error bs j = Some b ->
     rx (cnt_rx w + 1 + j) = Some (data_frame hd s cli sp (u16 (lport st + 1)) (1 + Z.of_nat j) b)) ->
  exists w' st' acks rrq,
    tftp (S (length bs + S n)) name (store_block dest 512) st w = Some (Ret (1, st'), w') /\
    ldn (mm w') dest (length (concat bs)) = concat bs /\
    sent w' = acks ++ rrq :: sent w /\ rrq_of mac (u16 (lport st + 1)) name rrq /\
    Forall2 (ack_of mac (u16 (lport st + 1)) (u16 sp)) (rev (map (fun j => 1 + Z.of_nat j) (seq 0 (length bs)))) acks.
Proof.
  intros H1 H2 H3 H4 H5 H6 H7 H8 H9 H10 H11.
  destruct (tftp_ok n bs name dest st w cli srv mac hd s sp H1 H2 H3 H4 H5 H6 H7 H8 H9 H10 H11) as (w' & st' & acks & rrq & A & B & C & D & F & _).
  now exists w', st', acks, rrq.
Qed.

(** A server on 10.0.0.2 sends a file of 512 + 3 bytes. *)
Definition file2 : list (list Z) := [repeat 0x5a 512; [1; 2; 3]].
Definition tftp_frame (i : nat) : option (list Z) :=
  match nth_error file2 i with
  | Some b => Some (data_frame [2; 0; 0; 0; 0; 1; 2; 0; 0; 0; 0; 2] 0x0200000a 0x0100000a 1069 2001
                      (1 + Z.of_nat i) b)
  | None => None
  end.
Definition tftp_env : Env.
Proof.
  refine {| clock n := Z.of_nat n; rx n := match n with O => None | S i => tftp_frame i end; kbd _ := None |}.
  intros [|[|[|n]]] bs; [discriminate | | | ]; unfold tftp_frame; cbn [nth_error file2];
    [ | | now destruct n]; intros [= <-]; rewrite data_frame_length by reflexivity; cbn; lia.
Defined.
Definition tftp_world : world :=
  let w := lacp_init_state [2; 0; 0; 0; 0; 1] world0 in
  set_arptable (list_set (arptable w) ARP_SERVER {| ipaddr := 0x0200000a; node := [2; 0; 0; 0; 0; 2] |}) w.

Lemma tftp_transfers_witness :
  exists w' st' acks rrq,
    @tftp tftp_env 12 (txt "/vmlinuz"%string) (store_block 0x100000 512) tftp_init tftp_world
      = Some (Ret (1, st'), w') /\
    ldn (mm w') 0x100000 515 = concat file2 /\ sent w' = acks ++ [rrq] /\ length acks = 2%nat.
Proof.
  destruct (@tftp_transfers tftp_env 8 file2 (txt "/vmlinuz"%string) 0x100000 tftp_init tftp_world
              0x0100000a 0x0200000a [2; 0; 0; 0; 0; 2] [2; 0; 0; 0; 0; 1; 2; 0; 0; 0; 0; 2]
              0x0200000a 1069) as (w' & st' & acks & rrq & E & L & S & _ & K).
  - split; [|split; [reflexivity|split; [lia|split; [reflexivity|]]]].
    + split; [vm_compute; reflexivity|]. split; [reflexivity|]. split; [reflexivity|]. repeat constructor.
    + split; [lia|]. split; [vm_compute; discriminate|]. split; [vm_compute; reflexivity|].
      exists 1%nat. split; [vm_compute; reflexivity|]. split; reflexivity.
  - lia.
  - reflexivity.
  - cbn. lia.
  - cbn. lia.
  - apply txt_bytes.
  - cbn. lia.
  - cbn [file_blocks file2]. split; [reflexivity|]. split; [|split; [cbn; lia|repeat (constructor; [lia|]); constructor]].
    apply Forall_forall. intros x Hx. apply repeat_spec in Hx. lia.
  - reflexivity.
  - reflexivity.
  - intros [|[|j]] b; cbn [nth_error file2]; [intros [= <-]; reflexivity .. | now destruct j].
  - exists w', st', acks, rrq. split; [exact E|]. split; [exact L|]. split; [exact S|].
    apply Forall2_length in K. rewrite <- K. reflexivity.
Defined.

(** A DATA packet too short to hold a block number is taken for a block of almost four
    gigabytes.  Nothing checks that [recvlen] is at least the two bytes of the number, which are
    then read from whatever the buffer held before; when they happen to be those of the next block,
    the subtraction wraps, the length handed to the consumer is 4294967294 or 4294967295, and it is
    not the end of the file. *)
Theorem tftp_runt_block m st :
  recvlen m < 2 -> ntohs (ld16 m (rcvd + 30)) = u16 (blockidx st + 1) -> 512 <= blksize st <= 1432 ->
  fst (on_data m st) = VBlock {| blk_data := rcvd + 32; blk_block := u16 (blockidx st + 1);
                                 blk_len := 4294967294 + recvlen m; blk_eof := false |}.
Proof.
  intros Hr Hb Hs. assert (R0 : 0 <= recvlen m) by apply u16_range. unfold on_data.
  rewrite Hb, Z.eqb_refl, Z.gtb_ltb, (u32_small (blksize st + 2)) by lia. cbn [negb].
  destruct (Z.ltb_spec (blksize st + 2) (recvlen m)); [lia|]. cbn [fst].
  assert (E : u32 (recvlen m - 2) = 4294967294 + recvlen m).
  { unfold u32. rewrite <- (Z_mod_plus_full _ 1), Z.mod_small by lia. lia. }
  rewrite E. do 2 f_equal. apply Z.ltb_ge. unfold u16. Z.div_mod_to_equations. lia.
Qed.

Lemma tftp_runt_block_witness :
  let m := stn (fun _ => 0) (rcvd + 24) [0; 10; 0; 0; 0; 3; 0; 1] in
  let st := {| lport := 2001; rport := 69; xmitlen := 32; blockidx := 0; retry := 0; blksize := 512 |} in
  fst (on_data m st) = VBlock {| blk_data := rcvd + 32; blk_block := 1; blk_len := 4294967294; blk_eof := false |}.
Proof.
  intros m st. exact (tftp_runt_block m st eq_refl eq_refl ltac:(cbn; lia)).
Defined.
