(* ===== verification/Bootp.v ===== *)
(** BOOTP and DHCP of [src/src/core/nic.c]: the packets sent, [await_bootp], the option decoder
    [decode_rfc1533] and the exchange [bootp]; and RARP.

    The static variables lie in memory, where the C program has them, since they must survive a
    reply function; so do the static variables of the TFTP client, which the decoder may call for
    an extension file.  [undefined] is what the C program does not survive: a file name that
    overruns its 64 bytes. *)

From S2P Require Import Prelude Memory StringLib Misc Vsprintf Net Lacp Nic Tftp.
Import String.StringSyntax.

(** ** Addresses of the static data *)

Definition bootp_data : Z := 0x38000.
Definition bp_vend_off : Z := 236.
Definition bp_file_off : Z := 108.
Definition sizeof_bootp : Z := 548.
Definition sizeof_bootpip : Z := 576.
Definition sizeof_bootpd : Z := 1472.
Definition DHCP_OPT_LEN : Z := 312.
Definition MAX_BOOTP_EXTLEN : Z := 924.
Definition KERNEL_BUF : Z := bootp_data + bp_file_off.

Definition dhcp_reply : Z := 0x39000.
Definition dhcp_server : Z := 0x39004.
Definition dhcp_addr : Z := 0x39008.
Definition hostname : Z := 0x3900c.
Definition hostnamelen : Z := 0x39010.
Definition addparam : Z := 0x39014.
Definition addparamlen : Z := 0x39018.
Definition vendorext_isvalid : Z := 0x3901c.
Definition end_of_rfc1533 : Z := 0x39020.
Definition extdata : Z := 0x39024.
Definition extend : Z := 0x39028.
Definition in_encapsulated_options : Z := 0x3902c.
Definition tftp_statics : Z := 0x39040.
(** [struct bootpip_t ip] of [bootp], and [rarpreq]. *)
Definition bootp_pkt : Z := 0x3a000.
Definition rarpreq : Z := 0x3b000.

Definition BOOTP_SERVER : Z := 67.
Definition BOOTP_CLIENT : Z := 68.
Definition PROXYDHCP_SERVER : Z := 4011.
Definition BOOTP_REQUEST : Z := 1.
Definition BOOTP_REPLY : Z := 2.
Definition DHCPDISCOVER : Z := 1.
Definition DHCPOFFER : Z := 2.
Definition DHCPREQUEST : Z := 3.
Definition DHCPACK : Z := 5.
Definition MAX_BOOTP_RETRIES : nat := 20.
Definition RFC1533_PAD : Z := 0.
Definition RFC1533_NETMASK : Z := 1.
Definition RFC1533_GATEWAY : Z := 3.
Definition RFC1533_DNS : Z := 6.
Definition RFC1533_HOSTNAME : Z := 12.
Definition RFC1533_ROOTPATH : Z := 17.
Definition RFC1533_EXTENSIONPATH : Z := 18.
Definition RFC1533_VENDOR : Z := 43.
Definition RFC2132_REQ_ADDR : Z := 50.
Definition RFC2132_MSG_TYPE : Z := 53.
Definition RFC2132_SRV_ID : Z := 54.
Definition RFC2132_PARAM_LIST : Z := 55.
Definition RFC2132_MAX_SIZE : Z := 57.
Definition RFC2132_VENDOR_CLASS_ID : Z := 60.
Definition RFC1533_VENDOR_MAGIC : Z := 128.
Definition RFC1533_VENDOR_ADDPARM : Z := 129.
Definition RFC1533_VENDOR_ETHDEV : Z := 130.
Definition RFC1533_VENDOR_ETHERBOOT_ENCAP : Z := 150.
Definition RFC1533_VENDOR_NIC_DEV_ID : Z := 175.
Definition RFC1533_VENDOR_ARCH : Z := 177.
Definition RFC1533_END : Z := 255.
Definition RFC1533_VENDOR_MAJOR : Z := 0.

(** ** The packets *)

Definition rfc1533_cookie : list Z := [99; 130; 83; 99].
Definition vendorext_magic : list Z := [0xE4; 0x45; 0x74; 0x68].
Definition vendor_class : list Z := [RFC2132_VENDOR_CLASS_ID; 13] ++ txt "Etherboot-5.4"%string.
Definition max_size : list Z := [RFC2132_MAX_SIZE; 2; ETH_MAX_MTU / 256; ETH_MAX_MTU mod 256].
(** The device is the one that boots; [x64] is whether the CPU is a 64-bit one. *)
Record devid := { bus_type : Z; vendor_id : Z; device_id : Z }.
Definition dhcp_machine_info (d : devid) (x64 : bool) : list Z :=
  [RFC1533_VENDOR_ETHERBOOT_ENCAP; 11; RFC1533_VENDOR_NIC_DEV_ID; 5;
   u8 (bus_type d); Z.land (vendor_id d) 0xff; Z.land (Z.shiftr (vendor_id d) 8) 0xff;
   Z.land (device_id d) 0xff; Z.land (Z.shiftr (device_id d) 8) 0xff;
   RFC1533_VENDOR_ARCH; 2; 3; 0] ++ (if x64 then [RFC1533_VENDOR_ARCH; 2; 62; 0] else []).
Definition dhcpdiscover : list Z :=
  [RFC2132_MSG_TYPE; 1; DHCPDISCOVER] ++ max_size ++ vendor_class ++
  [RFC2132_PARAM_LIST; 5; RFC1533_NETMASK; RFC1533_GATEWAY; RFC1533_HOSTNAME; RFC1533_VENDOR; RFC1533_DNS].
Definition dhcprequest : list Z :=
  [RFC2132_MSG_TYPE; 1; DHCPREQUEST; RFC2132_SRV_ID; 4; 0; 0; 0; 0; RFC2132_REQ_ADDR; 4; 0; 0; 0; 0]
  ++ max_size ++ vendor_class ++
  [RFC2132_PARAM_LIST; 10; RFC1533_NETMASK; RFC1533_GATEWAY; RFC1533_HOSTNAME; RFC1533_VENDOR;
   RFC1533_ROOTPATH; RFC1533_VENDOR_MAGIC; RFC1533_VENDOR_ADDPARM; RFC1533_VENDOR_ETHDEV;
   RFC1533_VENDOR_ETHERBOOT_ENCAP; RFC1533_DNS].
Definition proxydhcprequest : list Z := [RFC2132_MSG_TYPE; 1; DHCPREQUEST] ++ max_size.

Definition bp : Z := bootp_pkt + 28.
Definition bp_vend : Z := bp + bp_vend_off.
(** The DHCPDISCOVER packet; [xid] is the transaction's identifier. *)
Definition build_discover (nd : list Z) (xid : Z) (d : devid) (x64 : bool) (m : mem) : mem :=
  let m := memset m bootp_pkt 0 (Z.to_nat sizeof_bootpip) in
  let m := st8 m bp BOOTP_REQUEST in
  let m := st8 m (bp + 1) 1 in
  let m := st8 m (bp + 2) ETH_ALEN in
  let m := st32 m (bp + 4) xid in
  let m := stn m (bp + 28) (firstn 6 nd) in
  let m := stn m bp_vend rfc1533_cookie in
  let m := stn m (bp_vend + 4) dhcpdiscover in
  let q := bp_vend + 4 + Z.of_nat (length dhcpdiscover) in
  let m := stn m q (dhcp_machine_info d x64) in
  st8 m (q + Z.of_nat (length (dhcp_machine_info d x64))) RFC1533_END.
(** The DHCPREQUEST, made in the same packet. *)
Definition build_request (d : devid) (x64 : bool) (m : mem) : mem :=
  let m := stn m bp_vend rfc1533_cookie in
  let m := stn m (bp_vend + 4) dhcprequest in
  let m := memcpy m (bp_vend + 9) dhcp_server 4 in
  let m := memcpy m (bp_vend + 15) dhcp_addr 4 in
  let q := bp_vend + 4 + Z.of_nat (length dhcprequest) in
  let m := stn m q (dhcp_machine_info d x64) in
  st8 m (q + Z.of_nat (length (dhcp_machine_info d x64))) RFC1533_END.
Definition build_proxy_request (m : mem) : mem :=
  stn (stn m bp_vend rfc1533_cookie) (bp_vend + 4) proxydhcprequest.

(** ** The option decoder *)

Definition undefined {A} : M A := fun _ => None.
Definition bytes_at (m : mem) (p : Z) (l : list Z) : bool :=
  if list_eq_dec Z.eq_dec (ldn m p (length l)) l then true else false.
Definition set_arp_ip (i : nat) (ip : Z) : M unit :=
  w <- get ;; set_arp i {| ipaddr := ip; node := node (arp w i) |}.
(** A C string of at most [n] characters. *)
Fixpoint until_nul (l : list Z) : list Z :=
  match l with
  | [] => []
  | c :: l' => if c =? 0 then [] else c :: until_nul l'
  end.

(** One option at [p]; the result is the new [extpath]. *)
Definition decode_opt (encap : Z -> Z -> M unit) (p extpath : Z) : M Z :=
  w <- get ;;
  let m := mm w in
  let c := ld8 m p in
  let len := ld8 m (p + 1) in
  let non := ld8 m in_encapsulated_options =? 0 in
  if non && (c =? RFC1533_NETMASK) then modify (set_netmask (ld32 m (p + 2))) ;;; ret extpath
  else if non && (c =? RFC1533_GATEWAY) then
    (if len >=? 4 then set_arp_ip ARP_GATEWAY (ld32 m (p + 2)) else ret tt) ;;; ret extpath
  else if c =? RFC1533_EXTENSIONPATH then ret p
  else if non && (c =? RFC2132_MSG_TYPE) then store32 dhcp_reply (ld8 m (p + 2)) ;;; ret extpath
  else if non && (c =? RFC2132_SRV_ID) then store32 dhcp_server (ld32 m (p + 2)) ;;; ret extpath
  else if non && (c =? RFC1533_HOSTNAME) then
    store32 hostname (p + 2) ;;; store32 hostnamelen len ;;; ret extpath
  else if (ld8 m in_encapsulated_options =? 1) && (c =? RFC1533_VENDOR_MAGIC) && (len >=? 6)
          && bytes_at m (p + 2) vendorext_magic && (ld8 m (p + 6) =? RFC1533_VENDOR_MAJOR)
  then store32 vendorext_isvalid (ld32 m vendorext_isvalid + 1) ;;; ret extpath
  else if c =? RFC1533_VENDOR_ADDPARM then
    store32 addparam (p + 2) ;;; store32 addparamlen len ;;; ret extpath
  else if non && (c =? RFC1533_VENDOR_ETHERBOOT_ENCAP) then
    store8 in_encapsulated_options 1 ;;;
    encap (p + 2) len ;;;
    store8 in_encapsulated_options 0 ;;;
    ret extpath
  else if non && (c =? RFC1533_DNS) then
    (if len >=? 4 then set_arp_ip ARP_NAMESERVER (ld32 m (p + 2)) else ret tt) ;;; ret extpath
  else ret extpath.

(** [while (p < endp)]: the final [endp] and [extpath]. *)
Fixpoint decode_loop (fuel : nat) (encap : Z -> Z -> M unit) (p endp extpath : Z) : M (Z * Z) :=
  match fuel with
  | O => oof
  | S n =>
      if p <? endp then
        c <- load8 p ;;
        if c =? RFC1533_PAD then decode_loop n encap (p + 1) endp extpath
        else if c =? RFC1533_END then store32 end_of_rfc1533 p ;;; decode_loop n encap p p extpath
        else
          extpath <- decode_opt encap p extpath ;;
          len <- load8 (p + 1) ;;
          decode_loop n encap (p + len + 2) endp extpath
      else ret (endp, extpath)
  end.

(** The head of [decode_rfc1533]: [None] when it returns 0, and otherwise where the options lie. *)
Definition decode_head (p block len eof : Z) : M (option (Z * Z)) :=
  if eof =? -1 then ret (Some (p, p + len))
  else if block =? 0 then
    store32 end_of_rfc1533 0 ;;; store32 vendorext_isvalid 0 ;;;
    store32 addparam 0 ;;; store32 addparamlen 0 ;;;
    w <- get ;;
    if negb (bytes_at (mm w) p rfc1533_cookie) then ret None
    else ret (Some (p + 4, p + 4 + len))
  else
    w <- get ;;
    if (block =? 1) && negb (bytes_at (mm w) p rfc1533_cookie) then ret None
    else
      let '(p, len) := if block =? 1 then (p + 4, u32 (len - 4)) else (p, len) in
      let ext := ld32 (mm w) extend in
      if ext + len <=? bootp_data + sizeof_bootpd then
        set_mem (fun m => memcpy m ext p (Z.to_nat len)) ;;;
        store32 extend (ext + len) ;;;
        w <- get ;;
        ret (Some (ld32 (mm w) extdata, ext + len))
      else
        store8 (ld32 (mm w) extdata) RFC1533_END ;;; ret None.

Section bootp.
Context `{E : Env}.

(** The TFTP client on the static variables in memory. *)
Definition tftp_load (m : mem) : tftp_state :=
  {| lport := ld16 m tftp_statics; rport := ld16 m (tftp_statics + 2); xmitlen := ld16 m (tftp_statics + 4);
     blockidx := ld16 m (tftp_statics + 6); retry := ld16 m (tftp_statics + 8);
     blksize := s32 (ld32 m (tftp_statics + 12)) |}.
Definition tftp_save (st : tftp_state) (m : mem) : mem :=
  let m := st16 m tftp_statics (lport st) in
  let m := st16 m (tftp_statics + 2) (rport st) in
  let m := st16 m (tftp_statics + 4) (xmitlen st) in
  let m := st16 m (tftp_statics + 6) (blockidx st) in
  let m := st16 m (tftp_statics + 8) (retry st) in
  st32 m (tftp_statics + 12) (blksize st).

(** [decode_rfc1533]; [d] bounds the depth of encapsulated blocks and extension files. *)
Fixpoint decode_rfc1533 (d fuel : nat) (p block len eof : Z) : M Z :=
  match d with
  | O => oof
  | S d' =>
      h <- decode_head p block len eof ;;
      match h with
      | None => ret 0
      | Some (p, endp) =>
          if eof =? 0 then ret 1
          else
            r <- decode_loop fuel
                   (fun q n => decode_rfc1533 d' fuel q 0 n (-1) ;;; ret tt) p endp 0 ;;
            let '(endp, extpath) := r in
            store32 extdata endp ;;; store32 extend endp ;;;
            (if (block =? 0) && istrue extpath then
               w <- get ;;
               let n := ld8 (mm w) (extpath + 1) in
               if n >=? 64 then undefined
               else
                 r <- tftp fuel (until_nul (ldn (mm w) (extpath + 2) (Z.to_nat n)))
                        (fun a b l e => decode_rfc1533 d' fuel a b l (b2z e)) (tftp_load (mm w)) ;;
                 set_mem (tftp_save (snd r))
             else ret tt) ;;;
            ret 1
      end
  end.

(** [await_bootp] *)
Definition kill_arp (i : nat) (ip : Z) : M unit := set_arp i {| ipaddr := ip; node := no_node |}.
Definition await_bootp (d fuel : nat) : reply_t := fun info =>
  if negb (has_udp info) then ret 0
  else
    w <- get ;;
    let m := mm w in
    let reply := nic_packet + ETH_HLEN + 20 + 8 in
    let siaddr := ld32 m (reply + 20) in
    let giaddr := ld32 m (reply + 24) in
    let yiaddr := ld32 m (reply + 16) in
    if packetlen w <? ETH_HLEN + 20 + 8 + (sizeof_bootp - DHCP_OPT_LEN) then ret 0
    else if negb (ld16 m (ip_ptr + 22) =? htons (sport w)) then ret 0
    else if negb (ld8 m reply =? BOOTP_REPLY) then ret 0
    else if negb (ld32 m (reply + 4) =? xid w) then ret 0
    else if siaddr =? 0 then ret 0
    else if negb (bytes_at m (reply + 28) broadcast)
            && negb (bytes_at m (reply + 28) (node (arp w ARP_CLIENT))) then ret 0
    else
      kill_arp ARP_SERVER siaddr ;;;
      (if istrue giaddr then kill_arp ARP_GATEWAY giaddr else ret tt) ;;;
      (if istrue yiaddr then
         set_arp_ip ARP_CLIENT yiaddr ;;;
         store32 dhcp_addr yiaddr ;;;
         modify (fun w => set_netmask (default_netmask (client_ip w)) w) ;;;
         set_mem (fun m => memcpy m bootp_data reply (Z.to_nat sizeof_bootpd)) ;;;
         decode_rfc1533 d fuel (bootp_data + bp_vend_off) 0 (DHCP_OPT_LEN + MAX_BOOTP_EXTLEN) 1 ;;;
         ret tt
       else
         kill_arp ARP_PROXYDHCP siaddr ;;;
         set_mem (fun m => memcpy m KERNEL_BUF (reply + bp_file_off) 128)) ;;;
      ret 1.

(** The loop that collects offers until [stop_time]. *)
Fixpoint collect_offers (rounds d fuel : nat) (stop_time remaining : Z) : M unit :=
  match rounds with
  | O => oof
  | S r =>
      if remaining >? 0 then
        await_reply fuel (await_bootp d fuel) remaining ;;;
        t <- currticks ;;
        collect_offers r d fuel stop_time (s32 (stop_time - t))
      else ret tt
  end.
Definition bootp_transmit (fuel : nat) (dest port : Z) : M Z :=
  udp_transmit fuel dest BOOTP_CLIENT port sizeof_bootpip bootp_pkt.
(** Asking the ProxyDHCP server: [k] attempts are left. *)
Fixpoint proxy_loop (d fuel k : nat) (reqretry : Z) : M unit :=
  match k with
  | O => ret tt
  | S k' =>
      w <- get ;;
      bootp_transmit fuel (ipaddr (arp w ARP_PROXYDHCP)) PROXYDHCP_SERVER ;;;
      timeout <- rfc2131_sleep_interval TIMEOUT reqretry ;;
      got <- await_reply fuel (await_bootp d fuel) timeout ;;
      if istrue got then ret tt else proxy_loop d fuel k' (reqretry + 1)
  end.
(** Sending the DHCPREQUEST until it is acknowledged: whether it was. *)
Fixpoint request_loop (d fuel k : nat) (reqretry : Z) : M bool :=
  match k with
  | O => ret false
  | S k' =>
      bootp_transmit fuel IP_BROADCAST BOOTP_SERVER ;;;
      store32 dhcp_reply 0 ;;;
      timeout <- rfc2131_sleep_interval TIMEOUT reqretry ;;
      got <- await_reply fuel (await_bootp d fuel) timeout ;;
      reply <- load32 dhcp_reply ;;
      if negb (istrue got) || negb (reply =? DHCPACK)
      then request_loop d fuel k' (reqretry + 1)
      else
        store32 dhcp_reply 0 ;;;
        w <- get ;;
        (if istrue (ipaddr (arp w ARP_PROXYDHCP)) then
           set_mem build_proxy_request ;;;
           proxy_loop d fuel MAX_BOOTP_RETRIES 0
         else ret tt) ;;;
        ret true
  end.
Definition clear_arptable (w : world) : world :=
  set_arptable ({| ipaddr := 0; node := firstn 6 (node (arp w ARP_CLIENT)) |}
                :: map (fun _ => {| ipaddr := 0; node := no_node |}) (tl (arptable w))) w.
(** The main loop of [bootp]. *)
Fixpoint bootp_loop (d fuel : nat) (dev : devid) (x64 : bool) (starttime : Z) (k : nat) (nretry : Z) : M Z :=
  match k with
  | O => ret 0
  | S k' =>
      rx_qdrain fuel ;;;
      modify clear_arptable ;;;
      bootp_transmit fuel IP_BROADCAST BOOTP_SERVER ;;;
      remaining <- rfc2131_sleep_interval BOOTP_TIMEOUT nretry ;;
      t <- currticks ;;
      collect_offers fuel d fuel (u32 (t + remaining)) remaining ;;;
      w <- get ;;
      if negb (istrue (client_ip w)) then bootp_loop d fuel dev x64 starttime k' (nretry + 1)
      else if negb (s32 (ld32 (mm w) dhcp_reply) =? DHCPOFFER) then ret 1
      else
        store32 dhcp_reply 0 ;;;
        set_mem (build_request dev x64) ;;;
        ok <- request_loop d fuel MAX_BOOTP_RETRIES 0 ;;
        if ok then ret 1
        else
          t <- currticks ;;
          store16 (bp + 8) (htons (u32 (t - starttime) / TICKS_PER_SEC)) ;;;
          bootp_loop d fuel dev x64 starttime k' (nretry + 1)
  end.
Definition bootp (d fuel : nat) (dev : devid) (x64 : bool) : M Z :=
  starttime <- currticks ;;
  w <- get ;;
  let nd := node (arp w ARP_CLIENT) in
  let x := u32 (ld32 (stn (fun _ => 0) 0 nd) 2 + htonl starttime) in
  modify (set_xid x) ;;;
  set_mem (build_discover nd x dev x64) ;;;
  bootp_loop d fuel dev x64 starttime MAX_BOOTP_RETRIES 0.

(** *** RARP *)

Definition ETH_P_RARP : Z := 0x8035.
Definition await_rarp (node_at : list Z) : reply_t := fun info =>
  if negb (ptype info =? ETH_P_RARP) then ret 0
  else
    w <- get ;;
    let p := nic_packet + ETH_HLEN in
    let m := mm w in
    if packetlen w <? ETH_HLEN + 28 then ret 0
    else if negb (ld16 m (p + 6) =? htons 4) then ret 0
    else if bytes_at m (p + 18) node_at then
      set_arp ARP_SERVER {| ipaddr := ld32 m (p + 14); node := ldn m (p + 8) 6 |} ;;;
      set_arp_ip ARP_CLIENT (ld32 m (p + 24)) ;;;
      ret 1
    else ret 0.
Definition build_rarpreq (nd : list Z) (m : mem) : mem :=
  let m := memset m rarpreq 0 28 in
  let m := st16 m rarpreq (htons 1) in
  let m := st16 m (rarpreq + 2) (htons ETH_P_IP) in
  let m := st8 m (rarpreq + 4) ETH_ALEN in
  let m := st8 m (rarpreq + 5) 4 in
  let m := st16 m (rarpreq + 6) (htons 3) in
  let m := stn m (rarpreq + 8) (firstn 6 nd) in
  stn m (rarpreq + 18) (firstn 6 nd).
Fixpoint rarp_loop (fuel k : nat) (nd : list Z) (nretry : Z) : M bool :=
  match k with
  | O => ret false
  | S k' =>
      eth_transmit broadcast ETH_P_RARP 28 rarpreq ;;;
      timeout <- rfc2131_sleep_interval TIMEOUT nretry ;;
      got <- await_reply fuel (await_rarp nd) timeout ;;
      if istrue got then ret true else rarp_loop fuel k' nd (nretry + 1)
  end.
(** [kernelpath] is the format [DEFAULT_KERNELPATH]. *)
Definition rarp (fuel : nat) (kernelpath : list Z) : M Z :=
  w <- get ;;
  let nd := firstn 6 (node (arp w ARP_CLIENT)) in
  set_mem (build_rarpreq nd) ;;;
  ok <- rarp_loop fuel MAX_ARP_RETRIES nd 0 ;;
  if ok then
    w <- get ;;
    match sprintf (mm w) KERNEL_BUF kernelpath [AInt (client_ip w)] with
    | Some (m, _) => modify (set_mm m) ;;; ret 1
    | None => undefined
    end
  else ret 0.
End bootp.

(** ** Options: the specification *)

(** What the rest of the program sees of the options. *)
Record lease := { l_netmask : Z; l_gateway : Z; l_nameserver : Z; l_reply : Z; l_server : Z }.
Definition lease_of (w : world) : lease :=
  {| l_netmask := netmask w; l_gateway := ipaddr (arp w ARP_GATEWAY);
     l_nameserver := ipaddr (arp w ARP_NAMESERVER);
     l_reply := ld32 (mm w) dhcp_reply; l_server := ld32 (mm w) dhcp_server |}.
(** The first four bytes of an option, as an address. *)
Definition opt_ip (d : list Z) : Z :=
  nth 0 d 0 + 256 * nth 1 d 0 + 65536 * nth 2 d 0 + 16777216 * nth 3 d 0.
(** One option, and the options of a block: a later one overrides an earlier one. *)
Definition lease_step (l : lease) (o : Z * list Z) : lease :=
  let '(t, d) := o in
  let long := (4 <=? length d)%nat in
  {| l_netmask := if t =? 1 then opt_ip d else l_netmask l;
     l_gateway := if (t =? 3) && long then opt_ip d else l_gateway l;
     l_nameserver := if (t =? 6) && long then opt_ip d else l_nameserver l;
     l_reply := if t =? 53 then nth 0 d 0 else l_reply l;
     l_server := if t =? 54 then opt_ip d else l_server l |}.
(** The host name and the additional parameters are kept as pointers into the packet; this is the
    text they lead to. *)
Definition text_at (m : mem) (ptr len : Z) : list Z := ldn m (ld32 m ptr) (Z.to_nat (ld32 m len)).
Definition texts_of (w : world) : list Z * list Z :=
  (text_at (mm w) hostname hostnamelen, text_at (mm w) addparam addparamlen).
Definition texts_step (l : list Z * list Z) (o : Z * list Z) : list Z * list Z :=
  let '(t, d) := o in
  if t =? 12 then (d, snd l)
  else if t =? 129 then (fst l, d) else l.
Definition enc_opt (o : Z * list Z) : list Z := fst o :: Z.of_nat (length (snd o)) :: snd o.
Definition enc_opts (opts : list (Z * list Z)) : list Z := flat_map enc_opt opts ++ [RFC1533_END].

(** A field of an option block is a pad byte or an option; a vendor area holds such fields and blocks of Etherboot's own options
    (tag 150), whose contents [fs] end with the block, or with an end tag and whatever follows it ([rest]). *)
Inductive vfield := Pad | Opt (t : Z) (d : list Z).
Inductive item := Plain (f : vfield) | Encap (fs : list vfield) (rest : list Z).
Definition enc_field (f : vfield) : list Z := match f with Pad => [0] | Opt t d => enc_opt (t, d) end.
Definition encap_body (fs : list vfield) (rest : list Z) : list Z := flat_map enc_field fs ++ rest.
Definition enc_item (it : item) : list Z :=
  match it with Plain f => enc_field f | Encap fs rest => enc_opt (150, encap_body fs rest) end.
Definition enc_items (items : list item) : list Z := flat_map enc_item items ++ [255].

(** What the rest of the program sees: the lease, the texts, and how many signatures of Etherboot's vendor extensions there were. *)
Record view := { v_lease : lease; v_texts : list Z * list Z; v_valid : Z }.
Definition view_of (w : world) : view := {| v_lease := lease_of w; v_texts := texts_of w; v_valid := ld32 (mm w) vendorext_isvalid |}.
(** The signature: the magic number E4 45 74 68 and the major version 0. *)
Definition is_magic (t : Z) (d : list Z) : bool :=
  (t =? 128) && (6 <=? length d)%nat && (if list_eq_dec Z.eq_dec (firstn 5 d) [0xE4; 0x45; 0x74; 0x68; 0] then true else false).
(** A field among Etherboot's own options ([enc]), where only the signature and the additional parameters count, or outside. *)
Definition field_step (enc : bool) (v : view) (f : vfield) : view :=
  match f with
  | Pad => v
  | Opt t d =>
      if enc then {| v_lease := v_lease v; v_texts := if t =? 129 then (fst (v_texts v), d) else v_texts v;
                     v_valid := if is_magic t d then u32 (v_valid v + 1) else v_valid v |}
      else {| v_lease := lease_step (v_lease v) (t, d); v_texts := texts_step (v_texts v) (t, d); v_valid := v_valid v |}
  end.
Definition item_step (enc : bool) (v : view) (it : item) : view :=
  match it with Plain f => field_step enc v f | Encap fs _ => fold_left (field_step true) fs v end.
(** The extension path is the last option 18. *)
Definition ext_step (x : option (list Z)) (it : item) : option (list Z) :=
  match it with Plain (Opt t d) => if t =? 18 then Some d else x | _ => x end.

(** A well-formed option.  Among Etherboot's own options an extension path is not allowed. *)
Definition field_ok (enc : bool) (f : vfield) : Prop :=
  match f with
  | Pad => True
  | Opt t d =>
      0 < t < 255 /\ (length d < 256)%nat /\ Forall (fun b => 0 <= b < 256) d /\
      (if enc then t <> 18
       else t <> 150 /\ (t = 1 \/ t = 54 -> (4 <= length d)%nat) /\ (t = 53 -> (1 <= length d)%nat) /\ (t = 18 -> (length d < 64)%nat))
  end.
Definition rest_ok (rest : list Z) : Prop := rest = [] \/ exists g, rest = 255 :: g.
Definition item_ok (enc : bool) (it : item) : Prop :=
  match it with
  | Plain f => field_ok enc f
  | Encap fs rest => enc = false /\ Forall (field_ok true) fs /\ rest_ok rest /\ (length (encap_body fs rest) < 256)%nat
  end.

(** ** Lemmas *)

(** The static variables of the decoder. *)
Definition statics_only (w w' : world) : Prop :=
  forall x, x < 0x39000 \/ 0x39030 <= x -> ld8 (mm w') x = ld8 (mm w) x.

(** The texts lie below the static variables. *)
Definition text_ok (m : mem) (ptr len : Z) : Prop := ld32 m ptr + ld32 m len <= 0x39000.
Definition texts_ok (w : world) : Prop :=
  text_ok (mm w) hostname hostnamelen /\ text_ok (mm w) addparam addparamlen.

Lemma statics_only_ldn w w' p n : statics_only w w' -> p + Z.of_nat n <= 0x39000 ->
  ldn (mm w') p n = ldn (mm w) p n.
Proof. intros S Hp. apply ldn_ext. intros x Hx. apply S. lia. Qed.
Lemma text_kept w w' ptr len :
  statics_only w w' -> ld32 (mm w') ptr = ld32 (mm w) ptr -> ld32 (mm w') len = ld32 (mm w) len ->
  text_ok (mm w) ptr len ->
  text_ok (mm w') ptr len /\ text_at (mm w') ptr len = text_at (mm w) ptr len.
Proof.
  unfold text_ok, text_at. intros S -> -> Ho. split; [exact Ho|].
  apply statics_only_ldn; [exact S|]. pose proof (ld32_range (mm w) len). lia.
Qed.
Lemma text_set w w' ptr len p d :
  statics_only w w' -> ld32 (mm w') ptr = p -> ld32 (mm w') len = Z.of_nat (length d) ->
  ldn (mm w) p (length d) = d -> p + Z.of_nat (length d) <= 0x39000 ->
  text_ok (mm w') ptr len /\ text_at (mm w') ptr len = d.
Proof.
  unfold text_ok, text_at. intros S -> -> Hd Hp. split; [exact Hp|].
  rewrite Nat2Z.id, (statics_only_ldn w) by assumption. exact Hd.
Qed.
(** A step that leaves the four variables alone. *)
Lemma texts_kept w w' :
  statics_only w w' -> ld32 (mm w') hostname = ld32 (mm w) hostname ->
  ld32 (mm w') hostnamelen = ld32 (mm w) hostnamelen -> ld32 (mm w') addparam = ld32 (mm w) addparam ->
  ld32 (mm w') addparamlen = ld32 (mm w) addparamlen -> texts_ok w -> texts_ok w' /\ texts_of w' = texts_of w.
Proof.
  intros S H1 H2 H3 H4 [O1 O2]. destruct (text_kept w w' _ _ S H1 H2 O1) as [A1 B1].
  destruct (text_kept w w' _ _ S H3 H4 O2) as [A2 B2]. unfold texts_of. rewrite B1, B2. now repeat split.
Qed.
(** The texts after an option [t] at [p] with the bytes [d]. *)
Lemma texts_after w w' p t d :
  statics_only w w' -> ldn (mm w) (p + 2) (length d) = d -> p + 2 + Z.of_nat (length d) <= 0x39000 ->
  ld32 (mm w') hostname = (if t =? RFC1533_HOSTNAME then p + 2 else ld32 (mm w) hostname) /\
  ld32 (mm w') hostnamelen
    = (if t =? RFC1533_HOSTNAME then Z.of_nat (length d) else ld32 (mm w) hostnamelen) /\
  ld32 (mm w') addparam = (if t =? RFC1533_VENDOR_ADDPARM then p + 2 else ld32 (mm w) addparam) /\
  ld32 (mm w') addparamlen
    = (if t =? RFC1533_VENDOR_ADDPARM then Z.of_nat (length d) else ld32 (mm w) addparamlen) ->
  texts_ok w -> texts_ok w' /\ texts_of w' = texts_step (texts_of w) (t, d).
Proof.
  unfold texts_ok, texts_of, texts_step. change 12 with RFC1533_HOSTNAME. change 129 with RFC1533_VENDOR_ADDPARM.
  intros S Hd Hp (H1 & H2 & H3 & H4) [O1 O2].
  destruct (Z.eqb_spec t RFC1533_HOSTNAME) as [->|].
  - destruct (text_set w w' _ _ _ d S H1 H2 Hd Hp) as [A1 ->].
    destruct (text_kept w w' _ _ S H3 H4 O2) as [A2 ->]. now repeat split.
  - destruct (text_kept w w' _ _ S H1 H2 O1) as [A1 ->].
    destruct (t =? RFC1533_VENDOR_ADDPARM).
    + destruct (text_set w w' _ _ _ d S H3 H4 Hd Hp) as [A2 ->]. now repeat split.
    + destruct (text_kept w w' _ _ S H3 H4 O2) as [A2 ->]. now repeat split.
Qed.

Lemma ld32_opt_ip m p d :
  ldn m p (length d) = d -> (4 <= length d)%nat -> ld32 m p = opt_ip d.
Proof.
  intros H L. destruct d as [|a [|b [|c [|e d]]]]; cbn [length] in L; try lia.
  cbn [length ldn] in H. injection H as H1 H2 H3 H4 _. unfold ld32, ld16, opt_ip. cbn [nth].
  rewrite H1, H2. replace (p + 2) with (p + 1 + 1) by lia. rewrite H3, H4. lia.
Qed.

(** Writes to the static variables, seen in the lease. *)
Ltac statics := unfold dhcp_reply, dhcp_server, hostname, hostnamelen, addparam, addparamlen,
  vendorext_isvalid, end_of_rfc1533, in_encapsulated_options in *.
Ltac opt_case w Earp Henc After :=
  run; eexists; (split; [reflexivity|]); split; [|split; [|split; [|split; [|split]]]];
  [ unfold lease_of, lease_step, arp, ARP_GATEWAY, ARP_NAMESERVER;
    cbn [mm netmask arptable set_mm set_netmask set_arptable]; rewrite ?Earp;
    cbn [nth list_set ipaddr]; statics; cbn [Z.eqb Pos.eqb andb RFC1533_NETMASK RFC1533_GATEWAY RFC1533_DNS
      RFC2132_MSG_TYPE RFC2132_SRV_ID RFC1533_HOSTNAME RFC1533_VENDOR_ADDPARM];
    repeat match goal with L : (4 <=? length _)%nat = _ |- _ => rewrite L end;
    ld_simp; rewrite ?u32_small by lia; reflexivity
  | intros x Hx'; cbn [mm set_mm set_netmask set_arptable]; statics; ld_simp; reflexivity
  | cbn [mm set_mm set_netmask set_arptable]; statics; ld_simp; exact Henc
  | cbn [arptable set_mm set_netmask set_arptable list_set]; rewrite ?Earp; reflexivity
  | cbn [mm set_mm set_netmask set_arptable]; statics; ld_simp; reflexivity
  | apply After;
    [ intros x Hx' | ]; cbn [mm set_mm set_netmask set_arptable]; statics;
    cbn [RFC1533_NETMASK RFC1533_GATEWAY RFC1533_DNS RFC2132_MSG_TYPE RFC2132_SRV_ID RFC1533_HOSTNAME
      RFC1533_VENDOR_ADDPARM Z.eqb Pos.eqb]; ld_simp; rewrite ?u32_small by lia; repeat split; reflexivity ].

(** One option, decoded. *)
Lemma decode_opt_plain encap p ext w t d :
  field_ok false (Opt t d) -> t <> RFC1533_EXTENSIONPATH -> ld8 (mm w) in_encapsulated_options = 0 -> length (arptable w) = MAX_ARP ->
  ldn (mm w) p (2 + length d) = enc_opt (t, d) -> p + 2 + Z.of_nat (length d) <= 0x39000 -> 0 <= p ->
  exists w', decode_opt encap p ext w = Some (Ret ext, w') /\ lease_of w' = lease_step (lease_of w) (t, d) /\
    statics_only w w' /\ ld8 (mm w') in_encapsulated_options = 0 /\ length (arptable w') = MAX_ARP /\
    ld32 (mm w') vendorext_isvalid = ld32 (mm w) vendorext_isvalid /\
    (texts_ok w -> texts_ok w' /\ texts_of w' = texts_step (texts_of w) (t, d)).
Proof.
  intros (Ht & Hl & Hb & He & H4 & H1 & _) Hx Henc Ha Hm Hp Hp0.
  rewrite ldn_app in Hm. cbn [ldn Nat.add Z.of_nat Pos.of_succ_nat Pos.succ] in Hm. unfold enc_opt in Hm.
  cbn [fst snd app] in Hm. injection Hm as M0 M1 M2.
  assert (Hip : (4 <= length d)%nat -> ld32 (mm w) (p + 2) = opt_ip d) by (intros; now apply ld32_opt_ip).
  unfold decode_opt. run. rewrite M0, M1, Henc. cbn [Z.eqb andb].
  assert (L4 : (Z.of_nat (length d) >=? 4) = (4 <=? length d)%nat).
  { rewrite Z.geb_leb. destruct (Z.leb_spec 4 (Z.of_nat (length d))), (Nat.leb_spec 4 (length d)); lia. }
  rewrite L4. clear L4.
  assert (Rd : 0 <= nth 0 d 0 < 256).
  { destruct d as [|x d]; cbn [nth]; [lia|]. now inversion Hb. }
  assert (Md : (1 <= length d)%nat -> ld8 (mm w) (p + 2) = nth 0 d 0).
  { intros L. destruct d as [|x d]; cbn [length] in L; [lia|]. cbn [length ldn] in M2. now injection M2. }
  assert (Ro : (4 <= length d)%nat -> 0 <= opt_ip d < 4294967296)
    by (intros L; rewrite <- Hip by exact L; apply ld32_range).
  pose proof (fun w' S => texts_after w w' p t d S M2 Hp) as After.
  destruct (arptable w) as [|a0 [|a1 [|a2 [|a3 [|a4 [|]]]]]] eqn:Earp; try discriminate Ha.
  destruct (Z.eqb_spec t RFC1533_NETMASK) as [->|N1]; [rewrite Hip by auto; opt_case w Earp Henc After|].
  destruct (Z.eqb_spec t RFC1533_GATEWAY) as [->|N3].
  { destruct (4 <=? length d)%nat eqn:L; [rewrite Hip by now apply Nat.leb_le|]; opt_case w Earp Henc After. }
  destruct (Z.eqb_spec t RFC1533_EXTENSIONPATH) as [->|_]; [congruence|].
  destruct (Z.eqb_spec t RFC2132_MSG_TYPE) as [->|N53]; [rewrite Md by auto; opt_case w Earp Henc After|].
  destruct (Z.eqb_spec t RFC2132_SRV_ID) as [->|N54];
    [pose proof (Ro ltac:(auto)); rewrite Hip by auto; opt_case w Earp Henc After|].
  destruct (Z.eqb_spec t RFC1533_HOSTNAME) as [->|N12]; [opt_case w Earp Henc After|].
  destruct (Z.eqb_spec t RFC1533_VENDOR_ADDPARM) as [->|N129]; [opt_case w Earp Henc After|].
  destruct (Z.eqb_spec t RFC1533_VENDOR_ETHERBOOT_ENCAP) as [->|_]; [now elim He|].
  destruct (Z.eqb_spec t RFC1533_DNS) as [->|N6].
  { destruct (4 <=? length d)%nat eqn:L; [rewrite Hip by now apply Nat.leb_le|]; opt_case w Earp Henc After. }
  apply Z.eqb_neq in N1, N3, N53, N54, N6.
  unfold RFC1533_NETMASK, RFC1533_GATEWAY, RFC2132_MSG_TYPE, RFC2132_SRV_ID, RFC1533_DNS, RFC1533_HOSTNAME, RFC1533_VENDOR_ADDPARM in *.
  unfold lease_step. rewrite N1, N3, N53, N54, N6.
  apply Z.eqb_neq in N12, N129. exists w. split; [reflexivity|]. split; [reflexivity|].
  split; [now intros x _|]. rewrite Earp. split; [exact Henc|]. split; [reflexivity|]. split; [reflexivity|].
  intros Ok. unfold texts_step. rewrite N12, N129. now split.
Qed.

Lemma ld32_st32_ld8 m a v : 0 <= v < 4294967296 -> ld32 (st32 m a v) a = v.
Proof. intros H. rewrite ld32_st32_eq. now apply u32_small. Qed.

(** What holds between two options: whether Etherboot's own ones are being read, and where the texts are. *)
Definition decoding (enc : bool) (w : world) : Prop :=
  ld8 (mm w) in_encapsulated_options = b2z enc /\ length (arptable w) = MAX_ARP /\ texts_ok w.

(** A field, decoded. *)
Lemma decode_field_plain encap p ext w t d :
  field_ok false (Opt t d) -> t <> 18 -> decoding false w -> ldn (mm w) p (2 + length d) = enc_opt (t, d) ->
  p + 2 + Z.of_nat (length d) <= 0x39000 -> 0 <= p ->
  exists w', decode_opt encap p ext w = Some (Ret ext, w') /\ view_of w' = field_step false (view_of w) (Opt t d) /\ statics_only w w' /\ decoding false w'.
Proof.
  intros Ok N18 (I & A & T) Hm Hp Hp0.
  destruct (decode_opt_plain encap p ext w t d Ok N18 I A Hm Hp Hp0) as (w' & E & L & S & I' & A' & V & T').
  destruct (T' T) as [T1 T2]. exists w'. split; [exact E|]. unfold view_of. cbn [field_step]. rewrite L, T2, V.
  split; [reflexivity|]. split; [exact S|]. split; [exact I'|]. split; [exact A'|exact T1].
Qed.

(** The same among Etherboot's own options. *)
Lemma ldn_bytes_at m p d n : ldn m p (length d) = d -> (n <= length d)%nat -> ldn m p n = firstn n d.
Proof.
  intros H Hn. rewrite <- H. replace (length d) with (n + (length d - n))%nat by lia. rewrite ldn_app, firstn_app, length_ldn, Nat.sub_diag, firstn_O, app_nil_r.
  symmetry. apply firstn_all2. rewrite length_ldn. lia.
Qed.
Lemma magic_test m p t d : ldn m (p + 2) (length d) = d ->
  (1 =? 1) && (t =? RFC1533_VENDOR_MAGIC) && (Z.of_nat (length d) >=? 6) && bytes_at m (p + 2) vendorext_magic && (ld8 m (p + 6) =? RFC1533_VENDOR_MAJOR)
  = is_magic t d.
Proof.
  intros Hd. unfold is_magic, bytes_at, RFC1533_VENDOR_MAGIC, RFC1533_VENDOR_MAJOR. change (1 =? 1) with true. cbn [andb].
  destruct (t =? 128); [|reflexivity]. cbn [andb]. rewrite Z.geb_leb.
  destruct (Z.leb_spec 6 (Z.of_nat (length d))), (Nat.leb_spec 6 (length d)); try (exfalso; lia); cbn [andb]; [|reflexivity].
  pose proof (ldn_bytes_at m (p + 2) d 5 Hd ltac:(lia)) as E. change 5%nat with (length vendorext_magic + 1)%nat in E. rewrite ldn_app in E.
  change (p + 2 + Z.of_nat (length vendorext_magic)) with (p + 2 + 4) in E. replace (p + 2 + 4) with (p + 6) in E by lia. cbn [ldn] in E.
  change (length vendorext_magic + 1)%nat with 5%nat in E. rewrite <- E.
  destruct (list_eq_dec _ _ vendorext_magic) as [->|N]; cbn [andb].
  - destruct (Z.eqb_spec (ld8 m (p + 6)) 0) as [->|N']; destruct (list_eq_dec _ _ _) as [Q|Q]; try reflexivity; [elim Q; reflexivity|].
    unfold vendorext_magic in Q. cbn [app] in Q. congruence.
  - destruct (list_eq_dec _ _ _) as [Q|Q]; [|reflexivity]. change [228; 69; 116; 104; 0] with (vendorext_magic ++ [0]) in Q.
    apply app_split_length in Q as [Q _]; [congruence|now rewrite length_ldn].
Qed.
Lemma decode_field_encap encap p ext w t d :
  field_ok true (Opt t d) -> decoding true w -> ldn (mm w) p (2 + length d) = enc_opt (t, d) ->
  p + 2 + Z.of_nat (length d) <= 0x39000 -> 0 <= p ->
  exists w', decode_opt encap p ext w = Some (Ret ext, w') /\ view_of w' = field_step true (view_of w) (Opt t d) /\ statics_only w w' /\ decoding true w'.
Proof.
  intros (Ht & Hl & Hb & He) (I & A & T) Hm Hp Hp0. cbn [b2z] in I.
  rewrite ldn_app in Hm. cbn [ldn Nat.add Z.of_nat Pos.of_succ_nat Pos.succ] in Hm. unfold enc_opt in Hm.
  cbn [fst snd app] in Hm. injection Hm as M0 M1 M2.
  unfold decode_opt. run. rewrite M0, M1, I. change (1 =? 0) with false. cbn [andb].
  destruct (Z.eqb_spec t RFC1533_EXTENSIONPATH) as [->|_]; [now elim He|].
  rewrite magic_test by exact M2. cbn [field_step]. destruct (is_magic t d) eqn:Em.
  - assert (N129 : (t =? 129) = false).
    { unfold is_magic in Em. destruct (Z.eqb_spec t 128) as [->|]; [reflexivity|discriminate]. }
    rewrite N129. unfold store32. run. set (w' := set_mm _ w).
    assert (S : statics_only w w') by (intros x Hx; subst w'; cbn [mm set_mm]; statics; ld_simp; reflexivity).
    destruct (texts_kept w w' S) as [T1 T2]; try exact T; try (subst w'; cbn [mm set_mm]; statics; ld_simp; reflexivity).
    exists w'. split; [reflexivity|]. split; [|split; [exact S|split; [|split; [exact A|exact T1]]]].
    + unfold view_of. cbn [v_lease v_texts v_valid]. rewrite T2. f_equal. subst w'. cbn [mm set_mm]. apply ld32_st32_eq.
    + subst w'. cbn [mm set_mm]. statics. ld_simp. exact I.
  - destruct (Z.eqb_spec t RFC1533_VENDOR_ADDPARM) as [->|N].
    2:{ run. apply Z.eqb_neq in N. change RFC1533_VENDOR_ADDPARM with 129 in N. rewrite N.
        exists w. split; [reflexivity|]. split; [reflexivity|]. split; [now intros x _|]. split; [exact I|]. split; [exact A|exact T]. }
    unfold store32. run. set (w' := set_mm (st32 _ addparamlen _) _).
    assert (S : statics_only w w') by (intros x Hx; subst w'; cbn [mm set_mm]; statics; ld_simp; reflexivity).
    destruct (texts_after w w' p 129 d S M2 Hp) as [T1 T2]; try exact T;
      [subst w'; cbn [mm set_mm Z.eqb Pos.eqb RFC1533_HOSTNAME RFC1533_VENDOR_ADDPARM]; statics; ld_simp; rewrite ?u32_small by lia; now repeat split|].
    exists w'. split; [reflexivity|]. split; [|split; [exact S|split; [|split; [exact A|exact T1]]]].
    + unfold view_of. cbn [v_lease v_texts v_valid Z.eqb Pos.eqb RFC1533_VENDOR_ADDPARM]. rewrite T2. f_equal;
        subst w'; unfold lease_of, arp; cbn [mm set_mm netmask arptable]; statics; ld_simp; reflexivity.
    + subst w'. cbn [mm set_mm]. statics. ld_simp. exact I.
Qed.

(** What the call for an encapsulated block has to do. *)
Definition encap_decodes (encap : Z -> Z -> M unit) : Prop := forall fs rest w p,
  Forall (field_ok true) fs -> rest_ok rest -> (length (encap_body fs rest) < 256)%nat -> decoding true w ->
  ldn (mm w) p (length (encap_body fs rest)) = encap_body fs rest -> p + Z.of_nat (length (encap_body fs rest)) <= 0x39000 -> 0 < p ->
  exists w', encap p (Z.of_nat (length (encap_body fs rest))) w = Some (Ret tt, w') /\
    view_of w' = fold_left (field_step true) fs (view_of w) /\ statics_only w w' /\ decoding true w'.

(** Entering and leaving Etherboot's own options. *)
Lemma decoding_flag enc enc' w : decoding enc w ->
  let w' := set_mm (st8 (mm w) in_encapsulated_options (b2z enc')) w in
  view_of w' = view_of w /\ statics_only w w' /\ decoding enc' w'.
Proof.
  intros (I & A & T) w'. assert (S : statics_only w w') by (intros x Hx; subst w'; cbn [mm set_mm]; statics; ld_simp; reflexivity).
  destruct (texts_kept w w' S) as [T1 T2]; try exact T; try (subst w'; cbn [mm set_mm]; statics; ld_simp; reflexivity).
  split; [|split; [exact S|split; [|split; [exact A|exact T1]]]].
  - unfold view_of. rewrite T2. f_equal; subst w'; unfold lease_of, arp; cbn [mm set_mm netmask arptable]; statics; ld_simp; reflexivity.
  - subst w'. cbn [mm set_mm]. rewrite ld8_st8_eq. now destruct enc'.
Qed.
Lemma decode_encap_block encap p ext w fs rest :
  encap_decodes encap -> item_ok false (Encap fs rest) -> decoding false w ->
  ldn (mm w) p (2 + length (encap_body fs rest)) = enc_item (Encap fs rest) -> p + 2 + Z.of_nat (length (encap_body fs rest)) <= 0x39000 -> 0 <= p ->
  exists w', decode_opt encap p ext w = Some (Ret ext, w') /\ view_of w' = item_step false (view_of w) (Encap fs rest) /\ statics_only w w' /\ decoding false w'.
Proof.
  intros He (_ & Hf & Hr & Hlen) D Hm Hp Hp0. set (d := encap_body fs rest) in *. pose proof D as (I & _). cbn [b2z] in I.
  rewrite ldn_app in Hm. cbn [ldn Nat.add Z.of_nat Pos.of_succ_nat Pos.succ] in Hm. cbn [enc_item] in Hm. unfold enc_opt in Hm.
  cbn [fst snd app] in Hm. fold d in Hm. injection Hm as M0 M1 M2.
  unfold decode_opt. run. rewrite M0, M1, I.
  cbn [Z.eqb Pos.eqb andb RFC1533_NETMASK RFC1533_GATEWAY RFC1533_EXTENSIONPATH RFC2132_MSG_TYPE RFC2132_SRV_ID RFC1533_HOSTNAME
    RFC1533_VENDOR_ADDPARM RFC1533_VENDOR_ETHERBOOT_ENCAP].
  unfold store8. run. destruct (decoding_flag false true w D) as (V1 & S1 & D1). cbn [b2z] in V1, S1, D1. set (w1 := set_mm _ w) in *.
  destruct (He fs rest w1 (p + 2) Hf Hr Hlen D1) as (w2 & E2 & V2 & S2 & D2);
    [fold d; rewrite (statics_only_ldn w) by (assumption || lia); exact M2|fold d; lia|lia|].
  fold d in E2. rewrite E2. destruct (decoding_flag true false w2 D2) as (V3 & S3 & D3). cbn [b2z] in V3, S3, D3. set (w3 := set_mm _ w2) in *.
  exists w3. split; [reflexivity|]. split; [cbn [item_step]; congruence|]. split; [|exact D3].
  intros x Hx. rewrite S3, S2, S1 by exact Hx. reflexivity.
Qed.

(** [extpath] leads to the option of the extension path. *)
Definition ext_at (m : mem) (ext : Z) (x : option (list Z)) : Prop :=
  match x with
  | None => ext = 0
  | Some d => 0 < ext /\ ext + 2 + Z.of_nat (length d) <= 0x39000 /\ (length d < 64)%nat /\ ldn m ext (2 + length d) = enc_opt (18, d)
  end.
Lemma ext_at_kept w w' ext x : statics_only w w' -> ext_at (mm w) ext x -> ext_at (mm w') ext x.
Proof. intros S. destruct x as [d|]; [|auto]. intros (H0 & H1 & H2 & H3). repeat split; auto. now rewrite (statics_only_ldn w) by (assumption || lia). Qed.

(** A field or a block other than a pad, decoded. *)
Lemma decode_item enc encap p ext x w it :
  (enc = false -> encap_decodes encap) -> item_ok enc it -> it <> Plain Pad -> decoding enc w ->
  ldn (mm w) p (length (enc_item it)) = enc_item it -> p + Z.of_nat (length (enc_item it)) <= 0x39000 -> 0 < p -> ext_at (mm w) ext x ->
  exists ext' w', decode_opt encap p ext w = Some (Ret ext', w') /\ view_of w' = item_step enc (view_of w) it /\ statics_only w w' /\ decoding enc w' /\
    ext_at (mm w') ext' (ext_step x it).
Proof.
  intros He Ok Np D Hm Hp Hp0 X. destruct it as [[|t d]|fs rest]; [congruence| |].
  - cbn [enc_item enc_field] in *. change (length (enc_opt (t, d))) with (2 + length d)%nat in *. destruct enc.
    + destruct (decode_field_encap encap p ext w t d Ok D Hm) as (w' & E & V & S & D'); [lia|lia|].
      exists ext, w'. repeat (split; [assumption|]). cbn [ext_step]. destruct (Z.eqb_spec t 18) as [->|]; [now destruct Ok as (_ & _ & _ & Ok)|].
      now apply (ext_at_kept w).
    + cbn [ext_step]. destruct (Z.eqb_spec t 18) as [->|N].
      * exists p, w. destruct Ok as (_ & Hl & Hb & _ & _ & _ & H64).
        split; [|split; [|split; [now intros y _|split; [exact D|]]]].
        { unfold decode_opt. run. pose proof Hm as Hm'. cbn [Nat.add ldn enc_opt fst snd] in Hm'. injection Hm' as M0 _ _. rewrite M0.
          pose proof D as (-> & _). reflexivity. }
        { unfold view_of. cbn [item_step field_step v_lease v_texts v_valid]. f_equal; destruct w; reflexivity. }
        { cbn [ext_at]. repeat split; auto; lia. }
      * destruct (decode_field_plain encap p ext w t d Ok N D Hm) as (w' & E & V & S & D'); [lia|lia|].
        exists ext, w'. repeat (split; [assumption|]). now apply (ext_at_kept w).
  - destruct Ok as (-> & Ok). assert (Ok' : item_ok false (Encap fs rest)) by (split; [reflexivity|exact Ok]).
    change (length (enc_item (Encap fs rest))) with (2 + length (encap_body fs rest))%nat in *.
    destruct (decode_encap_block encap p ext w fs rest (He eq_refl) Ok' D Hm) as (w' & E & V & S & D'); [lia|lia|].
    exists ext, w'. repeat (split; [assumption|]). now apply (ext_at_kept w).
Qed.
Lemma enc_item_head enc it : item_ok enc it -> it <> Plain Pad ->
  exists t d, enc_item it = enc_opt (t, d) /\ 0 < t < 255.
Proof. destruct it as [[|t d]|fs rest]; [congruence| |]; intros Ok _; [exists t, d|exists 150, (encap_body fs rest)]; (split; [reflexivity|]); [apply Ok|lia]. Qed.

(** A block of options, decoded: up to the end tag, or to its end. *)
Lemma decode_loop_items enc encap rest items : (enc = false -> encap_decodes encap) -> rest_ok rest -> forall w p endp ext x fuel,
  Forall (item_ok enc) items -> decoding enc w ->
  let n := length (flat_map enc_item items) in
  let q := p + Z.of_nat n in
  ldn (mm w) p (n + length rest) = flat_map enc_item items ++ rest -> q + Z.of_nat (length rest) <= 0x39000 -> 0 < p ->
  (rest = [] -> endp = q) -> (rest <> [] -> q < endp) -> (n + 2 <= fuel)%nat -> ext_at (mm w) ext x ->
  exists w' ext', decode_loop fuel encap p endp ext w = Some (Ret (q, ext'), w') /\
    view_of w' = fold_left (item_step enc) items (view_of w) /\ statics_only w w' /\ decoding enc w' /\
    ext_at (mm w') ext' (fold_left ext_step items x) /\ (rest <> [] -> ld32 (mm w') end_of_rfc1533 = q).
Proof.
  intros He Hr. induction items as [|it items IH]; intros w p endp ext x fuel Hok D n q Hm Hp Hp0 Hend1 Hend2 Hfuel X;
    (destruct fuel as [|fuel]; [lia|]); cbn [flat_map fold_left] in *.
  - subst n q. cbn [length Z.of_nat app Nat.add] in *. rewrite !Z.add_0_r in *. cbn [decode_loop]. destruct Hr as [->|(g & ->)].
    { rewrite Hend1 by reflexivity. destruct (Z.ltb_spec p p); [lia|]. run. exists w, ext. split; [reflexivity|]. split; [reflexivity|]. split; [now intros y _|]. split; [exact D|]. split; [exact X|congruence]. }
    specialize (Hend2 ltac:(discriminate)). destruct (Z.ltb_spec p endp); [|lia]. cbn [length ldn] in Hm. injection Hm as M0 _.
    unfold load8. run. rewrite M0. cbn [Z.eqb Pos.eqb RFC1533_END RFC1533_PAD]. unfold store32. run.
    destruct fuel as [|fuel]; [lia|]. cbn [decode_loop]. destruct (Z.ltb_spec p p); [lia|]. run. set (w' := set_mm _ w).
    assert (S : statics_only w w') by (intros y Hy; subst w'; cbn [mm set_mm]; statics; ld_simp; reflexivity). destruct D as (I & A & T).
    destruct (texts_kept w w' S) as [T1 T2]; try exact T; try (subst w'; cbn [mm set_mm]; statics; ld_simp; reflexivity).
    exists w', ext. split; [reflexivity|]. split; [|split; [exact S|split; [split; [|split; [exact A|exact T1]]|split; [now apply (ext_at_kept w)|]]]].
    + unfold view_of. rewrite T2. f_equal; subst w'; unfold lease_of, arp; cbn [mm set_mm netmask arptable]; statics; ld_simp; reflexivity.
    + subst w'. cbn [mm set_mm]. statics. ld_simp. exact I.
    + intros _. subst w'. cbn [mm set_mm]. apply ld32_st32_ld8. cbn [length] in Hp. lia.
  - inversion Hok as [|? ? Ok1 Ok2]; subst. pose proof Hm as Hm'. unfold n in Hm'. rewrite length_app, <- Nat.add_assoc, <- app_assoc, ldn_app in Hm'.
    apply app_split_length in Hm' as [M1 M2]; [|now rewrite length_ldn].
    assert (En : n = (length (enc_item it) + length (flat_map enc_item items))%nat) by (unfold n; apply length_app).
    assert (Step : exists w1 ext1, decode_loop (S fuel) encap p endp ext w = decode_loop fuel encap (p + Z.of_nat (length (enc_item it))) endp ext1 w1 /\
      view_of w1 = item_step enc (view_of w) it /\ statics_only w w1 /\ decoding enc w1 /\ ext_at (mm w1) ext1 (ext_step x it) /\ (0 < length (enc_item it))%nat).
    { assert (Lt : (length (enc_item it) > 0)%nat -> p < endp).
      { intros L. destruct rest as [|r0 rest]; [rewrite Hend1 by reflexivity|specialize (Hend2 ltac:(discriminate))]; unfold q in *; lia. }
      assert (Dp : it = Plain Pad \/ it <> Plain Pad) by (destruct it as [[]|]; [now left|right; discriminate..]). destruct Dp as [->|Np].
      - cbn [enc_item enc_field length ldn] in M1, Lt |- *. injection M1 as M0. exists w, ext. split; [|split; [reflexivity|split; [now intros y _|split; [exact D|split; [exact X|lia]]]]].
        cbn [decode_loop]. destruct (Z.ltb_spec p endp); [|lia]. unfold load8. run. rewrite M0. reflexivity.
      - destruct (enc_item_head enc it Ok1 Np) as (t & d & Et & Ht). rewrite Et in *. change (length (enc_opt (t, d))) with (2 + length d)%nat in *.
        destruct (decode_item enc encap p ext x w it He Ok1 Np D) as (ext1 & w1 & E1 & V1 & S1 & D1 & X1);
          [rewrite Et; exact M1|rewrite Et; change (length (enc_opt (t, d))) with (2 + length d)%nat; unfold q in *; lia|exact Hp0|exact X|].
        exists w1, ext1. split; [|split; [exact V1|split; [exact S1|split; [exact D1|split; [exact X1|lia]]]]].
        cbn [Nat.add ldn enc_opt fst snd] in M1. injection M1 as M0 M0' _.
        cbn [decode_loop]. destruct (Z.ltb_spec p endp); [|lia]. unfold load8. run. rewrite M0. unfold RFC1533_PAD, RFC1533_END.
        destruct (Z.eqb_spec t 0); [lia|]. destruct (Z.eqb_spec t 255); [lia|]. rewrite E1.
        rewrite S1, M0' by (unfold q in *; lia). f_equal. lia. }
    destruct Step as (w1 & ext1 & -> & V1 & S1 & D1 & X1 & L1).
    destruct (IH w1 (p + Z.of_nat (length (enc_item it))) endp ext1 (ext_step x it) fuel Ok2 D1) as (w2 & ext2 & E2 & V2 & S2 & D2 & X2 & F2);
      [rewrite (statics_only_ldn w) by (assumption || (unfold q in *; lia)); exact M2|unfold q in *; lia|lia|intros R; specialize (Hend1 R); unfold q in *; lia
      |intros R; specialize (Hend2 R); unfold q in *; lia|lia|exact X1|].
    replace (p + Z.of_nat (length (enc_item it)) + Z.of_nat (length (flat_map enc_item items))) with q in * by (unfold q; lia).
    exists w2, ext2. split; [exact E2|]. split; [rewrite V2, V1; reflexivity|]. split; [intros y Hy; rewrite S2, S1 by exact Hy; reflexivity|].
    split; [exact D2|]. split; [exact X2|exact F2].
Qed.

(** The end of [decode_rfc1533] records where the options end. *)
Lemma set_ext_spec enc w q : 0 <= q < 4294967296 -> decoding enc w ->
  let w' := set_mm (st32 (st32 (mm w) extdata q) extend q) w in
  view_of w' = view_of w /\ statics_only w w' /\ decoding enc w' /\ ld32 (mm w') end_of_rfc1533 = ld32 (mm w) end_of_rfc1533 /\
  ld32 (mm w') extdata = q /\ ld32 (mm w') extend = q.
Proof.
  intros Rq (I & A & T) w'.
  assert (S : statics_only w w') by (intros x Hx; subst w'; cbn [mm set_mm]; unfold extdata, extend; statics; ld_simp; reflexivity).
  destruct (texts_kept w w' S) as [T1 T2]; try exact T; try (subst w'; cbn [mm set_mm]; unfold extdata, extend; statics; ld_simp; reflexivity).
  split; [|split; [exact S|split; [split; [|split; [exact A|exact T1]]|]]].
  - unfold view_of. rewrite T2. f_equal; subst w'; unfold lease_of, arp; cbn [mm set_mm netmask arptable]; unfold extdata, extend; statics; ld_simp; reflexivity.
  - subst w'. cbn [mm set_mm]. unfold extdata, extend. statics. ld_simp. exact I.
  - subst w'. cbn [mm set_mm]. unfold extdata, extend. statics. ld_simp. rewrite u32_small by exact Rq. auto.
Qed.

(** The head of a first block: the cookie is there, and what an earlier reply left is forgotten. *)
Lemma decode_head_start w p len bytes :
  ld8 (mm w) in_encapsulated_options = 0 -> length (arptable w) = MAX_ARP ->
  ldn (mm w) p (4 + length bytes) = rfc1533_cookie ++ bytes -> p + 4 + Z.of_nat (length bytes) <= 0x39000 ->
  text_ok (mm w) hostname hostnamelen ->
  exists w1, decode_head p 0 len 1 w = Some (Ret (Some (p + 4, p + 4 + len)), w1) /\
    view_of w1 = {| v_lease := lease_of w; v_texts := (text_at (mm w) hostname hostnamelen, []); v_valid := 0 |} /\
    statics_only w w1 /\ decoding false w1 /\ ldn (mm w1) (p + 4) (length bytes) = bytes.
Proof.
  intros I A Hm Hp Hh. unfold decode_head. cbn [Z.eqb]. unfold store32. run. set (w1 := set_mm (st32 _ addparamlen 0) _).
  assert (S1 : statics_only w w1) by (intros x Hx; subst w1; cbn [mm set_mm]; statics; ld_simp; reflexivity).
  assert (M1 : ldn (mm w1) p (4 + length bytes) = rfc1533_cookie ++ bytes)
    by (rewrite (statics_only_ldn w) by (assumption || lia); exact Hm).
  rewrite ldn_app in M1. apply app_split_length in M1 as [C1 O1]; [|reflexivity].
  unfold bytes_at. change (length rfc1533_cookie) with 4%nat. rewrite C1.
  destruct (list_eq_dec _ _ _) as [_|]; [|congruence]. cbn [negb].
  destruct (text_kept w w1 hostname hostnamelen) as [B1 B2]; [exact S1| | |exact Hh|];
    try (subst w1; cbn [mm set_mm]; statics; ld_simp; reflexivity).
  exists w1. split; [reflexivity|]. split; [|split; [exact S1|split; [split; [|split; [exact A|split; [exact B1|]]]|exact O1]]].
  - unfold view_of, texts_of. rewrite B2. f_equal; subst w1; unfold lease_of, arp, text_at; cbn [mm set_mm netmask arptable]; statics; ld_simp; reflexivity.
  - subst w1. cbn [mm set_mm]. statics. ld_simp. exact I.
  - subst w1. unfold text_ok. cbn [mm set_mm]. statics. ld_simp. cbn. lia.
Qed.

(** The decoder on a block of Etherboot's own options. *)
Lemma decode_encapsulated `{Env} d fuel : (258 <= fuel)%nat ->
  encap_decodes (fun q n => decode_rfc1533 (S d) fuel q 0 n (-1) ;;; ret tt).
Proof.
  intros Hf fs rest w p Hok Hr Hl D Hm Hp Hp0. unfold encap_body in *. rewrite length_app in *. cbn [decode_rfc1533]. unfold decode_head. run.
  assert (Hfm : flat_map enc_item (map Plain fs) = flat_map enc_field fs) by (rewrite flat_map_concat_map, map_map, flat_map_concat_map; reflexivity).
  destruct (decode_loop_items true (fun q n => decode_rfc1533 d fuel q 0 n (-1) ;;; ret tt) rest (map Plain fs) ltac:(discriminate) Hr w p
              (p + Z.of_nat (length (flat_map enc_field fs) + length rest)) 0 None fuel)
    as (w2 & ext & E2 & V2 & S2 & D2 & X2 & _); rewrite ?Hfm; try assumption; try lia; try reflexivity.
  { rewrite Forall_map. eapply Forall_impl; [|exact Hok]. auto. }
  { intros ->. cbn. lia. }
  { destruct rest; [congruence|cbn; lia]. }
  rewrite Hfm in E2. set (q := p + Z.of_nat (length (flat_map enc_field fs))) in *. run.
  assert (Ex : ext = 0).
  { assert (N : fold_left ext_step (map Plain fs) None = None).
    { clear -Hok. induction Hok as [|f fs Hf Hok IH]; [reflexivity|]. cbn [map fold_left ext_step].
      destruct f as [|t d]; [exact IH|]. destruct (Z.eqb_spec t 18) as [->|]; [now destruct Hf as (_ & _ & _ & Hf)|exact IH]. }
    rewrite N in X2. exact X2. }
  subst ext. destruct (set_ext_spec true w2 q ltac:(unfold q; lia) D2) as (V3 & S3 & D3 & _). set (w3 := set_mm _ w2) in *.
  exists w3. split.
  { unfold bind, ret in E2. cbn [Z.eqb Pos.eqb]. run. rewrite E2. cbn [Z.eqb andb istrue negb]. unfold store32. run. reflexivity. }
  split; [|split; [|exact D3]].
  - rewrite V3, V2. clear. generalize (view_of w). induction fs as [|f fs IH]; intros v; [reflexivity|]. apply IH.
  - intros x Hx. rewrite S3, S2 by exact Hx. reflexivity.
Qed.

(** An option is always decoded. *)
Lemma decode_opt_total encap p ext w :
  (forall q n w, exists w', encap q n w = Some (Ret tt, w')) ->
  exists e w', decode_opt encap p ext w = Some (Ret e, w').
Proof.
  intros He. unfold decode_opt, set_arp_ip, set_arp, store32, store8, set_mem, modify, bind, get, ret.
  repeat match goal with
         | |- exists e w', (if ?b then _ else _) _ = _ => destruct b
         | |- exists e w', match (if ?b then _ else _) _ with _ => _ end = _ => destruct b
         | |- exists e w', match encap ?q ?n ?v with _ => _ end = _ => destruct (He q n v) as (w1 & ->)
         | |- exists e w', Some (Ret _, _) = _ => do 2 eexists; reflexivity
         | |- _ => progress cbv beta iota
         end.
Qed.

(** ** Properties *)

(** C7: The option decoder implements the specification of DHCP options.  The vendor area holds the
    cookie and, in any order and ended by the end tag, pad bytes, well-formed options and blocks of
    Etherboot's own options (tag 150), which may hold pads and options and an end tag with anything
    behind it.  Decoding leaves what the list defines, a later option overriding an earlier one: the
    netmask, the gateway and name server (only from options of at least four bytes), the message type
    and the server's address; the bytes to which the pointers to the host name and the additional
    parameters lead (parameters of an earlier reply are forgotten, a host name is kept; inside a
    block of Etherboot's options only the parameters count); and the number of signatures of
    Etherboot's extensions inside such blocks.  Options it does not know are skipped.  The end of
    the options is recorded, and nothing but the static variables is written.  It then returns 1 or,
    when there is an extension path, goes on to fetch that file by TFTP and to decode it block by
    block.  (An extension path inside Etherboot's own options, which starts a transfer in the middle
    of the list, is not covered.) *)
Theorem decode_options_refine `{Env} d fuel p len items w :
  Forall (item_ok false) items -> ld8 (mm w) in_encapsulated_options = 0 -> length (arptable w) = MAX_ARP ->
  ldn (mm w) p (4 + length (enc_items items)) = [99; 130; 83; 99] ++ enc_items items ->
  0 <= p -> p + 4 + Z.of_nat (length (enc_items items)) <= 0x39000 ->
  Z.of_nat (length (enc_items items)) <= len -> (length (enc_items items) + 258 <= fuel)%nat ->
  text_ok (mm w) hostname hostnamelen ->
  let q := p + 4 + Z.of_nat (length (enc_items items)) - 1 in
  exists w', decode_rfc1533 (S (S d)) fuel p 0 len 1 w
      = match fold_left ext_step items None with
        | None => Some (Ret 1, w')
        | Some path =>
            (r <- tftp fuel (until_nul path) (fun a b l e => decode_rfc1533 (S d) fuel a b l (b2z e)) (tftp_load (mm w')) ;;
             set_mem (tftp_save (snd r)) ;;; ret 1) w'
        end /\
    view_of w' = fold_left (item_step false) items {| v_lease := lease_of w; v_texts := (text_at (mm w) hostname hostnamelen, []); v_valid := 0 |} /\
    ld32 (mm w') end_of_rfc1533 = q /\ ld32 (mm w') extdata = q /\ ld32 (mm w') extend = q /\
    statics_only w w'.
Proof.
  intros Hok Henc Ha Hm Hp0 Hp Hlen Hfuel Hh q. remember (S d) as d1 eqn:Ed. cbn [decode_rfc1533]. subst d1.
  destruct (decode_head_start w p len (enc_items items) Henc Ha Hm Hp Hh) as (w1 & E1 & V1 & S1 & D1 & M1). unfold bind at 1. rewrite E1. cbn [Z.eqb].
  assert (Li : length (enc_items items) = (length (flat_map enc_item items) + 1)%nat) by (unfold enc_items; now rewrite length_app).
  destruct (decode_loop_items false (fun q n => decode_rfc1533 (S d) fuel q 0 n (-1) ;;; ret tt) [255] items
              (fun _ => decode_encapsulated d fuel ltac:(lia)) (or_intror (ex_intro _ [] eq_refl)) w1 (p + 4) (p + 4 + len) 0 None fuel Hok D1)
    as (w2 & ext & E2 & V2 & S2 & D2 & X2 & F2);
    [change (length [255]) with 1%nat; rewrite <- Li; exact M1|cbn [length]; lia|lia|discriminate|lia|lia|reflexivity|].
  replace (p + 4 + Z.of_nat (length (flat_map enc_item items))) with q in * by (unfold q; lia). specialize (F2 ltac:(discriminate)).
  assert (Rq : 0 <= q < 4294967296) by (subst q; lia).
  destruct (set_ext_spec false w2 q Rq D2) as (V3 & S3 & D3 & F3 & F3' & F3''). set (w3 := set_mm _ w2) in *.
  exists w3. split; [|split; [rewrite V3, V2, V1; reflexivity|split; [congruence|split; [exact F3'|split; [exact F3''|]]]]].
  2:{ intros x Hx. rewrite S3, S2, S1 by exact Hx. reflexivity. }
  unfold bind at 1. rewrite E2. unfold store32, set_mem, modify, bind at 1 2. fold w3.
  apply (ext_at_kept w2 w3) in X2; [|exact S3]. destruct (fold_left ext_step items None) as [path|]; cbn [ext_at] in X2.
  - destruct X2 as (X0 & X1 & X2 & X3). unfold istrue. destruct (Z.eqb_spec ext 0); [lia|]. cbn [negb andb Z.eqb]. run.
    change (set_mm (st32 (mm (set_mm (st32 (mm w2) extdata q) w2)) extend q) (set_mm (st32 (mm w2) extdata q) w2)) with w3.
    clearbody w3. cbn [Nat.add ldn enc_opt fst snd] in X3. injection X3 as X3 X4 X5. rewrite X4, Z.geb_leb. destruct (Z.leb_spec 64 (Z.of_nat (length path))); [lia|].
    rewrite Nat2Z.id. replace (ext + 1 + 1) with (ext + 2) in X5 by lia. rewrite X5. unfold bind, set_mem, modify, ret.
    destruct (tftp _ _ _ _ w3) as [[[r|] w4]|]; reflexivity.
  - subst ext. reflexivity.
Qed.

(** The option loop ends on any bytes whatever: with any garbage between [p] and [endp], it
    returns after at most one round per byte and one more, provided the calls for encapsulated
    blocks return. *)
Theorem decode_loop_terminates encap p endp ext fuel w :
  (forall q n w, exists w', encap q n w = Some (Ret tt, w')) ->
  endp - p + 1 < Z.of_nat fuel -> (1 < fuel)%nat ->
  exists r w', decode_loop fuel encap p endp ext w = Some (Ret r, w').
Proof.
  intros He. revert p endp ext w. induction fuel as [|fuel IH]; intros p endp ext w Hf H1; [lia|].
  cbn [decode_loop]. destruct (Z.ltb_spec p endp) as [Hlt|]; [|do 2 eexists; reflexivity].
  assert (Hp : (1 < fuel)%nat) by lia.
  unfold load8, bind at 1, gets at 1. destruct (_ =? RFC1533_PAD); [apply IH; lia|].
  destruct (_ =? RFC1533_END); [unfold store32, set_mem, modify, bind; apply IH; lia|].
  destruct (decode_opt_total encap p ext w He) as (e' & w' & E). unfold bind. rewrite E. unfold gets.
  pose proof (ld8_range (mm w') (p + 1)). apply IH; lia.
Qed.

(** *** The requests *)

(** The options of the DHCPREQUEST. *)
Definition request_opts (srv addr : list Z) (d : devid) : list (Z * list Z) :=
  [(RFC2132_MSG_TYPE, [DHCPREQUEST]); (RFC2132_SRV_ID, srv); (RFC2132_REQ_ADDR, addr);
   (RFC2132_MAX_SIZE, [5; 220]); (RFC2132_VENDOR_CLASS_ID, txt "Etherboot-5.4"%string);
   (RFC2132_PARAM_LIST, [1; 3; 12; 43; 17; 128; 129; 130; 150; 6]);
   (RFC1533_VENDOR_ETHERBOOT_ENCAP,
    [175; 5; u8 (bus_type d); Z.land (vendor_id d) 0xff; Z.land (Z.shiftr (vendor_id d) 8) 0xff;
     Z.land (device_id d) 0xff; Z.land (Z.shiftr (device_id d) 8) 0xff; 177; 2; 3; 0])].

Lemma u8_land_ff x : u8 (Z.land x 0xff) = Z.land x 0xff.
Proof. apply u8_small. change 0xff with (Z.ones 8). rewrite Z.land_ones by lia. apply Z.mod_pos_bound. lia. Qed.

(** The DHCPREQUEST is well formed: its vendor area is the cookie and a list of options whose
    server identifier is the stored server address and whose requested address is the stored
    offered address (so the offsets 9 and 15 of the source agree with the layout of the
    template), ended by the end tag. *)
Theorem dhcp_request_wellformed d m :
  let m' := build_request d false m in
  let opts := request_opts (ldn m dhcp_server 4) (ldn m dhcp_addr 4) d in
  ldn m' bp_vend (4 + length (enc_opts opts)) = rfc1533_cookie ++ enc_opts opts.
Proof.
  cbv zeta. cbv -[u8 Z.land Z.shiftr bus_type vendor_id device_id Z.modulo].
  rewrite !u8_u8, !u8_land_ff. reflexivity.
Qed.

(** The ProxyDHCP request is not well formed.  It is made over the DHCPREQUEST and no end tag
    is written behind its seven bytes of options, so the options go on with what is left of the
    longer template: the last two bytes of the server's address, in the place of a tag and its
    length, and from there the rest of the DHCPREQUEST. *)
Theorem proxy_request_stale d x64 m :
  let m' := build_proxy_request (build_request d x64 m) in
  ldn m' bp_vend (4 + length proxydhcprequest) = rfc1533_cookie ++ proxydhcprequest /\
  ldn m' (bp_vend + 4 + Z.of_nat (length proxydhcprequest)) 8
  = ldn m (dhcp_server + 2) 2 ++ [RFC2132_REQ_ADDR; 4] ++ ldn m dhcp_addr 4.
Proof.
  cbv zeta. destruct x64; cbv -[u8 Z.land Z.shiftr bus_type vendor_id device_id Z.modulo];
    rewrite !u8_u8; split; reflexivity.
Qed.

(** *** Witnesses *)

(** A reply with a netmask, two routers, pad bytes, the message type, a host name, an unknown option, a server
    and additional parameters, once outside and once, with a signature, among Etherboot's own options. *)
Definition items1 : list item :=
  [Plain (Opt 53 [2]); Plain Pad; Plain (Opt 1 [255; 255; 255; 0]); Plain (Opt 3 [10; 0; 0; 254; 10; 0; 0; 253]); Plain (Opt 12 [97; 98]);
   Plain Pad; Plain Pad; Plain (Opt 51 [0; 1]); Plain (Opt 54 [10; 0; 0; 2]); Plain (Opt 129 [113]);
   Encap [Opt 128 [0xE4; 0x45; 0x74; 0x68; 0; 0]; Pad; Opt 12 [99]; Opt 129 [114; 115]] [255; 7]].
Definition reply_world : world :=
  set_mm (stn (fun _ => 0) (bootp_data + bp_vend_off) (rfc1533_cookie ++ enc_items items1)) world0.

Lemma decode_options_refine_witness :
  exists w', @decode_rfc1533 silent_env 2 400 (bootp_data + bp_vend_off) 0 1236 1 reply_world
             = Some (Ret 1, w') /\
    view_of w' = {| v_lease := {| l_netmask := 0x00ffffff; l_gateway := 0xfe00000a; l_nameserver := 0;
                                  l_reply := DHCPOFFER; l_server := 0x0200000a |};
                    v_texts := ([97; 98], [114; 115]); v_valid := 1 |}.
Proof.
  destruct (@decode_options_refine silent_env 0 400 (bootp_data + bp_vend_off) 1236 items1 reply_world)
    as (w' & E & V & _).
  - repeat apply Forall_cons; try apply Forall_nil; try exact Logic.I;
      [..|split; [reflexivity|split; [|split; [right; now exists [7]|cbn; lia]]];
          repeat apply Forall_cons; try apply Forall_nil; try exact Logic.I];
      cbn [item_ok field_ok length]; (repeat apply conj); try lia; repeat (apply Forall_cons; [lia|]); apply Forall_nil.
  - reflexivity.
  - reflexivity.
  - vm_compute. reflexivity.
  - vm_compute. discriminate.
  - vm_compute. discriminate.
  - vm_compute. discriminate.
  - cbn. lia.
  - vm_compute. discriminate.
  - exists w'. split; [exact E|]. rewrite V. vm_compute. reflexivity.
Defined.

Lemma decode_loop_terminates_witness :
  exists r w', decode_loop 20 (fun _ _ => ret tt) 0x100 0x110 0 (set_mm (fun x => 7 * x) world0) = Some (Ret r, w').
Proof.
  apply (decode_loop_terminates (fun _ _ => ret tt) 0x100 0x110 0 20 (set_mm (fun x => 7 * x) world0)).
  - intros q n w. eexists. reflexivity.
  - vm_compute. reflexivity.
  - lia.
Defined.
