(* ===== verification/Tcp.v ===== *)
(** The TCP client of [src/src/core/nic.c]: [await_tcp] and [tcp_transaction], which sends a request
    and receives the answer.

    The function is a loop over two labels, [send_data] and [recv_data]; its local variables are a
    record.  Sequence numbers are signed 32-bit numbers, as in the source.  The callbacks [send] and
    [recv] are parameters.  The static [srcsock] lies in memory. *)

From S2P Require Import Prelude Memory StringLib Misc Net Lacp Nic.

Definition TCP_INITIAL_TIMEOUT : Z := 3 * TICKS_PER_SEC.
Definition TCP_MAX_TIMEOUT : Z := 60 * TICKS_PER_SEC.
Definition TCP_MIN_TIMEOUT : Z := TICKS_PER_SEC.
Definition TCP_MAX_RETRY : Z := 10.
Definition TCP_MAX_HEADER : Z := 84.
Definition TCP_MIN_WINDOW : Z := 1500 - TCP_MAX_HEADER.

(** [buf], of 128 bytes, and [srcsock]. *)
Definition tcp_buf : Z := 0x3c000.
Definition tcp_buf_size : Z := 128.
Definition srcsock_at : Z := 0x3c100.
(** The received segment. *)
Definition tcp_ptr : Z := ip_ptr + 20.

Inductive tcp_conn := CLOSED | SYN_RCVD | ESTABLISHED | FIN_WAIT_1 | FIN_WAIT_2.
Definition conn_eqb (a b : tcp_conn) : bool :=
  match a, b with
  | CLOSED, CLOSED | SYN_RCVD, SYN_RCVD | ESTABLISHED, ESTABLISHED
  | FIN_WAIT_1, FIN_WAIT_1 | FIN_WAIT_2, FIN_WAIT_2 => true
  | _, _ => false
  end.

Record tcp_state := {
  t_rc : Z;
  send_seq : Z;
  recv_seq : Z;
  can_send : Z;
  sent_all : bool;
  t_ctrl : Z;
  window : Z;
  last_ack : Z;
  last_sent : Z;
  srtt : Z;
  rto : Z;
  t_retry : Z;
  conn : tcp_conn;
}.
Definition tcp_start (ticks : Z) : tcp_state :=
  {| t_rc := 1; send_seq := s32 ticks; recv_seq := 0; can_send := 0; sent_all := false; t_ctrl := SYN;
     window := 3 * TCP_MIN_WINDOW; last_ack := 0; last_sent := 0; srtt := 0; rto := TCP_INITIAL_TIMEOUT;
     t_retry := TCP_MAX_TIMEOUT / TCP_INITIAL_TIMEOUT; conn := CLOSED |}.

Definition set_conn (c : tcp_conn) (ctrl : Z) (st : tcp_state) : tcp_state :=
  {| t_rc := t_rc st; send_seq := send_seq st; recv_seq := recv_seq st; can_send := can_send st;
     sent_all := sent_all st; t_ctrl := ctrl; window := window st; last_ack := last_ack st;
     last_sent := last_sent st; srtt := srtt st; rto := rto st; t_retry := t_retry st; conn := c |}.
Definition set_window (x : Z) (st : tcp_state) : tcp_state :=
  {| t_rc := t_rc st; send_seq := send_seq st; recv_seq := recv_seq st; can_send := can_send st;
     sent_all := sent_all st; t_ctrl := t_ctrl st; window := x; last_ack := last_ack st;
     last_sent := last_sent st; srtt := srtt st; rto := rto st; t_retry := t_retry st; conn := conn st |}.
Definition set_recv_seq (x : Z) (st : tcp_state) : tcp_state :=
  {| t_rc := t_rc st; send_seq := send_seq st; recv_seq := s32 x; can_send := can_send st;
     sent_all := sent_all st; t_ctrl := t_ctrl st; window := window st; last_ack := last_ack st;
     last_sent := last_sent st; srtt := srtt st; rto := rto st; t_retry := t_retry st; conn := conn st |}.
Definition set_last_ack (x : Z) (st : tcp_state) : tcp_state :=
  {| t_rc := t_rc st; send_seq := send_seq st; recv_seq := recv_seq st; can_send := can_send st;
     sent_all := sent_all st; t_ctrl := t_ctrl st; window := window st; last_ack := x;
     last_sent := last_sent st; srtt := srtt st; rto := rto st; t_retry := t_retry st; conn := conn st |}.
Definition set_last_sent (x : Z) (st : tcp_state) : tcp_state :=
  {| t_rc := t_rc st; send_seq := send_seq st; recv_seq := recv_seq st; can_send := can_send st;
     sent_all := sent_all st; t_ctrl := t_ctrl st; window := window st; last_ack := last_ack st;
     last_sent := x; srtt := srtt st; rto := rto st; t_retry := t_retry st; conn := conn st |}.
Definition set_retry (x : Z) (st : tcp_state) : tcp_state :=
  {| t_rc := t_rc st; send_seq := send_seq st; recv_seq := recv_seq st; can_send := can_send st;
     sent_all := sent_all st; t_ctrl := t_ctrl st; window := window st; last_ack := last_ack st;
     last_sent := last_sent st; srtt := srtt st; rto := rto st; t_retry := x; conn := conn st |}.
Definition set_rtt (s r : Z) (st : tcp_state) : tcp_state :=
  {| t_rc := t_rc st; send_seq := send_seq st; recv_seq := recv_seq st; can_send := can_send st;
     sent_all := sent_all st; t_ctrl := t_ctrl st; window := window st; last_ack := last_ack st;
     last_sent := last_sent st; srtt := s; rto := r; t_retry := t_retry st; conn := conn st |}.
Definition set_sending (sq cs : Z) (all : bool) (st : tcp_state) : tcp_state :=
  {| t_rc := t_rc st; send_seq := s32 sq; recv_seq := recv_seq st; can_send := cs;
     sent_all := all; t_ctrl := t_ctrl st; window := window st; last_ack := last_ack st;
     last_sent := last_sent st; srtt := srtt st; rto := rto st; t_retry := t_retry st; conn := conn st |}.
Definition tcp_close (st : tcp_state) : tcp_state :=
  {| t_rc := 0; send_seq := send_seq st; recv_seq := recv_seq st; can_send := can_send st;
     sent_all := sent_all st; t_ctrl := FIN + ACK; window := window st; last_ack := last_ack st;
     last_sent := last_sent st; srtt := srtt st; rto := rto st; t_retry := t_retry st; conn := FIN_WAIT_1 |}.

(** Where a step leads. *)
Inductive tcp_next :=
| SendData (st : tcp_state)
| RecvData (st : tcp_state)
| Return (rc : Z).

Definition flag (ctrl f : Z) : bool := istrue (Z.land ctrl (htons f)).
(** The retransmission timer after a round trip of [rtt]. *)
Definition new_srtt (st : tcp_state) (rtt : Z) : Z :=
  if srtt st =? 0 then rtt else Z.quot (srtt st * 4 + rtt) 5.
Definition clamp_rto (r : Z) : Z :=
  if r <? TCP_MIN_TIMEOUT then TCP_MIN_TIMEOUT else if r >? TCP_MAX_TIMEOUT then TCP_MAX_TIMEOUT else r.
(** The window after a segment in order, and after old data. *)
Definition in_window (st : tcp_state) : bool :=
  window st - 2 * TCP_MIN_WINDOW >? s32 (recv_seq st - last_ack st).
Definition grow_window (w : Z) : Z :=
  let w := w + TCP_MIN_WINDOW in if w >? TCP_MAX_WINDOW then TCP_MAX_WINDOW else w.
Definition shrink_window (w : Z) : Z :=
  let w := Z.quot w 2 in if w <? 2 * TCP_MIN_WINDOW then 2 * TCP_MIN_WINDOW else w.

Section tcp.
Context `{E : Env}.
(** The callbacks: [send len buf] gives the number of bytes put in [buf], [recv len data] is 0 to
    close the connection. *)
Context (send : Z -> Z -> M Z) (recv : Z -> Z -> M Z).
Context (fuel : nat) (destip destsock : Z).

Definition await_tcp (ival : Z) : reply_t := fun info =>
  if negb (has_tcp info) then ret 0
  else
    w <- get ;;
    if negb (client_ip w =? ld32 (mm w) (ip_ptr + 16)) then ret 0
    else if negb (ntohs (ld16 (mm w) (tcp_ptr + 2)) =? ival) then tcp_reset fuel ;;; ret 0
    else ret 1.

Definition tcp_send (srcsock seq ack win ctrl len : Z) : M Z :=
  tcp_transmit fuel destip srcsock destsock seq ack win ctrl len tcp_buf.

(** [send_data:] *)
Definition on_send (srcsock : Z) (st : tcp_state) : M tcp_next :=
  let st := if istrue (Z.land (t_ctrl st) ACK) then set_last_ack (recv_seq st) st else st in
  ok <- tcp_send srcsock (send_seq st) (recv_seq st) (window st) (t_ctrl st) (20 + 20 + can_send st) ;;
  if ok =? 0 then ret (Return 0)
  else
    t <- currticks ;;
    ret (RecvData (set_last_sent (s32 t) st)).

(** Nothing was received in time. *)
Definition on_timeout (srcsock : Z) (st : tcp_state) : M tcp_next :=
  match conn st with
  | ESTABLISHED => ret (SendData (tcp_close st))
  | FIN_WAIT_1 | FIN_WAIT_2 => ret (Return (t_rc st))
  | c =>
      let st := set_retry (t_retry st - 1) st in
      if t_retry st <=? 0 then
        (if conn_eqb c SYN_RCVD
         then tcp_send srcsock (send_seq st) 0 (window st) RST (20 + 20) ;;; ret tt
         else ret tt) ;;;
        ret (Return 0)
      else ret (SendData st)
  end.

(** What the acknowledgement frees is removed from the buffer, and more is put behind the rest. *)
Definition on_consumed (consumed syn_ack : Z) (st : tcp_state) : M tcp_state :=
  t <- currticks ;;
  let rtt := s32 (t - last_sent st) in
  let s := s32 (new_srtt st rtt) in
  let st := set_rtt s (clamp_rto (s32 (s + Z.quot s 2))) st in
  let cs := can_send st - consumed in
  let sq := send_seq st + consumed + syn_ack in
  let data := tcp_buf + 20 + 20 in
  (if istrue cs then set_mem (fun m => memmove m data (data + consumed) (Z.to_nat cs)) else ret tt) ;;;
  if sent_all st then ret (set_sending sq cs true st)
  else
    let data := data + cs in
    let more := tcp_buf + tcp_buf_size - data in
    more <- (if more >? 0 then send more data else ret more) ;;
    ret (set_sending sq (if tcp_buf + tcp_buf_size - data >? 0 then cs + more else cs) (more =? 0) st).

(** [consume_data:] *)
Definition on_fin (srcsock : Z) (st : tcp_state) : M tcp_next :=
  let est := match conn st with ESTABLISHED | FIN_WAIT_1 | FIN_WAIT_2 => true | _ => false end in
  let ctrl := match conn st with
              | ESTABLISHED => FIN + ACK
              | FIN_WAIT_1 | FIN_WAIT_2 => ACK
              | _ => RST
              end in
  ok <- tcp_send srcsock (send_seq st) (s32 (recv_seq st + 1)) (window st) ctrl (20 + 20) ;;
  ret (Return (b2z (istrue ok && est && (can_send st =? 0)))).
Definition on_rest (srcsock payload : Z) (st : tcp_state) : M tcp_next :=
  w <- get ;;
  let ctrl := ld16 (mm w) (tcp_ptr + 12) in
  if flag ctrl FIN then on_fin srcsock st
  else
    let next st := ret (if istrue (can_send st) || istrue payload then SendData st else RecvData st) in
    if conn_eqb (conn st) CLOSED && flag ctrl SYN then
      let st := set_recv_seq (ntohl (ld32 (mm w) (tcp_ptr + 4)) + 1) st in
      if negb (flag ctrl ACK) then ret (SendData (set_conn SYN_RCVD (SYN + ACK + PSH) st))
      else next (set_conn ESTABLISHED (PSH + ACK) st)
    else next st.
Definition on_consume (srcsock : Z) (st : tcp_state) : M tcp_next :=
  w <- get ;;
  let m := mm w in
  let ctrl := ld16 m (tcp_ptr + 12) in
  let header_size := 20 + Z.land (Z.shiftr (ntohs ctrl) 10) 0x3C in
  let payload := ntohs (ld16 m (ip_ptr + 2)) - header_size in
  if (payload >? 0) && conn_eqb (conn st) ESTABLISHED then
    let old_bytes := s32 (recv_seq st - ntohl (ld32 m (tcp_ptr + 4))) in
    if (old_bytes >=? 0) && (payload - old_bytes >? 0) then
      let st := set_recv_seq (recv_seq st + payload - old_bytes) st in
      go <- recv (payload - old_bytes) (nic_packet + ETH_HLEN + header_size + old_bytes) ;;
      if go =? 0 then ret (SendData (tcp_close st))
      else
        w <- get ;;
        if negb (flag (ld16 (mm w) (tcp_ptr + 12)) FIN) then
          let inw := in_window st in
          let st := set_conn (conn st) (if istrue (can_send st) then PSH + ACK else ACK) st in
          if negb (istrue (can_send st)) && inw then ret (SendData st)
          else ret (SendData (if inw then st else set_window (grow_window (window st)) st))
        else on_rest srcsock payload st
    else on_rest srcsock payload (set_window (shrink_window (window st)) st)
  else on_rest srcsock payload st.

(** [got_data:] *)
Definition on_segment (srcsock : Z) (st : tcp_state) : M tcp_next :=
  let st := set_retry TCP_MAX_RETRY st in
  w <- get ;;
  let m := mm w in
  let ctrl := ld16 m (tcp_ptr + 12) in
  if flag ctrl ACK then
    match conn st with
    | FIN_WAIT_1 | FIN_WAIT_2 => on_consume srcsock (set_conn FIN_WAIT_2 ACK st)
    | _ =>
        let syn_ack := b2z (conn_eqb (conn st) CLOSED || conn_eqb (conn st) SYN_RCVD) in
        let consumed := s32 (ntohl (ld32 m (tcp_ptr + 8)) - send_seq st - syn_ack) in
        if (consumed <? 0) || (consumed >? can_send st) then
          tcp_reset fuel ;;; ret (RecvData st)
        else
          st <- on_consumed consumed syn_ack st ;;
          w <- get ;;
          if conn_eqb (conn st) SYN_RCVD
          then on_consume srcsock (set_conn ESTABLISHED (PSH + ACK) st)
          else if flag (ld16 (mm w) (tcp_ptr + 12)) RST then ret (Return 0)
          else on_consume srcsock st
    end
  else if flag ctrl RST then
    ret (if conn_eqb (conn st) CLOSED then RecvData st else Return 0)
  else on_consume srcsock st.

(** [recv_data:] *)
Definition on_recv (srcsock : Z) (st : tcp_state) : M tcp_next :=
  got <- await_reply fuel (await_tcp srcsock)
           (if conn_eqb (conn st) ESTABLISHED && (can_send st =? 0) then TCP_MAX_TIMEOUT else rto st) ;;
  if got =? 0 then on_timeout srcsock st else on_segment srcsock st.

Definition tcp_step (srcsock : Z) (n : tcp_next) : M tcp_next :=
  match n with
  | SendData st => on_send srcsock st
  | RecvData st => on_recv srcsock st
  | Return rc => ret (Return rc)
  end.
Fixpoint tcp_loop (rounds : nat) (srcsock : Z) (n : tcp_next) : M Z :=
  match n with
  | Return rc => ret rc
  | _ => match rounds with
         | O => oof
         | S r => n <- tcp_step srcsock n ;; tcp_loop r srcsock n
         end
  end.
Definition tcp_transaction (rounds : nat) : M Z :=
  t0 <- currticks ;;
  let st := tcp_start t0 in
  s <- load16 srcsock_at ;;
  s <- (if s =? 0 then t <- currticks ;; ret (u16 t) else ret s) ;;
  let s := u16 (s + 1) in
  let s := if s <? 1024 then u16 (s + 1024) else s in
  store16 srcsock_at s ;;;
  await_reply fuel await_qdrain 0 ;;;
  tcp_loop rounds s (SendData st).
End tcp.

(** ** The invariant *)

Definition default_res {A} (r : option (res A * world)) : res A * world :=
  match r with Some x => x | None => (Jmp 0, world0) end.

(** What is waiting to be sent fits the buffer behind the headers, the window announced stays
    between two segments and the largest possible, and the timer between its bounds. *)
Definition tcp_ok (st : tcp_state) : Prop :=
  0 <= can_send st <= tcp_buf_size - 40 /\
  2 * TCP_MIN_WINDOW <= window st <= TCP_MAX_WINDOW /\
  TCP_MIN_TIMEOUT <= rto st <= TCP_MAX_TIMEOUT.
Definition next_ok (n : tcp_next) : Prop :=
  match n with SendData st | RecvData st => tcp_ok st | Return _ => True end.

Ltac tcp_consts := unfold TCP_MIN_WINDOW, TCP_MAX_WINDOW, TCP_MAX_HEADER, TCP_MIN_TIMEOUT, TCP_MAX_TIMEOUT,
  TCP_INITIAL_TIMEOUT, tcp_buf_size, TICKS_PER_SEC in *.

Lemma tcp_start_ok t : tcp_ok (tcp_start t).
Proof. unfold tcp_ok, tcp_start. cbn [can_send window rto]. tcp_consts. lia. Qed.
Lemma clamp_rto_ok r : TCP_MIN_TIMEOUT <= clamp_rto r <= TCP_MAX_TIMEOUT.
Proof. unfold clamp_rto. rewrite Z.gtb_ltb. tcp_consts. case_tests; lia. Qed.
Lemma grow_window_ok w :
  2 * TCP_MIN_WINDOW <= w <= TCP_MAX_WINDOW -> 2 * TCP_MIN_WINDOW <= grow_window w <= TCP_MAX_WINDOW.
Proof. unfold grow_window. rewrite Z.gtb_ltb. tcp_consts. case_tests; lia. Qed.
Lemma shrink_window_ok w :
  2 * TCP_MIN_WINDOW <= w <= TCP_MAX_WINDOW -> 2 * TCP_MIN_WINDOW <= shrink_window w <= TCP_MAX_WINDOW.
Proof.
  intros H. unfold shrink_window. rewrite Z.quot_div_nonneg by (tcp_consts; lia). tcp_consts.
  case_tests; Z.div_mod_to_equations; lia.
Qed.

(** A bind that returns. *)
Lemma bind_ret {A B} (c : M A) (k : A -> M B) w b w' :
  bind c k w = Some (Ret b, w') -> exists a w1, c w = Some (Ret a, w1) /\ k a w1 = Some (Ret b, w').
Proof.
  unfold bind. destruct (c w) as [[[a|s] w1]|]; intros H; [|discriminate|discriminate]. eauto.
Qed.
(** Take a computation apart, one operation at a time. *)
Ltac unbind H :=
  lazymatch type of H with
  | bind ?c ?k ?w = Some (Ret _, _) =>
      let a := fresh "a" in let w1 := fresh "w" in let H1 := fresh "H" in
      apply bind_ret in H as (a & w1 & H1 & H); unbind H1; unbind H
  | ret ?x ?w = Some (Ret _, _) => unfold ret in H; apply Some_ret_inj in H as [<- <-]
  | get ?w = Some (Ret _, _) => unfold get in H; apply Some_ret_inj in H as [<- <-]
  | (if ?b then _ else _) ?w = Some (Ret _, _) => destruct b eqn:?; unbind H
  | _ => idtac
  end.

Section invariant.
Context `{E : Env} (send recv : Z -> Z -> M Z) (fuel : nat) (destip destsock srcsock : Z).
Context (Hsend : forall len buf w r w', 0 < len -> send len buf w = Some (Ret r, w') -> 0 <= r <= len).

Lemma on_consumed_ok consumed syn_ack st w st' w' :
  tcp_ok st -> 0 <= consumed <= can_send st ->
  on_consumed send consumed syn_ack st w = Some (Ret st', w') -> tcp_ok st' /\ conn st' = conn st.
Proof.
  intros (C & W & R) Hc H. unfold on_consumed in H. cbv zeta in H. unbind H.
  all: try (cbn [can_send set_rtt] in *; pose proof clamp_rto_ok;
            split; [split; [|split; [exact W|apply clamp_rto_ok]] | reflexivity];
            cbn [can_send set_sending set_rtt]).
  all: unfold tcp_buf_size in *; rewrite ?Z.gtb_ltb in *.
  all: try (match goal with X : send _ _ _ = _ |- _ => apply Hsend in X; [|now apply Z.ltb_lt] end).
  all: lia.
Qed.

Lemma on_rest_ok payload st w n w' :
  tcp_ok st -> on_rest fuel destip destsock srcsock payload st w = Some (Ret n, w') -> next_ok n.
Proof.
  intros Ok H. unfold on_rest, on_fin in H. cbv zeta in H. unbind H; cbn [next_ok]; try exact I.
  all: try (match goal with |- next_ok (if ?b then _ else _) => destruct b end); exact Ok.
Qed.
Lemma on_consume_ok st w n w' :
  tcp_ok st -> on_consume recv fuel destip destsock srcsock st w = Some (Ret n, w') -> next_ok n.
Proof.
  intros Ok H. unfold on_consume in H. cbv zeta in H.
  unbind H; try (eapply on_rest_ok; [|exact H]); try exact Ok.
  - cbn [next_ok]. destruct (in_window _); [exact Ok|].
    destruct Ok as (C & W & R). split; [exact C|]. split; [now apply grow_window_ok | exact R].
  - destruct Ok as (C & W & R). split; [exact C|]. split; [now apply shrink_window_ok | exact R].
Qed.

Lemma on_segment_ok st w n w' :
  tcp_ok st -> on_segment send recv fuel destip destsock srcsock st w = Some (Ret n, w') -> next_ok n.
Proof.
  intros Ok H. unfold on_segment in H. cbv zeta in H. cbn [conn set_retry can_send send_seq] in H.
  assert (Ack : forall consumed syn_ack w0 st1 w1,
    (consumed <? 0) || (consumed >? can_send st) = false ->
    on_consumed send consumed syn_ack (set_retry TCP_MAX_RETRY st) w0 = Some (Ret st1, w1) -> tcp_ok st1).
  { intros consumed syn_ack w0 st1 w1 Hb H0. apply orb_false_iff in Hb as [B1 B2].
    rewrite Z.gtb_ltb in B2. apply Z.ltb_ge in B1, B2.
    eapply on_consumed_ok in H0; [apply H0 | exact Ok | cbn [can_send set_retry]; lia]. }
  apply bind_ret in H as (a & w0 & H0 & H). unbind H0.
  destruct (flag _ ACK).
  - destruct (conn st) eqn:Ec; unbind H; try exact I; try exact Ok;
      (eapply on_consume_ok; [|exact H]);
      first [ exact Ok
            | match goal with
              | X : on_consumed _ _ _ _ _ = _, B : _ || _ = false |- _ => exact (Ack _ _ _ _ _ B X)
              end ].
  - unbind H; [destruct (conn_eqb _ _); [exact Ok|exact I]|]. eapply on_consume_ok; [|exact H]. exact Ok.
Qed.

Lemma tcp_step_ok n w n' w' :
  next_ok n -> tcp_step send recv fuel destip destsock srcsock n w = Some (Ret n', w') -> next_ok n'.
Proof.
  intros Ok H. destruct n as [st|st|rc]; cbn [tcp_step next_ok] in *.
  - unfold on_send in H. cbv zeta in H. unbind H; [exact I|]. cbn [next_ok].
    destruct (istrue _); exact Ok.
  - unfold on_recv, on_timeout in H. unbind H.
    + destruct (conn st); cbv zeta in H; unbind H; first [exact I | exact Ok].
    + eapply on_segment_ok; [exact Ok | exact H].
  - unbind H. exact I.
Qed.
End invariant.

(** ** Properties *)

(** The positions of the loop that a transaction can be at. *)
Inductive tcp_reach `{Env} (send recv : Z -> Z -> M Z) (fuel : nat) (destip destsock srcsock : Z)
    : tcp_next -> world -> Prop :=
| reach_start t w : tcp_reach send recv fuel destip destsock srcsock (SendData (tcp_start t)) w
| reach_step n w n' w' :
    tcp_reach send recv fuel destip destsock srcsock n w ->
    tcp_step send recv fuel destip destsock srcsock n w = Some (Ret n', w') ->
    tcp_reach send recv fuel destip destsock srcsock n' w'.

(** C9: At every point a transaction can reach, whatever is received and however long it goes on,
    the data waiting to be sent fits in the 88 bytes of the buffer behind the headers, the window
    announced is between 2832 and 65451 bytes, so that it fits its 16-bit field, and the
    retransmission timeout is between one second and one minute; provided the [send] callback
    never claims more than it was offered. *)
Theorem tcp_transaction_safe `{Env} send recv fuel destip destsock srcsock n w :
  (forall len buf w r w', 0 < len -> send len buf w = Some (Ret r, w') -> 0 <= r <= len) ->
  tcp_reach send recv fuel destip destsock srcsock n w ->
  match n with
  | SendData st | RecvData st =>
      0 <= can_send st <= 88 /\ 2832 <= window st <= 65451 /\ 18 <= rto st <= 1080
  | Return _ => True
  end.
Proof.
  intros Hs R. assert (Ok : next_ok n).
  { induction R as [t w|n w n' w' _ IH Hst]; [apply tcp_start_ok|].
    eapply tcp_step_ok; [exact Hs | exact IH | exact Hst]. }
  destruct n; exact Ok.
Qed.

(** A transaction on a silent network, after its first segment. *)
Definition send_one : Z -> Z -> M Z := fun _ _ => ret 1.
Definition tcp_world : world :=
  let w := lacp_init_state [2; 0; 0; 0; 0; 1] world0 in
  set_arptable (list_set (arptable w) ARP_SERVER {| ipaddr := 0x0200000a; node := [2; 0; 0; 0; 0; 2] |}) w.

Definition tcp_world1 : world :=
  snd (default_res (@tcp_step silent_env send_one (fun _ _ => ret 1) 3 0x0200000a 80 1025
                      (SendData (tcp_start 7)) tcp_world)).

Lemma tcp_transaction_safe_witness :
  let st := set_last_sent 0 (tcp_start 7) in
  @tcp_reach silent_env send_one (fun _ _ => ret 1) 3 0x0200000a 80 1025 (RecvData st) tcp_world1 /\
  0 <= can_send st <= 88.
Proof.
  intros st.
  assert (R : @tcp_reach silent_env send_one (fun _ _ => ret 1) 3 0x0200000a 80 1025 (RecvData st) tcp_world1).
  { apply (@reach_step silent_env _ _ _ _ _ _ (SendData (tcp_start 7)) tcp_world);
      [apply (@reach_start silent_env _ _ _ _ _ _ 7 tcp_world)|].
    reflexivity. }
  split; [exact R|].
  apply (@tcp_transaction_safe silent_env send_one (fun _ _ => ret 1) 3 0x0200000a 80 1025 (RecvData st) tcp_world1);
    [|exact R].
  intros len buf w r w' L H. unfold send_one, ret in H. apply Some_ret_inj in H as [<- _]. lia.
Defined.

(** ** Segments on the wire *)

Section tcp_built.
Context (client destip srcsock destsock seq ack win flags ttl len buf : Z) (m : mem).
Context (Hlen : 40 <= len < 65536).
Let built := build_tcp_hdr client destip srcsock destsock seq ack win flags ttl len buf m.

Lemma build_tcp_hdr_spec :
  ld8 built buf = 0x45 /\ ld16 built (buf + 2) = htons len /\ ld16 built (buf + 6) = 0 /\
  ld8 built (buf + 9) = IP_TCP /\ ipchksum built buf 20 = 0 /\
  ld16 built (buf + 20) = htons srcsock /\ ld16 built (buf + 22) = htons destsock /\
  ld32 built (buf + 24) = htonl seq /\ ld32 built (buf + 28) = htonl ack /\ ld16 built (buf + 32) = htons (flags + 20480) /\
  tcpudpchksum built buf = 0 /\ ld32 built (buf + 12) = u32 client /\ ld32 built (buf + 16) = u32 destip.
Proof using Hlen.
  subst built. unfold build_tcp_hdr. cbv zeta. change (Z.shiftl 5 12) with 20480.
  replace (buf + 20 + 2) with (buf + 22) by lia. replace (buf + 20 + 4) with (buf + 24) by lia.
  replace (buf + 20 + 8) with (buf + 28) by lia. replace (buf + 20 + 12) with (buf + 32) by lia.
  replace (buf + 20 + 14) with (buf + 34) by lia. replace (buf + 20 + 16) with (buf + 36) by lia.
  destruct (build_ip_hdr_fields client destip ttl IP_TCP len buf m) as (E1 & E2 & E3 & E4 & E5 & E6 & E7).
  set (m1 := build_ip_hdr _ _ _ _ _ _ _ _) in *. set (m2 := st16 _ (buf + 36) 0).
  assert (Ef : ld16 m2 (buf + 2) = htons len) by (subst m2; ld_simp; exact E2).
  destruct (l4_checksum_verifies m2 buf 16 len) as [V R];
    [ rewrite Ef; apply ntohs_htons_id; lia | lia | reflexivity | lia
    | replace (buf + 20 + 16) with (buf + 36) by lia; subst m2; ld_simp; reflexivity |].
  cbv zeta in V, R. replace (buf + 20 + 16) with (buf + 36) in * by lia.
  set (c' := if tcpudpchksum m2 buf =? 0 then _ else _) in *.
  pose proof (htons_range srcsock). pose proof (htons_range destsock). pose proof (htons_range (flags + 20480)).
  pose proof (htonl_range seq). pose proof (htonl_range ack).
  assert (Eip : ipchksum (st16 m2 (buf + 36) c') buf 20 = 0).
  { rewrite <- E7. apply ipchksum_ext. intros x Hx. subst m2. ld_simp. reflexivity. }
  split; [ld_simp; subst m2; ld_simp; exact E1|]. split; [ld_simp; exact Ef|].
  split; [ld_simp; subst m2; ld_simp; exact E3|]. split; [ld_simp; subst m2; ld_simp; exact E4|]. split; [exact Eip|].
  split; [ld_simp; subst m2; ld_simp; apply u16_small; lia|]. split; [ld_simp; subst m2; ld_simp; apply u16_small; lia|].
  split; [ld_simp; subst m2; ld_simp; apply u32_small; lia|]. split; [ld_simp; subst m2; ld_simp; apply u32_small; lia|].
  split; [ld_simp; subst m2; ld_simp; apply u16_small; lia|]. split; [exact V|].
  split; ld_simp; subst m2; ld_simp; assumption.
Qed.
Lemma build_tcp_hdr_out x : x < buf \/ buf + 40 <= x -> ld8 built x = ld8 m x.
Proof using. intros H. subst built. unfold build_tcp_hdr. cbv zeta. ld_simp. apply build_ip_hdr_out. lia. Qed.
End tcp_built.

(** The frame of a segment: [hd] is the Ethernet header less the type, and the segment is made as [build_tcp_hdr] makes one, at some
    place in the peer's memory. *)
Definition tcp_frame (hd : list Z) (src dst sp dp seq ack win flags : Z) (body : list Z) : list Z :=
  let n := (40 + length body)%nat in
  hd ++ [8; 0] ++
  ldn (build_tcp_hdr src dst sp dp seq ack win flags 60 (Z.of_nat n) peer_buf (stn (fun _ => 0) (peer_buf + 40) body)) peer_buf n.
Lemma tcp_frame_length hd src dst sp dp seq ack win flags body :
  length hd = 12%nat -> length (tcp_frame hd src dst sp dp seq ack win flags body) = (54 + length body)%nat.
Proof. intros Hh. unfold tcp_frame. rewrite !length_app, length_ldn, Hh. cbn [length]. lia. Qed.

(** The flags of a segment, and the place of its data. *)
Lemma tcp_data_offset flags : 0 <= flags < 64 -> Z.land (Z.shiftr (flags + 20480) 10) 0x3C = 20.
Proof.
  intros H. pose proof (all_below_spec 64 (fun f => Z.land (Z.shiftr (f + 20480) 10) 0x3C =? 20) ltac:(vm_compute; reflexivity) flags H) as E.
  now apply Z.eqb_eq in E.
Qed.

(** What is found in the packet buffer. *)
Lemma tcp_frame_received m0 hd body src dst sp dp seq ack win flags :
  length hd = 12%nat -> (length body <= 1460)%nat -> Forall (fun b => 0 <= b < 256) body -> 0 <= dst < 4294967296 -> 0 <= flags < 64 ->
  let fr := tcp_frame hd src dst sp dp seq ack win flags body in
  let m := stn m0 nic_packet fr in
  rx_filter m (Z.of_nat (length fr))
  = (m, Z.of_nat (length fr), Some {| ptype := ETH_P_IP; has_ip := true; has_udp := false; has_tcp := true |}) /\
  ld32 m (ip_ptr + 16) = dst /\ ntohs (ld16 m (ip_ptr + 2)) = 40 + Z.of_nat (length body) /\ ntohs (ld16 m (tcp_ptr + 2)) = u16 dp /\
  ntohl (ld32 m (tcp_ptr + 4)) = u32 seq /\ ntohl (ld32 m (tcp_ptr + 8)) = u32 ack /\ ld16 m (tcp_ptr + 12) = htons (flags + 20480) /\
  ldn m (ip_ptr + 40) (length body) = body.
Proof.
  intros Hh Hl Hb Hd Hf fr m. set (n := (40 + length body)%nat).
  set (mb := stn (fun _ => 0) (peer_buf + 40) body).
  set (mu := build_tcp_hdr src dst sp dp seq ack win flags 60 (Z.of_nat n) peer_buf mb).
  assert (S : same_bytes m ip_ptr mu peer_buf (Z.of_nat n)).
  { apply same_bytes_ldn. pose proof (ldn_stn_field m0 nic_packet (hd ++ [8; 0]) (ldn mu peer_buf n) []) as F.
    rewrite app_nil_r, <- app_assoc, length_app, length_ldn, Hh in F. rewrite map_u8_bytes in F by apply Forall_ldn. exact F. }
  assert (T : frame_type m = ETH_P_IP).
  { pose proof (ldn_stn_field m0 nic_packet hd [8; 0] (ldn mu peer_buf n)) as F. rewrite Hh in F.
    change (stn m0 nic_packet (hd ++ [8; 0] ++ ldn mu peer_buf n)) with m in F.
    pose proof (f_equal (fun l => nth 0 l 0) F) as E1. pose proof (f_equal (fun l => nth 1 l 0) F) as E2.
    change (ld8 m (nic_packet + 12) = 8) in E1. change (ld8 m (nic_packet + 13) = 0) in E2. unfold frame_type. now rewrite E1, E2. }
  assert (Lf : Z.of_nat (length fr) = 14 + Z.of_nat n) by (subst fr; rewrite tcp_frame_length by exact Hh; subst n; lia).
  assert (L40 : 40 <= Z.of_nat n <= 1500) by (subst n; lia).
  destruct (build_tcp_hdr_spec src dst sp dp seq ack win flags 60 (Z.of_nat n) peer_buf mb ltac:(lia))
    as (E1 & E2 & E3 & E4 & E5 & E6 & E7 & E8 & E9 & E10 & E11 & _ & E13). fold mu in E1, E2, E3, E4, E5, E6, E7, E8, E9, E10, E11, E13.
  rewrite u32_small in E13 by exact Hd.
  pose proof (same_ld8 _ _ _ _ _ S 0 ltac:(lia)) as S0. rewrite !Z.add_0_r, E1 in S0.
  pose proof (same_ld16 _ _ _ _ _ S 2 ltac:(lia) ltac:(lia)) as S2. rewrite E2 in S2.
  pose proof (same_ld16 _ _ _ _ _ S 6 ltac:(lia) ltac:(lia)) as S6. rewrite E3 in S6.
  pose proof (same_ld8 _ _ _ _ _ S 9 ltac:(lia)) as S9. rewrite E4 in S9.
  pose proof (same_ld32 _ _ _ _ _ S 16 ltac:(lia) ltac:(lia)) as S16. rewrite E13 in S16.
  pose proof (same_ld16 _ _ _ _ _ S 22 ltac:(lia) ltac:(lia)) as S22. rewrite E7 in S22.
  pose proof (same_ld32 _ _ _ _ _ S 24 ltac:(lia) ltac:(lia)) as S24. rewrite E8 in S24.
  pose proof (same_ld32 _ _ _ _ _ S 28 ltac:(lia) ltac:(lia)) as S28. rewrite E9 in S28.
  pose proof (same_ld16 _ _ _ _ _ S 32 ltac:(lia) ltac:(lia)) as S32. rewrite E10 in S32.
  assert (Sc : ipchksum m ip_ptr 20 = 0).
  { rewrite <- E5, !ipchksum_cksum. rewrite <- (Z.add_0_r ip_ptr), <- (Z.add_0_r peer_buf). now rewrite (same_ldn _ _ _ _ _ S) by lia. }
  assert (Sl : tcpudpchksum m ip_ptr = 0).
  { rewrite <- E11. apply (tcpudpchksum_ext _ _ _ _ (Z.of_nat n)); [lia | | exact S]. rewrite E2. apply ntohs_htons_id. lia. }
  change (tcp_ptr + 2) with (ip_ptr + 22). change (tcp_ptr + 4) with (ip_ptr + 24). change (tcp_ptr + 8) with (ip_ptr + 28).
  change (tcp_ptr + 12) with (ip_ptr + 32). rewrite S2, S16, S22, S24, S28, S32, !ntohl_htonl, ntohs_htons_id, ntohs_htons by lia.
  split; [|split; [reflexivity|split; [subst n; lia|split; [reflexivity|split; [reflexivity|split; [reflexivity|split; [reflexivity|]]]]]]].
  - unfold rx_filter, ETH_HLEN. rewrite Lf. destruct (Z.ltb_spec (14 + Z.of_nat n) 14); [lia|]. rewrite T, Z.eqb_refl, Z.geb_leb.
    destruct (Z.leb_spec (14 + 20) (14 + Z.of_nat n)); [|lia]. cbn [andb].
    rewrite ip_filter_plain by (auto; rewrite S2, ntohs_htons_id by lia; lia).
    unfold udp_filter. rewrite S9. cbn [Z.eqb Pos.eqb IP_TCP IP_UDP andb obind].
    unfold tcp_filter. rewrite S9, S32, S2, Sl, !ntohs_htons_id, tcp_data_offset, Z.geb_leb by lia. unfold ETH_HLEN.
    destruct (Z.leb_spec (14 + 20 + 20) (14 + Z.of_nat n)); [|lia]. cbn [Z.eqb Pos.eqb IP_TCP andb istrue negb]. rewrite Z.gtb_ltb.
    destruct (Z.ltb_spec (Z.of_nat n - 20) 20); [lia|]. reflexivity.
  - transitivity (ldn mb (peer_buf + 40) (length body)).
    + rewrite (same_ldn _ _ _ _ _ S) by (subst n; lia). apply ldn_ext. intros x Hx. apply build_tcp_hdr_out. lia.
    + subst mb. rewrite ldn_stn. now apply map_u8_bytes.
Qed.

(** A segment without data as the peer sees it: to the hardware address [mac], from and to the ports, with the sequence and the
    acknowledgement number, a header of 20 bytes, and the flags. *)
Definition bare_segment (mac : list Z) (sp dp seq ack flags : Z) (f : frame) : Prop :=
  f_dst f = mac /\ f_type f = 0x800 /\ length (f_data f) = 40%nat /\
  firstn 14 (skipn 20 (f_data f)) = [sp / 256; sp mod 256; dp / 256; dp mod 256] ++ be32 seq ++ be32 ack ++ [0x50; flags].

Lemma ldn_header14 m p : ldn m p 14 = ldn m p 2 ++ ldn m (p + 2) 2 ++ ldn m (p + 4) 4 ++ ldn m (p + 8) 4 ++ ldn m (p + 12) 2.
Proof.
  etransitivity; [apply (ldn_app m p 2 12)|]. rewrite (ldn_app m _ 2 10 : ldn m _ 12 = _), (ldn_app m _ 4 6 : ldn m _ 10 = _), (ldn_app m _ 4 2 : ldn m _ 6 = _). change (Z.of_nat 2) with 2. change (Z.of_nat 4) with 4.
  replace (p + 2 + 2) with (p + 4) by lia. replace (p + 4 + 4) with (p + 8) by lia. now replace (p + 8 + 4) with (p + 12) by lia.
Qed.
Lemma tcp_transmit_bare `{Env} fuel dst mac sp dp seq ack win flags w :
  reachable w dst mac -> 0 <= sp < 65536 -> 0 <= dp < 65536 -> 0 <= flags < 64 ->
  exists m f, tcp_transmit fuel dst sp dp seq ack win flags 40 tcp_buf w = Some (Ret 1, set_sent (f :: sent w) (set_mm m w)) /\
    bare_segment mac sp dp seq ack flags f /\ (forall x, x < tcp_buf \/ tcp_buf + 40 <= x -> ld8 m x = ld8 (mm w) x).
Proof.
  intros (Hd & Hb & Hm & i & Hf & Hn & Hz) Hs Hp Hfl. unfold tcp_transmit, ip_transmit, ip_transmit_with. run.
  set (m := build_tcp_hdr _ _ _ _ _ _ _ _ _ _ _ _). cbn [mm set_mm].
  destruct (build_tcp_hdr_spec (client_ip w) dst sp dp seq ack win flags 60 40 tcp_buf (mm w) ltac:(lia))
    as (_ & _ & _ & _ & _ & E6 & E7 & E8 & E9 & E10 & _ & _ & E13). fold m in E6, E7, E8, E9, E10, E13.
  rewrite E13, u32_small by exact Hd. apply Z.eqb_neq in Hb. rewrite Hb, Hm. cbn [arptable set_mm].
  change (next_hop (set_mm m w) dst) with (next_hop w dst). rewrite Hf.
  change (arp (set_mm m w) i) with (arp w i). rewrite Hn, Hz. cbv beta iota. change (arp (set_mm m w) i) with (arp w i). rewrite Hn.
  exists m. eexists. split; [reflexivity|]. split; [|intros x Hx; apply build_tcp_hdr_out; lia].
  split; [reflexivity|]. split; [reflexivity|]. cbn [f_data mm set_mm]. change (Z.to_nat 40) with (20 + (14 + 6))%nat. split; [apply length_ldn|].
  rewrite skipn_ldn, ldn_app, firstn_app, length_ldn, Nat.sub_diag, firstn_O, app_nil_r, firstn_all2 by (rewrite length_ldn; lia).
  rewrite ldn_header14. change (tcp_buf + Z.of_nat 20) with (tcp_buf + 20). change (tcp_buf + 20 + 2) with (tcp_buf + 22).
  change (tcp_buf + 20 + 4) with (tcp_buf + 24). change (tcp_buf + 20 + 8) with (tcp_buf + 28). change (tcp_buf + 20 + 12) with (tcp_buf + 32).
  rewrite (ldn_ld16 m (tcp_buf + 20) sp Hs E6), (ldn_ld16 m (tcp_buf + 22) dp Hp E7), (ldn_ld16 m (tcp_buf + 32) (flags + 20480) ltac:(lia) E10).
  rewrite <- !ip_bytes_ld32 in *. rewrite E8, E9, <- !be32_htonl.
  replace ((flags + 20480) / 256) with 80 by (Z.div_mod_to_equations; lia). replace ((flags + 20480) mod 256) with flags by (Z.div_mod_to_equations; lia).
  reflexivity.
Qed.

(** ** The stream *)

(** A data segment: [sg_len] bytes of the stream from [sg_off] on, with the ACK flag and perhaps PSH. *)
Record segment := { sg_off : nat; sg_len : nat; sg_flags : Z; sg_win : Z }.
Definition seg_data (S : list Z) (g : segment) : list Z := firstn (sg_len g) (skipn (sg_off g) S).
Definition segment_ok (S : list Z) (g : segment) : Prop :=
  (0 < sg_len g <= 1460)%nat /\ (sg_off g + sg_len g <= length S)%nat /\ (sg_flags g = 16 \/ sg_flags g = 24).
(** What is in order after a segment, when the first [n] bytes were before: the bytes up to its end if it begins among them and ends
    behind them, and otherwise what was. *)
Definition advanced (n : nat) (g : segment) : nat :=
  if (sg_off g <=? n)%nat && (n <? sg_off g + sg_len g)%nat then (sg_off g + sg_len g)%nat else n.
(** The points reached with each of the segments. *)
Fixpoint points (n : nat) (gs : list segment) : list nat :=
  match gs with [] => [] | g :: gs' => advanced n g :: points (advanced n g) gs' end.

(** What receiving and sending leave alone. *)
Definition same_tcp (w w' : world) : Prop :=
  same_tabs w w' /\ forall x, x < nic_packet \/ nic_packet + 1514 <= x -> x < tcp_buf \/ tcp_buf + 40 <= x -> ld8 (mm w') x = ld8 (mm w) x.
Lemma same_tcp_trans w1 w2 w3 : same_tcp w1 w2 -> same_tcp w2 w3 -> same_tcp w1 w3.
Proof.
  intros ((A & B & C & D & F & G) & K) ((A' & B' & C' & D' & F' & G') & K').
  split; [repeat (split; [congruence|]); intros x H; now rewrite G', G|]. intros x H1 H2. now rewrite K', K.
Qed.

(** What the [recv] callback has to do: take the bytes it is given, keeping [I] of the stream so far, and leave the network and the headers of the
    packet alone.  Receiving and sending segments does not disturb [I]. *)
Record stream_consumer (recv : Z -> Z -> M Z) (I : list Z -> world -> Prop) : Prop := {
  sc_takes : forall done bs w p, bs <> [] -> Z.of_nat (length (done ++ bs)) < 2147483648 -> I done w -> ip_ptr + 40 <= p -> p + Z.of_nat (length bs) <= nic_packet + 1514 ->
    ldn (mm w) p (length bs) = bs ->
    exists go w', recv (Z.of_nat (length bs)) p w = Some (Ret go, w') /\ go <> 0 /\ same_tabs w w' /\ cnt_rx w' = cnt_rx w /\ sent w' = sent w /\
      (forall x, ip_ptr <= x < ip_ptr + 40 -> ld8 (mm w') x = ld8 (mm w) x) /\ I (done ++ bs) w';
  sc_stable : forall done w w', same_tcp w w' -> I done w -> I done w';
}.

Section stream.
Context `{E : Env} (send recv : Z -> Z -> M Z) (I : list Z -> world -> Prop) (n : nat) (srv destsock srcsock : Z).
Context (S : list Z) (cli irs iss : Z) (mac hd : list Z).
Context (Cs : stream_consumer recv I) (Hd : 0 <= destsock < 65536) (Hs : 0 <= srcsock < 65536) (Hh : length hd = 12%nat).
Context (Hb : Forall (fun b => 0 <= b < 256) S) (Hl : Z.of_nat (length S) < 2147483648).

(** The frame in which the server sends a segment; it acknowledges all that the client has sent. *)
Definition seg_frame (g : segment) : list Z :=
  tcp_frame hd srv cli destsock srcsock (irs + Z.of_nat (sg_off g)) iss (sg_win g) (sg_flags g) (seg_data S g).
Lemma seg_data_length g : segment_ok S g -> length (seg_data S g) = sg_len g.
Proof. intros (_ & H & _). unfold seg_data. rewrite length_firstn, length_skipn. lia. Qed.

(** The client has nothing to send, has acknowledged [k] bytes and expects the next. *)
Definition established (k : nat) (st : tcp_state) : Prop :=
  conn st = ESTABLISHED /\ can_send st = 0 /\ sent_all st = true /\ send_seq st = s32 iss /\ recv_seq st = s32 (irs + Z.of_nat k) /\
  (t_ctrl st = 16 \/ t_ctrl st = 24).
(** The packet buffer holds the segment. *)
Definition seg_in (g : segment) (m : mem) : Prop :=
  ntohs (ld16 m (ip_ptr + 2)) = 40 + Z.of_nat (sg_len g) /\ ntohl (ld32 m (tcp_ptr + 4)) = u32 (irs + Z.of_nat (sg_off g)) /\
  ntohl (ld32 m (tcp_ptr + 8)) = u32 iss /\ ld16 m (tcp_ptr + 12) = htons (sg_flags g + 20480).
Lemma seg_in_ext g m m' : (forall x, ip_ptr <= x < ip_ptr + 40 -> ld8 m' x = ld8 m x) -> seg_in g m -> seg_in g m'.
Proof.
  intros H (A & B & C & D). unfold seg_in. unfold tcp_ptr in *.
  rewrite (ld16_ext m' m (ip_ptr + 2)), (ld32_ext m' m (ip_ptr + 20 + 4)), (ld32_ext m' m (ip_ptr + 20 + 8)), (ld16_ext m' m (ip_ptr + 20 + 12));
    [auto|intros x Hx; apply H; lia..].
Qed.

Lemma seg_flags g f m : segment_ok S g -> seg_in g m -> (f = FIN \/ f = SYN \/ f = RST) ->
  flag (ld16 m (tcp_ptr + 12)) f = false /\ flag (ld16 m (tcp_ptr + 12)) ACK = true /\ ntohs (ld16 m (tcp_ptr + 12)) = sg_flags g + 20480.
Proof.
  intros (_ & _ & [Hf|Hf]) (_ & _ & _ & ->) Hx; rewrite Hf; repeat split; destruct Hx as [->|[->| ->]]; reflexivity.
Qed.

(** The acknowledgement with nothing to send only measures the round trip. *)
Lemma on_consumed_idle k st w : established k st ->
  exists st' c, on_consumed send 0 0 st w = Some (Ret st', set_cnt_clock c w) /\ established k st'.
Proof.
  intros (C & Cs0 & A & Sq & Rq & T). unfold on_consumed, currticks. run. cbn [can_send sent_all send_seq set_rtt]. rewrite Cs0, A. cbn [Z.sub istrue Z.eqb negb]. run.
  do 2 eexists. split; [reflexivity|]. unfold established. cbn [conn can_send sent_all send_seq recv_seq t_ctrl set_sending set_rtt].
  split; [exact C|]. split; [reflexivity|]. split; [reflexivity|]. split; [|auto].
  rewrite !Z.add_0_r, Sq. apply s32_small, s32_range.
Qed.
Lemma own_ack st k : established k st -> s32 (u32 iss - send_seq st - 0) = 0.
Proof.
  intros (_ & _ & _ & -> & _). transitivity (s32 0); [apply s32_ext|reflexivity].
  replace (u32 iss - s32 iss - 0) with ((iss - s32 iss) + (-(iss / 4294967296)) * 4294967296)
    by (unfold u32; pose proof (Z.div_mod iss 4294967296); lia).
  rewrite Z.mod_add by lia. apply s32_mod.
Qed.

(** How much of a segment is old. *)
Lemma old_bytes k g st : segment_ok S g -> (k <= length S)%nat -> established k st ->
  s32 (recv_seq st - u32 (irs + Z.of_nat (sg_off g))) = Z.of_nat k - Z.of_nat (sg_off g).
Proof.
  intros (_ & Hg & _) Hk (_ & _ & _ & _ & -> & _). rewrite <- (s32_small (Z.of_nat k - _)) by lia. apply s32_ext.
  set (a := irs + Z.of_nat k). set (b := irs + Z.of_nat (sg_off g)).
  replace (s32 a - u32 b) with ((a - b) + - (a - s32 a) + (b / 4294967296) * 4294967296) by (unfold u32; pose proof (Z.div_mod b 4294967296); lia).
  rewrite Z.mod_add by lia. pose proof (s32_mod a) as M. apply Z.mod_divide in M as (q & M); [|lia]. rewrite M.
  replace (a - b + - (q * 4294967296)) with (a - b + (- q) * 4294967296) by lia. rewrite Z.mod_add by lia. f_equal. unfold a, b. lia.
Qed.
Lemma next_bytes k g st : (sg_off g <= k)%nat -> established k st ->
  s32 (recv_seq st + Z.of_nat (sg_len g) - (Z.of_nat k - Z.of_nat (sg_off g))) = s32 (irs + Z.of_nat (sg_off g + sg_len g)).
Proof.
  intros Hk (_ & _ & _ & _ & -> & _). apply s32_ext. set (a := irs + Z.of_nat k). pose proof (s32_mod a) as M.
  apply Z.mod_divide in M as (q & M); [|lia]. replace (s32 a) with (a + (- q) * 4294967296) by lia.
  replace (a + - q * 4294967296 + Z.of_nat (sg_len g) - (Z.of_nat k - Z.of_nat (sg_off g)))
    with (a + Z.of_nat (sg_len g) - (Z.of_nat k - Z.of_nat (sg_off g)) + (- q) * 4294967296) by lia.
  rewrite Z.mod_add by lia. f_equal. unfold a. lia.
Qed.
Lemma slice_rest k g : segment_ok S g -> (sg_off g <= k < sg_off g + sg_len g)%nat ->
  firstn k S ++ skipn (k - sg_off g) (seg_data S g) = firstn (sg_off g + sg_len g) S.
Proof.
  intros (_ & Hg & _) Hk. unfold seg_data. rewrite <- (firstn_skipn k (firstn (sg_off g + sg_len g) S)) at 1.
  rewrite firstn_firstn, Nat.min_l by lia. f_equal. rewrite !skipn_firstn_comm, skipn_skipn.
  replace (k - sg_off g + sg_off g)%nat with k by lia. f_equal. lia.
Qed.

(** The segment, consumed. *)
Lemma on_consume_segment g k st w :
  segment_ok S g -> (k <= length S)%nat -> established k st -> seg_in g (mm w) -> ldn (mm w) (ip_ptr + 40) (sg_len g) = seg_data S g -> I (firstn k S) w ->
  exists st' w', on_consume recv (Datatypes.S n) srv destsock srcsock st w = Some (Ret (SendData st'), w') /\ established (advanced k g) st' /\
    same_tabs w w' /\ cnt_rx w' = cnt_rx w /\ sent w' = sent w /\ I (firstn (advanced k g) S) w'.
Proof.
  intros Ok Hk Es Hm Hdata Hi. pose proof Ok as (Hlen & Hg & _). pose proof Hm as (M1 & M2 & _ & _).
  destruct (seg_flags g FIN (mm w) Ok Hm ltac:(auto)) as (F1 & _ & F3). pose proof Es as (C & Cs0 & _).
  unfold on_consume. run. rewrite F3, (tcp_data_offset (sg_flags g)) by (destruct Ok as (_ & _ & [-> | ->]); lia).
  rewrite M1, M2, C, (old_bytes k g st Ok Hk Es), !Z.gtb_ltb, Z.geb_leb. cbn [conn_eqb].
  replace (40 + Z.of_nat (sg_len g) - (20 + 20)) with (Z.of_nat (sg_len g)) by lia.
  destruct (Z.ltb_spec 0 (Z.of_nat (sg_len g))); [|lia]. cbn [andb]. unfold advanced.
  destruct (Nat.leb_spec (sg_off g) k), (Nat.ltb_spec k (sg_off g + sg_len g)); cbn [andb];
    destruct (Z.leb_spec 0 (Z.of_nat k - Z.of_nat (sg_off g))), (Z.ltb_spec 0 (Z.of_nat (sg_len g) - (Z.of_nat k - Z.of_nat (sg_off g)))); try lia; cbn [andb].
  2,3: unfold on_rest; run; rewrite F1; cbn [conn set_window]; rewrite C; cbn [conn_eqb andb];
    (replace (istrue (can_send (set_window (shrink_window (window st)) st)) || istrue (Z.of_nat (sg_len g))) with true
      by (unfold istrue; destruct (Z.eqb_spec (Z.of_nat (sg_len g)) 0); [lia|]; cbn [negb]; now rewrite orb_true_r));
    do 2 eexists; (split; [reflexivity|]); (split; [exact Es|]); (split; [repeat split|]); auto.
  set (old := (k - sg_off g)%nat).
  assert (Hd2 : ldn (mm w) (ip_ptr + 40 + Z.of_nat old) (length (skipn old (seg_data S g))) = skipn old (seg_data S g)).
  { rewrite <- Hdata at 2. replace (sg_len g) with (old + (sg_len g - old))%nat by (unfold old; lia). rewrite skipn_ldn.
    rewrite length_skipn, seg_data_length by exact Ok. f_equal. }
  destruct (sc_takes _ _ Cs (firstn k S) (skipn old (seg_data S g)) w (ip_ptr + 40 + Z.of_nat old)) as (go & w1 & R & Ngo & T1 & C1 & S1 & K1 & I1);
    [ intros Q; apply (f_equal (@length Z)) in Q; rewrite length_skipn, seg_data_length in Q by exact Ok; cbn in Q; unfold old in Q; lia
    | unfold old; rewrite (slice_rest k g Ok) by lia; rewrite length_firstn; lia
    | exact Hi | lia | rewrite length_skipn, seg_data_length by exact Ok; unfold ip_ptr, ETH_HLEN, old; lia | exact Hd2 |].
  rewrite length_skipn, seg_data_length in R by exact Ok.
  replace (Z.of_nat (sg_len g) - (Z.of_nat k - Z.of_nat (sg_off g))) with (Z.of_nat (sg_len g - old)) by (unfold old; lia).
  replace (nic_packet + ETH_HLEN + (20 + 20) + (Z.of_nat k - Z.of_nat (sg_off g))) with (ip_ptr + 40 + Z.of_nat old) by (unfold ip_ptr, old; lia).
  rewrite R. destruct (Z.eqb_spec go 0); [congruence|].
  destruct (seg_flags g FIN (mm w1) Ok (seg_in_ext g _ _ K1 Hm) ltac:(auto)) as (F1' & _). rewrite F1'. cbn [negb].
  assert (Es' : forall st', conn st' = conn st -> can_send st' = can_send st -> sent_all st' = sent_all st -> send_seq st' = send_seq st ->
    recv_seq st' = s32 (recv_seq st + Z.of_nat (sg_len g) - (Z.of_nat k - Z.of_nat (sg_off g))) -> t_ctrl st' = 16 -> established (sg_off g + sg_len g) st').
  { intros st' A1 A2 A3 A4 A5 A6. destruct Es as (B1 & B2 & B3 & B4 & B5 & B6). unfold established. rewrite A1, A2, A3, A4, A5, A6.
    repeat (split; [assumption|]). split; [|auto]. apply (next_bytes k g st ltac:(lia)). now repeat split. }
  cbn [can_send set_conn set_recv_seq]. rewrite Cs0. cbn [istrue Z.eqb negb andb].
  unfold old in I1. rewrite (slice_rest k g Ok) in I1 by lia.
  set (st1 := set_recv_seq _ st). destruct (in_window st1); do 2 eexists; (split; [reflexivity|]); (split; [apply Es'; reflexivity || exact Cs0|]); auto.
Qed.

(** Waiting for the segment and taking it. *)
Lemma on_recv_segment g k st w :
  segment_ok S g -> (k <= length S)%nat -> established k st -> quiet w -> client_ip w = cli -> 0 <= cli < 4294967296 ->
  rx (cnt_rx w) = Some (seg_frame g) -> I (firstn k S) w ->
  exists st' w', on_recv send recv (Datatypes.S n) srv destsock srcsock st w = Some (Ret (SendData st'), w') /\ established (advanced k g) st' /\
    same_tabs w w' /\ cnt_rx w' = Datatypes.S (cnt_rx w) /\ sent w' = sent w /\ I (firstn (advanced k g) S) w'.
Proof.
  intros Ok Hk Es Q Hc Rc Hrx Hi. unfold on_recv. run.
  assert (Ld : (length (seg_data S g) <= 1460)%nat) by (rewrite seg_data_length by exact Ok; apply Ok).
  assert (Bd : Forall (fun b => 0 <= b < 256) (seg_data S g)).
  { unfold seg_data. apply Forall_forall. intros b Hin. rewrite Forall_forall in Hb. apply Hb.
    rewrite <- (firstn_skipn (sg_off g) S). apply in_or_app. right. rewrite <- (firstn_skipn (sg_len g)). apply in_or_app. now left. }
  destruct (tcp_frame_received (mm w) hd (seg_data S g) srv cli destsock srcsock (irs + Z.of_nat (sg_off g)) iss (sg_win g) (sg_flags g)
              Hh Ld Bd Rc ltac:(destruct Ok as (_ & _ & [-> | ->]); lia)) as (F1 & F2 & F3 & F4 & F5 & F6 & F7 & F8).
  fold (seg_frame g) in F1, F2, F3, F4, F5, F6, F7, F8. set (m := stn (mm w) nic_packet (seg_frame g)) in *.
  rewrite seg_data_length in F3, F8 by exact Ok.
  destruct (await_reply_frame n (await_tcp (Datatypes.S n) srcsock)
              (if conn_eqb (conn st) ESTABLISHED && (can_send st =? 0) then TCP_MAX_TIMEOUT else rto st) w (seg_frame g) _ 1 (fun w => w) Q Hrx F1)
    as (c & ->); [lia| |].
  { intros w1 Hm _ Ha. unfold await_tcp. cbn [has_tcp negb]. run. fold m in Hm. rewrite Hm, F2, F4, (u16_small srcsock) by exact Hs.
    unfold client_ip, arp in *. rewrite Ha, Hc, !Z.eqb_refl. reflexivity. }
  cbn [Z.eqb]. fold m. set (w1 := set_packetlen _ _). change (mm w1) with m in *.
  assert (Hm : seg_in g (mm w1)) by (split; [exact F3|split; [exact F5|split; [exact F6|exact F7]]]).
  assert (Lf : (length (seg_frame g) <= 1514)%nat) by (unfold seg_frame; rewrite tcp_frame_length by exact Hh; lia).
  assert (T1 : same_tcp w w1).
  { split; [repeat (split; [reflexivity|])|]; intros x Hx; [|intros _]; apply ld8_stn_out; unfold lacp_pkt, nic_packet in *; lia. }
  pose proof (sc_stable _ _ Cs _ _ _ T1 Hi) as I1. destruct T1 as [T1 _].
  destruct (seg_flags g RST (mm w1) Ok Hm ltac:(auto)) as (G1 & G2 & _). pose proof Es as (C & Cs0 & _).
  unfold on_segment. run. change (mm w1) with m in G1, G2. change (mm w1) with m. rewrite G2. cbn [conn set_retry send_seq can_send]. rewrite C. cbn [conn_eqb orb b2z].
  rewrite F6, (own_ack st k Es), Cs0. change ((0 <? 0) || (0 >? 0)) with false. cbv iota.
  destruct (on_consumed_idle k (set_retry TCP_MAX_RETRY st) w1 Es) as (st2 & c2 & -> & Es2).
  pose proof Es2 as (C2 & _). rewrite C2. cbn [conn_eqb]. set (w2 := set_cnt_clock c2 w1). change (mm w2) with m. rewrite G1.
  destruct (on_consume_segment g k st2 w2 Ok Hk Es2 Hm F8) as (st3 & w3 & -> & Es3 & T3 & C3 & S3 & I3).
  { apply (sc_stable _ _ Cs _ w1); [|exact I1]. split; [|reflexivity]. now repeat split. }
  exists st3, w3. split; [reflexivity|]. split; [exact Es3|]. split; [|split; [rewrite C3; reflexivity|split; [rewrite S3; reflexivity|exact I3]]].
  destruct T1 as (A & B & D & F & G & K), T3 as (A' & B' & D' & F' & G' & K'). repeat (split; [etransitivity; [eassumption|assumption]|]).
  intros x Hx. rewrite K' by exact Hx. now apply K.
Qed.

(** Sending the acknowledgement. *)
Lemma be32_s32 x : be32 (s32 x) = be32 x.
Proof.
  clear. pose proof (s32_mod x) as M. apply Z.mod_divide in M as (q & M); [|lia]. replace (s32 x) with (x + - q * 4294967296) by lia. generalize (- q). intros r.
  unfold be32. repeat (apply (f_equal2 cons); [Z.div_mod_to_equations; lia|]). reflexivity.
Qed.
Lemma on_send_ack k st w :
  established k st -> reachable w srv mac -> I (firstn k S) w ->
  exists st' w' f, on_send (Datatypes.S n) srv destsock srcsock st w = Some (Ret (RecvData st'), w') /\ established k st' /\
    same_tabs w w' /\ cnt_rx w' = cnt_rx w /\ sent w' = f :: sent w /\
    (exists flags, (flags = 16 \/ flags = 24) /\ bare_segment mac srcsock destsock iss (irs + Z.of_nat k) flags f) /\ I (firstn k S) w'.
Proof.
  intros Es R Hi. pose proof Es as (C & Cs0 & A & Sq & Rq & T). unfold on_send, tcp_send.
  assert (Ta : istrue (Z.land (t_ctrl st) ACK) = true) by (destruct T as [-> | ->]; reflexivity). rewrite Ta.
  cbn [send_seq recv_seq window t_ctrl can_send set_last_ack]. rewrite Cs0. change (20 + 20 + 0) with 40. unfold bind at 1.
  destruct (tcp_transmit_bare (Datatypes.S n) srv mac srcsock destsock (send_seq st) (recv_seq st) (window st) (t_ctrl st) w R Hs Hd
              ltac:(destruct T as [-> | ->]; lia)) as (m & f & -> & (B1 & B2 & B3 & B4) & O).
  cbn [Z.eqb]. unfold currticks. run. set (w' := set_cnt_clock _ _).
  assert (K : same_tcp w w').
  { split; [repeat (split; [reflexivity|])|]; intros x Hx; [|intros Hy]; apply O; [unfold tcp_buf, lacp_pkt in *; lia|exact Hy]. }
  do 3 eexists. split; [reflexivity|]. split; [now repeat split|]. split; [apply K|]. split; [reflexivity|]. split; [reflexivity|]. split.
  - exists (t_ctrl st). split; [exact T|]. split; [exact B1|]. split; [exact B2|]. split; [exact B3|]. rewrite B4, Sq, Rq, !be32_s32. reflexivity.
  - exact (sc_stable _ _ Cs _ _ _ K Hi).
Qed.

(** Any sequence of segments. *)
Definition tcp_ack_of (k : nat) (f : frame) : Prop :=
  exists flags, (flags = 16 \/ flags = 24) /\ bare_segment mac srcsock destsock iss (irs + Z.of_nat k) flags f.
Lemma advance_le k g : segment_ok S g -> (k <= length S)%nat -> (advanced k g <= length S)%nat.
Proof. intros (_ & H & _) Hk. unfold advanced. destruct (_ && _); lia. Qed.
Lemma tcp_loop_segments rounds gs : forall k st w,
  Forall (segment_ok S) gs -> (k <= length S)%nat -> established k st -> quiet w -> client_ip w = cli -> 0 <= cli < 4294967296 -> reachable w srv mac ->
  (forall j g, nth_error gs j = Some g -> rx (cnt_rx w + j) = Some (seg_frame g)) -> I (firstn k S) w ->
  exists st' w' acks,
    tcp_loop send recv (Datatypes.S n) srv destsock (2 * length gs + rounds) srcsock (RecvData st) w
      = tcp_loop send recv (Datatypes.S n) srv destsock rounds srcsock (RecvData st') w' /\
    established (fold_left advanced gs k) st' /\ I (firstn (fold_left advanced gs k) S) w' /\
    sent w' = acks ++ sent w /\ Forall2 tcp_ack_of (rev (points k gs)) acks /\ cnt_rx w' = (cnt_rx w + length gs)%nat.
Proof.
  induction gs as [|g gs IH]; intros k st w Hok Hk Es Q Hc Rc R Hrx Hi.
  { exists st, w, []. cbn [length Nat.mul Nat.add fold_left points rev app]. rewrite Nat.add_0_r. repeat split; auto; apply Es. }
  inversion_clear Hok as [|? ? Ok Ok']. cbn [length fold_left points].
  destruct (on_recv_segment g k st w Ok Hk Es Q Hc Rc) as (st1 & w1 & E1 & Es1 & T1 & C1 & S1 & I1);
    [rewrite <- (Hrx 0%nat g eq_refl); f_equal; lia|exact Hi|].
  destruct (on_send_ack _ st1 w1 Es1 (same_tabs_reachable _ _ _ _ T1 R) I1) as (st2 & w2 & f & E2 & Es2 & T2 & C2 & S2 & F2 & I2).
  destruct (IH (advanced k g) st2 w2 Ok') as (st3 & w3 & acks & E3 & Es3 & I3 & S3 & F3 & C3); try assumption.
  { now apply advance_le. }
  { apply (same_tabs_quiet w1); [exact T2|]. now apply (same_tabs_quiet w). }
  { destruct T1 as (A1 & _), T2 as (A2 & _). unfold client_ip, arp in *. now rewrite A2, A1. }
  { apply (same_tabs_reachable w1); [exact T2|]. now apply (same_tabs_reachable w). }
  { intros j g' Hj. rewrite C2, C1, <- (Hrx (Datatypes.S j) g' Hj). f_equal. lia. }
  exists st3, w3, (acks ++ [f]). split.
  { rewrite <- E3. replace (2 * Datatypes.S (length gs) + rounds)%nat with (Datatypes.S (Datatypes.S (2 * length gs + rounds))) by lia.
    cbn [tcp_loop tcp_step]. unfold bind at 1. rewrite E1. cbn [tcp_loop tcp_step]. unfold bind at 1. rewrite E2. reflexivity. }
  split; [exact Es3|]. split; [exact I3|]. split; [rewrite S3, S2, S1, <- app_assoc; reflexivity|].
  split; [cbn [rev]; apply Forall2_app; [exact F3|constructor; [exact F2|constructor]]|]. rewrite C3, C2, C1. lia.
Qed.
End stream.

(** C8: The stream is delivered in order, once each, without gaps.  An established connection with
    nothing to send receives segments of a stream [S], of any lengths, at any offsets, in any order
    and any number of times, whole frames that pass the checks of the receive path.  A segment that
    begins at or before the next expected byte and ends behind it advances it to its end; any other,
    of old data only or behind a gap, leaves it ([advanced]).  After the segments exactly the bytes
    before the next expected byte have been handed to the callback, in order and once (what it keeps
    is [I] of that prefix of the stream), and each segment has been answered by one acknowledgement
    that names the byte expected then, from the client's port to the server's, and by nothing else. *)
Theorem tcp_delivers_in_order `{Env} send recv I n srv destsock srcsock S cli irs iss mac hd rounds gs k st w :
  stream_consumer recv I -> 0 <= destsock < 65536 -> 0 <= srcsock < 65536 -> length hd = 12%nat ->
  Forall (fun b => 0 <= b < 256) S -> Z.of_nat (length S) < 2147483648 ->
  Forall (segment_ok S) gs -> (k <= length S)%nat -> established irs iss k st ->
  quiet w -> client_ip w = cli -> 0 <= cli < 4294967296 -> reachable w srv mac ->
  (forall j g, nth_error gs j = Some g -> rx (cnt_rx w + j) = Some (seg_frame srv destsock srcsock S cli irs iss hd g)) ->
  I (firstn k S) w ->
  exists st' w' acks,
    tcp_loop send recv (Datatypes.S n) srv destsock (2 * length gs + rounds) srcsock (RecvData st) w
      = tcp_loop send recv (Datatypes.S n) srv destsock rounds srcsock (RecvData st') w' /\
    established irs iss (fold_left advanced gs k) st' /\ I (firstn (fold_left advanced gs k) S) w' /\
    sent w' = acks ++ sent w /\ Forall2 (tcp_ack_of destsock srcsock irs iss mac) (rev (points k gs)) acks /\
    cnt_rx w' = (cnt_rx w + length gs)%nat.
Proof. intros Cs Hd Hs Hh Hb Hl. now apply tcp_loop_segments. Qed.

(** A callback that appends what it is given to a buffer, with the length in front. *)
Definition append_recv : Z -> Z -> M Z := fun len p =>
  w <- get ;;
  let n := ld32 (mm w) 0x50000 in
  set_mem (fun m => st32 (memcpy m (0x50004 + n) p (Z.to_nat len)) 0x50000 (n + len)) ;;; ret 1.
Definition appended (done : list Z) (w : world) : Prop :=
  ld32 (mm w) 0x50000 = Z.of_nat (length done) /\ ldn (mm w) 0x50004 (length done) = done.
Lemma append_consumer : stream_consumer append_recv appended.
Proof.
  split.
  - intros done bs w p _ Hl [N D] Hp Hp2 Hb. unfold append_recv. run. rewrite N, Nat2Z.id. rewrite length_app in Hl.
    set (m1 := memcpy _ _ _ _). set (m := st32 m1 _ _).
    assert (O : forall x, ld8 m1 x = if (0x50004 + Z.of_nat (length done) <=? x) && (x <? 0x50004 + Z.of_nat (length done) + Z.of_nat (length bs))
                                     then ld8 (mm w) (p + (x - (0x50004 + Z.of_nat (length done)))) else ld8 (mm w) x)
      by (intros x; apply ld8_memcpy; unfold ip_ptr, nic_packet, ETH_HLEN in *; lia).
    assert (O2 : forall x, x < 0x50000 -> ld8 m x = ld8 (mm w) x)
      by (intros x Hx; subst m; rewrite ld8_st32_ne, O by lia; case_tests; (reflexivity || lia)).
    exists 1. eexists. split; [reflexivity|]. split; [discriminate|]. split; [|split; [reflexivity|split; [reflexivity|split; [|split]]]]; cbn [mm set_mm].
    + repeat (split; [reflexivity|]). intros x Hx. apply O2. unfold lacp_pkt in *. lia.
    + intros x Hx. apply O2. unfold ip_ptr, nic_packet, ETH_HLEN in *. lia.
    + subst m. rewrite ld32_st32_eq, u32_small, length_app; lia.
    + rewrite length_app, ldn_app. f_equal.
      * rewrite <- D at 2. apply ldn_ext. intros x Hx. subst m. rewrite ld8_st32_ne, O by lia. case_tests; (reflexivity || lia).
      * rewrite <- Hb at 2. rewrite <- (Z.add_0_r (0x50004 + _)), <- (Z.add_0_r p). apply (same_ldn _ _ _ _ (Z.of_nat (length bs))); [|lia|lia].
        intros i Hi. subst m. rewrite ld8_st32_ne, O by lia. case_tests; try lia. f_equal. lia.
  - intros done w w' [_ K] [N D]. split.
    + rewrite <- N. apply ld32_ext. intros x Hx. apply K; unfold nic_packet, tcp_buf; lia.
    + rewrite <- D at 2. apply ldn_ext. intros x Hx. apply K; unfold nic_packet, tcp_buf; lia.
Qed.

(** A stream of five bytes: three, the last one behind a gap, the last three, and the first two again. *)
Definition stream5 : list Z := [104; 101; 108; 108; 111].
Definition segments4 : list segment :=
  map (fun '(o, l) => {| sg_off := o; sg_len := l; sg_flags := 24; sg_win := 8192 |}) [(0, 3); (4, 1); (2, 3); (0, 2)]%nat.
Definition peer_hd : list Z := [2; 0; 0; 0; 0; 1; 2; 0; 0; 0; 0; 2].
Definition stream_env : Env.
Proof.
  refine {| clock n := Z.of_nat n; kbd _ := None;
            rx n := option_map (seg_frame 0x0200000a 80 1025 stream5 0x0100000a 1000 7 peer_hd) (nth_error segments4 n) |}.
  intros [|[|[|[|n]]]] bs; cbn [nth_error segments4 map option_map]; [intros [= <-]; unfold seg_frame; rewrite tcp_frame_length by reflexivity; cbn; lia..|].
  now destruct n.
Defined.
Definition est0 : tcp_state := set_sending 7 0 true (set_conn ESTABLISHED ACK (set_recv_seq 1000 (tcp_start 7))).

Lemma tcp_delivers_in_order_witness :
  exists st' w', @tcp_loop stream_env send_one append_recv 2 0x0200000a 80 8 1025 (RecvData est0) tcp_world
                 = @tcp_loop stream_env send_one append_recv 2 0x0200000a 80 0 1025 (RecvData st') w' /\
    ldn (mm w') 0x50004 5 = stream5 /\ recv_seq st' = 1005 /\ length (sent w') = 4%nat.
Proof.
  destruct (@tcp_delivers_in_order stream_env send_one append_recv appended 1 0x0200000a 80 1025 stream5 0x0100000a 1000 7
              [2; 0; 0; 0; 0; 2] peer_hd 0 segments4 0 est0 tcp_world append_consumer) as (st' & w' & acks & E & Es & [_ D] & S1 & F & _).
  - lia.
  - lia.
  - reflexivity.
  - repeat (constructor; [lia|]). constructor.
  - vm_compute. reflexivity.
  - repeat (constructor; [split; [cbn; lia|split; [cbn; lia|now right]]|]). constructor.
  - cbn. lia.
  - repeat split. now left.
  - split; [vm_compute; reflexivity|]. split; [reflexivity|]. split; [reflexivity|]. repeat constructor.
  - reflexivity.
  - lia.
  - split; [lia|]. split; [vm_compute; discriminate|]. split; [vm_compute; reflexivity|].
    exists 1%nat. split; [vm_compute; reflexivity|]. split; reflexivity.
  - intros j g Hj. cbn [stream_env rx]. change (cnt_rx tcp_world + j)%nat with j. now rewrite Hj.
  - split; vm_compute; reflexivity.
  - exists st', w'. split; [exact E|]. change (fold_left advanced segments4 0%nat) with 5%nat in *. split; [exact D|].
    split; [destruct Es as (_ & _ & _ & _ & -> & _); vm_compute; reflexivity|].
    rewrite S1, length_app. apply Forall2_length in F. rewrite <- F. reflexivity.
Defined.

(** The length of the data of the received segment, and the offset of its first byte. *)
Definition seg_header (m : mem) : Z := 20 + Z.land (Z.shiftr (ntohs (ld16 m (tcp_ptr + 12))) 10) 0x3C.
Definition seg_payload (m : mem) : Z := ntohs (ld16 m (ip_ptr + 2)) - seg_header m.
Definition seg_seq (m : mem) : Z := ntohl (ld32 m (tcp_ptr + 4)).

(** A FIN is believed wherever it is.  A segment with the FIN flag that begins behind the next expected byte, so that what lies
    between has not come, is not delivered, but it ends the transaction all the same, successfully: the peer is told that one byte more
    has been received, and the end of the stream is lost. *)
Theorem fin_behind_gap_ends `{Env} recv fuel srv destsock srcsock st w mac :
  conn st = ESTABLISHED -> can_send st = 0 -> 0 < seg_payload (mm w) -> s32 (recv_seq st - seg_seq (mm w)) < 0 ->
  flag (ld16 (mm w) (tcp_ptr + 12)) FIN = true -> reachable w srv mac -> 0 <= destsock < 65536 -> 0 <= srcsock < 65536 ->
  exists w' f, on_consume recv fuel srv destsock srcsock st w = Some (Ret (Return 1), w') /\ sent w' = f :: sent w /\
    bare_segment mac srcsock destsock (send_seq st) (s32 (recv_seq st + 1)) 17 f.
Proof.
  intros C Cs Hp Hg Hf R Hd Hs. unfold on_consume. run. fold (seg_header (mm w)). fold (seg_payload (mm w)). fold (seg_seq (mm w)).
  rewrite C, !Z.gtb_ltb, Z.geb_leb. cbn [conn_eqb]. destruct (Z.ltb_spec 0 (seg_payload (mm w))); [|lia]. cbn [andb].
  destruct (Z.leb_spec 0 (s32 (recv_seq st - seg_seq (mm w)))); [lia|]. cbn [andb]. unfold on_rest, on_fin. run. rewrite Hf.
  cbn [conn can_send send_seq recv_seq set_window]. rewrite C, Cs. unfold tcp_send. change (20 + 20) with 40. change (FIN + ACK) with 17.
  destruct (tcp_transmit_bare fuel srv mac srcsock destsock (send_seq st) (s32 (recv_seq st + 1)) (shrink_window (window st)) 17 w R Hs Hd ltac:(lia))
    as (m & f & E1 & B & _).
  cbn [window set_window]. rewrite E1. do 2 eexists. split; [reflexivity|]. split; [reflexivity|exact B].
Qed.

(** Two bytes at sequence number 105, where 101 is expected, with the FIN flag. *)
Definition fin_world : world :=
  set_mm (stn (stn (mm tcp_world) (ip_ptr + 2) [0; 42]) (tcp_ptr + 4) [0; 0; 0; 105; 0; 0; 0; 0; 0x50; 0x11]) tcp_world.
Lemma fin_behind_gap_ends_witness :
  exists w' f, @on_consume silent_env (fun _ _ => ret 1) 3 0x0200000a 80 1025 (set_recv_seq 101 est0) fin_world = Some (Ret (Return 1), w') /\
    bare_segment [2; 0; 0; 0; 0; 2] 1025 80 7 102 17 f.
Proof.
  destruct (@fin_behind_gap_ends silent_env (fun _ _ => ret 1) 3 0x0200000a 80 1025 (set_recv_seq 101 est0) fin_world [2; 0; 0; 0; 0; 2])
    as (w' & f & E & _ & B).
  - reflexivity.
  - reflexivity.
  - vm_compute. reflexivity.
  - vm_compute. reflexivity.
  - vm_compute. reflexivity.
  - split; [lia|]. split; [vm_compute; discriminate|]. split; [vm_compute; reflexivity|].
    exists 1%nat. split; [vm_compute; reflexivity|]. split; reflexivity.
  - lia.
  - lia.
  - exists w', f. split; [exact E|exact B].
Defined.
