(* ===== verification/Slam.v ===== *)
(** The SLAM multicast client of [src/src/core/proto_slam.c]: the variable-length integers of its
    packets, the bitmap of received blocks, the negative acknowledgements that describe it, and the
    transfer.

    The static [state] is a record (with the heap its buffers come from) that is passed along; the
    header [state.hdr], the packet [nack], the bitmap and the image lie in memory. *)

From S2P Require Import Prelude Memory StringLib Misc Heap Net Lacp Nic.

Definition SLAM_PORT : Z := 10000.
Definition SLAM_MULTICAST_IP : Z :=
  Z.lor (Z.lor (Z.shiftl 239 24) (Z.shiftl 255 16)) (Z.lor (Z.shiftl 1 8) 1).
Definition SLAM_INITIAL_MIN_TIMEOUT : Z := TICKS_PER_SEC / 3.
Definition SLAM_INITIAL_TIMEOUT_INTERVAL : Z := TICKS_PER_SEC.
Definition SLAM_BASE_MIN_TIMEOUT : Z := 2 * TICKS_PER_SEC.
Definition SLAM_BASE_TIMEOUT_INTERVAL : Z := 4 * TICKS_PER_SEC.
Definition SLAM_BACKOFF_LIMIT : Z := 5.
Definition SLAM_MAX_RETRIES : Z := 20.
Definition MAX_HDR : Z := 21.
Definition IGMP_SERVER : nat := 0.
Definition SLAM_TIMEOUT : Z := 0.
Definition SLAM_REQUEST : Z := 1.
Definition SLAM_DATA : Z := 2.

(** [state.hdr], [nack] and its member [data], of 1472 bytes. *)
Definition slam_hdr : Z := 0x3d000.
Definition nack : Z := 0x3e000.
Definition nack_data : Z := nack + 28.
Definition sizeof_nack_data : Z := ETH_MAX_MTU - 28.

Record slam_state := {
  hdr_len : Z;
  block_size : Z;
  total_bytes : Z;
  total_packets : Z;
  received_packets : Z;
  image : Z;
  bitmap : Z;
  slam_heap : heap;
}.
Record slam_info := {
  server_ip : Z;
  multicast_ip : Z;
  server_port : Z;
  multicast_port : Z;
  local_port : Z;
}.

Definition init_slam_state (st : slam_state) : slam_state :=
  {| hdr_len := MAX_HDR; block_size := 0; total_bytes := total_bytes st; total_packets := 0;
     received_packets := 0; image := 0; bitmap := 0; slam_heap := slam_heap st |}.

(** ** Integers of variable length *)

(** The number of bytes left when leading zeros are dropped. *)
Fixpoint enc_bytes (value : Z) (bytes : nat) : nat :=
  match bytes with
  | O => O
  | S b => if Z.land 0xff (Z.shiftr value (8 * Z.of_nat b)) =? 0 then enc_bytes value b else bytes
  end.
Fixpoint put_bytes (m : mem) (data value : Z) (bytes : nat) : mem * Z :=
  match bytes with
  | O => (m, data)
  | S b => put_bytes (st8 m data (Z.land 0xff (Z.shiftr value (8 * Z.of_nat b)))) (data + 1) value b
  end.
(** [slam_encode]: the memory and the new pointer; [None] is the result -1. *)
Definition slam_encode (m : mem) (ptr end_ value : Z) : option (mem * Z) :=
  let bytes := match enc_bytes value 4 with O => 1%nat | b => b end in
  if ptr + Z.of_nat bytes >=? end_ then None
  else
    let top := Z.shiftr value (8 * (Z.of_nat bytes - 1)) in
    if Z.land 0xe0 top =? 0
    then Some (put_bytes (st8 m ptr (Z.lor (Z.shiftl (Z.of_nat bytes) 5) top)) (ptr + 1) value (bytes - 1))
    else Some (put_bytes (st8 m ptr (Z.shiftl (Z.of_nat bytes + 1) 5)) (ptr + 1) value bytes).

(** The result and the new pointer. *)
Definition slam_skip (m : mem) (ptr end_ : Z) : Z * Z :=
  if ptr >=? end_ then (-1, ptr)
  else
    let bytes := Z.land (Z.shiftr (ld8 m ptr) 5) 7 in
    if bytes =? 0 then (-1, ptr)
    else if ptr + bytes >=? end_ then (-1, ptr)
    else (0, ptr + bytes).

Fixpoint get_bytes (m : mem) (ptr : Z) (bytes : nat) (value : Z) : Z * Z :=
  match bytes with
  | O => (value, ptr)
  | S b => get_bytes m (ptr + 1) b (Z.lor (u32 (Z.shiftl value 8)) (ld8 m ptr))
  end.
(** The value, the new pointer and [*err]. *)
Definition slam_decode (m : mem) (ptr end_ err : Z) : Z * Z * Z :=
  let err := if ptr >=? end_ then -1 else err in
  let bytes := Z.land (Z.shiftr (ld8 m ptr) 5) 7 in
  if (bytes =? 0) || (bytes >? 4) then (0, ptr, -1)
  else
    let err := if ptr + bytes >=? end_ then -1 else err in
    let '(value, p) := get_bytes m (ptr + 1) (Z.to_nat (bytes - 1)) (Z.land (ld8 m ptr) 0x1f) in
    (value, p, err).

(** ** The bitmap *)

Definition bit_at (m : mem) (bm i : Z) : Z :=
  Z.land (Z.shiftr (ld8 m (bm + Z.shiftr i 3)) (Z.land i 7)) 1.
(** [bitmap[i >> 3] |= v << (i & 7)] and [&= ~(1 << (i & 7))] *)
Definition or_bit (m : mem) (bm i v : Z) : mem :=
  let a := bm + Z.shiftr i 3 in st8 m a (Z.lor (ld8 m a) (Z.shiftl v (Z.land i 7))).
Definition clear_bit (m : mem) (bm i : Z) : mem :=
  let a := bm + Z.shiftr i 3 in st8 m a (Z.land (ld8 m a) (Z.lnot (Z.shiftl 1 (Z.land i 7)))).

(** [slam_recv_data] on the payload at [data], in the frame of [packetlen] bytes. *)
Definition slam_recv_data (m : mem) (plen data : Z) (st : slam_state) : Z * mem * slam_state :=
  let udp := nic_packet + ETH_HLEN + 20 in
  let '(packet, data, err) := slam_decode m data (nic_packet + plen) 0 in
  if negb (err =? 0) || (packet >? total_packets st) then (0, m, st)
  else
    let data_len := if negb (packet =? u32 (total_packets st - 1)) then block_size st
                    else total_bytes st mod block_size st in
    if negb (ntohs (ld16 m (udp + 4)) =? u32 (data_len + (data - udp))) then (1, m, st)
    else if plen <? u32 (data_len + (data - nic_packet)) then (1, m, st)
    else
      let data_len := if data_len >? block_size st then block_size st else data_len in
      if bit_at m (bitmap st) packet =? 0 then
        let m := or_bit m (bitmap st) packet 1 in
        (1, memcpy m (image st + u32 (packet * block_size st)) data (Z.to_nat data_len),
         {| hdr_len := hdr_len st; block_size := block_size st; total_bytes := total_bytes st;
            total_packets := total_packets st; received_packets := u32 (received_packets st + 1);
            image := image st; bitmap := bitmap st; slam_heap := slam_heap st |})
      else (1, m, st).

(** The walk over the bitmap, from bit [i] on, with [k] bits left. *)
Fixpoint nack_walk (m : mem) (bm ptr end_ i len last : Z) (k : nat) : mem * Z :=
  match k with
  | O => (m, ptr)
  | S k' =>
      let value := bit_at m bm i in
      if value =? last then nack_walk m bm ptr end_ (i + 1) (len + 1) last k'
      else
        match slam_encode m ptr end_ len with
        | None => (m, ptr)
        | Some (m, ptr) => nack_walk m bm ptr end_ (i + 1) 1 value k'
        end
  end.
(** The body of [slam_send_nack]: the packet's bytes and where they end. *)
Definition build_nack (m : mem) (st : slam_state) : mem * Z :=
  let ptr := nack_data in
  let end_ := nack_data + sizeof_nack_data - 1 in
  if bitmap st =? 0 then
    let '(m, ptr) := match slam_encode m ptr end_ 0 with Some r => r | None => (m, ptr) end in
    match slam_encode m ptr end_ 1 with Some r => r | None => (m, ptr) end
  else
    let max := total_packets st in
    let value := bit_at m (bitmap st) (u32 (max - 1)) in
    let value := if value =? 0 then 1 else 0 in
    let m := clear_bit m (bitmap st) max in
    let m := or_bit m (bitmap st) max value in
    nack_walk m (bitmap st) ptr end_ 0 0 1 (Z.to_nat (max + 1)).

Section slam.
Context `{E : Env} (virt_offset : Z).

(** [reinit_slam_state] on the packet from [header] to [end_]: where its data start, 0 for [NULL];
    [None] is a division by a block size of zero. *)
Definition reinit_slam_state (header end_ : Z) (m : mem) (st : slam_state)
    : option (Z * mem * slam_state) :=
  let '(err, data) := slam_skip m header end_ in
  let '(tb, data, err) := slam_decode m data end_ err in
  let '(bs, data, err) := slam_decode m data end_ err in
  let with_hdr_len n := {| hdr_len := n; block_size := block_size st; total_bytes := total_bytes st;
                           total_packets := total_packets st; received_packets := received_packets st;
                           image := image st; bitmap := bitmap st; slam_heap := slam_heap st |} in
  if negb (err =? 0) then Some (0, m, with_hdr_len 0)
  else if bs =? 0 then None
  else
    let tp := u32 (tb + bs - 1) / bs in
    let hl := data - header in
    let '(m, p) := match slam_encode m slam_hdr (slam_hdr + MAX_HDR) tp with
                   | Some r => r
                   | None => (m, slam_hdr)
                   end in
    let max_packet_len := p - slam_hdr in
    let m := memcpy m slam_hdr header (Z.to_nat hl) in
    let st1 := {| hdr_len := hl; block_size := bs; total_bytes := tb; total_packets := tp;
                  received_packets := 0; image := image st; bitmap := bitmap st;
                  slam_heap := slam_heap st |} in
    if bs >? u32 (ETH_MAX_MTU - (20 + 8 + hl + max_packet_len)) then Some (0, m, st1)
    else
      let h := if bitmap st =? 0 then slam_heap st else forget virt_offset m (slam_heap st) (bitmap st) in
      let bitmap_len := u32 (tp + 1 + 7) / 8 in
      let '(m, h, bm) := allot virt_offset m h bitmap_len in
      let '(m, h, im) := allot virt_offset m h tb in
      let st2 := {| hdr_len := hl; block_size := bs; total_bytes := tb; total_packets := tp;
                    received_packets := 0; image := im; bitmap := bm; slam_heap := h |} in
      if im <? 1024 * 1024 then Some (0, m, st2)
      else Some (header + hl, memset m bm 0 (Z.to_nat bitmap_len), st2).

Definition slam_sleep_interval (exp : Z) : M Z :=
  let range := SLAM_BASE_TIMEOUT_INTERVAL in
  let divisor :=
    if exp <? 0 then Z.quot RAND_MAX SLAM_INITIAL_TIMEOUT_INTERVAL
    else
      let exp := if exp >? SLAM_BACKOFF_LIMIT then SLAM_BACKOFF_LIMIT else exp in
      Z.quot RAND_MAX (Z.shiftl range exp) in
  r <- net_random ;;
  ret (Z.quot r divisor + (if exp <? 0 then SLAM_INITIAL_MIN_TIMEOUT else SLAM_BASE_MIN_TIMEOUT)).

Definition await_slam (info : slam_info) : reply_t := fun rxi =>
  if negb (has_udp rxi) then ret 0
  else
    w <- get ;;
    let m := mm w in
    let dest := ntohs (ld16 m (ip_ptr + 22)) in
    if (ld32 m (ip_ptr + 16) =? client_ip w) && (dest =? local_port info)
       && (packetlen w >=? ETH_HLEN + 20 + 8 + 3) then ret SLAM_REQUEST
    else if (ld32 m (ip_ptr + 16) =? multicast_ip info) && (dest =? multicast_port info)
       && (packetlen w >=? ETH_HLEN + 20 + 8 + 4) then ret SLAM_DATA
    else ret 0.

Definition transmit_nack (fuel : nat) (ptr : Z) (info : slam_info) : M unit :=
  store8 ptr 0 ;;;
  let nack_len := ptr + 1 - nack in
  modify (fun w => set_mm (build_udp_hdr (client_ip w) (server_ip info) (local_port info)
                             (server_port info) 1 nack_len nack (mm w)) w) ;;;
  ip_transmit fuel nack_len nack ;;;
  ret tt.
Definition slam_send_nack (fuel : nat) (info : slam_info) (st : slam_state) : M unit :=
  w <- get ;;
  let '(m, ptr) := build_nack (mm w) st in
  modify (set_mm m) ;;;
  transmit_nack fuel ptr info.
(** [sent_nack] is given, and 0 afterwards. *)
Definition slam_send_disconnect (fuel : nat) (info : slam_info) (sent_nack : bool) : M unit :=
  if sent_nack then transmit_nack fuel nack_data info else ret tt.

(** What happens to a packet of the two kinds before it is acted upon: the pointer to its data, 0
    when the transfer ends. *)
Definition check_header (w : world) (st : slam_state) : option (Z * mem * slam_state) :=
  let header := nic_packet + ETH_HLEN + 20 + 8 in
  if negb (memcmp (mm w) slam_hdr header (Z.to_nat (hdr_len st)) =? 0)
  then reinit_slam_state header (nic_packet + packetlen w) (mm w) st
  else Some (header + hdr_len st, mm w, st).

(** The [for] loop: whether the transfer is complete, [sent_nack] and the state. *)
Fixpoint slam_loop (fuel : nat) (info : slam_info) (retry : Z) (sent_nack : bool) (st : slam_state)
    {struct fuel} : M (bool * bool * slam_state) :=
  match fuel with
  | O => oof
  | S n =>
      timeout <- slam_sleep_interval retry ;;
      type <- await_reply n (await_slam info) timeout ;;
      if (type =? SLAM_TIMEOUT) && (retry >? SLAM_MAX_RETRIES) then ret (false, sent_nack, st)
      else
        let retry := if type =? SLAM_TIMEOUT then retry + 1 else 0 in
        w <- get ;;
        match (if (type =? SLAM_DATA) || (type =? SLAM_REQUEST) then check_header w st
               else Some (1, mm w, st)) with
        | None => oof
        | Some (data, m, st) =>
            modify (set_mm m) ;;;
            if data =? 0 then ret (false, sent_nack, st)
            else if type =? SLAM_DATA then
              let '(ok, m, st) := slam_recv_data m (packetlen w) data st in
              modify (set_mm m) ;;;
              if ok =? 0 then ret (false, sent_nack, st)
              else if received_packets st =? total_packets st then ret (true, sent_nack, st)
              else slam_loop n info retry sent_nack st
            else
              slam_send_nack n info st ;;;
              slam_loop n info retry true st
        end
  end.

Definition proto_slam (fuel : nat) (info : slam_info) (fnc : Z -> Z -> Z -> bool -> M Z) (st : slam_state)
    : M (Z * slam_state) :=
  set_mem (fun m => memset m slam_hdr 0 (Z.to_nat MAX_HDR)) ;;;
  let st := init_slam_state st in
  rx_qdrain fuel ;;;
  w <- get ;;
  (if negb (ipaddr (arp w ARP_SERVER) =? server_ip info)
   then set_arp ARP_SERVER {| ipaddr := server_ip info; node := no_node |} else ret tt) ;;;
  join_group (ip_transmit fuel) IGMP_SERVER (multicast_ip info) ;;;
  r <- slam_loop fuel info (-1) false st ;;
  let '(done, sent_nack, st) := r in
  if negb done then ret (0, st)
  else
    slam_send_disconnect fuel info sent_nack ;;;
    leave_group (ip_transmit fuel) IGMP_SERVER ;;;
    rc <- fnc (image st) 1 (total_bytes st) true ;;
    ret (rc, st).

(** [url_slam] on the C string at [name]. *)
Definition url_slam (fuel : nat) (url_port name : Z) (fnc : Z -> Z -> Z -> bool -> M Z) (st : slam_state)
    : M (Z * slam_state) :=
  w <- get ;;
  let m := mm w in
  let sport := if url_port =? -1 then SLAM_PORT else u16 url_port in
  match
    (if ld8 m name =? 0 then Some (name, htonl SLAM_MULTICAST_IP, SLAM_PORT)
     else
       let* '(n, ip) := inet_aton fuel m name in
       let name := name + n in
       let ip := match ip with Some ip => ip | None => htonl SLAM_MULTICAST_IP end in
       if ld8 m name =? 58 then
         let* '(p, e) := strtoul_loop fuel m (name + 1) 0 in Some (e, ip, u16 p)
       else Some (name, ip, SLAM_PORT))
  with
  | None => oof
  | Some (name, mip, mport) =>
      if negb (ld8 m name =? 0) then ret (0, st)
      else
        proto_slam fuel {| server_ip := ipaddr (arp w ARP_SERVER); multicast_ip := mip;
                           server_port := sport; multicast_port := mport; local_port := SLAM_PORT |}
          fnc st
  end.
End slam.

(** ** The encoding *)

(** The last [n] bytes of a number, most significant first. *)
Fixpoint be_bytes (v : Z) (n : nat) : list Z :=
  match n with
  | O => []
  | S b => v / 2 ^ (8 * Z.of_nat b) mod 256 :: be_bytes v b
  end.
(** The bytes of an encoded number: three bits of length, and the number in what remains. *)
Definition slam_width (v : Z) : nat :=
  if v <? 32 then 1 else if v <? 8192 then 2 else if v <? 2097152 then 3
  else if v <? 536870912 then 4 else 5.
Definition slam_bytes (v : Z) : list Z :=
  let n := (slam_width v - 1)%nat in
  (32 * Z.of_nat (slam_width v) + v / 2 ^ (8 * Z.of_nat n)) :: be_bytes v n.
(** The bytes of a number without leading zeros: what [slam_encode] asks to be free. *)
Definition plain_width (v : Z) : nat :=
  if v <? 256 then 1 else if v <? 65536 then 2 else if v <? 16777216 then 3 else 4.

Lemma length_be_bytes v n : length (be_bytes v n) = n.
Proof. induction n as [|n IH]; cbn [be_bytes length]; [reflexivity | now rewrite IH]. Qed.
Lemma slam_width_pos v : (1 <= slam_width v <= 5)%nat.
Proof. unfold slam_width. repeat destruct (_ <? _); lia. Qed.
Lemma plain_width_le v : (1 <= plain_width v <= 4)%nat.
Proof. unfold plain_width. repeat destruct (_ <? _); lia. Qed.
Lemma slam_plain v : (plain_width v <= slam_width v <= plain_width v + 1)%nat.
Proof. unfold plain_width, slam_width. case_tests; lia. Qed.
Lemma slam_width_4 v : (slam_width v <= 4)%nat <-> v < 536870912.
Proof. unfold slam_width. case_tests; lia. Qed.
Lemma length_slam_bytes v : length (slam_bytes v) = slam_width v.
Proof. unfold slam_bytes. cbn [length]. rewrite length_be_bytes. pose proof (slam_width_pos v). lia. Qed.
Lemma byte_of_shift v b : Z.land 0xff (Z.shiftr v (8 * Z.of_nat b)) = v / 2 ^ (8 * Z.of_nat b) mod 256.
Proof. rewrite Z.land_comm, land_ff, shiftr_div by lia. reflexivity. Qed.
Lemma put_bytes_stn v n : forall m data,
  put_bytes m data v n = (stn m data (be_bytes v n), data + Z.of_nat n).
Proof.
  induction n as [|n IH]; intros m data; cbn [put_bytes be_bytes stn]; [f_equal; lia|].
  rewrite IH, byte_of_shift. f_equal. lia.
Qed.
Lemma enc_bytes_width v : 0 <= v < 4294967296 ->
  match enc_bytes v 4 with O => 1%nat | b => b end = plain_width v.
Proof.
  intros Hv. unfold enc_bytes. rewrite !byte_of_shift.
  cbn [Z.of_nat Pos.of_succ_nat Pos.succ Z.mul Pos.mul]. pow_consts. change (2 ^ 0) with 1. rewrite Z.div_1_r.
  unfold plain_width.
  repeat (case_test; [|try (exfalso; zmod)]; try (exfalso; zmod); try reflexivity).
  all: reflexivity.
Qed.

Lemma land_e0 t : 0 <= t < 256 -> (Z.land 0xe0 t =? 0) = (t <? 32).
Proof.
  intros H. apply eqb_prop.
  apply (all_below_spec 256 (fun t => Bool.eqb (Z.land 0xe0 t =? 0) (t <? 32))); [reflexivity | exact H].
Qed.
Lemma lor_length k t : 0 <= t < 32 -> Z.lor (Z.shiftl k 5) t = 32 * k + t.
Proof. intros H. rewrite shiftl_mul by lia. rewrite (lor_add 5); [|lia|reflexivity|lia]. lia. Qed.

(** What [slam_encode] does. *)
Lemma slam_encode_spec m ptr end_ v : 0 <= v < 4294967296 ->
  slam_encode m ptr end_ v
  = if ptr + Z.of_nat (plain_width v) >=? end_ then None
    else Some (stn m ptr (slam_bytes v), ptr + Z.of_nat (slam_width v)).
Proof.
  intros Hv. unfold slam_encode. rewrite (enc_bytes_width v Hv). cbv zeta.
  destruct (_ >=? end_); [reflexivity|].
  rewrite !put_bytes_stn, shiftr_div by (unfold plain_width; case_tests; lia).
  set (k := 2 ^ (8 * (Z.of_nat (plain_width v) - 1))).
  assert (Hk : 0 <= v / k < 256 /\ 0 < k).
  { subst k. unfold plain_width. case_tests; cbn [Z.of_nat Pos.of_succ_nat Pos.succ Z.sub Z.mul Pos.mul];
      split; try reflexivity; cbn -[Z.div]; Z.div_mod_to_equations; lia. }
  rewrite land_e0 by apply Hk.
  assert (W : slam_width v = if v / k <? 32 then plain_width v else S (plain_width v)).
  { subst k. unfold slam_width, plain_width. case_tests; cbn [Z.of_nat Pos.of_succ_nat Pos.succ Z.add Z.opp Pos.add Z.sub Z.mul Pos.mul] in *;
      try reflexivity; exfalso; cbn -[Z.div] in *; zmod. }
  assert (Hn : (1 <= plain_width v)%nat) by (unfold plain_width; case_tests; lia).
  unfold slam_bytes. cbn [stn]. rewrite W. destruct (Z.ltb_spec (v / k) 32) as [L|L].
  - rewrite lor_length by lia. replace (8 * Z.of_nat (plain_width v - 1)) with (8 * (Z.of_nat (plain_width v) - 1))
      by lia. fold k. do 2 f_equal. lia.
  - assert (v / 2 ^ (8 * Z.of_nat (plain_width v)) = 0) as Hz.
    { unfold plain_width. apply Z.div_small. case_tests; cbn; lia. }
    replace (S (plain_width v) - 1)%nat with (plain_width v) by lia. rewrite Hz, shiftl_mul by lia.
    replace (32 * Z.of_nat (S (plain_width v)) + 0) with ((Z.of_nat (plain_width v) + 1) * 2 ^ 5) by (cbn; lia).
    do 2 f_equal. lia.
Qed.

(** Reading bytes back. *)
Lemma get_bytes_be v n : forall m ptr hi,
  ldn m ptr n = be_bytes v n -> 0 <= hi -> hi * 2 ^ (8 * Z.of_nat n) + v mod 2 ^ (8 * Z.of_nat n) < 4294967296 ->
  get_bytes m ptr n hi = (hi * 2 ^ (8 * Z.of_nat n) + v mod 2 ^ (8 * Z.of_nat n), ptr + Z.of_nat n).
Proof.
  induction n as [|n IH]; intros m ptr hi Hm H0 H; cbn [ldn be_bytes get_bytes] in *.
  - change (2 ^ (8 * Z.of_nat 0)) with 1. rewrite Z.mod_1_r. f_equal; lia.
  - assert (H1 := f_equal (hd 0) Hm). assert (H2 := f_equal (@tl Z) Hm). cbn [hd tl] in H1, H2.
    set (k := 2 ^ (8 * Z.of_nat n)) in *.
    replace (2 ^ (8 * Z.of_nat (S n))) with (256 * k) in *
      by (subst k; rewrite Nat2Z.inj_succ, Z.mul_succ_r, Z.pow_add_r by lia; change (2 ^ 8) with 256; lia).
    assert (Hk : 0 < k) by (subst k; apply Z.pow_pos_nonneg; lia).
    assert (Hr : v mod (256 * k) = (v / k mod 256) * k + v mod k).
    { rewrite (Z.mul_comm 256 k), Z.rem_mul_r by lia. lia. }
    pose proof (Z.mod_pos_bound (v / k) 256 ltac:(lia)). pose proof (Z.mod_pos_bound v k ltac:(lia)).
    assert (Hh : 0 <= hi * 256 < 4294967296) by nia.
    rewrite H1, shiftl_mul by lia. change (2 ^ 8) with 256. rewrite u32_small by lia.
    rewrite (lor_add 8); [|lia|reflexivity|lia].
    rewrite IH by (try exact H2; nia). rewrite Hr. f_equal; [nia | lia].
Qed.

Lemma slam_top v : 0 <= v < 4294967296 -> 0 <= v / 2 ^ (8 * Z.of_nat (slam_width v - 1)) < 32.
Proof. intros Hv. unfold slam_width. case_tests; cbn -[Z.div]; zmod. Qed.
Lemma slam_bytes_range v : 0 <= v < 4294967296 -> Forall (fun b => 0 <= b < 256) (slam_bytes v).
Proof.
  intros Hv. unfold slam_bytes. constructor.
  - pose proof (slam_top v Hv). pose proof (slam_width_pos v). lia.
  - induction (slam_width v - 1)%nat as [|n IH]; cbn [be_bytes]; constructor; [zmod | exact IH].
Qed.

(** An encoded number is read back from wherever its bytes stand, provided something follows them;
    a number of 30 bits or more is refused. *)
Lemma slam_decode_bytes m ptr end_ v : 0 <= v < 4294967296 ->
  ldn m ptr (slam_width v) = slam_bytes v -> ptr + Z.of_nat (slam_width v) < end_ ->
  slam_decode m ptr end_ 0
  = if v <? 536870912 then (v, ptr + Z.of_nat (slam_width v), 0) else (0, ptr, -1).
Proof.
  intros Hv Hm He. pose proof (slam_width_pos v) as Hw. set (n := (slam_width v - 1)%nat).
  replace (slam_width v) with (S n) in Hm by lia. cbn [ldn] in Hm. unfold slam_bytes in Hm.
  fold n in Hm. assert (H1 := f_equal (hd 0) Hm). assert (H2 := f_equal (@tl Z) Hm). cbn [hd tl] in H1, H2.
  set (top := v / 2 ^ (8 * Z.of_nat n)) in *.
  assert (Ht : 0 <= top < 32) by (apply slam_top, Hv).
  assert (Hb : Z.land (Z.shiftr (ld8 m ptr) 5) 7 = Z.of_nat (slam_width v)).
  { rewrite H1, land_7, shiftr_div by lia. change (2 ^ 5) with 32. zmod. }
  assert (Hl : Z.land (ld8 m ptr) 31 = top) by (rewrite H1, land_1f; zmod).
  unfold slam_decode. rewrite Hb, Hl. destruct (Z.geb_spec ptr end_); [lia|].
  destruct (Z.eqb_spec (Z.of_nat (slam_width v)) 0); [lia|]. cbn [orb].
  destruct (Z.ltb_spec v 536870912).
  - destruct (Z.gtb_spec (Z.of_nat (slam_width v)) 4).
    { pose proof (proj2 (slam_width_4 v)). lia. }
    destruct (Z.geb_spec (ptr + Z.of_nat (slam_width v)) end_); [lia|].
    replace (Z.to_nat (Z.of_nat (slam_width v) - 1)) with n by lia.
    assert (Hs : top * 2 ^ (8 * Z.of_nat n) + v mod 2 ^ (8 * Z.of_nat n) = v).
    { subst top. pose proof (Z.div_mod v (2 ^ (8 * Z.of_nat n)) ltac:(apply Z.pow_nonzero; lia)). lia. }
    rewrite (get_bytes_be v n) by (try exact H2; lia). rewrite Hs. do 2 f_equal. lia.
  - destruct (Z.gtb_spec (Z.of_nat (slam_width v)) 4); [reflexivity|].
    pose proof (proj1 (slam_width_4 v)). lia.
Qed.

(** ** Bits *)

(** A bit of the bitmap, as a truth value. *)
Definition hasbit (m : mem) (bm i : Z) : bool := Z.testbit (ld8 m (bm + i / 8)) (i mod 8).
Lemma bit_at_hasbit m bm i : bit_at m bm i = b2z (hasbit m bm i).
Proof.
  unfold bit_at, hasbit. rewrite land_1, land_7, !shiftr_div by zmod. change (2 ^ 3) with 8.
  rewrite <- Z.testbit_spec' by zmod. now destruct (Z.testbit _ _).
Qed.
Lemma bit_at_zero m bm i : (bit_at m bm i =? 0) = negb (hasbit m bm i).
Proof. rewrite bit_at_hasbit. now destruct (hasbit m bm i). Qed.
Lemma testbit_u8 x n : 0 <= n < 8 -> Z.testbit (u8 x) n = Z.testbit x n.
Proof. intros H. unfold u8. change 256 with (2 ^ 8). now apply Z.mod_pow2_bits_low. Qed.
(** Storing a byte of the bitmap, bit by bit. *)
Lemma hasbit_st8 m bm i j v :
  hasbit (st8 m (bm + i / 8) v) bm j = if j / 8 =? i / 8 then Z.testbit v (j mod 8) else hasbit m bm j.
Proof.
  unfold hasbit. rewrite ld8_st8. destruct (Z.eqb_spec (bm + j / 8) (bm + i / 8)), (Z.eqb_spec (j / 8) (i / 8));
    try lia; [|reflexivity]. apply testbit_u8. zmod.
Qed.
Lemma same_bit i j : (j =? i) = (j / 8 =? i / 8) && (j mod 8 =? i mod 8).
Proof. case_tests; try reflexivity; exfalso; zmod. Qed.
Lemma hasbit_or m bm i j v :
  hasbit (or_bit m bm i (b2z v)) bm j = ((j =? i) && v) || hasbit m bm j.
Proof.
  unfold or_bit. rewrite land_7, shiftr_div by lia. change (2 ^ 3) with 8. rewrite hasbit_st8, (same_bit i j).
  destruct (Z.eqb_spec (j / 8) (i / 8)) as [Ej|]; [|reflexivity].
  rewrite Z.lor_spec, Z.shiftl_spec by zmod. unfold hasbit. rewrite Ej, orb_comm. cbn [andb]. f_equal.
  destruct v; cbn [b2z]; [rewrite andb_true_r|now rewrite Z.bits_0, andb_false_r].
  destruct (Z.eqb_spec (j mod 8) (i mod 8)) as [->|]; [now rewrite Z.sub_diag|].
  destruct (Z.lt_ge_cases (j mod 8 - i mod 8) 0); [now apply Z.testbit_neg_r|].
  rewrite Z.bits_above_log2; [reflexivity | lia | cbn; lia].
Qed.
Lemma hasbit_clear m bm i j :
  hasbit (clear_bit m bm i) bm j = negb (j =? i) && hasbit m bm j.
Proof.
  unfold clear_bit. rewrite land_7, shiftr_div by lia. change (2 ^ 3) with 8. rewrite hasbit_st8, (same_bit i j).
  destruct (Z.eqb_spec (j / 8) (i / 8)) as [Ej|]; [|reflexivity].
  rewrite Z.land_spec, Z.lnot_spec, Z.shiftl_spec by zmod. unfold hasbit. rewrite Ej, andb_comm. cbn [andb]. f_equal.
  f_equal. destruct (Z.eqb_spec (j mod 8) (i mod 8)) as [->|]; [now rewrite Z.sub_diag|].
  destruct (Z.lt_ge_cases (j mod 8 - i mod 8) 0); [now apply Z.testbit_neg_r|].
  rewrite Z.bits_above_log2; [reflexivity | lia | cbn; lia].
Qed.
Lemma or_bit_out m bm i v x : x <> bm + i / 8 -> ld8 (or_bit m bm i v) x = ld8 m x.
Proof. intros H. unfold or_bit. rewrite shiftr_div by lia. apply ld8_st8_ne. change (2 ^ 3) with 8. lia. Qed.
Lemma clear_bit_out m bm i x : x <> bm + i / 8 -> ld8 (clear_bit m bm i) x = ld8 m x.
Proof. intros H. unfold clear_bit. rewrite shiftr_div by lia. apply ld8_st8_ne. change (2 ^ 3) with 8. lia. Qed.
Lemma hasbit_ext m1 m2 bm i : ld8 m1 (bm + i / 8) = ld8 m2 (bm + i / 8) -> hasbit m1 bm i = hasbit m2 bm i.
Proof. unfold hasbit. now intros ->. Qed.

(** ** Receiving a file *)

(** Block [i] of a file, and the number of blocks. *)
Definition file_block (file : list Z) (bs i : Z) : list Z :=
  firstn (Z.to_nat bs) (skipn (Z.to_nat (i * bs)) file).
Definition blocks_of (file : list Z) (bs : Z) : Z := (Z.of_nat (length file) + bs - 1) / bs.
(** The size of the file is not a multiple of the block size, and the buffers lie above the static
    variables, apart from each other. *)
Record geometry (file : list Z) (bs im bm : Z) : Prop := {
  g_bs : 1 <= bs <= 1400;
  g_file : Forall (fun b => 0 <= b < 256) file;
  g_size : Z.of_nat (length file) < 536870912;
  g_odd : Z.of_nat (length file) mod bs <> 0;
  g_im : 0x40000 <= im;
  g_bm : 0x40000 <= bm;
  g_apart : bm + blocks_of file bs / 8 < im \/ im + Z.of_nat (length file) <= bm;
}.
(** The state of a transfer: the bitmap tells which blocks are in the image, and they are right. *)
Record slam_inv (file : list Z) (bs im bm hl : Z) (m : mem) (st : slam_state) : Prop := {
  i_hl : hdr_len st = hl;
  i_bs : block_size st = bs;
  i_tb : total_bytes st = Z.of_nat (length file);
  i_tp : total_packets st = blocks_of file bs;
  i_im : image st = im;
  i_bm : bitmap st = bm;
  i_count : received_packets st
    = Z.of_nat (length (filter (fun i => hasbit m bm (Z.of_nat i)) (seq 0 (Z.to_nat (blocks_of file bs)))));
  i_data : forall i, 0 <= i < blocks_of file bs -> hasbit m bm i = true ->
    ldn m (im + i * bs) (length (file_block file bs i)) = file_block file bs i;
}.

(** Counting one more. *)
Lemma count_set (f g : nat -> bool) n i :
  (i < n)%nat -> f i = false -> (forall j, (j < n)%nat -> g j = (j =? i)%nat || f j) ->
  length (filter g (seq 0 n)) = S (length (filter f (seq 0 n))).
Proof.
  intros Hi Hf Hg. replace n with (i + S (n - i - 1))%nat by lia. rewrite seq_app, !filter_app, !length_app.
  cbn [seq Nat.add filter]. rewrite Hf, Hg, Nat.eqb_refl by exact Hi. cbn [orb length].
  rewrite (filter_ext_in g f (seq 0 i)), (filter_ext_in g f (seq (S i) (n - i - 1))); [lia|..];
    intros j Hj; apply in_seq in Hj; rewrite Hg by lia; destruct (Nat.eqb_spec j i); (lia || reflexivity).
Qed.

Section transfer.
Context (file : list Z) (bs im bm hl : Z) (G : geometry file bs im bm).
Let tb := Z.of_nat (length file).
Let tp := blocks_of file bs.

Lemma blocks_bounds : tp = tb / bs + 1 /\ 0 < tp <= tb /\ (tp - 1) * bs < tb < tp * bs.
Proof using G.
  destruct G as [B F S O _ _ _]. subst tp tb. unfold blocks_of. set (n := Z.of_nat (length file)) in *.
  assert (Hn : 0 <= n) by (subst n; lia). clearbody n. clear F.
  assert (D : (n + bs - 1) / bs = n / bs + 1).
  { symmetry. apply Z.div_unique_pos with (r := n mod bs - 1); [pose proof (Z.mod_pos_bound n bs); lia|].
    pose proof (Z.div_mod n bs). lia. }
  rewrite D. pose proof (Z.div_mod n bs). pose proof (Z.mod_pos_bound n bs).
  assert (0 <= n / bs) by (apply Z.div_pos; lia). nia.
Qed.
Lemma file_block_length i : 0 <= i < tp ->
  Z.of_nat (length (file_block file bs i)) = if i =? tp - 1 then tb mod bs else bs.
Proof using G.
  intros Hi. pose proof blocks_bounds as (D & P & Q). pose proof (g_bs _ _ _ _ G) as B.
  pose proof (Z.div_mod tb bs ltac:(lia)) as DM. pose proof (Z.mod_pos_bound tb bs ltac:(lia)) as MB.
  unfold file_block. rewrite length_firstn, length_skipn.
  replace (length file) with (Z.to_nat tb) by (subst tb; lia).
  destruct (Z.eqb_spec i (tp - 1)) as [E|E].
  - assert (i * bs = tb - tb mod bs) by nia. lia.
  - assert ((i + 1) * bs <= (tp - 1) * bs) by nia. lia.
Qed.
Lemma file_block_le i : Z.of_nat (length (file_block file bs i)) <= bs.
Proof using G. pose proof (g_bs _ _ _ _ G). unfold file_block. rewrite length_firstn. lia. Qed.
Lemma file_block_range i : Forall (fun b => 0 <= b < 256) (file_block file bs i).
Proof using G. apply Forall_firstn, Forall_skipn, G. Qed.

Lemma block_inside i : 0 <= i < tp -> 0 <= i * bs <= tb - Z.of_nat (length (file_block file bs i)).
Proof using G.
  intros Hi. rewrite file_block_length by exact Hi. pose proof blocks_bounds as (D & P & Q).
  pose proof (g_bs _ _ _ _ G) as B. pose proof (Z.div_mod tb bs ltac:(lia)) as DM.
  destruct (Z.eqb_spec i (tp - 1)); nia.
Qed.

Lemma slam_inv_ext m m' st :
  (forall x, 0x40000 <= x -> ld8 m' x = ld8 m x) -> slam_inv file bs im bm hl m st ->
  slam_inv file bs im bm hl m' st.
Proof using G.
  intros E I. pose proof (g_im _ _ _ _ G). pose proof (g_bm _ _ _ _ G). pose proof (g_bs _ _ _ _ G).
  assert (Hb : forall i, 0 <= i -> hasbit m' bm i = hasbit m bm i)
    by (intros i Hi; apply hasbit_ext, E; zmod).
  destruct I as [I1 I2 I3 I4 I5 I6 I7 I8]. split; try assumption.
  - rewrite I7. do 2 f_equal. apply filter_ext. intros i. symmetry. apply Hb. lia.
  - intros i Hi Hh. rewrite Hb in Hh by lia. rewrite <- (I8 i Hi Hh) at 2. apply ldn_ext.
    intros x Hx. apply E. nia.
Qed.

(** Storing block [i], found at [d]. *)
Lemma slam_store m st i d :
  let b := file_block file bs i in
  let m' := memcpy (or_bit m bm i 1) (im + i * bs) d (length b) in
  slam_inv file bs im bm hl m st -> 0 <= i < tp -> hasbit m bm i = false ->
  ldn m d (length b) = b -> d + Z.of_nat (length b) <= 0x40000 ->
  slam_inv file bs im bm hl m'
    {| hdr_len := hdr_len st; block_size := bs; total_bytes := tb;
       total_packets := tp; received_packets := u32 (received_packets st + 1);
       image := im; bitmap := bm; slam_heap := slam_heap st |} /\
  (forall j, 0 <= j < tp -> hasbit m' bm j = (j =? i) || hasbit m bm j) /\
  (forall x, x < 0x40000 -> ld8 m' x = ld8 m x).
Proof using G.
  intros b m' I Hi Hbit Hd Hlow. pose proof (g_im _ _ _ _ G). pose proof (g_bm _ _ _ _ G).
  pose proof (g_bs _ _ _ _ G). pose proof (g_apart _ _ _ _ G) as Ga. fold tp tb in Ga.
  pose proof blocks_bounds as (_ & Tb & _). pose proof (g_size _ _ _ _ G) as Gs. fold tb in Gs.
  pose proof (block_inside i Hi) as In. fold b in In.
  assert (Hcp : im + i * bs <= d \/ d + Z.of_nat (length b) <= im + i * bs) by lia.
  assert (Out : forall x, x < im + i * bs \/ im + i * bs + Z.of_nat (length b) <= x -> x <> bm + i / 8 ->
                ld8 m' x = ld8 m x).
  { intros x Hx Hn. subst m'. rewrite ld8_memcpy_out by assumption. now apply or_bit_out. }
  assert (Bits : forall j, 0 <= j < tp -> hasbit m' bm j = (j =? i) || hasbit m bm j).
  { intros j Hj. transitivity (hasbit (or_bit m bm i (b2z true)) bm j);
      [|rewrite hasbit_or, andb_true_r; reflexivity].
    apply hasbit_ext. subst m'. apply ld8_memcpy_out; [exact Hcp|].
    assert (0 <= j / 8 <= tp / 8) by (split; [apply Z.div_pos | apply Z.div_le_mono]; lia). lia. }
  split; [|split; [exact Bits|]].
  - destruct I as [I1 I2 I3 I4 I5 I6 I7 I8]. split; cbn [hdr_len block_size total_bytes total_packets
      received_packets image bitmap]; try reflexivity; try assumption; fold tp tb in I7, I8 |- *.
    + rewrite (count_set (fun j => hasbit m bm (Z.of_nat j)) _ _ (Z.to_nat i)).
      * rewrite <- I7 || rewrite Nat2Z.inj_succ, <- I7. apply u32_small.
        rewrite I7. pose proof (filter_length_le (fun j => hasbit m bm (Z.of_nat j)) (seq 0 (Z.to_nat tp))) as L.
        rewrite length_seq in L. lia.
      * lia.
      * rewrite Z2Nat.id by lia. exact Hbit.
      * intros j Hj. rewrite Bits by lia. f_equal. destruct (Z.eqb_spec (Z.of_nat j) i), (Nat.eqb_spec j (Z.to_nat i)); lia.
    + intros j Hj Hh. rewrite Bits in Hh by exact Hj. destruct (Z.eqb_spec j i) as [->|Nj]; cbn [orb] in Hh.
      * fold b. subst m'. rewrite ldn_memcpy by exact Hcp. rewrite <- Hd at 2. apply ldn_ext.
        intros x Hx. apply or_bit_out. zmod.
      * rewrite <- (I8 j Hj Hh) at 2. apply ldn_ext. intros x Hx.
        pose proof (block_inside j Hj) as Inj. pose proof (file_block_le j) as Lj.
        pose proof (file_block_le i) as Li. fold b in Li. apply Out.
        -- assert (j < i \/ i < j) as [Lt|Lt] by lia; [left|right].
           ++ assert ((j + 1) * bs <= i * bs) by (apply Z.mul_le_mono_nonneg_r; lia). lia.
           ++ assert ((i + 1) * bs <= j * bs) by (apply Z.mul_le_mono_nonneg_r; lia). lia.
        -- assert (i / 8 <= tp / 8) by (apply Z.div_le_mono; lia). assert (0 <= i / 8) by (apply Z.div_pos; lia). lia.
  - intros x Hx. apply Out; [lia|]. assert (0 <= i / 8) by (apply Z.div_pos; lia). lia.
Qed.

(** A packet with block [i] is stored, or dropped when it is there already. *)
Lemma slam_recv_block m st plen hdr i :
  let body := hdr ++ slam_bytes i ++ file_block file bs i in
  slam_inv file bs im bm hl m st -> 0 <= i < tp -> Z.of_nat (length hdr) = hl -> hl <= 21 ->
  ldn m (ip_ptr + 28) (length body) = body -> ntohs (ld16 m (ip_ptr + 24)) = 8 + Z.of_nat (length body) ->
  plen = 42 + Z.of_nat (length body) ->
  exists m' st', slam_recv_data m plen (ip_ptr + 28 + hl) st = (1, m', st') /\
    slam_inv file bs im bm hl m' st' /\
    (forall j, 0 <= j < tp -> hasbit m' bm j = (j =? i) || hasbit m bm j) /\
    (forall x, x < 0x40000 -> ld8 m' x = ld8 m x).
Proof using G.
  intros body I Hi Hh Hhl Hm Hu Hp. pose proof I as [I1 I2 I3 I4 I5 I6 I7 I8].
  pose proof (blocks_bounds) as (_ & Tb & _). pose proof (file_block_length i Hi) as Hl.
  set (b := file_block file bs i) in *. set (w := slam_width i).
  pose proof (slam_width_pos i) as Hw. fold w in Hw.
  assert (Hb : length body = (length hdr + w + length b)%nat)
    by (subst body; rewrite !length_app, length_slam_bytes; fold w; lia).
  apply ldn_split in Hm as [_ Hm]. rewrite Hh in Hm.
  apply ldn_split in Hm as [Ms Mb]. rewrite length_slam_bytes in Ms, Mb. fold w in Ms, Mb.
  pose proof (g_size _ _ _ _ G) as Gs. fold tb in Gs. pose proof (g_bs _ _ _ _ G) as Gb.
  pose proof (g_odd _ _ _ _ G) as Go. fold tb in Go. pose proof (g_im _ _ _ _ G) as Gi.
  pose proof (g_bm _ _ _ _ G) as Gm. pose proof (g_apart _ _ _ _ G) as Ga. fold tp tb in Ga.
  pose proof (Z.mod_pos_bound tb bs ltac:(lia)) as Mo.
  assert (Lb : 1 <= Z.of_nat (length b) <= bs) by (rewrite Hl; destruct (i =? tp - 1); lia).
  assert (Lm : 0 <= i * bs <= tb - Z.of_nat (length b)) by (apply block_inside; exact Hi).
  unfold slam_recv_data. rewrite (slam_decode_bytes m _ _ i) by (lia || exact Ms || (fold w; unfold ip_ptr, ETH_HLEN in *; lia)).
  fold w. rewrite I2, I3, I4, I5, I6. fold tp tb.
  destruct (Z.ltb_spec i 536870912); [|lia]. cbn [Z.eqb negb orb].
  destruct (Z.gtb_spec i tp); [lia|]. rewrite (u32_small (tp - 1)) by lia.
  replace (if negb (i =? tp - 1) then bs else tb mod bs) with (Z.of_nat (length b))
    by (rewrite Hl; now destruct (i =? tp - 1)).
  set (d := ip_ptr + 28 + hl + Z.of_nat w) in *.
  change (nic_packet + ETH_HLEN + 20) with (ip_ptr + 20). change (ip_ptr + 20 + 4) with (ip_ptr + 24).
  rewrite Hu, !u32_small by (subst d; unfold ip_ptr, nic_packet, ETH_HLEN; lia).
  destruct (Z.eqb_spec (8 + Z.of_nat (length body)) (Z.of_nat (length b) + (d - (ip_ptr + 20)))); [|subst d; lia].
  cbn [negb].
  destruct (Z.ltb_spec plen (Z.of_nat (length b) + (d - nic_packet))) as [X|_];
    [subst d; unfold ip_ptr, ETH_HLEN in X; lia|].
  destruct (Z.gtb_spec (Z.of_nat (length b)) bs); [lia|]. rewrite bit_at_zero, Nat2Z.id.
  destruct (hasbit m bm i) eqn:Hbit; cbn [negb].
  - exists m, st. split; [reflexivity|]. split; [exact I|]. split; [|reflexivity].
    intros j _. destruct (Z.eqb_spec j i) as [->|]; [exact Hbit | reflexivity].
  - do 2 eexists. split; [reflexivity|].
    apply (slam_store m st i d); try assumption. fold b. subst d.
    unfold ip_ptr, nic_packet, ETH_HLEN. lia.
Qed.

(** All blocks make the file. *)
Lemma file_block_nth x : 0 <= x < tb ->
  (Z.to_nat (x mod bs) < length (file_block file bs (x / bs)))%nat /\
  nth (Z.to_nat (x mod bs)) (file_block file bs (x / bs)) 0 = nth (Z.to_nat x) file 0.
Proof using G.
  intros Hx. pose proof (g_bs _ _ _ _ G). pose proof (Z.mod_pos_bound x bs ltac:(lia)).
  pose proof (Z.div_mod x bs ltac:(lia)). assert (0 <= x / bs) by (apply Z.div_pos; lia).
  assert (0 <= x / bs * bs) by nia. unfold file_block. subst tb.
  rewrite length_firstn, length_skipn. split; [lia|].
  rewrite nth_firstn, nth_skipn. destruct (Nat.ltb_spec (Z.to_nat (x mod bs)) (Z.to_nat bs)); [|lia]. f_equal. lia.
Qed.
Lemma slam_complete m st :
  slam_inv file bs im bm hl m st -> received_packets st = tp -> ldn m im (length file) = file.
Proof using G.
  intros I Hr. destruct I as [_ _ _ _ _ _ I7 I8]. pose proof (g_bs _ _ _ _ G).
  assert (All : forall i, 0 <= i < tp -> hasbit m bm i = true).
  { assert (Hf : forallb (fun i => hasbit m bm (Z.of_nat i)) (seq 0 (Z.to_nat tp)) = true)
      by (apply filter_length_forallb; rewrite length_seq; fold tp in I7; lia).
    rewrite forallb_forall in Hf. intros i Hi. rewrite <- (Z2Nat.id i) by lia. apply Hf, in_seq. lia. }
  apply (nth_ext _ _ 0 0); [apply length_ldn|]. rewrite length_ldn. intros n Hn. rewrite nth_ldn by exact Hn.
  destruct (file_block_nth (Z.of_nat n) ltac:(subst tb; lia)) as [L E]. rewrite Nat2Z.id in E. rewrite <- E.
  assert (Hi : 0 <= Z.of_nat n / bs < tp).
  { split; [apply Z.div_pos; lia|]. apply Z.div_lt_upper_bound; [lia|]. pose proof blocks_bounds. subst tb. lia. }
  rewrite <- (I8 _ Hi (All _ Hi)), nth_ldn by exact L. f_equal.
  pose proof (Z.div_mod (Z.of_nat n) bs ltac:(lia)). pose proof (Z.mod_pos_bound (Z.of_nat n) bs ltac:(lia)). lia.
Qed.
End transfer.

(** ** The start of a transfer *)

(** Room for the two blocks, and both lie above the first megabyte. *)
Definition room (vo : Z) (h : heap) (s1 s2 : Z) : Prop :=
  heap_ok vo h /\ 0x100000 <= phys_to_virt vo (heap_top h) /\
  s1 + 4 <= heap_ptr h /\
  s2 + 4 <= align_down (heap_ptr h - (s1 + 4)) 16 /\
  heap_top h <= align_down (align_down (heap_ptr h - (s1 + 4)) 16 - (s2 + 4)) 16.
Lemma two_allots vo m h s1 s2 :
  room vo h s1 s2 -> 0 <= s1 -> 0 <= s2 ->
  exists m' h' bm im h1 m1, allot vo m h s1 = (m1, h1, bm) /\ allot vo m1 h1 s2 = (m', h', im) /\
    0x100000 < im /\ im + s2 < bm /\ (forall x, x < 0x100000 -> ld8 m' x = ld8 m x).
Proof.
  intros (Ho & Hv & R1 & R2 & R3) H1 H2. pose proof Ho as (T1 & T2 & T3).
  set (a1 := align_down (heap_ptr h - (s1 + 4)) 16) in *. set (a2 := align_down (a1 - (s2 + 4)) 16) in *.
  assert (B1 : a1 <= heap_ptr h - (s1 + 4)) by (subst a1; zmod).
  assert (B2 : a2 <= a1 - (s2 + 4)) by (subst a2; zmod).
  destruct (allot_cases vo m h s1 Ho H1 R1) as [[C _]|[_ E1]]; [fold a1 in C; lia|]. fold a1 in E1.
  set (h1 := {| heap_ptr := a1; heap_top := heap_top h; heap_bot := heap_bot h |}) in E1.
  set (m1 := st32 m (phys_to_virt vo a1) s1) in E1.
  assert (Ho1 : heap_ok vo h1) by (subst h1; repeat split; cbn; lia).
  destruct (allot_cases vo m1 h1 s2 Ho1 H2 R2) as [[C _]|[_ E2]]; cbn [heap_ptr heap_top h1] in *;
    [fold a2 in C; lia|]. fold a2 in E2.
  destruct (phys_to_virt_ok vo h (heap_top h) Ho ltac:(lia)) as [V0 _].
  destruct (phys_to_virt_ok vo h a1 Ho ltac:(lia)) as [V1 _].
  destruct (phys_to_virt_ok vo h (a1 + 4) Ho ltac:(lia)) as [V1' _].
  destruct (phys_to_virt_ok vo h a2 Ho ltac:(lia)) as [V2 _].
  destruct (phys_to_virt_ok vo h (a2 + 4) Ho ltac:(lia)) as [V2' _].
  assert (S : forall a, heap_top h <= a <= heap_bot h ->
            (a <? u32 vo) = (heap_top h <? u32 vo)) by (intros a Ha; case_tests; lia).
  rewrite S in V1, V1', V2, V2' by lia.
  do 6 eexists. split; [exact E1|]. split; [exact E2|]. rewrite V1', V2' in *.
  split; [lia|]. split; [lia|]. intros x Hx. rewrite V2. subst m1. rewrite V1. ld_simp. reflexivity.
Qed.

(** The header of the packets of a transfer: a transaction number (whose first three bits are its
    length), the size of the file and that of a block. *)
Definition txid_ok (t : list Z) : Prop :=
  (1 <= length t <= 7)%nat /\ nth 0 t 0 / 32 = Z.of_nat (length t) /\ Forall (fun b => 0 <= b < 256) t.
Definition slam_header (t : list Z) (file : list Z) (bs : Z) : list Z :=
  t ++ slam_bytes (Z.of_nat (length file)) ++ slam_bytes bs.

Lemma slam_skip_txid m ptr end_ t :
  txid_ok t -> ldn m ptr (length t) = t -> ptr + Z.of_nat (length t) < end_ ->
  slam_skip m ptr end_ = (0, ptr + Z.of_nat (length t)).
Proof.
  intros (L & H & _) Hm He. unfold slam_skip. destruct (Z.geb_spec ptr end_); [lia|].
  assert (E : Z.land (Z.shiftr (ld8 m ptr) 5) 7 = Z.of_nat (length t)).
  { rewrite <- Hm in H. rewrite nth_ldn, Z.add_0_r, length_ldn in H by lia.
    rewrite shiftr_div, land_7 by lia. change (2 ^ 5) with 32. rewrite H. apply Z.mod_small. lia. }
  rewrite E. destruct (Z.eqb_spec (Z.of_nat (length t)) 0); [lia|].
  destruct (Z.geb_spec (ptr + Z.of_nat (length t)) end_); [lia|reflexivity].
Qed.

Lemma slam_header_bounds t file bs : txid_ok t -> 1 <= bs <= 1400 -> Z.of_nat (length file) < 536870912 ->
  3 <= Z.of_nat (length (slam_header t file bs)) <= 15.
Proof.
  intros (L & _) Hb Hf. unfold slam_header. rewrite !length_app, !length_slam_bytes.
  pose proof (slam_width_pos bs). pose proof (slam_width_pos (Z.of_nat (length file))).
  pose proof (proj2 (slam_width_4 bs)). pose proof (proj2 (slam_width_4 (Z.of_nat (length file)))). lia.
Qed.
(** A zeroed bitmap. *)
Lemma hasbit_memset m bm n i : 0 <= i -> i / 8 < Z.of_nat n -> hasbit (memset m bm 0 n) bm i = false.
Proof.
  intros H0 H. unfold hasbit. assert (0 <= i / 8) by (apply Z.div_pos; lia).
  rewrite ld8_memset. case_tests; try lia. change (u8 0) with 0. apply Z.bits_0.
Qed.
Lemma filter_none {A} (f : A -> bool) l : (forall x, In x l -> f x = false) -> filter f l = [].
Proof.
  induction l as [|x l IH]; intros H; cbn; [reflexivity|]. rewrite H by now left.
  apply IH. intros y Hy. apply H. now right.
Qed.

(** The first packet of a transfer sets it up. *)
Lemma slam_reinit vo m st t file bs end_ :
  let hdr := slam_header t file bs in
  let hl := Z.of_nat (length hdr) in
  txid_ok t -> 1 <= bs <= 1400 -> Forall (fun b => 0 <= b < 256) file ->
  Z.of_nat (length file) < 536870912 -> Z.of_nat (length file) mod bs <> 0 ->
  bitmap st = 0 -> room vo (slam_heap st) ((blocks_of file bs + 8) / 8) (Z.of_nat (length file)) ->
  ldn m (ip_ptr + 28) (length hdr) = hdr -> ip_ptr + 28 + hl < end_ ->
  exists m' st' im bm, reinit_slam_state vo (ip_ptr + 28) end_ m st = Some (ip_ptr + 28 + hl, m', st') /\
    geometry file bs im bm /\ slam_inv file bs im bm hl m' st' /\
    ldn m' slam_hdr (length hdr) = hdr /\
    (forall j, 0 <= j < blocks_of file bs -> hasbit m' bm j = false) /\
    (forall x, x < slam_hdr -> ld8 m' x = ld8 m x).
Proof.
  intros hdr hl Ht Hb Hf Hs Ho Hbm Hr Hm He. set (tb := Z.of_nat (length file)) in *.
  assert (Htb : 0 <= tb) by (subst tb; lia).
  pose proof (slam_header_bounds t file bs Ht Hb Hs) as Hl. fold hdr hl in Hl.
  pose proof Hm as Hm'. unfold hdr, slam_header in Hm'. apply ldn_split in Hm' as [M1 M2].
  apply ldn_split in M2 as [M2 M3]. rewrite length_slam_bytes in M2, M3. rewrite length_slam_bytes in M3.
  assert (Hhl : hl = Z.of_nat (length t) + Z.of_nat (slam_width tb) + Z.of_nat (slam_width bs))
    by (subst hl hdr; unfold slam_header; rewrite !length_app, !length_slam_bytes; fold tb; lia).
  set (tp := blocks_of file bs) in *.
  assert (Htp : u32 (tb + bs - 1) / bs = tp) by (rewrite u32_small by lia; reflexivity).
  assert (Hp : 0 <= tp <= tb + bs).
  { subst tp. unfold blocks_of. fold tb. split; [apply Z.div_pos; lia|].
    apply Z.div_le_upper_bound; nia. }
  unfold reinit_slam_state. rewrite (slam_skip_txid m _ _ t) by (assumption || lia).
  rewrite (slam_decode_bytes m _ _ tb) by (assumption || lia). fold tb.
  destruct (Z.ltb_spec tb 536870912); [|lia].
  rewrite (slam_decode_bytes m _ _ bs) by (assumption || lia).
  destruct (Z.ltb_spec bs 536870912); [|lia]. cbn [Z.eqb negb]. destruct (Z.eqb_spec bs 0); [lia|].
  rewrite Htp, slam_encode_spec by lia.
  pose proof (slam_width_pos tp) as Wp. pose proof (plain_width_le tp) as Pp.
  destruct (Z.geb_spec (slam_hdr + Z.of_nat (plain_width tp)) (slam_hdr + MAX_HDR)); [unfold MAX_HDR in *; lia|].
  replace (ip_ptr + 28 + Z.of_nat (length t) + Z.of_nat (slam_width tb) + Z.of_nat (slam_width bs)
           - (ip_ptr + 28)) with hl by lia.
  set (m1 := memcpy (stn m slam_hdr (slam_bytes tp)) slam_hdr (ip_ptr + 28) (Z.to_nat hl)).
  rewrite (u32_small (ETH_MAX_MTU - _)) by (unfold ETH_MAX_MTU; lia).
  match goal with |- context [if ?b >? ?c then _ else _] => destruct (Z.gtb_spec b c) as [X|_] end;
    [unfold ETH_MAX_MTU in X; lia|].
  rewrite Hbm. cbn [Z.eqb]. rewrite (u32_small (tp + 1 + 7)) by lia.
  replace (tp + 1 + 7) with (tp + 8) by lia.
  assert (Hbl : 0 <= (tp + 8) / 8) by (apply Z.div_pos; lia).
  destruct (two_allots vo m1 (slam_heap st) _ _ Hr Hbl Htb) as (m' & h' & bm & im & h1 & m2 & E1 & E2 & I1 & I2 & O).
  rewrite E1, E2. destruct (Z.ltb_spec im (1024 * 1024)); [lia|].
  assert (Out : forall x, x < slam_hdr \/ slam_hdr + hl <= x < 0x100000 ->
                x < slam_hdr \/ slam_hdr + 5 <= x -> ld8 m' x = ld8 m x).
  { intros x Hx Hx'. assert (x < 0x100000) by (unfold slam_hdr in *; lia). rewrite O by lia.
    subst m1. rewrite ld8_memcpy_out by (unfold slam_hdr, ip_ptr, nic_packet, ETH_HLEN in *; lia).
    apply ld8_stn_out. rewrite length_slam_bytes. lia. }
  set (m3 := memset m' bm 0 (Z.to_nat ((tp + 8) / 8))).
  assert (Low : forall x, x < 0x100000 -> ld8 m3 x = ld8 m' x)
    by (intros x Hx; subst m3; rewrite ld8_memset; case_tests; (lia || reflexivity)).
  assert (Bits : forall j, 0 <= j < tp -> hasbit m3 bm j = false).
  { intros j Hj. apply hasbit_memset; [lia|]. rewrite Z2Nat.id by exact Hbl.
    apply Z.div_lt_upper_bound; [lia|]. Z.div_mod_to_equations. lia. }
  exists m3. eexists. exists im, bm. split; [reflexivity|].
  split; [split; fold tb tp; [exact Hb|exact Hf|exact Hs|exact Ho|lia|lia|right; lia]|]. split; [|split; [|split; [exact Bits|]]].
  - split; cbn [hdr_len block_size total_bytes total_packets received_packets image bitmap]; try reflexivity; fold tp.
    + rewrite filter_none; [reflexivity|]. intros j Hj. apply in_seq in Hj. apply Bits. lia.
    + intros j Hj Hh. rewrite Bits in Hh by exact Hj. discriminate.
  - rewrite <- Hm at 2. transitivity (ldn m1 slam_hdr (length hdr)).
    + apply ldn_ext. intros x Hx. unfold slam_hdr in Hx. rewrite Low, O by lia. reflexivity.
    + subst m1. replace (Z.to_nat hl) with (length hdr) by (subst hl; lia). rewrite ldn_memcpy.
      * apply ldn_ext. intros x Hx. apply ld8_stn_out. unfold slam_hdr, ip_ptr, nic_packet, ETH_HLEN in *. lia.
      * unfold slam_hdr, ip_ptr, nic_packet, ETH_HLEN in *. lia.
  - intros x Hx. rewrite Low by (unfold slam_hdr in Hx; lia). apply Out; lia.
Qed.

(** ** Rounds of the loop *)

Lemma slam_sleep_total `{Env} exp w :
  exists t s c, slam_sleep_interval exp w = Some (Ret t, set_seed s (set_cnt_clock c w)).
Proof.
  unfold slam_sleep_interval, net_random, currticks. run.
  destruct (seed w =? 0); do 3 eexists; [reflexivity|].
  replace (set_cnt_clock (cnt_clock w) w) with w by now destruct w. reflexivity.
Qed.

(** The frame with block [i] of a transfer, sent to the group. *)
Definition slam_frame (hd : list Z) (srv sp : Z) (info : slam_info) (t file : list Z) (bs i : Z) : list Z :=
  udp_frame hd srv (multicast_ip info) sp (multicast_port info)
    (slam_header t file bs ++ slam_bytes i ++ file_block file bs i).
(** The group is not our own address. *)
Definition group_ok (info : slam_info) (w : world) : Prop :=
  0 <= multicast_ip info < 4294967296 /\ multicast_ip info <> client_ip w /\
  0 <= multicast_port info < 65536.

Section rounds.
Context `{E : Env} (vo : Z) (hd : list Z) (srv sp : Z) (info : slam_info) (t file : list Z) (bs im bm : Z).
Context (Hh : length hd = 12%nat) (Ht : txid_ok t) (G : geometry file bs im bm).
Let hdr := slam_header t file bs.
Let hl := Z.of_nat (length hdr).
Let tp := blocks_of file bs.

Lemma slam_body_length i : 0 <= i < tp ->
  5 <= Z.of_nat (length (hdr ++ slam_bytes i ++ file_block file bs i)) <= 1420 /\
  Forall (fun b => 0 <= b < 256) (hdr ++ slam_bytes i ++ file_block file bs i).
Proof.
  intros Hi. pose proof (slam_header_bounds t file bs Ht (g_bs _ _ _ _ G) (g_size _ _ _ _ G)) as Hl.
  fold hdr in Hl. pose proof (slam_width_pos i) as Hw. pose proof (file_block_le file bs im bm G i) as Hb.
  pose proof (file_block_length file bs im bm G i Hi) as Lb. pose proof (g_bs _ _ _ _ G) as Gb.
  pose proof (g_odd _ _ _ _ G). pose proof (Z.mod_pos_bound (Z.of_nat (length file)) bs ltac:(lia)).
  pose proof (g_size _ _ _ _ G) as Gs. pose proof (blocks_bounds file bs im bm G) as (_ & B & _). fold tp in B.
  split.
  - rewrite !length_app, length_slam_bytes. destruct (i =? blocks_of file bs - 1); lia.
  - subst hdr. unfold slam_header. rewrite !Forall_app. repeat split; try apply slam_bytes_range; try lia;
      [apply Ht | apply (file_block_range file bs im bm G)].
Qed.

(** A packet of the transfer, whatever is done about its header. *)
Lemma slam_data_round n retry sn st w i m1 st1 :
  let fr := slam_frame hd srv sp info t file bs i in
  let m := stn (mm w) nic_packet fr in
  quiet w -> group_ok info w -> 0 <= i < tp -> rx (cnt_rx w) = Some fr ->
  (forall w1, mm w1 = m -> packetlen w1 = Z.of_nat (length fr) ->
     check_header vo w1 st = Some (ip_ptr + 28 + hl, m1, st1)) ->
  (forall x, x < slam_hdr -> ld8 m1 x = ld8 m x) ->
  slam_inv file bs im bm hl m1 st1 -> ldn m1 slam_hdr (length hdr) = hdr ->
  exists w' st',
    slam_loop vo (S (S n)) info retry sn st w
    = (if received_packets st' =? tp then Some (Ret (true, sn, st'), w')
       else slam_loop vo (S n) info 0 sn st' w') /\
    slam_inv file bs im bm hl (mm w') st' /\ ldn (mm w') slam_hdr (length hdr) = hdr /\
    same_tabs w w' /\ cnt_rx w' = S (cnt_rx w) /\ sent w' = sent w /\
    (forall j, 0 <= j < tp -> hasbit (mm w') bm j = (j =? i) || hasbit m1 bm j).
Proof.
  intros fr m Q (Gi1 & Gi2 & Gi3) Hi Hrx Hck Hlow I1 Hs.
  destruct (slam_body_length i Hi) as [Lb Rb].
  set (body := hdr ++ slam_bytes i ++ file_block file bs i) in *.
  destruct (udp_frame_received (mm w) hd body srv (multicast_ip info) sp (multicast_port info) Hh
              ltac:(lia) Rb Gi1) as (R1 & R2 & _ & R4 & R5 & R6).
  assert (Lf : length fr = (42 + length body)%nat)
    by (apply udp_frame_length, Hh).
  change (udp_frame _ _ _ _ _ _) with fr in *. fold m in R1, R2, R4, R5, R6.
  destruct (slam_sleep_total retry w) as (tm & sd & c & Es).
  set (w0 := set_seed sd (set_cnt_clock c w)) in Es.
  destruct (await_reply_frame n (await_slam info) tm w0 fr _ SLAM_DATA (fun w => w) Q Hrx R1) as (c' & Ea); [reflexivity| |].
  { intros w1 Hm Hp Ha. unfold await_slam. cbn [has_udp negb]. run. rewrite Hm, Hp.
    change (stn (mm w0) nic_packet fr) with m. rewrite R2, R4, u16_small by exact Gi3.
    replace (client_ip w1) with (client_ip w) by (unfold client_ip, arp; now rewrite Ha).
    destruct (Z.eqb_spec (multicast_ip info) (client_ip w)); [contradiction|]. cbn [andb].
    rewrite !Z.eqb_refl. destruct (Z.geb_spec (Z.of_nat (length fr)) (ETH_HLEN + 20 + 8 + 4)); [reflexivity|].
    unfold ETH_HLEN in *. lia. }
  change (stn (mm w0) nic_packet fr) with m in Ea.
  set (w1 := set_packetlen _ _) in Ea.
  cbn [slam_loop]. unfold bind at 1. rewrite Es. unfold bind at 1. rewrite Ea.
  cbn [SLAM_DATA SLAM_TIMEOUT SLAM_REQUEST Z.eqb Pos.eqb andb orb]. run.
  rewrite (Hck w1 eq_refl eq_refl). change (mm (set_mm m1 w1)) with m1.
  destruct (Z.eqb_spec (ip_ptr + 28 + hl) 0); [unfold ip_ptr, nic_packet, ETH_HLEN in *; lia|].
  destruct (slam_recv_block file bs im bm hl G m1 st1 (packetlen w1) hdr i I1 Hi eq_refl)
    as (m2 & st2 & Er & I2 & B2 & L2).
  { pose proof (slam_header_bounds t file bs Ht (g_bs _ _ _ _ G) (g_size _ _ _ _ G)). subst hl hdr. lia. }
  { fold body. rewrite <- R6 at 2. apply ldn_ext. intros x Hx. apply Hlow.
    unfold slam_hdr, ip_ptr, nic_packet, ETH_HLEN in *. lia. }
  { fold body. rewrite <- R5. f_equal. unfold ld16. rewrite !Hlow by reflexivity. reflexivity. }
  { fold body. subst w1. cbn [packetlen set_packetlen]. lia. }
  rewrite Er. cbn [Z.eqb]. exists (set_mm m2 (set_mm m1 w1)), st2.
  pose proof I2 as [_ _ _ I24 _ _ _ _]. rewrite I24. fold tp. cbn [mm set_mm].
  split; [destruct (received_packets st2 =? tp); reflexivity|]. split; [exact I2|].
  split; [|split; [|split; [reflexivity|split; [reflexivity|exact B2]]]].
  - rewrite <- Hs at 2. apply ldn_ext. intros x Hx. apply L2.
    pose proof (slam_header_bounds t file bs Ht (g_bs _ _ _ _ G) (g_size _ _ _ _ G)) as B. fold hdr in B.
    unfold slam_hdr in *. lia.
  - repeat (split; [reflexivity|]). intros x Hx. unfold lacp_pkt in Hx. cbn [mm set_mm].
    rewrite L2, Hlow by (unfold slam_hdr; lia). subst m. apply ld8_stn_out.
    rewrite Lf. unfold nic_packet. lia.
Qed.

(** A later packet: the header is the one that is known. *)
Lemma slam_next_round n retry sn st w i :
  let fr := slam_frame hd srv sp info t file bs i in
  quiet w -> group_ok info w -> 0 <= i < tp -> rx (cnt_rx w) = Some fr ->
  slam_inv file bs im bm hl (mm w) st -> ldn (mm w) slam_hdr (length hdr) = hdr ->
  exists w' st',
    slam_loop vo (S (S n)) info retry sn st w
    = (if received_packets st' =? tp then Some (Ret (true, sn, st'), w')
       else slam_loop vo (S n) info 0 sn st' w') /\
    slam_inv file bs im bm hl (mm w') st' /\ ldn (mm w') slam_hdr (length hdr) = hdr /\
    same_tabs w w' /\ cnt_rx w' = S (cnt_rx w) /\ sent w' = sent w /\
    (forall j, 0 <= j < tp -> hasbit (mm w') bm j = (j =? i) || hasbit (mm w) bm j).
Proof.
  intros fr Q Gi Hi Hrx I Hs. set (m := stn (mm w) nic_packet fr).
  destruct (slam_body_length i Hi) as [Lb Rb].
  assert (Lf : length fr = (42 + length (hdr ++ slam_bytes i ++ file_block file bs i))%nat)
    by (apply udp_frame_length, Hh).
  assert (Out : forall x, 0x30000 <= x -> ld8 m x = ld8 (mm w) x)
    by (intros x Hx; apply ld8_stn_out; rewrite Lf; unfold nic_packet; lia).
  assert (Im : slam_inv file bs im bm hl m st)
    by (apply (slam_inv_ext file bs im bm hl G (mm w)); [intros x Hx; apply Out; lia | exact I]).
  assert (Hs' : ldn m slam_hdr (length hdr) = hdr)
    by (rewrite <- Hs at 2; apply ldn_ext; intros x Hx; apply Out; unfold slam_hdr in *; lia).
  destruct (slam_data_round n retry sn st w i m st Q Gi Hi Hrx) as (w' & st' & E1 & I' & S' & T' & C' & N' & B').
  { intros w1 Hm Hp. change (mm w1 = m) in Hm. unfold check_header. rewrite Hm, (i_hl _ _ _ _ _ _ _ I). subst hl. rewrite Nat2Z.id.
    change (nic_packet + ETH_HLEN + 20 + 8) with (ip_ptr + 28).
    assert (memcmp m slam_hdr (ip_ptr + 28) (length hdr) = 0) as ->; [|reflexivity].
    apply memcmp_zero. rewrite Hs'.
    destruct (udp_frame_received (mm w) hd (hdr ++ slam_bytes i ++ file_block file bs i) srv (multicast_ip info) sp
                (multicast_port info) Hh ltac:(lia) Rb (proj1 Gi)) as (_ & _ & _ & _ & _ & R6).
    change (udp_frame _ _ _ _ _ _) with fr in R6. fold m in R6. apply ldn_split in R6 as [R6 _]. now symmetry. }
  { reflexivity. } { exact Im. } { exact Hs'. }
  exists w', st'. repeat (split; [assumption|]). intros j Hj. rewrite B' by exact Hj. f_equal.
  apply hasbit_ext, Out. pose proof (g_bm _ _ _ _ G). zmod.
Qed.

Lemma slam_all_bits m st :
  slam_inv file bs im bm hl m st -> (forall i, 0 <= i < tp -> hasbit m bm i = true) ->
  received_packets st = tp.
Proof.
  intros [_ _ _ _ _ _ I7 _] Ha. rewrite I7. fold tp.
  rewrite forallb_filter_id, length_seq.
  - pose proof (blocks_bounds file bs im bm G). subst tp. lia.
  - apply forallb_forall. intros i Hi. apply in_seq in Hi. apply Ha. lia.
Qed.
Lemma group_ok_same w w' : same_tabs w w' -> group_ok info w -> group_ok info w'.
Proof. intros (A & _). unfold group_ok, client_ip, arp. now rewrite A. Qed.

(** The rest of a transfer: what is missing comes, in any order. *)
Lemma slam_rest n ps : forall retry sn st w,
  quiet w -> group_ok info w -> Forall (fun i => 0 <= i < tp) ps ->
  (forall j i, nth_error ps j = Some i -> rx (cnt_rx w + j) = Some (slam_frame hd srv sp info t file bs i)) ->
  slam_inv file bs im bm hl (mm w) st -> ldn (mm w) slam_hdr (length hdr) = hdr ->
  received_packets st <> tp -> (forall i, 0 <= i < tp -> hasbit (mm w) bm i = true \/ In i ps) ->
  exists w' st', slam_loop vo (length ps + S n) info retry sn st w = Some (Ret (true, sn, st'), w') /\
    slam_inv file bs im bm hl (mm w') st' /\ received_packets st' = tp /\ sent w' = sent w.
Proof.
  induction ps as [|i ps IH]; intros retry sn st w Q Gi Hp Hrx I Hs Hn Ha.
  - exfalso. apply Hn, (slam_all_bits (mm w)); [exact I|]. intros i Hi. now destruct (Ha i Hi).
  - inversion_clear Hp as [|? ? Hi Hps].
    assert (R0 := Hrx 0%nat i eq_refl). rewrite Nat.add_0_r in R0.
    destruct (slam_next_round (length ps + n) retry sn st w i Q Gi Hi R0 I Hs)
      as (w1 & st1 & E1 & I1 & S1 & T1 & C1 & N1 & B1).
    cbn [length Nat.add]. rewrite Nat.add_succ_r in *. rewrite E1.
    destruct (Z.eqb_spec (received_packets st1) tp) as [D|D].
    + exists w1, st1. split; [reflexivity|]. split; [exact I1|]. split; [exact D | exact N1].
    + rewrite <- N1. apply IH; try assumption.
      * now apply (same_tabs_quiet w).
      * now apply (group_ok_same w).
      * intros j k Hj. rewrite C1. rewrite <- (Hrx (S j) k Hj). f_equal. lia.
      * intros k Hk. rewrite B1 by exact Hk. destruct (Ha k Hk) as [->|[->|Hin]]; [left|left|now right].
        -- apply orb_true_r.
        -- now rewrite Z.eqb_refl.
Qed.
End rounds.

(** The first packet: the header is unknown, and the transfer is set up. *)
Lemma slam_first_round `{Env} vo hd srv sp info t file bs n st w i :
  let hdr := slam_header t file bs in
  let hl := Z.of_nat (length hdr) in
  quiet w -> group_ok info w -> length hd = 12%nat -> txid_ok t -> 1 <= bs <= 1400 ->
  Forall (fun b => 0 <= b < 256) file -> Z.of_nat (length file) < 536870912 ->
  Z.of_nat (length file) mod bs <> 0 ->
  bitmap st = 0 -> hdr_len st = 21 ->
  room vo (slam_heap st) ((blocks_of file bs + 8) / 8) (Z.of_nat (length file)) ->
  ldn (mm w) slam_hdr 21 = repeat 0 21 -> 0 <= i < blocks_of file bs ->
  rx (cnt_rx w) = Some (slam_frame hd srv sp info t file bs i) ->
  exists im bm w' st', geometry file bs im bm /\
    slam_loop vo (S (S n)) info (-1) false st w
    = (if received_packets st' =? blocks_of file bs then Some (Ret (true, false, st'), w')
       else slam_loop vo (S n) info 0 false st' w') /\
    slam_inv file bs im bm hl (mm w') st' /\ ldn (mm w') slam_hdr (length hdr) = hdr /\
    same_tabs w w' /\ cnt_rx w' = S (cnt_rx w) /\ sent w' = sent w /\
    (forall j, 0 <= j < blocks_of file bs -> hasbit (mm w') bm j = (j =? i)).
Proof.
  intros hdr hl Q Gi Hh Ht Hb Hf Hs Ho Hbm Hhl Hr H0 Hi R0.
  set (fr := slam_frame hd srv sp info t file bs i) in *. set (m := stn (mm w) nic_packet fr).
  set (body := hdr ++ slam_bytes i ++ file_block file bs i).
  pose proof (slam_header_bounds t file bs Ht Hb Hs) as Bh. fold hdr hl in Bh.
  assert (G0 : geometry file bs 0x40000 (0x40000 + Z.of_nat (length file)))
    by (split; try assumption; lia).
  destruct (slam_body_length hd t file bs _ _ Hh Ht G0 i Hi) as [Lb Rb]. fold hdr body in Lb, Rb.
  destruct (udp_frame_received (mm w) hd body srv (multicast_ip info) sp (multicast_port info) Hh
              ltac:(lia) Rb (proj1 Gi)) as (_ & _ & _ & _ & _ & R6).
  assert (Lf : length fr = (42 + length body)%nat) by (apply udp_frame_length, Hh).
  change (udp_frame _ _ _ _ _ _) with fr in R6. fold m in R6. unfold body in R6 at 1 2.
  pose proof R6 as R6'. apply ldn_split in R6' as [R7 _].
  destruct (slam_reinit vo m st t file bs (nic_packet + Z.of_nat (length fr)) Ht Hb Hf Hs Ho Hbm Hr R7)
    as (m1 & st1 & im & bm & E1 & G & I1 & S1 & B1 & O1).
  { fold hdr hl. rewrite Lf. unfold ip_ptr, ETH_HLEN. subst body hl. rewrite !length_app, length_slam_bytes.
    pose proof (slam_width_pos i). lia. }
  destruct (slam_data_round vo hd srv sp info t file bs im bm Hh Ht G n (-1) false st w i m1 st1)
    as (w' & st' & E2 & I2 & S2 & T2 & C2 & N2 & B2); try assumption.
  { intros w1 Hm Hp. change (mm w1 = m) in Hm. unfold check_header. rewrite Hm, Hp, Hhl.
    change (nic_packet + ETH_HLEN + 20 + 8) with (ip_ptr + 28). fold fr.
    destruct (Z.eqb_spec (memcmp m slam_hdr (ip_ptr + 28) (Z.to_nat 21)) 0) as [Z0|_]; [exfalso|exact E1].
    apply memcmp_zero in Z0. apply (f_equal (@List.hd Z 0)) in Z0. cbn [Z.to_nat Pos.to_nat ldn List.hd] in Z0.
    change (ld8 m slam_hdr = ld8 m (ip_ptr + 28)) in Z0.
    replace (ld8 m slam_hdr) with 0 in Z0.
    - apply ldn_split in R7 as [R7 _]. destruct Ht as (L & Hd & _).
      rewrite <- R7, length_ldn, nth_ldn, Z.add_0_r, <- Z0 in Hd by lia. change (0 / 32) with 0 in Hd. lia.
    - subst m. rewrite ld8_stn_out by (rewrite Lf; unfold slam_hdr, nic_packet; lia).
      symmetry. exact (f_equal (@List.hd Z 0) H0). }
  exists im, bm, w', st'. split; [exact G|]. repeat (split; [assumption|]).
  intros j Hj. rewrite B2, B1 by exact Hj. apply orb_false_r.
Qed.

(** ** Negative acknowledgements *)

(** The lengths of the runs of equal bits, with the current run, and what a list of lengths says. *)
Fixpoint runs_from (last : bool) (len : Z) (bits : list bool) : list Z :=
  match bits with
  | [] => [len]
  | b :: bits' => if Bool.eqb b last then runs_from last (len + 1) bits' else len :: runs_from b 1 bits'
  end.
Fixpoint expand (v : bool) (rs : list Z) : list bool :=
  match rs with
  | [] => []
  | r :: rs' => repeat v (Z.to_nat r) ++ expand (negb v) rs'
  end.
Lemma expand_runs bits : forall last len, 0 <= len ->
  expand last (runs_from last len bits) = repeat last (Z.to_nat len) ++ bits.
Proof.
  induction bits as [|b bits IH]; intros last len Hl; cbn [runs_from]; [reflexivity|].
  destruct (Bool.eqb_spec b last) as [->|N].
  - rewrite IH by lia. replace (Z.to_nat (len + 1)) with (Z.to_nat len + 1)%nat by lia.
    rewrite repeat_app, <- app_assoc. reflexivity.
  - cbn [expand]. replace (negb last) with b by (destruct b, last; (reflexivity || congruence)). rewrite IH by lia. reflexivity.
Qed.
Lemma runs_range bits : forall last len, 0 <= len ->
  Forall (fun r => 0 <= r <= len + Z.of_nat (length bits)) (runs_from last len bits).
Proof.
  induction bits as [|b bits IH]; intros last len Hl; cbn [runs_from length].
  - constructor; [lia|constructor].
  - destruct (Bool.eqb b last); [|constructor; [lia|]]; (eapply Forall_impl; [|apply IH; lia]); cbv beta; lia.
Qed.

(** The walk writes the runs one after the other. *)
Fixpoint put_runs (m : mem) (ptr end_ : Z) (rs : list Z) : mem * Z :=
  match rs with
  | [] => (m, ptr)
  | r :: rs' =>
      match slam_encode m ptr end_ r with
      | None => (m, ptr)
      | Some (m, ptr) => put_runs m ptr end_ rs'
      end
  end.
Lemma nack_walk_runs bm end_ bits : forall m ptr i len last,
  0x40000 <= bm -> end_ < 0x40000 -> 0 <= i -> 0 <= len -> len + Z.of_nat (length bits) < 4294967296 ->
  (forall j, (j < length bits)%nat -> hasbit m bm (i + Z.of_nat j) = nth j bits false) ->
  hasbit m bm (i + Z.of_nat (length bits)) = negb (List.last bits last) ->
  nack_walk m bm ptr end_ i len (b2z last) (S (length bits)) = put_runs m ptr end_ (runs_from last len bits).
Proof.
  induction bits as [|b bits IH]; intros m ptr i len last Hbm Hend Hi Hl Hb Hj Ht.
  - cbn [length List.last runs_from put_runs nack_walk] in *. change (Z.of_nat 0) with 0 in Ht.
    rewrite Z.add_0_r in Ht. rewrite bit_at_hasbit, Ht.
    destruct (Z.eqb_spec (b2z (negb last)) (b2z last)); [destruct last; discriminate|].
    now destruct (slam_encode m ptr end_ len) as [[? ?]|].
  - cbn [nack_walk]. assert (H0 := Hj 0%nat ltac:(cbn; lia)). cbn [nth] in H0. change (Z.of_nat 0) with 0 in H0.
    rewrite Z.add_0_r in H0. rewrite bit_at_hasbit, H0. cbn [runs_from length] in *.
    assert (Hl' : List.last (b :: bits) last = List.last bits b)
      by (clear; revert b last; induction bits as [|c bits IH]; intros b last; [reflexivity|];
          change (List.last (b :: c :: bits) last) with (List.last (c :: bits) last); now rewrite !IH).
    assert (Hn : forall j, (j < length bits)%nat -> hasbit m bm (i + 1 + Z.of_nat j) = nth j bits false).
    { intros j Hlt. etransitivity; [|exact (Hj (S j) ltac:(lia))]. f_equal. lia. }
    assert (Ht' : hasbit m bm (i + 1 + Z.of_nat (length bits)) = negb (List.last bits b))
      by (rewrite <- Hl'; etransitivity; [|exact Ht]; f_equal; lia).
    destruct (Bool.eqb_spec b last) as [->|N].
    + rewrite Z.eqb_refl. change (nack_walk m bm ptr end_ (i + 1) (len + 1) (b2z last) (S (length bits))
        = put_runs m ptr end_ (runs_from last (len + 1) bits)). apply IH; (assumption || lia).
    + destruct (Z.eqb_spec (b2z b) (b2z last)); [destruct b, last; cbn in *; congruence|]. cbn [put_runs].
      rewrite slam_encode_spec by lia. destruct (Z.geb_spec (ptr + Z.of_nat (plain_width len)) end_); [reflexivity|].
      assert (Hk : forall x, 0 <= x -> hasbit (stn m ptr (slam_bytes len)) bm x = hasbit m bm x).
      { intros x Hx. apply hasbit_ext, ld8_stn_out. rewrite length_slam_bytes.
        pose proof (slam_plain len). assert (0 <= x / 8) by (apply Z.div_pos; lia). lia. }
      change (nack_walk (stn m ptr (slam_bytes len)) bm (ptr + Z.of_nat (slam_width len)) end_ (i + 1) 1 (b2z b)
        (S (length bits)) = put_runs (stn m ptr (slam_bytes len)) (ptr + Z.of_nat (slam_width len)) end_
        (runs_from b 1 bits)).
      apply IH; try (assumption || lia); [intros j Hlt|]; rewrite Hk by lia; [now apply Hn | exact Ht'].
Qed.
(** With room for all of them. *)
Lemma put_runs_all end_ rs : forall m ptr,
  Forall (fun r => 0 <= r < 4294967296) rs -> ptr + Z.of_nat (length (flat_map slam_bytes rs)) < end_ ->
  put_runs m ptr end_ rs
  = (stn m ptr (flat_map slam_bytes rs), ptr + Z.of_nat (length (flat_map slam_bytes rs))).
Proof.
  induction rs as [|r rs IH]; intros m ptr Hr He; cbn [put_runs flat_map]; [cbn; f_equal; lia|].
  inversion_clear Hr as [|? ? H1 H2]. cbn [flat_map] in He. rewrite length_app, length_slam_bytes in *.
  rewrite slam_encode_spec by exact H1. pose proof (slam_plain r).
  destruct (Z.geb_spec (ptr + Z.of_nat (plain_width r)) end_); [lia|].
  rewrite IH by (assumption || lia). rewrite stn_app, length_slam_bytes. f_equal. lia.
Qed.

(** ** Properties *)

(** A number below 2^29 that [slam_encode] writes is read back by [slam_decode], which stops where
    the encoding ended, and nothing else is written; it takes one to four bytes, by its size.  A
    larger number takes five bytes, which [slam_decode] refuses. *)
Theorem slam_roundtrip m ptr end_ v :
  0 <= v < 4294967296 -> ptr + Z.of_nat (slam_width v) < end_ ->
  exists m' p, slam_encode m ptr end_ v = Some (m', p) /\ p = ptr + Z.of_nat (slam_width v) /\
    slam_decode m' ptr end_ 0 = (if v <? 536870912 then (v, p, 0) else (0, ptr, -1)) /\
    (forall x, x < ptr \/ p <= x -> ld8 m' x = ld8 m x).
Proof.
  intros Hv He. rewrite slam_encode_spec by exact Hv.
  pose proof (slam_plain v).
  destruct (Z.geb_spec (ptr + Z.of_nat (plain_width v)) end_); [lia|].
  do 2 eexists. split; [reflexivity|]. split; [reflexivity|]. split.
  - apply slam_decode_bytes; [exact Hv| |exact He]. rewrite <- length_slam_bytes, ldn_stn.
    apply map_u8_bytes, slam_bytes_range, Hv.
  - intros x Hx. apply ld8_stn_out. now rewrite length_slam_bytes.
Qed.
Lemma slam_roundtrip_witness :
  exists m' p, slam_encode (fun _ => 0) 100 200 70000 = Some (m', p) /\ slam_decode m' 100 200 0 = (70000, p, 0).
Proof.
  destruct (slam_roundtrip (fun _ => 0) 100 200 70000 ltac:(lia) ltac:(vm_compute; reflexivity))
    as (m' & p & E & _ & D & _). exists m', p. split; [exact E | exact D].
Defined.

(** C11: SLAM receives a file whose packets come in any order and any number of times.  A client in
    its initial state that hears packets of one transfer, among them every block of the file at
    least once, takes the sizes from the first header, allots the bitmap and the image, puts each
    block in its place, and stops when the last missing one has come, with the file in the image;
    no negative acknowledgement is sent.  The size of the file is not a multiple of the block
    size (see [slam_last_block_dropped]). *)
Theorem slam_receives `{Env} vo n info hd srv sp t file bs ps st w :
  quiet w -> group_ok info w -> length hd = 12%nat -> txid_ok t -> 1 <= bs <= 1400 ->
  Forall (fun b => 0 <= b < 256) file -> Z.of_nat (length file) < 536870912 ->
  Z.of_nat (length file) mod bs <> 0 ->
  room vo (slam_heap st) ((blocks_of file bs + 8) / 8) (Z.of_nat (length file)) ->
  ldn (mm w) slam_hdr 21 = repeat 0 21 ->
  Forall (fun i => 0 <= i < blocks_of file bs) ps -> (forall i, 0 <= i < blocks_of file bs -> In i ps) ->
  (forall j i, nth_error ps j = Some i -> rx (cnt_rx w + j) = Some (slam_frame hd srv sp info t file bs i)) ->
  exists w' st',
    slam_loop vo (length ps + S n) info (-1) false (init_slam_state st) w = Some (Ret (true, false, st'), w') /\
    total_bytes st' = Z.of_nat (length file) /\ ldn (mm w') (image st') (length file) = file /\
    sent w' = sent w.
Proof.
  intros Q Gi Hh Ht Hb Hf Hs Ho Hr H0 Hp Ha Hrx.
  assert (Hpos : 0 < blocks_of file bs).
  { unfold blocks_of. apply Z.div_str_pos. destruct file; [now rewrite Z.mod_0_l in Ho by lia|]. cbn [length]. lia. }
  destruct ps as [|i ps]; [destruct (Ha 0 ltac:(lia))|].
  inversion_clear Hp as [|? ? Hi Hps]. assert (R0 := Hrx 0%nat i eq_refl). rewrite Nat.add_0_r in R0.
  destruct (slam_first_round vo hd srv sp info t file bs (length ps + n) (init_slam_state st) w i)
    as (im & bm & w1 & st1 & G & E1 & I1 & S1 & T1 & C1 & N1 & B1); try assumption; try reflexivity.
  cbn [length Nat.add]. rewrite Nat.add_succ_r. rewrite E1.
  destruct (Z.eqb_spec (received_packets st1) (blocks_of file bs)) as [D|D].
  - exists w1, st1. split; [reflexivity|]. split; [apply I1|]. split; [|exact N1].
    rewrite (i_im _ _ _ _ _ _ _ I1). eapply (slam_complete file bs im bm _ G (mm w1) st1); eassumption.
  - rewrite <- Nat.add_succ_r.
    destruct (slam_rest vo hd srv sp info t file bs im bm Hh Ht G n ps 0 false st1 w1) as (w2 & st2 & E2 & I2 & D2 & N2);
      try assumption.
    + now apply (same_tabs_quiet w).
    + now apply (group_ok_same info w).
    + intros j k Hj. rewrite C1. rewrite <- (Hrx (S j) k Hj). f_equal. lia.
    + intros k Hk. rewrite B1 by exact Hk. destruct (Ha k Hk) as [->|Hin]; [left|now right]. apply Z.eqb_refl.
    + exists w2, st2. split; [exact E2|]. split; [apply I2|]. split; [|congruence].
      rewrite (i_im _ _ _ _ _ _ _ I2). eapply (slam_complete file bs im bm _ G (mm w2) st2); eassumption.
Qed.

(** A file of five bytes in blocks of two; the blocks come as 2, 0, 0, 1. *)
Definition file5 : list Z := [11; 22; 33; 44; 55].
Definition info5 : slam_info :=
  {| server_ip := 0x0200000a; multicast_ip := htonl SLAM_MULTICAST_IP; server_port := SLAM_PORT;
     multicast_port := SLAM_PORT; local_port := SLAM_PORT |}.
Definition hd5 : list Z := [1; 0; 94; 7; 1; 1; 2; 0; 0; 0; 0; 2].
Definition frame5 (i : Z) : list Z := slam_frame hd5 0x0200000a SLAM_PORT info5 [33] file5 2 i.
Definition slam_env : Env.
Proof.
  refine {| clock n := Z.of_nat n; rx n := option_map frame5 (nth_error [2; 0; 0; 1] n); kbd _ := None |}.
  intros [|[|[|[|n]]]] bs; [.. | now destruct n]; intros [= <-];
    unfold frame5, slam_frame; rewrite udp_frame_length by reflexivity;
    apply Nat.leb_le; vm_compute; reflexivity.
Defined.
Definition slam_world : world := lacp_init_state [2; 0; 0; 0; 0; 1] world0.
Definition slam_state0 : slam_state :=
  {| hdr_len := 0; block_size := 0; total_bytes := 0; total_packets := 0; received_packets := 0; image := 0;
     bitmap := 0; slam_heap := {| heap_ptr := 0x300000; heap_top := 0x200000; heap_bot := 0x300000 |} |}.

Lemma slam_receives_witness :
  exists w' st', @slam_loop slam_env 0 5 info5 (-1) false (init_slam_state slam_state0) slam_world
    = Some (Ret (true, false, st'), w') /\ total_bytes st' = 5 /\ ldn (mm w') (image st') 5 = file5.
Proof.
  destruct (@slam_receives slam_env 0 0 info5 hd5 0x0200000a SLAM_PORT [33] file5 2 [2; 0; 0; 1] slam_state0
              slam_world) as (w' & st' & E & T & L & _).
  - split; [vm_compute; reflexivity|]. split; [reflexivity|]. split; [reflexivity|]. repeat constructor.
  - vm_compute. repeat split; discriminate.
  - reflexivity.
  - split; [cbn; lia|]. split; [reflexivity|]. repeat constructor; lia.
  - lia.
  - unfold file5. repeat (constructor; [lia|]). constructor.
  - cbn. lia.
  - vm_compute. discriminate.
  - unfold room, heap_ok. vm_compute. intuition discriminate.
  - vm_compute. reflexivity.
  - change (blocks_of file5 2) with 3. repeat (constructor; [lia|]). constructor.
  - change (blocks_of file5 2) with 3. intros i Hi. cbn [In]. lia.
  - intros [|[|[|[|j]]]] i; cbn [nth_error]; [intros [= <-]; reflexivity .. | now destruct j].
  - exists w', st'. split; [exact E|]. split; [exact T | exact L].
Defined.

(** C31: the negative acknowledgement describes the bitmap.  When there is room for it, the packet
    holds the lengths of the runs of received and missing blocks in turn, beginning with received
    ones (perhaps none), each in the encoding of [slam_roundtrip], and they say exactly which
    blocks are there; the bit that is written behind the last block to end the walk does not
    disturb the others. *)
Theorem slam_nack_describes m st :
  let bm := bitmap st in
  let bits := map (fun i => hasbit m bm (Z.of_nat i)) (seq 0 (Z.to_nat (total_packets st))) in
  let text := flat_map slam_bytes (runs_from true 0 bits) in
  0x40000 <= bm -> 1 <= total_packets st < 536870912 -> Z.of_nat (length text) < sizeof_nack_data - 1 ->
  exists m', build_nack m st = (m', nack_data + Z.of_nat (length text)) /\
    ldn m' nack_data (length text) = text /\ expand true (runs_from true 0 bits) = bits /\
    (forall i, 0 <= i < total_packets st -> hasbit m' bm i = hasbit m bm i).
Proof.
  intros bm bits text Hbm Ht Hl. set (tp := total_packets st) in *.
  assert (Lb : length bits = Z.to_nat tp) by (subst bits; now rewrite length_map, length_seq).
  assert (Rr : Forall (fun r => 0 <= r < 4294967296) (runs_from true 0 bits))
    by (eapply Forall_impl; [|apply runs_range; lia]; cbv beta; lia).
  unfold build_nack. fold bm tp. destruct (Z.eqb_spec bm 0); [lia|]. rewrite u32_small by lia.
  rewrite bit_at_zero. set (v := negb (hasbit m bm (tp - 1))).
  change (if v then 1 else 0) with (b2z v). set (m1 := or_bit _ _ _ _).
  assert (B1 : forall i, hasbit m1 bm i = if i =? tp then v else hasbit m bm i).
  { intros i. subst m1. rewrite hasbit_or, hasbit_clear. destruct (Z.eqb_spec i tp); cbn [andb negb orb]; [|reflexivity].
    apply orb_false_r. }
  replace (Z.to_nat (tp + 1)) with (S (length bits)) by (rewrite Lb; lia).
  pose proof (nack_walk_runs bm (nack_data + sizeof_nack_data - 1) bits m1 nack_data 0 0 true) as W.
  change (b2z true) with 1 in W. rewrite W; try lia.
  - rewrite put_runs_all; [|exact Rr | unfold sizeof_nack_data, ETH_MAX_MTU in *; fold text; lia]. fold text.
    eexists. split; [reflexivity|]. split; [rewrite ldn_stn; apply map_u8_bytes|split].
    + subst text. apply Forall_flat_map, Forall_forall. intros r Hr. rewrite Forall_forall in Rr.
      now apply slam_bytes_range, Rr.
    + now rewrite expand_runs by lia.
    + intros i Hi. transitivity (hasbit m1 bm i);
        [|rewrite B1; destruct (Z.eqb_spec i tp); [lia|reflexivity]].
      apply hasbit_ext, ld8_stn_out. assert (0 <= i / 8) by (apply Z.div_pos; lia).
      unfold sizeof_nack_data, nack_data, nack, ETH_MAX_MTU in *. lia.
  - unfold nack_data, nack, sizeof_nack_data, ETH_MAX_MTU. lia.
  - intros j Hj. rewrite B1. destruct (Z.eqb_spec (0 + Z.of_nat j) tp); [lia|]. subst bits.
    rewrite (nth_indep _ false (hasbit m bm (Z.of_nat 0))) by exact Hj.
    rewrite (map_nth (fun i => hasbit m bm (Z.of_nat i))), seq_nth by lia. reflexivity.
  - rewrite Lb, Z2Nat.id, Z.add_0_l, B1, Z.eqb_refl by lia. subst v. f_equal.
    subst bits. replace (Z.to_nat tp) with (Z.to_nat (tp - 1) + 1)%nat by lia.
    rewrite seq_app, map_app. cbn [seq map Nat.add]. rewrite last_last. f_equal. lia.
Qed.

(** Six blocks, of which 0, 1 and 4 are there. *)
Definition nack_state : slam_state :=
  {| hdr_len := 3; block_size := 10; total_bytes := 55; total_packets := 6; received_packets := 3;
     image := 0x200000; bitmap := 0x100000;
     slam_heap := {| heap_ptr := 0x100000; heap_top := 0x100000; heap_bot := 0x300000 |} |}.
Lemma slam_nack_describes_witness :
  exists m', build_nack (st8 (fun _ => 0) 0x100000 0x13) nack_state = (m', nack_data + 4) /\
    ldn m' nack_data 4 = [34; 34; 33; 33] /\ expand true [2; 2; 1; 1] = [true; true; false; false; true; false].
Proof.
  destruct (slam_nack_describes (st8 (fun _ => 0) 0x100000 0x13) nack_state) as (m' & E & T & X & _).
  - cbn. lia.
  - cbn. lia.
  - vm_compute. reflexivity.
  - exists m'. split; [exact E|]. split; [exact T | reflexivity].
Defined.

(** When the size of the file is a multiple of the block size, the last block is never accepted:
    its expected length is computed as zero, and the packet that carries the full block is dropped,
    with nothing changed.  The transfer cannot end. *)
Theorem slam_last_block_dropped m st plen hdr b :
  let i := total_packets st - 1 in
  let body := hdr ++ slam_bytes i ++ b in
  1 <= block_size st <= 1400 -> 1 <= total_packets st < 536870912 ->
  total_bytes st = total_packets st * block_size st -> Z.of_nat (length b) = block_size st ->
  ldn m (ip_ptr + 28) (length body) = body -> ntohs (ld16 m (ip_ptr + 24)) = 8 + Z.of_nat (length body) ->
  plen = 42 + Z.of_nat (length body) -> (length hdr <= 21)%nat ->
  slam_recv_data m plen (ip_ptr + 28 + Z.of_nat (length hdr)) st = (1, m, st).
Proof.
  intros i body Hb Ht Hm Hl M U P Hh. pose proof (slam_width_pos i) as Hw.
  apply ldn_split in M as [_ M]. apply ldn_split in M as [M _]. rewrite length_slam_bytes in M.
  assert (Lb : length body = (length hdr + slam_width i + length b)%nat)
    by (subst body; rewrite !length_app, length_slam_bytes; lia).
  unfold slam_recv_data.
  rewrite (slam_decode_bytes m _ _ i)
    by (exact M || (subst i; lia) || (unfold ip_ptr, ETH_HLEN in *; lia)).
  destruct (Z.ltb_spec i 536870912); [|lia]. cbn [Z.eqb negb orb].
  destruct (Z.gtb_spec i (total_packets st)); [lia|]. rewrite (u32_small (total_packets st - 1)) by lia.
  fold i. rewrite Z.eqb_refl. cbn [negb]. rewrite Hm, Z.mod_mul by lia.
  change (nic_packet + ETH_HLEN + 20) with (ip_ptr + 20). change (ip_ptr + 20 + 4) with (ip_ptr + 24).
  rewrite U, u32_small by lia.
  match goal with |- context [if negb (?a =? ?b) then _ else _] => destruct (Z.eqb_spec a b) as [X|_] end;
    [lia|reflexivity].
Qed.
Lemma slam_last_block_dropped_witness :
  let st := {| hdr_len := 1; block_size := 2; total_bytes := 4; total_packets := 2; received_packets := 1;
               image := 0x200000; bitmap := 0x100000;
               slam_heap := {| heap_ptr := 0x100000; heap_top := 0x100000; heap_bot := 0x300000 |} |} in
  let m := stn (fun _ => 0) (ip_ptr + 24) [0; 12; 0; 0; 99; 33; 7; 8] in
  slam_recv_data m 46 (ip_ptr + 29) st = (1, m, st).
Proof.
  intros st m. apply (slam_last_block_dropped m st 46 [99] [7; 8]); try reflexivity; cbn; lia.
Defined.

(** A packet with the number [total_packets], one too many, is accepted: a full block is stored
    behind the end of the image and counted as received, so that a transfer ends with a block
    missing. *)
Theorem slam_extra_block m st plen hdr b :
  let i := total_packets st in
  let body := hdr ++ slam_bytes i ++ b in
  1 <= block_size st <= 1400 -> 1 <= total_packets st < 536870912 -> i * block_size st < 4294967296 ->
  0 <= received_packets st < i -> hasbit m (bitmap st) i = false -> Z.of_nat (length b) = block_size st ->
  0x40000 <= bitmap st -> 0x40000 <= image st ->
  ldn m (ip_ptr + 28) (length body) = body -> ntohs (ld16 m (ip_ptr + 24)) = 8 + Z.of_nat (length body) ->
  plen = 42 + Z.of_nat (length body) -> (length hdr <= 21)%nat ->
  exists m' st', slam_recv_data m plen (ip_ptr + 28 + Z.of_nat (length hdr)) st = (1, m', st') /\
    received_packets st' = received_packets st + 1 /\
    ldn m' (image st + i * block_size st) (length b) = b.
Proof.
  intros i body Hb Ht Hw Hr Hbit Hl Hbm Him M U P Hh. pose proof (slam_width_pos i) as Hp.
  apply ldn_split in M as [_ M]. apply ldn_split in M as [M Mb]. rewrite length_slam_bytes in M, Mb.
  assert (Lb : length body = (length hdr + slam_width i + length b)%nat)
    by (subst body; rewrite !length_app, length_slam_bytes; lia).
  unfold slam_recv_data.
  rewrite (slam_decode_bytes m _ _ i)
    by (exact M || (subst i; lia) || (unfold ip_ptr, ETH_HLEN in *; lia)).
  destruct (Z.ltb_spec i 536870912); [|lia]. cbn [Z.eqb negb orb]. fold i.
  destruct (Z.gtb_spec i i); [lia|]. rewrite (u32_small (i - 1)) by lia.
  destruct (Z.eqb_spec i (i - 1)); [lia|]. cbn [negb].
  change (nic_packet + ETH_HLEN + 20) with (ip_ptr + 20). change (ip_ptr + 20 + 4) with (ip_ptr + 24).
  set (d := ip_ptr + 28 + Z.of_nat (length hdr) + Z.of_nat (slam_width i)) in *.
  rewrite U, !u32_small by (try subst d; unfold ip_ptr, nic_packet, ETH_HLEN; lia).
  match goal with |- context [if negb (?a =? ?b) then _ else _] => destruct (Z.eqb_spec a b) as [_|X] end;
    [|subst d; lia]. cbn [negb].
  match goal with |- context [if ?a <? ?b then _ else _] => destruct (Z.ltb_spec a b) as [X|_] end;
    [subst d; unfold ip_ptr, ETH_HLEN in X; lia|].
  destruct (Z.gtb_spec (block_size st) (block_size st)); [lia|]. rewrite bit_at_zero, Hbit. cbn [negb].
  rewrite ?(u32_small (i * block_size st)) by nia.
  do 2 eexists. split; [reflexivity|]. cbn [received_packets]. split; [try rewrite u32_small; lia|].
  replace (Z.to_nat (block_size st)) with (length b) by lia.
  assert (d + Z.of_nat (length b) <= image st + i * block_size st)
    by (subst d; unfold ip_ptr, nic_packet, ETH_HLEN; nia).
  rewrite ldn_memcpy by (right; assumption). rewrite <- Mb at 2. apply ldn_ext. intros x Hx. apply or_bit_out.
  assert (0 <= i / 8) by (apply Z.div_pos; lia). subst d. unfold ip_ptr, nic_packet, ETH_HLEN in *. lia.
Qed.
Lemma slam_extra_block_witness :
  let st := {| hdr_len := 1; block_size := 2; total_bytes := 3; total_packets := 2; received_packets := 1;
               image := 0x200000; bitmap := 0x100000;
               slam_heap := {| heap_ptr := 0x100000; heap_top := 0x100000; heap_bot := 0x300000 |} |} in
  let m := stn (st8 (fun _ => 0) 0x100000 1) (ip_ptr + 24) [0; 12; 0; 0; 99; 34; 7; 8] in
  exists m' st', slam_recv_data m 46 (ip_ptr + 29) st = (1, m', st') /\
    received_packets st' = total_packets st /\ ldn m' 0x200004 2 = [7; 8].
Proof.
  intros st m. apply (slam_extra_block m st 46 [99] [7; 8]); try reflexivity; cbn; lia.
Defined.
