(* ===== verification/Dns.v ===== *)
(** The resolver of [src/src/core/dns_resolver.c]: queries, replies and the chase of aliases.

    Names are C strings in memory.  The query buffer of [donameresolution] and the static [ipaddr] of
    [dns_resolver] lie in memory; loops that follow what a packet says take a bound on their rounds. *)

From S2P Require Import Prelude Memory StringLib Misc Vsprintf Net Lacp Nic.
Import String.StringSyntax.

Definition MAX_DNS_RETRIES : nat := 3.
Definition MAX_CNAME_RECURSION : nat := 0x30.
Definition QUERYTYPE_A : Z := 1.
Definition QUERYTYPE_CNAME : Z := 5.
Definition QUERYCLASS_INET : Z := 1.
Definition QUERYIDENTIFIER : Z := 1.
Definition QUERYFLAGS : Z := 0x0100.
Definition QUERYFLAGS_MASK : Z := 0xf8.
Definition QUERYFLAGS_WANT : Z := 0x80.
Definition QINDEX_QUESTION : Z := 12.
Definition QINDEX_QTYPE : Z := 14.
Definition QINDEX_QCLASS : Z := 16.
Definition QINDEX_STORE_A : Z := 256.
Definition UDP_PORT_DNS : Z := 53.
Definition RET_PACK_GARBAG : Z := 0.
Definition RET_GOT_ADDR : Z := 1.
Definition RET_RUN_CNAME_Q : Z := 2.
Definition RET_RUN_NEXT_A : Z := 3.
Definition RET_CNAME_FAIL : Z := 4.
Definition RET_NOSUCHNAME : Z := 5.
Definition RET_DNSERROR : Z := 6.
Definition RET_DNS_OK : Z := 0.
Definition RET_DNS_FAIL : Z := 1.
Definition ERR_NOSUCHNAME : Z := 3.

(** [querybuf], the payload in it, and the static [ipaddr]. *)
Definition querybuf : Z := 0x3f000.
Definition query : Z := querybuf + 28.
Definition dns_ipaddr : Z := 0x3f800.
(** [p]: the payload of the packet received. *)
Definition dns_p : Z := ip_ptr + 28.

(** [while ( 0 != q[0] ) q += q[0] + 1;] *)
Fixpoint skip_labels (fuel : nat) (m : mem) (q : Z) : option Z :=
  match fuel with
  | O => None
  | S n => if ld8 m q =? 0 then Some q else skip_labels n m (q + ld8 m q + 1)
  end.
(** The same, up to a pointer. *)
Fixpoint skip_name (fuel : nat) (m : mem) (q : Z) : option Z :=
  match fuel with
  | O => None
  | S n =>
      if ld8 m q =? 0 then Some q
      else if Z.land (ld8 m q) 0xc0 =? 0xc0 then Some (q + 1)
      else skip_name n m (q + ld8 m q + 1)
  end.
(** The composition of the name an alias stands for, at offset [i] of the packet, into offset [k] of
    the query. *)
Fixpoint copy_name (fuel : nat) (m : mem) (ptr i k : Z) : option mem :=
  match fuel with
  | O => None
  | S n =>
      let c := ld8 m (dns_p + i) in
      if c =? 0 then Some (st8 m (ptr + k) 0)
      else if negb (Z.land c 0xc0 =? 0)
      then copy_name n m ptr (Z.land c 0x3f * 0x100 + ld8 m (dns_p + i + 1)) k
      else
        let m := st8 m (ptr + k) c in
        let m := memcpy m (ptr + k + 1) (dns_p + i + 1) (Z.to_nat c) in
        copy_name n m ptr (i + ld8 m (dns_p + i) + 1) (k + ld8 m (ptr + k) + 1)
  end.

(** Whether the record at [r] is the address of the name at offset [i]. *)
Definition is_address_of (m : mem) (r i : Z) : bool :=
  (ld8 m r =? 0xc0 + Z.land i 0xf00 / 256) && (ld8 m (r + 1) =? Z.land i 0xff)
  && (ld8 m (r + 2) =? 0) && (ld8 m (r + 3) =? QUERYTYPE_A)
  && (ld8 m (r + 4) =? 0) && (ld8 m (r + 5) =? QUERYCLASS_INET)
  && (ld8 m (r + 10) =? 0) && (ld8 m (r + 11) =? 4).
(** An answer record whose data length is at [q]. *)
Definition dns_cname (fuel : nat) (m : mem) (ptr q : Z) : option (Z * mem) :=
  let i := q + 2 - dns_p in
  let r := q + ld8 m q * 0x100 + ld8 m (q + 1) + 2 in
  if (ld8 m (dns_p + 7) >? 1) && is_address_of m r i
  then Some (RET_GOT_ADDR, memcpy m (ptr + QINDEX_STORE_A) (r + 12) 4)
  else let* m := copy_name fuel m ptr i QINDEX_QUESTION in Some (RET_RUN_NEXT_A, m).
(** The answer section at [q], behind the repeated name. *)
Definition dns_answer (fuel : nat) (m : mem) (ptr q querytype : Z) : option (Z * mem) :=
  let querytype := if (ld8 m (q + 1) =? QUERYTYPE_CNAME) && (querytype =? QUERYTYPE_A)
                   then QUERYTYPE_CNAME else querytype in
  if negb (ld8 m q =? 0) || negb (ld8 m (q + 1) =? querytype) || negb (ld8 m (q + 2) =? 0)
     || negb (ld8 m (q + 3) =? QUERYCLASS_INET) then Some (RET_DNSERROR, m)
  else
    let q := q + 8 in
    if querytype =? QUERYTYPE_A then
      if negb (ld8 m q =? 0) || negb (ld8 m (q + 1) =? 4) then Some (RET_DNSERROR, m)
      else Some (RET_GOT_ADDR, memcpy m (ptr + QINDEX_STORE_A) (q + 2) 4)
    else if querytype =? QUERYTYPE_CNAME then dns_cname fuel m ptr q
    else Some (RET_DNSERROR, m).
(** A reply to our query, of the type [querytype]. *)
Definition dns_reply (fuel : nat) (m : mem) (ptr querytype : Z) : option (Z * mem) :=
  let p := dns_p in
  if (ld8 m (p + 7) + Z.shiftl (ld8 m (p + 7)) 8 =? 0) || (Z.land (ld8 m (p + 3)) 0x0f =? ERR_NOSUCHNAME)
  then Some (if querytype =? QUERYTYPE_A then RET_RUN_CNAME_Q else RET_NOSUCHNAME, m)
  else if negb (Z.land (ld8 m (p + 3)) 0x0f =? 0) then Some (RET_NOSUCHNAME, m)
  else
    let i := Z.shiftl (ld8 m (p + 4)) 8 + ld8 m (p + 5) in
    if i >=? 2 then Some (RET_NOSUCHNAME, m)
    else
      let* q := (if i <=? 0 then Some (p + QINDEX_QUESTION)
                 else let* q := skip_labels fuel m (p + QINDEX_QUESTION) in Some (q + 5)) in
      let* q := skip_name fuel m q in
      dns_answer fuel m ptr (q + 1) querytype.

Definition await_dns (fuel : nat) (ival ptr : Z) : reply_t := fun info =>
  if negb (has_udp info) then ret RET_PACK_GARBAG
  else
    w <- get ;;
    let m := mm w in
    if negb (ntohs (ld16 m (ip_ptr + 20)) =? UDP_PORT_DNS) || negb (ntohs (ld16 m (ip_ptr + 22)) =? UDP_PORT_DNS)
    then ret RET_PACK_GARBAG
    else if negb (ld8 m dns_p =? 0) || negb (ld8 m (dns_p + 1) =? Z.land ival 0xff)
    then ret RET_PACK_GARBAG
    else if negb (Z.land (ld8 m (dns_p + 2)) QUERYFLAGS_MASK =? QUERYFLAGS_WANT)
    then ret RET_PACK_GARBAG
    else
      match dns_reply fuel m ptr (Z.shiftr (Z.land ival 0xff00) 8) with
      | None => oof
      | Some (r, m) => modify (set_mm m) ;;; ret r
      end.

(** [k] characters are left from [i] on. *)
Fixpoint next_dot (m : mem) (countfrom i : Z) (k : nat) : Z :=
  match k with
  | O => i
  | S k' => if ld8 m (countfrom + i) =? 46 then i else next_dot m countfrom (i + 1) k'
  end.
Definition chars_to_next_dot (m : mem) (countfrom maxnum : Z) : Z :=
  if maxnum <=? 1 then maxnum else next_dot m countfrom 1 (Z.to_nat (maxnum - 1)).

(** The loop that writes the name, from character [i] on. *)
Fixpoint put_name (m : mem) (hostname h i : Z) (k : nat) : mem :=
  match k with
  | O => m
  | S k' =>
      let m := st8 m (query + QINDEX_QUESTION + i + 1) (ld8 m (hostname + i)) in
      let m := if ld8 m (hostname + i) =? 46
               then st8 m (query + QINDEX_QUESTION + i + 1)
                        (chars_to_next_dot m (hostname + i + 1) (h - i - 1))
               else m in
      put_name m hostname h (i + 1) k'
  end.
(** The first query, up to its type; [None] for a name that is too long. *)
Definition dns_head : list Z :=
  [Z.shiftr (Z.land QUERYIDENTIFIER 0xff00) 8; Z.land QUERYIDENTIFIER 0xff;
   Z.shiftr (Z.land QUERYFLAGS 0xff00) 8; Z.land QUERYFLAGS 0xff; 0; 1; 0; 0; 0; 0; 0; 0].
Definition set_qtype (m : mem) (h t : Z) : mem :=
  st8 (st8 m (query + QINDEX_QTYPE + h) (Z.shiftr (Z.land t 0xff00) 8)) (query + QINDEX_QTYPE + h + 1) (Z.land t 0xff).
Definition build_query (m : mem) (hostname h : Z) : mem * bool :=
  let m := stn m query dns_head in
  let m := st8 m (query + QINDEX_QUESTION) (chars_to_next_dot m hostname h) in
  if h >? 236 then (m, false)
  else (set_qtype (put_name m hostname h 0 (Z.to_nat h)) h QUERYTYPE_A, true).
(** The terminator and the class. *)
Definition end_query (m : mem) (h : Z) : mem :=
  st8 (st8 (st8 m (query + QINDEX_QUESTION + h + 1) 0) (query + QINDEX_QCLASS + h) 0)
      (query + QINDEX_QCLASS + h + 1) QUERYCLASS_INET.

Section dns.
Context `{E : Env}.

(** The [for (retry = 1; ...)] loop. *)
Fixpoint dns_retry (fuel : nat) (h retry : Z) (k : nat) : M Z :=
  match k with
  | O => ret 0
  | S k' =>
      timeout <- rfc2131_sleep_interval TIMEOUT retry ;;
      w <- get ;;
      let ival := Z.shiftl (ld8 (mm w) (query + QINDEX_QTYPE + h + 1)) 8 + ld8 (mm w) (query + 1) in
      i <- await_reply fuel (await_dns fuel ival query) timeout ;;
      if istrue i then ret i else dns_retry fuel h (retry + 1) k'
  end.
(** The [for (recursion = ...)] loop. *)
Fixpoint dns_recursion (fuel : nat) (hnlength dest h : Z) (k : nat) : M Z :=
  match k with
  | O => ret RET_DNS_FAIL
  | S k' =>
      set_mem (fun m => end_query m h) ;;;
      rx_qdrain fuel ;;;
      w <- get ;;
      udp_transmit fuel (ipaddr (arp w ARP_NAMESERVER)) UDP_PORT_DNS UDP_PORT_DNS (hnlength + 18 + 28) querybuf ;;;
      i <- dns_retry fuel h 1 MAX_DNS_RETRIES ;;
      let again h :=
        store8 query 0 ;;;
        set_mem (fun m => st8 m (query + 1) (ld8 m (query + 1) + 1)) ;;;
        dns_recursion fuel hnlength dest h k' in
      w <- get ;;
      if i =? RET_GOT_ADDR then
        let a := query + QINDEX_STORE_A in
        let ip := ld8 (mm w) a + ld8 (mm w) (a + 1) * 256 + ld8 (mm w) (a + 2) * 65536
                  + ld8 (mm w) (a + 3) * 16777216 in
        match sprintf (mm w) dest (txt "%@"%string) [AInt ip] with
        | Some (m, _) => modify (set_mm m) ;;; ret RET_DNS_OK
        | None => oof
        end
      else if i =? RET_RUN_CNAME_Q then set_mem (fun m => set_qtype m h QUERYTYPE_CNAME) ;;; again h
      else if i =? RET_RUN_NEXT_A then
        match skip_labels fuel (mm w) (query + QINDEX_QUESTION) with
        | None => oof
        | Some q =>
            let h := q - (query + QINDEX_QUESTION) - 1 in
            set_mem (fun m => set_qtype m h QUERYTYPE_A) ;;; again h
        end
      else ret RET_DNS_FAIL
  end.
Definition donameresolution (fuel : nat) (hostname hnlength dest : Z) : M Z :=
  w <- get ;;
  let '(m, ok) := build_query (mm w) hostname hnlength in
  modify (set_mm m) ;;;
  if ok then dns_recursion fuel hnlength dest hnlength MAX_CNAME_RECURSION else ret 1.

(** The end of the host name: [None] in the result when the string ends first. *)
Fixpoint host_end (fuel : nat) (m : mem) (p j : Z) : option (option Z) :=
  match fuel with
  | O => None
  | S n =>
      let c := ld8 m (p + j) in
      if (c =? 58) || (c =? 47) then Some (Some j)
      else if c =? 0 then Some None
      else host_end n m p (j + 1)
  end.
(** Whether the characters from [k] down to 0 are all digits and dots; the loop reads the character
    at [k] before it tests [k]. *)
Fixpoint only_digits (m : mem) (p : Z) (k : nat) : bool :=
  let c := s8 (ld8 m (p + Z.of_nat k)) in
  if (c =? 46) || ((48 <=? c) && (c <=? 57)) then
    match k with O => true | S k' => only_digits m p k' end
  else false.
(** The result is 0 for [NULL]. *)
Definition dns_resolver (fuel : nat) (filename : Z) : M Z :=
  w <- get ;;
  match host_end fuel (mm w) filename 0 with
  | None => oof
  | Some None => ret filename
  | Some (Some j) =>
      let numeric :=
        if j =? 0 then
          let c := s8 (ld8 (mm w) (filename - 1)) in (c =? 46) || ((48 <=? c) && (c <=? 57))
        else only_digits (mm w) filename (Z.to_nat (j - 1)) in
      if numeric then ret filename
      else
        r <- donameresolution fuel filename j dns_ipaddr ;;
        ret (if istrue r then 0 else dns_ipaddr)
  end.
End dns.

(** ** The form of names *)

(** A name with its labels separated by dots, and as it stands in a packet. *)
Fixpoint dotted (ls : list (list Z)) : list Z :=
  match ls with
  | [] => []
  | [l] => l
  | l :: ls' => l ++ 46 :: dotted ls'
  end.
Definition enc_label (l : list Z) : list Z := Z.of_nat (length l) :: l.
Definition enc_labels (ls : list (list Z)) : list Z := flat_map enc_label ls.
Definition label_ok (l : list Z) : Prop :=
  l <> [] /\ Forall (fun c => c <> 46 /\ 0 <= c < 256) l.
Definition label_fits (l : list Z) : Prop :=
  (1 <= length l <= 63)%nat /\ Forall (fun c => 0 <= c < 256) l.

(** *** The query *)

(** What [chars_to_next_dot] counts, on lists. *)
Fixpoint to_dot (r : list Z) : nat :=
  match r with
  | [] => O
  | c :: r' => if c =? 46 then O else S (to_dot r')
  end.
Definition label_len (r : list Z) : nat :=
  match r with [] => O | _ :: r' => S (to_dot r') end.
Lemma to_dot_le r : (to_dot r <= length r)%nat.
Proof. induction r as [|c r IH]; cbn [to_dot length]; [lia|]. destruct (c =? 46); lia. Qed.
Lemma next_dot_spec m p r : forall i,
  ldn m (p + i) (length r) = r -> next_dot m p i (length r) = i + Z.of_nat (to_dot r).
Proof.
  induction r as [|c r IH]; intros i E; cbn [length next_dot to_dot]; [cbn; lia|].
  cbn [length ldn] in E. injection E as E1 E2. rewrite E1.
  destruct (c =? 46); [cbn; lia|]. rewrite IH by (now rewrite Z.add_assoc). lia.
Qed.
Lemma chars_to_next_dot_spec m p r :
  ldn m p (length r) = r -> chars_to_next_dot m p (Z.of_nat (length r)) = Z.of_nat (label_len r).
Proof.
  intros E. unfold chars_to_next_dot. destruct r as [|c r]; [reflexivity|].
  cbn [length label_len]. destruct (Z.leb_spec (Z.of_nat (S (length r))) 1).
  - destruct r; [reflexivity|]. cbn [length] in *. lia.
  - replace (Z.to_nat (Z.of_nat (S (length r)) - 1)) with (length r) by lia.
    cbn [length ldn] in E. injection E as E1 E2. rewrite next_dot_spec by exact E2. lia.
Qed.

(** What the loop writes behind the first length. *)
Fixpoint enc_rest (host : list Z) : list Z :=
  match host with
  | [] => []
  | c :: r => (if c =? 46 then Z.of_nat (label_len r) else c) :: enc_rest r
  end.
Lemma length_enc_rest host : length (enc_rest host) = length host.
Proof. induction host as [|c r IH]; cbn [enc_rest length]; congruence. Qed.

Lemma put_name_spec hostname h : forall r m i,
  ldn m (hostname + i) (length r) = r -> h = i + Z.of_nat (length r) -> h <= 236 ->
  0 <= i -> hostname + h <= query \/ query + 256 <= hostname ->
  let m' := put_name m hostname h i (length r) in
  ldn m' (query + 13 + i) (length r) = map u8 (enc_rest r) /\
  (forall x, x < query + 13 + i \/ query + 13 + h <= x -> ld8 m' x = ld8 m x).
Proof.
  induction r as [|c r IH]; intros m i E Hh Hl Hi D; cbn [length put_name enc_rest map].
  { split; [reflexivity|]. reflexivity. }
  cbn [length ldn] in E, Hh. injection E as E1 E2.
  change (query + QINDEX_QUESTION + i + 1) with (query + 12 + i + 1).
  replace (query + 12 + i + 1) with (query + 13 + i) by lia. rewrite E1.
  set (m1 := st8 m (query + 13 + i) c).
  assert (K : forall v x, x <> query + 13 + i -> ld8 (st8 m1 (query + 13 + i) v) x = ld8 m x /\ ld8 m1 x = ld8 m x).
  { intros v x Hx. subst m1. rewrite !ld8_st8_ne by lia. split; reflexivity. }
  assert (Hk : ld8 m1 (hostname + i) = c) by (rewrite <- E1; apply (K 0); lia).
  rewrite Hk.
  assert (N : chars_to_next_dot m1 (hostname + i + 1) (h - i - 1) = Z.of_nat (label_len r)).
  { replace (h - i - 1) with (Z.of_nat (length r)) by lia. apply chars_to_next_dot_spec.
    etransitivity; [|exact E2]. apply ldn_ext. intros x Hx. apply (K 0). lia. }
  rewrite N. set (v := if c =? 46 then Z.of_nat (label_len r) else c).
  set (m2 := if c =? 46 then _ else m1).
  assert (K2 : forall x, x <> query + 13 + i -> ld8 m2 x = ld8 m x).
  { intros x Hx. subst m2. destruct (c =? 46); now apply (K (Z.of_nat (label_len r))). }
  assert (V2 : ld8 m2 (query + 13 + i) = u8 v).
  { subst m2 v m1. destruct (c =? 46); apply ld8_st8_eq. }
  destruct (IH m2 (i + 1)) as [I1 I2]; [|lia|lia|lia|exact D|].
  { etransitivity; [|exact E2]. rewrite <- Z.add_assoc. apply ldn_ext. intros x Hx. apply K2. lia. }
  split.
  - cbn [ldn]. rewrite I2 by lia. rewrite V2. f_equal.
    replace (query + 13 + i + 1) with (query + 13 + (i + 1)) by lia. exact I1.
  - intros x Hx. rewrite I2 by lia. apply K2. lia.
Qed.

Lemma to_dot_label l r : Forall (fun c => c <> 46 /\ 0 <= c < 256) l ->
  match r with [] => True | c :: _ => c = 46 end -> to_dot (l ++ r) = length l.
Proof.
  intros Hl Hr. induction Hl as [|c l [Hc _] Hl IH]; cbn [app to_dot length].
  - destruct r as [|c r]; [reflexivity|]. cbn. now rewrite Hr.
  - apply Z.eqb_neq in Hc. now rewrite Hc, IH.
Qed.
Lemma enc_rest_label l r : Forall (fun c => c <> 46 /\ 0 <= c < 256) l -> enc_rest (l ++ r) = l ++ enc_rest r.
Proof.
  intros Hl. induction Hl as [|c l [Hc _] Hl IH]; cbn [app enc_rest]; [reflexivity|].
  apply Z.eqb_neq in Hc. now rewrite Hc, IH.
Qed.
Lemma label_len_label l r : label_ok l ->
  match r with [] => True | c :: _ => c = 46 end -> label_len (l ++ r) = length l.
Proof.
  intros (Hn & Hl) Hr. destruct l as [|c l]; [easy|]. inversion_clear Hl.
  cbn [app label_len length]. now rewrite to_dot_label.
Qed.
(** The first length and the rest are the encoded labels. *)
Lemma enc_dotted ls : ls <> [] -> Forall label_ok ls ->
  Z.of_nat (label_len (dotted ls)) :: enc_rest (dotted ls) = enc_labels ls.
Proof.
  intros Hn Hls. induction Hls as [|l ls Hl Hls IH]; [easy|]. destruct ls as [|l' ls].
  - cbn [dotted enc_labels flat_map]. rewrite app_nil_r. rewrite <- (app_nil_r l) at 1 2.
    rewrite label_len_label, enc_rest_label by (exact I || apply Hl || exact Hl).
    cbn [enc_rest]. now rewrite app_nil_r.
  - change (dotted (l :: l' :: ls)) with (l ++ 46 :: dotted (l' :: ls)).
    rewrite label_len_label, enc_rest_label by (reflexivity || apply Hl || exact Hl).
    cbn [enc_rest Z.eqb Pos.eqb]. rewrite IH by easy. reflexivity.
Qed.
Lemma length_enc_labels ls : ls <> [] -> length (enc_labels ls) = S (length (dotted ls)).
Proof.
  intros Hn. induction ls as [|l ls IH]; [easy|]. destruct ls as [|l' ls].
  - cbn. rewrite app_nil_r. reflexivity.
  - change (enc_labels (l :: l' :: ls)) with (enc_label l ++ enc_labels (l' :: ls)).
    rewrite length_app, IH by easy. change (dotted (l :: l' :: ls)) with (l ++ 46 :: dotted (l' :: ls)).
    rewrite length_app. cbn [length enc_label]. lia.
Qed.
Lemma label_len_le r : (label_len r <= length r)%nat.
Proof. destruct r as [|c r]; cbn [label_len length]; [lia|]. pose proof (to_dot_le r). lia. Qed.
Lemma enc_rest_bytes r : (length r < 256)%nat -> Forall (fun c => 0 <= c < 256) r -> map u8 (enc_rest r) = enc_rest r.
Proof.
  intros Hl Hr. induction Hr as [|c r Hc Hr IH]; cbn [enc_rest map length] in *; [reflexivity|].
  rewrite IH by lia. f_equal. apply u8_small. pose proof (label_len_le r). destruct (c =? 46); lia.
Qed.
Lemma dotted_bytes ls : Forall label_ok ls -> Forall (fun c => 0 <= c < 256) (dotted ls).
Proof.
  assert (F : forall l, label_ok l -> Forall (fun c => 0 <= c < 256) l)
    by (intros l (_ & Hl); eapply Forall_impl; [|exact Hl]; cbn; tauto).
  intros H. induction H as [|l ls Hl Hls IH]; cbn [dotted]; [constructor|].
  destruct ls; [now apply F|]. apply Forall_app. split; [now apply F|]. constructor; [lia|exact IH].
Qed.

(** The bytes of a query of type [t]. *)
Definition query_bytes (ls : list (list Z)) : list Z := dns_head ++ enc_labels ls ++ [0; 0; QUERYTYPE_A; 0; QUERYCLASS_INET].

Lemma query_built m hostname ls :
  let host := dotted ls in
  let h := Z.of_nat (length host) in
  ls <> [] -> Forall label_ok ls -> h <= 236 -> ldn m hostname (length host) = host ->
  hostname + h <= query \/ query + 256 <= hostname ->
  exists m', build_query m hostname h = (m', true) /\
    ldn (end_query m' h) query (length (query_bytes ls)) = query_bytes ls /\
    (forall x, x < query \/ query + 256 <= x -> ld8 (end_query m' h) x = ld8 m x).
Proof.
  intros host h Hn Hls Hh E D. unfold build_query. rewrite Z.gtb_ltb.
  destruct (Z.ltb_spec 236 h); [lia|]. eexists. split; [reflexivity|].
  set (m1 := stn m query dns_head).
  assert (O1 : forall x, x < query \/ query + 12 <= x -> ld8 m1 x = ld8 m x)
    by (intros x Hx; subst m1; apply ld8_stn_out; cbn [length dns_head]; lia).
  assert (E1 : ldn m1 hostname (length host) = host).
  { etransitivity; [|exact E]. apply ldn_ext. intros x Hx. apply O1. unfold h in *. lia. }
  assert (N : chars_to_next_dot m1 hostname h = Z.of_nat (label_len host))
    by exact (chars_to_next_dot_spec m1 hostname host E1).
  rewrite N. replace (Z.to_nat h) with (length host) by (unfold h; lia).
  set (L := Z.of_nat (label_len host)). change (query + QINDEX_QUESTION) with (query + 12).
  set (m2 := st8 m1 (query + 12) L).
  destruct (put_name_spec hostname h host m2 0) as [P1 P2]; [| | lia | lia | exact D |].
  { rewrite Z.add_0_r. etransitivity; [|exact E1]. apply ldn_ext. intros x Hx. subst m2.
    apply ld8_st8_ne. unfold h in *. lia. }
  { reflexivity. }
  set (m3 := put_name m2 hostname h 0 (length host)) in *. rewrite Z.add_0_r in *.
  unfold end_query, set_qtype. change (query + QINDEX_QUESTION + h + 1) with (query + 12 + h + 1).
  change QINDEX_QTYPE with 14. change QINDEX_QCLASS with 16.
  set (m4 := st8 _ _ _).
  assert (O4 : forall x, x < query + 13 + h \/ query + 18 + h <= x -> ld8 m4 x = ld8 m3 x)
    by (intros x Hx; subst m4; rewrite !ld8_st8_ne by lia; reflexivity).
  assert (R : 0 <= L < 256).
  { subst L. pose proof (label_len_le host). unfold h in *. lia. }
  split.
  - unfold query_bytes. rewrite <- (enc_dotted ls Hn Hls). fold host. fold L.
    rewrite !length_app. cbn [length]. rewrite length_enc_rest, !ldn_app.
    replace (query + Z.of_nat (length dns_head)) with (query + 12) by reflexivity.
    f_equal; [|f_equal].
    + rewrite (ldn_ext m4 m1); [exact (ldn_stn m query dns_head)|]. cbn [length dns_head]. intros x Hx.
      rewrite O4, P2 by lia. subst m2. apply ld8_st8_ne. lia.
    + cbn [ldn]. f_equal.
      * rewrite O4, P2 by lia. subst m2. rewrite ld8_st8_eq. now apply u8_small.
      * replace (query + 12 + 1) with (query + 13) by lia.
        rewrite (ldn_ext m4 m3), P1 by (intros x Hx; apply O4; unfold h in *; lia).
        apply enc_rest_bytes; [unfold h in *; lia | now apply dotted_bytes].
    + replace (query + 12 + Z.of_nat (S (length host))) with (query + 13 + h) by (unfold h; lia).
      cbn [ldn]. subst m4.
      repeat rewrite ld8_st8. repeat case_test; try lia. reflexivity.
  - intros x Hx. rewrite O4, P2 by lia. subst m2. rewrite ld8_st8_ne by lia. apply O1. lia.
Qed.

(** *** Replies *)

(** The bytes found at an address. *)
Definition at_mem (m : mem) (a : Z) (bs : list Z) : Prop := ldn m a (length bs) = bs.
Lemma at_mem_app m a x y : at_mem m a (x ++ y) -> at_mem m a x /\ at_mem m (a + Z.of_nat (length x)) y.
Proof. apply ldn_split. Qed.

Lemma land_c0_label c : 0 <= c < 64 -> Z.land c 0xc0 = 0.
Proof. intros H. apply Z.eqb_eq, (all_below_spec 64 (fun c => Z.land c 0xc0 =? 0) eq_refl). exact H. Qed.
Lemma land_c0_pointer c : 0xc0 <= c < 256 -> Z.land c 0xc0 = 0xc0.
Proof.
  intros H. pose proof (all_below_spec 256 (fun c => (c <? 192) || (Z.land c 0xc0 =? 0xc0)) eq_refl c) as E.
  cbv beta in E. destruct (Z.ltb_spec c 192); [lia|]. apply Z.eqb_eq, E. lia.
Qed.
Lemma skip_labels_spec m ls : forall q fuel,
  Forall (fun l => (1 <= length l)%nat) ls -> at_mem m q (enc_labels ls ++ [0]) -> (length ls < fuel)%nat ->
  skip_labels fuel m q = Some (q + Z.of_nat (length (enc_labels ls))).
Proof.
  induction ls as [|l ls IH]; intros q fuel Hl Hm Hf;
    (destruct fuel as [|fuel]; [cbn in Hf; lia|]); cbn [skip_labels].
  - injection Hm as ->. cbn. f_equal. lia.
  - inversion_clear Hl as [|? ? Hl1 Hls]. cbn [enc_labels flat_map length] in *. fold (enc_labels ls) in *.
    rewrite <- app_assoc in Hm. apply at_mem_app in Hm as [M1 M2].
    injection M1 as M0 M1. rewrite M0. destruct (Z.eqb_spec (Z.of_nat (length l)) 0); [lia|].
    rewrite IH; [|exact Hls| |lia].
    + f_equal. rewrite length_app. cbn [length enc_label]. lia.
    + cbn [enc_label length] in M2. replace (q + Z.of_nat (length l) + 1) with (q + Z.of_nat (S (length l))) by lia.
      exact M2.
Qed.

(** The end of a name: a null label or a pointer. *)
Definition name_end (t : list Z) : Prop :=
  t = [0] \/ exists c d, t = [c; d] /\ 0xc0 <= c < 256 /\ 0 <= d < 256.
Lemma skip_name_spec m ls t : name_end t -> forall q fuel,
  Forall label_fits ls -> at_mem m q (enc_labels ls ++ t) -> (length ls < fuel)%nat ->
  skip_name fuel m q = Some (q + Z.of_nat (length (enc_labels ls ++ t)) - 1).
Proof.
  intros Ht. induction ls as [|l ls IH]; intros q fuel Hl Hm Hf;
    (destruct fuel as [|fuel]; [cbn in Hf; lia|]); cbn [skip_name].
  - cbn [enc_labels flat_map app] in *. destruct Ht as [->|(c & d & -> & Hc & Hd)].
    + injection Hm as ->. cbn. f_equal. lia.
    + injection Hm as -> _. destruct (Z.eqb_spec c 0); [lia|]. rewrite land_c0_pointer by lia.
      cbn. f_equal. lia.
  - inversion_clear Hl as [|? ? [Hl1 Hl2] Hls]. cbn [enc_labels flat_map length] in *. fold (enc_labels ls) in *.
    rewrite <- app_assoc in Hm |- *. apply at_mem_app in Hm as [M1 M2].
    injection M1 as M0 M1. rewrite M0. destruct (Z.eqb_spec (Z.of_nat (length l)) 0); [lia|].
    rewrite land_c0_label by lia. cbn [Z.eqb]. rewrite IH; [|exact Hls| |lia].
    + f_equal. rewrite (length_app (enc_label l)). cbn [length enc_label]. lia.
    + cbn [enc_label length] in M2. replace (q + Z.of_nat (length l) + 1) with (q + Z.of_nat (S (length l))) by lia.
      exact M2.
Qed.

Lemma at_mem_nth i m a bs : at_mem m a bs -> (i < length bs)%nat -> ld8 m (a + Z.of_nat i) = nth i bs 0.
Proof. intros E Hi. rewrite <- E, nth_ldn by exact Hi. reflexivity. Qed.

(** A reply to a query of type A for the name [ls]: the question repeated, then a first answer with an
    owner name (in [ol] and [oe]), an address, and whatever follows. *)
Definition reply_bytes (id f1 f2 a1 a2 : Z) (counts : list Z) (ls ol : list (list Z)) (oe ttl : list Z)
    (addr : Z) (rest : list Z) : list Z :=
  [0; id; f1; f2; 0; 1; a1; a2] ++ counts ++ (enc_labels ls ++ [0]) ++ [0; 1; 0; 1] ++ (enc_labels ol ++ oe) ++
  [0; QUERYTYPE_A; 0; QUERYCLASS_INET] ++ ttl ++ [0; 4] ++ ip_bytes addr ++ rest.

Lemma dns_reply_address fuel m ptr id f1 f2 a1 a2 counts ls ol oe ttl addr rest :
  at_mem m dns_p (reply_bytes id f1 f2 a1 a2 counts ls ol oe ttl addr rest) ->
  length counts = 4%nat -> length ttl = 4%nat -> a2 <> 0 -> 0 <= a2 < 256 -> Z.land f2 0x0f = 0 ->
  Forall (fun l => (1 <= length l)%nat) ls -> Forall label_fits ol -> name_end oe ->
  (length ls < fuel)%nat -> (length ol < fuel)%nat ->
  exists a, dns_reply fuel m ptr QUERYTYPE_A = Some (RET_GOT_ADDR, memcpy m (ptr + QINDEX_STORE_A) a 4) /\
    ldn m a 4 = ip_bytes addr /\
    dns_p <= a <= dns_p + Z.of_nat (length (reply_bytes id f1 f2 a1 a2 counts ls ol oe ttl addr rest)) - 4.
Proof.
  intros Hm Hc Ht Ha Hr Hf Hl Ho He F1 F2. unfold reply_bytes in Hm.
  apply at_mem_app in Hm as [H0 Hm]. apply at_mem_app in Hm as [_ Hm]. apply at_mem_app in Hm as [H2 Hm].
  apply at_mem_app in Hm as [_ Hm]. apply at_mem_app in Hm as [H4 Hm]. apply at_mem_app in Hm as [H5 Hm].
  apply at_mem_app in Hm as [_ Hm]. apply at_mem_app in Hm as [H7 Hm]. apply at_mem_app in Hm as [H8 _].
  rewrite Hc, Ht in *. cbn [length] in H2, H4, H5, H7, H8.
  replace (dns_p + Z.of_nat 8 + Z.of_nat 4) with (dns_p + 12) in * by lia.
  rewrite length_app in H4, H5, H7, H8. cbn [length] in H4, H5, H7, H8.
  set (nl := length (enc_labels ls)) in *.
  set (q1 := dns_p + 12 + Z.of_nat nl + 5).
  replace (dns_p + 12 + Z.of_nat (nl + 1) + Z.of_nat 4) with q1 in * by (subst q1; lia).
  set (q2 := q1 + Z.of_nat (length (enc_labels ol ++ oe))) in *.
  replace (q2 + Z.of_nat 4 + Z.of_nat 4) with (q2 + 8) in * by lia.
  replace (q2 + 8 + Z.of_nat 2) with (q2 + 8 + 2) in * by lia.
  pose proof (fun i Hi => at_mem_nth i _ _ _ H0 Hi) as D. pose proof (fun i Hi => at_mem_nth i _ _ _ H5 Hi) as E.
  pose proof (fun i Hi => at_mem_nth i _ _ _ H7 Hi) as G. cbn [length] in D, E, G.
  pose proof (E 0%nat ltac:(lia)) as E0. pose proof (G 0%nat ltac:(lia)) as G0. rewrite Z.add_0_r in E0, G0.
  exists (q2 + 8 + 2). split; [|split; [exact H8|]].
  2:{ unfold reply_bytes. rewrite !length_app, Hc, Ht. cbn [length ip_bytes]. fold nl. subst q2 q1.
      rewrite length_app. lia. }
  unfold dns_reply. rewrite (D 7%nat ltac:(lia) : ld8 m (dns_p + 7) = a2),
    (D 3%nat ltac:(lia) : ld8 m (dns_p + 3) = f2), (D 4%nat ltac:(lia) : ld8 m (dns_p + 4) = 0),
    (D 5%nat ltac:(lia) : ld8 m (dns_p + 5) = 1).
  rewrite Hf, Z.shiftl_mul_pow2 by lia.
  destruct (Z.eqb_spec (a2 + a2 * 2 ^ 8) 0); [lia|]. cbn [orb negb Z.eqb ERR_NOSUCHNAME].
  change (Z.shiftl 0 8 + 1) with 1. change (dns_p + QINDEX_QUESTION) with (dns_p + 12).
  change (1 >=? 2) with false. change (1 <=? 0) with false. cbv iota.
  rewrite (skip_labels_spec m ls _ fuel Hl H2 F1). fold nl. cbn [obind]. fold q1.
  rewrite (skip_name_spec m ol oe He _ fuel Ho H4 F2). fold q2. cbn [obind].
  replace (q2 - 1 + 1) with q2 by lia.
  unfold dns_answer. rewrite E0, (E 1%nat ltac:(lia) : ld8 m (q2 + 1) = QUERYTYPE_A),
    (E 2%nat ltac:(lia) : ld8 m (q2 + 2) = 0), (E 3%nat ltac:(lia) : ld8 m (q2 + 3) = QUERYCLASS_INET).
  cbn [nth Z.eqb Pos.eqb QUERYTYPE_A QUERYTYPE_CNAME QUERYCLASS_INET andb orb negb].
  rewrite G0, (G 1%nat ltac:(lia) : ld8 m (q2 + 8 + 1) = 4). reflexivity.
Qed.

(** The wait that follows a query ends with the address in the buffer. *)
Lemma dns_retry_address `{Env} n h retry k w hd src f1 f2 a1 a2 counts ls ol oe ttl addr rest cli :
  let body := reply_bytes 1 f1 f2 a1 a2 counts ls ol oe ttl addr rest in
  quiet w -> 0 <= cli < 4294967296 -> 0 <= h <= 236 ->
  ld8 (mm w) (query + QINDEX_QTYPE + h + 1) = QUERYTYPE_A -> ld8 (mm w) (query + 1) = 1 ->
  rx (cnt_rx w) = Some (udp_frame hd src cli UDP_PORT_DNS UDP_PORT_DNS body) -> length hd = 12%nat ->
  (length body <= 1472)%nat -> Forall (fun b => 0 <= b < 256) body ->
  length counts = 4%nat -> length ttl = 4%nat -> a2 <> 0 -> Z.land f1 QUERYFLAGS_MASK = QUERYFLAGS_WANT ->
  Z.land f2 0x0f = 0 -> Forall (fun l => (1 <= length l)%nat) ls -> Forall label_fits ol -> name_end oe ->
  (length ls <= n)%nat -> (length ol <= n)%nat ->
  exists w', dns_retry (S n) h retry (S k) w = Some (Ret RET_GOT_ADDR, w') /\
    ldn (mm w') (query + QINDEX_STORE_A) 4 = ip_bytes addr /\ sent w' = sent w.
Proof.
  intros body Q Hcli Hh Ht Hid Hrx Hhd Hl Hb Hc Htl Ha Hf1 Hf2 Hls Hol Hoe F1 F2. cbn [dns_retry].
  run. destruct (rfc2131_total TIMEOUT retry w) as (t & sd & c & ->).
  set (w1 := set_seed sd (set_cnt_clock c w)). change (mm w1) with (mm w). rewrite Ht, Hid.
  change (Z.shiftl QUERYTYPE_A 8 + 1) with 257.
  destruct (udp_frame_received (mm w) hd body src cli UDP_PORT_DNS UDP_PORT_DNS Hhd Hl Hb Hcli)
    as (R1 & _ & R3 & R4 & _ & R6).
  set (fr := udp_frame hd src cli UDP_PORT_DNS UDP_PORT_DNS body) in *. set (m := stn (mm w) nic_packet fr) in *.
  assert (Ra2 : 0 <= a2 < 256).
  { rewrite Forall_forall in Hb. apply Hb. unfold body, reply_bytes. cbn. tauto. }
  destruct (dns_reply_address (S n) m query 1 f1 f2 a1 a2 counts ls ol oe ttl addr rest)
    as (a & E & A & Ba); try assumption; try lia.
  fold body in Ba.
  destruct (await_reply_frame n (await_dns (S n) 257 query) t w1 fr
              {| ptype := ETH_P_IP; has_ip := true; has_udp := true; has_tcp := false |} RET_GOT_ADDR
              (fun w => set_mm (memcpy m (query + QINDEX_STORE_A) a 4) w) Q Hrx R1) as (c' & Ea); [reflexivity| |].
  - intros w2 M2 _ _. unfold await_dns. cbn [has_udp negb]. run. rewrite M2.
    change (stn (mm w1) nic_packet fr) with m. rewrite R3, R4.
    change (negb (u16 UDP_PORT_DNS =? UDP_PORT_DNS)) with false. cbn [orb].
    change (Z.land 257 255) with 1. change (Z.shiftr (Z.land 257 65280) 8) with QUERYTYPE_A.
    pose proof (fun i Hi => at_mem_nth i _ _ _ R6 Hi) as D. cbn [length body reply_bytes app] in D.
    pose proof (D 0%nat ltac:(lia)) as D0. rewrite Z.add_0_r in D0. change (ip_ptr + 28) with dns_p in *.
    rewrite D0, (D 1%nat ltac:(lia) : ld8 m (dns_p + 1) = 1), (D 2%nat ltac:(lia) : ld8 m (dns_p + 2) = f1), Hf1.
    change (nth 0 _ 0) with 0. cbn [Z.eqb Pos.eqb negb orb]. rewrite Z.eqb_refl. cbn [negb]. now rewrite E.
  - rewrite Ea. cbn [istrue Z.eqb negb RET_GOT_ADDR]. eexists. split; [reflexivity|]. split; [|reflexivity].
    cbn [mm set_mm set_packetlen]. rewrite ldn_memcpy; [exact A|]. right.
    unfold dns_p, ip_ptr, nic_packet, ETH_HLEN, query, querybuf, QINDEX_STORE_A in *. lia.
Qed.

(** *** Aliases *)

(** The name at offset [i] of a packet, as RFC 1035 has it: labels, and pointers to the rest; [n]
    bounds the labels and pointers on the way. *)
Inductive name_at (m : mem) : Z -> list (list Z) -> nat -> Prop :=
| na_end i : ld8 m (dns_p + i) = 0 -> 0 <= i < 0x10000 -> name_at m i [] 1
| na_pointer i j ls n :
    ld8 m (dns_p + i) = 0xc0 + j / 256 -> ld8 m (dns_p + i + 1) = j mod 256 ->
    0 <= j < 0x4000 -> 0 <= i < 0x10000 -> name_at m j ls n -> name_at m i ls (S n)
| na_label i l ls n :
    at_mem m (dns_p + i) (enc_label l) -> label_fits l -> 0 <= i < 0x10000 ->
    name_at m (i + Z.of_nat (length l) + 1) ls n -> name_at m i (l :: ls) (S n).

Lemma land_3f_pointer c : 0xc0 <= c < 256 -> Z.land c 0x3f = c - 0xc0.
Proof. intros H. change 0x3f with (Z.ones 6). rewrite Z.land_ones by lia. zmod. Qed.

Lemma copy_name_spec m i ls n : name_at m i ls n -> forall m0 fuel k,
  (forall x, x < query -> ld8 m0 x = ld8 m x) -> (n <= fuel)%nat -> 0 <= k ->
  exists m', copy_name fuel m0 query i k = Some m' /\ at_mem m' (query + k) (enc_labels ls ++ [0]) /\
    (forall x, x < query + k \/ query + k + Z.of_nat (length (enc_labels ls ++ [0])) <= x -> ld8 m' x = ld8 m0 x).
Proof.
  assert (P : forall i, i < 0x10000 + 1 -> dns_p + i < query)
    by (unfold dns_p, ip_ptr, nic_packet, ETH_HLEN, query, querybuf; lia).
  induction 1 as [i E Hi | i j ls n E1 E2 Hj Hi Hn IH | i l ls n E (Hl & Hb) Hi Hn IH]; intros m0 fuel k K F Hk;
    (destruct fuel as [|fuel]; [lia|]); cbn [copy_name].
  - rewrite K, E by (apply P; lia). cbn [Z.eqb]. eexists. split; [reflexivity|]. split.
    + unfold at_mem. cbn [enc_labels flat_map app length ldn]. now rewrite ld8_st8_eq.
    + intros x Hx. cbn [enc_labels flat_map app length] in Hx. apply ld8_st8_ne. lia.
  - assert (Rj : 0 <= j / 256 < 64) by (Z.div_mod_to_equations; lia).
    rewrite K, E1, <- Z.add_assoc, K, Z.add_assoc, E2 by (rewrite ?Z.add_assoc, <- ?Z.add_assoc; apply P; lia).
    destruct (Z.eqb_spec (192 + j / 256) 0); [lia|]. rewrite land_c0_pointer, land_3f_pointer by lia.
    cbn [Z.eqb negb]. replace ((192 + j / 256 - 192) * 256 + j mod 256) with j by (Z.div_mod_to_equations; lia).
    apply IH; [exact K|lia|lia].
  - apply (f_equal (hd 0)) in E as E0. cbn [enc_label length ldn hd] in E0.
    assert (E1 : ldn m (dns_p + i + 1) (length l) = l) by exact (f_equal (@tl Z) E).
    rewrite K, E0 by (apply P; lia). destruct (Z.eqb_spec (Z.of_nat (length l)) 0); [lia|].
    rewrite land_c0_label by lia. cbn [Z.eqb negb]. rewrite Nat2Z.id.
    set (m1 := st8 m0 (query + k) (Z.of_nat (length l))).
    assert (Hd : dns_p + i + 1 + Z.of_nat (length l) <= query + k + 1)
      by (unfold dns_p, ip_ptr, nic_packet, ETH_HLEN, query, querybuf; lia).
    set (m2 := memcpy m1 (query + k + 1) (dns_p + i + 1) (length l)).
    assert (O2 : forall x, x < query + k \/ query + k + 1 + Z.of_nat (length l) <= x -> ld8 m2 x = ld8 m0 x).
    { intros x Hx. subst m2 m1. rewrite ld8_memcpy_out by lia. apply ld8_st8_ne. lia. }
    assert (V0 : ld8 m2 (query + k) = Z.of_nat (length l)).
    { subst m2 m1. rewrite ld8_memcpy_out, ld8_st8_eq by lia. apply u8_small. lia. }
    assert (V1 : ldn m2 (query + k + 1) (length l) = l).
    { subst m2. rewrite ldn_memcpy by (right; lia). etransitivity; [|exact E1]. apply ldn_ext. intros x Hx.
      subst m1. rewrite ld8_st8_ne by (unfold dns_p, ip_ptr, nic_packet, ETH_HLEN, query, querybuf in *; lia).
      apply K. unfold dns_p, ip_ptr, nic_packet, ETH_HLEN, query, querybuf in *. lia. }
    rewrite O2, K, E0, V0 by (pose proof (P i); lia).
    destruct (IH m2 fuel (k + Z.of_nat (length l) + 1)) as (m' & R & A & O); [|lia|lia|].
    { intros x Hx. rewrite O2 by lia. now apply K. }
    exists m'. split; [exact R|]. cbn [enc_labels flat_map]. fold (enc_labels ls). rewrite <- app_assoc. split.
    + unfold at_mem in *. rewrite length_app, ldn_app. f_equal.
      * unfold enc_label. cbn [length ldn]. rewrite O, V0 by lia. f_equal. etransitivity; [|exact V1].
        apply ldn_ext. intros x Hx. apply O. lia.
      * etransitivity; [|exact A]. f_equal. cbn [enc_label length]. lia.
    + intros x Hx. rewrite length_app in Hx. cbn [enc_label length] in Hx. rewrite O by lia. apply O2. lia.
Qed.

(** An answer that is an alias, to either type of query. *)
Lemma dns_answer_cname fuel m ptr q querytype :
  at_mem m q [0; QUERYTYPE_CNAME; 0; QUERYCLASS_INET] -> querytype = QUERYTYPE_A \/ querytype = QUERYTYPE_CNAME ->
  dns_answer fuel m ptr q querytype = dns_cname fuel m ptr (q + 8).
Proof.
  intros Hm Hq. pose proof (fun i Hi => at_mem_nth i _ _ _ Hm Hi) as E. cbn [length] in E.
  pose proof (E 0%nat ltac:(lia)) as E0. rewrite Z.add_0_r in E0. unfold dns_answer.
  rewrite E0, (E 1%nat ltac:(lia) : ld8 m (q + 1) = QUERYTYPE_CNAME),
    (E 2%nat ltac:(lia) : ld8 m (q + 2) = 0), (E 3%nat ltac:(lia) : ld8 m (q + 3) = QUERYCLASS_INET).
  destruct Hq as [-> | ->]; reflexivity.
Qed.

Lemma ip_bytes_sum m a addr :
  ldn m a 4 = ip_bytes addr -> 0 <= addr < 4294967296 ->
  ld8 m a + ld8 m (a + 1) * 256 + ld8 m (a + 2) * 65536 + ld8 m (a + 3) * 16777216 = addr.
Proof.
  intros E Ha. cbn [ldn ip_bytes] in E. replace (a + 1 + 1) with (a + 2) in E by lia.
  replace (a + 2 + 1) with (a + 3) in E by lia. injection E as -> -> -> ->. Z.div_mod_to_equations. lia.
Qed.

(** ** Properties *)

(** The name server and the client know how to talk to each other. *)
Definition ns_ready (w : world) (cli ns : Z) (mac : list Z) : Prop :=
  quiet w /\ client_ip w = cli /\ 0 <= cli < 4294967296 /\ ipaddr (arp w ARP_NAMESERVER) = ns /\
  reachable w ns mac.
(** A first answer of the address, with the fields the resolver looks at; [ol] and [oe] are the
    owner's name, in full or with a pointer. *)
Record answer := {
  an_f1 : Z; an_f2 : Z; an_count : Z * Z; an_others : list Z; an_ol : list (list Z); an_oe : list Z;
  an_ttl : list Z; an_addr : Z; an_rest : list Z }.
Definition answer_bytes (id : Z) (ls : list (list Z)) (an : answer) : list Z :=
  reply_bytes id (an_f1 an) (an_f2 an) (fst (an_count an)) (snd (an_count an)) (an_others an) ls
    (an_ol an) (an_oe an) (an_ttl an) (an_addr an) (an_rest an).
Record answer_ok (ls : list (list Z)) (an : answer) : Prop := {
  ok_f1 : Z.land (an_f1 an) QUERYFLAGS_MASK = QUERYFLAGS_WANT;
  ok_f2 : Z.land (an_f2 an) 0x0f = 0;
  ok_count : snd (an_count an) <> 0;
  ok_others : length (an_others an) = 4%nat;
  ok_ttl : length (an_ttl an) = 4%nat;
  ok_ol : Forall label_fits (an_ol an);
  ok_oe : name_end (an_oe an);
  ok_addr : 0 <= an_addr an < 4294967296;
  ok_len : (length (answer_bytes 1 ls an) <= 1472)%nat;
  ok_bytes : Forall (fun b => 0 <= b < 256) (answer_bytes 1 ls an) }.

Lemma query_typed m ls : ls <> [] -> at_mem m query (query_bytes ls) ->
  ld8 m (query + QINDEX_QTYPE + Z.of_nat (length (dotted ls)) + 1) = QUERYTYPE_A.
Proof.
  intros Hn H. apply at_mem_app in H as [_ H]. apply at_mem_app in H as [_ H].
  rewrite length_enc_labels in H by exact Hn. apply (at_mem_nth 2) in H; [|cbn; lia].
  etransitivity; [|exact H]. f_equal. change (Z.of_nat (length dns_head)) with 12. unfold QINDEX_QTYPE. lia.
Qed.

(** C12: a host name is resolved.  For a name of up to 236 characters in labels that are not empty,
    one query goes to the name server, whose question is the name in the form of RFC 1035, its
    labels each behind its length, type A and class IN; when the server answers it with an address
    record, in whatever form its owner's name is, [donameresolution] succeeds and leaves in
    [deststring] the dotted quad of that address: [inet_aton] reads it back. *)
Theorem dns_resolves `{Env} n hostname ls dest w cli ns mac hd src an :
  let host := dotted ls in
  let h := Z.of_nat (length host) in
  ns_ready w cli ns mac -> ls <> [] -> Forall label_ok ls -> h <= 236 ->
  ldn (mm w) hostname (length host) = host -> hostname + h <= query \/ query + 256 <= hostname ->
  rx (cnt_rx w) = None -> kbd (cnt_kbd w) = None -> length hd = 12%nat ->
  answer_ok ls an -> rx (S (cnt_rx w)) = Some (udp_frame hd src cli UDP_PORT_DNS UDP_PORT_DNS (answer_bytes 1 ls an)) ->
  (length ls <= n)%nat -> (length (an_ol an) <= n)%nat ->
  exists w' q k,
    donameresolution (S n) hostname h dest w = Some (Ret RET_DNS_OK, w') /\
    inet_aton 65 (mm w') dest = Some (k, Some (an_addr an)) /\
    sent w' = q :: sent w /\ f_dst q = mac /\ f_type q = ETH_P_IP /\ skipn 28 (f_data q) = query_bytes ls.
Proof.
  intros host h (Q & C & Rc & A & R) Hn Hls Hh E D Hrx Hkb Hhd K Hans F1 F2.
  destruct (query_built (mm w) hostname ls Hn Hls Hh E D) as (m' & B & QB & O).
  unfold donameresolution. run. fold host h in B, QB, O. rewrite B.
  destruct MAX_CNAME_RECURSION as [|rec] eqn:ER; [discriminate|]. cbn [dns_recursion]. run.
  cbn [mm set_mm]. set (w1 := set_mm (end_query m' h) _).
  assert (T1 : same_tabs w w1).
  { repeat (split; [reflexivity|]). intros x Hx. subst w1. cbn [mm set_mm]. apply O.
    unfold query, querybuf, lacp_pkt in *. lia. }
  destruct (rx_qdrain_idle n w1 (same_tabs_quiet _ _ T1 Q) Hrx Hkb) as (w2 & -> & T2 & C2 & S2 & M2).
  assert (A2 : arptable w2 = arptable w) by (rewrite (proj1 T2); apply (proj1 T1)).
  assert (An : ipaddr (arp w2 ARP_NAMESERVER) = ns) by (unfold arp in *; now rewrite A2).
  assert (Cl : client_ip w2 = cli) by (unfold client_ip, arp in *; now rewrite A2).
  rewrite An, (udp_transmit_reachable _ _ mac), Cl
    by (apply (same_tabs_reachable w1); [exact T2 | now apply (same_tabs_reachable w)]).
  cbv beta iota. rewrite M2. cbn [mm set_mm w1]. set (m3 := build_udp_hdr _ _ _ _ _ _ _ _).
  set (q := {| f_dst := mac; f_type := _; f_data := _ |}). set (w3 := set_sent _ _).
  assert (O3 : forall x, querybuf + 28 <= x -> ld8 m3 x = ld8 (end_query m' h) x)
    by (intros x Hx; apply build_udp_hdr_out; now right).
  assert (Lq : length (query_bytes ls) = Z.to_nat (h + 18)).
  { unfold query_bytes. rewrite !length_app, length_enc_labels by exact Hn. cbn [length dns_head]. unfold h, host. lia. }
  assert (Q3 : ldn m3 query (length (query_bytes ls)) = query_bytes ls).
  { etransitivity; [|exact QB]. apply ldn_ext. intros x Hx. apply O3. unfold query in Hx. lia. }
  set (body := answer_bytes 1 ls an) in *.
  destruct (dns_retry_address n h 1 2 w3 hd src (an_f1 an) (an_f2 an) (fst (an_count an)) (snd (an_count an))
              (an_others an) ls (an_ol an) (an_oe an) (an_ttl an) (an_addr an) (an_rest an) cli)
    as (w4 & E4 & L4 & S4); try apply K; try assumption; try (unfold h; lia).
  { apply (same_tabs_quiet w2); [|apply (same_tabs_quiet w1); [exact T2|now apply (same_tabs_quiet w)]].
    repeat (split; [reflexivity|]). intros x Hx. cbn [mm w3 set_sent set_mm]. rewrite M2.
    apply build_udp_hdr_out. unfold querybuf, lacp_pkt in *. lia. }
  { now apply query_typed. }
  { pose proof Q3 as Q4. apply at_mem_app in Q4 as [Q4 _].
    exact (at_mem_nth 1 _ _ _ Q4 ltac:(cbn; lia)). }
  { cbn [cnt_rx w3 set_sent set_mm set_sport]. rewrite C2. exact Hans. }
  { eapply Forall_impl; [|exact Hls]. intros l (Hl & _). destruct l; [easy|cbn; lia]. }
  change MAX_DNS_RETRIES with 3%nat. rewrite E4. cbn [Z.eqb Pos.eqb RET_GOT_ADDR].
  rewrite (ip_bytes_sum _ _ _ L4 (ok_addr _ _ K)).
  destruct (sprintf_ip_reads (mm w4) dest (an_addr an) 65) as (m5 & k & -> & I5); [apply K|lia|].
  exists (set_mm m5 w4), q, k. split; [reflexivity|]. cbn [mm set_mm]. split; [exact I5|].
  split; [cbn [sent set_mm]; rewrite S4; cbn [sent w3 set_sent]; now rewrite S2|].
  split; [reflexivity|]. split; [reflexivity|]. cbn [f_data q].
  replace (Z.to_nat (h + 18 + 28)) with (28 + length (query_bytes ls))%nat by (unfold h in *; lia).
  rewrite skipn_ldn. exact Q3.
Qed.

(** C32: an alias is decompressed.  A reply whose answer is a CNAME record, and which brings no
    address along, leaves in the query buffer the name the alias stands for, put together from its
    labels and from the parts of the packet its pointers lead to, whatever its length; the result
    asks for one more query.  Nothing behind the name is written, and nothing before it. *)
Theorem dns_alias_followed m q querytype ttl l1 l2 ls n fuel :
  at_mem m q ([0; QUERYTYPE_CNAME; 0; QUERYCLASS_INET] ++ ttl ++ [l1; l2]) -> length ttl = 4%nat ->
  querytype = QUERYTYPE_A \/ querytype = QUERYTYPE_CNAME ->
  ld8 m (dns_p + 7) <= 1 -> name_at m (q + 10 - dns_p) ls n -> (n <= fuel)%nat ->
  exists m', dns_answer fuel m query q querytype = Some (RET_RUN_NEXT_A, m') /\
    at_mem m' (query + QINDEX_QUESTION) (enc_labels ls ++ [0]) /\
    (forall x, x < query + 12 \/ query + 12 + Z.of_nat (length (enc_labels ls ++ [0])) <= x ->
       ld8 m' x = ld8 m x).
Proof.
  intros Hm Ht Hq Hc Hn Hf. rewrite dns_answer_cname by (apply at_mem_app in Hm; tauto). unfold dns_cname.
  rewrite Z.gtb_ltb. destruct (Z.ltb_spec 1 (ld8 m (dns_p + 7))); [lia|]. cbn [andb].
  replace (q + 8 + 2 - dns_p) with (q + 10 - dns_p) by lia.
  destruct (copy_name_spec m _ ls n Hn m fuel QINDEX_QUESTION) as (m' & R & A & O);
    [reflexivity | exact Hf | discriminate |].
  rewrite R. cbn [obind]. exists m'. split; [reflexivity|]. split; [exact A|exact O].
Qed.

(** A compression pointer to itself hangs the client.  The loop that composes the alias follows
    pointers without counting them: for a CNAME record whose data is a pointer to its own offset, it
    has no result for any number of rounds, in a context in which neither a timeout nor a key ends
    the wait. *)
Theorem dns_pointer_loop m ptr q querytype ttl fuel :
  let i := q + 10 - dns_p in
  at_mem m q ([0; QUERYTYPE_CNAME; 0; QUERYCLASS_INET] ++ ttl ++ [0; 2] ++ [0xc0 + i / 256; i mod 256]) ->
  length ttl = 4%nat -> querytype = QUERYTYPE_A \/ querytype = QUERYTYPE_CNAME ->
  ld8 m (dns_p + 7) <= 1 -> 0 <= i < 0x4000 ->
  dns_answer fuel m ptr q querytype = None.
Proof.
  intros i Hm Ht Hq Hc Hi. rewrite dns_answer_cname by (apply at_mem_app in Hm; tauto). unfold dns_cname.
  rewrite Z.gtb_ltb. destruct (Z.ltb_spec 1 (ld8 m (dns_p + 7))); [lia|]. cbn [andb].
  replace (q + 8 + 2 - dns_p) with i by (subst i; lia).
  apply at_mem_app in Hm as [_ Hm]. apply at_mem_app in Hm as [_ Hm]. apply at_mem_app in Hm as [_ Hm].
  rewrite Ht in Hm. cbn [length] in Hm.
  replace (q + Z.of_nat 4 + Z.of_nat 4 + Z.of_nat 2) with (dns_p + i) in Hm by (subst i; lia).
  pose proof (at_mem_nth 0 _ _ _ Hm ltac:(cbn; lia)) as E0. rewrite Z.add_0_r in E0. cbn [nth] in E0.
  pose proof (at_mem_nth 1 _ _ _ Hm ltac:(cbn; lia) : ld8 m (dns_p + i + 1) = i mod 256) as E1.
  assert (R : 0 <= i / 256 < 64) by (Z.div_mod_to_equations; lia).
  assert (L : copy_name fuel m ptr i QINDEX_QUESTION = None).
  { clearbody i. induction fuel as [|fuel IH]; cbn [copy_name]; [reflexivity|]. rewrite E0, E1.
    destruct (Z.eqb_spec (192 + i / 256) 0); [lia|]. rewrite land_c0_pointer, land_3f_pointer by lia.
    cbn [Z.eqb negb]. replace ((192 + i / 256 - 192) * 256 + i mod 256) with i by (Z.div_mod_to_equations; lia).
    exact IH. }
  now rewrite L.
Qed.

(** *** Witnesses *)

(** The name server 10.0.0.3 answers a query for boot.lab with 10.0.0.9. *)
Definition lab : list (list Z) := [txt "boot"%string; txt "lab"%string].
Definition an9 : answer :=
  {| an_f1 := 0x81; an_f2 := 0x80; an_count := (0, 1); an_others := [0; 0; 0; 0]; an_ol := []; an_oe := [0xc0; 12];
     an_ttl := [0; 0; 0; 60]; an_addr := 0x0900000a; an_rest := [] |}.
Definition hd3 : list Z := [2; 0; 0; 0; 0; 1; 2; 0; 0; 0; 0; 3].
Definition dns_frame : list Z := udp_frame hd3 0x0300000a 0x0100000a UDP_PORT_DNS UDP_PORT_DNS (answer_bytes 1 lab an9).
Definition dns_env : Env.
Proof.
  refine {| clock n := Z.of_nat n; rx n := match n with 1%nat => Some dns_frame | _ => None end; kbd _ := None |}.
  intros [|[|n]] bs; [discriminate | | discriminate]; intros [= <-]. unfold dns_frame.
  rewrite udp_frame_length by reflexivity. apply Nat.leb_le. vm_compute. reflexivity.
Defined.
Definition dns_world : world :=
  let w := lacp_init_state [2; 0; 0; 0; 0; 1] world0 in
  set_mm (stn (mm w) 0x50000 (dotted lab))
    (set_arptable (list_set (arptable w) ARP_NAMESERVER {| ipaddr := 0x0300000a; node := [2; 0; 0; 0; 0; 3] |}) w).
Lemma bytesb_ok bs : forallb (fun b => (0 <=? b) && (b <? 256)) bs = true -> Forall (fun b => 0 <= b < 256) bs.
Proof.
  rewrite forallb_forall. intros H. apply Forall_forall. intros b Hb. apply H, andb_true_iff in Hb as [R1 R2].
  split; [now apply Z.leb_le | now apply Z.ltb_lt].
Qed.
Lemma lab_ok : Forall label_ok lab.
Proof.
  repeat constructor; try (vm_compute; discriminate);
    (cbn; repeat (constructor; [lia|]); constructor).
Qed.
Lemma dns_resolves_witness :
  exists w' q k, @donameresolution dns_env 4 0x50000 8 dns_ipaddr dns_world = Some (Ret RET_DNS_OK, w') /\
    inet_aton 65 (mm w') dns_ipaddr = Some (k, Some 0x0900000a) /\ sent w' = [q] /\
    skipn 28 (f_data q) = query_bytes lab.
Proof.
  destruct (@dns_resolves dns_env 3 0x50000 lab dns_ipaddr dns_world 0x0100000a 0x0300000a [2; 0; 0; 0; 0; 3] hd3
              0x0300000a an9) as (w' & q & k & E & I & S & _ & _ & K).
  - split; [|split; [reflexivity|split; [lia|split; [reflexivity|]]]].
    + split; [vm_compute; reflexivity|]. split; [reflexivity|]. split; [reflexivity|]. repeat constructor.
    + split; [lia|]. split; [vm_compute; discriminate|]. split; [vm_compute; reflexivity|].
      eexists. split; [vm_compute; reflexivity|]. split; reflexivity.
  - discriminate.
  - exact lab_ok.
  - vm_compute. discriminate.
  - vm_compute. reflexivity.
  - right. vm_compute. discriminate.
  - reflexivity.
  - reflexivity.
  - reflexivity.
  - constructor; try reflexivity; try (vm_compute; discriminate).
    + constructor.
    + right. exists 0xc0, 12. repeat split; lia.
    + cbn. lia.
    + apply Nat.leb_le. vm_compute. reflexivity.
    + apply bytesb_ok. vm_compute. reflexivity.
  - reflexivity.
  - cbn. lia.
  - cbn. lia.
  - exists w', q, k. split; [exact E|]. split; [exact I|]. split; [exact S|exact K].
Defined.

(** An alias for www.lab, of which only the first label is spelled out. *)
Definition alias_mem : mem :=
  stn (stn (fun _ => 0) (dns_p + 12) [4; 98; 111; 111; 116; 3; 108; 97; 98; 0; 0; 1; 0; 1; 0xc0; 12])
      (dns_p + 28) ([0; 5; 0; 1] ++ [0; 0; 0; 60] ++ [0; 6] ++ [3; 119; 119; 119; 0xc0; 17]).
Lemma dns_alias_followed_witness :
  exists m', dns_answer 8 alias_mem query (dns_p + 28) QUERYTYPE_A = Some (RET_RUN_NEXT_A, m') /\
    ldn m' (query + 12) 9 = [3; 119; 119; 119; 3; 108; 97; 98; 0].
Proof.
  destruct (dns_alias_followed alias_mem (dns_p + 28) QUERYTYPE_A [0; 0; 0; 60] 0 6 [[119; 119; 119]; [108; 97; 98]]
              4 8) as (m' & E & A & _).
  - vm_compute. reflexivity.
  - reflexivity.
  - now left.
  - vm_compute. discriminate.
  - replace (dns_p + 28 + 10 - dns_p) with 38 by reflexivity.
    apply na_label; [vm_compute; reflexivity | split; [cbn; lia|repeat (constructor; [lia|]); constructor] | lia |].
    apply (na_pointer _ _ 17); [vm_compute; reflexivity | vm_compute; reflexivity | lia | cbn; lia |].
    apply na_label; [vm_compute; reflexivity | split; [cbn; lia|repeat (constructor; [lia|]); constructor] | lia |].
    apply na_end; [vm_compute; reflexivity | cbn; lia].
  - lia.
  - exists m'. split; [exact E|exact A].
Defined.
Lemma dns_pointer_loop_witness :
  dns_answer 1000 (stn (fun _ => 0) (dns_p + 28) ([0; 5; 0; 1] ++ [0; 0; 0; 60] ++ [0; 2] ++ [0xc0; 38]))
    query (dns_p + 28) QUERYTYPE_A = None.
Proof.
  apply (dns_pointer_loop _ query (dns_p + 28) QUERYTYPE_A [0; 0; 0; 60]).
  - vm_compute. reflexivity.
  - reflexivity.
  - now left.
  - vm_compute. discriminate.
  - change (dns_p + 28 + 10 - dns_p) with 38. lia.
Defined.
