(* ===== verification/Main.v ===== *)
(** The main program of [src/src/core/main.c]: the restart loop [main_loop] with its states, [main], [exit],
    [in_call] and [cleanup].

    What it calls of the other parts is an interface, the class [Services]: the operations of the device
    classes ([operations]), the functions that a driver installs, relocation, sleeping.  The heap is the
    one of Heap.v and the console's keyboard and the clock are those of the network machine.  A call ends
    by returning or by [longjmp(restart_etherboot, ...)]; a system it starts may never return. *)

From S2P Require Import Prelude Memory Misc Heap Net Lacp Nic.

Definition PROBE_FIRST : Z := -1.
Definition PROBE_NEXT : Z := 0.
Definition PROBE_AWAKE : Z := 1.
Definition PROBE_FAILED : Z := PROBE_FIRST.
Definition PROBE_WORKED : Z := PROBE_NEXT.
Definition BOOT_NIC : Z := 0.
Definition BOOT_DISK : Z := 1.
Definition BOOT_FLOPPY : Z := 2.
Definition BOOT_NOTHING : Z := 3.
Definition BOOT_FAILSAFE : Z := 8.
Definition BOOT_BITS : Z := 4.
Definition BOOT_MASK : Z := 15.
Definition BOOT_TYPE_MASK : Z := 7.
Definition MAX_BOOT_ENTRIES : Z := 3.
Definition ASK_BOOT : Z := 3.
Definition EB_OPCODE_MAIN : Z := 0x0000.
Definition EB_OPCODE_CHECK : Z := 0x6948.
Definition EB_OPCODE_PXE : Z := 0x7850.
Definition EB_CHECK_RESULT : Z := 0x6f486948.

(** What main reads and writes of [struct dev]; the rest is the drivers'. *)
Record dev := { how_probe : Z; dev_type : Z; failsafe : bool; type_index : Z }.
(** The machine below main: [nic.dev] is device 0 and [disk.dev] is device 1; [drv] is what the drivers
    keep to themselves. *)
Record machine := { net : world; hp : heap; devs : nat -> dev; drv : mem }.

(** The end of a call: it returns or jumps; it never returns; or it uses a null pointer or an entry
    beyond the end of a table. *)
Inductive outcome (S A : Type) :=
| Ok (r : res A) (s : S)
| Never
| Crash.
Arguments Ok {S A} r s.
Arguments Never {S A}.
Arguments Crash {S A}.
Definition MM (A : Type) : Type := machine -> outcome machine A.

Class Services := {
  (** [operations\[type\]] on the device structure: [probe], [load_configuration], [load]. *)
  op_probe : Z -> nat -> MM Z;
  op_load_configuration : Z -> nat -> MM Z;
  op_load : Z -> nat -> MM Z;
  (** the options of the build that say what it boots from by default, with the values of [src/src/include/dev.h] *)
  BOOT_FIRST : Z;
  BOOT_SECOND : Z;
  BOOT_THIRD : Z;
  boot_options : 0 <= BOOT_FIRST <= 3 /\ 0 <= BOOT_SECOND <= 3 /\ 0 <= BOOT_THIRD <= 3;
  (** [dev->disable] *)
  dev_disable : nat -> MM unit;
  (** [decode_rfc1533] of the reply that is kept, [relocate], [interruptible_sleep] *)
  reparse_reply : MM unit;
  do_relocate : MM unit;
  interruptible_sleep : Z -> MM unit;
  (** the memory map, and the bounds of Etherboot *)
  memmap : list e820entry;
  text_start : Z;
  text_end : Z;
  virt_off : Z;
}.

(** The calls of device operations that were made, for the statements. *)
Inductive call := CProbe (type how : Z) | CConf (type : Z) | CLoad (type : Z) | CSleep.

(** The static variables of main.c and of [main_loop], with the machine. *)
Record sys := {
  order : Z;
  boot_index : Z;
  cdev : option nat;
  ops : option Z;
  heap_base : Z;
  type : Z;
  bi : Z;
  initialized : bool;
  firsttime : bool;
  exit_status : Z;
  history : list call;
  mach : machine;
}.
Definition set_order v i s := {| order := v; boot_index := i; cdev := cdev s; ops := ops s; heap_base := heap_base s;
  type := type s; bi := bi s; initialized := initialized s; firsttime := firsttime s; exit_status := exit_status s;
  history := history s; mach := mach s |}.
Definition set_cdev v s := {| order := order s; boot_index := boot_index s; cdev := v; ops := ops s;
  heap_base := heap_base s; type := type s; bi := bi s; initialized := initialized s; firsttime := firsttime s;
  exit_status := exit_status s; history := history s; mach := mach s |}.
Definition set_ops v s := {| order := order s; boot_index := boot_index s; cdev := cdev s; ops := v;
  heap_base := heap_base s; type := type s; bi := bi s; initialized := initialized s; firsttime := firsttime s;
  exit_status := exit_status s; history := history s; mach := mach s |}.
Definition set_base v s := {| order := order s; boot_index := boot_index s; cdev := cdev s; ops := ops s;
  heap_base := v; type := type s; bi := bi s; initialized := initialized s; firsttime := firsttime s;
  exit_status := exit_status s; history := history s; mach := mach s |}.
Definition set_type v s := {| order := order s; boot_index := boot_index s; cdev := cdev s; ops := ops s;
  heap_base := heap_base s; type := v; bi := bi s; initialized := initialized s; firsttime := firsttime s;
  exit_status := exit_status s; history := history s; mach := mach s |}.
Definition set_bi v s := {| order := order s; boot_index := boot_index s; cdev := cdev s; ops := ops s;
  heap_base := heap_base s; type := type s; bi := v; initialized := initialized s; firsttime := firsttime s;
  exit_status := exit_status s; history := history s; mach := mach s |}.
Definition set_initialized v s := {| order := order s; boot_index := boot_index s; cdev := cdev s; ops := ops s;
  heap_base := heap_base s; type := type s; bi := bi s; initialized := v; firsttime := firsttime s;
  exit_status := exit_status s; history := history s; mach := mach s |}.
Definition set_firsttime v s := {| order := order s; boot_index := boot_index s; cdev := cdev s; ops := ops s;
  heap_base := heap_base s; type := type s; bi := bi s; initialized := initialized s; firsttime := v;
  exit_status := exit_status s; history := history s; mach := mach s |}.
Definition set_exit v s := {| order := order s; boot_index := boot_index s; cdev := cdev s; ops := ops s;
  heap_base := heap_base s; type := type s; bi := bi s; initialized := initialized s; firsttime := firsttime s;
  exit_status := v; history := history s; mach := mach s |}.
Definition add_call c s := {| order := order s; boot_index := boot_index s; cdev := cdev s; ops := ops s;
  heap_base := heap_base s; type := type s; bi := bi s; initialized := initialized s; firsttime := firsttime s;
  exit_status := exit_status s; history := history s ++ [c]; mach := mach s |}.
Definition set_mach v s := {| order := order s; boot_index := boot_index s; cdev := cdev s; ops := ops s;
  heap_base := heap_base s; type := type s; bi := bi s; initialized := initialized s; firsttime := firsttime s;
  exit_status := exit_status s; history := history s; mach := v |}.

(** *** Sequencing *)
Definition B (A : Type) : Type := sys -> outcome sys A.
Definition bret {A} (a : A) : B A := fun s => Ok (Ret a) s.
Definition bjmp {A} (state : Z) : B A := fun s => Ok (Jmp state) s.
Definition bbind {A C} (c : B A) (k : A -> B C) : B C := fun s =>
  match c s with
  | Ok (Ret a) s => k a s
  | Ok (Jmp j) s => Ok (Jmp j) s
  | Never => Never
  | Crash => Crash
  end.
Definition bcrash {A} : B A := fun _ => Crash.
Definition bget : B sys := fun s => Ok (Ret s) s.
Definition bput (f : sys -> sys) : B unit := fun s => Ok (Ret tt) (f s).
(** A call of something below. *)
Definition call_m {A} (c : MM A) : B A := fun s =>
  match c (mach s) with
  | Ok r x => Ok r (set_mach x s)
  | Never => Never
  | Crash => Crash
  end.
Definition on_net {A} (c : M A) : MM A := fun x =>
  match c (net x) with
  | Some (r, w) => Ok r {| net := w; hp := hp x; devs := devs x; drv := drv x |}
  | None => Never
  end.
Notation "x <-- c ;; k" := (bbind c (fun x => k)) (at level 61, c at next level, right associativity) : etherboot_scope.
Notation "c ;;;; k" := (bbind c (fun _ => k)) (at level 61, right associativity) : etherboot_scope.
Local Open Scope etherboot_scope.

Section main.
Context `{E : Env} `{S : Services}.

(** The number of entries of [operations]: those of the disk and the floppy are compiled in when one of the options names them. *)
Definition noperations : Z :=
  if existsb (fun t => (t =? BOOT_DISK) || (t =? BOOT_FLOPPY)) [BOOT_FIRST; BOOT_SECOND; BOOT_THIRD] then 3 else 1.

(** *** Devices and the heap *)
Definition upd_dev (d : nat) (f : dev -> dev) : B unit :=
  bput (fun s => let x := mach s in
    set_mach {| net := net x; hp := hp x;
                devs := fun k => if Nat.eqb k d then f (devs x k) else devs x k; drv := drv x |} s).
Definition set_how (v : Z) (d : dev) : dev :=
  {| how_probe := v; dev_type := dev_type d; failsafe := failsafe d; type_index := type_index d |}.
Definition allot_base : B unit :=
  bput (fun s =>
    let x := mach s in
    let '(m, h, p) := allot virt_off (mm (net x)) (hp x) 0 in
    set_base p (set_mach {| net := set_mm m (net x); hp := h; devs := devs x; drv := drv x |} s)).
Definition forget_base : B unit :=
  bput (fun s =>
    let x := mach s in
    set_mach {| net := net x; hp := forget virt_off (mm (net x)) (hp x) (heap_base s); devs := devs x; drv := drv x |} s).
Definition eth_disable (fuel : nat) : B unit :=
  call_m (on_net (leave_group (ip_transmit fuel) 0)) ;;;; call_m (dev_disable 0).
Definition disk_disable : B unit := call_m (dev_disable 1).
Definition cleanup (fuel : nat) : B unit :=
  eth_disable fuel ;;;; disk_disable ;;;; bput (set_initialized false).
(** [exit_ok] is set before the loop starts. *)
Definition exit_ {A} (status : Z) : B A := bput (set_exit status) ;;;; bjmp 255.

Definition do_init_heap : B unit :=
  s <-- bget ;;
  let x := mach s in
  match init_heap text_start text_end memmap (hp x) with
  | Some h => bput (set_mach {| net := net x; hp := h; devs := devs x; drv := drv x |})
  | None => exit_ 1
  end.

(** [ask_boot]: the wait for a key, and the choice. *)
Fixpoint ask_wait (fuel : nat) (time : Z) : M Z :=
  match fuel with
  | O => oof
  | Datatypes.S n => fun w =>
      let w' := set_cnt_kbd (Datatypes.S (cnt_kbd w)) w in
      match kbd (cnt_kbd w) with
      | Some c => Some (Ret c, w')
      | None => bind currticks (fun t => if t >? time then ret 10 else ask_wait n time) w'
      end
  end.
Definition DEFAULT_BOOT_ORDER : Z :=
  Z.lor (Z.lor (Z.lor (Z.shiftl BOOT_FIRST (0 * BOOT_BITS)) (Z.shiftl BOOT_SECOND (1 * BOOT_BITS))) (Z.shiftl BOOT_THIRD (2 * BOOT_BITS)))
        (Z.shiftl BOOT_NOTHING (3 * BOOT_BITS)).
Definition single (t : Z) : Z := Z.lor t (Z.shiftl BOOT_NOTHING BOOT_BITS).
Definition choice (c : Z) : option Z :=
  let c := if (c >=? 97) && (c <=? 122) then Z.land c 0x5f else c in
  if c =? 81 then Some BOOT_NOTHING
  else if c =? 10 then Some DEFAULT_BOOT_ORDER
  else if c =? 78 then Some (single BOOT_NIC)
  else if c =? 68 then Some (single BOOT_DISK)
  else if c =? 70 then Some (single BOOT_FLOPPY)
  else None.
Fixpoint ask_loop (fuel : nat) : M Z :=
  match fuel with
  | O => oof
  | Datatypes.S n =>
      bind currticks (fun t =>
      bind (ask_wait n (u32 (t + ASK_BOOT * TICKS_PER_SEC))) (fun c =>
      match choice c with
      | Some o => ret o
      | None => ask_loop n
      end))
  end.
Definition ask_boot (fuel : nat) : B unit :=
  o <-- call_m (on_net (ask_loop fuel)) ;; bput (set_order o 0).

(** *** [main_loop] *)
Definition wake (state : Z) : B Z :=
  s <-- bget ;;
  if initialized s then bret state
  else
    bput (set_initialized true) ;;;;
    match cdev s with
    | Some d =>
        if (state >=? 1) && (state <=? 2) then
          upd_dev d (set_how PROBE_AWAKE) ;;;;
          match ops s with
          | None => bcrash
          | Some t =>
              bput (add_call (CProbe t PROBE_AWAKE)) ;;;;
              r <-- call_m (op_probe t d) ;;
              upd_dev d (set_how r) ;;;;
              let state := if r =? PROBE_FAILED then -1 else state in
              if state =? 1 then call_m reparse_reply ;;;; bret state else bret state
          end
        else bret state
    | None => bret state
    end.
Definition state_0 (fuel : nat) : B Z :=
  s <-- bget ;;
  (if firsttime s then
     call_m do_relocate ;;;; cleanup fuel ;;;; do_init_heap ;;;; bput (set_firsttime false)
   else bret tt) ;;;;
  allot_base ;;;;
  bput (fun s => set_cdev None (set_bi (-1) s)) ;;;;
  ask_boot fuel ;;;;
  bret 4.
Definition dev_of_type (t : Z) : nat := if t =? BOOT_NIC then 0%nat else 1%nat.
Definition state_4 (fuel : nat) : B Z :=
  cleanup fuel ;;;;
  forget_base ;;;;
  s <-- bget ;;
  match cdev s with
  | Some d => upd_dev d (set_how PROBE_NEXT) ;;;; bret 3
  | None =>
      let i := bi s + 1 in
      let boot := Z.land (Z.shiftr (order s) (i * BOOT_BITS)) BOOT_MASK in
      let t := if i >=? MAX_BOOT_ENTRIES then BOOT_NOTHING else Z.land boot BOOT_TYPE_MASK in
      bput (fun s => set_type t (set_bi i s)) ;;;;
      if (i =? 0) && (t =? BOOT_NOTHING) then exit_ 0
      else if t >=? BOOT_NOTHING then
        bput (add_call CSleep) ;;;; call_m (interruptible_sleep 2) ;;;; bret 0
      else if t >=? noperations then bcrash
      else
        let d := dev_of_type t in
        bput (fun s => set_cdev (Some d) (set_ops (Some t) s)) ;;;;
        upd_dev d (fun _ => {| how_probe := PROBE_FIRST; dev_type := t;
                               failsafe := negb (Z.land boot BOOT_FAILSAFE =? 0); type_index := 0 |}) ;;;;
        bret 3
  end.
Definition state_3 : B Z :=
  allot_base ;;;;
  s <-- bget ;;
  match cdev s, ops s with
  | Some d, Some t =>
      bput (add_call (CProbe t (how_probe (devs (mach s) d)))) ;;;;
      r <-- call_m (op_probe t d) ;;
      upd_dev d (set_how r) ;;;;
      s <-- bget ;;
      if r =? PROBE_FAILED then bput (set_cdev None) ;;;; bret 4
      else if negb (boot_index s =? 0) && (bi s =? 0) && negb (boot_index s =? u32 (type_index (devs (mach s) d)))
      then bret 4
      else bret 2
  | _, _ => bcrash
  end.
Definition state_2 : B Z :=
  s <-- bget ;;
  match cdev s, ops s with
  | Some d, Some t =>
      bput (add_call (CConf t)) ;;;;
      r <-- call_m (op_load_configuration t d) ;;
      bret (if r >=? 0 then 1 else -1)
  | _, _ => bcrash
  end.
Definition state_1 : B Z :=
  s <-- bget ;;
  match cdev s, ops s with
  | Some d, Some t =>
      bput (add_call (CLoad t)) ;;;;
      r <-- call_m (op_load t d) ;; bret (-1)
  | _, _ => bcrash
  end.
Definition main_loop (fuel : nat) (state : Z) : B Z :=
  state <-- wake state ;;
  if state =? 0 then state_0 fuel
  else if state =? 4 then state_4 fuel
  else if state =? 3 then state_3
  else if state =? 2 then state_2
  else if state =? 1 then state_1
  else if state =? 256 then bret 0
  else
    (if state =? -3 then bput (fun s => set_type BOOT_NOTHING (set_bi MAX_BOOT_ENTRIES s)) else bret tt) ;;;;
    s <-- bget ;;
    bret (if (type s >=? BOOT_NOTHING) || (bi s >=? MAX_BOOT_ENTRIES) then 0 else 4).

(** What [setjmp] returns for a jump with [v]. *)
Definition setjmp_value (v : Z) : Z := if v =? 0 then 1 else v.
(** One round of the loop in [main]: a jump comes back to it. *)
Definition round (fuel : nat) (state : Z) (s : sys) : outcome sys Z :=
  match main_loop fuel state s with
  | Ok (Ret st) s => Ok (Ret st) s
  | Ok (Jmp v) s => Ok (Ret (setjmp_value v)) s
  | Never => Never
  | Crash => Crash
  end.
(** [k] rounds at most; the state in which it stopped. *)
Fixpoint rounds (k fuel : nat) (state : Z) (s : sys) : outcome sys Z :=
  match k with
  | O => Ok (Ret state) s
  | Datatypes.S k' =>
      if state =? 255 then Ok (Ret state) s
      else match round fuel state s with
           | Ok (Ret st) s => rounds k' fuel st s
           | r => r
           end
  end.

(** [in_call], with [main] and [pxe_in_call] as the services they are; the result and the flag
    [as_main_program] that is left. *)
Definition in_call {A} (run_main run_pxe : Z -> A -> Z * A) (opcode : Z) (as_main_program : Z) (a : A) : Z * Z * A :=
  let old_as_main_program := as_main_program in
  let op := Z.land opcode 0xffff in
  let '(r, a) :=
    if op =? EB_OPCODE_CHECK then (EB_CHECK_RESULT, a)
    else if op =? EB_OPCODE_MAIN then run_main 1 a
    else if op =? EB_OPCODE_PXE then run_pxe 0 a
    else (-1, a) in
  (r, old_as_main_program, a).
End main.

(** ** Lemmas *)

Ltac brun :=
  unfold round, main_loop, wake, state_0, state_1, state_2, state_3, state_4, cleanup, eth_disable, disk_disable,
    ask_boot, allot_base, forget_base, upd_dev, exit_, call_m, on_net, bbind, bret, bput, bget, bjmp, bcrash;
  cbv beta iota.

(** *** Where the network code jumps to *)

(** A call that is left only for the states of an interruption from the keyboard. *)
Definition interrupted {A} (c : M A) : Prop := forall w j w', c w = Some (Jmp j, w') -> j = -1 \/ j = -3.
Lemma int_ret {A} (a : A) : interrupted (ret a).
Proof. intros w j w' [=]. Qed.
Lemma int_oof {A} : interrupted (@oof A).
Proof. intros w j w' [=]. Qed.
Lemma int_get : interrupted get.
Proof. intros w j w' [=]. Qed.
Lemma int_modify f : interrupted (modify f).
Proof. intros w j w' [=]. Qed.
Lemma int_bind {A C} (c : M A) (k : A -> M C) : interrupted c -> (forall a, interrupted (k a)) -> interrupted (bind c k).
Proof.
  intros Hc Hk w j w'. unfold bind. destruct (c w) as [[[a|v] w1]|] eqn:Ec; [apply Hk | | discriminate].
  intros [= <- <-]. exact (Hc _ _ _ Ec).
Qed.
Create HintDb jumps.
#[local] Hint Resolve int_ret int_oof int_get int_modify : jumps.
Ltac jumps :=
  repeat first
    [ match goal with |- forall _, _ => intro end
    | solve [auto with jumps]
    | apply int_bind
    | progress cbv zeta
    | match goal with
      | |- interrupted (if ?b then _ else _) => destruct b
      | |- interrupted (match ?x with _ => _ end) => destruct x
      | |- interrupted (let '(_, _) := ?x in _) => destruct x
      end ].

Section jumps.
Context `{E : Env} `{S : Services}.
Lemma int_currticks : interrupted currticks.
Proof. intros w j w' [=]. Qed.
Lemma int_eth_poll : interrupted eth_poll.
Proof. intros w j w'. unfold eth_poll. destruct (rx (cnt_rx w)); discriminate. Qed.
Lemma int_poll : interrupted net_poll_interruptions.
Proof.
  intros w j w'. unfold net_poll_interruptions, poll_interruptions. destruct (kbd (cnt_kbd w)) as [c|]; [|discriminate].
  repeat match goal with |- context [if ?b then _ else _] => destruct b end; intros [= <- _]; auto.
Qed.
#[local] Hint Resolve int_currticks int_eth_poll int_poll : jumps.
Lemma int_rfc2131 b e : interrupted (rfc2131_sleep_interval b e).
Proof. unfold rfc2131_sleep_interval, net_random. jumps. Qed.
Lemma int_rfc1112 b e : interrupted (rfc1112_sleep_interval b e).
Proof. unfold rfc1112_sleep_interval, net_random. jumps. Qed.
#[local] Hint Resolve int_rfc2131 int_rfc1112 : jumps.
Lemma int_transmit d t n p : interrupted (eth_transmit d t n p).
Proof. apply int_modify. Qed.
Lemma int_set_mem f : interrupted (set_mem f).
Proof. apply int_modify. Qed.
#[local] Hint Resolve int_transmit int_set_mem : jumps.
Lemma int_await_arp e b info : interrupted (await_arp e b info).
Proof. unfold await_arp, set_arp. jumps. Qed.
#[local] Hint Resolve int_await_arp : jumps.
Lemma int_arp_retry aw e b : (forall rp t, (forall info, interrupted (rp info)) -> interrupted (aw rp t)) -> forall k r, interrupted (arp_retry aw e b r k).
Proof. intros Ha k. induction k as [|k IH]; intros r; cbn [arp_retry]; jumps. Qed.
Lemma int_ip_transmit_with aw len buf :
  (forall rp t, (forall info, interrupted (rp info)) -> interrupted (aw rp t)) -> interrupted (ip_transmit_with aw len buf).
Proof.
  intros Ha. pose proof (fun e b k r => int_arp_retry aw e b Ha k r) as Hr. unfold ip_transmit_with. jumps.
Qed.
Lemma int_igmp_loop tx now : (forall l b, interrupted (tx l b)) -> forall k i, interrupted (send_igmp_loop tx now i k).
Proof. intros Ht k. induction k as [|k IH]; intros i; cbn [send_igmp_loop]; unfold set_igmp; jumps. Qed.
Lemma int_query_loop g iv : forall k i, interrupted (igmp_query_loop g iv i k).
Proof. intros k. induction k as [|k IH]; intros i; cbn [igmp_query_loop]; unfold set_igmp; jumps. Qed.
#[local] Hint Resolve int_query_loop : jumps.
Lemma int_await_loop n : forall rp time timeout, (forall info, interrupted (rp info)) -> interrupted (await_loop n rp time timeout).
Proof.
  induction n as [|n IH]; intros rp time timeout Hr; cbn [await_loop]; [apply int_oof|].
  assert (Ht : forall l b, interrupted (ip_transmit_with (fun rp tmo =>
    bind currticks (fun t => await_loop n rp (u32 (tmo + t)) tmo)) l b)) by (intros; apply int_ip_transmit_with; jumps).
  pose proof (fun now => int_igmp_loop _ now Ht) as Hl. unfold send_igmp_reports, arp_default, process_igmp. jumps.
Qed.
Lemma int_leave_group n i : interrupted (leave_group (ip_transmit n) i).
Proof.
  assert (Ht : forall l b, interrupted (ip_transmit n l b)).
  { intros. apply int_ip_transmit_with. intros. unfold await_reply. pose proof (int_await_loop n). jumps. }
  unfold leave_group, set_igmp. jumps.
Qed.
Lemma int_ask_wait n : forall time, interrupted (ask_wait n time).
Proof.
  induction n as [|n IH]; intros time w j w'; cbn [ask_wait]; [discriminate|].
  destruct (kbd (cnt_kbd w)); [discriminate|]. revert w'. generalize (set_cnt_kbd (Datatypes.S (cnt_kbd w)) w).
  intros w0 w'. apply int_bind; jumps.
Qed.
Lemma int_ask_loop n : interrupted (ask_loop n).
Proof. pose proof int_ask_wait. induction n as [|n IH]; cbn [ask_loop]; jumps. Qed.
End jumps.

(** *** The orders that can be chosen *)

(** The type of an entry of an order. *)
Definition entry (o i : Z) : Z := Z.land (Z.land (Z.shiftr o (i * BOOT_BITS)) BOOT_MASK) BOOT_TYPE_MASK.
Section orders.
Context `{E : Env} `{S : Services}.
(** What the prompt promises: the types tried after the key [c]: those of the build up to the first BOOT_NOTHING for the Enter key, one for
    N, D and F, none for Q. *)
Fixpoint before_nothing (l : list Z) : list Z :=
  match l with
  | [] => []
  | t :: l => if t =? 3 then [] else t :: before_nothing l
  end.
Definition wanted (c : Z) : option (list Z) :=
  if c =? 10 then Some (before_nothing [BOOT_FIRST; BOOT_SECOND; BOOT_THIRD])
  else if (c =? 78) || (c =? 110) then Some [0]
  else if (c =? 68) || (c =? 100) then Some [1]
  else if (c =? 70) || (c =? 102) then Some [2]
  else if (c =? 81) || (c =? 113) then Some []
  else None.
(** The build can boot from the types asked for. *)
Definition orderly (o : Z) : Prop := forall i, 0 <= i < 3 -> entry o i < 3 -> entry o i < noperations.
Lemma default_entries : entry DEFAULT_BOOT_ORDER 0 = BOOT_FIRST /\ entry DEFAULT_BOOT_ORDER 1 = BOOT_SECOND /\ entry DEFAULT_BOOT_ORDER 2 = BOOT_THIRD.
Proof.
  unfold DEFAULT_BOOT_ORDER. destruct boot_options as (H1 & H2 & H3). generalize dependent BOOT_FIRST. generalize dependent BOOT_SECOND. generalize dependent BOOT_THIRD.
  intros z Hz y Hy x Hx. assert (Cx : x = 0 \/ x = 1 \/ x = 2 \/ x = 3) by lia. assert (Cy : y = 0 \/ y = 1 \/ y = 2 \/ y = 3) by lia.
  assert (Cz : z = 0 \/ z = 1 \/ z = 2 \/ z = 3) by lia.
  destruct Cx as [-> | [-> | [-> | ->]]]; destruct Cy as [-> | [-> | [-> | ->]]]; destruct Cz as [-> | [-> | [-> | ->]]]; vm_compute; auto.
Qed.
Lemma default_orderly : orderly DEFAULT_BOOT_ORDER.
Proof.
  destruct default_entries as (E0 & E1 & E2). destruct boot_options as (H1 & H2 & H3). intros i Hi.
  assert (Hb : forall t, In t [BOOT_FIRST; BOOT_SECOND; BOOT_THIRD] -> 0 <= t -> t < 3 -> t < noperations).
  { intros t Ht H0 Hn. unfold noperations. destruct (existsb _ _) eqn:Ex; [lia|].
    destruct (Z.eq_dec t 0) as [->|Hz]; [lia|]. exfalso. enough (Y : true = false) by discriminate. rewrite <- Ex. symmetry.
    apply existsb_exists. exists t. split; [exact Ht|]. unfold BOOT_DISK, BOOT_FLOPPY. destruct (Z.eqb_spec t 1), (Z.eqb_spec t 2); cbn; lia. }
  assert (Ci : i = 0 \/ i = 1 \/ i = 2) by lia. destruct Ci as [-> | [-> | ->]]; rewrite ?E0, ?E1, ?E2; intros Hn; apply Hb; cbn; tauto.
Qed.
Lemma single_entries t : 0 <= t < 3 -> entry (single t) 0 = t /\ entry (single t) 1 = 3 /\ entry (single t) 2 = 0.
Proof. intros Ht. assert (Ct : t = 0 \/ t = 1 \/ t = 2) by lia. destruct Ct as [-> | [-> | ->]]; vm_compute; auto. Qed.
Lemma nic_built : 1 <= noperations.
Proof. unfold noperations. destruct (existsb _ _); lia. Qed.
Lemma noperations_cases : noperations = 1 \/ noperations = 3.
Proof. unfold noperations. destruct (existsb _ _); auto. Qed.
(** The order of the code is the one promised; with D and F only in a build that has disks. *)
Lemma choice_cases c o : choice c = Some o ->
  (o = DEFAULT_BOOT_ORDER /\ c = 10) \/ (o = BOOT_NOTHING /\ (c = 81 \/ c = 113)) \/
  (o = single 0 /\ (c = 78 \/ c = 110)) \/ (o = single 1 /\ (c = 68 \/ c = 100)) \/ (o = single 2 /\ (c = 70 \/ c = 102)).
Proof.
  unfold choice. assert (Hup : (c >=? 97) && (c <=? 122) = true -> Z.land c 0x5f = c - 32).
  { intros H. apply andb_prop in H as (H1 & H2). apply Z.geb_le in H1. apply Z.leb_le in H2. apply Z.eqb_eq.
    assert (H : (c <? 97) || (Z.land c 0x5f =? c - 32) = true)
      by (apply (all_below_spec 123 (fun c => (c <? 97) || (Z.land c 0x5f =? c - 32))); [vm_compute; reflexivity|lia]).
    destruct (Z.ltb_spec c 97); [lia|exact H]. }
  destruct ((c >=? 97) && (c <=? 122)) eqn:Eu.
  - rewrite (Hup eq_refl). apply andb_prop in Eu as (H1 & H2). apply Z.geb_le in H1. apply Z.leb_le in H2.
    repeat case_test; intros [= <-]; first [lia | right; unfold BOOT_NIC, BOOT_DISK, BOOT_FLOPPY; intuition lia].
  - repeat case_test; intros [= <-]; unfold BOOT_NIC, BOOT_DISK, BOOT_FLOPPY; intuition lia.
Qed.
Lemma choice_orderly c o : choice c = Some o -> noperations = 3 \/ ~ In c [68; 70; 100; 102] -> orderly o.
Proof.
  intros Hc Hn. assert (Hs : forall t, 0 <= t < 3 -> t < noperations -> orderly (single t)).
  { intros t Ht Hb i Hi He. destruct (single_entries t Ht) as (E0 & E1 & E2). pose proof nic_built.
    assert (Ci : i = 0 \/ i = 1 \/ i = 2) by lia. destruct Ci as [-> | [-> | ->]]; rewrite ?E0, ?E1, ?E2 in *; lia. }
  pose proof nic_built.
  destruct (choice_cases c o Hc) as [(-> & _)|[(-> & _)|[(-> & _)|[(-> & Hd)|(-> & Hd)]]]]; [apply default_orderly| |apply Hs; lia| |].
  - intros i Hi He. assert (Ci : i = 0 \/ i = 1 \/ i = 2) by lia. destruct Ci as [-> | [-> | ->]];
      [change (entry BOOT_NOTHING 0) with 3 in *|change (entry BOOT_NOTHING 1) with 0 in *|change (entry BOOT_NOTHING 2) with 0 in *]; lia.
  - apply Hs; [lia|]. destruct Hn as [->|Hn]; [lia|]. exfalso. apply Hn. cbn. destruct Hd as [-> | ->]; auto.
  - apply Hs; [lia|]. destruct Hn as [->|Hn]; [lia|]. exfalso. apply Hn. cbn. destruct Hd as [-> | ->]; auto.
Qed.
End orders.

(** *** A round with devices that do not boot *)

Section failing.
Context `{E : Env} `{S : Services}.
(** [nd t] devices of type [t], each found by one probe after the last one; [good t p] says whether the
    [p]-th is configured. *)
Context (nd : Z -> nat) (good : Z -> nat -> bool) (pos : mem -> nat).

(** No multicast group is joined while the loop runs. *)
Definition calm (x : machine) : Prop := group (igmp_at (net x) 0) = 0.
(** What such devices promise to main. *)
Class Failing : Prop := {
  f_probe : forall t d x, calm x ->
    let p := if how_probe (devs x d) =? PROBE_FIRST then O else pos (drv x) in
    exists x', op_probe t d x = Ok (Ret (if (p <? nd t)%nat then PROBE_WORKED else PROBE_FAILED)) x' /\
      calm x' /\ ((p < nd t)%nat -> pos (drv x') = Datatypes.S p);
  f_conf : forall t d x, calm x ->
    exists x', op_load_configuration t d x = Ok (if good t (pos (drv x)) then Ret 0 else Jmp (-1)) x' /\
      calm x' /\ pos (drv x') = pos (drv x);
  f_load : forall t d x, calm x ->
    exists r x', op_load t d x = Ok r x' /\ (r = Jmp (-1) \/ r = Jmp (-2) \/ exists v, r = Ret v) /\
      calm x' /\ pos (drv x') = pos (drv x);
  f_disable : forall d x, calm x -> exists x', dev_disable d x = Ok (Ret tt) x' /\ calm x' /\ pos (drv x') = pos (drv x);
  f_sleep : forall k x, calm x -> exists x', interruptible_sleep k x = Ok (Ret tt) x' /\ calm x';
}.
Context `{F : Failing}.

(** The calls that are expected. *)
Definition attempt (t : Z) (p : nat) : list call := CConf t :: (if good t p then [CLoad t] else []).
Definition type_calls (t : Z) : list call :=
  CProbe t PROBE_FIRST :: flat_map (fun p => attempt t p ++ [CProbe t PROBE_NEXT]) (seq 1 (nd t)).
Fixpoint round_calls (o i : Z) (k : nat) : list call :=
  match k with
  | O => [CSleep]
  | Datatypes.S k' =>
      if entry o i >=? BOOT_NOTHING then [CSleep] else type_calls (entry o i) ++ round_calls o (i + 1) k'
  end.

Record between (s : sys) (o i : Z) (h : list call) : Prop := {
  b_order : order s = o;
  b_index : boot_index s = 0;
  b_bi : bi s = i;
  b_first : firsttime s = false;
  b_history : history s = h;
  b_calm : calm (mach s);
}.
Record trying (s : sys) (t : Z) (o i : Z) (h : list call) : Prop := {
  t_between : between s o i h;
  t_dev : cdev s = Some (dev_of_type t);
  t_ops : ops s = Some t;
  t_type : type s = t;
  t_range : 0 <= t < 3;
  t_bi : 0 <= i < 3;
}.

Lemma leave_none fuel w : group (igmp_at w 0) = 0 ->
  leave_group (ip_transmit fuel) 0 w = Some (Ret tt, set_igmptable (list_set (igmptable w) 0 {| group := 0; time := 0 |}) w).
Proof. intros H. unfold leave_group. run. now rewrite H. Qed.
Lemma cleanup_calm fuel s : calm (mach s) ->
  exists x, cleanup fuel s = Ok (Ret tt) (set_initialized false (set_mach x s)) /\ calm x /\
    pos (drv x) = pos (drv (mach s)).
Proof.
  intros Hc. brun. rewrite leave_none by exact Hc. cbv beta iota.
  set (x1 := {| net := _; hp := _; devs := _; drv := _ |}).
  assert (C1 : calm x1).
  { subst x1. unfold calm, igmp_at in *. cbn [net igmptable set_igmptable].
    destruct (igmptable (net (mach s))); [exact Hc|reflexivity]. }
  cbn [mach set_mach]. destruct (f_disable 0%nat x1 C1) as (x2 & -> & C2 & P2). cbn [mach set_mach].
  destruct (f_disable 1%nat x2 C2) as (x3 & -> & C3 & P3). exists x3. split; [reflexivity|].
  split; [exact C3|]. now rewrite P3, P2.
Qed.

Lemma wake_idle state s : state < 1 \/ 2 < state \/ initialized s = true ->
  wake state s = Ok (Ret state) (set_initialized true s).
Proof.
  intros H. brun. destruct (initialized s) eqn:Ei; [destruct s; cbn in *; now subst|].
  cbn [cdev set_initialized]. destruct (cdev s); [|reflexivity]. rewrite Z.geb_leb.
  destruct (Z.leb_spec 1 state); [|reflexivity]. destruct (Z.leb_spec state 2); [|reflexivity].
  cbn [andb]. destruct H as [|[|]]; [lia|lia|discriminate].
Qed.

Lemma round_probe fuel s t o i h : trying s t o i h ->
  let how := how_probe (devs (mach s) (dev_of_type t)) in
  let p := if how =? PROBE_FIRST then O else pos (drv (mach s)) in
  exists s', round fuel 3 s = Ok (Ret (if (p <? nd t)%nat then 2 else 4)) s' /\
    if (p <? nd t)%nat
    then trying s' t o i (h ++ [CProbe t how]) /\ initialized s' = true /\ pos (drv (mach s')) = Datatypes.S p
    else between s' o i (h ++ [CProbe t how]) /\ cdev s' = None.
Proof.
  intros [[] ? ? ? ? ?] how p. unfold round, main_loop, bbind at 1.
  rewrite wake_idle by (right; left; lia). cbn [Z.eqb Pos.eqb].
  unfold state_3, allot_base. brun. cbn [mach set_initialized].
  destruct (allot _ _ _ 0) as [[m h'] b] eqn:Ea. cbn [cdev ops set_base set_mach set_initialized mach devs add_call].
  rewrite t_dev0, t_ops0. fold how. cbn [mach set_base set_mach set_initialized add_call].
  set (x := {| net := _; hp := _; devs := _; drv := _ |}).
  destruct (f_probe t (dev_of_type t) x) as (x' & E1 & C1 & P1); [exact b_calm0|].
  change (how_probe (devs x (dev_of_type t))) with how in *. change (drv x) with (drv (mach s)) in *. fold p in E1, P1.
  rewrite E1. destruct (Nat.ltb_spec p (nd t)) as [Hp|Hp].
  - eexists. cbn [Z.eqb PROBE_FAILED PROBE_WORKED PROBE_FIRST PROBE_NEXT mach set_mach boot_index set_initialized
      set_base add_call]. rewrite b_index0. cbn [Z.eqb negb andb]. split; [reflexivity|].
    split; [|split; [reflexivity|exact (P1 Hp)]]. repeat (split; try assumption).
    cbn [history set_mach add_call set_base set_initialized]. now rewrite b_history0.
  - eexists. cbn [Z.eqb PROBE_FAILED PROBE_WORKED PROBE_FIRST PROBE_NEXT]. split; [reflexivity|].
    split; [|reflexivity]. repeat (split; try assumption).
    cbn [history set_cdev set_mach add_call set_base set_initialized]. now rewrite b_history0.
Qed.

Lemma round_conf fuel s t o i h : trying s t o i h -> initialized s = true ->
  let p := pos (drv (mach s)) in
  exists s', round fuel 2 s = Ok (Ret (if good t p then 1 else -1)) s' /\ trying s' t o i (h ++ [CConf t]) /\
    initialized s' = true /\ pos (drv (mach s')) = p.
Proof.
  intros [[] ? ? ? ? ?] Hi p. unfold round, main_loop, bbind at 1.
  rewrite wake_idle by auto. cbn [Z.eqb Pos.eqb]. brun. cbn [cdev ops set_initialized mach add_call].
  rewrite t_dev0, t_ops0. destruct (f_conf t (dev_of_type t) (mach s) b_calm0) as (x' & E1 & C1 & P1).
  cbn [mach add_call set_initialized]. rewrite E1. fold p. eexists. split; [destruct (good t p); reflexivity|].
  split; [|split; [reflexivity|exact P1]]. repeat (split; try assumption).
  cbn [history set_mach add_call set_initialized]. now rewrite b_history0.
Qed.

Lemma round_load fuel s t o i h : trying s t o i h -> initialized s = true ->
  exists s' st, round fuel 1 s = Ok (Ret st) s' /\ (st = -1 \/ st = -2) /\ trying s' t o i (h ++ [CLoad t]) /\
    initialized s' = true /\ pos (drv (mach s')) = pos (drv (mach s)).
Proof.
  intros [[] ? ? ? ? ?] Hi. unfold round, main_loop, bbind at 1.
  rewrite wake_idle by auto. cbn [Z.eqb Pos.eqb]. brun. cbn [cdev ops set_initialized mach add_call].
  rewrite t_dev0, t_ops0. destruct (f_load t (dev_of_type t) (mach s) b_calm0) as (r & x' & E1 & R1 & C1 & P1).
  cbn [mach add_call set_initialized]. rewrite E1.
  destruct R1 as [->|[->|(v & ->)]]; do 2 eexists; (split; [reflexivity|]; split; [cbn; tauto|];
    split; [|split; [reflexivity|exact P1]]; repeat (split; try assumption);
    cbn [history set_mach add_call set_initialized]; now rewrite b_history0).
Qed.

Lemma round_abort fuel s t o i h st : trying s t o i h -> st = -1 \/ st = -2 ->
  exists s', round fuel st s = Ok (Ret 4) s' /\ trying s' t o i h /\ mach s' = mach s.
Proof.
  intros [[] ? ? ? ? ?] Hs. unfold round, main_loop, bbind at 1. rewrite wake_idle by lia.
  exists (set_initialized true s). split; [|split; [|reflexivity]].
  - destruct Hs as [-> | ->]; cbn [Z.eqb Pos.eqb]; brun; cbn [type bi set_initialized];
      rewrite t_type0, b_bi0, !Z.geb_leb; unfold BOOT_NOTHING, MAX_BOOT_ENTRIES;
      (destruct (Z.leb_spec 3 t); [lia|]); (destruct (Z.leb_spec 3 i); [lia|]); reflexivity.
  - repeat (split; try assumption).
Qed.

Lemma round_next fuel s t o i h : trying s t o i h ->
  exists s', round fuel 4 s = Ok (Ret 3) s' /\ trying s' t o i h /\
    how_probe (devs (mach s') (dev_of_type t)) = PROBE_NEXT /\ pos (drv (mach s')) = pos (drv (mach s)).
Proof.
  intros [[] ? ? ? ? ?]. unfold round, main_loop, bbind at 1. rewrite wake_idle by lia. cbn [Z.eqb Pos.eqb].
  unfold state_4, bbind at 1.
  destruct (cleanup_calm fuel (set_initialized true s) b_calm0) as (x & -> & C & P).
  brun. cbn [cdev set_initialized set_mach mach]. rewrite t_dev0. eexists. split; [reflexivity|].
  split; [|split; [|exact P]].
  - repeat (split; try assumption).
  - cbn [mach set_mach devs]. now rewrite Nat.eqb_refl.
Qed.

(** *** Several rounds *)
Definition runs (fuel : nat) (st : Z) (s : sys) (st' : Z) (s' : sys) : Prop :=
  exists k, forall k', rounds (k + k') fuel st s = rounds k' fuel st' s'.
Lemma runs_refl fuel st s : runs fuel st s st s.
Proof. now exists O. Qed.
Lemma runs_trans fuel st s st1 s1 st2 s2 : runs fuel st s st1 s1 -> runs fuel st1 s1 st2 s2 -> runs fuel st s st2 s2.
Proof. intros (a & A) (b & C). exists (a + b)%nat. intros k'. now rewrite <- Nat.add_assoc, A, C. Qed.
Lemma runs_one fuel st s st' s' : st <> 255 -> round fuel st s = Ok (Ret st') s' -> runs fuel st s st' s'.
Proof. intros H E1. exists 1%nat. intros k'. cbn [rounds Nat.add]. apply Z.eqb_neq in H. now rewrite H, E1. Qed.

Lemma type_loop fuel n : forall s t o i h q,
  n = (nd t - q)%nat -> (q <= nd t)%nat -> trying s t o i h ->
  let how := how_probe (devs (mach s) (dev_of_type t)) in
  (if how =? PROBE_FIRST then O else pos (drv (mach s))) = q ->
  exists s', runs fuel 3 s 4 s' /\ cdev s' = None /\
    between s' o i (h ++ CProbe t how :: flat_map (fun p => attempt t p ++ [CProbe t PROBE_NEXT]) (seq (Datatypes.S q) n)).
Proof.
  induction n as [|n IH]; intros s t o i h q Hn Hq T how Hp;
    destruct (round_probe fuel s t o i h T) as (s1 & E1 & R1); fold how in E1, R1; rewrite Hp in E1, R1;
    destruct (Nat.ltb_spec q (nd t)) as [L|L]; try lia.
  - destruct R1 as (B1 & D1). exists s1. split; [now apply runs_one|]. split; [exact D1|exact B1].
  - destruct R1 as (T1 & I1 & P1).
    destruct (round_conf fuel s1 t o i _ T1 I1) as (s2 & E2 & T2 & I2 & P2). rewrite P1 in E2, P2.
    assert (A : exists s3, runs fuel 3 s 4 s3 /\ trying s3 t o i ((h ++ [CProbe t how]) ++ attempt t (Datatypes.S q)) /\
                  pos (drv (mach s3)) = Datatypes.S q).
    { unfold attempt. destruct (good t (Datatypes.S q)).
      - destruct (round_load fuel s2 t o i _ T2 I2) as (s3 & st & E3 & Hst & T3 & I3 & P3).
        destruct (round_abort fuel s3 t o i _ st T3 Hst) as (s4 & E4 & T4 & M4).
        exists s4. rewrite M4, P3. split; [|split; [|exact P2]].
        + eapply runs_trans; [apply runs_one; [|exact E1]; lia|]. eapply runs_trans; [apply runs_one; [|exact E2]; lia|].
          eapply runs_trans; [apply runs_one; [|exact E3]; lia|]. apply runs_one; [lia|exact E4].
        + now rewrite <- app_assoc in T4.
      - destruct (round_abort fuel s2 t o i _ (-1) T2 (or_introl eq_refl)) as (s4 & E4 & T4 & M4).
        exists s4. rewrite M4. split; [|split; [exact T4|exact P2]].
        eapply runs_trans; [apply runs_one; [|exact E1]; lia|]. eapply runs_trans; [apply runs_one; [|exact E2]; lia|].
        apply runs_one; [lia|exact E4]. }
    destruct A as (s3 & R3 & T3 & P3).
    destruct (round_next fuel s3 t o i _ T3) as (s4 & E4 & T4 & W4 & P4).
    destruct (IH s4 t o i _ (Datatypes.S q) ltac:(lia) ltac:(lia) T4) as (s5 & R5 & D5 & B5).
    { rewrite W4. now rewrite P4. }
    rewrite W4 in B5. exists s5. split; [|split; [exact D5|]].
    + eapply runs_trans; [exact R3|]. eapply runs_trans; [|exact R5]. apply runs_one; [lia|exact E4].
    + cbn [seq flat_map]. rewrite <- !app_assoc in B5. cbn [app] in B5. rewrite <- !app_assoc. exact B5.
Qed.

Lemma entry_range o i : 0 <= entry o i.
Proof. unfold entry. rewrite !Z.land_nonneg. right. discriminate. Qed.

(** The answer of the user. *)
Lemma round_0 fuel s c o : firsttime s = false -> calm (mach s) ->
  kbd (cnt_kbd (net (mach s))) = Some c -> choice c = Some o ->
  exists s', round (Datatypes.S (Datatypes.S fuel)) 0 s = Ok (Ret 4) s' /\ between s' o (-1) (history s) /\ cdev s' = None.
Proof.
  intros Hf Hc Hk Ho. unfold round, main_loop, bbind at 1. rewrite wake_idle by lia. cbn [Z.eqb Pos.eqb].
  brun. cbn [firsttime set_initialized mach]. rewrite Hf. cbv beta iota. cbn [mach set_initialized].
  destruct (allot _ _ _ 0) as [[m h] b]. cbn [mach net set_cdev set_bi set_base set_mach ask_loop ask_wait].
  run. unfold currticks. cbv beta iota. cbn [cnt_kbd set_cnt_clock set_mm]. rewrite Hk. cbv beta iota. rewrite Ho.
  cbv beta iota. eexists. split; [reflexivity|]. split; [|reflexivity]. now repeat split.
Qed.

Lemma round_first fuel s o i h : between s o i h -> cdev s = None -> 0 <= i + 1 < 3 -> entry o (i + 1) < 3 -> orderly o ->
  exists s', round fuel 4 s = Ok (Ret 3) s' /\ trying s' (entry o (i + 1)) o (i + 1) h /\
    how_probe (devs (mach s') (dev_of_type (entry o (i + 1)))) = PROBE_FIRST.
Proof.
  intros [] Hd Hi He Ho. pose proof (entry_range o (i + 1)) as He0. specialize (Ho _ Hi He).
  unfold round, main_loop, bbind at 1. rewrite wake_idle by lia. cbn [Z.eqb Pos.eqb].
  unfold state_4, bbind at 1.
  destruct (cleanup_calm fuel (set_initialized true s) b_calm0) as (x & -> & C & P).
  brun. cbn [cdev set_initialized set_mach mach bi order]. rewrite Hd, b_bi0, b_order0.
  unfold MAX_BOOT_ENTRIES. rewrite !Z.geb_leb. destruct (Z.leb_spec 3 (i + 1)); [lia|].
  fold (entry o (i + 1)). set (t := entry o (i + 1)) in *. unfold BOOT_NOTHING.
  destruct (Z.eqb_spec t 3); [lia|]. rewrite andb_false_r. destruct (Z.leb_spec 3 t); [lia|].
  destruct (Z.leb_spec noperations t); [lia|]. eexists. split; [reflexivity|]. split.
  - repeat (split; try assumption; try lia); cbn; try assumption; reflexivity.
  - cbn [mach set_mach devs]. now rewrite Nat.eqb_refl.
Qed.

Lemma round_nothing fuel s o i h : between s o i h -> cdev s = None -> 0 <= i + 1 ->
  3 <= i + 1 \/ 3 <= entry o (i + 1) -> ~ (i + 1 = 0 /\ entry o 0 = BOOT_NOTHING) ->
  exists s', round fuel 4 s = Ok (Ret 0) s' /\ between s' o (i + 1) (h ++ [CSleep]).
Proof.
  intros [] Hd Hi He Hz. unfold round, main_loop, bbind at 1. rewrite wake_idle by lia. cbn [Z.eqb Pos.eqb].
  unfold state_4, bbind at 1.
  destruct (cleanup_calm fuel (set_initialized true s) b_calm0) as (x & -> & C & P).
  brun. cbn [cdev set_initialized set_mach mach bi order]. rewrite Hd, b_bi0, b_order0.
  unfold MAX_BOOT_ENTRIES. rewrite !Z.geb_leb.
  fold (entry o (i + 1)). set (t := if 3 <=? i + 1 then BOOT_NOTHING else entry o (i + 1)).
  assert (Ht : 3 <= t) by (subst t; unfold BOOT_NOTHING; destruct (Z.leb_spec 3 (i + 1)); lia).
  assert (Ez : (i + 1 =? 0) && (t =? BOOT_NOTHING) = false).
  { destruct (Z.eqb_spec (i + 1) 0) as [Z0|]; [|reflexivity]. destruct (Z.eqb_spec t BOOT_NOTHING) as [T3|]; [|reflexivity].
    exfalso. apply Hz. split; [exact Z0|]. subst t. rewrite Z0 in T3. exact T3. }
  rewrite Ez. change BOOT_NOTHING with 3. destruct (Z.leb_spec 3 t); [|lia].
  cbn [mach add_call set_type set_bi set_mach set_initialized].
  match goal with |- context [interruptible_sleep 2 ?x] => destruct (f_sleep 2 x C) as (x' & -> & C') end.
  eexists. split; [reflexivity|]. repeat (split; try assumption; try reflexivity).
  cbn [history set_mach add_call set_type set_bi set_initialized]. now rewrite b_history0.
Qed.

Lemma order_loop fuel k : forall s o i h, orderly o -> between s o i h -> cdev s = None -> -1 <= i -> i + 1 + Z.of_nat k = 3 ->
  ~ (i + 1 = 0 /\ entry o 0 = BOOT_NOTHING) ->
  exists s' i', runs fuel 4 s 0 s' /\ between s' o i' (h ++ round_calls o (i + 1) k).
Proof.
  induction k as [|k IH]; intros s o i h Ho B0 D Hi Hk Hz; cbn [round_calls].
  - destruct (round_nothing fuel s o i h B0 D) as (s' & E1 & B1); [lia|lia|exact Hz|].
    exists s', (i + 1). split; [apply runs_one; [lia|exact E1]|exact B1].
  - rewrite Z.geb_leb. destruct (Z.leb_spec BOOT_NOTHING (entry o (i + 1))) as [L|L]; unfold BOOT_NOTHING in L.
    + destruct (round_nothing fuel s o i h B0 D) as (s' & E1 & B1); [lia|lia|exact Hz|].
      exists s', (i + 1). split; [apply runs_one; [lia|exact E1]|exact B1].
    + destruct (round_first fuel s o i h B0 D) as (s1 & E1 & T1 & W1); [lia|lia|exact Ho|].
      destruct (type_loop fuel (nd (entry o (i + 1))) s1 (entry o (i + 1)) o (i + 1) h O ltac:(lia) ltac:(lia) T1) as (s2 & R2 & D2 & B2).
      { now rewrite W1. }
      rewrite W1 in B2. destruct (IH s2 o (i + 1) _ Ho B2 D2) as (s3 & i3 & R3 & B3); [lia|lia|lia|].
      exists s3, i3. split.
      * eapply runs_trans; [apply runs_one; [|exact E1]; lia|]. now apply (runs_trans fuel 3 s1 4 s2).
      * rewrite <- app_assoc in B3. exact B3.
Qed.
(** The types that are tried are those wanted. *)
Lemma wanted_spec c l : wanted c = Some l -> exists o, choice c = Some o /\
  (if entry o 0 =? BOOT_NOTHING then l = [] else l <> [] /\ round_calls o 0 3 = flat_map type_calls l ++ [CSleep]).
Proof.
  unfold wanted. case_test; [|repeat (case_test; cbn [orb])]; intros [= <-]; subst.
  - exists DEFAULT_BOOT_ORDER. split; [reflexivity|]. destruct default_entries as (E0 & E1 & E2). destruct boot_options as (H1 & H2 & H3).
    cbn [round_calls before_nothing]. change (0 + 1) with 1. change (1 + 1) with 2. rewrite E0, E1, E2. unfold BOOT_NOTHING. rewrite !Z.geb_leb.
    destruct (Z.eqb_spec BOOT_FIRST 3); [reflexivity|]. destruct (Z.leb_spec 3 BOOT_FIRST); [lia|]. split; [discriminate|].
    cbn [flat_map]. rewrite <- app_assoc. f_equal.
    destruct (Z.eqb_spec BOOT_SECOND 3); destruct (Z.leb_spec 3 BOOT_SECOND); try lia; [reflexivity|]. cbn [flat_map]. rewrite <- app_assoc. f_equal.
    destruct (Z.eqb_spec BOOT_THIRD 3); destruct (Z.leb_spec 3 BOOT_THIRD); try lia; [reflexivity|]. cbn [flat_map]. now rewrite <- app_assoc.
  - eexists. split; [reflexivity|]. vm_compute (_ =? _). cbv iota. split; [discriminate|]. cbn [flat_map]. rewrite app_nil_r. reflexivity.
  - eexists. split; [reflexivity|]. vm_compute (_ =? _). cbv iota. split; [discriminate|]. cbn [flat_map]. rewrite app_nil_r. reflexivity.
  - eexists. split; [reflexivity|]. vm_compute (_ =? _). cbv iota. split; [discriminate|]. cbn [flat_map]. rewrite app_nil_r. reflexivity.
  - eexists. split; [reflexivity|]. vm_compute (_ =? _). cbv iota. split; [discriminate|]. cbn [flat_map]. rewrite app_nil_r. reflexivity.
  - eexists. split; [reflexivity|]. vm_compute (_ =? _). cbv iota. split; [discriminate|]. cbn [flat_map]. rewrite app_nil_r. reflexivity.
  - eexists. split; [reflexivity|]. vm_compute (_ =? _). cbv iota. split; [discriminate|]. cbn [flat_map]. rewrite app_nil_r. reflexivity.
  - eexists. split; reflexivity.
  - eexists. split; reflexivity.
Qed.
End failing.

(** *** Pointers *)

(** Partial correctness of a part of the loop: [Q] of a return, [J] of a jump, and no crash. *)
Definition wp {A} (c : B A) (Q : A -> sys -> Prop) (J : Z -> sys -> Prop) (s : sys) : Prop :=
  match c s with
  | Ok (Ret a) s' => Q a s'
  | Ok (Jmp v) s' => J v s'
  | Never => True
  | Crash => False
  end.
Lemma wp_bind {A C} (c : B A) (k : A -> B C) Q J s : wp c (fun a s => wp (k a) Q J s) J s -> wp (bbind c k) Q J s.
Proof. unfold wp, bbind. destruct (c s) as [[a|v] s'| |]; auto. Qed.
Lemma wp_ret {A} (a : A) (Q : A -> sys -> Prop) J s : Q a s -> wp (bret a) Q J s.
Proof. auto. Qed.
Lemma wp_mono {A} (c : B A) (Q Q' : A -> sys -> Prop) J s :
  wp c Q J s -> (forall a s', Q a s' -> Q' a s') -> wp c Q' J s.
Proof. unfold wp. destruct (c s) as [[a|v] s'| |]; auto. Qed.
Lemma wp_put f (Q : unit -> sys -> Prop) J s : Q tt (f s) -> wp (bput f) Q J s.
Proof. auto. Qed.
Lemma wp_get (Q : sys -> sys -> Prop) J s : Q s s -> wp bget Q J s.
Proof. auto. Qed.

(** A call that does not crash; one that moreover is left only for an interruption. *)
Definition sound {A} (c : MM A) : Prop := forall x, c x <> Crash.
Definition mild {A} (c : MM A) : Prop :=
  sound c /\ forall x v x', c x = Ok (Jmp v) x' -> v = -1 \/ v = -3.
Lemma on_net_mild {A} (c : M A) : interrupted c -> mild (on_net c).
Proof.
  intros Hc. split; [intros x | intros x v x']; unfold on_net; destruct (c (net x)) as [[r w]|] eqn:Ec; try discriminate.
  intros [= -> _]. exact (Hc _ _ _ Ec).
Qed.
(** What main relies on: the operations of the devices may jump to any state (a program that was started
    returns one), everything else only for an interruption. *)
Class Sound `{Services} : Prop := {
  p_probe : forall t d, sound (op_probe t d);
  p_conf : forall t d, sound (op_load_configuration t d);
  p_load : forall t d, sound (op_load t d);
  p_disable : forall d, mild (dev_disable d);
  p_reparse : mild reparse_reply;
  p_relocate : mild do_relocate;
  p_sleep : forall k, mild (interruptible_sleep k);
}.

Section pointers.
Context `{E : Env} `{S : Services} `{P : !Sound}.
(** No key asks for a disk in a build that has none. *)
Definition keys_built : Prop := noperations = 3 \/ forall n c, kbd n = Some c -> ~ In c [68; 70; 100; 102].
Context (KB : keys_built).

(** The operations of a device are there with it, and those of the types of the order that are still to come. *)
Definition paired (s : sys) : Prop := (cdev s <> None -> ops s <> None) /\ orderly (order s) /\ -1 <= bi s.
(** The states that use the device have one. *)
Definition dev_inv (state : Z) (s : sys) : Prop := paired s /\ (1 <= state <= 3 -> cdev s <> None).
Definition landing (v : Z) (s : sys) : Prop := v = 255 \/ dev_inv (setjmp_value v) s.
Definition same_ptrs (s s' : sys) : Prop := cdev s' = cdev s /\ ops s' = ops s /\ order s' = order s /\ bi s' = bi s.
Lemma same_ptrs_paired s s' : same_ptrs s s' -> paired s -> paired s'.
Proof. intros (H1 & H2 & H3 & H4). unfold paired. now rewrite H1, H2, H3, H4. Qed.
Lemma same_ptrs_trans s1 s2 s3 : same_ptrs s1 s2 -> same_ptrs s2 s3 -> same_ptrs s1 s3.
Proof. unfold same_ptrs. intuition congruence. Qed.

Lemma wp_mild {A} (c : MM A) (Q : A -> sys -> Prop) s :
  mild c -> paired s -> (forall a s', same_ptrs s s' -> Q a s') -> wp (call_m c) Q landing s.
Proof.
  intros (Hs & Hj) Hp HQ. unfold wp, call_m. pose proof (Hs (mach s)) as Hc. pose proof (Hj (mach s)) as Hv.
  destruct (c (mach s)) as [[a|v] x| |]; [now apply HQ | | exact I | congruence].
  right. specialize (Hv v x eq_refl). split; [exact Hp|]. unfold setjmp_value. destruct Hv as [-> | ->]; cbn; lia.
Qed.
Lemma wp_sound {A} (c : MM A) (Q : A -> sys -> Prop) s :
  sound c -> paired s -> cdev s <> None -> (forall a s', same_ptrs s s' -> Q a s') -> wp (call_m c) Q landing s.
Proof.
  intros Hs Hp Hd HQ. unfold wp, call_m. pose proof (Hs (mach s)) as Hc.
  destruct (c (mach s)) as [[a|v] x| |]; [now apply HQ | | exact I | congruence].
  right. now split.
Qed.
Lemma wp_cleanup fuel (Q : unit -> sys -> Prop) s :
  paired s -> (forall s', same_ptrs s s' -> Q tt s') -> wp (cleanup fuel) Q landing s.
Proof.
  intros Hp HQ. unfold cleanup, eth_disable, disk_disable. repeat apply wp_bind.
  apply wp_mild; [apply on_net_mild, int_leave_group | exact Hp|]. intros _ s1 S1.
  apply wp_mild; [apply p_disable | exact (same_ptrs_paired _ _ S1 Hp)|]. intros _ s2 S2.
  pose proof (same_ptrs_trans _ _ _ S1 S2) as S3.
  apply wp_bind. apply wp_mild; [apply p_disable | exact (same_ptrs_paired _ _ S3 Hp)|]. intros _ s3 S4.
  apply wp_put. apply HQ. exact (same_ptrs_trans _ _ _ S3 S4).
Qed.

Ltac ptrs := cbn in *; repeat match goal with H : same_ptrs _ _ |- _ => destruct H end; unfold same_ptrs in *;
  cbn in *; try split; intuition (congruence || lia).
Lemma wp_wake st s : dev_inv st s -> wp (wake st) dev_inv landing s.
Proof.
  intros (Hp & Hd). unfold wake. apply wp_bind, wp_get. destruct (initialized s); [now apply wp_ret|].
  apply wp_bind, wp_put. destruct (cdev s) as [d|] eqn:Ed; [|apply wp_ret; split; [exact Hp|intros H; now destruct (Hd H)]].
  destruct ((st >=? 1) && (st <=? 2)); [|apply wp_ret; split; [exact Hp|ptrs]].
  unfold upd_dev. apply wp_bind, wp_put. destruct (ops s) as [t|] eqn:Eo; [|destruct (proj1 Hp ltac:(congruence) Eo)].
  apply wp_bind, wp_put, wp_bind. apply wp_sound; [apply p_probe | exact Hp | cbn; congruence |].
  intros r s1 S1. apply wp_bind, wp_put. cbv zeta.
  set (st' := if r =? PROBE_FAILED then -1 else st).
  assert (P1 : paired s1) by exact (same_ptrs_paired _ _ S1 Hp).
  assert (D1 : cdev s1 = Some d) by (rewrite (proj1 S1); exact Ed).
  destruct (st' =? 1).
  - apply wp_bind, wp_mild; [apply p_reparse | exact P1|]. intros _ s2 S2. apply wp_ret.
    split; [exact (same_ptrs_paired _ _ S2 P1)|]. rewrite (proj1 S2). cbn. congruence.
  - apply wp_ret. split; [exact P1|]. cbn. congruence.
Qed.
Lemma wp_init_heap (Q : unit -> sys -> Prop) s :
  paired s -> (forall s', same_ptrs s s' -> Q tt s') -> wp do_init_heap Q landing s.
Proof.
  intros Hp HQ. unfold do_init_heap. apply wp_bind, wp_get. cbv zeta.
  destruct (init_heap _ _ _ _); [now apply wp_put, HQ|]. left. reflexivity.
Qed.
(** The order that is chosen is one of the build. *)
Lemma ask_wait_key n : forall time w c w', ask_wait n time w = Some (Ret c, w') -> c = 10 \/ exists k, kbd k = Some c.
Proof.
  induction n as [|n IH]; intros time w c w'; cbn [ask_wait]; [discriminate|].
  destruct (kbd (cnt_kbd w)) as [k|] eqn:Ek; [intros [= <- _]; eauto|]. unfold bind, currticks.
  destruct (_ >? _); [intros [= <- _]; now left|apply IH].
Qed.
Lemma ask_loop_orderly n : forall w o w', ask_loop n w = Some (Ret o, w') -> orderly o.
Proof.
  induction n as [|n IH]; intros w o w'; cbn [ask_loop]; [discriminate|]. unfold bind at 1, currticks at 1.
  unfold bind at 1. destruct (ask_wait _ _ _) as [[[c|j] w1]|] eqn:Ew; [|discriminate..].
  destruct (choice c) as [o'|] eqn:Ec; [|apply IH]. intros [= <- _]. apply (choice_orderly c o' Ec).
  destruct KB as [Hk|Hk]; [now left|]. right. destruct (ask_wait_key _ _ _ _ _ Ew) as [->|(k & Hc)]; [cbn; intuition discriminate|eauto].
Qed.
Lemma wp_ask fuel (Q : Z -> sys -> Prop) s : paired s -> (forall o s', same_ptrs s s' -> orderly o -> Q o s') ->
  wp (call_m (on_net (ask_loop fuel))) Q landing s.
Proof.
  intros Hp HQ. pose proof (wp_mild (on_net (ask_loop fuel)) (fun o s' => orderly o -> Q o s') s (on_net_mild _ (int_ask_loop fuel)) Hp
    (fun o s' S' Ho => HQ o s' S' Ho)) as W. unfold wp, call_m, on_net in *.
  destruct (ask_loop fuel (net (mach s))) as [[[o|j] w]|] eqn:Ea; [|exact W|exact W]. apply W. eapply ask_loop_orderly, Ea.
Qed.
Lemma wp_state_0 fuel s : paired s -> wp (state_0 fuel) dev_inv landing s.
Proof.
  intros Hp. unfold state_0. apply wp_bind, wp_get, wp_bind.
  assert (R : forall s', same_ptrs s s' ->
    wp (allot_base ;;;; bput (fun s => set_cdev None (set_bi (-1) s)) ;;;; ask_boot fuel ;;;; bret 4) dev_inv landing s').
  { intros s' S'. apply wp_bind, wp_put. cbv zeta. destruct (allot _ _ _ 0) as [[m h] b].
    apply wp_bind, wp_put. unfold ask_boot. do 2 apply wp_bind.
    apply wp_ask; [destruct (same_ptrs_paired _ _ S' Hp) as (_ & O' & _); split; [intros Hc; now destruct Hc|split; [exact O'|cbn; lia]]|]. intros o s1 S1 Ho.
    apply wp_put, wp_ret. destruct S1 as (C1 & _ & _ & B1). cbn in C1, B1.
    split; [split; [intros Hc; cbn in Hc; congruence|split; [exact Ho|cbn; lia]] | lia]. }
  destruct (firsttime s); [|now apply wp_ret, R].
  apply wp_bind, wp_mild; [apply p_relocate | exact Hp|]. intros _ s1 S1.
  pose proof (same_ptrs_paired _ _ S1 Hp) as P1.
  apply wp_bind, wp_cleanup; [exact P1|]. intros s2 S2. pose proof (same_ptrs_paired _ _ S2 P1) as P2.
  apply wp_bind, wp_init_heap; [exact P2|]. intros s3 S3. apply wp_put, R. exact (same_ptrs_trans _ _ _ (same_ptrs_trans _ _ _ S1 S2) S3).
Qed.
Lemma wp_state_4 fuel s : paired s -> wp (state_4 fuel) dev_inv landing s.
Proof.
  intros Hp. unfold state_4. apply wp_bind, wp_cleanup; [exact Hp|]. intros s1 S1.
  pose proof (same_ptrs_paired _ _ S1 Hp) as P1. apply wp_bind, wp_put, wp_bind, wp_get. cbn [cdev set_mach].
  destruct (cdev s1) as [d|] eqn:Ed.
  - apply wp_bind, wp_put, wp_ret. split; [exact P1|]. cbn. congruence.
  - cbv zeta. apply wp_bind, wp_put. cbn [bi order set_mach]. destruct P1 as (Q1 & Q2 & Q3). set (i := bi s1 + 1) in *. fold (entry (order s1) i).
    assert (P2 : forall t, paired (set_type t (set_bi i s1))) by (intros t; split; [exact Q1|split; [exact Q2|cbn; lia]]).
    rewrite Z.geb_leb. destruct (Z.leb_spec MAX_BOOT_ENTRIES i) as [Hi|Hi].
    + destruct (_ && _); [left; reflexivity|]. change (BOOT_NOTHING >=? BOOT_NOTHING) with true. cbv iota.
      apply wp_bind, wp_put, wp_bind, wp_mild; [apply p_sleep | exact (P2 BOOT_NOTHING)|]. intros _ s2 S2. apply wp_ret.
      split; [exact (same_ptrs_paired _ _ S2 (P2 BOOT_NOTHING)) | lia].
    + unfold MAX_BOOT_ENTRIES in Hi. set (t := entry (order s1) i) in *.
      destruct (_ && _); [left; reflexivity|]. rewrite !Z.geb_leb. destruct (Z.leb_spec BOOT_NOTHING t) as [Ht|Ht]; unfold BOOT_NOTHING in Ht.
      * apply wp_bind, wp_put, wp_bind, wp_mild; [apply p_sleep | exact (P2 t)|]. intros _ s2 S2. apply wp_ret.
        split; [exact (same_ptrs_paired _ _ S2 (P2 t)) | lia].
      * pose proof (Q2 i ltac:(lia) Ht) as Hb. fold t in Hb. destruct (Z.leb_spec noperations t); [lia|].
        apply wp_bind, wp_put, wp_bind, wp_put, wp_ret. split; [split; [intros _; discriminate|split; [exact Q2|cbn; lia]] | intros _; discriminate].
Qed.
Lemma wp_state_3 s : paired s -> cdev s <> None -> wp state_3 dev_inv landing s.
Proof.
  intros Hp Hd. pose proof (proj1 Hp Hd) as Ho. unfold state_3. apply wp_bind, wp_put. cbv zeta.
  destruct (allot _ _ _ 0) as [[m h] b]. apply wp_bind, wp_get. cbn [cdev ops set_base set_mach].
  destruct (cdev s) as [d|] eqn:Ed; [|easy]. destruct (ops s) as [t|] eqn:Eo; [|easy].
  apply wp_bind, wp_put, wp_bind, wp_sound; [apply p_probe | exact Hp | cbn; congruence|]. intros r s1 S1.
  pose proof (same_ptrs_paired _ _ S1 Hp) as P1.
  apply wp_bind, wp_put, wp_bind, wp_get. destruct (r =? PROBE_FAILED).
  - apply wp_bind, wp_put, wp_ret. split; [split; [intros Hc; cbn in Hc; congruence|exact (proj2 P1)]|lia].
  - destruct (_ && _); apply wp_ret; (split; [exact P1|]); [lia|]. intros _. rewrite <- (proj1 S1 : cdev s1 = cdev s) in Ed.
    cbn. congruence.
Qed.
Lemma wp_use s (k : nat -> Z -> B Z) : paired s -> cdev s <> None ->
  (forall d t, cdev s = Some d -> ops s = Some t -> wp (k d t) dev_inv landing s) ->
  wp (s <-- bget ;; match cdev s, ops s with Some d, Some t => k d t | _, _ => bcrash end) dev_inv landing s.
Proof.
  intros Hp Hd Hk. apply wp_bind, wp_get. pose proof (proj1 Hp Hd) as Ho.
  destruct (cdev s) as [d|] eqn:Ed; [|easy]. destruct (ops s) as [t|] eqn:Eo; [|easy]. now apply Hk.
Qed.
Lemma round_dev_inv fuel st s : dev_inv st s -> 
  match round fuel st s with
  | Ok (Ret st') s' => st' = 255 \/ dev_inv st' s'
  | Ok (Jmp _) _ => False
  | Never => True
  | Crash => False
  end.
Proof.
  intros Hi. assert (W : wp (main_loop fuel st) dev_inv landing s).
  { unfold main_loop. apply wp_bind. eapply wp_mono; [exact (wp_wake st s Hi)|]. intros st' s1 (P1 & D1).
    destruct (Z.eqb_spec st' 0); [now apply wp_state_0|]. destruct (Z.eqb_spec st' 4); [now apply wp_state_4|].
    destruct (Z.eqb_spec st' 3); [apply wp_state_3; [exact P1|apply D1; lia]|].
    destruct (Z.eqb_spec st' 2).
    { apply wp_use; [exact P1 | apply D1; lia|]. intros d t Ed Eo. apply wp_bind, wp_put, wp_bind.
      apply wp_sound; [apply p_conf | exact P1 | cbn; congruence|]. intros r s2 S2. apply wp_ret.
      split; [exact (same_ptrs_paired _ _ S2 P1)|]. intros _. rewrite (proj1 S2). cbn. congruence. }
    destruct (Z.eqb_spec st' 1).
    { apply wp_use; [exact P1 | apply D1; lia|]. intros d t Ed Eo. apply wp_bind, wp_put, wp_bind.
      apply wp_sound; [apply p_load | exact P1 | cbn; congruence|]. intros r s2 S2. apply wp_ret.
      split; [exact (same_ptrs_paired _ _ S2 P1)|]. lia. }
    destruct (st' =? 256); [apply wp_ret; split; [exact P1|lia]|].
    apply wp_bind. destruct (st' =? -3); [apply wp_put|apply wp_ret]; apply wp_bind, wp_get, wp_ret;
      (split; [|destruct (_ || _); lia]); [|exact P1]. destruct P1 as (Q1 & Q2 & Q3). split; [exact Q1|split; [exact Q2|]].
    cbn. unfold MAX_BOOT_ENTRIES. lia. }
  revert W. unfold wp, round. destruct (main_loop fuel st s) as [[st' | v] s'| |]; try tauto.
  unfold landing, setjmp_value. intros [->|H]; [now left | now right].
Qed.
End pointers.

(** ** Properties *)

(** C29: The boot order is followed.  When the user answers the prompt with the key [c], main goes through the types that were
    [wanted] - the up to three of the build, in their order, or the one the key names - and for each of them through its devices: it probes
    for the first one and then for the next one, configures each device found and, when that worked,
    loads from it, until a probe finds no more; at the end it sleeps and starts again in state 0.  No
    device is skipped or tried twice, whatever number there is of each type and whichever of them can
    be configured, as long as none boots.  For the answer to quit it exits with status 0.  The build has to have the
    operations of the types ([noperations] is 1 or 3): it has those of its own options, and without the disk a user must
    not ask for it ([boot_disk_unchecked]). *)
Theorem boot_order_tried `{E : Env} `{S : Services} nd good pos `{F : !Failing nd good pos} fuel s c l :
  firsttime s = false -> calm (mach s) ->
  kbd (cnt_kbd (net (mach s))) = Some c -> wanted c = Some l -> noperations = 3 \/ ~ In c [68; 70; 100; 102] ->
  if (length l =? 0)%nat
  then exists s', runs (2 + fuel) 0 s 255 s' /\ exit_status s' = 0
  else exists s', runs (2 + fuel) 0 s 0 s' /\ history s' = history s ++ flat_map (type_calls nd good) l ++ [CSleep].
Proof.
  intros Hf Hc Hk Hw Hn. destruct (wanted_spec nd good c l Hw) as (o & Hch & Hl). pose proof (choice_orderly c o Hch Hn) as Ho.
  destruct (round_0 fuel s c o Hf Hc Hk Hch) as (s1 & E1 & B1 & D1).
  pose proof (runs_one (2 + fuel) 0 s 4 s1 ltac:(lia) E1) as R1. destruct (Z.eqb_spec (entry o 0) BOOT_NOTHING) as [Z0|Z0].
  - subst l. cbn [length Nat.eqb]. assert (X : exists s2, round (2 + fuel) 4 s1 = Ok (Ret 255) s2 /\ exit_status s2 = 0).
    { destruct B1. unfold round, main_loop, bbind at 1. rewrite wake_idle by lia. cbn [Z.eqb Pos.eqb].
      unfold state_4, bbind at 1.
      destruct (cleanup_calm nd good pos (2 + fuel) (set_initialized true s1) b_calm0) as (x & -> & _).
      brun. cbn [cdev set_initialized set_mach mach bi order]. rewrite D1, b_bi0, b_order0.
      change (-1 + 1) with 0. fold (entry o 0). rewrite Z0. eexists. split; reflexivity. }
    destruct X as (s2 & E2 & X2). exists s2. split; [|exact X2].
    eapply runs_trans; [exact R1|]. apply runs_one; [lia|exact E2].
  - destruct Hl as (Hl & <-). destruct l as [|t l]; [contradiction|]. cbn [length Nat.eqb].
    destruct (order_loop nd good pos (2 + fuel) 3 s1 o (-1) (history s) Ho B1 D1) as (s2 & i2 & R2 & B2);
      [lia|lia|intros (_ & H); contradiction|].
    exists s2. split; [now apply (runs_trans _ _ _ 4 s1)|]. apply B2.
Qed.

(** The states of the loop that are reached from the start, with the static variables zero, whatever the devices do. *)
Inductive reached `{Env} `{Services} (fuel : nat) : Z -> sys -> Prop :=
| reached_start s : cdev s = None -> order s = 0 -> bi s = 0 -> reached fuel 0 s
| reached_round st s st' s' :
    reached fuel st s -> st <> 255 -> round fuel st s = Ok (Ret st') s' -> reached fuel st' s'.

(** C34: Main never uses a device that is not there.  In every state that the loop can reach, through any
    returns of the devices' operations and any jumps out of them (a program that was started returns
    the state to go on with), the states that use [dev] and [ops] find both set, and no entry beyond
    the table of operations is used.  This takes that the user does not ask for a disk in a build that has none, as that of the
    file Config: then the answers D and F do use an entry beyond the table ([boot_disk_unchecked]); in a build with a
    disk among its options the user may press any key. *)
Theorem main_uses_devices `{E : Env} `{S : Services} `{P : !Sound} fuel st s :
  noperations = 3 \/ (forall n c, kbd n = Some c -> ~ In c [68; 70; 100; 102]) ->
  reached fuel st s -> st <> 255 ->
  round fuel st s <> Crash /\ (1 <= st <= 3 -> exists d t, cdev s = Some d /\ ops s = Some t).
Proof.
  intros KB R Hst. assert (I : st = 255 \/ dev_inv st s).
  { induction R as [s H Ho Hb|st s st' s' R IH Hne E1].
    - right. split; [|lia]. split; [congruence|]. split; [|lia]. rewrite Ho. intros i Hi _.
      replace (entry 0 i) with 0 by (unfold entry; now rewrite Z.shiftr_0_l). pose proof nic_built. lia.
    - destruct (IH Hne) as [|IH']; [contradiction|]. pose proof (round_dev_inv KB fuel st s IH') as W. now rewrite E1 in W. }
  destruct I as [|I]; [contradiction|]. pose proof (round_dev_inv KB fuel st s I) as W. split.
  - intros Hc. now rewrite Hc in W.
  - intros Hr. destruct I as (Hp & Hd). pose proof (Hd Hr) as Hd'. pose proof (proj1 Hp Hd') as Ho.
    destruct (cdev s) as [d|]; [|easy]. destruct (ops s) as [t|]; [|easy]. eauto.
Qed.

(** The answers D and F are taken in a build that boots from the network only.  Its table of operations
    has one entry, but [ask_boot] accepts the letters of the disk and of the floppy, which the prompt
    does not offer, and [main_loop] takes the operations from beyond the end of the table. *)
Theorem boot_disk_unchecked `{E : Env} `{S : Services} nd good pos `{F : !Failing nd good pos} fuel s c :
  noperations = 1 -> firsttime s = false -> calm (mach s) ->
  kbd (cnt_kbd (net (mach s))) = Some c -> c = 68 \/ c = 70 ->
  exists s', round (2 + fuel) 0 s = Ok (Ret 4) s' /\ round (2 + fuel) 4 s' = Crash.
Proof.
  intros Ho Hf Hc Hk Hch.
  assert (Ch : exists t, choice c = Some (single t) /\ (t = 1 \/ t = 2)).
  { destruct Hch as [-> | ->]; [exists 1 | exists 2]; split; auto. }
  destruct Ch as (t & Ch & Ht). destruct (round_0 fuel s c (single t) Hf Hc Hk Ch) as (s1 & E1 & [] & D1).
  exists s1. split; [exact E1|]. unfold round, main_loop, bbind at 1. rewrite wake_idle by lia. cbn [Z.eqb Pos.eqb].
  unfold state_4, bbind at 1.
  destruct (cleanup_calm nd good pos (2 + fuel) (set_initialized true s1) b_calm0) as (x & -> & _).
  brun. cbn [cdev set_initialized set_mach mach bi order]. rewrite D1, b_bi0, b_order0, Ho.
  destruct Ht as [-> | ->]; reflexivity.
Qed.

(** What an attempt allots is given back.  After a device was tried, [forget] of the base that was
    remembered and the [allot] for the next attempt lead to the same base and to the same heap
    pointer, whatever was allotted in between, as long as the size mark below the base was kept: an
    endless search for a boot device does not use up the heap. *)
Theorem attempt_memory_reclaimed `{S : Services} s s1 s2 :
  let x1 := mach s1 in let x2 := mach s2 in
  allot_base s = Ok (Ret tt) s1 -> heap_base s1 <> 0 -> heap_ok virt_off (hp (mach s)) ->
  4 <= heap_top (hp (mach s)) ->
  heap_base s2 = heap_base s1 -> heap_top (hp x2) = heap_top (hp x1) -> heap_bot (hp x2) = heap_bot (hp x1) ->
  ld32 (mm (net x2)) (phys_to_virt virt_off (heap_ptr (hp x1))) = 0 ->
  exists s3 s4, forget_base s2 = Ok (Ret tt) s3 /\ allot_base s3 = Ok (Ret tt) s4 /\
    heap_base s4 = heap_base s1 /\ heap_ptr (hp (mach s4)) = heap_ptr (hp x1).
Proof.
  intros x1 x2 Ha Hnz Hok Ht Hb Htop Hbot Hmark. pose proof Hok as (H1 & H2 & H3).
  set (h := hp (mach s)) in *. unfold allot_base, bput in Ha. cbv zeta in Ha. fold h in Ha.
  destruct (allot_cases virt_off (mm (net (mach s))) h 0 Hok) as [(Hn & E0)|(Hn & E0)]; [lia|lia| |];
    rewrite E0 in Ha; apply (f_equal (fun r => match r with Ok _ s => s | _ => s end)) in Ha; cbv beta iota in Ha;
    subst s1; [now destruct Hnz|].
  set (addr := align_down (heap_ptr h - (0 + 4)) 16) in *. cbn in x1. subst x1. cbn [mach set_base set_mach hp heap_ptr
    heap_top heap_bot heap_base] in *.
  assert (Ra : addr + 4 <= heap_ptr h /\ addr mod 16 = 0) by (subst addr; unfold align_down; Z.div_mod_to_equations; lia).
  assert (Ef : forget virt_off (mm (net x2)) (hp x2) (heap_base s2)
               = {| heap_ptr := addr + 4; heap_top := heap_top h; heap_bot := heap_bot h |}).
  { unfold forget. rewrite Hb. apply Z.eqb_neq in Hnz. rewrite Hnz. rewrite virt_phys by lia.
    rewrite (u32_small (addr + 4 - 4)) by lia. replace (addr + 4 - 4) with addr by lia. rewrite Hmark.
    change (align_down (u32 (0 + 15)) 16) with 0. rewrite Z.add_0_r, u32_small, Z.gtb_ltb, Htop, Hbot by lia.
    destruct (Z.ltb_spec (heap_bot h) (addr + 4)); [lia|reflexivity]. }
  do 2 eexists. split; [reflexivity|]. unfold allot_base, bput, forget_base. cbn [mach set_mach hp net]. fold x2. rewrite Ef.
  set (h2 := {| heap_ptr := addr + 4; heap_top := _; heap_bot := _ |}).
  assert (Hok2 : heap_ok virt_off h2) by (split; [cbn; lia|split; cbn; [lia|exact H3]]).
  assert (E2 : align_down (heap_ptr h2 - (0 + 4)) 16 = addr)
    by (cbn [heap_ptr h2]; unfold align_down; Z.div_mod_to_equations; lia).
  destruct (allot_cases virt_off (mm (net x2)) h2 0 Hok2) as [(Hn2 & _)|(_ & E3)]; [lia|cbn;lia| |].
  - cbn [heap_top h2] in Hn2. rewrite E2 in Hn2. lia.
  - rewrite E3, E2. split; [reflexivity|]. split; reflexivity.
Qed.

(** *** Witnesses *)

(** Drivers that count the devices they have found in one cell. *)
Definition bench_nd (t : Z) : nat := if t =? 0 then 2%nat else if t =? 1 then 1%nat else 0%nat.
Definition bench_good (t : Z) (p : nat) : bool := (p =? 2)%nat.
Definition bench_pos (d : mem) : nat := Z.to_nat (d 0).
Definition set_drv (p : nat) (x : machine) : machine :=
  {| net := net x; hp := hp x; devs := devs x; drv := fun _ => Z.of_nat p |}.
Definition bench (f g : Z) (opts : 0 <= f <= 3 /\ 0 <= g <= 3 /\ 0 <= 3 <= 3) : Services :=
  {| op_probe t d x :=
       let p := if how_probe (devs x d) =? PROBE_FIRST then O else bench_pos (drv x) in
       if (p <? bench_nd t)%nat then Ok (Ret PROBE_WORKED) (set_drv (Datatypes.S p) x) else Ok (Ret PROBE_FAILED) x;
     op_load_configuration t d x := Ok (if bench_good t (bench_pos (drv x)) then Ret 0 else Jmp (-1)) x;
     op_load t d x := Ok (Jmp (-1)) x;
     BOOT_FIRST := f; BOOT_SECOND := g; BOOT_THIRD := 3; boot_options := opts;
     dev_disable d x := Ok (Ret tt) x;
     reparse_reply x := Ok (Ret tt) x;
     do_relocate x := Ok (Ret tt) x;
     interruptible_sleep k x := Ok (Ret tt) x;
     memmap := [{| e_addr := 0x100000; e_size := 0x1000000; e_type := E820_RAM |}];
     text_start := 0x200000; text_end := 0x240000; virt_off := 0 |}.
Definition nic_build : Services := bench 0 3 ltac:(lia).
(** First the disk, then the network. *)
Definition disk_build : Services := bench 1 0 ltac:(lia).
Lemma bench_failing f g opts : @Failing (bench f g opts) bench_nd bench_good bench_pos.
Proof.
  constructor; cbn [op_probe op_load_configuration op_load dev_disable interruptible_sleep bench].
  - intros t d x Hc. generalize (if how_probe (devs x d) =? PROBE_FIRST then O else bench_pos (drv x)). intros p.
    destruct (Nat.ltb_spec p (bench_nd t)).
    + eexists. split; [reflexivity|]. split; [exact Hc|]. intros _. apply Nat2Z.id.
    + eexists. split; [reflexivity|]. split; [exact Hc|]. lia.
  - intros t d x Hc. eauto.
  - intros t d x Hc. exists (Jmp (-1)), x. split; [reflexivity|]. auto.
  - intros d x Hc. eauto.
  - intros k x Hc. eauto.
Qed.
Definition key_env (c : Z) : Env :=
  {| clock n := Z.of_nat n; rx _ := None; kbd _ := Some c; rx_len n bs H := ltac:(discriminate H) |}.
Definition bench_sys : sys :=
  {| order := 0; boot_index := 0; cdev := None; ops := None; heap_base := 0; type := 0; bi := 0; initialized := false;
     firsttime := false; exit_status := 1; history := [];
     mach := {| net := world0; hp := {| heap_ptr := 0x1100000; heap_top := 0x240000; heap_bot := 0x1100000 |};
                devs := fun _ => {| how_probe := 0; dev_type := 0; failsafe := false; type_index := 0 |};
                drv := fun _ => 0 |} |}.
Lemma boot_order_tried_witness :
  exists s', @runs (key_env 10) disk_build 5 0 bench_sys 0 s' /\
    history s' = [CProbe 1 (-1); CConf 1; CProbe 1 0;
                  CProbe 0 (-1); CConf 0; CProbe 0 0; CConf 0; CLoad 0; CProbe 0 0; CSleep].
Proof.
  exact (@boot_order_tried (key_env 10) disk_build bench_nd bench_good bench_pos (bench_failing _ _ _) 3 bench_sys 10 [1; 0]
           eq_refl eq_refl eq_refl eq_refl (or_introl eq_refl)).
Defined.
Lemma boot_disk_unchecked_witness :
  exists s', @round (key_env 68) nic_build 5 0 bench_sys = Ok (Ret 4) s' /\ @round (key_env 68) nic_build 5 4 s' = Crash.
Proof.
  exact (@boot_disk_unchecked (key_env 68) nic_build bench_nd bench_good bench_pos (bench_failing _ _ _) 3 bench_sys 68
           eq_refl eq_refl eq_refl eq_refl (or_introl eq_refl)).
Defined.
Lemma bench_sound : @Sound nic_build.
Proof.
  assert (R : forall f, mild (fun x => Ok (Ret tt) (f x))) by (intros f; split; intros x *; discriminate).
  constructor; cbn [op_probe op_load_configuration op_load dev_disable interruptible_sleep reparse_reply do_relocate
    nic_build bench]; try (intros; apply (R (fun x => x))); intros t d x; cbv beta; try discriminate.
  match goal with |- (if ?b then _ else _) <> _ => destruct b end; discriminate.
Qed.
Definition bench_after (k : nat) : sys :=
  match @rounds (key_env 110) nic_build k 5 0 bench_sys with Ok _ s => s | _ => bench_sys end.
Lemma main_uses_devices_witness :
  @reached (key_env 110) nic_build 5 3 (bench_after 2) /\
  exists d t, cdev (bench_after 2) = Some d /\ ops (bench_after 2) = Some t.
Proof.
  assert (R : @reached (key_env 110) nic_build 5 3 (bench_after 2)).
  { apply (@reached_round (key_env 110) nic_build 5 4 (bench_after 1)); [|lia|vm_compute; reflexivity].
    apply (@reached_round (key_env 110) nic_build 5 0 bench_sys); [|lia|vm_compute; reflexivity]. now constructor. }
  split; [exact R|].
  destruct (@main_uses_devices (key_env 110) nic_build bench_sound 5 3 (bench_after 2)
    ltac:(right; intros n c [= <-]; cbn; lia) R ltac:(lia)) as [_ U].
  apply U. lia.
Defined.
Lemma attempt_memory_reclaimed_witness :
  exists s1 s3 s4, @allot_base nic_build bench_sys = Ok (Ret tt) s1 /\
    @forget_base nic_build (set_mach {| net := net (mach s1); hp := {| heap_ptr := 0x800000; heap_top := 0x240000;
      heap_bot := 0x1100000 |}; devs := devs (mach s1); drv := drv (mach s1) |} s1) = Ok (Ret tt) s3 /\
    @allot_base nic_build s3 = Ok (Ret tt) s4 /\ heap_base s4 = heap_base s1.
Proof.
  eexists.
  destruct (@attempt_memory_reclaimed nic_build bench_sys _
    (let s1 := match @allot_base nic_build bench_sys with Ok _ s => s | _ => bench_sys end in
     set_mach {| net := net (mach s1); hp := {| heap_ptr := 0x800000; heap_top := 0x240000;
      heap_bot := 0x1100000 |}; devs := devs (mach s1); drv := drv (mach s1) |} s1) eq_refl) as (s3 & s4 & E3 & E4 & B & _).
  - vm_compute. discriminate.
  - vm_compute. intuition discriminate.
  - vm_compute. discriminate.
  - reflexivity.
  - reflexivity.
  - reflexivity.
  - vm_compute. reflexivity.
  - exists s3, s4. split; [reflexivity|]. split; [exact E3|]. split; [exact E4|exact B].
Defined.
