(* ===== verification/Basemem.v ===== *)
(** Base memory and the memory map: [basemem.c] and [memsizes.c] of [src/src/arch/i386/firmware/pcbios], with
    the use of the real-mode stack by [realmode.c].

    The BIOS counts the free base memory, in kilobytes, in the word at 0x413; what lies above is allotted.  A
    block that is given back below others is marked, and returned to the BIOS when the blocks below it
    are free too.  Pointers into base memory are given by their physical addresses. *)

From Stdlib Require Import Permutation.
From S2P Require Import Prelude Memory StringLib Heap.
Local Open Scope etherboot_scope.

Definition FBMS : Z := 0x413.
Definition BASE_MEMORY_MAX : Z := 640.
Definition FREE_BLOCK_MAGIC : Z := 0x45524621.
Definition real_mode_stack_size : Z := 0x1000.
Definition fbms (m : mem) : Z := ld16 m FBMS.
Definition FREE_BASE_MEMORY (m : mem) : Z := u32 (Z.shiftl (fbms m) 10).
Definition get_free_base_memory (m : mem) : Z := FREE_BASE_MEMORY m.

(** ** Allotment *)

Fixpoint free_unused_base_memory (fuel : nat) (m : mem) : option mem :=
  match fuel with
  | O => None
  | S n =>
      let free_block := FREE_BASE_MEMORY m in
      if (fbms m =? BASE_MEMORY_MAX) || negb (ld32 m free_block =? FREE_BLOCK_MAGIC) then Some m
      else
        let m := st16 m FBMS (fbms m + ld16 m (free_block + 4)) in
        free_unused_base_memory n (memset m free_block 0 (Z.to_nat (Z.shiftl (ld16 m (free_block + 4)) 10)))
  end.
(** [None] in the result is the null pointer. *)
Definition _allot_base_memory (fuel : nat) (m : mem) (size : Z) : option (mem * option Z) :=
  let size_kb := u16 (Z.shiftr (u32 (size + 1023)) 10) in
  let* m := free_unused_base_memory fuel m in
  if size_kb >? fbms m then Some (m, None)
  else
    let m := st16 m FBMS (fbms m - size_kb) in
    let ptr := FREE_BASE_MEMORY m in
    Some (memset m ptr 0 (Z.to_nat (Z.shiftl size_kb 10)), Some ptr).
(** The marks of the kilobytes of a block. *)
Fixpoint mark_free (m : mem) (free_block : Z) (size_kb : nat) : mem :=
  match size_kb with
  | O => m
  | S k => mark_free (st16 (st32 m free_block FREE_BLOCK_MAGIC) (free_block + 4) (Z.of_nat size_kb))
             (free_block + 1024) k
  end.
Definition _forget_base_memory (fuel : nat) (m : mem) (ptr : option Z) (size : Z) : option mem :=
  match ptr with
  | None => Some m
  | Some p =>
      if size =? 0 then Some m
      else
        let remainder := u16 (Z.land p 1023) in
        let size_kb := u16 (Z.shiftr (u32 (size + remainder + 1023)) 10) in
        free_unused_base_memory fuel (mark_free m (p - remainder) (Z.to_nat size_kb))
  end.

(** ** The memory map *)

(** One entry of the map scrubbed, with [basemem] bytes of base memory free. *)
Definition min_addr : Z := 0x600.
Definition reserve_bios (e : e820entry) : e820entry :=
  if e_addr e <? min_addr then
    let delta := u32 (min_addr - e_addr e) in
    let delta := if delta >? e_size e then u32 (e_size e) else delta in
    {| e_addr := min_addr; e_size := u64 (e_size e - delta); e_type := e_type e |}
  else e.
Definition sync_basemem (basemem : Z) (e : e820entry) : e820entry :=
  if (e_addr e <? 0xa0000) && (u64 (e_addr e + e_size e) >? basemem) then
    if e_addr e <=? basemem
    then {| e_addr := e_addr e; e_size := u64 (basemem - e_addr e); e_type := e_type e |}
    else {| e_addr := basemem; e_size := 0; e_type := e_type e |}
  else e.
Definition scrub (basemem : Z) (e : e820entry) : e820entry :=
  if negb (e_type e =? E820_RAM) then e else sync_basemem basemem (reserve_bios e).

(** The state: memory, the real-mode stack (0 when there is none), whether it may be moved, the part of base
    memory that holds our image, and [meminfo.map]. *)
Record base := {
  bmem : mem;
  real_mode_stack : Z;
  lock_real_mode_stack : bool;
  image_basemem : Z;
  image_basemem_size : Z;
  memory_map : list e820entry;
}.
Definition set_bmem v s := {| bmem := v; real_mode_stack := real_mode_stack s;
  lock_real_mode_stack := lock_real_mode_stack s; image_basemem := image_basemem s;
  image_basemem_size := image_basemem_size s; memory_map := memory_map s |}.
Definition set_stack v s := {| bmem := bmem s; real_mode_stack := v;
  lock_real_mode_stack := lock_real_mode_stack s; image_basemem := image_basemem s;
  image_basemem_size := image_basemem_size s; memory_map := memory_map s |}.
Definition set_image a n s := {| bmem := bmem s; real_mode_stack := real_mode_stack s;
  lock_real_mode_stack := lock_real_mode_stack s; image_basemem := a;
  image_basemem_size := n; memory_map := memory_map s |}.
Definition set_map v s := {| bmem := bmem s; real_mode_stack := real_mode_stack s;
  lock_real_mode_stack := lock_real_mode_stack s; image_basemem := image_basemem s;
  image_basemem_size := image_basemem_size s; memory_map := v |}.

Section bios.
(** What the BIOS reports: its memory map, the base memory (INT 12), the extended memory in kilobytes; and
    whether Etherboot's own stack is above base memory. *)
Context (bios_map : list e820entry) (basememsize : mem -> Z) (memsize : Z) (high_stack : bool).

Definition raw_map (m : mem) : list e820entry :=
  match firstn 32 bios_map with
  | [] => [{| e_addr := 0; e_size := u32 (Z.shiftl (u16 (basememsize m)) 10); e_type := E820_RAM |};
           {| e_addr := 1024 * 1024; e_size := u32 (Z.shiftl (u32 memsize) 10); e_type := E820_RAM |}]
  | map => map
  end.

(** [allot_real_mode_stack], over the [get_memsizes] it calls; without memory it never returns. *)
Definition allot_real_mode_stack_with (memsizes : base -> option base) (fuel : nat) (s : base) : option base :=
  if lock_real_mode_stack s then Some s
  else
    let s := if real_mode_stack s =? 0 then set_stack 0x7c00 s else s in
    let* r := _allot_base_memory fuel (bmem s) real_mode_stack_size in
    match r with
    | (m, Some p) => memsizes (set_stack p (set_bmem m s))
    | (_, None) => None
    end.
(** The part of a real-mode call that concerns the stack ([prepare_real_call]). *)
Definition prepare_stack (memsizes : base -> option base) (fuel : nat) (s : base) : option base :=
  if high_stack && (real_mode_stack s =? 0) then allot_real_mode_stack_with memsizes fuel s else Some s.
(** [get_memsizes]: the first call of the BIOS may need a stack. *)
Fixpoint get_memsizes (fuel : nat) (s : base) : option base :=
  match fuel with
  | O => None
  | S n =>
      let basemem := get_free_base_memory (bmem s) in
      let* s := prepare_stack (get_memsizes n) fuel s in
      Some (set_map (map (scrub basemem) (raw_map (bmem s))) s)
  end.

Definition allot_real_mode_stack (fuel : nat) : base -> option base :=
  allot_real_mode_stack_with (get_memsizes fuel) fuel.
Definition forget_real_mode_stack (fuel : nat) (s : base) : option base :=
  if lock_real_mode_stack s then Some s
  else if real_mode_stack s =? 0 then Some s
  else
    let* m := _forget_base_memory fuel (bmem s) (Some (real_mode_stack s)) real_mode_stack_size in
    let* s := get_memsizes fuel (set_bmem m s) in
    Some (set_stack 0 s).
Definition allot_base_memory (fuel : nat) (size : Z) (s : base) : option (base * option Z) :=
  let* s := forget_real_mode_stack fuel s in
  let* '(m, ptr) := _allot_base_memory fuel (bmem s) size in
  let* s := get_memsizes fuel (set_bmem m s) in
  Some (s, ptr).
Definition forget_base_memory (fuel : nat) (ptr : option Z) (size : Z) (s : base) : option base :=
  let* m := _forget_base_memory fuel (bmem s) ptr size in
  let* s := forget_real_mode_stack fuel (set_bmem m s) in
  get_memsizes fuel s.
Definition forget_prefix_base_memory (fuel : nat) (text : Z) (s : base) : option base :=
  let runtime_start_kb := align_down text 1024 in
  let prefix_size_kb := u32 (runtime_start_kb - image_basemem s) in
  if (image_basemem s >=? FREE_BASE_MEMORY (bmem s)) && (runtime_start_kb >=? FREE_BASE_MEMORY (bmem s))
     && (runtime_start_kb <=? Z.shiftl BASE_MEMORY_MAX 10)
  then
    let* s := forget_base_memory fuel (Some (image_basemem s)) prefix_size_kb s in
    Some (set_image runtime_start_kb (u32 (image_basemem_size s - prefix_size_kb)) s)
  else Some s.
Definition forget_runtime_base_memory (fuel : nat) (old_addr : Z) (s : base) : option base :=
  let old_text_start_kb := align_down old_addr 1024 in
  if (image_basemem s >=? FREE_BASE_MEMORY (bmem s)) && (image_basemem s =? old_text_start_kb)
  then
    let* s := forget_base_memory fuel (Some (image_basemem s)) (image_basemem_size s) s in
    Some (set_image 0 0 s)
  else Some s.
End bios.

(** ** The blocks of base memory *)

Lemma fbms_range m : 0 <= fbms m < 65536.
Proof. apply ld16_range. Qed.
Lemma FREE_eq m : FREE_BASE_MEMORY m = 1024 * fbms m.
Proof.
  unfold FREE_BASE_MEMORY. pose proof (fbms_range m). rewrite Z.shiftl_mul_pow2, u32_small by lia. lia.
Qed.
Lemma fbms_st16 m v : 0 <= v < 65536 -> fbms (st16 m FBMS v) = v.
Proof. intros H. unfold fbms. rewrite ld16_st16_eq. now apply u16_small. Qed.

(** A block: its kilobytes, and whether it is in use; the blocks from kilobyte [a] up to [top], above which
    nothing is ours. *)
Definition blk := (Z * bool)%type.
Fixpoint laid (m : mem) (top a : Z) (bs : list blk) : Prop :=
  match bs with
  | [] => a = top /\ (a = BASE_MEMORY_MAX \/ ld32 m (1024 * a) <> FREE_BLOCK_MAGIC)
  | (k, used) :: bs =>
      1 <= k /\
      (if used then ld32 m (1024 * a) <> FREE_BLOCK_MAGIC
       else ld32 m (1024 * a) = FREE_BLOCK_MAGIC /\ ld16 m (1024 * a + 4) = k) /\
      laid m top (a + k) bs
  end.
Definition represents (m : mem) (top : Z) (bs : list blk) : Prop :=
  2 <= fbms m /\ top <= BASE_MEMORY_MAX /\ laid m top (fbms m) bs.
(** The blocks in use, with their kilobytes. *)
Fixpoint in_use (a : Z) (bs : list blk) : list (Z * Z) :=
  match bs with
  | [] => []
  | (k, used) :: bs => (if used then [(a, k)] else []) ++ in_use (a + k) bs
  end.

Lemma laid_top m top bs : forall a, laid m top a bs -> a <= top.
Proof. induction bs as [|(k, u) bs IH]; intros a; cbn [laid]; [lia|]. intros (H1 & _ & H). apply IH in H. lia. Qed.
Lemma laid_ext m m' top bs : forall a, (forall x, 1024 * a <= x -> ld8 m' x = ld8 m x) -> laid m top a bs -> laid m' top a bs.
Proof.
  induction bs as [|(k, u) bs IH]; intros a He; cbn [laid].
  - intros (H1 & H2). split; [exact H1|]. rewrite (ld32_ext m' m) by (intros x Hx; apply He; lia). exact H2.
  - intros (H1 & H2 & H3). split; [exact H1|]. split; [|apply IH; [intros x Hx; apply He; lia|exact H3]].
    rewrite (ld32_ext m' m) by (intros x Hx; apply He; lia).
    rewrite (ld16_ext m' m) by (intros x Hx; apply He; lia). exact H2.
Qed.

(** The free blocks at the bottom are released. *)
Fixpoint release (bs : list blk) : list blk :=
  match bs with
  | (_, false) :: bs => release bs
  | _ => bs
  end.
Fixpoint released (bs : list blk) : Z :=
  match bs with
  | (k, false) :: bs => k + released bs
  | _ => 0
  end.
Lemma in_use_release bs : forall a, in_use (a + released bs) (release bs) = in_use a bs.
Proof.
  induction bs as [|(k, [|]) bs IH]; intros a; cbn [released release in_use]; rewrite ?Z.add_0_r; try reflexivity.
  cbn [app]. now rewrite Z.add_assoc, IH.
Qed.

Lemma free_unused_spec top bs : forall m fuel, represents m top bs -> (length bs < fuel)%nat ->
  exists m', free_unused_base_memory fuel m = Some m' /\ represents m' top (release bs) /\
    fbms m' = fbms m + released bs /\
    (forall x, x < FBMS \/ FBMS + 2 <= x -> x < 1024 * fbms m \/ 1024 * fbms m' <= x -> ld8 m' x = ld8 m x).
Proof.
  induction bs as [|(k, used) bs IH]; intros m fuel Hr Hf; pose proof Hr as (H2 & Ht & Hl);
    (destruct fuel as [|fuel]; [lia|]);
    cbn [free_unused_base_memory release released length] in *; rewrite FREE_eq.
  - destruct Hl as (Ha & Hm).
    assert (X : (fbms m =? BASE_MEMORY_MAX) || negb (ld32 m (1024 * fbms m) =? FREE_BLOCK_MAGIC) = true).
    { destruct Hm as [->|Hm]; [reflexivity|]. apply Z.eqb_neq in Hm. now rewrite Hm, orb_true_r. }
    rewrite X. exists m. split; [reflexivity|]. split; [exact Hr|]. split; [lia|auto].
  - pose proof Hl as (Hk & Hm & Hl'). pose proof (laid_top _ _ _ _ Hl') as Hle. unfold BASE_MEMORY_MAX in *.
    destruct (Z.eqb_spec (fbms m) 640); [lia|]. cbn [orb]. destruct used.
    + apply Z.eqb_neq in Hm. rewrite Hm. cbn [negb]. exists m. split; [reflexivity|].
      split; [exact Hr|]. split; [lia|auto].
    + destruct Hm as (Em & Ek). rewrite Em, Z.eqb_refl. cbn [negb]. rewrite Ek.
      set (m1 := st16 m FBMS (fbms m + k)). change (st16 m FBMS (fbms m + k)) with m1.
      assert (O1 : forall x, x < FBMS \/ FBMS + 2 <= x -> ld8 m1 x = ld8 m x)
        by (intros x Hx; apply ld8_st16_ne; lia).
      assert (E1 : ld16 m1 (1024 * fbms m + 4) = k).
      { rewrite <- Ek. apply ld16_ext; intros x Hx; apply O1; unfold FBMS in *; lia. }
      rewrite E1, Z.shiftl_mul_pow2 by lia.
      set (m2 := memset m1 (1024 * fbms m) 0 (Z.to_nat (k * 2 ^ 10))).
      assert (O2 : forall x, x < 1024 * fbms m \/ 1024 * (fbms m + k) <= x -> ld8 m2 x = ld8 m1 x).
      { intros x Hx. subst m2. rewrite ld8_memset. rewrite Z2Nat.id by lia. case_tests; (lia || reflexivity). }
      assert (F2 : fbms m2 = fbms m + k).
      { unfold fbms at 1. rewrite (ld16_ext m2 m1) by (intros x Hx; apply O2; unfold FBMS in *; lia).
        subst m1. change (ld16 (st16 m FBMS (fbms m + k)) FBMS) with (fbms (st16 m FBMS (fbms m + k))).
        apply fbms_st16. lia. }
      destruct (IH m2 fuel) as (m' & R & Rp & Fb & O); [|lia|].
      { split; [lia|]. split; [exact Ht|]. rewrite F2. apply (laid_ext m); [|exact Hl'].
        intros x Hx. rewrite O2 by lia. apply O1. unfold FBMS. lia. }
      exists m'. split; [exact R|]. split; [exact Rp|]. split; [lia|].
      assert (0 <= released bs).
      { clear -Hl'. revert Hl'. generalize (fbms m + k). induction bs as [|(k', [|]) bs IH]; intros a; cbn [released laid]; try lia.
        intros (? & _ & H). apply IH in H. lia. }
      intros x Hx1 Hx2. rewrite O, O2, O1 by lia. reflexivity.
Qed.

Lemma released_nonneg m top bs : forall a, laid m top a bs -> 0 <= released bs.
Proof.
  induction bs as [|(k, [|]) bs IH]; intros a; cbn [released laid]; try lia. intros (? & _ & H). apply IH in H. lia.
Qed.
Lemma laid_length m top bs : forall a, laid m top a bs -> Z.of_nat (length bs) <= top - a.
Proof.
  induction bs as [|(k, u) bs IH]; intros a; cbn [laid length]; [lia|]. intros (H1 & _ & H). apply IH in H. lia.
Qed.
Lemma represents_fuel m top bs fuel : represents m top bs -> (640 <= fuel)%nat -> (length bs < fuel)%nat.
Proof.
  intros (H2 & Ht & Hl) Hf. apply laid_length in Hl. unfold BASE_MEMORY_MAX in Ht. lia.
Qed.

Lemma shiftr_kb v : 0 <= v < 67108864 -> u16 (Z.shiftr (u32 v) 10) = v / 1024.
Proof.
  intros H. rewrite u32_small by lia. rewrite Z.shiftr_div_pow2 by lia. change (2 ^ 10) with 1024.
  apply u16_small. Z.div_mod_to_equations. lia.
Qed.

Lemma allot_base_spec m top bs fuel size :
  let k := (size + 1023) / 1024 in
  represents m top bs -> (640 <= fuel)%nat -> 0 < size -> k + 2 <= fbms m ->
  let a := fbms m + released bs - k in
  exists m', _allot_base_memory fuel m size = Some (m', Some (1024 * a)) /\
    represents m' top ((k, true) :: release bs) /\ fbms m' = a /\
    (forall x, 1024 * a <= x < 1024 * (a + k) -> ld8 m' x = 0) /\
    (forall x, 1024 * (a + k) <= x -> ld8 m' x = ld8 m x).
Proof.
  intros k Hr Hf Hs Hk a.
  assert (Hm : fbms m < 65536) by apply fbms_range.
  assert (Rk : 1 <= k /\ size <= 1024 * k < size + 1024) by (subst k; Z.div_mod_to_equations; lia).
  destruct (free_unused_spec top bs m fuel Hr (represents_fuel _ _ _ _ Hr Hf)) as (m1 & E1 & (F1 & T1 & L1) & B1 & O1).
  pose proof (released_nonneg _ _ _ _ (proj2 (proj2 Hr))) as Hrel.
  pose proof (laid_top _ _ _ _ L1) as Lt. unfold BASE_MEMORY_MAX in T1.
  unfold _allot_base_memory. rewrite E1. cbn [obind]. rewrite shiftr_kb by lia. fold k. rewrite Z.gtb_ltb.
  destruct (Z.ltb_spec (fbms m1) k); [lia|].
  assert (Ea : fbms m1 - k = a) by (subst a; lia). rewrite Ea.
  set (m2 := st16 m1 FBMS a).
  assert (B2 : fbms m2 = a) by (apply fbms_st16; subst a; lia).
  rewrite FREE_eq, B2, Z.shiftl_mul_pow2 by lia.
  set (m3 := memset m2 (1024 * a) 0 (Z.to_nat (k * 2 ^ 10))).
  assert (S3 : forall x, ld8 m3 x = if (1024 * a <=? x) && (x <? 1024 * (a + k)) then 0 else ld8 m2 x).
  { intros x. subst m3. rewrite ld8_memset. rewrite Z2Nat.id by lia.
    replace (1024 * a + k * 2 ^ 10) with (1024 * (a + k)) by lia. reflexivity. }
  assert (O2 : forall x, x < FBMS \/ FBMS + 2 <= x -> ld8 m2 x = ld8 m1 x)
    by (intros x Hx; apply ld8_st16_ne; lia).
  assert (B3 : fbms m3 = a).
  { rewrite <- B2. unfold fbms. apply ld16_ext; intros x Hx; rewrite S3; unfold FBMS in *; case_tests; (lia || reflexivity). }
  exists m3. split; [reflexivity|]. split; [|split; [exact B3|split]].
  - split; [lia|]. split; [exact T1|]. rewrite B3. cbn [laid]. split; [lia|]. split.
    + assert (Z0 : ld32 m3 (1024 * a) = 0).
      { unfold ld32, ld16. rewrite !S3. case_tests; lia. }
      rewrite Z0. discriminate.
    + replace (a + k) with (fbms m1) by lia. apply (laid_ext m1); [|exact L1].
      intros x Hx. rewrite S3. case_tests; try lia; apply O2; unfold FBMS; lia.
  - intros x Hx. rewrite S3. case_tests; lia.
  - intros x Hx. rewrite S3. case_tests; try lia; rewrite O2, O1 by (unfold FBMS; lia); reflexivity.
Qed.

Lemma mark_free_out k : forall m b x, x < b \/ b + 1024 * Z.of_nat k <= x -> ld8 (mark_free m b k) x = ld8 m x.
Proof.
  induction k as [|k IH]; intros m b x Hx; cbn [mark_free]; [reflexivity|].
  rewrite IH, ld8_st16_ne, ld8_st32_ne by lia. reflexivity.
Qed.
Lemma mark_free_head k m b : 0 < Z.of_nat k < 65536 ->
  ld32 (mark_free m b k) b = FREE_BLOCK_MAGIC /\ ld16 (mark_free m b k) (b + 4) = Z.of_nat k.
Proof.
  intros Hk. destruct k as [|k]; [lia|]. cbn [mark_free].
  set (m1 := st16 _ (b + 4) _). split.
  - rewrite (ld32_ext _ m1) by (intros x Hx; apply mark_free_out; lia). subst m1.
    rewrite ld32_st16_ne, ld32_st32_eq by lia. reflexivity.
  - rewrite (ld16_ext _ m1) by (intros x Hx; apply mark_free_out; lia). subst m1. rewrite ld16_st16_eq. apply u16_small. lia.
Qed.

Fixpoint sizes (bs : list blk) : Z := match bs with [] => 0 | (k, _) :: bs => k + sizes bs end.
Lemma laid_split m top pre k u post : forall a, laid m top a (pre ++ (k, u) :: post) ->
  0 <= sizes pre /\ 1 <= k /\ a + sizes pre + k <= top.
Proof.
  induction pre as [|(k', u') pre IH]; intros a; cbn [app laid sizes].
  - intros (H1 & _ & H). apply laid_top in H. lia.
  - intros (H1 & _ & H). apply IH in H. lia.
Qed.
(** Changing what one block holds, within it. *)
Lemma laid_change m m' top pre k u u' post : forall a,
  laid m top a (pre ++ (k, u) :: post) ->
  (forall x, x < 1024 * (a + sizes pre) \/ 1024 * (a + sizes pre + k) <= x -> 1024 * a <= x -> ld8 m' x = ld8 m x) ->
  (if u' : bool then ld32 m' (1024 * (a + sizes pre)) <> FREE_BLOCK_MAGIC
   else ld32 m' (1024 * (a + sizes pre)) = FREE_BLOCK_MAGIC /\ ld16 m' (1024 * (a + sizes pre) + 4) = k) ->
  laid m' top a (pre ++ (k, u') :: post).
Proof.
  induction pre as [|(k', v) pre IH]; intros a Hl Ho Hu.
  - cbn [app laid sizes] in *. rewrite Z.add_0_r in *. destruct Hl as (H1 & _ & H3). split; [exact H1|].
    split; [exact Hu|]. apply (laid_ext m); [|exact H3]. intros x Hx. apply Ho; lia.
  - pose proof (laid_split _ _ _ _ _ _ _ Hl) as Hs. cbn [app laid sizes] in *. destruct Hl as (H1 & H2 & H3).
    pose proof (laid_split _ _ _ _ _ _ _ H3) as Hs2.
    split; [exact H1|]. rewrite (ld32_ext m' m) by (intros x Hx; apply Ho; lia).
    rewrite (ld16_ext m' m) by (intros x Hx; apply Ho; lia). split; [exact H2|].
    apply IH; [exact H3 | intros x Hx Hx2; apply Ho; lia|]. rewrite <- Z.add_assoc. exact Hu.
Qed.
Lemma in_use_app pre bs : forall a, in_use a (pre ++ bs) = in_use a pre ++ in_use (a + sizes pre) bs.
Proof.
  induction pre as [|(k, u) pre IH]; intros a; cbn [app in_use sizes]; [now rewrite Z.add_0_r|].
  rewrite IH, app_assoc, Z.add_assoc. reflexivity.
Qed.
Lemma in_use_find b k bs : forall a, In (b, k) (in_use a bs) ->
  exists pre post, bs = pre ++ (k, true) :: post /\ b = a + sizes pre.
Proof.
  induction bs as [|(k', u) bs IH]; intros a; cbn [in_use]; [intros []|]. intros Hin. apply in_app_or in Hin as [Hin|Hin].
  - destruct u; [|destruct Hin]. destruct Hin as [[= <- <-]|[]]. exists [], bs. split; [reflexivity|]. cbn. lia.
  - destruct (IH _ Hin) as (pre & post & -> & ->). exists ((k', u) :: pre), post. split; [reflexivity|]. cbn. lia.
Qed.

Lemma forget_base_spec m top pre k post fuel size :
  let a := fbms m + sizes pre in
  represents m top (pre ++ (k, true) :: post) -> (640 <= fuel)%nat -> 0 < size -> k = (size + 1023) / 1024 ->
  exists m', _forget_base_memory fuel m (Some (1024 * a)) size = Some m' /\
    represents m' top (release (pre ++ (k, false) :: post)) /\
    fbms m' = fbms m + released (pre ++ (k, false) :: post) /\
    (forall x, 1024 * fbms m' <= x -> x < 1024 * a \/ 1024 * (a + k) <= x -> ld8 m' x = ld8 m x).
Proof.
  intros a Hr Hf Hs Hk. pose proof Hr as (F0 & T0 & L0). pose proof (laid_split _ _ _ _ _ _ _ L0) as (S0 & K0 & A0).
  unfold BASE_MEMORY_MAX in T0. fold a in A0.
  assert (Rs : size <= 1024 * k) by (subst k; Z.div_mod_to_equations; lia).
  unfold _forget_base_memory. destruct (Z.eqb_spec size 0); [lia|].
  assert (R0 : u16 (Z.land (1024 * a) 1023) = 0).
  { change 1023 with (Z.ones 10). rewrite Z.land_ones by lia. change (2 ^ 10) with 1024.
    rewrite Z.mul_comm, Z_mod_mult. reflexivity. }
  rewrite R0, Z.add_0_r, Z.sub_0_r, shiftr_kb, <- Hk by lia.
  set (m1 := mark_free m (1024 * a) (Z.to_nat k)).
  assert (O1 : forall x, x < 1024 * a \/ 1024 * (a + k) <= x -> ld8 m1 x = ld8 m x).
  { intros x Hx. apply mark_free_out. lia. }
  assert (B1 : fbms m1 = fbms m) by (unfold fbms; apply ld16_ext; intros x Hx; apply O1; unfold FBMS in *; lia).
  assert (R1 : represents m1 top (pre ++ (k, false) :: post)).
  { split; [lia|]. split; [exact T0|]. rewrite B1. apply (laid_change m m1 top pre k true false post); [exact L0| |].
    - intros x Hx _. apply O1. exact Hx.
    - fold a. destruct (mark_free_head (Z.to_nat k) m (1024 * a)) as (X & Y); [lia|].
      split; [exact X|]. rewrite Z2Nat.id in Y by lia. exact Y. }
  destruct (free_unused_spec top _ m1 fuel R1 (represents_fuel _ _ _ _ R1 Hf)) as (m2 & E2 & R2 & B2 & O2).
  exists m2. split; [exact E2|]. split; [exact R2|]. rewrite B1 in B2, O2. split; [exact B2|].
  pose proof (released_nonneg _ _ _ _ (proj2 (proj2 R1))).
  intros x Hx Hx2. rewrite O2 by (unfold FBMS; lia). now apply O1.
Qed.

(** *** A client *)

(** The memory, and the blocks that the client holds: where it got them and the size it asked for.  It may
    write what it wants into them, short of the mark of a free block at the start of one. *)
Definition client := (mem * list (Z * Z))%type.
Definition kbs (b : Z * Z) : Z * Z := (fst b / 1024, (snd b + 1023) / 1024).
Inductive client_step (fuel : nat) : client -> client -> Prop :=
| cs_allot m l size m' p :
    0 < size -> (size + 1023) / 1024 + 2 <= fbms m -> _allot_base_memory fuel m size = Some (m', Some p) ->
    client_step fuel (m, l) (m', (p, size) :: l)
| cs_forget m l1 p size l2 m' :
    _forget_base_memory fuel m (Some p) size = Some m' -> client_step fuel (m, l1 ++ (p, size) :: l2) (m', l1 ++ l2)
| cs_use m l p size m' :
    In (p, size) l -> (forall x, x < p \/ p + size <= x -> ld8 m' x = ld8 m x) -> ld32 m' p <> FREE_BLOCK_MAGIC ->
    client_step fuel (m, l) (m', l).
Inductive client_steps (fuel : nat) : client -> client -> Prop :=
| css_refl c : client_steps fuel c c
| css_step c c' c'' : client_steps fuel c c' -> client_step fuel c' c'' -> client_steps fuel c c''.

Definition client_inv (top : Z) (c : client) : Prop :=
  exists bs, represents (fst c) top bs /\ Permutation (map kbs (snd c)) (in_use (fbms (fst c)) bs) /\
    Forall (fun b => fst b mod 1024 = 0 /\ 0 < snd b) (snd c) /\ release bs = bs.
Lemma release_idem bs : release (release bs) = release bs.
Proof. induction bs as [|(k, [|]) bs IH]; cbn [release]; auto. Qed.
Lemma in_use_none bs : forall a, in_use a bs = [] -> release bs = [].
Proof. induction bs as [|(k, [|]) bs IH]; intros a; cbn; [auto|discriminate|apply IH]. Qed.
Lemma in_use_range m top bs : forall a b k, laid m top a bs -> In (b, k) (in_use a bs) -> a <= b /\ b + k <= top.
Proof.
  intros a b k Hl Hin. destruct (in_use_find _ _ _ _ Hin) as (pre & post & -> & ->).
  pose proof (laid_split _ _ _ _ _ _ _ Hl). lia.
Qed.
Lemma client_inv_step fuel top c c' : (640 <= fuel)%nat -> client_inv top c -> client_step fuel c c' -> client_inv top c'.
Proof.
  intros Hf (bs & Hr & Hp & Hl & Hn) St. destruct St as [m l size m' p Hs Hk E1|m l1 p size l2 m' E1|m l p size m' Hin Ho Hm];
    cbn [fst snd] in *.
  - destruct (allot_base_spec m top bs fuel size Hr Hf Hs Hk) as (m1 & E2 & R1 & B1 & _).
    set (k := (size + 1023) / 1024) in *. set (a := fbms m + released bs - k) in *.
    assert (X : m1 = m' /\ 1024 * a = p) by (split; congruence). destruct X as (<- & <-).
    exists ((k, true) :: release bs). cbn [fst snd map in_use]. rewrite B1. split; [exact R1|]. split; [|split; [|reflexivity]].
    + unfold kbs at 1. cbn [fst snd]. fold k. rewrite Z.mul_comm, Z_div_mult by lia. cbn [app]. constructor.
      replace (a + k) with (fbms m + released bs) by (subst a; lia). now rewrite in_use_release.
    + constructor; [|exact Hl]. cbn [fst snd]. split; [|exact Hs]. now rewrite Z.mul_comm, Z_mod_mult.
  - rewrite map_app in Hp. cbn [map] in Hp. rewrite Forall_app in Hl. destruct Hl as (Hl1 & Hl2).
    inversion_clear Hl2 as [|? ? (Hp0 & Hs) Hl3]. cbn [fst snd] in *.
    assert (Hin : In (kbs (p, size)) (in_use (fbms m) bs)).
    { eapply Permutation_in; [exact Hp|]. apply in_or_app. right. now left. }
    unfold kbs in Hin. cbn [fst snd] in Hin. set (k := (size + 1023) / 1024) in *.
    destruct (in_use_find _ _ _ _ Hin) as (pre & post & -> & Ea).
    assert (Ep : p = 1024 * (fbms m + sizes pre)) by (rewrite <- Ea; Z.div_mod_to_equations; lia).
    destruct (forget_base_spec m top pre k post fuel size Hr Hf Hs eq_refl) as (m1 & E2 & R1 & B1 & _).
    rewrite Ep, E2 in E1. assert (X : m1 = m') by congruence. subst m1.
    exists (release (pre ++ (k, false) :: post)). cbn [fst snd]. split; [exact R1|]. split; [|split; [now apply Forall_app|apply release_idem]].
    rewrite B1, in_use_release, map_app, in_use_app. cbn [in_use app]. rewrite in_use_app in Hp. cbn [in_use app] in Hp.
    apply (Permutation_app_inv _ _ _ _ (fbms m + sizes pre, k)).
    unfold kbs in Hp at 2. cbn [fst snd] in Hp. fold k in Hp. rewrite Ea in Hp. exact Hp.
  - assert (Hin2 : In (kbs (p, size)) (in_use (fbms m) bs)) by (eapply Permutation_in; [exact Hp|]; now apply in_map).
    pose proof (proj1 (Forall_forall _ _) Hl _ Hin) as (Hp0 & Hs). unfold kbs in Hin2. cbn [fst snd] in *.
    set (k := (size + 1023) / 1024) in *. destruct (in_use_find _ _ _ _ Hin2) as (pre & post & -> & Ea).
    assert (Ep : p = 1024 * (fbms m + sizes pre)) by (rewrite <- Ea; Z.div_mod_to_equations; lia).
    assert (Hk : size <= 1024 * k) by (subst k; Z.div_mod_to_equations; lia).
    pose proof Hr as (F0 & T0 & L0). pose proof (laid_split _ _ _ _ _ _ _ L0) as (S0 & K0 & A0).
    assert (B1 : fbms m' = fbms m) by (unfold fbms; apply ld16_ext; intros x Hx; apply Ho; unfold FBMS in *; lia).
    exists (pre ++ (k, true) :: post). cbn [fst snd]. rewrite B1. split; [|split; [exact Hp|split; [exact Hl|exact Hn]]].
    split; [lia|]. split; [exact T0|]. rewrite B1. apply (laid_change m m' top pre k true true post); [exact L0| |].
    + intros x Hx _. apply Ho. lia.
    + now rewrite <- Ep.
Qed.

(** ** Properties *)

(** C10: base memory can be given back in any order.  Whatever a client allots, uses and gives back, the blocks
    it holds lie between the counter of the BIOS and where the counter stood at the start, so that no
    two of them meet and a new one meets none; each can be given back; and when all have been given
    back, in whatever order, the counter is what it was. *)
Theorem base_memory_any_order fuel m0 m l :
  (640 <= fuel)%nat -> 2 <= fbms m0 <= BASE_MEMORY_MAX ->
  fbms m0 = BASE_MEMORY_MAX \/ ld32 m0 (1024 * fbms m0) <> FREE_BLOCK_MAGIC ->
  client_steps fuel (m0, []) (m, l) ->
  Forall (fun b => 1024 * fbms m <= fst b /\ fst b + snd b <= 1024 * fbms m0) l /\
  Forall (fun b => exists m', _forget_base_memory fuel m (Some (fst b)) (snd b) = Some m') l /\
  (l = [] -> fbms m = fbms m0).
Proof.
  intros Hf H0 Hm Hs. set (top := fbms m0).
  assert (I : client_inv top (m, l)).
  { remember (m0, []) as c0 eqn:E0. remember (m, l) as c1 eqn:E1. clear E1.
    induction Hs as [c|c c' c'' Hs IH St]; [|exact (client_inv_step fuel top _ _ Hf (IH E0) St)]. subst c.
    exists []. cbn [fst snd map in_use]. split; [|split; [constructor|split; [constructor|reflexivity]]].
    split; [lia|]. split; [unfold top; lia|]. cbn [laid]. split; [reflexivity|exact Hm]. }
  destruct I as (bs & Hr & Hp & Hl & Hn). cbn [fst snd] in *. pose proof Hr as (F0 & T0 & L0).
  assert (U : Forall (fun b => In (kbs b) (in_use (fbms m) bs)) l).
  { apply Forall_forall. intros b Hb. eapply Permutation_in; [exact Hp|]. now apply in_map. }
  rewrite Forall_forall in U, Hl. split; [|split].
  - apply Forall_forall. intros (p, size) Hb. pose proof (U _ Hb) as Hin. pose proof (Hl _ Hb) as (Hp0 & Hsz).
    unfold kbs in Hin. cbn [fst snd] in *. apply (in_use_range m top) in Hin; [|exact L0]. fold top.
    Z.div_mod_to_equations. lia.
  - apply Forall_forall. intros (p, size) Hb. pose proof (U _ Hb) as Hin. pose proof (Hl _ Hb) as (Hp0 & Hsz).
    unfold kbs in Hin. cbn [fst snd] in *. destruct (in_use_find _ _ _ _ Hin) as (pre & post & -> & Ea).
    destruct (forget_base_spec m top pre _ post fuel size Hr Hf Hsz eq_refl) as (m' & E & _). exists m'.
    rewrite <- E. do 2 f_equal. rewrite <- Ea. Z.div_mod_to_equations. lia.
  - intros ->. apply Permutation_nil in Hp.
    apply in_use_none in Hp. rewrite Hn in Hp. subst bs. apply L0.
Qed.

(** A run of the definitions, by evaluation of what is not memory. *)
Definition got (r : option (mem * option Z)) : mem := match r with Some (m, _) => m | None => fun _ => 0 end.
Definition left (r : option mem) : mem := match r with Some m => m | None => fun _ => 0 end.
Lemma allot_run fuel m size p : option_map snd (_allot_base_memory fuel m size) = Some (Some p) ->
  _allot_base_memory fuel m size = Some (got (_allot_base_memory fuel m size), Some p).
Proof. destruct (_allot_base_memory fuel m size) as [(m', q)|]; cbn [option_map snd got]; congruence. Qed.
Lemma forget_run fuel m p size : option_map (fun _ => tt) (_forget_base_memory fuel m (Some p) size) = Some tt ->
  _forget_base_memory fuel m (Some p) size = Some (left (_forget_base_memory fuel m (Some p) size)).
Proof. destruct (_forget_base_memory fuel m (Some p) size); cbn; congruence. Qed.
Lemma base_memory_any_order_witness :
  let m0 := st16 (fun _ => 0) FBMS 639 in
  let m1 := got (_allot_base_memory 640 m0 1500) in
  let m2 := got (_allot_base_memory 640 m1 100) in
  let m3 := left (_forget_base_memory 640 m2 (Some 652288) 1500) in
  let m4 := left (_forget_base_memory 640 m3 (Some 651264) 100) in
  fbms m2 = 636 /\ fbms m3 = 636 /\
  Forall (fun b => 1024 * fbms m3 <= fst b /\ fst b + snd b <= 1024 * fbms m0) [(651264, 100)] /\ fbms m4 = fbms m0.
Proof.
  intros m0 m1 m2 m3 m4.
  assert (S1 : client_step 640 (m0, []) (m1, [(652288, 1500)]))
    by (apply cs_allot; [lia|vm_compute; discriminate|apply allot_run; vm_compute; reflexivity]).
  assert (S2 : client_step 640 (m1, [(652288, 1500)]) (m2, [(651264, 100); (652288, 1500)]))
    by (apply cs_allot; [lia|vm_compute; discriminate|apply allot_run; vm_compute; reflexivity]).
  assert (S3 : client_step 640 (m2, [(651264, 100); (652288, 1500)]) (m3, [(651264, 100)]))
    by (apply (cs_forget _ _ [(651264, 100)] 652288 1500 []), forget_run; vm_compute; reflexivity).
  assert (S4 : client_step 640 (m3, [(651264, 100)]) (m4, []))
    by (apply (cs_forget _ _ [] 651264 100 []), forget_run; vm_compute; reflexivity).
  assert (T3 : client_steps 640 (m0, []) (m3, [(651264, 100)])) 
    by exact (css_step _ _ _ _ (css_step _ _ _ _ (css_step _ _ _ _ (css_refl _ _) S1) S2) S3).
  assert (H0 : 2 <= fbms m0 <= BASE_MEMORY_MAX) by (split; vm_compute; discriminate).
  assert (Hm : fbms m0 = BASE_MEMORY_MAX \/ ld32 m0 (1024 * fbms m0) <> FREE_BLOCK_MAGIC)
    by (right; vm_compute; discriminate).
  split; [vm_compute; reflexivity|]. split; [vm_compute; reflexivity|]. split.
  - apply (base_memory_any_order 640 m0 m3 [(651264, 100)]); [lia|assumption..].
  - apply (base_memory_any_order 640 m0 m4 []); [lia|assumption|assumption| |reflexivity].
    exact (css_step _ _ _ _ T3 S4).
Defined.

(** *** The map *)

Definition covers (e : e820entry) (x : Z) : Prop := e_addr e <= x < e_addr e + e_size e.
Definition calls_ram (map : list e820entry) (x : Z) : Prop := exists e, In e map /\ e_type e = E820_RAM /\ covers e x.
(** An entry of the BIOS: a range of 64-bit addresses. *)
Definition sane (e : e820entry) : Prop := wf_entry e /\ e_addr e + e_size e < 18446744073709551616.
(** What a RAM entry keeps of what the BIOS said. *)
Lemma scrub_covers basemem e x : sane e -> e_type e = E820_RAM -> min_addr <= basemem <= 0xa0000 ->
  covers (scrub basemem e) x <-> covers e x /\ min_addr <= x /\ (e_addr e < 0xa0000 -> x < basemem).
Proof.
  intros ((Ha & Hs) & Hw) Ht Hb. unfold scrub, sync_basemem, reserve_bios, covers, min_addr in *. rewrite Ht, Z.eqb_refl. cbn [negb].
  destruct (Z.ltb_spec (e_addr e) 0x600); cbv zeta; cbn [e_addr e_size e_type].
  - rewrite (u32_small (0x600 - e_addr e)), !Z.gtb_ltb by lia.
    set (d := if e_size e <? 0x600 - e_addr e then u32 (e_size e) else 0x600 - e_addr e).
    assert (Hd : 0 <= d /\ d = Z.min (e_size e) (0x600 - e_addr e)).
    { subst d. destruct (Z.ltb_spec (e_size e) (0x600 - e_addr e)); rewrite ?u32_small by lia; lia. }
    rewrite (u64_small (e_size e - d)) by lia. rewrite (u64_small (0x600 + (e_size e - d))) by lia.
    case_tests; cbn [e_addr e_size]; rewrite ?u64_small by lia; lia.
  - rewrite (u64_small (e_addr e + e_size e)), Z.gtb_ltb by lia.
    case_tests; cbn [e_addr e_size]; rewrite ?u64_small by lia; lia.
Qed.
Lemma scrub_type basemem e : e_type (scrub basemem e) = e_type e.
Proof. unfold scrub, sync_basemem, reserve_bios. case_tests; reflexivity. Qed.
Lemma scrub_other basemem e : e_type e <> E820_RAM -> scrub basemem e = e.
Proof. intros H. unfold scrub. apply Z.eqb_neq in H. now rewrite H. Qed.

(** The memory map agrees with the BIOS and with the base memory allotted.  [get_memsizes] on a stack that
    exists changes nothing but the map, entry by entry: one that is not RAM stays as the BIOS gave it, and one
    that is RAM keeps exactly its addresses that are above the data of the BIOS and, when it starts below
    0xa0000, below the allotted base memory. *)
Theorem memory_map_scrubbed bios_map basememsize memsize high_stack fuel s :
  high_stack = false \/ real_mode_stack s <> 0 ->
  2 <= fbms (bmem s) <= BASE_MEMORY_MAX -> Forall sane (raw_map bios_map basememsize memsize (bmem s)) ->
  exists s', get_memsizes bios_map basememsize memsize high_stack (S fuel) s = Some (set_map (memory_map s') s) /\
    Forall2 (fun e e' => e_type e' = e_type e /\
        (e_type e <> E820_RAM -> e' = e) /\
        (e_type e = E820_RAM -> forall x, covers e' x <->
           covers e x /\ 0x600 <= x /\ (e_addr e < 0xa0000 -> x < 1024 * fbms (bmem s))))
      (raw_map bios_map basememsize memsize (bmem s)) (memory_map s').
Proof.
  intros Hst Hb Hs. eexists (set_map _ s). split.
  - cbn [get_memsizes]. unfold prepare_stack.
    assert (X : high_stack && (real_mode_stack s =? 0) = false).
    { destruct Hst as [-> | Hz]; [reflexivity|]. apply Z.eqb_neq in Hz. rewrite Hz. apply andb_false_r. }
    rewrite X. cbn [obind memory_map set_map]. reflexivity.
  - cbn [memory_map set_map]. unfold get_free_base_memory. rewrite FREE_eq. unfold BASE_MEMORY_MAX in Hb.
    induction Hs as [|e l He Hs IH]; cbn [map]; constructor; [|exact IH].
    split; [apply scrub_type|]. split; [apply scrub_other|]. intros Ht x. apply scrub_covers; [exact He|exact Ht|].
    unfold min_addr. lia.
Qed.
Lemma memory_map_scrubbed_witness :
  let s := {| bmem := st16 (fun _ => 0) FBMS 630; real_mode_stack := 0; lock_real_mode_stack := false;
              image_basemem := 0; image_basemem_size := 0; memory_map := [] |} in
  let bios := [{| e_addr := 0; e_size := 0x9fc00; e_type := 1 |}; {| e_addr := 0x9fc00; e_size := 0x400; e_type := 2 |};
               {| e_addr := 0x100000; e_size := 0x1f00000; e_type := 1 |}] in
  exists s', get_memsizes bios (fun _ => 639) 0 false 1 s = Some (set_map (memory_map s') s) /\
    Forall2 (fun e e' => e_type e' = e_type e /\
        (e_type e <> E820_RAM -> e' = e) /\
        (e_type e = E820_RAM -> forall x, covers e' x <->
           covers e x /\ 0x600 <= x /\ (e_addr e < 0xa0000 -> x < 1024 * fbms (bmem s)))) bios (memory_map s').
Proof.
  intros s bios. apply (memory_map_scrubbed bios (fun _ => 639) 0 false 0 s).
  - left. reflexivity.
  - split; vm_compute; discriminate.
  - repeat constructor; vm_compute; discriminate.
Defined.

(** The first call of the BIOS by [get_memsizes]. *)
Lemma get_memsizes_first bios basememsize memsize n s m' p :
  lock_real_mode_stack s = false -> real_mode_stack s = 0 ->
  _allot_base_memory (S (S n)) (bmem s) real_mode_stack_size = Some (m', Some p) -> p <> 0 ->
  get_memsizes bios basememsize memsize true (S (S n)) s =
    Some (set_map (map (scrub (1024 * fbms (bmem s))) (raw_map bios basememsize memsize m')) (set_stack p (set_bmem m' s))).
Proof.
  intros Hl Hz E Hp. remember (S n) as n' eqn:En. cbn [get_memsizes]. unfold prepare_stack at 1, allot_real_mode_stack_with.
  rewrite Hz, Hl. cbn [andb Z.eqb bmem set_stack]. rewrite E. cbn [obind]. subst n'. cbn [get_memsizes].
  unfold prepare_stack. cbn [real_mode_stack set_stack]. apply Z.eqb_neq in Hp. rewrite Hp. cbn [andb obind].
  unfold get_free_base_memory. rewrite FREE_eq. reflexivity.
Qed.

(** The stack is left in the map.  When Etherboot has moved above base memory and has no real-mode stack,
    as after each [allot_base_memory] and [forget_base_memory], [get_memsizes] reads the counter before its
    first call of the BIOS allots the stack: the stack is taken from the top of the free base memory, and
    the map that is left calls all its bytes RAM, free for a heap or a segment. *)
Theorem stack_left_in_map bios_map basememsize memsize fuel s size :
  (640 < fuel)%nat -> real_mode_stack s = 0 -> lock_real_mode_stack s = false ->
  6 <= fbms (bmem s) <= BASE_MEMORY_MAX ->
  fbms (bmem s) = BASE_MEMORY_MAX \/ ld32 (bmem s) (1024 * fbms (bmem s)) <> FREE_BLOCK_MAGIC ->
  1024 * fbms (bmem s) <= size < 18446744073709551616 ->
  exists s', get_memsizes ({| e_addr := 0; e_size := size; e_type := E820_RAM |} :: bios_map) basememsize memsize true fuel s
      = Some s' /\
    real_mode_stack s' = 1024 * (fbms (bmem s) - 4) /\ fbms (bmem s') = fbms (bmem s) - 4 /\
    forall x, real_mode_stack s' <= x < real_mode_stack s' + real_mode_stack_size -> calls_ram (memory_map s') x.
Proof.
  intros Hf Hz Hl Hb Hm Hs. set (bios := _ :: bios_map). unfold BASE_MEMORY_MAX in Hb.
  destruct fuel as [|[|n]]; [lia..|].
  set (m := bmem s) in *. set (f := fbms m) in *.
  assert (Hr : represents m f []) by (split; [lia|]; split; [exact (proj2 Hb)|]; cbn [laid]; auto).
  destruct (allot_base_spec m f [] (S (S n)) real_mode_stack_size Hr) as (m' & E & _ & B & _);
    [lia|reflexivity|change ((real_mode_stack_size + 1023) / 1024) with 4; fold f; lia|].
  change ((real_mode_stack_size + 1023) / 1024) with 4 in *. fold f in E, B. cbn [released] in E, B. rewrite Z.add_0_r in E, B.
  rewrite (get_memsizes_first _ _ _ n s m' (1024 * (f - 4))); [|exact Hl|exact Hz|exact E|lia].
  eexists. split; [reflexivity|]. cbn [real_mode_stack bmem memory_map set_map set_stack set_bmem].
  split; [reflexivity|]. split; [exact B|]. intros x Hx. unfold real_mode_stack_size in Hx.
  exists (scrub (1024 * f) {| e_addr := 0; e_size := size; e_type := E820_RAM |}).
  split; [|split; [apply scrub_type|]].
  - unfold raw_map, bios. cbn [firstn map]. now left.
  - apply scrub_covers; cbn [e_addr e_size e_type]; [unfold sane, wf_entry; cbn; lia|reflexivity|unfold min_addr; lia|].
    unfold covers, min_addr. cbn [e_addr e_size]. lia.
Qed.
Lemma stack_left_in_map_witness :
  let s := {| bmem := st16 (fun _ => 0) FBMS 639; real_mode_stack := 0; lock_real_mode_stack := false;
              image_basemem := 0; image_basemem_size := 0; memory_map := [] |} in
  exists s', get_memsizes [{| e_addr := 0; e_size := 0x9fc00; e_type := E820_RAM |}] (fun _ => 639) 0 true 641 s = Some s' /\
    real_mode_stack s' = 1024 * (fbms (bmem s) - 4) /\ fbms (bmem s') = fbms (bmem s) - 4 /\
    forall x, real_mode_stack s' <= x < real_mode_stack s' + real_mode_stack_size -> calls_ram (memory_map s') x.
Proof.
  intros s. apply (stack_left_in_map [] (fun _ => 639) 0 641 s 0x9fc00).
  - lia.
  - reflexivity.
  - reflexivity.
  - split; vm_compute; discriminate.
  - right. vm_compute. discriminate.
  - split; [vm_compute; discriminate|reflexivity].
Defined.
