(* ===== verification/Nbi.v ===== *)
(** The loader of tagged images (NBI) of [src/src/arch/i386/core/tagged_loader.c], a format behind [probe_image].

    The first 512 bytes of the file hold a header and a list of segment descriptors; they are copied to where
    the header says, and the descriptors are read from that copy while the contents of the segments,
    one after the other in the file, are streamed to their addresses. *)

From S2P Require Import Prelude Memory StringLib Heap OsLoader.
Local Open Scope etherboot_scope.

(** ** The loader *)

Definition NBI_MAGIC : Z := 0x1B031336.
(** What [DlBoot] says of a program: that it is called in protected mode or in real mode. *)
Definition START32 : Z := 32.
Definition START16 : Z := 16.

(** [struct tagged_context]; of the header its second to fourth words. *)
Record tctx := {
  img_length : Z;
  img_location : Z;
  img_execaddr : Z;
  linlocation : Z;
  last0 : Z;
  last1 : Z;
  segaddr : Z;
  seglen : Z;
  segflags : Z;
  first : bool;
  cur : Z;
}.
Definition nbi_state : Type := mem * tctx.
Definition LINEAR_EXEC_ADDR (t : tctx) : bool := istrue (Z.land (img_length t) 0x80000000).
Definition TAGGED_PROGRAM_RETURNS (t : tctx) : bool := istrue (Z.land (img_length t) 0x100).
(** The length of a header: its own words and those of the vendor. *)
Definition words (b : Z) : Z := Z.shiftl (Z.land b 0x0f) 2 + Z.shiftr (Z.land b 0xf0) 2.
(** [struct segheader]. *)
Definition sh_length (m : mem) (sh : Z) : Z := ld8 m sh.
Definition sh_flags (m : mem) (sh : Z) : Z := ld8 m (sh + 3).
Definition sh_loadaddr (m : mem) (sh : Z) : Z := ld32 m (sh + 4).
Definition sh_imglength (m : mem) (sh : Z) : Z := ld32 m (sh + 8).
Definition sh_memlength (m : mem) (sh : Z) : Z := ld32 m (sh + 12).

Section nbi.
Context (ly : layout) (h : heap) (mmap : list e820entry) (memsize : Z).
Let virt := phys_to_virt (virt_offset ly).

(** The descriptors of the first block, each checked; where the loop ends, or [None] when a segment is refused.
    A descriptor takes four bytes at least, so 129 rounds are enough ([check_segments_total]). *)
Fixpoint check_segments (fuel : nat) (data sh loc : Z) (m : mem) : option (mem * option Z) :=
  match fuel with
  | O => None
  | S n =>
      if (sh_length m sh >? 0) && (sh <? data + 512) then
        let a := sh_loadaddr m sh in
        let len := sh_imglength m sh in
        let '(m, ok) := prep_segment ly mmap h m a (u32 (a + len)) (u32 (a + len)) loc (u32 (loc + len)) in
        if negb ok then Some (m, None)
        else if istrue (Z.land (sh_flags m sh) 0x04) then Some (m, Some sh)
        else check_segments n data (sh + words (sh_length m sh)) (u32 (loc + len)) m
      else Some (m, Some sh)
  end.

(** *** [tagged_download] *)

(** How the search for a segment with contents ends. *)
Inductive seg_end := SegReady (t : tctx) | SegStart (t : tctx) | SegAbort (t : tctx).
(** Where a segment goes, from its flags and the one before. *)
Definition seg_address (flags loadaddr l0 l1 : Z) : Z :=
  let f := Z.land flags 0x03 in
  if f =? 0 then loadaddr
  else if f =? 1 then u32 (l1 + loadaddr)
  else if f =? 2 then u32 (memsize * 1024 + 0x100000 - loadaddr)
  else u32 (l0 - loadaddr).
Definition next_seg_step (m : mem) (t : tctx) : tctx + seg_end :=
  if negb (seglen t =? 0) then inr (SegReady t)
  else if istrue (Z.land (segflags t) 0x04) then inr (SegStart t)
  else
    let sh := virt (segaddr t) in
    let addr := seg_address (sh_flags m sh) (sh_loadaddr m sh) (last0 t) (last1 t) in
    let t :=
      {| img_length := img_length t; img_location := img_location t; img_execaddr := img_execaddr t;
         linlocation := linlocation t; last0 := addr; last1 := u32 (addr + sh_memlength m sh);
         segaddr := u32 (segaddr t + words (sh_length m sh)); seglen := sh_imglength m sh;
         segflags := sh_flags m sh; first := first t; cur := addr |} in
    if sh_length m sh =? 0 then inr (SegAbort t) else inl t.
Definition next_seg (fuel : nat) (m : mem) (t : tctx) : option seg_end := loop fuel (next_seg_step m) t.

(** A round of the outer loop, with what is left of the block. *)
Definition nbi_copied (i : Z) (t : tctx) : tctx :=
  {| img_length := img_length t; img_location := img_location t; img_execaddr := img_execaddr t;
     linlocation := linlocation t; last0 := last0 t; last1 := last1 t; segaddr := segaddr t;
     seglen := u32 (seglen t - i); segflags := segflags t; first := first t; cur := u32 (cur t + i) |}.
Definition nbi_round (fuel : nat) (s : Z * Z * bool * nbi_state)
    : (Z * Z * bool * nbi_state) + option (dl_outcome * nbi_state) :=
  let '(data, len, eof, (m, t)) := s in
  let eof := if len =? 0 then false else eof in
  match next_seg fuel m t with
  | None => inr None
  | Some (SegStart t) =>
      inr (Some (DlBoot (if LINEAR_EXEC_ADDR t then START32 else START16) (img_execaddr t), (m, t)))
  | Some (SegAbort t) => inr (Some (DlLongjmp (-2), (m, t)))
  | Some (SegReady t) =>
      if (len =? 0) && negb eof then inr (Some (DlReturn 0, (m, t)))
      else
        let i := if seglen t >? len then len else seglen t in
        inl (data + i, u32 (len - i), eof,
             (memcpy m (virt (cur t)) data (Z.to_nat i), nbi_copied i t))
  end.
Definition set_first (b : bool) (t : tctx) : tctx :=
  {| img_length := img_length t; img_location := img_location t; img_execaddr := img_execaddr t;
     linlocation := linlocation t; last0 := last0 t; last1 := last1 t; segaddr := segaddr t;
     seglen := seglen t; segflags := segflags t; first := b; cur := cur t |}.
(** [None] when the rounds run out. *)
Definition tagged_download (fuel : nat) (data len : Z) (eof : bool) (st : nbi_state)
    : option (dl_outcome * nbi_state) :=
  let '(m, t) := st in
  let go data len t :=
    match loop fuel (nbi_round fuel) (data, len, eof, (m, t)) with
    | Some r => r
    | None => None
    end in
  if first t then
    if len >? 512 then go (data + 512) (len - 512) (set_first false t)
    else Some (DlReturn 0, (m, set_first false t))
  else go data len t.
(** The state of a restart when the program that was called returns [result]. *)
Definition tagged_returned (t : tctx) (result : Z) : Z :=
  if LINEAR_EXEC_ADDR t then
    let result := if negb (TAGGED_PROGRAM_RETURNS t) then -2 else result in
    if result =? 0 then -2 else result
  else -2.

(** *** [tagged_probe] *)

Inductive probed := NotNbi | Dead | Tagged.
Definition tagged_probe (data len : Z) (st : nbi_state) : option (probed * nbi_state) :=
  let '(m, t) := st in
  if negb (ld32 m data =? NBI_MAGIC) then Some (NotNbi, st)
  else if len <? 512 then Some (Dead, st)
  else
    let loc := ld32 m (data + 8) in
    let lin := Z.shiftl (Z.shiftr loc 16) 4 + Z.land loc 0xffff in
    let t0 := {| img_length := ld32 m (data + 4); img_location := loc; img_execaddr := ld32 m (data + 12);
                 linlocation := lin; last0 := 0; last1 := 0; segaddr := lin; seglen := 0; segflags := 0;
                 first := false; cur := 0 |} in
    let '(m, ok) := prep_segment ly mmap h m lin (lin + 512) (lin + 512) 0 512 in
    if negb ok then Some (Dead, (m, t0))
    else
      let off := words (img_length t0) in
      let* '(m, r) := check_segments 129 data (data + off) 512 m in
      match r with
      | None => Some (Dead, (m, t0))
      | Some sh =>
          if negb (istrue (Z.land (sh_flags m sh) 0x04)) then Some (Dead, (m, t0))
          else
            Some (Tagged,
              (memcpy m (virt lin) data 512,
               {| img_length := img_length t0; img_location := loc; img_execaddr := img_execaddr t0;
                  linlocation := lin; last0 := 0; last1 := 0; segaddr := lin + off; seglen := 0; segflags := 0;
                  first := true; cur := 0 |}))
      end.
End nbi.

(** ** The stream *)

Section stream.
Context (ly : layout) (memsize : Z).
Let virt := phys_to_virt (virt_offset ly).
(** The file, as the byte at each offset; and where the copy of the first block lies. *)
Context (F : Z -> Z) (hb : Z).

(** What the descriptors from [sa] on say, read as the format defines them: the addresses and lengths of the
    segments, up to the one that is marked as the last.  A descriptor has its length in words in its first byte,
    of which the vendor's words in the high half, flags in its fourth, and then the load address and the lengths of the
    contents and in memory.  The two low bits of the flags say what the address is relative to: to nothing, to the
    end of the segment before, down from the end of memory, or down from the start of the segment before. *)
Definition goes_to (m : mem) (sh start_before end_before a : Z) : Prop :=
  let kind := ld8 m (sh + 3) mod 4 in
  let load := ld32 m (sh + 4) in
  (kind = 0 /\ a = load) \/
  (kind = 1 /\ a = (end_before + load) mod 4294967296) \/
  (kind = 2 /\ a = (0x100000 + memsize * 1024 - load) mod 4294967296) \/
  (kind = 3 /\ a = (start_before - load) mod 4294967296).
Inductive described (m : mem) : Z -> Z -> Z -> list (Z * Z) -> Prop :=
| described_last sa l0 l1 a :
    let sh := virt sa in
    hb <= sh -> sh + 16 <= hb + 512 -> ld8 m sh <> 0 -> Z.testbit (ld8 m (sh + 3)) 2 = true -> goes_to m sh l0 l1 a ->
    described m sa l0 l1 [(a, ld32 m (sh + 8))]
| described_more sa l0 l1 a rest :
    let sh := virt sa in
    hb <= sh -> sh + 16 <= hb + 512 -> ld8 m sh <> 0 -> Z.testbit (ld8 m (sh + 3)) 2 = false -> goes_to m sh l0 l1 a ->
    described m ((sa + (4 * (ld8 m sh mod 16) + 4 * (ld8 m sh / 16))) mod 4294967296) a ((a + ld32 m (sh + 12)) mod 4294967296) rest ->
    described m sa l0 l1 ((a, ld32 m (sh + 8)) :: rest).

(** The code's reading of a descriptor is that one. *)
Lemma last_flag b : 0 <= b < 256 -> istrue (Z.land b 0x04) = Z.testbit b 2.
Proof.
  intros Hb. apply Bool.eqb_prop.
  apply (all_below_spec 256 (fun b => Bool.eqb (istrue (Z.land b 0x04)) (Z.testbit b 2))); [vm_compute; reflexivity|exact Hb].
Qed.
Lemma words_spec b : 0 <= b < 256 -> words b = 4 * (b mod 16) + 4 * (b / 16).
Proof.
  intros Hb. apply Z.eqb_eq. apply (all_below_spec 256 (fun b => words b =? 4 * (b mod 16) + 4 * (b / 16))); [vm_compute; reflexivity|exact Hb].
Qed.
Lemma goes_to_address m sh l0 l1 a : goes_to m sh l0 l1 a <-> a = seg_address memsize (sh_flags m sh) (sh_loadaddr m sh) l0 l1.
Proof.
  unfold goes_to, seg_address, sh_flags, sh_loadaddr, u32. rewrite (Z.land_ones _ 2) by lia. change (2 ^ 2) with 4.
  replace (0x100000 + memsize * 1024) with (memsize * 1024 + 0x100000) by lia.
  pose proof (Z.mod_pos_bound (ld8 m (sh + 3)) 4 ltac:(lia)). cbv zeta. repeat case_test; intuition lia.
Qed.

Context (plan : list (Z * Z)).
Definition apart (p q : Z * Z) : Prop := virt (fst p) + snd p <= virt (fst q) \/ virt (fst q) + snd q <= virt (fst p).
(** A plan that can be carried out: the segments do not meet each other, the copy of the first block or the
    end of the address space. *)
Record plan_ok : Prop := {
  plan_range : forall p, In p plan -> 0 <= fst p /\ 0 <= snd p /\ fst p + snd p < 4294967296 /\
    virt (fst p) + snd p < 4294967296;
  plan_header : forall p, In p plan -> virt (fst p) + snd p <= hb \/ hb + 512 <= virt (fst p);
  plan_apart : ForallOrdPairs apart plan;
}.
Fixpoint tot (l : list (Z * Z)) : Z := match l with [] => 0 | p :: l => snd p + tot l end.
(** What lies below the offset [at_] of the file is in place. *)
Definition loaded_to (m : mem) (l : list (Z * Z)) (at_ : Z) : Prop :=
  forall pre p post j, l = pre ++ p :: post -> 0 <= j < snd p -> 512 + tot pre + j < at_ ->
    ld8 m (virt (fst p) + j) = F (512 + tot pre + j).
(** The state when the next byte of the stream is at [at_]: the segments begun, the last of them up to what
    is still to come of it, and the descriptors of the others. *)
Definition nbi_inv (m : mem) (t : tctx) (at_ : Z) : Prop :=
  exists begun rest, plan = begun ++ rest /\ at_ + seglen t = 512 + tot begun /\ 0 <= seglen t /\
    (seglen t <> 0 -> exists pre p, begun = pre ++ [p] /\ seglen t <= snd p /\ cur t = fst p + snd p - seglen t) /\
    loaded_to m begun at_ /\
    (if istrue (Z.land (segflags t) 0x04) then rest = [] else described m (segaddr t) (last0 t) (last1 t) rest).
(** A block of the file, clear of the segments. *)
Definition block_at (m : mem) (data len at_ : Z) : Prop :=
  (forall j, 0 <= j < len -> ld8 m (data + j) = F (at_ + j)) /\
  (forall p, In p plan -> data + len <= virt (fst p) \/ virt (fst p) + snd p <= data).

(** What a download does not change of the context. *)
Definition same_img (t t' : tctx) : Prop :=
  img_length t' = img_length t /\ img_execaddr t' = img_execaddr t /\ linlocation t' = linlocation t /\ first t' = first t.
Lemma same_img_trans t1 t2 t3 : same_img t1 t2 -> same_img t2 t3 -> same_img t1 t3.
Proof. unfold same_img. intuition congruence. Qed.

Lemma described_ext m m' sa l0 l1 l : (forall x, hb <= x < hb + 512 -> ld8 m' x = ld8 m x) ->
  described m sa l0 l1 l -> described m' sa l0 l1 l.
Proof.
  intros He D.
  assert (E8 : forall x, hb <= x < hb + 512 -> ld8 m x = ld8 m' x) by (intros x Hx; symmetry; now apply He).
  assert (E32 : forall x, hb <= x -> x + 4 <= hb + 512 -> ld32 m x = ld32 m' x) by (intros x H1 H2; apply ld32_ext; intros y Hy; apply E8; lia).
  assert (Eg : forall sh l0 l1 a, hb <= sh -> sh + 16 <= hb + 512 -> goes_to m sh l0 l1 a -> goes_to m' sh l0 l1 a)
    by (intros sh k0 k1 a H1 H2; unfold goes_to; now rewrite (E8 (sh + 3)), (E32 (sh + 4)) by lia).
  induction D as [sa l0 l1 a sh H1 H2 H3 H4 H5|sa l0 l1 a rest sh H1 H2 H3 H4 H5 D IH]; apply (Eg _ _ _ _ H1 H2) in H5;
    rewrite (E8 (sh + 3)) in H4 by lia; rewrite (E8 sh) in * by lia; rewrite (E32 (sh + 8)) by lia.
  - now apply described_last.
  - rewrite (E32 (sh + 12)) in IH by lia. now apply described_more.
Qed.
Lemma described_cons m sa l0 l1 p rest : described m sa l0 l1 (p :: rest) ->
  let sh := virt sa in
  let a := seg_address memsize (sh_flags m sh) (sh_loadaddr m sh) l0 l1 in
  sh_length m sh <> 0 /\ p = (a, sh_imglength m sh) /\
  (if istrue (Z.land (sh_flags m sh) 0x04) then rest = []
   else described m (u32 (sa + words (sh_length m sh))) a (u32 (a + sh_memlength m sh)) rest).
Proof.
  intros D sh a. unfold sh_length, sh_imglength, sh_memlength. unfold sh_flags at 1. rewrite last_flag, words_spec by apply ld8_range.
  remember (p :: rest) as l eqn:El. destruct D as [sa l0 l1 a' sh' H1 H2 H3 H4 H5|sa l0 l1 a' r sh' H1 H2 H3 H4 H5 D];
    subst sh'; fold sh in H1, H2, H3, H4, H5; apply goes_to_address in H5; fold a in H5; subst a'; rewrite H4;
    assert (Ep := f_equal (@hd_error _) El); assert (Er := f_equal (@tl _) El); cbn [hd_error tl] in Ep, Er.
  - split; [exact H3|]. split; [subst sh; congruence|]. symmetry. exact Er.
  - split; [exact H3|]. split; [subst sh; congruence|]. rewrite <- Er. exact D.
Qed.
Lemma tot_app l1 l2 : tot (l1 ++ l2) = tot l1 + tot l2.
Proof. induction l1 as [|p l1 IH]; cbn [app tot]; [reflexivity|]. rewrite IH. lia. Qed.

Lemma snoc_split {A} (l : list A) : forall pre post p q, l ++ [p] = pre ++ q :: post ->
  (exists post', post = post' ++ [p] /\ l = pre ++ q :: post') \/ (pre = l /\ q = p /\ post = []).
Proof.
  intros pre post p q E. destruct post as [|x post _] using rev_ind.
  - right. apply app_inj_tail in E as (-> & ->). auto.
  - left. exists post. rewrite app_comm_cons, app_assoc in E. apply app_inj_tail in E as (-> & ->). auto.
Qed.

(** The next segment with contents. *)
Lemma next_seg_spec m at_ rest : forall begun t fuel,
  plan = begun ++ rest -> at_ = 512 + tot begun -> seglen t = 0 -> loaded_to m begun at_ ->
  (if istrue (Z.land (segflags t) 0x04) then rest = [] else described m (segaddr t) (last0 t) (last1 t) rest) ->
  (length rest + 1 < fuel)%nat ->
  exists r, next_seg ly memsize fuel m t = Some r /\
    match r with
    | SegReady t' => nbi_inv m t' at_ /\ 0 < seglen t' < 4294967296 /\ same_img t t'
    | SegStart t' => at_ = 512 + tot plan /\ loaded_to m plan (512 + tot plan) /\ same_img t t'
    | SegAbort _ => False
    end.
Proof.
  induction rest as [|p rest IH]; intros begun t fuel Ep Ea Es Hl Hd Hf; unfold next_seg in *;
    (destruct fuel as [|fuel]; [lia|]); cbn [loop]; unfold next_seg_step at 1; rewrite Es; cbn [Z.eqb negb].
  - destruct (istrue (Z.land (segflags t) 4)); [|inversion Hd]. exists (SegStart t). split; [reflexivity|].
    rewrite app_nil_r in Ep. subst begun at_. split; [reflexivity|]. split; [exact Hl|repeat split].
  - destruct (istrue (Z.land (segflags t) 4)); [discriminate|].
    destruct (described_cons _ _ _ _ _ _ Hd) as (Hlen & Hp & Hr0).
    fold virt. set (sh := virt (segaddr t)) in *. apply Z.eqb_neq in Hlen. rewrite Hlen.
    set (a := seg_address _ _ _ _ _) in *. set (t' := {| img_length := _ |}).
    assert (Hr : if istrue (Z.land (segflags t') 4) then rest = [] else described m (segaddr t') (last0 t') (last1 t') rest)
      by exact Hr0.
    pose proof (ld32_range m (sh + 8)) as Rg. fold (sh_imglength m sh) in Rg.
    assert (Hl' : loaded_to m (begun ++ [p]) at_).
    { intros pre q post j E Hj Hat. destruct (snoc_split begun pre post p q E) as [(post' & -> & E2)|(-> & -> & ->)]; [|lia].
      exact (Hl pre q post' j E2 Hj Hat). }
    assert (Ep' : plan = (begun ++ [p]) ++ rest) by (rewrite <- app_assoc; exact Ep).
    assert (Et : tot (begun ++ [p]) = tot begun + sh_imglength m sh) by (rewrite tot_app, Hp; cbn; lia).
    destruct (Z.eq_dec (sh_imglength m sh) 0) as [Z0|Z0].
    + destruct (IH (begun ++ [p]) t' fuel) as (r & Er & Pr); [exact Ep'|lia|exact Z0|exact Hl'|exact Hr|cbn [length] in Hf; lia|].
      exists r. split; [exact Er|]. destruct r; exact Pr.
    + destruct fuel as [|fuel]; [cbn [length] in Hf; lia|]. cbn [loop]. unfold next_seg_step at 1.
      cbn [seglen t']. apply Z.eqb_neq in Z0. rewrite Z0. cbn [negb]. apply Z.eqb_neq in Z0.
      exists (SegReady t'). split; [reflexivity|]. split; [|split; [cbn [seglen t']; lia|repeat split]].
      exists (begun ++ [p]), rest. split; [exact Ep'|]. split; [cbn [seglen t']; lia|]. split; [cbn [seglen t']; lia|].
      split; [|split; [exact Hl'|exact Hr]]. intros _. exists begun, p. split; [reflexivity|]. rewrite Hp.
      cbn [fst snd seglen cur t']. lia.
Qed.

(** *** Copying *)

Context (OK : plan_ok).
Lemma plan_apart_split pre p mid q post : plan = pre ++ p :: mid ++ q :: post -> apart p q.
Proof.
  intros E. pose proof (plan_apart OK) as A. rewrite E in A. clear E. induction pre as [|x pre IH]; cbn [app] in A.
  - inversion_clear A as [|? ? Ha _]. rewrite Forall_forall in Ha. apply Ha, in_or_app. right. now left.
  - inversion_clear A as [|? ? _ Hb]. now apply IH.
Qed.
Lemma virt_add p c : In p plan -> 0 <= c <= snd p -> virt (u32 (fst p + c)) = virt (fst p) + c.
Proof.
  intros Hp Hc. destruct (plan_range OK p Hp) as (A & B & C & D). unfold virt, phys_to_virt in *.
  rewrite (u32_small (fst p + c)) by lia. zmod.
Qed.

Lemma tot_nonneg l : (forall p, In p l -> In p plan) -> 0 <= tot l.
Proof.
  induction l as [|p l IH]; intros H; cbn [tot]; [lia|]. pose proof (plan_range OK p (H p (or_introl eq_refl))).
  specialize (IH (fun q Hq => H q (or_intror Hq))). lia.
Qed.
Lemma nbi_copy m t at_ data i :
  nbi_inv m t at_ -> 0 < i <= seglen t -> seglen t < 4294967296 -> 0 <= data ->
  (forall j, 0 <= j < i -> ld8 m (data + j) = F (at_ + j)) ->
  (forall p, In p plan -> data + i <= virt (fst p) \/ virt (fst p) + snd p <= data) ->
  let m' := memcpy m (virt (cur t)) data (Z.to_nat i) in
  nbi_inv m' (nbi_copied i t) (at_ + i) /\
  exists p, In p plan /\ (forall x, x < virt (fst p) \/ virt (fst p) + snd p <= x -> ld8 m' x = ld8 m x).
Proof.
  intros (begun & rest & Ep & Ea & Es & Hc & Hl & Hr) Hi Hs Hd HF Hcl m'.
  destruct Hc as (pre & p & Eb & Hle & Ecur); [lia|]. set (c := snd p - seglen t).
  assert (Hin : In p plan) by (rewrite Ep, Eb; apply in_or_app; left; apply in_or_app; right; now left).
  destruct (plan_range OK p Hin) as (A & B & C & D).
  assert (Ev : virt (cur t) = virt (fst p) + c).
  { rewrite <- virt_add by (auto; subst c; lia). f_equal. rewrite u32_small by (subst c; lia). subst c. lia. }
  assert (Sp : forall x, ld8 m' x = if (virt (fst p) + c <=? x) && (x <? virt (fst p) + c + i) then ld8 m (data + (x - (virt (fst p) + c))) else ld8 m x).
  { intros x. subst m'. rewrite Ev, ld8_memcpy by (destruct (Hcl p Hin); subst c; lia). rewrite Z2Nat.id by lia. reflexivity. }
  assert (Out : forall x, x < virt (fst p) \/ virt (fst p) + snd p <= x -> ld8 m' x = ld8 m x).
  { intros x Hx. rewrite Sp. subst c. case_tests; (lia || reflexivity). }
  split; [|exists p; auto]. unfold nbi_inv, nbi_copied. cbn [seglen cur segflags segaddr last0 last1].
  rewrite (u32_small (seglen t - i)) by lia. exists begun, rest. split; [exact Ep|]. split; [lia|]. split; [lia|].
  split; [|split].
  - intros _. exists pre, p. split; [exact Eb|]. split; [lia|]. rewrite u32_small by lia. lia.
  - intros pre' q post j E Hj Hat. rewrite Eb in E. pose proof E as E'.
    destruct (snoc_split _ _ _ _ _ E) as [(post' & -> & E2)|(-> & -> & ->)].
    + rewrite Out; [apply (Hl pre' q (post' ++ [p])); [now rewrite Eb|exact Hj|]|].
      * rewrite Eb in Ea. rewrite E2 in Ea. rewrite !tot_app in Ea. cbn [tot] in Ea.
        enough (0 <= tot post') by lia. apply tot_nonneg. intros r Hr'. rewrite Ep, Eb, E2. apply in_or_app. left.
        apply in_or_app. left. apply in_or_app. right. now right.
      * assert (Ap : apart q p).
        { apply (plan_apart_split pre' q post' p rest). rewrite Ep, Eb, E2, <- !app_assoc. cbn [app]. reflexivity. }
        destruct Ap; lia.
    + assert (Ea' : at_ + seglen t = 512 + tot pre + snd p) by (rewrite Ea, Eb, tot_app; cbn [tot]; lia).
      rewrite Sp. destruct (Z.lt_ge_cases j c).
      * subst c. case_tests; try lia. all: apply (Hl pre p []); [exact Eb|exact Hj|lia].
      * subst c. case_tests; try lia. rewrite HF by lia. f_equal. lia.
  - destruct (istrue (Z.land (segflags t) 4)); [exact Hr|]. apply (described_ext m); [|exact Hr].
    intros x Hx. apply Out. destruct (plan_header OK p Hin); lia.
Qed.

Lemma next_seg_inv m t at_ fuel : nbi_inv m t at_ -> (length plan + 1 < fuel)%nat ->
  exists r, next_seg ly memsize fuel m t = Some r /\
    match r with
    | SegReady t' => nbi_inv m t' at_ /\ 0 < seglen t' < 4294967296 /\ same_img t t'
    | SegStart t' => at_ = 512 + tot plan /\ loaded_to m plan (512 + tot plan) /\ same_img t t'
    | SegAbort _ => False
    end.
Proof.
  intros Hi Hf. pose proof Hi as (begun & rest & Ep & Ea & Es & Hc & Hl & Hr). destruct (Z.eq_dec (seglen t) 0) as [Z0|Z0].
  - apply (next_seg_spec m at_ rest begun t fuel); auto; [lia|]. rewrite Ep, length_app in Hf. lia.
  - exists (SegReady t). destruct fuel as [|fuel]; [lia|]. unfold next_seg. cbn [loop]. unfold next_seg_step at 1.
    destruct (Hc Z0) as (pre & p & Eb & Hle & _). apply Z.eqb_neq in Z0. rewrite Z0. cbn [negb]. split; [reflexivity|].
    apply Z.eqb_neq in Z0. split; [exact Hi|]. split; [|repeat split].
    assert (Hin : In p plan) by (rewrite Ep, Eb; apply in_or_app; left; apply in_or_app; right; now left).
    pose proof (plan_range OK p Hin). lia.
Qed.
(** While a segment is still to be filled, the end of the file has not been reached. *)
Lemma nbi_inv_before m t at_ : nbi_inv m t at_ -> 0 < seglen t -> at_ < 512 + tot plan.
Proof.
  intros (begun & rest & Ep & Ea & _) Hs. assert (0 <= tot rest) by (apply tot_nonneg; intros p Hp; rewrite Ep; apply in_or_app; now right).
  rewrite Ep, tot_app. lia.
Qed.
Definition nbi_post (t : tctx) (at_ : Z) (r : option (dl_outcome * nbi_state)) : Prop :=
  match r with
  | Some (DlReturn n, (m', t')) => n = 0 /\ nbi_inv m' t' at_ /\ at_ < 512 + tot plan /\ same_img t t'
  | Some (DlBoot machine entry, (m', t')) =>
      machine = (if LINEAR_EXEC_ADDR t then START32 else START16) /\ entry = img_execaddr t /\
      512 + tot plan <= at_ /\ loaded_to m' plan (512 + tot plan) /\ same_img t t'
  | _ => False
  end.
Lemma nbi_loop m t at_ data len eof fuel :
  nbi_inv m t at_ -> 0 <= data -> 0 <= len < 4294967296 -> block_at m data len at_ ->
  (length plan + 1 < fuel)%nat -> (Z.to_nat len < fuel)%nat ->
  exists r, loop fuel (nbi_round ly memsize fuel) (data, len, eof, (m, t)) = Some r /\ nbi_post t (at_ + len) r.
Proof.
  intros Hi Hd Hlen HB Hf1 Hf2.
  apply (loop_total _ (fun '(d, l, _, (m', t')) => 0 <= l <= len /\ d = data + (len - l) /\
      nbi_inv m' t' (at_ + (len - l)) /\ block_at m' d l (at_ + (len - l)) /\ same_img t t') _
      (fun '(_, l, _, _) => Z.to_nat l)); [|rewrite Z.sub_diag, !Z.add_0_r; split; [lia|]; split; [reflexivity|]; split; [exact Hi|]; split; [exact HB|repeat split]|exact Hf2].
  intros (((d, l), e), (m', t')) (Hl & Ed & Hi' & (B1 & B2) & Si). unfold nbi_round.
  destruct (next_seg_inv m' t' _ fuel Hi' Hf1) as (r & Er & Pr). rewrite Er. destruct r as [t2|t2|t2]; [|destruct Pr as (Ee & Pl & Si2)|destruct Pr].
  2:{ pose proof (same_img_trans _ _ _ Si Si2) as S3. destruct S3 as (S1 & S2 & S3). cbn [nbi_post].
      unfold LINEAR_EXEC_ADDR. rewrite S1. repeat split; auto; try lia; apply S3. }
  destruct Pr as (Hi2 & Hs2 & Si2). destruct (Z.eqb_spec l 0) as [->|Hl0]; cbn [andb negb].
  - rewrite Z.sub_0_r in Hi2. split; [reflexivity|]. split; [exact Hi2|]. split; [now apply (nbi_inv_before m' t2)|]. eapply same_img_trans; eauto.
  - set (i := if seglen t2 >? l then l else seglen t2).
    assert (Ri : 0 < i <= seglen t2 /\ i <= l) by (subst i; rewrite Z.gtb_ltb; case_tests; lia).
    destruct (nbi_copy m' t2 _ d i Hi2 (proj1 Ri) (proj2 Hs2)) as (Hc & p & Hin & Ho); [lia| | |].
    { intros j Hj. apply B1. lia. }
    { intros q Hq. destruct (B2 q Hq); lia. }
    rewrite u32_small by lia. split; [|lia]. split; [lia|]. split; [lia|].
    replace (at_ + (len - (l - i))) with (at_ + (len - l) + i) by lia. split; [exact Hc|]. split; [split|].
    + intros j Hj. rewrite Ho by (destruct (B2 p Hin); lia). rewrite <- Z.add_assoc, B1 by lia. f_equal. lia.
    + intros q Hq. destruct (B2 q Hq); lia.
    + eapply same_img_trans; [exact Si|]. eapply same_img_trans; [exact Si2|]. repeat split.
Qed.
End stream.

(** ** Properties *)

(** The mode bit of the header. *)
Lemma linear_bit t : LINEAR_EXEC_ADDR t = Z.testbit (img_length t) 31.
Proof.
  unfold LINEAR_EXEC_ADDR, istrue. change 0x80000000 with (2 ^ 31). destruct (Z.testbit (img_length t) 31) eqn:Hb.
  - destruct (Z.eqb_spec (Z.land (img_length t) (2 ^ 31)) 0) as [E0|E0]; [|reflexivity].
    assert (X : Z.testbit (Z.land (img_length t) (2 ^ 31)) 31 = false) by (rewrite E0; apply Z.bits_0).
    rewrite Z.land_spec, Hb, Z.pow2_bits_true in X by lia. discriminate.
  - rewrite (proj2 (Z.eqb_eq _ 0)); [reflexivity|]. apply Z.bits_inj_0. intros n. rewrite Z.land_spec.
    destruct (Z.eq_dec n 31) as [->|Hn]; [now rewrite Hb|]. rewrite (Z.pow2_bits_false 31 n) by lia. apply Bool.andb_false_r.
Qed.

(** C26: A tagged image is placed whole and then started.  Fed with consecutive pieces of the file, the download function
    always returns, and the contents of every segment passed so far are where its descriptor puts it ([described],
    which reads the descriptors as the format defines them), whichever way the descriptor gives the address.  It never
    gives up; it starts the program, at the entry and in the mode of the header, in the call in which the last byte of the
    last segment comes, also when the file ends there, with the contents of every segment in place; and until then it asks
    for more.  The one exception is a first block of 512 bytes exactly, after which it always asks for more. *)
Theorem nbi_streams ly memsize F hb plan fuel data len eof m t at_ :
  plan_ok ly hb plan -> nbi_inv ly memsize F hb plan m t (if first t then 512 else at_) -> (first t = true -> at_ = 0 /\ 512 <= len) ->
  0 <= data -> 0 <= len < 4294967296 -> block_at ly F plan m data len at_ ->
  (length plan + 1 < fuel)%nat -> (Z.to_nat len < fuel)%nat ->
  match tagged_download ly memsize fuel data len eof (m, t) with
  | Some (DlReturn n, (m', t')) =>
      n = 0 /\ first t' = false /\ nbi_inv ly memsize F hb plan m' t' (at_ + len) /\
      (at_ + len < 512 + tot plan \/ (first t = true /\ len = 512))
  | Some (DlBoot machine entry, (m', t')) =>
      machine = (if Z.testbit (img_length t) 31 then START32 else START16) /\ entry = img_execaddr t /\
      512 + tot plan <= at_ + len /\ loaded_to ly F m' plan (512 + tot plan)
  | _ => False
  end.
Proof.
  intros OK Hi Hfirst Hd Hlen HB Hf1 Hf2. rewrite <- linear_bit. unfold tagged_download. destruct (first t) eqn:Ef.
  - destruct (Hfirst eq_refl) as (-> & Hl). rewrite Z.gtb_ltb. destruct (Z.ltb_spec 512 len) as [Hgt|Hle].
    + destruct (nbi_loop ly memsize F hb plan OK m (set_first false t) 512 (data + 512) (len - 512) eof fuel) as (r & Er & Pr);
        [exact Hi|lia|lia| |exact Hf1|lia|].
      { destruct HB as (B1 & B2). split; [|intros p Hp; destruct (B2 p Hp); lia].
        intros j Hj. rewrite <- Z.add_assoc, B1 by lia. f_equal. }
      rewrite Er. replace (512 + (len - 512)) with (0 + len) in Pr by lia.
      destruct r as [([n|st|mc e], (m', t'))|]; cbn [nbi_post] in Pr; try exact Pr.
      * destruct Pr as (-> & Pi & Pb & (_ & _ & _ & S4)). repeat split; [exact S4|exact Pi|now left].
      * destruct Pr as (-> & -> & Pb & Pi & _). repeat split; [exact Pb|exact Pi].
    + assert (len = 512) by lia. subst len. repeat split; [exact Hi|now right].
  - destruct (nbi_loop ly memsize F hb plan OK m t at_ data len eof fuel) as (r & Er & Pr); [assumption..|].
    rewrite Er. destruct r as [([n|st|mc e], (m', t'))|]; cbn [nbi_post] in Pr; try exact Pr.
    + destruct Pr as (-> & Pi & Pb & (_ & _ & _ & S4)). repeat split; [congruence|exact Pi|now left].
    + destruct Pr as (-> & -> & Pb & Pi & _). repeat split; [exact Pb|exact Pi].
Qed.

(** *** The probe *)

Lemma words_pos b : 0 <= b < 256 -> 0 < b -> 4 <= words b.
Proof.
  intros Hb Hp. assert (H : (b =? 0) || (4 <=? words b) = true)
    by (apply (all_below_spec 256 (fun b => (b =? 0) || (4 <=? words b))); [vm_compute; reflexivity|exact Hb]).
  destruct (Z.eqb_spec b 0); [lia|]. now apply Z.leb_le.
Qed.
Lemma words_range b : 0 <= b < 256 -> 0 <= words b <= 256.
Proof.
  intros Hb. assert (H : (0 <=? words b) && (words b <=? 256) = true)
    by (apply (all_below_spec 256 (fun b => (0 <=? words b) && (words b <=? 256))); [vm_compute; reflexivity|exact Hb]).
  apply andb_prop in H as (H1 & H2). apply Z.leb_le in H1, H2. lia.
Qed.
Lemma prep_segment_mem ly mmap h m a mid i1 i2 : fst (prep_segment ly mmap h m a mid mid i1 i2) = m.
Proof.
  unfold prep_segment. rewrite (Z.gtb_ltb mid mid), Z.ltb_irrefl.
  destruct (existsb (fits a mid) mmap); cbn [negb]; case_tests; reflexivity.
Qed.

(** Where a segment may lie. *)
Definition placed_ok (ly : layout) (h : heap) (mmap : list e820entry) (a n : Z) : Prop :=
  let e := u32 (a + n) in
  ~ (e > text_phys ly /\ a < end_phys ly) /\ ~ (e > heap_ptr h /\ a < heap_bot h) /\
  exists r, In r mmap /\ e_type r = E820_RAM /\ e_addr r <= a /\ e <= u64 (e_addr r + e_size r).
Lemma prep_segment_placed ly mmap h m a n i1 i2 :
  prep_segment ly mmap h m a (u32 (a + n)) (u32 (a + n)) i1 i2 = (m, true) /\ placed_ok ly h mmap a n \/
  prep_segment ly mmap h m a (u32 (a + n)) (u32 (a + n)) i1 i2 = (m, false) /\ ~ placed_ok ly h mmap a n.
Proof.
  pose proof (prep_segment_mem ly mmap h m a (u32 (a + n)) i1 i2) as Em.
  destruct (prep_segment ly mmap h m a (u32 (a + n)) (u32 (a + n)) i1 i2) as (m', ok) eqn:E. cbn in Em. subst m'. destruct ok.
  - left. split; [reflexivity|]. apply prep_segment_cases in E. destruct E as (_ & H1 & H2 & H3 & _). repeat split; assumption.
  - right. split; [reflexivity|]. intros (H1 & H2 & r & Hr & Ht & Ha & He).
    unfold prep_segment in E. rewrite !Z.gtb_ltb, Z.ltb_irrefl in E.
    assert (X : existsb (fits a (u32 (a + n))) mmap = true).
    { apply existsb_exists. exists r. split; [exact Hr|]. unfold fits. rewrite Ht. cbn. apply andb_true_intro.
      split; [apply Z.geb_le; lia|apply Z.leb_le; exact He]. }
    rewrite X in E. cbn [negb] in E. revert E. case_tests; try discriminate; lia.
Qed.

Lemma Forall_placed_dec ly h mmap l : Forall (fun p => placed_ok ly h mmap (fst p) (snd p)) l \/
  ~ Forall (fun p => placed_ok ly h mmap (fst p) (snd p)) l.
Proof.
  induction l as [|p l [IH|IH]]; [left; constructor| |right; intros H; now inversion_clear H].
  destruct (prep_segment_placed ly mmap h (fun _ => 0) (fst p) (snd p) 0 0) as [(_ & P)|(_ & P)];
    [left; now constructor|right; intros H; now inversion_clear H].
Qed.

(** The segments that the descriptors of the first block list, all at absolute addresses. *)
Inductive image_segments (m : mem) (data : Z) : Z -> list (Z * Z) -> Prop :=
| segments_last sh :
    data <= sh -> sh + 16 <= data + 512 -> sh_length m sh <> 0 -> Z.land (sh_flags m sh) 0x03 = 0 ->
    istrue (Z.land (sh_flags m sh) 0x04) = true ->
    image_segments m data sh [(sh_loadaddr m sh, sh_imglength m sh)]
| segments_more sh rest :
    data <= sh -> sh + 16 <= data + 512 -> sh_length m sh <> 0 -> Z.land (sh_flags m sh) 0x03 = 0 ->
    istrue (Z.land (sh_flags m sh) 0x04) = false -> image_segments m data (sh + words (sh_length m sh)) rest ->
    image_segments m data sh ((sh_loadaddr m sh, sh_imglength m sh) :: rest).

Lemma check_segments_spec ly h mmap m data sh l : image_segments m data sh l -> forall fuel loc,
  data + 516 <= sh + 4 * Z.of_nat fuel -> (0 < fuel)%nat ->
  exists r, check_segments ly h mmap fuel data sh loc m = Some (m, r) /\
    (Forall (fun p => placed_ok ly h mmap (fst p) (snd p)) l ->
       exists e, r = Some e /\ istrue (Z.land (sh_flags m e) 0x04) = true) /\
    (~ Forall (fun p => placed_ok ly h mmap (fst p) (snd p)) l -> r = None).
Proof.
  intros D. induction D as [sh H1 H2 H3 H4 H5|sh rest H1 H2 H3 H4 H5 D IH]; intros fuel loc Hf Hp;
    (destruct fuel as [|fuel]; [lia|]); cbn [check_segments]; rewrite Z.gtb_ltb;
    pose proof (ld8_range m sh) as Rl; fold (sh_length m sh) in Rl;
    (destruct (Z.ltb_spec 0 (sh_length m sh)) as [H0|H0]; [|lia]); (destruct (Z.ltb_spec sh (data + 512)); [|lia]); cbn [andb];
    (destruct (prep_segment_placed ly mmap h m (sh_loadaddr m sh) (sh_imglength m sh) loc (u32 (loc + sh_imglength m sh)))
      as [(-> & P)|(-> & P)]; cbn [negb]).
  1,3: rewrite H5. 
  - exists (Some sh). split; [reflexivity|]. split; [eauto|]. intros N. destruct N. constructor; [exact P|constructor].
  - pose proof (words_pos _ Rl H0). destruct (IH fuel (u32 (loc + sh_imglength m sh))) as (r & Er & P1 & P2); [lia|lia|].
    exists r. split; [exact Er|]. split; [intros Hn; apply P1; now inversion_clear Hn|].
    intros N. apply P2. intros Hn. apply N. now constructor.
  - exists None. split; [reflexivity|]. split; [|reflexivity]. intros Hn. inversion_clear Hn as [|? ? Hx _]. destruct (P Hx).
  - exists None. split; [reflexivity|]. split; [|reflexivity]. intros Hn. inversion_clear Hn as [|? ? Hx _]. destruct (P Hx).
Qed.

(** The copy describes the same segments. *)
Lemma copy_describes ly memsize m m' data lin sh l :
  let hb := phys_to_virt (virt_offset ly) lin in
  image_segments m data sh l -> 0 <= lin -> lin + 1024 < 4294967296 -> hb + 512 < 4294967296 ->
  (forall j, 0 <= j < 512 -> ld8 m' (hb + j) = ld8 m (data + j)) ->
  forall l0 l1, described ly memsize hb m' (lin + (sh - data)) l0 l1 l.
Proof.
  intros hb D Hl Hw Hv Hc.
  assert (V : forall x, 0 <= x < 512 -> phys_to_virt (virt_offset ly) (lin + x) = hb + x)
    by (intros x Hx; subst hb; unfold phys_to_virt in *; zmod).
  assert (C8 : forall x, 0 <= x < 512 -> ld8 m' (hb + x) = ld8 m (data + x)) by exact Hc.
  assert (C32 : forall x, 0 <= x -> x + 4 <= 512 -> ld32 m' (hb + x) = ld32 m (data + x)).
  { intros x H1 H2. unfold ld32, ld16. rewrite <- !(Z.add_assoc hb), <- !(Z.add_assoc data). rewrite !C8 by lia. reflexivity. }
  assert (Fs : forall sh, data <= sh -> sh + 16 <= data + 512 -> let s := phys_to_virt (virt_offset ly) (lin + (sh - data)) in
    hb <= s /\ s + 16 <= hb + 512 /\ sh_length m' s = sh_length m sh /\ sh_flags m' s = sh_flags m sh /\
    sh_loadaddr m' s = sh_loadaddr m sh /\ sh_imglength m' s = sh_imglength m sh).
  { intros s H1 H2. cbv zeta. rewrite V by lia. unfold sh_length, sh_flags, sh_loadaddr, sh_imglength.
    rewrite <- !(Z.add_assoc hb). rewrite !C8, !C32 by lia. repeat split; try lia; f_equal; lia. }
  assert (G : forall s, Z.land (sh_flags m' s) 3 = 0 -> forall l0 l1, goes_to memsize m' s l0 l1 (sh_loadaddr m' s))
    by (intros s Hs l0 l1; apply (goes_to_address ly memsize (fun _ => 0)); unfold seg_address; cbv zeta; now rewrite Hs).
  induction D as [sh H1 H2 H3 H4 H5|sh rest H1 H2 H3 H4 H5 D IH]; intros l0 l1;
    destruct (Fs sh H1 H2) as (A1 & A2 & A3 & A4 & A5 & A6); rewrite <- A5, <- A6, <- A4 in *; rewrite <- A3 in *;
    unfold sh_flags in H5 at 1; rewrite last_flag in H5 by apply ld8_range.
  - apply described_last; [assumption..|]. apply G, H4.
  - apply described_more; [assumption..|apply G, H4|]. rewrite <- words_spec by apply ld8_range.
    change (ld8 m' (phys_to_virt (virt_offset ly) (lin + (sh - data)))) with (sh_length m' (phys_to_virt (virt_offset ly) (lin + (sh - data)))).
    replace ((lin + (sh - data) + words _) mod 4294967296) with (lin + (sh + words (sh_length m' (phys_to_virt (virt_offset ly) (lin + (sh - data)))) - data));
      [apply IH|].
    rewrite Z.mod_small; [lia|]. assert (0 <= words (sh_length m' (phys_to_virt (virt_offset ly) (lin + (sh - data)))) <= 256); [|lia].
    apply words_range, ld8_range.
Qed.

(** The probe accepts exactly the images that can be placed.  For an image whose first block lists segments
    at absolute addresses, [tagged_probe] gives it to the download function when the copy of the block
    and every segment lie in RAM and clear of Etherboot and of the heap, and otherwise to the one that
    gives up; an accepted image is left ready to be streamed, its descriptors read from the copy. *)
Theorem nbi_probe_checks ly h mmap memsize F data len m t plan :
  let lin := Z.shiftl (Z.shiftr (ld32 m (data + 8)) 16) 4 + Z.land (ld32 m (data + 8)) 0xffff in
  let hb := phys_to_virt (virt_offset ly) lin in
  ld32 m data = NBI_MAGIC -> 512 <= len ->
  image_segments m data (data + words (ld32 m (data + 4))) plan ->
  hb + 512 < 4294967296 -> data + 512 <= hb \/ hb + 512 <= data ->
  exists r m' t', tagged_probe ly h mmap data len (m, t) = Some (r, (m', t')) /\
    (r = Tagged <-> placed_ok ly h mmap lin 512 /\ Forall (fun p => placed_ok ly h mmap (fst p) (snd p)) plan) /\
    (r = Tagged \/ r = Dead /\ m' = m) /\
    (r = Tagged -> first t' = true /\ linlocation t' = lin /\ nbi_inv ly memsize F hb plan m' t' 512 /\
       forall x, x < hb \/ hb + 512 <= x -> ld8 m' x = ld8 m x).
Proof.
  intros lin hb Hm Hlen D Hv Hd. unfold tagged_probe. rewrite Hm, Z.eqb_refl. cbn [negb].
  destruct (Z.ltb_spec len 512); [lia|]. fold lin. cbn [img_length img_execaddr].
  assert (Rl : 0 <= lin < 2097152).
  { pose proof (ld32_range m (data + 8)). subst lin. change 0xffff with (Z.ones 16).
    rewrite Z.land_ones, Z.shiftl_mul_pow2, Z.shiftr_div_pow2 by lia. Z.div_mod_to_equations. lia. }
  pose proof (prep_segment_placed ly mmap h m lin 512 0 512) as P. rewrite (u32_small (lin + 512)) in P by lia.
  destruct P as [(-> & P)|(-> & P)]; cbn [negb].
  2:{ do 3 eexists. split; [reflexivity|]. split; [split; [discriminate|tauto]|]. split; [auto|discriminate]. }
  set (off := words (ld32 m (data + 4))) in *.
  assert (Ho : 0 <= off) by (subst off; unfold words; apply Z.add_nonneg_nonneg;
    [apply Z.shiftl_nonneg|apply Z.shiftr_nonneg]; apply Z.land_nonneg; right; lia).
  destruct (check_segments_spec ly h mmap m data (data + off) plan D 129 512) as (r & Er & P1 & P2); [lia|lia|].
  rewrite Er. cbn [obind]. destruct r as [e|].
  - destruct (istrue (Z.land (sh_flags m e) 4)) eqn:E4; cbn [negb].
    + set (m' := memcpy m (phys_to_virt (virt_offset ly) lin) data 512).
      assert (Sp : forall x, ld8 m' x = if (hb <=? x) && (x <? hb + 512) then ld8 m (data + (x - hb)) else ld8 m x)
        by (intros x; subst m'; fold hb; rewrite ld8_memcpy by lia; reflexivity).
      do 3 eexists. split; [reflexivity|]. cbn [first linlocation]. split; [split; [|auto]|split; [auto|]].
      * intros _. split; [exact P|]. destruct (Forall_placed_dec ly h mmap plan) as [Y|N]; [exact Y|]. discriminate (P2 N).
      * intros _. split; [reflexivity|]. split; [reflexivity|]. split.
        -- exists [], plan. split; [reflexivity|]. cbn [seglen segflags segaddr last0 last1 tot]. split; [lia|]. split; [lia|].
           split; [lia|]. split; [intros pre q post j E; destruct pre; discriminate E|].
           change (istrue (Z.land 0 4)) with false. cbv iota.
           replace (lin + off) with (lin + (data + off - data)) by lia. apply (copy_describes ly memsize m); try assumption; try lia.
           fold hb. intros j Hj. rewrite Sp. case_tests; try lia. f_equal. lia.
        -- intros x Hx. rewrite Sp. case_tests; (lia || reflexivity).
    + do 3 eexists. split; [reflexivity|]. split; [split; [discriminate|]|split; [auto|discriminate]].
      intros (_ & Y). destruct (P1 Y) as (e' & Ee & X). congruence.
  - do 3 eexists. split; [reflexivity|]. split; [split; [discriminate|]|split; [auto|discriminate]].
    intros (_ & Y). destruct (P1 Y) as (e' & Ee & X). congruence.
Qed.

(** An image of two segments, 2 and 3 bytes long, at 1 MB and at 1 MB + 16; its header goes to 0x1000:0. *)
Definition nbi_demo : mem :=
  mem_with [(0x2000, [0x36; 0x13; 3; 0x1b; 4; 0; 0; 0x80; 0; 0; 0; 16; 0; 0; 16; 0;
                      4; 0; 0; 0; 0; 0; 16; 0; 2; 0; 0; 0; 2; 0; 0; 0;
                      4; 0; 0; 4; 16; 0; 16; 0; 3; 0; 0; 0; 3; 0; 0; 0]);
            (0x2200, [71; 72; 73; 74; 75])].
Definition nbi_plan : list (Z * Z) := [(0x100000, 2); (0x100010, 3)].
Definition nbi_ctx : tctx :=
  {| img_length := 0; img_location := 0; img_execaddr := 0; linlocation := 0; last0 := 0; last1 := 0; segaddr := 0;
     seglen := 0; segflags := 0; first := false; cur := 0 |}.
Lemma nbi_demo_segments : image_segments nbi_demo 0x2000 (0x2000 + words (ld32 nbi_demo (0x2000 + 4))) nbi_plan.
Proof.
  change (image_segments nbi_demo 0x2000 0x2010 [(sh_loadaddr nbi_demo 0x2010, sh_imglength nbi_demo 0x2010);
    (sh_loadaddr nbi_demo 0x2020, sh_imglength nbi_demo 0x2020)]).
  apply segments_more; [lia|lia|vm_compute; discriminate|reflexivity|reflexivity|].
  change (image_segments nbi_demo 0x2000 0x2020 [(sh_loadaddr nbi_demo 0x2020, sh_imglength nbi_demo 0x2020)]).
  apply segments_last; [lia|lia|vm_compute; discriminate|reflexivity|reflexivity].
Qed.
Lemma nbi_probe_checks_witness :
  exists r m' t', tagged_probe ly0 heap0 map0 0x2000 517 (nbi_demo, nbi_ctx) = Some (r, (m', t')) /\
    (r = Tagged <-> placed_ok ly0 heap0 map0 0x10000 512 /\
       Forall (fun p => placed_ok ly0 heap0 map0 (fst p) (snd p)) nbi_plan) /\
    (r = Tagged \/ r = Dead /\ m' = nbi_demo) /\
    (r = Tagged -> first t' = true /\ linlocation t' = 0x10000 /\
       nbi_inv ly0 0 (fun o => ld8 nbi_demo (0x2000 + o)) 0x10000 nbi_plan m' t' 512 /\
       forall x, x < 0x10000 \/ 0x10000 + 512 <= x -> ld8 m' x = ld8 nbi_demo x).
Proof.
  apply (nbi_probe_checks ly0 heap0 map0 0 (fun o => ld8 nbi_demo (0x2000 + o)) 0x2000 517 nbi_demo nbi_ctx nbi_plan).
  - vm_compute. reflexivity.
  - lia.
  - exact nbi_demo_segments.
  - vm_compute. reflexivity.
  - left. vm_compute. discriminate.
Defined.
(** The first block of the image copied to its place, and the contents of the segments in a block. *)
Definition nbi_copied_demo : mem :=
  mem_with [(0x10000, [0x36; 0x13; 3; 0x1b; 4; 0; 0; 0x80; 0; 0; 0; 16; 0; 0; 16; 0;
                       4; 0; 0; 0; 0; 0; 16; 0; 2; 0; 0; 0; 2; 0; 0; 0;
                       4; 0; 0; 4; 16; 0; 16; 0; 3; 0; 0; 0; 3; 0; 0; 0]);
            (0x2200, [71; 72; 73; 74; 75])].
Definition nbi_ready : tctx :=
  {| img_length := 0x80000004; img_location := 0x10000000; img_execaddr := 0x100000; linlocation := 0x10000; last0 := 0;
     last1 := 0; segaddr := 0x10010; seglen := 0; segflags := 0; first := false; cur := 0 |}.
Lemma nbi_demo_described : described ly0 0 0x10000 nbi_copied_demo 0x10010 0 0 nbi_plan.
Proof.
  apply (described_more ly0 0 0x10000 nbi_copied_demo 0x10010 0 0 0x100000 [(0x100010, 3)]);
    [vm_compute; discriminate|vm_compute; discriminate|vm_compute; discriminate|reflexivity|left; split; reflexivity|].
  apply (described_last ly0 0 0x10000 nbi_copied_demo 0x10020 0x100000 0x100002 0x100010);
    [vm_compute; discriminate|vm_compute; discriminate|vm_compute; discriminate|reflexivity|left; split; reflexivity].
Qed.
Lemma nbi_streams_witness :
  let r := tagged_download ly0 0 10 0x2200 5 false (nbi_copied_demo, nbi_ready) in
  option_map fst r = Some (DlBoot START32 0x100000) /\
  (forall m' t', r = Some (DlBoot START32 0x100000, (m', t')) -> ld8 m' 0x100012 = 75).
Proof.
  intros r. assert (E : option_map fst r = Some (DlBoot START32 0x100000)) by (vm_compute; reflexivity).
  split; [exact E|]. intros m' t' Er.
  pose proof (nbi_streams ly0 0 (fun o => o - 441) 0x10000 nbi_plan 10 0x2200 5 false nbi_copied_demo nbi_ready 512) as P.
  cbv zeta in P. fold r in P. rewrite Er in P.
  apply (fun H1 H2 H3 H4 H5 H6 H7 H8 => proj2 (proj2 (proj2 (P H1 H2 H3 H4 H5 H6 H7 H8))) [(0x100000, 2)] (0x100010, 3) [] 2);
    [ | |discriminate|lia|lia| |cbn; lia|cbn; lia|reflexivity|cbn; lia|cbn; lia].
  - split.
    + intros p [<-|[<-|[]]]; cbn; lia.
    + intros p [<-|[<-|[]]]; right; vm_compute; discriminate.
    + constructor; [constructor; [left; vm_compute; discriminate|constructor]|constructor; constructor].
  - exists [], nbi_plan. split; [reflexivity|]. cbn [first nbi_ready seglen tot]. split; [reflexivity|]. split; [lia|].
    split; [lia|]. split; [intros pre q post j Eq; destruct pre; discriminate Eq|]. exact nbi_demo_described.
  - split.
    + intros j Hj. apply Z.eqb_eq.
      apply (all_below_spec 5 (fun j => ld8 nbi_copied_demo (0x2200 + j) =? 512 + j - 441)); [vm_compute; reflexivity|exact Hj].
    + intros p [<-|[<-|[]]]; left; vm_compute; discriminate.
Defined.

(** A segment at a relative address is not checked.  The probe checks the memory at the load address of each
    descriptor as if it were absolute, whatever its flags: a segment that is loaded relative to the end of
    memory is accepted when some RAM at the relative address is free, and is then put elsewhere; in
    particular over Etherboot itself. *)
Theorem nbi_relative_unchecked ly h mmap memsize fuel m t data len :
  let top := memsize * 1024 + 0x100000 in
  let sh := phys_to_virt (virt_offset ly) (segaddr t) in
  let d := data + 16 in
  (* one descriptor, the same in the first block and in the copy *)
  sh_length m d = 4 -> sh_flags m d = 0x06 -> sh_loadaddr m d = top - text_phys ly -> sh_imglength m d = len ->
  sh_length m sh = 4 -> sh_flags m sh = 0x06 -> sh_loadaddr m sh = top - text_phys ly -> sh_imglength m sh = len ->
  0 < len -> seglen t = 0 -> segflags t = 0 -> 0 <= text_phys ly < 4294967296 ->
  placed_ok ly h mmap (top - text_phys ly) len ->
  check_segments ly h mmap 129 data d 512 m = Some (m, Some d) /\
  exists t', next_seg ly memsize (S (S fuel)) m t = Some (SegReady t') /\ cur t' = text_phys ly /\ seglen t' = len.
Proof.
  intros top sh d D1 D2 D3 D4 S1 S2 S3 S4 Hl Z0 Z1 Ht Hp. split.
  - change 129%nat with (S 128). generalize 128%nat. intros n. cbn [check_segments]. rewrite D1. change (4 >? 0) with true. subst d.
    destruct (Z.ltb_spec (data + 16) (data + 512)); [|lia]. cbn [andb]. rewrite D3, D4.
    destruct (prep_segment_placed ly mmap h m (top - text_phys ly) len 512 (u32 (512 + len))) as [(-> & _)|(_ & N)]; [|destruct (N Hp)].
    cbn [negb]. rewrite D2. reflexivity.
  - unfold next_seg. cbn [loop]. unfold next_seg_step at 1. rewrite Z0, Z1. cbn [Z.eqb negb].
    change (istrue (Z.land 0 4)) with false. cbv iota. fold sh. rewrite S1, S2, S3, S4. cbn [Z.eqb].
    change (4 =? 0) with false. cbv iota. unfold next_seg_step at 1. cbn [seglen]. destruct (Z.eqb_spec len 0); [lia|]. cbn [negb].
    eexists. split; [reflexivity|]. cbn [cur seglen]. split; [|reflexivity].
    unfold seg_address. change (Z.land 6 3) with 2. change (2 =? 0) with false. change (2 =? 1) with false.
    change (2 =? 2) with true. cbv iota. fold top. replace (top - (top - text_phys ly)) with (text_phys ly) by lia.
    now apply u32_small.
Qed.
Lemma nbi_relative_unchecked_witness :
  let m := mem_with [(0x2010, [4; 0; 0; 6; 0; 0xc0; 0x76; 0; 4; 0; 0; 0; 4; 0; 0; 0]);
                     (0x10010, [4; 0; 0; 6; 0; 0xc0; 0x76; 0; 4; 0; 0; 0; 4; 0; 0; 0])] in
  check_segments ly0 heap0 map0 129 0x2000 0x2010 512 m = Some (m, Some 0x2010) /\
  exists t', next_seg ly0 7168 2 m nbi_ready = Some (SegReady t') /\ cur t' = text_phys ly0 /\ seglen t' = 4.
Proof.
  intros m. apply (nbi_relative_unchecked ly0 heap0 map0 7168 0 m nbi_ready 0x2000 4); try reflexivity.
  - split; [discriminate|reflexivity].
  - split; [intros (_ & H); discriminate H|]. split; [intros (H & _); discriminate H|].
    exists {| e_addr := 0x100000; e_size := 0x7f00000; e_type := 1 |}. split; [right; right; left; reflexivity|].
    split; [reflexivity|]. split; vm_compute; discriminate.
Defined.
