(* ===== verification/Pci.v ===== *)
(** Finding devices: [probe] of [src/src/core/config.c], [pci_probe.c], [pci.c] and [isa_probe.c].

    The configuration space of the PCI bus is read through two functions of the environment; the drivers are
    tables, a driver is its place in its table, and the probe function of a driver is a parameter. *)

From S2P Require Import Prelude Memory Misc.
Local Open Scope etherboot_scope.

Definition PCI_VENDOR_ID : Z := 0x00.
Definition PCI_REVISION : Z := 0x08.
Definition PCI_HEADER_TYPE : Z := 0x0e.
Definition PCI_BASE_ADDRESS_0 : Z := 0x10.
Definition PCI_BASE_ADDRESS_1 : Z := 0x14.
Definition PCI_ROM_ADDRESS : Z := 0x30.
Definition PCI_INTERRUPT_LINE : Z := 0x3c.
Definition PCI_INTERRUPT_PIN : Z := 0x3d.
Definition PCI_FUNC (devfn : Z) : Z := Z.land devfn 0x07.
(** [devfn & ~0x7] *)
Definition function_0 (devfn : Z) : Z := devfn - PCI_FUNC devfn.

(** [struct pci_driver], [struct isa_driver]; names are not modelled. *)
Record pci_driver := { d_type : Z; d_ids : list (Z * Z); d_class : Z }.
Record isa_driver := { i_type : Z; i_ioaddrs : Z }.
(** [struct pci_device]; a null driver is [None]. *)
Record pci_device := {
  p_class : Z; p_vendor : Z; p_dev_id : Z; p_membase : Z; p_ioaddr : Z; p_romaddr : Z; p_irq : Z;
  p_devfn : Z; p_bus : Z; use_specified : bool; p_driver : option nat;
}.
Definition no_pci_device : pci_device :=
  {| p_class := 0; p_vendor := 0; p_dev_id := 0; p_membase := 0; p_ioaddr := 0; p_romaddr := 0; p_irq := 0;
     p_devfn := 0; p_bus := 0; use_specified := false; p_driver := None |}.

Section bus.
(** Reading the configuration space: bus, device and function, register. *)
Context (config_byte config_dword : Z -> Z -> Z -> Z).
Context (pci_drivers : list pci_driver).

(** ** [scan_drivers] *)

Definition has_id (vendor device : Z) (d : pci_driver) : bool :=
  existsb (fun i => (vendor =? fst i) && (device =? snd i)) (d_ids d).
(** The search by identity, from driver [i] on: the driver found, and what is left of [skip_driver]. *)
Fixpoint scan_ids (type vendor device : Z) (ds : list pci_driver) (i : nat) (skip : option nat) : option nat * option nat :=
  match ds with
  | [] => (None, skip)
  | d :: ds =>
      if negb (d_type d =? type) then scan_ids type vendor device ds (S i) skip
      else
        match skip with
        | Some s => scan_ids type vendor device ds (S i) (if (s =? i)%nat then None else skip)
        | None => if has_id vendor device d then (Some i, None) else scan_ids type vendor device ds (S i) None
        end
  end.
Fixpoint scan_class (type class : Z) (last : option nat) (ds : list pci_driver) (i : nat) (skip : option nat) : option nat :=
  match ds with
  | [] => None
  | d :: ds =>
      if negb (d_type d =? type) then scan_class type class last ds (S i) skip
      else
        match skip with
        | Some s => scan_class type class last ds (S i) (if (s =? i)%nat then None else skip)
        | None =>
            if match last with Some l => (l =? i)%nat | None => false end then scan_class type class last ds (S i) None
            else if Z.shiftr class 8 =? d_class d then Some i
            else scan_class type class last ds (S i) None
        end
  end.
Definition scan_drivers (type class vendor device : Z) (last : option nat) : option nat :=
  match scan_ids type vendor device pci_drivers 0 last with
  | (Some i, _) => Some i
  | (None, skip) => if class =? 0 then None else scan_class type class last pci_drivers 0 skip
  end.

(** ** [scan_pci_bus] *)

(** The last of the six base addresses that is an I/O address; [ioaddr] when there is none. *)
Definition io_bar (bus devfn ioaddr : Z) : Z :=
  fold_left (fun io k =>
    let bar := config_dword bus devfn (PCI_BASE_ADDRESS_0 + 4 * k) in
    if (Z.land bar 0xfffffffc =? 0) || (Z.land bar 1 =? 0) then io else Z.land bar 0xfffffffc)
    [0; 1; 2; 3; 4; 5] ioaddr.
Definition fill_device (bus devfn class vendor device : Z) (driver : nat) (dev : pci_device) : pci_device :=
  let pin := config_byte bus devfn PCI_INTERRUPT_PIN in
  {| p_class := class; p_vendor := vendor; p_dev_id := device;
     p_membase := config_dword bus devfn PCI_BASE_ADDRESS_1; p_ioaddr := io_bar bus devfn (p_ioaddr dev);
     p_romaddr := Z.shiftr (config_dword bus devfn PCI_ROM_ADDRESS) 10;
     p_irq := if pin =? 0 then pin else config_byte bus devfn PCI_INTERRUPT_LINE;
     p_devfn := devfn; p_bus := bus; use_specified := use_specified dev; p_driver := Some driver |}.
(** The functions [devfn .. 0xff) of a bus: the device found, or the last header type. *)
Fixpoint scan_functions (n : nat) (type bus devfn hdr_type : Z) (first_driver : option nat) (dev : pci_device)
    : pci_device + Z :=
  match n with
  | O => inr hdr_type
  | S n =>
      let next hdr_type := scan_functions n type bus (devfn + 1) hdr_type None dev in
      let hdr_type := if PCI_FUNC devfn =? 0 then config_byte bus devfn PCI_HEADER_TYPE else hdr_type in
      if negb (PCI_FUNC devfn =? 0) && (Z.land hdr_type 0x80 =? 0) then next hdr_type
      else
        let l := config_dword bus devfn PCI_VENDOR_ID in
        if (l =? 0xffffffff) || (l =? 0) then next hdr_type
        else
          let vendor := Z.land l 0xffff in
          let device := Z.land (Z.shiftr l 16) 0xffff in
          let class := Z.land (Z.shiftr (config_dword bus devfn PCI_REVISION) 8) 0xffffff in
          match scan_drivers type class vendor device first_driver with
          | None => next hdr_type
          | Some d => inl (fill_device bus devfn class vendor device d dev)
          end
  end.
Fixpoint scan_buses (n : nat) (type bus devfn hdr_type : Z) (first_driver : option nat) (dev : pci_device) : pci_device :=
  match n with
  | O => dev
  | S n =>
      match scan_functions (Z.to_nat (0xff - devfn)) type bus devfn hdr_type first_driver dev with
      | inl found => found
      | inr hdr_type => scan_buses n type (bus + 1) 0 hdr_type None dev
      end
  end.
Definition set_start (dev : pci_device) : pci_device :=
  {| p_class := p_class dev; p_vendor := p_vendor dev; p_dev_id := p_dev_id dev; p_membase := p_membase dev;
     p_ioaddr := p_ioaddr dev; p_romaddr := p_romaddr dev; p_irq := p_irq dev; p_devfn := 0; p_bus := 0;
     use_specified := use_specified dev; p_driver := None |}.
Definition scan_pci_bus (type : Z) (dev : pci_device) : pci_device :=
  if match p_driver dev with Some _ => true | None => use_specified dev end then
    let hdr_type := config_byte (p_bus dev) (function_0 (p_devfn dev)) PCI_HEADER_TYPE in
    scan_buses (Z.to_nat (256 - p_bus dev)) type (p_bus dev) (p_devfn dev) hdr_type (p_driver dev) (set_start dev)
  else scan_buses 256 type 0 0 0 None dev.

(** ** Probing *)

Context (isa_drivers : list isa_driver).
(** The rest of the machine, and the probe functions of the drivers: whether the device works, and [dev->index]. *)
Context {W : Type} (pci_try : nat -> pci_device -> Z -> W -> bool * Z * W) (isa_try : nat -> Z -> W -> bool * Z * W).

Definition FIRST : Z := -1.
Definition NEXT : Z := 0.
Definition AWAKE : Z := 1.
Definition FAILED : Z := -1.
Definition WORKED : Z := 0.
Definition PROBE_NONE : Z := 0.
Definition PROBE_PCI : Z := 1.
Definition PROBE_ISA : Z := 2.

(** The members of [struct dev] and of its two probe states, which share their memory: each of them is set
    before it is used, by the probe with [FIRST]. *)
Record pdev := {
  dtype : Z; how : Z; to_probe : Z; dindex : Z; tindex : Z; devid_bus : Z; devid_vendor : Z; devid_device : Z;
  pci_dev : pci_device; pci_advance : bool; isa_cur : nat; isa_advance : bool;
}.
Definition set_how_to (h to : Z) (d : pdev) : pdev :=
  {| dtype := dtype d; how := h; to_probe := to; dindex := dindex d; tindex := tindex d; devid_bus := devid_bus d;
     devid_vendor := devid_vendor d; devid_device := devid_device d; pci_dev := pci_dev d; pci_advance := pci_advance d;
     isa_cur := isa_cur d; isa_advance := isa_advance d |}.
Definition set_pci (p : pci_device) (adv : bool) (ix : Z) (d : pdev) : pdev :=
  {| dtype := dtype d; how := how d; to_probe := to_probe d; dindex := ix; tindex := tindex d; devid_bus := devid_bus d;
     devid_vendor := devid_vendor d; devid_device := devid_device d; pci_dev := p; pci_advance := adv;
     isa_cur := isa_cur d; isa_advance := isa_advance d |}.
Definition set_isa (c : nat) (adv : bool) (ix : Z) (d : pdev) : pdev :=
  {| dtype := dtype d; how := how d; to_probe := to_probe d; dindex := ix; tindex := tindex d; devid_bus := devid_bus d;
     devid_vendor := devid_vendor d; devid_device := devid_device d; pci_dev := pci_dev d; pci_advance := pci_advance d;
     isa_cur := c; isa_advance := adv |}.
Definition set_ids (b v dv ti : Z) (d : pdev) : pdev :=
  {| dtype := dtype d; how := how d; to_probe := to_probe d; dindex := dindex d; tindex := ti; devid_bus := b;
     devid_vendor := v; devid_device := dv; pci_dev := pci_dev d; pci_advance := pci_advance d;
     isa_cur := isa_cur d; isa_advance := isa_advance d |}.

(** One round of the loop of [pci_probe]: [inr] when it returns. *)
Definition pci_round (s : pdev * W) : (pdev * W) + (Z * pdev * W) :=
  let '(d, w) := s in
  let d := if negb (how d =? AWAKE) && pci_advance d then set_pci (scan_pci_bus (dtype d) (pci_dev d)) true (-1) d
           else set_pci (pci_dev d) true (dindex d) d in
  match p_driver (pci_dev d) with
  | None => inr (FAILED, d, w)
  | Some k =>
      let d := set_ids 1 (htons (p_vendor (pci_dev d))) (htons (p_dev_id (pci_dev d)))
                 (if negb (how d =? AWAKE) then tindex d + 1 else tindex d) d in
      let '(ok, ix, w) := pci_try k (pci_dev d) (dindex d) w in
      let d := set_pci (pci_dev d) (if ok then ix =? -1 else true) ix d in
      if ok then inr (WORKED, d, w) else inl (d, w)
  end.
Definition pci_probe (fuel : nat) (d : pdev) (w : W) : option (Z * pdev * W) :=
  let d := if how d =? FIRST then
             let p := pci_dev d in
             set_pci {| p_class := p_class p; p_vendor := p_vendor p; p_dev_id := p_dev_id p; p_membase := p_membase p;
                        p_ioaddr := p_ioaddr p; p_romaddr := p_romaddr p; p_irq := p_irq p; p_devfn := 0; p_bus := 0;
                        use_specified := use_specified p; p_driver := None |} true (-1) d
           else d in
  loop fuel pci_round (d, w).

Definition isa_round (s : pdev * W) : (pdev * W) + (Z * pdev * W) :=
  let '(d, w) := s in
  let d := if negb (how d =? AWAKE) && isa_advance d then set_isa (S (isa_cur d)) true (-1) d
           else set_isa (isa_cur d) true (dindex d) d in
  match nth_error isa_drivers (isa_cur d) with
  | None => inr (FAILED, d, w)
  | Some drv =>
      if negb (i_type drv =? dtype d) then inl (d, w)
      else
        let d := set_ids 2 (devid_vendor d) (devid_device d)
                   (if negb (how d =? AWAKE) then tindex d + 1 else tindex d) d in
        let '(ok, ix, w) := isa_try (isa_cur d) (dindex d) w in
        let d := set_isa (isa_cur d) (if ok then ix =? -1 else true) ix d in
        if ok then inr (WORKED, d, w) else inl (d, w)
  end.
Definition isa_probe (fuel : nat) (d : pdev) (w : W) : option (Z * pdev * W) :=
  let d := if how d =? FIRST then set_isa 0 false (-1) d else d in
  loop fuel isa_round (d, w).

(** [probe]: the result is left in [how_probe]. *)
Definition probe (fuel : nat) (d : pdev) (w : W) : option (Z * pdev * W) :=
  let d := if how d =? FIRST then set_isa 0 false (dindex d) (set_pci no_pci_device false (dindex d) (set_how_to FIRST PROBE_PCI d)) else d in
  let* '(d, w) :=
    if to_probe d =? PROBE_PCI then
      let* '(r, d, w) := pci_probe fuel d w in
      Some (set_how_to r (if r =? FAILED then PROBE_ISA else to_probe d) d, w)
    else Some (d, w) in
  let* '(d, w) :=
    if to_probe d =? PROBE_ISA then
      let* '(r, d, w) := isa_probe fuel d w in
      Some (set_how_to r (if r =? FAILED then PROBE_NONE else to_probe d) d, w)
    else Some (d, w) in
  let d := if negb (to_probe d =? PROBE_PCI) && negb (to_probe d =? PROBE_ISA) then set_how_to FAILED (to_probe d) d else d in
  Some (how d, d, w).
End bus.

(** ** The devices of a bus *)

Section enumeration.
Context (config_byte config_dword : Z -> Z -> Z -> Z) (pci_drivers : list pci_driver).
Context (type : Z).

(** A function that answers: the first of its slot, or one of a device with several. *)
Definition header_of (bus devfn : Z) : Z := config_byte bus (function_0 devfn) PCI_HEADER_TYPE.
Definition ident (bus devfn : Z) : Z := config_dword bus devfn PCI_VENDOR_ID.
Definition vendor_of (bus devfn : Z) : Z := Z.land (ident bus devfn) 0xffff.
Definition device_of (bus devfn : Z) : Z := Z.land (Z.shiftr (ident bus devfn) 16) 0xffff.
Definition class_of (bus devfn : Z) : Z := Z.land (Z.shiftr (config_dword bus devfn PCI_REVISION) 8) 0xffffff.
Definition visible (bus devfn : Z) : bool :=
  ((PCI_FUNC devfn =? 0) || negb (Z.land (header_of bus devfn) 0x80 =? 0)) &&
  negb ((ident bus devfn =? 0xffffffff) || (ident bus devfn =? 0)).
(** What a driver claims to drive: devices of its list, or of its class. *)
Definition matches (d : pci_driver) (bus devfn : Z) : bool :=
  (d_type d =? type) &&
  (has_id (vendor_of bus devfn) (device_of bus devfn) d ||
   negb (class_of bus devfn =? 0) && (Z.shiftr (class_of bus devfn) 8 =? d_class d)).
(** No function is claimed by two drivers. *)
Definition one_driver : Prop := forall bus devfn i j di dj,
  nth_error pci_drivers i = Some di -> nth_error pci_drivers j = Some dj ->
  matches di bus devfn = true -> matches dj bus devfn = true -> i = j.
(** The driver that claims a function. *)
Fixpoint first_match (ds : list pci_driver) (i : nat) (bus devfn : Z) : option nat :=
  match ds with
  | [] => None
  | d :: ds => if matches d bus devfn then Some i else first_match ds (S i) bus devfn
  end.
Definition driver_of (bus devfn : Z) : option nat :=
  if visible bus devfn then first_match pci_drivers 0 bus devfn else None.
(** The devices of a range of functions and of a range of buses, in order. *)
Fixpoint devices_fns (n : nat) (bus devfn : Z) : list (Z * Z * nat) :=
  match n with
  | O => []
  | S n => match driver_of bus devfn with Some d => [(bus, devfn, d)] | None => [] end ++ devices_fns n bus (devfn + 1)
  end.
Fixpoint devices_buses (n : nat) (bus : Z) : list (Z * Z * nat) :=
  match n with
  | O => []
  | S n => devices_fns 255 bus 0 ++ devices_buses n (bus + 1)
  end.
Definition devices : list (Z * Z * nat) := devices_buses 256 0.
(** Those behind a given one. *)
Definition behind (bus devfn : Z) : list (Z * Z * nat) :=
  devices_fns (Z.to_nat (254 - devfn)) bus (devfn + 1) ++ devices_buses (Z.to_nat (255 - bus)) (bus + 1).

(** *** The tables *)

Lemma scan_ids_found v dv ds : forall i skip k s, scan_ids type v dv ds i skip = (Some k, s) ->
  exists d, nth_error ds (k - i) = Some d /\ (i <= k)%nat /\ d_type d = type /\ has_id v dv d = true /\
    (forall l, skip = Some l -> (i <= l)%nat -> (l < k)%nat).
Proof.
  induction ds as [|d ds IH]; intros i skip k s; cbn [scan_ids]; [discriminate|].
  assert (Next : forall skip', (forall l, skip = Some l -> (i <= l)%nat -> l = i \/ skip' = Some l) ->
    scan_ids type v dv ds (S i) skip' = (Some k, s) ->
    exists d0, nth_error (d :: ds) (k - i) = Some d0 /\ (i <= k)%nat /\ d_type d0 = type /\ has_id v dv d0 = true /\
      (forall l, skip = Some l -> (i <= l)%nat -> (l < k)%nat)).
  { intros skip' Hs E. destruct (IH _ _ _ _ E) as (d0 & E1 & Hi & Ht & Hh & Hl). exists d0.
    replace (k - i)%nat with (S (k - S i)) by lia. cbn [nth_error]. repeat split; auto; [lia|].
    intros l El Hil. destruct (Hs l El Hil) as [->|Es]; [lia|]. destruct (Nat.eq_dec l i); [lia|]. apply Hl; [exact Es|lia]. }
  destruct (Z.eqb_spec (d_type d) type) as [Ht|Ht]; cbn [negb]; [|apply Next; auto].
  destruct skip as [l|].
  - apply Next. intros l' [= ->] Hi. destruct (Nat.eqb_spec l' i); auto.
  - destruct (has_id v dv d) eqn:Eh; [|apply Next; discriminate]. intros [= <- <-]. exists d. rewrite Nat.sub_diag.
    repeat split; auto. discriminate.
Qed.
Lemma scan_ids_none v dv ds : forall i s, scan_ids type v dv ds i None = (None, s) ->
  s = None /\ forall d, In d ds -> d_type d = type -> has_id v dv d = false.
Proof.
  induction ds as [|d ds IH]; intros i s; cbn [scan_ids]; [intros [= <-]; split; [reflexivity|intros d []]|].
  destruct (Z.eqb_spec (d_type d) type) as [Ht|Ht]; cbn [negb].
  - destruct (has_id v dv d) eqn:Eh; [discriminate|]. intros E. destruct (IH _ _ E) as (-> & H). split; [reflexivity|].
    intros d' [<-|Hd]; auto.
  - intros E. destruct (IH _ _ E) as (-> & H). split; [reflexivity|]. intros d' [<-|Hd]; [congruence|auto].
Qed.
Lemma scan_class_found c last ds : forall i skip k, scan_class type c last ds i skip = Some k ->
  exists d, nth_error ds (k - i) = Some d /\ (i <= k)%nat /\ d_type d = type /\ Z.shiftr c 8 = d_class d /\ last <> Some k.
Proof.
  induction ds as [|d ds IH]; intros i skip k; cbn [scan_class]; [discriminate|].
  assert (Next : forall skip', scan_class type c last ds (S i) skip' = Some k ->
    exists d0, nth_error (d :: ds) (k - i) = Some d0 /\ (i <= k)%nat /\ d_type d0 = type /\ Z.shiftr c 8 = d_class d0 /\ last <> Some k).
  { intros skip' E. destruct (IH _ _ _ E) as (d0 & E1 & Hi & R). exists d0. replace (k - i)%nat with (S (k - S i)) by lia.
    cbn [nth_error]. repeat split; try apply R; [exact E1|lia]. }
  destruct (Z.eqb_spec (d_type d) type) as [Ht|Ht]; cbn [negb]; [|apply Next].
  destruct skip as [l|]; [apply Next|]. destruct last as [l|].
  - destruct (Nat.eqb_spec l i) as [|Hn]; [apply Next|]. destruct (Z.eqb_spec (Z.shiftr c 8) (d_class d)); [|apply Next].
    intros [= <-]. exists d. rewrite Nat.sub_diag. repeat split; auto. congruence.
  - destruct (Z.eqb_spec (Z.shiftr c 8) (d_class d)); [|apply Next]. intros [= <-]. exists d. rewrite Nat.sub_diag.
    repeat split; auto. discriminate.
Qed.

(** A driver found claims the device, and is not the one found before. *)
Lemma scan_drivers_matches bus devfn last k :
  scan_drivers pci_drivers type (class_of bus devfn) (vendor_of bus devfn) (device_of bus devfn) last = Some k ->
  exists d, nth_error pci_drivers k = Some d /\ matches d bus devfn = true /\ last <> Some k.
Proof.
  unfold scan_drivers, matches. destruct (scan_ids _ _ _ _ _ _) as [[i|] skip] eqn:E.
  - intros [= <-]. destruct (scan_ids_found _ _ _ _ _ _ _ E) as (d & E1 & _ & Ht & Hh & Hl). rewrite Nat.sub_0_r in E1.
    exists d. split; [exact E1|]. rewrite Ht, Z.eqb_refl, Hh. split; [reflexivity|]. intros ->.
    specialize (Hl i eq_refl). lia.
  - destruct (Z.eqb_spec (class_of bus devfn) 0) as [|Hc]; [discriminate|]. intros E2.
    destruct (scan_class_found _ _ _ _ _ _ E2) as (d & E1 & _ & Ht & Hh & Hl). rewrite Nat.sub_0_r in E1.
    exists d. split; [exact E1|]. rewrite Ht, Z.eqb_refl. split; [|exact Hl]. cbn [negb andb]. apply Z.eqb_eq in Hh. rewrite Hh.
    apply orb_true_r.
Qed.
Lemma scan_drivers_again bus devfn k : one_driver ->
  scan_drivers pci_drivers type (class_of bus devfn) (vendor_of bus devfn) (device_of bus devfn) None = Some k ->
  scan_drivers pci_drivers type (class_of bus devfn) (vendor_of bus devfn) (device_of bus devfn) (Some k) = None.
Proof.
  intros One E. destruct (scan_drivers_matches _ _ _ _ E) as (d & E1 & M1 & _).
  destruct (scan_drivers _ _ _ _ _ (Some k)) as [k'|] eqn:E'; [|reflexivity].
  destruct (scan_drivers_matches _ _ _ _ E') as (d' & E2 & M2 & N). destruct N. f_equal. exact (One _ _ _ _ _ _ E1 E2 M1 M2).
Qed.
Lemma scan_class_none c ds : forall i, scan_class type c None ds i None = None ->
  forall d, In d ds -> d_type d = type -> (Z.shiftr c 8 =? d_class d) = false.
Proof.
  induction ds as [|d ds IH]; intros i; cbn [scan_class]; [intros _ d []|].
  destruct (Z.eqb_spec (d_type d) type) as [Ht|Ht]; cbn [negb].
  - destruct (Z.shiftr c 8 =? d_class d) eqn:E; [discriminate|]. intros H d' [<-|Hd]; [auto|]. exact (IH _ H d' Hd).
  - intros H d' [<-|Hd]; [congruence|]. exact (IH _ H d' Hd).
Qed.
Lemma first_match_found ds bus devfn : forall i k, first_match ds i bus devfn = Some k ->
  exists d, nth_error ds (k - i) = Some d /\ (i <= k)%nat /\ matches d bus devfn = true.
Proof.
  induction ds as [|d ds IH]; intros i k; cbn [first_match]; [discriminate|]. destruct (matches d bus devfn) eqn:M.
  - intros [= <-]. exists d. rewrite Nat.sub_diag. auto.
  - intros E. destruct (IH _ _ E) as (d' & E1 & Hi & M'). exists d'. replace (k - i)%nat with (S (k - S i)) by lia.
    cbn [nth_error]. repeat split; auto; lia.
Qed.
Lemma first_match_none ds bus devfn : forall i, first_match ds i bus devfn = None -> forall d, In d ds -> matches d bus devfn = false.
Proof.
  induction ds as [|d ds IH]; intros i; cbn [first_match]; [intros _ d []|]. destruct (matches d bus devfn) eqn:M; [discriminate|].
  intros E d' [<-|Hd]; [exact M|]. exact (IH _ E d' Hd).
Qed.
Lemma scan_drivers_first bus devfn : one_driver ->
  scan_drivers pci_drivers type (class_of bus devfn) (vendor_of bus devfn) (device_of bus devfn) None =
  first_match pci_drivers 0 bus devfn.
Proof.
  intros One. destruct (scan_drivers _ _ _ _ _ None) as [k|] eqn:E.
  - destruct (scan_drivers_matches _ _ _ _ E) as (d & E1 & M & _). destruct (first_match _ _ _ _) as [k'|] eqn:F.
    + destruct (first_match_found _ _ _ _ _ F) as (d' & E2 & _ & M'). rewrite Nat.sub_0_r in E2.
      f_equal. exact (One _ _ _ _ _ _ E1 E2 M M').
    + apply nth_error_In in E1. rewrite (first_match_none _ _ _ _ F d E1) in M. discriminate.
  - destruct (first_match _ _ _ _) as [k'|] eqn:F; [|reflexivity].
    destruct (first_match_found _ _ _ _ _ F) as (d' & E2 & _ & M'). apply nth_error_In in E2.
    unfold matches in M'. apply andb_prop in M' as (Mt & Mm). apply Z.eqb_eq in Mt. unfold scan_drivers in E.
    destruct (scan_ids _ _ _ _ _ _) as [[i|] skip] eqn:E3; [discriminate|].
    destruct (scan_ids_none _ _ _ _ _ E3) as (-> & H). rewrite (H d' E2 Mt) in Mm. cbn [orb] in Mm.
    destruct (Z.eqb_spec (class_of bus devfn) 0); [discriminate|]. cbn [negb andb] in Mm.
    rewrite (scan_class_none _ _ _ E d' E2 Mt) in Mm. discriminate.
Qed.

(** *** The scan *)

Context (One : one_driver).
Lemma PCI_FUNC_mod devfn : PCI_FUNC devfn = devfn mod 8.
Proof. unfold PCI_FUNC. change 7 with (Z.ones 3). apply Z.land_ones. lia. Qed.
Definition header_ok (bus devfn hdr : Z) : Prop := PCI_FUNC devfn <> 0 -> hdr = header_of bus devfn.
Lemma header_next bus devfn hdr :
  (if PCI_FUNC devfn =? 0 then config_byte bus devfn PCI_HEADER_TYPE else hdr) = header_of bus devfn ->
  header_ok bus (devfn + 1) (header_of bus devfn).
Proof.
  intros _ Hn. unfold header_of, function_0. rewrite !PCI_FUNC_mod in *. f_equal. Z.div_mod_to_equations. lia.
Qed.
Lemma header_here bus devfn hdr : header_ok bus devfn hdr ->
  (if PCI_FUNC devfn =? 0 then config_byte bus devfn PCI_HEADER_TYPE else hdr) = header_of bus devfn.
Proof.
  intros H. destruct (Z.eqb_spec (PCI_FUNC devfn) 0) as [E|N]; [|now apply H]. unfold header_of, function_0. now rewrite E, Z.sub_0_r.
Qed.
Definition filled (c : Z * Z * nat) (dev : pci_device) : pci_device :=
  let '(bus, devfn, k) := c in
  fill_device config_byte config_dword bus devfn (class_of bus devfn) (vendor_of bus devfn) (device_of bus devfn) k dev.
(** One function of the scan. *)
Lemma scan_functions_step n bus devfn hdr first dev : header_ok bus devfn hdr ->
  scan_functions config_byte config_dword pci_drivers (S n) type bus devfn hdr first dev =
  match (if visible bus devfn then scan_drivers pci_drivers type (class_of bus devfn) (vendor_of bus devfn) (device_of bus devfn) first
         else None) with
  | Some k => inl (filled (bus, devfn, k) dev)
  | None => scan_functions config_byte config_dword pci_drivers n type bus (devfn + 1) (header_of bus devfn) None dev
  end.
Proof.
  intros H. cbn [scan_functions]. rewrite (header_here _ _ _ H). unfold visible.
  fold (ident bus devfn). fold (vendor_of bus devfn). fold (device_of bus devfn). fold (class_of bus devfn).
  destruct (PCI_FUNC devfn =? 0), (Z.land (header_of bus devfn) 0x80 =? 0); cbn [negb andb orb]; try reflexivity;
    destruct ((ident bus devfn =? 0xffffffff) || (ident bus devfn =? 0)); cbn [negb]; reflexivity.
Qed.
Lemma scan_functions_spec n : forall bus devfn hdr dev, header_ok bus devfn hdr ->
  match devices_fns n bus devfn with
  | c :: _ => scan_functions config_byte config_dword pci_drivers n type bus devfn hdr None dev = inl (filled c dev)
  | [] => exists h, scan_functions config_byte config_dword pci_drivers n type bus devfn hdr None dev = inr h
  end.
Proof.
  induction n as [|n IH]; intros bus devfn hdr dev H; [cbn; eauto|]. rewrite scan_functions_step by exact H.
  cbn [devices_fns]. unfold driver_of. rewrite (scan_drivers_first _ _ One).
  assert (H' : header_ok bus (devfn + 1) (header_of bus devfn)) by (eapply header_next, header_here, H).
  destruct (if visible bus devfn then _ else None) as [k|]; cbn [app]; [reflexivity|]. exact (IH _ _ _ _ H').
Qed.
Lemma scan_buses_spec n : forall bus hdr dev,
  scan_buses config_byte config_dword pci_drivers n type bus 0 hdr None dev =
  match devices_buses n bus with c :: _ => filled c dev | [] => dev end.
Proof.
  induction n as [|n IH]; intros bus hdr dev; [reflexivity|]. cbn [scan_buses devices_buses].
  change (Z.to_nat (255 - 0)) with 255%nat.
  assert (H : header_ok bus 0 hdr) by (intros N; destruct N; reflexivity).
  pose proof (scan_functions_spec 255 bus 0 hdr dev H) as S. destruct (devices_fns 255 bus 0) as [|c l]; cbn [app].
  - destruct S as (h & ->). apply IH.
  - now rewrite S.
Qed.

Lemma devices_fns_tail n : forall bus devfn b f k rest, devices_fns n bus devfn = (b, f, k) :: rest ->
  b = bus /\ devfn <= f < devfn + Z.of_nat n /\ driver_of b f = Some k /\
  rest = devices_fns (Z.to_nat (devfn + Z.of_nat n - 1 - f)) b (f + 1).
Proof.
  induction n as [|n IH]; intros bus devfn b f k rest; cbn [devices_fns]; [discriminate|].
  destruct (driver_of bus devfn) as [k'|] eqn:E; cbn [app].
  - intros [= <- <- <- <-]. split; [reflexivity|]. split; [lia|]. split; [exact E|]. f_equal. lia.
  - intros H. destruct (IH _ _ _ _ _ _ H) as (-> & Hf & Hk & ->). split; [reflexivity|]. split; [lia|]. split; [exact Hk|].
    f_equal. lia.
Qed.
Lemma devices_buses_tail n : forall bus b f k rest, devices_buses n bus = (b, f, k) :: rest ->
  bus <= b < bus + Z.of_nat n /\ 0 <= f < 255 /\ driver_of b f = Some k /\
  rest = devices_fns (Z.to_nat (254 - f)) b (f + 1) ++ devices_buses (Z.to_nat (bus + Z.of_nat n - 1 - b)) (b + 1).
Proof.
  induction n as [|n IH]; intros bus b f k rest; cbn [devices_buses]; [discriminate|].
  destruct (devices_fns 255 bus 0) as [|((b', f'), k') l] eqn:E; cbn [app].
  - intros H. destruct (IH _ _ _ _ _ H) as (Hb & Hf & Hk & ->). repeat (split; [assumption || lia|]). do 2 f_equal. lia.
  - intros [= -> -> -> <-]. destruct (devices_fns_tail _ _ _ _ _ _ _ E) as (-> & Hf & Hk & ->).
    split; [lia|]. split; [lia|]. split; [exact Hk|]. f_equal; f_equal; lia.
Qed.
Lemma behind_tail bus devfn b f k rest : 0 <= bus < 256 -> 0 <= devfn < 255 -> behind bus devfn = (b, f, k) :: rest ->
  0 <= b < 256 /\ 0 <= f < 255 /\ driver_of b f = Some k /\ rest = behind b f.
Proof.
  intros Hb Hd. unfold behind at 1. destruct (devices_fns _ bus (devfn + 1)) as [|((b', f'), k') l] eqn:E; cbn [app].
  - intros H. destruct (devices_buses_tail _ _ _ _ _ _ H) as (Hb' & Hf & Hk & ->). repeat (split; [assumption || lia|]).
    unfold behind. do 2 f_equal. lia.
  - intros [= -> -> -> <-]. destruct (devices_fns_tail _ _ _ _ _ _ _ E) as (-> & Hf & Hk & ->).
    repeat (split; [assumption || lia|]). unfold behind. f_equal. f_equal. lia.
Qed.
Lemma devices_tail b f k rest : devices = (b, f, k) :: rest ->
  0 <= b < 256 /\ 0 <= f < 255 /\ driver_of b f = Some k /\ rest = behind b f.
Proof.
  intros H. destruct (devices_buses_tail _ _ _ _ _ _ H) as (Hb & Hf & Hk & ->). repeat (split; [assumption || lia|]).
  unfold behind. do 2 f_equal.
Qed.

(** Where the scan stands: [rest] is still to come. *)
Definition scan_at (p : pci_device) (rest : list (Z * Z * nat)) : Prop :=
  use_specified p = false /\
  match p_driver p with
  | None => rest = devices
  | Some k => 0 <= p_bus p < 256 /\ 0 <= p_devfn p < 255 /\ driver_of (p_bus p) (p_devfn p) = Some k /\
      rest = behind (p_bus p) (p_devfn p)
  end.
Definition is_at (p : pci_device) (c : Z * Z * nat) : Prop :=
  let '(b, f, k) := c in p_bus p = b /\ p_devfn p = f /\ p_driver p = Some k.
Lemma scan_next p rest : scan_at p rest ->
  scan_pci_bus config_byte config_dword pci_drivers type p =
  let q := match p_driver p with Some _ => set_start p | None => p end in
  match rest with c :: _ => filled c q | [] => q end.
Proof.
  intros (Hu & H). unfold scan_pci_bus. rewrite Hu. destruct (p_driver p) as [k|] eqn:Ek.
  - destruct H as (Hb & Hf & Hk & ->). set (q := set_start p). set (bus := p_bus p) in *. set (devfn := p_devfn p) in *.
    replace (Z.to_nat (256 - bus)) with (S (Z.to_nat (255 - bus))) by lia. cbn [scan_buses].
    replace (Z.to_nat (255 - devfn)) with (S (Z.to_nat (254 - devfn))) by lia.
    fold (header_of bus devfn). rewrite scan_functions_step by (intros _; reflexivity).
    unfold driver_of in Hk. destruct (visible bus devfn) eqn:Ev; [|discriminate].
    rewrite <- (scan_drivers_first _ _ One) in Hk. rewrite (scan_drivers_again _ _ _ One Hk).
    pose proof (scan_functions_spec (Z.to_nat (254 - devfn)) bus (devfn + 1) (header_of bus devfn) q) as S.
    unfold behind. destruct (devices_fns _ bus (devfn + 1)) as [|c l]; cbn [app].
    + destruct S as (h & ->); [eapply header_next, header_here; intros _; reflexivity|]. apply scan_buses_spec.
    + rewrite S; [reflexivity|]. eapply header_next, header_here. intros _. reflexivity.
  - subst rest. apply scan_buses_spec.
Qed.
Lemma scan_at_next p rest : scan_at p rest ->
  let q := scan_pci_bus config_byte config_dword pci_drivers type p in
  match rest with
  | c :: rest' => is_at q c /\ scan_at q rest'
  | [] => p_driver q = None
  end.
Proof.
  intros H q. subst q. rewrite (scan_next p rest H). cbv zeta. destruct H as (Hu & H).
  destruct rest as [|((b, f), k) rest].
  - destruct (p_driver p) eqn:E; [reflexivity|exact E].
  - assert (T : 0 <= b < 256 /\ 0 <= f < 255 /\ driver_of b f = Some k /\ rest = behind b f).
    { destruct (p_driver p) as [k'|]; [|symmetry in H; exact (devices_tail _ _ _ _ H)].
      destruct H as (Hb & Hf & _ & H). symmetry in H. exact (behind_tail _ _ _ _ _ _ Hb Hf H). }
    unfold filled, is_at, scan_at. cbn [p_bus p_devfn p_driver use_specified fill_device]. split; [auto|].
    split; [|exact T]. destruct (p_driver p); exact Hu.
Qed.
End enumeration.

(** ** Probing again and again *)

Section probing.
Context (config_byte config_dword : Z -> Z -> Z -> Z) (pci_drivers : list pci_driver) (isa_drivers : list isa_driver).
Context {W : Type} (pci_try : nat -> pci_device -> Z -> W -> bool * Z * W) (isa_try : nat -> Z -> W -> bool * Z * W).
Context (type : Z).
(** Which of the devices work, with one device for each. *)
Context (works : Z * Z * nat -> bool) (isa_works : nat -> bool).
Definition tries_pci : Prop := forall k p ix w, exists w', pci_try k p ix w = (works (p_bus p, p_devfn p, k), -1, w').
Definition tries_isa : Prop := forall k ix w, exists w', isa_try k ix w = (isa_works k, -1, w').
Context (One : one_driver config_dword pci_drivers type) (Hp : tries_pci) (Hi : tries_isa).
Let devs := devices config_byte config_dword pci_drivers type.
Let at_ := scan_at config_byte config_dword pci_drivers type.

(** The first that works, and what is behind it. *)
Fixpoint next_working {A} (f : A -> bool) (l : list A) : option (A * list A) :=
  match l with
  | [] => None
  | x :: l => if f x then Some (x, l) else next_working f l
  end.

Lemma pci_rounds rest : forall d w fuel, how d <> AWAKE -> pci_advance d = true -> dtype d = type ->
  at_ (pci_dev d) rest -> (length rest < fuel)%nat ->
  exists r d' w', loop fuel (pci_round config_byte config_dword pci_drivers pci_try) (d, w) = Some (r, d', w') /\
    dtype d' = dtype d /\ to_probe d' = to_probe d /\
    match next_working works rest with
    | None => r = FAILED
    | Some (c, rest') => r = WORKED /\ is_at (pci_dev d') c /\ at_ (pci_dev d') rest' /\ pci_advance d' = true
    end.
Proof.
  induction rest as [|c rest IH]; intros d w fuel Hh Ha Ht Hr Hf; (destruct fuel as [|fuel]; [lia|]);
    cbn [loop next_working]; unfold pci_round at 1; rewrite Ha; apply Z.eqb_neq in Hh; rewrite Hh; cbn [negb andb];
    pose proof (scan_at_next config_byte config_dword pci_drivers type One (pci_dev d) _ Hr) as S; cbv zeta in S;
    rewrite Ht; set (q := scan_pci_bus _ _ _ _ _) in *; cbn [pci_dev set_pci].
  - rewrite S. do 3 eexists. split; [reflexivity|]. cbn. auto.
  - destruct c as ((b, f), k). destruct S as (Iq & Aq). pose proof Iq as (Eb & Ef & Ek). rewrite Ek.
    cbn [pci_dev set_ids set_pci]. match goal with |- context [pci_try k q ?ix w] => destruct (Hp k q ix w) as (w' & E); rewrite E end.
    rewrite Eb, Ef.
    destruct (works (b, f, k)).
    + do 3 eexists. split; [reflexivity|]. cbn [dtype to_probe pci_dev pci_advance set_pci set_ids]. repeat split; try assumption; apply Aq.
    + set (d1 := set_pci q true (-1) (set_ids _ _ _ _ _)).
      destruct (IH d1 w' fuel) as (r & d' & w2 & E2 & T1 & T2 & P); [subst d1; cbn [how set_pci set_ids]; apply Z.eqb_neq; exact Hh|reflexivity|exact Ht|exact Aq|cbn [length] in Hf; lia|].
      exists r, d', w2. split; [exact E2|]. split; [rewrite T1; exact Ht|]. split; [exact T2|]. exact P.
Qed.

(** The drivers for the ISA bus from number [i] on. *)
Definition is_isa (j : nat) : bool := match nth_error isa_drivers j with Some v => i_type v =? type | None => false end.
Definition isa_from (i : nat) : list nat := filter is_isa (seq i (length isa_drivers - i)).
Definition isa_pos (d : pdev) : nat := if isa_advance d then S (isa_cur d) else isa_cur d.
Lemma isa_from_step i : isa_from i = if (i <? length isa_drivers)%nat then (if is_isa i then [i] else []) ++ isa_from (S i) else [].
Proof.
  unfold isa_from. destruct (Nat.ltb_spec i (length isa_drivers)) as [Hl|Hl].
  - replace (length isa_drivers - i)%nat with (S (length isa_drivers - S i)) by lia. cbn [seq filter].
    destruct (is_isa i); reflexivity.
  - replace (length isa_drivers - i)%nat with O by lia. reflexivity.
Qed.
Lemma isa_rounds n : forall d w fuel, how d <> AWAKE -> dtype d = type -> (length isa_drivers - isa_pos d = n)%nat ->
  (isa_advance d = false -> isa_cur d = 0%nat) -> (n < fuel)%nat ->
  exists r d' w', loop fuel (isa_round isa_drivers isa_try) (d, w) = Some (r, d', w') /\
    dtype d' = dtype d /\ to_probe d' = to_probe d /\
    match next_working isa_works (isa_from (isa_pos d)) with
    | None => r = FAILED
    | Some (k, rest') => r = WORKED /\ isa_cur d' = k /\ isa_advance d' = true /\ rest' = isa_from (S k)
    end.
Proof.
  induction n as [|n IH]; intros d w fuel Hh Ht Hn Hz Hf; (destruct fuel as [|fuel]; [lia|]);
    cbn [loop]; unfold isa_round at 1; apply Z.eqb_neq in Hh; rewrite Hh; cbn [negb andb];
    set (d0 := if isa_advance d then _ else _);
    assert (C0 : isa_cur d0 = isa_pos d) by (subst d0; unfold isa_pos; destruct (isa_advance d); reflexivity);
    assert (T0 : dtype d0 = type) by (subst d0; destruct (isa_advance d); exact Ht);
    assert (H0 : (how d0 =? AWAKE) = false) by (subst d0; destruct (isa_advance d); exact Hh);
    assert (A0 : isa_advance d0 = true) by (subst d0; destruct (isa_advance d); reflexivity);
    assert (P0 : to_probe d0 = to_probe d) by (subst d0; destruct (isa_advance d); reflexivity);
    rewrite C0; set (i := isa_pos d) in *; rewrite isa_from_step.
  - assert (E : nth_error isa_drivers i = None) by (apply nth_error_None; lia). rewrite E.
    destruct (Nat.ltb_spec i (length isa_drivers)); [lia|]. do 3 eexists. split; [reflexivity|]. cbn [next_working]. repeat split; congruence.
  - destruct (Nat.ltb_spec i (length isa_drivers)) as [Hl|]; [|lia].
    destruct (nth_error isa_drivers i) as [v|] eqn:E; [|apply nth_error_None in E; lia].
    unfold is_isa. rewrite E, T0. destruct (Z.eqb_spec (i_type v) type) as [Hv|Hv]; cbn [negb].
    + rewrite H0. cbn [negb]. cbn [dindex set_ids isa_cur]. rewrite C0.
      destruct (Hi i (dindex d0) w) as (w' & Ew). rewrite Ew. cbn [app next_working]. destruct (isa_works i).
      * do 3 eexists. split; [reflexivity|]. cbn [dtype to_probe isa_cur isa_advance set_isa set_ids]. repeat split; congruence.
      * set (d1 := set_isa i true (-1) _).
        destruct (IH d1 w' fuel) as (r & d' & w2 & E2 & T1 & T2 & P);
          [subst d1; cbn [how set_isa set_ids]; apply Z.eqb_neq; exact H0|exact T0|subst d1; unfold isa_pos; cbn [isa_cur isa_advance set_isa]; lia|discriminate|lia|].
        exists r, d', w2. split; [exact E2|]. split; [rewrite T1; cbn; congruence|]. split; [rewrite T2; cbn; congruence|].
        subst d1. unfold isa_pos in P. cbn [isa_cur isa_advance set_isa] in P. exact P.
    + cbn [app]. destruct (IH d0 w fuel) as (r & d' & w2 & E2 & T1 & T2 & P);
        [apply Z.eqb_neq; exact H0|exact T0|unfold isa_pos; rewrite A0, C0; lia|congruence|lia|].
      exists r, d', w2. split; [exact E2|]. split; [congruence|]. split; [congruence|].
      unfold isa_pos in P. rewrite A0, C0 in P. exact P.
Qed.

Lemma next_working_filter {A} (f : A -> bool) l :
  match next_working f l with
  | Some (x, r) => filter f l = x :: filter f r /\ (length r < length l)%nat
  | None => filter f l = []
  end.
Proof.
  induction l as [|x l IH]; cbn [next_working filter]; [reflexivity|]. destruct (f x); [cbn [length]; auto with arith|].
  destruct (next_working f l) as [(y, r)|]; [|exact IH]. destruct IH as (E & H). cbn [length]. auto with arith.
Qed.

Definition pci_start (d : pdev) (rest : list (Z * Z * nat)) : Prop :=
  (how d = FIRST /\ use_specified (pci_dev d) = false /\ rest = devs) \/
  (how d = NEXT /\ pci_advance d = true /\ at_ (pci_dev d) rest).
Lemma pci_probe_spec d w rest fuel : pci_start d rest -> dtype d = type -> (length rest < fuel)%nat ->
  exists r d' w', pci_probe config_byte config_dword pci_drivers pci_try fuel d w = Some (r, d', w') /\
    dtype d' = type /\ to_probe d' = to_probe d /\
    match next_working works rest with
    | None => r = FAILED
    | Some (c, rest') => r = WORKED /\ is_at (pci_dev d') c /\ at_ (pci_dev d') rest' /\ pci_advance d' = true
    end.
Proof.
  intros [(Hh & Hu & ->)|(Hh & Ha & Hr)] Ht Hf; unfold pci_probe; rewrite Hh.
  - cbn [Z.eqb FIRST Pos.eqb]. set (d1 := set_pci _ true (-1) d).
    destruct (pci_rounds devs d1 w fuel) as (r & d' & w' & E & T1 & T2 & P).
    + subst d1. cbn [how set_pci]. rewrite Hh. discriminate.
    + reflexivity.
    + exact Ht.
    + split; [exact Hu|reflexivity].
    + exact Hf.
    + exists r, d', w'. split; [exact E|]. split; [rewrite T1; exact Ht|]. split; [exact T2|exact P].
  - change (NEXT =? FIRST) with false. cbv iota.
    destruct (pci_rounds rest d w fuel) as (r & d' & w' & E & T1 & T2 & P); [rewrite Hh; discriminate|assumption..|].
    exists r, d', w'. split; [exact E|]. split; [congruence|]. split; [exact T2|exact P].
Qed.
Definition isa_start (d : pdev) (i : nat) : Prop :=
  (how d = FIRST /\ i = 0%nat) \/ (how d = NEXT /\ isa_advance d = true /\ i = S (isa_cur d)).
Lemma isa_probe_spec d w i fuel : isa_start d i -> dtype d = type -> (length isa_drivers < fuel)%nat ->
  exists r d' w', isa_probe isa_drivers isa_try fuel d w = Some (r, d', w') /\
    dtype d' = type /\ to_probe d' = to_probe d /\
    match next_working isa_works (isa_from i) with
    | None => r = FAILED
    | Some (k, rest') => r = WORKED /\ isa_cur d' = k /\ isa_advance d' = true /\ rest' = isa_from (S k)
    end.
Proof.
  intros [(Hh & ->)|(Hh & Ha & ->)] Ht Hf; unfold isa_probe; rewrite Hh.
  - change (FIRST =? FIRST) with true. cbv iota. set (d1 := set_isa 0 false (-1) d).
    destruct (isa_rounds (length isa_drivers - isa_pos d1) d1 w fuel) as (r & d' & w' & E & T1 & T2 & P); [|exact Ht|reflexivity|reflexivity| |].
    + subst d1. cbn [how set_isa]. rewrite Hh. discriminate.
    + unfold isa_pos. subst d1. cbn [isa_advance isa_cur set_isa]. lia.
    + exists r, d', w'. split; [exact E|]. split; [rewrite T1; exact Ht|]. split; [exact T2|exact P].
  - change (NEXT =? FIRST) with false. cbv iota.
    destruct (isa_rounds (length isa_drivers - isa_pos d) d w fuel) as (r & d' & w' & E & T1 & T2 & P); [|exact Ht|reflexivity|congruence| |].
    + rewrite Hh. discriminate.
    + lia.
    + exists r, d', w'. split; [exact E|]. split; [congruence|]. split; [exact T2|]. unfold isa_pos in P. rewrite Ha in P. exact P.
Qed.

(** What a probe found, and the probes of one type of device, first and next, until one fails. *)
Inductive found := OnPci (c : Z * Z * nat) | OnIsa (k : nat).
Definition where_found (d : pdev) : found :=
  if to_probe d =? PROBE_PCI
  then OnPci (p_bus (pci_dev d), p_devfn (pci_dev d), match p_driver (pci_dev d) with Some k => k | None => O end)
  else OnIsa (isa_cur d).
Let probe' := probe config_byte config_dword pci_drivers isa_drivers pci_try isa_try.
Fixpoint probe_all (n fuel : nat) (d : pdev) (w : W) : option (list found) :=
  match n with
  | O => None
  | S n =>
      let* '(r, d, w) := probe' fuel d w in
      if r =? FAILED then Some []
      else let* l := probe_all n fuel (set_how_to NEXT (to_probe d) d) w in Some (where_found d :: l)
  end.
Definition isa_found (i : nat) : list found := map OnIsa (filter isa_works (isa_from i)).
Definition pci_found (rest : list (Z * Z * nat)) : list found := map OnPci (filter works rest).

(** The second half of [probe]. *)
Lemma probe_isa_half d w i fuel : isa_start d i -> dtype d = type -> to_probe d = PROBE_ISA -> (length isa_drivers < fuel)%nat ->
  exists r d' w', (let* '(d, w) := (let* '(r, d, w) := isa_probe isa_drivers isa_try fuel d w in
        Some (set_how_to r (if r =? FAILED then PROBE_NONE else to_probe d) d, w)) in
      let d := if negb (to_probe d =? PROBE_PCI) && negb (to_probe d =? PROBE_ISA) then set_how_to FAILED (to_probe d) d else d in
      Some (how d, d, w)) = Some (r, d', w') /\
    match isa_found i with
    | [] => r = FAILED
    | x :: l => r = WORKED /\ dtype d' = type /\ to_probe d' = PROBE_ISA /\ where_found d' = x /\
        isa_advance d' = true /\ l = isa_found (S (isa_cur d'))
    end.
Proof.
  intros Hs Ht Hto Hf. destruct (isa_probe_spec d w i fuel Hs Ht Hf) as (r & d1 & w1 & E & T1 & T2 & P). rewrite E.
  cbn [obind]. pose proof (next_working_filter isa_works (isa_from i)) as F. unfold isa_found.
  destruct (next_working isa_works (isa_from i)) as [(k, rest)|].
  - destruct P as (-> & Ek & Ea & ->). change (WORKED =? FAILED) with false. cbv iota. cbn [to_probe set_how_to].
    rewrite T2, Hto. change (PROBE_ISA =? PROBE_PCI) with false. change (PROBE_ISA =? PROBE_ISA) with true. cbn [negb andb].
    do 3 eexists. split; [reflexivity|]. destruct F as (-> & _). cbn [map dtype to_probe isa_advance isa_cur set_how_to].
    unfold where_found. cbn [to_probe isa_cur set_how_to]. change (PROBE_ISA =? PROBE_PCI) with false. cbv iota.
    repeat split; try assumption; now rewrite Ek.
  - subst r. change (FAILED =? FAILED) with true. cbv iota. cbn [to_probe set_how_to]. do 3 eexists. split; [reflexivity|].
    rewrite F. reflexivity.
Qed.

Lemma probe_next_isa d w fuel : how d = NEXT -> dtype d = type -> to_probe d = PROBE_ISA -> isa_advance d = true ->
  (length isa_drivers < fuel)%nat ->
  exists r d' w', probe' fuel d w = Some (r, d', w') /\
    match isa_found (S (isa_cur d)) with
    | [] => r = FAILED
    | x :: l => r = WORKED /\ dtype d' = type /\ to_probe d' = PROBE_ISA /\ where_found d' = x /\
        isa_advance d' = true /\ l = isa_found (S (isa_cur d'))
    end.
Proof.
  intros Hh Ht Hto Ha Hf. unfold probe', probe. rewrite Hh. change (NEXT =? FIRST) with false. cbv iota. rewrite Hto.
  change (PROBE_ISA =? PROBE_PCI) with false. cbv iota. cbn [obind]. rewrite Hto. change (PROBE_ISA =? PROBE_ISA) with true. cbv iota.
  apply probe_isa_half; auto. right. auto.
Qed.
Lemma probe_pci_half d w rest fuel : pci_start d rest -> dtype d = type -> to_probe d = PROBE_PCI ->
  (length rest < fuel)%nat -> (length isa_drivers < fuel)%nat ->
  exists r d' w', (let* '(d, w) := (let* '(r, d, w) := pci_probe config_byte config_dword pci_drivers pci_try fuel d w in
        Some (set_how_to r (if r =? FAILED then PROBE_ISA else to_probe d) d, w)) in
      let* '(d, w) :=
        if to_probe d =? PROBE_ISA then
          let* '(r, d, w) := isa_probe isa_drivers isa_try fuel d w in
          Some (set_how_to r (if r =? FAILED then PROBE_NONE else to_probe d) d, w)
        else Some (d, w) in
      let d := if negb (to_probe d =? PROBE_PCI) && negb (to_probe d =? PROBE_ISA) then set_how_to FAILED (to_probe d) d else d in
      Some (how d, d, w)) = Some (r, d', w') /\
    match pci_found rest with
    | x :: l => r = WORKED /\ dtype d' = type /\ to_probe d' = PROBE_PCI /\ where_found d' = x /\
        pci_advance d' = true /\ exists rest', at_ (pci_dev d') rest' /\ l = pci_found rest' /\ (length rest' < length rest)%nat
    | [] =>
        match isa_found 0 with
        | [] => r = FAILED
        | x :: l => r = WORKED /\ dtype d' = type /\ to_probe d' = PROBE_ISA /\ where_found d' = x /\
            isa_advance d' = true /\ l = isa_found (S (isa_cur d'))
        end
    end.
Proof.
  intros Hs Ht Hto Hf Hf2. destruct (pci_probe_spec d w rest fuel Hs Ht Hf) as (r & d1 & w1 & E & T1 & T2 & P). rewrite E.
  cbn [obind]. pose proof (next_working_filter works rest) as F. unfold pci_found.
  destruct (next_working works rest) as [(((b, f), k), rest')|].
  - destruct P as (-> & Ek & Ea & Ad). change (WORKED =? FAILED) with false. cbv iota. cbn [to_probe set_how_to].
    rewrite T2, Hto. change (PROBE_PCI =? PROBE_ISA) with false. cbv iota. cbn [obind to_probe set_how_to].
    change (PROBE_PCI =? PROBE_PCI) with true. cbn [negb andb].
    do 3 eexists. split; [reflexivity|]. destruct F as (-> & Hl). cbn [map dtype to_probe pci_advance pci_dev set_how_to].
    unfold where_found. cbn [to_probe pci_dev set_how_to]. change (PROBE_PCI =? PROBE_PCI) with true. cbv iota.
    destruct Ek as (-> & -> & ->). split; [reflexivity|]. split; [exact T1|]. split; [reflexivity|]. split; [reflexivity|].
    split; [exact Ad|]. exists rest'. auto.
  - subst r. change (FAILED =? FAILED) with true. cbv iota. cbn [to_probe set_how_to]. change (PROBE_ISA =? PROBE_ISA) with true.
    cbv iota. rewrite F. cbn [map]. apply probe_isa_half; [left; auto|exact T1|reflexivity|exact Hf2].
Qed.

(** The probes that follow, in each of the two phases. *)
Lemma probe_all_isa fuel : (length isa_drivers < fuel)%nat -> forall l d w n,
  how d = NEXT -> dtype d = type -> to_probe d = PROBE_ISA -> isa_advance d = true -> isa_found (S (isa_cur d)) = l ->
  (length l < n)%nat -> probe_all n fuel d w = Some l.
Proof.
  intros Hf. induction l as [|x l IH]; intros d w n Hh Ht Hto Ha El Hn; (destruct n as [|n]; [lia|]); cbn [probe_all];
    destruct (probe_next_isa d w fuel Hh Ht Hto Ha Hf) as (r & d' & w' & E & P); rewrite E; cbn [obind]; rewrite El in P.
  - now rewrite P.
  - destruct P as (-> & T1 & T2 & Hw & Ha' & ->). change (WORKED =? FAILED) with false. cbv iota.
    rewrite IH; [cbn [obind]; now rewrite Hw|reflexivity|exact T1|exact T2|exact Ha'|reflexivity|cbn [length] in Hn; lia].
Qed.
Lemma probe_all_pci fuel : (length isa_drivers < fuel)%nat -> forall l d w n rest,
  how d = NEXT -> dtype d = type -> to_probe d = PROBE_PCI -> pci_advance d = true -> at_ (pci_dev d) rest ->
  pci_found rest = l -> (length rest < fuel)%nat -> (length l + length (isa_found 0) < n)%nat ->
  probe_all n fuel d w = Some (l ++ isa_found 0).
Proof.
  intros Hf. induction l as [|x l IH]; intros d w n rest Hh Ht Hto Ha Hr El Hl Hn; (destruct n as [|n]; [lia|]); cbn [probe_all];
    (destruct (probe_pci_half d w rest fuel) as (r & d' & w' & E & P); [right; auto|assumption..|]);
    unfold probe', probe; rewrite Hh; change (NEXT =? FIRST) with false; cbv iota; rewrite Hto;
    change (PROBE_PCI =? PROBE_PCI) with true; cbv iota; cbv zeta in E |- *; rewrite E; cbn [obind]; rewrite El in P.
  - destruct (isa_found 0) as [|y li] eqn:Ei; [now rewrite P|]. destruct P as (-> & T1 & T2 & Hw & Ha' & ->).
    change (WORKED =? FAILED) with false. cbv iota. cbn [app length] in *.
    erewrite probe_all_isa; [cbn [obind]; now rewrite Hw|exact Hf|reflexivity|exact T1|exact T2|exact Ha'|reflexivity|lia].
  - destruct P as (-> & T1 & T2 & Hw & Ha' & rest' & Hr' & -> & Hs). change (WORKED =? FAILED) with false. cbv iota.
    cbn [app length] in *. erewrite IH; [cbn [obind]; now rewrite Hw|reflexivity|exact T1|exact T2|exact Ha'|exact Hr'|reflexivity|lia|lia].
Qed.
Lemma probe_all_first fuel d w n : (length isa_drivers < fuel)%nat -> (length devs < fuel)%nat ->
  how d = FIRST -> dtype d = type -> (length (pci_found devs) + length (isa_found 0) < n)%nat ->
  probe_all n fuel d w = Some (pci_found devs ++ isa_found 0).
Proof.
  intros Hf Hf2 Hh Ht Hn. destruct n as [|n]; [lia|]. cbn [probe_all]. unfold probe', probe. rewrite Hh.
  change (FIRST =? FIRST) with true. cbv iota. set (d1 := set_isa 0 false _ _).
  destruct (probe_pci_half d1 w devs fuel) as (r & d' & w' & E & P);
    [left; repeat split|exact Ht|reflexivity|exact Hf2|exact Hf|].
  change (to_probe d1 =? PROBE_PCI) with true. cbv iota. cbv zeta in E |- *. rewrite E. cbn [obind]. destruct (pci_found devs) as [|x l] eqn:El.
  - destruct (isa_found 0) as [|y li] eqn:Ei; [now rewrite P|]. destruct P as (-> & T1 & T2 & Hw & Ha' & ->).
    change (WORKED =? FAILED) with false. cbv iota. cbn [app length] in *.
    erewrite probe_all_isa; [cbn [obind]; now rewrite Hw|exact Hf|reflexivity|exact T1|exact T2|exact Ha'|reflexivity|lia].
  - destruct P as (-> & T1 & T2 & Hw & Ha' & rest' & Hr' & -> & Hs). change (WORKED =? FAILED) with false. cbv iota.
    cbn [app length] in *. erewrite probe_all_pci; [cbn [obind]; now rewrite Hw|exact Hf|reflexivity|exact T1|exact T2|exact Ha'|exact Hr'|reflexivity|lia|lia].
Qed.
End probing.

(** ** Properties *)

(** The functions that the scan looks at: of each of the 256 buses the 32 devices with 8 functions each, but for the very last,
    function 7 of device 31, which the bound of the loop leaves out. *)
Definition pci_functions : list (Z * Z) :=
  list_prod (map Z.of_nat (seq 0 256)) (filter (fun devfn => negb (devfn =? 8 * 31 + 7)) (map Z.of_nat (seq 0 256))).
(** Those that a driver claims, each with the driver. *)
Definition claimed (config_byte config_dword : Z -> Z -> Z -> Z) (pci_drivers : list pci_driver) (type : Z) : list (Z * Z * nat) :=
  flat_map (fun '(bus, devfn) => match driver_of config_byte config_dword pci_drivers type bus devfn with Some k => [(bus, devfn, k)] | None => [] end) pci_functions.
Lemma devices_claimed config_byte config_dword pci_drivers type :
  devices config_byte config_dword pci_drivers type = claimed config_byte config_dword pci_drivers type.
Proof.
  set (f := fun bus devfn => match driver_of config_byte config_dword pci_drivers type bus devfn with Some k => [(bus, devfn, k)] | None => [] end).
  assert (Hf : forall n bus k, devices_fns config_byte config_dword pci_drivers type n bus (Z.of_nat k) = flat_map (f bus) (map Z.of_nat (seq k n))).
  { induction n as [|n IH]; intros bus k; cbn [devices_fns seq map flat_map]; [reflexivity|]. unfold f at 1. f_equal.
    replace (Z.of_nat k + 1) with (Z.of_nat (S k)) by lia. apply IH. }
  assert (Hb : forall n k, devices_buses config_byte config_dword pci_drivers type n (Z.of_nat k) =
    flat_map (fun bus => flat_map (f bus) (map Z.of_nat (seq 0 255))) (map Z.of_nat (seq k n))).
  { induction n as [|n IH]; intros k; cbn [devices_buses map]; [reflexivity|]. change 0 with (Z.of_nat 0). rewrite (Hf 255%nat _ 0%nat). cbn [seq map flat_map]. f_equal.
    replace (Z.of_nat k + 1) with (Z.of_nat (S k)) by lia. apply IH. }
  unfold devices. change 0 with (Z.of_nat 0). rewrite (Hb 256%nat 0%nat). unfold claimed, pci_functions.
  replace (filter _ (map Z.of_nat (seq 0 256))) with (map Z.of_nat (seq 0 255)) by (vm_compute; reflexivity).
  generalize (map Z.of_nat (seq 0 255)) (map Z.of_nat (seq 0 256)). intros fs bs. induction bs as [|x bs IH]; cbn [list_prod flat_map]; [reflexivity|].
  rewrite flat_map_app. f_equal; [|exact IH]. clear. induction fs as [|y fs IH]; cbn [map flat_map]; [reflexivity|]. now f_equal.
Qed.

(** C30: Probing finds every device once, but for one place.  The first probe of a type of device and the next ones give in
    turn the PCI functions that a driver claims and that work, in the order of the bus, each with the driver
    that claims it, and then the ISA drivers that find their card, in the order of their table; and then a
    probe fails.  The functions looked at are all those of the 256 buses but function 7 of device 31 of each.  It takes that no
    function is claimed by two drivers ([one_driver]; two drivers for one class stop the search, [pci_class_cycle]), and that each
    device works or does not, whenever it is tried. *)
Theorem probe_finds_all config_byte config_dword pci_drivers isa_drivers {W} pci_try isa_try works isa_works fuel d (w : W) :
  let devs := claimed config_byte config_dword pci_drivers (dtype d) in
  let all := map OnPci (filter works devs) ++ map OnIsa (filter isa_works (isa_from isa_drivers (dtype d) 0)) in
  one_driver config_dword pci_drivers (dtype d) -> tries_pci pci_try works -> tries_isa isa_try isa_works ->
  how d = FIRST -> (length devs < fuel)%nat -> (length isa_drivers < fuel)%nat ->
  probe_all config_byte config_dword pci_drivers isa_drivers pci_try isa_try (S (length all)) fuel d w = Some all.
Proof.
  intros devs all One Hp Hi Hh Hf1 Hf2. unfold all, devs in *. rewrite <- devices_claimed in *.
  apply (probe_all_first config_byte config_dword pci_drivers isa_drivers pci_try isa_try (dtype d) works isa_works One Hp Hi);
    auto. unfold pci_found, isa_found. rewrite length_app. lia.
Qed.

(** A bus with a card of two functions in slot 1 and another in slot 3, and two drivers. *)
Definition bench_byte (b f r : Z) : Z := if (b =? 0) && (f =? 8) && (r =? PCI_HEADER_TYPE) then 0x80 else 0.
Definition bench_dword (b f r : Z) : Z :=
  if negb (b =? 0) then 0xffffffff
  else if r =? PCI_VENDOR_ID then
    (if f =? 8 then 0x10018086 else if f =? 9 then 0x10028086 else if f =? 24 then 0x900010ec else 0xffffffff)
  else if r =? PCI_REVISION then 0x02000000
  else 0.
Definition bench_drivers : list pci_driver :=
  [{| d_type := 0; d_ids := [(0x8086, 0x1001); (0x8086, 0x1002)]; d_class := 0 |};
   {| d_type := 0; d_ids := [(0x10ec, 0x9000)]; d_class := 0 |}].
Definition bench_dev : pdev :=
  {| dtype := 0; how := FIRST; to_probe := 0; dindex := 0; tindex := 0; devid_bus := 0; devid_vendor := 0; devid_device := 0;
     pci_dev := no_pci_device; pci_advance := false; isa_cur := 0; isa_advance := false |}.
Lemma probe_finds_all_witness :
  probe_all bench_byte bench_dword bench_drivers [{| i_type := 1; i_ioaddrs := 0 |}; {| i_type := 0; i_ioaddrs := 0 |}]
    (fun k p _ w => (negb (p_devfn p =? 9), -1, w)) (fun _ _ w => (true, -1, w)) 4 10 bench_dev tt
  = Some [OnPci (0, 8, 0%nat); OnPci (0, 24, 1%nat); OnIsa 1].
Proof.
  pose proof (probe_finds_all bench_byte bench_dword bench_drivers [{| i_type := 1; i_ioaddrs := 0 |}; {| i_type := 0; i_ioaddrs := 0 |}]
    (fun k p _ (w : unit) => (negb (p_devfn p =? 9), -1, w)) (fun _ _ w => (true, -1, w))
    (fun c => negb (snd (fst c) =? 9)) (fun _ => true) 10 bench_dev tt) as P.
  assert (D : claimed bench_byte bench_dword bench_drivers 0 = [(0, 8, 0%nat); (0, 9, 0%nat); (0, 24, 1%nat)]) by (vm_compute; reflexivity).
  cbn [dtype bench_dev] in P. rewrite D in P. apply P.
  - intros bus devfn i j di dj Ei Ej Mi Mj. destruct i as [|[|i]]; [| |destruct i; discriminate];
      (destruct j as [|[|j]]; [| |destruct j; discriminate]); try reflexivity; exfalso;
      injection Ei as <-; injection Ej as <-; unfold matches in Mi, Mj; cbn [d_type d_class d_ids bench_drivers Z.eqb andb] in Mi, Mj.
    all: revert Mi Mj; unfold has_id, class_of, vendor_of; cbn [existsb d_ids fst snd]; unfold bench_dword.
    all: change (PCI_REVISION =? PCI_VENDOR_ID) with false; destruct (bus =? 0); cbn [negb].
    all: cbv iota; case_tests; intros Mi Mj; lia || discriminate.
  - intros k p ix w. exists w. reflexivity.
  - intros k ix w. exists w. reflexivity.
  - reflexivity.
  - cbn. lia.
  - cbn. lia.
Defined.

(** Two drivers for the class of a device stop the search.  When two drivers of a type claim a function by its
    class, and none by its identity, the search for the next device gives the one and the other in turn and
    never leaves the function: no device behind it is ever probed. *)
Theorem pci_class_cycle config_byte config_dword d0 d1 type bus devfn p n :
  visible config_byte config_dword bus devfn = true -> class_of config_dword bus devfn <> 0 ->
  d_type d0 = type -> d_type d1 = type ->
  d_class d0 = Z.shiftr (class_of config_dword bus devfn) 8 -> d_class d1 = Z.shiftr (class_of config_dword bus devfn) 8 ->
  has_id (vendor_of config_dword bus devfn) (device_of config_dword bus devfn) d0 = false ->
  has_id (vendor_of config_dword bus devfn) (device_of config_dword bus devfn) d1 = false ->
  0 <= bus < 256 -> 0 <= devfn < 255 -> is_at p (bus, devfn, 0%nat) ->
  is_at (Nat.iter n (scan_pci_bus config_byte config_dword [d0; d1] type) p) (bus, devfn, if Nat.even n then 0%nat else 1%nat).
Proof.
  intros Hv Hc T0 T1 C0 C1 I0 I1 Hb Hf Hp.
  assert (Step : forall q k, is_at q (bus, devfn, k) -> (k < 2)%nat ->
    is_at (scan_pci_bus config_byte config_dword [d0; d1] type q) (bus, devfn, 1 - k)%nat).
  { intros q k (Eb & Ef & Ek) Hk. unfold scan_pci_bus. rewrite Ek, Eb, Ef.
    replace (Z.to_nat (256 - bus)) with (S (Z.to_nat (255 - bus))) by lia. cbn [scan_buses].
    replace (Z.to_nat (255 - devfn)) with (S (Z.to_nat (254 - devfn))) by lia.
    fold (header_of config_byte bus devfn). rewrite scan_functions_step by (intros _; reflexivity). rewrite Hv.
    assert (E : scan_drivers [d0; d1] type (class_of config_dword bus devfn) (vendor_of config_dword bus devfn)
                  (device_of config_dword bus devfn) (Some k) = Some (1 - k)%nat).
    { unfold scan_drivers. apply Z.eqb_neq in Hc. cbn [scan_ids]. rewrite T0, T1, Z.eqb_refl. cbn [negb].
      destruct k as [|[|k]]; [| |lia]; cbn [Nat.eqb]; rewrite ?I0, ?I1, Hc; cbn [scan_class];
        rewrite T0, T1, Z.eqb_refl, C0, C1, Z.eqb_refl; reflexivity. }
    rewrite E. repeat split. }
  induction n as [|n IH]; [exact Hp|]. rewrite Nat.iter_succ. apply Step in IH; [|destruct (Nat.even n); lia].
  rewrite Nat.even_succ, <- Nat.negb_even. destruct (Nat.even n); exact IH.
Qed.
Lemma pci_class_cycle_witness :
  let d := {| d_type := 0; d_ids := []; d_class := 0x200 |} in
  let p := {| p_class := 0; p_vendor := 0; p_dev_id := 0; p_membase := 0; p_ioaddr := 0; p_romaddr := 0; p_irq := 0;
              p_devfn := 8; p_bus := 0; use_specified := false; p_driver := Some 0%nat |} in
  is_at (Nat.iter 7 (scan_pci_bus bench_byte bench_dword [d; d] 0) p) (0, 8, 1%nat).
Proof.
  intros d p. apply (pci_class_cycle bench_byte bench_dword d d 0 0 8 p 7); first [reflexivity | lia | vm_compute; discriminate | repeat split].
Defined.

(** A device that does not wake up is woken for ever.  With [AWAKE] the loop neither looks for another
    device nor gives up: when the driver reports that its device is not there, [pci_probe] never returns,
    so that the failure its caller tests for cannot be seen. *)
Theorem awake_probe_hangs config_byte config_dword pci_drivers {W} (pci_try : nat -> pci_device -> Z -> W -> bool * Z * W) fuel d w k :
  how d = AWAKE -> p_driver (pci_dev d) = Some k -> (forall p ix w, fst (fst (pci_try k p ix w)) = false) ->
  pci_probe config_byte config_dword pci_drivers pci_try fuel d w = None.
Proof.
  intros Hh Hk Ht. unfold pci_probe. rewrite Hh. change (AWAKE =? FIRST) with false. cbv iota.
  revert d w Hh Hk. induction fuel as [|fuel IH]; intros d w Hh Hk; [reflexivity|]. cbn [loop]. unfold pci_round at 1.
  rewrite Hh. change (AWAKE =? AWAKE) with true. cbn [negb andb pci_dev set_pci]. rewrite Hk. cbn [pci_dev set_ids set_pci how].
  match goal with |- context [pci_try k (pci_dev d) ?ix w] => pose proof (Ht (pci_dev d) ix w) as E; destruct (pci_try k (pci_dev d) ix w) as ((ok, ix'), w') end.
  cbn [fst] in E. subst ok. apply IH; [exact Hh|exact Hk].
Qed.
Lemma awake_probe_hangs_witness :
  pci_probe bench_byte bench_dword bench_drivers (fun _ _ ix (w : unit) => (false, ix, w)) 100
    (set_how_to AWAKE PROBE_PCI (set_pci {| p_class := 0; p_vendor := 0; p_dev_id := 0; p_membase := 0; p_ioaddr := 0;
       p_romaddr := 0; p_irq := 0; p_devfn := 8; p_bus := 0; use_specified := false; p_driver := Some 0%nat |} true (-1) bench_dev)) tt = None.
Proof. apply (awake_probe_hangs bench_byte bench_dword bench_drivers _ 100 _ tt 0%nat); reflexivity. Defined.
