(* ===== verification/Http.v ===== *)
(** The HTTP client of [src/src/core/proto_http.c].

    The state that the two callbacks share, [struct send_recv_state], lies in memory at [hs], with the buffer of
    a block.  The transaction that calls them is an argument; [http] runs them over [tcp_transaction]. *)

From S2P Require Import Prelude Memory StringLib Misc Vsprintf Net Lacp Nic Tftp Tcp.
Import String.StringSyntax.
Local Open Scope etherboot_scope.

Definition MAX_URL : Z := 80.
Definition BLOCKSIZE : Z := 512.
(** The members of the state, the buffer of a block and the request. *)
Definition hs : Z := 0x37000.
Definition send_length_at : Z := hs + 12.
Definition recv_length_at : Z := hs + 16.
Definition bytes_sent_at : Z := hs + 20.
Definition block_at_ : Z := hs + 24.
Definition bytes_received_at : Z := hs + 28.
Definition recv_state_at : Z := hs + 32.
Definition rc_at : Z := hs + 36.
Definition location : Z := hs + 40.
Definition recv_buffer : Z := 0x37400.
Definition send_buffer : Z := 0x37800.
Definition RESULT_CODE : Z := 0.
Definition HEADER : Z := 1.
Definition DATA : Z := 2.
Definition ERROR : Z := 3.
Definition MOVED : Z := 4.
Definition http_eqb (a b : list Z) : bool := if list_eq_dec Z.eq_dec a b then true else false.

(** ** The callbacks *)

Definition send_tcp_request (length buffer : Z) : M Z :=
  w <- get ;;
  let m := mm w in
  let left := geti m send_length_at - geti m bytes_sent_at in
  let length := if length >? left then left else length in
  set_mem (fun m => memcpy m buffer (send_buffer + geti m bytes_sent_at) (Z.to_nat length)) ;;;
  set_mem (fun m => st32 m bytes_sent_at (geti m bytes_sent_at + length)) ;;;
  ret length.

(** The search for the result code in [n] bytes at [buffer]: the code, and where the header goes on; [None] is an error. *)
Fixpoint find_code (fuel : nat) (m : mem) (buffer : Z) (n : nat) : option (option (Z * Z * nat)) :=
  match n with
  | O => Some None
  | S n' =>
      if ld8 m buffer =? 32 then
        let* '(rc, ptr) := strtoul_loop fuel m (buffer + 1) 0 in
        if ptr >=? buffer + Z.of_nat n then Some None else Some (Some (s32 rc, buffer, n))
      else find_code fuel m (buffer + 1) n'
  end.
(** To the beginning of the next line. *)
Fixpoint next_line (m : mem) (buffer : Z) (n : nat) : Z * nat :=
  match n with
  | O => (buffer, O)
  | S n => if ld8 m buffer =? 10 then (buffer + 1, n) else next_line m (buffer + 1) n
  end.
Inductive header_end := HMoved (buffer : Z) | HData (buffer : Z) (n : nat) | HMore.
(** The lines of the header in [n] bytes at [buffer]; each round takes one byte at least. *)
Fixpoint header_lines (fuel : nat) (m : mem) (rc buffer : Z) (n : nat) : header_end :=
  match fuel with
  | O => HMore
  | S f =>
      match n with
      | O => HMore
      | _ =>
          if (rc >=? 300) && (rc <? 400) && http_eqb (ldn m buffer 10) (txt "Location: "%string) then HMoved buffer
          else
            let '(buffer, n) := next_line m buffer n in
            if (2 <=? n)%nat && http_eqb (ldn m buffer 2) [13; 10] then HData (buffer + 2) (n - 2)
            else header_lines f m rc buffer n
      end
  end.
(** The URL of a redirection ends at the first character up to a space. *)
Fixpoint end_location (n : nat) (m : mem) (ptr : Z) : Z :=
  match n with
  | O => ptr
  | S n => if s8 (ld8 m ptr) >? 32 then end_location n m (ptr + 1) else ptr
  end.
Definition moved (m : mem) (buffer : Z) : mem :=
  let m := memcpy m location (buffer + 10) (Z.to_nat MAX_URL) in
  st32 (st8 m (end_location (Z.to_nat MAX_URL) m location) 0) recv_state_at MOVED.

Section http.
Context (fnc : Z -> Z -> Z -> bool -> M Z).
(** The contents, a block at a time; a round takes one byte at least. *)
Fixpoint data_loop (fuel : nat) (buffer length : Z) : M Z :=
  match fuel with
  | O => oof
  | S f =>
      if length <=? 0 then ret 1
      else
        w <- get ;;
        let recv_length := geti (mm w) recv_length_at in
        let copy_length := if BLOCKSIZE - recv_length >? length then length else BLOCKSIZE - recv_length in
        set_mem (fun m => memcpy m (recv_buffer + recv_length) buffer (Z.to_nat copy_length)) ;;;
        store32 recv_length_at (recv_length + copy_length) ;;;
        (if recv_length + copy_length =? BLOCKSIZE then
           set_mem (fun m => st32 m block_at_ (geti m block_at_ + 1)) ;;;
           w <- get ;;
           r <- fnc recv_buffer (geti (mm w) block_at_) BLOCKSIZE false ;;
           if r =? 0 then ret 0
           else store32 recv_length_at 0 ;;; data_loop f (buffer + copy_length) (length - copy_length)
         else data_loop f (buffer + copy_length) (length - copy_length))
  end.
Definition recv_data (length buffer : Z) : M Z :=
  set_mem (fun m => st32 m bytes_received_at (geti m bytes_received_at + length)) ;;;
  data_loop (S (Z.to_nat length)) buffer length.
Definition recv_header (buffer : Z) (n : nat) : M Z :=
  w <- get ;;
  match header_lines (S n) (mm w) (geti (mm w) rc_at) buffer n with
  | HMoved buffer => set_mem (fun m => moved m buffer) ;;; ret 1
  | HData buffer n => store32 recv_state_at DATA ;;; recv_data (Z.of_nat n) buffer
  | HMore => ret 1
  end.
Definition recv_tcp_request (fuel : nat) (length buffer : Z) : M Z :=
  w <- get ;;
  let state := geti (mm w) recv_state_at in
  if state =? RESULT_CODE then
    r <- of_fuel (find_code fuel (mm w) buffer (Z.to_nat length)) ;;
    match r with
    | None => store32 recv_state_at ERROR ;;; ret 0
    | Some (rc, buffer, n) => store32 rc_at rc ;;; store32 recv_state_at HEADER ;;; recv_header buffer n
    end
  else if state =? HEADER then recv_header buffer (Z.to_nat length)
  else if state =? DATA then recv_data length buffer
  else ret 1.

(** ** [http] *)

(** The transaction: destination, port, and the callbacks. *)
Context (transact : Z -> Z -> (Z -> Z -> M Z) -> (Z -> Z -> M Z) -> M Z).

(** From [first_time]: one request, for a file given by its name. *)
Definition http_get (fuel : nat) (destip : Z) (url : list Z) : M unit :=
  set_mem (fun m => st32 m send_length_at (18 + Z.of_nat (length url))) ;;;
  w <- get ;;
  r <- of_fuel (sprintf (mm w) send_buffer (txt "GET /%s HTTP/1.0"%string ++ [13; 10; 13; 10]) [AStr url]) ;;
  set_mem (fun _ => fst r) ;;;
  store32 bytes_sent_at 0 ;;; store32 bytes_received_at 0 ;;; store32 recv_state_at RESULT_CODE ;;;
  store32 recv_length_at 0 ;;;
  transact destip 80 send_tcp_request (recv_tcp_request fuel) ;;;
  ret tt.
Fixpoint skip_host (fuel : nat) (m : mem) (url : Z) : option Z :=
  match fuel with
  | O => None
  | S n => let c := ld8 m url in if (c =? 0) || (c =? 58) || (c =? 47) then Some url else skip_host n m (url + 1)
  end.
(** Where a redirection leads: the address and the name of the file; [None] is a [break]. *)
Definition redirect (fuel : nat) (m : mem) (destip : Z) : option (option (Z * list Z)) :=
  if negb (http_eqb (ldn m location 7) (txt "http://"%string)) then Some None
  else
    let url := location + 7 in
    let* '(length, ip) := inet_aton fuel m url in
    let destip := match ip with Some ip => ip | None => destip end in
    let* url := if length =? 0 then skip_host fuel m url else Some url in
    let url := url + length in
    let* url :=
      if ld8 m url =? 58 then let* '(_, e) := strtoul_loop fuel m url 0 in Some e else Some url in
    if ld8 m url =? 0 then Some (Some (destip, []))
    else if negb (ld8 m url =? 47) then Some None
    else let* s := read_cstr fuel m (url + 1) in Some (Some (destip, s)).
(** The rest of the rounds, while the answer is a redirection. *)
Fixpoint http_redirects (fuel : nat) (destip : Z) : M unit :=
  match fuel with
  | O => oof
  | S n =>
      w <- get ;;
      if negb (geti (mm w) recv_state_at =? MOVED) then ret tt
      else
        store32 rc_at (-1) ;;; store32 block_at_ 0 ;;;
        w <- get ;;
        r <- of_fuel (redirect fuel (mm w) destip) ;;
        match r with
        | None => ret tt
        | Some (destip, url) => http_get fuel destip url ;;; http_redirects n destip
        end
  end.
Definition http_with (fuel : nat) (url : Z) : M Z :=
  store32 rc_at (-1) ;;; store32 block_at_ 0 ;;;
  w <- get ;;
  s <- of_fuel (read_cstr fuel (mm w) url) ;;
  (if Z.of_nat (length s) <=? MAX_URL then
     set_mem (fun m => memcpy m location url (S (length s))) ;;;
     let destip := ipaddr (arp w ARP_SERVER) in
     http_get fuel destip s ;;; http_redirects fuel destip
   else
     set_mem (fun m => st8 (memcpy m location url (Z.to_nat MAX_URL)) (location + MAX_URL) 0)) ;;;
  w <- get ;;
  if geti (mm w) rc_at =? 200 then
    set_mem (fun m => st32 m block_at_ (geti m block_at_ + 1)) ;;;
    w <- get ;;
    fnc recv_buffer (geti (mm w) block_at_) (geti (mm w) recv_length_at) true
  else ret 0.
End http.

(** Over TCP. *)
Definition http `{Env} (fuel rounds : nat) (fnc : Z -> Z -> Z -> bool -> M Z) (url : Z) : M Z :=
  http_with fnc (fun destip port send recv => tcp_transaction send recv fuel destip port rounds) fuel url.

(** ** The contents *)

(** What has been received of the contents: full blocks at [dest], where [store_block] puts them, and the rest in the buffer. *)
Definition body_inv (dest : Z) (m : mem) (body : list Z) : Prop :=
  exists k r : nat, (r < 512)%nat /\ length body = (512 * k + r)%nat /\
    geti m recv_length_at = Z.of_nat r /\ geti m block_at_ = Z.of_nat k /\
    ldn m dest (512 * k) = firstn (512 * k) body /\ ldn m recv_buffer r = skipn (512 * k) body.
(** What the reception of contents leaves alone, below the consumer's memory. *)
Definition kept (m m' : mem) : Prop :=
  forall x, x < 0x37010 \/ 0x37020 <= x < 0x37400 \/ 0x37600 <= x < 0x40000 -> ld8 m' x = ld8 m x.
Lemma kept_trans m1 m2 m3 : kept m1 m2 -> kept m2 m3 -> kept m1 m3.
Proof. intros H1 H2 x Hx. rewrite H2, H1 by exact Hx. reflexivity. Qed.
(** A part of the contents goes behind what is in the buffer. *)
Lemma body_copy m r c buffer part rest :
  (r + c <= 512)%nat -> 0x20000 <= buffer -> buffer + Z.of_nat c <= 0x30000 -> length part = c ->
  ldn m recv_buffer r = rest -> ldn m buffer c = part ->
  let m' := st32 (memcpy m (recv_buffer + Z.of_nat r) buffer c) recv_length_at (Z.of_nat r + Z.of_nat c) in
  ldn m' recv_buffer (r + c) = rest ++ part /\ geti m' recv_length_at = Z.of_nat (r + c) /\
  (forall x, x < recv_length_at \/ recv_length_at + 4 <= x < recv_buffer \/ recv_buffer + 512 <= x -> ld8 m' x = ld8 m x).
Proof.
  intros Hrc Hb1 Hb2 Hp Hr Hb m'.
  assert (Sp : forall x, x < recv_length_at \/ recv_length_at + 4 <= x -> ld8 m' x =
    if (recv_buffer + Z.of_nat r <=? x) && (x <? recv_buffer + Z.of_nat r + Z.of_nat c) then ld8 m (buffer + (x - (recv_buffer + Z.of_nat r))) else ld8 m x).
  { intros x Hx. subst m'. rewrite ld8_st32_ne by lia. apply ld8_memcpy. unfold recv_buffer. lia. }
  split; [|split].
  - rewrite ldn_app. f_equal.
    + rewrite <- Hr. apply ldn_ext. intros x Hx. unfold recv_length_at, hs, recv_buffer in *. rewrite Sp by lia. case_tests; (lia || reflexivity).
    + rewrite <- Hb. rewrite <- (Z.add_0_r (recv_buffer + Z.of_nat r)), <- (Z.add_0_r buffer).
      apply (same_ldn _ _ _ _ (Z.of_nat c)); [|lia|lia]. intros i Hi. unfold recv_length_at, hs, recv_buffer in *. rewrite Sp by lia.
      case_tests; try lia. f_equal. lia.
  - subst m'. rewrite geti_st32 by lia. lia.
  - intros x Hx. rewrite Sp by (unfold recv_length_at, hs, recv_buffer in *; lia). unfold recv_length_at, hs, recv_buffer in *. case_tests; (lia || reflexivity).
Qed.

(** A full buffer goes to its place, and the next block starts. *)
Lemma body_block m dest (k : nat) blk before :
  0x40000 <= dest -> Z.of_nat k < 1048576 -> geti m block_at_ = Z.of_nat k -> ldn m recv_buffer 512 = blk -> ldn m dest (512 * k) = before ->
  let m1 := st32 m block_at_ (Z.of_nat k + 1) in
  let m' := st32 (memcpy m1 (dest + (Z.of_nat k + 1 - 1) * BLOCKSIZE) recv_buffer 512) recv_length_at 0 in
  ldn m' dest (512 * S k) = before ++ blk /\ geti m' block_at_ = Z.of_nat (S k) /\ geti m' recv_length_at = 0 /\ kept m m'.
Proof.
  intros Hd Hk Eb Er Hbf m1 m'. unfold BLOCKSIZE in m'. set (a := dest + (Z.of_nat k + 1 - 1) * 512) in m'.
  assert (Ha : a = dest + Z.of_nat (512 * k)) by (subst a; lia).
  assert (S1 : forall x, x < block_at_ \/ block_at_ + 4 <= x -> ld8 m1 x = ld8 m x) by (intros x Hx; apply ld8_st32_ne; lia).
  assert (Sp : forall x, x < recv_length_at \/ recv_length_at + 4 <= x -> ld8 m' x =
    if (a <=? x) && (x <? a + 512) then ld8 m1 (recv_buffer + (x - a)) else ld8 m1 x).
  { intros x Hx. subst m'. rewrite ld8_st32_ne by lia. apply ld8_memcpy. unfold recv_buffer. lia. }
  assert (K : kept m m').
  { intros x Hx. rewrite Sp, <- S1 by (unfold recv_length_at, block_at_, hs; lia). case_tests; (lia || reflexivity). }
  unfold recv_length_at, block_at_, hs in *. split; [|split; [|split; [|exact K]]].
  - replace (512 * S k)%nat with (512 * k + 512)%nat by lia. rewrite ldn_app. f_equal.
    + rewrite <- Hbf. apply ldn_ext. intros x Hx. rewrite Sp by lia. case_tests; try lia. all: apply S1; lia.
    + rewrite <- Er, <- Ha. rewrite <- (Z.add_0_r a), <- (Z.add_0_r recv_buffer).
      apply (same_ldn _ _ _ _ 512); [|lia|lia]. intros i Hi. unfold recv_buffer in *. rewrite Sp by lia. case_tests; try lia.
      rewrite S1 by lia. f_equal. lia.
  - rewrite (geti_ext m1 m'); [subst m1; rewrite geti_st32 by lia; lia|].
    intros x Hx. rewrite Sp by lia. case_tests; (lia || reflexivity).
  - subst m'. apply geti_st32. lia.
Qed.

Lemma firstn_app_le {A} n (l1 l2 : list A) : (n <= length l1)%nat -> firstn n (l1 ++ l2) = firstn n l1.
Proof. intros H. rewrite firstn_app. replace (n - length l1)%nat with 0%nat by lia. apply app_nil_r. Qed.
Lemma skipn_app_le {A} n (l1 l2 : list A) : (n <= length l1)%nat -> skipn n (l1 ++ l2) = skipn n l1 ++ l2.
Proof. intros H. rewrite skipn_app. replace (n - length l1)%nat with 0%nat by lia. reflexivity. Qed.
(** The contents of a segment. *)
Lemma data_loop_spec dest : 0x40000 <= dest -> forall fuel buffer part w body,
  body_inv dest (mm w) body -> ldn (mm w) buffer (length part) = part -> (length part < fuel)%nat ->
  0x20000 <= buffer -> buffer + Z.of_nat (length part) <= 0x30000 -> Z.of_nat (length body + length part) < 536870912 ->
  exists w', data_loop (store_block dest BLOCKSIZE) fuel buffer (Z.of_nat (length part)) w = Some (Ret 1, w') /\
    body_inv dest (mm w') (body ++ part) /\ kept (mm w) (mm w').
Proof.
  intros Hd. induction fuel as [|fuel IH]; intros buffer part w body Hi Hb Hf Hb1 Hb2 Hs; [lia|]. cbn [data_loop].
  destruct part as [|c0 part0] eqn:Ep; [exists w; rewrite app_nil_r; repeat split; auto|]. rewrite <- Ep in *.
  assert (Hn : (0 < length part)%nat) by (rewrite Ep; cbn; lia). clear Ep c0 part0.
  destruct (Z.leb_spec (Z.of_nat (length part)) 0); [lia|].
  destruct Hi as (k & r & Hr & El & Er & Ek & Hdst & Hbuf). run. cbv zeta. rewrite Er.
  set (c := Nat.min (512 - r) (length part)).
  assert (Ec : (if BLOCKSIZE - Z.of_nat r >? Z.of_nat (length part) then Z.of_nat (length part) else BLOCKSIZE - Z.of_nat r) = Z.of_nat c)
    by (unfold BLOCKSIZE; subst c; rewrite Z.gtb_ltb; case_tests; lia).
  rewrite !Ec.
  rewrite Nat2Z.id. unfold store32. run. cbn [mm set_mm].
  set (p1 := firstn c part). set (p2 := skipn c part).
  assert (Ep : part = p1 ++ p2) by (symmetry; apply firstn_skipn).
  assert (L1 : length p1 = c) by (subst p1; rewrite length_firstn; subst c; lia).
  assert (L2 : length p2 = (length part - c)%nat) by (subst p2; apply length_skipn).
  pose proof Hb as Hb'. rewrite Ep, length_app, ldn_app in Hb'. apply app_split_length in Hb' as (Bp1 & Bp2); [|now rewrite length_ldn].
  rewrite L1 in Bp1, Bp2.
  destruct (body_copy (mm w) r c buffer p1 _ ltac:(subst c; lia) Hb1 ltac:(lia) L1 Hbuf Bp1) as (B1 & B2 & B3).
  set (m2 := st32 _ recv_length_at _) in *.
  assert (Kp : kept (mm w) m2) by (intros x Hx; apply B3; unfold recv_length_at, recv_buffer, hs; lia).
  assert (D2 : ldn m2 dest (512 * k) = firstn (512 * k) body)
    by (rewrite <- Hdst; apply ldn_ext; intros x Hx; apply B3; unfold recv_buffer; lia).
  assert (K2 : geti m2 block_at_ = Z.of_nat k)
    by (rewrite <- Ek; apply geti_ext; intros x Hx; apply B3; unfold recv_length_at, block_at_, recv_buffer, hs in *; lia).
  assert (C2 : ldn m2 (buffer + Z.of_nat c) (length p2) = p2).
  { rewrite <- Bp2 at 2. apply ldn_ext. intros x Hx. apply B3. unfold recv_length_at, hs. lia. }
  assert (Ll : Z.of_nat (length part) - Z.of_nat c = Z.of_nat (length p2)) by lia. rewrite Ll.
  destruct (Z.eqb_spec (Z.of_nat r + Z.of_nat c) BLOCKSIZE) as [Hfull|Hnot]; unfold BLOCKSIZE in *.
  - cbn [mm set_mm]. rewrite K2. rewrite geti_st32 by lia. unfold store_block at 1. run. cbn [mm set_mm Z.eqb].
    change (Z.to_nat BLOCKSIZE) with 512%nat.
    replace (r + c)%nat with 512%nat in B1 by lia.
    destruct (body_block m2 dest k _ _ Hd ltac:(lia) K2 B1 D2) as (N1 & N2 & N3 & N4). set (m' := st32 _ recv_length_at 0) in *.
    destruct (IH (buffer + Z.of_nat c) p2 (set_mm m' w) (body ++ p1)) as (w' & E & P & K).
    + exists (S k), 0%nat. cbn [mm set_mm]. split; [lia|]. rewrite length_app. split; [lia|]. split; [exact N3|]. split; [exact N2|].
      rewrite app_assoc, firstn_skipn in N1. rewrite firstn_all2 by (rewrite length_app; lia). split; [exact N1|].
      rewrite skipn_all2 by (rewrite length_app; lia). reflexivity.
    + cbn [mm set_mm]. rewrite <- C2 at 2. apply ldn_ext. intros x Hx. apply N4. lia.
    + lia.
    + lia.
    + lia.
    + rewrite length_app. lia.
    + exists w'. split; [exact E|]. rewrite Ep, app_assoc. split; [exact P|]. cbn [mm set_mm] in K.
      eapply kept_trans; [exact Kp|]. eapply kept_trans; [exact N4|exact K].
  - destruct (IH (buffer + Z.of_nat c) p2 (set_mm m2 w) (body ++ p1)) as (w' & E & P & K).
    + exists k, (r + c)%nat. cbn [mm set_mm]. split; [subst c; lia|]. rewrite length_app. split; [lia|]. split; [exact B2|]. split; [exact K2|].
      rewrite firstn_app_le, skipn_app_le by lia. auto.
    + exact C2.
    + lia.
    + lia.
    + lia.
    + rewrite length_app. lia.
    + exists w'. split; [exact E|]. rewrite Ep, app_assoc. split; [exact P|]. eapply kept_trans; [exact Kp|exact K].
Qed.

(** ** The header *)

Lemma http_eqb_eq a b : http_eqb a b = true <-> a = b.
Proof. unfold http_eqb. destruct (list_eq_dec Z.eq_dec a b); split; congruence. Qed.
Definition body_at (m : mem) (a : Z) (l : list Z) : Prop := ldn m a (length l) = l.
Lemma body_at_app m a l1 l2 : body_at m a (l1 ++ l2) <-> body_at m a l1 /\ body_at m (a + Z.of_nat (length l1)) l2.
Proof.
  unfold body_at. rewrite length_app, ldn_app. split.
  - intros H. apply app_split_length in H; [exact H|apply length_ldn].
  - now intros (-> & ->).
Qed.
Lemma body_at_cons m a c l : body_at m a (c :: l) <-> ld8 m a = c /\ body_at m (a + 1) l.
Proof. unfold body_at. cbn [length ldn]. split; [intros H; split; congruence|now intros (-> & ->)]. Qed.
Lemma body_at_ext m m' a l : (forall x, a <= x < a + Z.of_nat (length l) -> ld8 m' x = ld8 m x) -> body_at m a l -> body_at m' a l.
Proof. unfold body_at. intros He <-. rewrite length_ldn in *. apply ldn_ext. exact He. Qed.
Lemma body_at_stn m a l : Forall (fun b => 0 <= b < 256) l -> body_at (stn m a l) a l.
Proof. intros H. unfold body_at. rewrite ldn_stn. induction H as [|b l Hb Hl IH]; cbn [map]; [reflexivity|]. now rewrite IH, u8_small. Qed.

Lemma next_line_spec m line rest : ~ In 10 line -> forall a, body_at m a (line ++ 10 :: rest) ->
  next_line m a (length (line ++ 10 :: rest)) = (a + Z.of_nat (length line) + 1, length rest).
Proof.
  intros Hn. induction line as [|c line IH]; intros a H; cbn [app length next_line] in *; apply body_at_cons in H as (Hc & H); rewrite Hc.
  - cbn [Z.eqb Pos.eqb]. f_equal. lia.
  - destruct (Z.eqb_spec c 10) as [->|]; [destruct Hn; now left|]. rewrite IH; [f_equal; lia|intros Hi; apply Hn; now right|exact H].
Qed.

(** The lines of a header, each with its line feed. *)
Definition lines_text (ls : list (list Z)) : list Z := concat (map (fun l => l ++ [10]) ls).
Definition line_ok (l : list Z) : Prop := ~ In 10 l.
Lemma not_blank l rest m a : line_ok l -> l <> [13] -> body_at m a ((l ++ [10]) ++ rest) -> http_eqb (ldn m a 2) [13; 10] = false.
Proof.
  intros Hl Hb H. destruct (http_eqb (ldn m a 2) [13; 10]) eqn:E; [|reflexivity]. exfalso. apply http_eqb_eq in E.
  cbn [ldn] in E. assert (E1 : ld8 m a = 13) by congruence. assert (E2 : ld8 m (a + 1) = 10) by congruence.
  destruct l as [|c [|d l]]; cbn [app] in H; apply body_at_cons in H as (H1 & H).
  - congruence.
  - apply Hb. congruence.
  - apply body_at_cons in H as (H2 & _). apply Hl. right. left. congruence.
Qed.
Lemma header_lines_spec m rc body ls : forall l1 a fuel, ~ (300 <= rc < 400) -> line_ok l1 ->
  Forall (fun l => line_ok l /\ l <> [13]) ls -> (length ls < fuel)%nat ->
  body_at m a (lines_text (l1 :: ls) ++ [13; 10] ++ body) ->
  header_lines fuel m rc a (length (lines_text (l1 :: ls) ++ [13; 10] ++ body)) =
    HData (a + Z.of_nat (length (lines_text (l1 :: ls))) + 2) (length body).
Proof.
  induction ls as [|l2 ls IH]; intros l1 a fuel Hrc H1 Hls Hf H; (destruct fuel as [|fuel]; [lia|]);
    set (n := length _); cbn [header_lines];
    assert (Hn : exists n', n = S n') by (subst n; unfold lines_text; cbn [map concat]; rewrite !length_app; cbn [length]; eexists; rewrite Nat.add_comm; cbn; reflexivity);
    destruct Hn as (n' & En); rewrite En; rewrite <- En; subst n; clear n' En;
    assert (Hr : (rc >=? 300) && (rc <? 400) = false) by (case_tests; lia || reflexivity); rewrite Hr; cbn [andb];
    unfold lines_text in *; cbn [map concat] in *; rewrite <- !app_assoc in *; cbn [app] in *;
    rewrite (next_line_spec _ _ _ H1 _ H); cbv beta iota;
    apply body_at_app in H as (_ & H); apply body_at_cons in H as (_ & H).
  - cbn [length Nat.leb andb]. pose proof H as H'. apply body_at_cons in H' as (B1 & H'). apply body_at_cons in H' as (B2 & _).
    assert (E : http_eqb (ldn m (a + Z.of_nat (length l1) + 1) 2) [13; 10] = true).
    { apply http_eqb_eq. cbn [ldn]. congruence. }
    rewrite E. cbn [andb]. rewrite length_app. cbn [length]. f_equal; lia.
  - inversion_clear Hls as [|? ? (Hl2 & Hb2) Hls']. specialize (IH l2 (a + Z.of_nat (length l1) + 1) fuel Hrc Hl2 Hls').
    cbn [map concat] in IH. rewrite <- !app_assoc in IH. cbn [app] in IH.
    assert (E : http_eqb (ldn m (a + Z.of_nat (length l1) + 1) 2) [13; 10] = false).
    { apply (not_blank l2 (concat (map (fun l => l ++ [10]) ls) ++ 13 :: 10 :: body)); [exact Hl2|exact Hb2|]. rewrite <- app_assoc. exact H. }
    rewrite E, andb_false_r, IH; [|cbn [length] in Hf; lia|exact H]. f_equal. rewrite !length_app. cbn [length]. rewrite !length_app. cbn [length]. lia.
Qed.

(** The result code of an answer. *)
Lemma find_code_spec fuel m proto code rest : ~ In 32 proto -> forallb isdigit10 code = true -> dec_val 0 code < 2147483648 ->
  rest <> [] -> isdigit10 (hd 0 rest) = false -> (length code < fuel)%nat ->
  forall a, body_at m a (proto ++ 32 :: code ++ rest) ->
  find_code fuel m a (length (proto ++ 32 :: code ++ rest)) =
    Some (Some (dec_val 0 code, a + Z.of_nat (length proto), length (32 :: code ++ rest))).
Proof.
  intros Hp Hc Hv Hr Hd Hf. induction proto as [|c proto IH]; intros a H.
  - cbn [app length find_code] in *. apply body_at_cons in H as (-> & H). cbn [Z.eqb Pos.eqb]. apply body_at_app in H as (B1 & B2).
    change 0 with (u32 0) at 1. rewrite (strtoul_loop_spec code); [|exact B1|exact Hc| |exact Hf].
    + pose proof (dec_val_nonneg code 0 ltac:(lia) Hc) as Hn. cbn [obind]. rewrite u32_small by lia.
      rewrite length_app. destruct rest as [|x rest]; [congruence|]. cbn [length].
      destruct (Z.geb_spec (a + 1 + Z.of_nat (length code)) (a + Z.of_nat (S (length code + S (length rest))))); [lia|].
      rewrite s32_small by lia. do 3 f_equal. f_equal. cbn. lia.
    + destruct rest as [|x rest]; [congruence|]. apply body_at_cons in B2 as (-> & _). exact Hd.
  - cbn [app length find_code] in *. apply body_at_cons in H as (-> & H). destruct (Z.eqb_spec c 32) as [->|]; [destruct Hp; now left|].
    rewrite IH; [|intros Hi; apply Hp; now right|exact H]. do 4 f_equal. lia.
Qed.

(** ** An answer *)

Lemma body_inv_ext dest m m' body : 0x40000 <= dest ->
  (forall x, recv_length_at <= x < recv_length_at + 4 \/ block_at_ <= x < block_at_ + 4 \/ recv_buffer <= x < recv_buffer + 512 \/ 0x40000 <= x ->
     ld8 m' x = ld8 m x) -> body_inv dest m body -> body_inv dest m' body.
Proof.
  intros Hd He (k & r & Hr & El & Er & Ek & H1 & H2). exists k, r. split; [exact Hr|]. split; [exact El|].
  rewrite (geti_ext m), (geti_ext m m') by (intros x Hx; apply He; lia). split; [exact Er|]. split; [exact Ek|].
  rewrite <- H1, <- H2. split; apply ldn_ext; intros x Hx; apply He; lia.
Qed.
Lemma recv_data_spec dest buffer part w body :
  0x40000 <= dest -> body_inv dest (mm w) body -> body_at (mm w) buffer part ->
  0x20000 <= buffer -> buffer + Z.of_nat (length part) <= 0x30000 -> Z.of_nat (length body + length part) < 536870912 ->
  exists w', recv_data (store_block dest BLOCKSIZE) (Z.of_nat (length part)) buffer w = Some (Ret 1, w') /\
    body_inv dest (mm w') (body ++ part) /\ kept (mm w) (mm w').
Proof.
  intros Hd Hi Hb Hb1 Hb2 Hs. unfold recv_data. run. rewrite Nat2Z.id. set (m1 := st32 (mm w) _ _).
  assert (S1 : forall x, x < bytes_received_at \/ bytes_received_at + 4 <= x -> ld8 m1 x = ld8 (mm w) x)
    by (intros x Hx; apply ld8_st32_ne; lia).
  destruct (data_loop_spec dest Hd (S (length part)) buffer part (set_mm m1 w) body) as (w' & E & P & K); try assumption; try lia.
  - cbn [mm set_mm]. apply (body_inv_ext dest (mm w)); [exact Hd| |exact Hi].
    intros x Hx. apply S1. unfold recv_length_at, block_at_, recv_buffer, bytes_received_at, hs in *. lia.
  - cbn [mm set_mm]. apply (body_at_ext (mm w)); [|exact Hb]. intros x Hx. apply S1. unfold bytes_received_at, hs. lia.
  - exists w'. split; [exact E|]. split; [exact P|]. cbn [mm set_mm] in K. intros x Hx. rewrite (K x Hx). apply S1.
    unfold bytes_received_at, hs. lia.
Qed.

(** Where the contents of a segment lie, and the segments of a connection given to [recv] in turn. *)
Definition seg_at : Z := nic_packet + ETH_HLEN + 20 + 20.
Fixpoint deliver (recv : Z -> Z -> M Z) (segs : list (list Z)) : M Z :=
  match segs with
  | [] => ret 1
  | seg :: segs =>
      set_mem (fun m => stn m seg_at seg) ;;;
      r <- recv (Z.of_nat (length seg)) seg_at ;;
      if r =? 0 then ret 0 else deliver recv segs
  end.
Definition seg_ok (seg : list Z) : Prop := (length seg <= 1460)%nat /\ Forall (fun b => 0 <= b < 256) seg.
Lemma seg_stored dest m seg body : 0x40000 <= dest -> seg_ok seg -> body_inv dest m body ->
  body_inv dest (stn m seg_at seg) body /\ body_at (stn m seg_at seg) seg_at seg /\
  (forall x, 0x30000 <= x -> ld8 (stn m seg_at seg) x = ld8 m x).
Proof.
  intros Hd (Hl & Hb) Hi. assert (S : forall x, 0x30000 <= x -> ld8 (stn m seg_at seg) x = ld8 m x)
    by (intros x Hx; apply ld8_stn_out; unfold seg_at, nic_packet, ETH_HLEN; lia).
  split; [|split; [now apply body_at_stn|exact S]]. apply (body_inv_ext dest m); [exact Hd| |exact Hi].
  intros x Hx. apply S. unfold recv_length_at, block_at_, recv_buffer, hs in *. lia.
Qed.
Lemma deliver_data dest fuel : 0x40000 <= dest -> forall segs w body, Forall seg_ok segs -> body_inv dest (mm w) body ->
  geti (mm w) recv_state_at = DATA -> Z.of_nat (length body + length (concat segs)) < 536870912 ->
  exists w', deliver (recv_tcp_request (store_block dest BLOCKSIZE) fuel) segs w = Some (Ret 1, w') /\
    body_inv dest (mm w') (body ++ concat segs) /\ geti (mm w') recv_state_at = DATA /\ geti (mm w') rc_at = geti (mm w) rc_at.
Proof.
  intros Hd. induction segs as [|seg segs IH]; intros w body Hs Hi Hst Hn; cbn [deliver concat].
  { exists w. rewrite app_nil_r. auto. }
  inversion_clear Hs as [|? ? H1 H2]. destruct (seg_stored dest (mm w) seg body Hd H1 Hi) as (I1 & B1 & S1).
  cbn [concat] in Hn. rewrite length_app in Hn. run. set (m1 := stn (mm w) seg_at seg) in *.
  unfold recv_tcp_request at 1. run. cbn [mm set_mm].
  assert (St : geti m1 recv_state_at = DATA) by (rewrite <- Hst; apply geti_ext; intros x Hx; apply S1; unfold recv_state_at, hs in Hx; lia).
  rewrite St. change (DATA =? RESULT_CODE) with false. change (DATA =? HEADER) with false. change (DATA =? DATA) with true. cbv iota.
  destruct (recv_data_spec dest seg_at seg (set_mm m1 w) body) as (w1 & E & P & K); try assumption.
  { unfold seg_at, nic_packet, ETH_HLEN. lia. }
  { destruct H1 as (H1 & _). unfold seg_at, nic_packet, ETH_HLEN. lia. }
  { lia. }
  rewrite E. cbn [Z.eqb]. cbn [mm set_mm] in K.
  assert (Kg : forall a, 0x37020 <= a < 0x373f0 -> geti (mm w1) a = geti (mm w) a).
  { intros a Ha. apply geti_ext. intros x Hx. rewrite K by lia. apply S1. lia. }
  destruct (IH w1 (body ++ seg) H2 P) as (w' & E2 & P2 & St2 & Rc2); [rewrite Kg; [exact Hst|unfold recv_state_at, hs; lia]|rewrite length_app; lia|].
  exists w'. split; [exact E2|]. rewrite app_assoc. split; [exact P2|]. split; [exact St2|].
  rewrite Rc2. apply Kg. unfold rc_at, hs. lia.
Qed.

(** The head of an answer: the version, the code with the rest of the status line, and the other lines. *)
Record http_answer := { a_proto : list Z; a_code : list Z; a_reason : list Z; a_lines : list (list Z) }.
Definition status_line (a : http_answer) : list Z := 32 :: a_code a ++ a_reason a.
Definition head_text (a : http_answer) : list Z := a_proto a ++ lines_text (status_line a :: a_lines a) ++ [13; 10].
Record http_answer_ok (a : http_answer) : Prop := {
  ok_proto : ~ In 32 (a_proto a);
  ok_code : forallb isdigit10 (a_code a) = true;
  ok_reason : a_reason a <> [] /\ isdigit10 (hd 0 (a_reason a)) = false;
  ok_status : line_ok (status_line a);
  ok_lines : Forall (fun l => line_ok l /\ l <> [13]) (a_lines a);
}.
Lemma head_split a part : head_text a ++ part =
  a_proto a ++ 32 :: a_code a ++ (a_reason a ++ 10 :: lines_text (a_lines a) ++ [13; 10] ++ part).
Proof. unfold head_text, status_line, lines_text. cbn [map concat]. rewrite <- !app_assoc. cbn [app]. rewrite <- !app_assoc. reflexivity. Qed.

Lemma recv_first dest fuel a part w :
  0x40000 <= dest -> http_answer_ok a -> dec_val 0 (a_code a) = 200 -> seg_ok (head_text a ++ part) ->
  (length (head_text a) < fuel)%nat -> body_inv dest (mm w) [] -> geti (mm w) recv_state_at = RESULT_CODE ->
  body_at (mm w) seg_at (head_text a ++ part) ->
  exists w', recv_tcp_request (store_block dest BLOCKSIZE) fuel (Z.of_nat (length (head_text a ++ part))) seg_at w = Some (Ret 1, w') /\
    body_inv dest (mm w') part /\ geti (mm w') recv_state_at = DATA /\ geti (mm w') rc_at = 200.
Proof.
  intros Hd OK Hc (Hl & _) Hf Hi Hst Hb. unfold recv_tcp_request. run. rewrite Hst. change (RESULT_CODE =? RESULT_CODE) with true. cbv iota.
  rewrite Nat2Z.id. rewrite head_split in Hb |- *. pose proof (ok_reason a OK) as (Hr1 & Hr2).
  set (rest := a_reason a ++ _) in *.
  assert (Hrest : rest <> [] /\ hd 0 rest = hd 0 (a_reason a)) by (subst rest; destruct (a_reason a); [congruence|split; [discriminate|reflexivity]]).
  rewrite (find_code_spec fuel (mm w) (a_proto a) (a_code a) rest); [|apply (ok_proto a OK)|apply (ok_code a OK)|lia|apply Hrest| | |exact Hb].
  2:{ destruct Hrest as (_ & ->). exact Hr2. }
  2:{ unfold head_text, status_line, lines_text in Hf. cbn [map concat] in Hf. rewrite !length_app in Hf. cbn [length] in Hf. rewrite length_app in Hf. lia. }
  unfold of_fuel. rewrite Hc. unfold store32. run. set (m2 := st32 (st32 (mm w) rc_at 200) recv_state_at HEADER).
  assert (S2 : forall x, x < recv_state_at \/ rc_at + 4 <= x -> ld8 m2 x = ld8 (mm w) x)
    by (intros x Hx; subst m2; unfold recv_state_at, rc_at, hs in *; rewrite !ld8_st32_ne by lia; reflexivity).
  assert (G2 : geti m2 rc_at = 200).
  { subst m2. rewrite (geti_ext (st32 (mm w) rc_at 200)); [now apply geti_st32|]. intros x Hx. apply ld8_st32_ne. unfold rc_at, recv_state_at, hs in *. lia. }
  set (buf := seg_at + Z.of_nat (length (a_proto a))). unfold recv_header. run. cbn [mm set_mm]. fold m2. rewrite G2.
  assert (El : 32 :: a_code a ++ rest = lines_text (status_line a :: a_lines a) ++ [13; 10] ++ part).
  { subst rest. unfold lines_text, status_line. cbn [map concat app]. rewrite <- !app_assoc. reflexivity. }
  pose proof Hb as Hb2. apply body_at_app in Hb2 as (_ & Hb2). fold buf in Hb2. rewrite El in Hb2 |- *.
  assert (Hb3 : body_at m2 buf (lines_text (status_line a :: a_lines a) ++ [13; 10] ++ part)).
  { apply (body_at_ext (mm w)); [|exact Hb2]. intros x Hx. apply S2. rewrite <- El in Hx. rewrite head_split, length_app in Hl. fold rest in Hl.
    subst buf. unfold seg_at, nic_packet, ETH_HLEN, recv_state_at, hs in *. lia. }
  rewrite (header_lines_spec m2 200 part (a_lines a) (status_line a)); [|lia|apply (ok_status a OK)|apply (ok_lines a OK)| |exact Hb3].
  2:{ rewrite length_app. enough (length (a_lines a) <= length (lines_text (status_line a :: a_lines a)))%nat by lia.
      unfold lines_text. cbn [map concat]. rewrite length_app. generalize (a_lines a). clear. intros ls.
      enough (length ls <= length (concat (map (fun l => l ++ [10%Z]) ls)))%nat by lia.
      induction ls as [|l ls IH]; cbn [map concat length]; [lia|]. rewrite !length_app. cbn [length]. lia. }
  unfold store32. run. set (m3 := st32 m2 recv_state_at DATA). set (pos := buf + _ + 2).
  assert (S3 : forall x, x < recv_state_at \/ rc_at + 4 <= x -> ld8 m3 x = ld8 (mm w) x).
  { intros x Hx. subst m3. rewrite ld8_st32_ne by (unfold recv_state_at, rc_at, hs in *; lia). now apply S2. }
  assert (Lh : (length (a_proto a) + (length (lines_text (status_line a :: a_lines a)) + (2 + length part)) <= 1460)%nat).
  { rewrite head_split in Hl. fold rest in Hl. rewrite length_app, El, !length_app in Hl. cbn [length] in Hl. lia. }
  destruct (recv_data_spec dest pos part (set_mm m3 w) []) as (w' & E & P & K); [exact Hd| | | | |cbn [length]; lia|].
  { cbn [mm set_mm]. apply (body_inv_ext dest (mm w)); [exact Hd| |exact Hi]. intros x Hx. apply S3.
    unfold recv_state_at, rc_at, recv_length_at, block_at_, recv_buffer, hs in *. lia. }
  { cbn [mm set_mm]. apply body_at_app in Hb3 as (_ & Hb3). apply body_at_app in Hb3 as (_ & Hb3). cbn [length] in Hb3.
    apply (body_at_ext m2); [|exact Hb3]. intros x Hx. apply ld8_st32_ne. subst pos buf.
    unfold seg_at, nic_packet, ETH_HLEN, recv_state_at, hs in *. lia. }
  { subst pos buf. unfold seg_at, nic_packet, ETH_HLEN. lia. }
  { subst pos buf. unfold seg_at, nic_packet, ETH_HLEN. lia. }
  exists w'. split; [exact E|]. split; [exact P|]. cbn [mm set_mm] in K.
  assert (Kg : forall ad, 0x37020 <= ad < 0x373f0 -> geti (mm w') ad = geti m3 ad) by (intros ad Ha; apply geti_ext; intros x Hx; apply K; lia).
  rewrite !Kg by (unfold recv_state_at, rc_at, hs; lia). split; [now apply geti_st32|].
  rewrite <- G2. apply geti_ext. intros x Hx. apply ld8_st32_ne. unfold recv_state_at, rc_at, hs in *. lia.
Qed.

(** ** A server *)

(** The request as [send] gives it, in pieces. *)
Fixpoint ask (send : Z -> Z -> M Z) (sizes : list Z) : M (list Z) :=
  match sizes with
  | [] => ret []
  | s :: sizes =>
      n <- send s (tcp_buf + 20 + 20) ;;
      w <- get ;;
      rest <- ask send sizes ;;
      ret (ldn (mm w) (tcp_buf + 20 + 20) (Z.to_nat n) ++ rest)
  end.
(** A server at [ip] that knows one file: it takes the request in pieces of the given sizes, and sends the answer, in
    segments, when it is the request for that file. *)
Definition server (ip : Z) (want : list Z) (sizes : list Z) (segs : list (list Z))
    : Z -> Z -> (Z -> Z -> M Z) -> (Z -> Z -> M Z) -> M Z := fun destip port send recv =>
  req <- ask send sizes ;;
  if (destip =? ip) && (port =? 80) && http_eqb req want then deliver recv segs else ret 0.
Definition request_text (name : list Z) : list Z := txt "GET /"%string ++ name ++ txt " HTTP/1.0"%string ++ [13; 10; 13; 10].

Lemma firstn_min {A} n (l : list A) : firstn (Nat.min n (length l)) l = firstn n l.
Proof. revert l. induction n as [|n IH]; intros [|x l]; cbn; [reflexivity..|]. now rewrite IH. Qed.
Lemma skipn_min {A} n (l : list A) : skipn (Nat.min n (length l)) l = skipn n l.
Proof. revert l. induction n as [|n IH]; intros [|x l]; cbn; [reflexivity..|]. now rewrite IH. Qed.
Lemma ask_spec req : (length req < 1000)%nat -> forall sizes w k,
  Forall (fun s => 0 <= s <= 88) sizes -> (k <= length req)%nat ->
  body_at (mm w) send_buffer req -> geti (mm w) send_length_at = Z.of_nat (length req) -> geti (mm w) bytes_sent_at = Z.of_nat k ->
  exists w', ask send_tcp_request sizes w = Some (Ret (firstn (Z.to_nat (fold_right Z.add 0 sizes)) (skipn k req)), w') /\
    (forall x, x < bytes_sent_at \/ bytes_sent_at + 4 <= x < tcp_buf \/ 0x40000 <= x -> ld8 (mm w') x = ld8 (mm w) x).
Proof.
  intros Hr. induction sizes as [|s sizes IH]; intros w k Hs Hk Hb Hl Hsent; cbn [ask fold_right].
  { exists w. cbn. auto. }
  inversion_clear Hs as [|? ? H1 H2]. unfold send_tcp_request at 1. run. cbv zeta. rewrite Hl, Hsent.
  set (n := Nat.min (Z.to_nat s) (length req - k)).
  replace (if s >? Z.of_nat (length req) - Z.of_nat k then Z.of_nat (length req) - Z.of_nat k else s) with (Z.of_nat n)
    by (subst n; rewrite Z.gtb_ltb; case_tests; lia).
  rewrite Nat2Z.id. set (d := tcp_buf + 20 + 20). set (m1 := memcpy (mm w) d (send_buffer + Z.of_nat k) n). cbn [mm set_mm].
  assert (S1 : forall x, ld8 m1 x = if (d <=? x) && (x <? d + Z.of_nat n) then ld8 (mm w) (send_buffer + Z.of_nat k + (x - d)) else ld8 (mm w) x)
    by (intros x; apply ld8_memcpy; right; unfold d, tcp_buf, send_buffer; lia).
  assert (O1 : forall x, x < tcp_buf \/ 0x40000 <= x -> ld8 m1 x = ld8 (mm w) x)
    by (intros x Hx; rewrite S1; unfold d, tcp_buf in *; case_tests; (lia || reflexivity)).
  assert (G1 : geti m1 bytes_sent_at = Z.of_nat k)
    by (rewrite <- Hsent; apply geti_ext; intros x Hx; apply O1; unfold bytes_sent_at, hs, tcp_buf in *; lia).
  rewrite G1. set (m2 := st32 m1 bytes_sent_at (Z.of_nat k + Z.of_nat n)).
  assert (O2 : forall x, x < bytes_sent_at \/ bytes_sent_at + 4 <= x -> ld8 m2 x = ld8 m1 x) by (intros x Hx; apply ld8_st32_ne; lia).
  assert (O3 : forall x, x < bytes_sent_at \/ bytes_sent_at + 4 <= x < tcp_buf \/ 0x40000 <= x -> ld8 m2 x = ld8 (mm w) x).
  { intros x Hx. unfold bytes_sent_at, hs, tcp_buf in *. rewrite O2, O1 by (unfold tcp_buf; lia). reflexivity. }
  assert (Got : ldn m2 d n = firstn n (skipn k req)).
  { rewrite (ldn_ext m2 m1) by (intros x Hx; apply O2; unfold d, tcp_buf, bytes_sent_at, hs in *; lia).
    pose proof Hb as Hb'. rewrite <- (firstn_skipn k req) in Hb'. apply body_at_app in Hb' as (_ & Hb').
    rewrite length_firstn, Nat.min_l in Hb' by lia. rewrite <- (firstn_skipn n (skipn k req)) in Hb'. apply body_at_app in Hb' as (Hb' & _).
    unfold body_at in Hb'. rewrite length_firstn, length_skipn, Nat.min_l in Hb' by (subst n; lia). rewrite <- Hb'.
    rewrite <- (Z.add_0_r d), <- (Z.add_0_r (send_buffer + Z.of_nat k)). apply (same_ldn _ _ _ _ (Z.of_nat n)); [|lia|lia].
    intros i Hi. rewrite S1. case_tests; try lia. f_equal. lia. }
  destruct (IH (set_mm m2 w) (k + n)%nat H2) as (w' & E & P).
  - subst n. lia.
  - cbn [mm set_mm]. apply (body_at_ext (mm w)); [|exact Hb]. intros x Hx. apply O3. unfold send_buffer, bytes_sent_at, hs, tcp_buf in *. lia.
  - cbn [mm set_mm]. rewrite <- Hl. apply geti_ext. intros x Hx. apply O3. unfold send_length_at, bytes_sent_at, hs in *. lia.
  - cbn [mm set_mm]. subst m2. rewrite geti_st32 by lia. lia.
  - change (set_mm m2 (set_mm m1 w)) with (set_mm m2 w). rewrite E. cbn [mm set_mm]. exists w'. split.
    + do 3 f_equal. rewrite Got.
      assert (Hsum : 0 <= fold_right Z.add 0 sizes) by (clear -H2; induction H2; cbn [fold_right]; lia).
      replace (skipn (k + n) req) with (skipn n (skipn k req)) by (rewrite skipn_skipn; f_equal; lia).
      rewrite (Z2Nat.inj_add s) by lia. rewrite firstn_add_split. f_equal; [|f_equal].
      * subst n. rewrite <- (length_skipn k req). apply firstn_min.
      * subst n. rewrite <- (length_skipn k req). apply skipn_min.
    + intros x Hx. rewrite P by exact Hx. cbn [mm set_mm]. now apply O3.
Qed.

Lemma geti_stn_out m a l b : a + Z.of_nat (length l) <= b \/ b + 4 <= a -> geti (stn m a l) b = geti m b.
Proof. intros H. apply geti_ext. intros x Hx. apply ld8_stn_out. lia. Qed.
Lemma request_vsprintf s : vsprintf (txt "GET /%s HTTP/1.0"%string ++ [13; 10; 13; 10]) [AStr s] = Some (request_text s).
Proof. reflexivity. Qed.
Lemma request_length s : Z.of_nat (length (request_text s)) = 18 + Z.of_nat (length s).
Proof. unfold request_text. rewrite !length_app. cbn [length]. change (length (txt "GET /"%string)) with 5%nat. change (length (txt " HTTP/1.0"%string)) with 9%nat. lia. Qed.

(** The state in which the transaction starts. *)
Record asking (m : mem) (s : list Z) : Prop := {
  as_request : body_at m send_buffer (request_text s);
  as_length : geti m send_length_at = Z.of_nat (length (request_text s));
  as_sent : geti m bytes_sent_at = 0;
  as_state : geti m recv_state_at = RESULT_CODE;
  as_buffer : geti m recv_length_at = 0;
  as_block : geti m block_at_ = 0;
}.
Lemma http_get_starts fnc transact fuel ip s w : Forall (fun b => 0 <= b < 256) s -> (length s <= 80)%nat -> geti (mm w) block_at_ = 0 ->
  exists m, http_get fnc transact fuel ip s w =
      (transact ip 80 send_tcp_request (recv_tcp_request fnc fuel) ;;; ret tt) (set_mm m w) /\ asking m s.
Proof.
  intros Hs Hl Hk. unfold http_get, sprintf. run. rewrite request_vsprintf. cbn [obind of_fuel fst mm set_mm]. unfold of_fuel, store32. run.
  cbn [fst mm set_mm]. eexists. split; [reflexivity|]. pose proof (request_length s) as Hq.
  assert (Hall : Forall (fun b => 0 <= b < 256) (request_text s)).
  { unfold request_text. rewrite !Forall_app. repeat split; [|exact Hs| |]; repeat constructor; lia. }
  unfold send_length_at, bytes_sent_at, recv_state_at, recv_length_at, block_at_, bytes_received_at, send_buffer, RESULT_CODE, hs in *.
  split; unfold send_length_at, bytes_sent_at, recv_state_at, recv_length_at, block_at_, send_buffer, RESULT_CODE, hs; repeat first [rewrite geti_st32 by lia | rewrite geti_st32_ne by lia | rewrite geti_stn_out by (rewrite length_app; cbn [length]; lia)];
    try reflexivity; try assumption; [|lia].
  apply (body_at_ext (stn (st32 (mm w) (225280 + 12) (18 + Z.of_nat (length s))) 227328 (request_text s ++ [0]))).
  - intros x Hx. unfold recv_state_at, recv_length_at, bytes_received_at, bytes_sent_at, hs. rewrite !ld8_st32_ne by lia. reflexivity.
  - assert (B : body_at (stn (st32 (mm w) (225280 + 12) (18 + Z.of_nat (length s))) 227328 (request_text s ++ [0])) 227328 (request_text s ++ [0]))
      by (apply body_at_stn, Forall_app; split; [exact Hall|repeat constructor; lia]).
    apply body_at_app in B. exact (proj1 B).
Qed.

(** The transaction with such a server. *)
Lemma server_answers dest fuel ip s sizes a part segs w :
  0x40000 <= dest -> asking (mm w) s -> (length s <= 80)%nat -> Forall (fun s => 0 <= s <= 88) sizes ->
  18 + Z.of_nat (length s) <= fold_right Z.add 0 sizes ->
  http_answer_ok a -> dec_val 0 (a_code a) = 200 -> seg_ok (head_text a ++ part) -> Forall seg_ok segs ->
  Z.of_nat (length (part ++ concat segs)) < 536870912 -> (length (head_text a) < fuel)%nat ->
  exists w', server ip (request_text s) sizes ((head_text a ++ part) :: segs) ip 80 send_tcp_request
      (recv_tcp_request (store_block dest BLOCKSIZE) fuel) w = Some (Ret 1, w') /\
    body_inv dest (mm w') (part ++ concat segs) /\ geti (mm w') recv_state_at = DATA /\ geti (mm w') rc_at = 200.
Proof.
  intros Hd As Hl Hsz Hsum OK H200 Hseg Hsegs Hn Hf. pose proof (request_length s) as Hq. unfold server. run.
  destruct (ask_spec (request_text s) ltac:(lia) sizes w 0 Hsz ltac:(lia) (as_request _ _ As) (as_length _ _ As) (as_sent _ _ As)) as (w1 & E1 & K1).
  rewrite E1. rewrite !Z.eqb_refl. cbn [andb skipn]. rewrite firstn_all2 by lia.
  assert (Eq : http_eqb (request_text s) (request_text s) = true) by now apply http_eqb_eq. rewrite Eq. cbn [deliver]. run.
  assert (G1 : forall ad, 0x37010 <= ad < 0x373f0 -> ad + 4 <= bytes_sent_at \/ bytes_sent_at + 4 <= ad -> geti (mm w1) ad = geti (mm w) ad).
  { intros ad Ha Hb. apply geti_ext. intros x Hx. apply K1. unfold bytes_sent_at, tcp_buf, hs in *. lia. }
  assert (I1 : body_inv dest (mm w1) []).
  { exists 0%nat, 0%nat. split; [lia|]. split; [reflexivity|]. rewrite !G1 by (unfold recv_length_at, block_at_, bytes_sent_at, hs; lia).
    split; [apply (as_buffer _ _ As)|]. split; [apply (as_block _ _ As)|]. split; reflexivity. }
  destruct (seg_stored dest (mm w1) (head_text a ++ part) [] Hd Hseg I1) as (I2 & B2 & S2). set (m2 := stn (mm w1) seg_at _) in *.
  destruct (recv_first dest fuel a part (set_mm m2 w1) Hd OK H200 Hseg Hf) as (w3 & E3 & I3 & St3 & Rc3); [exact I2| |exact B2|].
  { cbn [mm set_mm]. rewrite <- (as_state _ _ As), <- (G1 recv_state_at) by (unfold recv_state_at, bytes_sent_at, hs; lia).
    apply geti_ext. intros x Hx. apply S2. unfold recv_state_at, hs in Hx. lia. }
  rewrite E3. cbn [Z.eqb]. rewrite length_app in Hn.
  destruct (deliver_data dest fuel Hd segs w3 part Hsegs I3 St3) as (w4 & E4 & I4 & St4 & Rc4); [lia|].
  exists w4. split; [exact E4|]. split; [exact I4|]. split; [exact St4|]. now rewrite Rc4.
Qed.
(** The last block completes the contents. *)
Lemma last_block dest m body : 0x40000 <= dest -> Z.of_nat (length body) < 536870912 -> body_inv dest m body ->
  let m' := st32 m block_at_ (geti m block_at_ + 1) in
  ldn (memcpy m' (dest + (geti m' block_at_ - 1) * BLOCKSIZE) recv_buffer (Z.to_nat (geti m' recv_length_at))) dest (length body) = body.
Proof.
  intros Hd Hn (k & r & Hr & El & Er & Ek & H1 & H2) m'.
  assert (Em : m' = st32 m block_at_ (Z.of_nat k + 1)) by (unfold m'; rewrite Ek; reflexivity). clearbody m'.
  assert (S1 : forall x, x < block_at_ \/ block_at_ + 4 <= x -> ld8 m' x = ld8 m x) by (intros x Hx; rewrite Em; apply ld8_st32_ne; lia).
  assert (G1 : geti m' block_at_ = Z.of_nat k + 1) by (rewrite Em; apply geti_st32; lia).
  assert (G2 : geti m' recv_length_at = Z.of_nat r) by (rewrite Em, geti_st32_ne; [exact Er|unfold block_at_, recv_length_at, hs; lia]).
  rewrite G1, G2, Nat2Z.id. unfold BLOCKSIZE.
  replace (dest + (Z.of_nat k + 1 - 1) * 512) with (dest + Z.of_nat (512 * k)) by lia. set (b := dest + Z.of_nat (512 * k)).
  unfold block_at_, hs in S1. rewrite El, ldn_app, <- (firstn_skipn (512 * k) body). f_equal.
  - rewrite <- H1. apply ldn_ext. intros x Hx. rewrite ld8_memcpy by (unfold recv_buffer, b; lia). unfold b. case_tests; try lia. all: apply S1; lia.
  - fold b. rewrite ldn_memcpy by (unfold recv_buffer, b; lia). rewrite <- H2. apply ldn_ext. intros x Hx. apply S1. unfold recv_buffer in Hx. lia.
Qed.

(** ** Properties *)

(** C13: a file is fetched over HTTP.  Against a server that answers the request for the file, and no other, with a
    head of the form of the protocol and the code 200, followed by the contents cut into segments in any way,
    [http] sends that request, to the server and to port 80, in whatever pieces it is taken; finds the code
    and the end of the head; and gives the contents to the consumer in blocks of 512 bytes, in order, with
    the rest as the last block: they lie whole where the consumer puts them. *)
Theorem http_fetches dest fuel url s sizes a part segs w :
  let ip := ipaddr (arp w ARP_SERVER) in
  let body := part ++ concat segs in
  0x40000 <= dest -> 0x38000 <= url -> url + Z.of_nat (length s) < 0x3c000 ->
  cstr (mm w) url s -> (length s <= 80)%nat -> Forall (fun s => 0 <= s <= 88) sizes -> 18 + Z.of_nat (length s) <= fold_right Z.add 0 sizes ->
  http_answer_ok a -> dec_val 0 (a_code a) = 200 -> seg_ok (head_text a ++ part) -> Forall seg_ok segs ->
  Z.of_nat (length body) < 536870912 -> (length (head_text a) < fuel)%nat -> (80 < fuel)%nat ->
  exists w', http_with (store_block dest BLOCKSIZE) (server ip (request_text s) sizes ((head_text a ++ part) :: segs)) fuel url w
      = Some (Ret 1, w') /\ ldn (mm w') dest (length body) = body.
Proof.
  intros ip body Hd Hu1 Hu2 Hc Hl Hsz Hsum OK H200 Hseg Hsegs Hn Hf Hf2.
  assert (Hsb : Forall (fun b => 0 <= b < 256) s) by exact (cstr_bytes _ _ _ Hc).
  unfold http_with, store32. run. set (m2 := st32 (st32 (mm w) rc_at (-1)) block_at_ 0). cbn [mm set_mm]. fold m2.
  assert (Hc2 : cstr m2 url s).
  { apply (cstr_ext (mm w)); [|exact Hc]. intros x Hx. subst m2. symmetry. rewrite !ld8_st32_ne by (unfold block_at_, rc_at, hs; lia). reflexivity. }
  rewrite (read_cstr_spec m2 s url fuel Hc2) by lia. unfold of_fuel. run. unfold MAX_URL. destruct (Z.leb_spec (Z.of_nat (length s)) 80); [|lia].
  cbn [mm set_mm]. set (m3 := memcpy m2 location url (S (length s))).
  destruct (http_get_starts (store_block dest BLOCKSIZE) (server ip (request_text s) sizes ((head_text a ++ part) :: segs)) fuel ip s (set_mm m3 w) Hsb Hl) as (m & E & As).
  { cbn [mm set_mm]. rewrite (geti_ext m2).
    - subst m2. now apply geti_st32.
    - intros x Hx. subst m3. rewrite ld8_memcpy by (unfold location, hs; lia). unfold location, block_at_, hs in *. case_tests; (lia || reflexivity). }
  change (set_mm m3 (set_mm m2 (set_mm (st32 (mm w) rc_at (-1)) w))) with (set_mm m3 w).
  change (ipaddr (arp (set_mm m2 (set_mm (st32 (mm w) rc_at (-1)) w)) ARP_SERVER)) with ip. rewrite E. clear E. run.
  destruct (server_answers dest fuel ip s sizes a part segs (set_mm m w)) as (w1 & E1 & I1 & St1 & Rc1); try assumption.
  change (set_mm m (set_mm m3 w)) with (set_mm m w). rewrite E1. destruct fuel as [|fuel]; [lia|]. cbn [http_redirects]. run.
  rewrite St1. change (DATA =? MOVED) with false. cbn [negb]. cbv iota. rewrite Rc1. change (200 =? 200) with true. cbv iota.
  unfold store_block. run. cbn [mm set_mm]. eexists. split; [reflexivity|]. cbn [mm set_mm].
  apply (last_block dest (mm w1) body Hd Hn I1).
Qed.

(** *** Witness *)

Definition http_world : world := set_mm (stn (mm tftp_world) 0x38000 (txt "vmlinuz"%string ++ [0])) tftp_world.
(** "HTTP/1.0 200 OK", and one more line. *)
Definition answer1 : http_answer :=
  {| a_proto := txt "HTTP/1.0"%string; a_code := txt "200"%string; a_reason := txt " OK"%string ++ [13];
     a_lines := [txt "Server: x"%string ++ [13]] |}.
Lemma answer1_ok : http_answer_ok answer1.
Proof. constructor; try (vm_compute; intuition discriminate). repeat constructor; vm_compute; intuition discriminate. Qed.
Lemma seg_ok_b seg : (length seg <=? 1460)%nat && forallb (fun b => (0 <=? b) && (b <? 256)) seg = true -> seg_ok seg.
Proof.
  rewrite andb_true_iff, Nat.leb_le, forallb_forall. intros (Hl & Hb). split; [exact Hl|]. apply Forall_forall. intros b Hi.
  specialize (Hb b Hi). lia.
Qed.
(** The request goes out in two pieces; a file of 515 bytes comes back in two segments. *)
Lemma http_fetches_witness :
  exists w', http_with (store_block 0x40000 BLOCKSIZE)
      (server 0x0200000a (request_text (txt "vmlinuz"%string)) [20; 20] [head_text answer1 ++ [1; 2; 3]; repeat 7 512]) 100 0x38000 http_world
    = Some (Ret 1, w') /\ ldn (mm w') 0x40000 515 = [1; 2; 3] ++ repeat 7 512.
Proof.
  apply (http_fetches 0x40000 100 0x38000 (txt "vmlinuz"%string) [20; 20] answer1 [1; 2; 3] [repeat 7 512] http_world).
  - lia.
  - lia.
  - reflexivity.
  - apply cstrb_cstr. vm_compute. reflexivity.
  - apply Nat.leb_le. reflexivity.
  - repeat constructor; lia.
  - cbn. lia.
  - exact answer1_ok.
  - reflexivity.
  - apply seg_ok_b. reflexivity.
  - constructor; [|constructor]. apply seg_ok_b. reflexivity.
  - vm_compute. reflexivity.
  - apply Nat.ltb_lt. vm_compute. reflexivity.
  - lia.
Defined.
