(* ===== verification/Disk.v ===== *)
(** Booting from a disk, [src/src/core/disk.c], with the read functions of the two disk drivers,
    [src/src/drivers/disk/ide_disk.c] and [pc_floppy.c].

    A driver reads sectors into its buffer, which [disk_read] uses as a cache; the transfer itself, port I/O of the
    controller, is a parameter of the driver (that of IDE is in IdePio.v).  What [disk_read] relies on is the class [Drive]; both drivers
    are instances of it. *)

From S2P Require Import Prelude Memory StringLib Misc Vsprintf Heap OsLoader Pci.
Import String.StringSyntax.
Local Open Scope etherboot_scope.

Definition SECTOR_SIZE : Z := 512.
Definition DISK_BUFFER_SIZE : Z := 18 * SECTOR_SIZE.
(** The static buffers: that of the driver, and that of [disk_load]. *)
Definition disk_buffer : Z := 0x50000.
Definition load_buffer : Z := 0x58000.

Record disk := {
  dk_drive : Z; hw_sector_size : Z; sectors_per_read : Z; dk_bytes : Z; dk_sectors : Z; dk_sector : Z; dk_buffer : Z;
  disk_offset : Z; dk_direction : Z;
}.
(** What the driver's buffer holds. *)
Definition set_cache (sector bytes : Z) (d : disk) : disk :=
  {| dk_drive := dk_drive d; hw_sector_size := hw_sector_size d; sectors_per_read := sectors_per_read d; dk_bytes := bytes;
     dk_sectors := dk_sectors d; dk_sector := sector; dk_buffer := dk_buffer d; disk_offset := disk_offset d; dk_direction := dk_direction d |}.
Definition set_where (offset direction : Z) (d : disk) : disk :=
  {| dk_drive := dk_drive d; hw_sector_size := hw_sector_size d; sectors_per_read := sectors_per_read d; dk_bytes := dk_bytes d;
     dk_sectors := dk_sectors d; dk_sector := dk_sector d; dk_buffer := dk_buffer d; disk_offset := offset; dk_direction := direction |}.
Definition set_drive (n : Z) (d : disk) : disk :=
  {| dk_drive := n; hw_sector_size := hw_sector_size d; sectors_per_read := sectors_per_read d; dk_bytes := dk_bytes d;
     dk_sectors := dk_sectors d; dk_sector := dk_sector d; dk_buffer := dk_buffer d; disk_offset := disk_offset d; dk_direction := dk_direction d |}.

(** ** The drivers *)

Module Ide.
Record harddisk_info := { heads : Z; sectors_per_track : Z; slave : Z; info_sectors : Z; address_mode : Z }.
Definition ADDRESS_MODE_CHS : Z := 0.
Definition ADDRESS_MODE_LBA : Z := 1.
Definition ADDRESS_MODE_LBA48 : Z := 2.
Definition IDE_DH_DEFAULT : Z := 0xA0.
Definition IDE_DH_LBA : Z := 0x40.
Definition IDE_DH_CHS : Z := 0x00.
Definition IDE_CMD_READ_SECTORS : Z := 0x20.
Definition IDE_CMD_READ_SECTORS_EXT : Z := 0x24.
(** The registers of a command; the members that no read sets are zero. *)
Record ide_pio_command := {
  feature : Z; sector_count : Z; lba_low : Z; lba_mid : Z; lba_high : Z; device : Z; command : Z;
  sector_count2 : Z; lba_low2 : Z; lba_mid2 : Z; lba_high2 : Z }.
Definition read_chs (info : harddisk_info) (sector : Z) : ide_pio_command :=
  let track := sector / sectors_per_track info in
  let offset := 1 + sector mod sectors_per_track info in
  let cylinder := track / heads info in
  {| feature := 0; sector_count := 1; lba_low := u8 offset; lba_mid := Z.land cylinder 0xff; lba_high := Z.land (Z.shiftr cylinder 8) 0xff;
     device := u8 (Z.lor (Z.lor (Z.lor IDE_DH_DEFAULT (Z.land (track mod heads info) 0x0f)) (slave info)) IDE_DH_CHS);
     command := IDE_CMD_READ_SECTORS; sector_count2 := 0; lba_low2 := 0; lba_mid2 := 0; lba_high2 := 0 |}.
Definition read_lba (info : harddisk_info) (sector : Z) : ide_pio_command :=
  {| feature := 0; sector_count := 1; lba_low := Z.land sector 0xff; lba_mid := Z.land (Z.shiftr sector 8) 0xff;
     lba_high := Z.land (Z.shiftr sector 16) 0xff;
     device := u8 (Z.lor (Z.lor (Z.lor IDE_DH_DEFAULT (Z.land (Z.shiftr sector 24) 0x0f)) (slave info)) IDE_DH_LBA);
     command := IDE_CMD_READ_SECTORS; sector_count2 := 0; lba_low2 := 0; lba_mid2 := 0; lba_high2 := 0 |}.
Definition read_lba48 (info : harddisk_info) (sector : Z) : ide_pio_command :=
  {| feature := 0; sector_count := 1; lba_low := Z.land sector 0xff; lba_mid := Z.land (Z.shiftr sector 8) 0xff;
     lba_high := Z.land (Z.shiftr sector 16) 0xff; device := u8 (Z.lor (slave info) IDE_DH_LBA);
     command := IDE_CMD_READ_SECTORS_EXT; sector_count2 := 0; lba_low2 := Z.land (Z.shiftr sector 24) 0xff;
     lba_mid2 := Z.land (Z.shiftr sector 32) 0xff; lba_high2 := Z.land (Z.shiftr sector 40) 0xff |}.

Section driver.
(** [pio_data_in]: the result, and memory with what was transferred to the buffer. *)
Context (pio_data_in : ide_pio_command -> Z -> mem -> Z * mem) (info : harddisk_info).
(** [ide_read]; the sector is an [unsigned long] for the first two modes. *)
Definition ide_read (sector : Z) (m : mem) (d : disk) : Z * mem * disk :=
  let d := set_cache 0 0 d in
  if sector >? info_sectors info then (-1, m, d)
  else
    let '(result, m) :=
      if address_mode info =? ADDRESS_MODE_CHS then pio_data_in (read_chs info (u32 sector)) (dk_buffer d) m
      else if address_mode info =? ADDRESS_MODE_LBA then pio_data_in (read_lba info (u32 sector)) (dk_buffer d) m
      else if address_mode info =? ADDRESS_MODE_LBA48 then pio_data_in (read_lba48 info sector) (dk_buffer d) m
      else (-1, m) in
    (result, m, if negb (result =? -1) then set_cache sector 512 d else d).
End driver.

(** The drive and its geometry as [init_drive] takes them from the answer to IDENTIFY DEVICE, words [w]. *)
Definition init_geometry (w : Z -> Z) (slave : Z) : harddisk_info :=
  if istrue (Z.land (w 49) (Z.shiftl 1 9)) then
    if istrue (Z.land (w 83) (Z.shiftl 1 10)) then
      {| heads := 0; sectors_per_track := 0; slave := slave;
         info_sectors := Z.lor (Z.lor (Z.lor (Z.shiftl (w 103) 48) (Z.shiftl (w 102) 32)) (Z.shiftl (w 101) 16)) (w 100);
         address_mode := ADDRESS_MODE_LBA48 |}
    else
      {| heads := 0; sectors_per_track := 0; slave := slave; info_sectors := u64 (s32 (Z.lor (Z.shiftl (w 61) 16) (w 60)));
         address_mode := ADDRESS_MODE_LBA |}
  else
    {| heads := w 3; sectors_per_track := w 6; slave := slave; info_sectors := u64 (s32 (w 6 * w 3 * w 1));
       address_mode := ADDRESS_MODE_CHS |}.
End Ide.

Module Floppy.
Definition DISK_H1440_SECT : Z := 18.
Definition DISK_H1440_HEAD : Z := 2.
Definition DISK_H1440_TRACK : Z := 80.
Section driver.
(** [floppy_seek], and [floppy_read_sectors] of a length to the buffer, from sector 1 of a head and track. *)
Context (floppy_seek : Z -> bool) (floppy_read_sectors : Z -> Z -> Z -> Z -> mem -> Z * mem).
Definition floppy_read (base_sector : Z) (m : mem) (d : disk) : Z * mem * disk :=
  let d := set_cache 0 0 d in
  let block := u32 base_sector / sectors_per_read d in
  let head := block mod DISK_H1440_HEAD in
  let track := (block / DISK_H1440_HEAD) mod DISK_H1440_TRACK in
  if negb (floppy_seek track) then (-1, m, d)
  else
    let '(ret, m) := floppy_read_sectors (dk_buffer d) (SECTOR_SIZE * sectors_per_read d) head track m in
    if ret >=? 0 then (ret, m, set_cache (u32 (block * sectors_per_read d)) (SECTOR_SIZE * sectors_per_read d) d)
    else (-1, m, d).
End driver.
End Floppy.

(** ** [disk.c] *)

Section disk_c.
Context (read : Z -> mem -> disk -> Z * mem * disk).

Definition disk_read (buffer sector : Z) (m : mem) (d : disk) : Z * mem * disk :=
  let base_sector := if sectors_per_read d >? 1 then u64 (sector - u32 sector mod sectors_per_read d) else sector in
  let copy m := memcpy m buffer (dk_buffer d + Z.shiftl (u64 (sector - base_sector)) 9) (Z.to_nat SECTOR_SIZE) in
  if (sector <? dk_sector d) || (sector >=? u64 (dk_sector d + Z.shiftr (dk_bytes d) 9)) then
    let '(result, m, d) := read base_sector m d in
    if result <? 0 then (result, m, d) else (0, copy m, d)
  else (0, copy m, d).

(** The loop of [disk_read_sectors]: [n] sectors are left, from [offset] on. *)
Fixpoint read_sectors (n : nat) (buffer base_sector offset : Z) (m : mem) (d : disk) : Z * mem * disk :=
  match n with
  | O => (0, m, d)
  | S n =>
      let sector := u64 (base_sector + offset) in
      let sector := if sector >=? dk_sectors d then u64 (sector - dk_sectors d) else sector in
      let '(result, m, d) := disk_read (buffer + Z.shiftl offset 9) sector m d in
      if result <? 0 then (result, m, d) else read_sectors n buffer base_sector (offset + 1) m d
  end.
Definition disk_read_sectors (buffer base_sector sectors : Z) (m : mem) (d : disk) : Z * mem * disk :=
  read_sectors (Z.to_nat sectors) buffer base_sector 0 m d.

(** The formats work on memory and on state of their own. *)
Context {X : Type} (formats : list (probe_t (mem * X))).

(** [probe_buffer]: each round moves on and then probes. *)
Definition probe_round (buffer len increment end_ : Z) (s : Z * (mem * X)) : (Z * (mem * X)) + (option (os_download_t (mem * X)) * Z * (mem * X)) :=
  let '(offset, st) := s in
  let offset := u32 (offset + increment) in
  match probe_image formats (buffer + offset) (u32 (len - offset)) st with
  | (Some d, st) => inr (Some d, offset, st)
  | (None, st) => if offset =? end_ then inr (None, offset, st) else inl (offset, st)
  end.
Definition probe_buffer (fuel : nat) (buffer len increment offset : Z) (st : mem * X)
    : option (option (os_download_t (mem * X)) * Z * (mem * X)) :=
  loop fuel (probe_round buffer len increment (if increment >? 0 then u32 (len - SECTOR_SIZE) else 0)) (offset, st).

(** How [load_image] and [disk_load] end: they return, or the download function did not. *)
Inductive disk_end := DkReturn (result : Z) | DkJump (state : Z) | DkBoot (machine entry : Z).
(** One round of the loop of [load_image]; its state is where it stands on the disk, and the size of what lies in the buffer. *)
Definition load_round (buffer : Z) (os_download : os_download_t (mem * X)) (s : Z * Z * Z * (mem * X) * disk)
    : (Z * Z * Z * (mem * X) * disk) + (disk_end * (mem * X) * disk) :=
  let '(block, offset, buf_sectors, st, d) := s in
  match os_download (buffer + offset) (u32 (Z.shiftl buf_sectors 9 - offset)) false st with
  | (DlLongjmp v, st) => inr (DkJump v, st, d)
  | (DlBoot machine entry, st) => inr (DkBoot machine entry, st, d)
  | (DlReturn skip_sectors, (m, x)) =>
      let block := u64 (block + skip_sectors + buf_sectors) in
      let block := if block >=? dk_sectors d then u64 (block - dk_sectors d) else block in
      let '(result, m, d) := disk_read_sectors buffer block 1 m d in
      if result <? 0 then inr (DkReturn 0, (m, x), d) else inl (block, 0, 1, (m, x), d)
  end.
Definition load_image (fuel : nat) (buffer buf_sectors block offset : Z) (os_download : os_download_t (mem * X)) (st : mem * X) (d : disk)
    : option (disk_end * (mem * X) * disk) :=
  loop fuel (load_round buffer os_download) (block, offset, buf_sectors, st, d).

Definition disk_load_configuration (failsafe : bool) (d : disk) : disk := set_where 0 (if failsafe then -1 else 1) d.

Definition LOAD_LEN : Z := 32 * SECTOR_SIZE.
Definition LOAD_SECTORS : Z := 32.
(** From [load_image] of [disk_load]: [inl] when the image gives up with the state -2, which resumes the search. *)
Definition try_load (fuel : nat) (block inc offset : Z) (os_download : os_download_t (mem * X)) (st : mem * X) (d : disk)
    : (Z * Z * (mem * X) * disk) + option (disk_end * (mem * X) * disk) :=
  match load_image fuel load_buffer LOAD_SECTORS block offset os_download st d with
  | None => inr None
  | Some (DkJump v, st, d) => if v =? -2 then inl (inc, offset, st, d) else inr (Some (DkJump (if v =? 0 then 1 else v), st, d))
  | Some r => inr (Some r)
  end.
(** The search in the second direction. *)
Definition try_back (fuel : nat) (block inc offset : Z) (st : mem * X) (d : disk)
    : (Z * Z * (mem * X) * disk) + option (disk_end * (mem * X) * disk) :=
  match probe_buffer fuel load_buffer LOAD_LEN inc offset st with
  | None => inr None
  | Some (None, _, st) => inr (Some (DkReturn (-1), st, d))
  | Some (Some dl, offset, st) => try_load fuel block inc offset dl st d
  end.
(** One attempt of [disk_load], from the return of [setjmp]. *)
Definition disk_attempt (fuel : nat) (block increment : Z) (s : Z * Z * (mem * X) * disk)
    : (Z * Z * (mem * X) * disk) + option (disk_end * (mem * X) * disk) :=
  let '(inc, offset, (m, x), d) := s in
  let '(result, m, d) := disk_read_sectors load_buffer block LOAD_SECTORS m d in
  if result <? 0 then inr (Some (DkReturn (-1), (m, x), d))
  else if inc =? increment then
    match probe_buffer fuel load_buffer LOAD_LEN inc offset (m, x) with
    | None => inr None
    | Some (Some dl, offset, st) => try_load fuel block inc offset dl st d
    | Some (None, offset, st) => try_back fuel block (- inc) offset st d
    end
  else try_back fuel block inc offset (m, x) d.
Definition disk_load (fuel : nat) (st : mem * X) (d : disk) : option (disk_end * (mem * X) * disk) :=
  let increment := if dk_direction d <? 0 then -16 else 16 in
  let block := Z.shiftr (disk_offset d) 9 in
  let block := if LOAD_SECTORS / 2 >? block then u64 (dk_sectors d - LOAD_SECTORS / 2 + block) else block in
  let offset := u32 (LOAD_LEN / 2 + Z.land (disk_offset d) 0x1ff - increment) in
  match loop fuel (disk_attempt fuel block increment) (increment, offset, st, d) with
  | None => None
  | Some r => r
  end.

(** ** URLs *)

Definition DISK_DRIVER : Z := 1.
Definition FLOPPY_DRIVER : Z := 2.
Definition text_eqb (a b : list Z) : bool := if list_eq_dec Z.eq_dec a b then true else false.
(** A URL taken apart: type, drive, offset and direction; [Some None] is an error message. *)
Definition parse_url (fuel : nat) (m : mem) (name : Z) : option (option (Z * Z * Z * Z)) :=
  let kind :=
    if text_eqb (ldn m name 4) (txt "disk"%string) then Some (DISK_DRIVER, name + 4)
    else if text_eqb (ldn m name 6) (txt "floppy"%string) then Some (FLOPPY_DRIVER, name + 6)
    else None in
  match kind with
  | None => Some None
  | Some (type, name) =>
      let* '(drive, name) := strtoul_loop fuel m name 0 in
      let* '(direction, offset, name) :=
        if (ld8 m name =? 43) || (ld8 m name =? 45) then
          let direction := if ld8 m name =? 45 then -1 else 1 in
          let* '(offset, name) := strtoul_loop fuel m (name + 1) 0 in Some (direction, offset, name)
        else Some (1, 0, name) in
      if istrue (ld8 m name) then Some None else Some (Some (type, drive, offset, direction))
  end.

(** [disk] and its [dev] after the [memset] of [url_file]. *)
Definition zero_disk : disk :=
  {| dk_drive := 0; hw_sector_size := 0; sectors_per_read := 0; dk_bytes := 0; dk_sectors := 0; dk_sector := 0; dk_buffer := disk_buffer;
     disk_offset := 0; dk_direction := 0 |}.
Definition zero_dev (type : Z) : pdev :=
  {| dtype := type; how := FIRST; to_probe := 0; dindex := 0; tindex := 0; devid_bus := 0; devid_vendor := 0; devid_device := 0;
     pci_dev := no_pci_device; pci_advance := false; isa_cur := 0; isa_advance := false |}.

(** [probe] on the tables of drivers, whose probe functions set up [disk]; and the driver's [disable]. *)
Context (probe_dev : pdev -> (mem * X) * disk -> option (Z * pdev * ((mem * X) * disk))) (disable : (mem * X) * disk -> (mem * X) * disk).
Definition disk_probe (pd : pdev) (w : (mem * X) * disk) : option (Z * pdev * ((mem * X) * disk)) :=
  probe_dev pd (if how pd =? NEXT then (fst w, set_drive (u32 (dk_drive (snd w) + 1)) (snd w)) else w).
(** A round of the loop over the drives.  [dev.disable] is null until a driver has set it, so the first round calls no driver. *)
Definition drive_round (drive : Z) (s : pdev * ((mem * X) * disk)) : (pdev * ((mem * X) * disk)) + option (option ((mem * X) * disk) * ((mem * X) * disk)) :=
  let '(pd, w) := s in
  match disk_probe pd (if how pd =? FIRST then w else disable w) with
  | None => inr None
  | Some (r, pd, w) =>
      let pd := set_how_to r (to_probe pd) pd in
      if r =? FAILED then inr (Some (None, w))
      else if dk_drive (snd w) <? drive then inl (pd, w) else inr (Some (Some w, w))
  end.
Definition url_file (fuel : nat) (name : Z) (st : mem * X) (d : disk) : option (disk_end * (mem * X) * disk) :=
  let* u := parse_url fuel (fst st) name in
  match u with
  | None => Some (DkReturn 0, st, d)
  | Some (type, drive, offset, direction) =>
      let* r := loop fuel (drive_round drive) (zero_dev type, (st, zero_disk)) in
      let* '(found, (st, d)) := r in
      match found with
      | None => Some (DkReturn 0, st, d)
      | Some (st, d) => disk_load fuel st (set_where offset direction d)
      end
  end.
End disk_c.

Lemma triple_inj {A B C} (a a' : A) (b b' : B) (c c' : C) : (a, b, c) = (a', b', c') -> a = a' /\ b = b' /\ c = c'.
Proof. intros E. repeat split; congruence. Qed.

(** ** What a driver promises *)

(** A driver that reads [spr] sectors at a time, aligned, of a disk of [n] sectors whose contents are given: it tells what
    its buffer holds, or fails and tells that it holds nothing, and writes nothing but its buffer. *)
Class Drive (read : Z -> mem -> disk -> Z * mem * disk) (contents : Z -> list Z) (spr n : Z) : Prop := {
  drive_spr : 1 <= spr <= 18 /\ (spr | n) /\ 0 < n < 281474976710656 /\ (1 < spr -> n < 4294967296);
  drive_sector : forall s, 0 <= s < n -> length (contents s) = 512%nat;
  drive_read : forall base m d r m' d',
    dk_buffer d = disk_buffer -> sectors_per_read d = spr -> 0 <= base < n -> base mod spr = 0 -> read base m d = (r, m', d') ->
    (forall x, ~ (disk_buffer <= x < disk_buffer + DISK_BUFFER_SIZE) -> ld8 m' x = ld8 m x) /\
    if r <? 0 then d' = set_cache 0 0 d
    else d' = set_cache base (SECTOR_SIZE * spr) d /\
         forall i, 0 <= i < spr -> ldn m' (disk_buffer + SECTOR_SIZE * i) 512 = contents (base + i);
}.

Section cache.
Context (read : Z -> mem -> disk -> Z * mem * disk) (contents : Z -> list Z) (spr n : Z) `{D : !Drive read contents spr n}.

(** The cache is empty, or holds the sectors that it tells. *)
Definition cached (m : mem) (d : disk) : Prop :=
  dk_buffer d = disk_buffer /\ sectors_per_read d = spr /\ dk_sectors d = n /\
  (dk_sector d = 0 /\ dk_bytes d = 0 \/
   dk_bytes d = SECTOR_SIZE * spr /\ 0 <= dk_sector d < n /\ dk_sector d mod spr = 0 /\
   forall i, 0 <= i < spr -> ldn m (disk_buffer + SECTOR_SIZE * i) 512 = contents (dk_sector d + i)).
(** Memory away from the driver's buffer. *)
Definition clear_of_buffer (a len : Z) : Prop := a + len <= disk_buffer \/ disk_buffer + DISK_BUFFER_SIZE <= a.
Lemma cached_ext m m' d : (forall x, disk_buffer <= x < disk_buffer + DISK_BUFFER_SIZE -> ld8 m' x = ld8 m x) -> cached m d -> cached m' d.
Proof.
  intros Hx (H1 & H2 & H3 & H4). split; [exact H1|]. split; [exact H2|]. split; [exact H3|].
  destruct H4 as [H4|(B & S1 & S2 & H4)]; [now left|right]. split; [exact B|]. split; [exact S1|]. split; [exact S2|]. intros i Hi. rewrite <- (H4 i Hi).
  destruct drive_spr. apply ldn_ext. intros x Hr. apply Hx. unfold disk_buffer, DISK_BUFFER_SIZE, SECTOR_SIZE in *. lia.
Qed.

(** The start of the group of sectors that holds a sector. *)
Lemma base_of s : 0 <= s < n ->
  let b := s - s mod spr in
  (if spr >? 1 then u64 (s - u32 s mod spr) else s) = b /\ 0 <= b <= s /\ s < b + spr /\ b mod spr = 0 /\ b + spr <= n.
Proof.
  intros Hs b. destruct drive_spr as ((G1 & G2) & (q & Gn) & G3 & G4).
  pose proof (Z.mod_pos_bound s spr ltac:(lia)) as Hm. pose proof (Z.div_mod s spr ltac:(lia)) as Hd.
  assert (Hb : b = (s / spr) * spr) by (subst b; lia).
  assert (s / spr < q) by (apply Z.div_lt_upper_bound; lia).
  split.
  - rewrite Z.gtb_ltb. destruct (Z.ltb_spec 1 spr).
    + rewrite u32_small by lia. apply u64_small. pose proof (Z.mod_le s spr ltac:(lia) ltac:(lia)). lia.
    + subst b. replace spr with 1 by lia. rewrite Z.mod_1_r. lia.
  - split; [pose proof (Z.mod_le s spr ltac:(lia) ltac:(lia)); subst b; lia|]. split; [subst b; lia|]. split; [rewrite Hb; apply Z.mod_mul; lia|nia].
Qed.

Lemma disk_read_spec dest s m d r m' d' :
  cached m d -> 0 <= s < n -> clear_of_buffer dest 512 -> disk_read read dest s m d = (r, m', d') ->
  cached m' d' /\
  (forall x, ~ (disk_buffer <= x < disk_buffer + DISK_BUFFER_SIZE) -> ~ (dest <= x < dest + 512) -> ld8 m' x = ld8 m x) /\
  (r < 0 \/ r = 0 /\ ldn m' dest 512 = contents s).
Proof.
  intros C Hs Hd E. pose proof C as (C1 & C2 & C3 & C4). destruct drive_spr as ((G1 & G2) & Gn & G3 & G4).
  destruct (base_of s Hs) as (Eb & B1 & B2 & B3 & B4). set (b := s - s mod spr) in *.
  unfold disk_read in E. rewrite C2, Eb, C1 in E. rewrite (u64_small (s - b)), shiftl_mul in E by lia. pow_consts.
  set (src := disk_buffer + (s - b) * 512) in E.
  (* the copy from the buffer *)
  assert (Cp : forall m1 d1, cached m1 d1 -> ldn m1 src 512 = contents s ->
    let m2 := memcpy m1 dest src (Z.to_nat SECTOR_SIZE) in
    cached m2 d1 /\ ldn m2 dest 512 = contents s /\ forall x, ~ (dest <= x < dest + 512) -> ld8 m2 x = ld8 m1 x).
  { intros m1 d1 Hc Hl m2. change (Z.to_nat SECTOR_SIZE) with 512%nat in m2.
    assert (A : dest + Z.of_nat 512 <= src \/ src + Z.of_nat 512 <= dest).
    { unfold clear_of_buffer, src, disk_buffer, DISK_BUFFER_SIZE, SECTOR_SIZE in *. lia. }
    assert (O : forall x, ~ (dest <= x < dest + 512) -> ld8 m2 x = ld8 m1 x).
    { intros x Hx. subst m2. rewrite ld8_memcpy by lia. case_tests; (lia || reflexivity). }
    split; [|split; [|exact O]].
    - apply (cached_ext m1); [|exact Hc]. intros x Hx. apply O. unfold clear_of_buffer in Hd. lia.
    - rewrite <- Hl. subst m2. apply ldn_memcpy. lia. }
  destruct (_ || _) eqn:T.
  - destruct (read b m d) as ((r1 & m1) & d1) eqn:Er.
    assert (Hbn : 0 <= b < n) by lia. destruct (drive_read b m d r1 m1 d1 C1 C2 Hbn B3 Er) as (Hk & Hr).
    destruct (r1 <? 0) eqn:T1.
    + apply triple_inj in E as (<- & <- & <-). rewrite Hr. split; [|split; [intros x H1 _; now apply Hk|left; lia]].
      split; [exact C1|]. split; [exact C2|]. split; [exact C3|]. left. split; reflexivity.
    + destruct Hr as (-> & Hl). apply triple_inj in E as (<- & <- & <-).
      destruct (Cp m1 (set_cache b (SECTOR_SIZE * spr) d)) as (P1 & P2 & P3).
      * split; [exact C1|]. split; [exact C2|]. split; [exact C3|]. right. cbn [dk_bytes dk_sector set_cache]. split; [reflexivity|]. split; [lia|]. split; [exact B3|exact Hl].
      * unfold src. replace ((s - b) * 512) with (SECTOR_SIZE * (s - b)) by (unfold SECTOR_SIZE; lia). rewrite Hl by lia. f_equal. lia.
      * split; [exact P1|]. split; [|right; split; [reflexivity|exact P2]]. intros x H1 H2. rewrite P3 by exact H2. now apply Hk.
  - apply triple_inj in E as (<- & <- & <-). apply orb_false_iff in T as (T1 & T2). apply Z.ltb_ge in T1. rewrite Z.geb_leb, Z.leb_gt in T2.
    destruct C4 as [(C4 & C5)|(C4 & C5 & C6 & C7)].
    { rewrite C4, C5 in T2. change (u64 _) with 0 in T2. lia. }
    assert (Eq : dk_sector d = b).
    { rewrite C4, shiftr_div in T2 by lia. pow_consts. replace (SECTOR_SIZE * spr / 512) with spr in T2 by (unfold SECTOR_SIZE; Z.div_mod_to_equations; lia).
      rewrite u64_small in T2 by lia. clear - T1 T2 B1 B2 B3 C6 G1. apply Z.mod_divide in B3 as (p & Hp); [|lia]. apply Z.mod_divide in C6 as (q & Hq); [|lia].
      rewrite Hp, Hq in *. assert (p = q) by nia. now subst. }
    destruct (Cp m d C) as (P1 & P2 & P3).
    { unfold src. replace ((s - b) * 512) with (SECTOR_SIZE * (s - b)) by (unfold SECTOR_SIZE; lia). rewrite C7 by lia. f_equal. lia. }
    split; [exact P1|]. split; [|right; split; [reflexivity|exact P2]]. intros x _ H2. now apply P3.
Qed.

(** [k] sectors from [s] on; the disk is followed by itself. *)
Fixpoint sectors_from (k : nat) (s : Z) : list Z :=
  match k with
  | O => []
  | S k => contents (s mod n) ++ sectors_from k (s + 1)
  end.
Lemma length_sectors_from k s : length (sectors_from k s) = (512 * k)%nat.
Proof.
  destruct drive_spr as (_ & _ & Hn & _). revert s. induction k as [|k IH]; intros s; [reflexivity|]. cbn [sectors_from].
  rewrite length_app, IH, drive_sector by (apply Z.mod_pos_bound; lia). lia.
Qed.

Lemma read_sectors_spec k : forall offset dest base m d r m' d',
  cached m d -> 0 <= base < n -> 0 <= offset -> offset + Z.of_nat k <= n -> clear_of_buffer dest (512 * (offset + Z.of_nat k)) ->
  read_sectors read k dest base offset m d = (r, m', d') ->
  let a := dest + 512 * offset in
  cached m' d' /\
  (forall x, ~ (disk_buffer <= x < disk_buffer + DISK_BUFFER_SIZE) -> ~ (a <= x < a + 512 * Z.of_nat k) -> ld8 m' x = ld8 m x) /\
  (r < 0 \/ r = 0 /\ ldn m' a (512 * k) = sectors_from k (base + offset)).
Proof.
  destruct drive_spr as (_ & _ & Hn & _).
  induction k as [|k IH]; intros offset dest base m d r m' d' C Hb Ho Hk Hd E a; cbn [read_sectors] in E.
  { apply triple_inj in E as (<- & <- & <-). split; [exact C|]. split; [reflexivity|]. right. split; reflexivity. }
  pose proof C as (_ & _ & C3 & _). rewrite C3, shiftl_mul, (u64_small (base + offset)) in E by lia. pow_consts.
  set (s := if base + offset >=? n then u64 (base + offset - n) else base + offset) in E.
  assert (Es : s = (base + offset) mod n /\ 0 <= s < n).
  { subst s. rewrite Z.geb_leb. destruct (Z.leb_spec n (base + offset)).
    - rewrite u64_small by lia. split; [|lia]. apply (Z.mod_unique_pos _ _ 1); lia.
    - split; [|lia]. symmetry. apply Z.mod_small. lia. }
  destruct Es as (Es & Hs). replace (offset * 512) with (512 * offset) in E by lia. fold a in E.
  destruct (disk_read read a s m d) as ((r1 & m1) & d1) eqn:E1.
  apply disk_read_spec in E1 as (C1 & K1 & R1); [|exact C|exact Hs|unfold clear_of_buffer, a in *; lia].
  destruct (Z.ltb_spec r1 0).
  { apply triple_inj in E as (<- & <- & <-). split; [exact C1|]. split; [|now left]. intros x Hx Hy. apply K1; [exact Hx|lia]. }
  destruct R1 as [R1|(_ & R1)]; [lia|].
  apply IH in E as (C2 & K2 & R2); [|exact C1|exact Hb|lia|lia|unfold clear_of_buffer in *; lia].
  unfold a in *. split; [exact C2|]. split.
  - intros x Hx Hy. rewrite K2, K1 by (exact Hx || lia). reflexivity.
  - destruct R2 as [R2|(R2 & R3)]; [now left|right]. split; [exact R2|].
    replace (512 * S k)%nat with (512 + 512 * k)%nat by lia. rewrite ldn_app. cbn [sectors_from]. f_equal.
    + rewrite <- Es, <- R1. apply ldn_ext. intros x Hx. apply K2; [|lia]. unfold clear_of_buffer in Hd. lia.
    + replace (base + offset + 1) with (base + (offset + 1)) by lia. rewrite <- R3. f_equal. lia.
Qed.
Lemma disk_read_sectors_spec dest base k m d r m' d' :
  cached m d -> 0 <= base < n -> 0 <= k <= n -> clear_of_buffer dest (512 * k) ->
  disk_read_sectors read dest base k m d = (r, m', d') ->
  cached m' d' /\
  (forall x, ~ (disk_buffer <= x < disk_buffer + DISK_BUFFER_SIZE) -> ~ (dest <= x < dest + 512 * k) -> ld8 m' x = ld8 m x) /\
  (r < 0 \/ r = 0 /\ ldn m' dest (Z.to_nat (512 * k)) = sectors_from (Z.to_nat k) base).
Proof.
  intros C Hb Hk Hd E. apply read_sectors_spec in E as (P1 & P2 & P3); [|exact C|exact Hb|lia|lia|].
  - rewrite Z.mul_0_r, !Z.add_0_r in *. split; [exact P1|]. split; [intros x H1 H2; apply P2; [exact H1|lia]|].
    replace (Z.to_nat (512 * k)) with (512 * Z.to_nat k)%nat by lia. exact P3.
  - rewrite Z2Nat.id by lia. exact Hd.
Qed.
End cache.

(** ** Loading an image *)

Section loading.
Context (read : Z -> mem -> disk -> Z * mem * disk) (contents : Z -> list Z) (spr n : Z) `{D : !Drive read contents spr n}.
Context {X A : Type}.

(** The memory of this component, which the image formats leave alone, and how much of it they are given. *)
Definition own (x : Z) : Prop := disk_buffer <= x < load_buffer + LOAD_LEN.
Definition given (data len : Z) : Prop := load_buffer <= data /\ 0 <= len /\ data + len <= load_buffer + LOAD_LEN.
(** [R] relates memory and the state of the formats to an abstract state, whatever is in this component's memory. *)
Context (R : mem -> X -> A -> Prop).
Definition consumer : Type := list Z -> A -> dl_outcome * A.
(** A download function acts on the bytes it is given as [f] says; it never declines a whole disk. *)
Record consumes (dl : os_download_t (mem * X)) (f : consumer) : Prop := {
  consume : forall data len m x a, R m x a -> given data len ->
    exists o m' x' a', dl data len false (m, x) = (o, (m', x')) /\ f (ldn m data (Z.to_nat len)) a = (o, a') /\ R m' x' a' /\
      (forall y, own y -> ld8 m' y = ld8 m y);
  declines : forall bs a k a', f bs a = (DlReturn k, a') -> 0 <= k <= n - LOAD_SECTORS;
}.

(** The pieces of the disk as a consumer gets them: after each the sectors it declines are left out. *)
Fixpoint feed (f : consumer) (fuel : nat) (block : Z) (piece : list Z) (size : Z) (a : A) : option (disk_end * A) :=
  match fuel with
  | O => None
  | S fuel =>
      match f piece a with
      | (DlReturn k, a) => let block := (block + k + size) mod n in feed f fuel block (contents block) 1 a
      | (DlLongjmp v, a) => Some (DkJump v, a)
      | (DlBoot machine entry, a) => Some (DkBoot machine entry, a)
      end
  end.

(** The disk can be read, and the abstract state does not depend on this component's memory. *)
Context (reliable : forall base m d, 0 <= base < n -> 0 <= fst (fst (read base m d))).
Context (R_frame : forall m m' x a, R m x a -> (forall y, ~ own y -> ld8 m' y = ld8 m y) -> R m' x a).

Lemma disk_read_reliable buffer s m d : cached contents spr n m d -> 0 <= s < n -> 0 <= fst (fst (disk_read read buffer s m d)).
Proof.
  intros (_ & C2 & _) Hs. destruct (base_of read contents spr n s Hs) as (Eb & B1 & B2 & _ & B4).
  unfold disk_read. rewrite C2, Eb. destruct (_ || _); [|cbn [fst]; lia].
  pose proof (reliable (s - s mod spr) m d ltac:(lia)) as Hr. destruct (read _ m d) as ((r & m1) & d1). cbn [fst] in Hr. destruct (Z.ltb_spec r 0); cbn [fst]; lia.
Qed.
Lemma read_sectors_reliable k : forall offset dest base m d,
  cached contents spr n m d -> 0 <= base < n -> 0 <= offset -> offset + Z.of_nat k <= n -> clear_of_buffer dest (512 * (offset + Z.of_nat k)) ->
  0 <= fst (fst (read_sectors read k dest base offset m d)).
Proof.
  destruct drive_spr as (_ & _ & Hn & _).
  induction k as [|k IH]; intros offset dest base m d C Hb Ho Hk Hd; cbn [read_sectors]; [cbn [fst]; lia|].
  pose proof C as (_ & _ & C3 & _). rewrite C3, shiftl_mul, (u64_small (base + offset)) by lia. pow_consts.
  set (s := if base + offset >=? n then _ else _).
  assert (Hs : 0 <= s < n) by (subst s; rewrite Z.geb_leb; destruct (Z.leb_spec n (base + offset)); [rewrite u64_small by lia|]; lia).
  pose proof (disk_read_reliable (dest + offset * 512) s m d C Hs) as Hr.
  destruct (disk_read read (dest + offset * 512) s m d) as ((r1 & m1) & d1) eqn:E1. cbn [fst] in Hr. destruct (Z.ltb_spec r1 0); [lia|].
  apply (disk_read_spec read contents spr n) in E1 as (C1 & _); [|exact C|exact Hs|unfold clear_of_buffer in *; lia].
  apply IH; [exact C1|exact Hb|lia|lia|unfold clear_of_buffer in *; lia].
Qed.
Lemma read_ok dest base k m d : cached contents spr n m d -> 0 <= base < n -> 0 <= k <= n -> given dest (512 * k) ->
  exists m' d', disk_read_sectors read dest base k m d = (0, m', d') /\ cached contents spr n m' d' /\
    ldn m' dest (Z.to_nat (512 * k)) = sectors_from contents n (Z.to_nat k) base /\ forall y, ~ own y -> ld8 m' y = ld8 m y.
Proof.
  intros C Hb Hk Hd. assert (Hcl : clear_of_buffer dest (512 * k)).
  { unfold clear_of_buffer, given, disk_buffer, load_buffer, LOAD_LEN, DISK_BUFFER_SIZE, SECTOR_SIZE in *. lia. }
  pose proof (read_sectors_reliable (Z.to_nat k) 0 dest base m d C Hb ltac:(lia) ltac:(lia)) as Hr. rewrite Z2Nat.id in Hr by lia. specialize (Hr Hcl).
  fold (disk_read_sectors read dest base k m d) in Hr.
  destruct (disk_read_sectors read dest base k m d) as ((r & m') & d') eqn:E. cbn [fst] in Hr.
  apply (disk_read_sectors_spec read contents spr n) in E as (P1 & P2 & P3); [|exact C|exact Hb|exact Hk|exact Hcl].
  destruct P3 as [P3|(-> & P3)]; [lia|]. exists m', d'. split; [reflexivity|]. split; [exact P1|]. split; [exact P3|].
  intros y Hy. apply P2; unfold own, given, disk_buffer, load_buffer, LOAD_LEN, DISK_BUFFER_SIZE, SECTOR_SIZE in *; lia.
Qed.

Context (big : LOAD_SECTORS <= n).
Lemma wrap_once b : 0 <= b < 2 * n -> (if b >=? n then u64 (b - n) else b) = b mod n.
Proof.
  destruct drive_spr as (_ & _ & Hn & _). intros Hb. rewrite Z.geb_leb. destruct (Z.leb_spec n b).
  - rewrite u64_small by lia. apply (Z.mod_unique_pos _ _ 1); lia.
  - symmetry. apply Z.mod_small. lia.
Qed.
(** [load_image] gives its consumer the pieces of [feed]. *)
Lemma load_image_feeds dl f : consumes dl f -> forall fuel block offset size m x a d e a',
  cached contents spr n m d -> R m x a -> 0 <= block < n -> 1 <= size <= LOAD_SECTORS -> 0 <= offset <= 512 * size ->
  feed f fuel block (ldn m (load_buffer + offset) (Z.to_nat (512 * size - offset))) size a = Some (e, a') ->
  exists m' x' d', load_image read fuel load_buffer size block offset dl (m, x) d = Some (e, (m', x'), d') /\
    cached contents spr n m' d' /\ R m' x' a'.
Proof.
  intros F. destruct drive_spr as (_ & _ & Hn & _). unfold load_image.
  induction fuel as [|fuel IH]; intros block offset size m x a d e a' C Hr Hb Hs Ho E; cbn [feed] in E; [discriminate|].
  cbn [loop]. unfold load_round at 1. unfold LOAD_SECTORS in *.
  assert (El : u32 (Z.shiftl size 9 - offset) = 512 * size - offset) by (rewrite shiftl_mul by lia; pow_consts; rewrite u32_small; lia).
  rewrite El. destruct (consume dl f F (load_buffer + offset) (512 * size - offset) m x a Hr) as (o & m1 & x1 & a1 & Ed & Ef & R1 & K1).
  { unfold given, LOAD_LEN, SECTOR_SIZE. lia. }
  rewrite Ed. rewrite Ef in E.
  assert (C1 : cached contents spr n m1 d).
  { apply (cached_ext read contents spr n m); [intros y Hy; apply K1|exact C].
    unfold own, disk_buffer, DISK_BUFFER_SIZE, load_buffer, LOAD_LEN, SECTOR_SIZE in *. lia. }
  destruct o as [k|v|mc en].
  - pose proof (declines dl f F _ _ _ _ Ef) as Hk. unfold LOAD_SECTORS in Hk. pose proof C as (_ & _ & C3 & _). rewrite C3.
    rewrite (u64_small (block + k + size)), wrap_once by lia. set (block' := (block + k + size) mod n) in *.
    assert (Hb' : 0 <= block' < n) by (apply Z.mod_pos_bound; lia).
    destruct (read_ok load_buffer block' 1 m1 d C1 Hb') as (m2 & d2 & E2 & C2 & L2 & K2).
    { lia. }
    { unfold given, LOAD_LEN, SECTOR_SIZE. lia. }
    rewrite E2. cbn [Z.ltb Z.compare]. cbv iota.
    apply (IH block' 0 1 m2 x1 a1); [exact C2|apply (R_frame m1); [exact R1|exact K2]|exact Hb'|lia|lia|].
    rewrite <- E. f_equal. rewrite Z.add_0_r, Z.sub_0_r, L2. change (Z.to_nat 1) with 1%nat. cbn [sectors_from].
    now rewrite app_nil_r, (Z.mod_small block') by lia.
  - injection E as <- <-. exists m1, x1, d. auto.
  - injection E as <- <-. exists m1, x1, d. auto.
Qed.
End loading.

(** ** The search for an image *)

Section search.
Context (read : Z -> mem -> disk -> Z * mem * disk) (contents : Z -> list Z) (spr n : Z) `{D : !Drive read contents spr n}.
Context {X A : Type} (R : mem -> X -> A -> Prop) (formats : list (probe_t (mem * X))).

(** What the formats make of the bytes from a position on: nothing, or a consumer. *)
Context (aprobe : list Z -> A -> option (consumer (A := A)) * A).
(** The image formats act on the bytes they are given as [aprobe] says, and leave this component's memory alone. *)
Definition formats_are : Prop := forall data len m x a, R m x a -> given data len ->
  exists r m' x' f a', probe_image formats data len (m, x) = (r, (m', x')) /\ aprobe (ldn m data (Z.to_nat len)) a = (f, a') /\
    R m' x' a' /\ (forall y, own y -> ld8 m' y = ld8 m y) /\
    match r, f with
    | Some dl, Some f => consumes n R dl f
    | None, None => True
    | _, _ => False
    end.

(** The positions [off + inc], [off + 2 * inc], ... *)
Fixpoint run (k : nat) (inc off : Z) : list Z :=
  match k with
  | O => []
  | S k => (off + inc) :: run k inc (off + inc)
  end.
(** The specification of [disk_load]: the positions of the buffer [buf], whose first sector is [start], are probed in turn; an image
    that gives up with the state -2 is passed over. *)
Fixpoint try_all (fuel : nat) (start : Z) (buf : list Z) (ps : list Z) (a : A) : option (disk_end * A) :=
  match ps with
  | [] => Some (DkReturn (-1), a)
  | p :: ps =>
      let bytes := skipn (Z.to_nat p) buf in
      match aprobe bytes a with
      | (None, a) => try_all fuel start buf ps a
      | (Some f, a) =>
          match feed contents n f fuel start bytes LOAD_SECTORS a with
          | Some (DkJump v, a) => if v =? -2 then try_all fuel start buf ps a else Some (DkJump (if v =? 0 then 1 else v), a)
          | r => r
          end
      end
  end.

(** The first position at which something is found, and the positions after it. *)
Fixpoint scan (buf : list Z) (ps : list Z) (a : A) : option (Z * list Z * consumer) * A :=
  match ps with
  | [] => (None, a)
  | p :: ps =>
      match aprobe (skipn (Z.to_nat p) buf) a with
      | (None, a) => scan buf ps a
      | (Some f, a) => (Some (p, ps, f), a)
      end
  end.
Lemma try_all_scan fuel start buf ps a : try_all fuel start buf ps a =
  match scan buf ps a with
  | (None, a) => Some (DkReturn (-1), a)
  | (Some (p, ps, f), a) =>
      match feed contents n f fuel start (skipn (Z.to_nat p) buf) LOAD_SECTORS a with
      | Some (DkJump v, a) => if v =? -2 then try_all fuel start buf ps a else Some (DkJump (if v =? 0 then 1 else v), a)
      | r => r
      end
  end.
Proof.
  revert a. induction ps as [|p ps IH]; intros a; cbn [try_all scan]; [reflexivity|]. destruct (aprobe _ a) as ([f|] & a1); [reflexivity|apply IH].
Qed.
Lemma scan_app buf ps qs a : scan buf (ps ++ qs) a =
  match scan buf ps a with
  | (None, a) => scan buf qs a
  | (Some (p, rest, f), a) => (Some (p, rest ++ qs, f), a)
  end.
Proof. revert a. induction ps as [|p ps IH]; intros a; cbn [app scan]; [reflexivity|]. destruct (aprobe _ a) as ([f|] & a1); [reflexivity|apply IH]. Qed.

Definition LAST : Z := LOAD_LEN - SECTOR_SIZE.
Definition end_of (inc : Z) : Z := if inc >? 0 then LAST else 0.
Definition towards (inc off : Z) (k : nat) : Prop := (inc = 16 \/ inc = -16) /\ (1 <= k)%nat /\ 0 <= off <= LAST + 16 /\ off + inc * Z.of_nat k = end_of inc.

Context (F : formats_are).
Lemma probe_run buf k : forall inc off m x a fuel,
  towards inc off k -> (k <= fuel)%nat -> R m x a -> ldn m load_buffer (Z.to_nat LOAD_LEN) = buf ->
  exists m' x' a', (forall y, own y -> ld8 m' y = ld8 m y) /\ R m' x' a' /\
    match scan buf (run k inc off) a with
    | (None, a1) => a' = a1 /\ probe_buffer formats fuel load_buffer LOAD_LEN inc off (m, x) = Some (None, end_of inc, (m', x'))
    | (Some (p, rest, f), a1) => a' = a1 /\ 0 <= p <= LAST /\ exists dl k' b0, probe_buffer formats fuel load_buffer LOAD_LEN inc off (m, x) = Some (Some dl, p, (m', x')) /\
        consumes n R dl f /\ rest = run k' inc p /\ p + inc * Z.of_nat k' = end_of inc /\ fst (aprobe (skipn (Z.to_nat p) buf) b0) = Some f
    end.
Proof.
  unfold probe_buffer. change (u32 (LOAD_LEN - SECTOR_SIZE)) with LAST.
  induction k as [|k IH]; intros inc off m x a fuel (Hi & Hk & Ho & He) Hf Hr Hbuf; [lia|]. destruct fuel as [|fuel]; [lia|].
  cbn [run scan loop]. fold (end_of inc).
  assert (Hp : 0 <= off + inc <= LAST).
  { unfold end_of in He. unfold LAST, LOAD_LEN, SECTOR_SIZE in *. destruct Hi as [-> | ->]; [change (16 >? 0) with true in He | change (-16 >? 0) with false in He]; lia. }
  assert (He' : (off + inc) + inc * Z.of_nat k = end_of inc) by (rewrite <- He, Nat2Z.inj_succ; ring).
  assert (Hlast : LAST = 15872) by reflexivity. assert (Hlen : LOAD_LEN = 16384) by reflexivity.
  destruct (F (load_buffer + (off + inc)) (LOAD_LEN - (off + inc)) m x a Hr) as (r & m1 & x1 & f & a1 & E1 & E2 & R1 & K1 & M1).
  { unfold given. lia. }
  assert (Pr : probe_round formats load_buffer LOAD_LEN inc (end_of inc) (off, (m, x)) =
    match r with
    | Some dl => inr (Some dl, off + inc, (m1, x1))
    | None => if off + inc =? end_of inc then inr (None, off + inc, (m1, x1)) else inl (off + inc, (m1, x1))
    end).
  { unfold probe_round. rewrite (u32_small (off + inc)), (u32_small (LOAD_LEN - (off + inc))) by lia. rewrite E1. now destruct r. }
  rewrite !Pr. clear Pr. assert (Eb : ldn m (load_buffer + (off + inc)) (Z.to_nat (LOAD_LEN - (off + inc))) = skipn (Z.to_nat (off + inc)) buf).
  { rewrite <- Hbuf. replace (Z.to_nat LOAD_LEN) with (Z.to_nat (off + inc) + Z.to_nat (LOAD_LEN - (off + inc)))%nat by lia.
    rewrite ldn_app, skipn_app, length_ldn, Nat.sub_diag, skipn_all2 by (rewrite length_ldn; lia). cbn [skipn app]. rewrite Z2Nat.id by lia. reflexivity. }
  rewrite Eb in E2. rewrite E2. destruct r as [dl|], f as [f|]; try contradiction.
  - exists m1, x1, a1. split; [exact K1|]. split; [exact R1|]. split; [reflexivity|]. split; [exact Hp|].
    exists dl, k, a. split; [reflexivity|]. split; [exact M1|]. split; [reflexivity|]. split; [lia|]. now rewrite E2.
  - destruct k as [|k].
    + rewrite Z.mul_0_r, Z.add_0_r in He'. rewrite He', Z.eqb_refl. cbn [run scan].
      exists m1, x1, a1. split; [exact K1|]. split; [exact R1|]. split; reflexivity.
    + destruct (Z.eqb_spec (off + inc) (end_of inc)) as [Eq|Eq]; [exfalso; destruct Hi as [-> | ->]; lia|].
      destruct (IH inc (off + inc) m1 x1 a1 fuel) as (m' & x' & a' & K' & R' & P').
      { split; [exact Hi|]. split; [lia|]. split; [lia|exact He']. }
      { lia. }
      { exact R1. }
      { rewrite <- Hbuf. apply ldn_ext. intros y Hy. apply K1. unfold own, disk_buffer, load_buffer, LOAD_LEN, SECTOR_SIZE in *. lia. }
      exists m', x', a'. split; [intros y Hy; rewrite K', K1 by exact Hy; reflexivity|]. split; [exact R'|exact P'].
Qed.

Context (reliable : forall base m d, 0 <= base < n -> 0 <= fst (fst (read base m d))).
Context (R_frame : forall m m' x a, R m x a -> (forall y, ~ own y -> ld8 m' y = ld8 m y) -> R m' x a).
Context (big : LOAD_SECTORS <= n).
Context (start : Z) (start_ok : 0 <= start < n).
Definition window : list Z := sectors_from contents n (Z.to_nat LOAD_SECTORS) start.
(** No image starts at the two ends of the buffer. *)
Definition ends_empty : Prop := forall p a, p = 0 \/ p = LAST -> fst (aprobe (skipn (Z.to_nat p) window) a) = None.
Context (empty : ends_empty).

(** What is left to search when the search stands at [off] in direction [inc]. *)
Definition pending (increment inc off : Z) (ps : list Z) : Prop := exists k, towards inc off k /\ (k <= 1000)%nat /\
  (inc = increment /\ ps = run k inc off ++ run 992 (- inc) (end_of inc) \/ inc = - increment /\ ps = run k inc off).
Lemma towards_back inc : inc = 16 \/ inc = -16 -> towards (- inc) (end_of inc) 992.
Proof. intros [-> | ->]; repeat split; unfold LAST, LOAD_LEN, SECTOR_SIZE; cbn; try lia; auto. Qed.
Lemma found_towards inc p k f b : inc = 16 \/ inc = -16 -> 0 <= p <= LAST -> p + inc * Z.of_nat k = end_of inc ->
  fst (aprobe (skipn (Z.to_nat p) window) b) = Some f -> towards inc p k /\ (k <= 1000)%nat.
Proof.
  intros Hi Hp He Hf. assert (Hk : (1 <= k)%nat).
  { destruct k as [|k]; [|lia]. rewrite (empty p b) in Hf; [discriminate|]. unfold end_of in He. destruct (inc >? 0); lia. }
  unfold LAST, LOAD_LEN, SECTOR_SIZE in *. split; [split; [exact Hi|split; [exact Hk|split; [unfold LAST, LOAD_LEN, SECTOR_SIZE; lia|exact He]]]|].
  unfold end_of in He. unfold LAST, LOAD_LEN, SECTOR_SIZE in He. destruct Hi as [-> | ->]; [change (16 >? 0) with true in He | change (-16 >? 0) with false in He]; lia.
Qed.

(** After the probe: the image is window_loaded, and where the search goes on if it gives up. *)
Definition after_load (e : disk_end) (inc p : Z) (st : mem * X) (d : disk) : (Z * Z * (mem * X) * disk) + option (disk_end * (mem * X) * disk) :=
  match e with
  | DkJump v => if v =? -2 then inl (inc, p, st, d) else inr (Some (DkJump (if v =? 0 then 1 else v), st, d))
  | _ => inr (Some (e, st, d))
  end.
(** The window is in the buffer. *)
Definition window_loaded (m : mem) (d : disk) : Prop := cached contents spr n m d /\ ldn m load_buffer (Z.to_nat LOAD_LEN) = window.
Lemma window_loaded_ext m m' d : (forall y, own y -> ld8 m' y = ld8 m y) -> window_loaded m d -> window_loaded m' d.
Proof.
  intros K (C & L). split.
  - apply (cached_ext read contents spr n m); [|exact C]. intros y Hy. apply K. unfold own, disk_buffer, DISK_BUFFER_SIZE, load_buffer, LOAD_LEN, SECTOR_SIZE in *. lia.
  - rewrite <- L. apply ldn_ext. intros y Hy. apply K. unfold own, disk_buffer, load_buffer, LOAD_LEN, SECTOR_SIZE in *. lia.
Qed.
Lemma try_load_spec fuel inc m x a d p dl f e a' : window_loaded m d -> R m x a -> 0 <= p <= LAST -> consumes n R dl f ->
  feed contents n f fuel start (skipn (Z.to_nat p) window) LOAD_SECTORS a = Some (e, a') ->
  exists m' x' d', try_load read fuel start inc p dl (m, x) d = after_load e inc p (m', x') d' /\ cached contents spr n m' d' /\ R m' x' a'.
Proof.
  intros (C & L) Hr Hp Hc Ef. assert (Hlast : LAST = 15872) by reflexivity.
  destruct (load_image_feeds read contents spr n R reliable R_frame big dl f Hc fuel start p LOAD_SECTORS m x a d e a')
    as (m' & x' & d' & E & C' & R'); [exact C|exact Hr|exact start_ok|unfold LOAD_SECTORS; lia|unfold LOAD_SECTORS; lia| |].
  - rewrite <- Ef. f_equal. rewrite <- L. change (512 * LOAD_SECTORS) with 16384. change (Z.to_nat LOAD_LEN) with (Z.to_nat 16384).
    replace (Z.to_nat 16384) with (Z.to_nat p + Z.to_nat (16384 - p))%nat by lia.
    rewrite ldn_app, skipn_app, length_ldn, Nat.sub_diag, skipn_all2 by (rewrite length_ldn; lia). cbn [skipn app]. rewrite Z2Nat.id by lia. reflexivity.
  - exists m', x', d'. split; [|split; [exact C'|exact R']]. unfold try_load. rewrite E. unfold after_load. now destruct e.
Qed.
(** How one search of the window ends. *)
Definition ends (increment : Z) (fuel : nat) (scanned : option (Z * list Z * consumer) * A)
    (r : (Z * Z * (mem * X) * disk) + option (disk_end * (mem * X) * disk)) : Prop :=
  match scanned with
  | (None, a1) => exists m' x' d', r = inr (Some (DkReturn (-1), (m', x'), d')) /\ R m' x' a1
  | (Some (p, rest, f), a1) => forall e a2, feed contents n f fuel start (skipn (Z.to_nat p) window) LOAD_SECTORS a1 = Some (e, a2) ->
      exists inc' m' x' d', r = after_load e inc' p (m', x') d' /\ cached contents spr n m' d' /\ R m' x' a2 /\ pending increment inc' p rest
  end.
Lemma try_back_spec fuel increment k off m x a d :
  increment = 16 \/ increment = -16 -> towards (- increment) off k -> (k <= fuel)%nat -> window_loaded m d -> R m x a ->
  ends increment fuel (scan window (run k (- increment) off) a) (try_back read formats fuel start (- increment) off (m, x) d).
Proof.
  intros Hi Ht Hf L Hr. destruct (probe_run window k (- increment) off m x a fuel Ht Hf Hr (proj2 L)) as (m1 & x1 & a1 & K1 & R1 & P1).
  pose proof (window_loaded_ext m m1 d K1 L) as L1. unfold ends, try_back. destruct (scan window _ a) as ([((p & rest) & f)|] & a2).
  - destruct P1 as (-> & Hp & dl & k' & b & E & Hc & Er & Et & Hb). rewrite E. intros e a3 Ef.
    destruct (try_load_spec fuel (- increment) m1 x1 a2 d p dl f e a3 L1 R1 Hp Hc Ef) as (m' & x' & d' & E' & C' & R').
    exists (- increment), m', x', d'. split; [exact E'|]. split; [exact C'|]. split; [exact R'|].
    destruct (found_towards (- increment) p k' f b) as (T1 & T2); [lia|exact Hp|exact Et|exact Hb|]. exists k'. auto.
  - destruct P1 as (-> & E). rewrite E. exists m1, x1, d. auto.
Qed.
Lemma disk_attempt_spec fuel increment inc off m x a d ps :
  increment = 16 \/ increment = -16 -> pending increment inc off ps -> (1000 <= fuel)%nat -> cached contents spr n m d -> R m x a ->
  ends increment fuel (scan window ps a) (disk_attempt read formats fuel start increment (inc, off, (m, x), d)).
Proof.
  intros Hi (k & Ht & Hk & Hps) Hf C Hr. destruct drive_spr as (_ & _ & Hn & _).
  destruct (read_ok read contents spr n reliable load_buffer start LOAD_SECTORS m d C start_ok) as (m1 & d1 & E1 & C1 & L1 & K1).
  { unfold LOAD_SECTORS in *. lia. }
  { unfold given, LOAD_LEN, LOAD_SECTORS, SECTOR_SIZE. lia. }
  change (Z.to_nat (512 * LOAD_SECTORS)) with (Z.to_nat LOAD_LEN) in L1. pose proof (conj C1 L1 : window_loaded m1 d1) as L.
  assert (R1 : R m1 x a) by (apply (R_frame m); assumption).
  unfold disk_attempt. rewrite E1. cbn [Z.ltb Z.compare]. cbv iota. destruct Hps as [(-> & ->)|(-> & ->)].
  - rewrite Z.eqb_refl, scan_app.
    destruct (probe_run window k increment off m1 x a fuel Ht ltac:(lia) R1 L1) as (m2 & x2 & a2 & K2 & R2 & P2).
    pose proof (window_loaded_ext m1 m2 d1 K2 L) as L2. destruct (scan window (run k increment off) a) as ([((p & rest) & f)|] & a3).
    + destruct P2 as (-> & Hp & dl & k' & b & E & Hc & -> & Et & Hb). rewrite E. intros e a4 Ef.
      destruct (try_load_spec fuel increment m2 x2 a3 d1 p dl f e a4 L2 R2 Hp Hc Ef) as (m' & x' & d' & E' & C' & R').
      exists increment, m', x', d'. split; [exact E'|]. split; [exact C'|]. split; [exact R'|].
      destruct (found_towards increment p k' f b Hi Hp Et Hb) as (T1 & T2). exists k'. auto.
    + destruct P2 as (-> & E). rewrite E. apply try_back_spec; [exact Hi|now apply towards_back|lia|exact L2|exact R2].
  - destruct (Z.eqb_spec (- increment) increment); [lia|]. apply try_back_spec; [exact Hi|exact Ht|lia|exact L|exact R1].
Qed.

Lemma scan_rest buf ps a p rest f a1 : scan buf ps a = (Some (p, rest, f), a1) -> (length rest < length ps)%nat.
Proof.
  revert a. induction ps as [|q ps IH]; intros a; cbn [scan length]; [discriminate|]. destruct (aprobe _ a) as ([g|] & b).
  - intros E. assert (rest = ps) by congruence. subst. lia.
  - intros E. apply IH in E. lia.
Qed.
Lemma attempts_spec fuel increment tries : increment = 16 \/ increment = -16 -> (1000 <= fuel)%nat -> forall ps inc off m x a d e a',
  pending increment inc off ps -> (length ps < tries)%nat -> cached contents spr n m d -> R m x a ->
  try_all fuel start window ps a = Some (e, a') ->
  exists m' x' d', loop tries (disk_attempt read formats fuel start increment) (inc, off, (m, x), d) = Some (Some (e, (m', x'), d')) /\ R m' x' a'.
Proof.
  intros Hi Hf. induction tries as [|tries IH]; intros ps inc off m x a d e a' Hp Hl C Hr E; [lia|].
  pose proof (disk_attempt_spec fuel increment inc off m x a d ps Hi Hp Hf C Hr) as St. cbn [loop]. rewrite try_all_scan in E. unfold ends in St.
  destruct (scan window ps a) as ([((p & rest) & f)|] & a1) eqn:Es.
  - destruct (feed contents n f fuel start _ _ a1) as [(e2 & a2)|] eqn:Ef; [|discriminate].
    destruct (St e2 a2 eq_refl) as (inc' & m' & x' & d' & -> & C' & R' & P'). unfold after_load. destruct e2 as [r|v|mc en].
    + injection E as <- <-. exists m', x', d'. auto.
    + destruct (v =? -2); [|injection E as <- <-; exists m', x', d'; auto].
      apply (IH rest inc' p m' x' a2); try assumption. apply scan_rest in Es. lia.
    + injection E as <- <-. exists m', x', d'. auto.
  - injection E as <- <-. destruct St as (m' & x' & d' & -> & R'). exists m', x', d'. auto.
Qed.
End search.

(** The sector at the start of the buffer, and the positions that [disk_load] looks at: from the offset given to one end of the
    buffer, and from there to the other. *)
Definition first_sector (n offset : Z) : Z := if offset / 512 <? 16 then n - 16 + offset / 512 else offset / 512.
Definition positions (direction offset : Z) : list Z :=
  let inc := if direction <? 0 then -16 else 16 in
  let from := LOAD_LEN / 2 + offset mod 512 - inc in
  run (Z.to_nat (Z.abs (end_of inc - from) / 16)) inc from ++ run 992 (- inc) (end_of inc).

(** The same, written out: with the buffer of 16384 bytes cut at every 16 bytes, the positions from 8192 and the offset within its sector on go up
    to 15872, where the last sector of the buffer starts, and from there down to 0; or first down to 0 and then up to 15872.  So
    those between the start of the search and the end it reaches first are probed twice, and those inside the last sector never. *)
Definition searched (direction offset : Z) : list Z :=
  let from := Z.to_nat ((8192 + offset mod 512) / 16) in
  map (fun k => 16 * Z.of_nat k)
    (if direction <? 0 then rev (seq 0 (S from)) ++ seq 1 992
     else seq from (993 - from) ++ rev (seq 0 992)).
Lemma positions_searched direction offset : offset mod 16 = 0 -> positions direction offset = searched direction offset.
Proof.
  intros Ha. unfold positions, searched. assert (Hq : exists q, 0 <= q < 32 /\ offset mod 512 = 16 * q) by (exists (offset mod 512 / 16); Z.div_mod_to_equations; lia).
  destruct Hq as (q & Hq & ->).
  pose (same := fun a b : list Z => if list_eq_dec Z.eq_dec a b then true else false).
  assert (Hs : forall a b, same a b = true -> a = b) by (intros a b; unfold same; now destruct (list_eq_dec Z.eq_dec a b)).
  apply Hs. destruct (direction <? 0).
  - apply (all_below_spec 32 (fun q => same (run (Z.to_nat (Z.abs (end_of (-16) - (LOAD_LEN / 2 + 16 * q - -16)) / 16)) (-16) (LOAD_LEN / 2 + 16 * q - -16) ++ run 992 16 (end_of (-16)))
      (map (fun k => 16 * Z.of_nat k) (rev (seq 0 (S (Z.to_nat ((8192 + 16 * q) / 16)))) ++ seq 1 992)))); [vm_compute; reflexivity|exact Hq].
  - apply (all_below_spec 32 (fun q => same (run (Z.to_nat (Z.abs (end_of 16 - (LOAD_LEN / 2 + 16 * q - 16)) / 16)) 16 (LOAD_LEN / 2 + 16 * q - 16) ++ run 992 (-16) (end_of 16))
      (map (fun k => 16 * Z.of_nat k) (let from := Z.to_nat ((8192 + 16 * q) / 16) in seq from (993 - from) ++ rev (seq 0 992))))); [vm_compute; reflexivity|exact Hq].
Qed.
(** In the middle of the half searched first, and in the last sector. *)
Lemma search_uneven : count_occ Z.eq_dec (searched 1 0) 12288 = 2%nat /\ count_occ Z.eq_dec (searched 1 0) 4096 = 1%nat /\ count_occ Z.eq_dec (searched 1 0) 16000 = 0%nat.
Proof. vm_compute. auto. Qed.

(** ** The two drivers *)

(** An IDE drive: the sector that the registers of a command address, in the numbering of the drive. *)
Definition addressed (info : Ide.harddisk_info) (c : Ide.ide_pio_command) : Z :=
  let low := Ide.lba_low c + 256 * Ide.lba_mid c + 65536 * Ide.lba_high c in
  if Ide.command c =? 0x24 then
    low + 16777216 * (Ide.lba_low2 c + 256 * Ide.lba_mid2 c + 65536 * Ide.lba_high2 c)
  else if Z.testbit (Ide.device c) 6 then low + 16777216 * Z.land (Ide.device c) 0xf
  else ((Ide.lba_mid c + 256 * Ide.lba_high c) * Ide.heads info + Z.land (Ide.device c) 0xf) * Ide.sectors_per_track info + Ide.lba_low c - 1.
(** A drive takes a command for a read of one sector when its bit says that it is meant, the sector count is one, and the command is READ
    SECTORS (0x20), or READ SECTORS EXT (0x24) with an LBA address; this is the sector. *)
Definition reads_sector (info : Ide.harddisk_info) (c : Ide.ide_pio_command) : option Z :=
  if Bool.eqb (Z.testbit (Ide.device c) 4) (negb (Ide.slave info =? 0)) && (Ide.sector_count c =? 1) &&
     ((Ide.command c =? 0x20) || ((Ide.command c =? 0x24) && (Ide.sector_count2 c =? 0) && Z.testbit (Ide.device c) 6))
  then Some (addressed info c) else None.
(** How far the registers of a mode reach. *)
Definition reach (info : Ide.harddisk_info) : Z :=
  if Ide.address_mode info =? Ide.ADDRESS_MODE_CHS then Z.min 4294967296 (65536 * Ide.heads info * Ide.sectors_per_track info)
  else if Ide.address_mode info =? Ide.ADDRESS_MODE_LBA then 268435456
  else 281474976710656.
Record info_ok (info : Ide.harddisk_info) : Prop := {
  io_mode : Ide.address_mode info = 0 /\ 1 <= Ide.heads info <= 16 /\ 1 <= Ide.sectors_per_track info <= 255 \/
            Ide.address_mode info = 1 \/ Ide.address_mode info = 2;
  io_slave : Ide.slave info = 0 \/ Ide.slave info = 16;
  io_sectors : 0 < Ide.info_sectors info < 281474976710656 /\ Ide.info_sectors info <= reach info;
}.
Lemma device_bits h sl : 0 <= h < 16 -> sl = 0 \/ sl = 16 ->
  let lba := u8 (Z.lor (Z.lor (Z.lor 0xA0 h) sl) 0x40) in
  let chs := u8 (Z.lor (Z.lor (Z.lor 0xA0 h) sl) 0) in
  Z.testbit lba 6 = true /\ Z.land lba 0xf = h /\ Z.land lba 0x10 = sl /\
  Z.testbit chs 6 = false /\ Z.land chs 0xf = h /\ Z.land chs 0x10 = sl.
Proof.
  intros Hh Hs. set (ok := fun h => forallb (fun sl =>
    let lba := u8 (Z.lor (Z.lor (Z.lor 0xA0 h) sl) 0x40) in
    let chs := u8 (Z.lor (Z.lor (Z.lor 0xA0 h) sl) 0) in
    Z.testbit lba 6 && (Z.land lba 0xf =? h) && (Z.land lba 0x10 =? sl) &&
    negb (Z.testbit chs 6) && (Z.land chs 0xf =? h) && (Z.land chs 0x10 =? sl)) [0; 16]).
  assert (T : ok h = true) by (apply (all_below_spec 16 ok); [vm_compute; reflexivity|lia]).
  unfold ok in T. cbn [forallb] in T. rewrite !andb_true_iff, !negb_true_iff, !Z.eqb_eq in T. cbv zeta. destruct Hs as [-> | ->]; tauto.
Qed.
Lemma lba_low_bytes s : 0 <= s -> Z.land s 0xff + 256 * Z.land (Z.shiftr s 8) 0xff + 65536 * Z.land (Z.shiftr s 16) 0xff = s mod 16777216.
Proof.
  intros Hs. change 0xff with (2 ^ 8 - 1). rewrite !land_ones_mod, !shiftr_div by (try apply Z.shiftr_nonneg; lia). pow_consts. zmod.
Qed.

(** The command that [ide_read] sends for a sector. *)
Definition ide_command (info : Ide.harddisk_info) (s : Z) : Ide.ide_pio_command :=
  if Ide.address_mode info =? Ide.ADDRESS_MODE_CHS then Ide.read_chs info (u32 s)
  else if Ide.address_mode info =? Ide.ADDRESS_MODE_LBA then Ide.read_lba info (u32 s)
  else Ide.read_lba48 info s.
Lemma chs_addresses info s : 1 <= Ide.heads info <= 16 -> 1 <= Ide.sectors_per_track info <= 255 -> Ide.slave info = 0 \/ Ide.slave info = 16 ->
  0 <= s < 65536 * Ide.heads info * Ide.sectors_per_track info ->
  addressed info (Ide.read_chs info s) = s /\ Z.land (Ide.device (Ide.read_chs info s)) 0x10 = Ide.slave info.
Proof.
  intros Hh Ht Hs Hr. unfold addressed, Ide.read_chs.
  cbn [Ide.command Ide.device Ide.lba_low Ide.lba_mid Ide.lba_high]. set (h := Ide.heads info) in *. set (t := Ide.sectors_per_track info) in *.
  change (Ide.IDE_CMD_READ_SECTORS =? _) with false. cbv iota.
  assert (Hm : 0 <= (s / t) mod h < 16) by (pose proof (Z.mod_pos_bound (s / t) h ltac:(lia)); lia).
  change 0x0f with (2 ^ 4 - 1). rewrite (land_ones_mod ((s / t) mod h)) by lia. change (2 ^ 4) with 16. rewrite (Z.mod_small ((s / t) mod h)) by lia.
  destruct (device_bits ((s / t) mod h) (Ide.slave info) Hm Hs) as (_ & _ & _ & B1 & B2 & B3).
  unfold Ide.IDE_DH_DEFAULT, Ide.IDE_DH_CHS. change (16 - 1) with 0xf. rewrite B1, B2, B3. split; [|reflexivity].
  pose proof (Z.mod_pos_bound s t ltac:(lia)) as M1. pose proof (Z.div_mod s t ltac:(lia)) as M2. pose proof (Z.div_mod (s / t) h ltac:(lia)) as M3.
  assert (0 <= s / t / h < 65536).
  { split; [apply Z.div_pos; [apply Z.div_pos|]; lia|]. apply Z.div_lt_upper_bound; [lia|]. apply Z.div_lt_upper_bound; [lia|]. nia. }
  rewrite land_ff, shiftr_div, land_ff by lia. pow_consts. unfold u8. rewrite (Z.mod_small (1 + s mod t)) by lia.
  assert (Hc : forall c, 0 <= c < 65536 -> c mod 256 + 256 * ((c / 256) mod 256) = c) by (clear; intros c Hc; Z.div_mod_to_equations; lia).
  rewrite Hc by assumption. nia.
Qed.
Lemma command_addresses info s : info_ok info -> 0 <= s < Ide.info_sectors info ->
  addressed info (ide_command info s) = s /\ Z.land (Ide.device (ide_command info s)) 0x10 = Ide.slave info.
Proof.
  intros [Hm Hs (H1 & H2)] Hr. unfold ide_command, reach in *. destruct Hm as [(E & Hh & Ht)|[E|E]]; rewrite E in *.
  - change (0 =? Ide.ADDRESS_MODE_CHS) with true in *. cbv iota in *. rewrite u32_small by lia. apply chs_addresses; lia.
  - change (1 =? Ide.ADDRESS_MODE_CHS) with false in *. change (1 =? Ide.ADDRESS_MODE_LBA) with true in *. cbv iota in *. rewrite u32_small by lia.
    unfold addressed, Ide.read_lba. cbn [Ide.command Ide.device Ide.lba_low Ide.lba_mid Ide.lba_high]. rewrite lba_low_bytes by lia.
    change (Ide.IDE_CMD_READ_SECTORS =? _) with false. cbv iota. change 0x0f with 0xf. rewrite (land_f (Z.shiftr s 24)), shiftr_div by lia. pow_consts.
    rewrite (Z.mod_small (s / 16777216)) by (Z.div_mod_to_equations; lia).
    destruct (device_bits (s / 16777216) (Ide.slave info)) as (B1 & B2 & B3 & _); [Z.div_mod_to_equations; lia|exact Hs|].
    unfold Ide.IDE_DH_DEFAULT, Ide.IDE_DH_LBA. rewrite B1, B2, B3. split; [|reflexivity]. Z.div_mod_to_equations. lia.
  - change (2 =? Ide.ADDRESS_MODE_CHS) with false. change (2 =? Ide.ADDRESS_MODE_LBA) with false. cbv iota.
    unfold addressed, Ide.read_lba48. cbn [Ide.command Ide.device Ide.lba_low Ide.lba_mid Ide.lba_high Ide.lba_low2 Ide.lba_mid2 Ide.lba_high2].
    rewrite lba_low_bytes by lia. change (Ide.IDE_CMD_READ_SECTORS_EXT =? _) with true. cbv iota. rewrite !land_ff, !shiftr_div by lia. pow_consts.
    split; [Z.div_mod_to_equations; lia|]. destruct Hs as [-> | ->]; reflexivity.
Qed.

Lemma testbit_4 d : 0 <= d -> Z.testbit d 4 = negb (Z.land d 0x10 =? 0).
Proof.
  intros Hd. change 0x10 with (2 ^ 4). destruct (Z.testbit d 4) eqn:B.
  - destruct (Z.eqb_spec (Z.land d (2 ^ 4)) 0) as [E|E]; [|reflexivity]. assert (X : Z.testbit (Z.land d (2 ^ 4)) 4 = false) by (rewrite E; apply Z.bits_0).
    rewrite Z.land_spec, B, Z.pow2_bits_true in X by lia. discriminate.
  - rewrite (proj2 (Z.eqb_eq _ 0)); [reflexivity|]. apply Z.bits_inj_0. intros n. rewrite Z.land_spec. destruct (Z.eq_dec n 4) as [->|Hn]; [now rewrite B|].
    rewrite (Z.pow2_bits_false 4 n) by lia. apply andb_false_r.
Qed.
(** The command that is sent is a read of the sector asked for, for the drive that is meant. *)
Lemma command_reads info s : info_ok info -> 0 <= s < Ide.info_sectors info -> reads_sector info (ide_command info s) = Some s.
Proof.
  intros I Hr. destruct (command_addresses info s I Hr) as (A & B). unfold reads_sector. rewrite A.
  assert (D : 0 <= Ide.device (ide_command info s)) by (unfold ide_command; destruct (_ =? _); [|destruct (_ =? _)]; apply u8_range).
  rewrite (testbit_4 _ D), B, Bool.eqb_reflx. unfold ide_command. destruct (io_mode info I) as [(E & _)|[E|E]]; rewrite E; [reflexivity..|].
  change (2 =? Ide.ADDRESS_MODE_CHS) with false. change (2 =? Ide.ADDRESS_MODE_LBA) with false. cbv iota. unfold Ide.read_lba48. cbn [Ide.sector_count Ide.command Ide.sector_count2 Ide.device].
  replace (Z.testbit (u8 (Z.lor (Ide.slave info) Ide.IDE_DH_LBA)) 6) with true; [reflexivity|]. destruct (io_slave info I) as [-> | ->]; reflexivity.
Qed.

(** The geometry that a drive reports is one that [ide_read] can address, for an LBA drive of at most 2^28 sectors, an LBA48 drive,
    or a drive of at most 16 heads and 255 sectors in a track. *)
Lemma init_geometry_ok w slave : (forall i, 0 <= w i < 65536) -> slave = 0 \/ slave = 16 ->
  (if istrue (Z.land (w 49) (Z.shiftl 1 9)) then
     if istrue (Z.land (w 83) (Z.shiftl 1 10)) then w 103 = 0 /\ 0 < w 102 + w 101 + w 100 else 0 < w 61 < 4096
   else 1 <= w 3 <= 16 /\ 1 <= w 6 <= 255 /\ 0 < w 1 /\ w 6 * w 3 * w 1 < 2147483648) ->
  info_ok (Ide.init_geometry w slave).
Proof.
  intros Hw Hs. unfold Ide.init_geometry. destruct (istrue (Z.land (w 49) _)); [destruct (istrue (Z.land (w 83) _))|]; intros H.
  - destruct H as (H1 & H2). assert (E : Z.lor (Z.lor (Z.lor (Z.shiftl (w 103) 48) (Z.shiftl (w 102) 32)) (Z.shiftl (w 101) 16)) (w 100) = w 102 * 4294967296 + w 101 * 65536 + w 100).
    { rewrite H1, Z.shiftl_0_l, Z.lor_0_l. pose proof (Hw 102). pose proof (Hw 101). pose proof (Hw 100).
      rewrite !shiftl_mul by lia. pow_consts. rewrite (lor_add 32 4294967296 (w 102) (w 101 * 65536)) by (reflexivity || lia).
      replace (w 102 * 4294967296 + w 101 * 65536) with ((w 102 * 65536 + w 101) * 65536) by lia. rewrite (lor_add 16 65536) by (reflexivity || lia). lia. }
    pose proof (Hw 102). pose proof (Hw 101). pose proof (Hw 100). rewrite E. constructor; cbn [Ide.address_mode Ide.heads Ide.slave Ide.info_sectors]; auto.
    unfold reach. cbn [Ide.address_mode]. change (Ide.ADDRESS_MODE_LBA48 =? Ide.ADDRESS_MODE_CHS) with false. change (Ide.ADDRESS_MODE_LBA48 =? Ide.ADDRESS_MODE_LBA) with false. cbv iota. lia.
  - pose proof (Hw 60). rewrite shiftl_mul by lia. pow_consts. rewrite (lor_add 16 65536) by (reflexivity || lia). rewrite s32_small, u64_small by lia.
    constructor; cbn [Ide.address_mode Ide.heads Ide.slave Ide.info_sectors]; auto.
    unfold reach. cbn [Ide.address_mode]. change (Ide.ADDRESS_MODE_LBA =? Ide.ADDRESS_MODE_CHS) with false. change (Ide.ADDRESS_MODE_LBA =? Ide.ADDRESS_MODE_LBA) with true. cbv iota. lia.
  - destruct H as (H3 & H6 & H1 & Hp). pose proof (Hw 1). assert (0 < w 6 * w 3 * w 1) by nia. rewrite s32_small, u64_small by lia.
    constructor; cbn [Ide.address_mode Ide.heads Ide.slave Ide.info_sectors Ide.sectors_per_track]; auto.
    unfold reach. cbn [Ide.address_mode Ide.heads Ide.sectors_per_track]. change (Ide.ADDRESS_MODE_CHS =? Ide.ADDRESS_MODE_CHS) with true. cbv iota. nia.
Qed.

(** The members of a command are bytes. *)
Definition command_bytes (c : Ide.ide_pio_command) : Prop :=
  Forall (fun b => 0 <= b < 256)
    [Ide.feature c; Ide.sector_count c; Ide.lba_low c; Ide.lba_mid c; Ide.lba_high c; Ide.device c; Ide.command c;
     Ide.sector_count2 c; Ide.lba_low2 c; Ide.lba_mid2 c; Ide.lba_high2 c].
Lemma land_ff_range x : 0 <= Z.land x 0xff < 256.
Proof. rewrite land_ff. apply Z.mod_pos_bound. reflexivity. Qed.
Lemma ide_command_bytes info s : command_bytes (ide_command info s).
Proof.
  unfold ide_command. destruct (_ =? _); [|destruct (_ =? _)];
    (unfold command_bytes; repeat apply Forall_cons; try apply Forall_nil;
     cbn [Ide.feature Ide.sector_count Ide.lba_low Ide.lba_mid Ide.lba_high Ide.device Ide.command Ide.sector_count2 Ide.lba_low2 Ide.lba_mid2 Ide.lba_high2
          Ide.read_chs Ide.read_lba Ide.read_lba48]; first [apply u8_range | apply land_ff_range | cbv; intuition congruence]).
Qed.
(** A controller carries out a command that reads a sector: its 512 bytes go to the buffer, or it fails.  Nothing is said of other commands. *)
Definition transfers (info : Ide.harddisk_info) (medium : Z -> list Z) (pio_data_in : Ide.ide_pio_command -> Z -> mem -> Z * mem) : Prop :=
  forall c s buf m r m', command_bytes c -> reads_sector info c = Some s -> 0 <= s < Ide.info_sectors info -> pio_data_in c buf m = (r, m') ->
    (forall x, ~ (buf <= x < buf + 512) -> ld8 m' x = ld8 m x) /\
    (r = -1 \/ r = 0 /\ ldn m' buf 512 = medium s).
Lemma ide_drive_ok pio info medium : transfers info medium pio -> info_ok info -> (forall s, 0 <= s < Ide.info_sectors info -> length (medium s) = 512%nat) ->
  Drive (Ide.ide_read pio info) medium 1 (Ide.info_sectors info).
Proof.
  intros T I L. pose proof (io_sectors info I) as (S1 & S2). constructor.
  - split; [lia|]. split; [exists (Ide.info_sectors info); lia|]. lia.
  - exact L.
  - intros base m d r m' d' Hb _ Hr _ E. unfold Ide.ide_read in E. rewrite Z.gtb_ltb in E. destruct (Z.ltb_spec (Ide.info_sectors info) base); [lia|].
    pose proof (command_reads info base I Hr) as A. cbn [dk_buffer set_cache] in E. rewrite Hb in E.
    destruct (pio (ide_command info base) disk_buffer m) as (r1 & m1) eqn:Ep.
    assert (E2 : (r1, m1, if negb (r1 =? -1) then set_cache base 512 (set_cache 0 0 d) else set_cache 0 0 d) = (r, m', d')).
    { rewrite <- E. unfold ide_command in Ep. destruct (io_mode info I) as [(Em & _)|[Em|Em]]; rewrite Em in *;
        [change (0 =? Ide.ADDRESS_MODE_CHS) with true in *|change (1 =? Ide.ADDRESS_MODE_CHS) with false in *; change (1 =? Ide.ADDRESS_MODE_LBA) with true in *|
         change (2 =? Ide.ADDRESS_MODE_CHS) with false in *; change (2 =? Ide.ADDRESS_MODE_LBA) with false in *; change (2 =? Ide.ADDRESS_MODE_LBA48) with true in *];
        cbv iota in *; rewrite Ep; reflexivity. }
    clear E. apply triple_inj in E2 as (<- & <- & <-). destruct (T _ _ _ _ _ _ (ide_command_bytes info base) A Hr Ep) as (K & P). split.
    + intros x Hx. apply K. unfold disk_buffer, DISK_BUFFER_SIZE, SECTOR_SIZE in *. lia.
    + destruct P as [-> | (-> & P)]; cbn [Z.ltb Z.compare Z.eqb Pos.eqb negb]; [reflexivity|]. split; [reflexivity|].
      intros i Hi. assert (i = 0) by lia. subst i. rewrite Z.mul_0_r, !Z.add_0_r. exact P.
Qed.

(** A floppy disk: a read of whole tracks fills the buffer with the sectors of the track and head, or fails. *)
Definition reads_tracks (medium : Z -> list Z) (floppy_read_sectors : Z -> Z -> Z -> Z -> mem -> Z * mem) : Prop :=
  forall buf head track m r m', floppy_read_sectors buf (SECTOR_SIZE * 18) head track m = (r, m') ->
    (forall x, ~ (buf <= x < buf + SECTOR_SIZE * 18) -> ld8 m' x = ld8 m x) /\
    (r < 0 \/ 0 <= r /\ forall i, 0 <= i < 18 -> ldn m' (buf + SECTOR_SIZE * i) 512 = medium ((track * 2 + head) * 18 + i)).
Lemma floppy_drive_ok seek rd medium : reads_tracks medium rd -> (forall s, 0 <= s < 2880 -> length (medium s) = 512%nat) ->
  Drive (Floppy.floppy_read seek rd) medium 18 2880.
Proof.
  intros T L. constructor.
  - split; [lia|]. split; [exists 160; reflexivity|]. lia.
  - exact L.
  - intros base m d r m' d' Hb Hs Hr Hm E. unfold Floppy.floppy_read in E. cbn [sectors_per_read dk_buffer set_cache] in E.
    rewrite Hs, Hb, u32_small in E by lia. apply Z.mod_divide in Hm as (q & ->); [|lia]. rewrite Z.div_mul in E by lia.
    unfold Floppy.DISK_H1440_HEAD, Floppy.DISK_H1440_TRACK in E. destruct (negb _).
    { apply triple_inj in E as (<- & <- & <-). split; reflexivity. }
    destruct (rd disk_buffer (SECTOR_SIZE * 18) (q mod 2) ((q / 2) mod 80) m) as (r1 & m1) eqn:Er.
    destruct (T _ _ _ _ _ _ Er) as (K & P). rewrite Z.geb_leb in E. destruct (Z.leb_spec 0 r1).
    + rewrite u32_small in E by lia. apply triple_inj in E as (<- & <- & <-). split; [exact K|]. destruct (Z.ltb_spec r1 0); [lia|].
      split; [reflexivity|]. destruct P as [P|(_ & P)]; [lia|]. intros i Hi. rewrite (P i Hi). f_equal.
      rewrite (Z.mod_small (q / 2)) by (Z.div_mod_to_equations; lia). Z.div_mod_to_equations. lia.
    + apply triple_inj in E as (<- & <- & <-). split; [exact K|]. reflexivity.
Qed.

(** ** Properties *)

(** C28: sectors are read through the cache.  Whatever the cache of the driver holds, as long as it is what the driver says,
    [disk_read_sectors] leaves the contents of the sectors asked for in the buffer, going on at the start of the disk
    behind its end, or reports the failure of the driver; and in both cases the cache is again as the driver says, and
    no other memory has changed. *)
Theorem disk_reads_sectors read contents spr n `{D : !Drive read contents spr n} dest base k m d r m' d' :
  cached contents spr n m d -> 0 <= base < n -> 0 <= k <= n -> clear_of_buffer dest (512 * k) ->
  disk_read_sectors read dest base k m d = (r, m', d') ->
  cached contents spr n m' d' /\
  (forall x, ~ (disk_buffer <= x < disk_buffer + DISK_BUFFER_SIZE) -> ~ (dest <= x < dest + 512 * k) -> ld8 m' x = ld8 m x) /\
  (r < 0 \/ r = 0 /\ ldn m' dest (Z.to_nat (512 * k)) = sectors_from contents n (Z.to_nat k) base).
Proof. apply disk_read_sectors_spec. exact D. Qed.

(** C27: [disk_load] implements the search of the first 16 KB around the offset.  With formats that act on the bytes they are given, and a
    disk that can be read, the positions [searched] are probed in turn: every 16 bytes from the offset asked for to
    one end of the buffer - its start, or the start of its last sector - and from there to the other.  (So the half that is searched first
    is probed again on the way back, and an image inside the last sector is not found.)  An image that is found is given its
    sectors in order, without those it declines; when it gives
    up with the state -2 the search goes on behind it; any other end of it is the end of [disk_load], and -1 that nothing
    was found.  No image may be found at the two ends of the buffer. *)
Theorem disk_load_searches read contents spr n `{D : !Drive read contents spr n} {X A : Type} (R : mem -> X -> A -> Prop) formats aprobe fuel m x a d e a' :
  formats_are n R formats aprobe -> (forall base m d, 0 <= base < n -> 0 <= fst (fst (read base m d))) ->
  (forall m m' x a, R m x a -> (forall y, ~ own y -> ld8 m' y = ld8 m y) -> R m' x a) ->
  LOAD_SECTORS <= n -> cached contents spr n m d -> R m x a ->
  0 <= disk_offset d -> disk_offset d / 512 < n -> disk_offset d mod 16 = 0 -> (2000 <= fuel)%nat ->
  let start := first_sector n (disk_offset d) in
  ends_empty contents n aprobe start ->
  try_all contents n aprobe fuel start (window contents n start) (searched (dk_direction d) (disk_offset d)) a = Some (e, a') ->
  exists m' x' d', disk_load read formats fuel (m, x) d = Some (e, (m', x'), d') /\ R m' x' a'.
Proof.
  intros F Hrel Hfr Hn C Hr Ho Hon Ha Hf start He E. rewrite <- positions_searched in E by exact Ha. pose proof C as (_ & _ & C3 & _). destruct drive_spr as (_ & _ & Hb & _).
  unfold disk_load. set (inc := if dk_direction d <? 0 then -16 else 16) in *. rewrite C3. unfold LOAD_SECTORS in *.
  assert (Es : (if 32 / 2 >? Z.shiftr (disk_offset d) 9 then u64 (n - 32 / 2 + Z.shiftr (disk_offset d) 9) else Z.shiftr (disk_offset d) 9) = start /\ 0 <= start < n).
  { subst start. unfold first_sector. rewrite shiftr_div by lia. pow_consts. change (32 / 2) with 16. rewrite Z.gtb_ltb.
    pose proof (Z.div_pos (disk_offset d) 512 Ho ltac:(lia)). destruct (Z.ltb_spec (disk_offset d / 512) 16); [rewrite u64_small by lia|]; lia. }
  destruct Es as (-> & Hs). change 0x1ff with (2 ^ 9 - 1). rewrite land_ones_mod by lia. pow_consts.
  unfold positions in E. fold inc in E. set (from := LOAD_LEN / 2 + disk_offset d mod 512 - inc) in *.
  assert (Hinc : inc = 16 \/ inc = -16) by (subst inc; destruct (_ <? 0); auto).
  assert (Hm : exists q, disk_offset d mod 512 = 16 * q /\ 0 <= q < 32) by (exists (disk_offset d mod 512 / 16); Z.div_mod_to_equations; lia).
  destruct Hm as (q & Hq & Hq2). assert (Hfrom : from = 8192 + 16 * q - inc) by (subst from; change (LOAD_LEN / 2) with 8192; lia).
  set (k := Z.to_nat (Z.abs (end_of inc - from) / 16)) in *.
  assert (Ht : towards inc from k /\ (k <= 1000)%nat).
  { assert (Hk : Z.of_nat k = if inc >? 0 then 481 - q else 513 + q).
    { subst k. rewrite Hfrom. unfold end_of, LAST, LOAD_LEN, SECTOR_SIZE. destruct Hinc as [-> | ->]; cbn [Z.gtb Z.compare]; Z.div_mod_to_equations; lia. }
    unfold towards, end_of, LAST, LOAD_LEN, SECTOR_SIZE in *. rewrite Hfrom. destruct Hinc as [Hi | Hi]; rewrite Hi in *; cbn [Z.gtb Z.compare] in *; lia. }
  rewrite (u32_small from) by (destruct Hinc as [Hi | Hi]; lia).
  destruct (attempts_spec read contents spr n R formats aprobe F Hrel Hfr Hn start Hs He fuel inc fuel Hinc ltac:(lia)
    (run k inc from ++ run 992 (- inc) (end_of inc)) inc from m x a d e a') as (m' & x' & d' & El & R'); [| |exact C|exact Hr|exact E|].
  - exists k. destruct Ht as (Ht & Hk). auto.
  - rewrite length_app. assert (Hl : forall k i o, length (run k i o) = k) by (clear; induction k as [|k IH]; intros i o; cbn [run length]; [reflexivity|now rewrite IH]).
    rewrite !Hl. lia.
  - exists m', x', d'. rewrite El. split; [reflexivity|exact R'].
Qed.

(** The search of a buffer ends at one position only, its last sector or its start: from an offset that is no multiple of 16 the search
    for an image that is not there never ends, and runs out of the buffer and through all of memory. *)
Theorem unaligned_search_hangs {X} fuel buffer offset (st : mem * X) : offset mod 16 <> 0 -> probe_buffer [] fuel buffer LOAD_LEN 16 offset st = None.
Proof.
  unfold probe_buffer. change (16 >? 0) with true. change (u32 (LOAD_LEN - SECTOR_SIZE)) with 15872. cbv iota.
  revert offset. induction fuel as [|fuel IH]; intros offset Ho; [reflexivity|]. cbn [loop]. unfold probe_round at 1. cbn [probe_image].
  assert (Hm : u32 (offset + 16) mod 16 <> 0) by (unfold u32; Z.div_mod_to_equations; lia).
  destruct (Z.eqb_spec (u32 (offset + 16)) 15872) as [E|E]; [rewrite E in Hm; exfalso; apply Hm; reflexivity|]. apply IH. exact Hm.
Qed.
Lemma unaligned_search_hangs_witness : probe_buffer [] 100 load_buffer LOAD_LEN 16 8181 (fun _ => 0, tt) = None.
Proof. apply unaligned_search_hangs. discriminate. Defined.

(** *** Witnesses *)

(** A disk of 64 sectors behind an LBA drive, each sector filled with its number, but for a mark at byte 32 of the first. *)
Definition tiny_medium (s : Z) : list Z := if s =? 0 then repeat 9 32 ++ [127] ++ repeat 9 479 else repeat (u8 s) 512.
Definition tiny_info : Ide.harddisk_info :=
  {| Ide.heads := 0; Ide.sectors_per_track := 0; Ide.slave := 16; Ide.info_sectors := 64; Ide.address_mode := 1 |}.
Definition tiny_pio (c : Ide.ide_pio_command) (buf : Z) (m : mem) : Z * mem := (0, stn m buf (tiny_medium (addressed tiny_info c))).
Lemma tiny_length s : length (tiny_medium s) = 512%nat.
Proof. unfold tiny_medium. destruct (s =? 0); [reflexivity|apply repeat_length]. Qed.
Lemma tiny_transfers : transfers tiny_info tiny_medium tiny_pio.
Proof.
  intros c s buf m r m' _ Hc _ E. unfold tiny_pio in E. assert (E1 : r = 0) by congruence. assert (E2 : m' = stn m buf (tiny_medium (addressed tiny_info c))) by congruence.
  clear E. subst. set (l := tiny_medium _). assert (Hl : length l = 512%nat) by apply tiny_length. split.
  - intros x Hx. apply ld8_stn_out. lia.
  - right. split; [reflexivity|]. assert (Es : tiny_medium s = l).
    { unfold l. revert Hc. unfold reads_sector. destruct (_ && _); [now intros [= <-]|discriminate]. }
    rewrite Es, <- Hl. rewrite ldn_stn. subst l. unfold tiny_medium. destruct (_ =? 0); [reflexivity|].
    rewrite map_repeat. f_equal. apply u8_u8.
Qed.
Lemma tiny_info_ok : info_ok tiny_info.
Proof. constructor; cbn; auto. unfold reach. cbn. lia. Qed.
Lemma tiny_drive : Drive (Ide.ide_read tiny_pio tiny_info) tiny_medium 1 64.
Proof. apply (ide_drive_ok tiny_pio tiny_info tiny_medium tiny_transfers tiny_info_ok). intros s _. apply tiny_length. Qed.
Definition tiny_disk : disk :=
  {| dk_drive := 0; hw_sector_size := 512; sectors_per_read := 1; dk_bytes := 0; dk_sectors := 64; dk_sector := 0; dk_buffer := disk_buffer;
     disk_offset := 0; dk_direction := 1 |}.
Lemma tiny_cached m : cached tiny_medium 1 64 m tiny_disk.
Proof. repeat split. now left. Qed.
(** The last sector, and then the first. *)
Lemma disk_reads_sectors_witness :
  exists m' d', disk_read_sectors (Ide.ide_read tiny_pio tiny_info) 0x60000 63 2 (fun _ => 0) tiny_disk = (0, m', d') /\
    ldn m' 0x60000 1024 = repeat 63 512 ++ tiny_medium 0.
Proof.
  destruct (disk_read_sectors (Ide.ide_read tiny_pio tiny_info) 0x60000 63 2 (fun _ => 0) tiny_disk) as ((r & m') & d') eqn:E.
  assert (r = 0).
  { assert (H : fst (fst (disk_read_sectors (Ide.ide_read tiny_pio tiny_info) 0x60000 63 2 (fun _ => 0) tiny_disk)) = 0) by (vm_compute; reflexivity).
    rewrite E in H. exact H. }
  destruct (@disk_reads_sectors _ _ _ _ tiny_drive 0x60000 63 2 (fun _ => 0) tiny_disk r m' d') as (_ & _ & P).
  - apply tiny_cached.
  - lia.
  - lia.
  - right. unfold disk_buffer, DISK_BUFFER_SIZE, SECTOR_SIZE. lia.
  - exact E.
  - exists m', d'. split; [congruence|]. destruct P as [P|(_ & P)]; [lia|]. exact P.
Defined.

(** A format whose images start with the byte 127: it declines every other sector, and starts when it has had 17000 bytes. *)
Definition mark_load (data len : Z) (eof : bool) (st : mem * Z) : dl_outcome * (mem * Z) :=
  let x := snd st + len in (if x >=? 17000 then DlBoot 1 x else DlReturn 1, (fst st, x)).
Definition mark_probe (data len : Z) (st : mem * Z) : option (os_download_t (mem * Z)) * (mem * Z) :=
  (if (len >? 0) && (ld8 (fst st) data =? 127) then Some mark_load else None, st).
Definition mark_feed (bs : list Z) (a : Z) : dl_outcome * Z :=
  let x := a + Z.of_nat (length bs) in (if x >=? 17000 then DlBoot 1 x else DlReturn 1, x).
Definition mark_found (bs : list Z) (a : Z) : option (consumer (A := Z)) * Z := (if hd 0 bs =? 127 then Some mark_feed else None, a).
Definition mark_R (m : mem) (x a : Z) : Prop := x = a.
Lemma mark_formats : formats_are 64 mark_R [mark_probe] mark_found.
Proof.
  assert (Hc : consumes 64 mark_R mark_load mark_feed).
  { constructor.
    - intros data len m x a -> (_ & Hl & _). exists (if a + len >=? 17000 then DlBoot 1 (a + len) else DlReturn 1), m, (a + len), (a + len).
      unfold mark_load, mark_feed. rewrite length_ldn, Z2Nat.id by lia. repeat split.
    - intros bs a k a' E. unfold mark_feed in E. destruct (_ >=? _); [discriminate|]. assert (k = 1) by congruence. unfold LOAD_SECTORS. lia. }
  intros data len m x a -> (_ & Hl & _). cbn [probe_image]. unfold mark_probe, mark_found. cbn [fst].
  replace (hd 0 (ldn m data (Z.to_nat len)) =? 127) with ((len >? 0) && (ld8 m data =? 127)).
  - exists (if (len >? 0) && (ld8 m data =? 127) then Some mark_load else None), m, a, (if (len >? 0) && (ld8 m data =? 127) then Some mark_feed else None), a.
    split; [now destruct (_ && _)|]. split; [reflexivity|]. split; [reflexivity|]. split; [reflexivity|]. now destruct (_ && _).
  - rewrite Z.gtb_ltb. destruct (Z.ltb_spec 0 len).
    + replace (Z.to_nat len) with (S (Z.to_nat (len - 1))) by lia. reflexivity.
    + replace (Z.to_nat len) with 0%nat by lia. reflexivity.
Qed.
Lemma disk_load_searches_witness :
  exists m' x' d', disk_load (Ide.ide_read tiny_pio tiny_info) [mark_probe] 2000 (fun _ => 0, 0) tiny_disk = Some (DkBoot 1 17376, (m', x'), d') /\
    mark_R m' x' 17376.
Proof.
  apply (@disk_load_searches _ tiny_medium 1 64 tiny_drive Z Z mark_R [mark_probe] mark_found 2000 (fun _ => 0) 0 0 tiny_disk (DkBoot 1 17376) 17376).
  - exact mark_formats.
  - intros base m d Hb. unfold Ide.ide_read. cbn [Ide.info_sectors tiny_info]. rewrite Z.gtb_ltb. destruct (Z.ltb_spec 64 base); [lia|]. cbn. lia.
  - intros m m' x a E _. exact E.
  - unfold LOAD_SECTORS. lia.
  - apply tiny_cached.
  - reflexivity.
  - cbn. lia.
  - reflexivity.
  - reflexivity.
  - lia.
  - intros p a Hp. unfold mark_found. cbn [fst]. replace (hd 0 _ =? 127) with false; [reflexivity|]. destruct Hp as [-> | ->]; vm_compute; reflexivity.
  - vm_compute. reflexivity.
Defined.
