(* ===== verification/Nfs.v ===== *)
(** The NFS client of [src/src/core/nfs.c], with the messages of [nfs.h].

    The static variables, the call that is built on the stack and the arrays of [nfs] lie in memory; a jump out of a
    wait leaves them as they are.  Messages are not modelled. *)

From S2P Require Import Prelude Memory StringLib Misc Vsprintf Net Lacp Nic Tftp Bootp.
Import String.StringSyntax.

Definition START_OPORT : Z := 700.
Definition OPORT_SWEEP : Z := 200.
Definition SUNRPC_PORT : Z := 111.
Definition PROG_PORTMAP : Z := 100000.
Definition PROG_NFS : Z := 100003.
Definition PROG_MOUNT : Z := 100005.
Definition MSG_CALL : Z := 0.
Definition MSG_REPLY : Z := 1.
Definition PORTMAP_GETPORT : Z := 3.
Definition MOUNT_ADDENTRY : Z := 1.
Definition MOUNT_UMOUNTALL : Z := 4.
Definition NFS_LOOKUP : Z := 4.
Definition NFS_READLINK : Z := 5.
Definition NFS_READ : Z := 6.
Definition NFS_FHSIZE : Z := 32.
Definition NFSERR_ISDIR : Z := 21.
Definition NFSERR_INVAL : Z := 22.
Definition NFS_READ_SIZE : Z := 1024.
Definition NFS_MAXLINKDEPTH : nat := 16.
Definition MAX_RPC_RETRIES : Z := 20.

(** The static variables, [buf], and the arrays of [nfs]. *)
Definition oport : Z := 0x3b400.
Definition mount_port : Z := 0x3b404.
Definition nfs_port : Z := 0x3b408.
Definition fs_mounted : Z := 0x3b40c.
Definition rpc_id : Z := 0x3b410.
Definition tokens : Z := 0x3b414.
Definition rpc_buf : Z := 0x3b800.
Definition dirname : Z := 0x3bc00.
Definition dirfh : Z := 0x3be00.
Definition filefh : Z := 0x3be40.

(** The members of a call, and of the reply in the packet buffer. *)
Definition rpc_call : Z := rpc_buf + 28.
Definition reply : Z := nic_packet + ETH_HLEN + 28.
Definition reply_data (i : Z) : Z := reply + 24 + 4 * i.
(** A word in network order. *)
Definition put (m : mem) (p v : Z) : mem := st32 m p (htonl v).

(** ** RPC *)

Definition rpc_header (id prog vers proc : Z) (m : mem) : mem :=
  let m := put m rpc_call id in
  let m := put m (rpc_call + 4) MSG_CALL in
  let m := put m (rpc_call + 8) 2 in
  let m := put m (rpc_call + 12) prog in
  let m := put m (rpc_call + 16) vers in
  put m (rpc_call + 20) proc.
(** The first lines of every call: the number of the call, and the header. *)
Definition rpc_begin (prog vers proc : Z) : M Z :=
  w <- get ;;
  let id := ld32 (mm w) rpc_id in
  store32 rpc_id (id + 1) ;;;
  set_mem (rpc_header id prog vers proc) ;;;
  ret id.

(** [rpc_add_credentials] at [p]: memory and where it goes on. *)
Definition rpc_add_credentials (m : mem) (p : Z) : mem * Z :=
  let hl := Z.land (geti m hostnamelen + 3) (-4) in
  let n := geti m hostnamelen in
  let m := put m p 1 in
  let m := put m (p + 4) (hl + 20) in
  let m := put m (p + 8) 0 in
  let m := put m (p + 12) n in
  let p := p + 16 in
  let m := if istrue (Z.land n 3) then st32 m (p + 4 * Z.quot n 4) 0 else m in
  let m := memcpy m p (ld32 m hostname) (Z.to_nat n) in
  let p := p + 4 * Z.quot hl 4 in
  let m := st32 m p 0 in
  let m := st32 m (p + 4) 0 in
  let m := st32 m (p + 8) 0 in
  let m := st32 m (p + 12) 0 in
  let m := st32 m (p + 16) 0 in
  (m, p + 20).
(** A string: its length, and its characters, padded to a word. *)
Definition put_path (m : mem) (p path pathlen : Z) : mem * Z :=
  let m := put m p pathlen in
  let p := p + 4 in
  let m := if istrue (Z.land pathlen 3) then st32 m (p + 4 * Z.quot pathlen 4) 0 else m in
  let m := memcpy m p path (Z.to_nat pathlen) in
  (m, p + 4 * Z.quot (pathlen + 3) 4).
(** The arguments of a call, from the end of its header on: memory and the end of the call, which is left in [M]. *)
Definition put_args (f : mem -> Z -> mem * Z) : M Z :=
  w <- get ;;
  let '(m, p) := f (mm w) (rpc_call + 24) in
  set_mem (fun _ => m) ;;;
  ret (p - rpc_buf).

Definition await_rpc (ival id : Z) : reply_t := fun info =>
  if negb (has_udp info) then ret 0
  else
    w <- get ;;
    if negb (client_ip w =? ld32 (mm w) (ip_ptr + 16)) then ret 0
    else if negb (ntohs (ld16 (mm w) (ip_ptr + 22)) =? ival) then ret 0
    else if packetlen w <? ETH_HLEN + 20 + 8 + 8 then ret 0
    else if negb (id =? ntohl (ld32 (mm w) reply)) then ret 0
    else if negb (MSG_REPLY =? ntohl (ld32 (mm w) (reply + 4))) then ret 0
    else ret 1.

(** An error of the RPC layer. *)
Definition rpc_failed (m : mem) : bool :=
  istrue (ld32 m (reply + 8)) || istrue (ld32 m (reply + 12)) || istrue (ld32 m (reply + 20)).
(** The status of a reply of the mount or NFS program: [Some] is what the function returns. *)
Definition nfs_status (m : mem) : option Z :=
  if rpc_failed m || istrue (ld32 m (reply_data 0)) then
    Some (if istrue (ld32 m (reply + 8)) then -9999
          else if istrue (ld32 m (reply + 20)) then -9998
          else s32 (- ntohl (ld32 m (reply_data 0))))
  else None.

Section nfs.
Context `{E : Env}.

Definition rpc_init : M unit :=
  t <- currticks ;;
  store32 rpc_id (Z.lxor (Z.lxor t (Z.shiftl t 8)) (Z.shiftl t 16)).

Definition rpc_send (fuel : nat) (server : nat) (sport port len : Z) : M Z :=
  w <- get ;;
  udp_transmit fuel (ipaddr (arp w server)) sport port len rpc_buf.
(** The loop in which a call is sent until a reply comes.  Some functions work out the timeout before they send; [missed] is
    what is done when it has passed. *)
Fixpoint rpc_loop (fuel : nat) (early : bool) (interval : Z -> M Z) (missed : M unit) (server : nat) (sport port len id retries : Z) : M bool :=
  match fuel with
  | O => oof
  | S n =>
      if retries <? MAX_RPC_RETRIES then
        timeout <- (if early then t <- interval retries ;; rpc_send n server sport port len ;;; ret t
                    else rpc_send n server sport port len ;;; interval retries) ;;
        got <- await_reply n (await_rpc sport id) timeout ;;
        if got =? 0 then missed ;;; rpc_loop n early interval missed server sport port len id (retries + 1) else ret true
      else ret false
  end.
Definition rpc_wait (fuel : nat) (early : bool) (server : nat) (sport port len id : Z) : M bool :=
  rpc_loop fuel early (rfc2131_sleep_interval TIMEOUT) (ret tt) server sport port len id 0.

Definition lookup_args (prog ver : Z) (m : mem) (p : Z) : mem * Z :=
  let m := st32 (st32 (st32 (st32 m p 0) (p + 4) 0) (p + 8) 0) (p + 12) 0 in
  (st32 (put (put (put m (p + 16) prog) (p + 20) ver) (p + 24) IP_UDP) (p + 28) 0, p + 32).
Definition rpc_lookup (fuel : nat) (addr : nat) (prog ver sport : Z) : M Z :=
  id <- rpc_begin PROG_PORTMAP 2 PORTMAP_GETPORT ;;
  len <- put_args (lookup_args prog ver) ;;
  ok <- rpc_wait fuel false addr sport SUNRPC_PORT len id ;;
  if ok then
    w <- get ;;
    ret (if rpc_failed (mm w) then -1 else s32 (ntohl (ld32 (mm w) (reply_data 0))))
  else ret (-1).

Definition mount_args (path pathlen : Z) (m : mem) (p : Z) : mem * Z :=
  let '(m, p) := rpc_add_credentials m p in put_path m p path pathlen.
Definition nfs_mount (fuel : nat) (server : nat) (port path fh sport : Z) : M Z :=
  w <- get ;;
  pathlen <- of_fuel (strlen fuel (mm w) path) ;;
  id <- rpc_begin PROG_MOUNT 1 MOUNT_ADDENTRY ;;
  len <- put_args (mount_args path pathlen) ;;
  ok <- rpc_wait fuel false server sport port len id ;;
  if ok then
    w <- get ;;
    match nfs_status (mm w) with
    | Some err => ret err
    | None =>
        store32 fs_mounted 1 ;;;
        set_mem (fun m => memcpy m fh (reply_data 1) (Z.to_nat NFS_FHSIZE)) ;;;
        ret 0
    end
  else ret (-1).

Definition nfs_umountall (fuel : nat) (server : nat) : M unit :=
  w <- get ;;
  if ipaddr (arp w server) =? 0 then ret tt
  else if (geti (mm w) mount_port =? -1) || (geti (mm w) fs_mounted =? 0) then ret tt
  else
    id <- rpc_begin PROG_MOUNT 1 MOUNT_UMOUNTALL ;;
    len <- put_args rpc_add_credentials ;;
    ok <- rpc_wait fuel true server (geti (mm w) oport) (geti (mm w) mount_port) len id ;;
    if ok then store32 fs_mounted 0 else ret tt.

Definition handle_args (fh : Z) (m : mem) (p : Z) : mem * Z :=
  let '(m, p) := rpc_add_credentials m p in (memcpy m p fh (Z.to_nat NFS_FHSIZE), p + NFS_FHSIZE).
(** The text of a link: what a relative link leaves of it, and where it goes. *)
Definition follow_link (path pathlen len : Z) (m : mem) : mem :=
  let link := reply_data 2 in
  if negb (ld8 m link =? 47) then
    let m := st8 m (path + pathlen) 47 in
    let pathlen := pathlen + 1 in
    let len := if len + pathlen >? 298 then 298 - pathlen else len in
    let '(m, len) := if len >? 0 then (memcpy m (path + pathlen) link (Z.to_nat (len + 1)), len) else (m, 0) in
    st8 m (path + pathlen + len) 0
  else
    let len := if len >? 298 then 298 else len in
    st8 (memcpy m path link (Z.to_nat (len + 1))) (path + len) 0.
Definition nfs_readlink (fuel : nat) (server : nat) (port path nfh sport : Z) : M Z :=
  w <- get ;;
  pathlen <- of_fuel (strlen fuel (mm w) path) ;;
  id <- rpc_begin PROG_NFS 2 NFS_READLINK ;;
  len <- put_args (handle_args nfh) ;;
  ok <- rpc_wait fuel true server sport port len id ;;
  if ok then
    w <- get ;;
    match nfs_status (mm w) with
    | Some err => ret err
    | None =>
        len <- of_fuel (strlen fuel (mm w) (reply_data 2)) ;;
        set_mem (follow_link path pathlen len) ;;;
        ret 0
    end
  else ret (-1).

Definition lookup_path_args (fh path pathlen : Z) (m : mem) (p : Z) : mem * Z :=
  let '(m, p) := handle_args fh m p in put_path m p path pathlen.
Definition nfs_lookup (fuel : nat) (server : nat) (port fh path nfh sport : Z) : M Z :=
  w <- get ;;
  pathlen <- of_fuel (strlen fuel (mm w) path) ;;
  id <- rpc_begin PROG_NFS 2 NFS_LOOKUP ;;
  len <- put_args (lookup_path_args fh path pathlen) ;;
  ok <- rpc_wait fuel true server sport port len id ;;
  if ok then
    w <- get ;;
    match nfs_status (mm w) with
    | Some err => ret err
    | None => set_mem (fun m => memcpy m nfh (reply_data 1) (Z.to_nat NFS_FHSIZE)) ;;; ret 0
    end
  else ret (-1).

Definition read_args (fh offset len : Z) (m : mem) (p : Z) : mem * Z :=
  let '(m, p) := handle_args fh m p in (st32 (put (put m p offset) (p + 4) len) (p + 8) 0, p + 12).
(** With two tokens or more the timeout is half a second. *)
Definition read_interval (retries : Z) : M Z :=
  t <- rfc2131_sleep_interval TIMEOUT retries ;;
  w <- get ;;
  ret (if geti (mm w) tokens >=? 2 then Z.quot TICKS_PER_SEC 2 else t).
Definition nfs_read (fuel : nat) (server : nat) (port fh offset len sport : Z) : M Z :=
  id <- rpc_begin PROG_NFS 2 NFS_READ ;;
  n <- put_args (read_args fh offset len) ;;
  ok <- rpc_loop fuel true read_interval (set_mem (fun m => st32 m tokens (Z.shiftr (geti m tokens) 1))) server sport port n id 0 ;;
  if ok then
    set_mem (fun m => if geti m tokens <? 256 then st32 m tokens (geti m tokens + 1) else m) ;;;
    w <- get ;;
    match nfs_status (mm w) with
    | Some err => ret err
    | None => ret 0
    end
  else ret (-1).

(** ** [nfs] *)

(** How the loop over the blocks ends. *)
Inductive read_end := RdReturn (result : Z) | RdLink.
Fixpoint read_loop (fuel : nat) (fnc : Z -> Z -> Z -> bool -> M Z) (port sport offs block size len : Z) : M read_end :=
  match fuel with
  | O => oof
  | S n =>
      err <- nfs_read n ARP_SERVER port filefh offs len sport ;;
      if (err <=? - NFSERR_ISDIR) && (err >=? - NFSERR_INVAL) && (offs =? 0) then
        r <- nfs_readlink n ARP_SERVER port dirname filefh sport ;;
        if r =? 0 then ret RdLink else nfs_umountall n ARP_SERVER ;;; ret (RdReturn 0)
      else if negb (err =? 0) then nfs_umountall n ARP_SERVER ;;; ret (RdReturn 0)
      else
        w <- get ;;
        let size := if size =? -1 then s32 (ntohl (ld32 (mm w) (reply_data 6))) else size in
        let rlen := s32 (ntohl (ld32 (mm w) (reply_data 18))) in
        let rlen := if rlen >? len then len else rlen in
        err <- fnc (reply_data 19) block rlen (s32 (offs + rlen) =? size) ;;
        if err <=? 0 then nfs_umountall n ARP_SERVER ;;; ret (RdReturn err)
        else
          let offs := s32 (offs + rlen) in
          let len := if s32 (size - offs) <? NFS_READ_SIZE then s32 (size - offs) else len in
          if negb (len =? 0) then read_loop n fnc port sport offs (u32 (block + 1)) size len else ret (RdReturn 1)
  end.
(** The last slash of the first [n] characters of [dirname]. *)
Fixpoint last_slash (n : nat) (m : mem) : option nat :=
  match n with
  | O => None
  | S n => if ld8 m (dirname + Z.of_nat n) =? 47 then Some n else last_slash n m
  end.
(** From [nfssymlink]; at most [links] links are followed. *)
Fixpoint nfs_link (links : nat) (fuel : nat) (fnc : Z -> Z -> Z -> bool -> M Z) (namelen : nat) (sport : Z) : M Z :=
  match links with
  | O => ret 0
  | S links =>
      w <- get ;;
      match last_slash namelen (mm w) with
      | None => ret 0
      | Some k =>
          store8 (dirname + Z.of_nat k) 0 ;;;
          let fname := dirname + Z.of_nat k + 1 in
          w <- get ;;
          (if geti (mm w) mount_port =? -1 then p <- rpc_lookup fuel ARP_SERVER PROG_MOUNT 1 sport ;; store32 mount_port p else ret tt) ;;;
          w <- get ;;
          (if geti (mm w) nfs_port =? -1 then p <- rpc_lookup fuel ARP_SERVER PROG_NFS 2 sport ;; store32 nfs_port p else ret tt) ;;;
          w <- get ;;
          let mport := geti (mm w) mount_port in
          let port := geti (mm w) nfs_port in
          if (port =? -1) || (mport =? -1) then ret 0
          else
            err <- nfs_mount fuel ARP_SERVER mport dirname dirfh sport ;;
            if negb (err =? 0) then nfs_umountall fuel ARP_SERVER ;;; ret 0
            else
              err <- nfs_lookup fuel ARP_SERVER port dirfh fname filefh sport ;;
              if negb (err =? 0) then nfs_umountall fuel ARP_SERVER ;;; ret 0
              else
                r <- read_loop fuel fnc port sport 0 1 (-1) NFS_READ_SIZE ;;
                match r with
                | RdReturn r => ret r
                | RdLink => nfs_link links fuel fnc namelen sport
                end
      end
  end.
Definition nfs (fuel : nat) (name : Z) (fnc : Z -> Z -> Z -> bool -> M Z) : M Z :=
  w <- get ;;
  namelen <- of_fuel (strlen fuel (mm w) name) ;;
  rx_qdrain fuel ;;;
  w <- get ;;
  let sport := geti (mm w) oport in
  store32 oport (if sport + 1 >? START_OPORT + OPORT_SWEEP then START_OPORT else sport + 1) ;;;
  set_mem (fun m => memcpy m dirname name (Z.to_nat (namelen + 1))) ;;;
  nfs_link (S NFS_MAXLINKDEPTH) fuel fnc (Z.to_nat namelen) sport.
End nfs.

(** ** Messages *)

(** A word, and a string, as XDR writes them. *)
Lemma ldn_put m p v : ldn (put m p v) p 4 = be32 v.
Proof. apply ldn_htonl. Qed.
Definition zeros (n : nat) : list Z := repeat 0 n.
Definition pad (n : nat) : nat := Z.to_nat ((- Z.of_nat n) mod 4).
Definition xdr_string (s : list Z) : list Z := be32 (Z.of_nat (length s)) ++ s ++ zeros (pad (length s)).
(** The text of a call, and the credential of the host [h] with the empty verifier. *)
Definition call_text (id prog vers proc : Z) (args : list Z) : list Z :=
  be32 id ++ be32 MSG_CALL ++ be32 2 ++ be32 prog ++ be32 vers ++ be32 proc ++ args.
Definition auth (h : list Z) : list Z :=
  be32 1 ++ be32 (20 + Z.of_nat (length h + pad (length h))) ++ be32 0 ++ xdr_string h ++ zeros 20.
(** The text of a reply that is accepted. *)
Definition reply_text (id : Z) (data : list Z) : list Z := be32 id ++ be32 MSG_REPLY ++ zeros 16 ++ data.


(** [l] has been written at [p], and nothing else. *)
Definition wrote (m m' : mem) (p : Z) (l : list Z) : Prop :=
  (forall x, x < p \/ p + Z.of_nat (length l) <= x -> ld8 m' x = ld8 m x) /\ ldn m' p (length l) = l.
Lemma wrote_app m m1 m2 p q l1 l2 : q = p + Z.of_nat (length l1) -> wrote m m1 p l1 -> wrote m1 m2 q l2 -> wrote m m2 p (l1 ++ l2).
Proof.
  intros -> (O1 & L1) (O2 & L2). unfold wrote. rewrite length_app. split.
  - intros x Hx. rewrite O2, O1 by lia. reflexivity.
  - rewrite ldn_app, L2. f_equal. rewrite <- L1 at 2. apply ldn_ext. intros x Hx. apply O2. lia.
Qed.
Lemma wrote_nil m p : wrote m m p [].
Proof. split; reflexivity. Qed.
Lemma wrote_put m p v : wrote m (put m p v) p (be32 v).
Proof. split; [|apply ldn_put]. intros x Hx. cbn [be32 length] in Hx. apply ld8_st32_ne. lia. Qed.
Lemma wrote_zero m p : wrote m (st32 m p 0) p (be32 0).
Proof. change (st32 m p 0) with (put m p 0). apply wrote_put. Qed.
Lemma wrote_copy m p src n s : length s = n -> ldn m src n = s -> p + Z.of_nat n <= src \/ src + Z.of_nat n <= p -> wrote m (memcpy m p src n) p s.
Proof.
  intros Hl Hs Hd. split.
  - intros x Hx. rewrite ld8_memcpy by lia. rewrite Hl in Hx. case_tests; (lia || reflexivity).
  - rewrite Hl, ldn_memcpy by lia. exact Hs.
Qed.
Lemma pad_range n : 0 <= Z.of_nat (pad n) < 4 /\ (Z.of_nat n + Z.of_nat (pad n)) mod 4 = 0 /\ (Z.of_nat (pad n) = 0 <-> Z.of_nat n mod 4 = 0).
Proof. unfold pad. rewrite Z2Nat.id by (apply Z.mod_pos_bound; lia). Z.div_mod_to_equations. lia. Qed.
(** The characters of a string and its padding: the last word is cleared before. *)
Lemma wrote_padded m p src s : 
  let n := Z.of_nat (length s) in
  let m1 := if istrue (Z.land n 3) then st32 m (p + 4 * Z.quot n 4) 0 else m in
  ldn m src (length s) = s -> p + n + 4 <= src \/ src + n <= p ->
  wrote m (memcpy m1 p src (Z.to_nat n)) p (s ++ zeros (pad (length s))).
Proof.
  intros n m1 Hs Hd. pose proof (pad_range (length s)) as (P1 & P2 & P3). fold n in P2, P3. replace (Z.to_nat n) with (length s) by (subst n; lia).
  assert (Hn : 0 <= n) by (subst n; lia).
  assert (Lz : length (zeros (pad (length s))) = pad (length s)) by apply repeat_length.
  assert (M1 : (forall x, ~ (p + n <= x < p + n + Z.of_nat (pad (length s))) -> ~ (p <= x < p + n) -> ld8 m1 x = ld8 m x) /\
               (forall x, p + n <= x < p + n + Z.of_nat (pad (length s)) -> ld8 m1 x = 0)).
  { subst m1. rewrite Z.quot_div_nonneg by lia. change 3 with (2 ^ 2 - 1). rewrite land_ones_mod by lia. change (2 ^ 2) with 4. unfold istrue.
    destruct (Z.eqb_spec (n mod 4) 0) as [E0|E0]; cbn [negb]; [split; intros x Hx; [reflexivity|lia]|].
    assert (Hq : p + 4 * (n / 4) + 4 = p + n + Z.of_nat (pad (length s)) /\ 4 * (n / 4) <= n) by (Z.div_mod_to_equations; lia).
    split; intros x Hx; [intros Hy; apply ld8_st32_ne; lia|].
    destruct (wrote_zero m (p + 4 * (n / 4))) as (_ & L). change (be32 0) with [0; 0; 0; 0] in L. cbn [length] in L.
    pose proof (nth_ldn (st32 m (p + 4 * (n / 4)) 0) (p + 4 * (n / 4)) 4 (Z.to_nat (x - (p + 4 * (n / 4)))) 0) as N. rewrite L in N.
    rewrite Z2Nat.id in N by lia. replace (p + 4 * (n / 4) + (x - (p + 4 * (n / 4)))) with x in N by lia. rewrite <- N by lia.
    assert (Hc : (Z.to_nat (x - (p + 4 * (n / 4))) < 4)%nat) by lia. clear - Hc.
    destruct (Z.to_nat _) as [|[|[|[|?]]]]; try reflexivity. lia. }
  destruct M1 as (M1 & M2).
  assert (L1 : ldn m1 src (length s) = s) by (rewrite <- Hs at 2; apply ldn_ext; intros x Hx; apply M1; lia).
  assert (Sp : forall x, ld8 (memcpy m1 p src (length s)) x = if (p <=? x) && (x <? p + n) then ld8 m1 (src + (x - p)) else ld8 m1 x)
    by (intros x; apply ld8_memcpy; lia).
  split.
  - intros x Hx. rewrite length_app, Lz in Hx. rewrite Sp. case_tests; try lia. all: apply M1; lia.
  - rewrite length_app, ldn_app. f_equal.
    + rewrite ldn_memcpy by lia. exact L1.
    + rewrite Lz. fold n. apply nth_ext with (d := 0) (d' := 0); [now rewrite length_ldn, Lz|]. intros i Hi. rewrite length_ldn in Hi.
      rewrite nth_ldn by exact Hi. unfold zeros. rewrite nth_repeat, Sp. case_tests; try lia. apply M2. lia.
Qed.

(** ** The calls *)

(** One piece of a message; the rest goes on at [q]. *)
Ltac piece q := eapply (wrote_app _ _ _ _ q); [cbn [be32 length app]; lia | first [apply wrote_put | apply wrote_zero] | ].
Lemma rpc_header_wrote id prog vers proc m :
  wrote m (rpc_header id prog vers proc m) rpc_call (be32 id ++ be32 MSG_CALL ++ be32 2 ++ be32 prog ++ be32 vers ++ be32 proc).
Proof. unfold rpc_header. piece (rpc_call + 4). piece (rpc_call + 8). piece (rpc_call + 12). piece (rpc_call + 16). piece (rpc_call + 20). apply wrote_put. Qed.

(** The name of this host, from the configuration. *)
Definition host_ok (m : mem) (h : list Z) : Prop :=
  geti m hostnamelen = Z.of_nat (length h) /\ ldn m (ld32 m hostname) (length h) = h /\
  0x38000 <= ld32 m hostname /\ ld32 m hostname + Z.of_nat (length h) <= 0x3b000.
Lemma host_ok_ext m m' h : (forall x, 0x38000 <= x < 0x3b000 -> ld8 m' x = ld8 m x) -> host_ok m h -> host_ok m' h.
Proof.
  intros K (H1 & H2 & H3 & H4). assert (E : ld32 m' hostname = ld32 m hostname) by (apply ld32_ext; intros x Hx; apply K; unfold hostname in *; lia).
  unfold host_ok. rewrite E. split; [rewrite <- H1; apply geti_ext; intros x Hx; apply K; unfold hostnamelen in *; lia|].
  split; [|lia]. rewrite <- H2 at 2. apply ldn_ext. intros x Hx. apply K. lia.
Qed.
Lemma land_minus_4 x : Z.land x (-4) = x - x mod 4.
Proof.
  change (-4) with (Z.lnot (Z.ones 2)). rewrite <- Z.ldiff_land, Z.ldiff_ones_r, Z.shiftl_mul_pow2, Z.shiftr_div_pow2 by lia.
  change (2 ^ 2) with 4. Z.div_mod_to_equations. lia.
Qed.
Lemma round_4 n : Z.land (Z.of_nat n + 3) (-4) = Z.of_nat (n + pad n) /\ 4 * Z.quot (Z.of_nat (n + pad n)) 4 = Z.of_nat (n + pad n).
Proof.
  pose proof (pad_range n) as (P1 & P2 & _). rewrite land_minus_4, Nat2Z.inj_add, Z.quot_div_nonneg by lia. Z.div_mod_to_equations. lia.
Qed.
Lemma length_auth h : length (auth h) = (36 + (length h + pad (length h)))%nat.
Proof. unfold auth, xdr_string, zeros. rewrite !length_app, !repeat_length. cbn [be32 length]. lia. Qed.
Lemma zeros_20 : zeros 20 = be32 0 ++ be32 0 ++ be32 0 ++ be32 0 ++ be32 0.
Proof. reflexivity. Qed.
Lemma creds_wrote m p h : host_ok m h -> rpc_buf <= p ->
  wrote m (fst (rpc_add_credentials m p)) p (auth h) /\ snd (rpc_add_credentials m p) = p + Z.of_nat (length (auth h)).
Proof.
  intros (H1 & H2 & H3 & H4) Hp. unfold rpc_add_credentials. rewrite H1. destruct (round_4 (length h)) as (R1 & R2). rewrite R1, R2.
  set (n := Z.of_nat (length h)) in *. set (N := Z.of_nat (length h + pad (length h))) in *. cbn [fst snd].
  split; [|rewrite length_auth; subst N; lia].
  unfold auth. piece (p + 4). replace (20 + Z.of_nat (length h + pad (length h))) with (N + 20) by (subst N; lia). piece (p + 8). piece (p + 12).
  unfold xdr_string. fold n. rewrite <- app_assoc. piece (p + 16).
  set (m4 := put (put (put (put m p 1) (p + 4) (N + 20)) (p + 8) 0) (p + 12) n).
  assert (K4 : forall x, x < p -> ld8 m4 x = ld8 m x) by (intros x Hx; subst m4; unfold put; rewrite !ld8_st32_ne by lia; reflexivity).
  assert (Eh : forall v q, p <= q -> ld32 (st32 m4 q v) hostname = ld32 m hostname /\ ld32 m4 hostname = ld32 m hostname).
  { intros v q Hq. split; apply ld32_ext; intros x Hx; unfold hostname, rpc_buf in *; rewrite ?ld8_st32_ne by lia; apply K4; lia. }
  assert (Hn : 0 <= n) by (subst n; lia).
  replace (ld32 (if istrue (Z.land n 3) then st32 m4 (p + 16 + 4 * Z.quot n 4) 0 else m4) hostname) with (ld32 m hostname).
  2:{ pose proof (Z.quot_pos n 4 Hn ltac:(lia)). destruct (istrue _); symmetry; [apply Eh|apply (Eh 0 p)]; lia. }
  eapply (wrote_app _ _ _ _ (p + 16 + N)); [unfold zeros; rewrite length_app, repeat_length; subst N; lia| |].
  - apply (wrote_padded m4 (p + 16) (ld32 m hostname) h).
    + rewrite <- H2 at 2. apply ldn_ext. intros x Hx. apply K4. unfold rpc_buf in *. lia.
    + right. fold n. unfold rpc_buf in *. lia.
  - rewrite zeros_20. piece (p + 16 + N + 4). piece (p + 16 + N + 8). piece (p + 16 + N + 12). piece (p + 16 + N + 16). apply wrote_zero.
Qed.
Lemma path_wrote m p path s : ldn m path (length s) = s -> rpc_buf <= p -> path + Z.of_nat (length s) <= rpc_buf \/ p + Z.of_nat (length s) + 8 <= path ->
  wrote m (fst (put_path m p path (Z.of_nat (length s)))) p (xdr_string s) /\
  snd (put_path m p path (Z.of_nat (length s))) = p + Z.of_nat (length (xdr_string s)).
Proof.
  intros Hs Hp Hd. unfold put_path. cbn [fst snd]. split.
  - unfold xdr_string. piece (p + 4). apply wrote_padded; [|lia].
    etransitivity; [|exact Hs]. apply ldn_ext. intros x Hx. unfold put. apply ld8_st32_ne. lia.
  - unfold xdr_string, zeros. rewrite !length_app, repeat_length. cbn [be32 length]. pose proof (pad_range (length s)) as (P1 & P2 & _).
    rewrite Z.quot_div_nonneg by lia. Z.div_mod_to_equations. lia.
Qed.

(** What the arguments of a call are. *)
Definition args_are (args : mem -> Z -> mem * Z) (m : mem) (a : list Z) : Prop :=
  wrote m (fst (args m (rpc_call + 24))) (rpc_call + 24) a /\ snd (args m (rpc_call + 24)) = rpc_call + 24 + Z.of_nat (length a).
Lemma lookup_args_are prog ver m : args_are (lookup_args prog ver) m (zeros 16 ++ be32 prog ++ be32 ver ++ be32 IP_UDP ++ be32 0).
Proof.
  split; [|reflexivity]. set (p := rpc_call + 24). unfold lookup_args. cbn [fst]. change (zeros 16) with (be32 0 ++ be32 0 ++ be32 0 ++ be32 0). rewrite <- !app_assoc.
  piece (p + 4). piece (p + 8). piece (p + 12). piece (p + 16). piece (p + 20). piece (p + 24). piece (p + 28). apply wrote_zero.
Qed.
Section args.
Context (m : mem) (h : list Z) (Hh : host_ok m h) (Lh : (length h <= 64)%nat).
Let p1 := rpc_call + 24 + Z.of_nat (length (auth h)).
Lemma p1_range : rpc_call + 24 <= p1 <= rpc_call + 24 + 104.
Proof. subst p1. rewrite length_auth. pose proof (pad_range (length h)). lia. Qed.
(** A file handle or a name lies outside of the call, and is not changed while it is built. *)
Lemma outside_ldn m1 l a k : wrote m m1 (rpc_call + 24) l -> a + Z.of_nat k <= rpc_call \/ rpc_call + 24 + Z.of_nat (length l) <= a -> ldn m1 a k = ldn m a k.
Proof. intros (O & _) Ha. apply ldn_ext. intros x Hx. apply O. lia. Qed.
Lemma mount_args_are path s : ldn m path (length s) = s -> (length s <= 200)%nat -> rpc_buf + 0x400 <= path -> args_are (mount_args path (Z.of_nat (length s))) m (auth h ++ xdr_string s).
Proof.
  intros Hs Ls Hp. pose proof p1_range as R. unfold args_are, mount_args.
  destruct (creds_wrote m (rpc_call + 24) h Hh ltac:(unfold rpc_call; lia)) as (W & E). destruct (rpc_add_credentials m (rpc_call + 24)) as (m1 & q). cbn [fst snd] in W, E. fold p1 in E. subst q.
  destruct (path_wrote m1 p1 path s) as (W2 & E2).
  - etransitivity; [|exact Hs]. apply (outside_ldn m1 (auth h)); [exact W|]. fold p1. unfold rpc_call, rpc_buf in *. lia.
  - unfold rpc_call in R. lia.
  - right. unfold rpc_call, rpc_buf in *. lia.
  - split; [eapply wrote_app; [reflexivity|exact W|exact W2]|]. rewrite E2, length_app. subst p1. lia.
Qed.
Lemma handle_args_are fh b : ldn m fh 32 = b -> rpc_buf + 0x400 <= fh -> args_are (handle_args fh) m (auth h ++ b).
Proof.
  intros Hb Hp. pose proof p1_range as R. unfold args_are, handle_args.
  destruct (creds_wrote m (rpc_call + 24) h Hh ltac:(unfold rpc_call; lia)) as (W & E). destruct (rpc_add_credentials m (rpc_call + 24)) as (m1 & q). cbn [fst snd] in W, E |- *. fold p1 in E. subst q.
  assert (Lb : length b = 32%nat) by (rewrite <- Hb; apply length_ldn). split.
  - eapply wrote_app; [reflexivity|exact W|]. fold p1. apply wrote_copy; [exact Lb| |].
    + rewrite <- Hb. apply (outside_ldn m1 (auth h)); [exact W|]. fold p1. unfold rpc_call, rpc_buf in *. lia.
    + left. change (Z.of_nat (Z.to_nat NFS_FHSIZE)) with 32. unfold rpc_call, rpc_buf in *. lia.
  - rewrite length_app, Lb. subst p1. unfold NFS_FHSIZE. lia.
Qed.
Lemma lookup_path_args_are fh b path s : ldn m fh 32 = b -> rpc_buf + 0x400 <= fh -> ldn m path (length s) = s -> (length s <= 200)%nat -> rpc_buf + 0x400 <= path ->
  args_are (lookup_path_args fh path (Z.of_nat (length s))) m (auth h ++ b ++ xdr_string s).
Proof.
  intros Hb Hp Hs Ls Hp2. pose proof p1_range as R. unfold args_are, lookup_path_args. assert (Lb : length b = 32%nat) by (rewrite <- Hb; apply length_ldn).
  destruct (handle_args_are fh b Hb Hp) as (W & E). destruct (handle_args fh m (rpc_call + 24)) as (m1 & q). cbn [fst snd] in W, E.
  assert (Eq : q = p1 + 32) by (rewrite E, length_app, Lb; subst p1; lia). clear E. subst q.
  destruct (path_wrote m1 (p1 + 32) path s) as (W2 & E2).
  - etransitivity; [|exact Hs]. apply (outside_ldn m1 (auth h ++ b)); [exact W|]. rewrite length_app, Lb. subst p1. unfold rpc_call, rpc_buf in *. lia.
  - unfold rpc_call in R. lia.
  - right. unfold rpc_call, rpc_buf in *. lia.
  - rewrite app_assoc. split; [eapply wrote_app; [|exact W|exact W2]; rewrite length_app, Lb; subst p1; lia|].
    rewrite E2, !length_app, Lb. subst p1. lia.
Qed.
Lemma read_args_are fh b off len : ldn m fh 32 = b -> rpc_buf + 0x400 <= fh -> args_are (read_args fh off len) m (auth h ++ b ++ be32 off ++ be32 len ++ be32 0).
Proof.
  intros Hb Hp. unfold args_are, read_args. assert (Lb : length b = 32%nat) by (rewrite <- Hb; apply length_ldn).
  destruct (handle_args_are fh b Hb Hp) as (W & E). destruct (handle_args fh m (rpc_call + 24)) as (m1 & q). cbn [fst snd] in W, E |- *.
  assert (Eq : q = p1 + 32) by (rewrite E, length_app, Lb; subst p1; lia). clear E. subst q.
  rewrite app_assoc. split.
  - eapply (wrote_app _ _ _ _ (p1 + 32)); [rewrite length_app, Lb; subst p1; lia|exact W|]. piece (p1 + 32 + 4). piece (p1 + 32 + 8). apply wrote_zero.
  - rewrite !length_app, Lb. cbn [be32 length]. subst p1. lia.
Qed.
End args.

(** ** An exchange *)

(** What an exchange leaves alone: the tables and timers, and memory but for the packet buffer, the counters and the call. *)
Definition same_rpc (w w' : world) : Prop :=
  arptable w' = arptable w /\ netmask w' = netmask w /\ igmptable w' = igmptable w /\
  current_while_timer w' = current_while_timer w /\ periodic_timer w' = periodic_timer w /\
  forall x, x < nic_packet \/ nic_packet + 1514 <= x -> x < rpc_id \/ tokens + 4 <= x -> x < rpc_buf \/ rpc_buf + 0x400 <= x -> ld8 (mm w') x = ld8 (mm w) x.
Lemma same_rpc_trans w1 w2 w3 : same_rpc w1 w2 -> same_rpc w2 w3 -> same_rpc w1 w3.
Proof. intros (A & B & C & D & F & G) (A' & B' & C' & D' & F' & G'). repeat (split; [congruence|]). intros x H1 H2 H3. now rewrite G', G. Qed.
Lemma same_rpc_tabs w w' : same_rpc w w' -> same_tabs w w'.
Proof.
  intros (A & B & C & D & F & G). repeat (split; [assumption|]). intros x Hx. apply G; unfold lacp_pkt, nic_packet, rpc_id, tokens, rpc_buf in *; lia.
Qed.
(** Memory changed in the call and the counters only. *)
Lemma same_rpc_mm w m : (forall x, x < rpc_id \/ tokens + 4 <= x -> x < rpc_buf \/ rpc_buf + 0x400 <= x -> ld8 m x = ld8 (mm w) x) -> same_rpc w (set_mm m w).
Proof. intros H. repeat (split; [reflexivity|]). intros x _ H2 H3. now apply H. Qed.


Section exchange.
Context `{E : Env}.
Lemma rpc_send_reachable fuel sport port len w cli srv mac text :
  ready w cli srv mac -> 0 <= sport < 65536 -> 0 <= port < 65536 -> len = 28 + Z.of_nat (length text) -> len < 0x400 -> ldn (mm w) rpc_call (length text) = text ->
  exists w' f, rpc_send fuel ARP_SERVER sport port len w = Some (Ret 1, w') /\ same_rpc w w' /\ cnt_rx w' = cnt_rx w /\ cnt_kbd w' = cnt_kbd w /\
    sent w' = f :: sent w /\ is_call mac sport port text f /\
    (forall x, x < rpc_buf \/ rpc_call <= x -> ld8 (mm w') x = ld8 (mm w) x).
Proof.
  intros (Q & C & Rc & A & R) Hs Hp Hl Hl2 Ht. unfold rpc_send. run. rewrite A.
  destruct (udp_call fuel sport port len rpc_buf w srv mac text R Hs Hp Hl ltac:(lia) Ht) as (m & f & -> & F & O).
  do 2 eexists. split; [reflexivity|]. split; [|split; [reflexivity|split; [reflexivity|split; [reflexivity|split; [exact F|exact O]]]]].
  repeat (split; [reflexivity|]). intros x _ _ H3. apply O. lia.
Qed.

(** A reply to the call ends the wait. *)
Lemma length_reply_text id data : length (reply_text id data) = (24 + length data)%nat.
Proof. unfold reply_text, zeros. rewrite !length_app, repeat_length. cbn [be32 length]. lia. Qed.
Lemma zeros_bytes n : Forall (fun b => 0 <= b < 256) (zeros n).
Proof. unfold zeros. apply Forall_forall. intros x Hx. apply repeat_spec in Hx. lia. Qed.
Lemma await_rpc_reply n sport id t w cli srv mac hd s sp data :
  ready w cli srv mac -> 0 <= sport < 65536 -> 0 <= id < 4294967296 -> length hd = 12%nat -> (length data <= 1400)%nat -> Forall (fun b => 0 <= b < 256) data ->
  rx (cnt_rx w) = Some (udp_frame hd s cli sp sport (reply_text id data)) ->
  exists w', await_reply (S n) (await_rpc sport id) t w = Some (Ret 1, w') /\ same_rpc w w' /\ cnt_rx w' = S (cnt_rx w) /\ sent w' = sent w /\ cnt_kbd w' = cnt_kbd w /\
    (forall x, nic_packet + 1514 <= x -> ld8 (mm w') x = ld8 (mm w) x) /\
    rpc_failed (mm w') = false /\ ldn (mm w') (reply_data 0) (length data) = data.
Proof.
  intros (Q & C & Rc & A & R) Hs Hid Hh Ld Hb Hrx. set (body := reply_text id data) in *.
  assert (Lb : length body = (24 + length data)%nat) by apply length_reply_text.
  assert (Bb : Forall (fun b => 0 <= b < 256) body).
  { unfold body, reply_text. rewrite !Forall_app. repeat split; first [apply be32_bytes|apply zeros_bytes|exact Hb]. }
  destruct (udp_frame_received (mm w) hd body s cli sp sport Hh ltac:(lia) Bb Rc) as (F1 & F2 & F3 & F4 & F5 & F6).
  set (fr := udp_frame hd s cli sp sport body) in *. set (m := stn (mm w) nic_packet fr) in *.
  assert (Lf : length fr = (42 + length body)%nat) by (subst fr; now apply udp_frame_length).
  (* the words of the reply *)
  unfold body, reply_text in F6. change (ip_ptr + 28) with reply in F6.
  change (zeros 16) with (be32 0 ++ be32 0 ++ be32 0 ++ be32 0) in F6. rewrite <- !app_assoc in F6. rewrite !length_app in F6. cbn [be32 length] in F6.
  repeat rewrite (ldn_app m _ 4) in F6.
  apply app_split_length in F6 as (W0 & F6); [|reflexivity]. apply app_split_length in F6 as (W1 & F6); [|reflexivity].
  apply app_split_length in F6 as (W2 & F6); [|reflexivity]. apply app_split_length in F6 as (W3 & F6); [|reflexivity].
  apply app_split_length in F6 as (W4 & F6); [|reflexivity]. apply app_split_length in F6 as (W5 & F6); [|reflexivity].
  change (reply + Z.of_nat 4) with (reply + 4) in *. change (reply + 4 + Z.of_nat 4) with (reply + 8) in *. change (reply + 8 + Z.of_nat 4) with (reply + 12) in *.
  change (reply + 12 + Z.of_nat 4) with (reply + 16) in *. change (reply + 16 + Z.of_nat 4) with (reply + 20) in *. change (reply + 20 + Z.of_nat 4) with (reply_data 0) in *.
  destruct (await_reply_frame n (await_rpc sport id) t w fr _ 1 (fun w => w) Q Hrx F1) as (c & Er); [lia| |].
  { intros w1 Hm Hpl Ha. unfold await_rpc. cbn [has_udp negb]. run. unfold client_ip, arp in *. rewrite Hm, Ha, Hpl. fold m.
    rewrite F2, C, Z.eqb_refl, F4, u16_small, Z.eqb_refl by lia. cbn [negb].
    destruct (Z.ltb_spec (Z.of_nat (length fr)) (ETH_HLEN + 20 + 8 + 8)); [unfold ETH_HLEN in *; lia|].
    rewrite (ntohl_be32 m reply id Hid W0), Z.eqb_refl, (ntohl_be32 m (reply + 4) MSG_REPLY ltac:(unfold MSG_REPLY; lia) W1). reflexivity. }
  eexists. split; [exact Er|]. split; [|split; [reflexivity|split; [reflexivity|split; [reflexivity|split; [|split]]]]].
  - repeat (split; [reflexivity|]). intros x Hx _ _. apply ld8_stn_out. pose proof (rx_len _ _ Hrx). lia.
  - intros x Hx. apply ld8_stn_out. pose proof (rx_len _ _ Hrx). lia.
  - cbn [mm set_packetlen set_mm]. fold m. unfold rpc_failed.
    assert (Z0 : forall p, ldn m p 4 = be32 0 -> ld32 m p = 0) by (intros p Hp; apply ld32_ldn; [lia|exact Hp]).
    rewrite (Z0 (reply + 8) W2), (Z0 (reply + 12) W3), (Z0 (reply + 20) W5). reflexivity.
  - exact F6.
Qed.

(** What is left by an exchange: the call that was sent, and the reply in the packet buffer. *)
Record exchanged (w w' : world) (mac : list Z) (sport port : Z) (text : list Z) (id : Z) (data : list Z) : Prop := {
  ex_same : same_rpc w w';
  ex_rx : cnt_rx w' = S (cnt_rx w);
  ex_kbd : cnt_kbd w' = cnt_kbd w;
  ex_sent : exists f, sent w' = f :: sent w /\ is_call mac sport port text f;
  ex_id : ld32 (mm w') rpc_id = u32 (id + 1);
  ex_tokens : geti (mm w') tokens = geti (mm w) tokens;
  ex_ok : rpc_failed (mm w') = false;
  ex_data : ldn (mm w') (reply_data 0) (length data) = data;
}.
Definition interval_ok (interval : Z -> M Z) : Prop := forall w, exists t s c, interval 0 w = Some (Ret t, set_seed s (set_cnt_clock c w)).
Lemma exchange n early interval missed prog vers proc args a id w cli srv mac hd s sp sport port data :
  ready w cli srv mac -> ld32 (mm w) rpc_id = id ->
  (forall m1, (forall x, x < rpc_id \/ rpc_id + 4 <= x -> x < rpc_buf \/ rpc_buf + 0x400 <= x -> ld8 m1 x = ld8 (mm w) x) -> args_are args m1 a) ->
  (length a <= 800)%nat -> interval_ok interval -> 0 <= sport < 65536 -> 0 <= port < 65536 -> length hd = 12%nat -> (length data <= 1400)%nat ->
  Forall (fun b => 0 <= b < 256) data -> rx (cnt_rx w) = Some (udp_frame hd s cli sp sport (reply_text id data)) ->
  exists w1 w2 w', rpc_begin prog vers proc w = Some (Ret id, w1) /\ put_args args w1 = Some (Ret (52 + Z.of_nat (length a)), w2) /\
    rpc_loop (S (S n)) early interval missed ARP_SERVER sport port (52 + Z.of_nat (length a)) id 0 w2 = Some (Ret true, w') /\
    exchanged w w' mac sport port (call_text id prog vers proc a) id data.
Proof.
  intros Hr Hid Ha La Hi Hs Hp Hh Ld Hb Hrx. assert (Rid : 0 <= id < 4294967296) by (subst id; apply ld32_range).
  unfold rpc_begin, put_args, store32. run. rewrite Hid. set (m1 := st32 (mm w) rpc_id (id + 1)). cbn [mm set_mm]. fold m1.
  pose proof (rpc_header_wrote id prog vers proc m1) as Wh. set (m2 := rpc_header id prog vers proc m1) in *.
  set (hdr := be32 id ++ _) in Wh. assert (Lh : length hdr = 24%nat) by reflexivity.
  assert (K2 : forall x, x < rpc_id \/ rpc_id + 4 <= x -> x < rpc_buf \/ rpc_buf + 0x400 <= x -> ld8 m2 x = ld8 (mm w) x).
  { intros x H1 H2. rewrite (proj1 Wh) by (rewrite Lh; unfold rpc_call; lia). apply ld8_st32_ne. lia. }
  destruct (Ha m2 K2) as (Wa & Ea). destruct (args m2 (rpc_call + 24)) as (m3 & p) eqn:Eq. cbn [fst snd] in Wa, Ea.
  assert (W3 : wrote m1 m3 rpc_call (hdr ++ a)) by (eapply wrote_app; [|exact Wh|exact Wa]; rewrite Lh; lia).
  assert (K3 : forall x, x < rpc_buf \/ rpc_buf + 0x400 <= x -> ld8 m3 x = ld8 m1 x).
  { intros x Hx. apply W3. rewrite length_app, Lh. unfold rpc_call. lia. }
  set (w3 := set_mm m3 (set_mm m2 (set_mm m1 w))).
  assert (S3 : same_rpc w w3).
  { apply (same_rpc_mm w m3). intros x H1 H2. rewrite K3 by exact H2. apply ld8_st32_ne. unfold rpc_id, tokens in *. lia. }
  assert (Et : call_text id prog vers proc a = hdr ++ a) by (unfold call_text; subst hdr; rewrite <- !app_assoc; reflexivity).
  assert (Lt : length (call_text id prog vers proc a) = (24 + length a)%nat) by (rewrite Et, length_app, Lh; reflexivity).
  (* sending, and the timeout *)
  assert (Snd : forall w4, same_rpc w w4 -> mm w4 = m3 -> cnt_rx w4 = cnt_rx w -> cnt_kbd w4 = cnt_kbd w -> sent w4 = sent w ->
    exists w5 f, rpc_send (S n) ARP_SERVER sport port (52 + Z.of_nat (length a)) w4 = Some (Ret 1, w5) /\ same_rpc w w5 /\ cnt_rx w5 = cnt_rx w /\
      cnt_kbd w5 = cnt_kbd w /\ sent w5 = f :: sent w /\ is_call mac sport port (call_text id prog vers proc a) f /\
      (forall x, x < rpc_buf \/ rpc_call <= x -> ld8 (mm w5) x = ld8 m3 x)).
  { intros w4 S4 M4 C4 B4 T4.
    destruct (rpc_send_reachable (S n) sport port (52 + Z.of_nat (length a)) w4 cli srv mac (call_text id prog vers proc a))
      as (w5 & f & E5 & S5 & C5 & B5 & T5 & I5 & K5); [now apply (ready_same w); [apply same_rpc_tabs|]|exact Hs|exact Hp|rewrite Lt; lia|lia| |].
    - rewrite M4, Et. apply W3.
    - exists w5, f. rewrite C5, B5, T5, C4, B4, T4. rewrite M4 in K5. split; [exact E5|]. split; [now apply (same_rpc_trans w w4)|]. auto. }
  assert (Aw : exists t w5 f, (if early then t <- interval 0 ;; rpc_send (S n) ARP_SERVER sport port (52 + Z.of_nat (length a)) ;;; ret t
                               else rpc_send (S n) ARP_SERVER sport port (52 + Z.of_nat (length a)) ;;; interval 0) w3 = Some (Ret t, w5) /\
      same_rpc w w5 /\ cnt_rx w5 = cnt_rx w /\ cnt_kbd w5 = cnt_kbd w /\ sent w5 = f :: sent w /\ is_call mac sport port (call_text id prog vers proc a) f /\
      (forall x, x < rpc_buf \/ rpc_call <= x -> ld8 (mm w5) x = ld8 m3 x)).
  { destruct early; run.
    - destruct (Hi w3) as (t & sd & c & ->). destruct (Snd (set_seed sd (set_cnt_clock c w3)) S3 eq_refl eq_refl eq_refl eq_refl) as (w5 & f & -> & P5).
      exists t, w5, f. split; [reflexivity|exact P5].
    - destruct (Snd w3 S3 eq_refl eq_refl eq_refl eq_refl) as (w5 & f & -> & P5). destruct (Hi w5) as (t & sd & c & ->).
      exists t, (set_seed sd (set_cnt_clock c w5)), f. split; [reflexivity|exact P5]. }
  destruct Aw as (t & w5 & f & E5 & S5 & C5 & B5 & T5 & I5 & K5).
  destruct (await_rpc_reply n sport id t w5 cli srv mac hd s sp data) as (w6 & E6 & S6 & C6 & T6 & B6 & K6 & F6 & D6);
    [now apply (ready_same w); [apply same_rpc_tabs|]|exact Hs|exact Rid|exact Hh|exact Ld|exact Hb|rewrite C5; exact Hrx|].
  exists (set_mm m2 (set_mm m1 w)), w3, w6. split; [reflexivity|]. split; [cbn [mm set_mm]; rewrite Eq, Ea; do 3 f_equal; unfold rpc_call; lia|].
  split.
  { cbn [rpc_loop]. change (0 <? MAX_RPC_RETRIES) with true. cbv iota. unfold bind at 1. rewrite E5. run. rewrite E6. reflexivity. }
  assert (Kv : forall x, rpc_id <= x < rpc_buf -> ld8 (mm w6) x = ld8 m1 x).
  { intros x Hx. unfold rpc_id, rpc_buf in Hx. rewrite K6, K5, K3 by (unfold nic_packet, rpc_buf, rpc_call; lia). reflexivity. }
  constructor; [now apply (same_rpc_trans w w5)|congruence|congruence| | | |exact F6|exact D6].
  - exists f. split; [congruence|exact I5].
  - rewrite (ld32_ext _ m1) by (intros x Hx; apply Kv; unfold rpc_id, rpc_buf in *; lia). apply ld32_st32_eq.
  - rewrite (geti_ext m1) by (intros x Hx; apply Kv; unfold rpc_id, tokens, rpc_buf in *; lia). apply geti_st32_ne. unfold rpc_id, tokens. lia.
Qed.
End exchange.

(** ** The functions of the client, answered *)

Lemma rfc2131_interval `{Env} base : interval_ok (rfc2131_sleep_interval base).
Proof. intros w. apply rfc2131_total. Qed.
Lemma read_interval_ok `{Env} : interval_ok read_interval.
Proof.
  intros w. unfold read_interval. run. destruct (rfc2131_total TIMEOUT 0 w) as (t & s & c & ->). do 3 eexists. reflexivity.
Qed.
Lemma status_ok m : rpc_failed m = false -> ldn m (reply_data 0) 4 = be32 0 -> nfs_status m = None.
Proof. intros Hf H0. unfold nfs_status. rewrite Hf. assert (E : ld32 m (reply_data 0) = 0) by (apply ld32_ldn; [lia|exact H0]). rewrite E. reflexivity. Qed.


(** The server: its frames to the port [sport], and what a world must be to talk to it. *)
Section server.
Context `{E : Env} (cli srv : Z) (mac hd : list Z) (s sp sport : Z) (h : list Z).
Context (Hh : length hd = 12%nat) (Hsport : 0 <= sport < 65536) (Lh : (length h <= 64)%nat).
Definition answers (w : world) (id : Z) (data : list Z) : Prop := rx (cnt_rx w) = Some (udp_frame hd s cli sp sport (reply_text id data)).
Definition talking (w : world) (id : Z) : Prop := ready w cli srv mac /\ ld32 (mm w) rpc_id = id /\ host_ok (mm w) h.
Definition done_call (w w' : world) (port : Z) (text : list Z) (id : Z) (data : list Z) : Prop := exchanged w w' mac sport port text id data.

Lemma same_rpc_host w w' : same_rpc w w' -> host_ok (mm w) h -> host_ok (mm w') h.
Proof. intros (_ & _ & _ & _ & _ & K) Hk. apply (host_ok_ext (mm w)); [|exact Hk]. intros x Hx. apply K; unfold nic_packet, rpc_id, tokens, rpc_buf; lia. Qed.
Lemma talking_next w w' port text id data : done_call w w' port text id data -> talking w id -> id + 1 < 4294967296 -> talking w' (id + 1).
Proof.
  intros X (Hr & Hid & Hk) Hb. split; [apply (ready_same w); [apply same_rpc_tabs, X|exact Hr]|]. split.
  - rewrite (ex_id _ _ _ _ _ _ _ _ X). pose proof (ld32_range (mm w) rpc_id). apply u32_small. lia.
  - apply (same_rpc_host w); [apply X|exact Hk].
Qed.
(** A change of memory that is none of an exchange's business. *)
Lemma talking_mm w m id : talking w id ->
  (forall x, lacp_pkt <= x < lacp_pkt + 0x1000 \/ 0x38000 <= x < 0x3b000 \/ rpc_id <= x < rpc_id + 4 -> ld8 m x = ld8 (mm w) x) -> talking (set_mm m w) id.
Proof.
  intros (Hr & Hid & Hk) K. split; [|split].
  - apply (ready_same w); [|exact Hr]. repeat (split; [reflexivity|]). intros x Hx. apply K. auto.
  - cbn [mm set_mm]. rewrite <- Hid. apply ld32_ext. intros x Hx. apply K. auto.
  - apply (host_ok_ext (mm w)); [|exact Hk]. intros x Hx. apply K. auto.
Qed.

Lemma rpc_lookup_ok n prog ver w id port : talking w id -> 0 <= port < 65536 -> answers w id (be32 port) ->
  exists w', rpc_lookup (S (S n)) ARP_SERVER prog ver sport w = Some (Ret port, w') /\
    done_call w w' SUNRPC_PORT (call_text id PROG_PORTMAP 2 PORTMAP_GETPORT (zeros 16 ++ be32 prog ++ be32 ver ++ be32 IP_UDP ++ be32 0)) id (be32 port).
Proof.
  intros (Hr & Hid & _) Hp Ha. unfold rpc_lookup, rpc_wait.
  destruct (exchange n false (rfc2131_sleep_interval TIMEOUT) (ret tt) PROG_PORTMAP 2 PORTMAP_GETPORT (lookup_args prog ver)
    (zeros 16 ++ be32 prog ++ be32 ver ++ be32 IP_UDP ++ be32 0) id w cli srv mac hd s sp sport SUNRPC_PORT (be32 port)) as (w1 & w2 & w' & E1 & E2 & E3 & X);
    [exact Hr|exact Hid|intros m1 _; apply lookup_args_are|cbn; lia|apply rfc2131_interval|exact Hsport|unfold SUNRPC_PORT; lia|exact Hh|cbn; lia|apply be32_bytes|exact Ha|].
  exists w'. split; [|exact X]. unfold bind at 1. rewrite E1. unfold bind at 1. rewrite E2. unfold bind at 1. rewrite E3. run.
  rewrite (ex_ok _ _ _ _ _ _ _ _ X). rewrite (ntohl_be32 _ _ port ltac:(lia) (ex_data _ _ _ _ _ _ _ _ X)). rewrite s32_small by lia. reflexivity.
Qed.
Lemma nfs_mount_ok n w id port dir fh : talking w id -> 0 <= port < 65536 -> cstr (mm w) dirname dir -> (length dir <= 200)%nat -> (length dir < S (S n))%nat ->
  length fh = 32%nat -> Forall (fun b => 0 <= b < 256) fh -> answers w id (be32 0 ++ fh) ->
  exists w1, nfs_mount (S (S n)) ARP_SERVER port dirname dirfh sport w = Some (Ret 0, set_mm (memcpy (st32 (mm w1) fs_mounted 1) dirfh (reply_data 1) 32) w1) /\
    done_call w w1 port (call_text id PROG_MOUNT 1 MOUNT_ADDENTRY (auth h ++ xdr_string dir)) id (be32 0 ++ fh) /\ ldn (mm w1) (reply_data 1) 32 = fh.
Proof.
  intros (Hr & Hid & Hk) Hp Hc Ld Hf Lf Bf Ha. unfold nfs_mount, rpc_wait.
  destruct (exchange n false (rfc2131_sleep_interval TIMEOUT) (ret tt) PROG_MOUNT 1 MOUNT_ADDENTRY (mount_args dirname (Z.of_nat (length dir)))
    (auth h ++ xdr_string dir) id w cli srv mac hd s sp sport port (be32 0 ++ fh)) as (w1 & w2 & w' & E1 & E2 & E3 & X);
    [exact Hr|exact Hid| | |apply rfc2131_interval|exact Hsport|exact Hp|exact Hh|rewrite length_app, Lf; cbn; lia|apply Forall_app; split; [apply be32_bytes|exact Bf]|exact Ha|].
  - intros m1 K1. apply mount_args_are; [|exact Lh| |exact Ld|unfold dirname, rpc_buf; lia].
    + apply (host_ok_ext (mm w)); [|exact Hk]. intros x Hx. apply K1; unfold rpc_id, rpc_buf; lia.
    + etransitivity; [|exact (cstr_full _ _ _ Hc)]. apply ldn_ext. intros x Hx. apply K1; unfold rpc_id, rpc_buf, dirname in *; lia.
  - rewrite length_app, length_auth. unfold xdr_string, zeros. rewrite !length_app, repeat_length. cbn [be32 length].
    pose proof (pad_range (length h)). pose proof (pad_range (length dir)). lia.
  - assert (Hd : ldn (mm w') (reply_data 0) 4 = be32 0 /\ ldn (mm w') (reply_data 1) 32 = fh).
    { pose proof (ex_data _ _ _ _ _ _ _ _ X) as Hd. apply data_split in Hd. rewrite Lf in Hd. exact Hd. }
    exists w'. split; [|split; [exact X|apply Hd]].
    unfold bind at 1, get at 1. unfold bind at 1, of_fuel. rewrite (strlen_cstr _ _ dir) by (exact Hc || exact Hf). unfold ret at 1.
    unfold bind at 1. rewrite E1. unfold bind at 1. rewrite E2. unfold bind at 1. rewrite E3. run.
    rewrite (status_ok (mm w') (ex_ok _ _ _ _ _ _ _ _ X) (proj1 Hd)). unfold store32. run. reflexivity.
Qed.
Lemma length_xdr t : (length (xdr_string t) <= 7 + length t)%nat.
Proof. unfold xdr_string, zeros. rewrite !length_app, repeat_length. cbn [be32 length]. pose proof (pad_range (length t)). lia. Qed.
(** [fname] lies in [dirname]. *)
Lemma nfs_lookup_ok n w id port fname file dfh fh : talking w id -> 0 <= port < 65536 -> cstr (mm w) fname file -> dirname <= fname < 0x3bd80 ->
  fname + Z.of_nat (length file) < 0x3be00 -> (length file <= 200)%nat -> (length file < S (S n))%nat -> ldn (mm w) dirfh 32 = dfh ->
  length fh = 32%nat -> Forall (fun b => 0 <= b < 256) fh -> answers w id (be32 0 ++ fh) ->
  exists w1, nfs_lookup (S (S n)) ARP_SERVER port dirfh fname filefh sport w = Some (Ret 0, set_mm (memcpy (mm w1) filefh (reply_data 1) 32) w1) /\
    done_call w w1 port (call_text id PROG_NFS 2 NFS_LOOKUP (auth h ++ dfh ++ xdr_string file)) id (be32 0 ++ fh) /\ ldn (mm w1) (reply_data 1) 32 = fh.
Proof.
  intros (Hr & Hid & Hk) Hp Hc Hn1 Hn2 Ld Hf Hd Lf Bf Ha. unfold nfs_lookup, rpc_wait.
  assert (Ldf : length dfh = 32%nat) by (rewrite <- Hd; apply length_ldn).
  destruct (exchange n true (rfc2131_sleep_interval TIMEOUT) (ret tt) PROG_NFS 2 NFS_LOOKUP (lookup_path_args dirfh fname (Z.of_nat (length file)))
    (auth h ++ dfh ++ xdr_string file) id w cli srv mac hd s sp sport port (be32 0 ++ fh)) as (w1 & w2 & w' & E1 & E2 & E3 & X);
    [exact Hr|exact Hid| | |apply rfc2131_interval|exact Hsport|exact Hp|exact Hh|rewrite length_app, Lf; cbn; lia|apply Forall_app; split; [apply be32_bytes|exact Bf]|exact Ha|].
  - intros m1 K1. apply lookup_path_args_are; [|exact Lh| |unfold dirfh, rpc_buf; lia| |exact Ld|unfold dirname, rpc_buf in *; lia].
    + apply (host_ok_ext (mm w)); [|exact Hk]. intros x Hx. apply K1; unfold rpc_id, rpc_buf; lia.
    + rewrite <- Hd. apply ldn_ext. intros x Hx. apply K1; unfold rpc_id, rpc_buf, dirfh in *; lia.
    + etransitivity; [|exact (cstr_full _ _ _ Hc)]. apply ldn_ext. intros x Hx. apply K1; unfold rpc_id, rpc_buf, dirname in *; lia.
  - rewrite !length_app, length_auth, Ldf. pose proof (pad_range (length h)). pose proof (length_xdr file). lia.
  - assert (Hw : ldn (mm w') (reply_data 0) 4 = be32 0 /\ ldn (mm w') (reply_data 1) 32 = fh).
    { pose proof (ex_data _ _ _ _ _ _ _ _ X) as Hw. apply data_split in Hw. rewrite Lf in Hw. exact Hw. }
    exists w'. split; [|split; [exact X|apply Hw]].
    unfold bind at 1, get at 1. unfold bind at 1, of_fuel. rewrite (strlen_cstr _ _ file) by (exact Hc || exact Hf). unfold ret at 1.
    unfold bind at 1. rewrite E1. unfold bind at 1. rewrite E2. unfold bind at 1. rewrite E3. run.
    rewrite (status_ok (mm w') (ex_ok _ _ _ _ _ _ _ _ X) (proj1 Hw)). reflexivity.
Qed.
(** The reply to a read: the status, the attributes, among them the size of the file, and the bytes. *)
Definition read_reply (a1 a2 : list Z) (size : Z) (b : list Z) : list Z :=
  be32 0 ++ a1 ++ be32 size ++ a2 ++ be32 (Z.of_nat (length b)) ++ b ++ zeros (pad (length b)).
Definition read_call (id : Z) (fh : list Z) (off len : Z) : list Z :=
  call_text id PROG_NFS 2 NFS_READ (auth h ++ fh ++ be32 off ++ be32 len ++ be32 0).
Definition counted (m : mem) : mem := if geti m tokens <? 256 then st32 m tokens (geti m tokens + 1) else m.
Lemma nfs_read_ok n w id port fh off len a1 a2 size b : talking w id -> 0 <= port < 65536 -> ldn (mm w) filefh 32 = fh ->
  length a1 = 20%nat -> length a2 = 44%nat -> Forall (fun b => 0 <= b < 256) (a1 ++ a2 ++ b) -> (length b <= 1024)%nat -> 0 <= size < 4294967296 ->
  answers w id (read_reply a1 a2 size b) ->
  exists w1, nfs_read (S (S n)) ARP_SERVER port filefh off len sport w = Some (Ret 0, set_mm (counted (mm w1)) w1) /\
    done_call w w1 port (read_call id fh off len) id (read_reply a1 a2 size b) /\
    ntohl (ld32 (mm w1) (reply_data 6)) = size /\ ntohl (ld32 (mm w1) (reply_data 18)) = Z.of_nat (length b) /\ ldn (mm w1) (reply_data 19) (length b) = b.
Proof.
  intros (Hr & Hid & Hk) Hp Hfh La1 La2 Hb Lb Hsz Ha. unfold nfs_read. rewrite !Forall_app in Hb. destruct Hb as (Hb1 & Hb2 & Hb3).
  assert (Lfh : length fh = 32%nat) by (rewrite <- Hfh; apply length_ldn). pose proof (pad_range (length b)) as Hpad.
  destruct (exchange n true read_interval (set_mem (fun m => st32 m tokens (Z.shiftr (geti m tokens) 1))) PROG_NFS 2 NFS_READ (read_args filefh off len)
    (auth h ++ fh ++ be32 off ++ be32 len ++ be32 0) id w cli srv mac hd s sp sport port (read_reply a1 a2 size b)) as (w1 & w2 & w' & E1 & E2 & E3 & X);
    [exact Hr|exact Hid| | |apply read_interval_ok|exact Hsport|exact Hp|exact Hh| | |exact Ha|].
  - intros m1 K1. apply read_args_are; [|exact Lh| |unfold filefh, rpc_buf; lia].
    + apply (host_ok_ext (mm w)); [|exact Hk]. intros x Hx. apply K1; unfold rpc_id, rpc_buf; lia.
    + rewrite <- Hfh. apply ldn_ext. intros x Hx. apply K1; unfold rpc_id, rpc_buf, filefh in *; lia.
  - rewrite !length_app, length_auth, Lfh. cbn [be32 length]. pose proof (pad_range (length h)). lia.
  - unfold read_reply, zeros. rewrite !length_app, repeat_length, La1, La2. cbn [be32 length]. lia.
  - unfold read_reply. rewrite !Forall_app. repeat split; first [apply be32_bytes|apply zeros_bytes|assumption].
  - pose proof (ex_data _ _ _ _ _ _ _ _ X) as Hw. unfold read_reply in Hw.
    apply data_split in Hw as (D0 & Hw). apply data_split in Hw as (_ & Hw). rewrite La1 in Hw. apply data_split in Hw as (D6 & Hw).
    apply data_split in Hw as (_ & Hw). rewrite La2 in Hw. apply data_split in Hw as (D18 & Hw). apply data_split in Hw as (D19 & _).
    exists w'. split; [|split; [exact X|]].
    + unfold bind at 1. rewrite E1. unfold bind at 1. rewrite E2. unfold bind at 1. rewrite E3. run.
      fold (counted (mm w')). cbn [mm set_mm].
      assert (Kc : forall x, x < tokens -> ld8 (counted (mm w')) x = ld8 (mm w') x)
        by (intros x Hx; unfold counted; destruct (_ <? _); [apply ld8_st32_ne; lia|reflexivity]).
      rewrite status_ok; [reflexivity| |].
      * rewrite <- (ex_ok _ _ _ _ _ _ _ _ X). unfold rpc_failed.
        assert (Ke : forall k, 0 <= k <= 20 -> ld32 (counted (mm w')) (reply + k) = ld32 (mm w') (reply + k))
          by (intros k Hk2; apply ld32_ext; intros x Hx; apply Kc; unfold reply, nic_packet, ETH_HLEN, tokens in *; lia).
        rewrite !Ke by lia. reflexivity.
      * change (length (be32 0)) with 4%nat in D0. etransitivity; [|exact D0]. apply ldn_ext. intros x Hx. apply Kc. unfold reply_data, reply, nic_packet, ETH_HLEN, tokens in *. lia.
    + split; [exact (ntohl_be32 _ _ size Hsz D6)|]. split; [exact (ntohl_be32 _ _ (Z.of_nat (length b)) ltac:(lia) D18)|]. exact D19.
Qed.

(** *** The blocks of a file *)

(** What the server sends for a block: two parts of its attributes, and the bytes. *)
Definition block_reply : Type := list Z * list Z * list Z.
Definition bytes_of (r : block_reply) : list Z := snd r.
Definition reply_ok (r : block_reply) : Prop :=
  length (fst (fst r)) = 20%nat /\ length (snd (fst r)) = 44%nat /\ Forall (fun b => 0 <= b < 256) (fst (fst r) ++ snd (fst r) ++ snd r).
(** All blocks are full but the last, which is not empty. *)
Fixpoint nfs_blocks (rs : list block_reply) : Prop :=
  match rs with
  | [] => False
  | [r] => (0 < length (bytes_of r) <= 1024)%nat
  | r :: rs => length (bytes_of r) = 1024%nat /\ nfs_blocks rs
  end.
Definition file_of (rs : list block_reply) : list Z := concat (map bytes_of rs).
(** The calls for them, from the one with number [id] on. *)
Fixpoint read_calls (fh : list Z) (size id off len : Z) (rs : list block_reply) : list (list Z) :=
  match rs with
  | [] => []
  | r :: rs =>
      let off' := off + Z.of_nat (length (bytes_of r)) in
      read_call id fh off len :: read_calls fh size (id + 1) off' (Z.min NFS_READ_SIZE (size - off')) rs
  end.
Definition serves (w : world) (id size : Z) (rs : list block_reply) : Prop := forall j r, nth_error rs j = Some r ->
  rx (cnt_rx w + j) = Some (udp_frame hd s cli sp sport (reply_text (id + Z.of_nat j) (read_reply (fst (fst r)) (snd (fst r)) size (bytes_of r)))).

(** One block: it is read and stored. *)
Lemma read_block_ok n w id port fh off len sz size dest r : talking w id -> id + 1 < 4294967296 -> 0 <= port < 65536 -> ldn (mm w) filefh 32 = fh ->
  reply_ok r -> Z.of_nat (length (bytes_of r)) <= len <= 1024 -> 0 <= off -> off + Z.of_nat (length (bytes_of r)) <= size < 2147483648 ->
  sz = -1 \/ sz = size -> off mod 1024 = 0 -> 0x40000 <= dest ->
  answers w id (read_reply (fst (fst r)) (snd (fst r)) size (bytes_of r)) ->
  exists w' f,
    (let off' := off + Z.of_nat (length (bytes_of r)) in
     let len' := if size - off' <? NFS_READ_SIZE then size - off' else len in
     read_loop (S (S (S n))) (store_block dest 1024) port sport off (1 + off / 1024) sz len w =
       if negb (len' =? 0) then read_loop (S (S n)) (store_block dest 1024) port sport off' (u32 (1 + off / 1024 + 1)) size len' w' else Some (Ret (RdReturn 1), w')) /\
    talking w' (id + 1) /\ cnt_rx w' = S (cnt_rx w) /\ sent w' = f :: sent w /\ is_call mac sport port (read_call id fh off len) f /\ ldn (mm w') filefh 32 = fh /\
    ldn (mm w') (dest + off) (length (bytes_of r)) = bytes_of r /\ (forall x, 0x40000 <= x < dest + off -> ld8 (mm w') x = ld8 (mm w) x).
Proof.
  intros T Hid Hp Hfh (La1 & La2 & Hb) Hlen Hoff Hsize Hsz Hm Hdest Ha. set (b := bytes_of r) in *.
  assert (Lb : (length b <= 1024)%nat) by lia.
  destruct (nfs_read_ok n w id port fh off len (fst (fst r)) (snd (fst r)) size b T Hp Hfh La1 La2 Hb Lb ltac:(lia) Ha) as (w1 & E1 & X & D6 & D18 & D19).
  set (m2 := counted (mm w1)) in *.
  assert (K2 : forall x, x < tokens \/ tokens + 4 <= x -> ld8 m2 x = ld8 (mm w1) x) by (intros x Hx; subst m2; unfold counted; destruct (_ <? _); [apply ld8_st32_ne; lia|reflexivity]).
  assert (Kr : forall x, x < rpc_id -> ld8 m2 x = ld8 (mm w1) x) by (intros x Hx; apply K2; unfold rpc_id, tokens in *; lia).
  set (a := dest + off). set (m3 := memcpy m2 a (reply_data 19) (length b)).
  assert (Hrd : reply_data 19 + 1024 <= 0x30000) by (vm_compute; discriminate).
  assert (K3 : forall x, ld8 m3 x = if (a <=? x) && (x <? a + Z.of_nat (length b)) then ld8 m2 (reply_data 19 + (x - a)) else ld8 m2 x).
  { intros x. subst m3. apply ld8_memcpy. subst a. lia. }
  assert (O3 : forall x, x < 0x40000 -> ld8 m3 x = ld8 m2 x) by (intros x Hx; rewrite K3; subst a; case_tests; (lia || reflexivity)).
  destruct (ex_sent _ _ _ _ _ _ _ _ X) as (f & Sf & Cf). pose proof (ex_same _ _ _ _ _ _ _ _ X) as (_ & _ & _ & _ & _ & Ks).
  exists (set_mm m3 (set_mm m2 w1)), f. split; [|split; [|split; [exact (ex_rx _ _ _ _ _ _ _ _ X)|split; [exact Sf|split; [exact Cf|split; [|split]]]]]].
  - cbv zeta. remember (S (S n)) as k. cbn [read_loop]. unfold bind at 1. rewrite E1. cbn [Z.leb Z.compare Z.opp NFSERR_ISDIR andb Z.eqb negb]. cbv iota. run. cbn [mm set_mm]. fold m2.
    rewrite !(ld32_ext m2 (mm w1)) by (intros x Hx; apply Kr; unfold reply_data, reply, nic_packet, ETH_HLEN, rpc_id in *; lia).
    rewrite D6, D18, (s32_small size), (s32_small (Z.of_nat (length b))) by lia.
    replace (if sz =? -1 then size else sz) with size by (destruct Hsz as [-> | ->]; [reflexivity|destruct (Z.eqb_spec size (-1)); lia]).
    rewrite Z.gtb_ltb. destruct (Z.ltb_spec len (Z.of_nat (length b))); [lia|]. unfold store_block at 1. run. cbn [mm set_mm]. cbn [Z.leb Z.compare].
    rewrite Nat2Z.id. replace (dest + (1 + off / 1024 - 1) * 1024) with a by (subst a; Z.div_mod_to_equations; lia). fold m3.
    rewrite (s32_small (off + _)), (s32_small (size - _)) by lia. destruct (negb _); reflexivity.
  - apply talking_mm; [apply talking_mm|]; [exact (talking_next _ _ _ _ _ _ X T Hid)| |]; intros x Hx; cbn [mm set_mm]; unfold lacp_pkt, rpc_id in Hx; [apply K2|apply O3]; unfold tokens; lia.
  - cbn [mm set_mm]. rewrite <- Hfh. apply ldn_ext. intros x Hx. unfold filefh in Hx. rewrite O3, K2, Ks by (unfold nic_packet, rpc_id, tokens, rpc_buf; lia). reflexivity.
  - cbn [mm set_mm]. subst m3. rewrite ldn_memcpy by (subst a; lia). etransitivity; [|exact D19]. apply ldn_ext. intros x Hx. apply Kr. unfold rpc_id. lia.
  - intros x Hx. cbn [mm set_mm]. rewrite K3. destruct (Z.leb_spec a x); [lia|]. cbn [andb]. rewrite K2, Ks by (unfold nic_packet, rpc_id, tokens, rpc_buf; lia). reflexivity.
Qed.

Lemma read_loop_ok n rs : forall w id port fh off len sz size dest, talking w id -> id + Z.of_nat (length rs) < 4294967296 -> 0 <= port < 65536 ->
  ldn (mm w) filefh 32 = fh -> nfs_blocks rs -> Forall reply_ok rs -> 0 <= off -> off mod 1024 = 0 -> off + Z.of_nat (length (file_of rs)) = size -> size < 2147483648 ->
  sz = -1 \/ sz = size -> len = 1024 \/ len = Z.min 1024 (size - off) -> 0x40000 <= dest -> serves w id size rs ->
  exists w' frames, read_loop (length rs + S (S n)) (store_block dest 1024) port sport off (1 + off / 1024) sz len w = Some (Ret (RdReturn 1), w') /\
    ldn (mm w') (dest + off) (length (file_of rs)) = file_of rs /\ (forall x, 0x40000 <= x < dest + off -> ld8 (mm w') x = ld8 (mm w) x) /\
    sent w' = frames ++ sent w /\ Forall2 (is_call mac sport port) (rev (read_calls fh size id off len rs)) frames.
Proof.
  induction rs as [|r rs IH]; intros w id port fh off len sz size dest T Hid Hp Hfh Hbl Hok Ho Hm Htot Hsize Hsz Hlen Hd Hs; [destruct Hbl|].
  inversion_clear Hok as [|? ? Hr Hok2]. unfold file_of in Htot. cbn [map concat] in Htot. rewrite length_app in Htot. fold (file_of rs) in Htot.
  set (b := bytes_of r) in *. cbn [length] in Hid.
  assert (Hb : (length b <= 1024)%nat /\ (rs = [] \/ length b = 1024%nat /\ nfs_blocks rs)).
  { cbn [nfs_blocks] in Hbl. fold b in Hbl. destruct rs as [|r2 rs]; [split; [lia|now left]|]. destruct Hbl as (Hb1 & Hb2). split; [lia|right; split; [exact Hb1|exact Hb2]]. }
  destruct Hb as (Hb1 & Hb2).
  assert (A0 : answers w id (read_reply (fst (fst r)) (snd (fst r)) size b)).
  { pose proof (Hs 0%nat r eq_refl) as A0. rewrite Nat.add_0_r, Z.add_0_r in A0. exact A0. }
  replace (length (r :: rs) + S (S n))%nat with (S (S (S (length rs + n)))) by (cbn [length]; lia).
  destruct (read_block_ok (length rs + n) w id port fh off len sz size dest r T) as (w1 & f & E1 & T1 & C1 & S1 & F1 & G1 & L1 & O1);
    [lia|exact Hp|exact Hfh|exact Hr|fold b; lia|exact Ho|fold b; lia|exact Hsz|exact Hm|exact Hd|exact A0|]. fold b in E1, L1. cbv zeta in E1. unfold NFS_READ_SIZE in E1.
  change (file_of (r :: rs)) with (b ++ file_of rs). cbn [read_calls rev]. fold b. set (off' := off + Z.of_nat (length b)) in *.
  destruct Hb2 as [-> |(Hb2 & Hb3)].
  - cbn [length file_of map concat] in Htot, E1 |- *. replace (size - off') with 0 in E1 by (subst off'; cbn [file_of map concat length] in Htot; lia).
    cbn [Z.ltb Z.compare Z.eqb negb] in E1. exists w1, [f]. rewrite app_nil_r. split; [exact E1|]. split; [exact L1|]. split; [exact O1|]. split; [exact S1|].
    cbn [read_calls rev app]. constructor; [exact F1|constructor].
  - assert (Hf0 : (0 < length (file_of rs))%nat).
    { destruct rs as [|r2 rs]; [destruct Hb3|]. unfold file_of. cbn [map concat]. rewrite length_app. cbn [nfs_blocks] in Hb3. destruct rs; lia. }
    assert (Hl1 : len = 1024) by lia. subst len.
    assert (Hl2 : (if size - off' <? 1024 then size - off' else 1024) = Z.min 1024 (size - off')) by (destruct (Z.ltb_spec (size - off') 1024); lia).
    rewrite Hl2 in E1. destruct (Z.eqb_spec (Z.min 1024 (size - off')) 0); [subst off'; lia|]. cbn [negb] in E1.
    assert (Hblk : u32 (1 + off / 1024 + 1) = 1 + off' / 1024) by (subst off'; rewrite Hb2, u32_small; Z.div_mod_to_equations; lia). rewrite Hblk in E1.
    destruct (IH w1 (id + 1) port fh off' (Z.min 1024 (size - off')) size size dest T1) as (w2 & frames & E2 & L2 & O2 & S2 & F2);
      [lia|exact Hp|exact G1|exact Hb3|exact Hok2|subst off'; lia|subst off'; rewrite Hb2; Z.div_mod_to_equations; lia|subst off'; lia|exact Hsize|now right|now right|exact Hd| |].
    { intros j r' Hj. pose proof (Hs (S j) r' Hj) as X. rewrite C1. replace (S (cnt_rx w) + j)%nat with (cnt_rx w + S j)%nat by lia. rewrite X.
      replace (id + Z.of_nat (S j)) with (id + 1 + Z.of_nat j) by lia. reflexivity. }
    replace (length rs + S (S n))%nat with (S (S (length rs + n))) in E2 by lia.
    exists w2, (frames ++ [f]). split; [rewrite E1; exact E2|]. split; [|split; [|split]].
    + rewrite length_app, ldn_app. f_equal; [etransitivity; [|exact L1]; apply ldn_ext; intros x Hx; apply O2; subst off'; lia|].
      rewrite <- L2 at 2. f_equal. subst off'. lia.
    + intros x Hx. rewrite O2, O1 by (subst off'; lia). reflexivity.
    + rewrite S2, S1, <- app_assoc. reflexivity.
    + apply Forall2_app; [exact F2|]. constructor; [exact F1|constructor].
Qed.

(** *** A file *)

Lemma Forall2_map_l {A B C} (g : A -> B) (R : B -> C -> Prop) l r : Forall2 (fun a => R (g a)) l r -> Forall2 R (map g l) r.
Proof. induction 1; cbn [map]; constructor; assumption. Qed.


(** A step of [nfs]: one call, answered; memory is changed in [own] besides the exchange. *)
Record stepped (own : Z -> Prop) (w w' : world) (id port : Z) (text : list Z) : Prop := {
  st_talking : talking w' (id + 1);
  st_rx : cnt_rx w' = S (cnt_rx w);
  st_sent : exists f, sent w' = f :: sent w /\ is_call mac sport port text f;
  st_mem : forall x, oport <= x < 0x3c000 -> x < rpc_id \/ tokens + 4 <= x -> x < rpc_buf \/ rpc_buf + 0x400 <= x -> ~ own x -> ld8 (mm w') x = ld8 (mm w) x;
}.
Lemma call_stepped own w w1 m id port text data : talking w id -> id + 1 < 4294967296 -> done_call w w1 port text id data ->
  (forall x, ~ own x -> ld8 m x = ld8 (mm w1) x) -> (forall x, own x -> oport <= x < rpc_id \/ dirname <= x) -> stepped own w (set_mm m w1) id port text.
Proof.
  intros T Hid X K Ho. constructor.
  - apply talking_mm; [exact (talking_next _ _ _ _ _ _ X T Hid)|]. intros x Hx. apply K. intros Hx2. apply Ho in Hx2.
    unfold lacp_pkt, rpc_id, oport, dirname in *. lia.
  - exact (ex_rx _ _ _ _ _ _ _ _ X).
  - exact (ex_sent _ _ _ _ _ _ _ _ X).
  - intros x H1 H2 H3 H4. cbn [mm set_mm]. rewrite K by exact H4. apply (ex_same _ _ _ _ _ _ _ _ X); [unfold nic_packet, oport in *; lia|exact H2|exact H3].
Qed.

Definition at_var (v : Z) (x : Z) : Prop := v <= x < v + 4.
Definition getport_call (id prog ver : Z) : list Z :=
  call_text id PROG_PORTMAP 2 PORTMAP_GETPORT (zeros 16 ++ be32 prog ++ be32 ver ++ be32 IP_UDP ++ be32 0).
Lemma port_stepped n prog ver var w id p : talking w id -> id + 1 < 4294967296 -> var = mount_port \/ var = nfs_port -> geti (mm w) var = -1 ->
  0 <= p < 65536 -> answers w id (be32 p) ->
  exists w', (if geti (mm w) var =? -1 then p <- rpc_lookup (S (S n)) ARP_SERVER prog ver sport ;; store32 var p else ret tt) w = Some (Ret tt, w') /\
    stepped (at_var var) w w' id SUNRPC_PORT (getport_call id prog ver) /\ geti (mm w') var = p.
Proof.
  intros T Hid Hv H1 Hp Ha. rewrite H1. cbn [Z.eqb Pos.eqb]. destruct (rpc_lookup_ok n prog ver w id p T Hp Ha) as (w1 & E1 & X).
  unfold bind at 1. rewrite E1. eexists. split; [reflexivity|]. split.
  - apply (call_stepped _ w w1 _ id _ _ _ T Hid X); intros x Hx; unfold at_var, rpc_id, oport, dirname, mount_port, nfs_port in *.
    + apply ld8_st32_ne. lia.
    + lia.
  - apply geti_st32. lia.
Qed.
Definition mount_call (id : Z) (dir : list Z) : list Z := call_text id PROG_MOUNT 1 MOUNT_ADDENTRY (auth h ++ xdr_string dir).
Definition of_mount (x : Z) : Prop := at_var fs_mounted x \/ dirfh <= x < dirfh + 32.
Lemma mount_stepped n w id port dir fh : talking w id -> id + 1 < 4294967296 -> 0 <= port < 65536 -> cstr (mm w) dirname dir -> (length dir <= 200)%nat ->
  (length dir < S (S n))%nat -> length fh = 32%nat -> Forall (fun b => 0 <= b < 256) fh -> answers w id (be32 0 ++ fh) ->
  exists w', nfs_mount (S (S n)) ARP_SERVER port dirname dirfh sport w = Some (Ret 0, w') /\
    stepped of_mount w w' id port (mount_call id dir) /\ ldn (mm w') dirfh 32 = fh.
Proof.
  intros T Hid Hp Hc Ld Hf Lf Bf Ha. destruct (nfs_mount_ok n w id port dir fh T Hp Hc Ld Hf Lf Bf Ha) as (w1 & E1 & X & D).
  eexists. split; [exact E1|]. assert (Hrd : reply_data 1 + 32 <= fs_mounted) by (vm_compute; discriminate). split.
  - apply (call_stepped _ w w1 _ id _ _ _ T Hid X); intros x Hx; unfold of_mount, at_var in Hx.
    + rewrite ld8_memcpy_out by (unfold dirfh, fs_mounted in *; lia). apply ld8_st32_ne. lia.
    + unfold rpc_id, oport, dirname, fs_mounted, dirfh in *. lia.
  - cbn [mm set_mm]. rewrite ldn_memcpy by (unfold dirfh, fs_mounted in *; lia). etransitivity; [|exact D]. apply ldn_ext. intros x Hx. apply ld8_st32_ne. lia.
Qed.
Definition lookup_call (id : Z) (dfh file : list Z) : list Z := call_text id PROG_NFS 2 NFS_LOOKUP (auth h ++ dfh ++ xdr_string file).
Definition of_lookup (x : Z) : Prop := filefh <= x < filefh + 32.
Lemma lookup_stepped n w id port fname file dfh fh : talking w id -> id + 1 < 4294967296 -> 0 <= port < 65536 -> cstr (mm w) fname file ->
  dirname <= fname < 0x3bd80 -> fname + Z.of_nat (length file) < 0x3be00 -> (length file <= 200)%nat -> (length file < S (S n))%nat ->
  ldn (mm w) dirfh 32 = dfh -> length fh = 32%nat -> Forall (fun b => 0 <= b < 256) fh -> answers w id (be32 0 ++ fh) ->
  exists w', nfs_lookup (S (S n)) ARP_SERVER port dirfh fname filefh sport w = Some (Ret 0, w') /\
    stepped of_lookup w w' id port (lookup_call id dfh file) /\ ldn (mm w') filefh 32 = fh.
Proof.
  intros T Hid Hp Hc Hn1 Hn2 Ld Hf Hd Lf Bf Ha.
  destruct (nfs_lookup_ok n w id port fname file dfh fh T Hp Hc Hn1 Hn2 Ld Hf Hd Lf Bf Ha) as (w1 & E1 & X & D).
  eexists. split; [exact E1|]. assert (Hrd : reply_data 1 + 32 <= fs_mounted) by (vm_compute; discriminate). split.
  - apply (call_stepped _ w w1 _ id _ _ _ T Hid X); intros x Hx; unfold of_lookup in Hx.
    + apply ld8_memcpy_out; unfold filefh, fs_mounted in *; lia.
    + unfold filefh, dirname in *. lia.
  - cbn [mm set_mm]. rewrite ldn_memcpy by (unfold filefh, fs_mounted in *; lia). exact D.
Qed.

(** What a server has: its ports, and the file, with the handles of its directory and of the file. *)
Record export := { ex_mport : Z; ex_nport : Z; ex_dfh : list Z; ex_ffh : list Z; ex_blocks : list block_reply }.
Definition ex_size (x : export) : Z := Z.of_nat (length (file_of (ex_blocks x))).
Definition export_ok (x : export) : Prop :=
  0 <= ex_mport x < 65536 /\ 0 <= ex_nport x < 65536 /\ length (ex_dfh x) = 32%nat /\ length (ex_ffh x) = 32%nat /\
  Forall (fun b => 0 <= b < 256) (ex_dfh x ++ ex_ffh x) /\ nfs_blocks (ex_blocks x) /\ Forall reply_ok (ex_blocks x) /\ ex_size x < 2147483648.
(** Its replies, in order, and the calls that they answer, each with its port. *)
Definition replies (x : export) : list (list Z) :=
  [be32 (ex_mport x); be32 (ex_nport x); be32 0 ++ ex_dfh x; be32 0 ++ ex_ffh x] ++
  map (fun r => read_reply (fst (fst r)) (snd (fst r)) (ex_size x) (bytes_of r)) (ex_blocks x).
Definition calls (x : export) (id : Z) (dir file : list Z) : list (Z * list Z) :=
  [(SUNRPC_PORT, getport_call id PROG_MOUNT 1); (SUNRPC_PORT, getport_call (id + 1) PROG_NFS 2);
   (ex_mport x, mount_call (id + 2) dir); (ex_nport x, lookup_call (id + 3) (ex_dfh x) file)] ++
  map (pair (ex_nport x)) (read_calls (ex_ffh x) (ex_size x) (id + 4) 0 NFS_READ_SIZE (ex_blocks x)).
Definition plays (k : nat) (id : Z) (x : export) : Prop := forall j d, nth_error (replies x) j = Some d ->
  rx (k + j) = Some (udp_frame hd s cli sp sport (reply_text (id + Z.of_nat j) d)).

Lemma plays_answers k id x w j d id' : plays k id x -> nth_error (replies x) j = Some d -> cnt_rx w = (k + j)%nat -> id' = id + Z.of_nat j -> answers w id' d.
Proof. intros P Hj C ->. unfold answers. rewrite C. exact (P j d Hj). Qed.
Lemma plays_serves k id x w : plays k id x -> cnt_rx w = (4 + k)%nat -> serves w (id + 4) (ex_size x) (ex_blocks x).
Proof.
  intros P C j r Hj. rewrite C. replace (4 + k + j)%nat with (k + (4 + j))%nat by lia. rewrite (P (4 + j)%nat (read_reply (fst (fst r)) (snd (fst r)) (ex_size x) (bytes_of r))).
  - replace (id + Z.of_nat (4 + j)) with (id + 4 + Z.of_nat j) by lia. reflexivity.
  - unfold replies. cbn [app nth_error Nat.add]. rewrite nth_error_map. unfold block_reply in Hj. rewrite Hj. reflexivity.
Qed.

(** The name of the file is split at its last slash. *)
Lemma last_slash_split m dir file : ldn m dirname (length (dir ++ 47 :: file)) = dir ++ 47 :: file -> ~ In 47 file ->
  last_slash (length (dir ++ 47 :: file)) m = Some (length dir).
Proof.
  induction file as [|c file IH] using rev_ind; intros Hl Hn.
  - apply data_split in Hl as (_ & Hl). apply (f_equal (List.hd 0)) in Hl. cbn [ldn length List.hd] in Hl. rewrite length_app, Nat.add_comm. cbn [length Nat.add last_slash]. rewrite Hl. reflexivity.
  - replace (dir ++ 47 :: file ++ [c]) with ((dir ++ 47 :: file) ++ [c]) in * by (rewrite <- app_assoc; reflexivity).
    apply data_split in Hl as (Hl & Hc). apply (f_equal (List.hd 0)) in Hc. cbn [ldn length List.hd] in Hc. rewrite length_app, Nat.add_comm. cbn [length Nat.add last_slash]. rewrite Hc, in_app_iff in *.
    destruct (Z.eqb_spec c 47) as [-> |_]; [destruct Hn; right; now left|]. apply IH; tauto.
Qed.
Lemma split_name m dir file : cstr m dirname (dir ++ 47 :: file) -> ~ In 47 file ->
  let m' := st8 m (dirname + Z.of_nat (length dir)) 0 in
  last_slash (length (dir ++ 47 :: file)) m = Some (length dir) /\ cstr m' dirname dir /\ cstr m' (dirname + Z.of_nat (length dir) + 1) file.
Proof.
  intros Hc Hn m'. pose proof (cstr_full _ _ _ Hc) as Hl. split; [now apply last_slash_split|]. pose proof (cstr_nonzero _ _ _ Hc) as Hz.
  apply Forall_app in Hz as (Hz & _). split.
  - rewrite <- (app_nil_r dir). apply cstr_concat; [exact Hz| |apply ld8_st8_eq]. apply data_split in Hl as (Hl & _).
    etransitivity; [|exact Hl]. apply ldn_ext. intros x Hx. apply ld8_st8_ne. lia.
  - apply cstr_app in Hc as (_ & _ & Hc). apply (cstr_ext m); [|exact Hc]. intros x Hx. subst m'. rewrite ld8_st8_ne by lia. reflexivity.
Qed.

(** From [nfssymlink] on. *)
Lemma nfs_link_ok links n w id x dir file dest : talking w id -> id + 4 + Z.of_nat (length (ex_blocks x)) < 4294967296 -> export_ok x ->
  cstr (mm w) dirname (dir ++ 47 :: file) -> ~ In 47 file -> (length dir <= 150)%nat -> (length file <= 100)%nat -> geti (mm w) mount_port = -1 -> geti (mm w) nfs_port = -1 ->
  0x40000 <= dest -> (150 <= length (ex_blocks x) + n)%nat -> plays (cnt_rx w) id x ->
  exists w' frames, nfs_link (S links) (length (ex_blocks x) + S (S n)) (store_block dest 1024) (length (dir ++ 47 :: file)) sport w = Some (Ret 1, w') /\
    ldn (mm w') dest (length (file_of (ex_blocks x))) = file_of (ex_blocks x) /\
    sent w' = frames ++ sent w /\ Forall2 (fun c => is_call mac sport (fst c) (snd c)) (rev (calls x id dir file)) frames.
Proof.
  intros T Hid (Hm & Hn & Ld & Lf & Hb & Hbl & Hok & Hsz) Hc Hs L1 L2 M1 M2 Hd Hfu P. apply Forall_app in Hb as (Bd & Bf).
  destruct (split_name (mm w) dir file Hc Hs) as (Sl & Cd & Cf). cbv zeta in Cd, Cf. set (m0 := st8 (mm w) _ 0) in *. set (w0 := set_mm m0 w).
  assert (K0 : forall x, x < dirname \/ dirname + Z.of_nat (length dir) < x -> ld8 m0 x = ld8 (mm w) x) by (intros y Hy; apply ld8_st8_ne; lia).
  assert (T0 : talking w0 id) by (apply talking_mm; [exact T|]; intros y Hy; apply K0; unfold lacp_pkt, rpc_id, dirname in *; lia).
  assert (V0 : forall v, oport <= v < rpc_id -> geti m0 v = geti (mm w) v) by (intros v Hv; apply geti_ext; intros y Hy; apply K0; unfold rpc_id, dirname in *; lia).
  set (fuel := (length (ex_blocks x) + S (S n))%nat). assert (Ef : fuel = S (S (length (ex_blocks x) + n))) by (subst fuel; lia).
  destruct (port_stepped (length (ex_blocks x) + n) PROG_MOUNT 1 mount_port w0 id (ex_mport x) T0) as (w1 & E1 & [T1 C1 S1 K1] & V1);
    [lia|now left|cbn [mm set_mm]; rewrite <- M1; apply V0; unfold mount_port, oport, rpc_id; lia|exact Hm|apply (plays_answers _ _ x w0 0 _ id P eq_refl); cbn; lia|].
  destruct (port_stepped (length (ex_blocks x) + n) PROG_NFS 2 nfs_port w1 (id + 1) (ex_nport x) T1) as (w2 & E2 & [T2 C2 S2 K2] & V2);
    [lia|now right| |exact Hn|apply (plays_answers _ _ x w1 1 _ _ P eq_refl); [rewrite C1; cbn; lia|lia]|].
  { rewrite <- M2, <- V0 by (unfold nfs_port, oport, rpc_id; lia). apply geti_ext. intros y Hy. apply K1; unfold at_var, nfs_port, mount_port, oport, rpc_id, rpc_buf in *; lia. }
  assert (V1' : geti (mm w2) mount_port = ex_mport x).
  { rewrite <- V1. apply geti_ext. intros y Hy. apply K2; unfold at_var, nfs_port, mount_port, oport, rpc_id, rpc_buf in *; lia. }
  assert (Kn : forall y, dirname <= y < dirname + 0x1ff -> ld8 (mm w2) y = ld8 m0 y).
  { intros y Hy. rewrite K2, K1 by (unfold at_var, nfs_port, mount_port, oport, rpc_id, tokens, rpc_buf, dirname in *; lia). reflexivity. }
  destruct (mount_stepped (length (ex_blocks x) + n) w2 (id + 1 + 1) (ex_mport x) dir (ex_dfh x) T2) as (w3 & E3 & [T3 C3 S3 K3] & D3);
    [lia|exact Hm|apply (cstr_ext m0); [|exact Cd]; intros y Hy; symmetry; apply Kn; lia|lia|lia|exact Ld|exact Bd|apply (plays_answers _ _ x w2 2 _ _ P eq_refl); [rewrite C2, C1; cbn; lia|lia]|].
  destruct (lookup_stepped (length (ex_blocks x) + n) w3 (id + 1 + 1 + 1) (ex_nport x) (dirname + Z.of_nat (length dir) + 1) file (ex_dfh x) (ex_ffh x) T3)
    as (w4 & E4 & [T4 C4 S4 K4] & D4);
    [lia|exact Hn| |unfold dirname; lia|unfold dirname; lia|lia|lia|exact D3|exact Lf|exact Bf|apply (plays_answers _ _ x w3 3 _ _ P eq_refl); [rewrite C3, C2, C1; cbn; lia|lia]|].
  { apply (cstr_ext m0); [|exact Cf]. intros y Hy. symmetry. rewrite K3, Kn; unfold of_mount, at_var, fs_mounted, dirfh, oport, rpc_id, tokens, rpc_buf, dirname in *; lia. }
  destruct (read_loop_ok n (ex_blocks x) w4 (id + 4) (ex_nport x) (ex_ffh x) 0 NFS_READ_SIZE (-1) (ex_size x) dest) as (w5 & frames & E5 & D5 & _ & S5 & F5);
    [replace (id + 4) with (id + 1 + 1 + 1 + 1) by lia; exact T4|lia|exact Hn|exact D4|exact Hbl|exact Hok|lia|reflexivity|reflexivity|exact Hsz|now left|now left|exact Hd
    |apply (plays_serves (cnt_rx w)); [exact P|rewrite C4, C3, C2, C1; reflexivity]|].
  change (1 + 0 / 1024) with 1 in E5. fold fuel in E5.
  destruct S1 as (f1 & S1 & F1), S2 as (f2 & S2 & F2), S3 as (f3 & S3 & F3), S4 as (f4 & S4 & F4).
  exists w5, (frames ++ [f4; f3; f2; f1]). rewrite Z.add_0_r in D5. split; [|split; [exact D5|split]].
  - cbn [nfs_link]. rewrite (bind_step get _ w w w eq_refl), Sl, (bind_step (store8 (dirname + Z.of_nat (length dir)) 0) _ w tt w0 eq_refl), (bind_step get _ w0 w0 w0 eq_refl). fold fuel. rewrite Ef in *.
    rewrite (bind_step _ _ _ _ _ E1), (bind_step get _ w1 w1 w1 eq_refl), (bind_step _ _ _ _ _ E2), (bind_step get _ w2 w2 w2 eq_refl), V1', V2.
    destruct (Z.eqb_spec (ex_nport x) (-1)); [lia|]. destruct (Z.eqb_spec (ex_mport x) (-1)); [lia|]. cbn [orb].
    rewrite (bind_step _ _ _ _ _ E3). cbn [Z.eqb negb]. rewrite (bind_step _ _ _ _ _ E4). cbn [Z.eqb negb]. rewrite (bind_step _ _ _ _ _ E5). reflexivity.
  - rewrite S5, S4, S3, S2, S1, <- app_assoc. reflexivity.
  - unfold calls. rewrite rev_app_distr. apply Forall2_app.
    + rewrite <- map_rev. apply Forall2_map_l. exact F5.
    + repeat apply Forall2_cons; [replace (id + 3) with (id + 1 + 1 + 1) by lia; exact F4|replace (id + 2) with (id + 1 + 1) by lia; exact F3|exact F2|exact F1|constructor].
Qed.

(** C14: a file is fetched whole.  A server that knows the ports of its mount and NFS programs exports the directory of the file, and answers each call; [nfs] is
    given the name of a file, with a path of at most 150 characters and a name of at most 100, and nothing is waiting at the interface.  Then it asks for
    the two ports, mounts the directory, looks the file up and reads it, in calls that are numbered one after the other and carry the name of
    the client; it sends nothing else, returns 1, and the file is in its place, byte for byte. *)
Theorem nfs_fetches n w id x name dir file dest : talking w id -> id + 4 + Z.of_nat (length (ex_blocks x)) < 4294967296 -> export_ok x ->
  cstr (mm w) name (dir ++ 47 :: file) -> name + Z.of_nat (length (dir ++ 47 :: file)) < oport \/ 0x3c000 <= name -> ~ In 47 file ->
  (length dir <= 150)%nat -> (length file <= 100)%nat -> geti (mm w) oport = sport -> geti (mm w) mount_port = -1 -> geti (mm w) nfs_port = -1 ->
  0x40000 <= dest -> (260 <= length (ex_blocks x) + n)%nat -> rx (cnt_rx w) = None -> kbd (cnt_kbd w) = None -> plays (S (cnt_rx w)) id x ->
  exists w' frames, nfs (length (ex_blocks x) + S (S n)) name (store_block dest 1024) w = Some (Ret 1, w') /\
    ldn (mm w') dest (length (file_of (ex_blocks x))) = file_of (ex_blocks x) /\
    sent w' = frames ++ sent w /\ Forall2 (fun c => is_call mac sport (fst c) (snd c)) (rev (calls x id dir file)) frames.
Proof.
  intros T Hid Hx Hc Hn Hs L1 L2 Ho M1 M2 Hd Hfu R K P. set (full := dir ++ 47 :: file) in *.
  assert (Ll : (length full <= 251)%nat) by (subst full; rewrite length_app; cbn [length]; lia).
  set (fuel := (length (ex_blocks x) + S (S n))%nat). assert (Ef : fuel = S (S (length (ex_blocks x) + n))) by (subst fuel; lia).
  destruct (rx_qdrain_idle (S (length (ex_blocks x) + n)) w (proj1 (proj1 T)) R K) as (w1 & E1 & T1 & C1 & S1 & Mm). rewrite <- Ef in E1.
  set (v := if sport + 1 >? START_OPORT + OPORT_SWEEP then START_OPORT else sport + 1).
  set (m2 := st32 (mm w) oport v). set (m3 := memcpy m2 dirname name (S (length full))).
  assert (K2 : forall y, y < oport \/ oport + 4 <= y -> ld8 m2 y = ld8 (mm w) y) by (intros y Hy; apply ld8_st32_ne; lia).
  assert (K3 : forall y, y < oport \/ oport + 4 <= y < dirname \/ 0x3c000 <= y -> ld8 m3 y = ld8 (mm w) y).
  { intros y Hy. subst m3. rewrite ld8_memcpy_out, K2 by (unfold oport, dirname in *; lia). reflexivity. }
  assert (C3 : cstr m3 dirname full).
  { apply cstr_memcpy; [|unfold oport, dirname in *; lia]. apply (cstr_ext (mm w)); [|exact Hc]. intros y Hy. symmetry. apply K2. unfold oport in *. lia. }
  assert (T3 : talking (set_mm m3 (set_mm m2 w1)) id).
  { destruct T as (Tr & Ti & Th). apply talking_mm; [apply talking_mm|].
    - split; [apply (ready_same w); [exact T1|exact Tr]|]. rewrite Mm. split; assumption.
    - intros y Hy. rewrite Mm. apply K2. unfold lacp_pkt, oport, rpc_id in *. lia.
    - intros y Hy. cbn [mm set_mm]. rewrite K2, K3 by (unfold lacp_pkt, oport, rpc_id, dirname in *; lia). reflexivity. }
  destruct (nfs_link_ok NFS_MAXLINKDEPTH n (set_mm m3 (set_mm m2 w1)) id x dir file dest T3 Hid Hx C3 Hs L1 L2) as (w' & frames & E' & D' & S' & F');
    [..|exact Hd|lia|cbn [cnt_rx set_mm]; rewrite C1; exact P|].
  1, 2: cbn [mm set_mm]; rewrite (geti_ext (mm w)); [assumption|]; intros y Hy; apply K3; unfold mount_port, nfs_port, oport, dirname in *; lia.
  exists w', frames. split; [|split; [exact D'|split; [rewrite S'; cbn [sent set_mm]; rewrite S1; reflexivity|exact F']]].
  unfold nfs. rewrite (bind_step get _ w w w eq_refl).
  rewrite (bind_step _ _ w (Z.of_nat (length full)) w) by (unfold of_fuel; rewrite (strlen_cstr _ _ full) by (exact Hc || lia); reflexivity).
  rewrite (bind_step _ _ _ _ _ E1), (bind_step get _ w1 w1 w1 eq_refl), Mm, Ho. fold v.
  rewrite (bind_step (store32 oport v) _ w1 tt (set_mm m2 w1)) by (unfold store32; run; rewrite Mm; reflexivity).
  rewrite (bind_step _ _ _ tt (set_mm m3 (set_mm m2 w1))) by (run; replace (Z.to_nat (Z.of_nat (length full) + 1)) with (S (length full)) by lia; reflexivity).
  rewrite Nat2Z.id. exact E'.
Qed.
End server.

(** A server on 10.0.0.2 exports /tftp, with a file of 1024 + 3 bytes. *)
Definition nfs_export : export :=
  {| ex_mport := 635; ex_nport := 2049; ex_dfh := repeat 0xd1 32; ex_ffh := repeat 0xf1 32;
     ex_blocks := [(repeat 1 20, repeat 2 44, repeat 0x5a 1024); (repeat 1 20, repeat 2 44, [1; 2; 3])] |}.
Definition hd_nfs : list Z := [2; 0; 0; 0; 0; 1; 2; 0; 0; 0; 0; 2].
Definition nfs_frame (i : nat) : option (list Z) :=
  match nth_error (replies nfs_export) i with
  | Some d => Some (udp_frame hd_nfs 0x0200000a 0x0100000a 2049 700 (reply_text (5 + Z.of_nat i) d))
  | None => None
  end.
Definition nfs_env : Env.
Proof.
  refine {| clock n := Z.of_nat n; rx n := match n with O => None | S i => nfs_frame i end; kbd _ := None |}.
  intros [|[|[|[|[|[|[|n]]]]]]] bs; [discriminate | .. | now destruct n]; intros Hb; injection Hb as <-; vm_compute; lia.
Defined.
Definition nfs_world : world :=
  let w := tftp_world in
  let m := stn (mm w) 0x50000 (txt "/tftp/vmlinuz"%string ++ [0]) in
  let m := st32 (st32 (st32 (st32 m oport 700) mount_port (-1)) nfs_port (-1)) rpc_id 5 in
  set_mm (stn (st32 (st32 m hostname 0x39f00) hostnamelen 3) 0x39f00 (txt "eve"%string)) w.
Lemma nfs_fetches_witness :
  exists w' frames, @nfs nfs_env 262 0x50000 (store_block 0x100000 1024) nfs_world = Some (Ret 1, w') /\
    ldn (mm w') 0x100000 1027 = repeat 0x5a 1024 ++ [1; 2; 3] /\ sent w' = frames /\ length frames = 6%nat.
Proof.
  destruct (@nfs_fetches nfs_env 0x0100000a 0x0200000a [2; 0; 0; 0; 0; 2] hd_nfs 0x0200000a 2049 700 (txt "eve"%string) eq_refl ltac:(lia) ltac:(cbn; lia)
    258 nfs_world 5 nfs_export 0x50000 (txt "/tftp"%string) (txt "vmlinuz"%string) 0x100000) as (w' & frames & E & D & S & F).
  - split; [|split; [vm_compute; reflexivity|vm_compute; repeat split; discriminate]].
    split; [|split; [reflexivity|split; [lia|split; [reflexivity|]]]].
    + split; [vm_compute; reflexivity|]. split; [reflexivity|]. split; [reflexivity|]. repeat constructor.
    + split; [lia|]. split; [vm_compute; discriminate|]. split; [vm_compute; reflexivity|].
      exists 1%nat. split; [vm_compute; reflexivity|]. split; reflexivity.
  - reflexivity.
  - repeat (split; [first [lia | reflexivity | vm_compute; repeat (constructor || discriminate)]|]). reflexivity.
  - apply cstrb_cstr. vm_compute. reflexivity.
  - right. lia.
  - vm_compute. intuition discriminate.
  - cbn. lia.
  - cbn. lia.
  - vm_compute. reflexivity.
  - vm_compute. reflexivity.
  - vm_compute. reflexivity.
  - lia.
  - cbn. lia.
  - reflexivity.
  - reflexivity.
  - intros j d Hj. cbn [cnt_rx]. change (nfs_frame j = Some (udp_frame hd_nfs 0x0200000a 0x0100000a 2049 700 (reply_text (5 + Z.of_nat j) d))).
    unfold nfs_frame. rewrite Hj. reflexivity.
  - exists w', frames. split; [exact E|]. split; [exact D|]. split; [rewrite S; apply app_nil_r|]. apply Forall2_length in F. rewrite <- F, length_rev. reflexivity.
Defined.
