(* ===== verification/Fsp.v ===== *)
(** The FSP client of [src/src/core/proto_fsp.c].

    The static request lies in memory, the received packet in the packet buffer; the local variables of [proto_fsp] that change are a
    record.  Messages are not modelled. *)

From S2P Require Import Prelude Memory StringLib Misc Vsprintf Net Lacp Nic Tftp.
Import String.StringSyntax.

Definition FSP_PORT : Z := 21.
Definition CC_GET_FILE : Z := 0x42.
Definition CC_BYE : Z := 0x4a.
Definition CC_ERR : Z := 0x40.
Definition CC_STAT : Z := 0x4d.
Definition FSP_MAXFILENAME : Z := 255.
Definition FSP_MAXPAYLOAD : Z := 1500 - (20 + 8 + 12).

(** [request], and the headers in it and in the packet received. *)
Definition fsp_request : Z := 0x3c400.
Definition fsp_req : Z := fsp_request + 28.
Definition fsp_rep : Z := nic_packet + ETH_HLEN + 28.
Definition fsp_cmd (p : Z) : Z := p.
Definition fsp_sum (p : Z) : Z := p + 1.
Definition fsp_key (p : Z) : Z := p + 2.
Definition fsp_seq (p : Z) : Z := p + 4.
Definition fsp_len (p : Z) : Z := p + 6.
Definition fsp_pos (p : Z) : Z := p + 8.
Definition fsp_data (p : Z) : Z := p + 12.

Record fsp_info := { fi_server_ip : Z; fi_server_port : Z; fi_local_port : Z; fi_filename : Z; fi_fnc : Z -> Z -> Z -> bool -> M Z }.
Record fsp_state := { filepos : Z; filelength : Z; fsp_retry : Z; fsp_block : Z }.

(** The loops that add up bytes. *)
Fixpoint byte_sum (m : mem) (p : Z) (n : nat) (sum : Z) : Z :=
  match n with
  | O => sum
  | S n => byte_sum m (p + 1) n (sum + ld8 m p)
  end.

Definition await_fsp (ival : Z) : reply_t := fun info =>
  if negb (has_udp info) then ret 0
  else
    w <- get ;;
    if negb (ld32 (mm w) (ip_ptr + 16) =? client_ip w) then ret 0
    else if negb (ntohs (ld16 (mm w) (ip_ptr + 22)) =? ival) then ret 0
    else if ntohs (ld16 (mm w) (ip_ptr + 24)) <? 12 + 8 then ret 0
    else ret 1.

(** Position, number and checksum of a request. *)
Definition fsp_stamp (pos seq : Z) (reqlen : nat) (m : mem) : mem :=
  let m := st32 m (fsp_pos fsp_req) (htonl pos) in
  let m := st16 m (fsp_seq fsp_req) seq in
  let m := st8 m (fsp_sum fsp_req) 0 in
  let sum := byte_sum m fsp_req reqlen (Z.of_nat reqlen) in
  st8 m (fsp_sum fsp_req) (sum + Z.shiftr sum 8).

(** The checks of a reply.  The length in the packet is replaced by that of its contents. *)
Definition fsp_answers (m : mem) : bool := ld16 m (fsp_seq fsp_rep) =? ld16 m (fsp_seq fsp_req).
Definition fsp_shorten (m : mem) : mem := st16 m (ip_ptr + 24) (ntohs (ld16 m (ip_ptr + 24)) - 8).
Definition fsp_whole (m : mem) : bool :=
  let len := ld16 m (ip_ptr + 24) in
  if len <? ntohs (ld16 m (fsp_len fsp_rep)) + 12 then false
  else
    let sum := byte_sum m fsp_rep (Z.to_nat len) (- ld8 m (fsp_sum fsp_rep)) in
    Z.land (sum + Z.shiftr sum 8) 0xff =? ld8 m (fsp_sum fsp_rep).

Definition st_with (pos len retry block : Z) : fsp_state := {| filepos := pos; filelength := len; fsp_retry := retry; fsp_block := block |}.

(** What is done with a reply: [inl] is the result of [proto_fsp], [inr] the next round. *)
Definition fsp_take (info : fsp_info) (st : fsp_state) : M (Z + fsp_state) :=
  w <- get ;;
  if negb (fsp_answers (mm w)) then ret (inr st)
  else
    set_mem fsp_shorten ;;;
    w <- get ;;
    let m := mm w in
    let cmd := ld8 m (fsp_cmd fsp_rep) in
    if negb (fsp_whole m) then ret (inr st)
    else if cmd =? CC_ERR then ret (inl 0)
    else if (cmd =? CC_BYE) && (filelength st =? 1) then
      fi_fnc info (fsp_data fsp_req) (u32 (fsp_block st)) 1 true ;;; ret (inl 1)
    else if cmd =? CC_STAT then
      let len := if ld8 m (fsp_data fsp_rep + 8) =? 0 then 0xffffffff else ntohl (ld32 m (fsp_data fsp_rep + 4)) in
      store8 (fsp_cmd fsp_req) CC_GET_FILE ;;;
      store16 (fsp_key fsp_req) (ld16 m (fsp_key fsp_rep)) ;;;
      ret (inr (st_with (filepos st) len 0 (fsp_block st)))
    else if cmd =? CC_GET_FILE then
      if negb (ntohl (ld32 m (fsp_pos fsp_rep)) =? filepos st) then ret (inr st)
      else
        store16 (fsp_key fsp_req) (ld16 m (fsp_key fsp_rep)) ;;;
        let i := ntohs (ld16 m (fsp_len fsp_rep)) in
        if i =? 1 then
          store8 (fsp_cmd fsp_req) CC_BYE ;;;
          store8 (fsp_data fsp_req) (ld8 m (fsp_data fsp_rep)) ;;;
          ret (inr (st_with (filepos st) (filelength st) 0 (fsp_block st)))
        else
          let i := if i >=? filelength st then s32 (filelength st - 1) else i in
          r <- fi_fnc info (fsp_data fsp_rep) (u32 (fsp_block st)) (u32 i) false ;;
          if r =? 0 then ret (inl 0)
          else ret (inr (st_with (u32 (filepos st + i)) (u32 (filelength st - i)) 0 (s32 (fsp_block st + 1))))
    else ret (inr st).

Section fsp.
Context `{E : Env}.

(** A round: the request is sent, and a reply is waited for.  [None]: it could not be sent. *)
Definition fsp_ask (fuel : nat) (info : fsp_info) (reqlen : nat) (st : fsp_state) : M (option Z) :=
  (if filelength st =? 0 then store8 (fsp_cmd fsp_req) CC_STAT else ret tt) ;;;
  r <- net_random ;;
  set_mem (fsp_stamp (filepos st) r reqlen) ;;;
  ok <- udp_transmit fuel (fi_server_ip info) (fi_local_port info) (fi_server_port info) (20 + 8 + Z.of_nat reqlen) fsp_request ;;
  if ok =? 0 then ret None
  else
    timeout <- rfc2131_sleep_interval (if filepos st =? 0 then TIMEOUT else TFTP_REXMT) (fsp_retry st) ;;
    got <- await_reply fuel (await_fsp (fi_local_port info)) timeout ;;
    ret (Some got).
Fixpoint fsp_loop (fuel : nat) (info : fsp_info) (reqlen : nat) (st : fsp_state) : M Z :=
  match fuel with
  | O => oof
  | S n =>
      a <- fsp_ask n info reqlen st ;;
      match a with
      | None => ret 0
      | Some got =>
          let st := st_with (filepos st) (filelength st) (s32 (fsp_retry st + 1)) (fsp_block st) in
          if got =? 0 then fsp_loop n info reqlen st
          else
            r <- fsp_take info st ;;
            match r with
            | inl r => ret r
            | inr st => fsp_loop n info reqlen st
            end
      end
  end.

Definition proto_fsp (fuel : nat) (info : fsp_info) : M Z :=
  w <- get ;;
  i <- of_fuel (strlen fuel (mm w) (fi_filename info)) ;;
  if i >? FSP_MAXFILENAME then ret 0
  else
    m <- of_fuel (strcpy fuel (mm w) (fsp_data fsp_req) (fi_filename info)) ;;
    set_mem (fun _ => fst m) ;;;
    store16 (fsp_data fsp_req + i + 1) (htons FSP_MAXPAYLOAD) ;;;
    store16 (fsp_len fsp_req) (htons (i + 1)) ;;;
    let reqlen := Z.to_nat (u16 (i + 3 + 12)) in
    rx_qdrain fuel ;;;
    fsp_loop fuel info reqlen (st_with 0 0 0 1).

Definition url_fsp (fuel : nat) (name : Z) (fnc : Z -> Z -> Z -> bool -> M Z) : M Z :=
  w <- get ;;
  r <- net_random ;;
  proto_fsp fuel {| fi_server_ip := ipaddr (arp w ARP_SERVER); fi_server_port := FSP_PORT;
                    fi_local_port := u16 (Z.land (1024 + r) 0xfbff); fi_filename := name; fi_fnc := fnc |}.
End fsp.
(** ** Packets *)

Definition lsum (l : list Z) : Z := fold_right Z.add 0 l.
Definition le16 (v : Z) : list Z := [v mod 256; v / 256 mod 256].
Definition be16 (v : Z) : list Z := [v / 256; v mod 256].
(** A packet: the sum of its bytes, from [init] on, is folded into the second byte. *)
Definition fsp_fold (s : Z) : Z := (s + s / 256) mod 256.
Definition fsp_text (init cmd : Z) (key : list Z) (seq len pos : Z) (data : list Z) : list Z :=
  let rest := key ++ le16 seq ++ be16 len ++ be32 pos ++ data in
  cmd :: fsp_fold (init + cmd + lsum rest) :: rest.

Lemma lsum_app a b : lsum (a ++ b) = lsum a + lsum b.
Proof. induction a as [|x a IH]; cbn [app lsum fold_right]; [reflexivity|]. fold (lsum (a ++ b)). fold (lsum a). lia. Qed.
Lemma byte_sum_spec n : forall m p s, byte_sum m p n s = s + lsum (ldn m p n).
Proof. induction n as [|n IH]; intros m p s; cbn [byte_sum ldn lsum fold_right]; [lia|]. rewrite IH. fold (lsum (ldn m (p + 1) n)). lia. Qed.
Lemma ldn_le16 m a v : ldn (st16 m a v) a 2 = le16 v.
Proof. unfold st16, le16. cbn [ldn]. mem_simp. unfold u8. reflexivity. Qed.
Lemma length_fsp_text init cmd key seq len pos data : length key = 2%nat -> length (fsp_text init cmd key seq len pos data) = (12 + length data)%nat.
Proof. intros Hk. unfold fsp_text. cbn [length]. rewrite !length_app, Hk. reflexivity. Qed.

(** A header in memory. *)
Record fsp_at (m : mem) (p cmd : Z) (key : list Z) (len : Z) (data : list Z) : Prop := {
  fa_cmd : ld8 m (fsp_cmd p) = cmd;
  fa_key : ldn m (fsp_key p) 2 = key;
  fa_len : ldn m (fsp_len p) 2 = be16 len;
  fa_data : ldn m (fsp_data p) (length data) = data;
}.
Lemma fsp_at_ext m m' p cmd key len data : fsp_at m p cmd key len data ->
  (forall x, p <= x < p + 12 + Z.of_nat (length data) -> ~ (p < x < p + 2 \/ p + 4 <= x < p + 6 \/ p + 8 <= x < p + 12) -> ld8 m' x = ld8 m x) -> fsp_at m' p cmd key len data.
Proof.
  intros [A B C D] K. unfold fsp_cmd, fsp_key, fsp_len, fsp_data in *. constructor; unfold fsp_cmd, fsp_key, fsp_len, fsp_data.
  - rewrite <- A. apply K; lia.
  - etransitivity; [|exact B]. apply ldn_ext. intros x Hx. apply K; lia.
  - etransitivity; [|exact C]. apply ldn_ext. intros x Hx. apply K; lia.
  - etransitivity; [|exact D]. apply ldn_ext. intros x Hx. apply K; lia.
Qed.
Lemma ldn_header m p k : ldn m p (12 + k) = [ld8 m (fsp_cmd p)] ++ [ld8 m (fsp_sum p)] ++ ldn m (fsp_key p) 2 ++ ldn m (fsp_seq p) 2 ++ ldn m (fsp_len p) 2 ++
  ldn m (fsp_pos p) 4 ++ ldn m (fsp_data p) k.
Proof. unfold fsp_cmd, fsp_sum, fsp_key, fsp_seq, fsp_len, fsp_pos, fsp_data. cbn [Nat.add ldn app]. rewrite <- !Z.add_assoc. reflexivity. Qed.
(** The whole packet is the text when number, position and sum are right. *)
Lemma fsp_at_text m p cmd key len data seq pos sum : fsp_at m p cmd key len data -> length key = 2%nat ->
  ldn m (fsp_seq p) 2 = le16 seq -> ldn m (fsp_pos p) 4 = be32 pos -> ld8 m (fsp_sum p) = sum ->
  ldn m p (12 + length data) = cmd :: sum :: key ++ le16 seq ++ be16 len ++ be32 pos ++ data.
Proof.
  intros [A B C D] Hk Hs Hp Hu. unfold fsp_cmd, fsp_key, fsp_len, fsp_data, fsp_seq, fsp_pos, fsp_sum in *.
  rewrite ldn_header. unfold fsp_cmd, fsp_key, fsp_len, fsp_data, fsp_seq, fsp_pos, fsp_sum. rewrite A, Hu, B, C, Hs, Hp, D. reflexivity.
Qed.

(** A request is stamped right. *)
Lemma fsp_stamp_out pos seq n m x : x <= fsp_req \/ fsp_req + 2 <= x < fsp_req + 4 \/ fsp_req + 6 <= x < fsp_req + 8 \/ fsp_req + 12 <= x ->
  ld8 (fsp_stamp pos seq n m) x = ld8 m x.
Proof. intros Hx. unfold fsp_stamp, fsp_pos, fsp_seq, fsp_sum. rewrite !ld8_st8_ne by lia. unfold st16. rewrite !ld8_st8_ne by lia. apply ld8_st32_ne. lia. Qed.
Lemma fsp_stamp_text m cmd key len data seq pos : fsp_at m fsp_req cmd key len data -> length key = 2%nat ->
  let n := (12 + length data)%nat in
  ldn (fsp_stamp pos seq n m) fsp_req n = fsp_text (Z.of_nat n) cmd key seq len pos data.
Proof.
  intros A Hk n. set (m' := fsp_stamp pos seq n m).
  assert (A' : fsp_at m' fsp_req cmd key len data) by (apply (fsp_at_ext m); [exact A|]; intros x Hx Hn; apply fsp_stamp_out; lia).
  assert (Hs : forall v m0, ldn (st8 m0 (fsp_sum fsp_req) v) (fsp_seq fsp_req) 2 = ldn m0 (fsp_seq fsp_req) 2)
    by (intros v m0; apply ldn_ext; intros x Hx; apply ld8_st8_ne; unfold fsp_sum, fsp_seq in *; lia).
  assert (Hp : forall v m0, ldn (st8 m0 (fsp_sum fsp_req) v) (fsp_pos fsp_req) 4 = ldn m0 (fsp_pos fsp_req) 4)
    by (intros v m0; apply ldn_ext; intros x Hx; apply ld8_st8_ne; unfold fsp_sum, fsp_pos in *; lia).
  set (m0 := st8 (st16 (st32 m (fsp_pos fsp_req) (htonl pos)) (fsp_seq fsp_req) seq) (fsp_sum fsp_req) 0).
  assert (S0 : ldn m0 (fsp_seq fsp_req) 2 = le16 seq) by (subst m0; rewrite Hs; apply ldn_le16).
  assert (P0 : ldn m0 (fsp_pos fsp_req) 4 = be32 pos).
  { subst m0. rewrite Hp. etransitivity; [|exact (ldn_htonl m (fsp_pos fsp_req) pos)]. apply ldn_ext. intros x Hx. unfold st16, fsp_seq, fsp_pos in *. rewrite !ld8_st8_ne by lia. reflexivity. }
  assert (A0 : fsp_at m0 fsp_req cmd key len data).
  { apply (fsp_at_ext m); [exact A|]. intros x Hx Hn. subst m0. unfold fsp_pos, fsp_seq, fsp_sum. rewrite ld8_st8_ne by lia. unfold st16. rewrite !ld8_st8_ne by lia. apply ld8_st32_ne. lia. }
  pose proof (fsp_at_text m0 _ _ _ _ _ seq pos 0 A0 Hk S0 P0 (ld8_st8_eq _ _ _)) as T0. fold n in T0.
  set (sum := byte_sum m0 fsp_req n (Z.of_nat n)). assert (Em : m' = st8 m0 (fsp_sum fsp_req) (sum + Z.shiftr sum 8)) by reflexivity.
  subst n. rewrite (fsp_at_text m' _ _ _ _ _ seq pos (fsp_fold sum) A' Hk); [|rewrite Em, Hs; exact S0|rewrite Em, Hp; exact P0|rewrite Em, ld8_st8_eq].
  - unfold fsp_text. subst sum. rewrite byte_sum_spec, T0. cbn [lsum fold_right]. rewrite <- Z.add_assoc. reflexivity.
  - unfold fsp_fold. rewrite shiftr_div by lia. reflexivity.
Qed.

(** A reply that was made right is taken for whole. *)
Lemma fsp_reply_at m cmd key seq len pos data : ldn m fsp_rep (12 + length data) = fsp_text 0 cmd key seq len pos data -> length key = 2%nat ->
  fsp_at m fsp_rep cmd key len data /\ ldn m (fsp_seq fsp_rep) 2 = le16 seq /\ ldn m (fsp_pos fsp_rep) 4 = be32 pos /\
  ld8 m (fsp_sum fsp_rep) = fsp_fold (cmd + lsum (key ++ le16 seq ++ be16 len ++ be32 pos ++ data)).
Proof.
  intros T Hk. set (sum := fsp_fold _). unfold fsp_text in T. rewrite Z.add_0_l in T. fold sum in T.
  change (cmd :: sum :: key ++ le16 seq ++ be16 len ++ be32 pos ++ data) with ([cmd] ++ [sum] ++ key ++ le16 seq ++ be16 len ++ be32 pos ++ data) in T.
  rewrite ldn_header in T.
  apply app_split_length in T as (T1 & T); [|reflexivity]. apply app_split_length in T as (T2 & T); [|reflexivity].
  apply app_split_length in T as (T3 & T); [|now rewrite length_ldn]. apply app_split_length in T as (T4 & T); [|reflexivity].
  apply app_split_length in T as (T5 & T); [|reflexivity]. apply app_split_length in T as (T6 & T7); [|reflexivity].
  split; [constructor; try assumption|split; [exact T4|split; [exact T6|]]].
  - apply (f_equal (List.hd 0)) in T1. exact T1.
  - apply (f_equal (List.hd 0)) in T2. exact T2.
Qed.
Lemma ntohs_be16 m p v : 0 <= v < 65536 -> ldn m p 2 = be16 v -> ntohs (ld16 m p) = v.
Proof.
  intros Hv T. unfold be16 in T. assert (H1 : ld8 m p = v / 256) by exact (f_equal (fun l => nth 0 l 0) T).
  assert (H2 : ld8 m (p + 1) = v mod 256) by exact (f_equal (fun l => nth 1 l 0) T).
  rewrite ntohs_be, H1, H2. Z.div_mod_to_equations. lia.
Qed.
Lemma fsp_shorten_out m x : x < ip_ptr + 24 \/ ip_ptr + 26 <= x -> ld8 (fsp_shorten m) x = ld8 m x.
Proof. intros Hx. unfold fsp_shorten, st16. rewrite !ld8_st8_ne by lia. reflexivity. Qed.
Lemma fsp_rep_whole m cmd key seq pos data : ldn m fsp_rep (12 + length data) = fsp_text 0 cmd key seq (Z.of_nat (length data)) pos data -> length key = 2%nat ->
  (length data <= 1460)%nat -> ntohs (ld16 m (ip_ptr + 24)) = 8 + Z.of_nat (12 + length data) -> fsp_whole (fsp_shorten m) = true.
Proof.
  intros T Hk Hl Hu. pose proof (fsp_reply_at m _ _ _ _ _ _ T Hk) as (A & _ & _ & Hs).
  assert (Ho : forall x, fsp_rep <= x -> ld8 (fsp_shorten m) x = ld8 m x) by (intros x Hx; apply fsp_shorten_out; unfold fsp_rep, ip_ptr, ETH_HLEN in *; lia).
  assert (T' : ldn (fsp_shorten m) fsp_rep (12 + length data) = fsp_text 0 cmd key seq (Z.of_nat (length data)) pos data)
    by (etransitivity; [|exact T]; apply ldn_ext; intros x Hx; apply Ho; lia).
  assert (Hlen : ld16 (fsp_shorten m) (ip_ptr + 24) = Z.of_nat (12 + length data)).
  { unfold fsp_shorten. rewrite ld16_st16_eq, Hu. rewrite u16_small; lia. }
  pose proof (fsp_reply_at _ _ _ _ _ _ _ T' Hk) as (A' & _ & _ & Hs').
  unfold fsp_whole. rewrite Hlen, (ntohs_be16 _ _ (Z.of_nat (length data)) ltac:(lia) (fa_len _ _ _ _ _ _ A')).
  destruct (Z.ltb_spec (Z.of_nat (12 + length data)) (Z.of_nat (length data) + 12)); [lia|].
  rewrite Nat2Z.id, byte_sum_spec, T', Hs', land_ff, shiftr_div by lia. change (2 ^ 8) with 256. unfold fsp_text. cbn [lsum fold_right].
  set (rest := key ++ _). fold (lsum rest). rewrite Z.add_0_l. set (f := fsp_fold (cmd + lsum rest)).
  replace (- f + (cmd + (f + lsum rest))) with (cmd + lsum rest) by lia. apply Z.eqb_eq. reflexivity.
Qed.

(** ** The numbers of the requests *)

Definition draw (k : nat) (s : Z) : Z := Nat.iter k random_next s.
Definition seeded (s : Z) : Prop := 0 < s < 2147483563.
Lemma seeded_next s : seeded s -> seeded (random_next s).
Proof.
  intros Hs. unfold seeded in *. pose proof (random_lcg 0 s ltac:(lia) ltac:(lia)) as (H1 & H2). destruct (H2 Hs) as (_ & H3).
  unfold random in *. destruct (Z.eqb_spec s 0); lia.
Qed.
Lemma net_random_seeded `{Env} w : seeded (seed w) -> net_random w = Some (Ret (random_next (seed w)), set_seed (random_next (seed w)) w).
Proof. intros Hs. unfold seeded in Hs. unfold net_random. run. destruct (Z.eqb_spec (seed w) 0) as [Z0|Z0]; [lia|]. unfold random. destruct (Z.eqb_spec (seed w) 0); [lia|]. reflexivity. Qed.
Lemma rfc2131_seeded `{Env} base exp w : seeded (seed w) -> exists t, rfc2131_sleep_interval base exp w = Some (Ret t, set_seed (random_next (seed w)) w).
Proof. intros Hs. unfold rfc2131_sleep_interval. unfold bind at 1. rewrite net_random_seeded by exact Hs. eexists. reflexivity. Qed.

(** ** A round *)

(** What is left alone: the tables, and memory but for the packet buffer and the request. *)
Definition same_fsp (w w' : world) : Prop :=
  arptable w' = arptable w /\ netmask w' = netmask w /\ igmptable w' = igmptable w /\
  current_while_timer w' = current_while_timer w /\ periodic_timer w' = periodic_timer w /\
  forall x, x < nic_packet \/ nic_packet + 1514 <= x -> x < fsp_request \/ fsp_request + 0x200 <= x -> ld8 (mm w') x = ld8 (mm w) x.
Lemma same_fsp_trans w1 w2 w3 : same_fsp w1 w2 -> same_fsp w2 w3 -> same_fsp w1 w3.
Proof. intros (A & B & C & D & F & G) (A' & B' & C' & D' & F' & G'). repeat (split; [congruence|]). intros x H1 H2. now rewrite G', G. Qed.
Lemma same_fsp_tabs w w' : same_fsp w w' -> same_tabs w w'.
Proof. intros (A & B & C & D & F & G). repeat (split; [assumption|]). intros x Hx. apply G; unfold lacp_pkt, nic_packet, fsp_request in *; lia. Qed.

(** What [url_fsp] asks for. *)
Definition fsp_to (srv lport name : Z) (fnc : Z -> Z -> Z -> bool -> M Z) : fsp_info :=
  {| fi_server_ip := srv; fi_server_port := FSP_PORT; fi_local_port := lport; fi_filename := name; fi_fnc := fnc |}.

Section round.
Context `{E : Env} (cli srv : Z) (mac hd : list Z) (s sp lport : Z) (fnc : Z -> Z -> Z -> bool -> M Z) (name nlen : Z) (dlen : nat).
Context (Hh : length hd = 12%nat) (Hlp : 0 <= lport < 65536) (Hn : (dlen <= 300)%nat).

(** The client between two rounds. *)
Record posed (w : world) (cmd : Z) (key data : list Z) : Prop := {
  po_ready : ready w cli srv mac;
  po_seed : seeded (seed w);
  po_at : fsp_at (mm w) fsp_req cmd key nlen data;
  po_key : length key = 2%nat;
  po_data : length data = dlen;
}.

Lemma fsp_send n w cmd key data pos :
  posed w cmd key data ->
  let m := fsp_stamp pos (random_next (seed w)) (12 + dlen) (mm w) in
  let w0 := set_mm m (set_seed (random_next (seed w)) w) in
  exists w1 f, udp_transmit n srv lport FSP_PORT (20 + 8 + Z.of_nat (12 + dlen)) fsp_request w0 = Some (Ret 1, w1) /\ posed w1 cmd key data /\ same_fsp w w1 /\
    seed w1 = random_next (seed w) /\ cnt_rx w1 = cnt_rx w /\ cnt_kbd w1 = cnt_kbd w /\ sent w1 = f :: sent w /\
    is_call mac lport FSP_PORT (fsp_text (Z.of_nat (12 + dlen)) cmd key (random_next (seed w)) nlen pos data) f /\
    ldn (mm w1) (fsp_seq fsp_req) 2 = le16 (random_next (seed w)).
Proof.
  intros [R S A K D] m w0. pose proof R as (Q & C & Rc & Asrv & Rch).
  assert (R0 : reachable w0 srv mac) by (apply (same_tabs_reachable w); [|exact Rch]; repeat (split; [reflexivity|]); intros x Hx; apply fsp_stamp_out; unfold lacp_pkt, fsp_req, fsp_request in *; lia).
  assert (O0 : forall x, x < fsp_request \/ fsp_request + 0x200 <= x -> ld8 m x = ld8 (mm w) x) by (intros x Hx; apply fsp_stamp_out; unfold fsp_req; lia).
  pose proof (fsp_stamp_text (mm w) cmd key nlen data (random_next (seed w)) pos A K) as Tx. cbv zeta in Tx. rewrite D in Tx. fold m in Tx.
  set (text := fsp_text _ _ _ _ _ _ _) in *. assert (Lt : length text = (12 + dlen)%nat) by (subst text; rewrite length_fsp_text, D by exact K; reflexivity).
  destruct (udp_call n lport FSP_PORT (20 + 8 + Z.of_nat (12 + dlen)) fsp_request w0 srv mac text R0 Hlp ltac:(unfold FSP_PORT; lia) ltac:(lia) ltac:(lia)) as (m1 & f & -> & F & O).
  { rewrite Lt. exact Tx. }
  do 2 eexists. split; [reflexivity|].
  assert (Sm : same_fsp w (set_sent (f :: sent w0) (set_mm m1 (set_sport (u16 lport) w0)))).
  { repeat (split; [reflexivity|]). intros x _ Hx. cbn [mm set_mm set_sent]. rewrite O by lia. now apply O0. }
  split; [|split; [exact Sm|split; [reflexivity|split; [reflexivity|split; [reflexivity|split; [reflexivity|split; [exact F|]]]]]]].
  - constructor; [apply (ready_same w); [now apply same_fsp_tabs|exact R]|apply seeded_next, S| |exact K|exact D].
    apply (fsp_at_ext (mm w)); [exact A|]. intros x Hx Hx2. cbn [mm set_mm set_sent]. unfold fsp_req in Hx. rewrite O by lia. apply fsp_stamp_out. unfold fsp_req in *. lia.
  - cbn [mm set_mm set_sent]. rewrite ldn_header in Tx. subst text. unfold fsp_text in Tx. change (?c :: ?a :: ?l) with ([c] ++ [a] ++ l) in Tx.
    apply app_split_length in Tx as (_ & Tx); [|reflexivity]. apply app_split_length in Tx as (_ & Tx); [|reflexivity].
    apply app_split_length in Tx as (_ & Tx); [|now rewrite length_ldn]. apply app_split_length in Tx as (Tx & _); [|reflexivity].
    etransitivity; [|exact Tx]. apply ldn_ext. intros x Hx. apply O. unfold fsp_seq, fsp_req in Hx. lia.
Qed.

(** A reply to the request just sent, in the packet buffer. *)
Record replied (w : world) (cmd : Z) (key : list Z) (pos : Z) (data : list Z) : Prop := {
  re_seq : fsp_answers (mm w) = true;
  re_whole : fsp_whole (fsp_shorten (mm w)) = true;
  re_at : fsp_at (mm w) fsp_rep cmd key (Z.of_nat (length data)) data;
  re_pos : ldn (mm w) (fsp_pos fsp_rep) 4 = be32 pos;
}.
Definition byte (b : Z) : Prop := 0 <= b < 256.
(** What a server may send. *)
Definition fsp_legal (cmd : Z) (key data : list Z) : Prop := byte cmd /\ length key = 2%nat /\ Forall byte key /\ Forall byte data /\ (length data <= 1460)%nat.
Lemma fsp_text_bytes cmd key seq len pos data : fsp_legal cmd key data -> 0 <= len < 65536 -> Forall byte (fsp_text 0 cmd key seq len pos data).
Proof.
  intros (Hc & _ & Hk & Hd & _) Hl. unfold fsp_text. constructor; [exact Hc|]. constructor; [apply Z.mod_pos_bound; lia|].
  rewrite !Forall_app. split; [exact Hk|]. split; [|split; [|split; [apply be32_bytes|exact Hd]]].
  - apply Forall_cons; [apply Z.mod_pos_bound; lia|]. apply Forall_cons; [apply Z.mod_pos_bound; lia|constructor].
  - apply Forall_cons; [unfold byte; Z.div_mod_to_equations; lia|]. apply Forall_cons; [apply Z.mod_pos_bound; lia|constructor].
Qed.
Lemma ld16_le16 m p v : ldn m p 2 = le16 v -> ld16 m p = u16 v.
Proof. intros T. rewrite (ld16_ldn _ _ _ _ T). clear T. unfold u16. Z.div_mod_to_equations. lia. Qed.
Lemma fsp_await n t w seq cmd key pos data rcmd rkey rdata :
  posed w cmd key data -> ldn (mm w) (fsp_seq fsp_req) 2 = le16 seq -> fsp_legal rcmd rkey rdata ->
  rx (cnt_rx w) = Some (udp_frame hd s cli sp lport (fsp_text 0 rcmd rkey seq (Z.of_nat (length rdata)) pos rdata)) ->
  exists w', await_reply (S n) (await_fsp lport) t w = Some (Ret 1, w') /\ posed w' cmd key data /\ same_fsp w w' /\ seed w' = seed w /\ cnt_rx w' = S (cnt_rx w) /\
    sent w' = sent w /\ cnt_kbd w' = cnt_kbd w /\ replied w' rcmd rkey pos rdata.
Proof.
  intros [R S A K D] Hs HL Hrx. pose proof R as (Q & C & Rc & _). set (body := fsp_text 0 rcmd rkey seq (Z.of_nat (length rdata)) pos rdata) in *.
  pose proof HL as (_ & Hrk & _ & _ & Hrl). assert (Lb : length body = (12 + length rdata)%nat) by (apply length_fsp_text; exact Hrk).
  assert (Bb : Forall byte body) by (apply fsp_text_bytes; [exact HL|lia]).
  destruct (udp_frame_received (mm w) hd body s cli sp lport Hh ltac:(lia) Bb Rc) as (F1 & F2 & F3 & F4 & F5 & F6).
  set (fr := udp_frame hd s cli sp lport body) in *. set (m := stn (mm w) nic_packet fr) in *. pose proof (rx_len _ _ Hrx) as Lf.
  assert (Km : forall x, x < nic_packet \/ nic_packet + 1514 <= x -> ld8 m x = ld8 (mm w) x) by (intros x Hx; apply ld8_stn_out; lia).
  destruct (await_reply_frame n (await_fsp lport) t w fr _ 1 (fun w => w) Q Hrx F1) as (c & Er); [lia| |].
  { intros w1 Hm Hpl Ha. unfold await_fsp. cbn [has_udp negb]. run. unfold client_ip, arp in *. rewrite Hm, Ha. fold m.
    rewrite F2, C, Z.eqb_refl, F4, u16_small, Z.eqb_refl, F5 by lia. cbn [negb]. destruct (Z.ltb_spec (8 + Z.of_nat (length body)) (12 + 8)); [lia|]. reflexivity. }
  change (ip_ptr + 28) with fsp_rep in F6. rewrite Lb in F5, F6.
  assert (Sm : same_fsp w (set_packetlen (Z.of_nat (length fr)) (set_mm m (set_cnt_rx (Datatypes.S (cnt_rx w)) (set_cnt_clock c w))))).
  { repeat (split; [reflexivity|]). intros x Hx _. now apply Km. }
  assert (Hreq : forall x, fsp_req <= x < fsp_req + 0x200 -> ld8 m x = ld8 (mm w) x) by (intros x Hx; apply Km; unfold nic_packet, fsp_req, fsp_request in *; lia).
  eexists. split; [exact Er|]. split; [|split; [exact Sm|split; [reflexivity|split; [reflexivity|split; [reflexivity|split; [reflexivity|]]]]]].
  - constructor; [apply (ready_same w); [now apply same_fsp_tabs|exact R]|exact S| |exact K|exact D].
    apply (fsp_at_ext (mm w)); [exact A|]. intros x Hx _. apply Hreq. lia.
  - cbn [mm set_packetlen set_mm]. destruct (fsp_reply_at m _ _ _ _ _ _ F6 Hrk) as (A1 & A2 & A3 & _). constructor; [|now apply (fsp_rep_whole m rcmd rkey seq pos rdata)|exact A1|exact A3].
    cbn [mm set_packetlen set_mm]. fold m. unfold fsp_answers. rewrite (ld16_le16 m _ seq A2). rewrite (ld16_le16 m (fsp_seq fsp_req) seq); [apply Z.eqb_refl|].
    etransitivity; [|exact Hs]. apply ldn_ext. intros x Hx. apply Hreq. unfold fsp_seq in Hx. lia.
Qed.

Lemma fsp_ask_ok n st w cmd key data rcmd rkey rpos rdata :
  posed w cmd key data -> fsp_legal rcmd rkey rdata ->
  let c := if filelength st =? 0 then CC_STAT else cmd in
  rx (cnt_rx w) = Some (udp_frame hd s cli sp lport (fsp_text 0 rcmd rkey (random_next (seed w)) (Z.of_nat (length rdata)) rpos rdata)) ->
  exists w1 f, fsp_ask (S n) (fsp_to srv lport name fnc) (12 + dlen) st w = Some (Ret (Some 1), w1) /\ posed w1 c key data /\ same_fsp w w1 /\ seed w1 = draw 2 (seed w) /\
    cnt_rx w1 = S (cnt_rx w) /\ cnt_kbd w1 = cnt_kbd w /\ sent w1 = f :: sent w /\
    is_call mac lport FSP_PORT (fsp_text (Z.of_nat (12 + dlen)) c key (random_next (seed w)) nlen (filepos st) data) f /\ replied w1 rcmd rkey rpos rdata.
Proof.
  intros P HL c Hrx.
  assert (P0 : exists w0, (if filelength st =? 0 then store8 (fsp_cmd fsp_req) CC_STAT else ret tt) w = Some (Ret tt, w0) /\ posed w0 c key data /\ same_fsp w w0 /\
    seed w0 = seed w /\ cnt_rx w0 = cnt_rx w /\ cnt_kbd w0 = cnt_kbd w /\ sent w0 = sent w).
  { subst c. destruct (filelength st =? 0).
    - set (m := st8 (mm w) (fsp_cmd fsp_req) CC_STAT). exists (set_mm m w).
      assert (Km : forall x, x <> fsp_req -> ld8 m x = ld8 (mm w) x) by (intros x Hx; apply ld8_st8_ne; unfold fsp_cmd; lia).
      assert (Sm : same_fsp w (set_mm m w)) by (repeat (split; [reflexivity|]); intros x _ Hx; apply Km; unfold fsp_req; lia).
      split; [reflexivity|]. split; [|split; [exact Sm|repeat split]]. destruct P as [R Sd [A1 A2 A3 A4] K D].
      constructor; [apply (ready_same w); [now apply same_fsp_tabs|exact R]|exact Sd| |exact K|exact D]. unfold fsp_cmd, fsp_key, fsp_len, fsp_data in *.
      constructor; [apply ld8_st8_eq|..]; unfold fsp_key, fsp_len, fsp_data; cbn [mm set_mm]; (etransitivity; [|eassumption]); apply ldn_ext; intros x Hx; apply Km; lia.
    - exists w. split; [reflexivity|]. split; [exact P|]. repeat split. }
  destruct P0 as (w0 & E0 & P0 & S0 & D0 & C0 & B0 & T0).
  destruct (fsp_send (S n) w0 c key data (filepos st) P0) as (w1 & f & E1 & P1 & S1 & D1 & C1 & B1 & T1 & I1 & Q1). rewrite D0 in D1, I1, Q1, E1.
  destruct (rfc2131_seeded (if filepos st =? 0 then TIMEOUT else TFTP_REXMT) (fsp_retry st) w1 (po_seed _ _ _ _ P1)) as (t & E2). rewrite D1 in E2.
  set (w2 := set_seed (random_next (random_next (seed w))) w1) in *.
  assert (P2 : posed w2 c key data).
  { destruct P1 as [R Sd A K D]. constructor; [exact R|cbn [seed set_seed w2]; subst w2; cbn; rewrite <- D1; now apply seeded_next|exact A|exact K|exact D]. }
  destruct (fsp_await n t w2 (random_next (seed w)) c key rpos data rcmd rkey rdata P2 Q1 HL) as (w3 & E3 & P3 & S3 & D3 & C3 & T3 & B3 & R3).
  { cbn [cnt_rx set_seed w2]. change (cnt_rx w2) with (cnt_rx w1). rewrite C1, C0. exact Hrx. }
  exists w3, f. split; [|split; [exact P3|split; [|split; [rewrite D3; reflexivity|split; [|split; [|split; [|split; [exact I1|exact R3]]]]]]]].
  - unfold fsp_ask. rewrite (bind_step _ _ _ _ _ E0), (bind_step _ _ _ _ _ (net_random_seeded w0 (po_seed _ _ _ _ P0))). rewrite D0.
    rewrite (bind_step (set_mem _) _ _ tt _ eq_refl). cbn [fi_server_ip fi_server_port fi_local_port fsp_to].
    rewrite (bind_step _ _ _ _ _ E1). cbn [Z.eqb]. rewrite (bind_step _ _ _ _ _ E2), (bind_step _ _ _ _ _ E3). reflexivity.
  - apply (same_fsp_trans w w0); [exact S0|]. apply (same_fsp_trans w0 w1); [exact S1|exact S3].
  - rewrite C3. change (cnt_rx w2) with (cnt_rx w1). congruence.
  - rewrite B3. change (cnt_kbd w2) with (cnt_kbd w1). congruence.
  - rewrite T3. change (sent w2) with (sent w1). congruence.
Qed.
End round.
(** ** A consumer *)

(** It puts the blocks behind each other.  At [var] it keeps where the next block goes, the number of the last one and whether that was the end of
    the file; it refuses a block whose number is not the next, or that comes behind the end. *)
Definition collect (var : Z) : Z -> Z -> Z -> bool -> M Z := fun data block len eof =>
  w <- get ;;
  let m := mm w in
  if negb (block =? ld32 m (var + 4) + 1) || istrue (ld32 m (var + 8)) then ret 0
  else
    let p := ld32 m var in
    set_mem (fun m => st32 (st32 (st32 (memcpy m p data (Z.to_nat len)) var (p + len)) (var + 4) block) (var + 8) (b2z eof)) ;;;
    ret 1.
Record collected (m : mem) (var dest : Z) (l : list Z) (n : Z) (eof : bool) : Prop := {
  co_bytes : ldn m dest (length l) = l;
  co_next : ld32 m var = dest + Z.of_nat (length l);
  co_block : ld32 m (var + 4) = n;
  co_eof : ld32 m (var + 8) = b2z eof;
}.
Lemma collected_ext m m' var dest l n eof : var + 12 <= dest -> collected m var dest l n eof -> (forall x, var <= x -> ld8 m' x = ld8 m x) -> collected m' var dest l n eof.
Proof.
  intros Hd [A B C D] K. constructor.
  - etransitivity; [|exact A]. apply ldn_ext. intros x Hx. apply K. lia.
  - rewrite <- B. apply ld32_ext. intros x Hx. apply K. lia.
  - rewrite <- C. apply ld32_ext. intros x Hx. apply K. lia.
  - rewrite <- D. apply ld32_ext. intros x Hx. apply K. lia.
Qed.
Lemma collect_ok w var dest l n data b eof : collected (mm w) var dest l n false -> var + 12 <= dest -> 0 <= n < 4294967295 ->
  0 <= dest /\ dest + Z.of_nat (length l + length b) < 4294967296 -> data + Z.of_nat (length b) <= var -> ldn (mm w) data (length b) = b ->
  exists m', collect var data (n + 1) (Z.of_nat (length b)) eof w = Some (Ret 1, set_mm m' w) /\ collected m' var dest (l ++ b) (n + 1) eof /\
    (forall x, x < var -> ld8 m' x = ld8 (mm w) x).
Proof.
  intros [A B C D] Hd Hn Ht Hs Hb. unfold collect. run. rewrite C, D, Z.eqb_refl. cbn [negb orb b2z istrue Z.eqb]. eexists. split; [reflexivity|]. rewrite B, Nat2Z.id.
  set (p := dest + Z.of_nat (length l)). set (m1 := memcpy (mm w) p data (length b)).
  assert (K1 : forall x, x < p -> ld8 m1 x = ld8 (mm w) x) by (intros x Hx; apply ld8_memcpy_out; subst p; lia).
  split.
  - constructor.
    + rewrite length_app, ldn_app. f_equal.
      * etransitivity; [|exact A]. apply ldn_ext. intros x Hx. rewrite !ld8_st32_ne by lia. apply K1. subst p. lia.
      * etransitivity; [|exact Hb]. etransitivity; [|apply (ldn_memcpy (mm w) p data); subst p; lia]. apply ldn_ext. intros x Hx. rewrite !ld8_st32_ne by lia. reflexivity.
    + rewrite !ld32_st32_ne by lia. rewrite ld32_st32_eq, length_app. rewrite u32_small by (subst p; lia). subst p. lia.
    + rewrite ld32_st32_ne by lia. rewrite ld32_st32_eq. apply u32_small. lia.
    + rewrite ld32_st32_eq. apply u32_small. destruct eof; cbn; lia.
  - intros x Hx. rewrite !ld8_st32_ne by lia. apply K1. subst p. lia.
Qed.

(** ** A file *)

(** Frames that come one after the other, from the poll [k] on. *)
Definition receives `{Env} (k : nat) (fs : list (list Z)) : Prop := forall j f, nth_error fs j = Some f -> rx (k + j) = Some f.
Lemma receives_cons `{Env} k f fs : receives k (f :: fs) -> rx k = Some f /\ receives (S k) fs.
Proof. intros Hr. split; [rewrite <- (Nat.add_0_r k); exact (Hr 0%nat f eq_refl)|]. intros j g Hj. replace (S k + j)%nat with (k + S j)%nat by lia. exact (Hr (S j) g Hj). Qed.

Section fetch.
Context `{E : Env} (cli srv : Z) (mac hd : list Z) (s sp lport : Z) (var dest : Z) (name nlen : Z) (dlen : nat).
Context (Hh : length hd = 12%nat) (Hlp : 0 <= lport < 65536) (Hn : (0 < dlen <= 300)%nat) (Hv : 0x40000 <= var) (Hd : var + 12 <= dest).
(** The request is changed, and nothing that the rounds depend on. *)
Lemma posed_mm w m cmd key data cmd' key' data' : posed cli srv mac nlen dlen w cmd key data -> fsp_at m fsp_req cmd' key' nlen data' -> length key' = 2%nat -> length data' = dlen ->
  (forall x, lacp_pkt <= x < lacp_pkt + 0x1000 -> ld8 m x = ld8 (mm w) x) -> posed cli srv mac nlen dlen (set_mm m w) cmd' key' data'.
Proof.
  intros [R S A K D] A' K' D' Km. constructor; [|exact S|exact A'|exact K'|exact D']. apply (ready_same w); [|exact R]. repeat (split; [reflexivity|]). exact Km.
Qed.
Lemma st16_ld16 m a m0 b : ldn (st16 m a (ld16 m0 b)) a 2 = ldn m0 b 2.
Proof.
  rewrite ldn_le16. unfold le16, ld16. cbn [ldn]. pose proof (ld8_range m0 b). pose proof (ld8_range m0 (b + 1)). f_equal; [|f_equal]; Z.div_mod_to_equations; lia.
Qed.
(** What [fsp_take] leaves of the counters and the memory of others. *)
Definition took (w w' : world) : Prop :=
  cnt_rx w' = cnt_rx w /\ cnt_kbd w' = cnt_kbd w /\ sent w' = sent w /\ seed w' = seed w.

Lemma replied_short w cmd key pos data : replied w cmd key pos data -> let m := fsp_shorten (mm w) in
  fsp_at m fsp_rep cmd key (Z.of_nat (length data)) data /\ ldn m (fsp_pos fsp_rep) 4 = be32 pos /\ (forall x, fsp_rep <= x -> ld8 m x = ld8 (mm w) x).
Proof.
  intros [A B C D] m. assert (Ho : forall x, fsp_rep <= x -> ld8 m x = ld8 (mm w) x) by (intros x Hx; apply fsp_shorten_out; unfold fsp_rep, ip_ptr, ETH_HLEN in *; lia).
  split; [|split; [|exact Ho]].
  - apply (fsp_at_ext (mm w)); [exact C|]. intros x Hx _. apply Ho. lia.
  - etransitivity; [|exact D]. apply ldn_ext. intros x Hx. apply Ho. unfold fsp_pos in Hx. lia.
Qed.

(** The file is known: its length comes back from the first request. *)
Definition stat_data (time : list Z) (size type : Z) : list Z := time ++ be32 size ++ [type].
Lemma take_stat w st key data rkey pos time size type cmd : posed cli srv mac nlen dlen w cmd key data -> replied w CC_STAT rkey pos (stat_data time size type) -> length rkey = 2%nat ->
  length time = 4%nat -> 0 <= size < 4294967296 -> type <> 0 -> forall l n, collected (mm w) var dest l n false ->
  exists w', fsp_take (fsp_to srv lport name (collect var)) st w = Some (Ret (inr (st_with (filepos st) size 0 (fsp_block st))), w') /\ posed cli srv mac nlen dlen w' CC_GET_FILE rkey data /\ took w w' /\ collected (mm w') var dest l n false.
Proof.
  intros P R Hrk Ht Hs Hty l n Hc. destruct (replied_short _ _ _ _ _ R) as ([A1 A2 A3 A4] & _ & K). set (m := fsp_shorten (mm w)) in *.
  set (m1 := st8 m (fsp_cmd fsp_req) CC_GET_FILE). set (m2 := st16 m1 (fsp_key fsp_req) (ld16 m (fsp_key fsp_rep))).
  assert (K2 : forall x, fsp_rep <= x -> x < fsp_req \/ fsp_req + 4 <= x \/ x = fsp_req + 1 -> ld8 m2 x = ld8 (mm w) x).
  { intros x Hx Hx2. subst m2 m1. unfold st16, fsp_cmd, fsp_key in *. rewrite !ld8_st8_ne by lia. now apply K. }
  assert (Hs1 : length (stat_data time size type) = 9%nat) by (unfold stat_data; rewrite !length_app, Ht; reflexivity). rewrite Hs1 in A4. unfold stat_data in A4.
  change 9%nat with (4 + (4 + 1))%nat in A4. rewrite (ldn_app m _ 4 5), (ldn_app m _ 4 1) in A4.
  apply app_split_length in A4 as (_ & A4); [|now rewrite length_ldn]. apply app_split_length in A4 as (A4 & A5); [|reflexivity].
  change (fsp_data fsp_rep + Z.of_nat 4) with (fsp_data fsp_rep + 4) in *. change (fsp_data fsp_rep + 4 + Z.of_nat 4) with (fsp_data fsp_rep + 8) in *.
  apply (f_equal (List.hd 0)) in A5. cbn [ldn List.hd] in A5.
  exists (set_mm m2 (set_mm m1 (set_mm m w))). split; [|split; [|split; [repeat split|]]].
  - unfold fsp_take. run. rewrite (re_seq _ _ _ _ _ R). cbn [negb mm set_mm]. cbv iota. rewrite (re_whole _ _ _ _ _ R). fold m. rewrite A1, A5. cbn [negb].
    destruct (Z.eqb_spec type 0); [contradiction|]. rewrite (ntohl_be32 m (fsp_data fsp_rep + 4) size Hs A4). reflexivity.
  - destruct P as [Rd S [B1 B2 B3 B4] Kk D]. apply (posed_mm w m2 cmd key data); [constructor; try assumption; now constructor| |exact Hrk|exact D|].
    + unfold fsp_cmd, fsp_key, fsp_len, fsp_data in *. constructor; unfold fsp_cmd, fsp_key, fsp_len, fsp_data.
      * subst m2 m1. unfold st16. rewrite !ld8_st8_ne by lia. apply ld8_st8_eq.
      * subst m2. rewrite st16_ld16. exact A2.
      * etransitivity; [|exact B3]. apply ldn_ext. intros x Hx. apply K2; unfold fsp_rep, nic_packet, ETH_HLEN, fsp_req, fsp_request in *; lia.
      * etransitivity; [|exact B4]. apply ldn_ext. intros x Hx. apply K2; unfold fsp_rep, nic_packet, ETH_HLEN, fsp_req, fsp_request in *; lia.
    + intros x Hx. apply K2; unfold lacp_pkt, fsp_rep, nic_packet, ETH_HLEN, fsp_req, fsp_request in *; lia.
  - cbn [mm set_mm]. apply (collected_ext (mm w)); [exact Hd|exact Hc|]. intros x Hx. apply K2; unfold fsp_rep, nic_packet, ETH_HLEN, fsp_req, fsp_request in *; lia.
Qed.

(** The key of the reply is kept for the next request; command and first byte may change with it. *)
Lemma rekeyed w cmd key data rcmd rkey pos rdata c b : posed cli srv mac nlen dlen w cmd key data -> replied w rcmd rkey pos rdata -> length rkey = 2%nat ->
  let m := fsp_shorten (mm w) in
  let m1 := st16 m (fsp_key fsp_req) (ld16 m (fsp_key fsp_rep)) in
  posed cli srv mac nlen dlen (set_mm m1 w) cmd rkey data /\
  (0 <= c < 256 -> 0 <= b < 256 -> posed cli srv mac nlen dlen (set_mm (st8 (st8 m1 (fsp_cmd fsp_req) c) (fsp_data fsp_req) b) w) c rkey (b :: tl data)) /\
  (forall x, fsp_rep <= x -> x < fsp_req \/ fsp_req + 4 <= x -> ld8 m1 x = ld8 (mm w) x).
Proof.
  intros P R Hrk m m1. destruct (replied_short _ _ _ _ _ R) as ([A1 A2 A3 A4] & _ & K). fold m in A2, K.
  assert (K2 : forall x, fsp_rep <= x -> x < fsp_req + 2 \/ fsp_req + 4 <= x -> ld8 m1 x = ld8 (mm w) x).
  { intros x Hx Hx2. subst m1. unfold st16, fsp_key in *. rewrite !ld8_st8_ne by lia. now apply K. }
  assert (Hr : fsp_rep < fsp_req) by (vm_compute; reflexivity). assert (Hl : lacp_pkt + 0x1000 < fsp_req /\ fsp_rep < lacp_pkt) by (split; vm_compute; reflexivity).
  pose proof P as [_ _ [B1 B2 B3 B4] _ D]. unfold fsp_cmd, fsp_len, fsp_data in B1, B3, B4. split; [|split].
  - apply (posed_mm w m1 cmd key data); [exact P| |exact Hrk|exact D|intros x Hx; apply K2; lia].
    constructor; [rewrite <- B1; apply K2; unfold fsp_cmd; lia|subst m1; rewrite st16_ld16; exact A2|etransitivity; [|exact B3]|etransitivity; [|exact B4]];
      apply ldn_ext; intros x Hx; unfold fsp_len, fsp_data in Hx; apply K2; lia.
  - intros Hc Hb. apply (posed_mm w _ cmd key data); [exact P| |exact Hrk|destruct data; [cbn [length] in D; lia|exact D]|].
    + unfold fsp_cmd, fsp_data. constructor; unfold fsp_cmd, fsp_len, fsp_data.
      * rewrite ld8_st8_ne, ld8_st8_eq by lia. apply u8_small. lia.
      * etransitivity; [|exact A2]. etransitivity; [|apply (st16_ld16 m)]. apply ldn_ext. intros x Hx. unfold fsp_key in Hx. rewrite 2!ld8_st8_ne by lia. reflexivity.
      * etransitivity; [|exact B3]. apply ldn_ext. intros x Hx. rewrite 2!ld8_st8_ne by lia. apply K2; lia.
      * destruct data as [|d data]; [cbn [length] in D; lia|]. cbn [tl length ldn] in *. rewrite ld8_st8_eq, u8_small by lia. f_equal.
        apply (f_equal (@tl Z)) in B4. cbn [tl] in B4. etransitivity; [|exact B4]. apply ldn_ext. intros x Hx. rewrite 2!ld8_st8_ne by lia. apply K2; lia.
    + intros x Hx. unfold fsp_cmd, fsp_data. rewrite 2!ld8_st8_ne by lia. apply K2; lia.
  - intros x Hx Hx2. apply K2; lia.
Qed.

Lemma take_get w st key data rkey rdata l n cmd : posed cli srv mac nlen dlen w cmd key data -> replied w CC_GET_FILE rkey (filepos st) rdata -> length rkey = 2%nat ->
  (2 <= length rdata <= 1460)%nat -> collected (mm w) var dest l n false -> fsp_block st = n + 1 -> 0 <= n < 2147483646 -> 0 <= filepos st -> 2 <= filelength st -> filepos st + filelength st < 2147483648 ->
  0 <= dest /\ dest + Z.of_nat (length l + length rdata) < 4294967296 ->
  let i := Z.min (Z.of_nat (length rdata)) (filelength st - 1) in
  exists w', fsp_take (fsp_to srv lport name (collect var)) st w = Some (Ret (inr (st_with (filepos st + i) (filelength st - i) 0 (fsp_block st + 1))), w') /\
    posed cli srv mac nlen dlen w' cmd rkey data /\ took w w' /\ collected (mm w') var dest (l ++ firstn (Z.to_nat i) rdata) (n + 1) false.
Proof.
  intros P R Hrk Hl Hc Hb Hn2 Hp Hf Hpf Ht i. destruct (rekeyed w cmd key data _ rkey _ rdata 0 0 P R Hrk) as (P1 & _ & K1). cbv zeta in P1, K1.
  destruct (replied_short _ _ _ _ _ R) as ([A1 A2 A3 A4] & A5 & K). set (m := fsp_shorten (mm w)) in *. set (m1 := st16 m _ _) in *.
  assert (Hr : fsp_data fsp_rep + 1460 < fsp_req /\ fsp_rep < fsp_req /\ fsp_req + 0x200 < var) by (split; [|split]; [vm_compute; reflexivity..|unfold fsp_req, fsp_request; lia]).
  assert (Li : 0 < i <= Z.of_nat (length rdata)) by lia.
  assert (Hbs : ldn m1 (fsp_data fsp_rep) (length (firstn (Z.to_nat i) rdata)) = firstn (Z.to_nat i) rdata).
  { etransitivity; [|exact (f_equal (firstn (Z.to_nat i)) A4)]. rewrite firstn_ldn by lia. rewrite length_firstn, Nat.min_l by lia. apply ldn_ext. intros x Hx.
    unfold fsp_data in Hx, Hr. rewrite K1, K by lia. reflexivity. }
  assert (Lf : Z.of_nat (length (firstn (Z.to_nat i) rdata)) = i) by (rewrite length_firstn, Nat.min_l by lia; lia).
  destruct (collect_ok (set_mm m1 (set_mm m w)) var dest l n (fsp_data fsp_rep) (firstn (Z.to_nat i) rdata) false) as (m' & E' & C' & K');
    [|exact Hd|lia|lia|lia|exact Hbs|].
  { cbn [mm set_mm]. apply (collected_ext (mm w)); [exact Hd|exact Hc|]. intros x Hx. apply K1; lia. }
  rewrite Lf in E'. exists (set_mm m' (set_mm m1 (set_mm m w))). split; [|split; [|split; [repeat split|exact C']]].
  - unfold fsp_take. run. rewrite (re_seq _ _ _ _ _ R). cbn [negb mm set_mm]. cbv iota. rewrite (re_whole _ _ _ _ _ R). fold m. rewrite A1. cbn [negb]. cbv iota.
    change (CC_GET_FILE =? CC_ERR) with false. change (CC_GET_FILE =? CC_BYE) with false. change (CC_GET_FILE =? CC_STAT) with false. rewrite Z.eqb_refl. cbn [andb]. cbv iota.
    rewrite (ntohl_be32 m _ (filepos st) ltac:(lia) A5), Z.eqb_refl. cbn [negb]. unfold store16. run. cbn [mm set_mm]. fold m1.
    rewrite (ntohs_be16 m _ (Z.of_nat (length rdata)) ltac:(lia) A3). destruct (Z.eqb_spec (Z.of_nat (length rdata)) 1); [lia|].
    assert (Ei : (if Z.of_nat (length rdata) >=? filelength st then s32 (filelength st - 1) else Z.of_nat (length rdata)) = i).
    { rewrite Z.geb_leb. destruct (Z.leb_spec (filelength st) (Z.of_nat (length rdata))); [rewrite s32_small by lia|]; lia. }
    rewrite Ei, !u32_small by lia. cbn [fi_fnc fsp_to]. rewrite Hb, E'. cbn [Z.eqb]. rewrite s32_small by lia. reflexivity.
  - apply (posed_mm (set_mm m1 w) m' cmd rkey data); [exact P1| |exact Hrk|exact (po_data _ _ _ _ _ _ _ _ _ P1)|].
    + apply (fsp_at_ext m1); [exact (po_at _ _ _ _ _ _ _ _ _ P1)|]. intros x Hx _. apply K'. pose proof (po_data _ _ _ _ _ _ _ _ _ P1). lia.
    + intros x Hx. apply K'. unfold lacp_pkt in Hx. lia.
Qed.
Lemma take_last w st key data rkey b l n cmd : posed cli srv mac nlen dlen w cmd key data -> replied w CC_GET_FILE rkey (filepos st) [b] -> length rkey = 2%nat -> 0 <= b < 256 ->
  collected (mm w) var dest l n false -> 0 <= filepos st < 4294967296 ->
  exists w', fsp_take (fsp_to srv lport name (collect var)) st w = Some (Ret (inr (st_with (filepos st) (filelength st) 0 (fsp_block st))), w') /\
    posed cli srv mac nlen dlen w' CC_BYE rkey (b :: tl data) /\ took w w' /\ collected (mm w') var dest l n false.
Proof.
  intros P R Hrk Hb Hc Hp. destruct (rekeyed w cmd key data _ rkey _ [b] CC_BYE b P R Hrk) as (_ & P1 & K1). cbv zeta in P1, K1.
  specialize (P1 ltac:(unfold CC_BYE; lia) Hb). destruct (replied_short _ _ _ _ _ R) as ([A1 A2 A3 A4] & A5 & K). set (m := fsp_shorten (mm w)) in *. set (m1 := st16 m _ _) in *.
  assert (Hr : fsp_rep < fsp_req /\ fsp_req + 0x200 < var) by (split; [vm_compute; reflexivity|unfold fsp_req, fsp_request; lia]).
  apply (f_equal (List.hd 0)) in A4. cbn [ldn length List.hd] in A4.
  eexists. split; [|split; [exact P1|split; [repeat split|]]].
  - unfold fsp_take. run. rewrite (re_seq _ _ _ _ _ R). cbn [negb mm set_mm]. cbv iota. rewrite (re_whole _ _ _ _ _ R). fold m. rewrite A1. cbn [negb]. cbv iota.
    change (CC_GET_FILE =? CC_ERR) with false. change (CC_GET_FILE =? CC_BYE) with false. change (CC_GET_FILE =? CC_STAT) with false. rewrite Z.eqb_refl. cbn [andb]. cbv iota.
    rewrite (ntohl_be32 m _ (filepos st) Hp A5), Z.eqb_refl. cbn [negb]. unfold store16, store8. run. cbn [mm set_mm]. fold m1.
    rewrite (ntohs_be16 m _ (Z.of_nat (length [b])) ltac:(cbn; lia) A3). cbn [length Z.of_nat Pos.of_succ_nat Z.eqb Pos.eqb]. rewrite A4. reflexivity.
  - cbn [mm set_mm]. apply (collected_ext (mm w)); [exact Hd|exact Hc|]. intros x Hx. unfold fsp_cmd, fsp_data. rewrite 2!ld8_st8_ne by lia. apply K1; lia.
Qed.
Lemma take_bye w st key b data rkey pos rdata l n cmd : posed cli srv mac nlen dlen w cmd key (b :: data) -> replied w CC_BYE rkey pos rdata -> filelength st = 1 ->
  collected (mm w) var dest l n false -> fsp_block st = n + 1 -> 0 <= n < 2147483646 -> 0 <= dest /\ dest + Z.of_nat (length l + 1) < 4294967296 ->
  exists w', fsp_take (fsp_to srv lport name (collect var)) st w = Some (Ret (inl 1), w') /\ sent w' = sent w /\ collected (mm w') var dest (l ++ [b]) (n + 1) true.
Proof.
  intros P R Hf Hc Hb Hn2 Ht. destruct (replied_short _ _ _ _ _ R) as ([A1 _ _ _] & _ & K). set (m := fsp_shorten (mm w)) in *.
  assert (Hr : fsp_rep < fsp_req /\ fsp_req + 0x200 < var) by (split; [vm_compute; reflexivity|unfold fsp_req, fsp_request; lia]).
  destruct (collect_ok (set_mm m w) var dest l n (fsp_data fsp_req) [b] true) as (m' & E' & C' & _); [|exact Hd|lia|exact Ht|unfold fsp_data; cbn [length]; lia| |].
  { cbn [mm set_mm]. apply (collected_ext (mm w)); [exact Hd|exact Hc|]. intros x Hx. apply K. lia. }
  { pose proof (fa_data _ _ _ _ _ _ (po_at _ _ _ _ _ _ _ _ _ P)) as B. apply (f_equal (firstn 1)) in B. rewrite firstn_ldn in B by (cbn; lia). etransitivity; [|exact B].
    apply ldn_ext. intros x Hx. apply K. unfold fsp_data in Hx. lia. }
  exists (set_mm m' (set_mm m w)). split; [|split; [reflexivity|exact C']].
  unfold fsp_take. run. rewrite (re_seq _ _ _ _ _ R). cbn [negb mm set_mm]. cbv iota. rewrite (re_whole _ _ _ _ _ R). fold m. rewrite A1, Hf, Hb. cbn [negb]. cbv iota.
  change (CC_BYE =? CC_ERR) with false. change ((CC_BYE =? CC_BYE) && (1 =? 1)) with true. cbv iota. cbn [fi_fnc fsp_to]. rewrite u32_small by lia.
  change (Z.of_nat (length [b])) with 1 in E'. rewrite E'. reflexivity.
Qed.

(** The replies to the requests for a file: sizes of blocks that the server picks, at least two bytes each, until one byte is left.  A reply may
    hold that byte too; it is asked for by itself all the same. *)
Definition step_of (n : nat) (rest : list Z) : nat := Nat.min n (length rest - 1).
Fixpoint size_fits (ns : list nat) (rem : nat) : Prop :=
  match ns with
  | [] => rem = 1%nat
  | n :: ns => (2 <= n <= 1460)%nat /\ (2 <= rem)%nat /\ size_fits ns (rem - Nat.min n (rem - 1))
  end.
Fixpoint get_replies (ns : list nat) (pos : Z) (rest : list Z) : list (Z * Z * list Z) :=
  match ns with
  | [] => [(CC_GET_FILE, pos, rest); (CC_BYE, pos, [])]
  | n :: ns => (CC_GET_FILE, pos, firstn n rest) :: get_replies ns (pos + Z.of_nat (step_of n rest)) (skipn (step_of n rest) rest)
  end.
Fixpoint get_requests (ns : list nat) (pos : Z) (rest data : list Z) : list (Z * Z * list Z) :=
  match ns with
  | [] => [(CC_GET_FILE, pos, data); (CC_BYE, pos, rest ++ tl data)]
  | n :: ns => (CC_GET_FILE, pos, data) :: get_requests ns (pos + Z.of_nat (step_of n rest)) (skipn (step_of n rest) rest) data
  end.
(** The packets: each reply carries a new key, which the next request repeats, and the number of its request. *)
Fixpoint asked (sd : Z) (key : list Z) (keys : list (list Z)) (rs : list (Z * Z * list Z)) : list (list Z) :=
  match rs, keys with
  | (c, p, d) :: rs, k :: keys => fsp_text (Z.of_nat (12 + dlen)) c key (random_next sd) nlen p d :: asked (draw 2 sd) k keys rs
  | _, _ => []
  end.
Fixpoint answered (sd : Z) (keys : list (list Z)) (rs : list (Z * Z * list Z)) : list (list Z) :=
  match rs, keys with
  | (c, p, d) :: rs, k :: keys => udp_frame hd s cli sp lport (fsp_text 0 c k (random_next sd) (Z.of_nat (length d)) p d) :: answered (draw 2 sd) keys rs
  | _, _ => []
  end.
Definition key_ok (k : list Z) : Prop := length k = 2%nat /\ Forall byte k.

(** One round of the loop. *)
Lemma fsp_loop_round n st w cmd key data rcmd rkey rpos rdata :
  posed cli srv mac nlen dlen w cmd key data -> fsp_legal rcmd rkey rdata ->
  let c := if filelength st =? 0 then CC_STAT else cmd in
  rx (cnt_rx w) = Some (udp_frame hd s cli sp lport (fsp_text 0 rcmd rkey (random_next (seed w)) (Z.of_nat (length rdata)) rpos rdata)) ->
  exists w1 f,
    fsp_loop (S (S n)) (fsp_to srv lport name (collect var)) (12 + dlen) st w =
      (r <- fsp_take (fsp_to srv lport name (collect var)) (st_with (filepos st) (filelength st) (s32 (fsp_retry st + 1)) (fsp_block st)) ;;
       match r with inl r => ret r | inr st => fsp_loop (S n) (fsp_to srv lport name (collect var)) (12 + dlen) st end) w1 /\
    posed cli srv mac nlen dlen w1 c key data /\ same_fsp w w1 /\ seed w1 = draw 2 (seed w) /\ cnt_rx w1 = S (cnt_rx w) /\ sent w1 = f :: sent w /\
    is_call mac lport FSP_PORT (fsp_text (Z.of_nat (12 + dlen)) c key (random_next (seed w)) nlen (filepos st) data) f /\ replied w1 rcmd rkey rpos rdata.
Proof.
  intros P L c Hrx. destruct (fsp_ask_ok cli srv mac hd s sp lport (collect var) name nlen dlen Hh Hlp ltac:(lia) n st w cmd key data rcmd rkey rpos rdata P L Hrx)
    as (w1 & f & E1 & P1 & S1 & D1 & C1 & _ & T1 & I1 & R1).
  exists w1, f. split; [|split; [exact P1|split; [exact S1|split; [exact D1|split; [exact C1|split; [exact T1|split; [exact I1|exact R1]]]]]]].
  remember (S n) as k. cbn [fsp_loop]. rewrite (bind_step _ _ _ _ _ E1). reflexivity.
Qed.
Lemma same_fsp_collected w w1 l n eof : same_fsp w w1 -> collected (mm w) var dest l n eof -> collected (mm w1) var dest l n eof.
Proof.
  intros (_ & _ & _ & _ & _ & K) Hc. apply (collected_ext (mm w)); [exact Hd|exact Hc|]. intros x Hx. apply K; unfold nic_packet, fsp_request; lia.
Qed.

(** The last byte is asked for by itself; it is delivered when the server has said good bye. *)
Lemma fsp_end k data : length data = dlen -> forall w pos b l n key k1 k2, posed cli srv mac nlen dlen w CC_GET_FILE key data -> collected (mm w) var dest l n false ->
  0 <= pos < 2147483648 -> 0 <= n < 2147483646 -> 0 <= dest /\ dest + Z.of_nat (length l + 1) < 4294967296 -> 0 <= b < 256 -> key_ok k1 -> key_ok k2 ->
  receives (cnt_rx w) (answered (seed w) [k1; k2] (get_replies [] pos [b])) ->
  exists w' frames, fsp_loop (S (S (S k))) (fsp_to srv lport name (collect var)) (12 + dlen) (st_with pos 1 0 (n + 1)) w = Some (Ret 1, w') /\
    collected (mm w') var dest (l ++ [b]) (n + 1) true /\ sent w' = frames ++ sent w /\
    Forall2 (is_call mac lport FSP_PORT) (rev (asked (seed w) key [k1; k2] (get_requests [] pos [b] data))) frames.
Proof.
  intros Ldata w pos b l n key k1 k2 P Hc Hp Hn2 Ht Hb (Lk1 & Bk1) (Lk2 & Bk2) Hrx. cbn [get_replies answered] in Hrx.
  apply receives_cons in Hrx as (R1 & Hrx). apply receives_cons in Hrx as (R2 & _).
  destruct (fsp_loop_round (S k) (st_with pos 1 0 (n + 1)) w _ key data CC_GET_FILE k1 pos [b] P) as (w1 & f1 & E1 & P1 & S1 & D1 & C1 & T1 & I1 & Rp1);
    [split; [unfold byte, CC_GET_FILE; lia|split; [exact Lk1|split; [exact Bk1|split; [repeat constructor; exact Hb || apply Hb|cbn; lia]]]]|exact R1|]. cbn [filelength st_with Z.eqb] in P1, I1.
  destruct (take_last w1 (st_with pos 1 1 (n + 1)) key data k1 b l n CC_GET_FILE P1 Rp1 Lk1 Hb) as (w2 & E2 & P2 & (Cx & _ & Tx & Dx) & Hc2);
    [now apply (same_fsp_collected w)|cbn; lia|].
  destruct (fsp_loop_round k (st_with pos 1 0 (n + 1)) w2 _ k1 (b :: tl data) CC_BYE k2 pos [] P2) as (w3 & f3 & E3 & P3 & S3 & D3 & C3 & T3 & I3 & Rp3);
    [split; [unfold byte, CC_BYE; lia|split; [exact Lk2|split; [exact Bk2|split; [constructor|cbn; lia]]]]|rewrite Cx, C1, Dx, D1; exact R2|]. cbn [filelength st_with Z.eqb] in P3, I3.
  destruct (take_bye w3 (st_with pos 1 1 (n + 1)) k1 b (tl data) k2 pos [] l n CC_BYE P3 Rp3 eq_refl) as (w4 & E4 & T4 & Hc4);
    [apply (same_fsp_collected w2); [exact S3|exact Hc2]|reflexivity|exact Hn2|exact Ht|].
  exists w4, [f3; f1]. split; [|split; [exact Hc4|split; [rewrite T4, T3, Tx, T1; reflexivity|]]].
  - rewrite E1. change (s32 (fsp_retry (st_with pos 1 0 (n + 1)) + 1)) with 1 in *. cbn [filepos filelength fsp_block st_with] in *. fold (st_with pos 1 1 (n + 1)) in *.
    rewrite (bind_step _ _ _ _ _ E2), E3. cbn [filepos filelength fsp_block fsp_retry st_with]. change (s32 (0 + 1)) with 1. rewrite (bind_step _ _ _ _ _ E4). reflexivity.
  - cbn [get_requests asked rev app]. rewrite Dx, D1 in I3. constructor; [exact I3|]. constructor; [exact I1|constructor].
Qed.
Lemma fsp_gets k data : length data = dlen -> forall ns w pos rest l n key keys, posed cli srv mac nlen dlen w CC_GET_FILE key data -> collected (mm w) var dest l n false ->
  0 <= pos -> pos + Z.of_nat (length rest) < 2147483648 -> 0 <= n -> n + Z.of_nat (length ns) < 2147483640 -> 0 <= dest /\ dest + Z.of_nat (length l + length rest) < 4294967296 ->
  size_fits ns (length rest) -> Forall byte rest -> Forall key_ok keys -> length keys = (length ns + 2)%nat -> receives (cnt_rx w) (answered (seed w) keys (get_replies ns pos rest)) ->
  exists w' frames, fsp_loop (length ns + S (S (S k))) (fsp_to srv lport name (collect var)) (12 + dlen) (st_with pos (Z.of_nat (length rest)) 0 (n + 1)) w = Some (Ret 1, w') /\
    collected (mm w') var dest (l ++ rest) (n + 1 + Z.of_nat (length ns)) true /\ sent w' = frames ++ sent w /\
    Forall2 (is_call mac lport FSP_PORT) (rev (asked (seed w) key keys (get_requests ns pos rest data))) frames.
Proof.
  intros Ldata. induction ns as [|m ns IH]; intros w pos rest l n key keys P Hc Hp Hpr Hn1 Hn2 Ht Hf Hb Hk Lk Hrx.
  - cbn [size_fits] in Hf. destruct rest as [|b [|b2 rest]]; try discriminate. destruct keys as [|k1 [|k2 [|k3 keys]]]; try discriminate.
    inversion_clear Hk as [|? ? Hk1 Hk2]. inversion_clear Hk2 as [|? ? Hk3 _]. inversion_clear Hb as [|? ? Hb1 _].
    rewrite Z.add_0_r. cbn [length] in *. apply (fsp_end k data Ldata w pos b l n key k1 k2); try assumption; lia.
  - cbn [size_fits] in Hf. destruct Hf as (Hm & Hr & Hf). destruct keys as [|k1 keys]; [discriminate|]. inversion_clear Hk as [|? ? Hk1 Hk2]. cbn [length] in Lk, Hn2.
    cbn [get_replies answered] in Hrx. apply receives_cons in Hrx as (R1 & Hrx). set (i := step_of m rest) in *.
    assert (Li : length (firstn m rest) = Nat.min m (length rest)) by apply length_firstn.
    replace (length (m :: ns) + S (S (S k)))%nat with (S (S (length ns + S (S k)))) by (cbn [length]; lia). set (len := Z.of_nat (length rest)) in *.
    destruct (fsp_loop_round (length ns + S (S k)) (st_with pos len 0 (n + 1)) w _ key data CC_GET_FILE k1 pos (firstn m rest) P) as (w1 & f1 & E1 & P1 & S1 & D1 & C1 & T1 & I1 & Rp1);
      [split; [unfold byte, CC_GET_FILE; lia|split; [apply Hk1|split; [apply Hk1|split; [now apply Forall_firstn|lia]]]]|exact R1|].
    cbn [filelength st_with] in P1, I1. destruct (Z.eqb_spec len 0); [lia|].
    destruct (take_get w1 (st_with pos len 1 (n + 1)) key data k1 (firstn m rest) l n CC_GET_FILE P1 Rp1 (proj1 Hk1)) as (w2 & E2 & P2 & (Cx & _ & Tx & Dx) & Hc2);
      [lia|now apply (same_fsp_collected w)|reflexivity|lia|exact Hp|cbn; lia|cbn; lia|lia|].
    cbv zeta in E2, Hc2. cbn [filepos filelength fsp_block st_with] in E2, Hc2.
    assert (Ei : Z.min (Z.of_nat (length (firstn m rest))) (len - 1) = Z.of_nat i) by (rewrite Li; subst i len; unfold step_of; lia). rewrite Ei in E2, Hc2. rewrite Nat2Z.id in Hc2.
    assert (Ef : firstn i (firstn m rest) = firstn i rest) by (rewrite firstn_firstn; f_equal; subst i; unfold step_of; lia). rewrite Ef in Hc2.
    assert (Ls : length (skipn i rest) = (length rest - i)%nat) by apply length_skipn. assert (Lf : length (firstn i rest) = i) by (rewrite length_firstn; subst i; unfold step_of; lia).
    destruct (IH w2 (pos + Z.of_nat i) (skipn i rest) (l ++ firstn i rest) (n + 1) k1 keys P2 Hc2) as (w' & frames & E' & Hc' & T' & F');
      [lia|rewrite Ls; subst len i; unfold step_of; lia|lia|lia|rewrite length_app, Ls, Lf; subst i len; unfold step_of; lia|rewrite Ls; exact Hf|now apply Forall_skipn|exact Hk2|lia|rewrite Cx, C1, Dx, D1; exact Hrx|].
    rewrite <- app_assoc, firstn_skipn in Hc'. exists w', (frames ++ [f1]). split; [|split; [|split]].
    + rewrite E1. cbn [filepos filelength fsp_block fsp_retry st_with]. change (s32 (0 + 1)) with 1. rewrite (bind_step _ _ _ _ _ E2).
      replace (len - Z.of_nat i) with (Z.of_nat (length (skipn i rest))) by (rewrite Ls; subst len i; unfold step_of; lia).
      replace (S (length ns + S (S k))) with (length ns + S (S (S k)))%nat by lia. exact E'.
    + cbn [length]. replace (n + 1 + Z.of_nat (S (length ns))) with (n + 1 + 1 + Z.of_nat (length ns)) by lia. exact Hc'.
    + rewrite T', Tx, T1, <- app_assoc. reflexivity.
    + cbn [get_requests asked rev]. fold i. rewrite Dx, D1 in F'. apply Forall2_app; [exact F'|]. constructor; [exact I1|constructor].
Qed.
End fetch.


(** The request for a file of a name. *)
Definition fsp_file (name : list Z) : list Z := name ++ [0] ++ be16 FSP_MAXPAYLOAD.
Lemma fsp_named fuel m p name : cstr m p name -> (length name < fuel)%nat -> p + Z.of_nat (length name) < fsp_request \/ fsp_request + 0x200 <= p ->
  exists m1, strcpy fuel m (fsp_data fsp_req) p = Some (m1, fsp_data fsp_req) /\
    let m2 := st16 (st16 m1 (fsp_data fsp_req + Z.of_nat (length name) + 1) (htons FSP_MAXPAYLOAD)) (fsp_len fsp_req) (htons (Z.of_nat (length name) + 1)) in
    ((length name <= 255)%nat -> fsp_at m2 fsp_req (ld8 m fsp_req) (ldn m (fsp_key fsp_req) 2) (Z.of_nat (length name) + 1) (fsp_file name)) /\
    (forall x, x < fsp_req + 6 \/ fsp_data fsp_req + Z.of_nat (length name) + 3 <= x -> ld8 m2 x = ld8 m x).
Proof.
  intros Hc Hf Hp. destruct (strcpy_loop_spec name m (fsp_data fsp_req) p fuel Hc Hf) as (m1 & E1 & K1); [unfold fsp_data, fsp_req in *; lia|].
  exists m1. split; [unfold strcpy; rewrite E1; reflexivity|]. intros m2. set (k := Z.of_nat (length name)) in *.
  assert (Ho : forall x, x < fsp_data fsp_req \/ fsp_data fsp_req + k + 1 <= x -> ld8 m1 x = ld8 m x).
  { intros x Hx. rewrite (K1 x). apply ld8_memcpy_out; unfold fsp_data, fsp_req in *; lia. }
  assert (Kx : forall x, x < fsp_req + 6 \/ fsp_req + 8 <= x < fsp_req + 12 + k + 1 \/ fsp_req + 12 + k + 3 <= x -> ld8 m2 x = ld8 m1 x).
  { intros x Hx. subst m2. unfold st16, fsp_len, fsp_data. rewrite 4!ld8_st8_ne by lia. reflexivity. }
  split.
  - intros Hl. assert (C1 : cstr m1 (fsp_data fsp_req) name) by (rewrite K1; apply cstr_memcpy; [exact Hc|unfold fsp_data, fsp_req in *; lia]).
    constructor.
    + unfold fsp_cmd. rewrite Kx, Ho by (unfold fsp_data; lia). reflexivity.
    + apply ldn_ext. intros x Hx. unfold fsp_key in Hx. rewrite Kx, Ho by (unfold fsp_data; lia). reflexivity.
    + subst m2. rewrite htons_bytes by lia. reflexivity.
    + unfold fsp_file. rewrite !length_app. cbn [length be16]. rewrite (ldn_app m2 _ (length name)). f_equal.
      * etransitivity; [|exact (cstr_full _ _ _ C1)]. apply ldn_ext. intros x Hx. apply Kx. unfold fsp_data in Hx. lia.
      * change (1 + 2)%nat with (1 + 2)%nat. rewrite (ldn_app m2 _ 1 2). f_equal.
        -- cbn [ldn]. rewrite Kx by (unfold fsp_data; lia). f_equal. exact (cstr_nul _ _ _ C1).
        -- etransitivity; [|exact (htons_bytes m1 (fsp_data fsp_req + k + 1) FSP_MAXPAYLOAD ltac:(vm_compute; split; [discriminate|reflexivity]))].
           apply ldn_ext. intros x Hx. subst m2. unfold fsp_len, fsp_data in *. unfold st16 at 1. rewrite 2!ld8_st8_ne by lia. reflexivity.
  - intros x Hx. rewrite Kx, Ho by (unfold fsp_data in *; lia). reflexivity.
Qed.
(** What the server has: a file, the sizes of the blocks it is sent in, a key for each reply, and the rest of the reply to the first request. *)
Record fsp_server := { fs_file : list Z; fs_sizes : list nat; fs_keys : list (list Z); fs_time : list Z; fs_type : Z; fs_pos : Z }.
Definition fsp_server_ok (x : fsp_server) : Prop :=
  size_fits (fs_sizes x) (length (fs_file x)) /\ Forall byte (fs_file x) /\ Z.of_nat (length (fs_file x)) < 2147483640 /\
  length (fs_keys x) = (length (fs_sizes x) + 3)%nat /\ Forall key_ok (fs_keys x) /\ length (fs_time x) = 4%nat /\ Forall byte (fs_time x) /\ 0 < fs_type x < 256.
Definition fsp_replies (x : fsp_server) : list (Z * Z * list Z) :=
  (CC_STAT, fs_pos x, stat_data (fs_time x) (Z.of_nat (length (fs_file x))) (fs_type x)) :: get_replies (fs_sizes x) 0 (fs_file x).
Definition fsp_requests (x : fsp_server) (name : list Z) : list (Z * Z * list Z) := (CC_STAT, 0, fsp_file name) :: get_requests (fs_sizes x) 0 (fs_file x) (fsp_file name).

(** A port picked with a draw. *)
Definition fsp_lport (r : Z) : Z := u16 (Z.land (1024 + r) 0xfbff).

Lemma fits_length ns : forall n, size_fits ns n -> (length ns < n)%nat.
Proof. induction ns as [|m ns IH]; intros n; cbn [size_fits length]; [lia|]. intros (H1 & H2 & H3). apply IH in H3. lia. Qed.

(** C15: a file is fetched over FSP.  A server has a file of at least one byte; it answers each request of the client at once, with the number and a key of
    the protocol, and sends the file in blocks of sizes it picks, of two bytes or more.  Then [url_fsp] asks for the length of the file, then for each block
    from where the last one ended, then for the last byte, and says good bye; these are its only packets, each with the right checksum, the key of the last reply and a new
    number.  The consumer gets the file byte for byte, in blocks that are numbered from 1 on, and is told of the end with the last byte only; the result is 1. *)
Theorem fsp_fetches `{Env} k x cli srv mac hd s sp p name var dest w :
  ready w cli srv mac -> seeded (seed w) -> fsp_server_ok x -> length hd = 12%nat ->
  cstr (mm w) p name -> (length name <= 255)%nat -> p + Z.of_nat (length name) < fsp_request \/ fsp_request + 0x200 <= p ->
  0x40000 <= var -> var + 12 <= dest -> dest + Z.of_nat (length (fs_file x)) < 4294967296 -> collected (mm w) var dest [] 0 false ->
  (256 <= length (fs_sizes x) + k)%nat -> rx (cnt_rx w) = None -> kbd (cnt_kbd w) = None ->
  let sd := random_next (seed w) in
  receives (S (cnt_rx w)) (answered cli hd s sp (fsp_lport sd) sd (fs_keys x) (fsp_replies x)) ->
  exists w' frames, url_fsp (length (fs_sizes x) + S (S (S (S k)))) p (collect var) w = Some (Ret 1, w') /\
    collected (mm w') var dest (fs_file x) (1 + Z.of_nat (length (fs_sizes x))) true /\ sent w' = frames ++ sent w /\
    Forall2 (is_call mac (fsp_lport sd) FSP_PORT)
      (rev (asked (Z.of_nat (length name) + 1) (length name + 3) sd (ldn (mm w) (fsp_key fsp_req) 2) (fs_keys x) (fsp_requests x name))) frames.
Proof.
  intros R Sd (Hf & Hb & Hl & Lk & Hk & Ltm & Btm & Hty) Hh Hc Ln Hp Hv Hd Hdest Hco Hfu Rx Kb sd Hrx.
  set (ns := fs_sizes x) in *. set (F := fs_file x) in *. set (lport := fsp_lport sd) in *. set (fuel := (length ns + S (S (S (S k))))%nat).
  assert (Hlp : 0 <= lport < 65536) by apply u16_range. pose proof (fits_length _ _ Hf) as Lns. pose proof R as (Q & C & Rc & Asrv & _).
  destruct (fs_keys x) as [|k1 keys] eqn:Ek; [cbn [length] in Lk; lia|]. inversion_clear Hk as [|? ? Hk1 Hk2]. cbn [length] in Lk.
  set (w0 := set_seed sd w). destruct (fsp_named fuel (mm w) p name Hc ltac:(subst fuel; lia) Hp) as (m1 & E1 & A1 & K1). cbv zeta in A1, K1. specialize (A1 Ln).
  set (ma := st16 m1 _ _) in *. set (m2 := st16 ma _ _) in *. set (w2 := set_mm m2 (set_mm ma (set_mm m1 w0))).
  assert (Q2 : quiet w2) by (apply (same_tabs_quiet w); [|exact Q]; repeat (split; [reflexivity|]); intros y Hy; apply K1; unfold lacp_pkt, fsp_req, fsp_request in *; lia).
  destruct (rx_qdrain_exact (length ns + S (S (S k))) w2 Q2 Rx Kb) as (c & E2). set (w3 := set_cnt_kbd _ _) in E2.
  assert (P3 : posed cli srv mac (Z.of_nat (length name) + 1) (length name + 3) w3 (ld8 (mm w) fsp_req) (ldn (mm w) (fsp_key fsp_req) 2) (fsp_file name)).
  { constructor; [|apply seeded_next, Sd|exact A1|apply length_ldn|unfold fsp_file; rewrite !length_app; cbn [length be16]; lia].
    apply (ready_same w); [|exact R]. repeat (split; [reflexivity|]). intros y Hy. apply K1. unfold lacp_pkt, fsp_req, fsp_request in *. lia. }
  assert (C3 : collected (mm w3) var dest [] 0 false) by (apply (collected_ext (mm w)); [exact Hd|exact Hco|]; intros y Hy; apply K1; unfold fsp_data, fsp_req, fsp_request; lia).
  unfold fsp_replies in Hrx. fold F ns in Hrx. cbn [answered] in Hrx. apply receives_cons in Hrx as (R1 & Hrx).
  destruct (fsp_loop_round cli srv mac hd s sp lport var p (Z.of_nat (length name) + 1) (length name + 3) Hh Hlp ltac:(lia) (length ns + S (S k)) (st_with 0 0 0 1) w3 _ _ _ CC_STAT k1 (fs_pos x)
    (stat_data (fs_time x) (Z.of_nat (length F)) (fs_type x)) P3) as (w4 & f4 & E4 & P4 & S4 & D4 & C4 & T4 & I4 & Rp4); [|exact R1|].
  { unfold stat_data. split; [unfold byte, CC_STAT; lia|]. split; [apply Hk1|]. split; [apply Hk1|]. rewrite !Forall_app, !length_app, Ltm. cbn [length be32].
    split; [|lia]. split; [exact Btm|]. split; [apply be32_bytes|]. repeat constructor; unfold byte; lia. }
  cbn [filelength filepos st_with Z.eqb] in P4, I4.
  destruct (take_stat cli srv mac hd lport var dest p (Z.of_nat (length name) + 1) (length name + 3) Hh Hlp ltac:(lia) Hv Hd w4 (st_with 0 0 1 1) _ _ k1 _ (fs_time x) (Z.of_nat (length F)) (fs_type x) _ P4 Rp4 (proj1 Hk1) Ltm ltac:(lia) ltac:(lia) [] 0)
    as (w5 & E5 & P5 & (Cx & _ & Tx & Dx) & C5); [now apply (same_fsp_collected hd var dest (length name + 3) Hh ltac:(lia) Hv Hd w3)|].
  destruct (fsp_gets cli srv mac hd s sp lport var dest p (Z.of_nat (length name) + 1) (length name + 3) Hh Hlp ltac:(lia) Hv Hd k (fsp_file name) (po_data _ _ _ _ _ _ _ _ _ P3) ns w5 0 F [] 0 k1 keys P5 C5)
    as (w' & frames & E6 & C6 & T6 & F6); [lia|lia|lia|lia|cbn [length]; lia|exact Hf|exact Hb|exact Hk2|lia|rewrite Cx, C4, Dx, D4; exact Hrx|].
  exists w', (frames ++ [f4]). split; [|split; [exact C6|split]].
  - unfold url_fsp. rewrite (bind_step get _ w w w eq_refl), (bind_step _ _ _ _ _ (net_random_seeded w Sd)). fold sd. fold (fsp_lport sd). fold lport. fold w0. rewrite Asrv.
    change {| fi_server_ip := _; fi_server_port := _; fi_local_port := _; fi_filename := _; fi_fnc := _ |} with (fsp_to srv lport p (collect var)).
    unfold proto_fsp. rewrite (bind_step get _ w0 w0 w0 eq_refl). cbn [fi_filename fsp_to]. fold fuel.
    rewrite (bind_step _ _ w0 (Z.of_nat (length name)) w0) by (unfold of_fuel; change (mm w0) with (mm w); rewrite (strlen_cstr _ _ name) by (exact Hc || (subst fuel; lia)); reflexivity).
    rewrite Z.gtb_ltb. destruct (Z.ltb_spec FSP_MAXFILENAME (Z.of_nat (length name))); [unfold FSP_MAXFILENAME in *; lia|].
    rewrite (bind_step _ _ w0 (m1, fsp_data fsp_req) w0) by (unfold of_fuel; change (mm w0) with (mm w); rewrite E1; reflexivity).
    rewrite (bind_step (set_mem _) _ w0 tt (set_mm m1 w0) eq_refl), (bind_step (store16 (fsp_data fsp_req + _ + 1) _) _ (set_mm m1 w0) tt (set_mm ma (set_mm m1 w0)) eq_refl).
    rewrite (bind_step (store16 (fsp_len fsp_req) _) _ (set_mm ma (set_mm m1 w0)) tt w2 eq_refl).
    replace fuel with (S (length ns + S (S (S k)))) by (subst fuel; lia). rewrite (bind_step _ _ _ _ _ E2).
    replace (Z.to_nat (u16 (Z.of_nat (length name) + 3 + 12))) with (12 + (length name + 3))%nat by (rewrite u16_small by lia; lia).
    replace (S (length ns + S (S (S k)))) with (S (S (length ns + S (S k)))) by lia. rewrite E4. cbn [filepos filelength fsp_block fsp_retry st_with]. change (s32 (0 + 1)) with 1.
    rewrite (bind_step _ _ _ _ _ E5). cbn [filepos filelength fsp_block fsp_retry st_with]. replace (S (length ns + S (S k))) with (length ns + S (S (S k)))%nat by lia. exact E6.
  - rewrite T6, Tx, T4, <- app_assoc. reflexivity.
  - unfold fsp_requests. fold F ns. cbn [asked rev]. apply Forall2_app; [rewrite Dx, D4 in F6; exact F6|]. constructor; [exact I4|constructor].
Qed.
(** A server on 10.0.0.2 with a file of seven bytes, sent in blocks of three and four bytes. *)
Definition fsp_server1 : fsp_server :=
  {| fs_file := [10; 20; 30; 40; 50; 60; 70]; fs_sizes := [3%nat; 4%nat]; fs_keys := [[1; 2]; [3; 4]; [5; 6]; [7; 8]; [9; 10]]; fs_time := [0; 1; 2; 3]; fs_type := 1; fs_pos := 0 |}.
Definition fsp_env : Env.
Proof.
  refine {| clock n := Z.of_nat n; kbd _ := None;
    rx n := match n with
            | O => None
            | S i => nth_error (answered 0x0100000a [2; 0; 0; 0; 0; 1; 2; 0; 0; 0; 0; 2] 0x0200000a 21 (fsp_lport (random_next 1)) (random_next 1) (fs_keys fsp_server1) (fsp_replies fsp_server1)) i
            end |}.
  intros [|[|[|[|[|[|n]]]]]] bs; [discriminate | .. | now destruct n]; intros Hb; injection Hb as <-; vm_compute; lia.
Defined.
Definition fsp_world : world :=
  set_seed 1 (set_mm (st32 (stn (mm tftp_world) 0x50000 (txt "k"%string ++ [0])) 0x40000 0x100000) tftp_world).
Lemma fsp_fetches_witness :
  exists w' frames, @url_fsp fsp_env 260 0x50000 (collect 0x40000) fsp_world = Some (Ret 1, w') /\ ldn (mm w') 0x100000 7 = [10; 20; 30; 40; 50; 60; 70] /\
    ld32 (mm w') 0x40004 = 3 /\ ld32 (mm w') 0x40008 = 1 /\ sent w' = frames /\ length frames = 5%nat.
Proof.
  destruct (@fsp_fetches fsp_env 254 fsp_server1 0x0100000a 0x0200000a [2; 0; 0; 0; 0; 2] [2; 0; 0; 0; 0; 1; 2; 0; 0; 0; 0; 2] 0x0200000a 21 0x50000 (txt "k"%string) 0x40000 0x100000 fsp_world)
    as (w' & frames & E & [C1 C2 C3 C4] & S & F).
  - split; [|split; [reflexivity|split; [lia|split; [reflexivity|]]]].
    + split; [vm_compute; reflexivity|]. split; [reflexivity|]. split; [reflexivity|]. repeat constructor.
    + split; [lia|]. split; [vm_compute; discriminate|]. split; [vm_compute; reflexivity|].
      exists 1%nat. split; [vm_compute; reflexivity|]. split; reflexivity.
  - split; reflexivity.
  - unfold fsp_server_ok, key_ok, byte. cbn [fs_file fs_sizes fs_keys fs_time fs_type size_fits length fsp_server1 Nat.sub Nat.min].
    repeat (split; [first [lia | reflexivity | repeat (constructor; [try (split; [reflexivity|repeat (constructor; [lia|])]); try lia|]); constructor]|]). lia.
  - reflexivity.
  - apply cstrb_cstr. vm_compute. reflexivity.
  - cbn. lia.
  - right. vm_compute. discriminate.
  - lia.
  - lia.
  - cbn. lia.
  - constructor; vm_compute; reflexivity.
  - cbn. lia.
  - reflexivity.
  - reflexivity.
  - intros j f Hj. exact Hj.
  - exists w', frames. split; [exact E|]. split; [exact C1|]. split; [exact C3|]. split; [exact C4|]. split; [rewrite S; apply app_nil_r|].
    apply Forall2_length in F. rewrite <- F, length_rev. reflexivity.
Defined.
