(* ===== verification/Tftm.v ===== *)
(** The multicast TFTP client of [src/src/core/proto_tftm.c].

    The static [state] is a record, with the heap that the image and the bitmap come from; the local variables of [proto_tftm] that change
    and the members of [info] that the options set are another.  The request [tp] and the received packet lie in memory.  Messages are not modelled. *)

From S2P Require Import Prelude Memory StringLib Misc Vsprintf Heap Net Lacp Nic Tftp Slam.
Import String.StringSyntax.

Definition TFTM_PORT : Z := 1758.
Definition TFTM_MIN_PACKET : Z := 1024.
Definition TFTP_TIMEOUT : Z := 30 * TICKS_PER_SEC.

(** [tp], and the literals of [opt_get_multicast]. *)
Definition tm_tp : Z := 0x3c800.
Definition lit_tsize : Z := 0x36010.
Definition lit_multicast : Z := 0x36020.

Record tftm_state := {
  tm_block_size : Z;
  tm_total : Z;
  tm_ismaster : bool;
  tm_received : Z;
  tm_image : Z;
  tm_bitmap : Z;
  tm_recvd_oack : bool;
  tm_heap : heap;
}.
(** Of [info]: the group and its port; of [proto_tftm]: the rest. *)
Record tftm_vars := {
  tv_mip : Z;
  tv_mport : Z;
  tv_filesize : Z;
  tv_len : Z;
  tv_iport : Z;
  tv_retry : Z;
  tv_block : Z;
  tv_prev : Z;
}.
Definition set_options (bs : Z) (master : bool) (st : tftm_state) : tftm_state :=
  {| tm_block_size := bs; tm_total := tm_total st; tm_ismaster := master; tm_received := tm_received st; tm_image := tm_image st; tm_bitmap := tm_bitmap st;
     tm_recvd_oack := tm_recvd_oack st; tm_heap := tm_heap st |}.
Definition set_buffers (total image bitmap : Z) (h : heap) (st : tftm_state) : tftm_state :=
  {| tm_block_size := tm_block_size st; tm_total := total; tm_ismaster := tm_ismaster st; tm_received := tm_received st; tm_image := image; tm_bitmap := bitmap;
     tm_recvd_oack := tm_recvd_oack st; tm_heap := h |}.
Definition set_received (n : Z) (oack : bool) (st : tftm_state) : tftm_state :=
  {| tm_block_size := tm_block_size st; tm_total := tm_total st; tm_ismaster := tm_ismaster st; tm_received := n; tm_image := tm_image st; tm_bitmap := tm_bitmap st;
     tm_recvd_oack := oack; tm_heap := tm_heap st |}.
Definition set_wire (mip mport filesize len : Z) (v : tftm_vars) : tftm_vars :=
  {| tv_mip := mip; tv_mport := mport; tv_filesize := filesize; tv_len := len; tv_iport := tv_iport v; tv_retry := tv_retry v; tv_block := tv_block v; tv_prev := tv_prev v |}.
Definition set_count (len iport retry block prev : Z) (v : tftm_vars) : tftm_vars :=
  {| tv_mip := tv_mip v; tv_mport := tv_mport v; tv_filesize := tv_filesize v; tv_len := len; tv_iport := iport; tv_retry := retry; tv_block := block; tv_prev := prev |}.

(** [await_tftm]: the pointers to the headers are [NULL] when the packet has none. *)
Definition await_tftm (ival : Z) (v : tftm_vars) : reply_t := fun info =>
  w <- get ;;
  let m := mm w in
  let ip := if has_ip info then ip_ptr else 0 in
  let udp := if has_udp info then ip_ptr + 20 else 0 in
  if ld32 m (ip + 16) =? client_ip w then
    if negb (has_udp info) then ret 0
    else if negb (client_ip w =? ld32 m (ip + 16)) then ret 0
    else if negb (ntohs (ld16 m (udp + 2)) =? ival) then ret 0
    else ret 1
  else if (ld32 m (ip + 16) =? tv_mip v) && (ntohs (ld16 m (udp + 2)) =? tv_mport v) && (packetlen w >=? ETH_HLEN + 20 + 8) then ret 1
  else ret 0.

(** ** The options of an OACK *)

(** [while (p < e && *p) p++; if (p < e) p++;] *)
Fixpoint skip_option (fuel : nat) (m : mem) (p e : Z) : option Z :=
  match fuel with
  | O => None
  | S n => if p <? e then if ld8 m p =? 0 then Some (p + 1) else skip_option n m (p + 1) e else Some p
  end.
(** The literals as the compiler places them. *)
Definition tftm_literals (m : mem) : mem :=
  stn (stn (stn m lit_tsize (txt "tsize"%string ++ [0])) lit_blksize (txt "blksize"%string ++ [0])) lit_multicast (txt "multicast"%string ++ [0]).
(** The bits of the options seen, and what they set. *)
Record tftm_options := { to_seen : Z; to_filesize : Z; to_block_size : Z; to_mip : Z; to_mport : Z; to_master : bool }.
(** A round at the option [p]: [inl] is a return value, [inr] the end of the option. *)
Definition option_round (fuel : nat) (m : mem) (p e : Z) (o : tftm_options) : option ((Z + Z) * tftm_options) :=
  let lits := tftm_literals m in
  let* c1 := strcasecmp fuel lits lit_tsize p in
  if c1 =? 0 then
    let* '(v, q) := strtoul_loop fuel m (p + 6) 0 in
    let o := {| to_seen := if v >? 0 then Z.lor (to_seen o) 4 else to_seen o; to_filesize := v; to_block_size := to_block_size o; to_mip := to_mip o;
                to_mport := to_mport o; to_master := to_master o |} in
    let* q := skip_option fuel m q e in Some (inr q, o)
  else
    let* c2 := strcasecmp fuel lits lit_blksize p in
    if c2 =? 0 then
      let* '(v, q) := strtoul_loop fuel m (p + 8) 0 in
      let o := {| to_seen := Z.lor (to_seen o) 2; to_filesize := to_filesize o; to_block_size := v; to_mip := to_mip o; to_mport := to_mport o; to_master := to_master o |} in
      if negb (v =? TFTM_MIN_PACKET) then Some (inl 0, o)
      else let* q := skip_option fuel m q e in Some (inr q, o)
    else if strncmp lits p lit_multicast 10 =? 0 then
      let p := p + 10 in
      let* '(n, ip) := inet_aton fuel m p in
      let* '(v, q) := strtoul_loop fuel m (p + (1 + n)) 0 in
      let q := q + 1 in
      let o := {| to_seen := Z.lor (to_seen o) 1; to_filesize := to_filesize o; to_block_size := to_block_size o;
                  to_mip := match ip with Some ip => ip | None => to_mip o end; to_mport := u16 v; to_master := ld8 m q =? 49 |} in
      let* q := skip_option fuel m q e in Some (inr q, o)
    else Some (inr p, o).
Fixpoint option_loop (fuel : nat) (m : mem) (p e : Z) (o : tftm_options) : option (Z * tftm_options) :=
  match fuel with
  | O => None
  | S n =>
      if negb (ld8 m p =? 0) && (p <? e) then
        let* '(r, o) := option_round fuel m p e o in
        match r with
        | inl r => Some (r, o)
        | inr p => option_loop n m p e o
        end
      else Some (if p >? e then 0 else to_seen o, o)
  end.
Definition opt_get_multicast (fuel : nat) (m : mem) (st : tftm_state) (v : tftm_vars) : option (Z * tftm_state * tftm_vars) :=
  let len := u16 (ntohs (ld16 m (rcvd + 24)) - 8 - 2) in
  if len >? TFTM_MIN_PACKET then Some (-1, st, set_wire (tv_mip v) (tv_mport v) (tv_filesize v) len v)
  else
    let* '(i, o) := option_loop fuel m (rcvd + 30) (rcvd + 30 + len)
                      {| to_seen := 0; to_filesize := tv_filesize v; to_block_size := tm_block_size st; to_mip := tv_mip v; to_mport := tv_mport v; to_master := tm_ismaster st |} in
    Some (i, set_options (to_block_size o) (to_master o) st, set_wire (to_mip o) (to_mport o) (to_filesize o) len v).

(** ** Blocks *)

(** How a packet is dealt with: the next round at once, the end of the loop, a return, or the acknowledgement. *)
Inductive tftm_verdict := TContinue | TBreak | TReturn (r : Z) | TAck.

(** [TFTP_DATA]; [None] is a division by zero. *)
Definition tm_data (m : mem) (plen : Z) (st : tftm_state) (v : tftm_vars) : option (tftm_verdict * mem * tftm_state * tftm_vars) :=
  let udp := nic_packet + ETH_HLEN + 20 in
  let len := u16 (ntohs (ld16 m (rcvd + 24)) - 8 - 4) in
  let data := nic_packet + ETH_HLEN + 20 + 8 + 4 in
  let v := set_count len (tv_iport v) (tv_retry v) (tv_block v) (tv_prev v) v in
  if len >? TFTM_MIN_PACKET then Some (TContinue, m, st, v)
  else
    let m := st16 m (tm_tp + 30) (ld16 m (rcvd + 30)) in
    let block := ntohs (ld16 m (tm_tp + 30)) in
    let v := set_count len (tv_iport v) (tv_retry v) block (tv_prev v) v in
    if block >? tm_total st then Some (TContinue, m, st, v)
    else if (block =? tm_total st) && (tm_block_size st =? 0) then None
    else
      let data_len := if negb (block =? tm_total st) then tm_block_size st else tv_filesize v mod tm_block_size st in
      if negb (ntohs (ld16 m (udp + 4)) =? u32 (data_len + (data - udp))) then Some (TContinue, m, st, v)
      else if plen <? u32 (data_len + (data - nic_packet)) then Some (TContinue, m, st, v)
      else
        let data_len := if data_len >? tm_block_size st then tm_block_size st else data_len in
        if bit_at m (tm_bitmap st) block =? 0 then
          let m := or_bit m (tm_bitmap st) block 1 in
          let m := memcpy m (u32 (tm_image st + u32 (u32 (block - 1) * tm_block_size st))) data (Z.to_nat data_len) in
          Some (TAck, m, set_received (u32 (tm_received st + 1)) (tm_recvd_oack st) st, v)
        else Some (TAck, m, st, v).

(** The first block that is missing, from [b] on, in [k] steps: the one before it is put into the acknowledgement. *)
Fixpoint ack_walk (m : mem) (bm b : Z) (k : nat) : mem :=
  match k with
  | O => m
  | S k' => if bit_at m bm b =? 0 then st16 m (tm_tp + 30) (htons (b - 1)) else ack_walk m bm (b + 1) k'
  end.
(** The inverted trailer behind the last bit, and the walk. *)
Definition tm_ack_number (m : mem) (st : tftm_state) : mem :=
  if tm_received st <=? tm_total st then
    let max := u32 (tm_total st + 1) in
    let value := bit_at m (tm_bitmap st) (u32 (max - 1)) in
    let value := if value =? 0 then 1 else 0 in
    let m := clear_bit m (tm_bitmap st) max in
    let m := or_bit m (tm_bitmap st) max value in
    ack_walk m (tm_bitmap st) 1 (Z.to_nat max)
  else m.

(** ** The transfer *)

Definition tm_text (name : list Z) : list Z :=
  match vsprintf (txt "%s%coctet%cmulticast%c%cblksize%c%d%ctsize%c"%string)
          [AStr name; AInt 0; AInt 0; AInt 0; AInt 0; AInt 0; AInt TFTM_MIN_PACKET; AInt 0; AInt 0] with
  | Some out => out
  | None => []
  end.
Definition tm_error_text : list Z := txt "RFC2090 error"%string.

Section tftm.
Context `{E : Env} (virt_offset : Z).

Definition tm_send (fuel : nat) (iport port len : Z) : M Z :=
  w <- get ;;
  udp_transmit fuel (ipaddr (arp w ARP_SERVER)) iport port len tm_tp.

(** [TFTP_OACK] *)
Definition tm_oack (fuel : nat) (st : tftm_state) (v : tftm_vars) : M (tftm_verdict * tftm_state * tftm_vars) :=
  w <- get ;;
  o <- of_fuel (opt_get_multicast fuel (mm w) st v) ;;
  let '(i, st, v) := o in
  if (i =? 0) || (negb (i =? 7) && negb (tm_recvd_oack st)) then
    set_mem (fun m => stn (st16 (st16 m (tm_tp + 28) (htons TFTP_ERROR)) (tm_tp + 30) 8) (tm_tp + 32) (tm_error_text ++ [0])) ;;;
    let len := 20 + 8 + 2 + 2 + Z.of_nat (length tm_error_text) + 1 in
    tm_send fuel (tv_iport v) (ntohs (ld16 (mm w) (rcvd + 20))) len ;;;
    store16 (tm_tp + 30) 0 ;;;
    ret (TReturn 0, st, set_count len (tv_iport v) (tv_retry v) 0 (tv_prev v) v)
  else if negb (tm_recvd_oack st) then
    if tm_block_size st =? 0 then oof
    else
      let total := u32 (1 + (tv_filesize v - tv_filesize v mod tm_block_size st) / tm_block_size st) in
      let bitmap_len := u32 (total + 7) / 8 in
      let '(m, h, bm) := if tm_image st =? 0 then allot virt_offset (mm w) (tm_heap st) bitmap_len else (mm w, tm_heap st, tm_bitmap st) in
      let '(m, h, im) := if tm_image st =? 0 then allot virt_offset m h (tv_filesize v) else (m, h, tm_image st) in
      set_mem (fun _ => m) ;;;
      let new := tm_image st =? 0 in
      let st := set_buffers total im bm h st in
      if new && (im <? 1024 * 1024) then ret (TReturn 0, st, v)
      else
        set_mem (fun m => if new then memset m bm 0 (Z.to_nat bitmap_len) else m) ;;;
        join_group (ip_transmit fuel) IGMP_SERVER (tv_mip v) ;;;
        ret (TAck, set_received (tm_received st) true st, v)
  else ret (TAck, set_received (tm_received st) true st, v).

(** A packet, up to the acknowledgement. *)
Definition tm_packet (fuel : nat) (st : tftm_state) (v : tftm_vars) : M (tftm_verdict * tftm_state * tftm_vars) :=
  w <- get ;;
  let op := ld16 (mm w) (rcvd + 28) in
  if op =? htons TFTP_ERROR then ret (TBreak, st, v)
  else if op =? htons TFTP_OACK then tm_oack fuel st v
  else if op =? htons TFTP_DATA then
    match tm_data (mm w) (packetlen w) st v with
    | None => oof
    | Some (r, m, st, v) => set_mem (fun _ => m) ;;; ret (r, st, v)
    end
  else ret (TBreak, st, v).

(** Acknowledging: whether the transfer is complete, and the heap then. *)
Definition tm_acknowledge (fuel : nat) (st : tftm_state) (v : tftm_vars) : M (bool * tftm_state) :=
  set_mem (fun m => tm_ack_number m st) ;;;
  w <- get ;;
  let oport := ntohs (ld16 (mm w) (rcvd + 20)) in
  (if tm_ismaster st then
     store16 (tm_tp + 28) (htons TFTP_ACK) ;;;
     tm_send fuel (tv_iport v) oport TFTP_MIN_PACKET ;;; ret tt
   else ret tt) ;;;
  if tm_received st =? tm_total st then
    (if negb (tm_ismaster st) then
       store16 (tm_tp + 28) (htons TFTP_ACK) ;;;
       store16 (tm_tp + 30) (htons (tm_total st)) ;;;
       tm_send fuel (tv_iport v) oport TFTP_MIN_PACKET ;;; ret tt
     else ret tt) ;;;
    w <- get ;;
    ret (true, set_buffers (tm_total st) (tm_image st) (tm_bitmap st) (forget virt_offset (mm w) (tm_heap st) (tm_bitmap st)) st)
  else ret (false, st).

(** The request again, when nothing has come. *)
Definition tm_silence (fuel : nat) (name : list Z) (v : tftm_vars) : M (tftm_verdict * tftm_vars) :=
  let first := (tv_block v =? 0) && (tv_retry v <? MAX_TFTP_RETRIES) in
  let retry := if tv_block v =? 0 then s32 (tv_retry v + 1) else tv_retry v in
  if first then
    let v := set_count (tv_len v) (u16 (tv_iport v + 1)) retry (tv_block v) (tv_prev v) v in
    ok <- tm_send fuel (tv_iport v) TFTM_PORT (tv_len v) ;;
    ret (if ok =? 0 then TReturn 0 else TContinue, v)
  else
    let retry := if istrue (tv_block v) then s32 (retry + TFTP_REXMT) else retry in
    let v := set_count (tv_len v) (tv_iport v) retry (tv_block v) (tv_prev v) v in
    if istrue (tv_block v) && (retry <? TFTP_TIMEOUT) then
      set_mem (fun m => stn m (tm_tp + 30) (tm_text name ++ [0])) ;;;
      let len := u16 (20 + 8 + 2 + Z.of_nat (length (tm_text name)) + 1) in
      let v := set_count len (u16 (tv_iport v + 1)) (tv_retry v) (tv_block v) (tv_prev v) v in
      tm_send fuel (tv_iport v) TFTM_PORT (tv_len v) ;;;
      ret (TContinue, v)
    else ret (TBreak, v).

(** The loop: [inl] is a return value, [inr] the end of the loop. *)
Fixpoint tm_loop (fuel : nat) (name : list Z) (st : tftm_state) (v : tftm_vars) {struct fuel} : M ((Z + unit) * tftm_state * tftm_vars) :=
  match fuel with
  | O => oof
  | S n =>
      timeout <- rfc2131_sleep_interval (if istrue (tv_block v) then TFTP_REXMT else TIMEOUT) (tv_retry v) ;;
      got <- await_reply n (await_tftm (tv_iport v) v) timeout ;;
      if got =? 0 then
        r <- tm_silence n name v ;;
        let '(r, v) := r in
        match r with
        | TReturn r => ret (inl r, st, v)
        | TBreak => ret (inr tt, st, v)
        | _ => tm_loop n name st v
        end
      else
        r <- tm_packet n st v ;;
        let '(r, st, v) := r in
        match r with
        | TReturn r => ret (inl r, st, v)
        | TBreak => ret (inr tt, st, v)
        | TContinue => tm_loop n name st v
        | TAck =>
            a <- tm_acknowledge n st v ;;
            let '(done, st) := a in
            if done then ret (inr tt, st, v)
            else if negb (u16 (tv_block v - tv_prev v) =? 1) then tm_loop n name st v
            else tm_loop n name st (set_count (tv_len v) (tv_iport v) 0 (tv_block v) (tv_block v) v)
        end
  end.

Definition proto_tftm (fuel : nat) (name : list Z) (fnc : Z -> Z -> Z -> bool -> M Z) (st : tftm_state) (v : tftm_vars) : M (Z * tftm_state * tftm_vars) :=
  let st := set_buffers (tm_total st) 0 0 (tm_heap st) st in
  rx_qdrain fuel ;;;
  set_mem (fun m => stn (st16 m (tm_tp + 28) (htons TFTP_RRQ)) (tm_tp + 30) (tm_text name ++ [0])) ;;;
  let len := u16 (20 + 8 + 2 + Z.of_nat (length (tm_text name)) + 1) in
  let v := set_count len (u16 (tv_iport v + 1)) 0 0 0 v in
  ok <- tm_send fuel (tv_iport v) TFTM_PORT len ;;
  if ok =? 0 then ret (0, st, v)
  else
    r <- tm_loop fuel name st v ;;
    let '(r, st, v) := r in
    match r with
    | inl r => ret (r, st, v)
    | inr _ =>
        leave_group (ip_transmit fuel) IGMP_SERVER ;;;
        rc <- fnc (tm_image st) 1 (tv_filesize v) true ;;
        ret (rc, st, v)
    end.

(** [url_tftm] on the C string at [name]; [iport] is what the last transfer left of it, [h] the heap. *)
Definition url_tftm (fuel : nat) (name : Z) (fnc : Z -> Z -> Z -> bool -> M Z) (iport : Z) (h : heap) : M (Z * heap * Z) :=
  w <- get ;;
  let m := mm w in
  let st := {| tm_block_size := 0; tm_total := 0; tm_ismaster := false; tm_received := 0; tm_image := 0; tm_bitmap := 0; tm_recvd_oack := false; tm_heap := h |} in
  let v := {| tv_mip := client_ip w; tv_mport := TFTM_PORT; tv_filesize := 0; tv_len := 0; tv_iport := iport; tv_retry := 0; tv_block := 0; tv_prev := 0 |} in
  p <- of_fuel (if negb (ld8 m name =? 47) then let* '(n, _) := inet_aton fuel m name in Some (name + n) else Some name) ;;
  if negb (ld8 m p =? 47) then ret (0, h, iport)
  else
    text <- of_fuel (read_cstr fuel m name) ;;
    r <- proto_tftm fuel text fnc st v ;;
    let '(r, st, v) := r in
    ret (r, tm_heap st, tv_iport v).
End tftm.
(** ** What has been received *)

(** The blocks of a file are numbered from 1; the last is shorter than the others, and may be empty. *)
Definition tm_blocks (file : list Z) : Z := Z.of_nat (length file) / 1024 + 1.
Definition tm_block (file : list Z) (i : Z) : list Z := file_block file 1024 (i - 1).
(** The blocks that have come, as a set; one more of them. *)
Definition add_block (p : Z) (got : Z -> bool) : Z -> bool := fun i => (i =? p) || got i.
(** The last block before the first one that is missing, from [b] on, of [k] blocks. *)
Fixpoint lead (got : Z -> bool) (b : Z) (k : nat) : Z :=
  match k with
  | O => b - 1
  | S k => if got b then lead got (b + 1) k else b - 1
  end.
Definition count_blocks (got : Z -> bool) (n : nat) : nat := length (filter (fun j => got (Z.of_nat j + 1)) (seq 0 n)).

Lemma lead_range got k : forall b, b - 1 <= lead got b k <= b + Z.of_nat k - 1.
Proof. induction k as [|k IH]; intros b; cbn [lead]; [lia|]. destruct (got b); [specialize (IH (b + 1))|]; lia. Qed.
Lemma lead_all got k : forall b, lead got b k = b + Z.of_nat k - 1 <-> (forall i, b <= i < b + Z.of_nat k -> got i = true).
Proof.
  induction k as [|k IH]; intros b; cbn [lead]; [split; [intros _ i Hi; lia|lia]|]. pose proof (lead_range got k (b + 1)) as R. destruct (got b) eqn:Eb.
  - replace (b + Z.of_nat (S k) - 1) with (b + 1 + Z.of_nat k - 1) by lia. rewrite IH. split; intros H i Hi.
    + destruct (Z.eqb_spec i b) as [-> |]; [exact Eb|apply H; lia].
    + apply H. lia.
  - split; [lia|]. intros H. rewrite H in Eb by lia. discriminate.
Qed.
Lemma lead_missing got k : forall b, lead got b k <> b + Z.of_nat k - 1 -> exists i, b <= i < b + Z.of_nat k /\ got i = false.
Proof.
  induction k as [|k IH]; intros b; cbn [lead]; [lia|]. destruct (got b) eqn:Eb; [|intros _; exists b; split; [lia|exact Eb]].
  intros H. destruct (IH (b + 1)) as (i & Hr & Hg); [lia|]. exists i. split; [lia|exact Hg].
Qed.
Lemma lead_ext got got' k : forall b, (forall i, b <= i < b + Z.of_nat k -> got i = got' i) -> lead got b k = lead got' b k.
Proof.
  induction k as [|k IH]; intros b H; cbn [lead]; [reflexivity|]. rewrite (H b) by lia. destruct (got' b); [apply IH; intros i Hi; apply H; lia|reflexivity].
Qed.
Lemma count_all got n : count_blocks got n = n <-> (forall i, 1 <= i <= Z.of_nat n -> got i = true).
Proof.
  unfold count_blocks. split.
  - intros H i Hi. assert (Ha : forall l, length (filter (fun j => got (Z.of_nat j + 1)) l) = length l -> forall j, In j l -> got (Z.of_nat j + 1) = true).
    { induction l as [|x l IH]; cbn [filter length In]; [tauto|]. pose proof (filter_length_le (fun j => got (Z.of_nat j + 1)) l) as Hl.
      destruct (got (Z.of_nat x + 1)) eqn:Ex; cbn [length]; intros Hf j Hj; [|lia]. destruct Hj as [<- |Hj]; [exact Ex|apply IH; [lia|exact Hj]]. }
    replace i with (Z.of_nat (Z.to_nat (i - 1)) + 1) by lia. apply (Ha (seq 0 n)); [rewrite H, length_seq; reflexivity|]. apply in_seq. lia.
  - intros H. rewrite forallb_filter_id; [apply length_seq|]. apply forallb_forall. intros j Hj. apply in_seq in Hj. apply H. lia.
Qed.
Lemma count_add got p n : 1 <= p <= Z.of_nat n -> count_blocks (add_block p got) n = if got p then count_blocks got n else S (count_blocks got n).
Proof.
  intros Hp. unfold count_blocks, add_block. destruct (got p) eqn:Ep.
  - f_equal. apply filter_ext. intros j. destruct (Z.eqb_spec (Z.of_nat j + 1) p) as [<- |]; [now rewrite Ep|reflexivity].
  - apply (count_set _ _ n (Z.to_nat (p - 1))); [lia|replace (Z.of_nat (Z.to_nat (p - 1)) + 1) with p by lia; exact Ep|]. intros j Hj.
    destruct (Z.eqb_spec (Z.of_nat j + 1) p), (Nat.eqb_spec j (Z.to_nat (p - 1))); (lia || reflexivity).
Qed.

(** The bitmap describes a set, and the blocks of the set are in their places. *)
Record tm_inv (file : list Z) (im bm : Z) (master : bool) (got : Z -> bool) (m : mem) (st : tftm_state) : Prop := {
  ti_bs : tm_block_size st = 1024;
  ti_total : tm_total st = tm_blocks file;
  ti_master : tm_ismaster st = master;
  ti_image : tm_image st = im;
  ti_bitmap : tm_bitmap st = bm;
  ti_count : tm_received st = Z.of_nat (count_blocks got (Z.to_nat (tm_blocks file)));
  ti_bits : forall i, 1 <= i <= tm_blocks file -> hasbit m bm i = got i;
  ti_blocks : forall i, 1 <= i <= tm_blocks file -> got i = true -> ldn m (im + (i - 1) * 1024) (length (tm_block file i)) = tm_block file i;
}.

Section blocks.
Context (file : list Z) (im bm : Z) (master : bool).
Context (Hb : Forall (fun b => 0 <= b < 256) file) (Hl : tm_blocks file < 65535) (Hi : 0x100000 <= im) (Him : im + Z.of_nat (length file) <= bm) (Hbm : bm + 8192 < 4294967296).

Lemma tm_block_bytes i : Forall (fun b => 0 <= b < 256) (tm_block file i).
Proof. unfold tm_block, file_block. apply Forall_firstn, Forall_skipn, Hb. Qed.
Lemma tm_block_length i : 1 <= i <= tm_blocks file -> Z.of_nat (length (tm_block file i)) = if i =? tm_blocks file then Z.of_nat (length file) mod 1024 else 1024.
Proof.
  unfold tm_blocks, tm_block, file_block. intros Hr. rewrite length_firstn, length_skipn. destruct (Z.eqb_spec i (Z.of_nat (length file) / 1024 + 1)); Z.div_mod_to_equations; lia.
Qed.
Lemma tm_block_place i : 1 <= i <= tm_blocks file -> 0 <= (i - 1) * 1024 /\ (i - 1) * 1024 + Z.of_nat (length (tm_block file i)) <= Z.of_nat (length file).
Proof. intros Hr. pose proof (tm_block_length i Hr) as Hlen. unfold tm_blocks in *. destruct (Z.eqb_spec i (Z.of_nat (length file) / 1024 + 1)); Z.div_mod_to_equations; lia. Qed.

Lemma tm_inv_ext got m m' st : tm_inv file im bm master got m st -> (forall i, 1 <= i <= tm_blocks file -> hasbit m' bm i = hasbit m bm i) ->
  (forall x, im <= x < im + Z.of_nat (length file) -> ld8 m' x = ld8 m x) -> tm_inv file im bm master got m' st.
Proof.
  intros [A B C D F G I J] Kb Ki. constructor; try assumption.
  - intros i Hr. rewrite Kb by exact Hr. now apply I.
  - intros i Hr Hg. etransitivity; [|exact (J i Hr Hg)]. apply ldn_ext. intros x Hx. apply Ki. pose proof (tm_block_place i Hr). lia.
Qed.
(** A complete set is a complete file. *)
Lemma tm_complete got m st : tm_inv file im bm master got m st -> (forall i, 1 <= i <= tm_blocks file -> got i = true) -> ldn m im (length file) = file.
Proof.
  intros I Hg. assert (G : forall k, (k <= Z.to_nat (tm_blocks file))%nat -> ldn m im (Nat.min (length file) (k * 1024)) = firstn (k * 1024) file).
  { induction k as [|k IH]; intros Hk; [rewrite Nat.min_0_r; reflexivity|]. pose proof (ti_blocks _ _ _ _ _ _ _ I (Z.of_nat k + 1) ltac:(lia) (Hg (Z.of_nat k + 1) ltac:(lia))) as Hb1.
    pose proof (tm_block_place (Z.of_nat k + 1) ltac:(lia)) as Hp. specialize (IH ltac:(lia)). rewrite Nat.min_r in IH by lia. unfold tm_block, file_block in Hb1, Hp.
    replace (Z.to_nat ((Z.of_nat k + 1 - 1) * 1024)) with (k * 1024)%nat in Hb1, Hp by lia. set (blk := firstn (Z.to_nat 1024) (skipn (k * 1024) file)) in *.
    assert (Lb : length blk = Nat.min 1024 (length file - k * 1024)) by (subst blk; rewrite length_firstn, length_skipn; reflexivity).
    replace (Nat.min (length file) (S k * 1024)) with (k * 1024 + length blk)%nat by lia. rewrite ldn_app, IH.
    replace (im + Z.of_nat (k * 1024)) with (im + (Z.of_nat k + 1 - 1) * 1024) by lia. rewrite Hb1. subst blk. change (Z.to_nat 1024) with 1024%nat.
    rewrite <- firstn_add_split. f_equal. lia. }
  specialize (G (Z.to_nat (tm_blocks file)) ltac:(lia)). unfold tm_blocks in G. rewrite Nat.min_l in G by (Z.div_mod_to_equations; lia). rewrite G. apply firstn_all2. Z.div_mod_to_equations. lia.
Qed.

(** A block that has come before, and one that is new. *)
Lemma tm_dup got m st p : tm_inv file im bm master got m st -> got p = true -> 1 <= p <= tm_blocks file -> tm_inv file im bm master (add_block p got) m st.
Proof.
  intros [I1 I2 I3 I4 I5 I6 I7 I8] Eg Hp. constructor; try assumption.
  - rewrite count_add, Eg by lia. exact I6.
  - intros i Hr. rewrite I7 by exact Hr. unfold add_block. destruct (Z.eqb_spec i p) as [-> |]; [exact Eg|reflexivity].
  - intros i Hr Hg. apply I8; [exact Hr|]. unfold add_block in Hg. destruct (Z.eqb_spec i p) as [-> |]; [exact Eg|exact Hg].
Qed.
Lemma tm_block_le i : 1 <= i <= tm_blocks file -> Z.of_nat (length (tm_block file i)) <= 1024.
Proof. intros Hr. rewrite (tm_block_length i Hr). destruct (i =? _); [pose proof (Z.mod_pos_bound (Z.of_nat (length file)) 1024)|]; lia. Qed.
Lemma tm_store got m st p : tm_inv file im bm master got m st -> got p = false -> 1 <= p <= tm_blocks file -> ldn m (rcvd + 32) (length (tm_block file p)) = tm_block file p ->
  let m' := memcpy (or_bit m bm p 1) (im + (p - 1) * 1024) (rcvd + 32) (length (tm_block file p)) in
  tm_inv file im bm master (add_block p got) m' (set_received (u32 (tm_received st + 1)) (tm_recvd_oack st) st) /\ (forall x, x < im -> ld8 m' x = ld8 m x).
Proof.
  intros [I1 I2 I3 I4 I5 I6 I7 I8] Eg Hp Td m'. pose proof (tm_block_place p Hp) as Hpl. pose proof (tm_block_le p Hp) as Lp. set (blk := tm_block file p) in *.
  set (m2 := or_bit m bm p 1) in *. set (a := im + (p - 1) * 1024) in *. assert (Hr32 : rcvd + 32 + 1024 < 0x100000) by (vm_compute; reflexivity).
  assert (K2 : forall x, x < bm -> ld8 m2 x = ld8 m x) by (intros x Hx; apply or_bit_out; pose proof (Z.div_pos p 8); lia).
  assert (K3 : forall x, x < a \/ a + Z.of_nat (length blk) <= x -> ld8 m' x = ld8 m2 x) by (intros x Hx; apply ld8_memcpy_out; subst a; lia).
  split; [constructor; try assumption|intros x Hx; rewrite K3, K2 by (subst a; lia); reflexivity].
  - cbn [tm_received set_received]. rewrite count_add, Eg by lia. rewrite u32_small; rewrite I6; [lia|].
    assert (Hc : (count_blocks got (Z.to_nat (tm_blocks file)) <= Z.to_nat (tm_blocks file))%nat) by (unfold count_blocks; etransitivity; [apply filter_length_le|rewrite length_seq; lia]). lia.
  - intros i Hr. rewrite (hasbit_ext m' m2) by (apply K3; pose proof (Z.div_pos i 8); subst a; lia). subst m2. change 1 with (b2z true) at 1. rewrite hasbit_or, andb_true_r, I7 by exact Hr. reflexivity.
  - intros i Hr Hg. destruct (Z.eqb_spec i p) as [-> |Hne].
    + fold blk. fold a. subst m'. rewrite ldn_memcpy by (subst a; lia). etransitivity; [|exact Td]. apply ldn_ext. intros x Hx. rewrite K2 by lia. reflexivity.
    + unfold add_block in Hg. destruct (Z.eqb_spec i p); [contradiction|]. cbn [orb] in Hg. etransitivity; [|exact (I8 i Hr Hg)]. apply ldn_ext. intros x Hx.
      pose proof (tm_block_place i Hr) as Hpi. pose proof (tm_block_le i Hr) as Lbi. rewrite K3, K2 by (subst a; lia). reflexivity.
Qed.
(** A block that is received: it is put in its place, unless it is there. *)
Definition tm_payload (p : Z) : list Z := [0; 3] ++ [p / 256; p mod 256] ++ tm_block file p.
Lemma tm_data_ok got m plen st v p : tm_inv file im bm master got m st -> 1 <= p <= tm_blocks file -> tv_filesize v = Z.of_nat (length file) ->
  ldn m (rcvd + 28) (length (tm_payload p)) = tm_payload p -> ntohs (ld16 m (rcvd + 24)) = 8 + Z.of_nat (length (tm_payload p)) -> 42 + Z.of_nat (length (tm_payload p)) <= plen ->
  exists m' st' len, tm_data m plen st v = Some (TAck, m', st', set_count len (tv_iport v) (tv_retry v) p (tv_prev v) v) /\
    tm_inv file im bm master (add_block p got) m' st' /\ tm_heap st' = tm_heap st /\ (forall x, x < im -> x < tm_tp + 30 \/ tm_tp + 32 <= x -> ld8 m' x = ld8 m x).
Proof.
  intros I Hp Hf Ht Hu Hpl. pose proof (tm_block_length p Hp) as Lb. pose proof (tm_block_place p Hp) as Hpl2. set (blk := tm_block file p) in *.
  assert (Lp : Z.of_nat (length (tm_payload p)) = 4 + Z.of_nat (length blk)) by (unfold tm_payload; rewrite !length_app; cbn [length]; subst blk; lia).
  pose proof (tm_block_le p Hp) as L1024. fold blk in L1024.
  unfold tm_payload in Ht. rewrite !length_app in Ht. cbn [length] in Ht. rewrite (ldn_app m _ 2), (ldn_app m _ 2) in Ht.
  apply app_split_length in Ht as (_ & Ht); [|reflexivity]. apply app_split_length in Ht as (Tb & Td); [|reflexivity].
  change (rcvd + 28 + Z.of_nat 2) with (rcvd + 30) in *. change (rcvd + 30 + Z.of_nat 2) with (rcvd + 32) in *. fold blk in Td.
  pose proof I as [I1 I2 _ I4 I5 _ _ _]. unfold tm_data. rewrite Hu, Lp. replace (8 + (4 + Z.of_nat (length blk)) - 8 - 4) with (Z.of_nat (length blk)) by lia. rewrite u16_small by lia.
  rewrite Z.gtb_ltb. destruct (Z.ltb_spec TFTM_MIN_PACKET (Z.of_nat (length blk))); [unfold TFTM_MIN_PACKET in *; lia|].
  set (m1 := st16 m (tm_tp + 30) (ld16 m (rcvd + 30))).
  assert (K1 : forall x, x < tm_tp + 30 \/ tm_tp + 32 <= x -> ld8 m1 x = ld8 m x) by (intros x Hx; subst m1; unfold st16; rewrite !ld8_st8_ne by lia; reflexivity).
  assert (Ep : ntohs (ld16 m1 (tm_tp + 30)) = p).
  { subst m1. rewrite ld16_st16_eq, u16_small by apply ld16_range. assert (E1 : ld8 m (rcvd + 30) = p / 256) by exact (f_equal (fun l => nth 0 l 0) Tb).
    assert (E2 : ld8 m (rcvd + 30 + 1) = p mod 256) by exact (f_equal (fun l => nth 1 l 0) Tb). rewrite ntohs_be, E1, E2. Z.div_mod_to_equations. lia. }
  rewrite Ep, I1, I2, I4, I5. rewrite Z.gtb_ltb. destruct (Z.ltb_spec (tm_blocks file) p); [lia|]. rewrite andb_false_r. cbn [tv_filesize set_count]. rewrite Hf.
  set (dl := if negb (p =? tm_blocks file) then 1024 else Z.of_nat (length file) mod 1024).
  assert (Ed : dl = Z.of_nat (length blk)) by (subst dl; rewrite Lb; destruct (p =? tm_blocks file); reflexivity). rewrite Ed.
  assert (Eu : ntohs (ld16 m1 (nic_packet + ETH_HLEN + 20 + 4)) = 8 + Z.of_nat (length (tm_payload p))).
  { rewrite <- Hu. change (nic_packet + ETH_HLEN + 20 + 4) with (rcvd + 24). now rewrite (ld16_ext m1 m) by (intros x Hx; apply K1; unfold rcvd, nic_packet, ETH_HLEN, tm_tp in *; lia). }
  rewrite Eu. replace (nic_packet + ETH_HLEN + 20 + 8 + 4 - (nic_packet + ETH_HLEN + 20)) with 12 by reflexivity.
  replace (nic_packet + ETH_HLEN + 20 + 8 + 4 - nic_packet) with 46 by reflexivity. rewrite !u32_small by lia.
  destruct (Z.eqb_spec (8 + Z.of_nat (length (tm_payload p))) (Z.of_nat (length blk) + 12)); [|lia]. cbn [negb].
  destruct (Z.ltb_spec plen (Z.of_nat (length blk) + 46)); [lia|]. rewrite Z.gtb_ltb. destruct (Z.ltb_spec 1024 (Z.of_nat (length blk))); [lia|].
  rewrite bit_at_zero. change (nic_packet + ETH_HLEN + 20 + 8 + 4) with (rcvd + 32).
  assert (I' : tm_inv file im bm master got m1 st).
  { apply (tm_inv_ext got m); [exact I| |]; [intros i Hr; apply hasbit_ext, K1; pose proof (Z.div_pos i 8)|intros x Hx; apply K1]; unfold tm_tp; lia. }
  rewrite (ti_bits _ _ _ _ _ _ _ I') by exact Hp. destruct (got p) eqn:Eg; cbn [negb].
  - exists m1, st, (Z.of_nat (length blk)). split; [reflexivity|]. split; [now apply tm_dup|]. split; [reflexivity|]. intros x _ Hx. now apply K1.
  - rewrite (u32_small (p - 1)), (u32_small ((p - 1) * 1024)), (u32_small (im + _)), Nat2Z.id by lia.
    assert (Td1 : ldn m1 (rcvd + 32) (length blk) = blk) by (etransitivity; [|exact Td]; apply ldn_ext; intros x Hx; apply K1; unfold rcvd, nic_packet, ETH_HLEN, tm_tp in *; lia).
    destruct (tm_store got m1 st p I' Eg Hp Td1) as (I2' & K2). do 3 eexists. split; [reflexivity|]. split; [exact I2'|]. split; [reflexivity|].
    intros x Hx1 Hx2. rewrite K2 by exact Hx1. now apply K1.
Qed.

(** The walk finds the first block that is missing; there is one, since the trailer is. *)
Lemma ack_walk_spec m got k : forall b, (forall i, b <= i < b + Z.of_nat k -> hasbit m bm i = got i) ->
  (forall i, b <= i < b + Z.of_nat k -> got i = true) -> hasbit m bm (b + Z.of_nat k) = false -> ack_walk m bm b (S k) = st16 m (tm_tp + 30) (htons (lead got b k)).
Proof.
  induction k as [|k IH]; intros b Hm Hg Hn; cbn [ack_walk lead]; rewrite bit_at_zero.
  - rewrite Z.add_0_r in Hn. rewrite Hn. reflexivity.
  - rewrite Hm, Hg by lia. cbn [negb]. apply IH; [intros i Hr; apply Hm; lia|intros i Hr; apply Hg; lia|]. rewrite <- Hn. f_equal. lia.
Qed.
Lemma ack_walk_missing m got n k : forall b, (forall i, b <= i < b + Z.of_nat k -> hasbit m bm i = got i) -> (exists i, b <= i < b + Z.of_nat k /\ got i = false) ->
  ack_walk m bm b (k + n) = st16 m (tm_tp + 30) (htons (lead got b k)).
Proof.
  induction k as [|k IH]; intros b Hm (i & Hr & Hg); [lia|]. cbn [ack_walk lead Nat.add]. rewrite bit_at_zero, Hm by lia. destruct (got b) eqn:Eb; cbn [negb]; [|reflexivity].
  apply IH; [intros j Hj; apply Hm; lia|]. exists i. split; [|exact Hg]. destruct (Z.eqb_spec i b) as [-> |]; [congruence|lia].
Qed.
Lemma tm_ack_ok got m st : tm_inv file im bm master got m st ->
  let m' := tm_ack_number m st in
  tm_inv file im bm master got m' st /\ ld16 m' (tm_tp + 30) = htons (lead got 1 (Z.to_nat (tm_blocks file))) /\
  (forall x, x < im -> x < tm_tp + 30 \/ tm_tp + 32 <= x -> ld8 m' x = ld8 m x).
Proof.
  intros I m'. assert (Hn : 1 <= tm_blocks file) by (unfold tm_blocks; Z.div_mod_to_equations; lia). set (n := Z.to_nat (tm_blocks file)).
  set (max := tm_blocks file + 1). set (t := negb (hasbit m bm (tm_blocks file))).
  set (m1 := or_bit (clear_bit m bm max) bm max (b2z t)).
  assert (B1 : forall i, hasbit m1 bm i = if i =? max then t else hasbit m bm i).
  { intros i. subst m1. rewrite hasbit_or, hasbit_clear. destruct (i =? max); cbn [negb andb orb]; [now rewrite orb_false_r|reflexivity]. }
  assert (K1 : forall x, x < bm -> ld8 m1 x = ld8 m x).
  { intros x Hx. subst m1. pose proof (Z.div_pos max 8). rewrite or_bit_out, clear_bit_out by lia. reflexivity. }
  assert (E : m' = ack_walk m1 bm 1 (S n)).
  { subst m'. unfold tm_ack_number. rewrite (ti_total _ _ _ _ _ _ _ I), (ti_bitmap _ _ _ _ _ _ _ I), (ti_count _ _ _ _ _ _ _ I). fold n.
    assert (Hc : (count_blocks got n <= n)%nat) by (unfold count_blocks; etransitivity; [apply filter_length_le|rewrite length_seq; lia]).
    destruct (Z.leb_spec (Z.of_nat (count_blocks got n)) (tm_blocks file)); [|lia]. rewrite (u32_small (tm_blocks file + 1)), (u32_small (tm_blocks file + 1 - 1)) by lia.
    replace (tm_blocks file + 1 - 1) with (tm_blocks file) by lia. rewrite bit_at_zero. fold t max. replace (if t then 1 else 0) with (b2z t) by (destruct t; reflexivity).
    replace (Z.to_nat max) with (S n) by lia. reflexivity. }
  assert (Bg : forall i, 1 <= i < 1 + Z.of_nat n -> hasbit m1 bm i = got i).
  { intros i Hr. rewrite B1. destruct (Z.eqb_spec i max); [lia|]. apply (ti_bits _ _ _ _ _ _ _ I). lia. }
  assert (E2 : m' = st16 m1 (tm_tp + 30) (htons (lead got 1 n))).
  { rewrite E. destruct (Z.eqb_spec (lead got 1 n) (1 + Z.of_nat n - 1)) as [Ha|Ha].
    - pose proof (proj1 (lead_all got n 1) Ha) as Hall. apply ack_walk_spec; [exact Bg|exact Hall|]. rewrite B1. destruct (Z.eqb_spec (1 + Z.of_nat n) max); [|lia].
      subst t. rewrite (ti_bits _ _ _ _ _ _ _ I) by lia. rewrite Hall by lia. reflexivity.
    - replace (S n) with (n + 1)%nat by lia. apply ack_walk_missing; [exact Bg|]. apply lead_missing. exact Ha. }
  rewrite E2. split; [|split].
  - apply (tm_inv_ext got m); [exact I| |].
    + intros i Hr. rewrite (hasbit_ext _ m1) by (unfold st16; pose proof (Z.div_pos i 8); rewrite !ld8_st8_ne by (unfold tm_tp; lia); reflexivity). rewrite B1. destruct (Z.eqb_spec i max); [lia|reflexivity].
    + intros x Hx. unfold st16. rewrite !ld8_st8_ne by (unfold tm_tp; lia). apply K1. lia.
  - rewrite ld16_st16_eq. apply u16_small. apply htons_range.
  - intros x Hx Hx2. unfold st16. rewrite !ld8_st8_ne by lia. apply K1. lia.
Qed.
End blocks.
(** ** Rounds *)

(** The packets of a transfer: a block, sent to the group, and an acknowledgement. *)
Definition ack_text (a : Z) : list Z := [0; 4] ++ [a / 256; a mod 256].
(** The acknowledgements that are sent when a block has come: the master of the transfer names the last block before the first one that is missing, another client only
    says when it has all. *)
Definition acks_of (file : list Z) (master : bool) (got : Z -> bool) : list Z :=
  let a := lead got 1 (Z.to_nat (tm_blocks file)) in
  if master then [a] else if a =? tm_blocks file then [a] else [].

Section rounds.
Context `{E : Env} (vo : Z) (cli srv : Z) (mac hd : list Z) (s sp mip mport iport : Z) (name : list Z) (file : list Z) (im bm : Z) (master : bool).
Context (Hb : Forall (fun b => 0 <= b < 256) file) (Hl : tm_blocks file < 65535) (Hi : 0x100000 <= im) (Him : im + Z.of_nat (length file) <= bm) (Hbm : bm + 8192 < 4294967296).
Context (Hh : length hd = 12%nat) (Hsp : 0 <= sp < 65536) (Hip : 0 <= iport < 65536) (Hmip : 0 <= mip < 4294967296 /\ mip <> cli) (Hmp : 0 <= mport < 65536).

(** What a round leaves: the tables, and memory below the image but for the packet and the request. *)
Definition same_tm (w w' : world) : Prop :=
  arptable w' = arptable w /\ netmask w' = netmask w /\ igmptable w' = igmptable w /\
  current_while_timer w' = current_while_timer w /\ periodic_timer w' = periodic_timer w /\
  forall x, x < im -> x < nic_packet \/ nic_packet + 1514 <= x -> x < tm_tp \/ tm_tp + 32 <= x -> ld8 (mm w') x = ld8 (mm w) x.
Lemma same_tm_trans w1 w2 w3 : same_tm w1 w2 -> same_tm w2 w3 -> same_tm w1 w3.
Proof. intros (A & B & C & D & F & G) (A' & B' & C' & D' & F' & G'). repeat (split; [congruence|]). intros x H1 H2 H3. now rewrite G', G. Qed.
Lemma same_tm_tabs w w' : same_tm w w' -> same_tabs w w'.
Proof. clear - Hi. intros (A & B & C & D & F & G). repeat (split; [assumption|]). intros x Hx. apply G; unfold lacp_pkt, nic_packet, tm_tp in *; lia. Qed.

(** An acknowledgement is sent. *)
Lemma tm_send_ack n got st w a : ready w cli srv mac -> tm_inv file im bm master got (mm w) st -> ldn (mm w) (tm_tp + 28) 4 = ack_text a ->
  exists w' f, tm_send n iport sp TFTP_MIN_PACKET w = Some (Ret 1, w') /\ same_tm w w' /\ cnt_rx w' = cnt_rx w /\ cnt_kbd w' = cnt_kbd w /\ sent w' = f :: sent w /\
    is_call mac iport sp (ack_text a) f /\ tm_inv file im bm master got (mm w') st /\ (forall x, x < tm_tp \/ tm_tp + 28 <= x -> ld8 (mm w') x = ld8 (mm w) x).
Proof.
  intros (Q & C & Rc & A & R) I Ht. unfold tm_send. rewrite (bind_step get _ w w w eq_refl), A.
  destruct (udp_call n iport sp TFTP_MIN_PACKET tm_tp w srv mac (ack_text a) R Hip Hsp eq_refl ltac:(unfold TFTP_MIN_PACKET; lia) Ht) as (m & f & -> & F & O).
  do 2 eexists. split; [reflexivity|]. split; [|split; [reflexivity|split; [reflexivity|split; [reflexivity|split; [exact F|split; [|exact O]]]]]].
  - repeat (split; [reflexivity|]). intros x _ _ Hx. apply O. lia.
  - apply (tm_inv_ext file im bm master got (mm w)); [exact I| |].
    + intros i Hr. apply hasbit_ext, O. pose proof (Z.div_pos i 8). unfold tm_tp. lia.
    + intros x Hx. apply O. unfold tm_tp. lia.
Qed.
Lemma ack_built m a : ld16 m (tm_tp + 30) = htons a -> 0 <= a < 65536 -> ldn (st16 m (tm_tp + 28) (htons TFTP_ACK)) (tm_tp + 28) 4 = ack_text a.
Proof.
  intros Ha Hr. rewrite (ldn_app _ _ 2 2), htons_bytes by (unfold TFTP_ACK; lia). unfold ack_text. f_equal. change (tm_tp + 28 + Z.of_nat 2) with (tm_tp + 30).
  rewrite (ldn_ext _ m) by (intros x Hx; unfold st16; rewrite !ld8_st8_ne by lia; reflexivity). now apply ldn_ld16.
Qed.
(** Storing in the request changes nothing else. *)
Lemma tm_request_mm got st w m : tm_inv file im bm master got (mm w) st -> (forall x, x < tm_tp + 28 \/ tm_tp + 32 <= x -> ld8 m x = ld8 (mm w) x) ->
  tm_inv file im bm master got m st /\ same_tm w (set_mm m w).
Proof.
  intros I K. split.
  - apply (tm_inv_ext file im bm master got (mm w)); [exact I| |].
    + intros i Hr. apply hasbit_ext, K. pose proof (Z.div_pos i 8). unfold tm_tp. lia.
    + intros x Hx. apply K. unfold tm_tp. lia.
  - repeat (split; [reflexivity|]). intros x _ _ Hx. apply K. lia.
Qed.
Lemma count_done got : (Z.of_nat (count_blocks got (Z.to_nat (tm_blocks file))) =? tm_blocks file) = (lead got 1 (Z.to_nat (tm_blocks file)) =? tm_blocks file).
Proof.
  assert (Hn : 1 <= tm_blocks file) by (unfold tm_blocks; Z.div_mod_to_equations; lia). set (n := Z.to_nat (tm_blocks file)).
  pose proof (lead_all got n 1) as H1. pose proof (count_all got n) as H2. apply eq_true_iff_eq. rewrite !Z.eqb_eq. split; intros H.
  - assert (Hc : count_blocks got n = n) by lia. rewrite H2 in Hc. assert (Ha : lead got 1 n = 1 + Z.of_nat n - 1) by (apply H1; intros i Hr; apply Hc; lia). lia.
  - assert (Ha : lead got 1 n = 1 + Z.of_nat n - 1) by lia. rewrite H1 in Ha. assert (Hc : count_blocks got n = n) by (apply H2; intros i Hr; apply Ha; lia). lia.
Qed.

Lemma tm_acknowledge_ok n got st v w : ready w cli srv mac -> tm_inv file im bm master got (mm w) st -> tv_iport v = iport -> ntohs (ld16 (mm w) (rcvd + 20)) = sp ->
  exists w' st' frames, tm_acknowledge vo n st v w = Some (Ret (lead got 1 (Z.to_nat (tm_blocks file)) =? tm_blocks file, st'), w') /\ same_tm w w' /\
    cnt_rx w' = cnt_rx w /\ cnt_kbd w' = cnt_kbd w /\ tm_inv file im bm master got (mm w') st' /\ sent w' = frames ++ sent w /\
    Forall2 (is_call mac iport sp) (map ack_text (acks_of file master got)) frames.
Proof.
  intros R I Hv Hsrc. destruct (tm_ack_ok file im bm master Hl Hi Him got (mm w) st I) as (I1 & A1 & K1). cbv zeta in I1, A1, K1.
  set (m1 := tm_ack_number (mm w) st) in *. set (a := lead got 1 (Z.to_nat (tm_blocks file))) in *. set (w1 := set_mm m1 w).
  assert (Ra : 0 <= a <= tm_blocks file) by (subst a; pose proof (lead_range got (Z.to_nat (tm_blocks file)) 1); unfold tm_blocks in *; Z.div_mod_to_equations; lia).
  assert (S1 : same_tm w w1) by (repeat (split; [reflexivity|]); intros x H1 _ H3; apply K1; unfold tm_tp in *; lia).
  assert (Hs1 : ntohs (ld16 m1 (rcvd + 20)) = sp) by (rewrite <- Hsrc; f_equal; apply ld16_ext; intros x Hx; apply K1; unfold rcvd, nic_packet, ETH_HLEN, tm_tp in *; lia).
  assert (R1 : ready w1 cli srv mac) by (apply (ready_same w); [now apply same_tm_tabs|exact R]).
  unfold tm_acknowledge. rewrite (bind_step (set_mem _) _ w tt w1 eq_refl), (bind_step get _ w1 w1 w1 eq_refl). change (mm w1) with m1. rewrite Hs1, Hv.
  rewrite (ti_master _ _ _ _ _ _ _ I), (ti_count _ _ _ _ _ _ _ I), (ti_total _ _ _ _ _ _ _ I), count_done. fold a. unfold acks_of. fold a.
  assert (Go : forall m2 w2 (a' : Z), w2 = set_mm m2 w1 -> (forall x, x < tm_tp + 28 \/ tm_tp + 32 <= x -> ld8 m2 x = ld8 m1 x) -> ldn m2 (tm_tp + 28) 4 = ack_text a' ->
    exists w3 f, tm_send n iport sp TFTP_MIN_PACKET w2 = Some (Ret 1, w3) /\ same_tm w w3 /\ cnt_rx w3 = cnt_rx w /\ cnt_kbd w3 = cnt_kbd w /\ sent w3 = f :: sent w /\
      is_call mac iport sp (ack_text a') f /\ tm_inv file im bm master got (mm w3) st).
  { intros m2 w2 a' -> K2 T2. destruct (tm_request_mm got st w1 m2 I1 K2) as (I2 & S2).
    destruct (tm_send_ack n got st (set_mm m2 w1) a') as (w3 & f & E3 & S3 & C3 & B3 & T3 & F3 & I3 & _); [apply (ready_same w1); [now apply same_tm_tabs|exact R1]|exact I2|exact T2|].
    exists w3, f. split; [exact E3|]. split; [apply (same_tm_trans w w1); [exact S1|apply (same_tm_trans w1 (set_mm m2 w1)); [exact S2|exact S3]]|]. auto. }
  destruct master eqn:Em.
  - destruct (Go (st16 m1 (tm_tp + 28) (htons TFTP_ACK)) _ a eq_refl) as (w3 & f & E3 & S3 & C3 & B3 & T3 & F3 & I3);
      [intros x Hx; unfold st16; rewrite !ld8_st8_ne by lia; reflexivity|apply ack_built; [exact A1|lia]|].
    assert (Es : (store16 (tm_tp + 28) (htons TFTP_ACK) ;;; tm_send n iport sp TFTP_MIN_PACKET ;;; ret tt) w1 = Some (Ret tt, w3)).
    { rewrite (bind_step (store16 _ _) _ w1 tt (set_mm (st16 m1 (tm_tp + 28) (htons TFTP_ACK)) w1) eq_refl), (bind_step _ _ _ _ _ E3). reflexivity. }
    rewrite (bind_step _ _ _ _ _ Es). destruct (a =? tm_blocks file).
    + cbn [negb]. rewrite (bind_step (ret tt) _ w3 tt w3 eq_refl), (bind_step get _ w3 w3 w3 eq_refl). do 2 eexists. exists [f]. split; [reflexivity|]. split; [exact S3|].
      split; [exact C3|]. split; [exact B3|]. split; [destruct I3; constructor; (assumption || reflexivity)|]. split; [exact T3|]. cbn [map]. constructor; [exact F3|constructor].
    + do 2 eexists. exists [f]. split; [reflexivity|]. split; [exact S3|]. split; [exact C3|]. split; [exact B3|]. split; [exact I3|]. split; [exact T3|]. cbn [map]. constructor; [exact F3|constructor].
  - rewrite (bind_step (ret tt) _ w1 tt w1 eq_refl). destruct (Z.eqb_spec a (tm_blocks file)) as [Ea|Ea].
    + cbn [negb]. set (m2 := st16 (st16 m1 (tm_tp + 28) (htons TFTP_ACK)) (tm_tp + 30) (htons (tm_blocks file))).
      destruct (Go m2 _ a eq_refl) as (w3 & f & E3 & S3 & C3 & B3 & T3 & F3 & I3); [intros x Hx; subst m2; unfold st16; rewrite !ld8_st8_ne by lia; reflexivity| |].
      { subst m2. rewrite (ldn_app _ _ 2 2). unfold ack_text. change (tm_tp + 28 + Z.of_nat 2) with (tm_tp + 30). rewrite htons_bytes, <- Ea by lia. reflexivity. }
      assert (Es : (store16 (tm_tp + 28) (htons TFTP_ACK) ;;; store16 (tm_tp + 30) (htons (tm_blocks file)) ;;; tm_send n iport sp TFTP_MIN_PACKET ;;; ret tt) w1 = Some (Ret tt, w3)).
      { rewrite (bind_step (store16 _ _) _ w1 tt (set_mm (st16 m1 (tm_tp + 28) (htons TFTP_ACK)) w1) eq_refl), (bind_step (store16 (tm_tp + 30) (htons (tm_blocks file))) _ (set_mm (st16 m1 (tm_tp + 28) (htons TFTP_ACK)) w1) tt (set_mm m2 w1) eq_refl), (bind_step _ _ _ _ _ E3). reflexivity. }
      rewrite (bind_step _ _ _ _ _ Es), (bind_step get _ w3 w3 w3 eq_refl). do 2 eexists. exists [f]. split; [reflexivity|]. split; [exact S3|].
      split; [exact C3|]. split; [exact B3|]. split; [destruct I3; constructor; (assumption || reflexivity)|]. split; [exact T3|]. cbn [map]. constructor; [exact F3|constructor].
    + do 2 eexists. exists []. split; [reflexivity|]. split; [exact S1|]. split; [reflexivity|]. split; [reflexivity|]. split; [exact I1|]. split; [reflexivity|]. constructor.
Qed.

(** The variables of the transfer, from the options on. *)
Definition vars_ok (v : tftm_vars) : Prop := tv_mip v = mip /\ tv_mport v = mport /\ tv_filesize v = Z.of_nat (length file) /\ tv_iport v = iport.
Lemma payload_ok p : 1 <= p <= tm_blocks file -> (4 <= length (tm_payload file p) <= 1028)%nat /\ Forall (fun b => 0 <= b < 256) (tm_payload file p).
Proof.
  intros Hp. pose proof (tm_block_le file p Hp) as Lb.
  unfold tm_payload. rewrite !length_app. cbn [length]. split; [lia|]. rewrite !Forall_app. split; [repeat constructor; lia|]. split; [|now apply tm_block_bytes].
  apply Forall_cons; [Z.div_mod_to_equations; lia|]. apply Forall_cons; [apply Z.mod_pos_bound; lia|constructor].
Qed.
Lemma tm_receive n got st v w p t : ready w cli srv mac -> tm_inv file im bm master got (mm w) st -> vars_ok v -> 1 <= p <= tm_blocks file ->
  rx (cnt_rx w) = Some (udp_frame hd s mip sp mport (tm_payload file p)) ->
  exists w' st' v', await_reply (S n) (await_tftm iport v) t w = Some (Ret 1, w') /\ forall n',
    exists w'', tm_packet vo n' st v w' = Some (Ret (TAck, st', v'), w'') /\ same_tm w w'' /\ cnt_rx w'' = S (cnt_rx w) /\ cnt_kbd w'' = cnt_kbd w /\ sent w'' = sent w /\
    tm_inv file im bm master (add_block p got) (mm w'') st' /\ vars_ok v' /\ ntohs (ld16 (mm w'') (rcvd + 20)) = sp.
Proof.
  intros R I (V1 & V2 & V3 & V4) Hp Hrx. pose proof R as (Q & C & Rc & _). destruct (payload_ok p Hp) as (Lp & Bp). set (body := tm_payload file p) in *.
  destruct (udp_frame_received (mm w) hd body s mip sp mport Hh ltac:(lia) Bp (proj1 Hmip)) as (F1 & F2 & F3 & F4 & F5 & F6).
  set (fr := udp_frame hd s mip sp mport body) in *. set (m := stn (mm w) nic_packet fr) in *. pose proof (rx_len _ _ Hrx) as Lf.
  assert (Lfr : length fr = (42 + length body)%nat) by (subst fr; now apply udp_frame_length).
  assert (Km : forall x, x < nic_packet \/ nic_packet + 1514 <= x -> ld8 m x = ld8 (mm w) x) by (intros x Hx; apply ld8_stn_out; lia).
  destruct (await_reply_frame n (await_tftm iport v) t w fr _ 1 (fun w => w) Q Hrx F1) as (c & Er); [lia| |].
  { intros w1 Hm Hpl Ha. unfold await_tftm. cbn [has_ip has_udp]. run. rewrite Hm, Hpl. fold m. replace (client_ip w1) with cli by (rewrite <- C; unfold client_ip, arp; now rewrite Ha).
    change (ip_ptr + 20 + 2) with (ip_ptr + 22). rewrite F2, F4, u16_small, V1, V2, !Z.eqb_refl by exact Hmp. destruct (Z.eqb_spec mip cli); [now destruct Hmip|]. cbn [andb].
    rewrite Z.geb_leb. destruct (Z.leb_spec (ETH_HLEN + 20 + 8) (Z.of_nat (length fr))); [reflexivity|unfold ETH_HLEN in *; lia]. }
  set (w1 := set_packetlen _ _) in Er. assert (Em : mm w1 = m) by reflexivity.
  assert (I1 : tm_inv file im bm master got m st).
  { apply (tm_inv_ext file im bm master got (mm w)); [exact I| |]; [intros i Hr; apply hasbit_ext, Km; pose proof (Z.div_pos i 8)|intros x Hx; apply Km]; unfold nic_packet; lia. }
  change (ip_ptr + 28) with (rcvd + 28) in F6. change (ip_ptr + 24) with (rcvd + 24) in F5.
  destruct (tm_data_ok file im bm master Hl Hi Him Hbm got m (packetlen w1) st v p I1 Hp V3 F6 F5) as (m2 & st2 & len & Ed & I2 & _ & K2); [change (packetlen w1) with (Z.of_nat (length fr)); fold body; lia|].
  exists w1, st2, (set_count len (tv_iport v) (tv_retry v) p (tv_prev v) v). split; [exact Er|]. intros n'. exists (set_mm m2 w1).
  split; [|split; [|split; [reflexivity|split; [reflexivity|split; [reflexivity|split; [exact I2|split; [repeat split; assumption|]]]]]]].
  - unfold tm_packet. rewrite (bind_step get _ w1 w1 w1 eq_refl), Em.
    assert (Op : ld16 m (rcvd + 28) = htons TFTP_DATA).
    { assert (T : ldn m (rcvd + 28) 2 = [0; 3]).
      { pose proof (f_equal (firstn 2) F6) as T. rewrite firstn_ldn in T by lia. exact T. }
      rewrite (ld16_ldn _ _ _ _ T). reflexivity. }
    rewrite Op. change (htons TFTP_DATA =? htons TFTP_ERROR) with false. change (htons TFTP_DATA =? htons TFTP_OACK) with false. rewrite Z.eqb_refl. cbv iota. rewrite Ed. reflexivity.
  - repeat (split; [reflexivity|]). intros x Hx1 Hx2 Hx3. cbn [mm set_mm]. rewrite K2, Km by (unfold tm_tp in *; lia). reflexivity.
  - cbn [mm set_mm]. rewrite (ld16_ext _ m) by (intros x Hx; apply K2; unfold rcvd, nic_packet, ETH_HLEN, tm_tp in *; lia). change (rcvd + 20) with (ip_ptr + 20). rewrite F3. apply u16_small, Hsp.
Qed.

Lemma tm_round n got st v w p : ready w cli srv mac -> tm_inv file im bm master got (mm w) st -> vars_ok v -> 1 <= p <= tm_blocks file ->
  rx (cnt_rx w) = Some (udp_frame hd s mip sp mport (tm_payload file p)) ->
  let got' := add_block p got in
  exists w' st' v' frames,
    tm_loop vo (S (S n)) name st v w =
      (if lead got' 1 (Z.to_nat (tm_blocks file)) =? tm_blocks file then Some (Ret (inr tt, st', v'), w') else tm_loop vo (S n) name st' v' w') /\
    ready w' cli srv mac /\ tm_inv file im bm master got' (mm w') st' /\ vars_ok v' /\ cnt_rx w' = S (cnt_rx w) /\ cnt_kbd w' = cnt_kbd w /\
    sent w' = frames ++ sent w /\ Forall2 (is_call mac iport sp) (map ack_text (acks_of file master got')) frames.
Proof.
  intros R I V Hp Hrx got'. pose proof V as (_ & _ & _ & V4). destruct (rfc2131_total (if istrue (tv_block v) then TFTP_REXMT else TIMEOUT) (tv_retry v) w) as (t & sd & c & E0).
  set (w0 := set_seed sd (set_cnt_clock c w)) in E0.
  destruct (tm_receive n got st v w0 p t R I V Hp Hrx) as (w1 & st1 & v1 & E1 & Hpk). destruct (Hpk (S n)) as (w2 & E2 & S2 & C2 & B2 & T2 & I2 & V2 & P2).
  assert (R2 : ready w2 cli srv mac) by (apply (ready_same w0); [now apply same_tm_tabs|exact R]).
  destruct (tm_acknowledge_ok (S n) got' st1 v1 w2 R2 I2 (proj2 (proj2 (proj2 V2))) P2) as (w3 & st3 & frames & E3 & S3 & C3 & B3 & I3 & T3 & F3).
  assert (R3 : ready w3 cli srv mac) by (apply (ready_same w2); [now apply same_tm_tabs|exact R2]).
  set (done := lead got' 1 (Z.to_nat (tm_blocks file)) =? tm_blocks file) in *.
  set (v3 := if negb (u16 (tv_block v1 - tv_prev v1) =? 1) then v1 else set_count (tv_len v1) (tv_iport v1) 0 (tv_block v1) (tv_block v1) v1).
  assert (V3 : vars_ok v3) by (subst v3; destruct (negb _); [exact V2|destruct V2 as (? & ? & ? & ?); repeat split; assumption]).
  exists w3, st3, (if done then v1 else v3), frames. split; [|split; [exact R3|split; [exact I3|split; [destruct done; assumption|split; [rewrite C3, C2; reflexivity|split; [rewrite B3, B2; reflexivity|split; [rewrite T3, T2; reflexivity|exact F3]]]]]]].
  remember (S n) as k. cbn [tm_loop]. rewrite (bind_step _ _ _ _ _ E0), V4, (bind_step _ _ _ _ _ E1). cbn [Z.eqb]. rewrite (bind_step _ _ _ _ _ E2), (bind_step _ _ _ _ _ E3).
  destruct done; [reflexivity|]. subst v3. destruct (negb _); reflexivity.
Qed.

(** The rest of a transfer: the blocks that come, up to the one that completes the file, and the acknowledgements, oldest first. *)
Fixpoint completes (got : Z -> bool) (ps : list Z) : Prop :=
  match ps with
  | [] => False
  | p :: ps =>
      1 <= p <= tm_blocks file /\
      if lead (add_block p got) 1 (Z.to_nat (tm_blocks file)) =? tm_blocks file then ps = [] else completes (add_block p got) ps
  end.
Fixpoint all_acks (got : Z -> bool) (ps : list Z) : list Z :=
  match ps with
  | [] => []
  | p :: ps => acks_of file master (add_block p got) ++ all_acks (add_block p got) ps
  end.
Lemma tm_rest n ps : forall got st v w, ready w cli srv mac -> tm_inv file im bm master got (mm w) st -> vars_ok v -> completes got ps ->
  (forall j p, nth_error ps j = Some p -> rx (cnt_rx w + j) = Some (udp_frame hd s mip sp mport (tm_payload file p))) ->
  exists w' st' v' frames, tm_loop vo (length ps + S n) name st v w = Some (Ret (inr tt, st', v'), w') /\
    ready w' cli srv mac /\ tm_image st' = im /\ tv_filesize v' = Z.of_nat (length file) /\ ldn (mm w') im (length file) = file /\
    sent w' = frames ++ sent w /\ Forall2 (is_call mac iport sp) (map ack_text (rev (all_acks got ps))) frames.
Proof.
  induction ps as [|p ps IH]; intros got st v w R I V Hc Hrx; [destruct Hc|]. cbn [completes] in Hc. destruct Hc as (Hp & Hc).
  destruct (tm_round (length ps + n) got st v w p R I V Hp) as (w1 & st1 & v1 & fr1 & E1 & R1 & I1 & V1 & C1 & B1 & T1 & F1).
  { pose proof (Hrx 0%nat p eq_refl) as H0. rewrite Nat.add_0_r in H0. exact H0. }
  cbv zeta in *. replace (length (p :: ps) + S n)%nat with (S (S (length ps + n))) by (cbn [length]; lia). cbn [all_acks].
  destruct (Z.eqb_spec (lead (add_block p got) 1 (Z.to_nat (tm_blocks file))) (tm_blocks file)) as [Ed|Ed].
  - subst ps. exists w1, st1, v1, fr1. split; [exact E1|]. split; [exact R1|]. split; [apply I1|]. split; [apply V1|]. split; [|split; [exact T1|]].
    + apply (tm_complete file im bm master (add_block p got) (mm w1) st1 I1). assert (Hn : 1 <= tm_blocks file) by (unfold tm_blocks; Z.div_mod_to_equations; lia).
      intros i Hr. apply (proj1 (lead_all (add_block p got) (Z.to_nat (tm_blocks file)) 1)); lia.
    + cbn [all_acks]. rewrite app_nil_r. assert (Hr : rev (acks_of file master (add_block p got)) = acks_of file master (add_block p got))
        by (unfold acks_of; destruct master; [reflexivity|destruct (_ =? _); reflexivity]). rewrite Hr. exact F1.
  - destruct (IH (add_block p got) st1 v1 w1 R1 I1 V1 Hc) as (w' & st' & v' & fr & E' & R' & Im & Vf & D' & T' & F').
    { intros j q Hj. rewrite C1. replace (S (cnt_rx w) + j)%nat with (cnt_rx w + S j)%nat by lia. exact (Hrx (S j) q Hj). }
    exists w', st', v', (fr ++ fr1). split; [rewrite E1; replace (S (length ps + n)) with (length ps + S n)%nat by lia; exact E'|]. split; [exact R'|]. split; [exact Im|].
    split; [exact Vf|]. split; [exact D'|]. split; [rewrite T', T1, app_assoc; reflexivity|]. rewrite rev_app_distr, map_app. apply Forall2_app; [exact F'|].
    assert (Hr : rev (acks_of file master (add_block p got)) = acks_of file master (add_block p got)) by (unfold acks_of; destruct master; [reflexivity|destruct (_ =? _); reflexivity]).
    rewrite Hr. exact F1.
Qed.
End rounds.
(** ** The transfer *)

(** C25: a file is received.  The options are known, the image and the bitmap lie in high memory, clear of each other, and some blocks may have come already.  The server sends blocks to the group, in
    any order and any number of times, until the last missing one has come.  Then the loop ends with the whole file in the image.  When the client is the master of the transfer, it answers each
    packet with the number of the last block before the first one it misses; when it is not, it sends nothing until the end, and then acknowledges the last block.  Nothing else is sent. *)
Theorem tftm_receives `{Env} vo n cli srv mac hd s sp mip mport iport name file im bm master got ps st v w :
  Forall (fun b => 0 <= b < 256) file -> tm_blocks file < 65535 -> 0x100000 <= im -> im + Z.of_nat (length file) <= bm -> bm + 8192 < 4294967296 ->
  length hd = 12%nat -> 0 <= sp < 65536 -> 0 <= iport < 65536 -> 0 <= mip < 4294967296 /\ mip <> cli -> 0 <= mport < 65536 ->
  ready w cli srv mac -> tm_inv file im bm master got (mm w) st -> vars_ok mip mport iport file v -> completes file got ps ->
  (forall j p, nth_error ps j = Some p -> rx (cnt_rx w + j) = Some (udp_frame hd s mip sp mport (tm_payload file p))) ->
  exists w' st' v' frames, tm_loop vo (length ps + S n) name st v w = Some (Ret (inr tt, st', v'), w') /\
    tm_image st' = im /\ tv_filesize v' = Z.of_nat (length file) /\ ldn (mm w') im (length file) = file /\
    sent w' = frames ++ sent w /\ Forall2 (is_call mac iport sp) (map ack_text (rev (all_acks file master got ps))) frames.
Proof.
  intros Hb Hl Hi Him Hbm Hh Hsp Hip Hmip Hmp R I V Hc Hrx.
  destruct (tm_rest vo cli srv mac hd s sp mip mport iport name file im bm master Hb Hl Hi Him Hbm Hh Hsp Hip Hmip Hmp n ps got st v w R I V Hc Hrx)
    as (w' & st' & v' & frames & E & _ & A & B & C & D & F).
  exists w', st', v', frames. repeat (split; [assumption|]). exact F.
Qed.

(** The master of a transfer of 1025 bytes: block 2 comes first, again, and then block 1. *)
Definition tm_file : list Z := repeat 0x5a 1024 ++ [7].
Definition tm_group : Z := 0x010000ef.
Definition tm_frame (i : nat) : option (list Z) :=
  match nth_error [2; 2; 1] i with
  | Some p => Some (udp_frame [1; 0; 94; 0; 0; 1; 2; 0; 0; 0; 0; 2] 0x0200000a tm_group 1069 1759 (tm_payload tm_file p))
  | None => None
  end.
Definition tm_env : Env.
Proof.
  refine {| clock n := Z.of_nat n; rx n := tm_frame n; kbd _ := None |}.
  intros [|[|[|n]]] bs; [.. | now destruct n]; intros Hb; injection Hb as <-; vm_compute; lia.
Defined.
Definition tm_state0 : tftm_state :=
  {| tm_block_size := 1024; tm_total := 2; tm_ismaster := true; tm_received := 0; tm_image := 0x100000; tm_bitmap := 0x200000; tm_recvd_oack := true;
     tm_heap := {| heap_ptr := 0x100000; heap_top := 0x100000; heap_bot := 0x300000 |} |}.
Definition tm_vars0 : tftm_vars :=
  {| tv_mip := tm_group; tv_mport := 1759; tv_filesize := 1025; tv_len := 0; tv_iport := 2001; tv_retry := 0; tv_block := 0; tv_prev := 0 |}.
Lemma tftm_receives_witness :
  exists w' st' v' frames, @tm_loop tm_env 0 4 (txt "/k"%string) tm_state0 tm_vars0 tftp_world = Some (Ret (inr tt, st', v'), w') /\
    ldn (mm w') 0x100000 1025 = tm_file /\ sent w' = frames /\ map (fun f => skipn 28 (f_data f)) (rev frames) = [[0; 4; 0; 0]; [0; 4; 0; 0]; [0; 4; 0; 2]].
Proof.
  destruct (@tftm_receives tm_env 0 0 0x0100000a 0x0200000a [2; 0; 0; 0; 0; 2] [1; 0; 94; 0; 0; 1; 2; 0; 0; 0; 0; 2] 0x0200000a 1069 tm_group 1759 2001 (txt "/k"%string) tm_file 0x100000 0x200000 true
    (fun _ => false) [2; 2; 1] tm_state0 tm_vars0 tftp_world) as (w' & st' & v' & frames & E & _ & _ & D & S & F).
  - unfold tm_file. apply Forall_app. split; [apply Forall_forall; intros x Hx; apply repeat_spec in Hx; lia|repeat constructor; lia].
  - reflexivity.
  - lia.
  - vm_compute. discriminate.
  - lia.
  - reflexivity.
  - lia.
  - lia.
  - unfold tm_group. lia.
  - lia.
  - split; [|split; [reflexivity|split; [lia|split; [reflexivity|]]]].
    + split; [vm_compute; reflexivity|]. split; [reflexivity|]. split; [reflexivity|]. repeat constructor.
    + split; [lia|]. split; [vm_compute; discriminate|]. split; [vm_compute; reflexivity|].
      exists 1%nat. split; [vm_compute; reflexivity|]. split; reflexivity.
  - constructor; try reflexivity; [|discriminate]. intros i Hr. unfold hasbit. assert (Hz : i / 8 = 0) by (assert (Hr2 : i <= 2) by exact (proj2 Hr); Z.div_mod_to_equations; lia).
    rewrite Hz. change (ld8 (mm tftp_world) (0x200000 + 0)) with 0. apply Z.bits_0.
  - repeat split.
  - cbn [completes]. split; [vm_compute; split; discriminate|]. cbv. repeat split; discriminate.
  - intros j p Hj. change (tm_frame j = Some (udp_frame [1; 0; 94; 0; 0; 1; 2; 0; 0; 0; 0; 2] 0x0200000a tm_group 1069 1759 (tm_payload tm_file p))). unfold tm_frame. rewrite Hj. reflexivity.
  - exists w', st', v', frames. split; [exact E|]. split; [exact D|]. split; [rewrite S; apply app_nil_r|].
    change (rev (all_acks tm_file true (fun _ => false) [2; 2; 1])) with [2; 0; 0] in F. cbn [map] in F.
    inversion_clear F as [|? f1 ? ? H1 F2]. inversion_clear F2 as [|? f2 ? ? H2 F3]. inversion_clear F3 as [|? f3 ? ? H3 F4]. inversion F4; subst.
    cbn [rev app map]. destruct H1 as (_ & _ & _ & ->), H2 as (_ & _ & _ & ->), H3 as (_ & _ & _ & ->). reflexivity.
Defined.
(** An option that the client does not know hangs it: the loop over the options of an OACK has no branch that passes over one.  Whatever the rest of the packet, an option that starts with
    none of the letters of the three known ones makes [opt_get_multicast] look at it again and again; no number of rounds is enough. *)
Theorem tftm_unknown_option_hangs fuel m st v :
  let c := ld8 m (rcvd + 30) in
  c <> 0 -> upcase c <> upcase 116 -> upcase c <> upcase 98 -> c <> 109 -> 10 < ntohs (ld16 m (rcvd + 24)) <= 1034 -> opt_get_multicast fuel m st v = None.
Proof.
  intros c H0 H1 H2 H3 Hl. unfold opt_get_multicast. rewrite u16_small by lia. rewrite Z.gtb_ltb.
  destruct (Z.ltb_spec TFTM_MIN_PACKET (ntohs (ld16 m (rcvd + 24)) - 8 - 2)); [unfold TFTM_MIN_PACKET in *; lia|]. set (e := rcvd + 30 + _).
  assert (Hc : ld8 (tftm_literals m) (rcvd + 30) = c).
  { unfold tftm_literals. rewrite !ld8_stn_out by (vm_compute; intuition congruence). reflexivity. }
  assert (Hlp : forall n o, option_loop n m (rcvd + 30) e o = None); [|rewrite Hlp; reflexivity].
  induction n as [|n IH]; intros o; [reflexivity|]. cbn [option_loop]. fold c. destruct (Z.eqb_spec c 0); [contradiction|]. destruct (Z.ltb_spec (rcvd + 30) e); [|subst e; lia]. cbn [negb andb].
  unfold option_round. cbn [strcasecmp]. change (ld8 (tftm_literals m) lit_tsize) with 116. change (ld8 (tftm_literals m) lit_blksize) with 98. rewrite Hc. unfold istrue.
  destruct (Z.eqb_spec c 0); [contradiction|]. destruct (Z.eqb_spec (upcase 116) (upcase c)); [congruence|]. destruct (Z.eqb_spec (upcase 98) (upcase c)); [congruence|]. cbn [Z.eqb Pos.eqb negb andb obind].
  destruct (Z.eqb_spec (upcase 116 - upcase c) 0); [lia|]. destruct (Z.eqb_spec (upcase 98 - upcase c) 0); [lia|]. cbv beta iota.
  unfold strncmp. cbn [strncmp_loop]. change (ld8 (tftm_literals m) lit_multicast) with 109. rewrite Hc.
  assert (Hs : s8 (s8 c - s8 109) <> 0) by (rewrite s8_sub_zero; unfold c; rewrite u8_ld8; exact H3).
  destruct (Z.eqb_spec (s8 (s8 c - s8 109)) 0); [contradiction|]. cbn [negb orb]. destruct (Z.eqb_spec (s8 (s8 c - s8 109)) 0); [contradiction|]. apply IH.
Qed.
Lemma tftm_unknown_option_hangs_witness :
  let m := stn (fun _ => 0) (rcvd + 24) ([0; 20; 0; 0; 0; 6] ++ txt "windowsize"%string) in
  forall fuel, opt_get_multicast fuel m
    {| tm_block_size := 0; tm_total := 0; tm_ismaster := false; tm_received := 0; tm_image := 0; tm_bitmap := 0; tm_recvd_oack := false; tm_heap := {| heap_ptr := 0; heap_top := 0; heap_bot := 0 |} |}
    {| tv_mip := 0; tv_mport := 0; tv_filesize := 0; tv_len := 0; tv_iport := 0; tv_retry := 0; tv_block := 0; tv_prev := 0 |} = None.
Proof.
  intros m fuel. apply (tftm_unknown_option_hangs fuel m); [vm_compute; discriminate..|vm_compute; split; [reflexivity|discriminate]].
Defined.
