(* ===== verification/Boot.v ===== *)
(** Which file is booted and how it is loaded: [loadkernel] of [src/src/core/main.c], which takes a URL apart and
    picks the protocol, and [eth_load_configuration] and [eth_load] of [src/src/core/nic.c].

    The protocols are the table [protos] and the default one, as the build configures them; a loader is
    called with the port of the URL ([url_port]) and the address of the name. *)

From S2P Require Import Prelude Memory StringLib Misc Vsprintf Heap Net Lacp Nic Tftp Bootp Tcp Slam Dns Http Nfs Fsp Tftm.
Import String.StringSyntax.

Record proto := { p_name : list Z; p_load : Z -> Z -> M Z }.

(** [while(fname\[len\] && fname\[len\] != ':') len++;] *)
Fixpoint scheme_len (fuel : nat) (m : mem) (fname len : Z) : option Z :=
  match fuel with
  | O => None
  | S n =>
      let c := ld8 m (fname + len) in
      if (c =? 0) || (c =? 58) then Some len else scheme_len n m fname (len + 1)
  end.
(** [memcmp(name, proto->name, len) == 0]: the name of a protocol ends with a null character, which no
    character of a scheme equals, so the comparison does not read beyond it. *)
Definition list_eqb (a b : list Z) : bool :=
  (length a =? length b)%nat && forallb (fun p => fst p =? snd p) (combine a b).
Definition proto_matches (m : mem) (name len : Z) (p : proto) : bool :=
  list_eqb (ldn m name (Z.to_nat len)) (firstn (Z.to_nat len) (p_name p ++ [0])).
(** [while (('/' != name\[0\]) && (0 != name\[0\])) ++name;] *)
Fixpoint to_slash (fuel : nat) (m : mem) (name : Z) : option Z :=
  match fuel with
  | O => None
  | S n => if (ld8 m name =? 47) || (ld8 m name =? 0) then Some name else to_slash n m (name + 1)
  end.
Definition ofuel {A} (c : option A) : M A := match c with Some a => ret a | None => oof end.
Definition pick_ip (ip : Z) (r : option Z) : Z := match r with Some a => a | None => ip end.

Section boot.
Context `{E : Env}.

(** The server and what is left of the name. *)
Definition url_host (fuel : nat) (name ip : Z) : M (Z * Z) :=
  resolvt <- dns_resolver fuel name ;;
  w <- get ;;
  if negb (resolvt =? 0) then
    a <- ofuel (inet_aton fuel (mm w) resolvt) ;;
    name <- ofuel (to_slash fuel (mm w) name) ;;
    ret (name, pick_ip ip (snd a))
  else
    a <- ofuel (inet_aton fuel (mm w) name) ;;
    ret (name + fst a, pick_ip ip (snd a)).
(** The port, [-1] when there is none. *)
Definition url_port_of (fuel : nat) (name : Z) : M (Z * Z) :=
  w <- get ;;
  if ld8 (mm w) name =? 58 then
    r <- ofuel (strtoul_loop fuel (mm w) (name + 1) 0) ;; ret (snd r, s32 (fst r))
  else ret (name, -1).
Definition loadkernel (fuel : nat) (protos : list proto) (dflt : Z -> M Z) (fname : Z) : M Z :=
  w <- get ;;
  let ip := ipaddr (arp w ARP_SERVER) in
  len <- ofuel (scheme_len fuel (mm w) fname 0) ;;
  match find (proto_matches (mm w) fname len) protos with
  | Some p =>
      if list_eqb (ldn (mm w) (fname + len) 3) (txt "://"%string) then
        let name := fname + len + 3 in
        h <- (if negb (ld8 (mm w) name =? 47) then
                h <- url_host fuel name ip ;;
                r <- url_port_of fuel (fst h) ;;
                ret (fst r, snd h, snd r)
              else ret (name, ip, -1)) ;;
        let '(name, ip, url_port) := h in
        w <- get ;;
        if ld8 (mm w) name =? 47 then
          set_arp ARP_SERVER {| ipaddr := ip; node := node (arp w ARP_SERVER) |} ;;;
          p_load p url_port (name + 1)
        else dflt fname
      else dflt fname
  | None => dflt fname
  end.

(** [eth_load_configuration]: without a server, start again. *)
Definition eth_load_configuration (d fuel : nat) (dev : devid) (x64 : bool) : M Z :=
  server_found <- bootp d fuel dev x64 ;;
  if server_found =? 0 then longjmp (-1) else ret 0.
(** [eth_load], in a build without a default boot file; [nap] is [interruptible_sleep(2)].  [nfs_built] tells whether the build has
    the NFS client, which numbers its calls from the time at which it is started here. *)
Definition eth_load (fuel : nat) (nfs_built : bool) (protos : list proto) (dflt : Z -> M Z) (nap : M unit) : M Z :=
  (if nfs_built then rpc_init else ret tt) ;;;
  w <- get ;;
  (if negb (ld8 (mm w) KERNEL_BUF =? 0) then loadkernel fuel protos dflt KERNEL_BUF ;;; ret tt else ret tt) ;;;
  nap ;;;
  longjmp (-1).
End boot.

(** ** Lemmas *)

Lemma list_eqb_eq a b : list_eqb a b = true <-> a = b.
Proof.
  unfold list_eqb. rewrite andb_true_iff, Nat.eqb_eq, forallb_forall. split.
  - intros (Hl & H). revert b Hl H. induction a as [|x a IH]; intros [|y b] Hl H; cbn in Hl; try lia; [reflexivity|].
    assert (x = y) by (apply Z.eqb_eq, (H (x, y)); now left). subst. f_equal. apply IH; [lia|].
    intros q Hq. apply H. now right.
  - intros ->. split; [reflexivity|]. induction b as [|y b IH]; intros q Hq; [destruct Hq|].
    destruct Hq as [<-|Hq]; [apply Z.eqb_refl|now apply IH].
Qed.
Lemma list_eqb_refl a : list_eqb a a = true.
Proof. now apply list_eqb_eq. Qed.

(** The loops over characters stop at the first one they look for. *)
Lemma scheme_len_spec m p t s : forall i fuel,
  cstr m (p + i) (s ++ 58 :: t) -> ~ In 58 s -> (length s < fuel)%nat ->
  scheme_len fuel m p i = Some (i + Z.of_nat (length s)).
Proof.
  induction s as [|c s IH]; intros i fuel Hc Hn Hf; (destruct fuel as [|fuel]; [lia|]);
    cbn [scheme_len app cstr length] in *; destruct Hc as (-> & H0 & Hc).
  - cbn. f_equal. lia.
  - destruct (Z.eqb_spec c 0); [lia|]. destruct (Z.eqb_spec c 58); [destruct Hn; now left|]. cbn [orb].
    rewrite IH; [f_equal; lia | now rewrite Z.add_assoc | intros H; apply Hn; now right | lia].
Qed.
Lemma host_end_spec m p c0 t s : c0 = 58 \/ c0 = 47 -> forall i fuel,
  cstr m (p + i) (s ++ c0 :: t) -> Forall (fun c => c <> 58 /\ c <> 47) s -> (length s < fuel)%nat ->
  host_end fuel m p i = Some (Some (i + Z.of_nat (length s))).
Proof.
  intros H0 i fuel Hc Hn. revert i fuel Hc.
  induction Hn as [|c s (N1 & N2) Hn IH]; intros i fuel Hc Hf; (destruct fuel as [|fuel]; [lia|]);
    cbn [host_end app cstr length] in *; destruct Hc as (-> & Hz & Hc).
  - destruct H0 as [-> | ->]; cbn; do 2 f_equal; lia.
  - apply Z.eqb_neq in N1, N2. rewrite N1, N2. destruct (Z.eqb_spec c 0); [lia|]. cbn [orb].
    rewrite IH; [do 2 f_equal; lia | now rewrite Z.add_assoc | lia].
Qed.
Lemma to_slash_spec m t s : Forall (fun c => c <> 47) s -> forall p fuel,
  cstr m p (s ++ 47 :: t) -> (length s < fuel)%nat -> to_slash fuel m p = Some (p + Z.of_nat (length s)).
Proof.
  induction 1 as [|c s N Hn IH]; intros p fuel Hc Hf; (destruct fuel as [|fuel]; [lia|]);
    cbn [to_slash app cstr length] in *; destruct Hc as (-> & Hz & Hc).
  - cbn. f_equal. lia.
  - apply Z.eqb_neq in N, Hz. rewrite N, Hz. cbn [orb]. rewrite IH; [f_equal; lia | exact Hc | lia].
Qed.
Lemma only_digits_spec m p k :
  (forall i, (i <= k)%nat -> let c := ld8 m (p + Z.of_nat i) in c = 46 \/ 48 <= c <= 57) -> only_digits m p k = true.
Proof.
  induction k as [|k IH]; intros H.
  - unfold only_digits. pose proof (H O (le_n _)) as H0. cbv zeta in H0. set (c := ld8 m (p + Z.of_nat 0)) in *.
    assert (s8 c = c) by (unfold s8; rewrite u8_small by lia; destruct (Z.ltb_spec c 128); lia).
    rewrite H1. destruct H0 as [->|H0]; [reflexivity|]. destruct (Z.leb_spec 48 c); [|lia].
    destruct (Z.leb_spec c 57); [|lia]. now rewrite orb_true_r.
  - cbn [only_digits]. pose proof (H (S k) (le_n _)) as H0. cbv zeta in H0. set (c := ld8 m (p + Z.of_nat (S k))) in *.
    assert (s8 c = c) by (unfold s8; rewrite u8_small by lia; destruct (Z.ltb_spec c 128); lia).
    rewrite H1, (IH (fun i Hi => H i (le_S _ _ Hi))). destruct H0 as [->|H0]; [reflexivity|].
    destruct (Z.leb_spec 48 c); [|lia]. destruct (Z.leb_spec c 57); [|lia]. now rewrite orb_true_r.
Qed.

(** A dotted quad. *)
Record quad := { q1 : list Z; q2 : list Z; q3 : list Z; q4 : list Z }.
Definition quad_text (q : quad) : list Z := q1 q ++ [46] ++ q2 q ++ [46] ++ q3 q ++ [46] ++ q4 q.
Definition quad_ok (q : quad) : Prop :=
  Forall (fun d => d <> [] /\ forallb isdigit10 d = true /\ dec_val 0 d <= 255) [q1 q; q2 q; q3 q; q4 q].
Definition quad_ip (q : quad) : Z :=
  htonl (fold_left (fun a d => a * 256 + dec_val 0 d) [q1 q; q2 q; q3 q; q4 q] 0).
Lemma quad_chars q : quad_ok q -> Forall (fun c => c = 46 \/ 48 <= c <= 57) (quad_text q).
Proof.
  intros H. unfold quad_ok in H. rewrite !Forall_cons_iff in H.
  destruct H as ((_ & D1 & _) & (_ & D2 & _) & (_ & D3 & _) & (_ & D4 & _) & _).
  assert (D : forall d, forallb isdigit10 d = true -> Forall (fun c => c = 46 \/ 48 <= c <= 57) d).
  { intros d Hd. rewrite forallb_forall in Hd. apply Forall_forall. intros c Hc. apply Hd in Hc. right.
    unfold isdigit10 in Hc. lia. }
  assert (P : Forall (fun c => c = 46 \/ 48 <= c <= 57) [46]) by (constructor; [now left|constructor]).
  unfold quad_text. rewrite !Forall_app. auto 10.
Qed.
Lemma quad_nonempty q : quad_ok q -> quad_text q <> [].
Proof. intros H. inversion_clear H as [|? ? (N & _) _]. unfold quad_text. destruct (q1 q); [easy|discriminate]. Qed.

(** An address in figures is not looked up. *)
Lemma dns_resolver_quad `{Env} fuel p q c0 t w :
  quad_ok q -> c0 = 58 \/ c0 = 47 -> cstr (mm w) p (quad_text q ++ c0 :: t) -> (length (quad_text q) < fuel)%nat ->
  dns_resolver fuel p w = Some (Ret p, w).
Proof.
  intros Hq H0 Hc Hf. pose proof (quad_chars q Hq) as Hch. pose proof (quad_nonempty q Hq) as Hne.
  unfold dns_resolver. run. rewrite (host_end_spec (mm w) p c0 t (quad_text q) H0 0 fuel);
    [|now rewrite Z.add_0_r | eapply Forall_impl; [|exact Hch]; cbv beta; lia | exact Hf].
  cbn [Z.add]. assert (L : (0 < length (quad_text q))%nat) by (destruct (quad_text q); [easy|cbn; lia]).
  destruct (Z.eqb_spec (Z.of_nat (length (quad_text q))) 0); [lia|].
  rewrite only_digits_spec; [reflexivity|]. intros i Hi. cbv zeta.
  destruct (cstr_nth _ _ _ i 0 Hc) as (-> & _); [rewrite length_app; cbn; lia|]. rewrite app_nth1 by lia.
  rewrite Forall_forall in Hch. apply Hch, nth_In. lia.
Qed.

(** The whole of the dispatch, for a URL with an address and perhaps a port. *)
Lemma loadkernel_dispatch `{Env} fuel protos dflt fname w p scheme q tail path :
  let text := scheme ++ txt "://"%string ++ quad_text q ++ tail ++ [47] ++ path in
  cstr (mm w) fname text -> 0 <= fname -> (length text < fuel)%nat -> ~ In 58 scheme -> quad_ok q ->
  tail = [] \/ (exists port, tail = 58 :: port /\ ~ In 47 port) ->
  find (fun p => list_eqb scheme (firstn (length scheme) (p_name p ++ [0]))) protos = Some p ->
  loadkernel fuel protos dflt fname w =
    p_load p (-1) (fname + Z.of_nat (length scheme + 3 + length (quad_text q) + length tail) + 1)
      (set_arptable (list_set (arptable w) ARP_SERVER {| ipaddr := quad_ip q; node := node (arp w ARP_SERVER) |}) w).
Proof.
  intros text Hc Hf0 Hf Hs Hq Ht Hp. unfold loadkernel. run.
  pose proof (quad_chars q Hq) as Hch. pose proof (quad_nonempty q Hq) as Hne.
  assert (Hl : (length text = length scheme + 3 + length (quad_text q) + length tail + 1 + length path)%nat)
    by (subst text; rewrite !length_app; cbn [length txt map String.list_ascii_of_string]; lia).
  rewrite (scheme_len_spec (mm w) fname (skipn 1 (txt "://"%string) ++ quad_text q ++ tail ++ [47] ++ path) scheme 0 fuel);
    [|rewrite Z.add_0_r; exact Hc | exact Hs | lia].
  unfold ofuel at 1. run. cbn [Z.add].
  assert (Em : forall pr, proto_matches (mm w) fname (Z.of_nat (length scheme)) pr
                          = list_eqb scheme (firstn (length scheme) (p_name pr ++ [0]))).
  { intros pr. unfold proto_matches. rewrite Nat2Z.id. rewrite (cstr_ldn _ _ _ _ Hc) by lia.
    subst text. now rewrite firstn_app, Nat.sub_diag, firstn_all, firstn_O, app_nil_r. }
  assert (Ef : find (proto_matches (mm w) fname (Z.of_nat (length scheme))) protos = Some p).
  { rewrite <- Hp. clear -Em. induction protos as [|pr l IH]; cbn [find]; [reflexivity|]. now rewrite Em, IH. }
  rewrite Ef. apply cstr_app in Hc. pose proof (cstr_ldn _ _ _ 3 Hc ltac:(rewrite !length_app; cbn; lia)) as E3.
  rewrite E3. change (firstn 3 (txt "://"%string ++ _)) with (txt "://"%string). rewrite list_eqb_refl.
  apply cstr_app in Hc. change (Z.of_nat (length (txt "://"%string))) with 3 in Hc.
  set (name := fname + Z.of_nat (length scheme) + 3) in *.
  assert (Ec : exists c0 t, quad_text q ++ tail ++ [47] ++ path = quad_text q ++ c0 :: t /\ (c0 = 58 \/ c0 = 47)).
  { destruct Ht as [->|(port & -> & _)]; do 2 eexists; (split; [reflexivity|auto]). }
  destruct Ec as (c0 & t & Ec & H0).
  assert (N0 : ld8 (mm w) name <> 47).
  { destruct (quad_text q) as [|d l]; [easy|]. destruct Hc as (-> & _). inversion_clear Hch. lia. }
  apply Z.eqb_neq in N0. rewrite N0. cbn [negb]. unfold url_host. run.
  rewrite (dns_resolver_quad fuel name q c0 t w Hq H0); [|rewrite <- Ec; exact Hc|lia].
  destruct (Z.eqb_spec name 0); [subst name; lia|]. cbn [negb].
  pose proof (cstr_ldn _ _ _ (length (quad_text q)) Hc ltac:(rewrite length_app; lia)) as Eq.
  rewrite firstn_app, Nat.sub_diag, firstn_all, firstn_O, app_nil_r in Eq.
  pose proof Hc as Hc2. rewrite Ec in Hc2. apply cstr_app in Hc2. destruct Hc2 as (Hc0 & _).
  rewrite (inet_aton_fields (mm w) name (q1 q) (q2 q) (q3 q) (q4 q) fuel Eq Hq);
    [|fold (quad_text q); rewrite Hc0; destruct H0 as [-> | ->]; reflexivity | fold (quad_text q); lia].
  unfold ofuel at 1. run. fold (quad_text q) (quad_ip q).
  assert (Nt : Forall (fun c => c <> 47) (quad_text q ++ tail)).
  { apply Forall_app. split; [eapply Forall_impl; [|exact Hch]; cbv beta; lia|].
    destruct Ht as [->|(port & -> & Hport)]; [constructor|]. apply Forall_forall. intros c Hin ->. now destruct Hin. }
  rewrite app_assoc in Hc. cbn [app] in Hc.
  rewrite (to_slash_spec (mm w) path _ Nt name fuel Hc) by (rewrite length_app; lia).
  unfold ofuel. run. cbn [fst snd pick_ip]. unfold url_port_of. run.
  pose proof (cstr_app _ _ _ _ Hc) as (E47 & _). rewrite E47. cbn [Z.eqb Pos.eqb fst snd]. rewrite E47, Z.eqb_refl.
  unfold set_arp. run. f_equal. subst name. rewrite length_app. lia.
Qed.

(** ** The protocols of the build *)

Definition tftp_url `{Env} (fuel : nat) (fnc : Z -> Z -> Z -> bool -> M Z) (st : tftp_state) (name : Z) : M Z :=
  w <- get ;;
  s <- ofuel (read_cstr fuel (mm w) name) ;;
  r <- tftp fuel s fnc st ;; ret (fst r).
(** The static variables of the clients that keep them in records, and where the program lies. *)
Record statics := { s_vo : Z; s_heap : heap; s_slam : slam_state; s_tftp : tftp_state; s_iport : Z }.
Definition slam_load `{Env} (fuel : nat) (fnc : Z -> Z -> Z -> bool -> M Z) (vo : Z) (st : slam_state) (url_port name : Z)
    : M Z :=
  r <- url_slam vo fuel url_port name fnc st ;; ret (fst r).
Definition tftm_load `{Env} (fuel : nat) (fnc : Z -> Z -> Z -> bool -> M Z) (st : statics) (name : Z) : M Z :=
  r <- url_tftm (s_vo st) fuel name fnc (s_iport st) (s_heap st) ;; ret (fst (fst r)).
(** The table of a build with every protocol.  The loader of file URLs ([Disk.url_file], which works on the disk drivers and their state) is
    an argument, like the function [fnc] that gets the blocks. *)
Definition protos `{Env} (fuel : nat) (fnc : Z -> Z -> Z -> bool -> M Z) (file : Z -> Z -> M Z) (st : statics) : list proto :=
  [{| p_name := txt "x-tftm"%string; p_load := fun _ => tftm_load fuel fnc st |};
   {| p_name := txt "x-slam"%string; p_load := slam_load fuel fnc (s_vo st) (s_slam st) |};
   {| p_name := txt "nfs"%string; p_load := fun _ name => nfs fuel name fnc |};
   {| p_name := txt "file"%string; p_load := file |};
   {| p_name := txt "tftp"%string; p_load := fun _ => tftp_url fuel fnc (s_tftp st) |};
   {| p_name := txt "http"%string; p_load := fun _ => http fuel fuel fnc |};
   {| p_name := txt "fsp"%string; p_load := fun _ name => url_fsp fuel name fnc |}].
(** What is loaded when the name is not a URL: [load_block] over TFTP. *)
Definition default_load `{Env} (fuel : nat) (fnc : Z -> Z -> Z -> bool -> M Z) (st : statics) : Z -> M Z := tftp_url fuel fnc (s_tftp st).

(** ** Properties *)

(** A URL is taken apart.  For a name of the form scheme://a.b.c.d/path, [loadkernel] calls the loader of
    the first protocol whose name starts with the scheme, without a port, with the name behind the slash, and
    with the address as that of the server; nothing is sent and nothing else is changed before. *)
Theorem loadkernel_url `{Env} fuel ps dflt fname w p scheme q path :
  let text := scheme ++ txt "://"%string ++ quad_text q ++ [47] ++ path in
  cstr (mm w) fname text -> 0 <= fname -> (length text < fuel)%nat -> ~ In 58 scheme -> quad_ok q ->
  find (fun p => list_eqb scheme (firstn (length scheme) (p_name p ++ [0]))) ps = Some p ->
  loadkernel fuel ps dflt fname w =
    p_load p (-1) (fname + Z.of_nat (length scheme + 3 + length (quad_text q)) + 1)
      (set_arptable (list_set (arptable w) ARP_SERVER {| ipaddr := quad_ip q; node := node (arp w ARP_SERVER) |}) w).
Proof.
  intros text Hc H0 Hf Hs Hq Hp.
  rewrite (loadkernel_dispatch fuel ps dflt fname w p scheme q [] path Hc H0 Hf Hs Hq (or_introl eq_refl) Hp).
  cbn [length]. now rewrite Nat.add_0_r.
Qed.

(** The port of a URL is ignored.  With the resolver compiled in, the search for the slash passes over
    the colon and the port before the test for a colon is made, so the loader is called without a
    port whatever the URL says. *)
Theorem loadkernel_port_ignored `{Env} fuel ps dflt fname w p scheme q port path :
  let text := scheme ++ txt "://"%string ++ quad_text q ++ (58 :: port) ++ [47] ++ path in
  cstr (mm w) fname text -> 0 <= fname -> (length text < fuel)%nat -> ~ In 58 scheme -> quad_ok q -> ~ In 47 port ->
  find (fun p => list_eqb scheme (firstn (length scheme) (p_name p ++ [0]))) ps = Some p ->
  exists name w', loadkernel fuel ps dflt fname w = p_load p (-1) name w' /\ cstr (mm w') name path.
Proof.
  intros text Hc H0 Hf Hs Hq Hport Hp. do 2 eexists. split.
  - apply (loadkernel_dispatch fuel ps dflt fname w p scheme q (58 :: port) path Hc H0 Hf Hs Hq); [|exact Hp].
    right. now exists port.
  - cbn [mm set_arptable]. unfold text in Hc. rewrite !app_assoc in Hc. apply cstr_app in Hc.
    rewrite !length_app in Hc. change (length (txt "://"%string)) with 3%nat in Hc. change (length [47]) with 1%nat in Hc.
    rewrite Nat2Z.inj_add in Hc. change (Z.of_nat 1) with 1 in Hc. rewrite Z.add_assoc in Hc. exact Hc.
Qed.

(** Starting to number the calls of NFS disturbs nothing else. *)
Lemma rpc_init_same `{Env} w : exists w', rpc_init w = Some (Ret tt, w') /\ same_tabs w w' /\ arptable w' = arptable w /\ cnt_rx w' = cnt_rx w /\
  cnt_kbd w' = cnt_kbd w /\ sent w' = sent w /\ (forall x, x < rpc_id \/ rpc_id + 4 <= x -> ld8 (mm w') x = ld8 (mm w) x).
Proof.
  unfold rpc_init, currticks, store32. run. eexists. split; [reflexivity|]. split; [repeat (split; [reflexivity|])|repeat (split; [reflexivity|])];
    intros x Hx; cbn [mm set_mm set_cnt_clock]; apply ld8_st32_ne; unfold rpc_id, lacp_pkt in *; lia.
Qed.

(** C2: Booting over TFTP, from the boot file name of the reply to the file in memory, in a build with every protocol.  When the
    name in the stored reply is a URL of a TFTP server that answers, [eth_load] takes it apart, picks the
    TFTP client from the table, sets the server, sends from a new port to port 69 one request that names the path of
    the URL, acknowledges every block once and in order to the port the server sends from, hands the whole file to
    its consumer, and sends nothing else.  If the consumer has not started the image by then, [eth_load] waits and
    has Etherboot start again. *)
Theorem boot_over_tftp `{Env} n bs dest file st w cli mac hd s sp q path nap :
  let url := txt "tftp"%string ++ txt "://"%string ++ quad_text q ++ [47] ++ path in
  let fuel := S (length bs + S n) in
  let w1 := set_arptable (list_set (arptable w) ARP_SERVER {| ipaddr := quad_ip q; node := node (arp w ARP_SERVER) |}) w in
  cstr (mm w) KERNEL_BUF url -> quad_ok q -> (length url < fuel)%nat -> (length url <= 127)%nat ->
  ready w1 cli (quad_ip q) mac -> 0x40000 <= dest -> length hd = 12%nat -> 0 <= lport (s_tftp st) < 65536 ->
  Z.of_nat (length bs) < 65535 -> file_blocks 512 bs -> rx (cnt_rx w) = None -> kbd (cnt_kbd w) = None ->
  (forall j b, nth_error bs j = Some b ->
     rx (cnt_rx w + 1 + j) = Some (data_frame hd s cli sp (u16 (lport (s_tftp st) + 1)) (1 + Z.of_nat j) b)) ->
  exists w' acks rrq,
    eth_load fuel true (protos fuel (store_block dest 512) file st) (default_load fuel (store_block dest 512) st) nap w
      = (nap ;;; longjmp (-1)) w' /\
    ldn (mm w') dest (length (concat bs)) = concat bs /\ ipaddr (arp w' ARP_SERVER) = quad_ip q /\
    sent w' = acks ++ rrq :: sent w /\ rrq_of mac (u16 (lport (s_tftp st) + 1)) path rrq /\
    Forall2 (ack_of mac (u16 (lport (s_tftp st) + 1)) (u16 sp)) (rev (map (fun j => 1 + Z.of_nat j) (seq 0 (length bs)))) acks.
Proof.
  intros url fuel w1 Hc Hq Hf Hp Hr Hd Hh Hl Hb Hfb Hrx Hk Hsrv.
  destruct (rpc_init_same w) as (w0 & E0 & T0 & A0 & C0 & K0 & S0 & M0).
  assert (Hc0 : cstr (mm w0) KERNEL_BUF url).
  { apply (cstr_ext (mm w)); [|exact Hc]. intros x Hx. symmetry. apply M0. unfold rpc_id, KERNEL_BUF, bootp_data, bp_file_off in *. lia. }
  set (w2 := set_arptable (list_set (arptable w0) ARP_SERVER {| ipaddr := quad_ip q; node := node (arp w0 ARP_SERVER) |}) w0).
  assert (T2 : same_tabs w1 w2).
  { destruct T0 as (B1 & B2 & B3 & B4 & B5 & B6). subst w1 w2. split; [cbn [arptable set_arptable]; unfold arp; now rewrite B1|].
    repeat (split; [assumption|]). exact B6. }
  pose proof (ready_same _ _ _ _ _ T2 Hr) as Hr2.
  assert (Hc' := Hc0). unfold url in Hc'. rewrite !app_assoc in Hc'. apply cstr_app in Hc'.
  rewrite !length_app in Hc'. change (length (txt "://"%string)) with 3%nat in Hc'. change (length [47]) with 1%nat in Hc'.
  rewrite Nat2Z.inj_add in Hc'. change (Z.of_nat 1) with 1 in Hc'. rewrite Z.add_assoc in Hc'.
  assert (Lp : (length path < fuel)%nat /\ (length path <= 256)%nat) by (unfold url in Hf, Hp; rewrite !length_app in Hf, Hp; lia).
  destruct (tftp_ok n bs path dest (s_tftp st) w2 cli (quad_ip q) mac hd s sp) as (w' & st' & acks & rrq & E1 & L & S1 & R & K & A');
    try assumption; try apply Lp;
    [exact (cstr_bytes _ _ _ Hc') | change (cnt_rx w2) with (cnt_rx w0); now rewrite C0 | change (cnt_kbd w2) with (cnt_kbd w0); now rewrite K0
    | change (cnt_rx w2) with (cnt_rx w0); rewrite C0; exact Hsrv |].
  exists w', acks, rrq. split; [|split; [exact L|split; [unfold arp; rewrite (proj1 A'); apply Hr2|split; [rewrite S1; change (sent w2) with (sent w0); now rewrite S0|now split]]]].
  unfold eth_load. unfold bind at 1. rewrite E0. run.
  assert (N0 : ld8 (mm w0) KERNEL_BUF <> 0) by (destruct Hc0 as (-> & _); discriminate). apply Z.eqb_neq in N0. rewrite N0. cbn [negb].
  pose proof (loadkernel_dispatch fuel (protos fuel (store_block dest 512) file st) (default_load fuel (store_block dest 512) st) KERNEL_BUF w0
    {| p_name := txt "tftp"%string; p_load := fun _ => tftp_url fuel (store_block dest 512) (s_tftp st) |}
    (txt "tftp"%string) q [] path Hc0 ltac:(discriminate) Hf) as L1.
  cbn [length app] in L1. rewrite L1; [|vm_compute; intuition discriminate | exact Hq | now left | reflexivity].
  rewrite Nat.add_0_r. cbn [p_load]. unfold tftp_url. run. fold w2. change (mm w2) with (mm w0).
  rewrite (read_cstr_spec _ path) by (exact Hc' || apply Lp). unfold ofuel. run. unfold fuel. now rewrite E1.
Qed.

(** *** Witnesses *)

Definition quad2 : quad := {| q1 := txt "10"%string; q2 := txt "0"%string; q3 := txt "0"%string; q4 := txt "2"%string |}.
Lemma quad2_ok : quad_ok quad2.
Proof. repeat constructor; try discriminate. Qed.
Definition url_world (s : String.string) : world :=
  let w := tftp_world in set_mm (stn (mm w) 0x60000 (txt s ++ [0])) w.
Definition plain_proto : proto :=
  {| p_name := txt "http"%string; p_load := fun port name => w <- get ;; ret (port * 1000 + ld8 (mm w) name) |}.
Lemma loadkernel_url_witness :
  exists w', @loadkernel tftp_env 40 [plain_proto] (fun _ => ret 0) 0x60000 (url_world "http://10.0.0.2/k"%string)
               = Some (Ret (-893), w') /\ ipaddr (arp w' ARP_SERVER) = 0x0200000a.
Proof.
  pose proof (@loadkernel_url tftp_env 40 [plain_proto] (fun _ => ret 0) 0x60000 (url_world "http://10.0.0.2/k"%string)
    plain_proto (txt "http"%string) quad2 (txt "k"%string)) as U.
  eexists. split.
  - etransitivity; [apply U|].
    + apply cstrb_cstr. vm_compute. reflexivity.
    + lia.
    + apply Nat.ltb_lt. vm_compute. reflexivity.
    + vm_compute. intuition discriminate.
    + exact quad2_ok.
    + reflexivity.
    + cbn [p_load plain_proto]. run. reflexivity.
  - reflexivity.
Defined.
Lemma loadkernel_port_ignored_witness :
  exists name w', @loadkernel tftp_env 40 [plain_proto] (fun _ => ret 0) 0x60000 (url_world "http://10.0.0.2:8080/k"%string)
    = p_load plain_proto (-1) name w' /\ cstr (mm w') name (txt "k"%string).
Proof.
  apply (@loadkernel_port_ignored tftp_env 40 [plain_proto] (fun _ => ret 0) 0x60000 (url_world "http://10.0.0.2:8080/k"%string)
    plain_proto (txt "http"%string) quad2 (txt "8080"%string) (txt "k"%string)).
  - apply cstrb_cstr. vm_compute. reflexivity.
  - lia.
  - apply Nat.ltb_lt. vm_compute. reflexivity.
  - vm_compute. intuition discriminate.
  - exact quad2_ok.
  - vm_compute. intuition discriminate.
  - reflexivity.
Defined.
(** A machine whose stored reply names tftp://10.0.0.2/vmlinuz. *)
Definition reply_machine : world := set_mm (stn (mm tftp_world) KERNEL_BUF (txt "tftp://10.0.0.2/vmlinuz"%string ++ [0])) tftp_world.
Definition statics0 : statics :=
  {| s_vo := 0; s_heap := {| heap_ptr := 0x200000; heap_top := 0x100000; heap_bot := 0x200000 |}; s_slam := slam_state0; s_tftp := tftp_init; s_iport := 1000 |}.
Lemma boot_over_tftp_witness :
  exists w' acks rrq,
    @eth_load tftp_env 33 true (@protos tftp_env 33 (store_block 0x100000 512) (fun _ _ => ret 0) statics0)
      (@default_load tftp_env 33 (store_block 0x100000 512) statics0) (ret tt) reply_machine = Some (Jmp (-1), w') /\
    ldn (mm w') 0x100000 515 = concat file2 /\ sent w' = acks ++ [rrq].
Proof.
  destruct (@boot_over_tftp tftp_env 29 file2 0x100000 (fun _ _ => ret 0) statics0 reply_machine 0x0100000a [2; 0; 0; 0; 0; 2]
    [2; 0; 0; 0; 0; 1; 2; 0; 0; 0; 0; 2] 0x0200000a 1069 quad2 (txt "vmlinuz"%string) (ret tt)) as (w' & acks & rrq & E1 & L & _ & S1 & _).
  - apply cstrb_cstr. vm_compute. reflexivity.
  - exact quad2_ok.
  - apply Nat.ltb_lt. vm_compute. reflexivity.
  - apply Nat.leb_le. vm_compute. reflexivity.
  - split; [|split; [reflexivity|split; [lia|split; [reflexivity|]]]].
    + split; [vm_compute; reflexivity|]. split; [reflexivity|]. split; [reflexivity|]. repeat constructor.
    + split; [vm_compute; intuition discriminate|]. split; [vm_compute; discriminate|]. split; [vm_compute; reflexivity|].
      exists 1%nat. split; [vm_compute; reflexivity|]. split; reflexivity.
  - lia.
  - reflexivity.
  - cbn. lia.
  - cbn. lia.
  - cbn [file_blocks file2]. split; [reflexivity|]. split; [|split; [cbn; lia|repeat (constructor; [lia|]); constructor]].
    apply Forall_forall. intros x Hx. apply repeat_spec in Hx. lia.
  - reflexivity.
  - reflexivity.
  - intros [|[|j]] b; cbn [nth_error file2]; [intros [= <-]; reflexivity .. | now destruct j].
  - exists w', acks, rrq. split; [exact E1|]. split; [exact L|exact S1].
Defined.
