(* ===== verification/PxeStack.v ===== *)
(** The PXE stack that Etherboot offers to the program it boots: its state machine
    ([ensure_pxe_state] and what it calls, [src/src/core/pxe_export.c]), its installation and its interrupt
    vectors ([src/src/arch/i386/core/pxe_callbacks.c]) and the mangler of the memory map that goes with it
    ([src/src/arch/i386/firmware/pcbios/hidemem.c]).

    The stack lies in base memory.  Its tables, the buffers behind them, the interrupt vectors and the copied
    code are bytes of the memory; the member [state] is kept in the record of the machine, as are the static
    variables.  The code that is copied is assembler, so its bytes and the offsets of its variables are
    given by the [Platform], with the configuration space, the drivers and the answers of the BIOS. *)

From S2P Require Import Prelude Memory StringLib Misc Vsprintf Heap Net Lacp Nic Tftp Basemem Pci.
Import String.StringSyntax.
Local Open Scope etherboot_scope.

(** ** The machine *)

Inductive irq_action_t := DISABLE | ENABLE | FORCE.
Inductive pxe_stack_state_t := CAN_UNLOAD | MIDWAY | READY.
Definition st_num (x : pxe_stack_state_t) : Z := match x with CAN_UNLOAD => 0 | MIDWAY => 1 | READY => 2 end.

(** The network and [struct nic]: whether [nic.dev.disable] is set, and the actions asked of [nic.irq] and of
    [nic.dev.disable], newest first. *)
Inductive card_call := CIrq (a : irq_action_t) | CDisable.
Record card := { net : world; disable_set : bool; ioaddr : Z; irqno : Z; calls : list card_call }.
Definition set_net (w : world) (c : card) : card :=
  {| net := w; disable_set := disable_set c; ioaddr := ioaddr c; irqno := irqno c; calls := calls c |}.

Class Platform := {
  (** the difference between virtual and physical addresses, and the bounds of Etherboot *)
  vo : Z;
  text_ : Z;
  end_ : Z;
  (** the PCI bus and the drivers *)
  cfg_byte : Z -> Z -> Z -> Z;
  cfg_dword : Z -> Z -> Z -> Z;
  pci_table : list pci_driver;
  isa_table : list isa_driver;
  pci_attach : nat -> pci_device -> Z -> card -> bool * Z * card;
  isa_attach : nat -> Z -> card -> bool * Z * card;
  (** the BIOS *)
  bios_map : list e820entry;
  bios_basemem : mem -> Z;
  bios_extmem : Z;
  stack_high : bool;
  (** [pxe_callback_interface] and the offsets of what is used of it *)
  pxe_code : list Z;
  off_in_call_far : Z;
  off_pxenv_in_call_far : Z;
  off_intercept_int1a : Z;
  off_intercepted_int1a : Z;
  off_pxenv_location : Z;
  (** [rm_callback_interface], with the offset of [rm_etherboot_location] *)
  rm_code : list Z;
  off_etherboot_location : Z;
  (** [e820mangler] *)
  mangler_code : list Z;
  off_intercepted_int15 : Z;
  off_hide_memory : Z;
  (** the link-time constant [_pxe_stack_size] *)
  pxe_stack_size : Z;
}.

Record psys := {
  hw : card;
  fw : base;
  hp : heap;
  ndev : pdev;
  stack : option Z;
  state : pxe_stack_state_t;
  mangling : bool;
  mangler : Z;
  tst : tftp_state;
  initialized : bool;
}.
Definition set_hw v s := {| hw := v; fw := fw s; hp := hp s; ndev := ndev s; stack := stack s; state := state s;
  mangling := mangling s; mangler := mangler s; tst := tst s; initialized := initialized s |}.
Definition set_fw v s := {| hw := hw s; fw := v; hp := hp s; ndev := ndev s; stack := stack s; state := state s;
  mangling := mangling s; mangler := mangler s; tst := tst s; initialized := initialized s |}.
Definition set_hp v s := {| hw := hw s; fw := fw s; hp := v; ndev := ndev s; stack := stack s; state := state s;
  mangling := mangling s; mangler := mangler s; tst := tst s; initialized := initialized s |}.
Definition set_ndev v s := {| hw := hw s; fw := fw s; hp := hp s; ndev := v; stack := stack s; state := state s;
  mangling := mangling s; mangler := mangler s; tst := tst s; initialized := initialized s |}.
Definition set_pstack v s := {| hw := hw s; fw := fw s; hp := hp s; ndev := ndev s; stack := v; state := state s;
  mangling := mangling s; mangler := mangler s; tst := tst s; initialized := initialized s |}.
Definition set_state v s := {| hw := hw s; fw := fw s; hp := hp s; ndev := ndev s; stack := stack s; state := v;
  mangling := mangling s; mangler := mangler s; tst := tst s; initialized := initialized s |}.
Definition set_mangling v s := {| hw := hw s; fw := fw s; hp := hp s; ndev := ndev s; stack := stack s;
  state := state s; mangling := v; mangler := mangler s; tst := tst s; initialized := initialized s |}.
Definition set_mangler v s := {| hw := hw s; fw := fw s; hp := hp s; ndev := ndev s; stack := stack s;
  state := state s; mangling := mangling s; mangler := v; tst := tst s; initialized := initialized s |}.
Definition set_tst v s := {| hw := hw s; fw := fw s; hp := hp s; ndev := ndev s; stack := stack s; state := state s;
  mangling := mangling s; mangler := mangler s; tst := v; initialized := initialized s |}.
Definition set_init v s := {| hw := hw s; fw := fw s; hp := hp s; ndev := ndev s; stack := stack s; state := state s;
  mangling := mangling s; mangler := mangler s; tst := tst s; initialized := v |}.
Definition pmem (s : psys) : mem := mm (net (hw s)).
Definition set_pmem (m : mem) (s : psys) : psys := set_hw (set_net (set_mm m (net (hw s))) (hw s)) s.

(** *** Sequencing *)

(** [None] when a bound on the rounds of a loop was reached. *)
Definition PX (A : Type) : Type := psys -> option (res A * psys).
Definition pret {A} (a : A) : PX A := fun s => Some (Ret a, s).
Definition pbind {A B} (c : PX A) (k : A -> PX B) : PX B := fun s =>
  match c s with
  | None => None
  | Some (Ret a, s) => k a s
  | Some (Jmp j, s) => Some (Jmp j, s)
  end.
Definition pgets {A} (f : psys -> A) : PX A := fun s => Some (Ret (f s), s).
Definition pmod (f : psys -> psys) : PX unit := fun s => Some (Ret tt, f s).
Definition pmem_do (f : mem -> mem) : PX unit := pmod (fun s => set_pmem (f (pmem s)) s).
Definition pjmp {A} (j : Z) : PX A := fun s => Some (Jmp j, s).
(** A call of the network code. *)
Definition on_world {A} (c : M A) : PX A := fun s =>
  match c (net (hw s)) with
  | None => None
  | Some (r, w) => Some (r, set_hw (set_net w (hw s)) s)
  end.
Notation "x <~ c ;; k" := (pbind c (fun x => k)) (at level 61, c at next level, right associativity) : etherboot_scope.
Notation "c ;~ k" := (pbind c (fun _ => k)) (at level 61, right associativity) : etherboot_scope.

(** ** The layout of [pxe_stack_t] *)

Definition sizeof_pxe : nat := 88.
Definition sizeof_pxenv : nat := 44.
Definition off_pxenv : Z := 96.
(** the union of [cached_info], [packet], [tftpdata] and [readfile] *)
Definition off_union : Z := 144.
Definition off_arch_data : Z := 1664.
Definition INT15_VECTOR_phys : Z := 4 * 0x15.
Definition INT1A_VECTOR_phys : Z := 4 * 0x1a.

(** Values to store: the width in bytes, the offset, the value. *)
Inductive field := F8 (o v : Z) | F16 (o v : Z) | F32 (o v : Z).
Definition put_field (p : Z) (m : mem) (f : field) : mem :=
  match f with
  | F8 o v => st8 m (p + o) v
  | F16 o v => st16 m (p + o) v
  | F32 o v => st32 m (p + o) v
  end.
Definition put_fields (p : Z) (l : list field) (m : mem) : mem := fold_left (put_field p) l m.
(** A [segoff_t]: the offset comes first. *)
Definition segoff (o seg off : Z) : list field := [F16 o off; F16 (o + 2) seg].
(** A [SEGDESC_t]. *)
Definition segdesc (o addr phys size : Z) : list field := [F16 o addr; F32 (o + 2) phys; F16 (o + 6) size].

(** [byte_checksum] *)
Fixpoint byte_sum (m : mem) (a : Z) (size : nat) (sum : Z) : Z :=
  match size with
  | O => sum
  | S n => byte_sum m (a + 1) n (u32 (sum + ld8 m a))
  end.
Definition byte_checksum (m : mem) (a : Z) (size : nat) : Z := u8 (byte_sum m a size 0).

Section stack.
Context `{E : Env} `{P : Platform} (fuel : nat).

Definition SEGMENT (p : Z) : Z := Z.shiftr (virt_to_phys vo p) 4.
Definition OFFSET (p : Z) : Z := Z.land (virt_to_phys vo p) 0xf.
Definition VIRTUAL (seg off : Z) : Z := phys_to_virt vo (u32 (Z.shiftl seg 4 + off)).
Definition INT15_VECTOR : Z := phys_to_virt vo INT15_VECTOR_phys.
Definition INT1A_VECTOR : Z := phys_to_virt vo INT1A_VECTOR_phys.

(** The base memory code addresses the memory physically. *)
Definition phys_view (m : mem) : mem := fun a => m (phys_to_virt vo a).
Definition virt_view (m : mem) : mem := fun a => m (virt_to_phys vo a).
Definition on_fw {A} (c : base -> option (base * A)) : PX A := fun s =>
  match c (set_bmem (phys_view (pmem s)) (fw s)) with
  | None => None
  | Some (b, a) => Some (Ret a, set_pmem (virt_view (bmem b)) (set_fw b s))
  end.

(** ** hidemem.c *)

Definition install_e820mangler (new_mangler : Z) : PX Z :=
  busy <~ pgets mangling ;;
  if busy : bool then pret 0
  else
    pmem_do (fun m => stn m new_mangler mangler_code) ;~
    pmod (set_mangler new_mangler) ;~
    pret 1.
Definition hide_etherboot : PX Z :=
  s <~ pgets (fun s => s) ;;
  if mangling s then pret 1
  else if mangler s =? 0 then pret 0
  else
    let mg := mangler s in
    pmem_do (fun m => memcpy m (mg + off_intercepted_int15) INT15_VECTOR 4) ;~
    pmem_do (put_fields (mg + off_hide_memory)
               [F32 0 (virt_to_phys vo text_); F32 4 (u32 (end_ - text_));
                F32 8 (heap_ptr (hp s)); F32 12 (u32 (heap_bot (hp s) - heap_ptr (hp s)))]) ;~
    pmem_do (put_fields INT15_VECTOR (segoff 0 (SEGMENT mg) 0)) ;~
    pmod (set_mangling true) ;~
    pret 1.
Definition unhide_etherboot : PX Z :=
  s <~ pgets (fun s => s) ;;
  if negb (mangling s) then pret 1
  else if negb (VIRTUAL (ld16 (pmem s) (INT15_VECTOR + 2)) (ld16 (pmem s) INT15_VECTOR) =? mangler s) then pret 0
  else
    pmem_do (fun m => memcpy m INT15_VECTOR (mangler s + off_intercepted_int15) 4) ;~
    pmod (set_mangling false) ;~
    pret 1.

(** ** Installing the stack *)

(** [install_rm_callback_interface] with [available] zero; the location is part of the code that is copied. *)
Definition install_rm_callback_interface (address : Z) : PX unit :=
  pmem_do (fun m => st32 (stn m address rm_code) (address + off_etherboot_location) (virt_to_phys vo text_)).

(** The contents of the !PXE structure of the stack at [p], which ends at [e]; the members that are not
    listed keep the zero of the memset. *)
Definition pxe_fields (rmstack p e : Z) : list field :=
  [F8 0 33; F8 1 80; F8 2 88; F8 3 69; F8 4 (Z.of_nat sizeof_pxe); F8 6 0; F8 7 0] ++
  segoff 8 0 0 ++ segoff 12 0 0 ++
  segoff 16 (SEGMENT p) (off_arch_data + off_in_call_far) ++
  segoff 20 0 0 ++ segoff 24 0xffff 0xffff ++
  [F8 28 0; F8 29 7; F16 30 0] ++
  segdesc 32 (Z.shiftr rmstack 4) rmstack real_mode_stack_size ++
  segdesc 40 (Z.shiftr rmstack 4) rmstack real_mode_stack_size ++
  segdesc 48 (SEGMENT p) (virt_to_phys vo p) (e - p) ++
  segdesc 64 0 0 0 ++ segdesc 72 0 0 0 ++ segdesc 80 0 0 0.
Definition pxenv_fields (rmstack p e : Z) : list field :=
  [F8 0 80; F8 1 88; F8 2 69; F8 3 78; F8 4 86; F8 5 43; F16 6 0x201; F8 8 (Z.of_nat sizeof_pxenv)] ++
  segoff 10 (SEGMENT p) (off_arch_data + off_pxenv_in_call_far) ++
  [F32 14 0; F16 18 0; F16 20 (Z.shiftr rmstack 4); F16 32 (Z.shiftr rmstack 4);
   F16 22 real_mode_stack_size; F16 34 real_mode_stack_size;
   F16 24 0; F16 26 0; F16 28 0; F16 30 0; F16 36 (SEGMENT p); F16 38 (e - p)] ++
  segoff 40 (SEGMENT p) (OFFSET p).
(** [x->Checksum -= byte_checksum(x, sizeof(x))] *)
Definition fix_checksum (p o : Z) (size : nat) (m : mem) : mem := st8 m (p + o) (ld8 m (p + o) - byte_checksum m p size).

Definition rm_callback_code (p : Z) : Z := p + off_arch_data + Z.of_nat (length pxe_code).
Definition e820mangler_code (p : Z) : Z :=
  let x := u32 (rm_callback_code p + Z.of_nat (length rm_code) + 0xf) in align_down x 16.
Definition stack_end (p : Z) : Z := e820mangler_code p + Z.of_nat (length mangler_code).

Definition allot_stack_base : PX (option Z) :=
  on_fw (allot_base_memory bios_map bios_basemem bios_extmem stack_high fuel pxe_stack_size).
(** [install_pxe_stack]; no base address is [None]. *)
Definition install_pxe_stack (base : option Z) : PX (option Z) :=
  s <~ pgets (fun s => s) ;;
  match stack s with
  | Some p => pret (Some p)
  | None =>
      base <~ (match base with
               | Some b => pret (Some b)
               | None => b <~ allot_stack_base ;; pret (option_map (phys_to_virt vo) b)
               end) ;;
      match base with
      | None => pret None
      | Some b =>
          let p := phys_to_virt vo (align_down (u32 (virt_to_phys vo b + 0xf)) 16) in
          pmod (set_pstack (Some p)) ;~
          pmem_do (fun m => memset m p 0 (Z.to_nat off_arch_data)) ;~
          rmstack <~ pgets (fun s => real_mode_stack (fw s)) ;;
          pmem_do (put_fields p (pxe_fields rmstack p (stack_end p))) ;~
          pmem_do (fix_checksum p 5 sizeof_pxe) ;~
          pmem_do (put_fields (p + off_pxenv) (pxenv_fields rmstack p (stack_end p))) ;~
          pmem_do (fix_checksum (p + off_pxenv) 9 sizeof_pxenv) ;~
          pmod (set_state CAN_UNLOAD) ;~
          pmem_do (fun m => stn m (p + off_arch_data) pxe_code) ;~
          install_rm_callback_interface (rm_callback_code p) ;~
          install_e820mangler (e820mangler_code p) ;~
          pret (Some p)
      end
  end.
Definition use_undi_ds_for_rm_stack (ds : Z) : PX unit :=
  on_fw (fun b => let* b := forget_real_mode_stack bios_map bios_basemem bios_extmem stack_high fuel b in Some (b, tt)) ;~
  pmod (fun s => let b := fw s in
    set_fw {| bmem := bmem b; real_mode_stack := virt_to_phys vo (VIRTUAL ds 0); lock_real_mode_stack := true;
              image_basemem := image_basemem b; image_basemem_size := image_basemem_size b;
              memory_map := memory_map b |} s).

(** ** The vectors *)

Definition hook_pxe_stack : PX Z :=
  s <~ pgets (fun s => s) ;;
  match stack s with
  | None => pret 0
  | Some p =>
      if st_num (state s) >=? st_num MIDWAY then pret 1
      else
        let arch_data := p + off_arch_data in
        hide_etherboot ;~
        pmem_do (fun m => memcpy m (arch_data + off_intercepted_int1a) INT1A_VECTOR 4) ;~
        pmem_do (put_fields (arch_data + off_pxenv_location) (segoff 0 (SEGMENT p) off_pxenv)) ;~
        pmem_do (put_fields INT1A_VECTOR (segoff 0 (SEGMENT arch_data) off_intercept_int1a)) ;~
        pmod (set_state MIDWAY) ;~
        pret 1
  end.
Definition unhook_pxe_stack : PX Z :=
  s <~ pgets (fun s => s) ;;
  match stack s with
  | None => pret 0
  | Some p =>
      if st_num (state s) <=? st_num CAN_UNLOAD then pret 1
      else
        pmem_do (fun m => memcpy m INT1A_VECTOR (p + off_arch_data + off_intercepted_int1a) 4) ;~
        ok <~ unhide_etherboot ;;
        if ok =? 0 then pret 0
        else pmod (set_state CAN_UNLOAD) ;~ pret 1
  end.

(** ** The card *)

Definition eth_irq (a : irq_action_t) : PX unit :=
  pmod (fun s => let c := hw s in
    set_hw {| net := net c; disable_set := disable_set c; ioaddr := ioaddr c; irqno := irqno c;
              calls := CIrq a :: calls c |} s).
(** [disable(&nic.dev)] *)
Definition disable_nic : PX unit :=
  pmod (fun s => let c := hw s in
    if disable_set c
    then set_hw {| net := net c; disable_set := false; ioaddr := ioaddr c; irqno := irqno c;
                   calls := CDisable :: calls c |} s
    else s).
Definition eth_disable : PX unit := on_world (leave_group (ip_transmit fuel) 0) ;~ disable_nic.
(** [eth_probe] *)
Definition eth_probe : PX Z := fun s =>
  match probe cfg_byte cfg_dword pci_table isa_table pci_attach isa_attach fuel (ndev s) (hw s) with
  | None => None
  | Some (r, d, c) => Some (Ret r, set_hw c (set_ndev d s))
  end.
(** [nic.dev.how_probe = ...] *)
Definition set_how_probe (h : Z) : PX unit := pmod (fun s => set_ndev (set_how_to h (to_probe (ndev s)) (ndev s)) s).

Definition pxe_initialise_nic : PX Z :=
  s <~ pgets (fun s => s) ;;
  if st_num (state s) >=? st_num READY then pret 1
  else if disable_set (hw s) then pmod (set_state READY) ;~ pret 1
  else
    set_how_probe (if use_specified (pci_dev (ndev s)) then NEXT
                   else match p_driver (pci_dev (ndev s)) with Some _ => AWAKE | None => FIRST end) ;~
    r <~ eth_probe ;;
    if negb (r =? WORKED) then pret 0
    else pmod (set_state READY) ;~ pret 1.
Definition pxe_shutdown_nic : PX Z :=
  s <~ pgets (fun s => s) ;;
  if st_num (state s) <=? st_num MIDWAY then pret 1
  else
    eth_irq DISABLE ;~
    eth_disable ;~
    pmod (set_state MIDWAY) ;~
    pret 1.

Definition ensure_pxe_state (wanted : pxe_stack_state_t) : PX Z :=
  s <~ pgets (fun s => s) ;;
  match stack s with
  | None => pret 0
  | Some _ =>
      success <~ (if st_num wanted >=? st_num MIDWAY then r <~ hook_pxe_stack ;; pret (Z.land 1 r) else pret 1) ;;
      success <~ (if st_num wanted >? st_num MIDWAY
                  then r <~ pxe_initialise_nic ;; pret (Z.land success r)
                  else r <~ pxe_shutdown_nic ;; pret (Z.land success r)) ;;
      if st_num wanted <? st_num MIDWAY then r <~ unhook_pxe_stack ;; pret (Z.land success r) else pret success
  end.
Definition remove_pxe_stack : PX unit :=
  ok <~ ensure_pxe_state CAN_UNLOAD ;;
  if ok =? 0 then pret tt
  else
    p <~ pgets stack ;;
    on_fw (fun b => let* b := forget_base_memory bios_map bios_basemem bios_extmem stack_high fuel
                                (option_map (virt_to_phys vo) p) pxe_stack_size b in Some (b, tt)) ;~
    pmod (set_pstack None).
End stack.

(** ** Lemmas *)

(** *** Memory *)

(** A copy changes only its destination, whatever overlaps. *)
Lemma ld8_memcpy_frame n : forall m dest src x, x < dest \/ dest + Z.of_nat n <= x -> ld8 (memcpy m dest src n) x = ld8 m x.
Proof. induction n as [|n IH]; intros m dest src x Hx; cbn [memcpy]; [reflexivity|]. rewrite IH, ld8_st8_ne by lia. reflexivity. Qed.
Lemma ld16_memcpy_frame m dest src n a : a + 2 <= dest \/ dest + Z.of_nat n <= a -> ld16 (memcpy m dest src n) a = ld16 m a.
Proof. intros Ha. apply ld16_ext. intros x Hx. apply ld8_memcpy_frame. lia. Qed.

Lemma pmem_set m s : pmem (set_pmem m s) = m.
Proof. reflexivity. Qed.
Lemma set_pmem_twice m m' s : set_pmem m (set_pmem m' s) = set_pmem m s.
Proof. reflexivity. Qed.
Lemma set_pmem_mangling m b s : set_pmem m (set_mangling b s) = set_mangling b (set_pmem m s).
Proof. reflexivity. Qed.
Lemma set_pmem_state m b s : set_pmem m (set_state b s) = set_state b (set_pmem m s).
Proof. reflexivity. Qed.
Lemma set_pmem_pstack m b s : set_pmem m (set_pstack b s) = set_pstack b (set_pmem m s).
Proof. reflexivity. Qed.
Lemma pmem_mangling b s : pmem (set_mangling b s) = pmem s.
Proof. reflexivity. Qed.
Lemma pmem_state b s : pmem (set_state b s) = pmem s.
Proof. reflexivity. Qed.
Lemma pmem_pstack b s : pmem (set_pstack b s) = pmem s.
Proof. reflexivity. Qed.
Lemma pbind_mem {A} f (k : unit -> PX A) s : pbind (pmem_do f) k s = k tt (set_pmem (f (pmem s)) s).
Proof. reflexivity. Qed.
Lemma pbind_mod {A} f (k : unit -> PX A) s : pbind (pmod f) k s = k tt (f s).
Proof. reflexivity. Qed.
Lemma pbind_assoc {A B C} (c : PX A) (k : A -> PX B) (l : B -> PX C) s : pbind (pbind c k) l s = pbind c (fun a => pbind (k a) l) s.
Proof. unfold pbind. now destruct (c s) as [[[a|j] s1]|]. Qed.
Lemma pbind_ret {A B} (a : A) (k : A -> PX B) s : pbind (pret a) k s = k a s.
Proof. reflexivity. Qed.
Lemma pbind_gets {A B} (f : psys -> A) (k : A -> PX B) s : pbind (pgets f) k s = k (f s) s.
Proof. reflexivity. Qed.

(** Run a sequence of primitive steps, with the memory outermost. *)
Create Rewrite HintDb pxe_run.
#[export] Hint Rewrite @pbind_assoc @pbind_mem @pbind_mod @pbind_ret @pbind_gets pmem_set set_pmem_twice set_pmem_mangling set_pmem_state
  set_pmem_pstack pmem_mangling pmem_state pmem_pstack : pxe_run.
Ltac prun := repeat (autorewrite with pxe_run; cbv beta).

(** *** Computations that leave the stack alone *)

(** What the state machine is about: where the stack is, its state, the mangler, and whether the card is up. *)
Definition same_stack (s s' : psys) : Prop :=
  stack s' = stack s /\ state s' = state s /\ mangling s' = mangling s /\ mangler s' = mangler s /\
  disable_set (hw s') = disable_set (hw s).
Lemma same_stack_refl s : same_stack s s.
Proof. now unfold same_stack. Qed.
Lemma same_stack_trans s1 s2 s3 : same_stack s1 s2 -> same_stack s2 s3 -> same_stack s1 s3.
Proof. unfold same_stack. intuition congruence. Qed.
(** However [c] ends. *)
Definition frames {A} (c : PX A) : Prop := forall s r s', c s = Some (r, s') -> same_stack s s'.

Create HintDb pxe.
Lemma frames_ret {A} (a : A) : frames (pret a).
Proof. intros s r s' [= _ <-]. apply same_stack_refl. Qed.
Lemma frames_jmp {A} j : frames (@pjmp A j).
Proof. intros s r s' [= _ <-]. apply same_stack_refl. Qed.
Lemma frames_gets {A} (f : psys -> A) : frames (pgets f).
Proof. intros s r s' [= _ <-]. apply same_stack_refl. Qed.
Lemma frames_mem f : frames (pmem_do f).
Proof. intros s r s' [= _ <-]. now unfold same_stack. Qed.
Lemma frames_tst v : frames (pmod (set_tst v)).
Proof. intros s r s' [= _ <-]. now unfold same_stack. Qed.
Lemma frames_world {A} (c : M A) : frames (on_world c).
Proof. intros s r s'. unfold on_world. destruct (c _) as [[x w]|]; [|discriminate]. intros [= _ <-]. now unfold same_stack. Qed.
Lemma frames_irq a : frames (eth_irq a).
Proof. intros s r s' [= _ <-]. now unfold same_stack. Qed.
Lemma frames_how h : frames (set_how_probe h).
Proof. intros s r s' [= _ <-]. now unfold same_stack. Qed.
Lemma frames_bind {A B} (c : PX A) (k : A -> PX B) : frames c -> (forall a, frames (k a)) -> frames (pbind c k).
Proof.
  intros Hc Hk s r s'. unfold pbind. destruct (c s) as [[[a|j] s1]|] eqn:E; [| |discriminate].
  - intros H. eapply same_stack_trans; [eapply Hc, E|eapply Hk, H].
  - intros [= _ <-]. eapply Hc, E.
Qed.
Lemma frames_fw `{Platform} {A} (c : base -> option (base * A)) : frames (on_fw c).
Proof. intros s r s'. unfold on_fw. destruct (c _) as [[b a]|]; [|discriminate]. intros [= _ <-]. now unfold same_stack. Qed.
#[export] Hint Resolve frames_ret frames_jmp frames_gets frames_mem frames_tst frames_world frames_irq frames_how frames_fw
  same_stack_refl : pxe.
#[export] Hint Extern 2 (frames (pbind _ _)) => apply frames_bind; [|intros] : pxe.
#[export] Hint Extern 3 (frames (if ?b then _ else _)) => destruct b : pxe.
#[export] Hint Extern 3 (frames (match ?b with _ => _ end)) => destruct b : pxe.

(** An invariant of a computation, however it ends. *)
Definition keeps (I : psys -> Prop) {A} (c : PX A) : Prop := forall s r s', I s -> c s = Some (r, s') -> I s'.
Lemma keeps_bind I {A B} (c : PX A) (k : A -> PX B) : keeps I c -> (forall a, keeps I (k a)) -> keeps I (pbind c k).
Proof.
  intros Hc Hk s r s' Hs. unfold pbind. destruct (c s) as [[[a|j] s1]|] eqn:E; [| |discriminate].
  - intros H. eapply Hk; [eapply Hc; eassumption|exact H].
  - intros [= _ <-]. eapply Hc; eassumption.
Qed.

(** ** The state machine *)

(** The drivers' part: a driver that takes the card sets [dev->disable], one that does not leaves it alone. *)
Class Attaches `{Platform} : Prop := {
  pci_attaches : forall k p ix c ok ix' c', pci_attach k p ix c = (ok, ix', c') ->
    disable_set c' = if ok then true else disable_set c;
  isa_attaches : forall k ix c ok ix' c', isa_attach k ix c = (ok, ix', c') ->
    disable_set c' = if ok then true else disable_set c;
}.

(** The card is never up without the vectors hooked, and the vectors are never unhooked with the card up. *)
Definition ordered (s : psys) : Prop :=
  stack s <> None ->
  mangler s <> 0 /\
  match state s with
  | CAN_UNLOAD => mangling s = false /\ disable_set (hw s) = false
  | MIDWAY => mangling s = true /\ disable_set (hw s) = false
  | READY => mangling s = true /\ disable_set (hw s) = true
  end.
Lemma ordered_same s s' : same_stack s s' -> ordered s -> ordered s'.
Proof. intros (H1 & H2 & H3 & H4 & H5). unfold ordered. now rewrite H1, H2, H3, H4, H5. Qed.
Lemma frames_ordered {A} (c : PX A) : frames c -> keeps ordered c.
Proof. intros H s r s' Hs E. eapply ordered_same; [eapply H, E|exact Hs]. Qed.

Section probing.
Context `{E : Env} `{P : Platform} `{A : !Attaches}.

Definition probed_card (c : card) (r : Z) (c' : card) : Prop :=
  (r = WORKED /\ disable_set c' = true) \/ (r = FAILED /\ disable_set c' = disable_set c).
Lemma pci_probe_card fuel d c r d' c' : pci_probe cfg_byte cfg_dword pci_table pci_attach fuel d c = Some (r, d', c') ->
  probed_card c r c' /\ to_probe d' = to_probe d.
Proof.
  unfold pci_probe. match goal with |- loop _ _ (?x, _) = _ -> _ => assert (Ht : to_probe x = to_probe d); [destruct (how d =? FIRST); reflexivity|];
    generalize dependent x end. intros d0 Ht H.
  refine (loop_inv (pci_round cfg_byte cfg_dword pci_table pci_attach)
            (fun s => disable_set (snd s) = disable_set c /\ to_probe (fst s) = to_probe d)
            (fun x => probed_card c (fst (fst x)) (snd x) /\ to_probe (snd (fst x)) = to_probe d) _ fuel (d0, c) _ _ H); [|easy].
  clear -A. intros [d1 c1] [H1 Ht]. cbn [snd fst] in *. unfold pci_round.
  match goal with |- context [p_driver (pci_dev ?x)] => assert (Hx : to_probe x = to_probe d); [destruct (negb _ && _); exact Ht|];
    generalize dependent x end. intros d2 Hx.
  destruct (p_driver _) as [k|]; [|split; [right; cbn; tauto|exact Hx]].
  destruct (pci_attach _ _ _ _) as [[ok ix] c2] eqn:E2. apply pci_attaches in E2. unfold probed_card. destruct ok; cbn in *; intuition congruence.
Qed.
Lemma isa_probe_card fuel d c r d' c' : isa_probe isa_table isa_attach fuel d c = Some (r, d', c') ->
  probed_card c r c' /\ to_probe d' = to_probe d.
Proof.
  unfold isa_probe. match goal with |- loop _ _ (?x, _) = _ -> _ => assert (Ht : to_probe x = to_probe d); [destruct (how d =? FIRST); reflexivity|];
    generalize dependent x end. intros d0 Ht H.
  refine (loop_inv (isa_round isa_table isa_attach) (fun s => disable_set (snd s) = disable_set c /\ to_probe (fst s) = to_probe d)
            (fun x => probed_card c (fst (fst x)) (snd x) /\ to_probe (snd (fst x)) = to_probe d) _ fuel (d0, c) _ _ H); [|easy].
  clear -A. intros [d1 c1] [H1 Ht]. cbn [snd fst] in *. unfold isa_round.
  match goal with |- context [isa_cur ?x] => assert (Hx : to_probe x = to_probe d); [destruct (negb _ && _); exact Ht|];
    generalize dependent x end. intros d2 Hx.
  destruct (nth_error _ _) as [k|]; [|split; [right; cbn; tauto|exact Hx]].
  destruct (negb (i_type _ =? _)); [easy|].
  destruct (isa_attach _ _ _) as [[ok ix] c2] eqn:E2. apply isa_attaches in E2. unfold probed_card. destruct ok; cbn in *; intuition congruence.
Qed.
Lemma probe_card fuel d c r d' c' :
  probe cfg_byte cfg_dword pci_table isa_table pci_attach isa_attach fuel d c = Some (r, d', c') -> probed_card c r c'.
Proof.
  unfold probe. cbv zeta. match goal with |- context [if how d =? FIRST then ?x else d] => generalize (if how d =? FIRST then x else d) end.
  clear d. intros d. unfold obind. destruct (to_probe d =? PROBE_PCI) eqn:Ep; [apply Z.eqb_eq in Ep|].
  - destruct (pci_probe _ _ _ _ _ _ _) as [[[r1 d1] c1]|] eqn:E1; [|discriminate]. apply pci_probe_card in E1 as [E1 Ht].
    destruct E1 as [[-> H1]|[-> H1]]; cbn; rewrite ?Ht, ?Ep; cbn.
    { intros [= <- <- <-]. now left. }
    destruct (isa_probe _ _ _ _ _) as [[[r2 d2] c2]|] eqn:E2; [|discriminate]. apply isa_probe_card in E2 as [E2 Ht2]. cbn in Ht2.
    rewrite Ht2. destruct E2 as [[-> H2]|[-> H2]]; cbn; intros [= <- <- <-]; [now left|right; split; [easy|congruence]].
  - destruct (to_probe d =? PROBE_ISA) eqn:Ei; [apply Z.eqb_eq in Ei|].
    + destruct (isa_probe _ _ _ _ _) as [[[r2 d2] c2]|] eqn:E2; [|discriminate]. apply isa_probe_card in E2 as [E2 Ht2].
      rewrite Ht2, Ei. destruct E2 as [[-> H2]|[-> H2]]; cbn; intros [= <- <- <-]; [now left|right; split; [easy|congruence]].
    + rewrite Ep, Ei. cbn. intros [= <- <- <-]. now right.
Qed.
End probing.

(** *** Effects of the operations of the state machine *)

Section machine.
Context `{E : Env} `{P : Platform} `{A : !Attaches} (fuel : nat).

Lemma hide_effect s : mangler s <> 0 -> exists s', hide_etherboot s = Some (Ret 1, s') /\
  stack s' = stack s /\ state s' = state s /\ mangling s' = true /\ mangler s' = mangler s /\
  disable_set (hw s') = disable_set (hw s).
Proof.
  intros H. unfold hide_etherboot, pbind, pgets, pmem_do, pmod, pret. cbv beta iota.
  destruct (mangling s) eqn:Em; [exists s; auto 7|]. apply Z.eqb_neq in H. rewrite H. eexists. split; [reflexivity|]. cbn. auto 7.
Qed.
Lemma unhide_effect s : exists r s', unhide_etherboot s = Some (Ret r, s') /\
  stack s' = stack s /\ state s' = state s /\ mangler s' = mangler s /\ disable_set (hw s') = disable_set (hw s) /\
  ((r = 1 /\ mangling s' = false) \/ (r = 0 /\ s' = s /\ mangling s = true)).
Proof.
  unfold unhide_etherboot, pbind, pgets, pmem_do, pmod, pret. cbv beta iota.
  destruct (mangling s) eqn:Em; cbn [negb]; [|exists 1, s; auto 9].
  destruct (negb _); [exists 0, s; auto 10|]. do 2 eexists. split; [reflexivity|]. cbn. auto 10.
Qed.
Lemma hook_effect s p : stack s = Some p -> mangler s <> 0 -> exists s', hook_pxe_stack s = Some (Ret 1, s') /\
  stack s' = stack s /\ mangler s' = mangler s /\ disable_set (hw s') = disable_set (hw s) /\
  if st_num (state s) >=? 1 then s' = s else state s' = MIDWAY /\ mangling s' = true.
Proof.
  intros Hp Hm. unfold hook_pxe_stack. unfold pbind at 1, pgets. cbv beta iota. rewrite Hp. change (st_num MIDWAY) with 1.
  destruct (st_num (state s) >=? 1); [exists s; auto 8|].
  destruct (hide_effect s Hm) as (s1 & E1 & H1 & H2 & H3 & H4 & H5). unfold pbind. rewrite E1. unfold pmem_do, pmod, pret.
  eexists. split; [reflexivity|]. cbn. rewrite H1, H3, H4, H5. auto 8.
Qed.
Lemma unhook_effect s p : stack s = Some p -> exists r s', unhook_pxe_stack s = Some (Ret r, s') /\
  stack s' = stack s /\ mangler s' = mangler s /\ disable_set (hw s') = disable_set (hw s) /\
  if st_num (state s) <=? 0 then r = 1 /\ s' = s
  else (r = 1 /\ state s' = CAN_UNLOAD /\ mangling s' = false) \/
       (r = 0 /\ state s' = state s /\ mangling s' = mangling s /\ mangling s = true).
Proof.
  intros Hp. unfold unhook_pxe_stack. unfold pbind at 1, pgets. cbv beta iota. rewrite Hp. change (st_num CAN_UNLOAD) with 0.
  destruct (st_num (state s) <=? 0); [exists 1, s; auto 9|].
  unfold pbind at 1, pmem_do, pmod at 1. set (s0 := set_pmem _ _).
  destruct (unhide_effect s0) as (r & s1 & E1 & H1 & H2 & H3 & H4 & H5). unfold pbind. rewrite E1.
  destruct H5 as [(-> & H5)|(-> & -> & H5)]; cbn; do 2 eexists; (split; [reflexivity|]); cbn; rewrite ?H1, ?H3, ?H4; auto 10.
Qed.

(** How the probe is made. *)
Definition how_to_probe (s : psys) : Z :=
  if use_specified (pci_dev (ndev s)) then NEXT
  else match p_driver (pci_dev (ndev s)) with Some _ => AWAKE | None => FIRST end.
Definition probe_now (s : psys) : option (Z * pdev * card) :=
  probe cfg_byte cfg_dword pci_table isa_table pci_attach isa_attach fuel
    (set_how_to (how_to_probe s) (to_probe (ndev s)) (ndev s)) (hw s).
Lemma initialise_effect s : exists res, pxe_initialise_nic fuel s = res /\
  match res with
  | None => state s <> READY /\ disable_set (hw s) = false /\ probe_now s = None
  | Some (r, s') =>
      stack s' = stack s /\ mangler s' = mangler s /\ mangling s' = mangling s /\
      ((r = Ret 1 /\ state s' = READY /\ (state s = READY /\ s' = s \/ state s <> READY /\ disable_set (hw s') = true /\
          (disable_set (hw s) = false -> exists d c, probe_now s = Some (WORKED, d, c)))) \/
       (r = Ret 0 /\ state s' = state s /\ state s <> READY /\ disable_set (hw s) = false /\ disable_set (hw s') = false /\
          exists d c, probe_now s = Some (FAILED, d, c)))
  end.
Proof.
  eexists. split; [reflexivity|]. unfold pxe_initialise_nic. unfold pbind at 1, pgets. cbv beta iota.
  assert (Hn : (st_num (state s) >=? st_num READY) = true -> state s = READY) by now destruct (state s).
  destruct (_ >=? _) eqn:Es.
  { cbn. specialize (Hn eq_refl). repeat split. left. auto 6. }
  assert (Hr : state s <> READY) by (intros Hr; rewrite Hr in Es; discriminate). clear Hn.
  destruct (disable_set (hw s)) eqn:Ed.
  { cbn. repeat split. left. repeat split. right. repeat split; [exact Hr|exact Ed|discriminate]. }
  unfold set_how_probe, pbind, pmod, eth_probe. cbn [ndev hw set_ndev]. fold (how_to_probe s). fold (probe_now s).
  destruct (probe_now s) as [[[r d] c]|] eqn:Ep; [|now auto].
  pose proof (probe_card _ _ _ _ _ _ Ep) as [[-> Hc]|[-> Hc]]; cbn.
  - repeat split. left. repeat split. right. repeat split; eauto.
  - rewrite Ed in Hc. repeat split. right. repeat split; eauto.
Qed.
Lemma shutdown_effect s r s' : pxe_shutdown_nic fuel s = Some (r, s') ->
  stack s' = stack s /\ mangler s' = mangler s /\ mangling s' = mangling s /\
  ((state s <> READY /\ r = Ret 1 /\ s' = s) \/
   (state s = READY /\ r = Ret 1 /\ state s' = MIDWAY /\ disable_set (hw s') = false) \/
   (state s = READY /\ (exists j, r = Jmp j) /\ state s' = READY /\ disable_set (hw s') = disable_set (hw s))).
Proof.
  unfold pxe_shutdown_nic. unfold pbind at 1, pgets. cbv beta iota. destruct (_ <=? _) eqn:Es.
  { intros [= <- <-]. repeat split. left. repeat split. intros Hr. rewrite Hr in Es. discriminate. }
  assert (Hr : state s = READY) by (destruct (state s); easy).
  unfold pbind at 1, eth_irq, pmod at 1, eth_disable, pbind at 1 2. set (s1 := set_hw _ s).
  destruct (on_world _ s1) as [[[a|j] s2]|] eqn:Ew; [| |discriminate]; apply frames_world in Ew; destruct Ew as (H1 & H2 & H3 & H4 & H5).
  - unfold disable_nic, pmod, pbind, pret. intros [= <- <-]. destruct (disable_set (hw s2)) eqn:Ed; cbn;
      rewrite H1, H3, H4; repeat split; right; left; auto.
  - intros [= <- <-]. rewrite H1, H2, H3, H4, H5. cbn. repeat split. right. right. rewrite Hr. eauto.
Qed.

(** The three requests, as the operations they amount to. *)
Lemma ensure_ready s p : stack s = Some p -> mangler s <> 0 ->
  exists s1, hook_pxe_stack s = Some (Ret 1, s1) /\ ensure_pxe_state fuel READY s =
    match pxe_initialise_nic fuel s1 with
    | Some (Ret r, s2) => Some (Ret (Z.land 1 r), s2)
    | Some (Jmp j, s2) => Some (Jmp j, s2)
    | None => None
    end.
Proof.
  intros Hp Hm. destruct (hook_effect s p Hp Hm) as (s1 & E1 & _). exists s1. split; [exact E1|].
  unfold ensure_pxe_state, pgets, pbind, pret. cbv beta iota. rewrite Hp. cbn [st_num].
  change (2 >=? 1) with true. change (2 >? 1) with true. change (2 <? 1) with false. cbv beta iota.
  rewrite E1. change (Z.land 1 1) with 1. now destruct (pxe_initialise_nic fuel s1) as [[[r|j] s2]|].
Qed.
Lemma ensure_midway s p : stack s = Some p -> mangler s <> 0 ->
  exists s1, hook_pxe_stack s = Some (Ret 1, s1) /\ ensure_pxe_state fuel MIDWAY s =
    match pxe_shutdown_nic fuel s1 with
    | Some (Ret r, s2) => Some (Ret (Z.land 1 r), s2)
    | Some (Jmp j, s2) => Some (Jmp j, s2)
    | None => None
    end.
Proof.
  intros Hp Hm. destruct (hook_effect s p Hp Hm) as (s1 & E1 & _). exists s1. split; [exact E1|].
  unfold ensure_pxe_state, pgets, pbind, pret. cbv beta iota. rewrite Hp. cbn [st_num].
  change (1 >=? 1) with true. change (1 >? 1) with false. change (1 <? 1) with false. cbv beta iota.
  rewrite E1. change (Z.land 1 1) with 1. now destruct (pxe_shutdown_nic fuel s1) as [[[r|j] s2]|].
Qed.
Lemma ensure_unload s p : stack s = Some p -> ensure_pxe_state fuel CAN_UNLOAD s =
    match pxe_shutdown_nic fuel s with
    | Some (Ret r, s2) => match unhook_pxe_stack s2 with
                          | Some (Ret r2, s3) => Some (Ret (Z.land (Z.land 1 r) r2), s3)
                          | Some (Jmp j, s3) => Some (Jmp j, s3)
                          | None => None
                          end
    | Some (Jmp j, s2) => Some (Jmp j, s2)
    | None => None
    end.
Proof.
  intros Hp. unfold ensure_pxe_state, pgets, pbind, pret. cbv beta iota. rewrite Hp. cbn [st_num].
  change (0 >=? 1) with false. change (0 >? 1) with false. change (0 <? 1) with true. cbv beta iota.
  destruct (pxe_shutdown_nic fuel s) as [[[r|j] s2]|]; [|easy|easy]. now destruct (unhook_pxe_stack s2) as [[[r2|j] s3]|].
Qed.

(** A stack that was just installed: nothing is hooked, and the card may be up. *)
Definition fresh (s : psys) : Prop := mangler s <> 0 /\ state s = CAN_UNLOAD /\ mangling s = false.
Lemma ready_effect s p r s' : stack s = Some p -> ordered s \/ fresh s -> ensure_pxe_state fuel READY s = Some (r, s') ->
  stack s' = Some p /\ ordered s' /\ ((r = Ret 1 /\ state s' = READY) \/ (r = Ret 0 /\ state s' = MIDWAY)).
Proof.
  intros Hp Ho.
  assert (Hm : mangler s <> 0) by (destruct Ho as [Ho|Ho]; apply Ho; congruence).
  destruct (ensure_ready s p Hp Hm) as (s1 & E1 & ->).
  destruct (hook_effect s p Hp Hm) as (s1' & E1' & H1 & H2 & H3 & H4). assert (s1' = s1) as -> by congruence. clear E1'.
  destruct (initialise_effect s1) as (res & -> & Hi). destruct res as [[x s2]|]; [|discriminate].
  destruct Hi as (I1 & I2 & I3 & Hi). unfold ordered.
  assert (Hs1 : mangling s1 = true /\ (state s1 = MIDWAY \/ state s1 = READY /\ disable_set (hw s1) = true)).
  { destruct (state s) eqn:Es; cbn in H4; [tauto| |]; subst s1;
      (destruct Ho as [Ho|Ho]; [|destruct Ho as (_ & Ho & _); congruence]);
      (specialize (Ho ltac:(congruence)); rewrite Es in Ho; rewrite Es; tauto). }
  destruct Hi as [(-> & I4 & [(I5 & ->)|(I5 & I6 & _)])|(-> & I4 & I5 & I6 & I7 & _)]; intros [= <- <-].
  - rewrite I4, H1, H2, Hp. repeat split; try tauto. destruct Hs1 as (_ & [Hs1|[_ Hs1]]); [congruence|exact Hs1].
  - rewrite I4, I1, I2, I3, H1, H2, Hp. repeat split; tauto.
  - assert (Hs2 : state s1 = MIDWAY) by (destruct Hs1 as (_ & [Hs1|[Hs1 _]]); [exact Hs1|congruence]).
    rewrite I4, I1, I2, I3, H1, H2, Hp, Hs2. repeat split; tauto.
Qed.
Lemma midway_effect s p r s' : stack s = Some p -> ordered s -> ensure_pxe_state fuel MIDWAY s = Some (r, s') ->
  stack s' = Some p /\ ordered s' /\ ((r = Ret 1 /\ state s' = MIDWAY) \/ (exists j, r = Jmp j)).
Proof.
  intros Hp Ho. assert (Hm : mangler s <> 0) by (apply Ho; congruence).
  destruct (ensure_midway s p Hp Hm) as (s1 & E1 & ->).
  destruct (hook_effect s p Hp Hm) as (s1' & E1' & H1 & H2 & H3 & H4). assert (s1' = s1) as -> by congruence. clear E1'.
  specialize (Ho ltac:(congruence)).
  assert (Hs1 : mangling s1 = true /\ (state s1 = MIDWAY /\ disable_set (hw s1) = false \/ state s1 = READY /\ disable_set (hw s1) = true)).
  { destruct (state s) eqn:Es; cbn in H4; [rewrite H3; tauto| |]; subst s1; rewrite Es; tauto. }
  destruct (pxe_shutdown_nic fuel s1) as [[x s2]|] eqn:E2; [|discriminate].
  apply shutdown_effect in E2 as (I1 & I2 & I3 & E2). unfold ordered.
  destruct E2 as [(I4 & -> & ->)|[(I4 & -> & I5 & I6)|(I4 & [j ->] & I5 & I6)]]; intros [= <- <-].
  - destruct Hs1 as (Hs1 & [(Hs2 & Hs3)|(Hs2 & _)]); [|congruence]. rewrite H1, H2, Hp, Hs2. repeat split; tauto.
  - rewrite I1, I2, I3, I5, H1, H2, Hp. repeat split; tauto.
  - destruct Hs1 as (Hs1 & [(Hs2 & Hs3)|(Hs2 & Hs3)]); [congruence|].
    rewrite I1, I2, I3, I5, I6, H1, H2, Hp. repeat split; eauto.
Qed.
Lemma unload_effect s p r s' : stack s = Some p -> ordered s -> ensure_pxe_state fuel CAN_UNLOAD s = Some (r, s') ->
  stack s' = Some p /\ ordered s' /\
  ((r = Ret 1 /\ state s' = CAN_UNLOAD) \/ (r = Ret 0 /\ state s' = MIDWAY) \/ (exists j, r = Jmp j)).
Proof.
  intros Hp Ho. assert (Hm : mangler s <> 0) by (apply Ho; congruence). rewrite (ensure_unload s p Hp).
  specialize (Ho ltac:(congruence)). destruct (pxe_shutdown_nic fuel s) as [[x s2]|] eqn:E2; [|discriminate].
  apply shutdown_effect in E2 as (I1 & I2 & I3 & E2). unfold ordered.
  assert (Hs2 : (x = Ret 1 /\ (state s2 = CAN_UNLOAD /\ mangling s2 = false /\ disable_set (hw s2) = false \/
                             state s2 = MIDWAY /\ mangling s2 = true /\ disable_set (hw s2) = false)) \/
                ((exists j, x = Jmp j) /\ state s2 = READY /\ mangling s2 = true /\ disable_set (hw s2) = true)).
  { destruct E2 as [(I4 & -> & ->)|[(I4 & -> & I5 & I6)|(I4 & [j ->] & I5 & I6)]].
    - left. destruct (state s); intuition.
    - left. rewrite I4 in Ho. split; [easy|]. right. rewrite I3. tauto.
    - right. rewrite I4 in Ho. rewrite I3, I6. repeat split; [now exists j|exact I5|apply Ho|apply Ho]. }
  clear E2. destruct Hs2 as [(-> & Hs2)|([j ->] & J1 & J2 & J3)].
  - destruct (unhook_effect s2 p) as (r2 & s3 & -> & J1 & J2 & J3 & J4); [congruence|]. intros [= <- <-].
    rewrite J1, J2, J3, I1, I2, Hp. destruct Hs2 as [(K1 & K2 & K3)|(K1 & K2 & K3)]; rewrite K1 in J4; cbn in J4.
    + destruct J4 as (-> & ->). rewrite K1. repeat split; auto.
    + destruct J4 as [(-> & J4 & J5)|(-> & J4 & J5 & _)]; rewrite J4, J5; repeat split; auto.
  - intros [= <- <-]. rewrite I1, I2, J1, Hp. repeat split; eauto.
Qed.

Lemma ensure_ordered wanted : keeps ordered (ensure_pxe_state fuel wanted).
Proof.
  intros s r s' Ho H. destruct (stack s) as [p|] eqn:Hp.
  - destruct wanted; [eapply unload_effect in H|eapply midway_effect in H|eapply ready_effect in H]; eauto; tauto.
  - unfold ensure_pxe_state, pbind, pgets, pret in H. rewrite Hp in H. now injection H as <- <-.
Qed.

(** *** What a request needs *)

Definition int15_ours (s : psys) : Prop :=
  VIRTUAL (ld16 (pmem s) (INT15_VECTOR + 2)) (ld16 (pmem s) INT15_VECTOR) = mangler s.
Definition hooked (s : psys) : psys := match hook_pxe_stack s with Some (_, s1) => s1 | None => s end.
(** A stack can be made ready when the card is up or can be brought up; it can be unloaded when the interrupt
    of the memory map is still its own. *)
Definition attainable (wanted : pxe_stack_state_t) (s : psys) : Prop :=
  match wanted with
  | CAN_UNLOAD => state s = CAN_UNLOAD \/ int15_ours s
  | MIDWAY => True
  | READY => state s = READY \/ exists d c, probe_now (hooked s) = Some (WORKED, d, c)
  end.
(** No multicast group has to be left. *)
Definition no_group (s : psys) : Prop := group (igmp_at (net (hw s)) 0) = 0.

Lemma hook_no_group : keeps no_group hook_pxe_stack.
Proof.
  unfold hook_pxe_stack, hide_etherboot.
  repeat first [apply keeps_bind; [|intros ?] | match goal with |- keeps _ (match ?x with _ => _ end) => destruct x end];
    intros x r x' Hx [= _ <-]; exact Hx.
Qed.
Lemma shutdown_returns s : no_group s -> exists s', pxe_shutdown_nic fuel s = Some (Ret 1, s') /\ pmem s' = pmem s.
Proof.
  intros Hg. unfold pxe_shutdown_nic. unfold pbind at 1, pgets. cbv beta iota. destruct (_ <=? _); [now exists s|].
  unfold eth_irq, eth_disable, on_world, pbind, pmod, leave_group, bind, get. cbn [hw set_hw net].
  unfold no_group in Hg. rewrite Hg. cbn. unfold disable_nic, pmod, pret. eexists. split; [reflexivity|].
  cbn. destruct (disable_set (hw s)); reflexivity.
Qed.
Lemma vectors_apart : INT1A_VECTOR + 4 <= INT15_VECTOR \/ INT15_VECTOR + 4 <= INT1A_VECTOR.
Proof. unfold INT1A_VECTOR, INT15_VECTOR, INT1A_VECTOR_phys, INT15_VECTOR_phys, phys_to_virt, u32. zmod. Qed.
Lemma unhook_result s p : stack s = Some p -> state s <> CAN_UNLOAD -> mangling s = true ->
  exists s', unhook_pxe_stack s = Some (Ret (if VIRTUAL (ld16 (pmem s) (INT15_VECTOR + 2)) (ld16 (pmem s) INT15_VECTOR) =? mangler s then 1 else 0), s').
Proof.
  intros Hp Hs Hm. unfold unhook_pxe_stack. unfold pbind at 1, pgets. cbv beta iota. rewrite Hp.
  assert (Hn : (st_num (state s) <=? st_num CAN_UNLOAD) = false) by (destruct (state s); easy). rewrite Hn.
  unfold pbind at 1, pmem_do, pmod at 1. unfold unhide_etherboot, pbind, pgets. cbv beta iota. cbn [mangling set_pmem set_hw mangler]. rewrite Hm. cbn [negb].
  change (pmem (set_pmem ?m ?x)) with m. pose proof vectors_apart as Hv. rewrite !ld16_memcpy_frame by lia.
  destruct (_ =? mangler s); eexists; reflexivity.
Qed.

Lemma ready_attained s p : stack s = Some p -> ordered s -> (state s <> READY -> probe_now (hooked s) <> None) ->
  exists x s', ensure_pxe_state fuel READY s = Some (Ret x, s') /\ (x = 1 <-> attainable READY s).
Proof.
  intros Hp Ho Hn. assert (Hm : mangler s <> 0) by (apply Ho; congruence).
  destruct (ensure_ready s p Hp Hm) as (s1 & E1 & ->).
  destruct (hook_effect s p Hp Hm) as (s1' & E1' & H1 & H2 & H3 & H4). assert (s1' = s1) as -> by congruence. clear E1'.
  assert (Hh : hooked s = s1) by (unfold hooked; now rewrite E1). unfold attainable. rewrite Hh in *.
  specialize (Ho ltac:(congruence)).
  assert (Hs : state s = READY /\ state s1 = READY \/ state s <> READY /\ state s1 <> READY /\ disable_set (hw s1) = false).
  { rewrite H3. destruct (state s) eqn:Es; cbn in H4; [right; destruct H4 as [-> _]; intuition congruence|subst; right; rewrite Es|subst; left; tauto].
    intuition congruence. }
  destruct (initialise_effect s1) as (res & -> & Hi). destruct res as [[x s2]|]; [|exfalso; apply Hn; tauto].
  destruct Hi as (_ & _ & _ & [(-> & _ & [(I5 & _)|(I5 & _ & I6)])|(-> & _ & I5 & _ & _ & d & c & I6)]); do 2 eexists; (split; [reflexivity|]).
  - cbn. tauto.
  - cbn. split; [|reflexivity]. intros _. right. apply I6. tauto.
  - cbn. split; [discriminate|]. rewrite I6. intros [Hr|(d' & c' & [=])]. tauto.
Qed.
Lemma unload_attained s p : stack s = Some p -> ordered s -> no_group s ->
  exists x s', ensure_pxe_state fuel CAN_UNLOAD s = Some (Ret x, s') /\ (x = 1 <-> attainable CAN_UNLOAD s).
Proof.
  intros Hp Ho Hg. rewrite (ensure_unload s p Hp). destruct (shutdown_returns s Hg) as (s2 & E2 & Em). rewrite E2.
  specialize (Ho ltac:(congruence)). apply shutdown_effect in E2 as (I1 & I2 & I3 & E2). unfold attainable.
  assert (Hs : state s = CAN_UNLOAD /\ state s2 = CAN_UNLOAD \/ state s <> CAN_UNLOAD /\ state s2 <> CAN_UNLOAD /\ mangling s2 = true).
  { destruct E2 as [(I4 & _ & ->)|[(I4 & _ & I5 & _)|(_ & [j [=]] & _)]].
    - destruct (state s); [left|right|right]; intuition congruence.
    - right. rewrite I4 in *. rewrite I5, I3. intuition congruence. }
  destruct Hs as [(J1 & J2)|(J1 & J2 & J3)].
  - destruct (unhook_effect s2 p) as (r2 & s3 & -> & _ & _ & _ & J4); [congruence|]. rewrite J2 in J4. destruct J4 as (-> & ->).
    do 2 eexists. split; [reflexivity|]. cbn. tauto.
  - destruct (unhook_result s2 p) as (s3 & ->); [congruence|exact J2|exact J3|]. do 2 eexists. split; [reflexivity|].
    unfold int15_ours. rewrite Em, I2. case_test; cbn; intuition congruence.
Qed.
End machine.

(** [ensure_pxe_state] does what the comment at the head of pxe_export.c promises.  For a stack in order it
    always returns; it returns 1 with the stack in the state wanted if that state can be attained (any stack can go midway; to be
    ready needs the card up or a probe that works; to be unloaded needs the INT 15 vector to be still ours), and otherwise 0 with
    the stack midway; and the order is kept: the card is up only in state READY, INT 15 is intercepted except in state CAN_UNLOAD. *)
Theorem ensure_pxe_state_spec `{Env} `{Platform} `{!Attaches} fuel s p wanted :
  ordered s -> stack s = Some p -> no_group s ->
  (wanted = READY -> state s <> READY -> probe_now fuel (hooked s) <> None) ->
  exists x s', ensure_pxe_state fuel wanted s = Some (Ret x, s') /\ stack s' = Some p /\ ordered s' /\
    ((attainable fuel wanted s /\ x = 1 /\ state s' = wanted) \/ (~ attainable fuel wanted s /\ x = 0 /\ state s' = MIDWAY)).
Proof.
  intros Ho Hp Hg Hn. destruct wanted.
  - destruct (unload_attained fuel s p Hp Ho Hg) as (x & s' & E & Ha). exists x, s'. rewrite E. split; [reflexivity|].
    destruct (unload_effect fuel s p _ _ Hp Ho E) as (K1 & K2 & [([= ->] & K3)|[([= ->] & K3)|(j & [=])]]); intuition congruence.
  - assert (Hm : mangler s <> 0) by (apply Ho; congruence). destruct (ensure_midway fuel s p Hp Hm) as (s1 & E1 & E).
    assert (Hg1 : no_group s1).
    { eapply hook_no_group; eassumption. }
    destruct (shutdown_returns fuel s1 Hg1) as (s2 & E2 & _). rewrite E2 in E. rewrite E. do 2 eexists. split; [reflexivity|].
    destruct (midway_effect fuel s p _ _ Hp Ho E) as (K1 & K2 & [(_ & K3)|(j & [=])]). cbn. auto 7.
  - destruct (ready_attained fuel s p Hp Ho (Hn eq_refl)) as (x & s' & E & Ha). exists x, s'. rewrite E. split; [reflexivity|].
    destruct (ready_effect fuel s p _ _ Hp (or_introl Ho) E) as (K1 & K2 & [([= ->] & K3)|([= ->] & K3)]); intuition congruence.
Qed.

(** ** The vectors *)

Definition field_in (n : Z) (f : field) : Prop :=
  match f with F8 o _ => 0 <= o /\ o + 1 <= n | F16 o _ => 0 <= o /\ o + 2 <= n | F32 o _ => 0 <= o /\ o + 4 <= n end.
Lemma ld8_put_field p m f n x : field_in n f -> x < p \/ p + n <= x -> ld8 (put_field p m f) x = ld8 m x.
Proof. destruct f; cbn; intros Hf Hx; [apply ld8_st8_ne|apply ld8_st16_ne|apply ld8_st32_ne]; lia. Qed.
Lemma ld8_put_fields p l n x : forall m, Forall (field_in n) l -> x < p \/ p + n <= x -> ld8 (put_fields p l m) x = ld8 m x.
Proof.
  induction l as [|f l IH]; intros m Hl Hx; cbn; [reflexivity|]. inversion Hl; subst.
  fold (put_fields p l (put_field p m f)). rewrite IH by assumption. now apply (ld8_put_field p m f n).
Qed.
(** The byte at offset [o] that a sequence of stores leaves. *)
Definition byte_at (f : field) (o : Z) : option Z :=
  match f with
  | F8 o' v => if o =? o' then Some (u8 v) else None
  | F16 o' v => if o =? o' then Some (u8 v) else if o =? o' + 1 then Some (u8 (v / 256)) else None
  | F32 o' v =>
      if o =? o' then Some (u8 v) else if o =? o' + 1 then Some (u8 (v / 256))
      else if o =? o' + 2 then Some (u8 (v / 65536)) else if o =? o' + 3 then Some (u8 (v / 65536 / 256)) else None
  end.
Fixpoint written (l : list field) (o : Z) : option Z :=
  match l with
  | [] => None
  | f :: l => match written l o with Some b => Some b | None => byte_at f o end
  end.
Lemma ld8_byte_at p m f o : ld8 (put_field p m f) (p + o) = match byte_at f o with Some b => b | None => ld8 m (p + o) end.
Proof.
  destruct f as [o' v|o' v|o' v]; cbn; unfold st32, st16; rewrite !ld8_st8; repeat case_test; try lia; reflexivity.
Qed.
Lemma ld8_written p l o : forall m, ld8 (put_fields p l m) (p + o) = match written l o with Some b => b | None => ld8 m (p + o) end.
Proof.
  induction l as [|f l IH]; intros m; cbn; [reflexivity|]. fold (put_fields p l (put_field p m f)). rewrite IH.
  destruct (written l o); [reflexivity|]. apply ld8_byte_at.
Qed.
Ltac fields_in := repeat constructor; cbn; lia.

Section vectors.
Context `{E : Env} `{P : Platform}.

(** Where the stack at [p] and the mangler at [mg] are, in relation to the vectors and to each other. *)
Record mangler_placed (p mg : Z) : Prop := {
  pl_saved1a : 0 <= off_intercepted_int1a;
  pl_location : 0 <= off_pxenv_location;
  pl_1a_apart : off_intercepted_int1a + 4 <= off_pxenv_location \/ off_pxenv_location + 4 <= off_intercepted_int1a;
  pl_1a_end : off_intercepted_int1a + 4 <= Z.of_nat (length pxe_code) /\ off_pxenv_location + 4 <= Z.of_nat (length pxe_code);
  pl_saved15 : 0 <= off_intercepted_int15 /\ off_intercepted_int15 + 4 <= Z.of_nat (length mangler_code);
  pl_hide : 0 <= off_hide_memory /\ off_hide_memory + 16 <= Z.of_nat (length mangler_code);
  pl_15_apart : off_intercepted_int15 + 4 <= off_hide_memory \/ off_hide_memory + 16 <= off_intercepted_int15;
  pl_order : p + off_arch_data + Z.of_nat (length pxe_code) <= mg;
  pl_vec15 : INT15_VECTOR + 4 <= p \/ mg + Z.of_nat (length mangler_code) <= INT15_VECTOR;
  pl_vec1a : INT1A_VECTOR + 4 <= p \/ mg + Z.of_nat (length mangler_code) <= INT1A_VECTOR;
  pl_mangler : 0 < mg < 4294967296;
  pl_segment : virt_to_phys vo mg mod 16 = 0 /\ virt_to_phys vo mg < 0x100000;
}.
Definition saved15 (mg : Z) : Z := mg + off_intercepted_int15.
Definition saved1a (p : Z) : Z := p + off_arch_data + off_intercepted_int1a.

Lemma ldn4_eq m1 a1 m2 a2 : (forall i, 0 <= i < 4 -> ld8 m1 (a1 + i) = ld8 m2 (a2 + i)) -> ldn m1 a1 4 = ldn m2 a2 4.
Proof. intros H. rewrite <- (Z.add_0_r a1), <- (Z.add_0_r a2). apply (same_ldn _ _ _ _ 4); [exact H|lia|lia]. Qed.
Lemma VIRTUAL_SEGMENT mg : 0 < mg < 4294967296 -> virt_to_phys vo mg mod 16 = 0 -> virt_to_phys vo mg < 0x100000 ->
  VIRTUAL (u16 (SEGMENT mg)) 0 = mg.
Proof.
  intros H1 H2 H3. unfold VIRTUAL, SEGMENT. rewrite shiftr_div by lia. change (2 ^ 4) with 16.
  assert (H4 : 0 <= virt_to_phys vo mg) by (unfold virt_to_phys; apply u32_range).
  rewrite u16_small, shiftl_mul by (try lia; Z.div_mod_to_equations; lia). change (2 ^ 4) with 16.
  replace (virt_to_phys vo mg / 16 * 16 + 0) with (virt_to_phys vo mg) by (Z.div_mod_to_equations; lia).
  unfold phys_to_virt, virt_to_phys. zmod.
Qed.

(** The memory after the vectors were hooked. *)
Definition hooked_mem (p mg : Z) (h : heap) (m : mem) : mem :=
  let m := memcpy m (mg + off_intercepted_int15) INT15_VECTOR 4 in
  let m := put_fields (mg + off_hide_memory)
             [F32 0 (virt_to_phys vo text_); F32 4 (u32 (end_ - text_));
              F32 8 (heap_ptr h); F32 12 (u32 (heap_bot h - heap_ptr h))] m in
  let m := put_fields INT15_VECTOR (segoff 0 (SEGMENT mg) 0) m in
  let m := memcpy m (p + off_arch_data + off_intercepted_int1a) INT1A_VECTOR 4 in
  let m := put_fields (p + off_arch_data + off_pxenv_location) (segoff 0 (SEGMENT p) off_pxenv) m in
  put_fields INT1A_VECTOR (segoff 0 (SEGMENT (p + off_arch_data)) off_intercept_int1a) m.
Lemma hook_runs s p : stack s = Some p -> state s = CAN_UNLOAD -> mangling s = false -> mangler s <> 0 ->
  hook_pxe_stack s = Some (Ret 1, set_state MIDWAY (set_mangling true (set_pmem (hooked_mem p (mangler s) (hp s) (pmem s)) s))).
Proof.
  intros Hp Hs Hm Hz. apply Z.eqb_neq in Hz. unfold hook_pxe_stack. rewrite pbind_gets, Hp, Hs.
  change (st_num CAN_UNLOAD >=? st_num MIDWAY) with false. cbv iota zeta.
  unfold hide_etherboot. rewrite pbind_assoc, pbind_gets, Hm, Hz.
  prun. reflexivity.
Qed.
Lemma put_segoff p seg off m : ld16 (put_fields p (segoff 0 seg off) m) p = u16 off /\
  ld16 (put_fields p (segoff 0 seg off) m) (p + 2) = u16 seg.
Proof. cbn. rewrite Z.add_0_r. split; [rewrite ld16_st16_ne by lia|]; apply ld16_st16_eq. Qed.
Lemma ld8_segoff p seg off m x : x < p \/ p + 4 <= x -> ld8 (put_fields p (segoff 0 seg off) m) x = ld8 m x.
Proof. intros Hx. apply (ld8_put_fields _ _ 4); [fields_in|exact Hx]. Qed.
Lemma ld8_hide p a b c d m x : x < p \/ p + 16 <= x -> ld8 (put_fields p [F32 0 a; F32 4 b; F32 8 c; F32 12 d] m) x = ld8 m x.
Proof. intros Hx. apply (ld8_put_fields _ _ 16); [fields_in|exact Hx]. Qed.
Lemma hooked_mem_spec p mg h m : mangler_placed p mg ->
  let m' := hooked_mem p mg h m in
  (ld16 m' INT15_VECTOR = 0 /\ ld16 m' (INT15_VECTOR + 2) = u16 (SEGMENT mg)) /\
  (ld16 m' INT1A_VECTOR = u16 off_intercept_int1a /\ ld16 m' (INT1A_VECTOR + 2) = u16 (SEGMENT (p + off_arch_data))) /\
  ldn m' (saved15 mg) 4 = ldn m INT15_VECTOR 4 /\ ldn m' (saved1a p) 4 = ldn m INT1A_VECTOR 4.
Proof.
  intros [? ? ? ? ? ? ? ? ? ? ? _]. pose proof vectors_apart as Hv. unfold hooked_mem, saved15, saved1a, off_arch_data in *. cbv zeta.
  match goal with |- context [put_fields INT15_VECTOR ?l ?x] => set (m2 := x); set (m3 := put_fields INT15_VECTOR l m2) end.
  match goal with |- context [put_fields INT1A_VECTOR ?l ?x] => set (m5 := x) end.
  assert (H3 : ld16 m3 INT15_VECTOR = 0 /\ ld16 m3 (INT15_VECTOR + 2) = u16 (SEGMENT mg)) by apply (put_segoff INT15_VECTOR (SEGMENT mg) 0).
  assert (H5 : forall x, INT15_VECTOR <= x < INT15_VECTOR + 4 -> ld8 m5 x = ld8 m3 x).
  { intros x Hx. unfold m5. rewrite ld8_segoff, ld8_memcpy_frame by lia. reflexivity. }
  repeat split.
  - rewrite (ld16_ext _ m3); [apply H3|]. intros x Hx. rewrite ld8_segoff by lia. apply H5. lia.
  - rewrite (ld16_ext _ m3); [apply H3|]. intros x Hx. rewrite ld8_segoff by lia. apply H5. lia.
  - apply (put_segoff INT1A_VECTOR (SEGMENT (p + 1664)) off_intercept_int1a).
  - apply (put_segoff INT1A_VECTOR (SEGMENT (p + 1664)) off_intercept_int1a).
  - apply ldn4_eq. intros i Hi. unfold m5, m3, m2.
    rewrite ld8_segoff, ld8_segoff, ld8_memcpy_frame, ld8_segoff, ld8_hide, ld8_memcpy by lia.
    case_tests; try lia. f_equal. lia.
  - apply ldn4_eq. intros i Hi. unfold m5. rewrite ld8_segoff, ld8_segoff, ld8_memcpy by lia.
    case_tests; try lia. unfold m3, m2. rewrite ld8_segoff, ld8_hide, ld8_memcpy_frame by lia. f_equal. lia.
Qed.

(** [unhook_pxe_stack] in a stack that is hooked. *)
Definition unhooked_mem (p : Z) (m : mem) : mem := memcpy m INT1A_VECTOR (saved1a p) 4.
Lemma unhook_runs s p : stack s = Some p -> state s <> CAN_UNLOAD -> mangling s = true ->
  unhook_pxe_stack s =
    if VIRTUAL (ld16 (pmem s) (INT15_VECTOR + 2)) (ld16 (pmem s) INT15_VECTOR) =? mangler s
    then Some (Ret 1, set_state CAN_UNLOAD (set_mangling false
                        (set_pmem (memcpy (unhooked_mem p (pmem s)) INT15_VECTOR (saved15 (mangler s)) 4) s)))
    else Some (Ret 0, set_pmem (unhooked_mem p (pmem s)) s).
Proof.
  intros Hp Hs Hm. unfold unhook_pxe_stack. rewrite pbind_gets, Hp.
  assert (Hn : (st_num (state s) <=? st_num CAN_UNLOAD) = false) by (destruct (state s); easy). rewrite Hn.
  rewrite pbind_mem. unfold unhide_etherboot. rewrite pbind_assoc, pbind_gets. cbn [mangling set_pmem set_hw mangler]. rewrite Hm.
  cbn [negb]. rewrite pmem_set. fold (saved1a p). fold (unhooked_mem p (pmem s)).
  assert (Hv : VIRTUAL (ld16 (unhooked_mem p (pmem s)) (INT15_VECTOR + 2)) (ld16 (unhooked_mem p (pmem s)) INT15_VECTOR) =
               VIRTUAL (ld16 (pmem s) (INT15_VECTOR + 2)) (ld16 (pmem s) INT15_VECTOR)).
  { pose proof vectors_apart. unfold unhooked_mem. now rewrite !ld16_memcpy_frame by lia. }
  rewrite Hv. destruct (_ =? mangler s); cbn [negb]; [|reflexivity].
  prun. reflexivity.
Qed.
Lemma saved1a_apart p mg : mangler_placed p mg -> saved1a p + 4 <= INT1A_VECTOR \/ INT1A_VECTOR + 4 <= saved1a p.
Proof. intros [? ? ? ? ? ? ? ? ? ? ? _]. unfold saved1a, off_arch_data in *. lia. Qed.
Lemma saved15_apart p mg : mangler_placed p mg -> saved15 mg + 4 <= INT15_VECTOR \/ INT15_VECTOR + 4 <= saved15 mg.
Proof. intros [? ? ? ? ? ? ? ? ? ? ? _]. unfold saved15, off_arch_data in *. lia. Qed.
Lemma saved15_apart1a p mg : mangler_placed p mg -> saved15 mg + 4 <= INT1A_VECTOR \/ INT1A_VECTOR + 4 <= saved15 mg.
Proof. intros [? ? ? ? ? ? ? ? ? ? ? _]. unfold saved15, off_arch_data in *. lia. Qed.
Lemma unhooked_1a p mg m : mangler_placed p mg -> ldn (unhooked_mem p m) INT1A_VECTOR 4 = ldn m (saved1a p) 4.
Proof. intros Hpl. apply ldn_memcpy. pose proof (saved1a_apart _ _ Hpl). lia. Qed.
End vectors.

(** Hooking the interrupts of the PXE stack and unhooking them again gives the machine its own vectors back.  Hooked, INT 1A leads
    to the handler in the stack and INT 15 to the mangler; and whatever runs in between, as long as the two saved vectors
    and the INT 15 vector are left alone, [unhook_pxe_stack] succeeds and leaves both vectors as they were before. *)
Theorem vectors_restored `{Env} `{Platform} s p :
  stack s = Some p -> state s = CAN_UNLOAD -> mangling s = false -> mangler_placed p (mangler s) ->
  exists s1, hook_pxe_stack s = Some (Ret 1, s1) /\ state s1 = MIDWAY /\ int15_ours s1 /\
    ld16 (pmem s1) INT1A_VECTOR = u16 off_intercept_int1a /\
    ld16 (pmem s1) (INT1A_VECTOR + 2) = u16 (SEGMENT (p + off_arch_data)) /\
    forall s2, same_stack s1 s2 -> ldn (pmem s2) (saved15 (mangler s)) 4 = ldn (pmem s1) (saved15 (mangler s)) 4 ->
      ldn (pmem s2) (saved1a p) 4 = ldn (pmem s1) (saved1a p) 4 -> int15_ours s2 ->
      exists s3, unhook_pxe_stack s2 = Some (Ret 1, s3) /\ state s3 = CAN_UNLOAD /\ mangling s3 = false /\
        ldn (pmem s3) INT15_VECTOR 4 = ldn (pmem s) INT15_VECTOR 4 /\ ldn (pmem s3) INT1A_VECTOR 4 = ldn (pmem s) INT1A_VECTOR 4.
Proof.
  intros Hp Hs Hm Hpl. pose proof (hooked_mem_spec p (mangler s) (hp s) (pmem s) Hpl) as ((V1 & V2) & (V3 & V4) & V5 & V6).
  assert (Hz : mangler s <> 0) by (destruct Hpl; lia). destruct (pl_segment _ _ Hpl) as [Hg1 Hg2].
  rewrite (hook_runs s p Hp Hs Hm Hz). eexists. split; [reflexivity|]. split; [reflexivity|].
  match goal with |- int15_ours ?x /\ _ => set (s1 := x) end. change (pmem s1) with (hooked_mem p (mangler s) (hp s) (pmem s)).
  split; [unfold int15_ours; change (pmem s1) with (hooked_mem p (mangler s) (hp s) (pmem s)); change (mangler s1) with (mangler s);
          rewrite V1, V2; apply VIRTUAL_SEGMENT; [apply (pl_mangler _ _ Hpl)|exact Hg1|exact Hg2]|].
  split; [exact V3|]. split; [exact V4|]. rewrite V5, V6. intros s2 (K1 & K2 & K3 & K4 & _) S15 S1A Ours.
  assert (Hpl2 : mangler_placed p (mangler s2)) by (rewrite K4; exact Hpl). assert (Hmg : mangler s2 = mangler s) by exact K4.
  rewrite (unhook_runs s2 p) by (rewrite ?K1, ?K2, ?K3; easy). apply Z.eqb_eq in Ours. rewrite Ours. eexists. split; [reflexivity|].
  do 2 (split; [reflexivity|]). pose proof (saved15_apart _ _ Hpl2). pose proof (saved15_apart1a _ _ Hpl2). pose proof vectors_apart.
  match goal with |- ldn (pmem ?x) _ _ = _ /\ _ => change (pmem x) with (memcpy (unhooked_mem p (pmem s2)) INT15_VECTOR (saved15 (mangler s2)) 4) end.
  rewrite <- S15, <- S1A. split.
  - rewrite ldn_memcpy by lia. rewrite <- Hmg. apply ldn_ext. intros x Hx. apply ld8_memcpy_frame. lia.
  - rewrite <- (unhooked_1a p (mangler s2)) by assumption. apply ldn_ext. intros x Hx. apply ld8_memcpy_frame. lia.
Qed.

(** When something else has taken INT 15, [unhook_pxe_stack] fails, but only after it has given up INT 1A; the stack stays
    in the state that means hooked, and hooking it again does nothing. *)
Theorem unhook_half_done `{Env} `{Platform} s p :
  stack s = Some p -> state s = MIDWAY -> mangling s = true -> mangler_placed p (mangler s) -> ~ int15_ours s ->
  exists s', unhook_pxe_stack s = Some (Ret 0, s') /\ state s' = MIDWAY /\
    ldn (pmem s') INT1A_VECTOR 4 = ldn (pmem s) (saved1a p) 4 /\ hook_pxe_stack s' = Some (Ret 1, s').
Proof.
  intros Hp Hs Hm Hpl Hn. rewrite (unhook_runs s p) by (rewrite ?Hs; easy). apply Z.eqb_neq in Hn. rewrite Hn.
  eexists. split; [reflexivity|]. split; [exact Hs|]. split; [apply (unhooked_1a p (mangler s) (pmem s) Hpl)|].
  unfold hook_pxe_stack. rewrite pbind_gets. cbn [stack state set_pmem set_hw]. now rewrite Hp, Hs.
Qed.

(** ** The tables *)

Fixpoint bsum (m : mem) (a : Z) (n : nat) : Z := match n with O => 0 | S n => ld8 m a + bsum m (a + 1) n end.
Lemma byte_checksum_bsum m a n : byte_checksum m a n = bsum m a n mod 256.
Proof.
  unfold byte_checksum, u8. enough (H : forall n a s, byte_sum m a n s mod 256 = (s + bsum m a n) mod 256) by now rewrite H.
  clear. induction n as [|n IH]; intros a s; cbn; [f_equal; lia|]. rewrite IH. unfold u32. Z.div_mod_to_equations. lia.
Qed.
Lemma bsum_ext m1 m2 n : forall a, (forall x, a <= x < a + Z.of_nat n -> ld8 m1 x = ld8 m2 x) -> bsum m1 a n = bsum m2 a n.
Proof. induction n as [|n IH]; intros a H; cbn; [reflexivity|]. rewrite H by lia. f_equal. apply IH. intros x Hx. apply H. lia. Qed.
Lemma bsum_st8 m v n : forall a k, 0 <= k < Z.of_nat n -> bsum (st8 m (a + k) v) a n = bsum m a n - ld8 m (a + k) + u8 v.
Proof.
  induction n as [|n IH]; intros a k Hk; [lia|]. cbn [bsum]. rewrite ld8_st8. destruct (Z.eqb_spec a (a + k)) as [Heq|Hne].
  - assert (k = 0) as -> by lia. rewrite Z.add_0_r. rewrite (bsum_ext _ m); [lia|]. intros x Hx. apply ld8_st8_ne. lia.
  - specialize (IH (a + 1) (k - 1)). replace (a + 1 + (k - 1)) with (a + k) in IH by lia. rewrite IH by lia. lia.
Qed.
(** The checksum that is stored makes the bytes add up to zero. *)
Lemma fix_checksum_zero p o n m : 0 <= o < Z.of_nat n -> byte_checksum (fix_checksum p o n m) p n = 0.
Proof.
  intros Ho. unfold fix_checksum. rewrite !byte_checksum_bsum, bsum_st8 by exact Ho. unfold u8. Z.div_mod_to_equations. lia.
Qed.
Lemma checksum_ext m1 m2 a n : (forall x, a <= x < a + Z.of_nat n -> ld8 m1 x = ld8 m2 x) -> byte_checksum m1 a n = byte_checksum m2 a n.
Proof. intros H. rewrite !byte_checksum_bsum. f_equal. now apply bsum_ext. Qed.

Section tables.
Context `{E : Env} `{P : Platform} (fuel : nat).

Definition tables_mem (rmstack p : Z) (m : mem) : mem :=
  let m := memset m p 0 (Z.to_nat off_arch_data) in
  let m := fix_checksum p 5 sizeof_pxe (put_fields p (pxe_fields rmstack p (stack_end p)) m) in
  fix_checksum (p + off_pxenv) 9 sizeof_pxenv (put_fields (p + off_pxenv) (pxenv_fields rmstack p (stack_end p)) m).
Definition installed_mem (rmstack p : Z) (m : mem) : mem :=
  let m := stn (tables_mem rmstack p m) (p + off_arch_data) pxe_code in
  let m := st32 (stn m (rm_callback_code p) rm_code) (rm_callback_code p + off_etherboot_location) (virt_to_phys vo text_) in
  stn m (e820mangler_code p) mangler_code.
Definition stack_base (b : Z) : Z := phys_to_virt vo (align_down (u32 (virt_to_phys vo b + 0xf)) 16).
Lemma install_runs s b : stack s = None -> mangling s = false ->
  let p := stack_base b in
  install_pxe_stack fuel (Some b) s =
    Some (Ret (Some p), set_mangler (e820mangler_code p) (set_state CAN_UNLOAD (set_pstack (Some p)
      (set_pmem (installed_mem (real_mode_stack (fw s)) p (pmem s)) s)))).
Proof.
  intros Hs Hm p. unfold install_pxe_stack. rewrite pbind_gets, Hs, pbind_ret. cbv zeta. fold (stack_base b). fold p.
  unfold install_rm_callback_interface, install_e820mangler. prun.
  match goal with |- context [mangling ?x] => change (mangling x) with (mangling s) end. rewrite Hm.
  change (real_mode_stack (fw (set_pstack _ (set_pmem _ s)))) with (real_mode_stack (fw s)).
  prun. reflexivity.
Qed.

Lemma tables_of_installed rmstack p m x : p <= x < p + off_arch_data -> 0 <= off_etherboot_location -> 0 <= p ->
  off_etherboot_location + 4 <= Z.of_nat (length rm_code) -> rm_callback_code p + Z.of_nat (length rm_code) + 0xf < 4294967296 ->
  ld8 (installed_mem rmstack p m) x = ld8 (tables_mem rmstack p m) x.
Proof.
  intros Hx H0 Hp H1 H2. unfold installed_mem, rm_callback_code, e820mangler_code, rm_callback_code, off_arch_data in *. cbv zeta.
  rewrite ld8_stn_out; [|unfold align_down; rewrite u32_small by lia; Z.div_mod_to_equations; lia].
  rewrite ld8_st32_ne, !ld8_stn_out by lia. reflexivity.
Qed.
Lemma pxe_fields_in rmstack p e : Forall (field_in 88) (pxe_fields rmstack p e).
Proof. unfold pxe_fields, segoff, segdesc. cbn [app]. fields_in. Qed.
Lemma pxenv_fields_in rmstack p e : Forall (field_in 44) (pxenv_fields rmstack p e).
Proof. unfold pxenv_fields, segoff. cbn [app]. fields_in. Qed.
Lemma pxe_table rmstack p m x : p <= x < p + 88 -> ld8 (tables_mem rmstack p m) x =
  ld8 (fix_checksum p 5 sizeof_pxe (put_fields p (pxe_fields rmstack p (stack_end p)) (memset m p 0 (Z.to_nat off_arch_data)))) x.
Proof.
  intros Hx. unfold tables_mem. cbv zeta. unfold fix_checksum at 1, off_pxenv. rewrite ld8_st8_ne by lia.
  apply (ld8_put_fields _ _ 44); [apply pxenv_fields_in|lia].
Qed.

(** The bytes of a number of 16 and of 32 bits, the lowest first. *)
Definition half (v : Z) : list Z := [v mod 256; v / 256 mod 256].
Definition word (v : Z) : list Z := [v mod 256; v / 256 mod 256; v / 65536 mod 256; v / 16777216 mod 256].
(** The structures as the PXE specification lays them out, for a stack at the physical address [phys] of which [size] bytes are
    its code segment, with a real-mode stack at [rm] and entry points at the offsets [sp] and [rme]; [k] is the checksum. *)
Definition segment_descriptor (seg phys size : Z) : list Z := half seg ++ word phys ++ half size.
Definition pxe_struct (phys size rm sp k : Z) : list Z :=
  txt "!PXE"%string ++ [88 (* StructLength *); k; 0 (* StructRev *); 0] ++
  word 0 (* UNDIROMID *) ++ word 0 (* BaseROMID *) ++
  half sp ++ half (phys / 16) (* EntryPointSP *) ++ word 0 (* EntryPointESP *) ++ word 0xffffffff (* StatusCallout *) ++
  [0; 7 (* SegDescCn *)] ++ half 0 (* FirstSelector *) ++
  segment_descriptor (rm / 16) rm 4096 (* Stack *) ++ segment_descriptor (rm / 16) rm 4096 (* UNDIData *) ++
  segment_descriptor (phys / 16) phys size (* UNDICode *) ++ segment_descriptor 0 0 0 (* UNDICodeWrite *) ++
  segment_descriptor 0 0 0 (* BC_Data *) ++ segment_descriptor 0 0 0 (* BC_Code *) ++ segment_descriptor 0 0 0 (* BC_CodeWrite *).
Definition pxenv_struct (phys size rm rme k : Z) : list Z :=
  txt "PXENV+"%string ++ half 0x201 (* Version *) ++ [44 (* Length *); k] ++ half rme ++ half (phys / 16) (* RMEntry *) ++
  word 0 (* PMOffset *) ++ half 0 (* PMSelector *) ++ half (rm / 16) ++ half 4096 (* StackSeg, StackSize *) ++
  half 0 ++ half 0 (* BC_Code *) ++ half 0 ++ half 0 (* BC_Data *) ++ half (rm / 16) ++ half 4096 (* UNDIData *) ++
  half (phys / 16) ++ half size (* UNDICode *) ++ half 0 ++ half (phys / 16) (* PXEPtr *).
Definition sum_of (l : list Z) : Z := fold_right Z.add 0 l.
(** What a program relies on to find the stack: the two structures, byte for byte, each adding up to zero. *)
Definition tables_ok (rm p size : Z) (m : mem) : Prop :=
  let phys := (p + vo) mod 4294967296 in
  (exists k, ldn m p 88 = pxe_struct phys size rm (1664 + off_in_call_far) k) /\ sum_of (ldn m p 88) mod 256 = 0 /\
  (exists k, ldn m (p + 96) 44 = pxenv_struct phys size rm (1664 + off_pxenv_in_call_far) k) /\ sum_of (ldn m (p + 96) 44) mod 256 = 0.
Lemma ldn_map m a n : ldn m a n = map (fun i => ld8 m (a + Z.of_nat i)) (seq 0 n).
Proof.
  enough (H : forall n k, ldn m (a + Z.of_nat k) n = map (fun i => ld8 m (a + Z.of_nat i)) (seq k n)) by (rewrite <- (H n 0%nat); f_equal; lia).
  induction n0 as [|n0 IH]; intros k; cbn [ldn seq map]; [reflexivity|]. f_equal. rewrite <- IH. f_equal. lia.
Qed.
Lemma bsum_ldn m n : forall a, bsum m a n = sum_of (ldn m a n).
Proof. induction n as [|n IH]; intros a; cbn; [reflexivity|]. f_equal. apply IH. Qed.
(** Memory of zeros in which fields have been stored, and then the checksum. *)
Lemma ldn_fields p l o v n m : (forall x, p <= x < p + Z.of_nat n -> ld8 m x = 0) ->
  ldn (st8 (put_fields p l m) (p + o) v) p n =
  map (fun i => if Z.of_nat i =? o then u8 v else match written l (Z.of_nat i) with Some b => b | None => 0 end) (seq 0 n).
Proof.
  intros Hm. rewrite ldn_map. apply map_ext_in. intros i Hi. apply in_seq in Hi. rewrite ld8_st8.
  destruct (Z.eqb_spec (Z.of_nat i) o) as [Eo|Eo]; [rewrite (proj2 (Z.eqb_eq _ _)) by lia; reflexivity|].
  rewrite (proj2 (Z.eqb_neq _ _)) by lia. rewrite ld8_written. destruct (written _ _); [reflexivity|]. apply Hm. lia.
Qed.
Lemma byte3 v : u8 (v / 65536 / 256) = v / 16777216 mod 256.
Proof. unfold u8. now rewrite Z.div_div by lia. Qed.
Lemma SEGMENT_div p : SEGMENT p = (p + vo) mod 4294967296 / 16.
Proof. unfold SEGMENT, virt_to_phys, u32. now rewrite Z.shiftr_div_pow2 by lia. Qed.
Lemma pxe_struct_stored rmstack p e v :
  map (fun i => if Z.of_nat i =? 5 then u8 v else match written (pxe_fields rmstack p e) (Z.of_nat i) with Some b => b | None => 0 end) (seq 0 88)
  = pxe_struct ((p + vo) mod 4294967296) (e - p) rmstack (1664 + off_in_call_far) (u8 v).
Proof.
  unfold pxe_fields. rewrite SEGMENT_div. change (virt_to_phys vo p) with ((p + vo) mod 4294967296).
  rewrite Z.shiftr_div_pow2 by lia. change (2 ^ 4) with 16. change off_arch_data with 1664. change real_mode_stack_size with 4096.
  generalize ((p + vo) mod 4294967296) (1664 + off_in_call_far) (e - p). intros phys sp size.
  unfold pxe_struct, segment_descriptor, half, word.
  cbn -[u8 Z.div Z.modulo]. rewrite !byte3. reflexivity.
Qed.
Lemma pxenv_struct_stored rmstack p e v : (p + vo) mod 4294967296 mod 16 = 0 ->
  map (fun i => if Z.of_nat i =? 9 then u8 v else match written (pxenv_fields rmstack p e) (Z.of_nat i) with Some b => b | None => 0 end) (seq 0 44)
  = pxenv_struct ((p + vo) mod 4294967296) (e - p) rmstack (1664 + off_pxenv_in_call_far) (u8 v).
Proof.
  intros Hp. assert (Ho : OFFSET p = 0) by (unfold OFFSET, virt_to_phys, u32; rewrite (Z.land_ones _ 4) by lia; exact Hp).
  unfold pxenv_fields. rewrite SEGMENT_div, Ho.
  rewrite Z.shiftr_div_pow2 by lia. change (2 ^ 4) with 16. change off_arch_data with 1664. change real_mode_stack_size with 4096.
  generalize ((p + vo) mod 4294967296) (1664 + off_pxenv_in_call_far) (e - p). intros phys sp size.
  unfold pxenv_struct, half, word.
  cbn -[u8 Z.div Z.modulo]. reflexivity.
Qed.
Lemma tables_mem_ok rmstack p m : (p + vo) mod 4294967296 mod 16 = 0 -> tables_ok rmstack p (stack_end p - p) (tables_mem rmstack p m).
Proof.
  intros Hp. set (m0 := memset m p 0 (Z.to_nat off_arch_data)).
  assert (H0 : forall x, p <= x < p + 1664 -> ld8 m0 x = 0).
  { intros x Hx. unfold m0. rewrite ld8_memset_in by (change (Z.of_nat (Z.to_nat off_arch_data)) with 1664; lia). reflexivity. }
  assert (E1 : ldn (tables_mem rmstack p m) p 88 = ldn (fix_checksum p 5 sizeof_pxe (put_fields p (pxe_fields rmstack p (stack_end p)) m0)) p 88)
    by (apply ldn_ext; intros x Hx; apply pxe_table; lia).
  unfold tables_ok. cbv zeta. rewrite E1. unfold tables_mem. cbv zeta. fold m0.
  set (m1 := fix_checksum p 5 sizeof_pxe (put_fields p (pxe_fields rmstack p (stack_end p)) m0)).
  assert (H1 : forall x, p + 96 <= x < p + 96 + Z.of_nat 44 -> ld8 m1 x = 0).
  { intros x Hx. unfold m1, fix_checksum. rewrite ld8_st8_ne by lia. rewrite (ld8_put_fields _ _ 88); [apply H0; lia|apply pxe_fields_in|lia]. }
  assert (C : forall a o n x, sum_of (ldn (fix_checksum a o n x) a n) mod 256 = byte_checksum (fix_checksum a o n x) a n)
    by (intros; now rewrite byte_checksum_bsum, bsum_ldn).
  change 88%nat with sizeof_pxe. change 44%nat with sizeof_pxenv. change (p + 96) with (p + off_pxenv) in *. unfold m1 at 2. rewrite !C, !fix_checksum_zero by (cbn; lia).
  split; [|split; [reflexivity|split; [|reflexivity]]].
  - eexists. unfold m1, fix_checksum at 1. etransitivity; [apply ldn_fields; intros x Hx; apply H0; cbn in Hx; lia|]. apply pxe_struct_stored.
  - eexists. unfold fix_checksum at 1. etransitivity; [apply ldn_fields; exact H1|]. now apply pxenv_struct_stored.
Qed.
Lemma tables_ok_ext rm p size m m' : (forall x, p <= x < p + off_arch_data -> ld8 m' x = ld8 m x) -> tables_ok rm p size m -> tables_ok rm p size m'.
Proof.
  intros H. unfold off_arch_data, tables_ok in *. cbv zeta. rewrite !(ldn_ext m' m) by (intros; apply H; lia). easy.
Qed.
End tables.

(** C24: [install_pxe_stack] builds the stack the PXE specification asks for, at a paragraph boundary: a !PXE structure of 88 bytes
    and at offset 96 a PXENV+ structure of 44, every byte of which is given by [pxe_struct] and [pxenv_struct] - lengths, version,
    the seven segment descriptors, the real-mode stack as stack and data segment, the code segment that ends with the
    copied code - but for the checksum, which makes the bytes add up to zero.  The entry points lie in the copied callback
    code at offset 1664, PXENV+ points to !PXE; the real-mode callback code is copied behind it with the address of
    Etherboot set, and the mangler of the memory map at the next paragraph.  The stack is inactive and no vector is taken. *)
Theorem install_pxe_stack_spec `{Env} `{Platform} fuel s b :
  let p := stack_base b in let rm := p + 1664 + Z.of_nat (length pxe_code) in
  stack s = None -> mangling s = false ->
  0 <= off_etherboot_location -> off_etherboot_location + 4 <= Z.of_nat (length rm_code) ->
  rm + Z.of_nat (length rm_code) + 15 < 4294967296 ->
  exists s', install_pxe_stack fuel (Some b) s = Some (Ret (Some p), s') /\
    stack s' = Some p /\ state s' = CAN_UNLOAD /\ mangling s' = false /\ hw s' = set_net (set_mm (pmem s') (net (hw s))) (hw s) /\
    (p + vo) mod 4294967296 mod 16 = 0 /\
    tables_ok (real_mode_stack (fw s)) p (mangler s' + Z.of_nat (length mangler_code) - p) (pmem s') /\
    ldn (pmem s') (p + 1664) (length pxe_code) = map u8 pxe_code /\
    (forall i c, nth_error rm_code i = Some c -> Z.of_nat i < off_etherboot_location \/ off_etherboot_location + 4 <= Z.of_nat i ->
       ld8 (pmem s') (rm + Z.of_nat i) = u8 c) /\
    ld32 (pmem s') (rm + off_etherboot_location) = (text_ + vo) mod 4294967296 /\
    rm + Z.of_nat (length rm_code) <= mangler s' < rm + Z.of_nat (length rm_code) + 16 /\ mangler s' mod 16 = 0 /\
    ldn (pmem s') (mangler s') (length mangler_code) = map u8 mangler_code.
Proof.
  intros p rm Hs Hm Ho Hl He. rewrite (install_runs fuel s b Hs Hm). fold p. eexists. split; [reflexivity|]. split; [reflexivity|].
  assert (Hp : 0 <= p) by (unfold p, stack_base, phys_to_virt; apply u32_range).
  match goal with |- state ?x = _ /\ _ => change (pmem x) with (installed_mem (real_mode_stack (fw s)) p (pmem s)); change (mangler x) with (e820mangler_code p) end.
  change (rm_callback_code p) with rm in *. assert (Hr : rm_callback_code p = rm) by reflexivity.
  assert (Hmg : rm + Z.of_nat (length rm_code) <= e820mangler_code p < rm + Z.of_nat (length rm_code) + 16 /\ e820mangler_code p mod 16 = 0).
  { unfold e820mangler_code. cbv zeta. rewrite Hr. unfold align_down. rewrite u32_small by (unfold rm in *; lia). Z.div_mod_to_equations. lia. }
  split; [reflexivity|]. split; [exact Hm|]. split; [reflexivity|].
  assert (Ha : (p + vo) mod 4294967296 mod 16 = 0).
  { change ((p + vo) mod 4294967296) with (virt_to_phys vo p). unfold p, stack_base. rewrite virt_phys; [unfold align_down; Z.div_mod_to_equations; lia|].
    pose proof (u32_range (virt_to_phys vo b + 15)). unfold align_down. Z.div_mod_to_equations. lia. }
  split; [exact Ha|]. split.
  { eapply tables_ok_ext; [intros x Hx; apply tables_of_installed; try assumption; rewrite Hr; lia|]. now apply tables_mem_ok. }
  unfold installed_mem. cbv zeta. rewrite Hr. set (m1 := tables_mem _ _ _). change (p + off_arch_data) with (p + 1664).
  assert (Hin : forall i c, nth_error rm_code i = Some c -> ld8 (stn (stn m1 (p + 1664) pxe_code) rm rm_code) (rm + Z.of_nat i) = u8 c).
  { intros i c Hc. assert (Hi := nth_error_Some rm_code i). rewrite Hc in Hi. specialize (proj1 Hi ltac:(discriminate)). intros Hi'.
    rewrite (ld8_stn_in _ _ _ _ 0) by lia. f_equal. now apply nth_error_nth. }
  split; [|split; [|split; [|split; [apply Hmg|split; [apply Hmg|apply ldn_stn]]]]].
  - rewrite <- (ldn_stn m1 (p + 1664)). apply ldn_ext. intros x Hx. rewrite ld8_stn_out, ld8_st32_ne, ld8_stn_out by (unfold rm in *; lia). reflexivity.
  - intros i c Hc Hi. assert (Hn := nth_error_Some rm_code i). rewrite Hc in Hn. specialize (proj1 Hn ltac:(discriminate)). intros Hn'.
    rewrite ld8_stn_out, ld8_st32_ne by lia. now apply Hin.
  - rewrite (ld32_ext _ (st32 (stn (stn m1 (p + 1664) pxe_code) rm rm_code) (rm + off_etherboot_location) (virt_to_phys vo text_)))
      by (intros x Hx; apply ld8_stn_out; lia).
    rewrite ld32_st32_eq. unfold virt_to_phys, u32. now rewrite Z.mod_mod by lia.
Qed.

(** ** Witnesses *)

(** A machine with one PCI card, whose driver takes it at once; the copied code is short, and Etherboot is not relocated. *)
Definition demo_attach (c : card) : bool * Z * card :=
  (true, -1, {| net := net c; disable_set := true; ioaddr := 0x300; irqno := 5; calls := calls c |}).
#[local] Instance demo_platform : Platform := {|
  vo := 0; text_ := 0x94000; end_ := 0x9c000;
  cfg_byte := bench_byte; cfg_dword := bench_dword; pci_table := bench_drivers; isa_table := [];
  pci_attach := fun _ _ _ c => demo_attach c; isa_attach := fun _ _ c => demo_attach c;
  bios_map := []; bios_basemem := fun _ => 639; bios_extmem := 4096; stack_high := false;
  pxe_code := repeat 0x90 32; off_in_call_far := 0; off_pxenv_in_call_far := 4; off_intercept_int1a := 8;
  off_intercepted_int1a := 16; off_pxenv_location := 20;
  rm_code := repeat 0x90 16; off_etherboot_location := 4;
  mangler_code := repeat 0x90 32; off_intercepted_int15 := 4; off_hide_memory := 8; pxe_stack_size := 2048 |}.
#[local] Instance demo_attaches : Attaches.
Proof. split; intros *; cbn; unfold demo_attach; intros [= <- _ <-]; reflexivity. Qed.
Definition demo_base : base :=
  {| bmem := fun _ => 0; real_mode_stack := 0x8f000; lock_real_mode_stack := false; image_basemem := 0;
     image_basemem_size := 0; memory_map := [] |}.
Definition psys0 : psys :=
  {| hw := {| net := set_mm (stn (stn (fun _ => 0) 0x54 [1; 2; 3; 4]) 0x68 [5; 6; 7; 8]) world0; disable_set := true; ioaddr := 0x300;
              irqno := 5; calls := [] |};
     fw := demo_base; hp := {| heap_ptr := 0x200000; heap_top := 0x100000; heap_bot := 0x200000 |}; ndev := bench_dev;
     stack := None; state := CAN_UNLOAD; mangling := false; mangler := 0; tst := tftp_init; initialized := false |}.
(** with the stack installed at 0x90000 *)
Definition psys1 : psys :=
  match @install_pxe_stack demo_platform 10 (Some 0x8fff1) psys0 with Some (_, s) => s | None => psys0 end.
(** ... and made ready *)
Definition psys2 : psys :=
  match @ensure_pxe_state still_env demo_platform 10 READY psys1 with Some (_, s) => s | None => psys0 end.

Lemma install_pxe_stack_spec_witness :
  exists s', @install_pxe_stack demo_platform 10 (Some 0x8fff1) psys0 = Some (Ret (Some 0x90000), s') /\
    @tables_ok demo_platform 0x8f000 0x90000 (mangler s' + 32 - 0x90000) (pmem s').
Proof.
  destruct (@install_pxe_stack_spec still_env demo_platform 10 psys0 0x8fff1 eq_refl eq_refl
              ltac:(cbn; lia) ltac:(cbn; lia) ltac:(vm_compute; reflexivity)) as (s' & E & _ & _ & _ & _ & _ & T & _).
  exists s'. split; [exact E|exact T].
Defined.
Lemma vectors_restored_witness :
  mangler_placed (P := demo_platform) 0x90000 (mangler psys1) /\
  exists s1, @hook_pxe_stack demo_platform psys1 = Some (Ret 1, s1) /\ @int15_ours demo_platform s1 /\
    exists s3, @unhook_pxe_stack demo_platform s1 = Some (Ret 1, s3) /\ ldn (pmem s3) 0x54 4 = [1; 2; 3; 4] /\ ldn (pmem s3) 0x68 4 = [5; 6; 7; 8].
Proof.
  assert (Hpl : mangler_placed 0x90000 (mangler psys1)) by (split; vm_compute; intuition congruence).
  split; [exact Hpl|].
  destruct (@vectors_restored still_env demo_platform psys1 0x90000 eq_refl eq_refl eq_refl Hpl) as (s1 & E1 & _ & O1 & _ & _ & K).
  exists s1. split; [exact E1|]. split; [exact O1|]. destruct (K s1 (same_stack_refl s1) eq_refl eq_refl O1) as (s3 & E3 & _ & _ & V1 & V2).
  exists s3. split; [exact E3|]. split; [exact V1|exact V2].
Defined.
(** From ready to unloaded, with the INT 15 vector untouched. *)
Lemma ensure_pxe_state_spec_witness :
  @ordered psys2 /\ stack psys2 = Some 0x90000 /\
  exists x s', @ensure_pxe_state still_env demo_platform 10 CAN_UNLOAD psys2 = Some (Ret x, s') /\ x = 1 /\ state s' = CAN_UNLOAD.
Proof.
  assert (Ho : ordered psys2) by (intros _; vm_compute; repeat split; discriminate).
  split; [exact Ho|]. split; [reflexivity|].
  destruct (@ensure_pxe_state_spec still_env demo_platform demo_attaches 10 psys2 0x90000 CAN_UNLOAD Ho eq_refl eq_refl ltac:(discriminate))
    as (x & s' & E & _ & _ & [(_ & Hx & Hs)|(Hn & _)]).
  - exists x, s'. split; [exact E|]. split; [exact Hx|exact Hs].
  - exfalso. apply Hn. right. vm_compute. reflexivity.
Defined.
Lemma unhook_half_done_witness :
  let s := set_pmem (stn (pmem psys2) 0x54 [9; 9; 9; 9]) (set_state MIDWAY psys2) in
  exists s', @unhook_pxe_stack demo_platform s = Some (Ret 0, s') /\ @hook_pxe_stack demo_platform s' = Some (Ret 1, s') /\
    ldn (pmem s') 0x68 4 = [5; 6; 7; 8].
Proof.
  intros s. assert (Hpl : mangler_placed 0x90000 (mangler s)) by (split; vm_compute; intuition congruence).
  destruct (@unhook_half_done still_env demo_platform s 0x90000 eq_refl eq_refl eq_refl Hpl ltac:(vm_compute; discriminate)) as (s' & E & _ & V & Hk).
  exists s'. split; [exact E|]. split; [exact Hk|exact V].
Defined.
