(* ===== verification/PxeApi.v ===== *)
(** The calls of the PXE interface ([src/src/core/pxe_export.c]) and their dispatcher.

    A call is given the address of its parameter structure, whose members are read and written in memory at the offsets of
    [src/src/include/pxe.h].  The buffers of the stack (the last packet, the pending TFTP block, the cached packet, the
    state of a file transfer) are a union and share their memory.  [stale] is what an uninitialised [tftpblk_info_t]
    holds; starting the program that was loaded ([start_nbp]) and moving Etherboot ([relocate]) are parameters. *)

From S2P Require Import Prelude Memory StringLib Misc Vsprintf Heap Net Lacp Nic Tftp Bootp Basemem Pci PxeStack.
Import String.StringSyntax.
Local Open Scope etherboot_scope.

(** ** Constants *)

Definition PXENV_EXIT_SUCCESS : Z := 0.
Definition PXENV_EXIT_FAILURE : Z := 1.
Definition STATUS_SUCCESS : Z := 0x00.
Definition STATUS_FAILURE : Z := 0x01.
Definition STATUS_UNSUPPORTED : Z := 0x03.
Definition STATUS_KEEP_UNDI : Z := 0x04.
Definition STATUS_KEEP_ALL : Z := 0x05.
Definition STATUS_OUT_OF_RESOURCES : Z := 0x06.
Definition STATUS_TFTP_FILE_NOT_FOUND : Z := 0x3b.
Definition STATUS_UNDI_INVALID_STATE : Z := 0x6a.
Definition STATUS_UNDI_INVALID_PARAMETER : Z := 0x6c.
Definition P_UNKNOWN : Z := 0.
Definition P_IP : Z := 1.
Definition P_ARP : Z := 2.
Definition P_RARP : Z := 3.
Definition XMT_DESTADDR : Z := 0.
Definition XMT_BROADCAST : Z := 1.
Definition ETH_P_RARP : Z := 0x8035.
Definition ETH_FRAME_LEN : Z := 1514.
Definition ISR_IN_START : Z := 1.
Definition ISR_IN_PROCESS : Z := 2.
Definition ISR_IN_GET_NEXT : Z := 3.
Definition ISR_OUT_OURS : Z := 0.
Definition ISR_OUT_NOT_OURS : Z := 1.
Definition ISR_OUT_DONE : Z := 0.
Definition ISR_OUT_RECEIVE : Z := 3.
Definition PXE_TFTP_MAGIC_COOKIE : Z := 0x50785466.
Definition PXE_LOAD_ADDRESS : Z := 0x7c00.
Definition sizeof_cached_info : Z := 1260.

(** ** The calls *)

Definition pld16 (a : Z) : PX Z := pgets (fun s => ld16 (pmem s) a).
Definition pld32 (a : Z) : PX Z := pgets (fun s => ld32 (pmem s) a).
Definition pst16 (a v : Z) : PX unit := pmem_do (fun m => st16 m a v).
Definition pst32 (a v : Z) : PX unit := pmem_do (fun m => st32 m a v).
(** [structure->Status = st; return exit;] *)
Definition leave (a st ext : Z) : PX Z := pst16 a st ;~ pret ext.
Definition succeed (a : Z) : PX Z := leave a STATUS_SUCCESS PXENV_EXIT_SUCCESS.
Definition fail (a st : Z) : PX Z := leave a st PXENV_EXIT_FAILURE.
(** [eth_poll(0)]: a frame that is waiting stays where it is. *)
Definition eth_peek `{Env} : M Z := fun w =>
  match rx (cnt_rx w) with
  | None => Some (Ret 0, set_cnt_rx (S (cnt_rx w)) w)
  | Some _ => Some (Ret 1, w)
  end.

Section calls.
Context `{E : Env} `{P : Platform} (fuel : nat).
Context (stale : tftpblk_info) (start_nbp : Z -> Z -> Z -> Z -> PX Z) (relocate : PX unit) (disk_disable : PX unit) (rom_segment : Z).

(** The ENSURE macros. *)
Definition ENSURE (wanted : pxe_stack_state_t) (a : Z) (k : PX Z) : PX Z :=
  ok <~ ensure_pxe_state fuel wanted ;;
  if ok =? 0 then fail a STATUS_UNDI_INVALID_STATE else k.
(** The union in the stack; a call that gets past [ENSURE] has a stack. *)
Definition with_union (k : Z -> PX Z) : PX Z :=
  p <~ pgets stack ;;
  match p with Some p => k (p + off_union) | None => fun _ => None end.

Definition select_card (bus devfn : Z) (d : pdev) : pdev :=
  {| dtype := 0; how := how d; to_probe := PROBE_PCI; dindex := dindex d; tindex := tindex d; devid_bus := devid_bus d;
     devid_vendor := devid_vendor d; devid_device := devid_device d;
     pci_dev := {| p_class := 0; p_vendor := 0; p_dev_id := 0; p_membase := 0; p_ioaddr := 0; p_romaddr := 0; p_irq := 0;
                   p_devfn := devfn; p_bus := bus; use_specified := true; p_driver := None |};
     pci_advance := true; isa_cur := 0; isa_advance := false |}.
Definition pxenv_start_undi (a : Z) : PX Z :=
  ENSURE MIDWAY a (
    ax <~ pld16 (a + 2) ;;
    let bus := Z.land (Z.shiftr ax 8) 0xff in
    let devfn := Z.land ax 0xff in
    d <~ pgets ndev ;;
    (if match p_driver (pci_dev d) with
        | None => true
        | Some _ => negb (p_bus (pci_dev d) =? bus) || negb (p_devfn (pci_dev d) =? devfn)
        end
     then pmod (set_ndev (select_card bus devfn d)) else pret tt) ;~
    succeed a).
Definition pxenv_undi_startup (a : Z) : PX Z := ENSURE MIDWAY a (succeed a).
Definition pxenv_undi_cleanup (a : Z) : PX Z := ENSURE CAN_UNLOAD a (succeed a).
Definition pxenv_undi_initialize (a : Z) : PX Z := ENSURE MIDWAY a (succeed a).
Definition pxenv_undi_reset_adapter (a : Z) : PX Z := ENSURE MIDWAY a (ENSURE READY a (succeed a)).
Definition pxenv_undi_shutdown (a : Z) : PX Z := ENSURE MIDWAY a (succeed a).
Definition pxenv_undi_open (a : Z) : PX Z := ENSURE READY a (eth_irq ENABLE ;~ succeed a).
Definition pxenv_undi_close (a : Z) : PX Z := ENSURE MIDWAY a (succeed a).

(** [SEGOFF16_TO_PTR] of the pointer stored at [a]. *)
Definition far_ptr (m : mem) (a : Z) : Z := VIRTUAL (ld16 m (a + 2)) (ld16 m a).
(** [PTR_TO_SEGOFF16] *)
Definition set_far_ptr (a p : Z) : PX unit := pst16 (a + 2) (SEGMENT p) ;~ pst16 a (OFFSET p).

(** What to send: destination, type, length and data; [None] for a protocol that is not known. *)
Definition transmit_args (m : mem) (a tbd : Z) : option (list Z * Z * Z * Z) :=
  let data := far_ptr m (tbd + 2) in
  let length := ld16 m tbd in
  let dest := if ld8 m (a + 3) =? XMT_BROADCAST then broadcast else ldn m (far_ptr m (a + 4)) 6 in
  let proto := ld8 m (a + 2) in
  if proto =? P_IP then Some (dest, ETH_P_IP, length, data)
  else if proto =? P_ARP then Some (dest, ETH_P_ARP, length, data)
  else if proto =? P_RARP then Some (dest, ETH_P_RARP, length, data)
  else if proto =? P_UNKNOWN then
    Some (ldn m data 6, ntohs (ld32 m (data + 12)), u32 (length - ETH_HLEN), data + ETH_HLEN)
  else None.
Definition pxenv_undi_transmit (a : Z) : PX Z :=
  ENSURE READY a (
    m <~ pgets pmem ;;
    let tbd := far_ptr m (a + 8) in
    if ld16 m (tbd + 6) >? 0 then fail a STATUS_UNDI_INVALID_PARAMETER
    else
      match transmit_args m a tbd with
      | None => fail a STATUS_UNDI_INVALID_PARAMETER
      | Some (dest, type, length, data) =>
          on_world (eth_transmit dest type length data) ;~
          succeed a
      end).

Definition pxenv_undi_set_mcast_address (a : Z) : PX Z := fail a STATUS_UNSUPPORTED.
Definition pxenv_undi_set_station_address (a : Z) : PX Z :=
  ENSURE READY a (
    s <~ pgets (fun s => s) ;;
    if list_eq_dec Z.eq_dec (node (arp (net (hw s)) ARP_CLIENT)) (ldn (pmem s) (a + 2) 6) then succeed a
    else fail a STATUS_UNSUPPORTED).
Definition pxenv_undi_set_packet_filter (a : Z) : PX Z := fail a STATUS_UNSUPPORTED.
Definition pxenv_undi_get_information (a : Z) : PX Z :=
  ENSURE READY a (
    s <~ pgets (fun s => s) ;;
    let mac := node (arp (net (hw s)) ARP_CLIENT) in
    pmem_do (put_fields a [F16 2 (ioaddr (hw s)); F16 4 (irqno (hw s)); F16 6 ETH_MAX_MTU; F16 8 1; F16 10 ETH_ALEN]) ;~
    pmem_do (fun m => stn (stn m (a + 12) mac) (a + 28) mac) ;~
    pmem_do (put_fields a [F16 44 rom_segment; F16 46 1; F16 48 1]) ;~
    succeed a).
Definition pxenv_undi_get_statistics (a : Z) : PX Z := fail a STATUS_UNSUPPORTED.
Definition pxenv_undi_clear_statistics (a : Z) : PX Z := fail a STATUS_UNSUPPORTED.
Definition pxenv_undi_initiate_diags (a : Z) : PX Z := fail a STATUS_UNSUPPORTED.
Definition pxenv_undi_force_interrupt (a : Z) : PX Z := ENSURE READY a (eth_irq FORCE ;~ succeed a).
Definition pxenv_undi_get_mcast_address (a : Z) : PX Z := fail a STATUS_UNSUPPORTED.
Definition pxenv_undi_get_nic_type (a : Z) : PX Z :=
  ENSURE READY a (
    d <~ pgets ndev ;;
    let pci := pci_dev d in
    (if to_probe d =? PROBE_PCI then
       pmem_do (put_fields a [F8 2 2; F16 3 (p_vendor pci); F16 5 (p_dev_id pci); F8 7 (Z.shiftr (p_class pci) 8);
                              F8 8 (Z.land (p_class pci) 0xff); F16 11 (Z.lor (Z.shiftl (p_bus pci) 8) (p_devfn pci));
                              F8 9 0; F8 10 0; F16 13 0xffff; F16 15 0xffff])
     else if to_probe d =? PROBE_ISA then
       pmem_do (put_fields a [F8 2 3; F32 3 0; F8 7 0; F8 8 0; F8 9 0; F16 11 0])
     else pmem_do (put_fields a [F8 2 0])) ;~
    succeed a).
Definition pxenv_undi_get_iface_info (a : Z) : PX Z :=
  ENSURE READY a (
    pmem_do (fun m => stn m (a + 2) (txt "Etherboot"%string ++ [0])) ;~
    pmem_do (put_fields a [F32 18 10000000; F32 22 0]) ;~
    pmem_do (fun m => memset m (a + 26) 0 16) ;~
    succeed a).

(** *** The interrupt service routine *)

Definition isr_proto (nstype : Z) : Z :=
  if nstype =? ETH_P_IP then P_IP else if nstype =? ETH_P_ARP then P_ARP
  else if nstype =? ETH_P_RARP then P_RARP else P_UNKNOWN.
Definition isr_get_next (a : Z) : PX Z :=
  eth_irq ENABLE ;~
  waiting <~ on_world eth_peek ;;
  (if istrue waiting then eth_irq FORCE else pret tt) ;~
  pst16 (a + 2) ISR_OUT_DONE ;~
  succeed a.
Definition isr_start (a : Z) : PX Z :=
  waiting <~ on_world eth_peek ;;
  (if istrue waiting then eth_irq DISABLE ;~ pst16 (a + 2) ISR_OUT_OURS else pst16 (a + 2) ISR_OUT_NOT_OURS) ;~
  succeed a.
Definition isr_process (a u : Z) : PX Z :=
  got <~ on_world eth_poll ;;
  if istrue got then
    len <~ pgets (fun s => packetlen (net (hw s))) ;;
    if len >? ETH_FRAME_LEN then pst16 (a + 2) ISR_OUT_DONE ;~ fail a STATUS_OUT_OF_RESOURCES
    else
      pmem_do (put_fields a [F16 2 ISR_OUT_RECEIVE; F16 4 len; F16 6 len; F16 8 ETH_HLEN]) ;~
      pmem_do (fun m => memcpy m u nic_packet (Z.to_nat len)) ;~
      set_far_ptr (a + 10) u ;~
      m <~ pgets pmem ;;
      pmem_do (fun m' => st8 m' (a + 14) (isr_proto (ntohs (ld32 m (nic_packet + 12))))) ;~
      m <~ pgets pmem ;;
      pmem_do (fun m' => st8 m' (a + 15) (if list_eq_dec Z.eq_dec (ldn m nic_packet 6) broadcast then XMT_DESTADDR else XMT_BROADCAST)) ;~
      succeed a
  else isr_get_next a.
Definition pxenv_undi_isr (a : Z) : PX Z :=
  s <~ pgets (fun s => s) ;;
  match stack s with
  | None => fail a STATUS_UNDI_INVALID_STATE
  | Some p =>
      if st_num (state s) <? st_num READY then fail a STATUS_UNDI_INVALID_STATE
      else
        pmem_do (put_fields a [F16 4 0; F16 6 0; F16 8 0; F8 14 0; F8 15 0]) ;~
        func <~ pld16 (a + 2) ;;
        if func =? ISR_IN_START then isr_start a
        else if func =? ISR_IN_PROCESS then isr_process a (p + off_union)
        else if func =? ISR_IN_GET_NEXT then isr_get_next a
        else pst16 (a + 2) ISR_OUT_DONE ;~ fail a STATUS_UNDI_INVALID_PARAMETER
  end.
Definition pxenv_stop_undi (a : Z) : PX Z :=
  ok <~ ensure_pxe_state fuel CAN_UNLOAD ;;
  if ok =? 0 then fail a STATUS_KEEP_UNDI else succeed a.

(** *** TFTP *)

(** Run [tftp_block] on the static variables of the client. *)
Definition do_tftp_block (req : option tftpreq_info) : PX (Z * tftpblk_info * option tftpreq_info) :=
  st <~ pgets tst ;;
  r <~ on_world (tftp_block fuel req st) ;;
  let '(rc, b, req, st) := r in
  pmod (set_tst st) ;~
  (** after an error packet only the data pointer was set *)
  pret (rc, if rc >? 0 then b else {| blk_data := 0; blk_block := blk_block stale; blk_len := blk_len stale; blk_eof := blk_eof stale |}, req).
Definition pset_arp (i : nat) (e : arp_entry) : PX unit := on_world (set_arp i e).
Definition file_name (p : Z) : PX (list Z) := fun s =>
  match read_cstr fuel (pmem s) p with Some name => Some (Ret name, s) | None => None end.

Definition pxenv_tftp_open (a : Z) : PX Z :=
  ENSURE READY a (
    s <~ pgets (fun s => s) ;;
    let server := ld32 (pmem s) (a + 2) in
    (if istrue server && negb (server =? ipaddr (arp (net (hw s)) ARP_SERVER))
     then pset_arp ARP_SERVER {| ipaddr := server; node := no_node |} else pret tt) ;~
    name <~ file_name (a + 10) ;;
    let size := ld16 (pmem s) (a + 140) in
    r <~ do_tftp_block (Some {| rq_name := name; rq_port := ntohs (ld16 (pmem s) (a + 138));
                               rq_blksize := if istrue size then size else TFTP_DEFAULTSIZE_PACKET |}) ;;
    let '(rc, b, req) := r in
    if rc =? 0 then fail a STATUS_TFTP_FILE_NOT_FOUND
    else
      (match req with Some q => pst16 (a + 140) (rq_blksize q) | None => pret tt end) ;~
      with_union (fun u =>
        pmem_do (put_fields u [F32 0 PXE_TFTP_MAGIC_COOKIE; F32 4 (blk_len b); F32 8 (b2z (blk_eof b))]) ;~
        pmem_do (fun m => memcpy m (u + 12) (blk_data b) (Z.to_nat (blk_len b))) ;~
        succeed a)).
Definition pxenv_tftp_close (a : Z) : PX Z := ENSURE READY a (succeed a).
(** The pending block, if there is one; otherwise the next block of the file. *)
Definition next_block (u : Z) : PX (option tftpblk_info) :=
  m <~ pgets pmem ;;
  if ld32 m u =? PXE_TFTP_MAGIC_COOKIE then
    pst32 u 0 ;~
    pret (Some {| blk_data := u + 12; blk_block := 1; blk_len := ld32 m (u + 4); blk_eof := istrue (ld32 m (u + 8)) |})
  else
    r <~ do_tftp_block None ;;
    let '(rc, b, _) := r in
    pret (if rc =? 0 then None else Some b).
Definition pxenv_tftp_read (a : Z) : PX Z :=
  ENSURE READY a (with_union (fun u =>
    b <~ next_block u ;;
    match b with
    | None => fail a STATUS_TFTP_FILE_NOT_FOUND
    | Some b =>
        pst16 (a + 2) (blk_block b) ;~
        pst16 (a + 4) (blk_len b) ;~
        pmem_do (fun m => memcpy m (far_ptr m (a + 6)) (blk_data b) (Z.to_nat (blk_len b))) ;~
        succeed a
    end)).

(** The callback of a whole-file transfer; [u] is the address of [readfile]. *)
Definition pxe_tftp_read_block (u data block len : Z) (eof : bool) : M Z :=
  m <- gets mm ;;
  let buffer := ld32 m u in
  let offset := ld32 m (u + 4) in
  if istrue buffer && (u32 (offset + len) >=? ld32 m (u + 8)) then ret (-1)
  else
    (if istrue buffer then set_mem (fun m => memcpy m (buffer + offset) data (Z.to_nat len)) else ret tt) ;;;
    m <- gets mm ;;
    store32 (u + 4) (ld32 m (u + 4) + len) ;;;
    ret (if eof then 0 else 1).
Definition do_tftp (u : Z) (name : Z) : PX Z :=
  name <~ file_name name ;;
  st <~ pgets tst ;;
  r <~ on_world (tftp fuel name (pxe_tftp_read_block u) st) ;;
  pmod (set_tst (snd r)) ;~
  pret (fst r).
Definition pxenv_tftp_read_file (a : Z) : PX Z :=
  ENSURE READY a (with_union (fun u =>
    pmem_do (fun m => memcpy m KERNEL_BUF (a + 2) 128) ;~
    m <~ pgets pmem ;;
    pmem_do (put_fields u [F32 0 (phys_to_virt vo (ld32 m (a + 134)))]) ;~
    m <~ pgets pmem ;;
    pmem_do (put_fields u [F32 8 (ld32 m (a + 130)); F32 4 0]) ;~
    rc <~ do_tftp u (a + 2) ;;
    if istrue rc then fail a STATUS_FAILURE else succeed a)).
Definition pxenv_tftp_get_fsize (a : Z) : PX Z :=
  ENSURE READY a (with_union (fun u =>
    pmem_do (put_fields u [F32 0 0; F32 8 0; F32 4 0]) ;~
    rc <~ do_tftp u (a + 10) ;;
    if istrue rc then pst32 (a + 138) 0 ;~ fail a STATUS_FAILURE
    else
      size <~ pld32 (u + 4) ;;
      pst32 (a + 138) size ;~
      succeed a)).

(** *** UDP *)

Definition pxenv_udp_open (a : Z) : PX Z :=
  ENSURE READY a (
    s <~ pgets (fun s => s) ;;
    let src := ld32 (pmem s) (a + 2) in
    (if istrue src && negb (src =? client_ip (net (hw s)))
     then pset_arp ARP_CLIENT {| ipaddr := src; node := node (arp (net (hw s)) ARP_CLIENT) |} else pret tt) ;~
    succeed a).
Definition pxenv_udp_close (a : Z) : PX Z := ENSURE READY a (succeed a).
Definition await_pxe_udp (a : Z) : reply_t := fun info =>
  if negb (has_udp info) then ret 0
  else
    m <- gets mm ;;
    let dest_ip := ld32 m (a + 6) in
    let ip_dest := ld32 m (ip_ptr + 16) in
    let d_port := ntohs (ld16 m (a + 12)) in
    if istrue dest_ip && negb (dest_ip =? ip_dest) then ret 0
    else if istrue d_port && negb (d_port =? ntohs (ld16 m (ip_ptr + 22))) then ret 0
    else
      let size := u32 (ntohs (ld16 m (ip_ptr + 24)) - 8) in
      set_mem (put_fields a [F32 2 (ld32 m (ip_ptr + 12)); F16 10 (ld16 m (ip_ptr + 20)); F32 6 ip_dest;
                             F16 12 (ld16 m (ip_ptr + 22))]) ;;;
      m <- gets mm ;;
      if ld16 m (a + 14) <? size then store16 a STATUS_OUT_OF_RESOURCES ;;; ret 0
      else
        set_mem (fun m => memcpy m (far_ptr m (a + 16)) (ip_ptr + 28) (Z.to_nat size)) ;;;
        store16 (a + 14) size ;;;
        ret 1.
Definition pxenv_udp_read (a : Z) : PX Z :=
  ENSURE READY a (
    pst16 a STATUS_FAILURE ;~
    got <~ on_world (await_reply fuel (await_pxe_udp a) 0) ;;
    if got =? 0 then pret PXENV_EXIT_FAILURE else succeed a).
Definition pxenv_udp_write (a : Z) : PX Z :=
  ENSURE READY a (
    m <~ pgets pmem ;;
    let src_port := ntohs (ld16 m (a + 10)) in
    let src_port := if src_port =? 0 then 2069 else src_port in
    let dst_port := ntohs (ld16 m (a + 12)) in
    let packet_size := 28 + ld16 m (a + 14) in
    if packet_size >? ETH_FRAME_LEN then fail a STATUS_OUT_OF_RESOURCES
    else
      pmem_do (fun m => memcpy m (nic_packet + 28) (far_ptr m (a + 16)) (Z.to_nat (ld16 m (a + 14)))) ;~
      ip <~ pld32 (a + 2) ;;
      ok <~ on_world (udp_transmit fuel ip src_port dst_port packet_size nic_packet) ;;
      if ok =? 0 then fail a STATUS_FAILURE else succeed a).

(** *** The rest *)

Definition pxe_cleanup : PX unit := eth_disable fuel ;~ disk_disable ;~ pmod (set_init false).
Definition pxenv_unload_stack (a : Z) : PX Z :=
  success <~ ensure_pxe_state fuel CAN_UNLOAD ;;
  pxe_cleanup ;~
  if success =? 0 then fail a STATUS_KEEP_ALL else succeed a.
Definition fill_cached_info (w : world) (c : Z) (m : mem) : mem :=
  let m := put_fields c [F8 0 2; F8 1 1; F8 2 ETH_ALEN; F8 3 0; F32 4 0; F16 8 0; F16 10 0x8000; F32 12 (client_ip w);
                         F32 16 (client_ip w); F32 20 (ipaddr (arp w ARP_SERVER)); F32 24 (ipaddr (arp w ARP_GATEWAY))] m in
  let m := stn m (c + 28) (node (arp w ARP_CLIENT)) in
  let m := st8 m (c + 44) 0 in
  let m := memcpy m (c + 108) KERNEL_BUF 128 in
  memcpy m (c + 236) (bootp_data + bp_vend_off) 1024.
Definition pxenv_get_cached_info (a : Z) : PX Z :=
  ENSURE READY a (with_union (fun c =>
    w <~ pgets (fun s => net (hw s)) ;;
    pmem_do (fill_cached_info w c) ;~
    pst16 (a + 10) sizeof_cached_info ;~
    m <~ pgets pmem ;;
    (if (ld16 m (a + 8) =? 0) && (ld16 m (a + 6) =? 0) then
       set_far_ptr (a + 6) c ;~
       pst16 (a + 4) sizeof_cached_info
     else
       let size := if ld16 m (a + 4) <? sizeof_cached_info then ld16 m (a + 4) else sizeof_cached_info in
       pmem_do (fun m => memcpy m (far_ptr m (a + 6)) c (Z.to_nat size))) ;~
    succeed a)).
(** [xstartpxe]: the program is given the addresses of the two structures. *)
Definition xstartpxe : PX Z :=
  p <~ pgets stack ;;
  match p with
  | Some p => start_nbp (SEGMENT (p + off_pxenv)) (OFFSET (p + off_pxenv)) (SEGMENT p) (OFFSET p)
  | None => fun _ => None
  end.
(** [pxe_api_call(PXENV_TFTP_READ_FILE, ...)] in it is the dispatcher's case for that call. *)
Definition pxenv_restart_tftp (a : Z) : PX Z :=
  ENSURE READY a (
    pst32 (a + 134) PXE_LOAD_ADDRESS ;~
    free <~ pgets (fun s => get_free_base_memory (phys_view (pmem s))) ;;
    pst32 (a + 130) (free - PXE_LOAD_ADDRESS) ;~
    pst16 a STATUS_FAILURE ;~
    tftp_exit <~ pxenv_tftp_read_file a ;;
    if negb (tftp_exit =? PXENV_EXIT_SUCCESS) then pret tftp_exit
    else
      r <~ xstartpxe ;;
      pst16 a r ;~
      pret PXENV_EXIT_SUCCESS).
Definition pxenv_start_base (a : Z) : PX Z := fail a STATUS_UNSUPPORTED.
Definition pxenv_stop_base (a : Z) : PX Z := succeed a.

Definition pxe_init_heap : PX unit := fun s =>
  match init_heap (virt_to_phys vo text_) (virt_to_phys vo end_) (memory_map (fw s)) (hp s) with
  | Some h => Some (Ret tt, set_hp h s)
  | None => Some (Jmp 255, s)
  end.
Definition pxenv_undi_loader (a : Z) : PX Z :=
  ds <~ pld16 (a + 12) ;;
  use_undi_ds_for_rm_stack fuel ds ;~
  on_fw (fun b => let* b := get_memsizes bios_map bios_basemem bios_extmem stack_high fuel b in Some (b, tt)) ;~
  pxe_cleanup ;~
  relocate ;~
  pxe_cleanup ;~
  pxe_init_heap ;~
  let a := phys_to_virt vo (virt_to_phys vo a) in
  cs <~ pld16 (a + 14) ;;
  install_pxe_stack fuel (Some (VIRTUAL cs 0)) ;~
  pxenv_start_undi a ;~
  ENSURE CAN_UNLOAD a (
    p <~ pgets stack ;;
    match p with
    | None => fun _ => None
    | Some p =>
        set_far_ptr (a + 16) p ;~
        set_far_ptr (a + 20) (p + off_pxenv) ;~
        succeed a
    end).

(** *** The dispatcher *)

Definition pxenv_table : list (Z * (Z -> PX Z)) :=
  [(0x00, pxenv_start_undi); (0x01, pxenv_undi_startup); (0x02, pxenv_undi_cleanup); (0x03, pxenv_undi_initialize);
   (0x04, pxenv_undi_reset_adapter); (0x05, pxenv_undi_shutdown); (0x06, pxenv_undi_open); (0x07, pxenv_undi_close);
   (0x08, pxenv_undi_transmit); (0x09, pxenv_undi_set_mcast_address); (0x0a, pxenv_undi_set_station_address);
   (0x0b, pxenv_undi_set_packet_filter); (0x0c, pxenv_undi_get_information); (0x0d, pxenv_undi_get_statistics);
   (0x0e, pxenv_undi_clear_statistics); (0x0f, pxenv_undi_initiate_diags); (0x10, pxenv_undi_force_interrupt);
   (0x11, pxenv_undi_get_mcast_address); (0x12, pxenv_undi_get_nic_type); (0x13, pxenv_undi_get_iface_info);
   (0x14, pxenv_undi_isr); (0x15, pxenv_stop_undi); (0x20, pxenv_tftp_open); (0x21, pxenv_tftp_close);
   (0x22, pxenv_tftp_read); (0x23, pxenv_tftp_read_file); (0x25, pxenv_tftp_get_fsize); (0x30, pxenv_udp_open);
   (0x31, pxenv_udp_close); (0x32, pxenv_udp_read); (0x33, pxenv_udp_write); (0x70, pxenv_unload_stack);
   (0x71, pxenv_get_cached_info); (0x73, pxenv_restart_tftp); (0x75, pxenv_start_base); (0x76, pxenv_stop_base);
   (0x104d, pxenv_undi_loader)].
Definition pxe_api_call (opcode a : Z) : PX Z :=
  pst16 a STATUS_FAILURE ;~
  match find (fun c => fst c =? opcode) pxenv_table with
  | Some c => snd c a
  | None => fail a STATUS_UNSUPPORTED
  end.

(** [pxe_in_call]: parameters on the stack for !PXE, in registers for PXENV+. *)
Record in_call_data := { stack_opcode : Z; stack_segoff : Z * Z; reg_bx : Z; reg_es : Z; reg_di : Z }.
Definition pxe_in_call (api_version : Z) (d : in_call_data) : PX Z :=
  let '(opcode, seg, off) :=
    if api_version >=? 0x201 then (stack_opcode d, fst (stack_segoff d), snd (stack_segoff d))
    else (reg_bx d, reg_es d, reg_di d) in
  pxe_api_call (u16 opcode) (VIRTUAL seg off).
End calls.

(** ** What every call does to the state of the stack *)

(** The state, as the caller knows it; [None] when no stack is installed. *)
Definition astate (s : psys) : option pxe_stack_state_t := match stack s with Some _ => Some (state s) | None => None end.
(** A stack in order; and nothing is intercepted when there is none. *)
Definition settled (s : psys) : Prop := ordered s /\ (stack s = None -> mangling s = false).

Inductive call_kind := Unsupported | Nothing | Within (st : pxe_stack_state_t) | Resets | Isr | Loads | Restarts.
Definition kind_table : list (Z * call_kind) :=
  [(0x00, Within MIDWAY); (0x01, Within MIDWAY); (0x02, Within CAN_UNLOAD); (0x03, Within MIDWAY); (0x04, Resets); (0x05, Within MIDWAY);
   (0x06, Within READY); (0x07, Within MIDWAY); (0x08, Within READY); (0x09, Unsupported); (0x0a, Within READY); (0x0b, Unsupported);
   (0x0c, Within READY); (0x0d, Unsupported); (0x0e, Unsupported); (0x0f, Unsupported); (0x10, Within READY); (0x11, Unsupported);
   (0x12, Within READY); (0x13, Within READY); (0x14, Isr); (0x15, Within CAN_UNLOAD); (0x20, Within READY); (0x21, Within READY);
   (0x22, Within READY); (0x23, Within READY); (0x25, Within READY); (0x30, Within READY); (0x31, Within READY); (0x32, Within READY);
   (0x33, Within READY); (0x70, Within CAN_UNLOAD); (0x71, Within READY); (0x73, Restarts); (0x75, Unsupported); (0x76, Nothing);
   (0x104d, Loads)].
Definition kind_of (op : Z) : call_kind :=
  match find (fun c => fst c =? op) kind_table with Some c => snd c | None => Unsupported end.
(** The abstract machine: from state [x], a call may return [e] and leave state [x']. *)
Definition abs_call (k : call_kind) (x : option pxe_stack_state_t) (e : Z) (x' : option pxe_stack_state_t) : Prop :=
  match k, x with
  | Unsupported, _ => e = 1 /\ x' = x
  | Nothing, _ => e = 0 /\ x' = x
  | Isr, _ => x' = x /\ (x <> Some READY -> e = 1)
  | Loads, _ => (e = 0 /\ x' = Some CAN_UNLOAD) \/ (e = 1 /\ x' = Some MIDWAY)
  | _, None => e = 1 /\ x' = None
  | Within MIDWAY, Some _ => e = 0 /\ x' = Some MIDWAY
  | Within st, Some _ => x' = Some st \/ (e = 1 /\ x' = Some MIDWAY)
  | Resets, Some _ => (e = 0 /\ x' = Some READY) \/ (e = 1 /\ x' = Some MIDWAY)
  | Restarts, Some _ => e = 0 \/ (e = 1 /\ (x' = Some READY \/ x' = Some MIDWAY))
  end.

(** *** Exit codes and statuses *)

Definition exits (strict : bool) (a : Z) (k : PX Z) : Prop := forall s e s', k s = Some (Ret e, s') ->
  (e = 0 /\ ld16 (pmem s') a = 0) \/ (e = 1 /\ (strict = true -> ld16 (pmem s') a <> 0)).
Lemma exits_succeed b a : exits b a (succeed a).
Proof. intros s e s' [= <- <-]. left. split; [reflexivity|]. unfold pmem. cbn. apply ld16_st16_eq. Qed.
Lemma exits_fail b a st : 0 < st < 65536 -> exits b a (fail a st).
Proof.
  intros Hst s e s' [= <- <-]. right. split; [reflexivity|]. intros _. unfold pmem. cbn. rewrite ld16_st16_eq, u16_small; lia.
Qed.
Lemma exits_bind b a {A} (c : PX A) (k : A -> PX Z) : (forall x, exits b a (k x)) -> exits b a (pbind c k).
Proof.
  intros Hk s e s'. unfold pbind. destruct (c s) as [[[x|j] s1]|]; [apply Hk|discriminate|discriminate].
Qed.
Lemma exits_none b a : exits b a (fun _ => None).
Proof. intros s e s' [=]. Qed.
Lemma exits_weak a : exits false a (pret PXENV_EXIT_FAILURE).
Proof. intros s e s' [= <- _]. right. split; [reflexivity|discriminate]. Qed.
Lemma frames_none {A} : frames (fun _ => @None (res A * psys)).
Proof. intros s r s' [=]. Qed.
#[export] Hint Resolve exits_succeed exits_none exits_weak frames_none : pxe.
#[export] Hint Extern 2 (exits _ _ (fail _ _)) => apply exits_fail; cbv; split; reflexivity : pxe.
#[export] Hint Extern 2 (exits _ _ (pbind _ _)) => apply exits_bind; intros : pxe.
#[export] Hint Extern 3 (exits _ _ (match ?b with _ => _ end)) => destruct b : pxe.

Section refinement.
Context `{E : Env} `{P : Platform} `{A : !Attaches} (fuel : nat).
Context (stale : tftpblk_info) (start_nbp : Z -> Z -> Z -> Z -> PX Z) (relocate : PX unit) (disk_disable : PX unit) (rom_segment : Z).

Lemma frames_succeed a : frames (succeed a).
Proof. unfold succeed, leave, pst16. auto with pxe. Qed.
Lemma frames_fail a st : frames (fail a st).
Proof. unfold fail, leave, pst16. auto with pxe. Qed.
Hint Resolve frames_succeed frames_fail : pxe.
Lemma frames_settled {B} (c : PX B) s r s' : frames c -> settled s -> c s = Some (r, s') -> settled s' /\ astate s' = astate s.
Proof.
  intros Hf (Ho & Hn) H. pose proof (Hf _ _ _ H) as (H1 & H2 & H3 & H4 & H5). split; [split|].
  - eapply ordered_same; [eapply Hf, H|exact Ho].
  - now rewrite H1, H3.
  - unfold astate. now rewrite H1, H2.
Qed.

(** A request for a state, in terms of the abstract state. *)
Lemma ensure_abstract wanted s r s' : settled s -> ensure_pxe_state fuel wanted s = Some (r, s') ->
  settled s' /\
  match r with
  | Ret ok => match astate s with
              | None => ok = 0 /\ astate s' = None
              | Some _ => (ok = 1 /\ astate s' = Some wanted) \/ (ok = 0 /\ astate s' = Some MIDWAY /\ wanted <> MIDWAY)
              end
  | Jmp _ => True
  end.
Proof.
  intros (Ho & Hn) H. unfold astate at 1. destruct (stack s) as [p|] eqn:Hp.
  - assert (K : stack s' = Some p /\ ordered s' /\
      match r with Ret ok => (ok = 1 /\ state s' = wanted) \/ (ok = 0 /\ state s' = MIDWAY /\ wanted <> MIDWAY) | Jmp _ => True end).
    { destruct wanted.
      - destruct (unload_effect fuel s p r s' Hp Ho H) as (H1 & H2 & H3). split; [exact H1|]. split; [exact H2|].
        destruct H3 as [(-> & H3)|[(-> & H3)|(j & ->)]]; [left; auto|right|exact I]. repeat split; [exact H3|discriminate].
      - destruct (midway_effect fuel s p r s' Hp Ho H) as (H1 & H2 & H3). split; [exact H1|]. split; [exact H2|].
        destruct H3 as [(-> & H3)|(j & ->)]; [left; auto|exact I].
      - destruct (ready_effect fuel s p r s' Hp (or_introl Ho) H) as (H1 & H2 & H3). split; [exact H1|]. split; [exact H2|].
        destruct H3 as [(-> & H3)|(-> & H3)]; [left; auto|right]. repeat split; [exact H3|discriminate]. }
    destruct K as (K1 & K2 & K3). split; [split; [exact K2|congruence]|]. destruct r as [ok|j]; [|exact I].
    unfold astate. rewrite K1. destruct K3 as [(K3 & K4)|(K3 & K4 & K5)]; [left|right]; repeat split; congruence.
  - unfold ensure_pxe_state, pbind, pgets, pret in H. rewrite Hp in H. injection H as <- <-.
    split; [split; [exact Ho|intros _; exact (Hn eq_refl)]|]. unfold astate. now rewrite Hp.
Qed.
Lemma ENSURE_abstract st a k s r s' : frames k -> settled s -> ENSURE fuel st a k s = Some (r, s') ->
  settled s' /\
  match r with
  | Ret e => match astate s with
             | None => e = 1 /\ astate s' = None
             | Some _ => ((exists s1, k s1 = Some (Ret e, s')) /\ astate s' = Some st) \/ (e = 1 /\ astate s' = Some MIDWAY /\ st <> MIDWAY)
             end
  | Jmp _ => True
  end.
Proof.
  intros Hk Hs. unfold ENSURE, pbind. destruct (ensure_pxe_state fuel st s) as [[[ok|j] s1]|] eqn:E1; [| |discriminate];
    apply ensure_abstract in E1 as (S1 & E1); try exact Hs.
  - destruct (ok =? 0) eqn:E0; intros H; pose proof H as H'; apply frames_settled in H as (S2 & E2); auto with pxe.
    + split; [exact S2|]. destruct r as [e|j]; [|exact I]. injection H' as <- _. rewrite E2. apply Z.eqb_eq in E0. subst ok.
      destruct (astate s); [|tauto]. right. destruct E1 as [([=] & _)|(_ & E1)]; tauto.
    + split; [exact S2|]. destruct r as [e|j]; [|exact I]. rewrite E2. apply Z.eqb_neq in E0.
      destruct (astate s); [|tauto]. left. destruct E1 as [(_ & E1)|(E1 & _)]; [|tauto]. eauto.
  - intros [= <- <-]. now split.
Qed.
Lemma exits_ENSURE b st a k : exits b a k -> exits b a (ENSURE fuel st a k).
Proof. intros Hk. unfold ENSURE. auto with pxe. Qed.

(** *** The calls that only need a state *)

(** The calls that do all their work within [ENSURE]; from midway they always succeed. *)
Definition oks (k : PX Z) : Prop := forall s e s', k s = Some (Ret e, s') -> e = 0.
Definition simple (a : Z) (c : PX Z) (b : bool) (st : pxe_stack_state_t) : Prop :=
  exists k, c = ENSURE fuel st a k /\ frames k /\ exits b a k /\ (st = MIDWAY -> oks k).
Lemma oks_succeed a : oks (succeed a).
Proof. now intros s e s' [= <- _]. Qed.
Lemma oks_bind {B} (c : PX B) k : (forall x, oks (k x)) -> oks (pbind c k).
Proof. intros Hk s e s'. unfold pbind. destruct (c s) as [[[x|j] s1]|]; [apply Hk|discriminate|discriminate]. Qed.
Hint Resolve oks_succeed : pxe.
Hint Extern 2 (oks (pbind _ _)) => apply oks_bind; intros : pxe.
Lemma frames_file_name p : frames (file_name fuel p).
Proof. intros s r s'. unfold file_name. destruct (read_cstr _ _ _); [|discriminate]. intros [= _ <-]. apply same_stack_refl. Qed.
Lemma frames_ndev d : frames (pmod (set_ndev d)).
Proof. intros s r s' [= _ <-]. now unfold same_stack. Qed.
Hint Resolve frames_file_name frames_ndev : pxe.
Lemma frames_do_tftp_block req : frames (do_tftp_block fuel stale req).
Proof. unfold do_tftp_block. apply frames_bind; [auto with pxe|intros st]. apply frames_bind; [auto with pxe|intros [[[rc b] q] st']]. auto with pxe. Qed.
Hint Resolve frames_do_tftp_block : pxe.
Lemma frames_do_tftp u p : frames (do_tftp fuel u p).
Proof. unfold do_tftp. auto 10 with pxe. Qed.
Hint Resolve frames_do_tftp : pxe.
Lemma frames_next_block u : frames (next_block fuel stale u).
Proof. unfold next_block, pst32. apply frames_bind; [auto with pxe|intros m]. destruct (_ =? _); [auto with pxe|]. apply frames_bind; [auto with pxe|intros [[rc b] q]]. auto with pxe. Qed.
Lemma frames_with_union k : (forall u, frames (k u)) -> frames (with_union k).
Proof. intros Hk. unfold with_union. auto with pxe. Qed.
Lemma exits_with_union b a k : (forall u, exits b a (k u)) -> exits b a (with_union k).
Proof. intros Hk. unfold with_union. auto with pxe. Qed.
Hint Resolve frames_next_block frames_with_union exits_with_union : pxe.
Hint Extern 1 => progress (unfold pst16, pst32, pld16, pld32, set_far_ptr, pset_arp; cbv zeta) : pxe.
Ltac simple_tac :=
  eexists; split; [reflexivity|]; refine (conj _ (conj _ _)); [auto 30 with pxe|auto 30 with pxe|intros HM; first [discriminate HM|auto 30 with pxe]].
Lemma simple_abstract a c b st s r s' : simple a c b st -> settled s -> c s = Some (r, s') ->
  settled s' /\
  match r with
  | Ret e => abs_call (Within st) (astate s) e (astate s') /\ (astate s <> None -> e = 0 -> astate s' = Some st) /\
      ((e = 0 /\ ld16 (pmem s') a = 0) \/ (e = 1 /\ (b = true -> ld16 (pmem s') a <> 0)))
  | Jmp _ => True
  end.
Proof.
  intros (k & -> & Hk & He & Ho) Hs H. pose proof (ENSURE_abstract st a k s r s' Hk Hs H) as (S1 & H1). split; [exact S1|].
  destruct r as [e|j]; [|exact I].
  pose proof (exits_ENSURE b st a k He _ _ _ H) as Hx. unfold abs_call. destruct (astate s) as [x|]; [|destruct st; intuition congruence].
  destruct H1 as [((s1 & H1) & H2)|(H1 & H2 & H3)].
  - destruct st; try tauto. specialize (Ho eq_refl _ _ _ H1). tauto.
  - destruct st; try tauto; (split; [tauto|]); (split; [|tauto]); intros _ H4; exfalso; lia.
Qed.

Lemma start_undi_simple a : simple a (pxenv_start_undi fuel a) true MIDWAY.
Proof. unfold pxenv_start_undi. simple_tac. Qed.
Lemma transmit_simple a : simple a (pxenv_undi_transmit fuel a) true READY.
Proof. unfold pxenv_undi_transmit. simple_tac. Qed.
Lemma tftp_open_simple a : simple a (pxenv_tftp_open fuel stale a) true READY.
Proof. unfold pxenv_tftp_open. simple_tac. Qed.
Lemma tftp_read_simple a : simple a (pxenv_tftp_read fuel stale a) true READY.
Proof. unfold pxenv_tftp_read. simple_tac. Qed.
Lemma read_file_simple a : simple a (pxenv_tftp_read_file fuel a) true READY.
Proof. unfold pxenv_tftp_read_file. simple_tac. Qed.
Lemma udp_read_simple a : simple a (pxenv_udp_read fuel a) false READY.
Proof. unfold pxenv_udp_read. simple_tac. Qed.

(** What is to be shown of each entry of the table. *)
Definition keeps_contract (op : Z) (f : Z -> PX Z) : Prop := forall a s r s', 0 <= a < 4294967296 -> settled s -> f a s = Some (r, s') ->
  match r with
  | Ret e => settled s' /\ abs_call (kind_of op) (astate s) e (astate s') /\
      (op <> 0x73 -> (e = 0 /\ ld16 (pmem s') a = 0) \/ (e = 1 /\ (op <> 0x32 -> ld16 (pmem s') a <> 0)))
  | Jmp _ => op <> 0x104d -> settled s'
  end.
Lemma contract_intro op f : (forall a, exits (negb (op =? 0x32)) a (f a)) ->
  (forall a s r s', settled s -> f a s = Some (r, s') ->
     settled s' /\ match r with Ret e => abs_call (kind_of op) (astate s) e (astate s') | Jmp _ => True end) ->
  keeps_contract op f.
Proof.
  intros He Hf a s r s' _ Hs H. destruct (Hf a s r s' Hs H) as (S1 & H1). destruct r as [e|j]; [|auto]. split; [exact S1|]. split; [exact H1|].
  intros _. destruct (He a _ _ _ H) as [K|(K1 & K2)]; [auto|right]. split; [exact K1|]. intros Ho. apply K2. apply Z.eqb_neq in Ho. now rewrite Ho.
Qed.
Lemma contract_simple op f st : kind_of op = Within st -> (forall a, simple a (f a) (negb (op =? 0x32)) st) -> keeps_contract op f.
Proof.
  intros Hk Hf. apply contract_intro.
  - intros a. destruct (Hf a) as (k & -> & _ & He & _). now apply exits_ENSURE.
  - intros a s r s' Hs H. rewrite Hk. apply (simple_abstract a _ (negb (op =? 0x32)) st) in H as (S1 & H); auto. destruct r; tauto.
Qed.
Lemma contract_frames op f : (forall a, f a = fail a STATUS_UNSUPPORTED) -> kind_of op = Unsupported -> keeps_contract op f.
Proof.
  intros Hf Hk. apply contract_intro; [intros a; rewrite Hf; auto with pxe|]. intros a s r s' Hs H. rewrite Hf in H. rewrite Hk.
  destruct (frames_settled _ _ _ _ (frames_fail _ _) Hs H) as (S1 & S2). injection H as <- _. cbn. auto.
Qed.
Lemma contract_nothing : keeps_contract 0x76 pxenv_stop_base.
Proof.
  apply contract_intro; [unfold pxenv_stop_base; auto with pxe|]. intros a s r s' Hs H.
  destruct (frames_settled _ _ _ _ (frames_succeed _) Hs H) as (S1 & S2). injection H as <- _. cbn. auto.
Qed.

(** *** The others *)

Lemma reset_contract : keeps_contract 0x04 (pxenv_undi_reset_adapter fuel).
Proof.
  apply contract_intro; [intros a; unfold pxenv_undi_reset_adapter; auto using exits_ENSURE with pxe|].
  intros a s r s' Hs. unfold pxenv_undi_reset_adapter. unfold ENSURE at 1, pbind at 1.
  destruct (ensure_pxe_state fuel MIDWAY s) as [[[ok|j] s1]|] eqn:E1; [| |discriminate]; apply ensure_abstract in E1 as (S1 & E1); try exact Hs.
  2:{ intros [= <- <-]. auto. }
  change (kind_of 4) with Resets. destruct (ok =? 0) eqn:E0; intros H.
  - destruct (frames_settled _ _ _ _ (frames_fail a STATUS_UNDI_INVALID_STATE) S1 H) as (S2 & E2). injection H as <- _.
    split; [exact S2|]. apply Z.eqb_eq in E0. subst ok. cbn. rewrite E2. destruct (astate s); [|tauto]. destruct E1 as [([=] & _)|(_ & _ & [])]. reflexivity.
  - apply ENSURE_abstract in H as (S2 & H); [|auto with pxe|exact S1]. split; [exact S2|]. destruct r as [e|j]; [|exact I].
    apply Z.eqb_neq in E0. cbn. destruct (astate s); [|tauto]. destruct E1 as [(_ & E1)|(E1 & _)]; [|tauto]. rewrite E1 in H.
    destruct H as [((s2 & H) & H2)|H]; [left|right; tauto]. split; [|exact H2]. now apply oks_succeed in H.
Qed.
Lemma isr_contract : keeps_contract 0x14 pxenv_undi_isr.
Proof.
  assert (Hf : forall a, frames (pxenv_undi_isr a)) by (intros a; unfold pxenv_undi_isr, isr_start, isr_process, isr_get_next; auto 40 with pxe).
  apply contract_intro; [intros a; unfold pxenv_undi_isr, isr_start, isr_process, isr_get_next; auto 40 with pxe|].
  intros a s r s' Hs H. destruct (frames_settled _ _ _ _ (Hf a) Hs H) as (S1 & S2). split; [exact S1|]. destruct r as [e|j]; [|exact I].
  cbn. split; [exact S2|]. intros Hr. unfold astate in Hr. unfold pxenv_undi_isr in H. rewrite pbind_gets in H. destruct (stack s).
  - assert (Hl : (st_num (state s) <? st_num READY) = true) by (destruct (state s); easy). rewrite Hl in H. now injection H as <- _.
  - now injection H as <- _.
Qed.
Lemma stop_contract : keeps_contract 0x15 (pxenv_stop_undi fuel).
Proof.
  apply contract_intro; [intros a; unfold pxenv_stop_undi; auto with pxe|]. intros a s r s' Hs. unfold pxenv_stop_undi, pbind.
  destruct (ensure_pxe_state fuel CAN_UNLOAD s) as [[[ok|j] s1]|] eqn:E1; [| |discriminate]; apply ensure_abstract in E1 as (S1 & E1); try exact Hs.
  2:{ intros [= <- <-]. auto. }
  change (kind_of 0x15) with (Within CAN_UNLOAD). intros H.
  assert (Hfr : frames (if ok =? 0 then fail a STATUS_KEEP_UNDI else succeed a)) by auto with pxe.
  destruct (frames_settled _ _ _ _ Hfr S1 H) as (S2 & E2). split; [exact S2|]. destruct r as [e|j]; [|exact I]. cbn. rewrite E2.
  destruct (astate s) as [x|].
  - destruct E1 as [(-> & E1)|(-> & E1 & _)]; cbn in H; injection H as <- _; tauto.
  - destruct E1 as (-> & E1). cbn in H. injection H as <- _. tauto.
Qed.

(** [cleanup] brings the card down. *)
Context (Hdisk : frames disk_disable) (Hreloc : frames relocate).
Lemma frames_init b : frames (pmod (set_init b)).
Proof. intros s r s' [= _ <-]. now unfold same_stack. Qed.
Lemma cleanup_effect s r s' : pxe_cleanup fuel disk_disable s = Some (r, s') ->
  stack s' = stack s /\ state s' = state s /\ mangling s' = mangling s /\ mangler s' = mangler s /\
  (disable_set (hw s') = false \/ (exists j, r = Jmp j) /\ disable_set (hw s') = disable_set (hw s)).
Proof.
  unfold pxe_cleanup, eth_disable. rewrite !pbind_assoc. unfold pbind at 1.
  destruct (on_world _ s) as [[[x|j] s1]|] eqn:E1; [| |discriminate]; apply frames_world in E1 as (H1 & H2 & H3 & H4 & H5).
  - unfold disable_nic. rewrite ?pbind_assoc, pbind_mod. cbv beta zeta. match goal with |- _ (if ?b then ?u else ?v) = _ -> _ => set (s2 := if b then u else v) end. assert (Hs2 : stack s2 = stack s1 /\ state s2 = state s1 /\
      mangling s2 = mangling s1 /\ mangler s2 = mangler s1 /\ disable_set (hw s2) = false) by (subst s2; destruct (disable_set (hw s1)) eqn:Ed; now cbn).
    intros H. assert (Hf : frames (disk_disable ;~ pmod (set_init false))) by (auto using frames_init with pxe).
    apply Hf in H as (K1 & K2 & K3 & K4 & K5). repeat split; try (intuition congruence).
  - intros [= <- <-]. repeat split; try assumption. right. eauto.
Qed.
Lemma unload_contract : keeps_contract 0x70 (pxenv_unload_stack fuel disk_disable).
Proof.
  apply contract_intro; [intros a; unfold pxenv_unload_stack; auto 10 with pxe|]. intros a s r s' Hs. unfold pxenv_unload_stack, pbind at 1.
  destruct (ensure_pxe_state fuel CAN_UNLOAD s) as [[[ok|j] s1]|] eqn:E1; [| |discriminate]; apply ensure_abstract in E1 as (S1 & E1); try exact Hs.
  2:{ intros [= <- <-]. auto. }
  change (kind_of 0x70) with (Within CAN_UNLOAD). unfold pbind at 1.
  destruct (pxe_cleanup fuel disk_disable s1) as [[x s2]|] eqn:E2; [|discriminate].
  assert (S2 : settled s2 /\ astate s2 = astate s1).
  { apply cleanup_effect in E2 as (K1 & K2 & K3 & K4 & K5). split; [|unfold astate; now rewrite K1, K2].
    destruct S1 as (So & Sn). split; [|now rewrite K1, K3]. intros Hn. rewrite K1 in Hn. specialize (So Hn). rewrite K2, K3, K4.
    split; [tauto|]. unfold astate in E1. destruct (state s1) eqn:Es; try (intuition congruence).
    destruct (stack s1); [|congruence]. destruct (stack s); [|intuition congruence]. destruct E1 as [(_ & [=])|(_ & [=] & _)]. }
  destruct S2 as (S2 & E3). destruct x as [x|j]; [|intros [= <- <-]; auto]. intros H.
  assert (Hfr : frames (if ok =? 0 then fail a STATUS_KEEP_ALL else succeed a)) by auto with pxe.
  destruct (frames_settled _ _ _ _ Hfr S2 H) as (S3 & E4). split; [exact S3|]. destruct r as [e|j]; [|exact I]. cbn. rewrite E4, E3.
  destruct (astate s) as [y|].
  - destruct E1 as [(-> & E1)|(-> & E1 & _)]; cbn in H; injection H as <- _; tauto.
  - destruct E1 as (-> & E1). cbn in H. injection H as <- _. tauto.
Qed.

(** The loaded program uses the stack only through its calls. *)
Context (Hnbp : forall es bx seg off, keeps settled (start_nbp es bx seg off)).
Lemma restart_contract : keeps_contract 0x73 (pxenv_restart_tftp fuel start_nbp).
Proof.
  intros a s r s' _ Hs. unfold pxenv_restart_tftp, ENSURE at 1, pbind at 1.
  destruct (ensure_pxe_state fuel READY s) as [[[ok|j] s1]|] eqn:E1; [| |discriminate]; apply ensure_abstract in E1 as (S1 & E1); try exact Hs.
  2:{ intros [= <- <-] _. exact S1. }
  change (kind_of 0x73) with Restarts. destruct (ok =? 0) eqn:E0.
  { intros H. destruct (frames_settled _ _ _ _ (frames_fail a STATUS_UNDI_INVALID_STATE) S1 H) as (S2 & E2). injection H as <- _.
    split; [exact S2|]. split; [|now intros []]. apply Z.eqb_eq in E0. subst ok. cbn. rewrite E2. destruct (astate s); [|tauto].
    destruct E1 as [([=] & _)|(_ & E1 & _)]. tauto. }
  apply Z.eqb_neq in E0. destruct (astate s) as [x|] eqn:Ea; [|tauto]. destruct E1 as [(_ & E1)|(E1 & _)]; [|tauto].
  unfold pst32, pst16. rewrite pbind_mem, pbind_gets, !pbind_mem. match goal with |- pbind _ _ ?x = _ -> _ => set (s2 := x) end.
  assert (S2 : settled s2 /\ astate s2 = Some READY).
  { split; [|exact E1]. destruct S1 as (So & Sn). split; [|exact Sn]. eapply ordered_same; [|exact So]. now unfold same_stack. }
  destruct S2 as (S2 & E2). unfold pbind at 1. destruct (pxenv_tftp_read_file fuel a s2) as [[[e|j] s3]|] eqn:E3; [| |discriminate];
    apply (simple_abstract a _ true READY) in E3 as (S3 & E3); auto using read_file_simple.
  2:{ intros [= <- <-] _. exact S3. }
  destruct E3 as (H1 & H2 & H3). rewrite E2 in H1. cbn in H1. destruct (negb (e =? PXENV_EXIT_SUCCESS)) eqn:En.
  - intros [= <- <-]. split; [exact S3|]. split; [|now intros []]. apply negb_true_iff, Z.eqb_neq in En. unfold PXENV_EXIT_SUCCESS in En. right.
    destruct H3 as [(H3 & _)|(H3 & _)]; [lia|]. tauto.
  - unfold pbind at 1. destruct (xstartpxe start_nbp s3) as [[x1 s4]|] eqn:E4; [|discriminate].
    assert (S4 : settled s4) by (revert E4; unfold xstartpxe; rewrite pbind_gets; destruct (stack s3); [apply Hnbp; exact S3|discriminate]).
    destruct x1 as [x1|j]; [|intros [= <- <-] _; exact S4]. rewrite pbind_mem. intros [= <- <-]. split; [|split; [now left|now intros []]].
    destruct S4 as (So & Sn). split; [|exact Sn]. eapply ordered_same; [|exact So]. now unfold same_stack.
Qed.

(** A stack that may have been left ready while the card was brought down. *)
Definition card_down (s : psys) : Prop :=
  disable_set (hw s) = false /\ (stack s = None -> mangling s = false) /\
  (stack s <> None -> mangler s <> 0 /\ mangling s = match state s with CAN_UNLOAD => false | _ => true end).
Lemma card_down_same s s' : same_stack s s' -> card_down s -> card_down s'.
Proof. intros (H1 & H2 & H3 & H4 & H5). unfold card_down. now rewrite H1, H2, H3, H4, H5. Qed.
Lemma midway_from_down s r s' : card_down s -> ensure_pxe_state fuel MIDWAY s = Some (r, s') -> stack s <> None ->
  match r with Ret ok => settled s' /\ astate s' = Some MIDWAY | Jmp _ => True end.
Proof.
  intros (Hd & Hn & Hs) H Hne. destruct (stack s) as [p|] eqn:Hp; [|congruence]. destruct (Hs Hne) as (Hm & Hg).
  destruct (ensure_midway fuel s p Hp Hm) as (s1 & E1 & E2). rewrite E2 in H. clear E2.
  destruct (hook_effect s p Hp Hm) as (s1' & E1' & H1 & H2 & H3 & H4). assert (s1' = s1) as -> by congruence. clear E1'.
  destruct (pxe_shutdown_nic fuel s1) as [[x s2]|] eqn:E2; [|discriminate].
  apply shutdown_effect in E2 as (I1 & I2 & I3 & E2).
  assert (Hs1 : mangling s1 = true /\ state s1 <> CAN_UNLOAD /\ disable_set (hw s1) = false).
  { destruct (state s) eqn:Es; cbn in H4; [destruct H4 as (H4 & H5); rewrite H3, H4, H5; now repeat split|subst s1; now rewrite Es|subst s1; now rewrite Es]. }
  destruct Hs1 as (J1 & J2 & J3).
  assert (K : match x with Ret _ => state s2 = MIDWAY /\ disable_set (hw s2) = false | Jmp _ => True end).
  { destruct E2 as [(I4 & -> & ->)|[(I4 & -> & I5 & I6)|(I4 & [j ->] & _)]]; [|auto|exact I]. split; [destruct (state s1); congruence|exact J3]. }
  destruct x as [x|j]; injection H as <- <-; [|exact I]. destruct K as (K1 & K2). unfold settled, ordered, astate. rewrite I1, I2, I3, K1, K2, H1, H2, Hp.
  repeat split; auto; congruence.
Qed.
Context (Hplace : forall cs, 0 <= cs < 65536 -> e820mangler_code (stack_base (VIRTUAL cs 0)) <> 0).
Lemma install_down cs s r s' : 0 <= cs < 65536 -> card_down s -> install_pxe_stack fuel (Some (VIRTUAL cs 0)) s = Some (r, s') ->
  card_down s' /\ stack s' <> None.
Proof.
  intros Hcs (Hd & Hn & Hs) H. destruct (stack s) as [p|] eqn:Hp.
  - unfold install_pxe_stack in H. rewrite pbind_gets, Hp in H. injection H as _ <-. split; [|congruence]. unfold card_down. rewrite Hp. auto.
  - rewrite (install_runs fuel s (VIRTUAL cs 0) Hp (Hn eq_refl)) in H. injection H as _ <-. split; [|discriminate].
    repeat split; [exact Hd|discriminate|cbn; apply Hplace; exact Hcs|cbn; exact (Hn eq_refl)].
Qed.
Lemma frames_heap : frames pxe_init_heap.
Proof. intros s r s'. unfold pxe_init_heap. destruct (init_heap _ _ _ _); intros [= _ <-]; now unfold same_stack. Qed.
Lemma frames_use_ds ds : frames (use_undi_ds_for_rm_stack fuel ds).
Proof.
  unfold use_undi_ds_for_rm_stack. apply frames_bind; [auto with pxe|intros _]. intros s r s' [= _ <-]. now unfold same_stack.
Qed.

Lemma pbind_Ret {B C} (c : PX B) (k : B -> PX C) s e s' : pbind c k s = Some (Ret e, s') ->
  exists x s1, c s = Some (Ret x, s1) /\ k x s1 = Some (Ret e, s').
Proof. unfold pbind. destruct (c s) as [[[x|j] s1]|]; [eauto|discriminate|discriminate]. Qed.
Lemma cleanup_down s x s' : pxe_cleanup fuel disk_disable s = Some (Ret x, s') ->
  (stack s = None -> mangling s = false) ->
  (stack s <> None -> mangler s <> 0 /\ mangling s = match state s with CAN_UNLOAD => false | _ => true end) -> card_down s'.
Proof.
  intros H Hn Hs. apply cleanup_effect in H as (K1 & K2 & K3 & K4 & [K5|([j [=]] & _)]). unfold card_down. now rewrite K1, K2, K3, K4.
Qed.
Lemma loader_contract : keeps_contract 0x104d (pxenv_undi_loader fuel relocate disk_disable).
Proof.
  intros a s r s' Ha Hs H. destruct r as [e|j]; [|now intros []]. change (kind_of 0x104d) with Loads. unfold pxenv_undi_loader in H.
  unfold pld16 in H at 1. rewrite pbind_gets in H.
  apply pbind_Ret in H as (x1 & s1 & E1 & H). apply pbind_Ret in H as (x2 & s2 & E2 & H). apply pbind_Ret in H as (x3 & s3 & E3 & H).
  apply pbind_Ret in H as (x4 & s4 & E4 & H). apply pbind_Ret in H as (x5 & s5 & E5 & H). apply pbind_Ret in H as (x6 & s6 & E6 & H).
  cbv zeta in H. replace (phys_to_virt vo (virt_to_phys vo a)) with a in H by (unfold phys_to_virt, virt_to_phys; zmod). unfold pld16 in H at 1. rewrite pbind_gets in H.
  apply pbind_Ret in H as (x7 & s7 & E7 & H). apply pbind_Ret in H as (x8 & s8 & E8 & H).
  apply frames_settled in E1 as (S1 & _); auto using frames_use_ds. apply frames_settled in E2 as (S2 & _); auto using frames_fw.
  assert (D3 : card_down s3).
  { destruct S2 as (So & Sn). apply (cleanup_down _ _ _ E3 Sn). intros Hne. specialize (So Hne). destruct (state s2); tauto. }
  apply Hreloc in E4. pose proof (card_down_same _ _ E4 D3) as D4.
  assert (D5 : card_down s5) by (destruct D4 as (_ & Dn & Ds); apply (cleanup_down _ _ _ E5 Dn Ds)).
  apply frames_heap in E6. pose proof (card_down_same _ _ E6 D5) as D6.
  apply install_down in E7 as (D7 & N7); [|apply ld16_range|exact D6].
  assert (S8 : settled s8 /\ astate s8 = Some MIDWAY).
  { destruct (start_undi_simple a) as (k & Ek & Hk & _). rewrite Ek in E8. unfold ENSURE in E8. apply pbind_Ret in E8 as (ok & s9 & E9 & E8).
    apply midway_from_down in E9 as (S9 & A9); [|exact D7|exact N7].
    assert (Hf : frames (if ok =? 0 then fail a STATUS_UNDI_INVALID_STATE else k)) by auto with pxe.
    destruct (frames_settled _ _ _ _ Hf S9 E8) as (S8 & A8). split; [exact S8|congruence]. }
  destruct S8 as (S8 & A8). pose proof H as H'. match type of H with ENSURE _ _ _ ?k _ = _ => assert (Hf : frames k /\ exits true a k /\ oks k) end.
  { unfold set_far_ptr, pst16. refine (conj _ (conj _ _)); [auto 20 with pxe|auto 20 with pxe|]. apply oks_bind. intros [p|]; [auto 20 with pxe|now intros ? ? ?]. }
  destruct Hf as (Hf & Hx & Ho). apply ENSURE_abstract in H as (S9 & H); [|exact Hf|exact S8]. split; [exact S9|]. rewrite A8 in H. split.
  - cbn. destruct H as [((s9 & H) & A9)|(-> & A9 & _)]; [left|tauto]. split; [eapply Ho, H|exact A9].
  - intros _. destruct (exits_ENSURE true CAN_UNLOAD a _ Hx _ _ _ H') as [K|(K1 & K2)]; [auto|right]. split; [exact K1|]. intros _. now apply K2.
Qed.

Lemma table_contract : Forall (fun c => keeps_contract (fst c) (snd c)) (pxenv_table fuel stale start_nbp relocate disk_disable rom_segment).
Proof.
  unfold pxenv_table.
  repeat (apply Forall_cons; [cbn [fst snd];
    first [ solve [apply (contract_simple _ _ MIDWAY); [reflexivity|]; intros a;
                   unfold pxenv_start_undi, pxenv_undi_startup, pxenv_undi_initialize, pxenv_undi_shutdown, pxenv_undi_close; simple_tac]
          | exact reset_contract | exact isr_contract | exact stop_contract | exact unload_contract | exact restart_contract
          | exact loader_contract | exact contract_nothing
          | apply contract_frames; reflexivity
          | solve [apply (contract_simple _ _ CAN_UNLOAD); [reflexivity|]; intros a; unfold pxenv_undi_cleanup; simple_tac]
          | solve [apply (contract_simple _ _ READY); [reflexivity|]; intros a;
                   unfold pxenv_undi_open, pxenv_undi_transmit, pxenv_undi_set_station_address, pxenv_undi_get_information, pxenv_undi_force_interrupt,
                     pxenv_undi_get_nic_type, pxenv_undi_get_iface_info, pxenv_tftp_open, pxenv_tftp_close, pxenv_tftp_read, pxenv_tftp_read_file,
                     pxenv_tftp_get_fsize, pxenv_udp_open, pxenv_udp_close, pxenv_udp_read, pxenv_udp_write, pxenv_get_cached_info; simple_tac] ] |]).
  constructor.
Qed.
End refinement.

Lemma find_keys {B C} (t : list (Z * B)) (u : list (Z * C)) op : map fst t = map fst u ->
  find (fun c => fst c =? op) t = None -> find (fun c => fst c =? op) u = None.
Proof.
  revert u. induction t as [|c t IH]; intros [|d u] H; cbn in *; try easy. injection H as H1 H2. rewrite <- H1. destruct (fst c =? op); [easy|auto].
Qed.

(** The parts that are not modelled: moving Etherboot and disabling the disks do not touch the stack, the program that is started
    uses it only through its calls; and there is room for the stack where the loader is told to put it. *)
Class Surroundings `{Platform} (start_nbp : Z -> Z -> Z -> Z -> PX Z) (relocate disk_disable : PX unit) : Prop := {
  sur_relocate : frames relocate;
  sur_disk : frames disk_disable;
  sur_nbp : forall es bx seg off, keeps settled (start_nbp es bx seg off);
  sur_place : forall cs, 0 <= cs < 65536 -> e820mangler_code (stack_base (VIRTUAL cs 0)) <> 0;
}.

(** ** A session *)

Section session.
Context `{E : Env} `{P : Platform} `{A : !Attaches} (fuel : nat) (stale : tftpblk_info).
Context (start_nbp : Z -> Z -> Z -> Z -> PX Z) (relocate disk_disable : PX unit) (rom_segment : Z).
Context `{S : !Surroundings start_nbp relocate disk_disable}.

Lemma api_contract op a s r s' : 0 <= a < 4294967296 -> settled s ->
  pxe_api_call fuel stale start_nbp relocate disk_disable rom_segment op a s = Some (r, s') ->
  match r with
  | Ret e => settled s' /\ abs_call (kind_of op) (astate s) e (astate s') /\
      (op <> 0x73 -> (e = 0 /\ ld16 (pmem s') a = 0) \/ (e = 1 /\ (op <> 0x32 -> ld16 (pmem s') a <> 0)))
  | Jmp _ => op <> 0x104d -> settled s'
  end.
Proof.
  intros Ha Hs H. unfold pxe_api_call, pst16 in H. rewrite pbind_mem in H. set (s1 := set_pmem _ s) in H.
  assert (Hs1 : settled s1) by (destruct Hs as (So & Sn); split; [eapply ordered_same; [|exact So]; now unfold same_stack|exact Sn]).
  change (astate s) with (astate s1).
  destruct (find _ (pxenv_table _ _ _ _ _ _)) as [c|] eqn:Ef.
  - apply find_some in Ef as (Hin & Hop). apply Z.eqb_eq in Hop. subst op.
    pose proof (table_contract fuel stale start_nbp relocate disk_disable rom_segment sur_disk sur_relocate sur_nbp sur_place) as Ht.
    rewrite Forall_forall in Ht. exact (Ht c Hin a s1 r s' Ha Hs1 H).
  - assert (Hk : kind_of op = Unsupported) by (unfold kind_of; now rewrite (find_keys (pxenv_table fuel stale start_nbp relocate disk_disable rom_segment) kind_table op eq_refl Ef)).
    exact (contract_frames op (fun a => fail a STATUS_UNSUPPORTED) (fun _ => eq_refl) Hk a s1 r s' Ha Hs1 H).
Qed.

(** What a program does with the stack: its calls, and between them anything that leaves the stack to itself. *)
Inductive session : psys -> list (Z * Z) -> psys -> Prop :=
| session_start s : session s [] s
| session_call s l s1 op a e s2 : session s l s1 -> 0 <= a < 4294967296 ->
    pxe_api_call fuel stale start_nbp relocate disk_disable rom_segment op a s1 = Some (Ret e, s2) -> session s (l ++ [(op, e)]) s2
| session_else s l s1 s2 : session s l s1 -> same_stack s1 s2 -> session s l s2.
(** The same for the abstract machine. *)
Fixpoint abs_run (x : option pxe_stack_state_t) (l : list (Z * Z)) (x' : option pxe_stack_state_t) : Prop :=
  match l with
  | [] => x' = x
  | (op, e) :: l => exists y, abs_call (kind_of op) x e y /\ abs_run y l x'
  end.
Lemma abs_run_snoc l op e y : forall x z, abs_run x l y -> abs_call (kind_of op) y e z -> abs_run x (l ++ [(op, e)]) z.
Proof.
  induction l as [|[o f] l IH]; intros x z; cbn; [intros -> H; eauto|]. intros (w & H1 & H2) H3. eauto.
Qed.
Lemma session_invariant s l s' : session s l s' -> settled s -> settled s' /\ abs_run (astate s) l (astate s').
Proof.
  intros H Hs. induction H as [s|s l s1 op a e s2 H IH Ha Hc|s l s1 s2 H IH Hf].
  - now split.
  - destruct (IH Hs) as (S1 & R1). destruct (api_contract op a s1 (Ret e) s2 Ha S1 Hc) as (S2 & R2 & _).
    split; [exact S2|]. exact (abs_run_snoc l op e _ _ _ R1 R2).
  - destruct (IH Hs) as ((So & Sn) & R1). destruct Hf as (H1 & H2 & H3 & H4 & H5). split; [split|].
    + eapply ordered_same; [|exact So]. now unfold same_stack.
    + now rewrite H1, H3.
    + unfold astate in *. now rewrite H1, H2.
Qed.
End session.

(** C16: Every call of the PXE interface refines one step of the abstract machine [abs_call], whose states are those of the comment in
    pxe_export.c: the calls that need the card leave the stack READY, those that need it down leave it MIDWAY, those that
    end the session leave it CAN_UNLOAD, and a call that cannot have its state fails with the stack midway; calls that
    are not supported change nothing.  The exit code agrees with the Status that is left in the parameter block (but for
    the two calls that leave it to others, UDP_READ when it fails and RESTART_TFTP), and the stack stays in order. *)
Theorem pxe_api_refines `{Env} `{Platform} `{!Attaches} fuel stale start_nbp relocate disk_disable rom_segment
    `{!Surroundings start_nbp relocate disk_disable} op a s r s' :
  0 <= a < 4294967296 -> settled s ->
  pxe_api_call fuel stale start_nbp relocate disk_disable rom_segment op a s = Some (r, s') ->
  match r with
  | Ret e => settled s' /\ abs_call (kind_of op) (astate s) e (astate s') /\
      (op <> 0x73 -> (e = 0 /\ ld16 (pmem s') a = 0) \/ (e = 1 /\ (op <> 0x32 -> ld16 (pmem s') a <> 0)))
  | Jmp _ => op <> 0x104d -> settled s'
  end.
Proof. apply api_contract; assumption. Qed.

(** C17: Whatever sequence of calls a program makes, the card is never up unless Etherboot is hidden from the memory map,
    that is, INT 15 is taken, and Etherboot is never unhidden with the card still up: the design rule in the comment of
    pxe_export.c, as far as it speaks of INT 15.  The state of the stack says which: READY when the card is up, CAN_UNLOAD
    when nothing is taken.  It does not hold of INT 1A, which a failed attempt to give the vectors back leaves given up
    in the state MIDWAY ([unhook_half_done]), from which the card can be brought up again.
    The exit codes of the whole session are those of a run of the abstract machine. *)
Theorem pxe_session_ordered `{Env} `{Platform} `{!Attaches} fuel stale start_nbp relocate disk_disable rom_segment
    `{!Surroundings start_nbp relocate disk_disable} s l s' :
  settled s -> session fuel stale start_nbp relocate disk_disable rom_segment s l s' -> stack s' <> None ->
  (disable_set (hw s') = true -> mangling s' = true /\ state s' = READY) /\
  (mangling s' = false -> disable_set (hw s') = false /\ state s' = CAN_UNLOAD) /\
  (state s' = READY -> disable_set (hw s') = true) /\
  abs_run (astate s) l (astate s').
Proof.
  intros Hs K Hn. destruct (session_invariant _ _ _ _ _ _ _ _ _ K Hs) as ((So & _) & R). specialize (So Hn) as (_ & So).
  destruct (state s'); intuition congruence.
Qed.

(** ** Witnesses *)

(** The machine of the previous file; the program that is started returns at once, and Etherboot stays where it is. *)
Definition demo_stale : tftpblk_info := {| blk_data := 0; blk_block := 0; blk_len := 0; blk_eof := false |}.
Definition demo_nbp (es bx seg off : Z) : PX Z := pret 0.
Definition demo_call (op : Z) : psys -> option (res Z * psys) :=
  @pxe_api_call still_env demo_platform 12 demo_stale demo_nbp (pret tt) (pret tt) 0xc800 op 0x50000.
#[local] Instance demo_surroundings : @Surroundings demo_platform demo_nbp (pret tt) (pret tt).
Proof.
  split; [auto with pxe | auto with pxe | |].
  - intros es bx seg off s r s' Hs [= <- <-]. exact Hs.
  - intros cs Hc. unfold e820mangler_code, rm_callback_code, stack_base, VIRTUAL, phys_to_virt, virt_to_phys.
    change vo with 0. change (Z.of_nat (length pxe_code)) with 32. change (Z.of_nat (length rm_code)) with 16.
    rewrite Z.shiftl_mul_pow2 by lia. unfold align_down, off_arch_data, u32. zmod.
Qed.
Definition demo_after (op : Z) (s : psys) : psys := match demo_call op s with Some (_, s') => s' | None => s end.
Definition demo_exit (op : Z) (s : psys) : option Z := match demo_call op s with Some (Ret e, _) => Some e | _ => None end.
Lemma demo_called op s e : demo_exit op s = Some e ->
  @pxe_api_call still_env demo_platform 12 demo_stale demo_nbp (pret tt) (pret tt) 0xc800 op 0x50000 s = Some (Ret e, demo_after op s).
Proof.
  unfold demo_exit, demo_after, demo_call. destruct (pxe_api_call _ _ _ _ _ _ _ _ _) as [[[x|j] s']|]; [|discriminate..]. now intros [= ->].
Qed.
Lemma settled2 : settled psys2.
Proof. split; [intros _; vm_compute; repeat split; discriminate|vm_compute; discriminate]. Qed.
Lemma pxe_api_refines_witness :
  demo_exit 0x70 psys2 = Some 0 /\ settled (demo_after 0x70 psys2) /\ astate (demo_after 0x70 psys2) = Some CAN_UNLOAD.
Proof.
  assert (X : demo_exit 0x70 psys2 = Some 0) by (vm_compute; reflexivity).
  destruct (@pxe_api_refines still_env demo_platform demo_attaches 12 demo_stale demo_nbp (pret tt) (pret tt) 0xc800 demo_surroundings
              0x70 0x50000 psys2 (Ret 0) (demo_after 0x70 psys2) ltac:(lia) settled2 (demo_called _ _ _ X)) as (Hs & Ha & _).
  split; [exact X|]. split; [exact Hs|]. replace (astate psys2) with (Some READY) in Ha by (vm_compute; reflexivity).
  revert Ha. generalize (demo_after 0x70 psys2). intros t [Ha|(Ha & _)]; [exact Ha|lia].
Defined.

Lemma demo_step s l t op e : @session still_env demo_platform 12 demo_stale demo_nbp (pret tt) (pret tt) 0xc800 s l t -> demo_exit op t = Some e ->
  @session still_env demo_platform 12 demo_stale demo_nbp (pret tt) (pret tt) 0xc800 s (l ++ [(op, e)]) (demo_after op t).
Proof. intros Hs He. eapply session_call; [exact Hs| |exact (demo_called _ _ _ He)]. lia. Qed.
(** CLOSE, OPEN, STOP_UNDI. *)
Lemma pxe_session_ordered_witness :
  let s' := demo_after 0x15 (demo_after 6 (demo_after 7 psys2)) in
  @session still_env demo_platform 12 demo_stale demo_nbp (pret tt) (pret tt) 0xc800 psys2 [(7, 0); (6, 0); (0x15, 0)] s' /\
  disable_set (hw s') = false /\ mangling s' = false.
Proof.
  intros s'.
  assert (X1 : demo_exit 7 psys2 = Some 0) by (vm_compute; reflexivity).
  assert (X2 : demo_exit 6 (demo_after 7 psys2) = Some 0) by (vm_compute; reflexivity).
  assert (X3 : demo_exit 0x15 (demo_after 6 (demo_after 7 psys2)) = Some 0) by (vm_compute; reflexivity).
  pose proof (demo_step _ _ _ _ _ (demo_step _ _ _ _ _ (demo_step psys2 [] psys2 _ _ (session_start _ _ _ _ _ _ psys2) X1) X2) X3) as Hs.
  cbn [app] in Hs. fold s' in Hs.
  assert (M : mangling s' = false) by (vm_compute; reflexivity).
  assert (N : stack s' <> None) by (vm_compute; discriminate).
  destruct (@pxe_session_ordered still_env demo_platform demo_attaches 12 demo_stale demo_nbp (pret tt) (pret tt) 0xc800 demo_surroundings
              psys2 [(7, 0); (6, 0); (0x15, 0)] s' settled2 Hs N) as (_ & Hm & _).
  split; [exact Hs|]. split; [apply (Hm M)|exact M].
Defined.

(** *** A card that was selected is not kept *)

(** START_UNDI selects the card at device 8, and OPEN finds it there.  After CLOSE, the next OPEN does not bring the same card up
    again: [use_specified] is still set, so the probe goes on, to the card at 9, and from there to the one at 24; then there
    is none and OPEN fails. *)
Definition demo_run (l : list Z) (s : psys) : option psys :=
  fold_left (fun s op => let* s := s in match demo_call op s with Some (Ret 0, s') => Some s' | _ => None end) l (Some s).
Definition selecting : psys := set_pmem (st16 (pmem psys2) 0x50002 8) psys2.
Lemma reopen_moves_on :
  option_map (fun s => (p_devfn (pci_dev (ndev s)), use_specified (pci_dev (ndev s)))) (demo_run [0; 6] selecting) = Some (8, true) /\
  option_map (fun s => p_devfn (pci_dev (ndev s))) (demo_run [0; 6; 7; 6] selecting) = Some 9 /\
  option_map (fun s => p_devfn (pci_dev (ndev s))) (demo_run [0; 6; 7; 6; 7; 6] selecting) = Some 24 /\
  demo_run [0; 6; 7; 6; 7; 6; 7; 6] selecting = None.
Proof. vm_compute. repeat split. Qed.
