(* ===== verification/PxeTftp.v ===== *)
(** Reading files through the PXE interface: PXENV_TFTP_READ_FILE and PXENV_TFTP_GET_FSIZE give their callback to the TFTP
    client, whose transfer theorem is about any consumer of the blocks; PXENV_TFTP_OPEN keeps the first block for the
    PXENV_TFTP_READ that follows. *)

From S2P Require Import Prelude Memory StringLib Misc Vsprintf Heap Net Lacp Nic Tftp Bootp Basemem Pci PxeStack PxeApi.
Import String.StringSyntax.
Local Open Scope etherboot_scope.

(** ** The callback as a consumer *)

(** What [readfile] holds after the blocks [done]: the offset is their length, and they are in the buffer, if there is one. *)
Definition received (u buf max : Z) (done : list (list Z)) (w : world) : Prop :=
  ld32 (mm w) u = buf /\ ld32 (mm w) (u + 4) = Z.of_nat (length (concat done)) /\ ld32 (mm w) (u + 8) = max /\
  (buf <> 0 -> ldn (mm w) buf (length (concat done)) = concat done).
(** There is room for the file in the buffer, which is apart from [readfile]. *)
Definition fits_buffer (u buf max : Z) (file : list (list Z)) : Prop :=
  let size := Z.of_nat (length (concat file)) in
  0x40000 <= u /\ size < 4294967296 /\
  (buf <> 0 -> 0x40000 <= buf /\ size < max /\ (buf + size <= u \/ u + 12 <= buf)).

(** The memory after a block was taken. *)
Definition taken (u buf off data : Z) (n : nat) (m : mem) : mem :=
  st32 (if istrue buf then memcpy m (buf + off) data n else m) (u + 4) (off + Z.of_nat n).
Lemma read_block_takes u data block len eof w buf off max : 0x40000 <= u ->
  ld32 (mm w) u = buf -> ld32 (mm w) (u + 4) = off -> ld32 (mm w) (u + 8) = max ->
  0 <= len -> 0 <= off -> off + len < 4294967296 ->
  (buf <> 0 -> off + len < max /\ (buf + off + len <= u \/ u + 12 <= buf)) ->
  pxe_tftp_read_block u data block len eof w = Some (Ret (if eof then 0 else 1), set_mm (taken u buf off data (Z.to_nat len) (mm w)) w).
Proof.
  intros Hu Hb Ho Hm Hl Ho0 Hs Hbuf. unfold pxe_tftp_read_block. run. rewrite Hb, Ho, Hm, u32_small by lia.
  unfold taken. destruct (Z.eqb_spec buf 0) as [E|E]; unfold istrue.
  - rewrite (proj2 (Z.eqb_eq _ _) E). cbn [negb andb]. unfold store32. run. rewrite Ho, Z2Nat.id by lia. now destruct eof.
  - destruct (Hbuf E) as (Hx & Hd). rewrite (proj2 (Z.eqb_neq _ _) E). cbn [negb andb]. rewrite Z.geb_leb.
    destruct (Z.leb_spec max (off + len)); [lia|]. unfold store32. run. cbn [mm set_mm].
    rewrite (ld32_ext (memcpy _ _ _ _) (mm w)).
    + rewrite Ho, Z2Nat.id by lia. now destruct eof.
    + intros x Hr. apply ld8_memcpy_frame; lia.
Qed.
Lemma read_file_consumer u buf max file : fits_buffer u buf max file -> file_blocks 512 file ->
  block_consumer (pxe_tftp_read_block u) 0 file (received u buf max).
Proof.
  intros (Hu & Hs & Hbuf) Hf. split.
  - intros done b rest eof w Hfile (H1 & H2 & H3 & H4) P.
    assert (Hb : Z.of_nat (length b) <= 512) by (apply (file_blocks_le 512 file Hf); rewrite Hfile; apply in_elt).
    assert (Hl : Z.of_nat (length (concat done)) + Z.of_nat (length b) <= Z.of_nat (length (concat file)))
      by (rewrite Hfile, concat_app; cbn [concat]; rewrite !length_app; lia).
    set (off := Z.of_nat (length (concat done))) in *.
    exists (set_mm (taken u buf off (rcvd + 32) (length b) (mm w)) w). split; [|split; [|split; [reflexivity|split; [reflexivity|]]]].
    + rewrite <- (Nat2Z.id (length b)) at 2. apply (read_block_takes _ _ _ _ _ _ buf off max); auto; try lia.
    + repeat (split; [reflexivity|]). intros x Hx. cbn [mm set_mm]. unfold taken, lacp_pkt in *. rewrite ld8_st32_ne by lia.
      unfold istrue. destruct (Z.eqb_spec buf 0); cbn [negb]; [reflexivity|]. apply ld8_memcpy_frame. lia.
    + assert (Hw : forall x, buf = 0 \/ x < buf + off \/ buf + off + Z.of_nat (length b) <= x -> x < u + 4 \/ u + 8 <= x ->
                     ld8 (taken u buf off (rcvd + 32) (length b) (mm w)) x = ld8 (mm w) x).
      { intros x Hx Hx2. unfold taken. rewrite ld8_st32_ne by lia. unfold istrue.
        destruct (Z.eqb_spec buf 0); cbn [negb]; [reflexivity|]. apply ld8_memcpy_frame. lia. }
      assert (Hn : concat (done ++ [b]) = concat done ++ b) by (rewrite concat_app; cbn [concat]; now rewrite app_nil_r).
      unfold received. cbn [mm set_mm]. rewrite Hn, length_app. split; [|split; [|split]].
      * transitivity (ld32 (mm w) u); [|exact H1]. apply ld32_ext. intros x Hx. apply Hw; [|lia]. destruct (Z.eq_dec buf 0) as [|E]; [now left|]. specialize (Hbuf E). lia.
      * unfold taken. rewrite ld32_st32_eq, u32_small; lia.
      * transitivity (ld32 (mm w) (u + 8)); [|exact H3]. apply ld32_ext. intros x Hx. apply Hw; [|lia]. destruct (Z.eq_dec buf 0) as [|E]; [now left|]. specialize (Hbuf E). lia.
      * intros E. specialize (Hbuf E). rewrite ldn_app. f_equal.
        -- rewrite <- (H4 E) at 2. apply ldn_ext. intros x Hx. apply Hw; lia.
        -- etransitivity; [|exact P]. fold off. apply ldn_same. intros i Hr. unfold taken. rewrite ld8_st32_ne by lia.
           unfold istrue. rewrite (proj2 (Z.eqb_neq _ _) E). cbn [negb]. rewrite ld8_memcpy by (unfold rcvd, nic_packet, ETH_HLEN; lia).
           destruct (Z.leb_spec (buf + off) (buf + off + i)); [|lia]. destruct (Z.ltb_spec (buf + off + i) (buf + off + Z.of_nat (length b))); [|lia].
           cbn [andb]. f_equal. lia.
  - intros done w w' N (H1 & H2 & H3 & H4).
    assert (Hm : forall x, 0x40000 <= x -> ld8 (mm w') x = ld8 (mm w) x) by (intros x Hx; apply N; unfold nic_packet, xmit; lia).
    split; [|split; [|split]].
    + rewrite <- H1. apply ld32_ext. intros x Hx. apply Hm. lia.
    + rewrite <- H2. apply ld32_ext. intros x Hx. apply Hm. lia.
    + rewrite <- H3. apply ld32_ext. intros x Hx. apply Hm. lia.
    + intros E. specialize (Hbuf E). rewrite <- (H4 E) at 2. apply ldn_ext. intros x Hx. apply Hm. lia.
Qed.

(** ** Whole files *)

Section files.
Context `{E : Env} `{P : Platform} (fuel : nat).

Lemma ensure_ready_done s p : stack s = Some p -> state s = READY -> ensure_pxe_state fuel READY s = Some (Ret 1, s).
Proof.
  intros Hp Hs. unfold ensure_pxe_state, hook_pxe_stack, pxe_initialise_nic, pbind, pgets, pret.
  rewrite Hp. change (st_num READY >=? st_num MIDWAY) with true. cbv beta iota. rewrite Hp, Hs. change (st_num READY >=? st_num MIDWAY) with true. cbv beta iota.
  change (st_num READY >? st_num MIDWAY) with true. cbv beta iota. now rewrite Hs.
Qed.
Lemma ENSURE_ready s p a k : stack s = Some p -> state s = READY -> ENSURE fuel READY a k s = k s.
Proof. intros Hp Hs. unfold ENSURE, pbind. now rewrite (ensure_ready_done s p Hp Hs). Qed.
Lemma with_union_run s p k : stack s = Some p -> with_union k s = k (p + off_union) s.
Proof. intros Hp. unfold with_union. rewrite pbind_gets. now rewrite Hp. Qed.

(** A server that holds [bs] under [name] and answers from address [ip] and port [sp]. *)
Record served (s : psys) (name : list Z) (bs : list (list Z)) (cli srv : Z) (mac hd : list Z) (ip sp : Z) : Prop := {
  sv_ready : ready (net (hw s)) cli srv mac;
  sv_head : length hd = 12%nat;
  sv_port : 0 <= lport (tst s) < 65536;
  sv_name : (length name <= 256)%nat /\ Forall (fun b => 0 <= b < 256) name;
  sv_file : file_blocks 512 bs /\ Z.of_nat (length bs) < 65535;
  sv_quiet : rx (cnt_rx (net (hw s))) = None /\ kbd (cnt_kbd (net (hw s))) = None;
  sv_sends : forall j b, nth_error bs j = Some b ->
    rx (cnt_rx (net (hw s)) + 1 + j) = Some (data_frame hd ip cli sp (u16 (lport (tst s) + 1)) (1 + Z.of_nat j) b);
}.
(** What was sent, from port [lp]: the request to port 69, then an acknowledgement of every block to the port of the server. *)
Definition tftp_exchange (mac : list Z) (lp sp : Z) (name : list Z) (bs : list (list Z)) (w w' : world) : Prop :=
  exists acks rrq, sent w' = acks ++ rrq :: sent w /\ rrq_of mac lp name rrq /\
    Forall2 (ack_of mac lp (u16 sp)) (rev (map (fun j => 1 + Z.of_nat j) (seq 0 (length bs)))) acks.

Context (name : list Z) (bs : list (list Z)) (cli srv : Z) (mac hd : list Z) (ip sp : Z).
Lemma served_mem m s : (forall x, lacp_pkt <= x < lacp_pkt + 0x1000 -> ld8 m x = ld8 (pmem s) x) ->
  served s name bs cli srv mac hd ip sp -> served (set_pmem m s) name bs cli srv mac hd ip sp.
Proof.
  intros Hm [H1 H2 H3 H4 H5 H6 H7]. split; try assumption.
  eapply ready_same; [|exact H1]. repeat (split; [reflexivity|]). exact Hm.
Qed.
Lemma do_tftp_ok u buf max q s : (length bs + length name + 2 <= fuel)%nat -> cstr (pmem s) q name ->
  served s name bs cli srv mac hd ip sp -> fits_buffer u buf max bs -> received u buf max [] (net (hw s)) ->
  exists s', do_tftp fuel u q s = Some (Ret 0, s') /\ received u buf max bs (net (hw s')) /\ same_stack s s' /\
    tftp_exchange mac (u16 (lport (tst s) + 1)) sp name bs (net (hw s)) (net (hw s')).
Proof.
  intros Hfu Hc [H1 H2 H3 (H4 & H4') (H5 & H5') (H6 & H6') H7] Hr Hi.
  destruct (tftp_consumes (pxe_tftp_read_block u) 0 (received u buf max) (fuel - length bs - 2) bs name (tst s) (net (hw s)) cli srv mac hd ip sp)
    as (w' & st' & acks & rrq & Et & I' & Hx1 & Hx2 & Hx3 & _); auto; [now apply read_file_consumer|].
  replace (S (length bs + S (fuel - length bs - 2))) with fuel in Et by lia.
  exists (set_tst st' (set_hw (set_net w' (hw s)) s)). split; [|split; [exact I'|split; [now repeat split|now exists acks, rrq]]].
  unfold do_tftp, file_name, pbind, pgets, pmod, pret, on_world. rewrite (read_cstr_spec _ _ _ _ Hc) by lia. now rewrite Et.
Qed.

(** A request whose parameters are at [a] and whose [readfile] is at [u], both out of the way of the network code. *)
Definition clear_of (u a n : Z) : Prop := 0x40000 <= u /\ 0x40000 <= a /\ (a + n <= u \/ u + 12 <= a).
(** [readfile] as it is set up. *)
Definition readfile (u buf max : Z) (m : mem) : mem := st32 (st32 (st32 m (u + 0) buf) (u + 8) max) (u + 4) 0.
Lemma readfile_received u buf max m s : 0 <= buf < 4294967296 -> 0 <= max < 4294967296 ->
  received u buf max [] (net (hw (set_pmem (readfile u buf max m) s))).
Proof.
  intros Hb Hm. unfold received, readfile. cbn [net hw set_pmem set_hw set_net mm set_mm concat length]. rewrite Z.add_0_r.
  rewrite ld32_st32_ne, ld32_st32_ne, ld32_st32_eq, u32_small by lia. split; [reflexivity|].
  rewrite ld32_st32_eq. split; [reflexivity|]. rewrite ld32_st32_ne, ld32_st32_eq, u32_small by lia. split; [lia|reflexivity].
Qed.
Lemma ld8_readfile u buf max m x : x < u \/ u + 12 <= x -> ld8 (readfile u buf max m) x = ld8 m x.
Proof. intros Hx. unfold readfile. rewrite !ld8_st32_ne by lia. reflexivity. Qed.

Lemma read_file_ok s p a buf max :
  let u := p + off_union in let size := Z.of_nat (length (concat bs)) in
  stack s = Some p -> state s = READY -> (length bs + length name + 2 <= fuel)%nat ->
  clear_of u a 138 -> cstr (pmem s) (a + 2) name -> (length name < 128)%nat ->
  buf = phys_to_virt vo (ld32 (pmem s) (a + 134)) -> max = ld32 (pmem s) (a + 130) ->
  buf <> 0 -> fits_buffer u buf max bs -> buf + size <= a \/ a + 2 <= buf ->
  served s name bs cli srv mac hd ip sp ->
  exists s', pxenv_tftp_read_file fuel a s = Some (Ret PXENV_EXIT_SUCCESS, s') /\
    ldn (pmem s') buf (length (concat bs)) = concat bs /\ ld16 (pmem s') a = STATUS_SUCCESS /\
    tftp_exchange mac (u16 (lport (tst s) + 1)) sp name bs (net (hw s)) (net (hw s')).
Proof.
  intros u size Hp Hs Hfu (Hu & Ha & Hd) Hc Hn Hb Hx Hb0 Hr Hba Hsv.
  set (m1 := memcpy (pmem s) KERNEL_BUF (a + 2) 128).
  assert (K1 : forall x, x < KERNEL_BUF \/ KERNEL_BUF + 128 <= x -> ld8 m1 x = ld8 (pmem s) x) by (intros x Hz; apply ld8_memcpy_frame; lia).
  assert (KB : KERNEL_BUF = 0x3806c) by reflexivity.
  set (m2 := st32 m1 (u + 0) buf). set (m3 := readfile u buf max m1).
  assert (K : forall x, lacp_pkt <= x < lacp_pkt + 0x1000 \/ a <= x < a + 138 -> ld8 m3 x = ld8 (pmem s) x)
    by (intros x Hz; unfold lacp_pkt, m3 in *; rewrite ld8_readfile, K1 by lia; reflexivity).
  destruct (do_tftp_ok u buf max (a + 2) (set_pmem m3 s) Hfu) as (s' & Et & (_ & _ & _ & R4) & St & Ex).
  { apply (cstr_ext (pmem s)); [|exact Hc]. intros x Hz. symmetry. apply K. lia. }
  { apply served_mem; [|exact Hsv]. intros x Hz. apply K. now left. }
  { exact Hr. } { apply readfile_received; [rewrite Hb; apply u32_range|rewrite Hx; apply ld32_range]. }
  exists (set_pmem (st16 (pmem s') a STATUS_SUCCESS) s'). split; [|split; [|split; [apply ld16_st16_eq|exact Ex]]].
  - unfold pxenv_tftp_read_file. rewrite (ENSURE_ready s p) by assumption. rewrite (with_union_run s p) by assumption. fold u.
    rewrite !pbind_mem, !pbind_gets, !pbind_mem, !pbind_gets, !pbind_mem, !set_pmem_twice, !pmem_set. fold m1.
    cbn [put_fields fold_left put_field].
    replace (ld32 m1 (a + 134)) with (ld32 (pmem s) (a + 134)) by (apply ld32_ext; intros x Hz; symmetry; apply K1; lia).
    rewrite <- Hb. fold m2.
    replace (ld32 m2 (a + 130)) with max by (rewrite Hx; apply ld32_ext; intros x Hz; symmetry; unfold m2; rewrite ld8_st32_ne, K1 by lia; reflexivity).
    change (st32 (st32 m2 (u + 8) max) (u + 4) 0) with m3. unfold pbind. rewrite Et. reflexivity.
  - rewrite <- (R4 Hb0) at 2. apply ldn_ext. intros x Hz. cbn [pmem set_pmem]. unfold pmem at 1. cbn. apply ld8_st16_ne. fold size in Hz. lia.
Qed.

Lemma get_fsize_ok s p a :
  let u := p + off_union in
  stack s = Some p -> state s = READY -> (length bs + length name + 2 <= fuel)%nat ->
  clear_of u a 142 -> cstr (pmem s) (a + 10) name -> (length name < 128)%nat -> Z.of_nat (length (concat bs)) < 4294967296 ->
  served s name bs cli srv mac hd ip sp ->
  exists s', pxenv_tftp_get_fsize fuel a s = Some (Ret PXENV_EXIT_SUCCESS, s') /\
    ld32 (pmem s') (a + 138) = Z.of_nat (length (concat bs)) /\ ld16 (pmem s') a = STATUS_SUCCESS /\
    tftp_exchange mac (u16 (lport (tst s) + 1)) sp name bs (net (hw s)) (net (hw s')).
Proof.
  intros u Hp Hs Hfu (Hu & Ha & Hd) Hc Hn Hz Hsv. set (m3 := readfile u 0 0 (pmem s)).
  assert (K : forall x, lacp_pkt <= x < lacp_pkt + 0x1000 \/ a <= x < a + 142 -> ld8 m3 x = ld8 (pmem s) x)
    by (intros x Hx; unfold lacp_pkt, m3 in *; rewrite ld8_readfile by lia; reflexivity).
  destruct (do_tftp_ok u 0 0 (a + 10) (set_pmem m3 s) Hfu) as (s' & Et & (_ & R2 & _) & St & Ex).
  { apply (cstr_ext (pmem s)); [|exact Hc]. intros x Hx. symmetry. apply K. lia. }
  { apply served_mem; [|exact Hsv]. intros x Hx. apply K. now left. }
  { split; [exact Hu|]. split; [exact Hz|easy]. } { apply readfile_received; lia. }
  exists (set_pmem (st16 (st32 (pmem s') (a + 138) (Z.of_nat (length (concat bs)))) a STATUS_SUCCESS) s').
  split; [|split; [|split; [apply ld16_st16_eq|exact Ex]]].
  - unfold pxenv_tftp_get_fsize. rewrite (ENSURE_ready s p) by assumption. rewrite (with_union_run s p) by assumption. fold u.
    rewrite pbind_mem. change (put_fields _ _ _) with m3. unfold pbind at 1. rewrite Et. cbn [istrue Z.eqb negb].
    unfold pld32, pst32, succeed, leave, pst16. rewrite pbind_gets. change (pmem s') with (mm (net (hw s'))). rewrite R2. reflexivity.
  - unfold pmem. cbn. rewrite ld32_st16_ne, ld32_st32_eq, u32_small by lia. reflexivity.
Qed.
End files.

(** ** Properties *)

(** C18: PXENV_TFTP_READ_FILE downloads the file.  On a stack that is READY, with a TFTP server that answers the request, the call
    returns success and the file is in the caller's buffer; the request, from a new port to port 69, names the file and every block is
    acknowledged once, in order, to the port of the server.  The buffer has to be larger than the file. *)
Theorem pxe_read_file `{Env} `{Platform} fuel name bs cli srv mac hd ip sp s p a :
  let u := p + off_union in let size := Z.of_nat (length (concat bs)) in
  let buf := phys_to_virt vo (ld32 (pmem s) (a + 134)) in let max := ld32 (pmem s) (a + 130) in
  stack s = Some p -> state s = READY -> (length bs + length name + 2 <= fuel)%nat ->
  clear_of u a 138 -> cstr (pmem s) (a + 2) name -> (length name < 128)%nat ->
  buf <> 0 -> fits_buffer u buf max bs -> buf + size <= a \/ a + 2 <= buf ->
  served s name bs cli srv mac hd ip sp ->
  exists s', pxenv_tftp_read_file fuel a s = Some (Ret PXENV_EXIT_SUCCESS, s') /\
    ldn (pmem s') buf (length (concat bs)) = concat bs /\ ld16 (pmem s') a = STATUS_SUCCESS /\
    tftp_exchange mac (u16 (lport (tst s) + 1)) sp name bs (net (hw s)) (net (hw s')).
Proof. intros. eapply read_file_ok; eauto. Qed.

(** PXENV_TFTP_GET_FSIZE gives the size of the file (by downloading it and counting). *)
Theorem pxe_get_fsize `{Env} `{Platform} fuel name bs cli srv mac hd ip sp s p a :
  let u := p + off_union in
  stack s = Some p -> state s = READY -> (length bs + length name + 2 <= fuel)%nat ->
  clear_of u a 142 -> cstr (pmem s) (a + 10) name -> (length name < 128)%nat -> Z.of_nat (length (concat bs)) < 4294967296 ->
  served s name bs cli srv mac hd ip sp ->
  exists s', pxenv_tftp_get_fsize fuel a s = Some (Ret PXENV_EXIT_SUCCESS, s') /\
    ld32 (pmem s') (a + 138) = Z.of_nat (length (concat bs)) /\ ld16 (pmem s') a = STATUS_SUCCESS /\
    tftp_exchange mac (u16 (lport (tst s) + 1)) sp name bs (net (hw s)) (net (hw s')).
Proof. intros. eapply get_fsize_ok; eauto. Qed.

(** ** Witnesses *)

(** The machine with the stack at 0x90000, on the network of the TFTP server; the parameters are at 0x50000: the name, a buffer of
    4096 bytes at 1 MB. *)
Definition rf_args (size : Z) (m : mem) : mem :=
  st32 (st32 (stn m 0x50002 (txt "/vmlinuz"%string ++ [0])) (0x50000 + 134) 0x100000) (0x50000 + 130) size.
Definition fsize_args (m : mem) : mem := stn m 0x5000a (txt "/vmlinuz"%string ++ [0]).
Definition psys_net : psys := set_hw (set_net tftp_world (hw psys2)) psys2.
Definition psys3 (args : mem -> mem) : psys := set_pmem (args (mm tftp_world)) psys_net.
Lemma served3 args : (forall m x, x < 0x50000 -> ld8 (args m) x = ld8 m x) ->
  @served tftp_env (psys3 args) (txt "/vmlinuz"%string) file2 0x0100000a 0x0200000a [2; 0; 0; 0; 0; 2] [2; 0; 0; 0; 0; 1; 2; 0; 0; 0; 0; 2] 0x0200000a 1069.
Proof.
  intros Ha. unfold psys3. apply served_mem.
  { intros x Hx. change (pmem psys_net) with (mm tftp_world). apply Ha. unfold lacp_pkt in Hx. lia. }
  split; try reflexivity.
  - split; [|split; [reflexivity|split; [lia|split; [reflexivity|]]]].
    + split; [vm_compute; reflexivity|]. split; [reflexivity|]. split; [reflexivity|]. repeat constructor.
    + split; [lia|]. split; [vm_compute; discriminate|]. split; [vm_compute; reflexivity|].
      exists 1%nat. split; [vm_compute; reflexivity|]. split; reflexivity.
  - cbn. lia.
  - split; [cbn; lia|apply txt_bytes].
  - split; [|cbn; lia]. cbn [file_blocks file2]. split; [reflexivity|]. split; [|split; [cbn; lia|repeat (constructor; [lia|]); constructor]].
    apply Forall_forall. intros x Hx. apply repeat_spec in Hx. lia.
  - split; reflexivity.
  - intros [|[|j]] b; cbn [nth_error file2]; [intros [= <-]; reflexivity .. | now destruct j].
Qed.
Lemma rf_args_low size m x : x < 0x50000 -> ld8 (rf_args size m) x = ld8 m x.
Proof. intros Hx. unfold rf_args. rewrite !ld8_st32_ne, ld8_stn_out by lia. reflexivity. Qed.
Lemma fsize_args_low m x : x < 0x50000 -> ld8 (fsize_args m) x = ld8 m x.
Proof. intros Hx. unfold fsize_args. rewrite ld8_stn_out by lia. reflexivity. Qed.

Lemma pxe_read_file_witness :
  exists s', @pxenv_tftp_read_file tftp_env demo_platform 12 0x50000 (psys3 (rf_args 0x1000)) = Some (Ret 0, s') /\
    ldn (pmem s') 0x100000 515 = concat file2.
Proof.
  destruct (@pxe_read_file tftp_env demo_platform 12 (txt "/vmlinuz"%string) file2 0x0100000a 0x0200000a [2; 0; 0; 0; 0; 2]
              [2; 0; 0; 0; 0; 1; 2; 0; 0; 0; 0; 2] 0x0200000a 1069 (psys3 (rf_args 0x1000)) 0x90000 0x50000) as (s' & Er & Hd & _).
  - vm_compute. reflexivity.
  - vm_compute. reflexivity.
  - cbn. lia.
  - unfold clear_of, off_union. lia.
  - apply cstrb_cstr. vm_compute. reflexivity.
  - cbn. lia.
  - vm_compute. discriminate.
  - vm_compute. repeat split; intros; try discriminate. now right.
  - right. vm_compute. discriminate.
  - apply served3, rf_args_low.
  - exists s'. split; [exact Er|exact Hd].
Defined.
Lemma pxe_get_fsize_witness :
  exists s', @pxenv_tftp_get_fsize tftp_env demo_platform 12 0x50000 (psys3 fsize_args) = Some (Ret 0, s') /\ ld32 (pmem s') (0x50000 + 138) = 515.
Proof.
  destruct (@pxe_get_fsize tftp_env demo_platform 12 (txt "/vmlinuz"%string) file2 0x0100000a 0x0200000a [2; 0; 0; 0; 0; 2]
              [2; 0; 0; 0; 0; 1; 2; 0; 0; 0; 0; 2] 0x0200000a 1069 (psys3 fsize_args) 0x90000 0x50000) as (s' & Er & Hd & _).
  - vm_compute. reflexivity.
  - vm_compute. reflexivity.
  - cbn. lia.
  - unfold clear_of, off_union. lia.
  - apply cstrb_cstr. vm_compute. reflexivity.
  - cbn. lia.
  - vm_compute. reflexivity.
  - apply served3, fsize_args_low.
  - exists s'. split; [exact Er|exact Hd].
Defined.

(** *** Two limits of the calls *)

Definition exit_status (a : Z) (r : option (res Z * psys)) : option (Z * Z) :=
  match r with Some (Ret e, s) => Some (e, ld16 (pmem s) a) | _ => None end.
Definition state_after (r : option (res Z * psys)) : psys := match r with Some (_, s) => s | None => psys_net end.
(** A file of 515 bytes is refused for a buffer of 515 bytes. *)
Lemma exact_fit_refused :
  exit_status 0x50000 (@pxenv_tftp_read_file tftp_env demo_platform 12 0x50000 (psys3 (rf_args 515))) = Some (1, STATUS_FAILURE).
Proof. vm_compute. reflexivity. Qed.
(** The first block is kept in the union for the first READ.  Another call that uses the union takes its place: a READ after
    GET_CACHED_INFO gives the second block of the file, of 3 bytes, and the first is lost. *)
Definition open_args (m : mem) : mem := st16 (stn m 0x5000a (txt "/vmlinuz"%string ++ [0])) (0x50000 + 138) (htons TFTP_PORT).
Definition read_at (s : psys) : psys := set_pmem (put_fields 0x51000 [F16 6 0; F16 8 0x6000] (pmem s)) s.
Definition opened : psys := state_after (@pxenv_tftp_open tftp_env demo_platform 12 demo_stale 0x50000 (psys3 open_args)).
Definition read_result (s : psys) : Z * Z * Z :=
  let s' := state_after (@pxenv_tftp_read tftp_env demo_platform 12 demo_stale 0x51000 (read_at s)) in
  (ld16 (pmem s') 0x51000, ld16 (pmem s') 0x51002, ld16 (pmem s') 0x51004).
Lemma cached_info_loses_block :
  read_result opened = (STATUS_SUCCESS, 1, 512) /\
  read_result (state_after (@pxenv_get_cached_info tftp_env demo_platform 12 0x52000 opened)) = (STATUS_SUCCESS, 2, 3).
Proof. vm_compute. split; reflexivity. Qed.
