(* ===== verification/Loaders.v ===== *)
(** The other image loaders: the search for a Multiboot header ([src/src/arch/i386/core/multiboot_loader.c]), a.out
    ([src/src/arch/i386/core/aout_loader.c], [freebsd_loader.c]) and PXE programs ([src/src/arch/i386/core/pxe_loader.c]). *)

From Stdlib Require Import String.
From S2P Require Import Prelude Memory StringLib Misc Vsprintf Heap OsLoader Net Lacp Nic Tftp Bootp Basemem Pci PxeStack PxeApi.
Local Open Scope etherboot_scope.

(** ** Multiboot *)

Definition MULTIBOOT_HEADER_MAGIC : Z := 0x1BADB002.
(** [mbheader] is NULL or the address of [mbbuffer]. *)
Record mbstate := { mbheader : bool; mbimgoffset : Z; mboffset : Z; mbbuffer : list Z }.
Definition multiboot_init (st : mbstate) : mbstate :=
  {| mbheader := false; mbimgoffset := 0; mboffset := 0; mbbuffer := mbbuffer st |}.
Definition mb_nth (st : mbstate) (i : nat) : Z := nth i (mbbuffer st) 0.
(** The members [magic], [flags] and [checksum] are the words at 0, 4 and 8. *)
Definition mb_word (st : mbstate) (i : nat) : Z :=
  mb_nth st i + 256 * mb_nth st (i + 1) + 65536 * mb_nth st (i + 2) + 16777216 * mb_nth st (i + 3).
Definition set_mboffset (k : Z) (st : mbstate) : mbstate :=
  {| mbheader := mbheader st; mbimgoffset := mbimgoffset st; mboffset := k; mbbuffer := mbbuffer st |}.
(** [mboffset -= n; memmove(mbbuffer, mbbuffer + n, mboffset)] *)
Definition mb_shift (n : Z) (st : mbstate) : mbstate :=
  let k := mboffset st - n in
  {| mbheader := mbheader st; mbimgoffset := mbimgoffset st; mboffset := k;
     mbbuffer := firstn (Z.to_nat k) (skipn (Z.to_nat n) (mbbuffer st)) ++ skipn (Z.to_nat k) (mbbuffer st) |}.
(** A byte of the image is put in the buffer. *)
Definition mb_put (b : Z) (st : mbstate) : mbstate :=
  {| mbheader := mbheader st; mbimgoffset := u32 (mbimgoffset st + 1); mboffset := mboffset st + 1;
     mbbuffer := list_set (mbbuffer st) (Z.to_nat (mboffset st)) b |}.
(** A round of the loop: the new state, and whether the loop is left because a header was found. *)
Definition mb_byte (b : Z) (st : mbstate) : mbstate * bool :=
  let st := mb_put b st in
  if mboffset st =? 4 then
    (if negb (mb_word st 0 =? MULTIBOOT_HEADER_MAGIC) then set_mboffset 0 st else st, false)
  else if mboffset st =? 12 then
    if negb (u32 (mb_word st 0 + mb_word st 4 + mb_word st 8) =? 0) then
      (if mb_word st 4 =? MULTIBOOT_HEADER_MAGIC then mb_shift 4 st
       else if mb_word st 8 =? MULTIBOOT_HEADER_MAGIC then mb_shift 8 st
       else set_mboffset 0 st, false)
    else ({| mbheader := true; mbimgoffset := mbimgoffset st; mboffset := mboffset st; mbbuffer := mbbuffer st |}, true)
  else (st, false).
(** The rest of the block is counted when the loop is left. *)
Fixpoint mb_loop (m : mem) (data : Z) (n : nat) (st : mbstate) : mbstate * bool :=
  match n with
  | O => (st, false)
  | S n =>
      let '(st, found) := mb_byte (ld8 m data) st in
      if found : bool then
        ({| mbheader := mbheader st; mbimgoffset := u32 (mbimgoffset st + Z.of_nat n); mboffset := mboffset st; mbbuffer := mbbuffer st |}, true)
      else mb_loop m (data + 1) n st
  end.
(** [multiboot_peek]; with the state that [longjmp] is given, if it is called. *)
Definition multiboot_peek (m : mem) (data len : Z) (st : mbstate) : option Z * mbstate :=
  if (mboffset st =? 12) || (mbimgoffset st >=? 8192) then (None, st)
  else
    let len := if u32 (mbimgoffset st + len) >=? 8192 then 8192 - mbimgoffset st else len in
    let '(st, found) := mb_loop m data (Z.to_nat len) st in
    (if found && negb (Z.land (mb_word st 4) 0xfffc =? 0) then Some (-2) else None, st).

Lemma find_app_none {A} (p : A -> bool) l1 l2 : (forall x, In x l1 -> p x = false) -> find p (l1 ++ l2) = find p l2.
Proof. induction l1 as [|a l1 IH]; intros H; cbn; [reflexivity|]. rewrite (H a) by now left. apply IH. intros x Hx. apply H. now right. Qed.

(** *** The search, as the specification has it *)

(** The header is at the first offset divisible by 4 whose three words start with the magic number and sum to zero; it lies in the
    first 8192 bytes. *)
Section search.
Context (F : Z -> Z).
Definition word_at (o : Z) : Z := F o + 256 * F (o + 1) + 65536 * F (o + 2) + 16777216 * F (o + 3).
Definition header_at (o : Z) : bool :=
  (word_at o =? MULTIBOOT_HEADER_MAGIC) && (u32 (word_at o + word_at (o + 4) + word_at (o + 8)) =? 0).
Definition find_header (n : Z) : option Z := find header_at (map (fun i => 4 * Z.of_nat i) (seq 0 (Z.to_nat ((n - 8) / 4)))).

(** Every header before [o] is excluded. *)
Definition none_before (o : Z) : Prop := forall x, 0 <= x < o -> x mod 4 = 0 -> header_at x = false.
Definition first_at (o : Z) : Prop := 0 <= o /\ o mod 4 = 0 /\ header_at o = true /\ none_before o.

Lemma find_header_some n o : first_at o -> o + 12 <= n -> find_header n = Some o.
Proof.
  intros (Ho & Hm & Hh & Hn) Hl. unfold find_header. set (k := Z.to_nat (o / 4)).
  assert (Hk : o = 4 * Z.of_nat k) by (unfold k; Z.div_mod_to_equations; lia).
  replace (Z.to_nat ((n - 8) / 4)) with (k + S (Z.to_nat ((n - 8) / 4) - S k))%nat by (Z.div_mod_to_equations; lia).
  rewrite seq_app, map_app, find_app_none; [cbn [seq map find Nat.add]; now rewrite <- Hk, Hh|]. intros x Hx. apply in_map_iff in Hx as (i & <- & Hi). apply in_seq in Hi. apply Hn; [lia|].
  now rewrite Z.mul_comm, Z.mod_mul by lia.
Qed.
Lemma find_header_none n : none_before (n - 11) -> find_header n = None.
Proof.
  intros Hn. unfold find_header. rewrite <- (app_nil_r (map _ _)), find_app_none; [reflexivity|]. intros x Hx. apply in_map_iff in Hx as (i & <- & Hi). apply in_seq in Hi.
  apply Hn; [Z.div_mod_to_equations; lia|]. now rewrite Z.mul_comm, Z.mod_mul by lia.
Qed.
End search.

(** *** The bytes that were seen *)

Section peek.
Context (F : Z -> Z).
(** The buffer holds what may still become a header; everything in front of it is excluded. *)
Record mb_inv (n : Z) (st : mbstate) : Prop := {
  mi_header : mbheader st = false;
  mi_count : mbimgoffset st = n;
  mi_range : 0 <= mboffset st < 12 /\ mboffset st <= n;
  mi_align : (n - mboffset st) mod 4 = 0;
  mi_length : length (mbbuffer st) = 12%nat;
  mi_bytes : forall i, (Z.of_nat i < mboffset st) -> mb_nth st i = F (n - mboffset st + Z.of_nat i);
  mi_none : none_before F (n - mboffset st);
  mi_magic : 4 <= mboffset st -> word_at F (n - mboffset st) = MULTIBOOT_HEADER_MAGIC;
}.
(** A header was found, after [n] bytes. *)
Record mb_found (o : Z) (st : mbstate) : Prop := {
  mf_header : mbheader st = true;
  mf_offset : mboffset st = 12;
  mf_bytes : forall i, (i < 12)%nat -> mb_nth st i = F (o + Z.of_nat i);
  mf_first : first_at F o;
}.
Lemma none_before_next o : none_before F o -> o mod 4 = 0 -> header_at F o = false -> none_before F (o + 4).
Proof.
  intros Hn Ho Hh x Hx Hm. destruct (Z.lt_ge_cases x o); [now apply Hn|]. replace x with o; [exact Hh|]. Z.div_mod_to_equations. lia.
Qed.
Lemma not_magic o : word_at F o <> MULTIBOOT_HEADER_MAGIC -> header_at F o = false.
Proof. intros Hw. unfold header_at. now rewrite (proj2 (Z.eqb_neq _ _) Hw). Qed.
Lemma length_list_set {B} (l : list B) i v : length (list_set l i v) = length l.
Proof. revert i. induction l as [|a l IH]; intros [|i]; cbn; auto. Qed.
Lemma nth_list_set_ne {B} (l : list B) i j v d : i <> j -> nth i (list_set l j v) d = nth i l d.
Proof. revert i j. induction l as [|a l IH]; intros [|i] [|j] Hij; cbn; try easy. apply IH. lia. Qed.

(** With one more byte in the buffer. *)
Lemma mb_put_spec n st : mb_inv n st -> n < 8192 ->
  let st' := mb_put (F n) st in let o := n - mboffset st in
  mboffset st' = mboffset st + 1 /\ mbimgoffset st' = n + 1 /\ mbheader st' = false /\ length (mbbuffer st') = 12%nat /\
  (forall i, (Z.of_nat i < mboffset st + 1) -> mb_nth st' i = F (o + Z.of_nat i)) /\
  (forall i, (Z.of_nat i + 4 <= mboffset st + 1) -> mb_word st' i = word_at F (o + Z.of_nat i)).
Proof.
  intros [H1 H2 (H3 & H3') H4 H5 H6 H7 H8] Hn st' o.
  assert (B : forall i, Z.of_nat i < mboffset st + 1 -> mb_nth st' i = F (o + Z.of_nat i)).
  { intros i Hi. unfold mb_nth, st'. cbn [mb_put mbbuffer]. destruct (Nat.eq_dec i (Z.to_nat (mboffset st))) as [E|E].
    - rewrite E, nth_list_set by lia. f_equal. unfold o. lia.
    - rewrite nth_list_set_ne by exact E. apply H6. lia. }
  split; [reflexivity|]. split; [cbn [st' mb_put mbimgoffset]; rewrite H2, u32_small; lia|]. split; [exact H1|].
  split; [cbn [st' mb_put mbbuffer]; now rewrite length_list_set|]. split; [exact B|].
  intros i Hi. unfold mb_word, word_at. rewrite !B by lia. now rewrite !Nat2Z.inj_add, !Z.add_assoc.
Qed.

Lemma mb_byte_spec n st : mb_inv n st -> n < 8192 ->
  let '(st', found) := mb_byte (F n) st in
  mbimgoffset st' = n + 1 /\ if found then mb_found (n - 11) st' else mb_inv (n + 1) st'.
Proof.
  intros Hi Hn. pose proof (mb_put_spec n st Hi Hn) as (P1 & P2 & P3 & P4 & P5 & P6). destruct Hi as [H1 H2 (H3 & H3') H4 H5 H6 H7 H8].
  unfold mb_byte. set (t := mb_put (F n) st) in *. set (o := n - mboffset st) in *. set (k := mboffset st) in *. rewrite P1.
  assert (Ho : n = o + k) by lia.
  assert (Hz : forall b, mb_nth (set_mboffset 0 t) b = mb_nth t b) by reflexivity.
  assert (Reset : none_before F (n + 1) -> (n + 1) mod 4 = 0 -> mb_inv (n + 1) (set_mboffset 0 t)).
  { intros Hb Hm. split; cbn; rewrite ?Z.sub_0_r; try easy; lia. }
  destruct (Z.eqb_spec (k + 1) 4) as [E4|E4].
  - rewrite (P6 0%nat) by lia. cbn [Z.of_nat]. rewrite Z.add_0_r.
    destruct (Z.eqb_spec (word_at F o) MULTIBOOT_HEADER_MAGIC) as [Em|Em]; cbn [negb].
    + split; [exact P2|]. split; try rewrite P1; try easy; try lia; replace (n + 1 - (k + 1)) with o by lia; try easy.
    + split; [exact P2|]. apply Reset; [|Z.div_mod_to_equations; lia]. replace (n + 1) with (o + 4) by lia.
      apply none_before_next; [exact H7|exact H4|now apply not_magic].
  - destruct (Z.eqb_spec (k + 1) 12) as [E12|E12].
    + rewrite (P6 0%nat), (P6 4%nat), (P6 8%nat) by lia. cbn [Z.of_nat Pos.of_succ_nat Pos.succ]. rewrite Z.add_0_r.
      assert (Em : word_at F o = MULTIBOOT_HEADER_MAGIC) by (apply H8; lia).
      destruct (Z.eqb_spec (u32 (word_at F o + word_at F (o + 4) + word_at F (o + 8))) 0) as [Es|Es]; cbn [negb].
      * split; [exact P2|]. replace (n - 11) with o by lia. split; try easy.
        -- intros i Hx. apply P5. lia.
        -- split; [lia|]. split; [exact H4|]. split; [|exact H7]. unfold header_at. rewrite Em, Z.eqb_refl. rewrite <- Em. now apply Z.eqb_eq.
      * assert (D0 : none_before F (o + 4)).
        { apply none_before_next; [exact H7|exact H4|]. unfold header_at. rewrite (proj2 (Z.eqb_neq _ _) Es). apply andb_false_r. }
        assert (Shift : forall j, j = 4 \/ j = 8 -> none_before F (o + j) -> word_at F (o + j) = MULTIBOOT_HEADER_MAGIC -> mb_inv (n + 1) (mb_shift j t)).
        { intros j Hj Hb Hw. split; cbn [mb_shift mbheader mbimgoffset mboffset mbbuffer]; rewrite ?P1; try easy; try lia.
          - Z.div_mod_to_equations. lia.
          - rewrite length_app, length_firstn, !length_skipn, P4. lia.
          - intros i Hx. unfold mb_nth. cbn [mb_shift mbbuffer]. rewrite P1, app_nth1 by (rewrite length_firstn, length_skipn, P4; lia).
            rewrite nth_firstn, nth_skipn. destruct (Nat.ltb_spec i (Z.to_nat (k + 1 - j))); [|lia].
            transitivity (mb_nth t (Z.to_nat j + i)); [reflexivity|]. rewrite P5 by lia. f_equal. lia.
          - now replace (n + 1 - (k + 1 - j)) with (o + j) by lia.
          - now replace (n + 1 - (k + 1 - j)) with (o + j) by lia. }
        destruct (Z.eqb_spec (word_at F (o + 4)) MULTIBOOT_HEADER_MAGIC) as [E5|E5]; [split; [exact P2|apply Shift; auto]|].
        assert (D4 : none_before F (o + 8)).
        { replace (o + 8) with (o + 4 + 4) by lia. apply none_before_next; [exact D0|Z.div_mod_to_equations; lia|now apply not_magic]. }
        destruct (Z.eqb_spec (word_at F (o + 8)) MULTIBOOT_HEADER_MAGIC) as [E8|E8]; [split; [exact P2|apply Shift; auto]|].
        split; [exact P2|]. apply Reset; [|Z.div_mod_to_equations; lia]. replace (n + 1) with (o + 8 + 4) by lia.
        apply none_before_next; [exact D4|Z.div_mod_to_equations; lia|now apply not_magic].
    + split; [exact P2|]. split; rewrite ?P1; try easy; try lia; replace (n + 1 - (k + 1)) with o by lia; try easy.
      intros Hx. apply H8. lia.
Qed.

Lemma mb_loop_spec m : forall k data n st, mb_inv n st -> n + Z.of_nat k <= 8192 ->
  (forall j, 0 <= j < Z.of_nat k -> ld8 m (data + j) = F (n + j)) ->
  let '(st', found) := mb_loop m data k st in
  mbimgoffset st' = n + Z.of_nat k /\
  if found then exists o, mb_found o st' /\ o + 12 <= n + Z.of_nat k else mb_inv (n + Z.of_nat k) st'.
Proof.
  induction k as [|k IH]; intros data n st Hi Hn HF; cbn [mb_loop].
  - rewrite Z.add_0_r. split; [apply (mi_count _ _ Hi)|exact Hi].
  - assert (H0 : ld8 m data = F n) by (rewrite <- (Z.add_0_r data), HF by lia; now rewrite Z.add_0_r). rewrite H0. pose proof (mi_range _ _ Hi) as Hr. pose proof (mb_byte_spec n st Hi ltac:(lia)) as Hb.
    destruct (mb_byte (F n) st) as [st1 [|]].
    + destruct Hb as (Hc & [G1 G2 G3 G4]). cbn [mbimgoffset]. rewrite Hc, u32_small by lia. split; [lia|].
      exists (n - 11). split; [now split|lia].
    + destruct Hb as (Hc & Hi1). specialize (IH (data + 1) (n + 1) st1 Hi1).
      replace (n + Z.of_nat (S k)) with (n + 1 + Z.of_nat k) by lia. apply IH; [lia|].
      intros j Hj. replace (data + 1 + j) with (data + (1 + j)) by lia. rewrite HF by lia. f_equal. lia.
Qed.

(** What is known after [n] bytes of the image. *)
Definition peeked (n : Z) (st : mbstate) : Prop :=
  let c := Z.min n 8192 in mb_inv c st \/ exists o, mb_found o st /\ o + 12 <= c.
Lemma peeked_init st : length (mbbuffer st) = 12%nat -> peeked 0 (multiboot_init st).
Proof. intros Hl. left. split; cbn; try easy; try lia; intros x Hx; lia. Qed.
Lemma found_words o st : mb_found o st -> mb_word st 0 = word_at F o /\ mb_word st 4 = word_at F (o + 4) /\ mb_word st 8 = word_at F (o + 8).
Proof.
  intros [_ _ Hb _]. unfold mb_word, word_at. rewrite !Hb by lia. cbn [Z.of_nat Nat.add Pos.of_succ_nat Pos.succ].
  rewrite <- !Z.add_assoc. cbn [Z.add Pos.add Pos.succ]. now rewrite Z.add_0_r.
Qed.
Lemma peek_step m data len n st : peeked n st -> 0 <= n -> 0 <= len < 2147483648 ->
  (forall j, 0 <= j < len -> ld8 m (data + j) = F (n + j)) ->
  let '(r, st') := multiboot_peek m data len st in
  peeked (n + len) st' /\ (r <> None -> r = Some (-2) /\ mbheader st' = true /\ Z.land (mb_word st' 4) 0xfffc <> 0) /\
  (mbheader st' = true -> mbheader st = false -> r = None -> Z.land (mb_word st' 4) 0xfffc = 0) /\
  (mbheader st = true -> st' = st /\ r = None).
Proof.
  intros Hp Hn Hl HF. unfold multiboot_peek. destruct Hp as [Hi|(o & Hf & Ho)].
  - destruct Hi as [H1 H2 H3 H4 H5 H6 H7 H8] eqn:Ei. clear Ei. rewrite (proj2 (Z.eqb_neq (mboffset st) 12)) by lia. rewrite H2. cbn [orb].
    rewrite !Z.geb_leb. destruct (Z.leb_spec 8192 (Z.min n 8192)) as [Hs|Hs].
    + split; [|split; [easy|split; [congruence|congruence]]]. left. now replace (Z.min (n + len) 8192) with (Z.min n 8192) by lia.
    + replace (Z.min n 8192) with n in * by lia. rewrite u32_small by lia.
      set (len' := if 8192 <=? n + len then 8192 - n else len).
      assert (Hl' : len' = Z.min len (8192 - n)) by (unfold len'; destruct (Z.leb_spec 8192 (n + len)); lia).
      pose proof (mb_loop_spec m (Z.to_nat len') data n st Hi ltac:(lia)) as Hlo.
      rewrite !Z2Nat.id in Hlo by lia. specialize (Hlo ltac:(intros j Hj; apply HF; lia)).
      replace (n + len') with (Z.min (n + len) 8192) in Hlo by lia.
      destruct (mb_loop m data (Z.to_nat len') st) as [st' [|]]; destruct Hlo as (_ & Hlo); cbn [andb].
      * destruct Hlo as (o & Hf & Ho). split; [right; now exists o|]. pose proof (mf_header _ _ Hf).
        destruct (Z.eqb_spec (Z.land (mb_word st' 4) 65532) 0); cbn [negb]; repeat split; congruence.
      * split; [now left|]. pose proof (mi_header _ _ Hlo). repeat split; congruence.
  - pose proof (mf_offset _ _ Hf) as Hm. pose proof (mf_header _ _ Hf). rewrite Hm. cbn [Z.eqb Pos.eqb orb].
    split; [right; exists o; split; [exact Hf|lia]|]. repeat split; congruence.
Qed.
End peek.

(** The blocks of an image, each where it was received; [longjmp] ends the transfer. *)
Fixpoint peek_blocks (blocks : list (mem * Z * Z)) (st : mbstate) : option Z * mbstate :=
  match blocks with
  | [] => (None, st)
  | (m, data, len) :: rest =>
      match multiboot_peek m data len st with
      | (None, st) => peek_blocks rest st
      | r => r
      end
  end.
Fixpoint image_blocks (F : Z -> Z) (n : Z) (blocks : list (mem * Z * Z)) : Prop :=
  match blocks with
  | [] => True
  | (m, data, len) :: rest => 0 <= len < 2147483648 /\ (forall j, 0 <= j < len -> ld8 m (data + j) = F (n + j)) /\ image_blocks F (n + len) rest
  end.
Definition total (blocks : list (mem * Z * Z)) : Z := fold_right (fun b s => snd b + s) 0 blocks.
Lemma total_nonneg F blocks : forall n, image_blocks F n blocks -> 0 <= total blocks.
Proof. induction blocks as [|[[m d] l] bs IH]; intros n H; unfold total in *; cbn in *; [lia|]. destruct H as (H1 & _ & H3). specialize (IH _ H3). lia. Qed.

(** What a state says, and what the header asks for. *)
Definition peek_verdict (F : Z -> Z) (n : Z) (r : option Z) (st : mbstate) : Prop :=
  match find_header F (Z.min n 8192) with
  | Some o => mbheader st = true /\ mb_word st 0 = word_at F o /\ mb_word st 4 = word_at F (o + 4) /\ mb_word st 8 = word_at F (o + 8) /\
      r = (if Z.land (word_at F (o + 4)) 0xfffc =? 0 then None else Some (-2))
  | None => mbheader st = false /\ r = None
  end.
Lemma verdict_found F n o r st : mb_found F o st -> o + 12 <= Z.min n 8192 ->
  r = (if Z.land (mb_word st 4) 0xfffc =? 0 then None else Some (-2)) -> peek_verdict F n r st.
Proof.
  intros Hf Ho Hr. unfold peek_verdict. rewrite (find_header_some _ _ o (mf_first _ _ _ Hf) Ho).
  destruct (found_words _ _ _ Hf) as (W0 & W4 & W8). rewrite W4 in Hr. repeat split; try assumption. apply (mf_header _ _ _ Hf).
Qed.
Lemma peek_blocks_spec F blocks : forall n st, peeked F n st -> 0 <= n -> image_blocks F n blocks ->
  (mbheader st = true -> Z.land (mb_word st 4) 0xfffc = 0) ->
  let '(r, st') := peek_blocks blocks st in peek_verdict F (n + total blocks) r st'.
Proof.
  induction blocks as [|[[m data] len] rest IH]; intros n st Hp Hn Hc Hfl.
  - cbn. rewrite Z.add_0_r. destruct Hp as [Hi|(o & Hf & Ho)].
    + unfold peek_verdict. rewrite find_header_none; [split; [apply (mi_header _ _ _ Hi)|reflexivity]|].
      pose proof (mi_none _ _ _ Hi) as Hz. pose proof (mi_range _ _ _ Hi). intros x Hx. apply Hz. lia.
    + apply (verdict_found F n o); [exact Hf|exact Ho|]. rewrite Hfl; [reflexivity|apply (mf_header _ _ _ Hf)].
  - destruct Hc as (Hl & HF & Hc). cbn [peek_blocks total fold_right snd]. fold (total rest).
    pose proof (peek_step F m data len n st Hp Hn Hl HF) as Hs. destruct (multiboot_peek m data len st) as [r st1].
    destruct Hs as (Hp1 & Hj & Hk & Hsame). pose proof (total_nonneg _ _ _ Hc) as Ht. rewrite Z.add_assoc. destruct r as [j|].
    + destruct (Hj ltac:(discriminate)) as (Ej & Hh & Hb). destruct Hp1 as [Hi|(o & Hf & Ho)]; [rewrite (mi_header _ _ _ Hi) in Hh; discriminate|].
      apply (verdict_found F _ o); [exact Hf|lia|]. apply Z.eqb_neq in Hb. now rewrite Hb.
    + apply IH; [exact Hp1|lia|exact Hc|]. intros Hh. destruct (mbheader st) eqn:Eh; [|now apply Hk].
      destruct (Hsame eq_refl) as (-> & _). now apply Hfl.
Qed.

(** *** Starting a Multiboot kernel *)

(** The name of the kernel as an argument: blanks, backslashes and quotes get a backslash. *)
Definition mb_quoted (c : Z) : bool := (c =? 32) || (c =? 92) || (c =? 34).
Fixpoint mb_quote (s : list Z) : list Z :=
  match s with
  | [] => []
  | c :: s => (if mb_quoted c then [92; c] else [c]) ++ mb_quote s
  end.
(** The command line; [retaddr] is the text that [sprintf] adds. *)
Definition mb_cmdline (name : list Z) (addparam : option (list Z)) (retaddr : list Z) : list Z :=
  mb_quote name ++ match addparam with Some p => 32 :: p | None => [] end ++ retaddr.
(** How the kernel reads it: up to the first blank that is not quoted. *)
Fixpoint mb_argument (s : list Z) : list Z :=
  match s with
  | [] => []
  | 92 :: c :: s => c :: mb_argument s
  | 32 :: _ => []
  | c :: s => c :: mb_argument s
  end.
(** An entry of [mbinfo.mmap], and the members in front of them. *)
Definition mb_mmap_entry (e : e820entry) : list field :=
  [F32 0 20; F32 4 (u32 (e_addr e)); F32 8 (Z.shiftr (e_addr e) 32); F32 12 (u32 (e_size e)); F32 16 (Z.shiftr (e_size e) 32); F32 20 (e_type e)].
Fixpoint put_mmap (p : Z) (l : list e820entry) (m : mem) : mem :=
  match l with
  | [] => m
  | e :: l => put_mmap (p + 24) l (put_fields p (mb_mmap_entry e) m)
  end.
(** [mbinfo] at [mbinfo_] (both virtual addresses); [mmap] is its last member. *)
Definition put_mbinfo (voff mbinfo_ cmdline basememsize memsize : Z) (map : list e820entry) (m : mem) : mem :=
  let m := put_fields mbinfo_ [F32 0 0x45; F32 4 basememsize; F32 8 memsize; F32 12 0; F32 16 (virt_to_phys voff cmdline)] m in
  let m := put_mmap (mbinfo_ + 52) map m in
  put_fields mbinfo_ [F32 44 (24 * Z.of_nat (length map)); F32 48 (virt_to_phys voff (mbinfo_ + 52))] m.

(** *** a.out *)

Definition AOUT_START : Z := 0x10b.
Record aout_state := {
  a_text : Z;
  a_data : Z;
  a_bss : Z;
  a_entry : Z;
  a_curaddr : Z;
  a_segment : Z;
  a_loc : Z;
  a_skip : Z;
  a_toread : Z;
  a_freebsd : bool;
}.
(** The members that change during a download. *)
Definition set_pos (cur seg skip toread : Z) (a : aout_state) : aout_state :=
  {| a_text := a_text a; a_data := a_data a; a_bss := a_bss a; a_entry := a_entry a; a_curaddr := cur; a_segment := seg;
     a_loc := a_loc a; a_skip := skip; a_toread := toread; a_freebsd := a_freebsd a |}.
Definition page_up (x : Z) : Z := Z.land (u32 (x + 4095)) (not32 4095).

Section aout.
Context (ly : layout) (h : heap) (map : list e820entry).
Let virt := phys_to_virt (virt_offset ly).

(** The end of the download: the kernel is started; when it returns, or when it is not FreeBSD, [longjmp]. *)
Definition aout_start (m : mem) (a : aout_state) : dl_outcome * (mem * aout_state) :=
  (if a_freebsd a then DlBoot AOUT_START (a_entry a) else DlLongjmp (-2), (m, a)).
(** What a round of the loop does with the rest of the current segment: [inr] leaves the loop. *)
Definition aout_copy (data len offset : Z) (m : mem) (a : aout_state) : (Z * mem * aout_state) + (mem * aout_state) :=
  if a_segment a =? -1 then inl (offset, m, a)
  else
    let left := u32 (len - offset) in
    if negb (a_skip a =? 0) && (a_skip a >=? left) then inr (m, set_pos (a_curaddr a) (a_segment a) (a_skip a - left) (a_toread a) a)
    else
      let offset := u32 (offset + a_skip a) in
      let a := set_pos (a_curaddr a) (a_segment a) 0 (a_toread a) a in
      let left := u32 (len - offset) in
      if a_toread a =? 0 then inl (offset, m, a)
      else if a_toread a >=? left then
        inr (memcpy m (virt (a_curaddr a)) (data + offset) (Z.to_nat left),
             set_pos (u32 (a_curaddr a + left)) (a_segment a) 0 (a_toread a - left) a)
      else
        inl (u32 (offset + a_toread a), memcpy m (virt (a_curaddr a)) (data + offset) (Z.to_nat (a_toread a)),
             set_pos (a_curaddr a) (a_segment a) 0 0 a).
(** The next segment; [inr] when it is the bss, after which the kernel is started. *)
Definition aout_next (m : mem) (a : aout_state) : (mem * aout_state) + (mem * aout_state) :=
  let seg := a_segment a + 1 in
  if seg =? 0 then inl (m, set_pos (a_entry a) seg 4096 (a_text a) a)
  else if seg =? 1 then
    let up := page_up (a_curaddr a) in
    inl (m, set_pos up seg (u32 (up - a_curaddr a)) (a_data a) a)
  else if seg =? 2 then
    let up := page_up (a_curaddr a) in
    inr (memset m (virt up) 0 (Z.to_nat (a_bss a)), set_pos up seg 0 0 a)
  else inl (m, set_pos (a_curaddr a) seg (a_skip a) (a_toread a) a).
(** The loop ends by [break] or because the block is used up ([inl]), or by starting the kernel ([inr]). *)
Fixpoint aout_loop (fuel : nat) (data len offset : Z) (m : mem) (a : aout_state) : option ((mem * aout_state) + (mem * aout_state)) :=
  match fuel with
  | O => None
  | S n =>
      match aout_copy data len offset m a with
      | inr s => Some (inl s)
      | inl (offset, m, a) =>
          match aout_next m a with
          | inr s => Some (inr s)
          | inl (m, a) => if offset <? len then aout_loop n data len offset m a else Some (inl (m, a))
          end
      end
  end.
(** Segments 0, 1 and 2 are begun in turn, so four rounds are enough. *)
Definition aout_download (data len : Z) (eof : bool) (s : mem * aout_state) : option (dl_outcome * (mem * aout_state)) :=
  match aout_loop 4 data len 0 (fst s) (snd s) with
  | None => None
  | Some (inr (m, a)) => Some (aout_start m a)
  | Some (inl (m, a)) =>
      let a := {| a_text := a_text a; a_data := a_data a; a_bss := a_bss a; a_entry := a_entry a; a_curaddr := a_curaddr a;
                  a_segment := a_segment a; a_loc := u32 (a_loc a + len); a_skip := a_skip a; a_toread := a_toread a; a_freebsd := a_freebsd a |} in
      Some (if eof then aout_start m a else (DlReturn 0, (m, a)))
  end.

(** [aout_probe] with the FreeBSD hook: [None] when the image is of another format, otherwise whether it can be loaded. *)
Definition aout_probe (m : mem) (data len : Z) : option (bool * (mem * aout_state)) :=
  if len <? 32 then None
  else
    let midmag := ld32 m data in
    if negb (Z.land midmag 0xffff =? 0x10b) then None
    else
      let text := ld32 m (data + 4) in
      let entry := ld32 m (data + 20) in
      let freebsd := Z.land (Z.shiftr midmag 16) 0xffff =? 0 in
      let start := if freebsd then u32 (entry - Z.land entry 0xff000000) else entry in
      let mid := u32 (page_up (start + text) + ld32 m (data + 8)) in
      let end_ := u32 (page_up mid + ld32 m (data + 12)) in
      let '(m', ok) := prep_segment ly map h m start mid end_ 4096 (u32 (4096 + (mid - start))) in
      Some (ok, (m', {| a_text := text; a_data := ld32 m (data + 8); a_bss := ld32 m (data + 12); a_entry := start; a_curaddr := 0;
                        a_segment := -1; a_loc := 0; a_skip := 0; a_toread := 0; a_freebsd := freebsd |})).
End aout.

Lemma mb_argument_quote s rest : mb_argument (mb_quote s ++ 32 :: rest) = s.
Proof.
  induction s as [|c s IH]; [reflexivity|]. cbn [mb_quote]. unfold mb_quoted.
  destruct (Z.eqb_spec c 32) as [->|H1]; [cbn; now rewrite IH|]. destruct (Z.eqb_spec c 92) as [->|H2]; [cbn; now rewrite IH|].
  destruct (Z.eqb_spec c 34) as [->|H3]; [cbn; now rewrite IH|]. cbn [orb app].
  assert (E : forall t, mb_argument (c :: t) = c :: mb_argument t).
  { intros t. cbn [mb_argument]. destruct c as [|p|p]; try reflexivity.
    do 7 (destruct p as [p|p|]; try reflexivity; try lia). }
  now rewrite E, IH.
Qed.

(** *** a.out images of whole pages, in blocks that divide a page *)

Section aout_stream.
Context (ly : layout) (F : Z -> Z) (bs : Z).
Let virt := phys_to_virt (virt_offset ly).
(** The bytes of text and data follow the page of the header, and are put one after the other at the entry. *)
Definition aout_size (a : aout_state) : Z := a_text a + a_data a.
Record aout_fits (a : aout_state) : Prop := {
  af_block : 0 < bs /\ 4096 mod bs = 0;
  af_pages : a_entry a mod 4096 = 0 /\ a_text a mod 4096 = 0 /\ a_data a mod 4096 = 0;
  af_range : 0 <= a_entry a /\ 0 <= a_text a /\ 0 <= a_data a /\ a_entry a + aout_size a < 4294967296 - 4096;
  af_virt : virt (a_entry a) + aout_size a < 4294967296;
}.
(** What of the file below the offset [at_] is in place. *)
Definition aout_loaded (a : aout_state) (m : mem) (at_ : Z) : Prop :=
  forall i, 0 <= i < aout_size a -> 4096 + i < at_ -> ld8 m (virt (a_entry a) + i) = F (4096 + i).
(** The state when the next byte of the file is at [at_]: in the header page, in the text, or in the data. *)
Definition aout_inv (m : mem) (a : aout_state) (at_ : Z) : Prop :=
  at_ mod bs = 0 /\ aout_loaded a m at_ /\
  ((at_ = 0 /\ a_segment a = -1) \/
   (0 < at_ /\ a_curaddr a = a_entry a + Z.max 0 (at_ - 4096) /\
    ((a_segment a = 0 /\ a_skip a = Z.max 0 (4096 - at_) /\ a_toread a = a_text a - Z.max 0 (at_ - 4096) /\ at_ <= 4096 + a_text a) \/
     (a_segment a = 1 /\ a_skip a = 0 /\ a_toread a = aout_size a - (at_ - 4096) /\ 4096 + a_text a <= at_ <= 4096 + aout_size a)))).
Definition same_aout (a a' : aout_state) : Prop :=
  a_text a' = a_text a /\ a_data a' = a_data a /\ a_bss a' = a_bss a /\ a_entry a' = a_entry a /\ a_freebsd a' = a_freebsd a.

Lemma page_up_page x : 0 <= x < 4294967296 - 4096 -> x mod 4096 = 0 -> page_up x = x.
Proof.
  intros Hx Hm. unfold page_up. rewrite u32_small by lia. change 4095 with (2 ^ 12 - 1) at 2. rewrite land_not32 by lia.
  unfold align_down. change (2 ^ 12) with 4096. Z.div_mod_to_equations. lia.
Qed.
Lemma virt_in a j : aout_fits a -> 0 <= j <= aout_size a -> virt (u32 (a_entry a + j)) = virt (a_entry a) + j.
Proof.
  intros [_ _ (R1 & R2 & R3 & R4) R5] Hj. rewrite u32_small by (unfold aout_size in *; lia). unfold virt, phys_to_virt in *.
  unfold aout_size in *. zmod.
Qed.
(** A block of [bs] bytes that is copied to its place. *)
Lemma loaded_more a m data at_ n : aout_fits a -> aout_loaded a m at_ -> 4096 <= at_ -> 0 <= n -> at_ + n <= 4096 + aout_size a ->
  (forall j, 0 <= j < n -> ld8 m (data + j) = F (at_ + j)) ->
  (data + n <= virt (a_entry a) \/ virt (a_entry a) + aout_size a <= data) ->
  aout_loaded a (memcpy m (virt (u32 (a_entry a + (at_ - 4096)))) data (Z.to_nat n)) (at_ + n).
Proof.
  intros Hf Hl Ha Hn Hs HF Hd i Hi Hlt. rewrite virt_in by (assumption || lia). rewrite ld8_memcpy, Z2Nat.id by lia.
  destruct (Z.leb_spec (virt (a_entry a) + (at_ - 4096)) (virt (a_entry a) + i)); cbn [andb].
  - destruct (Z.ltb_spec (virt (a_entry a) + i) (virt (a_entry a) + (at_ - 4096) + n)); [|lia].
    replace (data + (virt (a_entry a) + i - (virt (a_entry a) + (at_ - 4096)))) with (data + (i + 4096 - at_)) by lia.
    rewrite HF by lia. f_equal. lia.
  - apply Hl; lia.
Qed.

Lemma page_blocks x : 0 < bs -> 4096 mod bs = 0 -> x mod 4096 = 0 -> x mod bs = 0.
Proof.
  intros Hb H1 H2. apply Z.mod_divide in H1; [|lia]. apply Z.mod_divide in H2; [|lia]. apply Z.mod_divide; [lia|]. now apply (Z.divide_trans _ 4096).
Qed.
Lemma whole_block x y : 0 < bs -> x mod bs = 0 -> y mod bs = 0 -> y < x -> bs <= x - y.
Proof.
  intros Hb Hx Hy Hl. apply Z.mod_divide in Hx as (p & ->); [|lia]. apply Z.mod_divide in Hy as (q & ->); [|lia].
  assert (q < p) by nia. nia.
Qed.
(** The three things that may happen to a block: it is skipped, copied, or the segment is used up. *)
Lemma aout_skipped data len m a : 0 < len <= a_skip a -> len < 4294967296 -> a_segment a <> -1 ->
  aout_copy ly data len 0 m a = inr (m, set_pos (a_curaddr a) (a_segment a) (a_skip a - len) (a_toread a) a).
Proof.
  intros Hl Hb Hs. unfold aout_copy. rewrite (proj2 (Z.eqb_neq _ _) Hs), Z.sub_0_r, u32_small by lia.
  rewrite (proj2 (Z.eqb_neq (a_skip a) 0)), Z.geb_leb, (proj2 (Z.leb_le _ _)) by lia. reflexivity.
Qed.
Lemma aout_copied data len m a : a_skip a = 0 -> 0 < len <= a_toread a -> len < 4294967296 -> a_segment a <> -1 ->
  aout_copy ly data len 0 m a =
    inr (memcpy m (virt (a_curaddr a)) data (Z.to_nat len), set_pos (u32 (a_curaddr a + len)) (a_segment a) 0 (a_toread a - len) a).
Proof.
  intros Hk Hl Hb Hs. unfold aout_copy. rewrite (proj2 (Z.eqb_neq _ _) Hs), Hk. cbn [Z.eqb negb andb Z.add]. change (u32 0) with 0.
  rewrite Z.sub_0_r, u32_small, Z.add_0_r by lia. cbn [set_pos a_toread a_curaddr a_segment].
  rewrite (proj2 (Z.eqb_neq (a_toread a) 0)), Z.geb_leb, (proj2 (Z.leb_le _ _)) by lia. reflexivity.
Qed.
Lemma aout_done data len m a : a_skip a = 0 -> a_toread a = 0 -> a_segment a <> -1 ->
  aout_copy ly data len 0 m a = inl (0, m, set_pos (a_curaddr a) (a_segment a) 0 0 a).
Proof. intros Hk Ht Hs. unfold aout_copy. rewrite (proj2 (Z.eqb_neq _ _) Hs), Hk. cbn [set_pos a_toread]. rewrite Ht. reflexivity. Qed.

(** How the loop ends on a block at [at_]. *)
Definition aout_post (m : mem) (a : aout_state) (at_ len : Z) (r : option ((mem * aout_state) + (mem * aout_state))) : Prop :=
  match r with
  | Some (inl (m', a')) => same_aout a a' /\ aout_loaded a m' (at_ + len) /\ (len = bs -> aout_inv m' a' (at_ + len))
  | Some (inr (m', a')) => same_aout a a' /\ aout_loaded a m' (at_ + len) /\ 4096 + aout_size a <= at_
  | None => False
  end.
Section block.
Context (m : mem) (a : aout_state) (at_ data len : Z).
Context (Hf : aout_fits a) (Hat : at_ mod bs = 0) (Hl : aout_loaded a m at_) (Hlen : 0 < len <= bs).
Context (HF : forall j, 0 <= j < len -> ld8 m (data + j) = F (at_ + j)).
Context (Hd : data + len <= virt (a_entry a) \/ virt (a_entry a) + aout_size a <= data).
Lemma bs_small : 0 < bs <= 4096.
Proof. destruct Hf as [(H1 & H2) _ _ _]. split; [exact H1|]. pose proof (whole_block 4096 0 H1 H2 ltac:(apply Z.mod_0_l; lia) ltac:(lia)). lia. Qed.
Lemma next_mod : len = bs -> (at_ + len) mod bs = 0.
Proof. intros ->. pose proof bs_small. rewrite Z.add_mod, Z.mod_same, Hat, Z.add_0_r by lia. apply Z.mod_0_l. lia. Qed.
Lemma post_copy fuel a1 : same_aout a a1 -> a_skip a1 = 0 -> a_segment a1 = 0 \/ a_segment a1 = 1 -> 4096 <= at_ ->
  a_curaddr a1 = a_entry a + (at_ - 4096) ->
  a_toread a1 = (if a_segment a1 =? 0 then 4096 + a_text a - at_ else 4096 + aout_size a - at_) -> 0 < a_toread a1 ->
  (a_segment a1 = 1 -> 4096 + a_text a <= at_) -> aout_post m a at_ len (aout_loop ly (S fuel) data len 0 m a1).
Proof.
  intros Hsa Hk Hseg Ha Hc Ht Hp Hs1. pose proof bs_small as Hb. destruct Hf as [(_ & B) (P1 & P2 & P3) (R1 & R2 & R3 & R4) R5].
  assert (Hm : forall x, x mod 4096 = 0 -> x mod bs = 0) by (intros x; now apply page_blocks).
  assert (Hto : len <= a_toread a1 /\ at_ + len <= 4096 + aout_size a).
  { unfold aout_size in *. destruct Hseg as [E|E]; rewrite E in Ht; cbn [Z.eqb] in Ht;
      [pose proof (whole_block (4096 + a_text a) at_ ltac:(lia) ltac:(apply Hm; Z.div_mod_to_equations; lia) Hat ltac:(lia))
      |pose proof (whole_block (4096 + (a_text a + a_data a)) at_ ltac:(lia) ltac:(apply Hm; Z.div_mod_to_equations; lia) Hat ltac:(lia))]; lia. }
  cbn [aout_loop]. rewrite aout_copied by lia. cbn [aout_post]. rewrite Hc.
  assert (Hld : aout_loaded a (memcpy m (virt (a_entry a + (at_ - 4096))) data (Z.to_nat len)) (at_ + len)).
  { rewrite <- (u32_small (a_entry a + (at_ - 4096))) by (unfold aout_size in *; lia). apply loaded_more; try assumption; lia. }
  split; [exact Hsa|]. split; [exact Hld|]. intros E. split; [now apply next_mod|]. split.
  - intros i Hi Hx. destruct Hsa as (S1 & S2 & S3 & S4 & S5). cbn [set_pos a_entry]. rewrite S4. apply Hld; [|exact Hx].
    unfold aout_size in *. cbn [set_pos a_text a_data] in Hi. rewrite S1, S2 in Hi. exact Hi.
  - right. destruct Hsa as (S1 & S2 & S3 & S4 & S5). unfold aout_size in *. cbn [set_pos a_entry a_curaddr a_segment a_skip a_toread a_text a_data]. rewrite S1, S2, S4.
    split; [lia|]. split; [rewrite u32_small by lia; lia|]. destruct Hseg as [E2|E2]; rewrite E2 in *; cbn [Z.eqb] in Ht; [left|right]; repeat split; lia.
Qed.
Lemma post_start a1 : same_aout a a1 -> a_curaddr a1 = a_entry a + aout_size a -> 4096 + aout_size a <= at_ -> 0 <= a_bss a ->
  a_segment a1 = 1 -> aout_next ly m a1 = inr (memset m (virt (a_entry a + aout_size a)) 0 (Z.to_nat (a_bss a)), set_pos (a_entry a + aout_size a) 2 0 0 a1) /\
  aout_loaded a (memset m (virt (a_entry a + aout_size a)) 0 (Z.to_nat (a_bss a))) (at_ + len).
Proof.
  intros (S1 & S2 & S3 & S4 & S5) Hc Hs Hb Hg. destruct Hf as [_ (P1 & P2 & P3) (R1 & R2 & R3 & R4) R5]. unfold aout_next. rewrite Hg. cbn [Z.add Pos.add Z.eqb Pos.eqb].
  rewrite Hc, page_up_page by (unfold aout_size in *; try lia; Z.div_mod_to_equations; lia). rewrite S3. split; [reflexivity|].
  intros i Hi Hx. rewrite <- (u32_small (a_entry a + aout_size a)), virt_in by (assumption || (unfold aout_size in *; lia)).
  rewrite ld8_memset_out by lia. apply Hl; lia.
Qed.
Lemma aout_post_all : aout_inv m a at_ -> 0 <= a_bss a -> aout_post m a at_ len (aout_loop ly 4 data len 0 m a).
Proof.
  intros (_ & _ & Hi) Hb. pose proof bs_small as Hbs. destruct Hf as [(_ & B) (P1 & P2 & P3) (R1 & R2 & R3 & R4) R5].
  assert (Hsame : same_aout a a) by now repeat split.
  destruct Hi as [(H0 & Hs)|(Hp & Hc & [(Hs & Hk & Ht & Hx)|(Hs & Hk & Ht & Hx)])].
  - (* the first block: the header is skipped *)
    cbn [aout_loop]. unfold aout_copy at 1. rewrite Hs, Z.eqb_refl. unfold aout_next. rewrite Hs. change (-1 + 1 =? 0) with true. cbv beta iota.
    destruct (Z.ltb_spec 0 len); [|lia]. change (-1 + 1) with 0. rewrite aout_skipped by (cbn [set_pos a_skip a_segment]; lia).
    split; [now repeat split|]. split; [intros i Hi Hx; lia|]. intros E. split; [now apply next_mod|]. split; [intros i Hi Hx; lia|].
    right. cbn [set_pos a_curaddr a_segment a_skip a_toread a_text a_entry]. split; [lia|]. split; [lia|]. left. repeat split; lia.
  - destruct (Z.lt_ge_cases at_ 4096) as [Hlt|Hge].
    + pose proof (whole_block 4096 at_ ltac:(lia) B Hat Hlt). cbn [aout_loop]. rewrite aout_skipped by (rewrite ?Hs; lia).
      split; [now repeat split|]. split; [intros i Hi Hy; lia|]. intros E. split; [now apply next_mod|]. split; [intros i Hi Hy; lia|].
      right. cbn [set_pos a_curaddr a_segment a_skip a_toread a_text a_entry]. split; [lia|]. split; [lia|]. left. repeat split; lia.
    + rewrite !Z.max_r in * by lia. replace (Z.max 0 (4096 - at_)) with 0 in Hk by lia. destruct (Z.eq_dec (a_toread a) 0) as [E0|E0].
      * (* the text is complete *)
        remember 3%nat as three. cbn [aout_loop]. subst three. rewrite aout_done by (rewrite ?Hs; lia). unfold aout_next at 1. cbn [set_pos a_segment]. rewrite Hs. cbn [Z.add Z.eqb Pos.eqb].
        cbn [set_pos a_curaddr]. rewrite Hc, page_up_page by (unfold aout_size in *; try lia; Z.div_mod_to_equations; lia). rewrite Z.sub_diag. change (u32 0) with 0.
        destruct (Z.ltb_spec 0 len); [|lia]. set (a1 := set_pos _ 1 0 _ _).
        destruct (Z.eq_dec (a_data a) 0) as [Ed|Ed].
        -- remember 2%nat as two. cbn [aout_loop]. subst two. rewrite aout_done by (cbn; try lia; exact Ed).
           destruct (post_start (set_pos (a_curaddr a1) (a_segment a1) 0 0 a1)) as (-> & Hld); [now repeat split|cbn; unfold aout_size; lia|unfold aout_size; lia|exact Hb|reflexivity|].
           split; [now repeat split|]. split; [exact Hld|unfold aout_size; lia].
        -- subst a1. apply post_copy; cbn [set_pos a_segment a_skip a_curaddr a_toread a_data Z.eqb Pos.eqb]; unfold aout_size; try lia; now repeat split.
      * apply post_copy; try assumption; try lia; rewrite ?Hs; cbn [Z.eqb]; lia.
  - rewrite !Z.max_r in * by lia. destruct (Z.eq_dec (a_toread a) 0) as [E0|E0].
    + remember 3%nat as three. cbn [aout_loop]. subst three. rewrite aout_done by (rewrite ?Hs; lia).
      destruct (post_start (set_pos (a_curaddr a) (a_segment a) 0 0 a)) as (-> & Hld); [now repeat split|cbn; unfold aout_size in *; lia|lia|exact Hb|exact Hs|].
      split; [now repeat split|]. split; [exact Hld|lia].
    + apply post_copy; try assumption; try lia; rewrite ?Hs; cbn [Z.eqb Pos.eqb]; lia.
Qed.
End block.
End aout_stream.

(** ** The parameters of an ELF image ([prepare_boot_params] of [src/src/arch/i386/core/elf.c]) *)

Definition ELF_BHDR_MAGIC : Z := 0x0E1FB007.
(** [EB_PARAM_NOTE], with the NUL. *)
Definition EB_PARAM_NOTE : list Z := [69; 116; 104; 101; 114; 98; 111; 111; 116; 0].
Definition NAME : list Z := EB_PARAM_NOTE.
Definition FIRMWARE : list Z := [80; 67; 66; 73; 79; 83; 0].
Definition sizeof_meminfo : nat := 652.
(** A note as [struct elf_notes] has it: the three fields of its header, the array for the name with what is copied into it, and
    the array for the descriptor with what is copied into that. *)
Record elf_note := { nt_namesz : Z; nt_descsz : Z; nt_type : Z; nt_name_room : Z; nt_name : list Z; nt_desc_room : Z; nt_desc : list Z }.
(** The macro [SZ], on a size. *)
Definition SZ (n : Z) : Z := align_down (n + 3) 4.
Definition sizeof (l : list Z) : Z := Z.of_nat (length l).
Definition nt_size (x : elf_note) : Z := 12 + nt_name_room x + nt_desc_room x.
Definition put_note (p : Z) (x : elf_note) (m : mem) : mem :=
  let m := put_fields p [F32 0 (nt_namesz x); F32 4 (nt_descsz x); F32 8 (nt_type x)] m in
  stn (stn m (p + 12) (nt_name x)) (p + 12 + nt_name_room x) (nt_desc x).
Fixpoint put_notes (p : Z) (l : list elf_note) (m : mem) : mem :=
  match l with
  | [] => m
  | x :: l => put_notes (p + nt_size x) l (put_note p x m)
  end.
Definition notes_size (l : list elf_note) : Z := fold_right (fun x s => nt_size x + s) 0 l.
Definition le32 (v : Z) : list Z := [u8 v; u8 (v / 256); u8 (v / 65536); u8 (v / 65536 / 256)].
(** [EB_BOOTP_DATA] and the other types of [src/src/include/elf_boot.h]. *)
Definition EB_BOOTP_DATA : Z := 5.
Definition EB_HEADER : Z := 6.
Definition EB_I386_MEMMAP : Z := 8.
Definition EBN_FIRMWARE_TYPE : Z := 1.
Definition EBN_BOOTLOADER_NAME : Z := 2.
Definition EBN_BOOTLOADER_VERSION : Z := 3.
Definition EBN_COMMAND_LINE : Z := 4.
Definition EBN_LOADED_IMAGE : Z := 6.
(** The members [nf1] to [nv5]: three notes of Etherboot's own, of a fixed size, and five standard ones. *)
Definition nf_note (type room : Z) (desc : list Z) : elf_note :=
  {| nt_namesz := sizeof EB_PARAM_NOTE; nt_descsz := room; nt_type := type;
     nt_name_room := SZ (sizeof EB_PARAM_NOTE); nt_name := EB_PARAM_NOTE; nt_desc_room := room; nt_desc := desc |}.
Definition nv_note (type size room : Z) (desc : list Z) : elf_note :=
  {| nt_namesz := 0; nt_descsz := size; nt_type := type; nt_name_room := 0; nt_name := []; nt_desc_room := room; nt_desc := desc |}.
Definition boot_notes (voff bootp header meminfo : Z) (version : list Z) (m : mem) : list elf_note :=
  [nf_note EB_BOOTP_DATA 4 (le32 (virt_to_phys voff bootp));
   nf_note EB_HEADER 4 (le32 (virt_to_phys voff header));
   nf_note EB_I386_MEMMAP (Z.of_nat sizeof_meminfo) (ldn m meminfo sizeof_meminfo);
   nv_note EBN_BOOTLOADER_NAME (sizeof NAME) (SZ (sizeof NAME)) NAME;
   nv_note EBN_BOOTLOADER_VERSION (sizeof version) (SZ (sizeof version)) version;
   nv_note EBN_FIRMWARE_TYPE (sizeof FIRMWARE) (SZ (sizeof FIRMWARE)) FIRMWARE;
   nv_note EBN_LOADED_IMAGE 128 128 (ldn m KERNEL_BUF 128);
   nv_note EBN_COMMAND_LINE 1 (SZ 1) [0]].
(** [notes] is the address of the static structure; the checksum is over all of it. *)
Definition put_boot_params (notes : Z) (l : list elf_note) (m : mem) : mem :=
  let size := 12 + notes_size l in
  let m := memset m notes 0 (Z.to_nat size) in
  let m := put_fields notes [F32 0 ELF_BHDR_MAGIC; F32 4 size; F16 8 0; F16 10 (Z.of_nat (length l))] m in
  let m := put_notes (notes + 12) l m in
  let sum := ipchksum m notes (Z.to_nat size) in
  st16 m (notes + 8) (if sum =? 0 then 0xffff else sum).
Definition prepare_boot_params (voff notes bootp header meminfo : Z) (version : list Z) (m : mem) : mem :=
  put_boot_params notes (boot_notes voff bootp header meminfo version m) m.

(** How the image that is started reads them, as the format of ELF notes says: a note begins with the lengths of its name and of
    its descriptor and its type; then come the name and the descriptor, each filled up to a multiple of four bytes. *)
Definition up4 (n : Z) : Z := 4 * ((n + 3) / 4).
Fixpoint read_notes (fuel : nat) (m : mem) (p end_ : Z) : option (list (list Z * Z * list Z)) :=
  match fuel with
  | O => None
  | S n =>
      if p =? end_ then Some []
      else if p + 12 >? end_ then None
      else
        let d := p + 12 + up4 (ld32 m p) in
        let* l := read_notes n m (d + up4 (ld32 m (p + 4))) end_ in
        Some ((ldn m (p + 12) (Z.to_nat (ld32 m p)), ld32 m (p + 8), ldn m d (Z.to_nat (ld32 m (p + 4)))) :: l)
  end.

Lemma SZ_up4 n : SZ n = up4 n.
Proof. unfold SZ, up4, align_down. Z.div_mod_to_equations. lia. Qed.
Lemma up4_bounds n : 0 <= n -> n <= up4 n <= n + 3.
Proof. intros Hn. unfold up4. Z.div_mod_to_equations. lia. Qed.
(** A note that fits its arrays and says so. *)
Definition note_ok (x : elf_note) : Prop :=
  0 <= nt_type x < 4294967296 /\ Z.of_nat (length (nt_name x)) < 4294967296 /\ Z.of_nat (length (nt_desc x)) < 4294967296 /\
  Forall (fun b => 0 <= b < 256) (nt_name x) /\ Forall (fun b => 0 <= b < 256) (nt_desc x) /\
  nt_namesz x = Z.of_nat (length (nt_name x)) /\ nt_descsz x = Z.of_nat (length (nt_desc x)) /\
  nt_name_room x = up4 (nt_namesz x) /\ nt_desc_room x = up4 (nt_descsz x).
Lemma note_rooms x : note_ok x ->
  Z.of_nat (length (nt_name x)) <= nt_name_room x <= Z.of_nat (length (nt_name x)) + 3 /\
  Z.of_nat (length (nt_desc x)) <= nt_desc_room x <= Z.of_nat (length (nt_desc x)) + 3.
Proof. intros (_ & _ & _ & _ & _ & E1 & E2 & -> & ->). rewrite E1, E2. split; apply up4_bounds; lia. Qed.
Lemma nt_size_pos x : note_ok x -> 12 <= nt_size x.
Proof. intros H. unfold nt_size. pose proof (note_rooms x H). lia. Qed.
Lemma notes_size_pos l : Forall note_ok l -> 0 <= notes_size l.
Proof. induction 1 as [|x l Hx Hl IH]; cbn; [lia|]. fold (notes_size l). pose proof (nt_size_pos x Hx). lia. Qed.
(** A note is written inside its own bytes. *)
Lemma ld8_put_note p x m a : note_ok x -> a < p \/ p + nt_size x <= a -> ld8 (put_note p x m) a = ld8 m a.
Proof.
  intros Hx Ha. pose proof (note_rooms x Hx). unfold put_note, nt_size in *. rewrite !ld8_stn_out by lia.
  apply (ld8_put_fields _ _ 12); [repeat constructor; cbn; lia|lia].
Qed.
Lemma ld8_put_notes l : forall p m a, Forall note_ok l -> a < p \/ p + notes_size l <= a -> ld8 (put_notes p l m) a = ld8 m a.
Proof.
  induction l as [|x l IH]; intros p m a Hl Ha; cbn [put_notes]; [reflexivity|]. inversion_clear Hl as [|x0 l0 Hx Hl'].
  cbn [notes_size fold_right] in Ha. fold (notes_size l) in Ha.
  pose proof (nt_size_pos x Hx). pose proof (notes_size_pos l Hl'). rewrite IH, ld8_put_note by (assumption || lia). reflexivity.
Qed.
(** ... and can be read back there. *)
Lemma put_note_reads p x m : note_ok x ->
  let m' := put_note p x m in let n := Z.of_nat (length (nt_name x)) in
  ld32 m' p = n /\ ld32 m' (p + 4) = Z.of_nat (length (nt_desc x)) /\ ld32 m' (p + 8) = nt_type x /\
  ldn m' (p + 12) (length (nt_name x)) = nt_name x /\ ldn m' (p + 12 + up4 n) (length (nt_desc x)) = nt_desc x.
Proof.
  intros Hx m' n. pose proof (note_rooms x Hx) as Hr. destruct Hx as (Ht & Hn & Hd & Hc & Hb & En & Ed & Er & _).
  assert (Hs : up4 n = nt_name_room x) by (unfold n; congruence). rewrite Hs.
  unfold m', put_note. rewrite En, Ed. cbn [put_fields fold_left put_field]. rewrite !Z.add_0_r.
  assert (Hw : forall k v a, a + 4 <= k -> ld32 (stn (stn v k (nt_name x)) (k + nt_name_room x) (nt_desc x)) a = ld32 v a).
  { intros k v a Ha. apply ld32_ext. intros y Hy. rewrite !ld8_stn_out by lia. reflexivity. }
  split; [|split; [|split; [|split]]].
  - rewrite Hw by lia. rewrite !ld32_st32_ne, ld32_st32_eq, u32_small by lia. reflexivity.
  - rewrite Hw by lia. rewrite ld32_st32_ne, ld32_st32_eq, u32_small by lia. reflexivity.
  - rewrite Hw by lia. rewrite ld32_st32_eq, u32_small by lia. reflexivity.
  - etransitivity; [apply ldn_ext; intros y Hy; apply ld8_stn_out; lia|]. rewrite ldn_stn. now apply map_u8_bytes.
  - rewrite ldn_stn. now apply map_u8_bytes.
Qed.
Definition note_read (x : elf_note) : list Z * Z * list Z := (nt_name x, nt_type x, nt_desc x).
Lemma read_put_notes l : forall fuel p m m', Forall note_ok l -> (length l < fuel)%nat ->
  (forall a, p <= a < p + notes_size l -> ld8 m' a = ld8 (put_notes p l m) a) ->
  read_notes fuel m' p (p + notes_size l) = Some (map note_read l).
Proof.
  induction l as [|x l IH]; intros fuel p m m' Hok Hf Hm; (destruct fuel as [|fuel]; [cbn in Hf; lia|]); cbn [read_notes].
  - cbn. now rewrite Z.add_0_r, Z.eqb_refl.
  - inversion Hok as [|x0 l0 Hx Hl]; subst. destruct (put_note_reads p x m Hx) as (R1 & R2 & R3 & R4 & R5).
    cbn [notes_size fold_right] in *. fold (notes_size l) in *. pose proof (nt_size_pos x Hx) as Hp. pose proof (notes_size_pos l Hl) as Hq.
    assert (Hh : forall a, p <= a < p + nt_size x -> ld8 m' a = ld8 (put_note p x m) a).
    { intros a Ha. rewrite Hm by lia. cbn [put_notes]. apply ld8_put_notes; [exact Hl|lia]. }
    pose proof (note_rooms x Hx) as HR. destruct Hx as (_ & _ & _ & _ & _ & En & Ed & Er & Es).
    assert (L1 : ld32 m' p = Z.of_nat (length (nt_name x))) by (rewrite <- R1; apply ld32_ext; intros y Hy; apply Hh; lia).
    assert (L2 : ld32 m' (p + 4) = Z.of_nat (length (nt_desc x))) by (rewrite <- R2; apply ld32_ext; intros y Hy; apply Hh; lia).
    assert (L3 : ld32 m' (p + 8) = nt_type x) by (rewrite <- R3; apply ld32_ext; intros y Hy; apply Hh; lia).
    rewrite (proj2 (Z.eqb_neq p _)) by lia. rewrite Z.gtb_ltb. destruct (Z.ltb_spec (p + (nt_size x + notes_size l)) (p + 12)); [lia|].
    rewrite L1, L2, L3, !Nat2Z.id, <- En, <- Ed, <- Er, <- Es.
    replace (p + 12 + nt_name_room x + nt_desc_room x) with (p + nt_size x) by (unfold nt_size; lia).
    rewrite Z.add_assoc, (IH fuel (p + nt_size x) (put_note p x m) m'); [|exact Hl|cbn in Hf; lia|intros a Ha; apply Hm; lia].
    assert (A1 : ldn m' (p + 12) (length (nt_name x)) = nt_name x)
      by (etransitivity; [|exact R4]; apply ldn_ext; intros y Hy; apply Hh; unfold nt_size; lia).
    rewrite <- En, <- Er in R5.
    assert (A2 : ldn m' (p + 12 + nt_name_room x) (length (nt_desc x)) = nt_desc x)
      by (etransitivity; [|exact R5]; apply ldn_ext; intros y Hy; apply Hh; unfold nt_size; lia).
    now rewrite A1, A2.
Qed.

(** The checksum, with 0 stored as its other form. *)
Lemma stored_sum_verifies m p n o : 0 <= o -> o mod 2 = 0 -> o + 2 <= Z.of_nat n -> ld16 m (p + o) = 0 ->
  let sum := ipchksum m p n in ipchksum (st16 m (p + o) (if sum =? 0 then 0xffff else sum)) p n = 0.
Proof.
  intros Ho Hp Hn Hz sum. destruct (Z.eqb_spec sum 0) as [E|E]; [|now apply ipchksum_verifies].
  rewrite ipchksum_spec, wsum_st16 by (assumption || lia). unfold sum in E. rewrite ipchksum_spec in E.
  assert (Hf : fold16 (wsum false (ldn m p n)) = 65535) by lia. pose proof (wsum_nonneg false _ (Forall_ldn m p n)) as H0.
  destruct (Z.eq_dec (wsum false (ldn m p n)) 0) as [Ez|Ez]; [rewrite Ez in Hf; discriminate|].
  destruct (fold16_decomp (wsum false (ldn m p n))) as (k & Ek & _); [lia|]. rewrite (fold16_unique _ 65535 (k + 1)); lia.
Qed.
Lemma put_boot_params_reads notes l m : Forall note_ok l -> notes_size l < 4294967296 - 12 -> Z.of_nat (length l) < 65536 ->
  let m' := put_boot_params notes l m in
  ld32 m' notes = ELF_BHDR_MAGIC /\ ld32 m' (notes + 4) = 12 + notes_size l /\ ld16 m' (notes + 10) = Z.of_nat (length l) /\
  ld16 m' (notes + 8) <> 0 /\ ipchksum m' notes (Z.to_nat (ld32 m' (notes + 4))) = 0 /\
  read_notes (S (length l)) m' (notes + 12) (notes + ld32 m' (notes + 4)) = Some (map note_read l).
Proof.
  intros Hok Hs Hn m'. pose proof (notes_size_pos l Hok) as Hp. unfold m', put_boot_params. set (size := 12 + notes_size l) in *.
  set (m0 := memset m notes 0 (Z.to_nat size)). set (m1 := put_fields notes _ m0). set (m2 := put_notes (notes + 12) l m1). set (sum := ipchksum m2 notes (Z.to_nat size)).
  pose proof (ipchksum_range m2 notes (Z.to_nat size)) as Hr. fold sum in Hr. set (sum' := if sum =? 0 then 65535 else sum).
  assert (Hr' : 0 < sum' < 65536) by (unfold sum'; destruct (Z.eqb_spec sum 0); lia).
  assert (H2 : forall a, a < notes + 12 -> ld8 m2 a = ld8 m1 a) by (intros a Ha; apply ld8_put_notes; [exact Hok|lia]).
  assert (F0 : ld32 m1 notes = ELF_BHDR_MAGIC /\ ld32 m1 (notes + 4) = size /\ ld16 m1 (notes + 8) = 0 /\ ld16 m1 (notes + 10) = Z.of_nat (length l)).
  { unfold m1. cbn [put_fields fold_left put_field]. rewrite !Z.add_0_r. repeat split.
    - now rewrite !ld32_st16_ne, ld32_st32_ne, ld32_st32_eq, u32_small by (unfold ELF_BHDR_MAGIC; lia).
    - now rewrite !ld32_st16_ne, ld32_st32_eq, u32_small by lia.
    - now rewrite ld16_st16_ne, ld16_st16_eq by lia.
    - now rewrite ld16_st16_eq, u16_small by lia. }
  destruct F0 as (F0 & F1 & F2 & F3).
  assert (G1 : ld32 (st16 m2 (notes + 8) sum') (notes + 4) = size).
  { rewrite ld32_st16_ne by lia. rewrite <- F1. apply ld32_ext. intros a Ha. apply H2. lia. }
  rewrite G1. split; [rewrite ld32_st16_ne by lia; rewrite <- F0; apply ld32_ext; intros a Ha; apply H2; lia|]. split; [reflexivity|].
  split; [rewrite ld16_st16_ne by lia; rewrite <- F3; apply ld16_ext; intros a Ha; apply H2; lia|].
  split; [rewrite ld16_st16_eq, u16_small; lia|]. split.
  - apply (stored_sum_verifies m2 notes (Z.to_nat size) 8); try reflexivity; try lia. rewrite <- F2. apply ld16_ext. intros a Ha. apply H2. lia.
  - replace (notes + size) with (notes + 12 + notes_size l) by lia. apply (read_put_notes l _ _ m1); [exact Hok|lia|].
    intros a Ha. apply ld8_st16_ne. lia.
Qed.

(** ** PXE programs ([src/src/arch/i386/core/pxe_loader.c]) *)

Section pxe.
Context `{E : Env} `{P : Platform} (fuel : nat) (start_nbp : Z -> Z -> Z -> Z -> PX Z).
Definition pxe_layout : layout := {| virt_offset := vo; text_phys := virt_to_phys vo text_; end_phys := virt_to_phys vo end_ |}.
(** [pxe_load_offset] is the static variable; a download that returns gives it back. *)
Definition pxe_probe : Z := 0.
Definition pxe_segment (block_address len pxe_load_offset : Z) : PX bool := fun s =>
  let '(m, ok) := prep_segment pxe_layout (memory_map (fw s)) (hp s) (pmem s) block_address (u32 (block_address + len)) (u32 (block_address + len))
                    pxe_load_offset (u32 (pxe_load_offset + len)) in
  Some (Ret ok, set_pmem m s).
Definition pxe_start : PX Z :=
  install_pxe_stack fuel None ;~
  ok <~ ensure_pxe_state fuel READY ;;
  nbp_exit <~ (if istrue ok then xstartpxe start_nbp else pret STATUS_SUCCESS) ;;
  (if negb (nbp_exit =? STATUS_KEEP_UNDI) && negb (nbp_exit =? STATUS_KEEP_ALL) then remove_pxe_stack fuel else pret tt) ;~
  pjmp 4.
Definition pxe_download (data len : Z) (eof : bool) (pxe_load_offset : Z) : PX Z :=
  let block_address := u32 (PXE_LOAD_ADDRESS + pxe_load_offset) in
  ok <~ pxe_segment block_address len pxe_load_offset ;;
  if negb ok then pjmp (-2)
  else
    pmem_do (fun m => memcpy m (phys_to_virt vo block_address) data (Z.to_nat len)) ;~
    if negb eof then pret (u32 (pxe_load_offset + len)) else pxe_start.

(** The program as far as it was received. *)
Definition nbp_loaded (F : Z -> Z) (off : Z) (s : psys) : Prop :=
  forall i, 0 <= i < off -> ld8 (pmem s) (phys_to_virt vo PXE_LOAD_ADDRESS + i) = F i.
Lemma pxe_download_block F data len off s : 0 <= off -> 0 < len -> PXE_LOAD_ADDRESS + off + len < 4294967296 ->
  phys_to_virt vo PXE_LOAD_ADDRESS + off + len < 4294967296 -> nbp_loaded F off s ->
  (forall j, 0 <= j < len -> ld8 (pmem s) (data + j) = F (off + j)) ->
  (data + len <= phys_to_virt vo PXE_LOAD_ADDRESS \/ phys_to_virt vo PXE_LOAD_ADDRESS + off + len <= data) ->
  match pxe_download data len false off s with
  | Some (Ret off', s') => off' = off + len /\ nbp_loaded F off' s' /\ same_stack s s'
  | Some (Jmp j, s') => j = -2 /\ same_stack s s'
  | None => False
  end.
Proof.
  intros Ho Hl Hr Hv Hld HF Hd. unfold pxe_download, pxe_segment, prep_segment, pbind, pmem_do, pmod, pret, pjmp.
  assert (Hp0 : PXE_LOAD_ADDRESS = 0x7c00) by reflexivity. rewrite !(u32_small (PXE_LOAD_ADDRESS + off)), !(u32_small (PXE_LOAD_ADDRESS + off + len)), (u32_small (off + len)) by lia.
  rewrite !Z.gtb_ltb, Z.ltb_irrefl. destruct (_ && _); [split; [reflexivity|now repeat split]|]. destruct (_ && _); [split; [reflexivity|now repeat split]|].
  destruct (negb (existsb _ _)); [split; [reflexivity|now repeat split]|]. cbn [negb]. rewrite pmem_set. split; [reflexivity|]. split; [|now repeat split].
  intros i Hi. rewrite pmem_set.
  replace (phys_to_virt vo (PXE_LOAD_ADDRESS + off)) with (phys_to_virt vo PXE_LOAD_ADDRESS + off) by (unfold phys_to_virt in *; zmod).
  rewrite ld8_memcpy, Z2Nat.id by lia.
  destruct (Z.leb_spec (phys_to_virt vo PXE_LOAD_ADDRESS + off) (phys_to_virt vo PXE_LOAD_ADDRESS + i)); cbn [andb]; [|apply Hld; lia].
  destruct (Z.ltb_spec (phys_to_virt vo PXE_LOAD_ADDRESS + i) (phys_to_virt vo PXE_LOAD_ADDRESS + off + len)); [|lia].
  replace (data + (phys_to_virt vo PXE_LOAD_ADDRESS + i - (phys_to_virt vo PXE_LOAD_ADDRESS + off))) with (data + (i - off)) by lia.
  rewrite HF by lia. f_equal. lia.
Qed.
(** A program that was started never comes back to the download: control goes to the next device. *)
Lemma jumps_bind {A B} (c : PX A) (k : A -> PX B) : (forall a t r t', k a t = Some (r, t') -> exists j, r = Jmp j) ->
  forall s r s', pbind c k s = Some (r, s') -> exists j, r = Jmp j.
Proof. intros Hk s r s'. unfold pbind. destruct (c s) as [[[a|j] t]|]; [apply Hk|intros [= <- _]; eauto|discriminate]. Qed.
Lemma pxe_start_jumps s r s' : pxe_start s = Some (r, s') -> exists j, r = Jmp j.
Proof. revert s r s'. repeat (apply jumps_bind; intros ?). intros t r t' [= <- _]. eauto. Qed.
End pxe.

(** ** Properties *)

(** C21: The search for a Multiboot header, which takes the image in blocks of any sizes, finds what a search of the whole image finds:
    the first offset divisible by 4, with the header in the first 8192 bytes, at which three words begin with the magic
    number and sum to zero.  The buffer then holds the header; an image that asks for features Etherboot does not have
    makes it give up. *)
Theorem multiboot_search F blocks st :
  length (mbbuffer st) = 12%nat -> image_blocks F 0 blocks ->
  let '(r, st') := peek_blocks blocks (multiboot_init st) in
  match find_header F (Z.min (total blocks) 8192) with
  | Some o => mbheader st' = true /\ mb_word st' 0 = word_at F o /\ mb_word st' 4 = word_at F (o + 4) /\ mb_word st' 8 = word_at F (o + 8) /\
      r = (if Z.land (word_at F (o + 4)) 0xfffc =? 0 then None else Some (-2))
  | None => mbheader st' = false /\ r = None
  end.
Proof.
  intros Hl Hc. apply (peek_blocks_spec F blocks 0 (multiboot_init st)); [now apply peeked_init|lia|exact Hc|discriminate].
Qed.

(** C22: An a.out image whose segments are whole pages, received in blocks of a size that divides a page, is loaded: each block leaves the
    text and data so far at the entry address, one after the other, and behind them, or at the end of the file, the
    kernel is started when it is FreeBSD. *)
Theorem aout_streams ly F bs m a at_ data len eof :
  aout_fits ly bs a -> aout_inv ly F bs m a at_ -> 0 <= a_bss a -> 0 < len <= bs -> (eof = false -> len = bs) ->
  (forall j, 0 <= j < len -> ld8 m (data + j) = F (at_ + j)) ->
  data + len <= phys_to_virt (virt_offset ly) (a_entry a) \/ phys_to_virt (virt_offset ly) (a_entry a) + aout_size a <= data ->
  match aout_download ly data len eof (m, a) with
  | Some (DlReturn n, (m', a')) => n = 0 /\ eof = false /\ same_aout a a' /\ aout_inv ly F bs m' a' (at_ + len)
  | Some (o, (m', a')) =>
      o = (if a_freebsd a then DlBoot AOUT_START (a_entry a) else DlLongjmp (-2)) /\
      (eof = true \/ 4096 + aout_size a <= at_) /\ aout_loaded ly F a m' (at_ + len)
  | None => False
  end.
Proof.
  intros Hf Hi Hb Hlen He HF Hd. pose proof Hi as (Hat & Hl & _).
  pose proof (aout_post_all ly F bs m a at_ data len Hf Hat Hl Hlen HF Hd Hi Hb) as Hp.
  unfold aout_download, aout_start. cbn [fst snd]. destruct (aout_loop ly 4 data len 0 m a) as [[[m' a']|[m' a']]|]; [| |exact Hp].
  - destruct Hp as ((S1 & S2 & S3 & S4 & S5) & Hld & Hn). destruct eof; cbn [a_freebsd a_entry].
    + rewrite S4, S5. destruct (a_freebsd a); (split; [reflexivity|]; split; [now left|exact Hld]).
    + split; [reflexivity|]. split; [reflexivity|]. split; [now repeat split|]. exact (Hn (He eq_refl)).
  - destruct Hp as ((S1 & S2 & S3 & S4 & S5) & Hld & Hn). rewrite S4, S5.
    destruct (a_freebsd a); (split; [reflexivity|]; split; [now right|exact Hld]).
Qed.

(** The notes of Etherboot fit their arrays. *)
Lemma EB_PARAM_NOTE_bytes : Forall (fun b => 0 <= b < 256) EB_PARAM_NOTE.
Proof. unfold EB_PARAM_NOTE. repeat (constructor; [lia|]). constructor. Qed.
Lemma FIRMWARE_bytes : Forall (fun b => 0 <= b < 256) FIRMWARE.
Proof. unfold FIRMWARE. repeat (constructor; [lia|]). constructor. Qed.
Lemma le32_bytes v : Forall (fun b => 0 <= b < 256) (le32 v).
Proof. unfold le32. repeat (constructor; [apply u8_range|]). constructor. Qed.
Lemma nf_note_ok t room desc : 0 <= t < 4294967296 -> room < 4294967296 -> room = Z.of_nat (length desc) -> up4 room = room ->
  Forall (fun b => 0 <= b < 256) desc -> note_ok (nf_note t room desc).
Proof.
  intros Ht Hr He Hu Hd. unfold note_ok, nf_note, sizeof. cbn [nt_type nt_name nt_desc nt_namesz nt_descsz nt_name_room nt_desc_room].
  rewrite SZ_up4. rewrite <- He, Hu. repeat (split; [first [assumption | lia | reflexivity | apply EB_PARAM_NOTE_bytes]|]); reflexivity.
Qed.
Lemma nv_note_ok t size room desc : 0 <= t < 4294967296 -> size < 4294967296 -> size = Z.of_nat (length desc) -> room = up4 size ->
  Forall (fun b => 0 <= b < 256) desc -> note_ok (nv_note t size room desc).
Proof.
  intros Ht Hr He Hu Hd. unfold note_ok, nv_note. cbn [nt_type nt_name nt_desc nt_namesz nt_descsz nt_name_room nt_desc_room].
  rewrite <- He. repeat (split; [first [assumption | lia | reflexivity | constructor]|]); assumption.
Qed.
Lemma boot_notes_ok voff bootp header meminfo version m :
  Forall (fun b => 0 <= b < 256) version -> Z.of_nat (length version) < 4294960000 ->
  Forall note_ok (boot_notes voff bootp header meminfo version m).
Proof.
  intros Hv Hl. unfold boot_notes. rewrite !SZ_up4.
  assert (T : forall t, t < 9 -> 0 < t -> 0 <= t < 4294967296) by lia.
  repeat (apply Forall_cons; [first [apply nf_note_ok | apply nv_note_ok];
    first [now apply T | apply le32_bytes | apply Forall_ldn | exact Hv | apply EB_PARAM_NOTE_bytes | apply FIRMWARE_bytes
          | now rewrite length_ldn | reflexivity | unfold sizeof; lia | now repeat constructor]|]).
  apply Forall_nil.
Qed.
Lemma boot_notes_size voff bootp header meminfo version m :
  notes_size (boot_notes voff bootp header meminfo version m) = 944 + up4 (Z.of_nat (length version)).
Proof.
  unfold boot_notes, notes_size, nf_note, nv_note, nt_size. cbn [fold_right nt_name_room nt_desc_room]. rewrite !SZ_up4. unfold sizeof.
  repeat match goal with |- context [up4 (Z.of_nat (length ?l))] => lazymatch l with version => fail | _ => change (up4 (Z.of_nat (length l))) with (ltac:(let v := eval vm_compute in (up4 (Z.of_nat (length l))) in exact v)) end end.
  change (up4 1) with 4. change (Z.of_nat sizeof_meminfo) with 652. lia.
Qed.
Lemma le32_word v : le32 v = word v.
Proof. unfold le32, word, u8. now rewrite (Z.div_div v 65536 256) by lia. Qed.

(** C23: The parameter block that [prepare_boot_params] hands to an ELF image, for a reader who knows the format and no definition of
    the program: the signature 0x0E1FB007, the size, which depends on the length of the version only, eight records, and a
    checksum that is never 0 and verifies over the whole block.  Read by their sizes, each name and descriptor filled up to
    a multiple of four, the notes end exactly at the end of the block, and they are, with these names, types and contents:
    from Etherboot the physical addresses of the DHCP reply (5) and of the header (6) and a copy of the 652 bytes of the memory map (8);
    without a name the name of the loader (2), the version (3), the firmware (1), the 128 bytes of the file name (6) and an empty
    command line (4). *)
Theorem boot_params_read voff notes bootp header meminfo version m :
  Forall (fun b => 0 <= b < 256) version -> Z.of_nat (length version) < 4294960000 ->
  let m' := prepare_boot_params voff notes bootp header meminfo version m in
  let size := 956 + 4 * ((Z.of_nat (length version) + 3) / 4) in
  let etherboot := txt "Etherboot"%string ++ [0] in
  ld32 m' notes = 0x0E1FB007 /\ ld32 m' (notes + 4) = size /\ ld16 m' (notes + 10) = 8 /\ ld16 m' (notes + 8) <> 0 /\
  ipchksum m' notes (Z.to_nat size) = 0 /\
  read_notes 9 m' (notes + 12) (notes + size) = Some
    [(etherboot, 5, word ((bootp + voff) mod 4294967296)); (etherboot, 6, word ((header + voff) mod 4294967296)); (etherboot, 8, ldn m meminfo 652);
     ([], 2, txt "Etherboot"%string ++ [0]); ([], 3, version); ([], 1, txt "PCBIOS"%string ++ [0]); ([], 6, ldn m KERNEL_BUF 128); ([], 4, [0])].
Proof.
  intros Hv Hl m' size. pose proof (boot_notes_size voff bootp header meminfo version m) as Hsz.
  pose proof (up4_bounds (Z.of_nat (length version)) ltac:(lia)) as Hu.
  destruct (put_boot_params_reads notes (boot_notes voff bootp header meminfo version m) m) as (H1 & H2 & H3 & H4 & H5 & H6);
    [now apply boot_notes_ok|lia|cbn; lia|].
  assert (Es : ld32 m' (notes + 4) = size) by (unfold m', prepare_boot_params; rewrite H2, Hsz; unfold size, up4; lia).
  fold m' in H1, H3, H4, H5, H6. change (put_boot_params _ _ _) with m' in H1, H3, H4, H5, H6. rewrite Es in H5, H6.
  split; [exact H1|]. split; [exact Es|]. split; [exact H3|]. split; [exact H4|]. split; [exact H5|].
  etransitivity; [exact H6|]. unfold boot_notes, nf_note, nv_note, note_read. cbn [map nt_name nt_type nt_desc]. rewrite !le32_word. reflexivity.
Qed.

(** ** Witnesses *)

(** A block against the image, byte by byte. *)
Lemma bytes_match m data n F len :
  forallb (fun k => ld8 m (data + Z.of_nat k) =? F (n + Z.of_nat k)) (seq 0 (Z.to_nat len)) = true ->
  forall j, 0 <= j < len -> ld8 m (data + j) = F (n + j).
Proof.
  intros H j Hj. rewrite forallb_forall in H. specialize (H (Z.to_nat j)). rewrite Z2Nat.id in H by lia. apply Z.eqb_eq, H, in_seq. lia.
Qed.
(** Two blocks; the header is at 8, and the word in front of it is the magic number too. *)
Definition mb_image : list Z :=
  [1; 2; 3; 4; 0x02; 0xb0; 0xad; 0x1b; 0x02; 0xb0; 0xad; 0x1b; 3; 0; 0; 0; 0xfb; 0x4f; 0x52; 0xe4; 9].
Definition mb_blocks : list (mem * Z * Z) :=
  [(stn (fun _ => 0) 100 (firstn 9 mb_image), 100, 9); (stn (fun _ => 0) 200 (skipn 9 mb_image), 200, 12)].
Lemma multiboot_search_witness :
  exists st', peek_blocks mb_blocks (multiboot_init {| mbheader := true; mbimgoffset := 5; mboffset := 7; mbbuffer := repeat 0 12 |}) = (None, st') /\
    mbheader st' = true /\ mb_word st' 4 = 3.
Proof.
  pose proof (multiboot_search (fun i => nth (Z.to_nat i) mb_image 0) mb_blocks
    {| mbheader := true; mbimgoffset := 5; mboffset := 7; mbbuffer := repeat 0 12 |} eq_refl) as Hm.
  destruct (peek_blocks _ _) as [r st'] eqn:Ep. exists st'. replace (find_header _ _) with (Some 8) in Hm by (vm_compute; reflexivity).
  destruct Hm as (H1 & _ & H2 & _ & H3).
  - pose proof (fun m data n => bytes_match m data n (fun i => nth (Z.to_nat i) mb_image 0)) as Hsb.
    split; [lia|split; [apply Hsb; vm_compute; reflexivity|]]. split; [lia|split; [apply Hsb; vm_compute; reflexivity|exact I]].
  - split; [now rewrite H3|]. split; [exact H1|exact H2].
Defined.

(** A FreeBSD image of one page of text and one of data, for 1 MB (linked at 0xf0100000), in blocks of 512 bytes. *)
Definition aout_byte (i : Z) : Z := i mod 251.
Definition aout_img : aout_state :=
  {| a_text := 4096; a_data := 4096; a_bss := 16; a_entry := 0x100000; a_curaddr := 0; a_segment := -1; a_loc := 0; a_skip := 0; a_toread := 0;
     a_freebsd := true |}.
Definition aout_block (at_ len : Z) : list Z := map (fun k => aout_byte (at_ + Z.of_nat k)) (seq 0 (Z.to_nat len)).
Definition aout_mem (at_ len : Z) : mem := stn (fun _ => 0) 0x8000 (aout_block at_ len).
Lemma aout_streams_witness :
  exists m' a', aout_download ly0 0x8000 512 false (aout_mem 0 512, aout_img) = Some (DlReturn 0, (m', a')) /\
    aout_inv ly0 aout_byte 512 m' a' 512.
Proof.
  assert (Ev : match aout_download ly0 0x8000 512 false (aout_mem 0 512, aout_img) with Some (DlReturn _, _) => True | _ => False end)
    by (vm_compute; exact I).
  pose proof (aout_streams ly0 aout_byte 512 (aout_mem 0 512) aout_img 0 0x8000 512 false) as Hs.
  destruct (aout_download ly0 0x8000 512 false (aout_mem 0 512, aout_img)) as [[[n|j|mc e] [m' a']]|]; [|destruct Ev..].
  exists m', a'. destruct Hs as (-> & _ & _ & Hi); [..|split; [reflexivity|exact Hi]].
  - split; vm_compute; repeat split; discriminate.
  - split; [reflexivity|]. split; [intros i Hi Hx; lia|]. now left.
  - vm_compute. discriminate.
  - lia.
  - reflexivity.
  - apply bytes_match. vm_compute. reflexivity.
  - left. vm_compute. discriminate.
Defined.

(** The same image in blocks of 1432 bytes, as TFTP may have negotiated: the text ends inside a block, and the address that the data
    are counted from is not advanced past the end of the text, so that as much again is skipped of the data. *)
Definition aout_feed (bs : Z) (n : nat) : mem * aout_state :=
  fold_left (fun s i =>
    let at_ := Z.of_nat i * bs in
    match aout_download ly0 0x8000 bs false (stn (fst s) 0x8000 (aout_block at_ bs), snd s) with Some (_, s) => s | None => s end)
    (seq 0 n) (fun _ => 0, aout_img).
Lemma aout_data_misplaced :
  ld8 (fst (aout_feed 512 24)) (0x100000 + 4096) = aout_byte 8192 /\
  ld8 (fst (aout_feed 1432 9)) (0x100000 + 4096) = aout_byte (8192 + 1032) /\ aout_byte 8192 <> aout_byte (8192 + 1032).
Proof. vm_compute. repeat split. discriminate. Qed.

Lemma boot_params_read_witness :
  let m' := prepare_boot_params 0 0x60000 0x38000 0x70000 0x71000 [53; 46; 52; 0] (fun _ => 7) in
  ipchksum m' 0x60000 (Z.to_nat (ld32 m' (0x60000 + 4))) = 0 /\ ld16 m' (0x60000 + 8) <> 0.
Proof.
  destruct (boot_params_read 0 0x60000 0x38000 0x70000 0x71000 [53; 46; 52; 0] (fun _ => 7)) as (_ & Hs & _ & Hn & Hc & _).
  - repeat (constructor; [lia|]). constructor.
  - cbn. lia.
  - split; [rewrite Hs; exact Hc|exact Hn].
Defined.
