(* ===== verification/Ports.v ===== *)
(** The ports of the processor, the timer ([src/src/arch/i386/core/i386_timer.c], [src/src/core/timer.c]) and the configuration
    space of the PCI bus ([src/src/arch/i386/core/pci_io.c] with CONFIG_PCI_DIRECT, and the routines of
    [src/src/core/pci.c] that the drivers of cards call).

    A [Bus] says what an access to a port does.  It may change the memory too, since a card may store data
    at any time.  Routines that reach the hardware are programs of [io], whose state are the static variables of a driver, the memory and the hardware.
    What is known of a device is stated as a class over its [Bus]; here that is [Bridge], the configuration mechanism of the PCI host bridge. *)

From S2P Require Import Prelude Memory StringLib Misc Pci.
Local Open Scope etherboot_scope.

(** ** Ports *)

Class Bus (H : Type) := {
  (** Width in bytes, port, and for a write the value. *)
  bus_in : nat -> Z -> mem * H -> Z * (mem * H);
  bus_out : nat -> Z -> Z -> mem * H -> mem * H;
  (** [currticks], which asks the BIOS. *)
  bus_ticks : mem * H -> Z * (mem * H);
}.

(** [None] when a bound on the rounds of a loop was reached. *)
Definition io (H V A : Type) : Type := V * (mem * H) -> option (A * (V * (mem * H))).

Section monad.
Context {H V : Type} `{Bus H}.
Definition iret {A} (a : A) : io H V A := fun s => Some (a, s).
Definition ibind {A B} (c : io H V A) (k : A -> io H V B) : io H V B := fun s => match c s with Some (a, s) => k a s | None => None end.
Definition istuck {A} : io H V A := fun _ => None.
Definition iget {A} (f : V -> A) : io H V A := fun s => Some (f (fst s), s).
Definition iset (f : V -> V) : io H V unit := fun s => Some (tt, (f (fst s), snd s)).
Definition imem : io H V mem := fun s => Some (fst (snd s), s).
Definition istore (f : mem -> mem) : io H V unit := fun s => Some (tt, (fst s, (f (fst (snd s)), snd (snd s)))).
Definition iin (w : nat) (port : Z) : io H V Z := fun s => let '(v, x) := bus_in w (u16 port) (snd s) in Some (v, (fst s, x)).
Definition iout (w : nat) (v port : Z) : io H V unit := fun s => Some (tt, (fst s, bus_out w (u16 port) v (snd s))).
Definition currticks_io : io H V Z := fun s => let '(v, x) := bus_ticks (snd s) in Some (v, (fst s, x)).
Definition inb (port : Z) : io H V Z := iin 1 port.
Definition inw (port : Z) : io H V Z := iin 2 port.
Definition inl_ (port : Z) : io H V Z := iin 4 port.
Definition outb (v port : Z) : io H V unit := iout 1 (u8 v) port.
Definition outw (v port : Z) : io H V unit := iout 2 (u16 v) port.
Definition outl (v port : Z) : io H V unit := iout 4 (u32 v) port.
End monad.
Notation "x <<- c ;; k" := (ibind c (fun x => k)) (at level 61, c at next level, right associativity) : etherboot_scope.
Notation "c ;;> k" := (ibind c (fun _ => k)) (at level 61, right associativity) : etherboot_scope.

(** ** The timer *)

Section timer.
(** [poll_interruptions], which looks at the keyboard and does not return when the user aborts. *)
Context {H V : Type} `{Bus H} (poll_interruptions : io H V unit).
Definition TIMER2_PORT : Z := 0x42.
Definition TIMER_MODE_PORT : Z := 0x43.
Definition PPC_PORTB : Z := 0x61.
Definition PPCB_T2OUT : Z := 0x20.
Definition CLOCK_TICK_RATE : Z := 1193180.
Definition TICKS_PER_MS : Z := CLOCK_TICK_RATE / 1000.
Definition load_timer2 (ticks : Z) : io H V unit :=
  v <<- inb PPC_PORTB ;;
  outb (Z.lor (Z.land v (not32 2)) 1) PPC_PORTB ;;>
  outb 0xb0 TIMER_MODE_PORT ;;>
  outb (Z.land ticks 0xff) TIMER2_PORT ;;>
  outb (Z.shiftr ticks 8) TIMER2_PORT.
Definition timer2_running : io H V bool := v <<- inb PPC_PORTB ;; iret (Z.land v PPCB_T2OUT =? 0).
Fixpoint while_timer2 (fuel : nat) : io H V unit :=
  match fuel with
  | O => istuck
  | S n => running <<- timer2_running ;; if running : bool then poll_interruptions ;;> while_timer2 n else iret tt
  end.
Definition waiton_timer2 (fuel : nat) (ticks : Z) : io H V unit := load_timer2 ticks ;;> while_timer2 fuel.
Definition udelay (fuel : nat) (usecs : Z) : io H V unit := waiton_timer2 fuel (u32 (usecs * TICKS_PER_MS) / 1000).
Definition ndelay (fuel : nat) (nsecs : Z) : io H V unit := waiton_timer2 fuel (u32 (nsecs * CLOCK_TICK_RATE) / 1000000000).
Fixpoint mdelay (fuel : nat) (msecs : nat) : io H V unit :=
  match msecs with
  | O => iret tt
  | S n => udelay fuel 1000 ;;> poll_interruptions ;;> mdelay fuel n
  end.
(** The two bytes that [load_timer2] gives the counter: [ticks] without its high bits.  For the counter, 0 stands for 65536. *)
Definition count_loaded (ticks : Z) : Z := u8 (Z.land ticks 0xff) + 256 * u8 (Z.shiftr ticks 8).
Lemma count_loaded_spec ticks : 0 <= ticks -> count_loaded ticks = ticks mod 65536.
Proof.
  intros Ht. unfold count_loaded. rewrite land_ff, shiftr_div by lia. unfold u8. change (2 ^ 8) with 256. rewrite Z.mod_mod by lia.
  change 65536 with (256 * 256). rewrite Z.rem_mul_r by lia. reflexivity.
Qed.
(** A delay of less than 839 ns loads 0: the wait is the longest there is, 55 ms. *)
Lemma ndelay_short fuel nsecs : 0 <= nsecs <= 838 -> ndelay fuel nsecs = waiton_timer2 fuel 0.
Proof. intros Hn. unfold ndelay, CLOCK_TICK_RATE. rewrite u32_small, Z.div_small by lia. reflexivity. Qed.
(** From 3600 ns on the product does not fit 32 bits. *)
Lemma ndelay_overflows : u32 (3600 * CLOCK_TICK_RATE) / 1000000000 = 0.
Proof. reflexivity. Qed.
End timer.

(** ** The configuration space *)

Section config.
Context {H V : Type} `{Bus H}.
Definition CONFIG_CMD (bus device_fn where_ : Z) : Z :=
  u32 (Z.lor (Z.lor (Z.lor 0x80000000 (Z.shiftl bus 16)) (Z.shiftl device_fn 8)) (Z.land where_ (not32 3))).
Definition select (bus devfn where_ : Z) : io H V unit := outl (CONFIG_CMD bus devfn where_) 0xCF8.
Definition pcibios_read_config_byte (bus devfn where_ : Z) : io H V Z := select bus devfn where_ ;;> inb (0xCFC + Z.land where_ 3).
Definition pcibios_read_config_word (bus devfn where_ : Z) : io H V Z := select bus devfn where_ ;;> inw (0xCFC + Z.land where_ 2).
Definition pcibios_read_config_dword (bus devfn where_ : Z) : io H V Z := select bus devfn where_ ;;> inl_ 0xCFC.
Definition pcibios_write_config_byte (bus devfn where_ v : Z) : io H V unit := select bus devfn where_ ;;> outb v (0xCFC + Z.land where_ 3).
Definition pcibios_write_config_word (bus devfn where_ v : Z) : io H V unit := select bus devfn where_ ;;> outw v (0xCFC + Z.land where_ 2).
Definition pcibios_write_config_dword (bus devfn where_ v : Z) : io H V unit := select bus devfn where_ ;;> outl v 0xCFC.

Definition PCI_COMMAND : Z := 4.
Definition PCI_STATUS : Z := 6.
Definition PCI_LATENCY_TIMER : Z := 0x0d.
Definition PCI_CAPABILITY_LIST : Z := 0x34.
Definition PCI_CB_CAPABILITY_LIST : Z := 0x14.
Definition PCI_STATUS_CAP_LIST : Z := 0x10.
Definition PCI_BASE_ADDRESS_IO_MASK : Z := not32 3.
Definition PCI_BASE_ADDRESS_MEM_MASK : Z := not32 0x0f.
Definition adjust_pci_device (bus devfn : Z) : io H V unit :=
  pci_command <<- pcibios_read_config_word bus devfn PCI_COMMAND ;;
  let new_command := Z.lor pci_command 5 in
  (if negb (pci_command =? new_command) then pcibios_write_config_word bus devfn PCI_COMMAND new_command else iret tt) ;;>
  pci_latency <<- pcibios_read_config_byte bus devfn PCI_LATENCY_TIMER ;;
  if pci_latency <? 32 then pcibios_write_config_byte bus devfn PCI_LATENCY_TIMER 32 else iret tt.
(** The printed message for a BAR above 4 GB is left out; [pcibios_bus_base] is 0 on this machine. *)
Definition pci_bar_start (bus devfn index : Z) : io H V Z :=
  lo <<- pcibios_read_config_dword bus devfn index ;;
  if negb (Z.land lo 1 =? 0) then iret (Z.land lo PCI_BASE_ADDRESS_IO_MASK)
  else if Z.land lo 6 =? 4 then
    hi <<- pcibios_read_config_dword bus devfn (index + 4) ;;
    if negb (hi =? 0) then iret 0xffffffff else iret (Z.land lo PCI_BASE_ADDRESS_MEM_MASK)
  else iret (Z.land lo PCI_BASE_ADDRESS_MEM_MASK).
Definition lowest_bit (size : Z) : Z := Z.land size (not32 (u32 (size - 1))).
Definition pci_bar_size (bus devfn bar : Z) : io H V Z :=
  start <<- pcibios_read_config_dword bus devfn bar ;;
  pcibios_write_config_dword bus devfn bar (not32 0) ;;>
  size <<- pcibios_read_config_dword bus devfn bar ;;
  pcibios_write_config_dword bus devfn bar start ;;>
  iret (lowest_bit (Z.land size (if negb (Z.land start 1 =? 0) then PCI_BASE_ADDRESS_IO_MASK else PCI_BASE_ADDRESS_MEM_MASK))).
Fixpoint cap_walk (ttl : nat) (bus devfn cap pos : Z) : io H V Z :=
  match ttl with
  | O => iret 0
  | S n =>
      if pos <? 0x40 then iret 0
      else
        let pos := u8 (Z.land pos (not32 3)) in
        id <<- pcibios_read_config_byte bus devfn (pos + 0) ;;
        if id =? 0xff then iret 0
        else if id =? cap then iret pos
        else next <<- pcibios_read_config_byte bus devfn (pos + 1) ;; cap_walk n bus devfn cap next
  end.
Definition pci_find_capability (bus devfn cap : Z) : io H V Z :=
  status <<- pcibios_read_config_word bus devfn PCI_STATUS ;;
  if Z.land status PCI_STATUS_CAP_LIST =? 0 then iret 0
  else
    hdr_type <<- pcibios_read_config_byte bus devfn PCI_HEADER_TYPE ;;
    pos <<- pcibios_read_config_byte bus devfn (if Z.land hdr_type 0x7f =? 2 then PCI_CB_CAPABILITY_LIST else PCI_CAPABILITY_LIST) ;;
    cap_walk 48 bus devfn cap pos.
End config.

(** ** Reasoning: [yields c Q s] says that [c] ends from [s] and [Q] holds of its result. *)

Section yields.
Context {H V : Type} `{Bus H}.
Definition yields {A} (c : io H V A) (Q : A -> V * (mem * H) -> Prop) (s : V * (mem * H)) : Prop :=
  match c s with Some (a, s') => Q a s' | None => False end.
Lemma yields_bind {A B} (c : io H V A) (k : A -> io H V B) Q s : yields c (fun a => yields (k a) Q) s -> yields (ibind c k) Q s.
Proof. unfold yields, ibind. destruct (c s) as [[a s']|]; auto. Qed.
Lemma yields_ret {A} (a : A) (Q : A -> V * (mem * H) -> Prop) s : Q a s -> yields (iret a) Q s.
Proof. auto. Qed.
Lemma yields_weak {A} (c : io H V A) (Q R : A -> V * (mem * H) -> Prop) s : yields c Q s -> (forall a s', Q a s' -> R a s') -> yields c R s.
Proof. unfold yields. destruct (c s) as [[a s']|]; auto. Qed.
Lemma yields_in w port (Q : Z -> V * (mem * H) -> Prop) s :
  (forall v x, bus_in w (u16 port) (snd s) = (v, x) -> Q v (fst s, x)) -> yields (iin w port) Q s.
Proof. unfold yields, iin. destruct (bus_in w (u16 port) (snd s)) as [v x]. auto. Qed.
Lemma yields_out w v port (Q : unit -> V * (mem * H) -> Prop) s : Q tt (fst s, bus_out w (u16 port) v (snd s)) -> yields (iout w v port) Q s.
Proof. auto. Qed.
Lemma yields_run {A} (c : io H V A) Q s : yields c Q s -> exists a s', c s = Some (a, s') /\ Q a s'.
Proof. unfold yields. destruct (c s) as [[a s']|]; [eauto|contradiction]. Qed.
End yields.

(** ** The host bridge *)

(** A little-endian word of [n] bytes from position [r] of [f]. *)
Fixpoint le_word (n : nat) (f : Z -> Z) (r : Z) : Z :=
  match n with O => 0 | S n => f r + 256 * le_word n f (r + 1) end.
(** Writing [v] where only the bits of [mask] change. *)
Definition merge (mask old v : Z) : Z := Z.lor (Z.ldiff old mask) (Z.land v mask).
Definition byte_of (v i : Z) : Z := u8 (Z.shiftr v (8 * i)).

(** The contents of the configuration space and the address that was selected.  [writable] gives the bits of a byte that a write changes, or
    [None] for a register that changes by itself or on other accesses. *)
Class Bridge (H : Type) `{Bus H} := {
  conf : H -> Z -> Z -> Z -> Z;
  latch : H -> Z;
  writable : Z -> Z -> Z -> option Z;
  stays (h h' : H) : Prop := forall b d r, writable b d r <> None -> conf h' b d r = conf h b d r;
  conf_byte h b d r : 0 <= conf h b d r < 256;
  bridge_select x v : 0 <= v < 4294967296 ->
    let h' := snd (bus_out 4 0xCF8 v x) in latch h' = v /\ stays (snd x) h';
  bridge_read x w b d r k : In w [1%nat; 2%nat; 4%nat] -> 0 <= b < 256 -> 0 <= d < 256 -> 0 <= r < 256 -> r mod 4 = 0 -> 0 <= k -> k + Z.of_nat w <= 4 ->
    k mod Z.of_nat w = 0 -> latch (snd x) = CONFIG_CMD b d r ->
    let '(v, x') := bus_in w (0xCFC + k) x in
    v = le_word w (conf (snd x) b d) (r + k) /\ stays (snd x) (snd x');
  bridge_write x w v b d r k : In w [1%nat; 2%nat; 4%nat] -> 0 <= b < 256 -> 0 <= d < 256 -> 0 <= r < 256 -> r mod 4 = 0 -> 0 <= k -> k + Z.of_nat w <= 4 ->
    k mod Z.of_nat w = 0 -> latch (snd x) = CONFIG_CMD b d r ->
    let h' := snd (bus_out w (0xCFC + k) v x) in
    forall b' d' r' mask, writable b' d' r' = Some mask ->
    conf h' b' d' r' =
      if (b' =? b) && (d' =? d) && (r + k <=? r') && (r' <? r + k + Z.of_nat w) then merge mask (conf (snd x) b d r') (byte_of v (r' - (r + k)))
      else conf (snd x) b' d' r';
}.

Section bridge.
Context {H V : Type} `{Bridge H}.
Implicit Type s : V * (mem * H).
Definition hw s : H := snd (snd s).
Definition steady (b d r : Z) (n : nat) : Prop := forall i, r <= i < r + Z.of_nat n -> writable b d i <> None.
Definition config_space (b d r : Z) : Prop := 0 <= b < 256 /\ 0 <= d < 256 /\ 0 <= r < 256.

Lemma stays_refl h : stays h h.
Proof. intros b d r _. reflexivity. Qed.
Lemma stays_trans h1 h2 h3 : stays h1 h2 -> stays h2 h3 -> stays h1 h3.
Proof. intros A B b d r Hw. rewrite (B _ _ _ Hw). now apply A. Qed.
Lemma le_word_ext n f g : forall r, (forall i, r <= i < r + Z.of_nat n -> f i = g i) -> le_word n f r = le_word n g r.
Proof. induction n as [|n IH]; intros r E; cbn [le_word]; [reflexivity|]. rewrite (E r) by lia. rewrite (IH (r + 1)); [reflexivity|]. intros i Hi. apply E. lia. Qed.
Lemma CONFIG_CMD_range b d r : 0 <= CONFIG_CMD b d r < 4294967296.
Proof. unfold CONFIG_CMD. apply u32_range. Qed.
Lemma CONFIG_CMD_aligned b d r : 0 <= r < 256 -> CONFIG_CMD b d (Z.land r (not32 3)) = CONFIG_CMD b d r.
Proof.
  intros Hr. unfold CONFIG_CMD. do 2 f_equal. rewrite <- Z.land_assoc, Z.land_diag. reflexivity.
Qed.
Lemma low_bits r : 0 <= r < 256 -> Z.land r (not32 3) = r - r mod 4 /\ Z.land r 3 = r mod 4 /\ Z.land r 2 = r mod 4 - r mod 2.
Proof.
  intros Hr.
  assert (A : forallb (fun i => let r := Z.of_nat i in (Z.land r (not32 3) =? r - r mod 4) && (Z.land r 3 =? r mod 4) && (Z.land r 2 =? r mod 4 - r mod 2)) (seq 0 256) = true)
    by (vm_compute; reflexivity).
  rewrite forallb_forall in A. specialize (A (Z.to_nat r) ltac:(apply in_seq; lia)). rewrite Z2Nat.id in A by lia.
  repeat rewrite andb_true_iff in A. rewrite !Z.eqb_eq in A. tauto.
Qed.

Lemma select_spec b d r s : config_space b d r ->
  yields (select (V := V) b d r) (fun _ s' => fst s' = fst s /\ stays (hw s) (hw s') /\ latch (hw s') = CONFIG_CMD b d (Z.land r (not32 3))) s.
Proof.
  intros (Hb & Hd & Hr). apply yields_out. cbn [fst]. split; [reflexivity|]. change (u16 0xCF8) with 0xCF8.
  rewrite u32_small by apply CONFIG_CMD_range.
  destruct (bridge_select (snd s) (CONFIG_CMD b d r) (CONFIG_CMD_range b d r)) as [A B].
  split; [exact B|]. rewrite CONFIG_CMD_aligned by exact Hr. exact A.
Qed.
(** The three widths at once: [k] is the offset within the double word. *)
Lemma config_read w b d r k s :
  In w [1%nat; 2%nat; 4%nat] -> config_space b d r -> k = r mod 4 -> k + Z.of_nat w <= 4 -> k mod Z.of_nat w = 0 -> steady b d r w ->
  yields (ibind (select (V := V) b d r) (fun _ => iin w (0xCFC + k)))
    (fun v s' => v = le_word w (conf (hw s) b d) r /\ fst s' = fst s /\ stays (hw s) (hw s')) s.
Proof.
  intros Hw Hc Hk L Ha St. apply yields_bind. eapply yields_weak; [apply (select_spec b d r s Hc)|].
  intros _ s1 (V1 & S1 & L1). destruct Hc as (Hb & Hd & Hr). destruct (low_bits r Hr) as (B & _).
  assert (0 <= r mod 4 < 4) by (apply Z.mod_pos_bound; lia).
  pose proof (Z.div_mod r 4 ltac:(lia)) as Dm.
  apply yields_in. intros v x Hx. cbn [fst snd]. rewrite u16_small in Hx by lia.
  assert (R := bridge_read (snd s1) w b d (Z.land r (not32 3)) k Hw Hb Hd ltac:(rewrite B; lia)
    ltac:(rewrite B; replace (r - r mod 4) with (r / 4 * 4) by lia; apply Z.mod_mul; lia) ltac:(lia) L Ha L1).
  rewrite Hx in R. destruct R as [-> R2]. split; [|split; [exact V1|exact (stays_trans _ _ _ S1 R2)]].
  replace (Z.land r (not32 3) + k) with r by lia. apply le_word_ext. intros i Hi. apply S1, St. exact Hi.
Qed.
Lemma config_write w v b d r k s :
  In w [1%nat; 2%nat; 4%nat] -> config_space b d r -> k = r mod 4 -> k + Z.of_nat w <= 4 -> k mod Z.of_nat w = 0 ->
  yields (ibind (select (V := V) b d r) (fun _ => iout w v (0xCFC + k)))
    (fun _ s' => fst s' = fst s /\ forall b' d' r' mask, writable b' d' r' = Some mask ->
       conf (hw s') b' d' r' =
         if (b' =? b) && (d' =? d) && (r <=? r') && (r' <? r + Z.of_nat w) then merge mask (conf (hw s) b d r') (byte_of v (r' - r)) else conf (hw s) b' d' r') s.
Proof.
  intros Hw Hc Hk L Ha. apply yields_bind. eapply yields_weak; [apply (select_spec b d r s Hc)|].
  intros _ s1 (V1 & S1 & L1). destruct Hc as (Hb & Hd & Hr). destruct (low_bits r Hr) as (B & _).
  assert (0 <= r mod 4 < 4) by (apply Z.mod_pos_bound; lia).
  pose proof (Z.div_mod r 4 ltac:(lia)) as Dm.
  apply yields_out. cbn [fst]. split; [exact V1|]. rewrite u16_small by lia. intros b' d' r' mask Hm.
  assert (R := bridge_write (snd s1) w v b d (Z.land r (not32 3)) k Hw Hb Hd ltac:(rewrite B; lia)
    ltac:(rewrite B; replace (r - r mod 4) with (r / 4 * 4) by lia; apply Z.mod_mul; lia) ltac:(lia) L Ha L1 b' d' r' mask Hm).
  unfold hw at 1. cbn [snd]. rewrite R. replace (Z.land r (not32 3) + k) with r by lia.
  pose proof (S1 b' d' r' ltac:(rewrite Hm; discriminate)) as E1. change (hw s1) with (snd (snd s1)) in E1. rewrite E1.
  destruct ((b' =? b) && (d' =? d) && (r <=? r') && (r' <? r + Z.of_nat w)) eqn:E; [|reflexivity].
  repeat rewrite andb_true_iff in E. destruct E as (((Eb%Z.eqb_eq & Ed%Z.eqb_eq) & _) & _). subst b' d'.
  now rewrite E1.
Qed.
End bridge.
Lemma word_range n f r : (forall j, 0 <= f j < 256) -> 0 <= le_word n f r < 2 ^ (8 * Z.of_nat n).
Proof.
  intros F. revert r. induction n as [|n IH]; intros r; cbn [le_word]; [cbn; lia|].
  specialize (IH (r + 1)). specialize (F r). replace (8 * Z.of_nat (S n)) with (8 + 8 * Z.of_nat n) by lia. rewrite Z.pow_add_r by lia. change (2 ^ 8) with 256. nia.
Qed.
Lemma testbit_byte x i : 0 <= x < 256 -> 8 <= i -> Z.testbit x i = false.
Proof. intros Hx Hi. rewrite <- (Z.mod_small x (2 ^ 8)) by (change (2 ^ 8) with 256; lia). now apply Z.mod_pow2_bits_high. Qed.
Lemma word_testbit n f : (forall j, 0 <= f j < 256) -> forall r i, 0 <= i ->
  Z.testbit (le_word n f r) i = (i <? 8 * Z.of_nat n) && Z.testbit (f (r + i / 8)) (i mod 8).
Proof.
  intros F. induction n as [|n IH]; intros r i Hi; cbn [le_word].
  - rewrite Z.testbit_0_l. destruct (Z.ltb_spec i (8 * Z.of_nat 0)); [lia|reflexivity].
  - assert (D : f r + 256 * le_word n f (r + 1) = Z.lor (f r) (Z.shiftl (le_word n f (r + 1)) 8)).
    { rewrite Z.shiftl_mul_pow2, Z.lor_comm, lor_disjoint by (lia || apply F). change (2 ^ 8) with 256. ring. }
    rewrite D, Z.lor_spec, Z.shiftl_spec by lia. destruct (Z.ltb_spec i 8) as [L|L].
    + rewrite (Z.testbit_neg_r _ (i - 8)) by lia. rewrite orb_false_r. assert (E8 : (i <? 8 * Z.of_nat (S n)) = true) by (apply Z.ltb_lt; lia); rewrite E8; clear E8.
      rewrite Z.div_small, Z.mod_small, Z.add_0_r by lia. reflexivity.
    + rewrite (testbit_byte (f r)) by (auto || lia). cbn [orb]. rewrite IH by lia.
      assert (E8 : (i - 8 <? 8 * Z.of_nat n) = (i <? 8 * Z.of_nat (S n))) by (destruct (Z.ltb_spec (i - 8) (8 * Z.of_nat n)), (Z.ltb_spec i (8 * Z.of_nat (S n))); lia). rewrite E8. clear E8.
      replace ((i - 8) mod 8) with (i mod 8) by (rewrite <- (Z.mod_add (i - 8) 1 8) by lia; f_equal; lia).
      replace (r + 1 + (i - 8) / 8) with (r + i / 8) by (replace i with (i - 8 + 1 * 8) at 1 by lia; rewrite Z.div_add by lia; lia). reflexivity.
Qed.
Lemma not32_bits x i : 0 <= x < 4294967296 -> 0 <= i -> Z.testbit (not32 x) i = (i <? 32) && negb (Z.testbit x i).
Proof.
  intros Hx Hi. unfold not32. rewrite u32_small by lia. replace (4294967295 - x) with (Z.lnot x mod 2 ^ 32).
  - destruct (Z.ltb_spec i 32) as [L|L]; [|now rewrite Z.mod_pow2_bits_high by lia]. rewrite Z.mod_pow2_bits_low by lia. rewrite Z.lnot_spec by lia. reflexivity.
  - unfold Z.lnot. change (2 ^ 32) with 4294967296. rewrite <- (Z.mod_add _ 1) by lia. rewrite Z.mod_small; unfold Z.pred; lia.
Qed.
Lemma lowest_bit_spec x k : 0 <= k -> 0 <= x < 4294967296 -> x mod 2 ^ (k + 1) = 2 ^ k -> lowest_bit x = 2 ^ k.
Proof.
  intros Hk Hx Hm. pose proof (Z.div_mod x (2 ^ (k + 1)) ltac:(pose proof (Z.pow_pos_nonneg 2 (k + 1)); lia)) as D. rewrite Hm in D.
  set (q := x / 2 ^ (k + 1)) in *.
  assert (Pk : 0 < 2 ^ k) by (apply Z.pow_pos_nonneg; lia). assert (Pk1 : 2 ^ (k + 1) = 2 * 2 ^ k) by (rewrite Z.pow_add_r by lia; lia).
  assert (x >= 1) by (assert (0 <= q) by (apply Z.div_pos; lia); nia).
  assert (B : forall i, 0 <= i -> Z.testbit x i = if i <? k then false else if i =? k then true else Z.testbit q (i - (k + 1))).
  { intros i Hi. destruct (Z.ltb_spec i k) as [L|L]; [|destruct (Z.eqb_spec i k) as [->|N]].
    - replace x with ((2 * q + 1) * 2 ^ k) by lia. apply Z.mul_pow2_bits_low. lia.
    - replace x with ((2 * q + 1) * 2 ^ k) by lia. rewrite Z.mul_pow2_bits by lia. rewrite Z.sub_diag. apply Z.testbit_odd_0.
    - replace q with (x / 2 ^ (k + 1)) by reflexivity. rewrite Z.div_pow2_bits by lia. f_equal. lia. }
  assert (C : forall i, k <= i -> Z.testbit (x - 1) i = if i =? k then false else Z.testbit q (i - (k + 1))).
  { intros i Hi.
    assert (Q : (x - 1) / 2 ^ k = 2 * q) by (symmetry; apply (Z.div_unique _ _ _ (2 ^ k - 1)); lia).
    replace i with (i - k + k) at 1 by lia. rewrite <- Z.div_pow2_bits by lia. rewrite Q.
    destruct (Z.eqb_spec i k) as [->|N]; [rewrite Z.sub_diag; apply Z.testbit_even_0|].
    replace (i - k) with (Z.succ (i - (k + 1))) by lia. apply Z.testbit_even_succ. lia. }
  unfold lowest_bit. rewrite u32_small by lia. apply Z.bits_inj'. intros i Hi. rewrite Z.land_spec, not32_bits by lia. rewrite Z.pow2_bits_eqb by lia.
  rewrite B by lia. destruct (Z.ltb_spec i k) as [L|L]; [replace (k =? i) with false by lia; reflexivity|].
  rewrite C by lia. rewrite (Z.eqb_sym k i). destruct (Z.eqb_spec i k) as [->|N].
  - rewrite andb_true_r. assert (k < 32) by (apply (Z.pow_lt_mono_r_iff 2); [lia|lia|]; change (2 ^ 32) with 4294967296; assert (0 <= q) by (apply Z.div_pos; lia); nia). lia.
  - destruct (Z.testbit q (i - (k + 1))); rewrite ?andb_false_r; reflexivity.
Qed.

Lemma merge_byte mask old v : 0 <= old < 256 -> 0 <= mask < 256 -> 0 <= v < 256 -> 0 <= merge mask old v < 256.
Proof.
  intros Ho Hm Hv. assert (N : 0 <= merge mask old v) by (unfold merge; apply Z.lor_nonneg; split; [apply Z.ldiff_nonneg; lia|apply Z.land_nonneg; lia]).
  split; [exact N|]. enough (E : merge mask old v mod 2 ^ 8 = merge mask old v) by (rewrite <- E; apply Z.mod_pos_bound; lia).
  apply Z.bits_inj'. intros i Hi. destruct (Z.lt_ge_cases i 8) as [L|L]; [now rewrite Z.mod_pow2_bits_low|].
  rewrite Z.mod_pow2_bits_high by lia. unfold merge. rewrite Z.lor_spec, Z.ldiff_spec, Z.land_spec, (testbit_byte old), (testbit_byte v) by lia. reflexivity.
Qed.
Lemma merge_back mask old v : merge mask (merge mask old v) old = old.
Proof.
  apply Z.bits_inj'. intros i Hi. unfold merge. rewrite !Z.lor_spec, !Z.ldiff_spec, !Z.land_spec, Z.lor_spec, Z.ldiff_spec, Z.land_spec.
  destruct (Z.testbit mask i), (Z.testbit old i), (Z.testbit v i); reflexivity.
Qed.
Lemma byte_of_word n f r i : (forall j, 0 <= f j < 256) -> 0 <= i < Z.of_nat n -> byte_of (le_word n f r) i = f (r + i).
Proof.
  intros F Hi. unfold byte_of, u8. apply Z.bits_inj'. intros j Hj. destruct (Z.lt_ge_cases j 8) as [L|L].
  - change 256 with (2 ^ 8). rewrite Z.mod_pow2_bits_low, Z.shiftr_spec, word_testbit by (auto || lia).
    destruct (Z.ltb_spec (j + 8 * i) (8 * Z.of_nat n)); [|lia]. cbn [andb].
    replace ((j + 8 * i) / 8) with i by (apply (Z.div_unique _ _ _ j); lia).
    replace ((j + 8 * i) mod 8) with j by (apply (Z.mod_unique _ _ i); lia). reflexivity.
  - change 256 with (2 ^ 8). rewrite Z.mod_pow2_bits_high, testbit_byte by (auto || lia). reflexivity.
Qed.
Lemma byte_of_ones i : 0 <= i < 4 -> byte_of (u32 (not32 0)) i = 255.
Proof. intros Hi. assert (C : i = 0 \/ i = 1 \/ i = 2 \/ i = 3) by lia. destruct C as [-> | [-> | [-> | ->]]]; reflexivity. Qed.

Lemma land_below x y : 0 <= x < 4294967296 -> 0 <= Z.land x y < 4294967296.
Proof.
  intros Hx. enough (E : Z.land x y = Z.land x y mod 2 ^ 32) by (rewrite E; apply Z.mod_pos_bound; lia).
  apply Z.bits_inj'. intros i Hi. destruct (Z.lt_ge_cases i 32) as [L|L]; [now rewrite Z.mod_pow2_bits_low|].
  rewrite Z.mod_pow2_bits_high, Z.land_spec by lia. rewrite <- (Z.mod_small x (2 ^ 32)) by lia. rewrite Z.mod_pow2_bits_high by lia. reflexivity.
Qed.
(** The word a BAR reads after ones were written, without its flags, keeps the lowest writable bit. *)
Lemma bar_bits (mk f : Z -> Z) r k e : (forall j, 0 <= mk j < 256) -> (forall j, 0 <= f j < 256) -> 0 <= e -> e <= k < 32 ->
  le_word 4 mk r mod 2 ^ (k + 1) = 2 ^ k -> le_word 4 f r mod 2 ^ k < 2 ^ e ->
  lowest_bit (Z.land (le_word 4 (fun i => merge (mk i) (f i) 255) r) (not32 (2 ^ e - 1))) = 2 ^ k.
Proof.
  intros Hm Hf He Hk Low Fl. apply lowest_bit_spec; [lia| |].
  - apply land_below. change 4294967296 with (2 ^ (8 * Z.of_nat 4)). apply word_range. intros j. apply merge_byte; auto; lia.
  - apply Z.bits_inj'. intros i Hi. rewrite Z.pow2_bits_eqb by lia.
    assert (P32 : 2 ^ e <= 2 ^ 31) by (apply Z.pow_le_mono_r; lia).
    assert (Pe : 0 < 2 ^ e) by (apply Z.pow_pos_nonneg; lia).
    destruct (Z.lt_ge_cases i (k + 1)) as [L|L].
    2:{ rewrite Z.mod_pow2_bits_high by lia. destruct (Z.eqb_spec k i); [lia|reflexivity]. }
    rewrite Z.mod_pow2_bits_low, Z.land_spec, not32_bits by (change (2 ^ 31) with 2147483648 in P32; lia).
    destruct (Z.ltb_spec i 32); [|lia]. cbn [andb].
    rewrite word_testbit by (auto using merge_byte || (intros; apply merge_byte; auto; lia) || lia).
    destruct (Z.ltb_spec i (8 * Z.of_nat 4)) as [L32|]; [|lia]. cbn [andb].
    assert (E : Z.testbit (merge (mk (r + i / 8)) (f (r + i / 8)) 255) (i mod 8) = Z.testbit (le_word 4 mk r) i || Z.testbit (le_word 4 f r) i).
    { rewrite !word_testbit by auto. destruct (Z.ltb_spec i (8 * Z.of_nat 4)); [|lia]. cbn [andb].
      unfold merge. rewrite Z.lor_spec, Z.ldiff_spec, Z.land_spec. change 255 with (Z.ones 8). rewrite Z.ones_spec_low by (apply Z.mod_pos_bound; lia).
      destruct (Z.testbit (mk _) _), (Z.testbit (f _) _); reflexivity. }
    rewrite E. rewrite <- (Z.mod_pow2_bits_low (le_word 4 mk r) (k + 1) i), Low, Z.pow2_bits_eqb by lia.
    replace (2 ^ e - 1) with (Z.ones e) by (rewrite Z.ones_equiv; lia).
    destruct (Z.eqb_spec k i) as [->|Nk].
    + rewrite Z.ones_spec_high by lia. reflexivity.
    + cbn [orb]. destruct (Z.lt_ge_cases i e) as [Le|Le]; [rewrite Z.ones_spec_low by lia; apply andb_false_r|].
      rewrite Z.ones_spec_high, andb_true_r by lia. rewrite <- (Z.mod_pow2_bits_low _ k) by lia.
      rewrite <- (Z.mod_small (le_word 4 f r mod 2 ^ k) (2 ^ e)) by (split; [apply Z.mod_pos_bound, Z.pow_pos_nonneg; lia|exact Fl]).
      apply Z.mod_pow2_bits_high. lia.
Qed.

Section devices.
Context {H V : Type} `{Bridge H}.
Implicit Type s : V * (mem * H).

Lemma read_dword b d r s : config_space b d r -> r mod 4 = 0 -> steady b d r 4 ->
  yields (pcibios_read_config_dword (V := V) b d r) (fun v s' => v = le_word 4 (conf (hw s) b d) r /\ fst s' = fst s /\ stays (hw s) (hw s')) s.
Proof. intros Hc Ha St. apply (config_read 4 b d r 0 s); [cbn; tauto|exact Hc|lia|lia|reflexivity|exact St]. Qed.
Lemma read_byte b d r s : config_space b d r -> steady b d r 1 ->
  yields (pcibios_read_config_byte (V := V) b d r) (fun v s' => v = conf (hw s) b d r /\ fst s' = fst s /\ stays (hw s) (hw s')) s.
Proof.
  intros Hc St. pose proof Hc as (_ & _ & Hr). unfold pcibios_read_config_byte, inb. destruct (low_bits r Hr) as (_ & -> & _).
  eapply yields_weak; [apply (config_read 1 b d r (r mod 4) s); [cbn; tauto|exact Hc|reflexivity|pose proof (Z.mod_pos_bound r 4); lia|apply Z.mod_1_r|exact St]|].
  cbn [le_word]. intros v s' (-> & B). split; [lia|exact B].
Qed.
Lemma read_word b d r s : config_space b d r -> r mod 2 = 0 -> steady b d r 2 ->
  yields (pcibios_read_config_word (V := V) b d r) (fun v s' => v = le_word 2 (conf (hw s) b d) r /\ fst s' = fst s /\ stays (hw s) (hw s')) s.
Proof.
  intros Hc Ha St. pose proof Hc as (_ & _ & Hr). unfold pcibios_read_config_word, inw. destruct (low_bits r Hr) as (_ & _ & ->). rewrite Ha, Z.sub_0_r.
  assert (C : r mod 4 = 0 \/ r mod 4 = 2) by (pose proof (Z.div_mod r 2 ltac:(lia)); pose proof (Z.div_mod r 4 ltac:(lia)); pose proof (Z.mod_pos_bound r 4 ltac:(lia)); lia).
  apply (config_read 2 b d r (r mod 4) s); [cbn; tauto|exact Hc|reflexivity|lia|now destruct C as [-> | ->]|exact St].
Qed.

(** The size of the region of a BAR.  [mk] is its writable bits, the lowest of which is bit [k]; the bits below are flags. *)
Theorem pci_bar_size_spec (mk : Z -> Z) b d bar k s :
  config_space b d bar -> bar mod 4 = 0 -> (forall i, 0 <= mk i < 256) -> (forall i, bar <= i < bar + 4 -> writable b d i = Some (mk i)) ->
  let start := le_word 4 (conf (hw s) b d) bar in
  let e := if Z.land start 1 =? 0 then 4 else 2 in
  e <= k < 32 -> le_word 4 mk bar mod 2 ^ (k + 1) = 2 ^ k -> start mod 2 ^ k < 2 ^ e ->
  yields (pci_bar_size (V := V) b d bar) (fun v s' => v = 2 ^ k /\ fst s' = fst s /\ stays (hw s) (hw s')) s.
Proof.
  intros Hc Ha Mk W start e Hk Low Fl.
  assert (St : steady b d bar 4) by (intros i Hi; rewrite W by lia; discriminate).
  assert (Cb : forall h, (forall j, 0 <= conf h b d j < 256)) by (intros; apply conf_byte).
  unfold pci_bar_size. apply yields_bind. eapply yields_weak; [exact (read_dword b d bar s Hc Ha St)|]. intros v s1 (-> & V1 & S1). fold start.
  apply yields_bind. eapply yields_weak; [apply (config_write 4 (u32 (not32 0)) b d bar 0 s1); [cbn; tauto|exact Hc|lia|lia|reflexivity]|]. intros _ s2 (V2 & W2).
  apply yields_bind. eapply yields_weak; [exact (read_dword b d bar s2 Hc Ha St)|]. intros v s3 (-> & V3 & S3).
  apply yields_bind. eapply yields_weak; [apply (config_write 4 (u32 start) b d bar 0 s3); [cbn; tauto|exact Hc|lia|lia|reflexivity]|]. intros _ s4 (V4 & W4).
  assert (Rs : 0 <= start < 4294967296) by (apply (word_range 4); apply Cb).
  apply yields_ret. split; [|split; [congruence|]].
  - rewrite (le_word_ext 4 _ (fun i => merge (mk i) (conf (hw s) b d i) 255)).
    2:{ intros i Hi. rewrite (W2 b d i (mk i)) by (apply W; lia). rewrite !Z.eqb_refl. replace (bar <=? i) with true by lia. destruct (Z.ltb_spec i (bar + Z.of_nat 4)); [|lia]. cbn [andb].
        rewrite byte_of_ones by lia. rewrite (S1 b d i) by (rewrite W by lia; discriminate). reflexivity. }
    pose proof (bar_bits mk (conf (hw s) b d) bar k e Mk (Cb _) ltac:(subst e; destruct (Z.land start 1 =? 0); lia) Hk Low Fl) as B.
    subst e. destruct (Z.land start 1 =? 0); exact B.
  - intros b' d' r' Hw. destruct (writable b' d' r') as [mask|] eqn:Em; [|contradiction].
    rewrite (W4 _ _ _ _ Em). pose proof (S3 b' d' r' ltac:(rewrite Em; discriminate)) as E3. pose proof (S1 b' d' r' ltac:(rewrite Em; discriminate)) as E1.
    pose proof (W2 _ _ _ _ Em) as E2. destruct (_ && _) eqn:Ev in |- *; rewrite Ev in E2; [|congruence].
    repeat rewrite andb_true_iff in Ev. destruct Ev as (((->%Z.eqb_eq & ->%Z.eqb_eq) & L1%Z.leb_le) & L2%Z.ltb_lt).
    rewrite E3, E2, E1, byte_of_ones, (u32_small start Rs) by lia. unfold start. rewrite byte_of_word by (auto; lia).
    replace (bar + (r' - bar)) with r' by lia. apply merge_back.
Qed.

(** The list of capabilities: the position and the code of each. *)
Inductive linked (f : Z -> Z) : Z -> list (Z * Z) -> Prop :=
  | linked_end pos : pos < 0x40 -> linked f pos []
  | linked_stop pos : 0x40 <= pos -> f (Z.land pos (not32 3)) = 0xff -> linked f pos []
  | linked_cap pos l : 0x40 <= pos -> f (Z.land pos (not32 3)) <> 0xff -> linked f (f (Z.land pos (not32 3) + 1)) l ->
      linked f pos ((Z.land pos (not32 3), f (Z.land pos (not32 3))) :: l).
Definition capability_at (l : list (Z * Z)) (cap : Z) : Z := match find (fun e => snd e =? cap) l with Some e => fst e | None => 0 end.
(** The list depends on the registers from 0x40 only. *)
Lemma linked_conf f g pos l : (forall i, 0x40 <= i < 256 -> g i = f i) -> 0 <= pos < 256 -> (forall j, 0 <= f j < 256) -> linked f pos l -> linked g pos l.
Proof.
  intros E Hp F L. revert Hp.
  assert (C : forall pos, 0x40 <= pos -> 0 <= pos < 256 -> 0x40 <= Z.land pos (not32 3) /\ Z.land pos (not32 3) + 1 < 256).
  { intros q Hq Hp. rewrite (proj1 (low_bits q Hp)). pose proof (Z.mod_pos_bound q 4 ltac:(lia)). pose proof (Z.div_mod q 4 ltac:(lia)). lia. }
  induction L as [pos L|pos L E0|pos l L N K IH]; intros Hp.
  - now apply linked_end.
  - destruct (C pos L Hp). apply linked_stop; [exact L|]. rewrite E by lia. exact E0.
  - destruct (C pos L Hp). rewrite <- (E (Z.land pos (not32 3))) by lia. apply linked_cap; [exact L|rewrite E by lia; exact N|].
    rewrite E by lia. apply IH, F.
Qed.
Lemma cap_walk_spec b d cap l : 0 <= b < 256 -> 0 <= d < 256 -> (forall i, 0x40 <= i < 256 -> writable b d i <> None) ->
  forall ttl pos s, linked (conf (hw s) b d) pos l -> (length l <= ttl)%nat -> 0 <= pos < 256 ->
  yields (cap_walk (V := V) ttl b d cap pos) (fun v s' => v = capability_at l cap /\ fst s' = fst s /\ stays (hw s) (hw s')) s.
Proof.
  intros Hb Hd St. induction l as [|[p0 i0] l IH]; intros ttl pos s L Hl Hp.
  - destruct ttl as [|ttl]; cbn [cap_walk]; [apply yields_ret; repeat split; apply stays_refl|].
    destruct (Z.ltb_spec pos 0x40) as [Lt|Ge]; [apply yields_ret; repeat split; apply stays_refl|].
    inversion L as [|? ? E|]; subst; [lia|]. destruct (low_bits pos Hp) as (B & _). pose proof (Z.mod_pos_bound pos 4 ltac:(lia)). pose proof (Z.div_mod pos 4 ltac:(lia)).
    rewrite (u8_small (Z.land pos (not32 3))) by lia. rewrite Z.add_0_r.
    apply yields_bind. eapply yields_weak; [apply read_byte; [repeat split; lia|intros i Hi; apply St; lia]|]. intros v s1 (-> & V1 & S1).
    rewrite E. cbn [Z.eqb]. apply yields_ret. auto.
  - inversion L as [| |? ? Ge N K]; subst. cbn [length] in Hl. destruct ttl as [|ttl]; [lia|]. cbn [cap_walk].
    destruct (Z.ltb_spec pos 0x40); [lia|]. destruct (low_bits pos Hp) as (B & _). pose proof (Z.mod_pos_bound pos 4 ltac:(lia)). pose proof (Z.div_mod pos 4 ltac:(lia)).
    rewrite (u8_small (Z.land pos (not32 3))) by lia. rewrite Z.add_0_r. set (p := Z.land pos (not32 3)) in *.
    apply yields_bind. eapply yields_weak; [apply read_byte; [repeat split; lia|intros i Hi; apply St; lia]|]. intros v s1 (-> & V1 & S1).
    destruct (Z.eqb_spec (conf (hw s) b d p) 0xff) as [E|_]; [contradiction|]. unfold capability_at. cbn [find snd].
    destruct (conf (hw s) b d p =? cap); [apply yields_ret; auto|].
    apply yields_bind. eapply yields_weak; [apply read_byte; [repeat split; lia|intros i Hi; apply St; lia]|]. intros v s2 (-> & V2 & S2).
    assert (E12 : forall i, 0x40 <= i < 256 -> conf (hw s2) b d i = conf (hw s) b d i) by (intros i Hi; rewrite S2, S1 by (apply St; exact Hi); reflexivity).
    rewrite (S1 b d (p + 1)) by (apply St; lia).
    eapply yields_weak; [apply (IH ttl _ s2); [|lia|apply conf_byte]|intros v s3 (-> & V3 & S3); split; [reflexivity|split; [congruence|exact (stays_trans _ _ _ S1 (stays_trans _ _ _ S2 S3))]]].
    apply (linked_conf (conf (hw s) b d)); [exact E12|apply conf_byte|intros; apply conf_byte|exact K].
Qed.

(** Searching the capabilities finds the first of that code, or none. *)
Lemma pci_find_capability_spec b d cap l s :
  0 <= b < 256 -> 0 <= d < 256 -> (forall i, 0x40 <= i < 256 -> writable b d i <> None) -> steady b d PCI_STATUS 2 -> steady b d PCI_HEADER_TYPE 1 ->
  steady b d PCI_CAPABILITY_LIST 1 -> steady b d PCI_CB_CAPABILITY_LIST 1 -> (length l <= 48)%nat ->
  let f := conf (hw s) b d in
  Z.land (le_word 2 f PCI_STATUS) PCI_STATUS_CAP_LIST <> 0 ->
  linked f (f (if Z.land (f PCI_HEADER_TYPE) 0x7f =? 2 then PCI_CB_CAPABILITY_LIST else PCI_CAPABILITY_LIST)) l ->
  yields (pci_find_capability (V := V) b d cap) (fun v s' => v = capability_at l cap /\ fst s' = fst s /\ stays (hw s) (hw s')) s.
Proof.
  intros Hb Hd St Ss Sh Sc Sb Hl f Cap L. unfold pci_find_capability.
  apply yields_bind. eapply yields_weak; [apply read_word; [repeat split; (exact Hb || exact Hd || (unfold PCI_STATUS; lia))|reflexivity|exact Ss]|]. intros v s1 (-> & V1 & S1). fold f.
  destruct (Z.eqb_spec (Z.land (le_word 2 f PCI_STATUS) PCI_STATUS_CAP_LIST) 0) as [E|_]; [contradiction|].
  apply yields_bind. eapply yields_weak; [apply read_byte; [repeat split; (exact Hb || exact Hd || (unfold PCI_HEADER_TYPE; lia))|exact Sh]|]. intros v s2 (-> & V2 & S2).
  rewrite (S1 b d PCI_HEADER_TYPE) by (apply Sh; lia). fold f.
  set (r := if Z.land (f PCI_HEADER_TYPE) 0x7f =? 2 then PCI_CB_CAPABILITY_LIST else PCI_CAPABILITY_LIST) in *.
  assert (Rr : 0 <= r < 256 /\ steady b d r 1) by (subst r; destruct (_ =? 2); (split; [cbv; split; congruence|assumption])).
  apply yields_bind. eapply yields_weak; [apply read_byte; [exact (conj Hb (conj Hd (proj1 Rr)))|apply Rr]|]. intros v s3 (-> & V3 & S3).
  rewrite (S2 b d r), (S1 b d r) by (apply (proj2 Rr); lia). fold (f r).
  eapply yields_weak; [apply (cap_walk_spec b d cap l Hb Hd St 48 _ s3); [|exact Hl|apply conf_byte]|].
  - apply (linked_conf f); auto; [|apply conf_byte|intros; apply conf_byte]. intros i Hi. unfold f. rewrite S3, S2, S1 by (apply St; exact Hi). reflexivity.
  - intros v s4 (-> & V4 & S4). split; [reflexivity|]. split; [congruence|]. exact (stays_trans _ _ _ S1 (stays_trans _ _ _ S2 (stays_trans _ _ _ S3 S4))).
Qed.

Lemma land_5 x : Z.land x 5 = 5 <-> Z.testbit x 0 = true /\ Z.testbit x 2 = true.
Proof.
  split.
  - intros E. split; [assert (B : Z.testbit (Z.land x 5) 0 = true) by (rewrite E; reflexivity)|assert (B : Z.testbit (Z.land x 5) 2 = true) by (rewrite E; reflexivity)];
      rewrite Z.land_spec in B; now apply andb_true_iff in B.
  - intros [A B]. apply Z.bits_inj'. intros i Hi. rewrite Z.land_spec.
    destruct (Z.eq_dec i 0) as [->|]; [now rewrite A|]. destruct (Z.eq_dec i 2) as [->|]; [now rewrite B|].
    replace (Z.testbit 5 i) with false; [apply andb_false_r|]. destruct (Z.eq_dec i 1) as [->|]; [reflexivity|].
    symmetry. apply (Z.bits_above_log2 5 i); cbn; lia.
Qed.
(** Afterwards the card is a bus master that answers to ports, with a latency of 32 clocks at least. *)
Lemma adjust_pci_device_spec (mc ml : Z) b d s :
  0 <= b < 256 -> 0 <= d < 256 -> 0 <= ml < 256 -> Z.land mc 5 = 5 -> Z.testbit ml 5 = true -> writable b d PCI_COMMAND = Some mc ->
  writable b d (PCI_COMMAND + 1) <> None -> writable b d PCI_LATENCY_TIMER = Some ml ->
  yields (adjust_pci_device (V := V) b d) (fun _ s' => fst s' = fst s /\ Z.land (conf (hw s') b d PCI_COMMAND) 5 = 5 /\ 32 <= conf (hw s') b d PCI_LATENCY_TIMER) s.
Proof.
  intros Hb Hd Hml Hmc Hl Wc Wc1 Wl. unfold adjust_pci_device.
  assert (Sc : steady b d PCI_COMMAND 2) by (intros i Hi; assert (C : i = PCI_COMMAND \/ i = PCI_COMMAND + 1) by lia; destruct C as [-> | ->]; [rewrite Wc; discriminate|exact Wc1]).
  apply yields_bind. eapply yields_weak; [apply read_word; [repeat split; (exact Hb || exact Hd || (unfold PCI_COMMAND; lia))|reflexivity|exact Sc]|]. intros v s1 (-> & V1 & S1).
  set (v := le_word 2 (conf (hw s) b d) PCI_COMMAND).
  assert (Bv : forall i, 0 <= i < 8 -> Z.testbit v i = Z.testbit (conf (hw s) b d PCI_COMMAND) i).
  { intros i Hi. unfold v. rewrite word_testbit by (lia || (intros; apply conf_byte)). destruct (Z.ltb_spec i (8 * Z.of_nat 2)); [|lia]. cbn [andb].
    rewrite Z.div_small, Z.mod_small, Z.add_0_r by lia. reflexivity. }
  apply yields_bind. apply (yields_weak _ (fun _ s2 => fst s2 = fst s /\ Z.land (conf (hw s2) b d PCI_COMMAND) 5 = 5)).
  - destruct (Z.eqb_spec v (Z.lor v 5)) as [E|E]; cbn [negb].
    + apply yields_ret. split; [exact V1|]. rewrite (S1 b d PCI_COMMAND) by (rewrite Wc; discriminate). apply land_5.
      rewrite <- !Bv by lia. rewrite E, !Z.lor_spec. cbn. rewrite !orb_true_r. auto.
    + unfold pcibios_write_config_word, outw. change (Z.land PCI_COMMAND 2) with 0.
      eapply yields_weak; [apply (config_write 2 (u16 (Z.lor v 5)) b d PCI_COMMAND 0 s1); [cbn; tauto|repeat split; (exact Hb || exact Hd || (unfold PCI_COMMAND; lia))|reflexivity|lia|reflexivity]|].
      intros _ s2 (V2 & W2). split; [congruence|]. rewrite (W2 _ _ _ _ Wc), !Z.eqb_refl. cbn [andb Z.leb Z.ltb PCI_COMMAND Z.of_nat Pos.of_succ_nat Pos.succ Z.add Pos.add Z.compare Pos.compare Pos.compare_cont].
      apply land_5 in Hmc. apply land_5. unfold merge, byte_of. rewrite !Z.lor_spec, !Z.land_spec, (proj1 Hmc), (proj2 Hmc), !andb_true_r.
      unfold u8, u16. change 256 with (2 ^ 8). change 65536 with (2 ^ 16). rewrite !Z.mod_pow2_bits_low, !Z.shiftr_spec, !Z.mod_pow2_bits_low, !Z.lor_spec by (cbn; lia).
      cbn. rewrite !orb_true_r. auto.
  - intros _ s2 (V2 & C2).
    apply yields_bind. eapply yields_weak; [apply read_byte; [repeat split; (exact Hb || exact Hd || (unfold PCI_LATENCY_TIMER; lia))|intros i Hi; replace i with PCI_LATENCY_TIMER by lia; rewrite Wl; discriminate]|].
    intros l s3 (-> & V3 & S3).
    assert (C3 : Z.land (conf (hw s3) b d PCI_COMMAND) 5 = 5) by (rewrite (S3 b d PCI_COMMAND) by (rewrite Wc; discriminate); exact C2).
    destruct (Z.ltb_spec (conf (hw s2) b d PCI_LATENCY_TIMER) 32) as [L|L].
    + unfold pcibios_write_config_byte, outb. change (Z.land PCI_LATENCY_TIMER 3) with 1.
      eapply yields_weak; [apply (config_write 1 (u8 32) b d PCI_LATENCY_TIMER 1 s3); [cbn; tauto|repeat split; (exact Hb || exact Hd || (unfold PCI_LATENCY_TIMER; lia))|reflexivity|lia|reflexivity]|].
      intros _ s4 (V4 & W4). split; [congruence|]. split; [rewrite (W4 _ _ _ _ Wc), !Z.eqb_refl; exact C3|].
      rewrite (W4 _ _ _ _ Wl), !Z.eqb_refl. cbn [andb]. change ((PCI_LATENCY_TIMER <=? PCI_LATENCY_TIMER) && (PCI_LATENCY_TIMER <? PCI_LATENCY_TIMER + Z.of_nat 1)) with true.
      cbn iota. rewrite Z.sub_diag. change (byte_of (u8 32) 0) with 32.
      set (o := conf (hw s3) b d PCI_LATENCY_TIMER). assert (Ho : 0 <= o < 256) by apply conf_byte.
      pose proof (merge_byte ml o 32 Ho Hml ltac:(lia)) as Mb. destruct (Z.lt_ge_cases (merge ml o 32) 32) as [Q|Q]; [|exact Q]. exfalso.
      assert (T : Z.testbit (merge ml o 32) 5 = true) by (unfold merge; rewrite Z.lor_spec, Z.land_spec, Hl; cbn; apply orb_true_r).
      rewrite <- (Z.mod_small (merge ml o 32) (2 ^ 5)) in T by (change (2 ^ 5) with 32; lia). rewrite Z.mod_pow2_bits_high in T by lia. discriminate T.
    + apply yields_ret. split; [congruence|]. split; [exact C3|]. rewrite (S3 b d PCI_LATENCY_TIMER) by (rewrite Wl; discriminate). exact L.
Qed.
End devices.
