(* ===== verification/IdePio.v ===== *)
(** The transfers of the IDE driver by programmed I/O ([src/src/drivers/disk/ide_disk.c]), over the ports of Ports.v: the waits, the
    registers of a command and the words of the data.

    What is known of a drive is the class [Ata], in the terms of the ATA standard: the registers keep the last two values written to them, a command that
    reads a sector makes the drive busy, and then it has the contents of the sector or has failed.  [ide_is_drive] puts the driver of Disk.v on
    top of these transfers and shows that it is a disk. *)

From S2P Require Import Prelude Memory StringLib Misc Net Heap OsLoader Pci Disk Ports.
Local Open Scope etherboot_scope.

(** ** The driver *)

Section pio.
Context {H : Type} `{Bus H} (poll_interruptions : io H unit unit) (fuel : nat).
Local Abbreviation P := (io H unit).
(** [struct controller]; the macros for the registers use it under the name [ctrl]. *)
Context (cmd_base ctrl_base : Z).
Definition IDE_REG_DATA : Z := cmd_base + 0.
Definition IDE_REG_FEATURE : Z := cmd_base + 1.
Definition IDE_REG_SECTOR_COUNT : Z := cmd_base + 2.
Definition IDE_REG_LBA_LOW : Z := cmd_base + 3.
Definition IDE_REG_LBA_MID : Z := cmd_base + 4.
Definition IDE_REG_LBA_HIGH : Z := cmd_base + 5.
Definition IDE_REG_DEVICE : Z := cmd_base + 6.
Definition IDE_REG_STATUS : Z := cmd_base + 7.
Definition IDE_REG_COMMAND : Z := cmd_base + 7.
Definition IDE_REG_DEVICE_CONTROL : Z := ctrl_base + 2.
Definition IDE_STATUS_BSY : Z := 0x80.
Definition IDE_STATUS_DRQ : Z := 0x08.
Definition IDE_CTRL_HD15 : Z := 0x08.
Definition IDE_CTRL_NIEN : Z := 0x02.
Definition IDE_TIMEOUT : Z := 32 * TICKS_PER_SEC.

Fixpoint await_ide (done : P bool) (n : nat) (timeout : Z) : P Z :=
  match n with
  | O => istuck
  | S n =>
      result <<- done ;;
      if result : bool then iret 0
      else
        poll_interruptions ;;>
        if timeout =? 0 then iret (-1)
        else now <<- currticks_io ;; if now >? timeout then iret (-1) else await_ide done n timeout
  end.
Definition not_bsy : P bool := v <<- inb IDE_REG_STATUS ;; iret (Z.land v IDE_STATUS_BSY =? 0).
(** [await_ide(not_bsy, ctrl, currticks() + IDE_TIMEOUT)] *)
Definition await_not_bsy : P Z := now <<- currticks_io ;; await_ide not_bsy fuel (u32 (now + IDE_TIMEOUT)).
Definition pio_set_registers (cmd : Ide.ide_pio_command) : P unit :=
  outb (Z.lor IDE_CTRL_HD15 IDE_CTRL_NIEN) IDE_REG_DEVICE_CONTROL ;;>
  device <<- inb IDE_REG_DEVICE ;;
  outb (Ide.device cmd) IDE_REG_DEVICE ;;>
  (if negb (Z.land device (Z.shiftl 1 4) =? Z.land (Ide.device cmd) (Z.shiftl 1 4)) then mdelay poll_interruptions fuel 50 else iret tt) ;;>
  outb (Ide.feature cmd) IDE_REG_FEATURE ;;>
  outb (Ide.sector_count2 cmd) IDE_REG_SECTOR_COUNT ;;>
  outb (Ide.sector_count cmd) IDE_REG_SECTOR_COUNT ;;>
  outb (Ide.lba_low2 cmd) IDE_REG_LBA_LOW ;;>
  outb (Ide.lba_low cmd) IDE_REG_LBA_LOW ;;>
  outb (Ide.lba_mid2 cmd) IDE_REG_LBA_MID ;;>
  outb (Ide.lba_mid cmd) IDE_REG_LBA_MID ;;>
  outb (Ide.lba_high2 cmd) IDE_REG_LBA_HIGH ;;>
  outb (Ide.lba_high cmd) IDE_REG_LBA_HIGH ;;>
  outb (Ide.command cmd) IDE_REG_COMMAND.
Definition pio_non_data (cmd : Ide.ide_pio_command) : P Z :=
  r <<- await_not_bsy ;;
  if r <? 0 then iret (-1)
  else
    pio_set_registers cmd ;;>
    r <<- await_not_bsy ;;
    if r <? 0 then iret (-1) else iret 0.
(** The string instruction: [count] words from the port to memory. *)
Fixpoint insw (port addr : Z) (count : nat) : P unit :=
  match count with
  | O => iret tt
  | S n => v <<- inw port ;; istore (fun m => st16 m addr v) ;;> insw port (addr + 2) n
  end.
Definition pio_data_in (cmd : Ide.ide_pio_command) (buffer bytes : Z) : P Z :=
  r <<- await_not_bsy ;;
  if r <? 0 then iret (-1)
  else
    pio_set_registers cmd ;;>
    r <<- await_not_bsy ;;
    if r <? 0 then iret (-1)
    else
      status <<- inb IDE_REG_STATUS ;;
      if Z.land status IDE_STATUS_DRQ =? 0 then iret (-1)
      else
        insw IDE_REG_DATA buffer (Z.to_nat (bytes / 2)) ;;>
        status <<- inb IDE_REG_STATUS ;;
        if negb (Z.land status IDE_STATUS_DRQ =? 0) then iret (-1) else iret 0.
End pio.

(** ** A drive *)

(** What it is doing: nothing; a command, of which these bytes or a failure will come; or it has bytes to give. *)
Inductive phase := Idle | Busy (answer : option (list Z)) | Sending (data : list Z).
(** The command that the registers hold when [v] is written to the command register: each keeps the last value written to it and the one before. *)
Definition registers (cur prev : Z -> Z) (v : Z) : Ide.ide_pio_command :=
  {| Ide.feature := cur 1; Ide.sector_count := cur 2; Ide.lba_low := cur 3; Ide.lba_mid := cur 4; Ide.lba_high := cur 5; Ide.device := cur 6;
     Ide.command := v; Ide.sector_count2 := prev 2; Ide.lba_low2 := prev 3; Ide.lba_mid2 := prev 4; Ide.lba_high2 := prev 5 |}.
(** What becomes of it when it is not busy any more. *)
Definition resolved (p : phase) : phase :=
  match p with Busy (Some l) => Sending l | Busy None => Idle | Idle => Idle | Sending l => Sending l end.
(** What a reading [v] of the status register shows of a drive that was in phase [p] and is then in phase [p']. *)
Definition shows (v : Z) (p p' : phase) : Prop :=
  (Z.land v 0x80 <> 0 /\ p' = p /\ exists a, p = Busy a) \/
  (Z.land v 0x80 = 0 /\ p' = resolved p /\
   (Z.land v 0x08 <> 0 <-> match p' with Sending (_ :: _) => True | _ => False end)).

(** A drive with the geometry [info] and the contents [medium], behind the ports at [cb] and [ctl].  The clock goes past any time but 2^32 - 1, which it
    cannot, after a number of readings, and the timer of the processor ends likewise; the one tick from which the deadline of a command, 32 seconds, is that time is left out. *)
Class Ata (cb ctl : Z) (info : Ide.harddisk_info) (medium : Z -> list Z) (H : Type) `{Bus H} := {
  cur : H -> Z -> Z;
  prev : H -> Z -> Z;
  ph : H -> phase;
  clock_left : H -> Z -> nat;
  timer_left : H -> nat;
  timer_bound : nat;
  clock_mono (x x' : mem * H) : Prop := forall t, (clock_left (snd x') t <= clock_left (snd x) t)%nat;
  same_mem (x x' : mem * H) : Prop := forall a, ld8 (fst x') a = ld8 (fst x) a;
  same_regs (x x' : mem * H) : Prop := forall r, cur (snd x') r = cur (snd x) r /\ prev (snd x') r = prev (snd x) r;
  same_drive (x x' : mem * H) : Prop := clock_mono x x' /\ same_mem x x' /\ same_regs x x' /\ ph (snd x') = ph (snd x);
  ata_base : 256 <= cb /\ cb + 8 <= 65536 /\ 256 <= ctl /\ ctl + 3 <= 65536 /\ (ctl + 2 < cb \/ cb + 8 <= ctl + 2);
  ata_timer h : (timer_left h <= timer_bound)%nat;
  (** Other ports do not matter to it, nor the control register as long as its reset bit is not set. *)
  ata_in x w port : port < cb \/ cb + 8 <= port -> let '(v, x') := bus_in w port x in
    same_drive x x' /\ (timer_left (snd x') <= timer_left (snd x))%nat /\
    (w = 1%nat -> port = PPC_PORTB -> Z.land v PPCB_T2OUT = 0 -> (timer_left (snd x') < timer_left (snd x))%nat);
  ata_out x w v port : port < cb \/ cb + 8 <= port -> (port = ctl + 2 -> Z.testbit v 2 = false) -> same_drive x (bus_out w port v x);
  ata_clock x : let '(v, x') := bus_ticks x in
    same_drive x x' /\ 0 <= v < 4294967296 /\ v <> 4294966719 /\ forall t, v <= t < 4294967295 -> (clock_left (snd x') t < clock_left (snd x) t)%nat;
  ata_status x : let '(v, x') := bus_in 1 (cb + 7) x in
    clock_mono x x' /\ same_mem x x' /\ same_regs x x' /\ shows v (ph (snd x)) (ph (snd x'));
  ata_device x : let '(v, x') := bus_in 1 (cb + 6) x in same_drive x x';
  ata_register x r v : 1 <= r <= 6 -> 0 <= v < 256 -> ph (snd x) = Idle ->
    let x' := bus_out 1 (cb + r) v x in
    clock_mono x x' /\ same_mem x x' /\ ph (snd x') = Idle /\
    forall k, cur (snd x') k = (if k =? r then v else cur (snd x) k) /\ prev (snd x') k = (if k =? r then cur (snd x) k else prev (snd x) k);
  (** A command that reads a sector. *)
  ata_read x v s : ph (snd x) = Idle -> reads_sector info (registers (cur (snd x)) (prev (snd x)) v) = Some s -> 0 <= s < Ide.info_sectors info ->
    let x' := bus_out 1 (cb + 7) v x in
    clock_mono x x' /\ same_mem x x' /\ (ph (snd x') = Busy (Some (medium s)) \/ ph (snd x') = Busy None);
  (** The data, a word at a time. *)
  ata_data x a b l : ph (snd x) = Sending (a :: b :: l) -> let '(v, x') := bus_in 2 (cb + 0) x in
    v = a + 256 * b /\ clock_mono x x' /\ same_mem x x' /\ ph (snd x') = (match l with [] => Idle | _ => Sending l end);
}.

Section drive.
Context {H : Type} (cb ctl : Z) (info : Ide.harddisk_info) (medium : Z -> list Z) `{Ata cb ctl info medium H}.
Implicit Type s : unit * (mem * H).

(** Programs that leave the drive as it is. *)
Definition drive_same s s' : Prop := same_drive (snd s) (snd s').
Definition spares {A} (c : io H unit A) : Prop := forall s, yields c (fun _ s' => drive_same s s') s.
(** A poll of the keyboard, which returns when the user does not interrupt. *)
Definition polls (c : io H unit unit) : Prop := forall s, yields c (fun _ s' => drive_same s s' /\ (timer_left (hw s') <= timer_left (hw s))%nat) s.
Context (poll : io H unit unit) (Poll : polls poll).

Lemma same_drive_refl x : same_drive x x.
Proof. repeat split; auto. intros t. lia. Qed.
Lemma clock_mono_trans x y z : clock_mono x y -> clock_mono y z -> clock_mono x z.
Proof. intros A B t. specialize (A t). specialize (B t). lia. Qed.
Lemma same_mem_trans x y z : same_mem x y -> same_mem y z -> same_mem x z.
Proof. intros A B a. now rewrite (B a). Qed.
Lemma same_regs_trans x y z : same_regs x y -> same_regs y z -> same_regs x z.
Proof. intros A B r. destruct (A r), (B r). split; congruence. Qed.
Lemma same_drive_trans x y z : same_drive x y -> same_drive y z -> same_drive x z.
Proof.
  intros (A & B & C & D) (A' & B' & C' & D'). split; [exact (clock_mono_trans _ _ _ A A')|]. split; [exact (same_mem_trans _ _ _ B B')|].
  split; [exact (same_regs_trans _ _ _ C C')|congruence].
Qed.
Lemma spares_bind {A B} (c : io H unit A) (k : A -> io H unit B) : spares c -> (forall a, spares (k a)) -> spares (ibind c k).
Proof.
  intros C K s. apply yields_bind. eapply yields_weak; [apply C|]. intros a s1 Q. eapply yields_weak; [apply K|].
  intros b s2 R. exact (same_drive_trans _ _ _ Q R).
Qed.
Lemma spares_ret {A} (a : A) : spares (iret a).
Proof. intros s. apply yields_ret, same_drive_refl. Qed.
Lemma spares_in w port : 0 <= port < 256 -> spares (iin w port).
Proof.
  intros Hp s. apply yields_in. intros v x E. rewrite u16_small in E by lia. pose proof ata_base as (B & _).
  assert (Hq : port < cb \/ cb + 8 <= port) by lia. pose proof (ata_in (snd s) w port Hq) as T. rewrite E in T. apply T.
Qed.
Lemma spares_out w v port : 0 <= port < 256 -> spares (iout w v port).
Proof. intros Hp s. apply yields_out. pose proof ata_base as (B & _ & C & _). rewrite u16_small by lia. apply ata_out; [lia|intros E; exfalso; lia]. Qed.
Lemma spares_poll : spares poll.
Proof. intros s. eapply yields_weak; [apply Poll|]. now intros a s' (Q & _). Qed.
Lemma spares_load_timer2 t : spares (load_timer2 t).
Proof. unfold load_timer2, outb, inb, TIMER_MODE_PORT, TIMER2_PORT, PPC_PORTB. repeat (apply spares_bind; [first [apply spares_in | apply spares_out]; lia|intros]). apply spares_out. lia. Qed.
Lemma while_ends n : forall s, (timer_left (hw s) < n)%nat -> yields (while_timer2 poll n) (fun _ s' => drive_same s s') s.
Proof.
  induction n as [|n IH]; intros s L; [lia|]. cbn [while_timer2]. unfold timer2_running, inb. apply yields_bind, yields_bind.
  apply yields_in. intros v x E. pose proof ata_base as (B & _). change (u16 PPC_PORTB) with PPC_PORTB in E.
  assert (Hq : PPC_PORTB < cb \/ cb + 8 <= PPC_PORTB) by (unfold PPC_PORTB; lia). pose proof (ata_in (snd s) 1 PPC_PORTB Hq) as T. rewrite E in T. destruct T as (T1 & _ & T3).
  apply yields_ret. destruct (Z.eqb_spec (Z.land v PPCB_T2OUT) 0) as [Z0|]; [|now apply yields_ret].
  specialize (T3 eq_refl eq_refl Z0). apply yields_bind. eapply yields_weak; [apply Poll|]. intros _ s2 (Q2 & L2).
  eapply yields_weak; [apply IH; unfold hw in *; cbn [snd] in *; lia|]. intros u s3 Q3. exact (same_drive_trans _ _ _ T1 (same_drive_trans _ _ _ Q2 Q3)).
Qed.
Context (fuel : nat) (Hf : (timer_bound < fuel)%nat).
Lemma spares_while : spares (while_timer2 poll fuel).
Proof. intros s. apply while_ends. pose proof (ata_timer (hw s)). lia. Qed.
Lemma spares_mdelay n : spares (mdelay poll fuel n).
Proof.
  induction n as [|n IH]; cbn [mdelay]; [apply spares_ret|]. unfold udelay, waiton_timer2.
  apply spares_bind; [apply spares_bind; [apply spares_load_timer2|intros _; apply spares_while]|intros _].
  apply spares_bind; [apply spares_poll|intros _; exact IH].
Qed.

(** *** Waiting *)

Lemma not_bsy_spec s : yields (not_bsy cb) (fun b s' =>
  clock_mono (snd s) (snd s') /\ same_mem (snd s) (snd s') /\ same_regs (snd s) (snd s') /\
  if b : bool then (forall a, ph (hw s') <> Busy a) /\ ph (hw s') = resolved (ph (hw s))
  else ph (hw s') = ph (hw s)) s.
Proof.
  unfold not_bsy, inb, IDE_REG_STATUS. apply yields_bind, yields_in. intros v x E. pose proof ata_base as (B1 & B2 & _). rewrite u16_small in E by lia.
  pose proof (ata_status (snd s)) as T. rewrite E in T. destruct T as (C & M & R & S). apply yields_ret. unfold hw. cbn [snd].
  split; [exact C|]. split; [exact M|]. split; [exact R|]. unfold IDE_STATUS_BSY. destruct S as [(S1 & S2 & _)|(S1 & S2 & _)].
  - destruct (Z.eqb_spec (Z.land v 0x80) 0); [contradiction|exact S2].
  - rewrite S1. cbn [Z.eqb]. split; [|exact S2]. intros a. rewrite S2. now destruct (ph (snd (snd s))) as [|[l|]|l].
Qed.
(** It ends; at success the drive is not busy. *)
Lemma await_spec to n : 0 <= to < 4294967295 -> forall s, (clock_left (hw s) to < n)%nat ->
  yields (await_ide poll (not_bsy cb) n to) (fun r s' =>
    clock_mono (snd s) (snd s') /\ same_mem (snd s) (snd s') /\ same_regs (snd s) (snd s') /\
    (r = -1 \/ r = 0 /\ (forall a, ph (hw s') <> Busy a) /\ ph (hw s') = resolved (ph (hw s)))) s.
Proof.
  intros Hto. induction n as [|n IH]; intros s L; [lia|]. cbn [await_ide]. apply yields_bind. eapply yields_weak; [apply not_bsy_spec|].
  intros b s1 (C1 & M1 & R1 & P1). cbv beta. destruct b; [apply yields_ret; split; [exact C1|]; split; [exact M1|]; split; [exact R1|]; right; split; [reflexivity|exact P1]|].
  apply yields_bind. eapply yields_weak; [apply Poll|]. intros _ s2 ((C2 & M2 & R2 & P2) & _). cbv beta.
  destruct (Z.eqb_spec to 0) as [Ez|Ez].
  { apply yields_ret. split; [exact (clock_mono_trans _ _ _ C1 C2)|]. split; [exact (same_mem_trans _ _ _ M1 M2)|]. split; [exact (same_regs_trans _ _ _ R1 R2)|now left]. }
  apply yields_bind. unfold yields at 1, currticks_io. pose proof (ata_clock (snd s2)) as T. destruct (bus_ticks (snd s2)) as [now x].
  destruct T as ((C3 & M3 & R3 & P3) & Hn & _ & L3). rewrite Z.gtb_ltb. pose proof (clock_mono_trans _ _ _ C1 C2) as C4.
  pose proof (same_mem_trans _ _ _ M1 (same_mem_trans _ _ _ M2 M3)) as M5. pose proof (same_regs_trans _ _ _ R1 (same_regs_trans _ _ _ R2 R3)) as R5.
  destruct (Z.ltb_spec to now).
  - apply yields_ret. split; [exact (clock_mono_trans _ _ _ C4 C3)|]. split; [exact M5|]. split; [exact R5|now left].
  - specialize (L3 to ltac:(lia)). pose proof (C4 to) as L4. eapply yields_weak; [apply IH; unfold hw in *; cbn [snd] in *; lia|].
    intros r s' (C6 & M6 & R6 & P6). cbv beta. cbn [snd] in *. split; [exact (clock_mono_trans _ _ _ (clock_mono_trans _ _ _ C4 C3) C6)|].
    split; [exact (same_mem_trans _ _ _ M5 M6)|]. split; [exact (same_regs_trans _ _ _ R5 R6)|].
    destruct P6 as [P6|(P6 & P7 & P8)]; [now left|right]. split; [exact P6|]. split; [exact P7|]. rewrite P8. unfold hw in *. cbn [snd].
    rewrite P3, P2, P1. reflexivity.
Qed.
Lemma await_not_bsy_spec s : (forall t, clock_left (hw s) t < fuel)%nat ->
  yields (await_not_bsy poll fuel cb) (fun r s' =>
    clock_mono (snd s) (snd s') /\ same_mem (snd s) (snd s') /\ same_regs (snd s) (snd s') /\
    (r = -1 \/ r = 0 /\ (forall a, ph (hw s') <> Busy a) /\ ph (hw s') = resolved (ph (hw s)))) s.
Proof.
  intros L. unfold await_not_bsy. apply yields_bind. unfold yields at 1, currticks_io. pose proof (ata_clock (snd s)) as T. destruct (bus_ticks (snd s)) as [now x].
  destruct T as ((C3 & M3 & R3 & P3) & Hn & Hd & L3). change IDE_TIMEOUT with 576. set (to := u32 (now + 576)).
  assert (Ht : 0 <= to < 4294967295) by (unfold to, u32; Z.div_mod_to_equations; lia).
  eapply yields_weak; [apply await_spec; [exact Ht|specialize (C3 to); specialize (L to); unfold hw in *; cbn [snd]; lia]|].
  intros r s' (C6 & M6 & R6 & P6). cbv beta. cbn [snd] in *. split; [exact (clock_mono_trans _ _ _ C3 C6)|].
  split; [exact (same_mem_trans _ _ _ M3 M6)|]. split; [exact (same_regs_trans _ _ _ R3 R6)|].
  destruct P6 as [P6|(P6 & P7 & P8)]; [now left|right]. split; [exact P6|]. split; [exact P7|]. rewrite P8. unfold hw. cbn [snd]. now rewrite P3.
Qed.

(** *** A command *)

(** The registers after a number of writes, the last first. *)
Definition holds (l : list (Z * Z)) (c0 p0 : Z -> Z) s : Prop :=
  forall r, cur (hw s) r = fst (fold_right (fun '(k, v) f => if r =? k then (v, fst f) else f) (c0 r, p0 r) l) /\
            prev (hw s) r = snd (fold_right (fun '(k, v) f => if r =? k then (v, fst f) else f) (c0 r, p0 r) l).
(** A step of setting the registers: the memory and the clock are as in [s0]. *)
Definition setting s0 (l : list (Z * Z)) (c0 p0 : Z -> Z) s : Prop :=
  clock_mono (snd s0) (snd s) /\ same_mem (snd s0) (snd s) /\ ph (hw s) = Idle /\ holds l c0 p0 s.
Lemma setting_spares {A B} (c : io H unit A) (k : A -> io H unit B) Q s0 l c0 p0 s : spares c -> setting s0 l c0 p0 s ->
  (forall a s', setting s0 l c0 p0 s' -> yields (k a) Q s') -> yields (ibind c k) Q s.
Proof.
  intros C (S1 & S2 & S3 & S4) K. apply yields_bind. eapply yields_weak; [apply C|]. intros a s' (C' & M' & R' & P'). apply K.
  split; [exact (clock_mono_trans _ _ _ S1 C')|]. split; [exact (same_mem_trans _ _ _ S2 M')|]. unfold hw in *. split; [congruence|].
  intros r. destruct (S4 r) as (A1 & A2), (R' r) as (A3 & A4). unfold hw in *. split; congruence.
Qed.
Lemma setting_out {B} (k : unit -> io H unit B) Q s0 l c0 p0 s r v : 1 <= r <= 6 -> 0 <= v < 256 -> setting s0 l c0 p0 s ->
  (forall s', setting s0 ((r, v) :: l) c0 p0 s' -> yields (k tt) Q s') -> yields (ibind (outb v (cb + r)) k) Q s.
Proof.
  intros Hr Hv (S1 & S2 & S3 & S4) K. apply yields_bind. unfold outb. apply yields_out. pose proof ata_base as (B1 & B2 & _).
  rewrite u16_small, u8_small by lia. destruct (ata_register (snd s) r v Hr Hv S3) as (C & M & I & R). apply K.
  split; [exact (clock_mono_trans _ _ _ S1 C)|]. split; [exact (same_mem_trans _ _ _ S2 M)|]. split; [exact I|].
  intros q. destruct (R q) as (R1 & R2), (S4 q) as (A1 & A2). unfold hw in *. cbn [fold_right snd]. rewrite R1, R2, A1, A2.
  destruct (q =? r); split; reflexivity.
Qed.
Lemma pio_set_registers_spec c sct s : command_bytes c -> reads_sector info c = Some sct -> 0 <= sct < Ide.info_sectors info -> ph (hw s) = Idle ->
  yields (pio_set_registers poll fuel cb ctl c) (fun _ s' =>
    clock_mono (snd s) (snd s') /\ same_mem (snd s) (snd s') /\ (ph (hw s') = Busy (Some (medium sct)) \/ ph (hw s') = Busy None)) s.
Proof.
  intros Hb Hc Hr Hp. unfold command_bytes in Hb. rewrite !Forall_cons_iff in Hb.
  destruct Hb as (Q1 & Q2 & Q3 & Q4 & Q5 & Q6 & Q7 & Q8 & Q9 & Q10 & Q11 & _).
  assert (S0 : setting s [] (cur (hw s)) (prev (hw s)) s) by (split; [intros t; lia|split; [intros a; reflexivity|split; [exact Hp|intros r; split; reflexivity]]]).
  unfold pio_set_registers. eapply setting_spares; [|exact S0|]; [|intros _ s1 S1].
  { intros x. unfold outb. apply yields_out. pose proof ata_base as (B1 & B2 & B3 & B4 & B5). unfold IDE_REG_DEVICE_CONTROL. rewrite u16_small by lia.
    apply ata_out; [lia|]. intros _. reflexivity. }
  eapply setting_spares; [|exact S1|]; [|intros dv s2 S2].
  { intros x. unfold inb. apply yields_in. intros v x' E. pose proof ata_base as (B1 & B2 & _). unfold IDE_REG_DEVICE in E. rewrite u16_small in E by lia.
    pose proof (ata_device (snd x)) as T. rewrite E in T. exact T. }
  unfold IDE_REG_DEVICE, IDE_REG_FEATURE, IDE_REG_SECTOR_COUNT, IDE_REG_LBA_LOW, IDE_REG_LBA_MID, IDE_REG_LBA_HIGH, IDE_REG_COMMAND.
  eapply setting_out; [lia|exact Q6|exact S2|]. intros s3 S3.
  eapply setting_spares; [|exact S3|]; [|intros _ s4 S4].
  { destruct (negb _); [apply spares_mdelay|apply spares_ret]. }
  eapply setting_out; [lia|exact Q1|exact S4|]. intros s5 S5.
  eapply setting_out; [lia|exact Q8|exact S5|]. intros s6 S6.
  eapply setting_out; [lia|exact Q2|exact S6|]. intros s7 S7.
  eapply setting_out; [lia|exact Q9|exact S7|]. intros s8 S8.
  eapply setting_out; [lia|exact Q3|exact S8|]. intros s9 S9.
  eapply setting_out; [lia|exact Q10|exact S9|]. intros s10 S10.
  eapply setting_out; [lia|exact Q4|exact S10|]. intros s11 S11.
  eapply setting_out; [lia|exact Q11|exact S11|]. intros s12 S12.
  eapply setting_out; [lia|exact Q5|exact S12|]. intros s13 (C13 & M13 & I13 & R13).
  assert (E : registers (cur (hw s13)) (prev (hw s13)) (Ide.command c) = c).
  { unfold registers. destruct (R13 1) as (-> & _), (R13 2) as (-> & ->), (R13 3) as (-> & ->), (R13 4) as (-> & ->), (R13 5) as (-> & ->), (R13 6) as (-> & _).
    destruct c; reflexivity. }
  unfold outb. apply yields_out. pose proof ata_base as (B1 & B2 & _). rewrite u16_small, u8_small by lia.
  destruct (ata_read (snd s13) (Ide.command c) sct I13) as (C & M & Ph); [unfold hw in E; now rewrite E|exact Hr|].
  split; [exact (clock_mono_trans _ _ _ C13 C)|]. split; [exact (same_mem_trans _ _ _ M13 M)|exact Ph].
Qed.

(** *** The data *)

Fixpoint even_bytes (l : list Z) : Prop := match l with [] => True | a :: b :: l => 0 <= a < 256 /\ 0 <= b < 256 /\ even_bytes l | [_] => False end.
Lemma insw_spec n : forall l addr s, ph (hw s) = Sending l -> even_bytes l -> length l = (2 * n)%nat -> (0 < n)%nat ->
  yields (insw (cb + 0) addr n) (fun _ s' =>
    clock_mono (snd s) (snd s') /\ ph (hw s') = Idle /\ ldn (fst (snd s')) addr (length l) = l /\
    forall x, x < addr \/ addr + Z.of_nat (length l) <= x -> ld8 (fst (snd s')) x = ld8 (fst (snd s)) x) s.
Proof.
  induction n as [|n IH]; intros l addr s Hp He Hl Hn; [lia|]. destruct l as [|a [|b l]]; [discriminate|destruct He|].
  destruct He as (Ha & Hb & He). cbn [insw]. unfold inw. apply yields_bind, yields_in. intros v x E. pose proof ata_base as (B1 & B2 & _).
  rewrite u16_small in E by lia. pose proof (ata_data (snd s) a b l Hp) as T. rewrite E in T. destruct T as (-> & C & M & P).
  apply yields_bind. unfold yields at 1, istore. cbn [fst snd]. set (m1 := st16 (fst x) addr (a + 256 * b)).
  assert (W : ldn m1 addr 2 = [a; b]).
  { unfold m1. cbn [ldn]. unfold st16. rewrite (ld8_st8_ne _ (addr + 1)), !ld8_st8_eq by lia. unfold u8. repeat f_equal; Z.div_mod_to_equations; lia. }
  assert (O : forall y, y < addr \/ addr + 2 <= y -> ld8 m1 y = ld8 (fst (snd s)) y) by (intros y Hy; unfold m1; rewrite ld8_st16_ne by lia; apply M).
  assert (Fin : forall s', clock_mono x (snd s') -> ph (hw s') = Idle -> ldn (fst (snd s')) (addr + 2) (length l) = l ->
    (forall y, y < addr + 2 \/ addr + 2 + Z.of_nat (length l) <= y -> ld8 (fst (snd s')) y = ld8 m1 y) ->
    clock_mono (snd s) (snd s') /\ ph (hw s') = Idle /\ ldn (fst (snd s')) addr (length (a :: b :: l)) = a :: b :: l /\
    forall y, y < addr \/ addr + Z.of_nat (length (a :: b :: l)) <= y -> ld8 (fst (snd s')) y = ld8 (fst (snd s)) y).
  { intros s' C' P' D' O'. split; [exact (clock_mono_trans _ _ _ C C')|]. split; [exact P'|]. cbn [length] in *. split.
    - change (a :: b :: l) with ([a; b] ++ l). change (S (S (length l))) with (2 + length l)%nat. rewrite ldn_app. f_equal; [|exact D'].
      rewrite <- W. apply ldn_ext. intros y Hy. apply O'. lia.
    - intros y Hy. rewrite O' by lia. apply O. lia. }
  destruct n as [|n].
  - cbn [length] in Hl. destruct l; [|cbn in Hl; lia]. cbn [insw]. apply yields_ret. apply Fin; [intros t; cbn [snd]; lia|exact P|reflexivity|reflexivity].
  - destruct l as [|a' l']; [cbn in Hl; lia|]. cbn [length] in Hl. remember (a' :: l') as l eqn:El. assert (Hl' : length l = (2 * S n)%nat) by (subst l; cbn [length]; lia).
    eapply yields_weak; [apply (IH l (addr + 2)); [exact P|exact He|exact Hl'|lia]|].
    intros u s' (C' & P' & D' & O'). cbn [fst snd] in *. now apply Fin.
Qed.
Lemma even_bytes_sector l : length l = 512%nat -> Forall (fun b => 0 <= b < 256) l -> even_bytes l.
Proof.
  intros Hl Hb. assert (G : forall n l, length l = (2 * n)%nat -> Forall (fun b => 0 <= b < 256) l -> even_bytes l).
  { clear. induction n as [|n IH]; intros [|a [|b l]] Hl Hb; cbn [length] in Hl; try lia; cbn [even_bytes]; [exact I|].
    inversion_clear Hb as [|? ? Ha Hb']. inversion_clear Hb' as [|? ? Hb1 Hb2]. split; [exact Ha|]. split; [exact Hb1|]. apply IH; [lia|exact Hb2]. }
  now apply (G 256%nat).
Qed.
Lemma status_spec s : (forall a, ph (hw s) <> Busy a) ->
  yields (inb (V := unit) (IDE_REG_STATUS cb)) (fun v s' =>
    clock_mono (snd s) (snd s') /\ same_mem (snd s) (snd s') /\ ph (hw s') = ph (hw s) /\
    (Z.land v 0x08 <> 0 <-> match ph (hw s) with Sending (_ :: _) => True | _ => False end)) s.
Proof.
  intros Hb. unfold inb, IDE_REG_STATUS. apply yields_in. intros v x E. pose proof ata_base as (B1 & B2 & _). rewrite u16_small in E by lia.
  pose proof (ata_status (snd s)) as T. rewrite E in T. destruct T as (C & M & R & S). split; [exact C|]. split; [exact M|]. unfold hw in *. cbn [snd].
  destruct S as [(S1 & S2 & a & S3)|(S1 & S2 & S3)]; [now destruct (Hb a)|].
  assert (Er : resolved (ph (snd (snd s))) = ph (snd (snd s))) by (destruct (ph (snd (snd s))) as [|a|l]; [reflexivity|now destruct (Hb a)|reflexivity]).
  rewrite Er in S2. rewrite S2 in S3. split; [exact S2|exact S3].
Qed.

(** The whole transfer: it ends, and the sector is in the buffer, or it has failed. *)
Lemma pio_data_in_spec c sct buffer s : command_bytes c -> reads_sector info c = Some sct -> 0 <= sct < Ide.info_sectors info ->
  length (medium sct) = 512%nat -> Forall (fun b => 0 <= b < 256) (medium sct) ->
  ph (hw s) = Idle -> (forall t, clock_left (hw s) t < fuel)%nat ->
  yields (pio_data_in poll fuel cb ctl c buffer 512) (fun r s' =>
    (forall x, ~ (buffer <= x < buffer + 512) -> ld8 (fst (snd s')) x = ld8 (fst (snd s)) x) /\
    (r = -1 \/ r = 0 /\ ldn (fst (snd s')) buffer 512 = medium sct /\ ph (hw s') = Idle)) s.
Proof.
  intros Hb Hc Hr Hl Hm Hp Hk. unfold pio_data_in.
  apply yields_bind. eapply yields_weak; [now apply await_not_bsy_spec|]. intros r s1 (C1 & M1 & R1 & P1). cbv beta.
  destruct P1 as [->|(-> & _ & P1)]; [apply yields_ret; split; [intros x _; apply M1|now left]|]. rewrite Hp in P1.
  change (0 <? 0) with false. cbv iota. apply yields_bind. eapply yields_weak; [now apply (pio_set_registers_spec c sct)|]. intros u s2 (C2 & M2 & P2). cbv beta.
  pose proof (same_mem_trans _ _ _ M1 M2) as M3. pose proof (clock_mono_trans _ _ _ C1 C2) as C3.
  apply yields_bind. eapply yields_weak; [apply await_not_bsy_spec; intros t; specialize (C3 t); specialize (Hk t); unfold hw in *; lia|].
  intros r s3 (C4 & M4 & R4 & P4). cbv beta. pose proof (same_mem_trans _ _ _ M3 M4) as M5.
  destruct P4 as [->|(-> & B4 & P4)]; [apply yields_ret; split; [intros x _; apply M5|now left]|].
  change (0 <? 0) with false. cbv iota. apply yields_bind. eapply yields_weak; [now apply status_spec|]. intros v s4 (C6 & M6 & P6 & V6). cbv beta.
  pose proof (same_mem_trans _ _ _ M5 M6) as M7. unfold IDE_STATUS_DRQ. destruct (Z.eqb_spec (Z.land v 0x08) 0) as [E|E].
  { apply yields_ret. split; [intros x _; apply M7|now left]. }
  apply V6 in E. assert (P7 : ph (hw s4) = Sending (medium sct)).
  { rewrite P6, P4. rewrite P4 in E. destruct P2 as [P2|P2]; rewrite P2 in E |- *; [reflexivity|destruct E]. }
  apply yields_bind. eapply yields_weak; [apply (insw_spec 256 (medium sct)); [exact P7|now apply even_bytes_sector|exact Hl|lia]|].
  intros u' s5 (C8 & P8 & D8 & O8). rewrite Hl in *.
  assert (O9 : forall x, ~ (buffer <= x < buffer + 512) -> ld8 (fst (snd s5)) x = ld8 (fst (snd s)) x) by (intros x Hx; rewrite O8 by lia; apply M7).
  apply yields_bind. eapply yields_weak; [apply status_spec; rewrite P8; discriminate|]. intros v' s6 (C10 & M10 & P10 & V10). cbv beta.
  assert (O11 : forall x, ~ (buffer <= x < buffer + 512) -> ld8 (fst (snd s6)) x = ld8 (fst (snd s)) x) by (intros x Hx; rewrite (M10 x); now apply O9).
  rewrite P8 in V10, P10. apply yields_ret. destruct (Z.eqb_spec (Z.land v' 0x08) 0) as [E'|E']; cbn [negb].
  - split; [exact O11|]. right. split; [reflexivity|]. split; [|exact P10]. rewrite <- D8. apply ldn_ext. intros x _. apply M10.
  - destruct (proj1 V10 E').
Qed.
End drive.

(** ** Properties *)

(** [pio_data_in] as Disk.v has it, from a state of the hardware. *)
Definition pio_at {H : Type} `{Bus H} (poll : io H unit unit) (fuel : nat) (cb ctl : Z) (h : H) (c : Ide.ide_pio_command) (buffer : Z) (m : mem) : Z * mem :=
  match pio_data_in poll fuel cb ctl c buffer SECTOR_SIZE (tt, (m, h)) with
  | Some (r, (_, (m', _))) => (r, m')
  | None => (-1, m)
  end.

(** C40: The IDE driver keeps its promise.  For a drive of any of the three addressing modes that takes commands as the ATA standard
    says and is idle, [ide_read], with the transfers over the ports, is the read function of a disk ([Drive]): it either leaves the contents of the sector
    asked for in the driver's buffer and says so, or fails and says that the buffer holds nothing, and changes no other memory.  The
    command it sends must be one that reads one sector from the drive that is meant, since nothing is known of a drive that gets another.  A transfer always ends, and after
    one that worked the drive is idle again. *)
Theorem ide_is_drive {H} `{Bus H} cb ctl info medium `{A : !Ata cb ctl info medium H} poll fuel h :
  info_ok info -> (forall s, 0 <= s < Ide.info_sectors info -> length (medium s) = 512%nat /\ Forall (fun b => 0 <= b < 256) (medium s)) ->
  polls cb ctl info medium poll -> (timer_bound < fuel)%nat -> (forall t, clock_left h t < fuel)%nat -> ph h = Idle ->
  Drive (Ide.ide_read (pio_at poll fuel cb ctl h) info) medium 1 (Ide.info_sectors info) /\
  forall s m, 0 <= s < Ide.info_sectors info -> exists r m' h',
    pio_data_in poll fuel cb ctl (ide_command info s) disk_buffer SECTOR_SIZE (tt, (m, h)) = Some (r, (tt, (m', h'))) /\ (r = -1 \/ r = 0 /\ ph h' = Idle).
Proof.
  intros I L Po Hf Hk Hp. split.
  - apply ide_drive_ok; [|exact I|apply L]. intros c s buf m r m' Hb Hc Hr E. destruct (L s Hr) as (L1 & L2). unfold pio_at in E.
    destruct (yields_run _ _ _ (pio_data_in_spec cb ctl info medium poll Po fuel Hf c s buf (tt, (m, h)) Hb Hc Hr L1 L2 Hp Hk)) as (r1 & ([] & (m1 & h1)) & E1 & O & D).
    change SECTOR_SIZE with 512 in E. rewrite E1 in E. assert (r1 = r) by congruence. assert (m1 = m') by congruence. subst. cbn [fst snd] in *.
    split; [exact O|]. destruct D as [D|(D1 & D2 & _)]; auto.
  - intros s m Hr. destruct (L s Hr) as (L1 & L2).
    destruct (yields_run _ _ _ (pio_data_in_spec cb ctl info medium poll Po fuel Hf (ide_command info s) s disk_buffer (tt, (m, h)) (ide_command_bytes info s)
      (command_reads info s I Hr) Hr L1 L2 Hp Hk)) as (r & ([] & (m' & h')) & E & _ & D).
    exists r, m', h'. split; [exact E|]. destruct D as [D|(D1 & _ & D3)]; auto.
Qed.

(** *** A drive *)

(** A slave drive of 64 sectors that answers at once; its clock jumps from 0 to the last tick there is. *)
Record bench_drive := { b_cur : Z -> Z; b_prev : Z -> Z; b_ph : phase; b_late : bool }.
Definition with_ph (p : phase) (h : bench_drive) : bench_drive := {| b_cur := b_cur h; b_prev := b_prev h; b_ph := p; b_late := b_late h |}.
Definition bench_in (w : nat) (port : Z) (x : mem * bench_drive) : Z * (mem * bench_drive) :=
  let '(m, h) := x in
  if port =? 0x1f7 then
    (match b_ph h with Busy (Some (_ :: _)) | Sending (_ :: _) => 0x48 | _ => 0x40 end, (m, with_ph (resolved (b_ph h)) h))
  else if port =? 0x1f0 then
    match b_ph h with
    | Sending (a :: b :: l) => (a + 256 * b, (m, with_ph (match l with [] => Idle | _ => Sending l end) h))
    | _ => (0, x)
    end
  else (if port =? PPC_PORTB then PPCB_T2OUT else 0, x).
Definition bench_out (w : nat) (port v : Z) (x : mem * bench_drive) : mem * bench_drive :=
  let '(m, h) := x in
  if port =? 0x1f7 then
    (m, with_ph (match reads_sector tiny_info (registers (b_cur h) (b_prev h) v) with Some s => Busy (Some (tiny_medium s)) | None => Busy None end) h)
  else if (0x1f1 <=? port) && (port <=? 0x1f6) then
    let r := port - 0x1f0 in
    (m, {| b_cur := fun k => if k =? r then v else b_cur h k; b_prev := fun k => if k =? r then b_cur h k else b_prev h k; b_ph := b_ph h; b_late := b_late h |})
  else x.
#[local] Instance bench_bus : Bus bench_drive := {|
  bus_in := bench_in; bus_out := bench_out;
  bus_ticks := fun x => (if b_late (snd x) then 4294967295 else 0,
                         (fst x, {| b_cur := b_cur (snd x); b_prev := b_prev (snd x); b_ph := b_ph (snd x); b_late := true |})) |}.
#[local] Instance bench_ata : Ata 0x1f0 0x3f4 tiny_info tiny_medium bench_drive.
Proof.
  refine {| cur := b_cur; prev := b_prev; ph := b_ph; clock_left h t := if b_late h then 0%nat else 1%nat; timer_left h := 0%nat; timer_bound := 0%nat |}.
  - lia.
  - intros h. lia.
  - intros [m h] w port Hp. unfold bus_in, bench_bus, bench_in. destruct (Z.eqb_spec port 0x1f7); [lia|]. destruct (Z.eqb_spec port 0x1f0); [lia|].
    split; [repeat split; intros t; apply Nat.le_refl|]. split; [lia|]. intros _ -> E. discriminate E.
  - intros [m h] w v port Hp _. unfold bus_out, bench_bus, bench_out. destruct (Z.eqb_spec port 0x1f7); [lia|].
    destruct (Z.leb_spec 0x1f1 port), (Z.leb_spec port 0x1f6); try lia; cbn [andb]; repeat split; intros t; apply Nat.le_refl.
  - intros [m h]. unfold bus_ticks, bench_bus. cbn [fst snd]. split; [repeat split; intros t; cbn; destruct (b_late h); lia|].
    destruct (b_late h) eqn:E; (split; [lia|split; [lia|]]); intros t Ht; cbn; rewrite ?E; lia.
  - intros [m h]. unfold bus_in, bench_bus, bench_in. change (0x1f0 + 7 =? 0x1f7) with true. cbv iota. cbn [fst snd].
    split; [intros t; apply Nat.le_refl|]. split; [intros a; reflexivity|]. split; [intros r; split; reflexivity|]. right. unfold with_ph. cbn [b_ph].
    destruct (b_ph h) as [|[[|a l]|]|[|a l]]; cbn; (split; [reflexivity|split; [reflexivity|]]); split; intros; auto; try discriminate; try contradiction; congruence.
  - intros [m h]. cbn. repeat split; intros t; apply Nat.le_refl.
  - intros [m h] r v Hr Hv Hi. unfold bus_out, bench_bus, bench_out. destruct (Z.eqb_spec (0x1f0 + r) 0x1f7); [lia|].
    destruct (Z.leb_spec 0x1f1 (0x1f0 + r)), (Z.leb_spec (0x1f0 + r) 0x1f6); try lia. cbn [andb fst snd b_cur b_prev b_ph].
    replace (0x1f0 + r - 0x1f0) with r by lia. split; [intros t; apply Nat.le_refl|]. split; [intros a; reflexivity|]. split; [exact Hi|]. intros k. split; reflexivity.
  - intros [m h] v s Hi Hs Hr. unfold bus_out, bench_bus, bench_out. change (0x1f0 + 7 =? 0x1f7) with true. cbv iota. cbn [fst snd] in *. rewrite Hs.
    split; [intros t; apply Nat.le_refl|]. split; [intros a; reflexivity|]. left. reflexivity.
  - intros [m h] a b l Hp. unfold bus_in, bench_bus, bench_in. change (0x1f0 + 0 =? 0x1f7) with false. change (0x1f0 + 0 =? 0x1f0) with true. cbv iota.
    cbn [fst snd] in Hp. rewrite Hp. split; [reflexivity|]. split; [intros t; apply Nat.le_refl|]. split; [intros x; reflexivity|reflexivity].
Defined.
Definition bench_idle : bench_drive := {| b_cur := fun _ => 0; b_prev := fun _ => 0; b_ph := Idle; b_late := false |}.
Lemma tiny_bytes s : Forall (fun b => 0 <= b < 256) (tiny_medium s).
Proof.
  unfold tiny_medium. apply Forall_forall. intros b Hb. destruct (s =? 0).
  - rewrite !in_app_iff in Hb. destruct Hb as [Hb|[Hb|Hb]]; [apply repeat_spec in Hb; lia|destruct Hb as [<-|[]]; lia|apply repeat_spec in Hb; lia].
  - apply repeat_spec in Hb. rewrite Hb. apply u8_range.
Qed.
Lemma ide_is_drive_witness :
  Drive (Ide.ide_read (pio_at (iret tt) 2 0x1f0 0x3f4 bench_idle) tiny_info) tiny_medium 1 64 /\
  fst (pio_at (iret tt) 2 0x1f0 0x3f4 bench_idle (ide_command tiny_info 5) disk_buffer (fun _ => 0)) = 0.
Proof.
  split; [|vm_compute; reflexivity].
  destruct (ide_is_drive 0x1f0 0x3f4 tiny_info tiny_medium (iret tt) 2 bench_idle tiny_info_ok) as (D & _).
  - intros s _. split; [apply tiny_length|apply tiny_bytes].
  - intros s. apply yields_ret. split; [apply same_drive_refl|apply Nat.le_refl].
  - cbn. lia.
  - intros t. cbn. lia.
  - reflexivity.
  - exact D.
Defined.
