(* ===== verification/Console.v ===== *)
(** The consoles that are polled: the keyboard of the PC ([src/src/core/pc_kbd.c]) and the serial line
    ([src/src/core/serial.c]), over the ports of [Ports]. *)

From S2P Require Import Prelude Memory StringLib Misc Vsprintf Pci Ports.
Import String.StringSyntax.
Local Open Scope etherboot_scope.

(** ** The keyboard *)

Module Kbd.
Definition SHIFT : Z := 1.
Definition CONTROL : Z := 2.
Definition CAPS : Z := 4.
Definition key_row (second : bool) : list Z :=
  if second then
    [0; 27] ++ txt "!@#$%^&*()_+"%string ++ [8; 9] ++ txt "QWERTYUIOP{}"%string ++ [13; 0] ++ txt "AS"%string ++ txt "DFGHJKL:"%string ++ [34] ++ txt "~"%string ++ [0] ++ txt "|ZXCV"%string ++
    txt "BNM<>?"%string ++ [0; 0; 0] ++ txt " "%string ++ repeat 0 13 ++ txt "789-456+1"%string ++ txt "230."%string
  else
    [0; 27] ++ txt "1234567890-="%string ++ [8; 9] ++ txt "qwertyuiop[]"%string ++ [13; 0] ++ txt "as"%string ++ txt "dfghjkl;'`"%string ++ [0] ++ txt "\zxcv"%string ++
    txt "bnm,./"%string ++ [0] ++ txt "*"%string ++ [0] ++ txt " "%string ++ repeat 0 13 ++ txt "789-456+1"%string ++ txt "230."%string.
(** [key_map[shift_state & SHIFT][scan]]; the rest of a row is 0. *)
Definition key_map (shift scan : Z) : Z := nth (Z.to_nat scan) (key_row (negb (shift =? 0))) 0.

Record kbd := { cur_scan : Z; shift_state : Z }.
Definition set_scan v k := {| cur_scan := v; shift_state := shift_state k |}.
Definition set_shift v k := {| cur_scan := cur_scan k; shift_state := v |}.
(** What a scan code does to the state of the shift keys. *)
Definition shift_after (st scan : Z) : Z :=
  if (scan =? 0x2a) || (scan =? 0x36) then Z.lor st SHIFT
  else if (scan =? 0xaa) || (scan =? 0xb6) then Z.land st (not32 SHIFT)
  else if scan =? 0x1d then Z.lor st CONTROL
  else if scan =? 0x9d then Z.land st (not32 CONTROL)
  else if scan =? 0x3a then Z.lxor st CAPS
  else st.
Definition is_letter (c : Z) : bool := ((65 <=? c) && (c <=? 90)) || ((97 <=? c) && (c <=? 122)).
Definition with_modifiers (st c : Z) : Z :=
  if negb (Z.land st (Z.lor CONTROL CAPS) =? 0) && is_letter c then
    if negb (Z.land st CONTROL =? 0) then Z.land c 0x1f
    else if negb (Z.land st CAPS =? 0) then Z.lxor c 0x20 else c
  else c.

Section ops.
Context {H : Type} `{Bus H}.
Definition get_scancode : io H kbd Z :=
  status <<- inb 0x64 ;;
  if Z.land status 1 =? 0 then iret 0
  else
    scan <<- inb 0x60 ;;
    iset (fun k => set_shift (shift_after (shift_state k) scan) k) ;;>
    if negb (Z.land scan 0x80 =? 0) then iret 0 else iret scan.
Definition kbd_havekey : io H kbd bool :=
  c <<- iget cur_scan ;;
  (if c =? 0 then scan <<- get_scancode ;; iset (set_scan scan) else iret tt) ;;>
  c <<- iget cur_scan ;;
  iret (negb (c =? 0)).
Definition kbd_ischar : io H kbd bool :=
  have <<- kbd_havekey ;;
  if negb have then iret false
  else
    k <<- iget (fun k => k) ;;
    if key_map (Z.land (shift_state k) SHIFT) (cur_scan k) =? 0 then iset (set_scan 0) ;;> iret false
    else iret true.
Fixpoint wait_char (fuel : nat) : io H kbd unit :=
  match fuel with
  | O => istuck
  | S n => ok <<- kbd_ischar ;; if ok : bool then iret tt else wait_char n
  end.
Definition kbd_getc (fuel : nat) : io H kbd Z :=
  wait_char fuel ;;>
  k <<- iget (fun k => k) ;;
  let c := key_map (Z.land (shift_state k) SHIFT) (cur_scan k) in
  iset (set_scan 0) ;;>
  iret (with_modifiers (shift_state k) c).
End ops.

(** ** What is typed *)

(** A keyboard keeps the codes that were not read yet, to which it may add at any access. *)
Class Keyboard (H : Type) `{Bus H} := {
  pending : H -> list Z;
  pending_codes h : Forall (fun c => 0 < c < 256) (pending h);
  kbd_status x : let '(v, x') := bus_in 1 0x64 x in
    (Z.land v 1 = 0 -> pending (snd x) = []) /\ (Z.land v 1 <> 0 -> pending (snd x') <> []) /\ exists more, pending (snd x') = pending (snd x) ++ more;
  kbd_data x c l : pending (snd x) = c :: l ->
    let '(v, x') := bus_in 1 0x60 x in v = c /\ exists more, pending (snd x') = l ++ more;
}.

(** The first character of a sequence of codes, from a state of the shift keys: the character, the
    state of the keys and the codes after it. *)
Fixpoint first_char (st : Z) (codes : list Z) : option (Z * Z * list Z) :=
  match codes with
  | [] => None
  | scan :: codes =>
      let st := shift_after st scan in
      let c := key_map (Z.land st SHIFT) scan in
      if (scan <? 0x80) && negb (c =? 0) then Some (with_modifiers st c, st, codes) else first_char st codes
  end.

Section typing.
Local Arguments Z.land : simpl never.
Local Arguments Z.eqb : simpl never.
Context {H : Type} `{Keyboard H}.
Lemma code_bit7 c : 0 < c < 256 -> (Z.land c 0x80 =? 0) = (c <? 0x80).
Proof. intros Hc. apply eqb_prop. apply (all_below_spec 256 (fun c => Bool.eqb (Z.land c 0x80 =? 0) (c <? 0x80))); [vm_compute; reflexivity|lia]. Qed.
(** A poll with a code pending takes it. *)
Lemma ischar_step c l (s : kbd * (mem * H)) : cur_scan (fst s) = 0 -> pending (hw s) = c :: l ->
  let st := shift_after (shift_state (fst s)) c in
  let printable := (c <? 0x80) && negb (key_map (Z.land st SHIFT) c =? 0) in
  yields kbd_ischar (fun r s' => r = printable /\ fst s' = {| cur_scan := if printable then c else 0; shift_state := st |} /\
    exists more, pending (hw s') = l ++ more) s.
Proof.
  destruct s as [[cs sh] x]. cbn [fst cur_scan shift_state]. unfold hw. cbn [snd]. intros -> Hp.
  set (st := shift_after sh c). set (printable := (c <? 0x80) && negb (key_map (Z.land st SHIFT) c =? 0)).
  assert (Hc : 0 < c < 256) by (pose proof (pending_codes (snd x)) as F; rewrite Hp in F; now inversion F).
  unfold kbd_ischar, kbd_havekey, get_scancode, yields, ibind, iget, iset, inb, iin, iret. cbn [fst snd cur_scan].
  change (0 =? 0) with true. change (u16 0x64) with 0x64. change (u16 0x60) with 0x60. cbn [fst snd].
  pose proof (kbd_status x) as B. destruct (bus_in 1 0x64 x) as [v x1]. destruct B as (E0 & _ & more & Em). rewrite Hp in *.
  destruct (Z.eqb_spec (Z.land v 1) 0) as [E|_]; [specialize (E0 E); discriminate|].
  pose proof (kbd_data x1 c (l ++ more) Em) as D. cbn [fst snd] in *. destruct (bus_in 1 0x60 x1) as [v' x2]. destruct D as (-> & more' & Em').
  cbn [fst snd set_shift set_scan cur_scan shift_state]. fold st. rewrite code_bit7 by exact Hc.
  assert (Ex : exists m, pending (snd x2) = l ++ m) by (exists (more ++ more'); now rewrite Em', app_assoc).
  unfold printable in *. destruct (c <? 0x80); cbn [negb fst snd set_shift set_scan cur_scan shift_state andb].
  - destruct (Z.eqb_spec c 0); [lia|]. cbn [negb fst snd set_shift set_scan cur_scan shift_state].
    destruct (key_map (Z.land st SHIFT) c =? 0); cbn [negb fst snd set_shift set_scan cur_scan shift_state]; auto.
  - change (0 =? 0) with true. cbn [negb fst snd set_shift set_scan cur_scan shift_state]. auto.
Qed.
Lemma wait_char_spec c st rest : forall codes fuel (s : kbd * (mem * H)) more,
  first_char (shift_state (fst s)) codes = Some (c, st, rest) -> cur_scan (fst s) = 0 -> pending (hw s) = codes ++ more -> (length codes < fuel)%nat ->
  yields (wait_char fuel) (fun _ s' => with_modifiers st (key_map (Z.land st SHIFT) (cur_scan (fst s'))) = c /\ shift_state (fst s') = st /\
    exists more, pending (hw s') = rest ++ more) s.
Proof.
  induction codes as [|scan codes IH]; intros fuel s more F Hs Hp Hf; [discriminate|]. cbn [first_char length] in F, Hf.
  destruct fuel as [|fuel]; [lia|]. cbn [wait_char]. apply yields_bind.
  eapply yields_weak; [apply (ischar_step scan (codes ++ more) s Hs Hp)|]. intros r s1 (-> & V1 & more1 & P1).
  rewrite <- app_assoc in P1.
  destruct ((scan <? 0x80) && _) eqn:E.
  - apply yields_ret. injection F as <- <- <-. rewrite V1. cbn [cur_scan shift_state]. eauto.
  - apply (IH fuel s1 (more ++ more1)); [now rewrite V1|now rewrite V1|exact P1|lia].
Qed.
(** [kbd_getc] returns the first character of the codes that are typed, with the effect of the shift keys before it, and leaves the codes after it. *)
Theorem kbd_getc_types c st rest codes fuel (s : kbd * (mem * H)) more :
  cur_scan (fst s) = 0 -> first_char (shift_state (fst s)) codes = Some (c, st, rest) -> pending (hw s) = codes ++ more -> (length codes < fuel)%nat ->
  yields (kbd_getc fuel) (fun v s' => v = c /\ fst s' = {| cur_scan := 0; shift_state := st |} /\ exists more, pending (hw s') = rest ++ more) s.
Proof.
  intros Hs F Hp Hf. unfold kbd_getc. apply yields_bind. eapply yields_weak; [exact (wait_char_spec c st rest codes fuel s more F Hs Hp Hf)|].
  intros _ s1 (E & V1 & more1 & P1). unfold yields, ibind, iget, iset, iret. cbn [fst snd]. rewrite V1. split; [exact E|].
  split; [unfold set_scan; now rewrite V1|]. eauto.
Qed.
End typing.
End Kbd.

(** ** The serial line *)

Module Serial.
Definition UART_IER : Z := 1.
Definition UART_FCR : Z := 2.
Definition UART_LCR : Z := 3.
Definition UART_MCR : Z := 4.
Definition UART_LSR : Z := 5.
Definition UART_LSR_TEMPT : Z := 0x40.
Definition UART_LSR_THRE : Z := 0x20.

(** The build parameters UART_BASE, COMBRD, UART_LCS and COMPRESERVE. *)
Section serial.
Context {H : Type} `{Bus H} (poll_interruptions : io H bool unit).
Context (UART_BASE COMBRD UART_LCS : Z) (COMPRESERVE : bool).
Definition uart_readb (reg : Z) : io H bool Z := inb (UART_BASE + reg).
Definition uart_writeb (v reg : Z) : io H bool unit := outb v (UART_BASE + reg).
(** The state is [found]; the bounds are those of the timer's loops. *)
Fixpoint putc_loop (i : nat) (fuel : nat) (ch : Z) : io H bool unit :=
  match i with
  | O => iret tt
  | S i =>
      status <<- uart_readb UART_LSR ;;
      if negb (Z.land status UART_LSR_THRE =? 0) then uart_writeb ch 0
      else mdelay poll_interruptions fuel 2 ;;> putc_loop i fuel ch
  end.
Definition serial_putc (fuel : nat) (ch : Z) : io H bool unit :=
  found <<- iget (fun f => f) ;;
  if negb found then iret tt else putc_loop 999 fuel ch.
Fixpoint wait_data (fuel : nat) : io H bool unit :=
  match fuel with
  | O => istuck
  | S n => status <<- uart_readb UART_LSR ;; if Z.land status 1 =? 0 then wait_data n else iret tt
  end.
Definition serial_getc (fuel : nat) : io H bool Z :=
  wait_data fuel ;;>
  ch <<- uart_readb 0 ;;
  let ch := Z.land ch 0x7f in
  iret (if ch =? 0x7f then 0x08 else ch).
Definition serial_ischar : io H bool Z :=
  found <<- iget (fun f => f) ;;
  if negb found then iret 0 else status <<- uart_readb UART_LSR ;; iret (Z.land status 1).
(** Writes a divisor register and tells whether it reads back. *)
Definition probe_reg (v reg : Z) : io H bool bool := uart_writeb v reg ;;> r <<- uart_readb reg ;; iret (r =? v).
Fixpoint probe_regs (l : list (Z * Z)) : io H bool bool :=
  match l with
  | [] => iret true
  | (v, reg) :: l => ok <<- probe_reg v reg ;; if ok : bool then probe_regs l else iret false
  end.
Fixpoint flush_input (fuel : nat) : io H bool unit :=
  match fuel with
  | O => istuck
  | S n => _ <<- uart_readb 0 ;; status <<- uart_readb UART_LSR ;; if Z.land status 1 =? 0 then iret tt else flush_input n
  end.
Definition line_settings : io H bool (Z * Z) :=
  if COMPRESERVE then
    lcs <<- uart_readb UART_LCR ;;
    let lcs := Z.land lcs 0x7f in
    uart_writeb (Z.lor 0x80 lcs) UART_LCR ;;>
    hi <<- uart_readb 1 ;;
    lo <<- uart_readb 0 ;;
    uart_writeb lcs UART_LCR ;;>
    iret (Z.lor (Z.shiftl hi 8) lo, lcs)
  else iret (COMBRD, UART_LCS).
Definition serial_init (fuel : nat) : io H bool Z :=
  found <<- iget (fun f => f) ;;
  if found : bool then iret 1
  else
    p <<- line_settings ;;
    let '(divisor, lcs) := p in
    uart_writeb (Z.lor 0x80 lcs) UART_LCR ;;>
    present <<- probe_regs [(0xaa, 0); (0x55, 0); (Z.land divisor 0xff, 0); (0xaa, 1); (0x55, 1); (Z.land (Z.shiftr divisor 8) 0xff, 1)] ;;
    if negb present then iset (fun _ => false) ;;> iret 0
    else
      uart_writeb lcs UART_LCR ;;>
      uart_writeb 0 UART_IER ;;>
      uart_writeb 0 UART_FCR ;;>
      uart_writeb 2 UART_MCR ;;>
      flush_input fuel ;;>
      iset (fun _ => true) ;;>
      iret 1.
Fixpoint drain (i : nat) : io H bool unit :=
  match i with
  | O => iret tt
  | S i => status <<- uart_readb UART_LSR ;; if negb (Z.land status UART_LSR_TEMPT =? 0) then iret tt else drain i
  end.
Definition serial_fini : io H bool unit :=
  found <<- iget (fun f => f) ;;
  if negb found then iret tt else drain (Z.to_nat 10000).
End serial.

(** A UART at a base: the divisor, the line control and the number of characters that wait.  Bit 7 of the line control selects the divisor. *)
Record uart := { dll : Z; dlm : Z; lcr : Z; unread : nat }.
Definition dlab (u : uart) : bool := negb (Z.land (lcr u) 0x80 =? 0).
Class Uart (base : Z) (H : Type) `{Bus H} := {
  regs : H -> uart;
  uart_base : 0 <= base /\ base + 8 <= 65536;
  regs_bytes (h : H) : 0 <= dll (regs h) < 256 /\ 0 <= dlm (regs h) < 256 /\ 0 <= lcr (regs h) < 256;
  uart_in (x : mem * H) reg : 0 <= reg < 8 ->
    let '(v, x') := bus_in 1 (base + reg) x in let u := regs (snd x) in let u' := regs (snd x') in
    dll u' = dll u /\ dlm u' = dlm u /\ lcr u' = lcr u /\
    unread u' = (if (reg =? 0) && negb (dlab u) then pred (unread u) else unread u) /\
    (reg = 0 -> dlab u = true -> v = dll u) /\ (reg = 1 -> dlab u = true -> v = dlm u) /\ (reg = 3 -> v = lcr u) /\
    (reg = 5 -> (Z.land v 1 = 0 <-> unread u = 0%nat));
  uart_out (x : mem * H) reg v : 0 <= reg < 8 -> 0 <= v < 256 ->
    let u := regs (snd x) in let u' := regs (snd (bus_out 1 (base + reg) v x)) in
    dll u' = (if (reg =? 0) && dlab u then v else dll u) /\ dlm u' = (if (reg =? 1) && dlab u then v else dlm u) /\
    lcr u' = (if reg =? 3 then v else lcr u) /\ unread u' = unread u;
}.

Section init.
Context {H : Type} (base : Z) `{Uart base H} (COMBRD UART_LCS : Z).
Implicit Type s : bool * (mem * H).
Definition reg_of s : uart := regs (hw s).
Lemma yields_readb reg (Q : Z -> bool * (mem * H) -> Prop) s : 0 <= reg < 8 ->
  (forall v s', fst s' = fst s ->
    let u := reg_of s in let u' := reg_of s' in
    u' = {| dll := dll u; dlm := dlm u; lcr := lcr u; unread := if (reg =? 0) && negb (dlab u) then pred (unread u) else unread u |} ->
    (reg = 0 -> dlab u = true -> v = dll u) -> (reg = 1 -> dlab u = true -> v = dlm u) -> (reg = 3 -> v = lcr u) -> (reg = 5 -> (Z.land v 1 = 0 <-> unread u = 0%nat)) -> Q v s') ->
  yields (uart_readb base reg) Q s.
Proof.
  intros Hr K. apply yields_in. intros v x E. pose proof uart_base as [B1 B2]. rewrite u16_small in E by lia.
  pose proof (uart_in (snd s) reg Hr) as R. rewrite E in R. destruct R as (R1 & R2 & R3 & R4 & R5).
  apply K; cbn [fst]; try tauto. unfold reg_of, hw. cbn [snd]. destruct (regs (snd x)). cbn in *. now subst.
Qed.
Lemma yields_writeb v reg (Q : unit -> bool * (mem * H) -> Prop) s : 0 <= reg < 8 -> 0 <= v < 256 ->
  (forall s', fst s' = fst s ->
    let u := reg_of s in
    reg_of s' = {| dll := if (reg =? 0) && dlab u then v else dll u; dlm := if (reg =? 1) && dlab u then v else dlm u; lcr := if reg =? 3 then v else lcr u; unread := unread u |} -> Q tt s') ->
  yields (uart_writeb base v reg) Q s.
Proof.
  intros Hr Hv K. apply yields_out. pose proof uart_base as [B1 B2]. rewrite u16_small, u8_small by lia.
  destruct (uart_out (snd s) reg v Hr Hv) as (R1 & R2 & R3 & R4). apply K; cbn [fst]; [reflexivity|].
  unfold reg_of, hw. cbn [snd]. destruct (regs (snd (bus_out _ _ _ _))). cbn in *. now subst.
Qed.
(** The values to write last into the two divisor registers, if any. *)
Definition after_probe (l : list (Z * Z)) (u : uart) : uart :=
  fold_left (fun u p => {| dll := if snd p =? 0 then fst p else dll u; dlm := if snd p =? 1 then fst p else dlm u; lcr := lcr u; unread := unread u |}) l u.
Lemma probe_regs_spec l : forall s, Forall (fun p => (snd p = 0 \/ snd p = 1) /\ 0 <= fst p < 256) l -> dlab (reg_of s) = true ->
  yields (probe_regs base l) (fun r s' => r = true /\ fst s' = fst s /\ reg_of s' = after_probe l (reg_of s)) s.
Proof.
  induction l as [|[v reg] l IH]; intros s F D; cbn [probe_regs]; [now apply yields_ret|].
  inversion_clear F as [|? ? [Hr Hv] Fl]. cbn [fst snd] in Hr, Hv.
  apply yields_bind. unfold probe_reg. apply yields_bind. apply yields_writeb; [lia|exact Hv|]. intros s1 V1 u0 E1. subst u0. 
  assert (D1 : dlab (reg_of s1) = true) by (rewrite E1; unfold dlab in *; cbn; destruct Hr as [-> | ->]; exact D).
  apply yields_bind. apply yields_readb; [lia|]. intros r s2 V2 u u' E2 R0 R1 _ _. apply yields_ret.
  assert (Er : r = v).
  { destruct Hr as [Hr | Hr]; [rewrite (R0 Hr D1)|rewrite (R1 Hr D1)]; unfold u; rewrite E1, Hr, D; reflexivity. }
  rewrite Er, Z.eqb_refl.
  assert (E : reg_of s2 = {| dll := if reg =? 0 then v else dll (reg_of s); dlm := if reg =? 1 then v else dlm (reg_of s); lcr := lcr (reg_of s); unread := unread (reg_of s) |}).
  { fold u'. rewrite E2. unfold u. rewrite D1, E1, D, !andb_true_r, andb_false_r. cbn. destruct Hr as [-> | ->]; reflexivity. }
  eapply yields_weak; [apply IH; [exact Fl|rewrite E; exact D]|]. intros r' s3 (-> & V3 & E3). split; [reflexivity|]. split; [congruence|].
  rewrite E3, E. reflexivity.
Qed.
Lemma flush_input_spec : forall fuel s, dlab (reg_of s) = false -> (unread (reg_of s) <= fuel)%nat -> (0 < fuel)%nat ->
  yields (flush_input base fuel) (fun _ s' => fst s' = fst s /\ reg_of s' = {| dll := dll (reg_of s); dlm := dlm (reg_of s); lcr := lcr (reg_of s); unread := 0 |}) s.
Proof.
  induction fuel as [|fuel IH]; intros s D Hu Hf; [lia|]. cbn [flush_input].
  apply yields_bind. apply yields_readb; [lia|]. intros v s1 V1 u u' E1 _ _ _ _. unfold u in E1. rewrite D in E1. cbn [negb andb Z.eqb] in E1.
  assert (D1 : dlab (reg_of s1) = false) by (fold u'; rewrite E1; exact D).
  apply yields_bind. apply yields_readb; [unfold UART_LSR; lia|]. intros st s2 V2 u1 u2 E2 _ _ _ R. specialize (R eq_refl). cbn [UART_LSR Z.eqb andb] in E2.
  assert (E : reg_of s2 = {| dll := dll (reg_of s); dlm := dlm (reg_of s); lcr := lcr (reg_of s); unread := pred (unread (reg_of s)) |}).
  { fold u2. rewrite E2. unfold u1. fold u'. rewrite E1. reflexivity. }
  assert (Eu : unread u1 = pred (unread (reg_of s))) by (unfold u1; fold u'; rewrite E1; reflexivity).
  destruct (Z.eqb_spec (Z.land st 1) 0) as [Z0|N0].
  - apply yields_ret. split; [congruence|]. apply R in Z0. rewrite E. f_equal. lia.
  - assert (pred (unread (reg_of s)) <> 0%nat) by (intros C; apply N0, R; lia).
    eapply yields_weak; [apply IH; [rewrite E; exact D|rewrite E; cbn; lia|lia]|]. intros _ s3 (V3 & E3). split; [congruence|]. rewrite E3, E. reflexivity.
Qed.
Lemma dlab_set lcs : 0 <= lcs < 128 -> dlab {| dll := 0; dlm := 0; lcr := Z.lor 0x80 lcs; unread := 0 |} = true /\ dlab {| dll := 0; dlm := 0; lcr := lcs; unread := 0 |} = false /\
  0 <= Z.lor 0x80 lcs < 256.
Proof.
  intros Hl.
  assert (A := all_below_spec 128 (fun c => negb (Z.land (Z.lor 0x80 c) 0x80 =? 0) && (Z.land c 0x80 =? 0) && (0 <=? Z.lor 0x80 c) && (Z.lor 0x80 c <? 256)) eq_refl lcs ltac:(lia)).
  cbv beta in A. repeat rewrite andb_true_iff in A. unfold dlab. cbn [lcr]. destruct A as (((-> & ->) & A3) & A4). split; [reflexivity|]. split; [reflexivity|]. lia.
Qed.
Lemma dlab_lcr u u' : lcr u = lcr u' -> dlab u = dlab u'.
Proof. unfold dlab. now intros ->. Qed.
(** The settings that [serial_init] leaves, from the registers before. *)
Definition settings (COMPRESERVE : bool) (u : uart) : Z * Z := if COMPRESERVE then (Z.lor (Z.shiftl (dlm u) 8) (dll u), Z.land (lcr u) 0x7f) else (COMBRD, UART_LCS).
Lemma line_settings_spec COMPRESERVE s :
  yields (line_settings base COMBRD UART_LCS COMPRESERVE)
    (fun p s' => p = settings COMPRESERVE (reg_of s) /\ fst s' = fst s /\ exists l, reg_of s' = {| dll := dll (reg_of s); dlm := dlm (reg_of s); lcr := l; unread := unread (reg_of s) |}) s.
Proof.
  unfold line_settings. destruct COMPRESERVE; [|apply yields_ret; repeat split; exists (lcr (reg_of s)); now destruct (reg_of s)].
  destruct (regs_bytes (hw s)) as (_ & _ & Hl). fold (reg_of s) in Hl.
  assert (Hl7 : 0 <= Z.land (lcr (reg_of s)) 0x7f < 128) by (change 0x7f with (Z.ones 7); rewrite Z.land_ones by lia; apply Z.mod_pos_bound; lia).
  destruct (dlab_set _ Hl7) as (D1 & D0 & R8).
  apply yields_bind. apply yields_readb; [unfold UART_LCR; lia|]. intros v s1 V1 u u' E1 _ _ R3 _. rewrite (R3 eq_refl). cbn [UART_LCR Z.eqb andb] in E1. subst u u'.
  apply yields_bind. apply yields_writeb; [unfold UART_LCR; lia|exact R8|]. intros s2 V2 u E2. subst u. cbn [UART_LCR Z.eqb andb] in E2. rewrite E1 in E2. cbn in E2.
  assert (D2 : dlab (reg_of s2) = true) by (rewrite E2; rewrite <- D1; apply dlab_lcr; reflexivity).
  apply yields_bind. apply yields_readb; [lia|]. intros hi s3 V3 u u' E3 _ R1 _ _. subst u u'. cbn [Z.eqb andb] in E3.
  assert (D3 : dlab (reg_of s3) = true) by (rewrite <- D2; apply dlab_lcr; now rewrite E3).
  apply yields_bind. apply yields_readb; [lia|]. intros lo s4 V4 u u' E4 R0 _ _ _. subst u u'. rewrite D3 in E4. cbn [Z.eqb andb negb] in E4.
  apply yields_bind. apply yields_writeb; [unfold UART_LCR; lia|lia|]. intros s5 V5 u E5. subst u. cbn [UART_LCR Z.eqb andb] in E5.
  apply yields_ret. rewrite (R1 eq_refl D2), (R0 eq_refl D3), E3, E2.
  cbn [dll dlm]. split; [reflexivity|]. split; [congruence|]. exists (Z.land (lcr (reg_of s)) 0x7f). rewrite E5, E4, E3, E2. reflexivity.
Qed.
(** On a UART, [serial_init] succeeds and leaves the divisor and the line control that were asked for, and no character unread. *)
Theorem serial_init_spec COMPRESERVE fuel s :
  fst s = false -> 0 <= snd (settings COMPRESERVE (reg_of s)) < 128 -> (unread (reg_of s) <= fuel)%nat -> (0 < fuel)%nat ->
  let '(divisor, lcs) := settings COMPRESERVE (reg_of s) in
  yields (serial_init base COMBRD UART_LCS COMPRESERVE fuel)
    (fun r s' => r = 1 /\ fst s' = true /\ reg_of s' = {| dll := Z.land divisor 0xff; dlm := Z.land (Z.shiftr divisor 8) 0xff; lcr := lcs; unread := 0 |}) s.
Proof.
  intros F. pose proof (line_settings_spec COMPRESERVE s) as L. destruct (settings COMPRESERVE (reg_of s)) as [divisor lcs]. cbn [snd]. intros Hl Hu Hf.
  destruct (dlab_set lcs Hl) as (D1 & D0 & R8).
  assert (By : forall x, 0 <= Z.land x 0xff < 256) by (intros x; change 0xff with (Z.ones 8); rewrite Z.land_ones by lia; apply Z.mod_pos_bound; lia).
  unfold serial_init. apply yields_bind. unfold yields at 1, iget. rewrite F. cbv beta iota.
  apply yields_bind. eapply yields_weak; [exact L|]. intros p s0 (-> & V0 & l0 & E0). cbv iota beta.
  assert (B0 : forall a b n, dlab {| dll := a; dlm := b; lcr := Z.lor 0x80 lcs; unread := n |} = true) by (intros; rewrite <- D1; apply dlab_lcr; reflexivity).
  assert (B1 : forall a b n, dlab {| dll := a; dlm := b; lcr := lcs; unread := n |} = false) by (intros; rewrite <- D0; apply dlab_lcr; reflexivity).
  apply yields_bind. apply yields_writeb; [unfold UART_LCR; lia|exact R8|]. intros s1 V1 u E1. subst u. cbn [UART_LCR Z.eqb andb] in E1. rewrite E0 in E1. cbn in E1.
  apply yields_bind. eapply yields_weak; [apply probe_regs_spec; [|rewrite E1; apply B0]|].
  { repeat constructor; cbn [fst snd]; auto; apply By || lia. }
  intros r s2 (-> & V2 & E2). rewrite E1 in E2. cbn in E2. cbn [negb].
  apply yields_bind. apply yields_writeb; [unfold UART_LCR; lia|lia|]. intros s3 V3 u E3. subst u. cbn [UART_LCR Z.eqb andb] in E3. rewrite E2 in E3. cbn in E3.
  apply yields_bind. apply yields_writeb; [unfold UART_IER; lia|lia|]. intros s4 V4 u E4. subst u. rewrite E3, B1 in E4. cbn in E4.
  apply yields_bind. apply yields_writeb; [unfold UART_FCR; lia|lia|]. intros s5 V5 u E5. subst u. rewrite E4, B1 in E5. cbn in E5.
  apply yields_bind. apply yields_writeb; [unfold UART_MCR; lia|lia|]. intros s6 V6 u E6. subst u. rewrite E5, B1 in E6. cbn in E6.
  apply yields_bind. eapply yields_weak; [apply flush_input_spec; [rewrite E6; apply B1|rewrite E6; exact Hu|exact Hf]|]. intros _ s7 (V7 & E7). rewrite E6 in E7. cbn in E7.
  apply yields_bind. unfold yields at 1, iset. apply yields_ret. split; [reflexivity|]. split; [reflexivity|exact E7].
Qed.
End init.
End Serial.
