(* ===== verification/Rtl8139.v ===== *)
(** The driver of the RTL8139 network card ([src/src/drivers/net/rtl8139.c]).

    The card is reached through its ports, those of [Ports], and by DMA: it fills the receive ring and reads the transmit buffer.  What is known of
    it is stated as the classes [Receiver] and [Transmitter], against which [rtl_poll] and [rtl_transmit] are proved: the first is the removal of a frame from a queue, whose
    frames lie in the ring and may go on at its start, the second hands one frame over, and both end. *)

From S2P Require Import Prelude Memory StringLib Misc Vsprintf Heap Net Lacp Nic Pci Ports.
Local Open Scope etherboot_scope.

(** ** Constants *)

Definition ETH_ZLEN : Z := 60.
Definition MAX_FRAME : Z := 1514.
Definition RX_BUF_LEN : Z := 8192.
Definition NUM_TX_DESC : Z := 4.
Definition RTL_TIMEOUT : Z := 18.
Definition MAC0 : Z := 0.
Definition MAR0 : Z := 8.
Definition TxStatus0 : Z := 0x10.
Definition TxAddr0 : Z := 0x20.
Definition RxBuf : Z := 0x30.
Definition RxEarlyStatus : Z := 0x36.
Definition ChipCmd : Z := 0x37.
Definition RxBufPtr : Z := 0x38.
Definition IntrMask : Z := 0x3c.
Definition IntrStatus : Z := 0x3e.
Definition TxConfig : Z := 0x40.
Definition RxConfig : Z := 0x44.
Definition RxMissed : Z := 0x4c.
Definition Cfg9346 : Z := 0x50.
Definition Config1 : Z := 0x52.
Definition MediaStatus : Z := 0x58.
Definition MII_BMCR : Z := 0x62.
Definition CmdReset : Z := 0x10.
Definition CmdRxTxEnb : Z := 0x0c.
(** [RxFIFOOver | RxOverflow | RxOK] and [TxOK | TxErr | PCIErr] of the interrupt status. *)
Definition RX_INTS : Z := 0x51.
Definition TX_INTS : Z := 0x800c.
Definition TxOK : Z := 4.
(** [RxBadSymbol | RxRunt | RxTooLong | RxCRCErr | RxBadAlign] *)
Definition RX_ERRORS : Z := 0x3e.
(** [ROK | RER | RXOVW | FOVW | SERR] *)
Definition interested : Z := 0x8053.
(** Where the buffers are, in the memory of the model. *)
Definition rx_ring : Z := 0x60000.
Definition tx_buffer : Z := 0x63000.

(** The variables of the driver and of [struct nic] that it sets. *)
Record drv := { cur_rx : Z; cur_tx : Z; packet_len : Z; node_addr : list Z; ioaddr : Z; irqno : Z }.
Definition set_cur_rx v s := {| cur_rx := v; cur_tx := cur_tx s; packet_len := packet_len s; node_addr := node_addr s; ioaddr := ioaddr s; irqno := irqno s |}.
Definition set_cur_tx v s := {| cur_rx := cur_rx s; cur_tx := v; packet_len := packet_len s; node_addr := node_addr s; ioaddr := ioaddr s; irqno := irqno s |}.
Definition set_packet_len v s := {| cur_rx := cur_rx s; cur_tx := cur_tx s; packet_len := v; node_addr := node_addr s; ioaddr := ioaddr s; irqno := irqno s |}.
Definition set_node v s := {| cur_rx := cur_rx s; cur_tx := cur_tx s; packet_len := packet_len s; node_addr := v; ioaddr := ioaddr s; irqno := irqno s |}.
Definition set_ioaddr v s := {| cur_rx := cur_rx s; cur_tx := cur_tx s; packet_len := packet_len s; node_addr := node_addr s; ioaddr := v; irqno := irqno s |}.
Definition set_irqno v s := {| cur_rx := cur_rx s; cur_tx := cur_tx s; packet_len := packet_len s; node_addr := node_addr s; ioaddr := ioaddr s; irqno := v |}.

Section driver.
Context {H : Type} `{Bus H} (voff : Z).
Local Abbreviation D := (io H drv).
(** The register at an offset from [nic->ioaddr]. *)
Definition rd (w : nat) (reg : Z) : D Z := base <<- iget ioaddr ;; iin w (base + reg).
Definition wr (w : nat) (v reg : Z) : D unit := base <<- iget ioaddr ;; iout w v (base + reg).
Definition in8 (reg : Z) : D Z := rd 1 reg.
Definition in16 (reg : Z) : D Z := rd 2 reg.
Definition in32 (reg : Z) : D Z := rd 4 reg.
Definition out8 (v reg : Z) : D unit := wr 1 (u8 v) reg.
Definition out16 (v reg : Z) : D unit := wr 2 (u16 v) reg.
Definition out32 (v reg : Z) : D unit := wr 4 (u32 v) reg.

(** ** Reset *)

Definition rtl8139_rx_config : Z := Z.lor (Z.shiftl 4 13) (Z.shiftl 4 8).
Definition set_rx_mode : D unit :=
  out32 (Z.lor rtl8139_rx_config 0x0e) RxConfig ;;>
  out32 0xffffffff (MAR0 + 0) ;;>
  out32 0xffffffff (MAR0 + 4).
(** [while ((inb(ChipCmd) & CmdReset) != 0 && timer2_running());] *)
Fixpoint wait_reset (fuel : nat) : D unit :=
  match fuel with
  | O => istuck
  | S n =>
      v <<- in8 ChipCmd ;;
      if Z.land v CmdReset =? 0 then iret tt
      else running <<- timer2_running ;; if running : bool then wait_reset n else iret tt
  end.
Fixpoint put_mac (l : list Z) (i : Z) : D unit :=
  match l with
  | [] => iret tt
  | b :: l => out8 b (MAC0 + i) ;;> put_mac l (i + 1)
  end.
Definition rtl_reset (fuel : nat) : D unit :=
  out8 CmdReset ChipCmd ;;>
  iset (fun s => set_cur_tx 0 (set_cur_rx 0 s)) ;;>
  load_timer2 (10 * TICKS_PER_MS) ;;>
  wait_reset fuel ;;>
  mac <<- iget node_addr ;;
  put_mac mac 0 ;;>
  out8 CmdRxTxEnb ChipCmd ;;>
  out32 (Z.lor (Z.shiftl 4 13) (Z.shiftl 4 8)) RxConfig ;;>
  out32 (Z.lor (Z.shiftl 4 8) 0x03000000) TxConfig ;;>
  out32 (virt_to_phys voff rx_ring) RxBuf ;;>
  out8 CmdRxTxEnb ChipCmd ;;>
  out32 rtl8139_rx_config RxConfig ;;>
  out32 0 RxMissed ;;>
  set_rx_mode ;;>
  out16 0 IntrMask.

(** ** Sending *)

(** The frame is built in the buffer; the type is in network order in a variable of 32 bits, of which two bytes are copied. *)
Definition build_frame (mac dest : list Z) (type len data : Z) (m : mem) : mem :=
  let m := stn (stn m tx_buffer (firstn 6 dest)) (tx_buffer + 6) (firstn 6 mac) in
  let m := st16 m (tx_buffer + 12) (htons type) in
  memcpy m (tx_buffer + 14) data (Z.to_nat len).
(** [while (len < ETH_ZLEN) tx_buffer[len++] = 0;] *)
Definition pad_frame (len : Z) (m : mem) : mem := stn m (tx_buffer + len) (repeat 0 (Z.to_nat (ETH_ZLEN - len))).
Definition padded (len : Z) : Z := if len <? ETH_ZLEN then ETH_ZLEN else len.
Fixpoint tx_wait (fuel : nat) (to : Z) : D Z :=
  match fuel with
  | O => istuck
  | S n =>
      status <<- in16 IntrStatus ;;
      out16 (Z.land status TX_INTS) IntrStatus ;;>
      if negb (Z.land status TX_INTS =? 0) then iret status
      else now <<- currticks_io ;; if now <? to then tx_wait n to else iret status
  end.
Definition rtl_transmit (fuel : nat) (destaddr : list Z) (type len data : Z) : D unit :=
  mac <<- iget node_addr ;;
  istore (build_frame mac destaddr type len data) ;;>
  let len := u32 (len + ETH_HLEN) in
  istore (pad_frame len) ;;>
  let len := padded len in
  d <<- iget cur_tx ;;
  out32 (virt_to_phys voff tx_buffer) (TxAddr0 + d * 4) ;;>
  out32 (Z.lor (Z.land (Z.shiftl 256 11) 0x003f0000) len) (TxStatus0 + d * 4) ;;>
  now <<- currticks_io ;;
  status <<- tx_wait fuel (u32 (now + RTL_TIMEOUT)) ;;
  _ <<- in32 (TxStatus0 + d * 4) ;;
  if negb (Z.land status TxOK =? 0) then iset (set_cur_tx ((d + 1) mod NUM_TX_DESC)) else rtl_reset fuel.

(** ** Receiving *)

(** The packet at [ring_offs], which may go on at the start of the ring. *)
Definition copy_packet (ring_offs rx_size : Z) (m : mem) : mem :=
  if ring_offs + 4 + rx_size - 4 >? RX_BUF_LEN then
    let semi_count := RX_BUF_LEN - ring_offs - 4 in
    let m := memcpy m nic_packet (rx_ring + ring_offs + 4) (Z.to_nat semi_count) in
    memcpy m (nic_packet + semi_count) rx_ring (Z.to_nat (rx_size - 4 - semi_count))
  else memcpy m nic_packet (rx_ring + ring_offs + 4) (Z.to_nat (rx_size - 4)).
Definition next_rx (c rx_size : Z) : Z := Z.land (u32 (c + rx_size + 4 + 3)) (not32 3).
(** The packet at [cur_rx]. *)
Definition take_packet (fuel : nat) (status : Z) : D Z :=
  c <<- iget cur_rx ;;
  let ring_offs := c mod RX_BUF_LEN in
  m <<- imem ;;
  let rx_status := ld32 m (rx_ring + ring_offs) in
  let rx_size := Z.shiftr rx_status 16 in
  let rx_status := Z.land rx_status 0xffff in
  if negb (Z.land rx_status RX_ERRORS =? 0) || (rx_size <? ETH_ZLEN) || (rx_size >? MAX_FRAME + 4) then
    rtl_reset fuel ;;> iret 0
  else
    iset (set_packet_len (rx_size - 4)) ;;>
    istore (copy_packet ring_offs rx_size) ;;>
    let c := next_rx c rx_size in
    iset (set_cur_rx c) ;;>
    out16 (c - 16) RxBufPtr ;;>
    out16 (Z.land status RX_INTS) IntrStatus ;;>
    iret 1.
Definition rtl_poll (fuel : nat) (retrieve : bool) : D Z :=
  cmd <<- in8 ChipCmd ;;
  if negb (Z.land cmd 1 =? 0) then iret 0
  else if negb retrieve then iret 1
  else
    status <<- in16 IntrStatus ;;
    out16 (Z.land status (not32 RX_INTS)) IntrStatus ;;>
    take_packet fuel status.

(** ** Interrupts, shutting down, probing *)

Definition rtl_irq_mask (enable : bool) : D unit :=
  mask <<- in16 IntrMask ;;
  let mask := Z.land mask (not32 interested) in
  out16 (if enable then Z.lor mask interested else mask) IntrMask.
Definition rtl_irq_force : D unit := out8 1 RxEarlyStatus.
Definition rtl_disable (fuel : nat) : D unit :=
  rtl_reset fuel ;;>
  out8 CmdReset ChipCmd ;;>
  load_timer2 (10 * TICKS_PER_MS) ;;>
  wait_reset fuel.

(** The serial EEPROM: a bit is shifted out or in by a pulse of the clock; each step is followed by a read of the register as a delay. *)
Definition EE_ENB : Z := 0x88.
Definition EE_CLK : Z := 0x04.
Definition ee_out (v : Z) : D unit := out8 v Cfg9346 ;;> _ <<- in32 Cfg9346 ;; iret tt.
Fixpoint ee_command (bits : list bool) : D unit :=
  match bits with
  | [] => iret tt
  | b :: bits =>
      let dataval := if b then 2 else 0 in
      ee_out (Z.lor EE_ENB dataval) ;;>
      ee_out (Z.lor (Z.lor EE_ENB dataval) EE_CLK) ;;>
      ee_command bits
  end.
Fixpoint ee_read (n : nat) (retval : Z) : D Z :=
  match n with
  | O => iret retval
  | S n =>
      ee_out (Z.lor EE_ENB EE_CLK) ;;>
      v <<- in8 Cfg9346 ;;
      let retval := Z.lor (u32 (Z.shiftl retval 1)) (if Z.land v 1 =? 0 then 0 else 1) in
      ee_out EE_ENB ;;>
      ee_read n retval
  end.
(** The bits of the read command, the highest first. *)
Definition ee_bits (read_cmd addr_len : Z) : list bool := map (fun i => Z.testbit read_cmd (Z.of_nat i)) (rev (seq 0 (Z.to_nat (5 + addr_len)))).
Definition read_eeprom (location addr_len : Z) : D Z :=
  out8 0x80 Cfg9346 ;;>
  ee_out EE_ENB ;;>
  ee_command (ee_bits (Z.lor location (Z.shiftl 6 addr_len)) addr_len) ;;>
  ee_out EE_ENB ;;>
  retval <<- ee_read 16 0 ;;
  ee_out (not32 0x08) ;;>
  iret retval.

(** The card of a PCI device that was found. *)
Definition rtl8139_probe (fuel : nat) (pci : pci_device) : D bool :=
  iset (set_ioaddr (Z.land (p_ioaddr pci) (not32 3))) ;;>
  iset (set_irqno (p_irq pci)) ;;>
  adjust_pci_device (p_bus pci) (p_devfn pci) ;;>
  out8 0 Config1 ;;>
  id <<- read_eeprom 0 8 ;;
  let addr_len := if id =? 0x8129 then 8 else 6 in
  a <<- read_eeprom 7 addr_len ;;
  b <<- read_eeprom 8 addr_len ;;
  c <<- read_eeprom 9 addr_len ;;
  iset (set_node [u8 a; u8 (a / 256); u8 b; u8 (b / 256); u8 c; u8 (c / 256)]) ;;>
  _ <<- in8 MediaStatus ;;
  _ <<- in16 MII_BMCR ;;
  rtl_reset fuel ;;>
  v <<- in8 MediaStatus ;;
  iret (Z.land v 4 =? 0).
End driver.

(** ** The receive ring *)

(** A packet of the ring: the status of its header, and its bytes with the checksum. *)
Definition packet : Type := Z * list Z.
Definition good (p : packet) : Prop :=
  0 <= fst p < 65536 /\ Z.land (fst p) RX_ERRORS = 0 /\ ETH_ZLEN <= Z.of_nat (length (snd p)) <= MAX_FRAME + 4.
Definition packet_size (p : packet) : Z := Z.of_nat (length (snd p)).
(** The byte of the ring at a distance from its start. *)
Definition ring_at (m : mem) (i : Z) : Z := ld8 m (rx_ring + i mod RX_BUF_LEN).
Fixpoint in_ring (m : mem) (c : Z) (q : list packet) : Prop :=
  match q with
  | [] => True
  | p :: q =>
      ld32 m (rx_ring + c mod RX_BUF_LEN) = packet_size p * 65536 + fst p /\
      (forall i, 0 <= i < packet_size p -> ring_at m (c + 4 + i) = nth (Z.to_nat i) (snd p) 0) /\
      in_ring m (next_rx c (packet_size p)) q
  end.
Definition in_rx_ring (a : Z) : Prop := rx_ring <= a < rx_ring + RX_BUF_LEN + 16.
Lemma in_ring_ext m m' q : forall c, (forall a, in_rx_ring a -> ld8 m' a = ld8 m a) -> in_ring m c q -> in_ring m' c q.
Proof.
  induction q as [|p q IH]; intros c E; cbn [in_ring]; [auto|]. intros (A & B & C).
  assert (M : forall i, 0 <= i mod RX_BUF_LEN < RX_BUF_LEN) by (intros i; apply Z.mod_pos_bound; reflexivity).
  split; [rewrite <- A; apply ld32_ext; intros; apply E; pose proof (M c); unfold in_rx_ring, RX_BUF_LEN in *; lia|].
  split; [|now apply IH]. intros i Hi. rewrite <- (B i Hi). apply E. pose proof (M (c + 4 + i)). unfold in_rx_ring. lia.
Qed.

(** A card that receives, at a base address.  [arrived] are the packets that were not taken, from the position [cursor] of the ring.  Any access may bring more,
    and changes nothing of the memory but the ring. *)
Class Receiver (base : Z) (H : Type) `{Bus H} := {
  arrived : H -> list packet;
  cursor : H -> Z;
  ring_ok (x : mem * H) : Prop := in_ring (fst x) (cursor (snd x)) (arrived (snd x));
  brings (x x' : mem * H) (q : list packet) : Prop :=
    ring_ok x' /\ (exists more, arrived (snd x') = q ++ more) /\ forall a, ~ in_rx_ring a -> ld8 (fst x') a = ld8 (fst x) a;
  rx_base : 0 <= base /\ base + 256 <= 65536;
  rx_good h : Forall good (arrived h);
  rx_in (x : mem * H) w reg : ring_ok x -> In (w, reg) [(1%nat, ChipCmd); (2%nat, IntrStatus)] ->
    let '(v, x') := bus_in w (base + reg) x in
    brings x x' (arrived (snd x)) /\ cursor (snd x') = cursor (snd x) /\ 0 <= v < 65536 /\
    (reg = ChipCmd -> (Z.land v 1 = 0 <-> arrived (snd x) <> []));
  rx_ack (x : mem * H) v : ring_ok x ->
    let x' := bus_out 2 (base + IntrStatus) v x in
    brings x x' (arrived (snd x)) /\ cursor (snd x') = cursor (snd x);
  (** The register holds the position of the next packet, less 16. *)
  rx_take (x : mem * H) v p q : ring_ok x -> arrived (snd x) = p :: q -> (v + 16) mod RX_BUF_LEN = next_rx (cursor (snd x)) (packet_size p) mod RX_BUF_LEN ->
    let x' := bus_out 2 (base + RxBufPtr) v x in
    brings x x' q /\ cursor (snd x') = next_rx (cursor (snd x)) (packet_size p);
}.

Lemma header_words size st : 0 <= st < 65536 -> 0 <= size < 65536 -> Z.shiftr (size * 65536 + st) 16 = size /\ Z.land (size * 65536 + st) 0xffff = st.
Proof.
  intros Hs Hz. rewrite Z.shiftr_div_pow2 by lia. change (2 ^ 16) with 65536. change 0xffff with (Z.ones 16). rewrite Z.land_ones by lia. change (2 ^ 16) with 65536.
  split; [symmetry; apply (Z.div_unique _ _ _ st); lia|symmetry; apply (Z.mod_unique _ _ size); lia].
Qed.
Lemma next_rx_aligned c n : 0 <= next_rx c n /\ next_rx c n mod 4 = 0.
Proof.
  unfold next_rx. pose proof (u32_range (c + n + 4 + 3)) as R. set (x := u32 _) in *.
  pose proof (land_not32 x 2 R ltac:(lia)) as E. change (2 ^ 2 - 1) with 3 in E. change (2 ^ 2) with 4 in E. rewrite E. unfold align_down. pose proof (Z.div_mod x 4 ltac:(lia)). pose proof (Z.mod_pos_bound x 4 ltac:(lia)).
  split; [lia|]. replace (x - x mod 4) with (x / 4 * 4) by lia. apply Z.mod_mul. lia.
Qed.
(** The register holds 16 bits, of which the card uses those of a position in the ring. *)
Lemma position_16 c n : (u16 (next_rx c n - 16) + 16) mod RX_BUF_LEN = next_rx c n mod RX_BUF_LEN.
Proof.
  set (z := next_rx c n). unfold u16, RX_BUF_LEN. rewrite <- Zplus_mod_idemp_l, (Z.mod_mod_divide (z - 16) 65536 8192) by (now exists 8).
  rewrite Zplus_mod_idemp_l. f_equal. lia.
Qed.
(** The bytes of a packet reach [nic->packet] in order, whether or not it goes on at the start of the ring. *)
Lemma copy_packet_spec m c n bytes : 0 <= c -> c mod 4 = 0 -> 60 <= n <= 1518 -> (forall i, 0 <= i < n -> ring_at m (c + 4 + i) = nth (Z.to_nat i) bytes 0) -> Z.of_nat (length bytes) = n ->
  let m' := copy_packet (c mod RX_BUF_LEN) n m in
  ldn m' nic_packet (Z.to_nat (n - 4)) = firstn (Z.to_nat (n - 4)) bytes /\
  forall a, a < nic_packet \/ nic_packet + (n - 4) <= a -> ld8 m' a = ld8 m a.
Proof.
  intros Hc Ha Hn R Hl m'.
  assert (O : 0 <= c mod RX_BUF_LEN <= RX_BUF_LEN - 4).
  { pose proof (Z.mod_pos_bound c RX_BUF_LEN ltac:(reflexivity)) as B. unfold RX_BUF_LEN in *.
    assert ((c mod 8192) mod 4 = 0) by (rewrite <- Ha; apply (Z.mod_mod_divide c 8192 4); now exists 2048).
    pose proof (Z.div_mod (c mod 8192) 4 ltac:(lia)). lia. }
  set (o := c mod RX_BUF_LEN) in *.
  assert (At : forall i, 0 <= i < n - 4 -> ring_at m (c + 4 + i) = ld8 m (rx_ring + (if o + 4 + i <? RX_BUF_LEN then o + 4 + i else o + 4 + i - RX_BUF_LEN))).
  { intros i Hi. unfold ring_at. do 2 f_equal. rewrite <- Z.add_assoc, <- Zplus_mod_idemp_l. fold o. unfold RX_BUF_LEN in *.
    destruct (Z.ltb_spec (o + 4 + i) 8192); [rewrite Z.mod_small; lia|]. symmetry. apply (Z.mod_unique _ _ 1); lia. }
  assert (K : forall a, ld8 m' a = if (nic_packet <=? a) && (a <? nic_packet + (n - 4)) then ring_at m (c + 4 + (a - nic_packet)) else ld8 m a).
  { intros a. unfold m', copy_packet. unfold rx_ring, nic_packet, RX_BUF_LEN in *. destruct (Z.gtb_spec (o + 4 + n - 4) 8192).
    - rewrite !ld8_memcpy by lia. rewrite !Z2Nat.id by lia.
      case_tests; try lia; rewrite ?At by lia; case_tests; try lia; try reflexivity; f_equal; lia.
    - rewrite ld8_memcpy by lia. rewrite Z2Nat.id by lia. case_tests; try lia; rewrite ?At by lia; case_tests; try lia; try reflexivity; f_equal; lia. }
  split.
  - apply (nth_ext _ _ 0 0); [rewrite length_ldn, length_firstn; lia|]. intros i Hi. rewrite length_ldn in Hi.
    rewrite nth_ldn by exact Hi. rewrite K. unfold nic_packet in *. case_tests; try lia.
    rewrite R by lia. replace (Z.to_nat (131072 + Z.of_nat i - 131072)) with i by lia.
    rewrite nth_firstn. destruct (Nat.ltb_spec i (Z.to_nat (n - 4))); [reflexivity|lia].
  - intros a Hx. rewrite K. case_tests; (lia || reflexivity).
Qed.

Section registers.
Context {H : Type} `{Bus H} (base : Z).
Lemma yields_rd w reg (Q : Z -> drv * (mem * H) -> Prop) s : ioaddr (fst s) = base -> 0 <= base /\ base + 256 <= 65536 -> 0 <= reg < 256 ->
  (let '(v, x) := bus_in w (base + reg) (snd s) in Q v (fst s, x)) -> yields (rd w reg) Q s.
Proof. intros Hb [B1 B2] Hr K. unfold rd, yields, ibind, iget, iin. rewrite Hb, u16_small by lia. destruct (bus_in w (base + reg) (snd s)). exact K. Qed.
Lemma yields_wr w v reg (Q : unit -> drv * (mem * H) -> Prop) s : ioaddr (fst s) = base -> 0 <= base /\ base + 256 <= 65536 -> 0 <= reg < 256 ->
  Q tt (fst s, bus_out w (base + reg) v (snd s)) -> yields (wr w v reg) Q s.
Proof. intros Hb [B1 B2] Hr K. unfold wr, yields, ibind, iget, iout. rewrite Hb, u16_small by lia. exact K. Qed.
End registers.

Section receive.
Context {H : Type} (base : Z) `{Receiver base H} (voff : Z).
Implicit Type s : drv * (mem * H).
Definition rx_in_step s : Prop :=
  ioaddr (fst s) = base /\ ring_ok (snd s) /\ cur_rx (fst s) = cursor (hw s) /\ 0 <= cur_rx (fst s) /\ cur_rx (fst s) mod 4 = 0.
(** Reading the registers and acknowledging keep the driver in step with the card. *)
Lemma brings_in_step s x : rx_in_step s -> brings (snd s) x (arrived (hw s)) -> cursor (snd x) = cursor (hw s) -> rx_in_step (fst s, x).
Proof. intros (A & B & C & D & E) (F & _) G. unfold rx_in_step, hw. cbn [fst snd]. rewrite G. auto. Qed.
Lemma accessed s x : rx_in_step s -> brings (snd s) x (arrived (hw s)) -> cursor (snd x) = cursor (hw s) ->
  rx_in_step (fst s, x) /\ (exists more, arrived (snd x) = arrived (hw s) ++ more) /\ forall a, ~ in_rx_ring a -> ld8 (fst x) a = ld8 (fst (snd s)) a.
Proof. intros R B C. split; [exact (brings_in_step s x R B C)|]. destruct B as (_ & B1 & B2). auto. Qed.
(** What a call of [rtl_poll] does to the queue of packets that arrived. *)
Definition delivered (p : packet) (q : list packet) s s' : Prop :=
  packet_len (fst s') = packet_size p - 4 /\ ldn (fst (snd s')) nic_packet (Z.to_nat (packet_size p - 4)) = firstn (Z.to_nat (packet_size p - 4)) (snd p) /\
  (exists more, arrived (hw s') = q ++ more) /\
  forall a, ~ in_rx_ring a -> a < nic_packet \/ nic_packet + 1514 <= a -> ld8 (fst (snd s')) a = ld8 (fst (snd s)) a.
Lemma good_head (x : mem * H) p q : arrived (snd x) = p :: q -> good p.
Proof. intros A. pose proof (rx_good (snd x)) as F. rewrite A in F. now inversion F. Qed.
Lemma take_packet_spec fuel status s p q : rx_in_step s -> arrived (hw s) = p :: q ->
  yields (take_packet voff fuel status) (fun r s' => r = 1 /\ rx_in_step s' /\ delivered p q s s') s.
Proof.
  destruct s as [v x]. unfold hw. cbn [snd]. intros (Ri & Rr & Rc & Rp & Ra) A. unfold hw in Rc. cbn [fst snd] in *.
  unfold take_packet. apply yields_bind. unfold yields at 1, iget. cbn [fst]. apply yields_bind. unfold yields at 1, imem. cbn [fst snd].
  pose proof Rr as Q. unfold ring_ok in Q. rewrite A, <- Rc in Q. destruct Q as (Hw & By & Rest).
  destruct (good_head x p _ A) as (G1 & G2 & G3). fold (packet_size p) in G3.
  destruct (header_words (packet_size p) (fst p) G1 ltac:(unfold ETH_ZLEN, MAX_FRAME in *; lia)) as [W1 W2]. rewrite Hw, W1, W2, G2. change (0 =? 0) with true. cbn [negb orb].
  set (n := packet_size p) in *. set (c := cur_rx v) in *.
  unfold ETH_ZLEN, MAX_FRAME in *. destruct (Z.ltb_spec n 60); [lia|]. destruct (Z.gtb_spec n (1514 + 4)); [lia|]. cbn [orb].
  destruct (copy_packet_spec (fst x) c n (snd p) Rp Ra ltac:(lia) By eq_refl) as (Cp & Co). set (m4 := copy_packet (c mod RX_BUF_LEN) n (fst x)) in *.
  assert (Rr4 : ring_ok (m4, snd x)).
  { unfold ring_ok. cbn [fst snd]. apply (in_ring_ext (fst x)); [|exact Rr]. intros a Ha. apply Co. unfold in_rx_ring, rx_ring, nic_packet in *. lia. }
  apply yields_bind. unfold yields at 1, iset. cbn [fst snd]. apply yields_bind. unfold yields at 1, istore. cbn [fst snd]. fold m4.
  apply yields_bind. unfold yields at 1, iset. cbn [fst snd].
  apply yields_bind. apply (yields_wr base); [exact Ri|exact rx_base|unfold RxBufPtr; lia|]. cbn [fst snd].
  assert (T : (u16 (next_rx c n - 16) + 16) mod RX_BUF_LEN = next_rx (cursor (snd (m4, snd x))) (packet_size p) mod RX_BUF_LEN) by (cbn [snd]; rewrite <- Rc; apply position_16).
  destruct (rx_take (m4, snd x) (u16 (next_rx c n - 16)) p _ Rr4 A T) as (B5 & C5). cbn [snd] in C5. rewrite <- Rc in C5. fold n in C5.
  set (x5 := bus_out 2 (base + RxBufPtr) _ _) in *. destruct B5 as (Rr5 & (more5 & A5) & M5). cbn [fst] in M5.
  apply yields_bind. apply (yields_wr base); [exact Ri|exact rx_base|unfold IntrStatus; lia|]. cbn [fst snd].
  destruct (rx_ack x5 (u16 (Z.land status RX_INTS)) Rr5) as ((Rr6 & (more6 & A6) & M6) & C6). set (x6 := bus_out 2 (base + IntrStatus) _ _) in *.
  apply yields_ret. destruct (next_rx_aligned c n) as [N0 N4]. split; [reflexivity|]. split.
  - unfold rx_in_step, hw. cbn [fst snd set_cur_rx set_packet_len ioaddr cur_rx]. rewrite C6, C5. auto.
  - unfold delivered, hw. cbn [fst snd set_cur_rx set_packet_len packet_len]. fold n. split; [reflexivity|]. split; [|split].
    + rewrite <- Cp. apply ldn_ext. intros a Ha. assert (~ in_rx_ring a) by (unfold in_rx_ring, rx_ring, nic_packet in *; lia).
      transitivity (ld8 (fst x5) a); [now apply M6|now apply M5].
    + exists (more5 ++ more6). transitivity (arrived (snd x5) ++ more6); [exact A6|]. rewrite A5. now rewrite <- !app_assoc.
    + intros a Ha Hx. transitivity (ld8 (fst x5) a); [now apply M6|]. transitivity (ld8 m4 a); [now apply M5|]. apply Co. lia.
Qed.
(** C19: Polling takes the first packet that arrived: its bytes without the checksum are in [nic->packet], also when it lies across the end of the ring, and the
    packets after it are left for the next polls. *)
Theorem rtl_poll_delivers fuel retrieve s :
  rx_in_step s ->
  yields (rtl_poll voff fuel retrieve) (fun r s' =>
    rx_in_step s' /\
    match arrived (hw s) with
    | [] => r = 0
    | p :: q => r = 1 /\ if retrieve then delivered p q s s' else exists more, arrived (hw s') = (p :: q) ++ more
    end) s.
Proof.
  intros R. unfold rtl_poll.
  apply yields_bind. apply (yields_rd base); [apply R|exact rx_base|unfold ChipCmd; lia|]. pose proof R as (Ri & Rr & _).
  pose proof (rx_in (snd s) 1 ChipCmd Rr ltac:(cbn; tauto)) as I. destruct (bus_in 1 (base + ChipCmd) (snd s)) as [cmd x1]. destruct I as (B1 & C1 & _ & E1). specialize (E1 eq_refl).
  destruct (accessed s x1 R B1 C1) as (R1 & (more1 & A1) & M1). fold (hw s) in E1.
  destruct (Z.eqb_spec (Z.land cmd 1) 0) as [E|E]; cbn [negb].
  2:{ apply yields_ret. split; [exact R1|]. destruct (arrived (hw s)); [reflexivity|]. exfalso. apply E, E1. discriminate. }
  destruct (arrived (hw s)) as [|p q] eqn:Aq; [exfalso; now apply (proj1 E1 E)|].
  destruct retrieve; cbn [negb]; [|apply yields_ret; eauto].
  apply yields_bind. apply (yields_rd base); [apply R1|exact rx_base|unfold IntrStatus; lia|]. pose proof R1 as (_ & Rr1 & _).
  pose proof (rx_in (snd (fst s, x1)) 2 IntrStatus Rr1 ltac:(cbn; tauto)) as I. cbn [snd] in I |- *. destruct (bus_in 2 (base + IntrStatus) x1) as [status x2].
  destruct I as (B2 & C2 & Vs & _). destruct (accessed (fst s, x1) x2 R1 B2 C2) as (R2 & (more2 & A2) & M2).
  apply yields_bind. apply (yields_wr base); [apply R2|exact rx_base|unfold IntrStatus; lia|]. pose proof R2 as (_ & Rr2 & _).
  destruct (rx_ack x2 (u16 (Z.land status (not32 RX_INTS))) Rr2) as (B3 & C3). cbn [snd fst].
  set (x3 := bus_out 2 _ _ x2) in *. destruct (accessed (fst s, x2) x3 R2 B3 C3) as (R3 & (more3 & A3) & M3).
  unfold hw in A2, A3, M2, M3. cbn [fst snd] in A2, A3, M2, M3.
  assert (A : arrived (hw (fst s, x3)) = p :: q ++ more1 ++ more2 ++ more3) by (unfold hw; cbn [snd]; rewrite A3, A2, A1; cbn [app]; now rewrite <- !app_assoc).
  eapply yields_weak; [exact (take_packet_spec fuel status (fst s, x3) p _ R3 A)|]. intros r s' (-> & R' & D1 & D2 & (more & D3) & D4).
  split; [exact R'|]. split; [reflexivity|]. split; [exact D1|]. split; [exact D2|]. split; [rewrite D3, <- !app_assoc; eauto|].
  intros a Ha Hx. rewrite (D4 a Ha Hx). cbn [fst snd]. rewrite (M3 a Ha), (M2 a Ha). exact (M1 a Ha).
Qed.
End receive.

(** ** Sending *)

(** The frame that is sent: header, data, and zeros up to the least length. *)
Definition frame_of (dest mac : list Z) (type : Z) (data : list Z) : list Z :=
  let f := dest ++ mac ++ [type / 256; type mod 256] ++ data in f ++ repeat 0 (Z.to_nat ETH_ZLEN - length f).
Lemma frame_built mac dest type len data m : length mac = 6%nat -> length dest = 6%nat -> Forall (fun b => 0 <= b < 256) mac -> Forall (fun b => 0 <= b < 256) dest ->
  0 <= type < 65536 -> 0 <= len <= 1500 -> data + len <= tx_buffer \/ tx_buffer + 1514 <= data ->
  let m' := pad_frame (len + ETH_HLEN) (build_frame mac dest type len data m) in
  ldn m' tx_buffer (Z.to_nat (padded (len + ETH_HLEN))) = frame_of dest mac type (ldn m data (Z.to_nat len)) /\
  forall a, a < tx_buffer \/ tx_buffer + 1514 <= a -> ld8 m' a = ld8 m a.
Proof.
  intros Lm Ld Bm Bd Ht Hl Hd m'.
  set (n := Z.to_nat len). set (z := Z.to_nat (ETH_ZLEN - (len + ETH_HLEN))).
  set (m1 := stn m tx_buffer dest). set (m2 := stn m1 (tx_buffer + 6) mac). set (m3 := st16 m2 (tx_buffer + 12) (htons type)).
  set (m4 := memcpy m3 (tx_buffer + 14) data n).
  assert (E : m' = stn m4 (tx_buffer + (len + ETH_HLEN)) (repeat 0 z)) by (unfold m', pad_frame, build_frame; rewrite !firstn_all2 by lia; reflexivity).
  assert (O1 : forall a, a < tx_buffer \/ tx_buffer + 6 <= a -> ld8 m1 a = ld8 m a) by (intros; apply ld8_stn_out; lia).
  assert (O2 : forall a, a < tx_buffer + 6 \/ tx_buffer + 12 <= a -> ld8 m2 a = ld8 m1 a) by (intros; apply ld8_stn_out; lia).
  assert (O3 : forall a, a < tx_buffer + 12 \/ tx_buffer + 14 <= a -> ld8 m3 a = ld8 m2 a) by (intros; apply ld8_st16_ne; lia).
  assert (O4 : forall a, a < tx_buffer + 14 \/ tx_buffer + 14 + len <= a -> ld8 m4 a = ld8 m3 a) by (intros; apply ld8_memcpy_out; lia).
  assert (O5 : forall a, a < tx_buffer + 14 + len \/ tx_buffer + 14 + len + Z.of_nat z <= a -> ld8 m' a = ld8 m4 a)
    by (intros; rewrite E; apply ld8_stn_out; rewrite repeat_length; unfold ETH_HLEN; lia).
  assert (B8 : forall l, Forall (fun b => 0 <= b < 256) l -> map u8 l = l) by (intros l F; rewrite <- (map_id l) at 2; apply map_ext_Forall; eapply Forall_impl; [|exact F]; intros; now apply u8_small).
  assert (Ep : Z.to_nat (padded (len + ETH_HLEN)) = (6 + (6 + (2 + (n + z))))%nat) by (unfold padded, n, z, ETH_ZLEN, ETH_HLEN; destruct (Z.ltb_spec (len + 14) 60); lia).
  split; [|intros a Ha; rewrite O5, O4, O3, O2, O1 by (unfold z, ETH_ZLEN, ETH_HLEN in *; lia); reflexivity].
  rewrite Ep, !ldn_app. unfold frame_of. rewrite <- !app_assoc. f_equal; [|f_equal; [|f_equal; [|f_equal]]].
  - rewrite <- (B8 dest Bd). rewrite <- (ldn_stn m tx_buffer dest), Ld. fold m1. apply ldn_ext. intros a Ha. rewrite O5, O4, O3, O2 by lia. reflexivity.
  - rewrite <- (B8 mac Bm). rewrite <- (ldn_stn m1 (tx_buffer + 6) mac), Lm. fold m2. apply ldn_ext. intros a Ha. rewrite O5, O4, O3 by lia. reflexivity.
  - rewrite <- (htons_bytes m2 (tx_buffer + 12) type Ht). fold m3. replace (tx_buffer + Z.of_nat 6 + Z.of_nat 6) with (tx_buffer + 12) by lia. apply ldn_ext. intros a Ha. rewrite O5, O4 by lia. reflexivity.
  - transitivity (ldn m3 data n); [|apply ldn_ext; intros a Ha; rewrite O3, O2, O1 by lia; reflexivity].
    rewrite <- (ldn_memcpy m3 (tx_buffer + 14) data n) by lia. fold m4. replace (tx_buffer + Z.of_nat 6 + Z.of_nat 6 + Z.of_nat 2) with (tx_buffer + 14) by lia.
    apply ldn_ext. intros a Ha. apply O5. lia.
  - rewrite E. replace (tx_buffer + Z.of_nat 6 + Z.of_nat 6 + Z.of_nat 2 + Z.of_nat n) with (tx_buffer + (len + ETH_HLEN)) by (unfold n, ETH_HLEN; lia).
    pose proof (ldn_stn m4 (tx_buffer + (len + ETH_HLEN)) (repeat 0 z)) as L. rewrite repeat_length in L. rewrite L, B8 by (apply Forall_forall; intros x Hx; apply repeat_spec in Hx; lia).
    f_equal. rewrite !length_app, length_ldn, Ld, Lm. cbn [length]. unfold z, n, ETH_ZLEN, ETH_HLEN. lia.
Qed.

(** A card that sends, at a base address: the address in each descriptor, and the frames it was given.  The clock reaches any time after a
    number of readings, and so does the timer of the processor. *)
Class Transmitter (base voff : Z) (H : Type) `{Bus H} := {
  descriptor : H -> Z -> Z;
  given : H -> list (list Z);
  clock_left : H -> Z -> nat;
  timer_left : H -> nat;
  timer_bound : nat;
  same_card (x x' : mem * H) : Prop :=
    given (snd x') = given (snd x) /\ (forall t, (clock_left (snd x') t <= clock_left (snd x) t)%nat) /\
    forall a, ~ in_rx_ring a -> ld8 (fst x') a = ld8 (fst x) a;
  tx_base : 256 <= base /\ base + 256 <= 65536;
  tx_timer h : (timer_left h <= timer_bound)%nat;
  tx_in (x : mem * H) w port : let '(v, x') := bus_in w port x in
    same_card x x' /\ (timer_left (snd x') <= timer_left (snd x))%nat /\ 0 <= v < 2 ^ (8 * Z.of_nat w) /\
    (w = 1%nat -> port = PPC_PORTB -> Z.land v PPCB_T2OUT = 0 -> (timer_left (snd x') < timer_left (snd x))%nat);
  tx_out (x : mem * H) w v port : port < base + TxStatus0 \/ base + RxBuf <= port -> same_card x (bus_out w port v x);
  tx_clock x : let '(v, x') := bus_ticks x in same_card x x' /\ forall t, v < t < 4294967296 -> (clock_left (snd x') t < clock_left (snd x) t)%nat;
  tx_addr (x : mem * H) d v : 0 <= d < NUM_TX_DESC -> 0 <= v < 4294967296 ->
    let x' := bus_out 4 (base + TxAddr0 + d * 4) v x in same_card x x' /\ descriptor (snd x') d = v;
  (** Writing the length, of 13 bits, starts the descriptor: the card reads the frame from the memory. *)
  tx_start (x : mem * H) d v : 0 <= d < NUM_TX_DESC ->
    let x' := bus_out 4 (base + TxStatus0 + d * 4) v x in
    given (snd x') = given (snd x) ++ [ldn (fst x) (phys_to_virt voff (descriptor (snd x) d)) (Z.to_nat (Z.land v 0x1fff))] /\
    (forall t, (clock_left (snd x') t <= clock_left (snd x) t)%nat) /\
    forall a, ~ in_rx_ring a -> ld8 (fst x') a = ld8 (fst x) a;
}.

Section transmit.
Context {H : Type} (base voff : Z) `{Transmitter base voff H}.
Implicit Type s : drv * (mem * H).
(** Programs that give the card no frame, and that leave the address of the card and of the host. *)
Definition tx_same s s' : Prop := ioaddr (fst s') = ioaddr (fst s) /\ node_addr (fst s') = node_addr (fst s) /\ (0 <= cur_tx (fst s) < NUM_TX_DESC -> 0 <= cur_tx (fst s') < NUM_TX_DESC) /\ same_card (snd s) (snd s').
Definition sends_nothing {A} (c : io H drv A) : Prop := forall s, ioaddr (fst s) = base -> yields c (fun _ s' => tx_same s s') s.
Lemma same_card_refl x : same_card x x.
Proof. repeat split; auto. Qed.
Lemma same_card_trans x y z : same_card x y -> same_card y z -> same_card x z.
Proof.
  intros (A & B & C) (A' & B' & C'). split; [congruence|]. split; [intros t; specialize (B t); specialize (B' t); lia|].
  intros a Ha. rewrite (C' a Ha). exact (C a Ha).
Qed.
Lemma tx_same_trans s1 s2 s3 : tx_same s1 s2 -> tx_same s2 s3 -> tx_same s1 s3.
Proof. intros (A & B & D & C) (A' & B' & D' & C'). split; [congruence|]. split; [congruence|]. split; [auto|]. exact (same_card_trans _ _ _ C C'). Qed.
Lemma tx_same_same s s' : fst s' = fst s -> same_card (snd s) (snd s') -> tx_same s s'.
Proof. intros E C. unfold tx_same. rewrite E. auto. Qed.
Lemma nothing_bind {A B} (c : io H drv A) (k : A -> io H drv B) : sends_nothing c -> (forall a, sends_nothing (k a)) -> sends_nothing (ibind c k).
Proof.
  intros C K s Hs. apply yields_bind. eapply yields_weak; [exact (C s Hs)|]. intros a s1 Q.
  eapply yields_weak; [apply (K a s1); rewrite (proj1 Q); exact Hs|]. intros b s2 R. exact (tx_same_trans _ _ _ Q R).
Qed.
Lemma nothing_ret {A} (a : A) : sends_nothing (iret a).
Proof. intros s Hs. apply yields_ret. now apply tx_same_same, same_card_refl. Qed.
Lemma nothing_get {A} (f : drv -> A) : sends_nothing (iget f).
Proof. intros s Hs. unfold yields, iget. now apply tx_same_same, same_card_refl. Qed.
Lemma nothing_set (f : drv -> drv) : (forall v, ioaddr (f v) = ioaddr v /\ node_addr (f v) = node_addr v /\ (0 <= cur_tx v < NUM_TX_DESC -> 0 <= cur_tx (f v) < NUM_TX_DESC)) -> sends_nothing (iset f).
Proof. intros F s Hs. unfold yields, iset. destruct (F (fst s)) as (F1 & F2 & F3). exact (conj F1 (conj F2 (conj F3 (same_card_refl _)))). Qed.
Lemma nothing_in w port : sends_nothing (iin w port).
Proof. intros s Hs. apply yields_in. intros v x E. pose proof (tx_in (snd s) w (u16 port)) as T. rewrite E in T. destruct T as (T & _). now apply tx_same_same. Qed.
Lemma nothing_rd w reg : sends_nothing (rd w reg).
Proof. intros s Hs. unfold rd. apply yields_bind. unfold yields at 1, iget. now apply nothing_in. Qed.
Lemma nothing_out w v port : 0 <= port < 256 -> sends_nothing (iout w v port).
Proof. intros Hp s Hs. apply yields_out. pose proof tx_base as [B _]. rewrite u16_small by lia. apply tx_same_same; [reflexivity|]. apply tx_out. unfold TxStatus0. lia. Qed.
Lemma nothing_wr w v reg : 0 <= reg < TxStatus0 \/ RxBuf <= reg < 256 -> sends_nothing (wr w v reg).
Proof.
  intros Hr s Hs. unfold wr. apply yields_bind. unfold yields at 1, iget. apply yields_out. pose proof tx_base as [B1 B2]. unfold TxStatus0, RxBuf in *. rewrite Hs, u16_small by lia.
  apply tx_same_same; [reflexivity|]. apply tx_out. unfold TxStatus0, RxBuf. lia.
Qed.
Lemma nothing_load_timer2 t : sends_nothing (load_timer2 t).
Proof. repeat (apply nothing_bind; [apply nothing_in || (apply nothing_out; cbv; split; congruence)|intros]); apply nothing_out; cbv; split; congruence. Qed.
Lemma nothing_wait_reset fuel : (timer_bound < fuel)%nat -> sends_nothing (wait_reset fuel).
Proof.
  intros Hf s Hs. pose proof (tx_timer (hw s)) as B. assert (L : (timer_left (hw s) < fuel)%nat) by lia. clear Hf B. revert s Hs L.
  induction fuel as [|fuel IH]; intros s Hs L; [lia|]. cbn [wait_reset].
  unfold in8, rd. apply yields_bind. apply yields_bind. unfold yields at 1, iget. apply yields_in. intros v x E.
  pose proof (tx_in (snd s) 1 (u16 (ioaddr (fst s) + ChipCmd))) as T. rewrite E in T. destruct T as (T1 & T2 & _).
  assert (Q1 : tx_same s (fst s, x)) by (now apply tx_same_same).
  destruct (Z.land v CmdReset =? 0); [now apply yields_ret|]. unfold timer2_running, inb. apply yields_bind, yields_bind. apply yields_in. cbn [fst snd]. intros v' x' E'.
  pose proof (tx_in x 1 (u16 PPC_PORTB)) as T'. rewrite E' in T'. destruct T' as (T1' & T2' & _ & T3).
  assert (Q2 : tx_same s (fst s, x')) by (apply tx_same_same; [reflexivity|exact (same_card_trans _ _ _ T1 T1')]).
  apply yields_ret. destruct (Z.eqb_spec (Z.land v' PPCB_T2OUT) 0) as [Z0|]; [|now apply yields_ret].
  specialize (T3 eq_refl eq_refl Z0). eapply yields_weak; [apply IH; [exact Hs|unfold hw in *; cbn [snd]; lia]|]. intros u s' Q. cbv beta in Q. exact (tx_same_trans _ _ _ Q2 Q).
Qed.
Lemma nothing_put_mac l : forall i, 0 <= i -> i + Z.of_nat (length l) <= 16 -> sends_nothing (put_mac l i).
Proof.
  induction l as [|b l IH]; intros i Hi Hl; cbn [put_mac length] in *; [apply nothing_ret|]. apply nothing_bind; [apply nothing_wr; unfold MAC0, TxStatus0; lia|]. intros _. apply IH; lia.
Qed.
(** A sends_nothing step of a program that was tx_same so far. *)
Lemma nothing_then {A B} (c : io H drv A) (k : A -> io H drv B) Q s0 s : sends_nothing c -> ioaddr (fst s0) = base -> tx_same s0 s ->
  (forall a s', tx_same s0 s' -> yields (k a) Q s') -> yields (ibind c k) Q s.
Proof.
  intros C Hb Qs K. apply yields_bind. eapply yields_weak; [apply (C s); rewrite (proj1 Qs); exact Hb|].
  intros a s' Q'. apply K. exact (tx_same_trans _ _ _ Qs Q').
Qed.
(** The reset gives the card no frame, and it ends. *)
Lemma rtl_reset_sends_nothing fuel s : (timer_bound < fuel)%nat -> ioaddr (fst s) = base -> (length (node_addr (fst s)) <= 16)%nat -> yields (rtl_reset voff fuel) (fun _ s' => tx_same s s') s.
Proof.
  intros Hf Hs Hn. unfold rtl_reset, set_rx_mode, out8, out16, out32.
  apply (nothing_then _ _ _ s); [apply nothing_wr; cbv; right; split; congruence|exact Hs|apply tx_same_same; [reflexivity|apply same_card_refl]|]. intros _ s1 Q1.
  apply (nothing_then _ _ _ s); [apply nothing_set; intros v; cbn; unfold NUM_TX_DESC; auto with zarith|exact Hs|exact Q1|]. intros _ s2 Q2.
  apply (nothing_then _ _ _ s); [apply nothing_load_timer2|exact Hs|exact Q2|]. intros _ s3 Q3.
  apply (nothing_then _ _ _ s); [exact (nothing_wait_reset fuel Hf)|exact Hs|exact Q3|]. intros _ s4 Q4.
  apply yields_bind. unfold yields at 1, iget. rewrite (proj1 (proj2 Q4)).
  apply (nothing_then _ _ _ s); [apply nothing_put_mac; lia|exact Hs|exact Q4|]. intros _ s5 Q5.
  repeat (apply (nothing_then _ _ _ s); [repeat (apply nothing_bind; [|intros _]); apply nothing_wr; cbv; (left; split; congruence) || (right; split; congruence)|exact Hs|eassumption|]; intros ? ? ?).
  match goal with Q : tx_same s ?s' |- _ => eapply yields_weak; [apply (nothing_wr 2 (u16 0) IntrMask); [cbv; right; split; congruence|rewrite (proj1 Q); exact Hs]|intros ? ? R; exact (tx_same_trans _ _ _ Q R)] end.
Qed.
Lemma tx_wait_sends_nothing to : to < 4294967296 -> forall fuel s, ioaddr (fst s) = base -> (clock_left (hw s) to < fuel)%nat -> yields (tx_wait fuel to) (fun _ s' => tx_same s s') s.
Proof.
  intros Hto. induction fuel as [|fuel IH]; intros s Hs L; [lia|]. cbn [tx_wait].
  apply (nothing_then _ _ _ s); [apply nothing_rd|exact Hs|apply tx_same_same; [reflexivity|apply same_card_refl]|]. intros status s1 Q1.
  apply (nothing_then _ _ _ s); [apply nothing_wr; cbv; right; split; congruence|exact Hs|exact Q1|]. intros _ s2 Q2.
  destruct (negb _); [now apply yields_ret|]. apply yields_bind. unfold yields at 1, currticks_io. pose proof (tx_clock (snd s2)) as T. destruct (bus_ticks (snd s2)) as [now x].
  destruct T as (T1 & T2). assert (Q3 : tx_same s (fst s2, x)) by (apply (tx_same_trans _ _ _ Q2); now apply tx_same_same).
  destruct (Z.ltb_spec now to) as [Lt|]; [|now apply yields_ret]. specialize (T2 to (conj Lt Hto)). pose proof Q2 as (_ & _ & _ & _ & C2 & _). specialize (C2 to).
  eapply yields_weak; [apply IH; [exact (eq_trans (proj1 Q3) Hs)|unfold hw in *; cbn [snd]; lia]|]. intros st s' Q. exact (tx_same_trans _ _ _ Q3 Q).
Qed.
Lemma length_field len : 0 <= len <= 1514 -> Z.land (u32 (Z.lor (Z.land (Z.shiftl 256 11) 0x003f0000) len)) 0x1fff = len.
Proof.
  intros Hl. change (Z.land (Z.shiftl 256 11) 0x003f0000) with (0x40 * 2 ^ 13). rewrite lor_disjoint by (change (2 ^ 13) with 8192; lia).
  rewrite u32_small by lia. change 0x1fff with (Z.ones 13). rewrite Z.land_ones by lia. rewrite Z.add_comm, Z.mod_add, Z.mod_small by (change (2 ^ 13) with 8192; lia). reflexivity.
Qed.
(** C20: [rtl_transmit] gives the card one frame, that of its arguments padded to the least length, and ends, whatever the card reports. *)
Theorem rtl_transmit_sends fuel dest type len data s :
  ioaddr (fst s) = base -> 0 <= cur_tx (fst s) < NUM_TX_DESC ->
  length (node_addr (fst s)) = 6%nat -> Forall (fun b => 0 <= b < 256) (node_addr (fst s)) -> length dest = 6%nat -> Forall (fun b => 0 <= b < 256) dest ->
  0 <= type < 65536 -> 0 <= len <= 1500 -> data + len <= tx_buffer \/ tx_buffer + 1514 <= data ->
  (timer_bound < fuel)%nat -> (forall t, clock_left (hw s) t < fuel)%nat ->
  yields (rtl_transmit voff fuel dest type len data) (fun _ s' =>
    given (hw s') = given (hw s) ++ [frame_of dest (node_addr (fst s)) type (ldn (fst (snd s)) data (Z.to_nat len))] /\
    0 <= cur_tx (fst s') < NUM_TX_DESC /\ ioaddr (fst s') = base /\ node_addr (fst s') = node_addr (fst s) /\
    forall a, ~ in_rx_ring a -> a < tx_buffer \/ tx_buffer + 1514 <= a -> ld8 (fst (snd s')) a = ld8 (fst (snd s)) a) s.
Proof.
  intros Hs Ht Lm Bm Ld Bd Hty Hl Hd Hf Hc.
  destruct (frame_built (node_addr (fst s)) dest type len data (fst (snd s)) Lm Ld Bm Bd Hty Hl Hd) as (Fr & Fo).
  unfold rtl_transmit. apply yields_bind. unfold yields at 1, iget. apply yields_bind. unfold yields at 1, istore. apply yields_bind. unfold yields at 1, istore. cbn [fst snd].
  rewrite (u32_small (len + ETH_HLEN)) by (unfold ETH_HLEN; lia).
  set (m' := pad_frame _ _) in *. set (n := padded (len + ETH_HLEN)) in *. assert (Hn : 0 <= n <= 1514) by (unfold n, padded, ETH_ZLEN, ETH_HLEN; destruct (Z.ltb_spec (len + 14) 60); lia).
  set (d := cur_tx (fst s)) in *.
  apply yields_bind. unfold yields at 1, iget. cbn [fst]. fold d.
  pose proof tx_base as [B1 B2]. unfold NUM_TX_DESC in Ht.
  assert (Hb : 0 <= base /\ base + 256 <= 65536) by lia.
  apply yields_bind. apply (yields_wr base); [exact Hs|exact Hb|unfold TxAddr0; lia|]. cbn [fst snd].
  replace (base + (TxAddr0 + d * 4)) with (base + TxAddr0 + d * 4) by lia.
  destruct (tx_addr (m', snd (snd s)) d (u32 (virt_to_phys voff tx_buffer)) ltac:(unfold NUM_TX_DESC; lia) (u32_range _)) as ((G1 & K1 & M1) & A1). cbn [fst snd] in G1, K1, M1.
  set (x1 := bus_out 4 _ _ _) in *.
  apply yields_bind. apply (yields_wr base); [exact Hs|exact Hb|unfold TxStatus0; lia|]. cbn [fst snd].
  replace (base + (TxStatus0 + d * 4)) with (base + TxStatus0 + d * 4) by lia.
  set (v := u32 (Z.lor _ n)). destruct (tx_start x1 d v ltac:(unfold NUM_TX_DESC; lia)) as (G2 & K2 & M2). set (x2 := bus_out 4 _ v x1) in *.
  assert (Fr1 : ldn (fst x1) (phys_to_virt voff (descriptor (snd x1) d)) (Z.to_nat (Z.land v 0x1fff)) = frame_of dest (node_addr (fst s)) type (ldn (fst (snd s)) data (Z.to_nat len))).
  { unfold v. rewrite length_field by exact Hn. rewrite <- Fr, A1. unfold virt_to_phys. rewrite (u32_small (u32 _)) by apply u32_range.
    replace (phys_to_virt voff (u32 (tx_buffer + voff))) with tx_buffer by (unfold phys_to_virt, tx_buffer; zmod).
    apply ldn_ext. intros a Ha. apply M1. unfold in_rx_ring, rx_ring, RX_BUF_LEN, tx_buffer in *. lia. }
  apply yields_bind. unfold yields at 1, currticks_io. cbn [fst snd]. pose proof (tx_clock x2) as T. destruct (bus_ticks x2) as [now x3]. destruct T as ((G3 & K3 & M3) & _).
  set (s3 := (fst s, x3)).
  assert (Kc : forall t, (clock_left (hw s3) t < fuel)%nat) by (intros t; specialize (Hc t); specialize (K1 t); specialize (K2 t); specialize (K3 t); unfold hw, s3 in *; cbn [snd]; lia).
  assert (End : forall s', tx_same s3 s' ->
    given (hw s') = given (hw s) ++ [frame_of dest (node_addr (fst s)) type (ldn (fst (snd s)) data (Z.to_nat len))] /\
    0 <= cur_tx (fst s') < 4 /\ ioaddr (fst s') = base /\ node_addr (fst s') = node_addr (fst s) /\
    forall a, ~ in_rx_ring a -> a < tx_buffer \/ tx_buffer + 1514 <= a -> ld8 (fst (snd s')) a = ld8 (fst (snd s)) a).
  { intros s' (Q1 & Q2 & Q3 & G4 & _ & M4). cbn [fst snd s3] in *. unfold hw. rewrite G4, G3, G2, G1, Fr1.
    split; [reflexivity|]. split; [apply Q3; exact Ht|]. split; [congruence|]. split; [exact Q2|]. intros a Ha Hx. rewrite (M4 a Ha), (M3 a Ha), (M2 a Ha), (M1 a Ha). exact (Fo a Hx). }
  apply yields_bind. eapply yields_weak; [apply (tx_wait_sends_nothing _ (proj2 (u32_range _)) fuel s3); [exact Hs|apply Kc]|]. intros status s4 Q4. cbv beta in Q4.
  apply (nothing_then _ _ _ s3); [apply nothing_rd|exact Hs|exact Q4|]. intros _ s5 Q5.
  destruct (negb (Z.land status TxOK =? 0)).
  - unfold yields, iset. apply End. destruct Q5 as (Q1 & Q2 & Q3 & Q6). split; [exact Q1|]. split; [exact Q2|]. split; [intros _; apply Z.mod_pos_bound; reflexivity|exact Q6].
  - eapply yields_weak; [apply (rtl_reset_sends_nothing fuel s5 Hf); [exact (eq_trans (proj1 Q5) Hs)|rewrite (proj1 (proj2 Q5)); change (node_addr (fst s3)) with (node_addr (fst s)); lia]|].
    intros u s6 Q6. apply End. exact (tx_same_trans _ _ _ Q5 Q6).
Qed.
End transmit.

(** ** Cards that behave as described *)

Section demo.
Definition nic_base : Z := 0x1000.
(** A card with a number of copies of a packet of 64 bytes to deliver, from a position of the ring. *)
Definition demo_packet : packet := (1, map Z.of_nat (seq 100 64)).
#[local] Instance rx_bus : Bus (nat * Z) := {
  bus_in w port x := (if (port =? nic_base + ChipCmd) && (fst (snd x) =? 0)%nat then 1 else 0, x);
  bus_out w port v x :=
    if (w =? 2)%nat && (port =? nic_base + RxBufPtr) then
      match fst (snd x) with O => x | S n => (fst x, (n, next_rx (snd (snd x)) 64)) end
    else x;
  bus_ticks x := (0, x);
}.
#[local] Instance rx_card : Receiver nic_base (nat * Z).
Proof.
  refine {| arrived h := repeat demo_packet (fst h); cursor := snd |}.
  - cbv. split; congruence.
  - intros [n c]. apply Forall_forall. intros p Hp. apply repeat_spec in Hp. subst p. vm_compute. repeat split; congruence.
  - intros [m [n c]] w reg Hr Hi. cbn [bus_in rx_bus fst snd]. split; [split; [exact Hr|split; [exists []; now rewrite app_nil_r|auto]]|]. split; [reflexivity|].
    split; [destruct (_ && _); lia|]. intros ->. rewrite Z.eqb_refl. destruct n; cbn; split; congruence.
  - intros [m [n c]] v Hr. cbn [bus_out rx_bus fst snd]. split; [split; [exact Hr|split; [exists []; now rewrite app_nil_r|auto]]|reflexivity].
  - intros [m [n c]] v p q Hr Ha _. cbn [fst snd] in *. destruct n as [|n]; [discriminate|]. cbn [repeat] in Ha. injection Ha as <- <-.
    cbn [bus_out rx_bus]. change ((2 =? 2)%nat && (nic_base + RxBufPtr =? nic_base + RxBufPtr)) with true. cbn [fst snd].
    split; [|reflexivity]. split; [apply Hr|]. split; [exists []; now rewrite app_nil_r|auto].
Defined.
(** The packet is 16 bytes before the end of the ring, and goes on at its start. *)
Definition rx_mem : mem :=
  let bytes := snd demo_packet in stn (stn (st32 (fun _ => 0) (rx_ring + 8176) (64 * 65536 + 1)) (rx_ring + 8180) (firstn 12 bytes)) rx_ring (skipn 12 bytes).
Definition rx_state : drv * (mem * (nat * Z)) :=
  ({| cur_rx := 8176; cur_tx := 0; packet_len := 0; node_addr := [1; 2; 3; 4; 5; 6]; ioaddr := nic_base; irqno := 11 |}, (rx_mem, (1%nat, 8176))).
Lemma ring_bytes m c bytes : (forall i, (i < length bytes)%nat -> ring_at m (c + 4 + Z.of_nat i) = nth i bytes 0) ->
  forall i, 0 <= i < Z.of_nat (length bytes) -> ring_at m (c + 4 + i) = nth (Z.to_nat i) bytes 0.
Proof. intros K i Hi. rewrite <- K by lia. now rewrite Z2Nat.id by lia. Qed.
Lemma ring_check m c bytes : forallb (fun i => ring_at m (c + 4 + Z.of_nat i) =? nth i bytes 0) (seq 0 (length bytes)) = true ->
  forall i, 0 <= i < Z.of_nat (length bytes) -> ring_at m (c + 4 + i) = nth (Z.to_nat i) bytes 0.
Proof. intros F. apply ring_bytes. intros i Hi. rewrite forallb_forall in F. apply Z.eqb_eq, F, in_seq. lia. Qed.
Lemma demo_in_step : rx_in_step nic_base rx_state.
Proof.
  split; [reflexivity|]. split; [|vm_compute; repeat split; congruence]. unfold ring_ok, rx_state. cbn [fst snd arrived cursor rx_card repeat in_ring].
  split; [vm_compute; reflexivity|]. split; [|exact I]. apply (ring_check rx_mem 8176 (snd demo_packet)). vm_compute. reflexivity.
Qed.
Lemma rtl_poll_delivers_witness :
  exists r s', rtl_poll 0 5 true rx_state = Some (r, s') /\ r = 1 /\ rx_in_step nic_base s' /\ packet_len (fst s') = 60 /\
    ldn (fst (snd s')) nic_packet 60 = firstn 60 (snd demo_packet).
Proof.
  pose proof (rtl_poll_delivers nic_base 0 5 true rx_state demo_in_step) as E. unfold yields in E.
  destruct (rtl_poll 0 5 true rx_state) as [[r s']|]; [|destruct E]. exists r, s'. split; [reflexivity|].
  destruct E as (R & Hr & D1 & D2 & _). exact (conj Hr (conj R (conj D1 D2))).
Defined.

(** A card that reports each frame as sent at once. *)
Record tx_hw := { descs : Z -> Z; frames : list (list Z) }.
#[local] Instance tx_bus : Bus tx_hw := {
  bus_in w port x := (if port =? nic_base + IntrStatus then u8 4 mod 2 ^ (8 * Z.of_nat w) else if port =? PPC_PORTB then 0x20 mod 2 ^ (8 * Z.of_nat w) else 0, x);
  bus_out w port v x :=
    let d := (port - nic_base - TxAddr0) / 4 in let e := (port - nic_base - TxStatus0) / 4 in
    if (nic_base + TxAddr0 <=? port) && (port <? nic_base + RxBuf) then (fst x, {| descs := fun i => if i =? d then v else descs (snd x) i; frames := frames (snd x) |})
    else if (nic_base + TxStatus0 <=? port) && (port <? nic_base + TxAddr0) then
      (fst x, {| descs := descs (snd x); frames := frames (snd x) ++ [ldn (fst x) (phys_to_virt 0 (descs (snd x) e)) (Z.to_nat (Z.land v 0x1fff))] |})
    else x;
  bus_ticks x := (4294967295, x);
}.
#[local] Instance tx_card : Transmitter nic_base 0 tx_hw.
Proof.
  refine {| descriptor := descs; given := frames; clock_left _ _ := O; timer_left _ := O; timer_bound := O |}.
  - cbv. split; congruence.
  - intros h. apply Nat.le_refl.
  - intros x w port. cbn [bus_in tx_bus fst snd]. split; [repeat split; auto|]. split; [apply Nat.le_refl|]. split.
    + repeat case_tests; try (apply Z.mod_pos_bound, Z.pow_pos_nonneg; lia). split; [lia|apply Z.pow_pos_nonneg; lia].
    + intros -> ->. cbn. discriminate.
  - intros x w v port Hp. cbn [bus_out tx_bus]. unfold TxStatus0, TxAddr0, RxBuf in *. case_tests; try lia; repeat split; auto.
  - intros x. cbn [bus_ticks tx_bus]. split; [repeat split; auto|]. intros t Ht. lia.
  - intros x d v Hd Hv. unfold NUM_TX_DESC in Hd. cbn [bus_out tx_bus]. replace ((nic_base + TxAddr0 + d * 4 - nic_base - TxAddr0) / 4) with d by (apply (Z.div_unique _ _ _ 0); lia).
    unfold TxStatus0, TxAddr0, RxBuf. case_tests; try lia. cbn [snd descs]. rewrite Z.eqb_refl. repeat split; auto.
  - intros x d v Hd. unfold NUM_TX_DESC in Hd. cbn [bus_out tx_bus]. replace ((nic_base + TxStatus0 + d * 4 - nic_base - TxStatus0) / 4) with d by (apply (Z.div_unique _ _ _ 0); lia).
    unfold TxStatus0, TxAddr0, RxBuf. case_tests; try lia. repeat split; auto.
Defined.
Definition tx_state : drv * (mem * tx_hw) :=
  ({| cur_rx := 0; cur_tx := 3; packet_len := 0; node_addr := [1; 2; 3; 4; 5; 6]; ioaddr := nic_base; irqno := 11 |},
   (stn (fun _ => 0) 0x10000 [10; 20; 30], {| descs := fun _ => 0; frames := [] |})).
Lemma rtl_transmit_sends_witness :
  exists s', rtl_transmit 0 1 [11; 12; 13; 14; 15; 16] 0x0806 3 0x10000 tx_state = Some (tt, s') /\
    frames (hw s') = [[11; 12; 13; 14; 15; 16; 1; 2; 3; 4; 5; 6; 8; 6; 10; 20; 30] ++ repeat 0 43] /\ cur_tx (fst s') = 0.
Proof.
  assert (E := rtl_transmit_sends nic_base 0 1 [11; 12; 13; 14; 15; 16] 0x0806 3 0x10000 tx_state eq_refl ltac:(cbv; split; congruence) eq_refl
    ltac:(repeat constructor; cbv; congruence) eq_refl ltac:(repeat constructor; cbv; congruence) ltac:(lia) ltac:(lia) ltac:(left; cbv; congruence) ltac:(cbv; lia) ltac:(intros; cbv; lia)).
  assert (T : match rtl_transmit 0 1 [11; 12; 13; 14; 15; 16] 0x0806 3 0x10000 tx_state with Some (_, s') => cur_tx (fst s') =? 0 | None => false end = true) by (vm_compute; reflexivity).
  unfold yields in E. destruct (rtl_transmit _ _ _ _ _ _ _) as [[[] s']|]; [|destruct E]. exists s'. split; [reflexivity|]. apply Z.eqb_eq in T. split; [|exact T].
  destruct E as (G & _). refine (eq_trans G _). vm_compute. reflexivity.
Defined.
End demo.
