(* ===== verification/Pic.v ===== *)
(** The interrupt controllers ([src/src/arch/i386/core/pic8259.c] and [pic8259.h]): handlers of hardware interrupts in the table of
    real-mode vectors, the mask registers, and the trivial handler, which counts.

    The code of that handler is assembler; a real-mode interrupt is a parameter, what it does to the memory is stated
    where it is used.  [Controller] says what the registers of the two controllers do. *)

From S2P Require Import Prelude Memory StringLib Misc Heap Pci Ports.
Local Open Scope etherboot_scope.

Definition IRQ_PIC_CUTOFF : Z := 8.
Definition IRQ_MAX : Z := 15.
Definition IRQ_NONE : Z := 0xff.
Definition CHAINED_IRQ : Z := 2.
Definition IMR_REG (x : Z) : Z := if x <? IRQ_PIC_CUTOFF then 0x21 else 0xa1.
Definition IMR_BIT (x : Z) : Z := Z.shiftl 1 (x mod IRQ_PIC_CUTOFF).
Definition ICR_REG (x : Z) : Z := if x <? IRQ_PIC_CUTOFF then 0x20 else 0xa0.
Definition ICR_VALUE (x : Z) : Z := x mod IRQ_PIC_CUTOFF.
Definition ICR_EOI_NON_SPECIFIC : Z := 0x20.
Definition ICR_EOI_SPECIFIC : Z := 0x60.
Definition IRQ_INT (x : Z) : Z := if x <? IRQ_PIC_CUTOFF then x + 0x08 else x - IRQ_PIC_CUTOFF + 0x70.

(** The static variables: the pointers lead into the copy of the handler that is in use. *)
Record irqs := { installed_on : Z; previous_count : Z; handler : Z; trigger_count : Z; chain_to : Z; chain : Z }.
Definition set_installed v s := {| installed_on := v; previous_count := previous_count s; handler := handler s; trigger_count := trigger_count s; chain_to := chain_to s; chain := chain s |}.
Definition set_previous v s := {| installed_on := installed_on s; previous_count := v; handler := handler s; trigger_count := trigger_count s; chain_to := chain_to s; chain := chain s |}.

Section pic.
(** Where the handler and its three variables are in the program, its size, and the execution of an interrupt in real mode. *)
Context {H : Type} `{Bus H} (voff : Z) (code count_at chain_to_at chain_at : Z) (TRIVIAL_IRQ_HANDLER_SIZE : Z) (real_int : Z -> io H irqs unit).
Definition IRQ_VECTOR (irq : Z) : Z := phys_to_virt voff (4 * IRQ_INT irq).
Definition irq_enabled (irq : Z) : io H irqs bool := v <<- inb (IMR_REG irq) ;; iret (Z.land v (IMR_BIT irq) =? 0).
Definition enable_irq (irq : Z) : io H irqs unit := v <<- inb (IMR_REG irq) ;; outb (Z.land v (not32 (IMR_BIT irq))) (IMR_REG irq).
Definition disable_irq (irq : Z) : io H irqs unit := v <<- inb (IMR_REG irq) ;; outb (Z.lor v (IMR_BIT irq)) (IMR_REG irq).
Definition send_nonspecific_eoi (irq : Z) : io H irqs unit :=
  (if irq >=? IRQ_PIC_CUTOFF then outb ICR_EOI_NON_SPECIFIC 0xa0 else iret tt) ;;>
  outb ICR_EOI_NON_SPECIFIC 0x20.
Definition send_specific_eoi (irq : Z) : io H irqs unit :=
  outb (Z.lor ICR_EOI_SPECIFIC (ICR_VALUE irq)) (ICR_REG irq) ;;>
  if irq >=? IRQ_PIC_CUTOFF then outb (Z.lor ICR_EOI_SPECIFIC (ICR_VALUE CHAINED_IRQ)) (ICR_REG CHAINED_IRQ) else iret tt.
Definition fake_int_number (irq : Z) : Z := Z.land (Z.lxor (u16 (irq - 8)) 0x70) 0x7f.
Definition fake_irq (irq : Z) : io H irqs unit := real_int (fake_int_number irq).
(** A handler is given by its segment and offset; the last two arguments are pointers. *)
Definition install_irq_handler (irq seg off previously_enabled previous_handler : Z) : io H irqs bool :=
  let irq_vector := IRQ_VECTOR irq in
  on <<- irq_enabled irq ;;
  istore (fun m => st8 m previously_enabled (if on : bool then 1 else 0)) ;;>
  if irq >? IRQ_MAX then iret false
  else
    istore (fun m => st16 m (previous_handler + 2) (ld16 m (irq_vector + 2))) ;;>
    istore (fun m => st16 m previous_handler (ld16 m irq_vector)) ;;>
    m <<- imem ;;
    (if negb (ld8 m previously_enabled =? 0) then disable_irq irq else iret tt) ;;>
    istore (fun m => st16 (st16 m (irq_vector + 2) seg) irq_vector off) ;;>
    m <<- imem ;;
    (if negb (ld8 m previously_enabled =? 0) then enable_irq irq else iret tt) ;;>
    iret true.
Definition remove_irq_handler (irq seg off previously_enabled previous_handler : Z) : io H irqs bool :=
  let irq_vector := IRQ_VECTOR irq in
  m <<- imem ;;
  if irq >? IRQ_MAX then iret false
  else if negb (ld16 m (irq_vector + 2) =? seg) || negb (ld16 m irq_vector =? off) then iret false
  else
    disable_irq irq ;;>
    istore (fun m => st16 m (irq_vector + 2) (ld16 m (previous_handler + 2))) ;;>
    istore (fun m => st16 m irq_vector (ld16 m previous_handler)) ;;>
    m <<- imem ;;
    (if negb (ld8 m previously_enabled =? 0) then enable_irq irq else iret tt) ;;>
    iret true.

(** ** The trivial handler *)

Definition segment_of (p : Z) : Z := Z.shiftr (virt_to_phys voff p) 4.
Definition offset_of (p : Z) : Z := Z.land (virt_to_phys voff p) 0xf.
Definition trivial_irq_triggered (irq : Z) : io H irqs bool :=
  v <<- iget (fun s => s) ;;
  m <<- imem ;;
  let this := ld16 m (trigger_count v) in
  iset (set_previous this) ;;>
  iret (negb (this - previous_count v =? 0)).
Definition remove_trivial_irq_handler (irq : Z) : io H irqs bool :=
  v <<- iget (fun s => s) ;;
  if installed_on v =? IRQ_NONE then iret true
  else if negb (irq =? installed_on v) then iret false
  else
    ok <<- remove_irq_handler irq (u16 (segment_of (handler v))) (offset_of (handler v)) (chain v) (chain_to v) ;;
    if negb ok then iret false
    else
      late <<- trivial_irq_triggered (installed_on v) ;;
      (if late : bool then send_specific_eoi (installed_on v) else iret tt) ;;>
      iset (set_installed IRQ_NONE) ;;>
      iret true.
Definition install_trivial_irq_handler (irq : Z) : io H irqs bool :=
  v <<- iget (fun s => s) ;;
  if negb (installed_on v =? IRQ_NONE) then iret false
  else if segment_of (handler v) >? 0xffff then iret false
  else
    ok <<- install_irq_handler irq (u16 (segment_of (handler v))) (offset_of (handler v)) (chain v) (chain_to v) ;;
    if negb ok then iret false
    else
      iset (set_installed irq) ;;>
      disable_irq irq ;;>
      istore (fun m => st16 m (trigger_count v) 0) ;;>
      iset (set_previous 0) ;;>
      fake_irq irq ;;>
      hit <<- trivial_irq_triggered irq ;;
      if negb hit then _ <<- remove_trivial_irq_handler irq ;; iret false
      else send_specific_eoi irq ;;> enable_irq irq ;;> iret true.
(** [target] is [None] to go back to the original place. *)
Definition copy_trivial_irq_handler (target : option Z) (target_size : Z) : io H irqs bool :=
  v <<- iget (fun s => s) ;;
  let offset := match target with None => 0 | Some t => u32 (t - code) end in
  if (match target with None => false | Some _ => target_size <? TRIVIAL_IRQ_HANDLER_SIZE end) then iret false
  else
    removed <<- (if installed_on v =? IRQ_NONE then iret true else remove_trivial_irq_handler (installed_on v)) ;;
    if negb removed then iret false
    else
      (match target with None => iret tt | Some t => istore (fun m => memcpy m t code (Z.to_nat TRIVIAL_IRQ_HANDLER_SIZE)) end) ;;>
      iset (fun s => {| installed_on := installed_on s; previous_count := previous_count s; handler := u32 (code + offset); trigger_count := u32 (count_at + offset);
                        chain_to := u32 (chain_to_at + offset); chain := u32 (chain_at + offset) |}) ;;>
      if installed_on v =? IRQ_NONE then iret true else install_trivial_irq_handler (installed_on v).
End pic.

(** The bit trick gives the interrupt of each request. *)
Lemma fake_int_number_spec irq : 0 <= irq <= IRQ_MAX -> fake_int_number irq = IRQ_INT irq.
Proof. intros Hi. apply Z.eqb_eq. apply (all_below_spec 16 (fun irq => fake_int_number irq =? IRQ_INT irq)); [vm_compute; reflexivity|unfold IRQ_MAX in Hi; lia]. Qed.

(** ** The controllers *)

(** The mask of each controller ([true] for the second); devices may write the part [dma] of the memory at any access. *)
Class Controller (H : Type) `{Bus H} := {
  imr : H -> bool -> Z;
  dma : Z -> Prop;
  agree (m m' : mem) : Prop := forall a, ~ dma a -> ld8 m a = ld8 m' a;
  imr_byte h b : 0 <= imr h b < 256;
  pic_in (x : mem * H) (b : bool) : let '(v, x') := bus_in 1 (if b then 0xa1 else 0x21) x in
    v = imr (snd x) b /\ (forall c, imr (snd x') c = imr (snd x) c) /\ agree (fst x') (fst x);
  pic_out (x : mem * H) (b : bool) v : 0 <= v < 256 -> let x' := bus_out 1 (if b then 0xa1 else 0x21) v x in
    (forall c, imr (snd x') c = if Bool.eqb c b then v else imr (snd x) c) /\ agree (fst x') (fst x);
  pic_eoi (x : mem * H) (b : bool) v : let x' := bus_out 1 (if b then 0xa0 else 0x20) v x in
    (forall c, imr (snd x') c = imr (snd x) c) /\ agree (fst x') (fst x);
}.

Section controller.
Context {H : Type} `{Controller H}.
(** A description of the state: the variables, the memory but for what devices write, the masks.  [leads c d a d'] says that from any state that [d] describes, [c] gives [a] and
    leaves a state that [d'] describes. *)
Definition desc : Type := irqs * mem * (bool -> Z).
Definition describes (d : desc) (s : irqs * (mem * H)) : Prop :=
  fst s = fst (fst d) /\ agree (fst (snd s)) (snd (fst d)) /\ forall b, imr (hw s) b = snd d b.
Definition leads {A} (c : io H irqs A) (d : desc) (a : A) (d' : desc) : Prop :=
  forall s, describes d s -> yields c (fun r s' => r = a /\ describes d' s') s.
Lemma agree_refl m : agree m m.
Proof. now intros a Ha. Qed.
Lemma agree_trans m1 m2 m3 : agree m1 m2 -> agree m2 m3 -> agree m1 m3.
Proof. intros A B a Ha. rewrite (A a Ha). exact (B a Ha). Qed.
Lemma leads_bind {A B} (c : io H irqs A) (k : A -> io H irqs B) d1 a d2 b d3 : leads c d1 a d2 -> leads (k a) d2 b d3 -> leads (ibind c k) d1 b d3.
Proof. intros C K s Hs. apply yields_bind. eapply yields_weak; [exact (C s Hs)|]. intros r s1 [-> D]. exact (K s1 D). Qed.
Lemma leads_ret {A} (a : A) d : leads (iret a) d a d.
Proof. intros s Hs. now apply yields_ret. Qed.
Lemma leads_get {B} (k : irqs -> io H irqs B) v g m b d' : leads (k v) (v, g, m) b d' -> leads (ibind (iget (fun s => s)) k) (v, g, m) b d'.
Proof. intros K s Hs. apply yields_bind. unfold yields at 1, iget. destruct Hs as [E Hs]. cbn [fst] in E. rewrite E. apply K. now split. Qed.
Lemma leads_set f v g m : leads (iset f) (v, g, m) tt (f v, g, m).
Proof. intros s (E & A & M). cbn [fst] in E. split; [reflexivity|]. repeat split; cbn [fst snd]; [now rewrite E|exact A|exact M]. Qed.
Lemma leads_store f v g g' m : (forall x, agree x g -> agree (f x) g') -> leads (istore f) (v, g, m) tt (v, g', m).
Proof. intros F s (E & A & M). split; [reflexivity|]. repeat split; cbn [fst snd]; [exact E|now apply F|exact M]. Qed.
Lemma leads_mem {B} (k : mem -> io H irqs B) v g m b d' : (forall x, agree x g -> leads (k x) (v, g, m) b d') -> leads (ibind imem k) (v, g, m) b d'.
Proof. intros K s Hs. apply yields_bind. unfold yields at 1, imem. apply K; [apply Hs|exact Hs]. Qed.

Definition second (irq : Z) : bool := negb (irq <? IRQ_PIC_CUTOFF).
Lemma IMR_second irq : IMR_REG irq = if second irq then 0xa1 else 0x21.
Proof. unfold IMR_REG, second. now destruct (irq <? IRQ_PIC_CUTOFF). Qed.
Definition masked (m : bool -> Z) (irq : Z) (v : Z) : bool -> Z := fun b => if Bool.eqb b (second irq) then v else m b.
Definition is_on (m : bool -> Z) (irq : Z) : bool := Z.land (m (second irq)) (IMR_BIT irq) =? 0.
Definition switched_on (m : bool -> Z) (irq : Z) : bool -> Z := masked m irq (Z.land (m (second irq)) (not32 (IMR_BIT irq))).
Definition switched_off (m : bool -> Z) (irq : Z) : bool -> Z := masked m irq (Z.lor (m (second irq)) (IMR_BIT irq)).
Lemma bits_of_mask v irq : 0 <= v < 256 ->
  0 <= Z.land v (not32 (IMR_BIT irq)) < 256 /\ 0 <= Z.lor v (IMR_BIT irq) < 256 /\
  (Z.land v (IMR_BIT irq) = 0 -> Z.land (Z.lor v (IMR_BIT irq)) (not32 (IMR_BIT irq)) = v) /\ (Z.land v (IMR_BIT irq) <> 0 -> Z.lor v (IMR_BIT irq) = v) /\
  Z.lor (Z.land v (not32 (IMR_BIT irq))) (IMR_BIT irq) = Z.lor v (IMR_BIT irq) /\
  Z.land (Z.lor v (IMR_BIT irq)) (not32 (IMR_BIT irq)) = Z.land v (not32 (IMR_BIT irq)) /\ (Z.land v (IMR_BIT irq) = 0 -> Z.land v (not32 (IMR_BIT irq)) = v).
Proof.
  intros Hv. unfold IMR_BIT, IRQ_PIC_CUTOFF. assert (Hr : 0 <= irq mod 8 < 8) by (apply Z.mod_pos_bound; lia). set (r := irq mod 8) in *. clearbody r.
  assert (A := all_below_spec 8 (fun r => all_below 256 (fun v => let b := Z.shiftl 1 r in
    (0 <=? Z.land v (not32 b)) && (Z.land v (not32 b) <? 256) && (0 <=? Z.lor v b) && (Z.lor v b <? 256) &&
    (negb (Z.land v b =? 0) || (Z.land (Z.lor v b) (not32 b) =? v)) && ((Z.land v b =? 0) || (Z.lor v b =? v)) &&
    (Z.lor (Z.land v (not32 b)) b =? Z.lor v b) && (Z.land (Z.lor v b) (not32 b) =? Z.land v (not32 b)) && (negb (Z.land v b =? 0) || (Z.land v (not32 b) =? v)))) ltac:(vm_compute; reflexivity) r Hr).
  cbv beta in A. pose proof (all_below_spec 256 _ A v Hv) as B. cbv beta zeta in B. repeat rewrite andb_true_iff in B.
  rewrite !orb_true_iff, negb_true_iff, !Z.eqb_eq, !Z.eqb_neq, !Z.leb_le, !Z.ltb_lt in B. intuition.
Qed.
Lemma leads_enabled irq v g m : leads (irq_enabled irq) (v, g, m) (is_on m irq) (v, g, m).
Proof.
  intros s (E & A & M). unfold irq_enabled, inb. apply yields_bind, yields_in. intros r x Hx. rewrite IMR_second in Hx.
  pose proof (pic_in (snd s) (second irq)) as P. replace (u16 (if second irq then 161 else 33)) with (if second irq then 161 else 33) in Hx by now destruct (second irq).
  rewrite Hx in P. destruct P as (-> & I & G). apply yields_ret. split; [unfold is_on; cbn [snd] in M; now rewrite <- M|].
  repeat split; cbn [fst snd]; [exact E|exact (agree_trans _ _ _ G A)|]. intros b. unfold hw. cbn [snd]. rewrite I. apply M.
Qed.
Lemma leads_write_mask irq (f : Z -> Z) v g m : (forall x, 0 <= x < 256 -> 0 <= f x < 256) -> (forall b, 0 <= m b < 256) ->
  leads (ibind (inb (IMR_REG irq)) (fun x => outb (f x) (IMR_REG irq))) (v, g, m) tt (v, g, masked m irq (f (m (second irq)))).
Proof.
  intros F R s (E & A & M). unfold inb. rewrite IMR_second. assert (P16 : u16 (if second irq then 161 else 33) = if second irq then 161 else 33) by now destruct (second irq).
  apply yields_bind, yields_in. intros r x Hx. rewrite P16 in Hx. pose proof (pic_in (snd s) (second irq)) as P. rewrite Hx in P. destruct P as (-> & I & G).
  unfold outb. apply yields_out. rewrite P16. cbn [fst snd]. cbn [snd] in M. pose proof (imr_byte (snd (snd s)) (second irq)) as B.
  rewrite u8_small by (apply F; exact B). destruct (pic_out x (second irq) (f (imr (snd (snd s)) (second irq))) (F _ B)) as (O & G').
  split; [reflexivity|]. repeat split; cbn [fst snd]; [exact E|exact (agree_trans _ _ _ G' (agree_trans _ _ _ G A))|].
  intros b. unfold hw, masked. cbn [snd]. rewrite O. destruct (Bool.eqb b (second irq)); [f_equal; apply M|rewrite I; apply M].
Qed.
Lemma leads_disable irq v g m : (forall b, 0 <= m b < 256) -> leads (disable_irq irq) (v, g, m) tt (v, g, switched_off m irq).
Proof. intros R. apply (leads_write_mask irq (fun x => Z.lor x (IMR_BIT irq))); [|exact R]. intros x Hx. now apply bits_of_mask. Qed.
Lemma leads_enable irq v g m : (forall b, 0 <= m b < 256) -> leads (enable_irq irq) (v, g, m) tt (v, g, switched_on m irq).
Proof. intros R. apply (leads_write_mask irq (fun x => Z.land x (not32 (IMR_BIT irq)))); [|exact R]. intros x Hx. now apply bits_of_mask. Qed.
Lemma leads_eoi irq v g m : leads (send_specific_eoi irq) (v, g, m) tt (v, g, m).
Proof.
  assert (W : forall x (b : bool), leads (outb x (if b then 0xa0 else 0x20)) (v, g, m) tt (v, g, m)).
  { intros x b s (E & A & M). unfold outb. apply yields_out. replace (u16 (if b then 160 else 32)) with (if b then 160 else 32) by now destruct b.
    destruct (pic_eoi (snd s) b (u8 x)) as (I & G). split; [reflexivity|]. repeat split; cbn [fst snd]; [exact E|exact (agree_trans _ _ _ G A)|]. intros c. unfold hw. cbn [snd]. rewrite I. apply M. }
  unfold send_specific_eoi, ICR_REG. apply (leads_bind _ _ _ tt (v, g, m)).
  - destruct (irq <? IRQ_PIC_CUTOFF); [apply (W _ false)|apply (W _ true)].
  - destruct (irq >=? IRQ_PIC_CUTOFF); [apply (W _ false)|apply leads_ret].
Qed.
Lemma leads_ext {A} (c : io H irqs A) d1 d1' a d2 d2' : (forall s, describes d1' s -> describes d1 s) -> (forall s, describes d2 s -> describes d2' s) -> leads c d1 a d2 -> leads c d1' a d2'.
Proof. intros E1 E2 R s Hs. eapply yields_weak; [apply R, E1, Hs|]. intros r s' [-> D]. auto. Qed.
Lemma same_masks v g m m' s : (forall b, m b = m' b) -> describes (v, g, m) s -> describes (v, g, m') s.
Proof. intros E (A & B & C). repeat split; [exact A|exact B|]. intros b. cbn [snd] in *. now rewrite <- E. Qed.

Definition safe (p n : Z) : Prop := forall a, p <= a < p + n -> ~ dma a.
Lemma agree_st8 x g a v : agree x g -> agree (st8 x a v) (st8 g a v).
Proof. intros A b Hb. rewrite !ld8_st8. destruct (b =? a); [reflexivity|now apply A]. Qed.
Lemma agree_st16 x g a v : agree x g -> agree (st16 x a v) (st16 g a v).
Proof. intros A. unfold st16. now apply agree_st8, agree_st8. Qed.
Lemma agree_ld16 x g a : safe a 2 -> agree x g -> ld16 x a = ld16 g a.
Proof. intros S A. apply ld16_ext; intros; refine (A _ (S _ _)); lia. Qed.
Lemma leads_copy16 p q v g m : safe q 2 -> leads (istore (fun x => st16 x p (ld16 x q))) (v, g, m) tt (v, st16 g p (ld16 g q), m).
Proof. intros S. apply leads_store. intros x A. rewrite (agree_ld16 x g q S A). now apply agree_st16. Qed.
Lemma leads_count p v g m : safe p 2 -> leads (istore (fun x => st16 x p (ld16 x p + 1))) (v, g, m) tt (v, st16 g p (ld16 g p + 1), m).
Proof. intros S. apply leads_store. intros x A. rewrite (agree_ld16 x g p S A). now apply agree_st16. Qed.
Lemma safe_sub p n q k : safe p n -> p <= q -> q + k <= p + n -> safe q k.
Proof. intros S A B a Ha. apply S. lia. Qed.

Lemma on_after_off m irq b : (forall b, 0 <= m b < 256) -> switched_on (switched_off m irq) irq b = switched_on m irq b.
Proof.
  intros R. unfold switched_on, switched_off, masked. rewrite Bool.eqb_reflx. destruct (Bool.eqb b (second irq)); [|reflexivity]. now apply bits_of_mask.
Qed.
Lemma masks_back m irq b : (forall b, 0 <= m b < 256) ->
  (if (if is_on m irq then 1 else 0) =? 0 then switched_off (switched_on m irq) irq else switched_on (switched_off (switched_on m irq) irq) irq) b = m b.
Proof.
  intros R. destruct (is_on m irq) eqn:E; cbn [Z.eqb]; unfold switched_on, switched_off, masked; rewrite !Bool.eqb_reflx; (destruct (Bool.eqb b (second irq)) eqn:Eb; [|reflexivity]);
    apply Bool.eqb_prop in Eb; subst b; destruct (bits_of_mask (m (second irq)) irq (R _)) as (_ & _ & _ & B4 & B5 & B6 & B7); rewrite B5.
  - unfold is_on in E. apply Z.eqb_eq in E. rewrite B6. now apply B7.
  - unfold is_on in E. apply Z.eqb_neq in E. now apply B4.
Qed.
(** Installing a handler: the previous one and the state of the request are kept, and the masks are those of before. *)
Definition vector_set (voff irq seg off pe ph : Z) (on : bool) (g : mem) : mem :=
  let vec := IRQ_VECTOR voff irq in
  let g := st8 g pe (if on then 1 else 0) in
  let g := st16 g (ph + 2) (ld16 g (vec + 2)) in
  let g := st16 g ph (ld16 g vec) in
  st16 (st16 g (vec + 2) seg) vec off.
Lemma leads_install voff irq seg off pe ph v g m :
  0 <= irq <= IRQ_MAX -> (forall b, 0 <= m b < 256) -> safe (IRQ_VECTOR voff irq) 4 -> safe pe 1 -> pe < ph \/ ph + 4 <= pe -> pe < IRQ_VECTOR voff irq \/ IRQ_VECTOR voff irq + 4 <= pe ->
  leads (install_irq_handler voff irq seg off pe ph) (v, g, m) true (v, vector_set voff irq seg off pe ph (is_on m irq) g, m).
Proof.
  intros Hi R Sv Sp D1 D2. unfold install_irq_handler, vector_set. set (vec := IRQ_VECTOR voff irq) in *. set (on := is_on m irq).
  set (g1 := st8 g pe _). set (g2 := st16 g1 _ _). set (g3 := st16 g2 _ _). set (g4 := st16 (st16 g3 _ _) _ _).
  assert (P3 : ld8 g3 pe = if on then 1 else 0) by (unfold g3, g2, g1; rewrite !ld8_st16_ne by lia; rewrite ld8_st8_eq; now destruct on).
  assert (P4 : ld8 g4 pe = if on then 1 else 0) by (unfold g4; rewrite !ld8_st16_ne by lia; exact P3).
  eapply leads_bind; [apply leads_enabled|]. fold on.
  eapply leads_bind; [apply (leads_store _ v g g1); intros x A; now apply agree_st8|].
  destruct (Z.gtb_spec irq IRQ_MAX); [lia|].
  eapply leads_bind; [apply leads_copy16, (safe_sub vec 4); [exact Sv|lia|lia]|]. eapply leads_bind; [apply leads_copy16, (safe_sub vec 4); [exact Sv|lia|lia]|]. fold g2. fold g3.
  apply leads_mem. intros x A. rewrite (A pe), P3 by (apply Sp; lia).
  eapply (leads_bind _ _ _ tt (v, g3, if on then switched_off m irq else m)); [destruct on; cbn [Z.eqb negb]; [now apply leads_disable|apply leads_ret]|].
  eapply leads_bind; [apply (leads_store _ v g3 g4); intros y B; now apply agree_st16, agree_st16|].
  apply leads_mem. intros y B. rewrite (B pe), P4 by (apply Sp; lia).
  eapply (leads_bind _ _ _ tt (v, g4, m)); [|apply leads_ret].
  destruct (is_on m irq) eqn:Eon; subst on; cbn [Z.eqb negb]; [|apply leads_ret].
  eapply leads_ext; [intros s D; exact D| |apply leads_enable; intros b; unfold switched_off, masked; destruct (Bool.eqb b (second irq)); [now apply bits_of_mask|apply R]].
  intros s. apply same_masks. intros b. unfold switched_on, switched_off, masked. rewrite Bool.eqb_reflx. destruct (Bool.eqb b (second irq)) eqn:Eb; [|reflexivity].
  apply Bool.eqb_prop in Eb. subst b. unfold is_on in Eon. apply Z.eqb_eq in Eon. now apply bits_of_mask.
Qed.
Definition removed_mem (voff irq ph : Z) (g : mem) : mem :=
  let vec := IRQ_VECTOR voff irq in let g := st16 g (vec + 2) (ld16 g (ph + 2)) in st16 g vec (ld16 g ph).
Lemma leads_remove voff irq seg off pe ph v g m :
  0 <= irq <= IRQ_MAX -> (forall b, 0 <= m b < 256) -> safe (IRQ_VECTOR voff irq) 4 -> safe pe 1 -> safe ph 4 -> pe < IRQ_VECTOR voff irq \/ IRQ_VECTOR voff irq + 4 <= pe ->
  ld16 g (IRQ_VECTOR voff irq + 2) = seg -> ld16 g (IRQ_VECTOR voff irq) = off ->
  leads (remove_irq_handler voff irq seg off pe ph) (v, g, m) true
    (v, removed_mem voff irq ph g, if ld8 g pe =? 0 then switched_off m irq else switched_on (switched_off m irq) irq).
Proof.
  intros Hi R Sv Sp Sh D Es Eo. unfold remove_irq_handler, removed_mem. set (vec := IRQ_VECTOR voff irq) in *. set (g1 := st16 g _ _). set (g2 := st16 g1 _ _).
  assert (P2 : ld8 g2 pe = ld8 g pe) by (unfold g2, g1; rewrite !ld8_st16_ne by lia; reflexivity).
  apply leads_mem. intros x A. destruct (Z.gtb_spec irq IRQ_MAX); [lia|].
  rewrite !(agree_ld16 x g) by (exact A || (apply (safe_sub vec 4); [exact Sv|lia|lia])). rewrite Es, Eo, !Z.eqb_refl. cbn [negb orb].
  eapply leads_bind; [now apply leads_disable|].
  eapply leads_bind; [apply leads_copy16, (safe_sub ph 4); [exact Sh|lia|lia]|]. eapply leads_bind; [apply leads_copy16, (safe_sub ph 4); [exact Sh|lia|lia]|]. fold g1. fold g2.
  apply leads_mem. intros y B. rewrite (B pe), P2 by (apply Sp; lia).
  eapply leads_bind; [|apply leads_ret]. destruct (ld8 g pe =? 0); cbn [negb]; [apply leads_ret|apply leads_enable].
  intros b. unfold switched_off, masked. destruct (Bool.eqb b (second irq)); [now apply bits_of_mask|apply R].
Qed.

(** ** The trivial handler, installed and removed *)

Section trivial.
Context (voff : Z) (real_int : Z -> io H irqs unit) (irq : Z) (v : irqs).
Let vec := IRQ_VECTOR voff irq.
Let seg := u16 (segment_of voff (handler v)).
Let off := offset_of voff (handler v).
(** The four parts of the memory that are used lie apart, and no device writes to them. *)
Record places : Prop := {
  pl_irq : 0 <= irq <= IRQ_MAX;
  pl_base : segment_of voff (handler v) <= 0xffff;
  pl_free : installed_on v = IRQ_NONE;
  pl_vec : safe vec 4; pl_chain : safe (chain v) 1; pl_chain_to : safe (chain_to v) 4; pl_count : safe (trigger_count v) 2;
  pl_1 : chain v < chain_to v \/ chain_to v + 4 <= chain v; pl_2 : chain v < vec \/ vec + 4 <= chain v;
  pl_3 : chain_to v + 4 <= vec \/ vec + 4 <= chain_to v; pl_4 : trigger_count v + 2 <= vec \/ vec + 4 <= trigger_count v;
  pl_5 : trigger_count v + 2 <= chain_to v \/ chain_to v + 4 <= trigger_count v; pl_6 : trigger_count v + 2 <= chain v \/ chain v < trigger_count v;
}.
(** The handler counts each time that its interrupt is executed. *)
Definition counts : Prop := forall v' g m, ld16 g vec = off -> ld16 g (vec + 2) = seg ->
  leads (real_int (IRQ_INT irq)) (v', g, m) tt (v', st16 g (trigger_count v) (ld16 g (trigger_count v) + 1), m).
Definition tested (v : irqs) : irqs := set_previous 1 (set_previous 0 (set_installed irq v)).
(** The memory while the handler is installed: what was in the vector is kept, and the state of the request. *)
Definition handler_in (g g1 : mem) (on : bool) : Prop :=
  ld16 g1 vec = off /\ ld16 g1 (vec + 2) = seg /\ ld16 g1 (chain_to v) = ld16 g vec /\ ld16 g1 (chain_to v + 2) = ld16 g (vec + 2) /\
  ld8 g1 (chain v) = if on then 1 else 0.
Lemma leads_triggered w g m : safe (trigger_count w) 2 ->
  leads (trivial_irq_triggered irq) (w, g, m) (negb (ld16 g (trigger_count w) - previous_count w =? 0)) (set_previous (ld16 g (trigger_count w)) w, g, m).
Proof.
  intros S. unfold trivial_irq_triggered. apply leads_get, leads_mem. intros x A. rewrite (agree_ld16 x g _ S A).
  eapply leads_bind; [apply leads_set|apply leads_ret].
Qed.
Lemma offset_range : 0 <= off < 16.
Proof. unfold off, offset_of. change 0xf with (Z.ones 4). rewrite Z.land_ones by lia. apply Z.mod_pos_bound. lia. Qed.
Lemma install_handler_in g on : places -> handler_in g (vector_set voff irq seg off (chain v) (chain_to v) on g) on.
Proof.
  intros P. destruct P. pose proof offset_range as Ro. assert (Rs : 0 <= seg < 65536) by (unfold seg, u16; apply Z.mod_pos_bound; lia).
  unfold handler_in, vector_set. fold vec. set (g1 := st8 g _ _).
  assert (E1 : forall a, a <> chain v -> ld8 g1 a = ld8 g a) by (intros a Ha; unfold g1; rewrite ld8_st8_ne by congruence; reflexivity).
  assert (V0 : ld16 g1 vec = ld16 g vec) by (apply ld16_ext; intros; apply E1; lia). assert (V2 : ld16 g1 (vec + 2) = ld16 g (vec + 2)) by (apply ld16_ext; intros; apply E1; lia).
  split; [rewrite ld16_st16_eq; apply u16_small; lia|].
  split; [rewrite ld16_st16_ne by lia; rewrite ld16_st16_eq; now apply u16_small|].
  split; [rewrite !(ld16_st16_ne _ _ (chain_to v)) by lia; rewrite ld16_st16_eq, ld16_st16_ne by lia; rewrite V0; apply u16_small, ld16_range|].
  split; [rewrite !(ld16_st16_ne _ _ (chain_to v + 2)) by lia; rewrite ld16_st16_eq, V2; apply u16_small, ld16_range|].
  rewrite !ld8_st16_ne by lia. unfold g1. rewrite ld8_st8_eq. now destruct on.
Qed.
(** A handler that counts is installed, found to work and left enabled. *)
Lemma leads_install_trivial g m : places -> counts -> (forall b, 0 <= m b < 256) ->
  exists g1, handler_in g g1 (is_on m irq) /\ leads (install_trivial_irq_handler voff real_int irq) (v, g, m) true (tested v, g1, switched_on m irq).
Proof.
  intros P C R. pose proof (install_handler_in g (is_on m irq) P) as U. destruct P. set (g0 := vector_set _ _ _ _ _ _ _ _) in U.
  set (g1 := st16 g0 (trigger_count v) 0). set (g2 := st16 g1 (trigger_count v) (ld16 g1 (trigger_count v) + 1)).
  assert (K : forall a, a < trigger_count v \/ trigger_count v + 1 < a -> ld8 g2 a = ld8 g0 a) by (intros a Ha; unfold g2, g1; rewrite !ld8_st16_ne by lia; reflexivity).
  assert (U1 : handler_in g g1 (is_on m irq)) by (destruct U as (A1 & A2 & A3 & A4 & A5); unfold handler_in, g1; rewrite !ld16_st16_ne, ld8_st16_ne by lia; auto).
  assert (U2 : handler_in g g2 (is_on m irq)) by (destruct U1 as (A1 & A2 & A3 & A4 & A5); unfold handler_in, g2; rewrite !ld16_st16_ne, ld8_st16_ne by lia; auto).
  assert (Cn : ld16 g2 (trigger_count v) = 1) by (unfold g2, g1; rewrite !ld16_st16_eq; reflexivity).
  exists g2. split; [exact U2|].
  assert (Rf : forall b, 0 <= switched_off m irq b < 256) by (intros b; unfold switched_off, masked; destruct (Bool.eqb b (second irq)); [now apply bits_of_mask|apply R]).
  unfold install_trivial_irq_handler. apply leads_get. rewrite pl_free0. cbn [negb Z.eqb IRQ_NONE Pos.eqb]. destruct (Z.gtb_spec (segment_of voff (handler v)) 0xffff); [lia|].
  eapply leads_bind; [now apply leads_install|]. fold seg off g0. cbn [negb].
  eapply leads_bind; [apply leads_set|]. eapply leads_bind; [now apply leads_disable|].
  eapply leads_bind; [apply (leads_store _ _ g0 g1); intros x A; now apply agree_st16|]. eapply leads_bind; [apply leads_set|].
  eapply leads_bind; [unfold fake_irq; rewrite fake_int_number_spec by exact pl_irq0; apply C; apply U1|]. fold g2.
  eapply leads_bind; [apply leads_triggered; exact pl_count0|]. cbn [set_previous set_installed trigger_count previous_count]. rewrite Cn. cbn [negb Z.eqb Z.sub].
  eapply leads_bind; [apply leads_eoi|]. eapply leads_bind; [now apply leads_enable|].
  eapply leads_ext; [intros s D; exact D| |apply leads_ret]. intros s. apply same_masks. intros b.
  apply on_after_off, R.
Qed.
(** Removing it gives the vector, the mask and the variable back, however often the interrupt came meanwhile. *)
Lemma leads_remove_trivial g m g1 c : places -> (forall b, 0 <= m b < 256) -> handler_in g g1 (is_on m irq) ->
  exists v' g', leads (remove_trivial_irq_handler voff irq) (set_previous c (tested v), g1, switched_on m irq) true (v', g', m) /\
    installed_on v' = IRQ_NONE /\ ld16 g' vec = ld16 g vec /\ ld16 g' (vec + 2) = ld16 g (vec + 2).
Proof.
  intros P R (A1 & A2 & A3 & A4 & A5). destruct P. set (w := set_previous c (tested v)). set (g' := removed_mem voff irq (chain_to v) g1).
  assert (V2 : ld16 g' (vec + 2) = ld16 g (vec + 2)) by (unfold g', removed_mem; fold vec; rewrite ld16_st16_ne, ld16_st16_eq, A4 by lia; apply u16_small, ld16_range).
  assert (V0 : ld16 g' vec = ld16 g vec) by (unfold g', removed_mem; fold vec; rewrite ld16_st16_eq, ld16_st16_ne, A3 by lia; apply u16_small, ld16_range).
  exists (set_installed IRQ_NONE (set_previous (ld16 g' (trigger_count v)) w)), g'. split; [|auto].
  assert (Ro : forall b, 0 <= switched_on m irq b < 256) by (intros b; unfold switched_on, masked; destruct (Bool.eqb b (second irq)); [now apply bits_of_mask|apply R]).
  unfold remove_trivial_irq_handler. apply leads_get. cbn [w set_previous tested set_installed installed_on handler chain chain_to].
  destruct (Z.eqb_spec irq IRQ_NONE) as [->|]; [unfold IRQ_NONE, IRQ_MAX in *; lia|]. rewrite Z.eqb_refl. cbn [negb]. fold seg off.
  eapply leads_bind; [apply (leads_remove voff irq seg off (chain v) (chain_to v)); assumption|]. fold g'. cbn [negb].
  eapply leads_bind; [apply leads_triggered; exact pl_count0|].
  apply (leads_bind _ _ _ tt (set_previous (ld16 g' (trigger_count v)) w, g', if ld8 g1 (chain v) =? 0 then switched_off (switched_on m irq) irq else switched_on (switched_off (switched_on m irq) irq) irq)).
  - destruct (negb _); [apply leads_eoi|apply leads_ret].
  - eapply leads_bind; [apply leads_set|]. eapply leads_ext; [|intros s D; exact D|apply leads_ret]. intros s. apply same_masks. intros b. rewrite A5. now apply masks_back.
Qed.
(** The trivial handler is installed, works, and is removed without a trace: the vector and the masks are those of before. *)
Theorem trivial_irq_round_trip g m : places -> counts -> (forall b, 0 <= m b < 256) ->
  exists g1, handler_in g g1 (is_on m irq) /\ leads (install_trivial_irq_handler voff real_int irq) (v, g, m) true (tested v, g1, switched_on m irq) /\
  forall g2 c, handler_in g g2 (is_on m irq) ->
  exists v' g', leads (remove_trivial_irq_handler voff irq) (set_previous c (tested v), g2, switched_on m irq) true (v', g', m) /\
    installed_on v' = IRQ_NONE /\ ld16 g' vec = ld16 g vec /\ ld16 g' (vec + 2) = ld16 g (vec + 2).
Proof.
  intros P C R. destruct (leads_install_trivial g m P C R) as (g1 & U & I). exists g1. split; [exact U|]. split; [exact I|].
  intros g2 c U2. exact (leads_remove_trivial g m g2 c P R U2).
Qed.
End trivial.
End controller.

(** Controllers that are nothing but their masks, and a handler that counts. *)
Section demo.
#[local] Instance pic_bus : Bus (Z * Z) := {
  bus_in w port x := (if port =? 0x21 then u8 (fst (snd x)) else if port =? 0xa1 then u8 (snd (snd x)) else 0, x);
  bus_out w port v x := (fst x, (if port =? 0x21 then v else fst (snd x), if port =? 0xa1 then v else snd (snd x)));
  bus_ticks x := (0, x);
}.
#[local] Instance pic_demo : Controller (Z * Z).
Proof.
  refine {| imr h b := u8 (if b then snd h else fst h); dma _ := False |}.
  - intros h b. apply u8_range.
  - intros x b. destruct b; cbn; repeat split.
  - intros x b v Hv. destruct b; cbn; (split; [intros []; cbn; rewrite ?u8_small by lia; reflexivity|now intros a _]).
  - intros x b v. destruct b; cbn; (split; [intros []; reflexivity|now intros a _]).
Defined.
Definition demo_irqs : irqs := {| installed_on := IRQ_NONE; previous_count := 7; handler := 0x9000; trigger_count := 0x9010; chain_to := 0x9012; chain := 0x9016 |}.
Definition demo_int (n : Z) : io (Z * Z) irqs unit := istore (fun m => st16 m 0x9010 (ld16 m 0x9010 + 1)).
Lemma trivial_irq_round_trip_witness : exists g1,
  leads (install_trivial_irq_handler 0 demo_int 11) (demo_irqs, fun _ => 0, fun _ => 0xff) true (tested 11 demo_irqs, g1, switched_on (fun _ => 0xff) 11) /\
  ld16 g1 0x1cc = 0 /\ ld16 g1 0x1ce = 0x900.
Proof.
  assert (P : places 0 11 demo_irqs) by (constructor; try (now intros a _); cbv; (split; congruence) || congruence || (left; congruence) || (right; congruence)).
  assert (C : counts 0 demo_int 11 demo_irqs) by (intros v' g m _ _; apply leads_count; now intros a _).
  destruct (trivial_irq_round_trip 0 demo_int 11 demo_irqs (fun _ => 0) (fun _ => 0xff) P C ltac:(lia)) as (g1 & (U1 & U2 & _) & I & _).
  exists g1. split; [exact I|]. split; [exact U1|exact U2].
Defined.
End demo.
