(* ===== verification/Isapnp.v ===== *)
(** Plug and Play cards of the ISA bus ([src/src/core/isapnp.c] and [isapnp.h]): the isolation of cards, the list of them, and the
    configuration of the 3c515.

    The registers are reached through an address port, a port for writes, and a read port that the isolation chooses. *)

From S2P Require Import Prelude Memory StringLib Misc Pci Ports.
Local Open Scope etherboot_scope.

Definition ADDRESS_ADDR : Z := 0x0279.
Definition WRITEDATA_ADDR : Z := 0x0a79.
Definition READ_ADDR_STEP : Z := 8.
Definition IDENT_LEN : nat := 9.
Definition TIMEOUT_PNP : nat := 100.
Definition INITDATA : list Z :=
  [0x6a; 0xb5; 0xda; 0xed; 0xf6; 0xfb; 0x7d; 0xbe; 0xdf; 0x6f; 0x37; 0x1b; 0x0d; 0x86; 0xc3; 0x61;
   0xb0; 0x58; 0x2c; 0x16; 0x8b; 0x45; 0xa2; 0xd1; 0xe8; 0x74; 0x3a; 0x9d; 0xce; 0xe7; 0x73; 0x39].
(** The array [serial_identifier], which nothing reads, is left out. *)
Record pnp := { read_port : Z; pnp_card_csn : Z; isapnp_checksum_value : Z }.
Definition set_read_port v s := {| read_port := v; pnp_card_csn := pnp_card_csn s; isapnp_checksum_value := isapnp_checksum_value s |}.
Definition set_card_csn v s := {| read_port := read_port s; pnp_card_csn := v; isapnp_checksum_value := isapnp_checksum_value s |}.
Definition set_checksum v s := {| read_port := read_port s; pnp_card_csn := pnp_card_csn s; isapnp_checksum_value := v |}.

(** ** The checksum *)

Definition checksum_step (checksum bit : Z) : Z :=
  u8 (Z.lor (Z.shiftl (Z.lxor (Z.land (Z.lxor checksum (Z.shiftr checksum 1)) 1) bit) 7) (Z.shiftr checksum 1)).
Definition checksum_bits (l : list Z) (checksum : Z) : Z := fold_left checksum_step l checksum.
(** The bits of a byte, the lowest first. *)
Definition byte_bits (b : Z) : list Z := map (fun j => if Z.land b (Z.shiftl 1 (Z.of_nat j)) =? 0 then 0 else 1) (seq 0 8).
Fixpoint checksum_byte (n j : nat) (b checksum : Z) : Z :=
  match n with
  | O => checksum
  | S n => checksum_byte n (S j) b (checksum_step checksum (if Z.land b (Z.shiftl 1 (Z.of_nat j)) =? 0 then 0 else 1))
  end.
Definition isapnp_checksum (data : list Z) : Z := fold_left (fun checksum b => checksum_byte 8 0 b checksum) (firstn 8 data) 0x6a.

Section isapnp.
Context {H : Type} `{Bus H} (poll_interruptions : io H pnp unit).
Local Abbreviation P := (io H pnp).
Definition ADDRESS (x : Z) : P unit := outb x ADDRESS_ADDR.
Definition WRITE_DATA (x : Z) : P unit := outb x WRITEDATA_ADDR.
Definition READ_DATA : P Z := p <<- iget read_port ;; inb p.
Definition SetRdPort (x : Z) : P unit := ADDRESS 0x00 ;;> WRITE_DATA (Z.shiftr x 2) ;;> iset (set_read_port (Z.lor x 3)).
Definition SERIALISOLATION : P unit := ADDRESS 0x01.
Definition CONFIGCONTROL : P unit := ADDRESS 0x02.
Definition Wake (x : Z) : P unit := ADDRESS 0x03 ;;> WRITE_DATA x.
Definition RESOURCEDATA : P Z := ADDRESS 0x04 ;;> READ_DATA.
Definition STATUS : P Z := ADDRESS 0x05 ;;> READ_DATA.
Definition CARDSELECTNUMBER : P unit := ADDRESS 0x06.
Definition LOGICALDEVICENUMBER : P unit := ADDRESS 0x07.
Definition ACTIVATE : P unit := ADDRESS 0x30.
Fixpoint wait_until (fuel : nat) (to : Z) : P unit :=
  match fuel with
  | O => istuck
  | S n => now <<- currticks_io ;; if now <? to then wait_until n to else iret tt
  end.
Definition isapnp_wait (fuel : nat) (nticks : Z) : P unit := now <<- currticks_io ;; wait_until fuel (u32 (now + nticks)).
Fixpoint write_key (l : list Z) : P unit :=
  match l with
  | [] => iret tt
  | x :: l => ADDRESS x ;;> write_key l
  end.
Definition send_key : P unit := CONFIGCONTROL ;;> WRITE_DATA 0x02 ;;> ADDRESS 0 ;;> ADDRESS 0 ;;> write_key INITDATA.

(** ** The read port *)

Fixpoint next_rdp (fuel : nat) (rdp : Z) : P bool :=
  match fuel with
  | O => istuck
  | S n =>
      if rdp >? 0x3ff then iret false
      else if (rdp <? 0x280) || (rdp >? 0x380) then iset (set_read_port rdp) ;;> iret true
      else next_rdp n (rdp + READ_ADDR_STEP)
  end.
(** 130 steps lead from any port past the last one. *)
Definition isapnp_next_rdp : P bool := rdp <<- iget read_port ;; next_rdp 130 rdp.
(** [true] for 0, [false] for -1. *)
Definition isapnp_isolate_rdp_select (fuel : nat) : P bool :=
  send_key ;;>
  CONFIGCONTROL ;;>
  WRITE_DATA 0x06 ;;>
  mdelay poll_interruptions fuel 2 ;;>
  send_key ;;>
  Wake 0 ;;>
  ok <<- isapnp_next_rdp ;;
  if negb ok then CONFIGCONTROL ;;> WRITE_DATA 0x02 ;;> iret false
  else
    p <<- iget read_port ;;
    SetRdPort p ;;>
    udelay poll_interruptions fuel 1000 ;;>
    SERIALISOLATION ;;>
    udelay poll_interruptions fuel 1000 ;;>
    iret true.

(** ** Isolation *)

(** A bit of the serial number is 1 when the card answers with both patterns. *)
Definition read_pair (delay : P unit) : P Z :=
  c1 <<- READ_DATA ;; delay ;;>
  c2 <<- READ_DATA ;; delay ;;>
  iret (if (c1 =? 0x55) && (c2 =? 0xaa) then 1 else 0).
Fixpoint read_serial (fuel : nat) (n : nat) (checksum : Z) : P Z :=
  match n with
  | O => iret checksum
  | S n => bit <<- read_pair (isapnp_wait fuel 1) ;; read_serial fuel n (checksum_step checksum bit)
  end.
Fixpoint read_chksum (fuel : nat) (n : nat) (i chksum : Z) : P Z :=
  match n with
  | O => iret chksum
  | S n =>
      bit <<- read_pair (udelay poll_interruptions fuel 250) ;;
      read_chksum fuel n (i + 1) (if bit =? 1 then Z.lor chksum (Z.shiftl 1 i) else chksum)
  end.
(** One card takes part to the end, and is given a number. *)
Definition isolate_one (fuel : nat) : P bool :=
  checksum <<- read_serial fuel 64 0x6a ;;
  chksum <<- read_chksum fuel 8 0 0 ;;
  iret (negb (checksum =? 0) && (checksum =? chksum)).
Definition number_card (fuel : nat) (csn : Z) : P unit :=
  CARDSELECTNUMBER ;;>
  WRITE_DATA csn ;;>
  udelay poll_interruptions fuel 250 ;;>
  Wake 0 ;;>
  p <<- iget read_port ;;
  SetRdPort p ;;>
  udelay poll_interruptions fuel 1000 ;;>
  SERIALISOLATION ;;>
  udelay poll_interruptions fuel 1000.
(** [rounds] bounds the cards and the read ports tried; the result is -1 or the number of cards. *)
Fixpoint isolate_loop (rounds fuel : nat) (csn : Z) : P Z :=
  match rounds with
  | O => istuck
  | S n =>
      found <<- isolate_one fuel ;;
      if found : bool then number_card fuel (csn + 1) ;;> isolate_loop n fuel (csn + 1)
      else if csn =? 0 then
        iset (fun s => set_read_port (read_port s + READ_ADDR_STEP) s) ;;>
        ok <<- isapnp_isolate_rdp_select fuel ;;
        if negb ok then iret (-1) else isolate_loop n fuel csn
      else iret csn
  end.
Definition do_isapnp_isolate (rounds fuel : nat) : P Z :=
  iset (set_read_port 0x213) ;;>
  ok <<- isapnp_isolate_rdp_select fuel ;;
  if negb ok then iret (-1) else isolate_loop rounds fuel 0.

(** ** The cards *)

Fixpoint wait_status (fuel j : nat) (d : Z) : P Z :=
  match j with
  | O => iret d
  | S j => d <<- STATUS ;; if negb (Z.land d 1 =? 0) then iret d else udelay poll_interruptions fuel 100 ;;> wait_status fuel j d
  end.
Fixpoint isapnp_peek (fuel bytes : nat) : P (list Z) :=
  match bytes with
  | O => iret []
  | S n =>
      d <<- wait_status fuel 20 0 ;;
      if Z.land d 1 =? 0 then rest <<- isapnp_peek fuel n ;; iret (0xff :: rest)
      else
        d <<- RESOURCEDATA ;;
        iset (fun s => set_checksum (u8 (isapnp_checksum_value s + d)) s) ;;>
        rest <<- isapnp_peek fuel n ;;
        iret (d :: rest)
  end.
Definition is_3c515 (header : list Z) : bool :=
  let b i := nth i header 0 in
  (Z.lor (Z.shiftl (b 1%nat) 8) (b 0%nat) =? 0x6D50) && (Z.lor (Z.shiftl (b 3%nat) 8) (b 2%nat) =? 0x5150).
Definition list_card (fuel : nat) (csn : Z) : P unit :=
  Wake csn ;;>
  header <<- isapnp_peek fuel 9 ;;
  let checksum := isapnp_checksum header in
  let last := nth 8 header 0 in
  if negb (last =? 0) && ((checksum =? 0) || negb (checksum =? last)) then iret tt
  else
    (if is_3c515 header then iset (set_card_csn csn) else iret tt) ;;>
    iset (set_checksum 0).
Fixpoint list_cards (n fuel : nat) (csn : Z) : P unit :=
  match n with
  | O => iret tt
  | S n => list_card fuel csn ;;> list_cards n fuel (csn + 1)
  end.
Definition isapnp_build_device_list (fuel : nat) : P unit := list_cards 10 fuel 1.
Definition bad_port (p : Z) : bool := (p <? 0x203) || (p >? 0x3ff).
Definition Isolate (rounds fuel : nat) : P unit :=
  p <<- iget read_port ;;
  cards <<- (if bad_port p then do_isapnp_isolate rounds fuel else iret 0) ;;
  p' <<- iget read_port ;;
  if bad_port p && ((cards <? 0) || bad_port p') then iret tt
  else isapnp_build_device_list fuel.
(** The identifier that is read is not used. *)
Fixpoint wait_resource (fuel x : nat) : P unit :=
  match x with
  | O => iret tt
  | S x => d <<- STATUS ;; if negb (Z.land d 1 =? 0) then iret tt else udelay poll_interruptions fuel 1000 ;;> wait_resource fuel x
  end.
Fixpoint skip_ident (fuel n : nat) : P unit :=
  match n with
  | O => iret tt
  | S n => wait_resource fuel (TIMEOUT_PNP - 1) ;;> _ <<- RESOURCEDATA ;; skip_ident fuel n
  end.
Definition Config (fuel : nat) (csn : Z) : P unit :=
  Wake csn ;;>
  udelay poll_interruptions fuel 1000 ;;>
  skip_ident fuel IDENT_LEN ;;>
  LOGICALDEVICENUMBER ;;>
  WRITE_DATA 0 ;;>
  ACTIVATE ;;>
  WRITE_DATA 1 ;;>
  udelay poll_interruptions fuel 250 ;;>
  CONFIGCONTROL ;;>
  WRITE_DATA 0x02 ;;>
  ADDRESS 0 ;;>
  ADDRESS 0.
Definition config_pnp_device (rounds fuel : nat) : P unit :=
  p <<- iget read_port ;;
  if p =? 0 then
    Isolate rounds fuel ;;>
    csn <<- iget pnp_card_csn ;;
    if csn =? 0 then iret tt else Config fuel csn
  else iret tt.
End isapnp.

(** ** The key, the checksum, and the read port *)

(** The key is the sequence of the shift register that the checksum uses, without data. *)
Lemma initdata_sequence : INITDATA = map (fun n => Nat.iter n (fun c => checksum_step c 0) 0x6a) (seq 0 32).
Proof. vm_compute. reflexivity. Qed.
Lemma checksum_byte_fold b n : forall j c,
  checksum_byte n j b c = fold_left checksum_step (map (fun j => if Z.land b (Z.shiftl 1 (Z.of_nat j)) =? 0 then 0 else 1) (seq j n)) c.
Proof. induction n as [|n IH]; intros j c; [reflexivity|]. cbn [checksum_byte seq map fold_left]. apply IH. Qed.
Lemma fold_left_flat {A B C} (f : A -> B -> A) (g : C -> list B) (h : A -> C -> A) l : (forall a c, h a c = fold_left f (g c) a) ->
  forall a, fold_left h l a = fold_left f (flat_map g l) a.
Proof. intros E. induction l as [|c l IH]; intros a; [reflexivity|]. cbn [fold_left flat_map]. now rewrite fold_left_app, IH, E. Qed.
Lemma isapnp_checksum_bits data : isapnp_checksum data = checksum_bits (flat_map byte_bits (firstn 8 data)) 0x6a.
Proof.
  unfold isapnp_checksum, checksum_bits. apply (fold_left_flat checksum_step byte_bits). intros a c. unfold byte_bits. apply checksum_byte_fold.
Qed.

Section ports.
Context {H : Type} `{Bus H}.
(** A read port is found from any port in the range, and it is not one of an NE2000. *)
Lemma next_rdp_spec rdp : forall fuel (s : pnp * (mem * H)), 0 <= rdp <= 0x3ff -> (Z.to_nat (0x3ff - rdp) / 8 < fuel)%nat ->
  yields (next_rdp fuel rdp) (fun r s' => r = true /\ snd s' = snd s /\ rdp <= read_port (fst s') <= 0x3ff /\ (read_port (fst s') < 0x280 \/ 0x380 < read_port (fst s'))) s.
Proof.
  intros fuel. revert rdp. induction fuel as [|fuel IH]; intros rdp s Hr Hf; [lia|]. cbn [next_rdp]. destruct (Z.gtb_spec rdp 0x3ff); [lia|].
  destruct (Z.ltb_spec rdp 0x280) as [L|L]; [cbn [orb]|destruct (Z.gtb_spec rdp 0x380) as [G|G]; cbn [orb]].
  - apply yields_bind. unfold yields at 1, iset. apply yields_ret. cbn [fst snd set_read_port read_port]. repeat split; lia.
  - apply yields_bind. unfold yields at 1, iset. apply yields_ret. cbn [fst snd set_read_port read_port]. repeat split; lia.
  - unfold READ_ADDR_STEP. eapply yields_weak; [apply (IH (rdp + 8) s); [lia|]|intros r s' (R1 & R2 & R3 & R4); repeat split; auto; lia].
    assert (E : Z.to_nat (0x3ff - rdp) = (Z.to_nat (0x3ff - (rdp + 8)) + 1 * 8)%nat) by lia. rewrite E, Nat.div_add in Hf by lia. lia.
Qed.
End ports.

(** ** A bus that answers *)

(** What the read port will give, while a card is isolated.  The clock reaches any time, and the timer runs out, after a number of readings. *)
Class Answers (p : Z) (H : Type) `{Bus H} := {
  script : H -> list Z;
  left_clock : H -> Z -> nat;
  left_timer : H -> nat;
  max_timer : nat;
  goes_on (x x' : mem * H) (l : list Z) : Prop := script (snd x') = l /\ forall t, (left_clock (snd x') t <= left_clock (snd x) t)%nat;
  an_port : 0 <= p < 65536;
  an_timer h : (left_timer h <= max_timer)%nat;
  an_read (x : mem * H) c l : script (snd x) = c :: l -> let '(v, x') := bus_in 1 p x in v = c /\ goes_on x x' l;
  an_timer_in (x : mem * H) : let '(v, x') := bus_in 1 PPC_PORTB x in
    goes_on x x' (script (snd x)) /\ (left_timer (snd x') <= left_timer (snd x))%nat /\ (Z.land v PPCB_T2OUT = 0 -> (left_timer (snd x') < left_timer (snd x))%nat);
  an_out (x : mem * H) v port : goes_on x (bus_out 1 port v x) (script (snd x));
  an_clock x : let '(v, x') := bus_ticks x in goes_on x x' (script (snd x)) /\ forall t, v < t < 4294967296 -> (left_clock (snd x') t < left_clock (snd x) t)%nat;
}.

Section isolation.
Context {H : Type} (p : Z) `{Answers p H} (poll_interruptions : io H pnp unit) (fuel : nat).
Implicit Type s : pnp * (mem * H).
Definition asks s s' (l : list Z) : Prop := fst s' = fst s /\ goes_on (snd s) (snd s') l.
(** Nothing is typed, so looking at the keyboard changes nothing. *)
Context (Poll : forall s, yields poll_interruptions (fun _ s' => asks s s' (script (hw s)) /\ (left_timer (hw s') <= left_timer (hw s))%nat) s).
Context (Long : (max_timer < fuel)%nat).
Definition patient s : Prop := read_port (fst s) = p /\ forall t, (left_clock (hw s) t < fuel)%nat.
Lemma patient_asks s s' l : patient s -> asks s s' l -> patient s'.
Proof. intros [A B] (E & _ & C). split; [now rewrite E|]. intros t. specialize (B t). specialize (C t). unfold hw in *. lia. Qed.
Lemma asks_trans s1 s2 s3 l : asks s1 s2 (script (hw s1)) -> asks s2 s3 (script (hw s2)) -> l = script (hw s1) -> asks s1 s3 l.
Proof.
  intros (A & B & C) (A' & B' & C') ->. split; [congruence|]. split; [unfold hw in *; congruence|]. intros t. specialize (C t). specialize (C' t). lia.
Qed.
Lemma asks_refl s : asks s s (script (hw s)).
Proof. repeat split. auto. Qed.
Lemma while_timer2_asks : forall n s, (left_timer (hw s) < n)%nat -> yields (while_timer2 poll_interruptions n) (fun _ s' => asks s s' (script (hw s))) s.
Proof.
  induction n as [|n IH]; intros s L; [lia|]. cbn [while_timer2]. unfold timer2_running, inb. apply yields_bind, yields_bind, yields_in. change (u16 PPC_PORTB) with PPC_PORTB.
  intros v x E. pose proof (an_timer_in (snd s)) as T. rewrite E in T. destruct T as (T1 & T2 & T3). apply yields_ret.
  assert (A1 : asks s (fst s, x) (script (hw s))) by (split; [reflexivity|exact T1]).
  destruct (Z.eqb_spec (Z.land v PPCB_T2OUT) 0) as [Z0|]; [|now apply yields_ret]. specialize (T3 Z0).
  apply yields_bind. eapply yields_weak; [apply Poll|]. intros ? s2 (A2 & L2). unfold hw in L2. cbn [snd] in L2.
  eapply yields_weak; [apply IH; unfold hw in *; lia|]. intros ? s3 A3. exact (asks_trans _ _ _ _ A1 (asks_trans _ _ _ _ A2 A3 eq_refl) eq_refl).
Qed.
Lemma out_asks v port s : yields (outb v port) (fun _ s' => asks s s' (script (hw s))) s.
Proof. unfold outb. apply yields_out. split; [reflexivity|]. apply an_out. Qed.
Lemma udelay_asks us s : yields (udelay poll_interruptions fuel us) (fun _ s' => asks s s' (script (hw s))) s.
Proof.
  unfold udelay, waiton_timer2, load_timer2. apply yields_bind. unfold inb. apply yields_bind, yields_in. change (u16 PPC_PORTB) with PPC_PORTB. intros v x E.
  pose proof (an_timer_in (snd s)) as T. rewrite E in T. destruct T as (T1 & _). assert (A1 : asks s (fst s, x) (script (hw s))) by (split; [reflexivity|exact T1]).
  apply yields_bind. eapply yields_weak; [apply out_asks|]. intros ? s2 A2. apply yields_bind. eapply yields_weak; [apply out_asks|]. intros ? s3 A3.
  apply yields_bind. eapply yields_weak; [apply out_asks|]. intros ? s4 A4. eapply yields_weak; [apply out_asks|]. intros ? s5 A5.
  eapply yields_weak; [apply while_timer2_asks; pose proof (an_timer (hw s5)); lia|]. intros ? s6 A6.
  exact (asks_trans _ _ _ _ A1 (asks_trans _ _ _ _ A2 (asks_trans _ _ _ _ A3 (asks_trans _ _ _ _ A4 (asks_trans _ _ _ _ A5 A6 eq_refl) eq_refl) eq_refl) eq_refl) eq_refl).
Qed.
Lemma wait_until_asks to : to < 4294967296 -> forall n s, (left_clock (hw s) to < n)%nat -> yields (wait_until n to) (fun _ s' => asks s s' (script (hw s))) s.
Proof.
  intros Ht. induction n as [|n IH]; intros s L; [lia|]. cbn [wait_until]. apply yields_bind. unfold yields at 1, currticks_io.
  pose proof (an_clock (snd s)) as T. destruct (bus_ticks (snd s)) as [now x]. destruct T as (T1 & T2).
  assert (A1 : asks s (fst s, x) (script (hw s))) by (split; [reflexivity|exact T1]).
  destruct (Z.ltb_spec now to) as [Lt|]; [|now apply yields_ret]. specialize (T2 to (conj Lt Ht)).
  eapply yields_weak; [apply IH; unfold hw in *; cbn [snd]; lia|]. intros ? s3 A3. exact (asks_trans _ _ _ _ A1 A3 eq_refl).
Qed.
Lemma isapnp_wait_asks n s : patient s -> yields (isapnp_wait fuel n) (fun _ s' => asks s s' (script (hw s))) s.
Proof.
  intros Pa. unfold isapnp_wait. apply yields_bind. unfold yields at 1, currticks_io. pose proof (an_clock (snd s)) as T. destruct (bus_ticks (snd s)) as [now x]. destruct T as (T1 & _).
  assert (A1 : asks s (fst s, x) (script (hw s))) by (split; [reflexivity|exact T1]).
  eapply yields_weak; [apply wait_until_asks; [apply u32_range|apply (patient_asks _ _ _ Pa A1)]|]. intros ? s3 A3. exact (asks_trans _ _ _ _ A1 A3 eq_refl).
Qed.
Lemma asks_then s1 s2 s3 l l' : asks s1 s2 l -> asks s2 s3 l' -> asks s1 s3 l'.
Proof. intros (A & _ & C) (A' & B' & C'). split; [congruence|]. split; [exact B'|]. intros t. specialize (C t). specialize (C' t). lia. Qed.
Lemma READ_DATA_asks c l s : patient s -> script (hw s) = c :: l -> yields READ_DATA (fun v s' => v = c /\ asks s s' l) s.
Proof.
  intros [Hp _] Hs. unfold READ_DATA. apply yields_bind. unfold yields at 1, iget. unfold inb. apply yields_in. rewrite Hp, u16_small by apply an_port.
  intros v x E. pose proof (an_read (snd s) c l Hs) as R. rewrite E in R. destruct R as [-> R]. split; [reflexivity|]. split; [reflexivity|exact R].
Qed.
Definition pair_bit (c : Z * Z) : Z := if (fst c =? 0x55) && (snd c =? 0xaa) then 1 else 0.
Definition pair_bytes (l : list (Z * Z)) : list Z := flat_map (fun c => [fst c; snd c]) l.
Lemma read_pair_asks delay c l s : (forall s, patient s -> yields delay (fun _ s' => asks s s' (script (hw s))) s) ->
  patient s -> script (hw s) = fst c :: snd c :: l -> yields (read_pair delay) (fun r s' => r = pair_bit c /\ asks s s' l) s.
Proof.
  intros D Pa Hs. unfold read_pair. apply yields_bind. eapply yields_weak; [exact (READ_DATA_asks _ _ s Pa Hs)|]. intros ? s1 (-> & A1). pose proof (patient_asks _ _ _ Pa A1) as P1.
  apply yields_bind. eapply yields_weak; [exact (D s1 P1)|]. intros ? s2 A2. pose proof (patient_asks _ _ _ P1 A2) as P2.
  assert (E2 : script (hw s2) = snd c :: l) by (transitivity (script (hw s1)); [apply A2|apply A1]).
  apply yields_bind. eapply yields_weak; [exact (READ_DATA_asks _ _ s2 P2 E2)|]. intros ? s3 (-> & A3). pose proof (patient_asks _ _ _ P2 A3) as P3.
  apply yields_bind. eapply yields_weak; [exact (D s3 P3)|]. intros ? s4 A4. apply yields_ret. split; [reflexivity|].
  assert (E3 : script (hw s3) = l) by apply A3. rewrite E3 in A4.
  exact (asks_then _ _ _ _ _ A1 (asks_then _ _ _ _ _ A2 (asks_then _ _ _ _ _ A3 A4))).
Qed.
Lemma read_serial_asks pairs : forall c l s, patient s -> script (hw s) = pair_bytes pairs ++ l ->
  yields (read_serial fuel (length pairs) c) (fun r s' => r = checksum_bits (map pair_bit pairs) c /\ asks s s' l) s.
Proof.
  induction pairs as [|q pairs IH]; intros c l s Pa Hs; cbn [length read_serial]; [apply yields_ret; split; [reflexivity|rewrite <- (Hs : _ = l); apply asks_refl]|].
  apply yields_bind. eapply yields_weak; [exact (read_pair_asks _ q (pair_bytes pairs ++ l) s (isapnp_wait_asks 1) Pa Hs)|]. intros ? s1 (-> & A1).
  eapply yields_weak; [exact (IH _ l s1 (patient_asks _ _ _ Pa A1) (proj1 (proj2 A1)))|]. intros ? s2 (-> & A2). split; [reflexivity|]. exact (asks_then _ _ _ _ _ A1 A2).
Qed.
(** The bits of a byte put together. *)
Fixpoint or_bits (i : Z) (l : list Z) (v : Z) : Z :=
  match l with
  | [] => v
  | bit :: l => or_bits (i + 1) l (if bit =? 1 then Z.lor v (Z.shiftl 1 i) else v)
  end.
Lemma or_byte_bits b : 0 <= b < 256 -> or_bits 0 (byte_bits b) 0 = b.
Proof. intros Hb. apply Z.eqb_eq. apply (all_below_spec 256 (fun b => or_bits 0 (byte_bits b) 0 =? b)); [vm_compute; reflexivity|exact Hb]. Qed.
Lemma read_chksum_asks pairs : forall i c l s, patient s -> script (hw s) = pair_bytes pairs ++ l ->
  yields (read_chksum poll_interruptions fuel (length pairs) i c) (fun r s' => r = or_bits i (map pair_bit pairs) c /\ asks s s' l) s.
Proof.
  induction pairs as [|q pairs IH]; intros i c l s Pa Hs; cbn [length read_chksum]; [apply yields_ret; split; [reflexivity|rewrite <- (Hs : _ = l); apply asks_refl]|].
  apply yields_bind. eapply yields_weak; [exact (read_pair_asks _ q (pair_bytes pairs ++ l) s (fun s _ => udelay_asks 250 s) Pa Hs)|]. intros ? s1 (-> & A1).
  eapply yields_weak; [exact (IH _ _ l s1 (patient_asks _ _ _ Pa A1) (proj1 (proj2 A1)))|]. intros ? s2 (-> & A2). split; [reflexivity|]. exact (asks_then _ _ _ _ _ A1 A2).
Qed.
(** Isolation reads the 64 bits of a serial number and its checksum: a card is found when the checksum, which is computed bit by bit, is that of the eight bytes and is not 0. *)
Theorem isolate_one_checks serial sum bits sums l s :
  length serial = 8%nat -> 0 <= sum < 256 -> map pair_bit bits = flat_map byte_bits serial -> map pair_bit sums = byte_bits sum ->
  patient s -> script (hw s) = pair_bytes bits ++ pair_bytes sums ++ l ->
  yields (isolate_one poll_interruptions fuel) (fun r s' => r = negb (isapnp_checksum serial =? 0) && (isapnp_checksum serial =? sum) /\ asks s s' l) s.
Proof.
  intros Ls Hs Eb Es Pa Sc. unfold isolate_one.
  assert (Lb : length bits = 64%nat).
  { rewrite <- (length_map pair_bit), Eb. do 9 (destruct serial as [|? serial]; [try discriminate|]); [reflexivity|discriminate]. }
  assert (L8 : length sums = 8%nat) by (rewrite <- (length_map pair_bit), Es; reflexivity).
  apply yields_bind. rewrite <- Lb. eapply yields_weak; [exact (read_serial_asks bits _ _ s Pa Sc)|]. intros ? s1 (-> & A1).
  apply yields_bind. rewrite <- L8. eapply yields_weak; [exact (read_chksum_asks sums _ _ l s1 (patient_asks _ _ _ Pa A1) (proj1 (proj2 A1)))|]. intros ? s2 (-> & A2).
  apply yields_ret. rewrite Eb, Es, or_byte_bits, isapnp_checksum_bits by exact Hs. rewrite (firstn_all2 serial) by lia.
  split; [reflexivity|exact (asks_then _ _ _ _ _ A1 A2)].
Qed.
End isolation.

(** A read port that gives a list of bytes. *)
Section demo.
#[local] Instance pnp_bus : Bus (list Z) := {
  bus_in w port x := if port =? PPC_PORTB then (0x20, x) else match snd x with c :: l => (c, (fst x, l)) | [] => (0xff, x) end;
  bus_out w port v x := x;
  bus_ticks x := (4294967295, x);
}.
#[local] Instance pnp_answers : Answers 0x213 (list Z).
Proof.
  refine {| script h := h; left_clock _ _ := O; left_timer _ := O; max_timer := O |}.
  - lia.
  - intros h. apply Nat.le_refl.
  - intros [m h] c l Hs. cbn [snd] in Hs. subst h. repeat split; auto.
  - intros x. cbn. split; [repeat split; auto|]. split; [auto|discriminate].
  - intros x v port. repeat split; auto.
  - intros x. cbn. split; [repeat split; auto|]. intros t Ht. lia.
Defined.
Definition demo_serial : list Z := [0x50; 0x6d; 0x50; 0x51; 1; 2; 3; 4].
Definition as_pairs (l : list Z) : list (Z * Z) := map (fun b => if b =? 1 then (0x55, 0xaa) else (0xff, 0xff)) l.
Lemma isolate_one_checks_witness : exists s',
  isolate_one (iret tt) 1 ({| read_port := 0x213; pnp_card_csn := 0; isapnp_checksum_value := 0 |},
    (fun _ => 0, pair_bytes (as_pairs (flat_map byte_bits demo_serial)) ++ pair_bytes (as_pairs (byte_bits (isapnp_checksum demo_serial))) ++ [9])) = Some (true, s') /\ snd (snd s') = [9].
Proof.
  assert (Poll : forall s : pnp * (mem * list Z), yields (iret tt) (fun _ s' => asks 0x213 s s' (script (hw s)) /\ (left_timer (hw s') <= left_timer (hw s))%nat) s)
    by (intros s; apply yields_ret; split; [apply asks_refl|apply Nat.le_refl]).
  set (s := (_, _)).
  pose proof (isolate_one_checks 0x213 (iret tt) 1 Poll Nat.lt_0_1 demo_serial (isapnp_checksum demo_serial) (as_pairs (flat_map byte_bits demo_serial))
    (as_pairs (byte_bits (isapnp_checksum demo_serial))) [9] s eq_refl ltac:(vm_compute; split; congruence) eq_refl eq_refl (conj eq_refl (fun _ => Nat.lt_0_1)) eq_refl) as Y.
  unfold yields in Y. destruct (isolate_one _ _ _) as [[r s']|]; [|destruct Y]. exists s'. destruct Y as (-> & _ & E & _). split; [reflexivity|exact E].
Defined.
End demo.
